(* ===== verification/_CoqProject ===== *)
-Q . S2P
Prelude.v
CString.v
LlConf.v
JobScript.v
LlHash.v
LlHeap.v
Dependency.v
LogFormat.v
MbdTypes.v
MbdBase.v
MbdJob.v
MbdSched.v
MbdEvents.v
MbdNet.v
MbdInv.v
MbdFrame.v
MbdCheck.v
MbdSafe.v
MbdDurable.v
MbdReplay.v
MbdControl.v
MbdSubmit.v
MbdPlan.v
MbdSchedSafe.v
MbdTokens.v
MbdStatic.v
MbdLogged.v
MbdLoggedSched.v
MbdLoggedSubmit.v
MbdRebuild.v
MbdCompact.v
MbdRun.v
MbdLive.v
MbdProgress.v
MbdRestart.v
MbdDemo.v
LlList.v
MbdProps.v
MbdRestartProps.v
MbdFindings.v
Conf.v
ConfProps.v
History.v
SbdTypes.v
Wire.v
WireXdr.v
WireProps.v
Auth.v
MbdMain.v
Channel.v
MbdInfo.v
Arrival.v
MbdReply.v
Client.v
ClientProps.v
JobFiles.v
Command.v
Bsub.v
Bjobs.v
Bkill.v
Bhosts.v
Bgroups.v
Bhist.v
CommandProps.v
SbdStore.v
SbdState.v
SbdJob.v
SbdMain.v
SbdChild.v
SbdInv.v
SbdSafe.v
SbdLife.v
SbdRestart.v
SbdRun.v
SbdDaemon.v
SbdSend.v
SbdProps.v
SbdFindings.v
System.v
