(* ===== verification/Prelude.v ===== *)
(** * LavaLite: a verification development

    LavaLite is a batch scheduler.  One daemon, mbd (src/src/batch/mbd), keeps the
    jobs, the queues, the hosts and the token pools of a cluster, takes requests
    from clients, schedules pending jobs every few seconds and writes every change
    to an event log.  An execution daemon, sbd (src/src/batch/sbd), runs on every
    host, starts the jobs it is sent and reports back.  Both stand on a small
    library of containers, strings, channels and conversions (src/src/base/lib)
    and share the wire structs, the log format and the dependency language
    (src/src/batch/lib).  Users reach mbd through command-line programs
    (src/src/batch/cmd) built on a client library; bhist alone reads the files of mbd
    itself.

    ** Layout

    The shared library (src/src/base/lib):
    - [Prelude]: record update, the outcome type [res] of a C function with its
      bind notation and the weakest-precondition style [wp] used by the proofs,
      machine-width casts, sums over lists and finite maps, the shared tactics
      and hint databases.
    - [CString]: C strings and the libc calls the code makes on them (strtol,
      sscanf, strtok_r, fgets, printf of integers), [ll_strlcpy], [ll_strlcat],
      [ll_atoi], [ll_atoll] (ll.sys.c); [LlConf]: the reader of configuration files
      (ll.conf.c).
    - [LlHash]: the chained hash table with prime sizes (ll.hash.c); [LlList]: the
      intrusive list in a memory of cells (ll.list.c); [LlHeap]: the intrusive heap,
      the stack and the bit set (ll.heap.c, ll.stack.c, ll.bitset.c).
    - [Channel]: the channel table, the framing of messages and non-blocking reads
      and writes (ll.channel.c); [Auth]: signed headers (auth.c).

    The shared formats (src/src/batch/lib):
    - [Dependency]: the parser and the stack evaluator of job dependency
      conditions (dependency.c); [LogFormat]: writers and parsers of the event log
      (log.c); [JobScript]: the script made from a command and an environment
      (jobscript.c); [History]: the histories read from the logs (history.c).
    - [Wire]: the XDR functions of all messages against an interface of the XDR
      library, [WireXdr]: one implementation of it, [WireProps]: the round trips
      (wire.c, ll.protocol.c).
    - [Client]: the client library (rpc.c, api.c, submit.c), with its own monad, the
      [client] state of its statics and the errno of a failed call.

    The daemon mbd (src/src/batch/mbd):
    - [MbdTypes]: the structs of mbd.h, wire.h and llbatch.h as records, the
      state [mbd] of the daemon (its global variables) and the environment [env]
      of a handler (clock, allocator, signing, output queues, files).
    - [MbdBase]: helpers shared by the handlers: event writers (events.c),
      job lists, host and token accounting, dependency checks, GPU device flags and the
      counter cross check [mbd_assert_counters] (job.c, sched.c).
    - [MbdJob]: submission, replies and reports of execution daemons, signals,
      moves and priorities (job.c, sbd.c).
    - [MbdSched]: the scheduling cycle (sched.c) and the dispatch of a job
      (sbd.c).  [qsort] is the interface [QSort].
    - [MbdEvents]: the replay of the event log at start, the rebuild of all that is
      not logged and the compaction of the log (events.c).
    - [MbdNet]: registration and loss of execution daemons, administration, the
      state files, and the routing of decoded messages (sbd.c, admin.c, net.c).
    - [MbdInfo]: the information requests and their buffers (dispatch.c);
      [Arrival]: requests as bytes, from the header to the bytes of the reply (net.c).
    - [JobFiles]: the script, the sidecar and the usage file of a job (job.c, sbd.c).
    - [Conf], [ConfProps]: the configuration files and the daemon they start (conf.c).
    - [MbdMain]: the options, the start and the main loop of the process (mbd.c,
      net.c, the start parts of events.c and job.c).
    - [MbdInv]: the accounting invariant [inv]; [MbdFrame], [MbdCheck],
      [MbdSafe], [MbdControl], [MbdSubmit], [MbdPlan], [MbdSchedSafe],
      [MbdTokens], [MbdRun]: the lemmas that every operation keeps it, by part.
    - [MbdStatic]: what no handler changes (the fixed part of a job, the queue and
      host tables); [MbdLive]: dispatch and the scheduling cycle return;
      [MbdProgress]: the states and inputs from which every handler returns, and
      runs of the daemon; [MbdReply]: what a control request answers.
    - [MbdDurable]: the durable part of a job and the meaning of an event;
      [MbdReplay]: the replay computes that meaning; [MbdLogged],
      [MbdLoggedSched], [MbdLoggedSubmit]: every handler logs what it does;
      [MbdRebuild]: the counters after a replay; [MbdCompact]: compaction;
      [MbdRestart]: lives of the daemon with crashes and restarts.
    - [MbdDemo]: a small cluster and a run on it; [MbdProps], [MbdRestartProps]:
      the properties of mbd with their instances on that run; [MbdFindings]: inputs on
      which the code departs from its intention.

    The execution daemon sbd (src/src/batch/sbd):
    - [SbdTypes]: the job record, the state [sbd], the system calls as data and the
      state monad of the handlers; [SbdStore], [SbdState]: state files, exit files,
      pruning and directories (slog.c); [SbdJob]: control groups, the link to mbd, the
      start, the reports and the signals of a job (scgroup.c, sjob.c, snet.c);
      [SbdMain]: the periodic work, the routing and the recovery (smain.c, snet.c);
      [SbdChild]: the child up to its exec (sjob.c); [SbdDaemon]: the options, the
      start and the main loop of the process (smain.c).
    - [SbdInv], [SbdSafe], [SbdLife], [SbdRestart], [SbdRun], [SbdSend]: the invariant
      between memory and disk, that every handler and every restart keeps it, and what
      is sent; [SbdProps]: the properties with a small run; [SbdFindings]: runs the
      code does not intend.

    The programs and the whole:
    - [Command]: what the command-line programs share, a monad of outputs, client
      calls and exit status over the answers of getopt_long; [Bsub], [Bjobs],
      [Bkill] (bkill, bmove, bpriority), [Bhosts] (bhosts, bqueues), [Bgroups]
      (bgroups, btokens, bmetric), [Bhist] (src/src/batch/cmd); [CommandProps].
    - [ClientProps]: a call of the library, the bytes on the wire, the handler in mbd
      and the value of the call; [System]: mbd and an execution daemon over a link
      that loses messages.

    ** Conventions

    A pointer to a job is its id, a pointer to a host, queue or pool its position
    in the list of the configuration; NULL is [None].  The global tables keyed by
    name are finite maps; that the C hash table refines a finite map is proved in
    [LlHash].  A failing assert, a NULL dereference, an index out of range, a list
    operation on an entry that is not there and a call of mbd_die are values of
    [crash]; the theorems that say a handler returns say that it returns [Ok].
    Unsigned 64-bit sizes wrap ([u64]), values cut to int wrap ([i32]); the int
    counters of hosts and queues are integers without a bound, and the invariant
    keeps the CPU counts between zero and the host's total.  Loops without a structural bound
    take fuel that is computed from the data (the length of the text, the size of
    the job table, the range of the array); the theorems show it is enough.  A call that
    can fail and is not fatal is an [attempt] ([let?]); the handlers of sbd, the client
    library and the programs have state monads of their own ([let!], [run!]).  Code that
    is not in the repository is an interface or an argument: the XDR library, HMAC-SHA256,
    qsort, getaddrinfo, getgrnam, getopt_long, the time functions and atof.

    ** What the theorems show

    - The table, the prime search and the iterator of [LlHash] refine a finite map
      on every branch, allocation failures included.
    - The dependency parser returns on every text and yields the postfix of an
      expression; the evaluator computes its meaning when the expression fits the stack.
    - Every event of the log is read back as it was written.
    - From any state that satisfies [inv], every interleaving of messages and
      timers keeps it: lists, queue counters and host counters agree with the job
      table, no host is overcommitted, finished jobs stay as they are.  Each
      handler is shown to return and to do what it is for.
    - The process of mbd never aborts: along any life on one configuration (a start, events
      of the main loop, the compactions they bring, crashes and full restarts) the books
      are right and the log means the job table, further expected events are handled to
      their end, and a restart succeeds with every job ([mbd_process_lives]).  Expected
      events are submissions with sane counts, no GPUs and a condition that fits the
      evaluation stack, and reports of execution daemons about jobs they were sent.
    - The planner is sound, best-fit and complete; the pending list is ordered;
      only ready jobs start; tokens are conserved.
    - A crash loses no job: at any point of any life of the daemon the log means the
      durable part of the job table, and a new process that replays it is in a good
      state with the same jobs ([log_tells_table], [crash_recovery]).  The durable
      part is all of a job record but whether a started job is suspended, why a
      pending job waits, the derived counts, the token request, the last signal and
      the assigned GPUs.  The theorems ask that the texts of a submission fit the
      log's fields, that the lines fit the reader's buffer, and that no job asks for
      GPUs; the findings say what happens otherwise.
    - A compaction drops exactly the finished jobs nothing refers to, and the new
      log means the table that remains ([compaction_keeps_needed]).
    - Closed queues survive a restart; channels and hosts agree.
    - The list, the heap and the bit set refine sequences, priority queues and sets of
      numbers; a channel delivers every message whole, once and in order, however the
      kernel splits reads and writes; a signed header cannot be altered short of a digest
      collision; every message and every state file is read back as it was written.
    - Along any life of the execution daemon memory and disk hold the same jobs; a process
      of it never fails an assertion and a restart knows the jobs of the process before
      ([sbd_life_invariant], [sbd_process_safe]); a job is started once, its child drops
      its privileges before it touches a path of the user, and the end of a job reaches
      mbd however many reports are lost ([job_end_reaches_mbd]).
    - From the command line to the tables of mbd and back to the terminal: bsub registers
      the job that was asked for or nothing ([bsub_carried_out]), bjobs prints exactly the
      jobs asked for that the user may see ([bjobs_shows]), the control commands do what
      their arguments say ([command_carried_out]), bhist shows nobody the jobs of others
      ([bhist_private]); the script a shell reads back holds the variables and the command
      of the user; the files of a job round trip but for its mask, written in octal and
      read in decimal ([job_files_roundtrip]).
    - An accepted configuration fills every table right and starts the daemon well.

    ** What is not modelled

    What the kernel answers is data: sockets, epoll, directories, control groups, name
    resolution.  The script and sidecar files are modelled in [JobFiles], while [env]
    gives the handlers of mbd only the errno of writing them.  Memory is not tracked, so
    leaks and double frees are outside the model, and so are the functions that only free
    (job_free, the llb_free functions, ll_hash_free, ll_heap_free); that a submission frees
    what it prepared is not stated.  The closing of a client channel by mbd, the inode
    check of the event log (open_manifest), the closing of descriptors in a child
    (reset_except_fd), the system log (ll.syslog.c), datagram channels, the dump of the
    configuration and the conversions of ll.host.c and ll.sys.c that nothing here calls are
    left out: they are input and output, or do not touch what the theorems speak of.  The
    steps of [lifetime] do not include the compaction, those of [mbd_life] do, as long as
    the log can carry every job at that point: a job replayed once has lost the text of its
    machine list, which a compaction writes.  A crash inside a compaction loses the log,
    which the findings say. *)

From Stdlib Require Export ZArith Lia String Ascii List.
From stdpp Require Export base tactics numbers list gmap strings sorting.

#[export] Set Default Proof Using "Type".
Global Open Scope Z_scope.
Global Arguments String.append !_ _ / : simpl nomatch.

(** ** Record update

    [r <| f := v |>] is the C assignment [r.f = v]; [r <| f ::= g |>] is the
    read-modify-write [r.f = g (r.f)]. *)

Class Setter {R T : Type} (proj : R -> T) : Type := upd : (T -> T) -> R -> R.

Arguments upd {R T} proj {_} f r /.

Declare Scope lava_scope.
Delimit Scope lava_scope with lava.
Global Open Scope lava_scope.

Notation "r <| p ::= f |>" := (upd p f r)
  (at level 1, left associativity, p at level 9) : lava_scope.
Notation "r <| p := v |>" := (upd p (fun _ => v) r)
  (at level 1, left associativity, p at level 9) : lava_scope.

(** [setter eta] builds the setter of the projection of the goal from the
    eta expansion [eta] of its record. *)
Ltac setter eta :=
  match goal with
  | |- @Setter ?R ?T ?p =>
      let body := eval unfold eta in eta in
      let pat := eval pattern p in body in
      match pat with
      | ?f _ =>
          let t := constr:(fun (g : T -> T) (r : R) => f (fun r => g (p r)) r) in
          let t' := eval cbv beta in t in
          exact t'
      end
  end.

(** ** Outcomes

    A C function either returns or ends the daemon: an [assert] that fails, a
    NULL dereference, [abort], [mbd_die]. *)
Inductive crash : Type :=
  | AssertFailed
  | NullDeref
  | BadIndex
  | ListCorrupt
  | Fatal
  | OutOfFuel.

Inductive res (A : Type) : Type :=
  | Ok (a : A)
  | Crash (c : crash).
Arguments Ok {A} a.
Arguments Crash {A} c.

#[export] Instance crash_eq_dec : EqDecision crash.
Proof. solve_decision. Defined.

Definition res_bind {A B} (m : res A) (k : A -> res B) : res B :=
  match m with Ok a => k a | Crash c => Crash c end.

Notation "'let*' x ':=' m 'in' k" := (res_bind m (fun x => k))
  (at level 10, x pattern, m at level 100, k at level 200,
   format "'let*'  x  ':='  m  'in' '//' k") : lava_scope.

Definition guard_or (b : bool) (c : crash) : res unit :=
  if b then Ok tt else Crash c.

(** [assert(b)]: compiled in (the build never defines NDEBUG). *)
Definition c_assert (b : bool) : res unit := guard_or b AssertFailed.

(** Dereference of a possibly NULL pointer. *)
Definition deref {A} (o : option A) : res A :=
  match o with Some a => Ok a | None => Crash NullDeref end.

Definition nth_res {A} (l : list A) (i : nat) : res A :=
  match l !! i with Some a => Ok a | None => Crash BadIndex end.

(** A call that can fail returns a value, or -1 ([None]), or ends the program. *)
Definition attempt (A : Type) : Type := res (option A).

Definition pbind {A B} (m : attempt A) (k : A -> attempt B) : attempt B :=
  let* o := m in match o with Some a => k a | None => Ok None end.

Notation "'let?' x ':=' m 'in' k" := (pbind m (fun x => k))
  (at level 10, x pattern, m at level 100, k at level 200) : lava_scope.

Definition pfail {A} : attempt A := Ok None.
Definition pret {A} (a : A) : attempt A := Ok (Some a).

Fixpoint res_fold {A B} (f : B -> A -> res B) (l : list A) (b : B) : res B :=
  match l with
  | [] => Ok b
  | x :: l' => let* b' := f b x in res_fold f l' b'
  end.

(** ** Loops

    [loop k step s] runs a [while] loop for at most [2 ^ k] rounds: [inl s'] is
    the state of a loop that is still running, [inr r] the value it left with.
    The fuel is binary, so a loop over a 64-bit counter has enough of it. *)
Fixpoint loop {S R : Type} (k : nat) (step : S -> S + R) (s : S) : S + R :=
  match k with
  | O => step s
  | Datatypes.S k' =>
      match loop k' step s with
      | inl s' => loop k' step s'
      | inr r => inr r
      end
  end.

(** The value of a loop; a loop that is still running has no value. *)
Definition run_loop {S R : Type} (k : nat) (step : S -> S + R) (s : S) : res R :=
  match loop k step s with
  | inr r => Ok r
  | inl _ => Crash OutOfFuel
  end.

(** ** Machine integers *)

Definition u8 (z : Z) : Z := z mod 2 ^ 8.
Definition u32 (z : Z) : Z := z mod 2 ^ 32.
Definition u64 (z : Z) : Z := z mod 2 ^ 64.
Definition i32 (z : Z) : Z := (z + 2 ^ 31) mod 2 ^ 32 - 2 ^ 31.
Definition i64 (z : Z) : Z := (z + 2 ^ 63) mod 2 ^ 64 - 2 ^ 63.

Definition is_i32 (z : Z) : bool := (- 2 ^ 31 <=? z) && (z <? 2 ^ 31).
Definition is_i64 (z : Z) : bool := (- 2 ^ 63 <=? z) && (z <? 2 ^ 63).
Definition is_u32 (z : Z) : bool := (0 <=? z) && (z <? 2 ^ 32).
Definition is_u64 (z : Z) : bool := (0 <=? z) && (z <? 2 ^ 64).

(** ** Sums *)

Definition b2z (b : bool) : Z := if b then 1 else 0.

Fixpoint sumZ {A} (f : A -> Z) (l : list A) : Z :=
  match l with [] => 0 | x :: l' => f x + sumZ f l' end.

Definition mapsum {K A} `{Countable K} (f : A -> Z) (m : gmap K A) : Z :=
  map_fold (fun _ x acc => f x + acc) 0 m.

(** ** Tactics *)

Create HintDb lava discriminated.
#[export] Hint Constants Opaque : lava.
#[export] Hint Variables Opaque : lava.

(** Turn boolean tests in the context and the goal into propositions. *)
Ltac b2p :=
  repeat first
    [ rewrite andb_true_iff in * | rewrite orb_true_iff in *
    | rewrite andb_false_iff in * | rewrite orb_false_iff in *
    | rewrite negb_true_iff in * | rewrite negb_false_iff in *
    | rewrite bool_decide_eq_true in * | rewrite bool_decide_eq_false in *
    | rewrite Z.eqb_eq in * | rewrite Z.eqb_neq in *
    | rewrite Z.ltb_lt in * | rewrite Z.ltb_ge in *
    | rewrite Z.leb_le in * | rewrite Z.leb_gt in *
    | rewrite Nat.eqb_eq in * | rewrite Nat.eqb_neq in *
    | rewrite Nat.ltb_lt in * | rewrite Nat.ltb_ge in *
    | rewrite Nat.leb_le in * | rewrite Nat.leb_gt in *
    | rewrite String.eqb_eq in * | rewrite String.eqb_neq in *
    | progress simplify_eq ].

(** Evaluate the decidable equalities between constants. *)
Ltac eval_decide :=
  repeat match goal with
  | |- context [@bool_decide ?P ?d] =>
      let v := eval vm_compute in (@bool_decide P d) in
      first [constr_eq v true | constr_eq v false];
      change (@bool_decide P d) with v
  | H : context [@bool_decide ?P ?d] |- _ =>
      let v := eval vm_compute in (@bool_decide P d) in
      first [constr_eq v true | constr_eq v false];
      change (@bool_decide P d) with v in H
  end; cbn [andb orb negb] in *.

(** ** Lemmas: outcomes *)

Lemma res_bind_Ok {A B} (m : res A) (k : A -> res B) b :
  res_bind m k = Ok b -> exists a, m = Ok a /\ k a = Ok b.
Proof. destruct m; cbn; [eauto | done]. Qed.

Lemma c_assert_Ok b u : c_assert b = Ok u -> b = true.
Proof. by destruct b. Qed.

Lemma deref_Ok {A} (o : option A) a : deref o = Ok a -> o = Some a.
Proof. destruct o; cbn; congruence. Qed.

Lemma nth_res_Ok {A} (l : list A) i a : nth_res l i = Ok a -> l !! i = Some a.
Proof. unfold nth_res. destruct (l !! i); congruence. Qed.

Lemma guard_or_Ok b c u : guard_or b c = Ok u -> b = true.
Proof. by destruct b. Qed.

(** Invert every monadic step of the hypotheses. *)
Ltac inv_res :=
  repeat match goal with
  | H : res_bind _ _ = Ok _ |- _ =>
      let a := fresh "r" in let H1 := fresh "Hr" in
      apply res_bind_Ok in H as (a & H1 & H)
  | H : Ok _ = Ok _ |- _ => injection H as H; subst
  | H : Ok _ = Crash _ |- _ => discriminate H
  | H : Crash _ = Ok _ |- _ => discriminate H
  | H : c_assert _ = Ok _ |- _ => apply c_assert_Ok in H
  | H : guard_or _ _ = Ok _ |- _ => apply guard_or_Ok in H
  | H : deref _ = Ok _ |- _ => apply deref_Ok in H
  | H : nth_res _ _ = Ok _ |- _ => apply nth_res_Ok in H
  end.

Lemma pbind_Some {A B} (m : attempt A) (k : A -> attempt B) b :
  pbind m k = Ok (Some b) -> exists a, m = Ok (Some a) /\ k a = Ok (Some b).
Proof. unfold pbind. destruct m as [[a|]|]; cbn; [eauto|done..]. Qed.

(** Rule for an invariant of a fallible loop. *)
Lemma res_fold_inv {A B} (f : B -> A -> res B) (P : B -> Prop) l b b' :
  P b ->
  (forall c x c', x ∈ l -> P c -> f c x = Ok c' -> P c') ->
  res_fold f l b = Ok b' -> P b'.
Proof.
  revert b. induction l as [|x l IH]; intros b Hb Hstep Hf; cbn in Hf.
  - by inv_res.
  - inv_res. eapply (IH r); [| |done].
    + eapply Hstep; [|exact Hb|exact Hr]. left.
    + intros. eapply Hstep; eauto. by right.
Qed.

(** A loop whose body keeps [P] and cannot crash under [P] does not crash. *)
Lemma res_fold_total {A B} (f : B -> A -> res B) (P : B -> Prop) l b :
  P b ->
  (forall c x, x ∈ l -> P c -> exists c', f c x = Ok c' /\ P c') ->
  exists b', res_fold f l b = Ok b' /\ P b'.
Proof.
  revert b. induction l as [|x l IH]; intros b Hb Hstep; cbn.
  - eauto.
  - destruct (Hstep b x) as (c & -> & Hc); [left|done|]. cbn.
    apply IH; [done|]. intros. apply Hstep; [by right|done].
Qed.

Lemma res_fold_app {A B} (f : B -> A -> res B) l1 l2 b :
  res_fold f (l1 ++ l2) b = res_bind (res_fold f l1 b) (res_fold f l2).
Proof.
  revert b. induction l1 as [|x l1 IH]; intros b; cbn; [done|].
  destruct (f b x); cbn; [apply IH|done].
Qed.

(** ** Total correctness of a fallible step

    [wp r Q E]: the step [r] returns with a result that satisfies [Q], or it ends
    the daemon and [E] holds.  [E := False] is total correctness. *)
Definition wp {A} (r : res A) (Q : A -> Prop) (E : Prop) : Prop :=
  match r with Ok a => Q a | Crash _ => E end.

Lemma wp_bind {A B} (m : res A) (k : A -> res B) Q E :
  wp m (fun a => wp (k a) Q E) E -> wp (res_bind m k) Q E.
Proof. by destruct m. Qed.

Lemma wp_mono {A} (r : res A) (Q Q' : A -> Prop) (E E' : Prop) :
  wp r Q E -> (forall a, Q a -> Q' a) -> (E -> E') -> wp r Q' E'.
Proof. destruct r; cbn; auto. Qed.

Lemma wp_and {A} (m : res A) Q1 Q2 E1 E2 : wp m Q1 E1 -> wp m Q2 E2 -> wp m (fun a => Q1 a /\ Q2 a) (E1 /\ E2).
Proof. by destruct m; cbn. Qed.

Lemma wp_total {A} (r : res A) Q : wp r Q False -> exists a, r = Ok a /\ Q a.
Proof. destruct r; cbn; [eauto|done]. Qed.

Lemma wp_Ok {A} (r : res A) Q E a : wp r Q E -> r = Ok a -> Q a.
Proof. by intros H ->. Qed.

Lemma wp_assert {B} b (k : unit -> res B) Q E :
  b = true -> wp (k tt) Q E -> wp (res_bind (c_assert b) k) Q E.
Proof. by intros ->. Qed.

Lemma wp_fold {A B} (f : B -> A -> res B) (P : list A -> B -> Prop) l b Q E :
  P l b ->
  (forall x r c, P (x :: r) c -> wp (f c x) (P r) E) ->
  (forall c, P [] c -> Q c) ->
  wp (res_fold f l b) Q E.
Proof.
  intros Hb Hf HQ. revert b Hb. induction l as [|x l IH]; intros b Hb; cbn; [by apply HQ|].
  apply wp_bind. eapply wp_mono; [apply Hf, Hb|exact IH|done].
Qed.

(** ** Lemmas: loops *)

Section loops.
Context {S R : Type} (step : S -> S + R) (I : S -> Prop) (Q : R -> Prop).

(** Partial correctness: an invariant of the body is one of the loop. *)
Lemma loop_inv k s :
  (forall s, I s -> match step s with inl s' => I s' | inr r => Q r end) ->
  I s -> match loop k step s with inl s' => I s' | inr r => Q r end.
Proof.
  intros Hstep. revert s. induction k as [|k IH]; intros s Hs; cbn; [by apply Hstep|].
  pose proof (IH s Hs) as IH1. destruct (loop k step s); [by apply IH|done].
Qed.

(** A measure that drops in every round bounds the rounds. *)
Lemma loop_measure (mu : S -> Z) k s :
  (forall s, I s ->
     match step s with inl s' => I s' /\ 0 <= mu s' < mu s | inr r => Q r end) ->
  I s ->
  match loop k step s with
  | inl s' => I s' /\ 0 <= mu s' <= mu s - 2 ^ Z.of_nat k
  | inr r => Q r
  end.
Proof.
  intros Hstep. revert s. induction k as [|k IH]; intros s Hs; cbn [loop].
  - specialize (Hstep s Hs). destruct (step s); [|done]. cbn. split; [tauto|lia].
  - pose proof (IH s Hs) as IH1. destruct (loop k step s) as [s1|]; [|done].
    destruct IH1 as [HI1 Hmu1]. specialize (IH s1 HI1).
    destruct (loop k step s1); [|done]. split; [tauto|].
    rewrite Nat2Z.inj_succ, Z.pow_succ_r by lia. lia.
Qed.

(** Total correctness. *)
Lemma run_loop_total (mu : S -> Z) k s :
  (forall s, I s ->
     match step s with inl s' => I s' /\ 0 <= mu s' < mu s | inr r => Q r end) ->
  I s -> mu s < 2 ^ Z.of_nat k ->
  exists r, run_loop k step s = Ok r /\ Q r.
Proof.
  intros Hstep Hs Hmu. pose proof (loop_measure mu k s Hstep Hs) as H.
  unfold run_loop. destruct (loop k step s); [lia|eauto].
Qed.
End loops.

(** ** Lemmas: machine integers *)

Lemma u64_small z : 0 <= z < 2 ^ 64 -> u64 z = z.
Proof. apply Z.mod_small. Qed.

Lemma u64_range z : 0 <= u64 z < 2 ^ 64.
Proof. apply Z.mod_pos_bound. lia. Qed.

Lemma u32_small z : 0 <= z < 2 ^ 32 -> u32 z = z.
Proof. apply Z.mod_small. Qed.

Lemma u32_range z : 0 <= u32 z < 2 ^ 32.
Proof. apply Z.mod_pos_bound. lia. Qed.

Lemma i32_small z : - 2 ^ 31 <= z < 2 ^ 31 -> i32 z = z.
Proof. unfold i32. intros. rewrite Z.mod_small; lia. Qed.

Lemma u64_sub a b : u64 (u64 a - b) = u64 (a - b).
Proof. unfold u64. by rewrite Zminus_mod_idemp_l. Qed.

Lemma u64_sub_add a b : u64 (u64 (a - b) + b) = u64 a.
Proof. unfold u64. rewrite Zplus_mod_idemp_l. f_equal. lia. Qed.

(** ** Lemmas: sums *)

Lemma b2z_range b : 0 <= b2z b <= 1.
Proof. destruct b; cbn; lia. Qed.

Lemma sumZ_app {A} (f : A -> Z) l1 l2 : sumZ f (l1 ++ l2) = sumZ f l1 + sumZ f l2.
Proof. induction l1; cbn; lia. Qed.

Lemma sumZ_perm {A} (f : A -> Z) l1 l2 : l1 ≡ₚ l2 -> sumZ f l1 = sumZ f l2.
Proof. induction 1; cbn; lia. Qed.

Lemma sumZ_ext {A} (f g : A -> Z) l :
  (forall x, x ∈ l -> f x = g x) -> sumZ f l = sumZ g l.
Proof.
  induction l as [|x l IH]; intros Hfg; cbn; [done|].
  rewrite (Hfg x) by left. rewrite IH; [done|]. intros. apply Hfg. by right.
Qed.

Lemma sumZ_nonneg {A} (f : A -> Z) l :
  (forall x, x ∈ l -> 0 <= f x) -> 0 <= sumZ f l.
Proof.
  induction l as [|x l IH]; intros Hf; cbn; [done|].
  pose proof (Hf x ltac:(left)). enough (0 <= sumZ f l) by lia. apply IH.
  intros. apply Hf. by right.
Qed.

Lemma sumZ_elem_le {A} (f : A -> Z) l x :
  (forall y, y ∈ l -> 0 <= f y) -> x ∈ l -> f x <= sumZ f l.
Proof.
  intros Hf [l1 [l2 ->]]%list_elem_of_split.
  rewrite sumZ_app. cbn.
  pose proof (sumZ_nonneg f l1 ltac:(intros; apply Hf; set_solver)).
  pose proof (sumZ_nonneg f l2 ltac:(intros; apply Hf; set_solver)). lia.
Qed.

Section mapsum.
Context {K A : Type} `{Countable K}.
Implicit Types (f g : A -> Z) (m : gmap K A).

Lemma mapsum_empty f : mapsum f (∅ : gmap K A) = 0.
Proof. apply map_fold_empty. Qed.

Lemma mapsum_insert_new f m i x :
  m !! i = None -> mapsum f (<[i := x]> m) = f x + mapsum f m.
Proof.
  intros Hi. unfold mapsum. rewrite map_fold_insert_L; [done| |done].
  intros. lia.
Qed.

Lemma mapsum_delete f m i x :
  m !! i = Some x -> mapsum f m = f x + mapsum f (delete i m).
Proof.
  intros Hi. rewrite <- (insert_delete_id m i x Hi) at 1.
  apply mapsum_insert_new, lookup_delete_eq.
Qed.

(** Replacing one entry changes the sum by the difference of its terms. *)
Lemma mapsum_update f m i x y :
  m !! i = Some x -> mapsum f (<[i := y]> m) = mapsum f m - f x + f y.
Proof.
  intros Hi. rewrite <- insert_delete_eq.
  rewrite mapsum_insert_new by apply lookup_delete_eq.
  rewrite (mapsum_delete f m i x Hi). lia.
Qed.

Lemma mapsum_ext f g m :
  (forall i x, m !! i = Some x -> f x = g x) -> mapsum f m = mapsum g m.
Proof.
  induction m as [|i x m Hi IH] using map_ind; intros Hfg.
  - by rewrite !mapsum_empty.
  - rewrite !mapsum_insert_new by done.
    rewrite (Hfg i x) by apply lookup_insert_eq. rewrite IH; [done|].
    intros j y Hj. apply (Hfg j). rewrite lookup_insert_ne; [done|congruence].
Qed.

Lemma mapsum_nonneg f m :
  (forall i x, m !! i = Some x -> 0 <= f x) -> 0 <= mapsum f m.
Proof.
  induction m as [|i x m Hi IH] using map_ind; intros Hf.
  - by rewrite mapsum_empty.
  - rewrite mapsum_insert_new by done.
    pose proof (Hf i x (lookup_insert_eq _ _ _)). enough (0 <= mapsum f m) by lia. apply IH.
    intros j y Hj. apply (Hf j). rewrite lookup_insert_ne; [done|congruence].
Qed.

Lemma mapsum_elem_le f m i x :
  (forall j y, m !! j = Some y -> 0 <= f y) -> m !! i = Some x ->
  f x <= mapsum f m.
Proof.
  intros Hf Hi. rewrite (mapsum_delete f m i x Hi).
  enough (0 <= mapsum f (delete i m)) by lia. apply mapsum_nonneg.
  intros j y [_ Hj]%lookup_delete_Some. by eapply Hf.
Qed.

Lemma mapsum_zero f m :
  (forall i x, m !! i = Some x -> f x = 0) -> mapsum f m = 0.
Proof.
  intros Hf. rewrite (mapsum_ext f (fun _ => 0)) by done. clear Hf.
  induction m as [|i x m Hi IH] using map_ind; [by rewrite mapsum_empty|].
  rewrite mapsum_insert_new by done. lia.
Qed.

Lemma mapsum_add f g m :
  mapsum (fun x => f x + g x) m = mapsum f m + mapsum g m.
Proof.
  induction m as [|i x m Hi IH] using map_ind; [by rewrite !mapsum_empty|].
  rewrite !mapsum_insert_new by done. lia.
Qed.

(** The sum over a map is the sum over its list of values. *)
Lemma mapsum_to_list f m : mapsum f m = sumZ (fun p => f p.2) (map_to_list m).
Proof.
  induction m as [|i x m Hi IH] using map_ind.
  - by rewrite mapsum_empty, map_to_list_empty.
  - rewrite mapsum_insert_new by done.
    rewrite (sumZ_perm _ _ _ (map_to_list_insert m i x Hi)). cbn. lia.
Qed.
End mapsum.

Lemma mapsum_fmap {K A B} `{Countable K} (f : B -> Z) (g : A -> B) (m : gmap K A) :
  mapsum f (g <$> m) = mapsum (fun x => f (g x)) m.
Proof.
  induction m as [|i x m Hi IH] using map_ind; [by rewrite fmap_empty, !mapsum_empty|].
  rewrite fmap_insert, !mapsum_insert_new; [by rewrite IH|done|by rewrite lookup_fmap, Hi].
Qed.

(** ** Lemmas: lists *)

Lemma list_alter_insert {A} (f : A -> A) (l : list A) i x :
  l !! i = Some x -> alter f i l = <[i := f x]> l.
Proof.
  intros Hi. apply list_eq. intros j. destruct (decide (j = i)) as [->|].
  - rewrite list_lookup_alter_eq, list_lookup_insert_eq, Hi; [done|].
    by eapply lookup_lt_Some.
  - by rewrite list_lookup_alter_ne, list_lookup_insert_ne.
Qed.

Lemma list_lookup_alter_inv {A} (f : A -> A) (l : list A) (k i : nat) x' :
  alter f k l !! i = Some x' ->
  exists x, l !! i = Some x /\ x' = if bool_decide (i = k) then f x else x.
Proof.
  destruct (decide (i = k)) as [->|Hne].
  - rewrite list_lookup_alter_eq, bool_decide_eq_true_2 by done.
    destruct (l !! k) as [x|]; [|done]. intros [= <-]. eauto.
  - rewrite list_lookup_alter_ne, bool_decide_eq_false_2 by done. eauto.
Qed.

Lemma list_alter_alter {A} (f g : A -> A) (l : list A) i :
  alter f i (alter g i l) = alter (fun x => f (g x)) i l.
Proof. revert i. induction l as [|x l IH]; intros [|i]; f_equal/=; auto. Qed.

#[export] Hint Resolve u64_range u32_range b2z_range : lava.
