(* ===== verification/CString.v ===== *)
(** * C strings and numbers

    What the sources use of the C library on strings (isspace, strtol and
    strtoll, printf and sscanf of integers, strchr, strtok, fgets) and the
    repository's own helpers on top of it (src/base/lib/ll.sys.c).  A C string
    is the [string] of its bytes before the terminating NUL. *)

From S2P Require Import Prelude.

Open Scope string_scope.
Open Scope list_scope.
Open Scope Z_scope.

(** ** Characters *)

Definition code (c : ascii) : Z := Z.of_nat (nat_of_ascii c).

Definition isspace (c : ascii) : bool :=
  (code c =? 32) || ((9 <=? code c) && (code c <=? 13)).

Definition isdigit (c : ascii) : bool := (48 <=? code c) && (code c <=? 57).

Definition digit_val (c : ascii) : Z := code c - 48.

Definition digit_char (d : Z) : ascii := ascii_of_nat (Z.to_nat (48 + d)).

Definition newline : ascii := ascii_of_nat 10.
Definition dquote : ascii := ascii_of_nat 34.
Definition not_newline (c : ascii) : bool := negb (Ascii.eqb c newline).

(** ** Scanning *)

Fixpoint skip_while (f : ascii -> bool) (s : string) : string :=
  match s with
  | EmptyString => EmptyString
  | String c s' => if f c then skip_while f s' else s
  end.

Fixpoint span (f : ascii -> bool) (s : string) : string * string :=
  match s with
  | EmptyString => (EmptyString, EmptyString)
  | String c s' =>
      if f c then let (a, b) := span f s' in (String c a, b)
      else (EmptyString, s)
  end.

Fixpoint forall_chars (f : ascii -> bool) (s : string) : bool :=
  match s with
  | EmptyString => true
  | String c s' => f c && forall_chars f s'
  end.

Definition head_is (f : ascii -> bool) (s : string) : bool :=
  match s with EmptyString => false | String c _ => f c end.

(** [strchr(s, c)]: the text before the first [c] and the text after it. *)
Fixpoint strchr_split (c : ascii) (s : string) : option (string * string) :=
  match s with
  | EmptyString => None
  | String d s' =>
      if Ascii.eqb d c then Some (EmptyString, s')
      else match strchr_split c s' with
           | Some (a, b) => Some (String d a, b)
           | None => None
           end
  end.

(** The tokens a [strtok] loop sees: the maximal runs of characters that are
    not delimiters. [cur] is the token being read, reversed. *)
Fixpoint strtok_from (delim : ascii -> bool) (cur : option string) (s : string)
    : list string :=
  match s with
  | EmptyString => match cur with Some t => [t] | None => [] end
  | String c s' =>
      if delim c then
        match cur with
        | Some t => t :: strtok_from delim None s'
        | None => strtok_from delim None s'
        end
      else
        strtok_from delim
          (Some ((match cur with Some t => t | None => EmptyString end)
                 +:+ String c EmptyString)) s'
  end.

Definition strtok_all (delim : ascii -> bool) (s : string) : list string :=
  strtok_from delim None s.

Definition is_blank (c : ascii) : bool := (code c =? 32) || (code c =? 9).
Definition is_comma (c : ascii) : bool := code c =? 44.

(** Digits from the front of [s], accumulated on [acc]. *)
Fixpoint scan_digits (acc : Z) (s : string) : Z * string :=
  match s with
  | EmptyString => (acc, EmptyString)
  | String c s' =>
      if isdigit c then scan_digits (acc * 10 + digit_val c) s' else (acc, s)
  end.

(** The number at the front of [s] after white space and an optional sign,
    before it is cut to the width of a type, and the text after it;
    [None] when no conversion takes place ([end == s]). *)
Definition scan_number (s : string) : option (Z * string) :=
  let s := skip_while isspace s in
  let '(neg, s) :=
    match s with
    | String c s' =>
        if code c =? 45 then (true, s')
        else if code c =? 43 then (false, s') else (false, s)
    | EmptyString => (false, s)
    end in
  if head_is isdigit s then
    let (v, s') := scan_digits 0 s in
    Some (if neg : bool then - v else v, s')
  else None.

Definition saturate64 (z : Z) : Z := Z.max (- 2 ^ 63) (Z.min z (2 ^ 63 - 1)).

(** [strtol] and [strtoll] of base 10 on a 64-bit target. *)
Definition strtoll (s : string) : option (Z * string) :=
  match scan_number s with
  | Some (v, s') => Some (saturate64 v, s')
  | None => None
  end.

(** [atol] and [atoi]. *)
Definition atol (s : string) : Z :=
  match strtoll s with Some (v, _) => v | None => 0 end.
Definition atoi (s : string) : Z := i32 (atol s).

(** [strtoul]: an out of range magnitude gives ULONG_MAX, a minus sign negates
    in 64 bits. *)
Definition saturate_u64 (z : Z) : Z :=
  if 2 ^ 64 <=? Z.abs z then 2 ^ 64 - 1 else u64 z.

(** ** Integer conversions of printf and sscanf *)

Inductive conv : Type := CInt | CUInt | CLong | CULong.

Definition conv_cut (k : conv) (v : Z) : Z :=
  match k with
  | CInt => i32 (saturate64 v)
  | CUInt => u32 (saturate_u64 v)
  | CLong => saturate64 v
  | CULong => saturate_u64 v
  end.

Definition conv_fits (k : conv) (v : Z) : bool :=
  match k with
  | CInt => is_i32 v
  | CUInt => is_u32 v
  | CLong => is_i64 v
  | CULong => is_u64 v
  end.

(** [sscanf] of blank separated integer conversions: it stops at the first one
    that fails, so all of them succeed or the count it returns is short. *)
Fixpoint scanf_ints (ks : list conv) (s : string) : option (list Z * string) :=
  match ks with
  | [] => Some ([], s)
  | k :: ks' =>
      match scan_number s with
      | Some (v, s') =>
          match scanf_ints ks' s' with
          | Some (vs, s'') => Some (conv_cut k v :: vs, s'')
          | None => None
          end
      | None => None
      end
  end.

(** [sscanf("%<n>s")]: white space is skipped, then at most [n] other
    characters are taken; at least one is needed. *)
Fixpoint take_word (n : nat) (s : string) : string * string :=
  match n, s with
  | S n', String c s' =>
      if isspace c then (EmptyString, s)
      else let (a, b) := take_word n' s' in (String c a, b)
  | _, _ => (EmptyString, s)
  end.

Definition scanf_word (n : nat) (s : string) : option (string * string) :=
  match take_word n (skip_while isspace s) with
  | (EmptyString, _) => None
  | r => Some r
  end.

(** Decimal digits of [n], most significant first, in front of [acc]; twenty
    rounds write every 64-bit magnitude. *)
Fixpoint print_digits (rounds : nat) (n : Z) (acc : string) : string :=
  let acc' := String (digit_char (n mod 10)) acc in
  match rounds with
  | O => acc'
  | S r => if n <? 10 then acc' else print_digits r (n / 10) acc'
  end.

(** [%d], [%u], [%ld] and [%lu] of a value that fits its type. *)
Definition print_int (n : Z) : string :=
  if n <? 0 then String "-" (print_digits 19 (- n) EmptyString)
  else print_digits 19 n EmptyString.

(** [" %d %d ..."]: a blank in front of every number. *)
Fixpoint print_ints (vs : list Z) : string :=
  match vs with
  | [] => EmptyString
  | v :: vs' => String " " (print_int v) +:+ print_ints vs'
  end.

(** ** Files as text: [fgets] *)

(** At most [n] characters, up to and including the first newline. *)
Fixpoint fgets_from (n : nat) (s : string) : string * string :=
  match n, s with
  | S n', String c s' =>
      if Ascii.eqb c newline then (String c EmptyString, s')
      else let (a, b) := fgets_from n' s' in (String c a, b)
  | _, _ => (EmptyString, s)
  end.

Definition fgets (size : nat) (s : string) : option (string * string) :=
  match s with
  | EmptyString => None
  | _ => Some (fgets_from (size - 1) s)
  end.

(** ** The repository's helpers (ll.sys.c) *)

Definition LL_BUFSIZ_32 : nat := 32.
Definition LL_BUFSIZ_64 : nat := 64.
Definition LL_BUFSIZ_256 : nat := 256.
Definition LL_BUFSIZ_512 : nat := 512.
Definition LL_BUFSIZ_1K : nat := 1024.
Definition LL_BUFSIZ_4K : nat := 4096.
Definition LL_BUFSIZ_8K : nat := Nat.mul 2 4096.

(** The contents of [dst] afterwards and the returned length of [src]. *)
Definition ll_strlcpy (dst src : string) (size : nat) : string * nat :=
  match size with
  | O => (dst, String.length src)
  | S size' =>
      if (String.length src <? size)%nat then (src, String.length src)
      else (String.substring 0 size' src, String.length src)
  end.

Definition ll_strlcat (dst src : string) (size : nat) : string * nat :=
  let dlen := String.length dst in
  if (size <=? dlen)%nat then (dst, (dlen + String.length src)%nat)
  else
    let '(tail, n) := ll_strlcpy EmptyString src (size - dlen) in
    (dst +:+ tail, (dlen + n)%nat).

(** A fixed size [char] array after [ll_strlcpy(dst, src, sizeof(dst))]. *)
Definition strbuf (size : nat) (src : string) : string :=
  (ll_strlcpy EmptyString src size).1.

(** [Some v]: returns 1 with [*out = v]; [None]: returns 0 and leaves [*out]. *)
Definition ll_atoi (s : string) : option Z :=
  let s := skip_while isspace s in
  match s with
  | EmptyString => None
  | _ =>
      match scan_number s with
      | None => None
      | Some (v, e) =>
          match skip_while isspace e with
          | EmptyString => if is_i32 v then Some v else None
          | _ => None
          end
      end
  end.

Definition ll_atoll (s : string) : option Z :=
  let s := skip_while isspace s in
  match s with
  | EmptyString => None
  | _ =>
      match scan_number s with
      | None => None
      | Some (v, e) =>
          match skip_while isspace e with
          | EmptyString => if is_i64 v then Some v else None
          | _ => None
          end
      end
  end.

(** ** Lemmas: strings *)

Lemma string_app_nil_r s : s +:+ EmptyString = s.
Proof. induction s as [|c s IH]; cbn; [done|]. by rewrite IH. Qed.

Lemma string_app_assoc s1 s2 s3 : s1 +:+ (s2 +:+ s3) = (s1 +:+ s2) +:+ s3.
Proof. induction s1 as [|c s IH]; cbn; [done|]. by rewrite IH. Qed.

Lemma string_length_app s1 s2 :
  String.length (s1 +:+ s2) = (String.length s1 + String.length s2)%nat.
Proof. induction s1 as [|c s IH]; cbn; [done|]. by rewrite IH. Qed.

Lemma forall_chars_app f s1 s2 :
  forall_chars f (s1 +:+ s2) = forall_chars f s1 && forall_chars f s2.
Proof. induction s1 as [|c s IH]; cbn; [done|]. rewrite IH. by destruct (f c). Qed.

Lemma forall_chars_impl f g s :
  (forall c, f c = true -> g c = true) -> forall_chars f s = true -> forall_chars g s = true.
Proof.
  intros Hfg. induction s as [|c s IH]; cbn; [done|].
  intros [H1 H2]%andb_prop. rewrite (Hfg c H1). auto.
Qed.

Lemma strchr_split_app c s1 s2 :
  forall_chars (fun d => negb (Ascii.eqb d c)) s1 = true ->
  strchr_split c (s1 +:+ String c s2) = Some (s1, s2).
Proof.
  induction s1 as [|d s1 IH]; cbn.
  - by rewrite Ascii.eqb_refl.
  - intros [H1 H2]%andb_prop. apply negb_true_iff in H1. by rewrite H1, IH.
Qed.

Lemma skip_while_head f s : head_is f s = false -> skip_while f s = s.
Proof. destruct s; cbn; [done|]. by intros ->. Qed.

Lemma skip_while_idem f s : skip_while f (skip_while f s) = skip_while f s.
Proof.
  induction s as [|c s IH]; cbn; [done|]. destruct (f c) eqn:E; [done|].
  cbn. by rewrite E.
Qed.

Lemma substring_length s : forall n, String.length (String.substring 0 n s) = Nat.min n (String.length s).
Proof. induction s as [|c s IH]; intros [|n]; cbn; [done..|]. by rewrite IH. Qed.

Lemma substring_forall f s : forall n,
  forall_chars f s = true -> forall_chars f (String.substring 0 n s) = true.
Proof.
  induction s as [|c s IH]; intros [|n]; cbn; try done.
  intros [H1 H2]%andb_prop. rewrite H1. cbn. auto.
Qed.

Lemma strbuf_fits size s : (String.length s < size)%nat -> strbuf size s = s.
Proof.
  intros Hlt. unfold strbuf, ll_strlcpy. destruct size; [lia|].
  by rewrite (proj2 (Nat.ltb_lt _ _) Hlt).
Qed.

(** ** Lemmas: digits *)

Lemma code_digit_char d : 0 <= d < 10 -> code (digit_char d) = 48 + d.
Proof.
  intros Hd. unfold code, digit_char.
  rewrite Ascii.nat_ascii_embedding; lia.
Qed.

Lemma isdigit_digit_char d : 0 <= d < 10 -> isdigit (digit_char d) = true.
Proof. intros Hd. unfold isdigit. rewrite code_digit_char by done. b2p. lia. Qed.

Lemma digit_val_char d : 0 <= d < 10 -> digit_val (digit_char d) = d.
Proof. intros Hd. unfold digit_val. rewrite code_digit_char by done. lia. Qed.

Lemma print_digits_scan r n acc :
  0 <= n < 10 ^ Z.of_nat (S r) ->
  scan_digits 0 (print_digits r n acc) = scan_digits n acc /\
  head_is isdigit (print_digits r n acc) = true.
Proof.
  revert n acc. induction r as [|r IH]; intros n acc Hn.
  - change (10 ^ Z.of_nat 1) with 10 in Hn. cbn.
    rewrite Z.mod_small by lia.
    rewrite isdigit_digit_char, digit_val_char by lia. by replace (0 * 10 + n) with n by lia.
  - pose proof (Z.mod_pos_bound n 10 ltac:(lia)).
    pose proof (Z.div_mod n 10 ltac:(lia)).
    cbn [print_digits]. destruct (Z.ltb_spec n 10).
    + rewrite Z.mod_small by lia. cbn.
      rewrite isdigit_digit_char, digit_val_char by lia. by replace (0 * 10 + n) with n by lia.
    + rewrite (Nat2Z.inj_succ (S r)), Z.pow_succ_r in Hn by lia.
      destruct (IH (n / 10) (String (digit_char (n mod 10)) acc)) as [-> ->].
      { split; [apply Z.div_pos; lia|]. apply Z.div_lt_upper_bound; lia. }
      cbn [scan_digits]. rewrite isdigit_digit_char, digit_val_char by lia.
      split; [|done]. f_equal. lia.
Qed.

Lemma print_digits_app r n a b :
  print_digits r n (a +:+ b) = print_digits r n a +:+ b.
Proof.
  revert n a. induction r as [|r IH]; intros n a; cbn; [done|].
  destruct (n <? 10); [done|]. apply (IH (n / 10) (String (digit_char (n mod 10)) a)).
Qed.

Lemma print_digits_chars r n acc f :
  (forall c, isdigit c = true -> f c = true) -> forall_chars f acc = true ->
  forall_chars f (print_digits r n acc) = true.
Proof.
  intros Hf. revert n acc. induction r as [|r IH]; intros n acc Hacc; cbn.
  - rewrite Hf; [done|]. apply isdigit_digit_char, Z.mod_pos_bound. lia.
  - assert (f (digit_char (n mod 10)) = true).
    { apply Hf, isdigit_digit_char, Z.mod_pos_bound. lia. }
    destruct (n <? 10); [cbn; by rewrite H|]. apply IH. cbn. by rewrite H.
Qed.

(** A digit is neither a sign nor white space. *)
Lemma digit_not_special s :
  head_is isdigit s = true ->
  head_is isspace s = false /\ head_is (fun c => code c =? 45) s = false /\
  head_is (fun c => code c =? 43) s = false.
Proof.
  destruct s as [|c s]; cbn; [done|]. unfold isdigit, isspace.
  intros [H1 H2]%andb_prop. b2p. lia.
Qed.

(** ** Round trip: what is printed is scanned back *)

Lemma print_int_scan n s :
  - 10 ^ 20 < n < 10 ^ 20 -> head_is isdigit s = false ->
  scan_number (print_int n +:+ s) = Some (n, s).
Proof.
  intros Hn Hs. unfold print_int, scan_number.
  assert (Hstop : forall m, scan_digits m s = (m, s)).
  { intros m. destruct s as [|c s]; [done|]. cbn in *. by rewrite Hs. }
  destruct (Z.ltb_spec n 0).
  - cbn [String.append]. rewrite skip_while_head by done. cbn [code].
    change (code "-" =? 45) with true. cbn iota.
    rewrite <- print_digits_app. cbn [String.append].
    destruct (print_digits_scan 19 (- n) s) as [-> ->]; [change (10 ^ Z.of_nat 20) with (10 ^ 20); lia|].
    rewrite Hstop. by rewrite Z.opp_involutive.
  - rewrite <- print_digits_app. cbn [String.append].
    destruct (print_digits_scan 19 n s) as [Hscan Hd]; [change (10 ^ Z.of_nat 20) with (10 ^ 20); lia|].
    destruct (digit_not_special _ Hd) as (Hsp & H45 & H43).
    rewrite skip_while_head by done.
    destruct (print_digits 19 n s) as [|c t] eqn:E; [done|]. cbn [head_is] in H45, H43.
    rewrite H45, H43. cbn [head_is] in Hd |- *. cbn [head_is]. rewrite Hd, Hscan, Hstop. done.
Qed.

Lemma scan_number_blank s : scan_number (String " " s) = scan_number s.
Proof. done. Qed.

Lemma conv_cut_fits k v : conv_fits k v = true -> conv_cut k v = v.
Proof.
  destruct k; cbn; unfold is_i32, is_u32, is_i64, is_u64, saturate64, saturate_u64;
    intros [H1 H2]%andb_prop; b2p.
  - rewrite i32_small; lia.
  - destruct (Z.leb_spec (2 ^ 64) (Z.abs v)); [lia|].
    rewrite u64_small by lia. apply u32_small. lia.
  - lia.
  - destruct (Z.leb_spec (2 ^ 64) (Z.abs v)); [lia|]. apply u64_small. lia.
Qed.

Lemma conv_fits_bound k v : conv_fits k v = true -> - 10 ^ 20 < v < 10 ^ 20.
Proof.
  destruct k; cbn; unfold is_i32, is_u32, is_i64, is_u64;
    intros [H1 H2]%andb_prop; b2p; lia.
Qed.

Lemma print_ints_head vs s :
  head_is isdigit s = false -> head_is isdigit (print_ints vs +:+ s) = false.
Proof. by destruct vs. Qed.

Lemma print_ints_scanf ks vs s :
  Forall2 (fun k v => conv_fits k v = true) ks vs -> head_is isdigit s = false ->
  scanf_ints ks (print_ints vs +:+ s) = Some (vs, s).
Proof.
  intros Hf Hs. induction Hf as [|k v ks vs Hk _ IH]; [done|].
  cbn [print_ints scanf_ints].
  rewrite <- string_app_assoc. cbn [String.append]. rewrite scan_number_blank.
  rewrite print_int_scan; [|by eapply conv_fits_bound|by apply print_ints_head].
  by rewrite IH, conv_cut_fits.
Qed.

Lemma print_int_inj a b :
  - 10 ^ 20 < a < 10 ^ 20 -> - 10 ^ 20 < b < 10 ^ 20 -> print_int a = print_int b -> a = b.
Proof.
  intros Ha Hb Heq.
  pose proof (print_int_scan a EmptyString Ha ltac:(done)) as H1.
  pose proof (print_int_scan b EmptyString Hb ltac:(done)) as H2.
  rewrite Heq in H1. congruence.
Qed.

(** ** Lemmas: the helpers *)

(** The copy never exceeds the buffer and keeps a prefix of the source. *)
Lemma ll_strlcpy_bounded dst src size :
  size <> O -> (String.length (ll_strlcpy dst src size).1 < size)%nat.
Proof.
  intros Hs. destruct size as [|n]; [done|]. unfold ll_strlcpy.
  destruct (Nat.ltb_spec (String.length src) (S n)); cbn [fst]; [done|].
  rewrite substring_length. lia.
Qed.

Lemma ll_strlcat_bounded dst src size :
  (String.length dst < size)%nat -> (String.length (ll_strlcat dst src size).1 < size)%nat.
Proof.
  intros Hd. unfold ll_strlcat. destruct (Nat.leb_spec size (String.length dst)); [lia|].
  pose proof (ll_strlcpy_bounded EmptyString src (size - String.length dst) ltac:(lia)) as Hb.
  destruct (ll_strlcpy EmptyString src (size - String.length dst)) as [t n]. cbn in *.
  rewrite string_length_app. lia.
Qed.

Lemma ll_atoi_range s v : ll_atoi s = Some v -> - 2 ^ 31 <= v < 2 ^ 31.
Proof.
  unfold ll_atoi. repeat case_match; intros Hv; simplify_eq.
  unfold is_i32 in *. b2p. lia.
Qed.

Lemma ll_atoi_print v : - 2 ^ 31 <= v < 2 ^ 31 -> ll_atoi (print_int v) = Some v.
Proof.
  intros Hv. pose proof (print_int_scan v EmptyString ltac:(lia) ltac:(done)) as H.
  rewrite string_app_nil_r in H. unfold ll_atoi.
  assert (Hs : scan_number (skip_while isspace (print_int v)) = Some (v, EmptyString)).
  { rewrite <- H. unfold scan_number. by rewrite skip_while_idem. }
  destruct (skip_while isspace (print_int v)) as [|c t]; [done|]. rewrite Hs. cbn.
  unfold is_i32. rewrite (proj2 (Z.leb_le _ _)), (proj2 (Z.ltb_lt _ _)) by lia. done.
Qed.

(** ** Lemmas: scanning consumes text *)

Lemma skip_while_length f s : (String.length (skip_while f s) <= String.length s)%nat.
Proof. induction s as [|c s IH]; cbn; [done|]. destruct (f c); cbn; lia. Qed.

Lemma scan_digits_length s : forall acc, (String.length (scan_digits acc s).2 <= String.length s)%nat.
Proof.
  induction s as [|c s IH]; intros acc; cbn; [done|]. destruct (isdigit c); cbn; [|lia].
  specialize (IH (acc * 10 + digit_val c)). lia.
Qed.

Lemma scan_number_length s v s' :
  scan_number s = Some (v, s') -> (String.length s' <= String.length s)%nat.
Proof.
  unfold scan_number. pose proof (skip_while_length isspace s) as Hs.
  destruct (match skip_while isspace s with
            | String c s' => if code c =? 45 then (true, s')
                else if code c =? 43 then (false, s') else (false, skip_while isspace s)
            | EmptyString => (false, skip_while isspace s) end) as [neg t] eqn:E.
  assert (Ht : (String.length t <= String.length (skip_while isspace s))%nat).
  { destruct (skip_while isspace s); [by simplify_eq|].
    repeat case_match; simplify_eq; cbn; lia. }
  destruct (head_is isdigit t); [|done].
  pose proof (scan_digits_length t 0) as Hd. destruct (scan_digits 0 t). cbn in Hd.
  intros [= _ <-]. lia.
Qed.

Lemma print_int_chars f n :
  (forall c, isdigit c = true -> f c = true) -> f "-"%char = true ->
  forall_chars f (print_int n) = true.
Proof.
  intros Hd Hm. unfold print_int. destruct (n <? 0); [|by apply print_digits_chars].
  cbn [forall_chars]. rewrite Hm. by apply print_digits_chars.
Qed.

Lemma print_ints_chars f vs :
  (forall c, isdigit c = true -> f c = true) -> f "-"%char = true -> f " "%char = true ->
  forall_chars f (print_ints vs) = true.
Proof.
  intros Hd Hm Hb. induction vs as [|v vs IH]; [done|]. cbn [print_ints].
  rewrite forall_chars_app, IH, andb_true_r. cbn [forall_chars]. rewrite Hb.
  by apply print_int_chars.
Qed.

Lemma fgets_from_line n s r :
  forall_chars not_newline s = true -> (String.length s < n)%nat ->
  fgets_from n (s +:+ String newline r) = (s +:+ String newline EmptyString, r).
Proof.
  revert n. induction s as [|c s IH]; intros [|n] Hs Hn; cbn in Hn; try lia; [done|].
  cbn in Hs. apply andb_prop in Hs as [H1 H2]. apply negb_true_iff in H1.
  cbn. rewrite H1, IH by (done || lia). done.
Qed.

(** A text has no more tokens than characters. *)
Lemma strtok_from_length delim cur s :
  (length (strtok_from delim cur s) <= String.length s + (match cur with Some _ => 1 | None => 0 end))%nat.
Proof.
  revert cur. induction s as [|c s IH]; intros cur; cbn; [by destruct cur; cbn; lia|].
  destruct (delim c).
  - pose proof (IH None). destruct cur; cbn in *; lia.
  - match goal with |- context [strtok_from delim (Some ?t) s] => pose proof (IH (Some t)) end.
    cbn in *. lia.
Qed.

Lemma strtok_all_buf delim size s :
  size <> O -> (length (strtok_all delim (strbuf size s)) < size)%nat.
Proof.
  intros Hs. unfold strtok_all, strbuf.
  pose proof (strtok_from_length delim None (ll_strlcpy EmptyString s size).1).
  pose proof (ll_strlcpy_bounded EmptyString s size Hs). cbn in *. lia.
Qed.

Lemma strbuf_length size s : (0 < size)%nat -> (String.length (strbuf size s) < size)%nat.
Proof. intros H. apply (ll_strlcpy_bounded EmptyString s size). lia. Qed.

Lemma strbuf_idem size s : strbuf size (strbuf size s) = strbuf size s.
Proof.
  destruct size as [|n]; [done|]. apply strbuf_fits. apply (ll_strlcpy_bounded EmptyString s (S n)). done.
Qed.

(** A number takes at most twenty digits and a sign. *)
Lemma print_digits_length r n acc : (String.length (print_digits r n acc) <= S r + String.length acc)%nat.
Proof.
  revert n acc. induction r as [|r IH]; intros n acc; cbn; [lia|]. destruct (n <? 10); cbn; [lia|].
  etransitivity; [apply IH|]. cbn. lia.
Qed.

Lemma print_int_length n : (String.length (print_int n) <= 21)%nat.
Proof.
  unfold print_int. destruct (n <? 0); cbn [String.length].
  - pose proof (print_digits_length 19 (- n) EmptyString). cbn [String.length] in *. lia.
  - pose proof (print_digits_length 19 n EmptyString). cbn [String.length] in *. lia.
Qed.

Lemma string_app_inj_l a b c : a +:+ b = a +:+ c -> b = c.
Proof. induction a as [|x a IH]; cbn; [done|]. intros [=]. auto. Qed.
