(* ===== verification/LlConf.v ===== *)
(** * Configuration files: the shared reader

    [ltrim], [rtrim], the section markers, the KEY=VALUE reader and the header
    check of src/base/lib/ll.conf.c.  A file is its text, without NUL bytes; its
    lines are what [fgets] returns. *)

From S2P Require Import Prelude CString.

Open Scope string_scope.
Open Scope list_scope.
Open Scope Z_scope.

(** ** Lines *)

(** What a [while (fgets(line, size, f))] loop sees; [fuel] above the length of
    the text is enough when [size] is at least 2 ([file_lines_all]). *)
Fixpoint file_lines_from (fuel size : nat) (s : string) : list string :=
  match fuel with
  | O => []
  | S fuel =>
      match fgets size s with
      | None => []
      | Some (line, s') => line :: file_lines_from fuel size s'
      end
  end.

Definition file_lines (size : nat) (s : string) : list string :=
  file_lines_from (S (String.length s)) size s.

Definition ltrim (s : string) : string := skip_while is_blank s.

Definition is_trailing (c : ascii) : bool :=
  (code c =? 10) || (code c =? 13) || (code c =? 32) || (code c =? 9).

Fixpoint rtrim (s : string) : string :=
  match s with
  | EmptyString => EmptyString
  | String c s' =>
      match rtrim s' with
      | EmptyString => if is_trailing c then EmptyString else String c EmptyString
      | t => String c t
      end
  end.

(** [p = ltrim(line); rtrim(p)]. *)
Definition trim (line : string) : string := rtrim (ltrim line).

(** [*p == 0 || *p == '#']. *)
Definition skipped_line (p : string) : bool :=
  match p with EmptyString => true | String c _ => code c =? 35 end.

(** ** Names without case *)

Definition tolower (c : ascii) : ascii :=
  if (65 <=? code c) && (code c <=? 90) then ascii_of_nat (nat_of_ascii c + 32) else c.

Fixpoint lowercase (s : string) : string :=
  match s with EmptyString => EmptyString | String c s' => String (tolower c) (lowercase s') end.

(** [strcasecmp(a, b) == 0]. *)
Definition strcaseeq (a b : string) : bool := String.eqb (lowercase a) (lowercase b).

(** ** Section markers *)

(** The text after the keyword and the blanks that must follow it. *)
Definition after_keyword (kw line : string) : option string :=
  let p := ltrim line in
  if String.prefix kw p then
    let p := String.substring (String.length kw) (String.length p - String.length kw) p in
    if head_is is_blank p then Some (ltrim p) else None
  else None.

Definition ll_conf_parse_begin (line : string) : option string := after_keyword "Begin" line.
Definition ll_conf_parse_end (line : string) : option string := after_keyword "End" line.

(** [false] for -1.  A word longer than the buffer is cut and differs from every
    column name. *)
Fixpoint ll_conf_check_header (line : string) (cols : list string) : bool :=
  match cols with
  | [] => true
  | col :: cols =>
      match scanf_word 63 line with
      | None => false
      | Some (tok, rest) => if String.eqb tok col then ll_conf_check_header rest cols else false
      end
  end.

(** ** Parameters *)

Record ll_kv : Type := mk_ll_kv {
  kv_key : option string;
  kv_val : option string
}.

Definition kv_eta (x : ll_kv) : ll_kv := mk_ll_kv (kv_key x) (kv_val x).
#[export] Instance set_kv_val : Setter kv_val. Proof. setter kv_eta. Defined.

(** The index of the first item with the key. *)
Fixpoint kv_find_from (i : nat) (items : list ll_kv) (key : string) : option nat :=
  match items with
  | [] => None
  | x :: items =>
      match kv_key x with
      | Some k => if String.eqb k key then Some i else kv_find_from (S i) items key
      | None => kv_find_from (S i) items key
      end
  end.

Definition kv_find (items : list ll_kv) (key : string) : option nat := kv_find_from 0 items key.

Definition ll_conf_kv_get (items : option (list ll_kv)) (key : option string) : option string :=
  match items, key with
  | Some items, Some key => kv_find items key ≫= fun i => items !! i ≫= kv_val
  | _, _ => None
  end.

(** The key and the value of a line, [None] when the line has none. *)
Definition kv_line (line : string) : option (string * string) :=
  let p := ltrim (rtrim line) in
  if skipped_line p then None
  else
    match strchr_split "=" p with
    | None => None
    | Some (key, val) => Some (ltrim (rtrim key), rtrim (ltrim val))
    end.

(** One line; [alloc] is whether [strdup] succeeds, and [None] stands for -1. *)
Definition kv_load_line (alloc : bool) (items : list ll_kv) (line : string) : option (list ll_kv) :=
  match kv_line line with
  | None => Some items
  | Some (key, val) =>
      match kv_find items key with
      | None => Some items
      | Some i => if alloc then Some (alter (fun x => x <| kv_val := Some val |>) i items) else None
      end
  end.

Fixpoint kv_load_lines (al : nat -> bool) (k : nat) (items : list ll_kv) (lines : list string) : option (list ll_kv) :=
  match lines with
  | [] => Some items
  | l :: lines =>
      match kv_load_line (al k) items l with
      | None => None
      | Some items => kv_load_lines al (S k) items lines
      end
  end.

(** A file that can be opened: its text and whether reading ends in an error. *)
Record text_file : Type := mk_text_file {
  tf_text : string;
  tf_error : bool
}.

(** [file] is [None] when the file cannot be opened; [al k] answers the [strdup]
    of line [k]. *)
Definition ll_conf_load (al : nat -> bool) (items : list ll_kv) (file : option text_file) : option (list ll_kv) :=
  match file with
  | None => None
  | Some f =>
      match kv_load_lines al 0 items (file_lines LL_BUFSIZ_1K (tf_text f)) with
      | None => None
      | Some items => if tf_error f then None else Some items
      end
  end.

Definition ll_conf_param_missing (val : option string) : bool :=
  match val with None | Some EmptyString => true | _ => false end.

(** The positions of enum ll_params and the table with its defaults. *)
Definition LL_LOG_DIR : nat := 1.
Definition LL_LOG_MASK : nat := 2.
Definition LL_MBD_PORT : nat := 9.
Definition LL_MBD_HOST : nat := 10.
Definition LL_MBD_USER : nat := 11.
Definition LL_STATE_DIR : nat := 12.
Definition LL_DEFAULT_QUEUE : nat := 13.
Definition LL_AUTH_MAX_AGE : nat := 14.
Definition LL_ASSERT_COUNTERS : nat := 19.

Definition ll_params : list ll_kv :=
  map (fun x => mk_ll_kv (Some x.1) x.2)
    [("LL_CLUSTER_NAME", None); ("LL_LOG_DIR", None); ("LL_LOG_MASK", Some "LOG_WARNING");
     ("LL_LIM_PORT", Some "33123"); ("LL_SBD_PORT", Some "33125");
     ("LL_CGROUP_ROOT", Some "/sys/fs/cgroup/lavalite");
     ("LL_SBD_JOB_FINISH_RETAIN", Some "100"); ("LL_SBD_PRUNE_INTERVAL", Some "900");
     ("LL_MBD_JOB_FINISH_THRESHOLD", Some "1000"); ("LL_MBD_PORT", Some "33124");
     ("LL_MBD_HOST", None); ("LL_MBD_USER", Some "lavalite"); ("LL_STATE_DIR", None);
     ("LL_DEFAULT_QUEUE", None); ("LL_AUTH_MAX_AGE", Some "60"); ("LL_API_CONNTIMEOUT", Some "3");
     ("LL_API_RECVTIMEOUT", Some "5"); ("LL_SBD_CONNTIMEOUT", None); ("LL_SBD_READTIMEOUT", None);
     ("LL_ASSERT_COUNTERS", Some "0")].

Definition param (items : list ll_kv) (i : nat) : option string := items !! i ≫= kv_val.

Definition PATH_MAX : nat := N.to_nat 4096.

(** [snprintf(path, PATH_MAX, "%s/<name>", dir)]; [None] when it does not fit. *)
Definition conf_path (dir name : string) : option string :=
  let path := dir +:+ "/" +:+ name in
  if (PATH_MAX <=? String.length path)%nat then None else Some path.

(** The parameters and whether they were loaded before. *)
Definition ll_init (al : nat -> bool) (conf_dir : option string) (fs : string -> option text_file)
    (st : list ll_kv * bool) : option (list ll_kv * bool) :=
  let '(items, initialized) := st in
  if initialized : bool then Some (items, true)
  else
    match conf_dir with
    | None => None
    | Some dir =>
        match conf_path dir "ll.conf" with
        | None => None
        | Some path =>
            match ll_conf_load al items (fs path) with
            | None => None
            | Some items => Some (items, true)
            end
        end
    end.

(** ** Lemmas *)

Lemma fgets_from_app n s : ((fgets_from n s).1 +:+ (fgets_from n s).2) = s.
Proof.
  revert s. induction n as [|n IH]; intros [|c s]; cbn; try done. destruct (Ascii.eqb c newline); [done|].
  specialize (IH s). destruct (fgets_from n s). cbn in *. by rewrite IH.
Qed.

(** The lines are the text, cut: the loop reads the file to its end. *)
Lemma file_lines_all size s : (2 <= size)%nat -> foldr String.append EmptyString (file_lines size s) = s.
Proof.
  intros Hs. unfold file_lines. enough (forall fuel, (String.length s < fuel)%nat ->
    foldr String.append EmptyString (file_lines_from fuel size s) = s) as H by (apply H; lia).
  intros fuel. revert s. induction fuel as [|fuel IH]; intros s Hf; [lia|]. cbn.
  destruct s as [|c s]; [done|]. cbn [fgets].
  pose proof (fgets_from_app (size - 1) (String c s)) as E.
  destruct (fgets_from (size - 1) (String c s)) as [a b] eqn:Ef. cbn in E. cbn [foldr].
  rewrite IH; [done|]. destruct size as [|[|size]]; [lia..|]. replace (S (S size) - 1)%nat with (S size) in Ef by lia.
  cbn in Ef, Hf. destruct (Ascii.eqb c newline); [injection Ef as <- <-; lia|].
  pose proof (fgets_from_app size s) as E2. destruct (fgets_from size s) as [a' b']. injection Ef as <- <-.
  cbn in E2. rewrite <- E2, string_length_app in Hf. lia.
Qed.

Lemma kv_find_from_spec items key : forall k i, kv_find_from k items key = Some i ->
  (k <= i)%nat /\ exists x, items !! (i - k)%nat = Some x /\ kv_key x = Some key.
Proof.
  induction items as [|x items IH]; intros k i H; [done|]. cbn in H.
  assert (Hr : kv_find_from (S k) items key = Some i -> (k <= i)%nat /\
    exists y, (x :: items) !! (i - k)%nat = Some y /\ kv_key y = Some key).
  { intros [Hi (y & Hy & Hk)]%IH. split; [lia|]. exists y. by replace (i - k)%nat with (S (i - S k)) by lia. }
  destruct (kv_key x) as [k'|] eqn:E; [|auto]. destruct (String.eqb_spec k' key) as [->|]; [|auto].
  injection H as <-. split; [lia|]. exists x. by rewrite Nat.sub_diag.
Qed.

(** The keys of the table stay. *)
Lemma kv_load_keys al k items lines items' :
  kv_load_lines al k items lines = Some items' -> map kv_key items' = map kv_key items.
Proof.
  revert k items. induction lines as [|l lines IH]; intros k items H; cbn in H; [congruence|].
  destruct (kv_load_line (al k) items l) as [it|] eqn:E; [|done]. rewrite (IH _ _ H).
  unfold kv_load_line in E. repeat case_match; try congruence. injection E as <-.
  apply list_eq. intros i. rewrite !list_lookup_fmap.
  destruct (decide (i = n)) as [->|]; [rewrite list_lookup_alter_eq|by rewrite list_lookup_alter_ne].
  by destruct (items !! n).
Qed.
