(* ===== verification/JobScript.v ===== *)
(** * The job script

    [create_jobscript] of src/batch/lib/jobscript.c: the shell script bsub sends with
    a job, which sets up the environment of the user before the command.  The
    buffer grows on the heap; a write past its end is [BadIndex]. *)

From S2P Require Import Prelude CString.

Open Scope string_scope.
Open Scope list_scope.
Open Scope Z_scope.

(** ** The growing buffer *)

(** The bytes before the terminating NUL and the capacity; [lb_io] counts the calls
    of [realloc]. *)
Record ll_buf : Type := mk_ll_buf {
  lb_data : string;
  lb_cap : Z;
  lb_io : nat
}.

Definition lb_len (b : ll_buf) : Z := Z.of_nat (String.length (lb_data b)).

Definition SIZE_MAX : Z := 2 ^ 64 - 1.

(** [while (want < least) want += 4096], with a test before every step. *)
Definition grow_step (least : Z) (want : Z) : Z + option Z :=
  if least <=? want then inr (Some want)
  else if SIZE_MAX - 4096 <? want then inr None
  else inl (want + 4096).

Section buffer.
Context (al : nat -> bool).

(** At most [2 ^ 52 + 1] steps fit below [SIZE_MAX]. *)
Definition ll_buf_grow (b : ll_buf) (need : Z) : attempt ll_buf :=
  if need <=? u64 (lb_cap b - lb_len b) then pret b
  else if SIZE_MAX - lb_len b <? need then pfail
  else
    let* o := run_loop 53 (grow_step (lb_len b + need)) (if lb_cap b =? 0 then 4096 else lb_cap b) in
    match o with
    | None => pfail
    | Some want => if al (lb_io b) then pret (mk_ll_buf (lb_data b) want (S (lb_io b))) else pfail
    end.

(** The bytes and the NUL after them have to lie in the buffer. *)
Definition ll_buf_append_mem (b : ll_buf) (s : string) : attempt ll_buf :=
  let? b := ll_buf_grow b (Z.of_nat (String.length s) + 1) in
  let* _ := guard_or (lb_len b + Z.of_nat (String.length s) + 1 <=? lb_cap b) BadIndex in
  pret (mk_ll_buf (lb_data b +:+ s) (lb_cap b) (lb_io b)).

Definition ll_buf_append_str (b : ll_buf) (s : string) : attempt ll_buf := ll_buf_append_mem b s.

(** ** Quoting *)

Definition squote : ascii := ascii_of_nat 39.
Definition backslash : ascii := ascii_of_nat 92.

(** The text that ends the quotes, adds a quoted quote and opens them again. *)
Definition escaped_quote : string := String squote (String backslash (String squote (String squote EmptyString))).

Fixpoint append_quoted (b : ll_buf) (value : string) : attempt ll_buf :=
  match value with
  | EmptyString => pret b
  | String c value =>
      let? b := if Ascii.eqb c squote then ll_buf_append_str b escaped_quote
                else ll_buf_append_mem b (String c EmptyString) in
      append_quoted b value
  end.

Definition ll_buf_append_sh_export (b : ll_buf) (name value : string) : attempt ll_buf :=
  let? b := ll_buf_append_mem b name in
  let? b := ll_buf_append_str b (String "=" (String squote EmptyString)) in
  let? b := append_quoted b value in
  let? b := ll_buf_append_str b (String squote "; export ") in
  let? b := ll_buf_append_mem b name in
  ll_buf_append_str b (String newline EmptyString).
End buffer.

(** ** Names *)

Definition is_alpha (c : ascii) : bool :=
  ((65 <=? code c) && (code c <=? 90)) || ((97 <=? code c) && (code c <=? 122)).

Definition is_digit (c : ascii) : bool := (48 <=? code c) && (code c <=? 57).

Definition is_sh_ident (s : string) : bool :=
  match s with
  | EmptyString => false
  | String c s => (is_alpha c || (code c =? 95)) && forall_chars (fun c => is_alpha c || is_digit c || (code c =? 95)) s
  end.

Definition is_bash_func (name : string) : bool :=
  let n := String.length name in
  (12 <=? n)%nat && String.prefix "BASH_FUNC_" name && String.eqb (String.substring (n - 2) 2 name) "%%".

Record env_rule : Type := mk_env_rule {
  r_name : string;
  r_len : nat;
  r_prefix : bool
}.

Definition env_deny_table : list env_rule :=
  map (fun x => mk_env_rule x.1.1 x.1.2 x.2)
    [("LMOD_", 5, true); ("MODULEPATH", 10, true); ("LOADEDMODULES", 13, false); ("MODULESHOME", 11, false);
     ("_LMFILES_", 9, false); ("FPATH", 5, false); ("BASH_ENV", 8, false); ("__LMOD_REF_COUNT_", 17, true);
     ("_ModuleTable", 12, true); ("LL_JOB", 6, true); ("LL_QUEUE", 8, true); ("LL_HOSTS", 8, true);
     ("TERM", 4, false); ("TERMCAP", 7, false); ("LINES", 5, false); ("COLUMNS", 7, false);
     ("DISPLAY", 7, false); ("WAYLAND_DISPLAY", 15, false); ("XAUTHORITY", 10, false);
     ("DBUS_SESSION_BUS_ADDRESS", 24, false); ("SESSION_MANAGER", 15, false); ("WINDOWID", 8, false);
     ("XMODIFIERS", 10, false); ("GTK_MODULES", 11, false); ("QT_IM_MODULE", 12, false);
     ("QT_ACCESSIBILITY", 16, false); ("IM_CONFIG_CHECK_ENV", 19, false); ("IM_CONFIG_PHASE", 15, false);
     ("GDMSESSION", 10, false); ("DESKTOP_SESSION", 15, false); ("XDG_", 4, true); ("GNOME_", 6, true);
     ("GJS_", 4, true); ("JOURNAL_STREAM", 14, false); ("INVOCATION_ID", 13, false);
     ("SYSTEMD_EXEC_PID", 16, false); ("MANAGERPID", 10, false); ("MEMORY_PRESSURE_WRITE", 21, false);
     ("MEMORY_PRESSURE_WATCH", 21, false); ("PS1", 3, false); ("SHLVL", 5, false); ("OLDPWD", 6, false);
     ("_", 1, false); ("XTERM_VERSION", 13, false); ("XTERM_SHELL", 11, false); ("XTERM_LOCALE", 12, false);
     ("PAGER", 5, false); ("LS_COLORS", 9, false); ("CLUTTER_DISABLE_MIPMAPPED_TEXT", 30, false);
     ("GSM_SKIP_SSH_AGENT_WORKAROUND", 29, false); ("INSIDE_EMACS", 12, false); ("EDITOR", 6, false);
     ("SSH_AUTH_SOCK", 13, false); ("CFLAGS", 6, false); ("CPPFLAGS", 8, false); ("PKG_CONFIG", 10, false);
     ("PKG_CONFIG_PATH", 15, false); ("DEBUGINFOD_URLS", 15, false); ("MANPATH", 7, false)]%nat.

(** [strncmp(a, b, n) == 0]. *)
Fixpoint strneq (n : nat) (a b : string) : bool :=
  match n, a, b with
  | O, _, _ => true
  | S n, String c a, String d b => Ascii.eqb c d && strneq n a b
  | S _, EmptyString, EmptyString => true
  | _, _, _ => false
  end.

Definition rule_exact (name : string) (rule : string) (rlen : nat) : bool :=
  (String.length name =? rlen)%nat && strneq rlen name rule.

Definition rule_prefix (name : string) (rule : string) (rlen : nat) : bool :=
  (rlen <=? String.length name)%nat && strneq rlen name rule.

Definition env_is_denied (name : string) : bool :=
  existsb (fun r => if r_prefix r then rule_prefix name (r_name r) (r_len r) else rule_exact name (r_name r) (r_len r))
    env_deny_table.

(** ** The script *)

Definition nl : string := String newline EmptyString.

Definition shebang : string := "#!/bin/sh" +:+ nl.
Definition env_start : string := nl +:+ "# LavaLite: environment" +:+ nl.
Definition env_end : string := "# LavaLite: end environment" +:+ nl.
Definition cmd_start : string := nl +:+ "# LavaLite: user command" +:+ nl.

Definition dq : string := String dquote EmptyString.

Section script.
Context (al : nat -> bool).

Definition ll_buf_append_exit_tail (b : ll_buf) : attempt ll_buf :=
  let? b := ll_buf_append_str al b (nl +:+ "ExitStat=$?" +:+ nl) in
  let? b := ll_buf_append_str al b
              ("echo " +:+ dq +:+ "$ExitStat $(date +%s)" +:+ dq +:+ " > " +:+ dq +:+ "$LL_JOBDIR/exit" +:+ dq +:+ nl) in
  ll_buf_append_str al b ("exit $ExitStat" +:+ nl).

(** The variables that go into the script: a name and a value. *)
Definition env_entry (e : string) : option (string * string) :=
  match strchr_split "=" e with
  | None => None
  | Some (name, val) =>
      if negb (is_sh_ident name) then None
      else if is_bash_func name then None
      else if env_is_denied name then None
      else if bool_decide (is_Some (strchr_split newline val)) then None
      else Some (name, val)
  end.

Fixpoint append_environ (b : ll_buf) (environ : list string) : attempt ll_buf :=
  match environ with
  | [] => pret b
  | e :: environ =>
      match env_entry e with
      | None => append_environ b environ
      | Some (name, val) =>
          let? b := ll_buf_append_sh_export al b name val in
          append_environ b environ
      end
  end.

(** The script and its length in 32 bits, [None] for -1. *)
Definition create_jobscript (environ : list string) (command : string) : attempt (string * Z) :=
  let? b := ll_buf_append_str al (mk_ll_buf EmptyString 0 0) shebang in
  let? b := ll_buf_append_str al b env_start in
  let? b := append_environ b environ in
  let? b := ll_buf_append_str al b env_end in
  let? b := ll_buf_append_str al b cmd_start in
  let? b := ll_buf_append_str al b command in
  let? b := ll_buf_append_exit_tail b in
  pret (lb_data b, u32 (lb_len b)).
End script.

(** * What the job script does

    The script is the concatenation of its parts on every allocation history, no
    write leaves the buffer, and a shell that reads the environment part gets back
    exactly the variables: no value can end its quotes. *)

(** ** The text *)

Fixpoint quoted (v : string) : string :=
  match v with
  | EmptyString => EmptyString
  | String c v => (if Ascii.eqb c squote then escaped_quote else String c EmptyString) +:+ quoted v
  end.

Definition export_line (x : string * string) : string :=
  x.1 +:+ String "=" (String squote EmptyString) +:+ quoted x.2 +:+ String squote "; export " +:+ x.1 +:+ nl.

Definition exports (l : list (string * string)) : string := foldr (fun x t => export_line x +:+ t) EmptyString l.

Definition exit_tail : string :=
  (nl +:+ "ExitStat=$?" +:+ nl) +:+
  ("echo " +:+ dq +:+ "$ExitStat $(date +%s)" +:+ dq +:+ " > " +:+ dq +:+ "$LL_JOBDIR/exit" +:+ dq +:+ nl) +:+
  ("exit $ExitStat" +:+ nl).

Definition script_text (environ : list string) (command : string) : string :=
  shebang +:+ env_start +:+ exports (omap env_entry environ) +:+ env_end +:+ cmd_start +:+ command +:+ exit_tail.

(** ** The buffer *)

(** There is room for the NUL, or nothing was allocated yet. *)
Definition buf_ok (b : ll_buf) : Prop :=
  lb_len b + 1 <= lb_cap b <= SIZE_MAX \/ (lb_data b = EmptyString /\ lb_cap b = 0).

(** Appending [t]: the buffer holds the text before and [t]; it fails only when an
    allocation fails or when the text would not fit the memory. *)
Definition appends (al : nat -> bool) (f : ll_buf -> attempt ll_buf) (t : string) : Prop :=
  forall b, buf_ok b ->
  match f b with
  | Ok (Some b') => buf_ok b' /\ lb_data b' = lb_data b +:+ t
  | Ok None => (forall n, al n = true) -> SIZE_MAX - 4096 < lb_len b + Z.of_nat (String.length t) + 1
  | Crash _ => False
  end.

Section buffer.
Context (al : nat -> bool).

Lemma grow_loop least want :
  0 <= want <= SIZE_MAX -> exists o, run_loop 53 (grow_step least) want = Ok o /\
    match o with Some w => least <= w <= SIZE_MAX | None => SIZE_MAX - 4096 < least end.
Proof using Type.
  intros Hw. apply (run_loop_total (grow_step least) (fun w => 0 <= w <= SIZE_MAX)
    (fun o => match o with Some w => least <= w <= SIZE_MAX | None => SIZE_MAX - 4096 < least end) (fun w => (SIZE_MAX - w) / 4096)); [|done|].
  - intros w Hw'. unfold grow_step. destruct (Z.leb_spec least w); [lia|]. destruct (Z.ltb_spec (SIZE_MAX - 4096) w); [lia|].
    split; [lia|]. replace (SIZE_MAX - (w + 4096)) with (SIZE_MAX - w + (-1) * 4096) by lia. rewrite Z.div_add by lia.
    assert (0 < (SIZE_MAX - w) / 4096) by (apply Z.div_str_pos; lia). lia.
  - apply Z.div_lt_upper_bound; unfold SIZE_MAX in *; lia.
Qed.

Lemma append_mem_appends s : appends al (fun b => ll_buf_append_mem al b s) s.
Proof using Type.
  intros b Hb. unfold ll_buf_append_mem, ll_buf_grow. set (n := Z.of_nat (String.length s)).
  assert (Hn : 0 <= n) by (unfold n; lia). assert (Hl : 0 <= lb_len b) by (unfold lb_len; lia).
  assert (Hlen : forall cap io, lb_len (mk_ll_buf (lb_data b +:+ s) cap io) = lb_len b + n).
  { intros. unfold lb_len. cbn [lb_data]. rewrite string_length_app. unfold n. lia. }
  destruct (Z.leb_spec (n + 1) (u64 (lb_cap b - lb_len b))) as [Hfit|Hfit].
  - cbn [pbind pret res_bind]. assert (Hc : u64 (lb_cap b - lb_len b) = lb_cap b - lb_len b).
    { unfold u64. apply Z.mod_small. destruct Hb as [Hb|[Hd Hc]]; unfold SIZE_MAX in *; [lia|]. unfold lb_len in *. rewrite Hd, Hc in *. cbn in *. lia. }
    rewrite Hc in Hfit. rewrite (proj2 (Z.leb_le _ _)) by lia. cbn [guard_or res_bind pret]. split; [|done].
    left. rewrite Hlen. cbn [lb_cap]. destruct Hb as [Hb|[Hd Hcap]]; [lia|]. lia.
  - destruct (Z.ltb_spec (SIZE_MAX - lb_len b) (n + 1)); [cbn; lia|].
    destruct (grow_loop (lb_len b + (n + 1)) (if lb_cap b =? 0 then 4096 else lb_cap b)) as (o & -> & Ho).
    { destruct Hb as [Hb|[_ ->]]; [|unfold SIZE_MAX; cbn; lia]. destruct (Z.eqb_spec (lb_cap b) 0); unfold SIZE_MAX in *; lia. }
    cbn [res_bind]. destruct o as [w|]; [|cbn; lia]. destruct (al (lb_io b)) eqn:Ha; [|cbn; intros Hall; by rewrite Hall in Ha].
    cbn [pbind pret res_bind]. change (lb_len (mk_ll_buf (lb_data b) w (S (lb_io b)))) with (lb_len b). cbn [lb_cap lb_data lb_io].
    fold n. rewrite (proj2 (Z.leb_le _ _)) by lia. cbn [guard_or res_bind pret]. split; [|done]. left. rewrite Hlen. cbn [lb_cap]. lia.
Qed.

Lemma appends_nil : appends al pret EmptyString.
Proof using Type. intros b Hb. cbn. by rewrite string_app_nil_r. Qed.

Lemma appends_bind f g t1 t2 : appends al f t1 -> appends al g t2 -> appends al (fun b => let? b := f b in g b) (t1 +:+ t2).
Proof using Type.
  intros Hf Hg b Hb. specialize (Hf b Hb). unfold pbind. destruct (f b) as [[b1|]|]; cbn [res_bind]; [|rewrite string_length_app; intros; specialize (Hf H); lia|done].
  destruct Hf as [Hb1 Hd1]. specialize (Hg b1 Hb1). destruct (g b1) as [[b2|]|]; [| |done].
  - destruct Hg as [Hb2 Hd2]. split; [done|]. by rewrite Hd2, Hd1, string_app_assoc.
  - intros Ha. specialize (Hg Ha). revert Hg. unfold lb_len. rewrite Hd1, !string_length_app. lia.
Qed.

Lemma append_quoted_appends v : appends al (fun b => append_quoted al b v) (quoted v).
Proof using Type.
  induction v as [|c v IH]; [apply appends_nil|]. cbn [append_quoted quoted].
  apply (appends_bind (fun b => if Ascii.eqb c squote then ll_buf_append_str al b escaped_quote
    else ll_buf_append_mem al b (String c EmptyString)) (fun b => append_quoted al b v)); [|done].
  destruct (Ascii.eqb c squote); apply append_mem_appends.
Qed.

Lemma append_export_appends name value : appends al (fun b => ll_buf_append_sh_export al b name value) (export_line (name, value)).
Proof using Type.
  unfold ll_buf_append_sh_export, export_line. cbn [fst snd].
  repeat first [apply append_mem_appends | apply append_quoted_appends
    | refine (appends_bind (fun b => ll_buf_append_mem al b _) _ _ _ _ _)
    | refine (appends_bind (fun b => append_quoted al b _) _ _ _ _ _)].
Qed.

Lemma append_environ_appends environ : appends al (fun b => append_environ al b environ) (exports (omap env_entry environ)).
Proof using Type.
  induction environ as [|e environ IH]; [apply appends_nil|]. cbn [append_environ omap list_omap].
  destruct (env_entry e) as [[name val]|]; [|exact IH].
  apply (appends_bind (fun b => ll_buf_append_sh_export al b name val) (fun b => append_environ al b environ)); [apply append_export_appends|done].
Qed.

Lemma script_appends environ command :
  appends al (fun b => let? b := ll_buf_append_str al b shebang in
    let? b := ll_buf_append_str al b env_start in let? b := append_environ al b environ in
    let? b := ll_buf_append_str al b env_end in let? b := ll_buf_append_str al b cmd_start in
    let? b := ll_buf_append_str al b command in ll_buf_append_exit_tail al b) (script_text environ command).
Proof using Type.
  unfold script_text, exit_tail, ll_buf_append_exit_tail, ll_buf_append_str.
  repeat first [apply append_mem_appends | apply append_environ_appends
    | refine (appends_bind (fun b => ll_buf_append_mem al b _) _ _ _ _ _)
    | refine (appends_bind (fun b => append_environ al b _) _ _ _ _ _)].
Qed.
End buffer.

(** ** The shell *)

(** A character that ends a word of the shell. *)
Definition sh_ends (c : ascii) : bool :=
  isspace c || existsb (Ascii.eqb c) [";"; "&"; "|"; "("; ")"; "<"; ">"]%char.

(** A character that starts an expansion, a comment or another quoting. *)
Definition sh_active (c : ascii) : bool :=
  existsb (Ascii.eqb c) ["$"; "`"; "*"; "?"; "["; "~"; "#"; "{"; "}"; "!"]%char || Ascii.eqb c dquote.

(** A word as a POSIX shell reads it: inside single quotes every character stands
    for itself, outside a backslash quotes the next one; the word and the text after
    it.  [None] when the word is open or is expanded. *)
Fixpoint sh_word (in_quotes : bool) (s : string) : option (string * string) :=
  match s with
  | EmptyString => if in_quotes then None else Some (EmptyString, EmptyString)
  | String c s' =>
      let keep := fun r : option (string * string) => (fun x => (String c x.1, x.2)) <$> r in
      if in_quotes then if Ascii.eqb c squote then sh_word false s' else keep (sh_word true s')
      else if Ascii.eqb c squote then sh_word true s'
      else if Ascii.eqb c backslash then
        match s' with
        | EmptyString => None
        | String d s2 => (fun x => (String d x.1, x.2)) <$> sh_word false s2
        end
      else if sh_ends c then Some (EmptyString, s)
      else if sh_active c then None
      else keep (sh_word false s')
  end.

(** The text after a given one. *)
Fixpoint after (t s : string) : option string :=
  match t, s with
  | EmptyString, _ => Some s
  | String c t, String d s => if Ascii.eqb c d then after t s else None
  | _, _ => None
  end.

(** One command NAME=value; export NAME and the assignment it makes. *)
Definition sh_export (s : string) : option (string * string * string) :=
  match sh_word false s with
  | Some (w, s) =>
      match strchr_split "=" w, after "; export " s ≫= sh_word false with
      | Some (name, value), Some (name', s) =>
          if is_sh_ident name && String.eqb name name' then (fun s => (name, value, s)) <$> after nl s else None
      | _, _ => None
      end
  | None => None
  end.

(** The assignments made up to the comment that ends the environment. *)
Fixpoint sh_environment (fuel : nat) (s : string) : option (list (string * string)) :=
  match after env_end s with
  | Some _ => Some []
  | None =>
      match fuel with
      | O => None
      | S fuel =>
          match sh_export s with
          | Some (name, value, s) => cons (name, value) <$> sh_environment fuel s
          | None => None
          end
      end
  end.

Definition ident_char (c : ascii) : bool := is_alpha c || is_digit c || (code c =? 95).

Lemma ident_inert c : ident_char c = true ->
  Ascii.eqb c squote = false /\ Ascii.eqb c backslash = false /\ sh_ends c = false /\ sh_active c = false /\ Ascii.eqb c "=" = false.
Proof. destruct c as [[] [] [] [] [] [] [] []]; vm_compute; intros; try discriminate; done. Qed.

Lemma is_sh_ident_chars s : is_sh_ident s = true -> forall_chars ident_char s = true /\ s <> EmptyString.
Proof.
  destruct s as [|c s]; [done|]. cbn [is_sh_ident]. intros [Hc Hs]%andb_prop. split; [|done]. cbn [forall_chars].
  apply andb_true_intro. split; [|exact Hs]. unfold ident_char. apply orb_prop in Hc as [->| ->]; [done|]. by rewrite orb_true_r.
Qed.

Lemma sh_word_ident s rest a r : forall_chars ident_char s = true -> sh_word false rest = Some (a, r) ->
  sh_word false (s +:+ rest) = Some (s +:+ a, r).
Proof.
  intros Hs Hr. induction s as [|c s IH]; [done|]. cbn in Hs. apply andb_prop in Hs as [Hc Hs].
  destruct (ident_inert c Hc) as (H1 & H2 & H3 & H4 & _). cbn. rewrite H1, H2, H3, H4, (IH Hs). done.
Qed.

(** Inside the quotes the value is read as it is. *)
Lemma sh_word_quoted v rest a r : sh_word false rest = Some (a, r) ->
  sh_word true (quoted v +:+ String squote rest) = Some (v +:+ a, r).
Proof.
  intros Hr. induction v as [|c v IH]; [cbn; exact Hr|]. cbn [quoted].
  destruct (Ascii.eqb_spec c squote) as [->|Hc].
  - rewrite <- string_app_assoc. unfold escaped_quote. cbn [String.append]. cbn. rewrite IH. done.
  - cbn [String.append]. cbn. rewrite (proj2 (Ascii.eqb_neq c squote) Hc), IH. done.
Qed.

Lemma after_app t s : after t (t +:+ s) = Some s.
Proof. induction t as [|c t IH]; [done|]. cbn. by rewrite Ascii.eqb_refl. Qed.

Lemma sh_export_line name value s :
  is_sh_ident name = true -> sh_export (export_line (name, value) +:+ s) = Some (name, value, s).
Proof.
  intros Hn. destruct (is_sh_ident_chars name Hn) as [Hc Hne]. unfold export_line. cbn [fst snd]. rewrite <- !string_app_assoc.
  assert (Hend : sh_word false (nl +:+ s) = Some (EmptyString, nl +:+ s)) by done.
  assert (Hname : sh_word false (name +:+ nl +:+ s) = Some (name, nl +:+ s)).
  { rewrite (sh_word_ident name _ _ _ Hc Hend). by rewrite string_app_nil_r. }
  set (tail := "; export " +:+ name +:+ nl +:+ s).
  assert (Hw : sh_word false (name +:+ String "=" (String squote (quoted value +:+ String squote tail))) =
               Some (name +:+ String "=" value, tail)).
  { apply sh_word_ident; [done|]. change (sh_word false (String "=" (String squote (quoted value +:+ String squote tail))))
      with ((fun x => (String "=" x.1, x.2)) <$> sh_word true (quoted value +:+ String squote tail)).
    rewrite (sh_word_quoted value tail EmptyString tail) by done. cbn. by rewrite string_app_nil_r. }
  unfold sh_export.
  assert (Ht : name +:+ String "=" (String squote EmptyString) +:+ quoted value +:+ String squote "; export " +:+ name +:+ nl +:+ s =
               name +:+ String "=" (String squote (quoted value +:+ String squote tail))) by done.
  rewrite Ht, Hw. rewrite strchr_split_app.
  - unfold tail. rewrite after_app. cbn [mbind option_bind]. rewrite Hname, Hn, String.eqb_refl. cbn [andb]. by rewrite after_app.
  - clear -Hc. induction name as [|c name IH]; [done|]. cbn in *. apply andb_prop in Hc as [Hc Hs].
    destruct (ident_inert c Hc) as (_ & _ & _ & _ & ->). cbn. auto.
Qed.

Lemma ident_not_end name t : is_sh_ident name = true -> after env_end (name +:+ t) = None.
Proof.
  intros [Hc Hne]%is_sh_ident_chars. destruct name as [|c name]; [done|]. cbn in Hc. apply andb_prop in Hc as [Hc _].
  destruct (ident_inert c Hc) as (_ & _ & _ & Ha & _). 
  assert (Hs : forall s, after env_end (String c s) = if Ascii.eqb "#" c then after (" LavaLite: end environment" +:+ nl) s else None) by done.
  cbn [String.append]. rewrite Hs. destruct (Ascii.eqb_spec "#"%char c) as [<-|]; [|done]. vm_compute in Ha. discriminate.
Qed.

Lemma sh_environment_exports l rest fuel :
  Forall (fun x => is_sh_ident x.1 = true) l -> (length l <= fuel)%nat ->
  sh_environment fuel (exports l +:+ env_end +:+ rest) = Some l.
Proof.
  intros HF. revert fuel. induction HF as [|[name value] l Hn HF IH]; intros fuel Hf.
  - change (exports [] +:+ env_end +:+ rest) with (env_end +:+ rest). destruct fuel; cbn [sh_environment]; by rewrite after_app.
  - change (exports ((name, value) :: l)) with (export_line (name, value) +:+ exports l). destruct fuel as [|fuel]; [cbn in Hf; lia|]. cbn [sh_environment].
    rewrite <- string_app_assoc. assert (Hnone : after env_end (export_line (name, value) +:+ exports l +:+ env_end +:+ rest) = None).
    { unfold export_line. cbn [fst]. rewrite <- !string_app_assoc. by apply ident_not_end. }
    rewrite Hnone, sh_export_line by done. rewrite IH by (cbn in Hf; lia). done.
Qed.

Lemma env_entries_named environ : Forall (fun x => is_sh_ident x.1 = true) (omap env_entry environ).
Proof.
  induction environ as [|e environ IH]; [constructor|]. cbn [omap list_omap]. destruct (env_entry e) as [[name val]|] eqn:He; [|done].
  constructor; [|done]. unfold env_entry in He. destruct (strchr_split "=" e) as [[a b]|]; [|done].
  destruct (is_sh_ident a) eqn:Hi; [|done]. cbn in He. repeat case_match; simplify_eq. done.
Qed.

Lemma jobscript_built al environ command :
  match create_jobscript al environ command with
  | Crash _ => False
  | Ok None => (forall n, al n = true) -> SIZE_MAX - 4096 < Z.of_nat (String.length (script_text environ command)) + 1
  | Ok (Some (text, len)) => text = script_text environ command /\ len = Z.of_nat (String.length text) mod 2 ^ 32
  end.
Proof.
  assert (Hb : buf_ok (mk_ll_buf EmptyString 0 0)) by by right.
  pose proof (script_appends al environ command _ Hb) as H. cbn [lb_data String.append] in H.
  unfold create_jobscript.
  assert (Heq : forall (m : attempt ll_buf) (text : string),
    match m with Ok (Some b') => buf_ok b' /\ lb_data b' = text | Ok None => (forall n, al n = true) -> SIZE_MAX - 4096 < lb_len (mk_ll_buf EmptyString 0 0) + Z.of_nat (String.length text) + 1 | Crash _ => False end ->
    match pbind m (fun b => pret (lb_data b, u32 (lb_len b))) with Crash _ => False | Ok None => (forall n, al n = true) -> SIZE_MAX - 4096 < Z.of_nat (String.length text) + 1 | Ok (Some (t, len)) => t = text /\ len = Z.of_nat (String.length text) mod 2 ^ 32 end).
  { intros [[b|]|] text Hm; cbn [pbind res_bind pret]; [destruct Hm as [_ <-]; done|intros Ha; specialize (Hm Ha); exact Hm|done]. }
  apply Heq in H. revert H. unfold ll_buf_append_exit_tail, ll_buf_append_str, pbind.
  repeat match goal with |- context [res_bind (ll_buf_append_mem al ?b ?s) _] => destruct (ll_buf_append_mem al b s) as [[?|]|]; cbn [res_bind]; try done
    | |- context [res_bind (append_environ al ?b ?s) _] => destruct (append_environ al b s) as [[?|]|]; cbn [res_bind]; try done
    | |- context [ll_buf_append_mem al ?b ?s] => destruct (ll_buf_append_mem al b s) as [[?|]|]; cbn [res_bind]; try done end.
  unfold pret. by intros [-> ->].
Qed.

(** ** Properties *)

(** C32: the script of a job says what it should, whatever the environment and the
    command are.  Building it never writes past the buffer; it fails only when an
    allocation fails or the text is larger than memory; otherwise it is the prologue,
    one line for every variable that is kept, the command and the code that records
    the exit status, and the length that goes with it is its length while that fits
    32 bits.  A shell that reads the environment part makes exactly the
    assignments of the variables kept, each to its own value: no value, with any
    quotes in it, ends its quotes or runs a command. *)
Theorem create_jobscript_faithful al environ command :
  match create_jobscript al environ command with
  | Crash _ => False
  | Ok None => (forall n, al n = true) -> SIZE_MAX - 4096 < Z.of_nat (String.length (script_text environ command)) + 1
  | Ok (Some (text, len)) =>
      text = script_text environ command /\ len = Z.of_nat (String.length text) mod 2 ^ 32 /\
      exists body, after (shebang +:+ env_start) text = Some body /\
        sh_environment (length environ) body = Some (omap env_entry environ)
  end.
Proof.
  pose proof (jobscript_built al environ command) as H. destruct (create_jobscript al environ command) as [[[text len]|]|]; [|done..].
  destruct H as [-> ->]. split; [done|]. split; [done|]. unfold script_text.
  exists (exports (omap env_entry environ) +:+ env_end +:+ cmd_start +:+ command +:+ exit_tail). split.
  - rewrite (string_app_assoc shebang env_start). apply after_app.
  - apply sh_environment_exports; [apply env_entries_named|].
    clear. induction environ as [|e environ IH]; [done|]. cbn [omap list_omap length]. destruct (env_entry e); cbn; lia.
Qed.

(** A variable that would break out of naive quotes. *)
Lemma hostile_value_quoted :
  let v := String squote "; rm -rf $HOME; echo " +:+ String squote EmptyString in
  create_jobscript (fun _ => true) ["HOME=/home/a"; "X=" +:+ v; "TERM=xterm"] "true" =
    Ok (Some (script_text ["HOME=/home/a"; "X=" +:+ v] "true", 242)) /\
  sh_environment 2 (exports [("HOME", "/home/a"); ("X", v)] +:+ env_end) = Some [("HOME", "/home/a"); ("X", v)].
Proof. split; vm_compute; reflexivity. Qed.

(** The lengths of the deny table are those of its names. *)
Lemma deny_table_lengths : Forall (fun r => r_len r = String.length (r_name r)) env_deny_table.
Proof. repeat constructor. Qed.
