(* ===== verification/LlHash.v ===== *)
(** * The string-keyed hash table (src/base/lib/ll.hash.c)

    Separate chaining over a prime number of buckets: the table's own prime
    search, the FNV-1a hash, growth by rehashing, insertion, lookup, removal
    and iteration, with the allocation failures of the C code.  The table
    refines a finite map from strings to values. *)

From Stdlib Require Import Znumtheory.
From S2P Require Import Prelude.

(** The answers of [calloc], [malloc] and [strdup] during one call. *)
Record alloc_env : Type := mk_alloc_env {
  calloc_ok : bool;
  malloc_ok : bool;
  strdup_ok : bool
}.

Definition alloc_fine : alloc_env := mk_alloc_env true true true.

(** ** Prime bucket counts *)

(** One round of the trial division loop: the state is [i]. *)
Definition ll_is_prime_step (n i : Z) : Z + bool :=
  if u64 (i * i) <=? n then
    if (n mod i =? 0) || (n mod u64 (i + 2) =? 0) then inr false
    else inl (u64 (i + 6))
  else inr true.

Definition ll_is_prime (n : Z) : res bool :=
  if n <? 2 then Ok false
  else if (n =? 2) || (n =? 3) then Ok true
  else if (n mod 2 =? 0) || (n mod 3 =? 0) then Ok false
  else run_loop 64 (ll_is_prime_step n) 5.

Definition ll_next_prime_step (n : Z) : Z + res Z :=
  match ll_is_prime n with
  | Ok true => inr (Ok n)
  | Ok false => inl (u64 (n + 1))
  | Crash c => inr (Crash c)
  end.

Definition ll_next_prime (n : Z) : res Z :=
  let n := if n <? 2 then 2 else n in
  let* r := run_loop 64 ll_next_prime_step n in
  r.

(** ** Hashing *)

Definition fnv_byte (h : Z) (c : ascii) : Z :=
  u32 (Z.lxor h (Z.of_nat (nat_of_ascii c)) * 16777619).

Fixpoint ll_hash_str_from (h : Z) (s : string) : Z :=
  match s with
  | EmptyString => h
  | String c s' =>
      if Ascii.eqb c zero then h else ll_hash_str_from (fnv_byte h c) s'
  end.

Definition ll_hash_str (s : string) : Z := ll_hash_str_from 2166136261 s.

Definition ll_bucket_index (key : string) (nbuckets : Z) : nat :=
  Z.to_nat (ll_hash_str key mod nbuckets).

(** ** The table *)

Inductive ll_hash_status : Type :=
  | LL_HASH_INSERTED
  | LL_HASH_UPDATED
  | LL_HASH_EXISTS.

#[export] Instance ll_hash_status_eq_dec : EqDecision ll_hash_status.
Proof. solve_decision. Defined.

(** The entries of a bucket along [next], each a key with its value. *)
Abbreviation chain V := (list (string * V)).

Record ll_hash (V : Type) : Type := mk_ll_hash {
  buckets : list (chain V);
  nbuckets : Z;
  nentries : Z
}.
Arguments mk_ll_hash {V}.
Arguments buckets {V}.
Arguments nbuckets {V}.
Arguments nentries {V}.

Section table.
Context {V : Type}.
Implicit Types (ht : ll_hash V) (c : chain V) (e : string * V).

(** [ent->next = new_array[idx]; new_array[idx] = ent]. *)
Definition chain_push (nb : Z) (arr : list (chain V)) e : list (chain V) :=
  alter (cons e) (ll_bucket_index e.1 nb) arr.

Definition ll_hash_resize (m : alloc_env) ht (new_buckets : Z)
    : res (ll_hash V * Z) :=
  let* nb := ll_next_prime new_buckets in
  if negb (calloc_ok m) then Ok (ht, -1)
  else
    let arr :=
      foldl (fun arr c => foldl (chain_push nb) arr c)
            (replicate (Z.to_nat nb) []) (buckets ht) in
    Ok (mk_ll_hash arr nb (nentries ht), 0).

(** The load test [nentries / nbuckets <= 0.75] in doubles decides the same as
    the comparison of the integer products while both counts are below 2^51. *)
Definition ll_hash_maybe_grow (m : alloc_env) ht : res (ll_hash V * Z) :=
  if nbuckets ht =? 0 then Ok (ht, 0)
  else if 4 * nentries ht <=? 3 * nbuckets ht then Ok (ht, 0)
  else
    let* (ht', rc) := ll_hash_resize m ht (u64 (nbuckets ht * 2)) in
    if rc <? 0 then Ok (ht', -1) else Ok (ht', 0).

Definition ll_hash_init (m : alloc_env) (initial_buckets : Z)
    : res (option (ll_hash V)) :=
  let initial_buckets := if initial_buckets =? 0 then 11 else initial_buckets in
  let* nb := ll_next_prime initial_buckets in
  if negb (calloc_ok m) then Ok None
  else Ok (Some (mk_ll_hash (replicate (Z.to_nat nb) []) nb 0)).

Definition ll_hash_create (m : alloc_env) (initial_buckets : Z)
    : res (option (ll_hash V)) :=
  if negb (malloc_ok m) then Ok None else ll_hash_init m initial_buckets.

(** The chain walks: lookup, value replacement and unlinking. *)
Fixpoint chain_find (key : string) c : option V :=
  match c with
  | [] => None
  | (k, v) :: c' => if String.eqb k key then Some v else chain_find key c'
  end.

Fixpoint chain_update (key : string) (value : V) c : chain V :=
  match c with
  | [] => []
  | (k, v) :: c' =>
      if String.eqb k key then (k, value) :: c'
      else (k, v) :: chain_update key value c'
  end.

Fixpoint chain_remove (key : string) c : chain V :=
  match c with
  | [] => []
  | (k, v) :: c' =>
      if String.eqb k key then c' else (k, v) :: chain_remove key c'
  end.

Definition ll_hash_insert (m : alloc_env) ht (key : string) (value : V)
    (allow_update : bool) : res (ll_hash V * ll_hash_status) :=
  let* (ht, _) := ll_hash_maybe_grow m ht in
  let idx := ll_bucket_index key (nbuckets ht) in
  let* c := nth_res (buckets ht) idx in
  match chain_find key c with
  | Some _ =>
      if allow_update then
        Ok (mk_ll_hash (<[idx := chain_update key value c]> (buckets ht))
                       (nbuckets ht) (nentries ht), LL_HASH_UPDATED)
      else Ok (ht, LL_HASH_EXISTS)
  | None =>
      if negb (malloc_ok m) then Ok (ht, LL_HASH_EXISTS)
      else if negb (strdup_ok m) then Ok (ht, LL_HASH_EXISTS)
      else Ok (mk_ll_hash (<[idx := (key, value) :: c]> (buckets ht))
                          (nbuckets ht) (u64 (nentries ht + 1)),
               LL_HASH_INSERTED)
  end.

Definition ll_hash_search ht (key : string) : res (option V) :=
  let idx := ll_bucket_index key (nbuckets ht) in
  let* c := nth_res (buckets ht) idx in
  Ok (chain_find key c).

Definition ll_hash_contains ht (key : string) : res bool :=
  let idx := ll_bucket_index key (nbuckets ht) in
  let* c := nth_res (buckets ht) idx in
  Ok (existsb (fun e => String.eqb e.1 key) c).

Definition ll_hash_remove ht (key : string) : res (ll_hash V * option V) :=
  let idx := ll_bucket_index key (nbuckets ht) in
  let* c := nth_res (buckets ht) idx in
  match chain_find key c with
  | Some v =>
      Ok (mk_ll_hash (<[idx := chain_remove key c]> (buckets ht))
                     (nbuckets ht) (u64 (nentries ht - 1)), Some v)
  | None => Ok (ht, None)
  end.

Definition ll_hash_for_each {S : Type} (fn : S -> string -> V -> S) ht (s : S) : S :=
  foldl (fun s c => foldl (fun s e => fn s e.1 e.2) s c) s (buckets ht).

Definition ll_hash_count ht : Z := i32 (nentries ht).

(** ** Iteration: [entry] is the rest of the chain from [it->entry] on. *)
Record ll_hash_iter : Type := mk_ll_hash_iter {
  it_bucket : nat;
  it_entry : chain V
}.

Definition ll_hash_iter_init : ll_hash_iter := mk_ll_hash_iter 0 [].

(** The loop of [ll_hash_iter_next] that looks for a non-empty bucket;
    [rest] is the bucket array from index [b] on. *)
Fixpoint iter_scan (rest : list (chain V)) (b : nat) (entry : chain V)
    : ll_hash_iter * option (string * V) :=
  match entry with
  | e :: _ => (mk_ll_hash_iter b entry, Some e)
  | [] =>
      match rest with
      | [] => (mk_ll_hash_iter b [], None)
      | c :: rest' => iter_scan rest' (S b) c
      end
  end.

Definition ll_hash_iter_next ht (it : ll_hash_iter)
    : ll_hash_iter * option (string * V) :=
  iter_scan (drop (it_bucket it) (buckets ht)) (it_bucket it)
            (tail (it_entry it)).

(** [while ((e = ll_hash_iter_next(&it)))] with at most [fuel] rounds. *)
Fixpoint iter_collect ht (fuel : nat) (it : ll_hash_iter)
    : list (string * V) :=
  match fuel with
  | O => []
  | S fuel' =>
      match ll_hash_iter_next ht it with
      | (it', Some e) => e :: iter_collect ht fuel' it'
      | (_, None) => []
      end
  end.

(** ** The map a table stands for, and its invariant *)

Definition entries ht : list (string * V) := mjoin (buckets ht).

Definition hash_map ht : gmap string V := list_to_map (entries ht).

Definition placed (nb : Z) (arr : list (chain V)) : Prop :=
  forall i c e, arr !! i = Some c -> e ∈ c -> ll_bucket_index e.1 nb = i.

Record hash_wf ht : Prop := mk_hash_wf {
  wf_prime : prime (nbuckets ht);
  wf_length : Z.of_nat (length (buckets ht)) = nbuckets ht;
  wf_placed : placed (nbuckets ht) (buckets ht);
  wf_nodup : NoDup (entries ht).*1;
  wf_count : nentries ht = Z.of_nat (length (entries ht))
}.

End table.

Arguments ll_hash_iter V : clear implicits.
Arguments hash_wf {V} ht.

(** ** The prime search *)

(** No divisor of [n] lies between 2 and [i - 1]. *)
Definition no_small_divisor (n i : Z) : Prop :=
  forall d, 1 < d < i -> ~ (d | n).

Lemma no_small_divisor_prime n i :
  1 < n -> no_small_divisor n i -> n < i * i -> 0 < i -> prime n.
Proof.
  intros Hn Hd Hi Hi0. destruct (prime_dec n) as [|Hnp]; [done|exfalso].
  destruct (not_prime_divide n Hn Hnp) as (d & Hd1 & [q Hq]).
  destruct (Z_lt_ge_dec d i).
  - apply (Hd d); [lia|]. by exists q.
  - apply (Hd q); [nia|]. exists d. lia.
Qed.

#[export] Instance divide_decision (d n : Z) : Decision (d | n).
Proof.
  destruct (Z.eqb_spec d 0) as [->|Hd].
  - destruct (Z.eqb_spec n 0) as [->|]; [by left; exists 0|].
    right. intros [q Hq]. lia.
  - destruct (Z.eqb_spec (n mod d) 0) as [H|H]; [left|right];
      by rewrite <- Z.mod_divide.
Defined.

Lemma divides_mod n d : 0 < d -> (n mod d =? 0) = bool_decide (d | n).
Proof.
  intros Hd. apply eq_true_iff_eq. rewrite Z.eqb_eq, bool_decide_eq_true.
  apply Z.mod_divide. lia.
Qed.

(** The candidates [i + 1, i + 3, i + 4, i + 5] are multiples of 2 or 3. *)
Lemma no_small_divisor_step n i :
  i mod 6 = 5 -> ~ (2 | n) -> ~ (3 | n) -> no_small_divisor n i ->
  ~ (i | n) -> ~ (i + 2 | n) -> no_small_divisor n (i + 6).
Proof.
  intros Hmod H2 H3 Hd Hi Hi2 d Hdr Hdn.
  destruct (Z_lt_ge_dec d i); [apply (Hd d); [lia|done]|].
  pose proof (Z.div_mod i 6 ltac:(done)) as Hi6.
  assert (d = i \/ d = i + 1 \/ d = i + 2 \/ d = i + 3 \/ d = i + 4 \/ d = i + 5)
    as [->|[->|[->|[->|[->| ->]]]]] by lia; try done.
  - apply H2. transitivity (i + 1); [|done]. exists (3 * (i / 6) + 3). lia.
  - apply H2. transitivity (i + 3); [|done]. exists (3 * (i / 6) + 4). lia.
  - apply H3. transitivity (i + 4); [|done]. exists (2 * (i / 6) + 3). lia.
  - apply H2. transitivity (i + 5); [|done]. exists (3 * (i / 6) + 5). lia.
Qed.

Lemma prime_divisor n d : prime n -> 1 < d -> d < n -> ~ (d | n).
Proof.
  intros Hp H1 H2. apply prime_alt in Hp. apply Hp. lia.
Qed.

Lemma ll_is_prime_loop n :
  ~ (2 | n) -> ~ (3 | n) -> 5 <= n < 2 ^ 63 ->
  exists b, run_loop 64 (ll_is_prime_step n) 5 = Ok b /\ (b = true <-> prime n).
Proof.
  intros H2 H3 Hn.
  apply (run_loop_total (ll_is_prime_step n)
    (fun i => 5 <= i /\ i mod 6 = 5 /\ (i - 6) * (i - 6) <= n /\ no_small_divisor n i)
    (fun b => b = true <-> prime n) (fun i => 2 ^ 33 - i)); [|..].
  - intros i (Hi5 & Hi6 & Hsq & Hd). unfold ll_is_prime_step.
    assert (Hi : i < 2 ^ 32) by nia.
    rewrite !u64_small by nia.
    destruct (Z.leb_spec (i * i) n) as [Hle|Hgt].
    + rewrite !divides_mod by lia.
      destruct (bool_decide (i | n)) eqn:E1; cbn; b2p.
      { split; [done|]. intros Hp. exfalso. apply (prime_divisor n i Hp); [lia|nia|done]. }
      destruct (bool_decide (i + 2 | n)) eqn:E2; b2p.
      { split; [done|]. intros Hp. exfalso.
        apply (prime_divisor n (i + 2) Hp); [lia|nia|done]. }
      split; [|lia]. split; [lia|]. split.
      { rewrite Z.add_mod, Z.mod_same, Z.add_0_r, Z.mod_mod by done. done. }
      split; [by replace (i + 6 - 6) with i by lia|].
      by apply no_small_divisor_step.
    + split; [intros _|done]. apply (no_small_divisor_prime n i); lia || done.
  - repeat split; try lia. intros d Hd Hdn.
    assert (d = 2 \/ d = 3 \/ d = 4) as [->|[->| ->]] by lia; try done.
    apply H2. transitivity 4; [|done]. by exists 2.
  - lia.
Qed.

Lemma ll_is_prime_correct n :
  0 <= n < 2 ^ 63 -> exists b, ll_is_prime n = Ok b /\ (b = true <-> prime n).
Proof.
  intros Hn. unfold ll_is_prime.
  destruct (Z.ltb_spec n 2).
  { exists false. split; [done|]. split; [done|]. intros [? _]. lia. }
  destruct (Z.eqb_spec n 2) as [->|]; [by exists true; split; [|split; [intros; apply prime_alt, Z.prime_2|]]|].
  destruct (Z.eqb_spec n 3) as [->|]; [by exists true; split; [|split; [intros; apply prime_alt, Z.prime_3|]]|].
  cbn [orb]. rewrite !divides_mod by lia.
  destruct (bool_decide (2 | n)) eqn:E2; cbn [orb]; b2p.
  { exists false. split; [done|]. split; [done|]. intros Hp. exfalso.
    apply (prime_divisor n 2 Hp); lia || done. }
  destruct (bool_decide (3 | n)) eqn:E3; cbn [orb]; b2p.
  { exists false. split; [done|]. split; [done|]. intros Hp. exfalso.
    apply (prime_divisor n 3 Hp); lia || done. }
  apply ll_is_prime_loop; [done|done|].
  enough (n <> 4) by lia. intros ->. apply E2. by exists 2.
Qed.

(** The Mersenne prime that bounds the search in the tables of the daemons;
    the table's own test finds it prime. *)
Lemma prime_M31 : prime (2 ^ 31 - 1).
Proof.
  destruct (ll_is_prime_correct (2 ^ 31 - 1)) as (b & Hb & Hp); [lia|].
  apply Hp. assert (ll_is_prime (2 ^ 31 - 1) = Ok true) as H by (vm_compute; done).
  congruence.
Qed.

Definition least_prime_from (n p : Z) : Prop :=
  prime p /\ n <= p /\ forall q, n <= q < p -> ~ prime q.

Lemma ll_next_prime_correct n :
  0 <= n <= 2 ^ 31 - 1 ->
  exists p, ll_next_prime n = Ok p /\ least_prime_from n p /\ p <= 2 ^ 31 - 1.
Proof.
  intros Hn. unfold ll_next_prime. set (n0 := if n <? 2 then 2 else n).
  assert (Hn0 : 2 <= n0 <= 2 ^ 31 - 1 /\ n <= n0) by (subst n0; destruct (Z.ltb_spec n 2); lia).
  destruct (run_loop_total ll_next_prime_step
    (fun m => n0 <= m <= 2 ^ 31 - 1 /\ forall q, n0 <= q < m -> ~ prime q)
    (fun r => exists p, r = Ok p /\ least_prime_from n0 p /\ p <= 2 ^ 31 - 1)
    (fun m => 2 ^ 31 - m) 64 n0) as (r & -> & (p & -> & (Hp & Hle & Hmin) & Hb)); [| |lia|].
  - intros m (Hm & Hmin). unfold ll_next_prime_step.
    destruct (ll_is_prime_correct m) as (b & -> & Hbp); [lia|].
    destruct b.
    + exists m. split; [done|]. split; [|lia]. split; [by apply Hbp|]. split; [lia|done].
    + assert (m <> 2 ^ 31 - 1).
      { intros ->. pose proof prime_M31. apply Hbp in H. done. }
      rewrite u64_small by lia. split; [split; [lia|]|lia].
      intros q Hq. destruct (decide (q = m)) as [->|]; [|apply Hmin; lia].
      intros Hpm. apply Hbp in Hpm. done.
  - split; [lia|]. intros q Hq. lia.
  - exists p. cbn. split; [done|]. split; [|done]. split; [done|]. split; [lia|].
    intros q Hq Hpq. destruct (Z_lt_ge_dec q n0); [|apply (Hmin q); [lia|done]].
    subst n0. destruct (Z.ltb_spec n 2); [|lia]. destruct Hpq. lia.
Qed.

(** ** Chains *)

Section chains.
Context {V : Type}.
Implicit Types (ht : ll_hash V) (c : list (string * V)) (arr : list (list (string * V))).

Lemma ll_bucket_index_lt key nb :
  0 < nb -> Z.of_nat (ll_bucket_index key nb) < nb.
Proof.
  intros Hnb. unfold ll_bucket_index.
  pose proof (Z.mod_pos_bound (ll_hash_str key) nb Hnb). lia.
Qed.

Lemma chain_find_None key c : chain_find key c = None -> key ∉ c.*1.
Proof.
  induction c as [|[k v] c IH]; cbn; [by intros _ ?%not_elem_of_nil|].
  destruct (String.eqb_spec k key); [done|]. rewrite not_elem_of_cons. auto.
Qed.

(** A key that is found splits its chain at its first entry; replacing and
    removing act on that entry only. *)
Lemma chain_split key c v :
  chain_find key c = Some v ->
  exists c1 c2, c = c1 ++ (key, v) :: c2 /\
    (forall v', chain_update key v' c = c1 ++ (key, v') :: c2) /\
    chain_remove key c = c1 ++ c2.
Proof.
  induction c as [|[k w] c IH]; cbn; [done|].
  destruct (String.eqb_spec k key) as [->|].
  - intros [= ->]. by exists [], c.
  - intros (c1 & c2 & -> & Hu & Hr)%IH. exists ((k, w) :: c1), c2.
    rewrite Hr. split; [done|]. split; [|done]. intros v'. by rewrite Hu.
Qed.

Lemma chain_existsb key c :
  existsb (fun e => String.eqb e.1 key) c = bool_decide (is_Some (chain_find key c)).
Proof.
  induction c as [|[k v] c IH]; cbn; [done|].
  by destruct (String.eqb_spec k key).
Qed.

(** Writing one bucket of the array changes that bucket's part of the entries. *)
Lemma mjoin_insert arr i c :
  arr !! i = Some c ->
  exists l1 l2, mjoin arr = l1 ++ c ++ l2 /\
    forall c', mjoin (<[i := c']> arr) = l1 ++ c' ++ l2.
Proof.
  intros Hi. exists (mjoin (take i arr)), (mjoin (drop (S i) arr)).
  assert (Hlt := lookup_lt_Some _ _ _ Hi). split.
  - rewrite <- (take_drop_middle arr i c Hi) at 1. by rewrite join_app.
  - intros c'. rewrite insert_take_drop by done. by rewrite join_app.
Qed.

Lemma placed_insert nb arr i c :
  placed nb arr -> (forall e, e ∈ c -> ll_bucket_index e.1 nb = i) ->
  placed nb (<[i := c]> arr).
Proof.
  intros Hp Hc j c' e Hj He.
  apply list_lookup_insert_Some in Hj as [(-> & -> & _)|[_ Hj]]; eauto.
Qed.

(** *** Rehashing *)

Lemma chain_push_spec nb arr e :
  0 < nb -> Z.of_nat (length arr) = nb -> placed nb arr ->
  Z.of_nat (length (chain_push nb arr e)) = nb /\
  placed nb (chain_push nb arr e) /\ mjoin (chain_push nb arr e) ≡ₚ e :: mjoin arr.
Proof.
  intros Hnb Hlen Hp. unfold chain_push.
  pose proof (ll_bucket_index_lt e.1 nb Hnb) as Hidx.
  destruct (lookup_lt_is_Some_2 arr (ll_bucket_index e.1 nb)) as [c Hc]; [lia|].
  rewrite length_alter. split; [done|].
  rewrite (list_alter_insert _ _ _ _ Hc).
  split.
  - apply placed_insert; [done|]. intros e' [->|He']%elem_of_cons; [done|].
    by eapply Hp.
  - destruct (mjoin_insert arr _ c Hc) as (l1 & l2 & -> & ->). solve_Permutation.
Qed.

(** Pushing every chain of a bucket array keeps all entries. *)
Lemma rehash_spec nb (old arr : list (list (string * V))) :
  0 < nb -> Z.of_nat (length arr) = nb -> placed nb arr ->
  let arr' := foldl (fun arr c => foldl (chain_push nb) arr c) arr old in
  Z.of_nat (length arr') = nb /\ placed nb arr' /\
  mjoin arr' ≡ₚ mjoin old ++ mjoin arr.
Proof.
  intros Hnb. cbn zeta.
  assert (Hchain : forall c arr, Z.of_nat (length arr) = nb -> placed nb arr ->
    Z.of_nat (length (foldl (chain_push nb) arr c)) = nb /\
    placed nb (foldl (chain_push nb) arr c) /\
    mjoin (foldl (chain_push nb) arr c) ≡ₚ c ++ mjoin arr).
  { induction c as [|e c IH]; intros a Hlen Hp; cbn; [done|].
    destruct (chain_push_spec nb a e Hnb Hlen Hp) as (Hl1 & Hp1 & Hm1).
    destruct (IH _ Hl1 Hp1) as (Hl2 & Hp2 & ->). split; [done|]. split; [done|].
    rewrite Hm1. solve_Permutation. }
  revert arr. induction old as [|c old IH]; intros arr Hlen Hp; cbn; [done|].
  destruct (Hchain c arr Hlen Hp) as (Hl1 & Hp1 & Hm1).
  destruct (IH _ Hl1 Hp1) as (Hl2 & Hp2 & ->). split; [done|]. split; [done|].
  rewrite Hm1. solve_Permutation.
Qed.

Lemma mjoin_replicate_nil n : mjoin (replicate n ([] : list (string * V))) = [].
Proof. by induction n. Qed.

Lemma placed_replicate nb n : placed nb (replicate n ([] : list (string * V))).
Proof. intros i c e [-> _]%lookup_replicate. by intros ?%not_elem_of_nil. Qed.

(** *** Tables *)

(** Two tables with the same entries up to order stand for the same map. *)
Lemma hash_map_perm ht l :
  NoDup (entries ht).*1 -> entries ht ≡ₚ l -> hash_map ht = list_to_map l.
Proof. apply list_to_map_proper. Qed.

Lemma hash_wf_pos ht : hash_wf ht -> 1 < nbuckets ht.
Proof. by intros [[? _] _ _ _ _]. Qed.

Lemma hash_bucket ht key :
  hash_wf ht -> exists c, buckets ht !! ll_bucket_index key (nbuckets ht) = Some c.
Proof.
  intros Hwf. apply lookup_lt_is_Some_2.
  pose proof (hash_wf_pos ht Hwf). pose proof (wf_length ht Hwf).
  pose proof (ll_bucket_index_lt key (nbuckets ht)). lia.
Qed.

(** The walk of the key's own chain answers for the whole table. *)
Lemma chain_find_lookup ht key c :
  hash_wf ht -> buckets ht !! ll_bucket_index key (nbuckets ht) = Some c ->
  chain_find key c = hash_map ht !! key.
Proof.
  intros [_ _ Hp Hnd _] Hc. destruct (chain_find key c) as [v|] eqn:Hf.
  - apply chain_split in Hf as (c1 & c2 & -> & _). symmetry.
    apply elem_of_list_to_map_1; [done|]. apply list_elem_of_join.
    eexists. split; [|by eapply list_elem_of_lookup_2]. set_solver.
  - symmetry. apply not_elem_of_list_to_map. intros He.
    apply list_elem_of_fmap in He as ([k v] & -> & (c' & He & [i Hi]%list_elem_of_lookup)%list_elem_of_join).
    pose proof (Hp i c' (k, v) Hi He) as Hidx. cbn in *. subst i.
    assert (c' = c) as -> by congruence.
    apply chain_find_None in Hf. apply Hf. apply list_elem_of_fmap. by exists (k, v).
Qed.

(** A table whose entries are those of [l] up to order is well formed. *)
Lemma hash_wf_intro (arr : list (list (string * V))) nb n l :
  prime nb -> Z.of_nat (length arr) = nb -> placed nb arr ->
  mjoin arr ≡ₚ l -> NoDup l.*1 -> n = Z.of_nat (length l) ->
  hash_wf (mk_ll_hash arr nb n) /\ hash_map (mk_ll_hash arr nb n) = list_to_map l.
Proof.
  intros Hpr Hlen Hp Hl Hnd ->.
  assert (NoDup (mjoin arr).*1) by by rewrite Hl.
  split; [|by apply hash_map_perm]. split; [done..|].
  unfold entries. cbn. by rewrite Hl.
Qed.

End chains.

(** ** Refinement: the operations against a finite map *)

Section refinement.
Context {V : Type}.
Implicit Types (ht : ll_hash V).

(** What an insertion promises of the map and its status. *)
Definition insert_spec (m : alloc_env) (mp : gmap string V) (key : string)
    (value : V) (allow_update : bool) : gmap string V * ll_hash_status :=
  match mp !! key with
  | Some _ =>
      if allow_update then (<[key := value]> mp, LL_HASH_UPDATED)
      else (mp, LL_HASH_EXISTS)
  | None =>
      if malloc_ok m && strdup_ok m then (<[key := value]> mp, LL_HASH_INSERTED)
      else (mp, LL_HASH_EXISTS)
  end.

Lemma ll_hash_init_spec m n :
  0 <= n <= 2 ^ 31 - 1 -> calloc_ok m = true ->
  exists ht, ll_hash_init (V := V) m n = Ok (Some ht) /\ hash_wf ht /\
    hash_map ht = ∅ /\ least_prime_from (if n =? 0 then 11 else n) (nbuckets ht).
Proof.
  intros Hn Hm. unfold ll_hash_init.
  destruct (ll_next_prime_correct (if n =? 0 then 11 else n)) as (p & -> & Hp & Hle).
  { destruct (n =? 0); lia. }
  assert (1 < p) by (destruct Hp as [[? _] _]; lia).
  cbn. rewrite Hm. cbn. eexists. split; [done|].
  destruct (hash_wf_intro (replicate (Z.to_nat p) ([] : list (string * V))) p 0 [])
    as [Hwf Hmap]; auto.
  - apply Hp.
  - rewrite length_replicate. lia.
  - apply placed_replicate.
  - by rewrite mjoin_replicate_nil.
  - constructor.
Qed.

(** Growth changes the bucket array only: the map stays as it is. *)
Lemma ll_hash_maybe_grow_spec m ht :
  hash_wf ht -> nbuckets ht < 2 ^ 30 ->
  exists ht' rc, ll_hash_maybe_grow m ht = Ok (ht', rc) /\ hash_wf ht' /\
    hash_map ht' = hash_map ht /\ nentries ht' = nentries ht /\
    nbuckets ht <= nbuckets ht' < 2 ^ 31 /\
    (nbuckets ht' = nbuckets ht \/
     3 * nbuckets ht < 4 * nentries ht /\ least_prime_from (nbuckets ht * 2) (nbuckets ht')) /\
    (calloc_ok m = true -> 4 * nentries ht <= 6 * nbuckets ht ->
     4 * nentries ht' <= 3 * nbuckets ht').
Proof.
  intros Hwf Hlt. pose proof (hash_wf_pos ht Hwf). unfold ll_hash_maybe_grow.
  destruct (Z.eqb_spec (nbuckets ht) 0); [lia|].
  destruct (Z.leb_spec (4 * nentries ht) (3 * nbuckets ht)).
  { exists ht, 0. repeat (split; [done || lia|]). lia. }
  unfold ll_hash_resize. rewrite u64_small by lia.
  destruct (ll_next_prime_correct (nbuckets ht * 2)) as (p & -> & (Hp & Hge & Hmin) & Hle); [lia|].
  cbn. destruct (calloc_ok m); cbn.
  2:{ exists ht, (-1). repeat (split; [done || lia|]). done. }
  destruct (rehash_spec p (buckets ht) (replicate (Z.to_nat p) [])) as (Hl & Hpl & Hj).
  { lia. } { rewrite length_replicate. lia. } { apply placed_replicate. }
  rewrite mjoin_replicate_nil, app_nil_r in Hj.
  destruct (hash_wf_intro _ p (nentries ht) _ Hp Hl Hpl Hj) as [Hwf' Hmap];
    [apply Hwf..|].
  eexists _, 0. split; [done|]. split; [done|]. split; [by rewrite Hmap|]. cbn.
  split; [lia|]. split; [lia|]. split; [by right; split; [lia|]|lia].
Qed.

Lemma ll_hash_insert_spec m ht key v allow_update :
  hash_wf ht -> nbuckets ht < 2 ^ 30 -> nentries ht < 2 ^ 63 ->
  exists ht' st, ll_hash_insert m ht key v allow_update = Ok (ht', st) /\
    hash_wf ht' /\ (hash_map ht', st) = insert_spec m (hash_map ht) key v allow_update.
Proof.
  intros Hwf0 Hlt Hn0. unfold ll_hash_insert, insert_spec.
  destruct (ll_hash_maybe_grow_spec m ht Hwf0 Hlt)
    as (h & rc & -> & Hwf & <- & Hn & _ & _). cbn.
  destruct (hash_bucket h key Hwf) as [c Hc].
  unfold nth_res. rewrite Hc. cbn. rewrite <- (chain_find_lookup h key c Hwf Hc).
  pose proof (mjoin_insert _ _ _ Hc) as (l1 & l2 & Hj & Hj').
  assert (Hents : entries h = l1 ++ c ++ l2) by done.
  pose proof (wf_nodup h Hwf) as Hnd. pose proof (wf_count h Hwf) as Hcnt.
  rewrite Hents in Hnd, Hcnt. pose proof (wf_placed h Hwf) as Hpl.
  destruct (chain_find key c) as [v0|] eqn:Hf.
  - destruct allow_update; [|by exists h, LL_HASH_EXISTS].
    destruct (chain_split key c v0 Hf) as (c1 & c2 & -> & Hu & _). rewrite Hu.
    set (rest := l1 ++ c1 ++ c2 ++ l2).
    assert (Hndr : NoDup (key :: rest.*1)).
    { eapply NoDup_Permutation_proper; [|exact Hnd]. unfold rest.
      rewrite !fmap_app. cbn. rewrite ?fmap_app. cbn. solve_Permutation. }
    destruct (hash_wf_intro (<[ll_bucket_index key (nbuckets h):=c1 ++ (key, v) :: c2]> (buckets h))
      (nbuckets h) (nentries h) ((key, v) :: rest)) as [Hwf' Hm'];
      [apply Hwf | by rewrite length_insert; apply Hwf | | | done | | ].
    + apply placed_insert; [done|]. intros e He. apply elem_of_app in He as [He|[->|He]%elem_of_cons];
        [|done|]; eapply Hpl; eauto; set_solver.
    + rewrite Hj'. unfold rest. solve_Permutation.
    + rewrite Hcnt. unfold rest. rewrite ?length_app. cbn. rewrite ?length_app. lia.
    + eexists _, _. split; [done|]. split; [done|]. f_equal. rewrite Hm'. cbn.
      rewrite (hash_map_perm h ((key, v0) :: rest)); [cbn; by rewrite insert_insert_eq|apply Hwf|].
      rewrite Hents. unfold rest. solve_Permutation.
  - destruct (malloc_ok m); cbn; [|by exists h, LL_HASH_EXISTS].
    destruct (strdup_ok m); cbn; [|by exists h, LL_HASH_EXISTS].
    assert (Hfresh : key ∉ (entries h).*1).
    { apply not_elem_of_list_to_map. fold (hash_map h).
      by rewrite <- (chain_find_lookup h key c Hwf Hc). }
    destruct (hash_wf_intro (<[ll_bucket_index key (nbuckets h):=(key, v) :: c]> (buckets h))
      (nbuckets h) (u64 (nentries h + 1)) ((key, v) :: entries h)) as [Hwf' Hm'];
      [apply Hwf | by rewrite length_insert; apply Hwf | | | | | ].
    + apply placed_insert; [done|]. intros e [->|He]%elem_of_cons; [done|]. by eapply Hpl.
    + rewrite Hj', Hents. solve_Permutation.
    + cbn. constructor; [done|apply Hwf].
    + rewrite u64_small by (rewrite Hn; pose proof (wf_count ht Hwf0); lia).
      rewrite (wf_count h Hwf). cbn. lia.
    + eexists _, _. split; [done|]. split; [done|]. by rewrite Hm'.
Qed.

(** How far an insertion can grow the table. *)
Lemma ll_hash_insert_bounds m ht key v allow_update ht' st :
  hash_wf ht -> nbuckets ht < 2 ^ 30 ->
  ll_hash_insert m ht key v allow_update = Ok (ht', st) ->
  nentries ht' <= nentries ht + 1 /\
  (nbuckets ht' = nbuckets ht \/
   3 * nbuckets ht < 4 * nentries ht /\ least_prime_from (2 * nbuckets ht) (nbuckets ht')).
Proof.
  intros Hwf Hlt. pose proof (hash_wf_pos ht Hwf). pose proof (wf_count ht Hwf).
  destruct (ll_hash_maybe_grow_spec m ht Hwf Hlt) as (h & rc & Hg & Hwf' & _ & Hn & _ & Hb & _).
  unfold ll_hash_insert. rewrite Hg. cbn [res_bind].
  destruct (hash_bucket h key Hwf') as [c Hc]. unfold nth_res. rewrite Hc. cbn [res_bind].
  assert (Hu : u64 (nentries h + 1) <= nentries ht + 1).
  { rewrite Hn. unfold u64. apply Z.mod_le; lia. }
  rewrite (Z.mul_comm 2 (nbuckets ht)).
  destruct (chain_find key c), allow_update, (malloc_ok m), (strdup_ok m); cbn [negb];
    intros [= <- _]; cbn [nentries nbuckets]; (split; [lia|done]).
Qed.

Lemma ll_hash_search_spec ht key :
  hash_wf ht -> ll_hash_search ht key = Ok (hash_map ht !! key).
Proof.
  intros Hwf. destruct (hash_bucket ht key Hwf) as [c Hc].
  unfold ll_hash_search, nth_res. rewrite Hc. cbn. by rewrite <- (chain_find_lookup ht key c).
Qed.

Lemma ll_hash_contains_spec ht key :
  hash_wf ht -> ll_hash_contains ht key = Ok (bool_decide (is_Some (hash_map ht !! key))).
Proof.
  intros Hwf. destruct (hash_bucket ht key Hwf) as [c Hc].
  unfold ll_hash_contains, nth_res. rewrite Hc. cbn.
  by rewrite <- (chain_find_lookup ht key c), chain_existsb.
Qed.

Lemma ll_hash_remove_spec ht key :
  hash_wf ht -> nentries ht < 2 ^ 63 ->
  exists ht', ll_hash_remove ht key = Ok (ht', hash_map ht !! key) /\
    hash_wf ht' /\ hash_map ht' = delete key (hash_map ht).
Proof.
  intros Hwf Hn. unfold ll_hash_remove. destruct (hash_bucket ht key Hwf) as [c Hc].
  unfold nth_res. rewrite Hc. cbn. rewrite <- (chain_find_lookup ht key c Hwf Hc).
  destruct (chain_find key c) as [v|] eqn:Hf.
  2:{ exists ht. split; [done|]. split; [done|]. rewrite delete_id; [done|].
      by rewrite <- (chain_find_lookup ht key c Hwf Hc). }
  pose proof (mjoin_insert _ _ _ Hc) as (l1 & l2 & Hj & Hj').
  destruct (chain_split key c v Hf) as (c1 & c2 & -> & _ & Hr). rewrite Hr.
  set (rest := l1 ++ c1 ++ c2 ++ l2).
  assert (Hents : entries ht ≡ₚ (key, v) :: rest).
  { unfold entries. rewrite Hj. unfold rest. solve_Permutation. }
  assert (Hnd : NoDup (key :: rest.*1)).
  { pose proof (wf_nodup ht Hwf) as Hnd. by rewrite Hents in Hnd. }
  pose proof (wf_count ht Hwf) as Hcnt. rewrite Hents in Hcnt. cbn in Hcnt.
  destruct (hash_wf_intro (<[ll_bucket_index key (nbuckets ht):=c1 ++ c2]> (buckets ht))
    (nbuckets ht) (u64 (nentries ht - 1)) rest) as [Hwf' Hm'];
    [apply Hwf | by rewrite length_insert; apply Hwf | | | | | ].
  - apply placed_insert; [apply Hwf|]. intros e He. eapply (wf_placed ht Hwf); eauto. set_solver.
  - rewrite Hj'. unfold rest. solve_Permutation.
  - by apply NoDup_cons in Hnd as [_ ?].
  - rewrite u64_small; lia.
  - eexists. split; [done|]. split; [done|].
    rewrite Hm', (hash_map_perm ht ((key, v) :: rest)); [|apply Hwf|done]. cbn.
    rewrite delete_insert_id; [done|]. apply not_elem_of_list_to_map. by apply NoDup_cons in Hnd as [? _].
Qed.

End refinement.

(** ** Iteration *)

Section iteration.
Context {V : Type}.
Implicit Types (ht : ll_hash V).

(** The entries an iterator still has to hand out: the rest of the current
    chain after its current entry, then the buckets not yet opened. *)
Definition iter_todo ht (it : ll_hash_iter V) : list (string * V) :=
  tail (it_entry it) ++ mjoin (drop (it_bucket it) (buckets ht)).

Lemma iter_scan_spec (bs : list (list (string * V))) b entry :
  match iter_scan (drop b bs) b entry with
  | (it', Some e) =>
      entry ++ mjoin (drop b bs)
      = e :: (tail (it_entry it') ++ mjoin (drop (it_bucket it') bs))
  | (_, None) => entry ++ mjoin (drop b bs) = []
  end.
Proof.
  remember (drop b bs) as rest eqn:Hr. revert b entry Hr.
  induction rest as [|c rest IH]; intros b entry Hr; destruct entry as [|e entry]; cbn.
  - done.
  - by rewrite <- Hr.
  - assert (Hr' : rest = drop (S b) bs).
    { rewrite <- Nat.add_1_r, <- drop_drop, <- Hr. done. }
    apply (IH (S b) c Hr').
  - by rewrite <- Hr.
Qed.

Lemma ll_hash_iter_next_spec ht it :
  match ll_hash_iter_next ht it with
  | (it', Some e) => iter_todo ht it = e :: iter_todo ht it'
  | (_, None) => iter_todo ht it = []
  end.
Proof. apply iter_scan_spec. Qed.

Lemma iter_collect_spec ht fuel it :
  (length (iter_todo ht it) < fuel)%nat -> iter_collect ht fuel it = iter_todo ht it.
Proof.
  revert it. induction fuel as [|fuel IH]; intros it Hlt; [lia|]. cbn.
  pose proof (ll_hash_iter_next_spec ht it) as H.
  destruct (ll_hash_iter_next ht it) as [it' [e|]]; [|done].
  rewrite H in *. cbn in Hlt. f_equal. apply IH. lia.
Qed.

Lemma ll_hash_for_each_spec {S : Type} (fn : S -> string -> V -> S) ht s :
  ll_hash_for_each fn ht s = foldl (fun s e => fn s e.1 e.2) s (entries ht).
Proof.
  unfold ll_hash_for_each, entries. revert s.
  induction (buckets ht) as [|c bs IH]; intros s; cbn; [done|].
  by rewrite IH, foldl_app.
Qed.

End iteration.

(** ** The properties of the table *)

(** The bucket count search returns: from any count up to 2^31 - 1
    [ll_next_prime] ends, and its result is the least prime that is not below
    the requested count, as the comment of the C function promises. *)
Theorem ll_next_prime_least n :
  0 <= n <= 2 ^ 31 - 1 ->
  exists p, ll_next_prime n = Ok p /\ prime p /\ n <= p <= 2 ^ 31 - 1 /\
    forall q, n <= q < p -> ~ prime q.
Proof.
  intros (p & Hp & (H1 & H2 & H3) & H4)%ll_next_prime_correct.
  exists p. repeat (split; [done || lia|]). done.
Qed.

Lemma ll_next_prime_least_witness :
  exists p, ll_next_prime 22 = Ok p /\ prime p /\ 22 <= p <= 2 ^ 31 - 1 /\
    forall q, 22 <= q < p -> ~ prime q.
Proof. apply (ll_next_prime_least 22). lia. Defined.

(** C36: insertion refines insertion into a finite map on every branch (new
    key, update, refused duplicate, allocation failure during growth or of the
    entry), keeps the table well formed and never fails to return. *)
Theorem ll_hash_insert_refines {V : Type} (m : alloc_env) (ht : ll_hash V) key v allow_update :
  hash_wf ht -> nbuckets ht < 2 ^ 30 -> nentries ht < 2 ^ 63 ->
  exists ht' st, ll_hash_insert m ht key v allow_update = Ok (ht', st) /\
    hash_wf ht' /\
    match hash_map ht !! key with
    | Some _ =>
        if allow_update then st = LL_HASH_UPDATED /\ hash_map ht' = <[key := v]> (hash_map ht)
        else st = LL_HASH_EXISTS /\ hash_map ht' = hash_map ht
    | None =>
        if malloc_ok m && strdup_ok m
        then st = LL_HASH_INSERTED /\ hash_map ht' = <[key := v]> (hash_map ht)
        else st = LL_HASH_EXISTS /\ hash_map ht' = hash_map ht
    end.
Proof.
  intros Hwf Hb Hn.
  destruct (ll_hash_insert_spec m ht key v allow_update Hwf Hb Hn) as (ht' & st & H & Hwf' & Hs).
  exists ht', st. split; [done|]. split; [done|]. unfold insert_spec in Hs.
  destruct (hash_map ht !! key), allow_update, (malloc_ok m), (strdup_ok m);
    cbn in *; injection Hs as -> ->; done.
Qed.

(** A table of five buckets with one entry, for the witnesses. *)
Definition demo_hash : ll_hash Z :=
  match ll_hash_init alloc_fine 5 with
  | Ok (Some ht) =>
      match ll_hash_insert alloc_fine ht "normal" 1 false with
      | Ok (ht', _) => ht'
      | Crash _ => ht
      end
  | _ => mk_ll_hash [] 0 0
  end.

Lemma demo_hash_wf : hash_wf demo_hash.
Proof.
  destruct (ll_hash_init_spec (V := Z) alloc_fine 5) as (ht & Hi & Hwf & _ & Hp); [lia|done|].
  assert (nbuckets ht < 2 ^ 30 /\ nentries ht < 2 ^ 63) as [H1 H2].
  { vm_compute in Hi. injection Hi as <-. cbn. lia. }
  destruct (ll_hash_insert_spec alloc_fine ht "normal" 1 false Hwf H1 H2)
    as (ht' & st & Hins & Hwf' & _).
  unfold demo_hash. by rewrite Hi, Hins.
Qed.

Lemma ll_hash_insert_refines_witness :
  exists ht' st, ll_hash_insert alloc_fine demo_hash "night" 2 false = Ok (ht', st) /\
    hash_wf ht' /\ st = LL_HASH_INSERTED /\ hash_map ht' = <["night" := 2]> (hash_map demo_hash).
Proof.
  destruct (ll_hash_insert_refines alloc_fine demo_hash "night" 2 false demo_hash_wf)
    as (ht' & st & H1 & H2 & H3).
  - vm_compute. done.
  - vm_compute. done.
  - exists ht', st. split; [exact H1|]. split; [exact H2|].
    replace (hash_map demo_hash !! "night") with (@None Z) in H3 by (vm_compute; done).
    exact H3.
Defined.

(** Lookup, membership and removal refine the finite map: [ll_hash_search]
    and [ll_hash_contains] answer as the map does, and [ll_hash_remove] returns
    the stored value, deletes exactly that key and keeps the table well formed. *)
Theorem ll_hash_search_remove_refines {V : Type} (ht : ll_hash V) key :
  hash_wf ht -> nentries ht < 2 ^ 63 ->
  ll_hash_search ht key = Ok (hash_map ht !! key) /\
  ll_hash_contains ht key = Ok (bool_decide (is_Some (hash_map ht !! key))) /\
  exists ht', ll_hash_remove ht key = Ok (ht', hash_map ht !! key) /\
    hash_wf ht' /\ hash_map ht' = delete key (hash_map ht).
Proof.
  intros Hwf Hn. split; [by apply ll_hash_search_spec|].
  split; [by apply ll_hash_contains_spec|]. by apply ll_hash_remove_spec.
Qed.

Lemma ll_hash_search_remove_refines_witness :
  ll_hash_search demo_hash "normal" = Ok (Some 1) /\
  exists ht', ll_hash_remove demo_hash "normal" = Ok (ht', Some 1) /\ hash_map ht' = ∅.
Proof.
  destruct (ll_hash_search_remove_refines demo_hash "normal" demo_hash_wf)
    as (H1 & _ & ht' & H2 & _ & H3).
  - vm_compute. done.
  - replace (hash_map demo_hash !! "normal") with (Some 1) in H1, H2 by (vm_compute; done).
    split; [exact H1|]. exists ht'. split; [exact H2|]. rewrite H3. vm_compute. done.
Defined.

(** The iterator hands out every entry of the table exactly once and then
    NULL: a [while ((e = ll_hash_iter_next(&it)))] loop from
    [ll_hash_iter_init] collects a permutation of the map's bindings. *)
Theorem ll_hash_iterates_all {V : Type} (ht : ll_hash V) :
  hash_wf ht ->
  iter_collect ht (S (length (entries ht))) ll_hash_iter_init
    ≡ₚ map_to_list (hash_map ht).
Proof.
  intros Hwf. rewrite iter_collect_spec; 
    [|change (iter_todo ht ll_hash_iter_init) with (entries ht); lia].
  symmetry. apply map_to_list_to_map, Hwf.
Qed.

Lemma ll_hash_iterates_all_witness :
  iter_collect demo_hash (S (length (entries demo_hash))) ll_hash_iter_init
    ≡ₚ map_to_list (hash_map demo_hash).
Proof. apply (ll_hash_iterates_all demo_hash). exact demo_hash_wf. Defined.

(** The load policy: an insertion whose growth can allocate leaves the
    table with at most three quarters of a bucket per entry, plus the entry
    just added, provided it was not overfull by more than a factor of two. *)
Theorem ll_hash_load_bounded {V : Type} (m : alloc_env) (ht : ll_hash V) key v upd :
  hash_wf ht -> nbuckets ht < 2 ^ 30 -> calloc_ok m = true ->
  4 * nentries ht <= 3 * nbuckets ht + 4 ->
  exists ht' st, ll_hash_insert m ht key v upd = Ok (ht', st) /\
    4 * nentries ht' <= 3 * nbuckets ht' + 4.
Proof.
  intros Hwf Hb Hm Hload. pose proof (hash_wf_pos ht Hwf).
  assert (Hn : nentries ht < 2 ^ 63) by lia.
  destruct (ll_hash_maybe_grow_spec m ht Hwf Hb)
    as (h & rc & Hg & Hwf' & _ & Hcnt & Hnb & _ & Hl).
  specialize (Hl Hm ltac:(lia)).
  destruct (ll_hash_insert_spec m ht key v upd Hwf Hb Hn) as (ht' & st & Hi & Hwf2 & _).
  exists ht', st. split; [done|]. revert Hi. unfold ll_hash_insert. rewrite Hg. cbn.
  destruct (hash_bucket h key Hwf') as [c Hc]. unfold nth_res. rewrite Hc. cbn.
  pose proof (wf_count h Hwf').
  destruct (chain_find key c), upd, (malloc_ok m), (strdup_ok m); cbn;
    intros [= <- <-]; cbn; rewrite ?u64_small; lia.
Qed.

Lemma ll_hash_load_bounded_witness :
  exists ht' st, ll_hash_insert alloc_fine demo_hash "night" 2 false = Ok (ht', st) /\
    4 * nentries ht' <= 3 * nbuckets ht' + 4.
Proof.
  apply (ll_hash_load_bounded alloc_fine demo_hash "night" 2 false demo_hash_wf);
    vm_compute; done.
Defined.
