(* ===== verification/LlHeap.v ===== *)
(** * The intrusive binary heap, the stack and the bit set
      (base/lib/ll.heap.c, ll.stack.c, ll.bitset.c)

    An entry of the heap knows its position in the array and the struct that owns it.
    The operations are shown to keep every parent before its children, the positions
    in step with the array and the entries the same up to the one pushed or taken. *)

From S2P Require Import Prelude CString.

Open Scope list_scope.
Open Scope Z_scope.

(** ** The heap *)

Record ll_heap_entry : Type := mk_ll_heap_entry {
  he_idx : Z;
  he_owner : Z
}.

(** The entries by address. *)
Abbreviation hmem := (gmap Z ll_heap_entry).

(** [h_data] is the part of the array that was ever written; it has [h_cap] cells. *)
Record ll_heap : Type := mk_ll_heap {
  h_data : list Z;
  h_size : Z;
  h_cap : Z
}.

Definition data_at (h : ll_heap) (i : Z) : res Z := nth_res (h_data h) (Z.to_nat i).

(** [h->data[i] = e] within the array. *)
Definition data_set (h : ll_heap) (i e : Z) : ll_heap :=
  let d := h_data h in
  mk_ll_heap (if (Z.to_nat i <? length d)%nat then <[Z.to_nat i := e]> d else d ++ [e]) (h_size h) (h_cap h).

(** [h->data[i]->idx = v] *)
Definition set_idx (m : hmem) (h : ll_heap) (i v : Z) : res hmem :=
  let* p := data_at h i in
  let* e := deref (m !! p) in
  Ok (<[p := mk_ll_heap_entry v (he_owner e)]> m).

Definition owner_at (m : hmem) (h : ll_heap) (i : Z) : res Z :=
  let* p := data_at h i in
  let* e := deref (m !! p) in
  Ok (he_owner e).

Definition ll_heap_swap (m : hmem) (h : ll_heap) (i j : Z) : res (hmem * ll_heap) :=
  let* tmp := data_at h i in
  let* dj := data_at h j in
  let h := data_set h i dj in
  let h := data_set h j tmp in
  let* m := set_idx m h i i in
  let* m := set_idx m h j j in
  Ok (m, h).

Section heap.
(** The order of the owners. *)
Context (cmp : Z -> Z -> Z).

(** The position halves in every round: it is fuel enough. *)
Fixpoint sift_up_loop (fuel : nat) (m : hmem) (h : ll_heap) (i : Z) : res (hmem * ll_heap) :=
  if negb (0 <? i) then Ok (m, h)
  else
    match fuel with
    | O => Crash OutOfFuel
    | S fuel =>
        let parent := (i - 1) / 2 in
        let* a := owner_at m h parent in
        let* b := owner_at m h i in
        if cmp a b <=? 0 then Ok (m, h)
        else
          let* mh := ll_heap_swap m h i parent in
          sift_up_loop fuel mh.1 mh.2 parent
    end.

Definition ll_heap_sift_up (m : hmem) (h : ll_heap) (i : Z) : res (hmem * ll_heap) :=
  sift_up_loop (Z.to_nat i) m h i.

(** The child of [i] that should be above, or [smallest]. *)
Definition better_child (m : hmem) (h : ll_heap) (child smallest : Z) : res Z :=
  if child <? h_size h then
    let* a := owner_at m h child in
    let* b := owner_at m h smallest in
    Ok (if cmp a b <? 0 then child else smallest)
  else Ok smallest.

(** The position grows in every round and stays below the size. *)
Fixpoint sift_down_loop (fuel : nat) (m : hmem) (h : ll_heap) (i : Z) : res (hmem * ll_heap) :=
  match fuel with
  | O => Crash OutOfFuel
  | S fuel =>
      let* smallest := better_child m h (2 * i + 1) i in
      let* smallest := better_child m h (2 * i + 2) smallest in
      if smallest =? i then Ok (m, h)
      else
        let* mh := ll_heap_swap m h i smallest in
        sift_down_loop fuel mh.1 mh.2 smallest
  end.

Definition ll_heap_sift_down (m : hmem) (h : ll_heap) (i : Z) : res (hmem * ll_heap) :=
  sift_down_loop (S (Z.to_nat (h_size h))) m h i.

Definition ll_heap_init : ll_heap := mk_ll_heap [] 0 0.

Definition ll_heap_create (alloc : bool) : option ll_heap :=
  if alloc then Some ll_heap_init else None.

(** Room for one more; [alloc] is whether realloc succeeds, and its result is not
    checked. *)
Definition heap_grow (alloc : bool) (h : ll_heap) : res ll_heap :=
  if h_size h =? h_cap h then
    let cap := if h_cap h =? 0 then 64 else h_cap h * 2 in
    if alloc then Ok (mk_ll_heap (h_data h) (h_size h) cap) else Crash NullDeref
  else Ok h.

Definition ll_heap_push (alloc : bool) (m : hmem) (h : ll_heap) (e owner : Z) : res (hmem * ll_heap) :=
  let* h := heap_grow alloc h in
  let* _ := deref (m !! e) in
  let m := <[e := mk_ll_heap_entry (h_size h) owner]> m in
  let h := data_set h (h_size h) e in
  let h := mk_ll_heap (h_data h) (h_size h + 1) (h_cap h) in
  let* x := deref (m !! e) in
  ll_heap_sift_up m h (he_idx x).

Definition ll_heap_peek (m : hmem) (h : ll_heap) : res (option Z) :=
  if h_size h =? 0 then Ok None
  else let* o := owner_at m h 0 in Ok (Some o).

Definition ll_heap_pop (m : hmem) (h : ll_heap) : res (hmem * ll_heap * option Z) :=
  if h_size h =? 0 then Ok (m, h, None)
  else
    let* e := data_at h 0 in
    let* owner := owner_at m h 0 in
    let m := <[e := mk_ll_heap_entry (-1) owner]> m in
    let h := mk_ll_heap (h_data h) (h_size h - 1) (h_cap h) in
    if 0 <? h_size h then
      let* last := data_at h (h_size h) in
      let h := data_set h 0 last in
      let* m := set_idx m h 0 0 in
      let* mh := ll_heap_sift_down m h 0 in
      Ok (mh, Some owner)
    else Ok (m, h, Some owner).

Definition ll_heap_remove (m : hmem) (h : ll_heap) (e : Z) : res (hmem * ll_heap) :=
  let* x := deref (m !! e) in
  let i := he_idx x in
  if i <? 0 then Ok (m, h)
  else
    let m := <[e := mk_ll_heap_entry (-1) (he_owner x)]> m in
    let h := mk_ll_heap (h_data h) (h_size h - 1) (h_cap h) in
    if i =? h_size h then Ok (m, h)
    else
      let* last := data_at h (h_size h) in
      let h := data_set h i last in
      let* m := set_idx m h i i in
      let* mh := ll_heap_sift_down m h i in
      ll_heap_sift_up mh.1 mh.2 i.

Definition ll_heap_is_empty (h : ll_heap) : bool := h_size h =? 0.

Definition ll_heap_count (h : ll_heap) : Z := h_size h.
End heap.

(** ** Order of an array

    [k j] is the key at position [j] of an array of [n] cells. *)

Definition edge (p j : nat) : Prop := (j = 2 * p + 1 \/ j = 2 * p + 2)%nat.

Definition swapped (k : nat -> Z) (i j x : nat) : Z :=
  if (x =? i)%nat then k j else if (x =? j)%nat then k i else k x.

Section order.
Context (cmp : Z -> Z -> Z).
Context (cmp_flip : forall a b, 0 <= cmp a b -> cmp b a <= 0).
Context (cmp_trans : forall a b c, cmp a b <= 0 -> cmp b c <= 0 -> cmp a c <= 0).

Definition heap_order (k : nat -> Z) (n : nat) : Prop :=
  forall p j, edge p j -> (j < n)%nat -> cmp (k p) (k j) <= 0.

(** In order but for the edge into [i]. *)
Definition up_pre (k : nat -> Z) (n i : nat) : Prop :=
  (forall p j, edge p j -> (j < n)%nat -> j <> i -> cmp (k p) (k j) <= 0) /\
  (forall p j, edge p i -> edge i j -> (j < n)%nat -> cmp (k p) (k j) <= 0).

(** In order but for the edge into [i0] and the edges out of [x], where the element
    that is moved down from [i0] now is. *)
Record down_pre (k : nat -> Z) (n i0 x : nat) : Prop := mk_down_pre {
  dp_le : (i0 <= x)%nat;
  dp_edges : forall p j, edge p j -> (j < n)%nat -> j <> i0 -> p <> x -> cmp (k p) (k j) <= 0;
  dp_skip : forall p j, x <> i0 -> edge p x -> edge x j -> (j < n)%nat -> cmp (k p) (k j) <= 0;
  dp_start : forall p j, x = i0 -> edge p i0 -> edge i0 j -> (j < n)%nat -> cmp (k p) (k j) <= 0;
  dp_top : forall p, x <> i0 -> edge p i0 -> cmp (k p) (k i0) <= 0
}.

Lemma cmp_refl a : cmp a a <= 0.
Proof using cmp_flip. destruct (Z.le_gt_cases 0 (cmp a a)) as [H|H]; [by apply cmp_flip|lia]. Qed.

Ltac cases_at x i := destruct (Nat.eqb_spec x i); [subst|].

Lemma up_step k n i p :
  up_pre k n i -> edge p i -> (i < n)%nat -> 0 < cmp (k p) (k i) -> up_pre (swapped k i p) n p.
Proof using cmp_flip cmp_trans.
  intros [H1 H2] Hp Hi Hc. assert (Hip : cmp (k i) (k p) <= 0) by (apply cmp_flip; lia).
  assert (Hpi : p <> i) by (unfold edge in Hp; lia). split.
  - intros q j Hq Hj Hne. unfold swapped. destruct (Nat.eqb_spec j i) as [->|Hji].
    + assert (q = p) as -> by (unfold edge in *; lia). rewrite (proj2 (Nat.eqb_neq p i)), Nat.eqb_refl by done. done.
    + rewrite (proj2 (Nat.eqb_neq j p)) by done. destruct (Nat.eqb_spec q i) as [->|Hqi]; [by apply (H2 p)|].
      destruct (Nat.eqb_spec q p) as [->|Hqp].
      * eapply cmp_trans; [exact Hip|]. by apply H1.
      * by apply H1.
  - intros q j Hq Hj Hjn. unfold swapped.
    rewrite (proj2 (Nat.eqb_neq q i)), (proj2 (Nat.eqb_neq q p)) by (unfold edge in *; lia).
    assert (Hqp : cmp (k q) (k p) <= 0) by (apply H1; [done|unfold edge in *; lia|done]).
    destruct (Nat.eqb_spec j i) as [->|Hji]; [done|].
    rewrite (proj2 (Nat.eqb_neq j p)) by (unfold edge in *; lia). eapply cmp_trans; [exact Hqp|]. by apply H1.
Qed.

Lemma up_done k n i p : up_pre k n i -> edge p i -> cmp (k p) (k i) <= 0 -> heap_order k n.
Proof using Type.
  intros [H1 _] Hp Hc q j Hq Hj. destruct (decide (j = i)) as [->|]; [|by apply H1].
  assert (q = p) as -> by (unfold edge in *; lia). done.
Qed.

Lemma up_root k n : up_pre k n 0 -> heap_order k n.
Proof using Type. intros [H1 _] q j Hq Hj. apply H1; [done|done|]. unfold edge in Hq. lia. Qed.

Lemma down_step k n i0 x s :
  down_pre k n i0 x -> edge x s -> (s < n)%nat -> cmp (k s) (k x) <= 0 ->
  (forall j, edge x j -> (j < n)%nat -> cmp (k s) (k j) <= 0) ->
  down_pre (swapped k x s) n i0 s.
Proof using cmp_trans.
  intros [D0 D1 D2 D3 D4] Hs Hn Hsx Hmin. split.
  - unfold edge in Hs. lia.
  - intros p j Hp Hj Hi0 Hps. unfold swapped.
    destruct (Nat.eqb_spec p x) as [->|Hpx].
    + rewrite (proj2 (Nat.eqb_neq j x)) by (unfold edge in Hp; lia).
      destruct (Nat.eqb_spec j s) as [->|]; [done|by apply Hmin].
    + rewrite (proj2 (Nat.eqb_neq p s)) by done. destruct (Nat.eqb_spec j x) as [->|Hjx].
      * by apply D2.
      * destruct (Nat.eqb_spec j s) as [->|]; [unfold edge in *; lia|by apply D1].
  - intros p j _ Hp Hj Hjn. assert (p = x) as -> by (unfold edge in *; lia).
    unfold swapped. rewrite Nat.eqb_refl. rewrite !(proj2 (Nat.eqb_neq j _)) by (unfold edge in *; lia).
    apply D1; [done|done|unfold edge in *; lia|unfold edge in *; lia].
  - intros p j ->. unfold edge in Hs. lia.
  - intros p _ Hp. unfold swapped. rewrite !(proj2 (Nat.eqb_neq p _)) by (unfold edge in *; lia).
    destruct (Nat.eqb_spec i0 x) as [->|Hx].
    + by apply D3.
    + rewrite (proj2 (Nat.eqb_neq i0 s)) by (unfold edge in *; lia). by apply D4.
Qed.

Lemma down_done k n i0 x :
  down_pre k n i0 x -> (forall j, edge x j -> (j < n)%nat -> cmp (k x) (k j) <= 0) -> up_pre k n i0.
Proof using cmp_trans.
  intros [D0 D1 D2 D3 D4] Hx.
  assert (H1 : forall p j, edge p j -> (j < n)%nat -> j <> i0 -> cmp (k p) (k j) <= 0).
  { intros p j Hp Hj Hne. destruct (decide (p = x)) as [->|]; [by apply Hx|by apply D1]. }
  split; [done|]. intros p j Hp Hj Hn. destruct (decide (x = i0)) as [->|Hne]; [by apply (D3 p)|].
  eapply cmp_trans; [by apply (D4 p)|]. apply H1; [done|done|unfold edge in Hj; lia].
Qed.
End order.

(** ** The array in memory *)

(** The entries [es] are in the heap, in this order of the array, and each knows its
    position. *)
Record holds (m : hmem) (h : ll_heap) (es : list Z) : Prop := mk_holds {
  ho_size : h_size h = Z.of_nat (length es);
  ho_data : exists rest, h_data h = es ++ rest;
  ho_cap : Z.of_nat (length (h_data h)) <= h_cap h;
  ho_nodup : NoDup es;
  ho_idx : forall i e, es !! i = Some e -> exists o, m !! e = Some (mk_ll_heap_entry (Z.of_nat i) o)
}.

Definition owner (m : hmem) (e : Z) : Z := default 0 (he_owner <$> m !! e).

Definition key (m : hmem) (es : list Z) (j : nat) : Z := default 0 (owner m <$> es !! j).

(** What a rearrangement of the array leaves: the owners, the entries outside. *)
Record rearranged (m : hmem) (h : ll_heap) (es : list Z) (m' : hmem) (h' : ll_heap) (es' : list Z) : Prop :=
  mk_rearranged {
  ra_holds : holds m' h' es';
  ra_perm : es' ≡ₚ es;
  ra_owner : forall e, owner m' e = owner m e;
  ra_outside : forall e, e ∉ es -> m' !! e = m !! e;
  ra_cap : h_cap h' = h_cap h
}.

Lemma rearranged_refl m h es : holds m h es -> rearranged m h es m h es.
Proof. by intros H. Qed.

Lemma rearranged_trans m1 h1 es1 m2 h2 es2 m3 h3 es3 :
  rearranged m1 h1 es1 m2 h2 es2 -> rearranged m2 h2 es2 m3 h3 es3 -> rearranged m1 h1 es1 m3 h3 es3.
Proof.
  intros [A1 A2 A3 A4 A5] [B1 B2 B3 B4 B5]. split; [done|by rewrite B2| | |congruence].
  - intros e. by rewrite B3.
  - intros e He. rewrite B4, A4; [done|done|by rewrite A2].
Qed.

Lemma key_owner m m' es j : (forall e, owner m' e = owner m e) -> key m' es j = key m es j.
Proof. intros H. unfold key. destruct (es !! j); cbn; [by rewrite H|done]. Qed.

Lemma data_at_holds m h es i e : holds m h es -> es !! i = Some e -> data_at h (Z.of_nat i) = Ok e.
Proof.
  intros [Hs [rest Hd] Hc N Hi] He. unfold data_at, nth_res. rewrite Nat2Z.id, Hd, lookup_app_l, He; [done|].
  by eapply lookup_lt_Some.
Qed.

Lemma owner_at_holds m h es i e : holds m h es -> es !! i = Some e -> owner_at m h (Z.of_nat i) = Ok (key m es i).
Proof.
  intros H He. unfold owner_at, key, owner. rewrite (data_at_holds m h es i e), He by done. cbn.
  destruct (ho_idx m h es H i e He) as [o Ho]. by rewrite Ho.
Qed.

Lemma data_set_holds h d rest i e :
  h_data h = d ++ rest -> (i < length d)%nat -> h_data (data_set h (Z.of_nat i) e) = <[i := e]> d ++ rest.
Proof.
  intros Hd Hi. unfold data_set. cbn [h_data]. rewrite Nat2Z.id, Hd, length_app.
  rewrite (proj2 (Nat.ltb_lt _ _)) by lia. by apply insert_app_l.
Qed.

Lemma set_idx_Ok m h es rest i e x v :
  h_data h = es ++ rest -> es !! i = Some e -> m !! e = Some x ->
  set_idx m h (Z.of_nat i) v = Ok (<[e := mk_ll_heap_entry v (he_owner x)]> m).
Proof.
  intros Hd He Hx. unfold set_idx, data_at, nth_res. rewrite Nat2Z.id, Hd, lookup_app_l, He; [|by eapply lookup_lt_Some].
  cbn. by rewrite Hx.
Qed.

Lemma swap_perm (es : list Z) i j a b :
  es !! i = Some a -> es !! j = Some b -> i <> j -> <[j := a]> (<[i := b]> es) ≡ₚ es.
Proof.
  intros Ha Hb Hne. rewrite Permutation_inj. split; [by rewrite !length_insert|].
  exists (fun x => if decide (x = i) then j else if decide (x = j) then i else x). split.
  - intros x y. repeat case_decide; naive_solver.
  - intros x. cbv beta. destruct (decide (x = j)) as [->|Hj].
    + rewrite list_lookup_insert_eq by (rewrite length_insert; by eapply lookup_lt_Some).
      by destruct (decide (j = i)) as [->|].
    + rewrite list_lookup_insert_ne by done. destruct (decide (x = i)) as [->|Hi].
      * by rewrite list_lookup_insert_eq by by eapply lookup_lt_Some.
      * by rewrite list_lookup_insert_ne.
Qed.

Lemma owner_insert m e v o x : m !! e = Some x -> he_owner x = o ->
  forall y, owner (<[e := mk_ll_heap_entry v o]> m) y = owner m y.
Proof.
  intros Hx Ho y. unfold owner. destruct (decide (y = e)) as [->|].
  - by rewrite lookup_insert_eq, Hx; cbn.
  - by rewrite lookup_insert_ne.
Qed.

Lemma swap_holds m h es i j a b :
  holds m h es -> es !! i = Some a -> es !! j = Some b -> i <> j ->
  exists m' h', ll_heap_swap m h (Z.of_nat i) (Z.of_nat j) = Ok (m', h') /\
    rearranged m h es m' h' (<[j := a]> (<[i := b]> es)).
Proof.
  intros H Ha Hb Hne. pose proof H as [Hs [rest Hd] Hc N Hi].
  pose proof (lookup_lt_Some _ _ _ Ha) as Li. pose proof (lookup_lt_Some _ _ _ Hb) as Lj.
  assert (Hab : a <> b) by (intros ->; apply Hne; by eapply NoDup_lookup).
  destruct (Hi i a Ha) as [oa Hoa]. destruct (Hi j b Hb) as [ob Hob].
  unfold ll_heap_swap. rewrite (data_at_holds m h es i a), (data_at_holds m h es j b) by done. cbn [res_bind].
  set (es' := <[j := a]> (<[i := b]> es)).
  assert (D2 : h_data (data_set (data_set h (Z.of_nat i) b) (Z.of_nat j) a) = es' ++ rest).
  { apply data_set_holds; [by apply data_set_holds|by rewrite length_insert]. }
  assert (Ei : es' !! i = Some b) by (unfold es'; rewrite list_lookup_insert_ne, list_lookup_insert_eq; done).
  assert (Ej : es' !! j = Some a) by (unfold es'; rewrite list_lookup_insert_eq; [done|by rewrite length_insert]).
  rewrite (set_idx_Ok _ _ es' rest i b _ _ D2 Ei Hob). cbn [res_bind he_owner].
  assert (Hoa' : <[b := mk_ll_heap_entry (Z.of_nat i) ob]> m !! a = Some (mk_ll_heap_entry (Z.of_nat i) oa))
    by by rewrite lookup_insert_ne.
  rewrite (set_idx_Ok _ _ es' rest j a _ _ D2 Ej Hoa'). cbn [res_bind he_owner]. eexists _, _. split; [done|]. split.
  - split; [|by eexists|..].
    + cbn. unfold es'. by rewrite !length_insert.
    + cbn -[data_set]. rewrite D2. rewrite Hd in Hc. unfold es'. rewrite length_app, !length_insert in *. exact Hc.
    + unfold es'. by rewrite swap_perm.
    + intros x e He. destruct (decide (x = j)) as [->|Hxj].
      { rewrite Ej in He. injection He as <-. exists oa. by rewrite lookup_insert_eq. }
      destruct (decide (x = i)) as [->|Hxi].
      { rewrite Ei in He. injection He as <-. exists ob. by rewrite lookup_insert_ne, lookup_insert_eq. }
      unfold es' in He. rewrite !list_lookup_insert_ne in He by done.
      rewrite !lookup_insert_ne; [by apply Hi| |].
      * intros ->. apply Hxj. by eapply NoDup_lookup.
      * intros ->. apply Hxi. by eapply NoDup_lookup.
  - by apply swap_perm.
  - intros e. rewrite (owner_insert _ a (Z.of_nat j) oa _ Hoa') by done. by apply (owner_insert _ _ _ _ _ Hob).
  - intros e He. assert (e <> a) by (intros ->; apply He; by eapply list_elem_of_lookup_2).
    assert (e <> b) by (intros ->; apply He; by eapply list_elem_of_lookup_2). by rewrite !lookup_insert_ne.
  - done.
Qed.

Lemma key_swap m m' es i j a b x :
  (forall e, owner m' e = owner m e) -> es !! i = Some a -> es !! j = Some b -> i <> j ->
  key m' (<[j := a]> (<[i := b]> es)) x = swapped (key m es) i j x.
Proof.
  intros Ho Ha Hb Hne. rewrite (key_owner m) by done. unfold swapped, key.
  destruct (Nat.eqb_spec x i) as [->|Hi].
  - rewrite list_lookup_insert_ne, list_lookup_insert_eq, Hb by (done || by eapply lookup_lt_Some). done.
  - destruct (Nat.eqb_spec x j) as [->|Hj].
    + rewrite list_lookup_insert_eq, Ha; [done|]. rewrite length_insert. by eapply lookup_lt_Some.
    + by rewrite !list_lookup_insert_ne.
Qed.

(** ** Sifting *)

Section sift.
Context (cmp : Z -> Z -> Z).
Context (cmp_flip : forall a b, 0 <= cmp a b -> cmp b a <= 0).
Context (cmp_trans : forall a b c, cmp a b <= 0 -> cmp b c <= 0 -> cmp a c <= 0).

Lemma up_pre_ext k k' n i : (forall x, k' x = k x) -> up_pre cmp k n i -> up_pre cmp k' n i.
Proof using Type.
  intros E [H1 H2]. split; intros p j; rewrite !E; [apply H1|apply H2].
Qed.

Lemma down_pre_ext k k' n i x : (forall y, k' y = k y) -> down_pre cmp k n i x -> down_pre cmp k' n i x.
Proof using Type.
  intros E [D0 D1 D2 D3 D4]. split; [done| | | |].
  - intros p j. rewrite !E. apply D1.
  - intros p j. rewrite !E. apply D2.
  - intros p j. rewrite !E. apply D3.
  - intros p. rewrite !E. apply D4.
Qed.

Lemma parent_edge i : (0 < i)%nat -> exists p, edge p i /\ (Z.of_nat i - 1) / 2 = Z.of_nat p /\ (p < i)%nat.
Proof using Type.
  intros Hi. exists ((i - 1) / 2)%nat. pose proof (Nat.div_mod_eq (i - 1) 2) as H.
  pose proof (Nat.mod_upper_bound (i - 1) 2). split; [unfold edge; lia|]. split; [|lia].
  rewrite Nat2Z.inj_div, Nat2Z.inj_sub by lia. done.
Qed.

Lemma sift_up_ok fuel m h es i :
  holds m h es -> (i < length es)%nat -> (i <= fuel)%nat -> up_pre cmp (key m es) (length es) i ->
  exists m' h' es', sift_up_loop cmp fuel m h (Z.of_nat i) = Ok (m', h') /\
    rearranged m h es m' h' es' /\ heap_order cmp (key m' es') (length es').
Proof using cmp_flip cmp_trans.
  revert m h es i. induction fuel as [|fuel IH]; intros m h es i H Hi Hf U.
  { assert (i = 0%nat) as -> by lia. exists m, h, es. split; [done|]. split; [by apply rearranged_refl|]. by eapply up_root. }
  destruct (decide (i = 0%nat)) as [->|Hne].
  { exists m, h, es. split; [done|]. split; [by apply rearranged_refl|]. by eapply up_root. }
  destruct (parent_edge i ltac:(lia)) as (p & Hp & Hdiv & Hlt).
  destruct (lookup_lt_is_Some_2 es i Hi) as [a Ha]. destruct (lookup_lt_is_Some_2 es p ltac:(lia)) as [b Hb].
  cbn [sift_up_loop]. rewrite (proj2 (Z.ltb_lt 0 (Z.of_nat i))) by lia. cbn [negb]. rewrite Hdiv.
  rewrite (owner_at_holds m h es p b), (owner_at_holds m h es i a) by done. cbn [res_bind].
  destruct (Z.leb_spec (cmp (key m es p) (key m es i)) 0) as [Hle|Hgt].
  { exists m, h, es. split; [done|]. split; [by apply rearranged_refl|]. by eapply up_done. }
  destruct (swap_holds m h es i p a b H Ha Hb ltac:(lia)) as (m1 & h1 & -> & R1). cbn [res_bind fst snd].
  destruct (IH m1 h1 (<[p := a]> (<[i := b]> es)) p) as (m2 & h2 & es2 & Hr & R2 & O).
  - apply R1.
  - rewrite !length_insert. lia.
  - lia.
  - rewrite !length_insert. eapply up_pre_ext; [|by apply (up_step cmp cmp_flip cmp_trans (key m es) (length es) i p)].
    intros x. apply key_swap; [apply R1|done|done|lia].
  - exists m2, h2, es2. split; [done|]. split; [by eapply rearranged_trans|done].
Qed.

Lemma better_child_ok m h es c s es_c :
  holds m h es -> (s < length es)%nat -> es_c = Z.of_nat c ->
  exists s', better_child cmp m h es_c (Z.of_nat s) = Ok (Z.of_nat s') /\
    (s' = s \/ (s' = c /\ (c < length es)%nat)) /\ cmp (key m es s') (key m es s) <= 0 /\
    ((c < length es)%nat -> cmp (key m es s') (key m es c) <= 0).
Proof using cmp_flip.
  intros H Hs ->. unfold better_child. rewrite (ho_size _ _ _ H).
  pose proof (cmp_refl cmp cmp_flip) as Hrefl.
  destruct (Z.ltb_spec (Z.of_nat c) (Z.of_nat (length es))) as [Hc|Hc].
  2: { exists s. split_and!; [done|by left|done|lia]. }
  destruct (lookup_lt_is_Some_2 es c ltac:(lia)) as [a Ha]. destruct (lookup_lt_is_Some_2 es s Hs) as [b Hb].
  rewrite (owner_at_holds m h es c a), (owner_at_holds m h es s b) by done. cbn [res_bind].
  destruct (Z.ltb_spec (cmp (key m es c) (key m es s)) 0) as [Hlt|Hge].
  - exists c. split_and!; [done|right; split; [done|lia]|lia|done].
  - exists s. split_and!; [done|by left|done|]. intros _. by apply cmp_flip.
Qed.

Lemma sift_down_ok fuel m h es i0 x :
  holds m h es -> (x < length es)%nat -> (length es <= x + fuel)%nat -> down_pre cmp (key m es) (length es) i0 x ->
  exists m' h' es', sift_down_loop cmp fuel m h (Z.of_nat x) = Ok (m', h') /\
    rearranged m h es m' h' es' /\ up_pre cmp (key m' es') (length es') i0.
Proof using cmp_flip cmp_trans.
  revert m h es x. induction fuel as [|fuel IH]; intros m h es x H Hx Hf D; [lia|]. cbn [sift_down_loop].
  destruct (better_child_ok m h es (2 * x + 1) x (2 * Z.of_nat x + 1)) as (s1 & -> & C1 & L1 & B1); [done|done|lia|].
  cbn [res_bind].
  assert (Hs1 : (s1 < length es)%nat) by (destruct C1 as [->|[-> ?]]; lia).
  destruct (better_child_ok m h es (2 * x + 2) s1 (2 * Z.of_nat x + 2)) as (s & -> & C2 & L2 & B2); [done|done|lia|].
  cbn [res_bind]. assert (Hs : (s < length es)%nat) by (destruct C2 as [->|[-> ?]]; lia).
  assert (Hmin : forall j, edge x j -> (j < length es)%nat -> cmp (key m es s) (key m es j) <= 0).
  { intros j [->| ->] Hj; [eapply cmp_trans; [exact L2|by apply B1]|by apply B2]. }
  assert (Hsx : cmp (key m es s) (key m es x) <= 0) by by eapply cmp_trans.
  destruct (Z.eqb_spec (Z.of_nat s) (Z.of_nat x)) as [Heq|Hne].
  { apply Nat2Z.inj in Heq as ->. exists m, h, es. split; [done|]. split; [by apply rearranged_refl|].
    by eapply down_done. }
  assert (He : edge x s) by (unfold edge; destruct C2 as [->|[-> _]]; destruct C1 as [->|[-> _]]; lia).
  destruct (lookup_lt_is_Some_2 es x Hx) as [a Ha]. destruct (lookup_lt_is_Some_2 es s Hs) as [b Hb].
  destruct (swap_holds m h es x s a b H Ha Hb ltac:(lia)) as (m1 & h1 & -> & R1). cbn [res_bind fst snd].
  destruct (IH m1 h1 (<[s := a]> (<[x := b]> es)) s) as (m2 & h2 & es2 & Hr & R2 & O).
  - apply R1.
  - rewrite !length_insert. lia.
  - rewrite !length_insert. unfold edge in He. lia.
  - rewrite !length_insert. eapply down_pre_ext; [|by apply (down_step cmp cmp_trans (key m es) (length es) i0 x s)].
    intros y. apply key_swap; [apply R1|done|done|lia].
  - exists m2, h2, es2. split; [done|]. split; [by eapply rearranged_trans|done].
Qed.
End sift.

(** The last element put in the place of the one at [i]. *)
Lemma fill_holds m h front l i e o :
  holds m h (front ++ [l]) -> front !! i = Some e -> owner m e = o ->
  let m1 := <[e := mk_ll_heap_entry (-1) o]> m in
  let h1 := data_set (mk_ll_heap (h_data h) (h_size h - 1) (h_cap h)) (Z.of_nat i) l in
  exists m2, set_idx m1 h1 (Z.of_nat i) (Z.of_nat i) = Ok m2 /\ holds m2 h1 (<[i := l]> front) /\
    (forall x, owner m2 x = owner m x) /\ (forall x, x ∉ front ++ [l] -> m2 !! x = m !! x) /\
    m2 !! e = Some (mk_ll_heap_entry (-1) o).
Proof.
  intros [Hs [rest Hd] Hc N Hi] He Ho m1 h1. pose proof (lookup_lt_Some _ _ _ He) as Li.
  pose proof N as (Nf & Hfl & _)%NoDup_app.
  assert (Hel : e <> l) by (intros ->; apply (Hfl l); [by eapply list_elem_of_lookup_2|by left]).
  destruct (Hi i e) as [o' Hoe]; [by apply lookup_app_l_Some|].
  assert (o' = o) as -> by (unfold owner in Ho; by rewrite Hoe in Ho).
  destruct (Hi (length front) l) as [ol Hol]; [by rewrite lookup_app_r, Nat.sub_diag|].
  assert (D : h_data h1 = <[i := l]> front ++ l :: rest).
  { apply data_set_holds; [|done]. cbn. by rewrite Hd, <- app_assoc. }
  assert (El : <[i := l]> front !! i = Some l) by by apply list_lookup_insert_eq.
  assert (Hm1 : m1 !! l = Some (mk_ll_heap_entry (Z.of_nat (length front)) ol)) by (unfold m1; by rewrite lookup_insert_ne).
  rewrite (set_idx_Ok m1 h1 _ _ i l _ _ D El Hm1). cbn [he_owner]. eexists. split; [done|]. split_and!; [split|..].
  - unfold h1. cbn. rewrite length_insert, Hs, length_app. cbn. lia.
  - by eexists.
  - rewrite D. unfold h1. cbn -[data_set]. rewrite Hd in Hc. rewrite !length_app, ?length_insert in *. cbn in *. lia.
  - apply NoDup_alt. intros x y z Hx Hy. apply list_lookup_insert_Some in Hx, Hy.
    destruct Hx as [(<- & <- & _)|[Hxi Hx]], Hy as [(<- & Hyl & _)|[Hyi Hy]].
    + done.
    + exfalso. apply (Hfl l); [by eapply list_elem_of_lookup_2|by left].
    + exfalso. subst. apply (Hfl z); [by eapply list_elem_of_lookup_2|by left].
    + by eapply NoDup_lookup.
  - intros x y Hy. apply list_lookup_insert_Some in Hy as [(<- & <- & _)|[Hxi Hy]].
    + exists ol. by rewrite lookup_insert_eq.
    + assert (y <> l) by (intros ->; apply (Hfl l); [by eapply list_elem_of_lookup_2|by left]).
      assert (y <> e) by (intros ->; apply Hxi; by eapply NoDup_lookup).
      unfold m1. rewrite !lookup_insert_ne by done. apply Hi. by apply lookup_app_l_Some.
  - intros x. rewrite (owner_insert _ l _ ol _ Hm1) by done. by apply (owner_insert _ _ _ _ _ Hoe).
  - intros x Hx. assert (x <> l) by (intros ->; apply Hx; set_solver).
    assert (x <> e) by (intros ->; apply Hx, elem_of_app; left; by eapply list_elem_of_lookup_2).
    unfold m1. by rewrite !lookup_insert_ne.
  - unfold m1. by rewrite lookup_insert_ne, lookup_insert_eq.
Qed.

Lemma fill_key m m2 front l i j :
  (forall x, owner m2 x = owner m x) -> (i < length front)%nat -> (j < length front)%nat -> j <> i ->
  key m2 (<[i := l]> front) j = key m (front ++ [l]) j.
Proof.
  intros Ho Hi Hj Hne. rewrite (key_owner m) by done. unfold key.
  by rewrite list_lookup_insert_ne, lookup_app_l.
Qed.

(** ** Operations *)

Section ops.
Context (cmp : Z -> Z -> Z).
Context (cmp_flip : forall a b, 0 <= cmp a b -> cmp b a <= 0).
Context (cmp_trans : forall a b c, cmp a b <= 0 -> cmp b c <= 0 -> cmp a c <= 0).

Definition heap_ok (m : hmem) (h : ll_heap) (es : list Z) : Prop :=
  holds m h es /\ heap_order cmp (key m es) (length es).

(** The root is a minimum. *)
Lemma root_least k n j : heap_order cmp k n -> (j < n)%nat -> cmp (k 0%nat) (k j) <= 0.
Proof using cmp_flip cmp_trans.
  intros O. induction j as [j IH] using lt_wf_ind. intros Hj. destruct (decide (j = 0%nat)) as [->|Hne].
  - by apply cmp_refl.
  - destruct (parent_edge j ltac:(lia)) as (p & Hp & _ & Hlt).
    apply (cmp_trans _ (k p)); [apply IH; lia|by apply O].
Qed.

Lemma push_holds m h es e o :
  holds m h es -> e ∉ es -> h_size h < h_cap h ->
  holds (<[e := mk_ll_heap_entry (h_size h) o]> m)
    (mk_ll_heap (h_data (data_set h (h_size h) e)) (h_size h + 1) (h_cap h)) (es ++ [e]).
Proof using Type.
  intros [Hs [rest Hd] Hc N Hi] He Hlt. split; cbn [h_size h_data h_cap].
  - rewrite length_app. cbn. lia.
  - unfold data_set. cbn [h_data]. rewrite Hs, Nat2Z.id, Hd. destruct rest as [|r rest].
    + rewrite app_nil_r. destruct (Nat.ltb_spec (length es) (length es)); [lia|]. exists []. by rewrite app_nil_r.
    + rewrite length_app. cbn [length]. rewrite (proj2 (Nat.ltb_lt _ _)) by lia. exists rest.
      rewrite <- (Nat.add_0_r (length es)), insert_app_r. cbn. by rewrite <- app_assoc.
  - unfold data_set. cbn [h_data]. rewrite Hs, Nat2Z.id. destruct (_ <? _)%nat eqn:Hb.
    + by rewrite length_insert.
    + apply Nat.ltb_ge in Hb. rewrite length_app. cbn. lia.
  - apply NoDup_app. split_and!; [done| |apply NoDup_singleton]. by intros x Hx ->%list_elem_of_singleton.
  - intros i x Hx. apply lookup_snoc_Some in Hx as [[Hlt' Hx]|[-> <-]].
    + rewrite lookup_insert_ne; [by apply Hi|]. intros ->. apply He. by eapply list_elem_of_lookup_2.
    + exists o. rewrite lookup_insert_eq. by rewrite Hs.
Qed.

Lemma push_ok m h es e o :
  heap_ok m h es -> e ∉ es -> is_Some (m !! e) ->
  exists m' h' es', ll_heap_push cmp true m h e o = Ok (m', h') /\ heap_ok m' h' es' /\ es' ≡ₚ e :: es /\
    owner m' e = o /\ (forall x, x <> e -> owner m' x = owner m x).
Proof using cmp_flip cmp_trans.
  intros [H O] He [x Hx]. unfold ll_heap_push.
  assert (Hg : exists h1, heap_grow true h = Ok h1 /\ holds m h1 es /\ h_size h1 < h_cap h1).
  { pose proof H as [Hs Hd Hc N Hi]. destruct Hd as [rest Hd]. assert (h_size h <= h_cap h) by (rewrite Hd, length_app in Hc; lia).
    unfold heap_grow. destruct (Z.eqb_spec (h_size h) (h_cap h)) as [Heq|]; [|exists h; split_and!; [done|done|lia]].
    eexists. split; [done|]. destruct (Z.eqb_spec (h_cap h) 0); cbn; (split; [split; cbn; [done|by eexists|lia|done|done]|lia]). }
  destruct Hg as (h1 & -> & H1 & Hlt). cbn [res_bind]. rewrite Hx. cbn [deref res_bind].
  pose proof (push_holds m h1 es e o H1 He Hlt) as H2. cbn zeta.
  rewrite lookup_insert_eq. cbn [deref res_bind he_idx].
  change (h_size (data_set h1 (h_size h1) e)) with (h_size h1). change (h_cap (data_set h1 (h_size h1) e)) with (h_cap h1).
  unfold ll_heap_sift_up. pose proof (ho_size _ _ _ H1) as Hs1. rewrite Hs1 in H2 |- *. rewrite Nat2Z.id.
  set (m2 := <[e := mk_ll_heap_entry (Z.of_nat (length es)) o]> m) in *.
  assert (Ho : forall y, y <> e -> owner m2 y = owner m y).
  { intros y Hy. unfold owner, m2. by rewrite lookup_insert_ne. }
  assert (Hk : forall j, (j < length es)%nat -> key m2 (es ++ [e]) j = key m es j).
  { intros j Hj. unfold key. rewrite lookup_app_l by done. destruct (lookup_lt_is_Some_2 es j Hj) as [y Hy]. rewrite Hy.
    cbn. apply Ho. intros ->. apply He. by eapply list_elem_of_lookup_2. }
  destruct (sift_up_ok cmp cmp_flip cmp_trans (length es) m2 _ (es ++ [e]) (length es) H2) as (m' & h' & es' & Hr & R & O').
  - rewrite length_app. cbn. lia.
  - done.
  - rewrite length_app. cbn [length]. split.
    + intros p j Hp Hj Hne. rewrite !Hk by (unfold edge in Hp; lia). apply O; [done|lia].
    + intros p j Hp Hj Hjn. unfold edge in Hj. lia.
  - exists m', h', es'. split; [exact Hr|]. split_and!; [split; [apply R|done]| | |].
    + rewrite (ra_perm _ _ _ _ _ _ R). by rewrite Permutation_app_comm.
    + rewrite (ra_owner _ _ _ _ _ _ R). unfold owner, m2. by rewrite lookup_insert_eq.
    + intros y Hy. rewrite (ra_owner _ _ _ _ _ _ R). by apply Ho.
Qed.

Lemma fill_down m m2 front l i :
  heap_order cmp (key m (front ++ [l])) (length (front ++ [l])) -> (forall x, owner m2 x = owner m x) ->
  (i < length front)%nat -> down_pre cmp (key m2 (<[i := l]> front)) (length front) i i.
Proof using cmp_trans.
  intros O Ho Hi. rewrite length_app in O. cbn in O. split; [done| |by intros| |by intros].
  - intros p j Hp Hj Hne Hpi. rewrite !(fill_key m) by (done || unfold edge in *; lia). apply O; [done|lia].
  - intros p j _ Hp Hj Hn. rewrite !(fill_key m) by (done || unfold edge in *; lia).
    apply (cmp_trans _ (key m (front ++ [l]) i)); apply O; done || lia.
Qed.

Lemma sift_down_from m h es i :
  holds m h es -> (i < length es)%nat -> down_pre cmp (key m es) (length es) i i ->
  exists m' h' es', ll_heap_sift_down cmp m h (Z.of_nat i) = Ok (m', h') /\
    rearranged m h es m' h' es' /\ up_pre cmp (key m' es') (length es') i.
Proof using cmp_flip cmp_trans.
  intros H Hi D. unfold ll_heap_sift_down. rewrite (ho_size _ _ _ H), Nat2Z.id.
  apply sift_down_ok; try done. lia.
Qed.

(** What taking the entry [e] out leaves. *)
Definition taken (m : hmem) (es : list Z) (e : Z) (m' : hmem) (h' : ll_heap) : Prop :=
  exists es', heap_ok m' h' es' /\ es ≡ₚ e :: es' /\ (forall x, owner m' x = owner m x) /\
    he_idx <$> m' !! e = Some (-1).

(** The middle part of [ll_heap_pop] and [ll_heap_remove]. *)
Lemma fill_sift m h front l i e :
  heap_ok m h (front ++ [l]) -> front !! i = Some e ->
  let m1 := <[e := mk_ll_heap_entry (-1) (owner m e)]> m in
  let h1 := data_set (mk_ll_heap (h_data h) (h_size h - 1) (h_cap h)) (Z.of_nat i) l in
  exists m2 m3 h3 es3, set_idx m1 h1 (Z.of_nat i) (Z.of_nat i) = Ok m2 /\
    ll_heap_sift_down cmp m2 h1 (Z.of_nat i) = Ok (m3, h3) /\ holds m3 h3 es3 /\
    up_pre cmp (key m3 es3) (length es3) i /\ front ++ [l] ≡ₚ e :: es3 /\ length es3 = length front /\
    (forall x, owner m3 x = owner m x) /\ he_idx <$> m3 !! e = Some (-1).
Proof using cmp_flip cmp_trans.
  intros [H O] He m1 h1. destruct (fill_holds m h front l i e _ H He eq_refl) as (m2 & Hm2 & H2 & Ow2 & Out2 & He2).
  pose proof (lookup_lt_Some _ _ _ He) as Li.
  destruct (sift_down_from m2 h1 (<[i := l]> front) i) as (m3 & h3 & es3 & Hr & R & U).
  - done.
  - by rewrite length_insert.
  - rewrite length_insert. by apply (fill_down m).
  - assert (P : front ++ [l] ≡ₚ e :: <[i := l]> front).
    { rewrite insert_take_drop by done. rewrite <- (take_drop_middle front i e He) at 1. solve_Permutation. }
    assert (Hne : e ∉ <[i := l]> front).
    { pose proof (ho_nodup _ _ _ H) as N. rewrite P in N. by apply NoDup_cons in N as [? _]. }
    exists m2, m3, h3, es3. split_and!; [done|done|apply R|done| | | |].
    + rewrite (ra_perm _ _ _ _ _ _ R). done.
    + rewrite (ra_perm _ _ _ _ _ _ R). by rewrite length_insert.
    + intros x. by rewrite (ra_owner _ _ _ _ _ _ R).
    + rewrite (ra_outside _ _ _ _ _ _ R), He2 by done. done.
Qed.
Lemma key_at m es i e : es !! i = Some e -> key m es i = owner m e.
Proof using Type. intros He. unfold key. by rewrite He. Qed.

Lemma pop_ok m h es :
  heap_ok m h es ->
  match es with
  | [] => ll_heap_pop cmp m h = Ok (m, h, None)
  | e :: _ => exists m' h', ll_heap_pop cmp m h = Ok (m', h', Some (owner m e)) /\ taken m es e m' h'
  end.
Proof using cmp_flip cmp_trans.
  intros HO. pose proof HO as [H O]. unfold ll_heap_pop. rewrite (ho_size _ _ _ H).
  destruct es as [|e es]; [done|]. rewrite (proj2 (Z.eqb_neq _ 0)) by (cbn; lia).
  change 0 with (Z.of_nat 0) at 1 2. rewrite (data_at_holds m h _ 0 e), (owner_at_holds m h _ 0 e) by done.
  cbn [res_bind]. rewrite (key_at m _ 0 e) by done. rewrite <- (ho_size _ _ _ H). cbn zeta. cbn [h_size].
  destruct es as [|f es _] using rev_ind.
  - rewrite (ho_size _ _ _ H). cbn. eexists _, _. split; [done|]. exists []. destruct (ho_idx _ _ _ H 0%nat e eq_refl) as [o Ho].
    assert (owner m e = o) by (unfold owner; by rewrite Ho). split_and!; [split|done| |].
    + destruct H as [Hs [rest Hd] Hc N Hi]. split; cbn; [lia|by eexists|done|apply NoDup_nil_2|].
      by intros i x Hx.
    + intros p j Hp Hj. cbn in Hj. lia.
    + by apply (owner_insert _ _ _ _ _ Ho).
    + by rewrite lookup_insert_eq.
  - assert (Hsz : h_size h - 1 = Z.of_nat (length (e :: es))).
    { rewrite (ho_size _ _ _ H). cbn. rewrite length_app. cbn. lia. }
    rewrite (proj2 (Z.ltb_lt 0 _)) by (rewrite Hsz; cbn; lia).
    assert (Hd : data_at (mk_ll_heap (h_data h) (h_size h - 1) (h_cap h)) (h_size h - 1) = Ok f).
    { change (data_at h (h_size h - 1) = Ok f). rewrite Hsz. eapply data_at_holds; [exact H|].
      change (e :: es ++ [f]) with ((e :: es) ++ [f]). by rewrite lookup_app_r, Nat.sub_diag. }
    rewrite Hd. cbn [res_bind].
    destruct (fill_sift m h (e :: es) f 0 e HO eq_refl) as (m2 & m3 & h3 & es3 & Hm2 & Hr & H3 & U & P & L & Ow & Hx).
    change (Z.of_nat 0) with 0 in *. rewrite Hm2. cbn [res_bind]. rewrite Hr. cbn [res_bind].
    eexists _, _. split; [done|]. exists es3. split_and!; [split; [done|by eapply up_root]|done|done|done].
Qed.

Lemma remove_ok m h es e :
  heap_ok m h es -> e ∈ es -> exists m' h', ll_heap_remove cmp m h e = Ok (m', h') /\ taken m es e m' h'.
Proof using cmp_flip cmp_trans.
  intros HO [i Hi]%list_elem_of_lookup. pose proof HO as [H O]. unfold ll_heap_remove.
  destruct (ho_idx _ _ _ H i e Hi) as [o Ho]. assert (Hoe : owner m e = o) by (unfold owner; by rewrite Ho).
  rewrite Ho. cbn [deref res_bind he_idx he_owner]. rewrite (proj2 (Z.ltb_ge _ 0)) by lia. cbn zeta. cbn [h_size].
  destruct es as [|l front _] using rev_ind; [done|].
  assert (Hsz : h_size h - 1 = Z.of_nat (length front)) by (rewrite (ho_size _ _ _ H), length_app; cbn; lia).
  rewrite Hsz. apply lookup_snoc_Some in Hi as [[Li Hi]|[-> ->]].
  - rewrite (proj2 (Z.eqb_neq _ _)) by lia.
    assert (Hd : data_at (mk_ll_heap (h_data h) (Z.of_nat (length front)) (h_cap h)) (Z.of_nat (length front)) = Ok l).
    { eapply (data_at_holds m h); [exact H|]. by rewrite lookup_app_r, Nat.sub_diag. }
    rewrite Hd. cbn [res_bind].
    destruct (fill_sift m h front l i e HO Hi) as (m2 & m3 & h3 & es3 & Hm2 & Hr & H3 & U & P & L & Ow & Hx).
    rewrite Hsz, Hoe in *. rewrite Hm2. cbn [res_bind]. rewrite Hr. cbn [res_bind fst snd].
    unfold ll_heap_sift_up. rewrite Nat2Z.id.
    destruct (sift_up_ok cmp cmp_flip cmp_trans i m3 h3 es3 i H3) as (m4 & h4 & es4 & Hr4 & R & O4); [lia|done|done|].
    eexists _, _. split; [exact Hr4|]. exists es4.
    assert (Hne : e ∉ es3).
    { pose proof (ho_nodup _ _ _ H) as N. rewrite P in N. by apply NoDup_cons in N as [? _]. }
    split_and!; [split; [apply R|done]| | |].
    + by rewrite P, (ra_perm _ _ _ _ _ _ R).
    + intros x. by rewrite (ra_owner _ _ _ _ _ _ R).
    + by rewrite (ra_outside _ _ _ _ _ _ R).
  - rewrite Z.eqb_refl. eexists _, _. split; [done|]. exists front. split_and!; [split| | |].
    + destruct H as [Hs [rest Hd] Hc N Hidx]. pose proof N as (Nf & Hfl & _)%NoDup_app. split; cbn; [done| |done|done|].
      * exists (e :: rest). by rewrite Hd, <- app_assoc.
      * intros i x Hx. rewrite lookup_insert_ne; [apply Hidx; by apply lookup_app_l_Some|].
        intros ->. apply (Hfl x); [by eapply list_elem_of_lookup_2|by left].
    + intros p j Hp Hj. rewrite (key_owner m _ _ p), (key_owner m _ _ j) by by apply (owner_insert _ _ _ _ _ Ho).
      assert (E : forall x, (x < length front)%nat -> key m front x = key m (front ++ [e]) x).
      { intros x Hx. unfold key. by rewrite lookup_app_l. }
      rewrite !E by (unfold edge in Hp; lia). apply O; [done|]. rewrite length_app. cbn. lia.
    + by rewrite Permutation_app_comm.
    + by apply (owner_insert _ _ _ _ _ Ho).
    + by rewrite lookup_insert_eq.
Qed.
End ops.

(** C38: the heap is a priority queue of its entries.  From a heap in order, for a
    comparison that is a total preorder: pushing an entry that is not in it adds exactly
    that entry with its owner; peeking and popping yield an owner that no owner in the
    heap is below, and popping takes exactly its entry out; removing an entry takes
    exactly that one out, wherever it is, and removing one that is not in a heap does
    nothing.  The entry taken out gets the index -1, every entry in the heap knows its
    place in the array, and the heap is in order again.  Every operation returns. *)
Theorem ll_heap_priority_queue cmp m h es :
  (forall a b, 0 <= cmp a b -> cmp b a <= 0) ->
  (forall a b c, cmp a b <= 0 -> cmp b c <= 0 -> cmp a c <= 0) ->
  heap_ok cmp m h es ->
  (forall e o, e ∉ es -> is_Some (m !! e) ->
     exists m' h' es', ll_heap_push cmp true m h e o = Ok (m', h') /\ heap_ok cmp m' h' es' /\ es' ≡ₚ e :: es /\
       owner m' e = o /\ (forall x, x <> e -> owner m' x = owner m x)) /\
  (es = [] -> ll_heap_peek m h = Ok None /\ ll_heap_pop cmp m h = Ok (m, h, None)) /\
  (es <> [] -> exists e, e ∈ es /\ (forall x, x ∈ es -> cmp (owner m e) (owner m x) <= 0) /\
     ll_heap_peek m h = Ok (Some (owner m e)) /\
     exists m' h', ll_heap_pop cmp m h = Ok (m', h', Some (owner m e)) /\ taken cmp m es e m' h') /\
  (forall e, e ∈ es -> exists m' h', ll_heap_remove cmp m h e = Ok (m', h') /\ taken cmp m es e m' h') /\
  (forall e x, m !! e = Some x -> he_idx x = -1 -> ll_heap_remove cmp m h e = Ok (m, h)).
Proof.
  intros Hf Ht HO. pose proof HO as [H O]. split_and!.
  - intros e o He Hm. by apply push_ok.
  - intros ->. split; [|by apply (pop_ok cmp Hf Ht m h [])]. unfold ll_heap_peek. by rewrite (ho_size _ _ _ H).
  - intros Hne. destruct es as [|e es]; [done|]. exists e. split_and!; [by left| | |by apply (pop_ok cmp Hf Ht m h (e :: es))].
    + intros x [j Hj]%list_elem_of_lookup. rewrite <- (key_at m (e :: es) 0 e eq_refl), <- (key_at m _ j x Hj).
      eapply root_least; [done|done|done|]. by eapply lookup_lt_Some.
    + unfold ll_heap_peek. rewrite (ho_size _ _ _ H), (proj2 (Z.eqb_neq _ 0)) by (cbn; lia).
      change 0 with (Z.of_nat 0). by rewrite (owner_at_holds m h (e :: es) 0 e).
  - intros e He. by apply remove_ok.
  - intros e x Hx Hi. unfold ll_heap_remove. by rewrite Hx; cbn; rewrite Hi.
Qed.

(** A heap of three entries ordered by the number of their owners. *)
Definition heap_demo_mem : hmem :=
  {[ 1 := mk_ll_heap_entry 0 10; 2 := mk_ll_heap_entry 1 30; 3 := mk_ll_heap_entry 2 20; 4 := mk_ll_heap_entry (-1) 5 ]}.
Definition heap_demo : ll_heap := mk_ll_heap [1; 2; 3] 3 64.

Lemma heap_demo_ok : heap_ok Z.sub heap_demo_mem heap_demo [1; 2; 3].
Proof.
  split.
  - split; [done|by exists []|cbn; lia| |].
    + repeat (apply NoDup_cons; split; [set_solver|]). apply NoDup_nil_2.
    + intros [|[|[|i]]] e He; try done; injection He as <-; by eexists.
  - intros p j Hp Hj. cbn in Hj. unfold edge in Hp. assert (p = 0%nat) as -> by lia.
    destruct Hp as [->| ->]; vm_compute; discriminate.
Qed.

Lemma ll_heap_priority_queue_witness :
  exists m' h', ll_heap_remove Z.sub heap_demo_mem heap_demo 2 = Ok (m', h') /\
    taken Z.sub heap_demo_mem [1; 2; 3] 2 m' h'.
Proof.
  apply (ll_heap_priority_queue Z.sub heap_demo_mem heap_demo [1; 2; 3]).
  - intros a b. lia.
  - intros a b c. lia.
  - apply heap_demo_ok.
  - set_solver.
Defined.

(** ** The stack *)

(** [st_items] is the part of the array below the highest size the stack had. *)
Record ll_stack : Type := mk_ll_stack {
  st_items : list Z;
  st_size : nat;
  st_capacity : nat
}.

(** [a1] and [a2] are whether the two allocations succeed. *)
Definition ll_stack_create (a1 a2 : bool) (initial_capacity : nat) : option ll_stack :=
  if negb a1 then None
  else
    let cap := if (initial_capacity =? 0)%nat then 16%nat else initial_capacity in
    if negb a2 then None else Some (mk_ll_stack [] 0 cap).

(** [None] is a NULL stack, [false] is -1. *)
Definition ll_stack_push (alloc : bool) (s : option ll_stack) (item : Z) : option ll_stack * bool :=
  match s with
  | None => (None, false)
  | Some s =>
      let put s := (Some (mk_ll_stack (take (st_size s) (st_items s) ++ [item]) (S (st_size s)) (st_capacity s)), true) in
      if (st_size s =? st_capacity s)%nat then
        let new_cap := if (st_capacity s =? 0)%nat then 16%nat else (st_capacity s * 2)%nat in
        if negb alloc then (Some s, false) else put (mk_ll_stack (st_items s) (st_size s) new_cap)
      else put s
  end.

Definition ll_stack_pop (s : option ll_stack) : res (option ll_stack * option Z) :=
  match s with
  | None => Ok (None, None)
  | Some s =>
      if (st_size s =? 0)%nat then Ok (Some s, None)
      else
        let* x := nth_res (st_items s) (st_size s - 1) in
        Ok (Some (mk_ll_stack (st_items s) (st_size s - 1) (st_capacity s)), Some x)
  end.

Definition ll_stack_is_empty (s : option ll_stack) : bool :=
  match s with None => true | Some s => (st_size s =? 0)%nat end.

(** The stack holds [xs], the top last. *)
Definition stack_holds (s : ll_stack) (xs : list Z) : Prop :=
  st_size s = length xs /\ (length xs <= st_capacity s)%nat /\ exists rest, st_items s = xs ++ rest.

(** Last in, first out; a failed push changes nothing. *)
Lemma stack_push_pop alloc s xs x :
  stack_holds s xs ->
  match ll_stack_push alloc (Some s) x with
  | (Some s', true) => stack_holds s' (xs ++ [x]) /\
      exists s'', ll_stack_pop (Some s') = Ok (Some s'', Some x) /\ stack_holds s'' xs
  | (Some s', false) => s' = s /\ alloc = false
  | (None, _) => False
  end.
Proof.
  intros (Hs & Hc & rest & Hd). unfold ll_stack_push.
  assert (Hput : forall cap, (length xs < cap)%nat ->
    let s' := mk_ll_stack (take (st_size s) (st_items s) ++ [x]) (S (st_size s)) cap in
    stack_holds s' (xs ++ [x]) /\ exists s'', ll_stack_pop (Some s') = Ok (Some s'', Some x) /\ stack_holds s'' xs).
  { intros cap Hcap. cbn zeta. rewrite Hs, Hd, take_app_length. split.
    - split_and!; cbn; [rewrite length_app; cbn; lia|rewrite length_app; cbn; lia|]. exists []. by rewrite app_nil_r.
    - cbn. rewrite Nat.sub_0_r. unfold nth_res. rewrite lookup_app_r, Nat.sub_diag by done. cbn. eexists. split; [done|].
      split_and!; cbn; [done|lia|by eexists]. }
  destruct (Nat.eqb_spec (st_size s) (st_capacity s)) as [Heq|Hne].
  - destruct alloc; cbn [negb]; [|done]. apply Hput. cbn [st_capacity]. destruct (Nat.eqb_spec (st_capacity s) 0); lia.
  - apply Hput. lia.
Qed.

(** ** The bit set *)

(** [bs_words] are the [bs_nwords] words of 64 bits. *)
Record ll_bitset : Type := mk_ll_bitset {
  bs_words : list Z;
  bs_nwords : Z
}.

Definition LL_BITSET_WORDS (nbits : Z) : Z := Z.quot (nbits + 63) 64.

Definition ll_bitset_init (nwords : Z) : res ll_bitset :=
  let* _ := c_assert (0 <? nwords) in
  Ok (mk_ll_bitset (replicate (Z.to_nat nwords) 0) nwords).

(** A word that is not there is outside the array. *)
Definition bs_word (bs : ll_bitset) (w : Z) : res Z :=
  if w <? 0 then Crash BadIndex else nth_res (bs_words bs) (Z.to_nat w).

Definition bs_put (bs : ll_bitset) (w v : Z) : ll_bitset :=
  mk_ll_bitset (<[Z.to_nat w := v]> (bs_words bs)) (bs_nwords bs).

Definition ll_bitset_set (bs : ll_bitset) (i : Z) : res ll_bitset :=
  let word := Z.quot i 64 in
  let bit := Z.rem i 64 in
  let* _ := c_assert ((0 <=? i) && (word <? bs_nwords bs)) in
  let* v := bs_word bs word in
  Ok (bs_put bs word (Z.lor v (u64 (Z.shiftl 1 bit)))).

Definition ll_bitset_clr (bs : ll_bitset) (i : Z) : res ll_bitset :=
  let* v := bs_word bs (Z.shiftr i 6) in
  Ok (bs_put bs (Z.shiftr i 6) (Z.land v (u64 (Z.lnot (u64 (Z.shiftl 1 (Z.land i 63))))))).

Definition ll_bitset_get (bs : ll_bitset) (i : Z) : res Z :=
  let* v := bs_word bs (Z.shiftr i 6) in
  Ok (Z.land (Z.shiftr v (Z.land i 63)) 1).

Definition ll_bitset_zero (bs : ll_bitset) : ll_bitset :=
  mk_ll_bitset (replicate (Z.to_nat (bs_nwords bs)) 0) (bs_nwords bs).

(** [dst] has at least the words of [src]. *)
Definition ll_bitset_copy (dst src : ll_bitset) : ll_bitset :=
  mk_ll_bitset (take (Z.to_nat (bs_nwords src)) (bs_words src) ++ drop (Z.to_nat (bs_nwords src)) (bs_words dst))
    (bs_nwords dst).

Definition ll_bitset_any (bs : ll_bitset) : bool :=
  existsb (fun v => negb (v =? 0)) (take (Z.to_nat (bs_nwords bs)) (bs_words bs)).

(** The words are there and have 64 bits. *)
Definition bitset_ok (bs : ll_bitset) : Prop :=
  Z.of_nat (length (bs_words bs)) = bs_nwords bs /\ Forall (fun v => 0 <= v < 2 ^ 64) (bs_words bs).

(** The set of bits [bs] stands for. *)
Definition bit_in (bs : ll_bitset) (i : Z) : bool :=
  Z.testbit (default 0 (bs_words bs !! Z.to_nat (i / 64))) (i mod 64).

Definition in_range (bs : ll_bitset) (i : Z) : Prop := 0 <= i < 64 * bs_nwords bs.

Lemma word_of bs i : in_range bs i -> Z.quot i 64 = i / 64 /\ Z.rem i 64 = i mod 64 /\ Z.shiftr i 6 = i / 64 /\ Z.land i 63 = i mod 64 /\
  0 <= i / 64 < bs_nwords bs /\ 0 <= i mod 64 < 64.
Proof.
  intros [H0 H1]. pose proof (Z.mod_pos_bound i 64 ltac:(lia)).
  split_and!; [apply Z.quot_div_nonneg; lia|apply Z.rem_mod_nonneg; lia|by rewrite Z.shiftr_div_pow2| | | |lia|lia].
  - change 63 with (Z.ones 6). by rewrite Z.land_ones.
  - apply Z.div_pos; lia.
  - apply Z.div_lt_upper_bound; lia.
Qed.

Lemma bs_word_ok bs i :
  bitset_ok bs -> in_range bs i ->
  exists v, bs_word bs (i / 64) = Ok v /\ bs_words bs !! Z.to_nat (i / 64) = Some v /\ 0 <= v < 2 ^ 64.
Proof.
  intros [Hl F] Hi. destruct (word_of bs i Hi) as (_ & _ & _ & _ & [W0 W1] & _).
  destruct (lookup_lt_is_Some_2 (bs_words bs) (Z.to_nat (i / 64)) ltac:(lia)) as [v Hv].
  exists v. split_and!; [|done|apply (Forall_lookup_1 _ _ _ _ F Hv)..].
  unfold bs_word, nth_res. rewrite (proj2 (Z.ltb_ge _ 0)) by lia. by rewrite Hv.
Qed.

Lemma bit_put bs i j v w :
  bitset_ok bs -> in_range bs i -> in_range bs j -> bs_words bs !! Z.to_nat (i / 64) = Some w ->
  (forall b, 0 <= b < 64 -> b <> i mod 64 -> Z.testbit v b = Z.testbit w b) ->
  bit_in (bs_put bs (i / 64) v) j = if i =? j then Z.testbit v (i mod 64) else bit_in bs j.
Proof.
  intros Hb Hi Hj Hw Hv. destruct (word_of bs i Hi) as (_ & _ & _ & _ & [W0 W1] & R).
  destruct (word_of bs j Hj) as (_ & _ & _ & _ & [X0 X1] & Q).
  unfold bit_in, bs_put. cbn [bs_words]. destruct (Z.eqb_spec i j) as [->|Hne].
  - rewrite list_lookup_insert_eq; [done|]. by eapply lookup_lt_Some.
  - destruct (decide (i / 64 = j / 64)) as [He|He].
    + rewrite <- He, list_lookup_insert_eq, Hw by by eapply lookup_lt_Some. cbn. apply Hv; [done|].
      intros Hm. apply Hne. rewrite (Z.div_mod i 64), (Z.div_mod j 64) by lia. congruence.
    + rewrite list_lookup_insert_ne; [done|]. lia.
Qed.

(** Setting and clearing a bit changes that bit and no other. *)
Lemma bitset_set_clr_get bs i :
  bitset_ok bs -> in_range bs i ->
  (exists bs', ll_bitset_set bs i = Ok bs' /\ forall j, in_range bs j -> bit_in bs' j = (i =? j) || bit_in bs j) /\
  (exists bs', ll_bitset_clr bs i = Ok bs' /\ forall j, in_range bs j -> bit_in bs' j = negb (i =? j) && bit_in bs j) /\
  ll_bitset_get bs i = Ok (Z.b2z (bit_in bs i)).
Proof.
  intros Hb Hi. destruct (word_of bs i Hi) as (Hq & Hr & Hs & Hl & [W0 W1] & R).
  destruct (bs_word_ok bs i Hb Hi) as (w & Hw & Hlk & Bw).
  assert (H1 : u64 (Z.shiftl 1 (i mod 64)) = 2 ^ (i mod 64)).
  { rewrite Z.shiftl_1_l. apply Z.mod_small. split; [lia|]. apply Z.pow_lt_mono_r; lia. }
  split_and!.
  - unfold ll_bitset_set. rewrite Hq, Hr, Hw, H1. unfold c_assert, guard_or.
    rewrite (proj2 (Z.leb_le 0 i)), (proj2 (Z.ltb_lt _ _)) by (unfold in_range in Hi; lia). cbn [andb res_bind].
    eexists. split; [done|]. intros j Hj. rewrite (bit_put bs i j _ w); [|done..|].
    + destruct (Z.eqb_spec i j) as [->|]; [|done]. rewrite Z.lor_spec, Z.pow2_bits_true by lia. by rewrite orb_true_r.
    + intros b Hb1 Hne. rewrite Z.lor_spec, Z.pow2_bits_false by lia. by rewrite orb_false_r.
  - unfold ll_bitset_clr. rewrite Hs, Hl, Hw, H1. cbn [res_bind]. eexists. split; [done|]. intros j Hj.
    assert (Hbit : forall b, 0 <= b < 64 -> Z.testbit (u64 (Z.lnot (2 ^ (i mod 64)))) b = negb (i mod 64 =? b)).
    { intros b Hb1. unfold u64. rewrite Z.mod_pow2_bits_low, Z.lnot_spec, Z.pow2_bits_eqb by lia. done. }
    rewrite (bit_put bs i j _ w); [|done..|].
    + destruct (Z.eqb_spec i j) as [->|]; [|done]. rewrite Z.land_spec, Hbit, Z.eqb_refl by done. by rewrite andb_false_r.
    + intros b Hb1 Hne. rewrite Z.land_spec, Hbit, (proj2 (Z.eqb_neq _ b)) by (done || lia). by rewrite andb_true_r.
  - unfold ll_bitset_get. rewrite Hs, Hl, Hw. cbn [res_bind]. unfold bit_in. rewrite Hlk. cbn [default].
    change 1 with (Z.ones 1). rewrite Z.land_ones by lia. f_equal. change (2 ^ 1) with 2. cbn.
    rewrite Z.testbit_spec' by lia. by rewrite Z.shiftr_div_pow2 by lia.
Qed.
