(* ===== verification/Dependency.v ===== *)
(** * Job dependency conditions (src/batch/lib/dependency.c)

    The recursive-descent parser that turns a condition such as
    [done(12) && !exit(13)] into a postfix list of [job_dep] nodes, and the
    evaluator of that list on a fixed stack of sixteen entries. *)

From S2P Require Import Prelude CString.

Open Scope string_scope.
Open Scope list_scope.
Open Scope Z_scope.

Inductive dep_type : Type :=
  | DEP_DONE | DEP_EXIT | DEP_ENDED | DEP_AND | DEP_OR | DEP_NOT.

#[export] Instance dep_type_eq_dec : EqDecision dep_type.
Proof. solve_decision. Defined.

Record job_dep : Type := mk_job_dep {
  dep_kind : dep_type;
  dep_job_id : Z
}.

#[export] Instance job_dep_eq_dec : EqDecision job_dep.
Proof. solve_decision. Defined.

Inductive dep_parse_status : Type :=
  | DEP_PARSE_OK
  | DEP_PARSE_SYNTAX
  | DEP_PARSE_UNKNOWN_JOB.

#[export] Instance dep_parse_status_eq_dec : EqDecision dep_parse_status.
Proof. solve_decision. Defined.

Definition DEP_MAX_STACK : nat := 16.

(** [p] is the text from the cursor on. *)
Record dep_parser : Type := mk_dep_parser {
  dp_p : string;
  dp_deps : list job_dep;
  dp_error : dep_parse_status
}.

Definition dep_parser_eta (d : dep_parser) : dep_parser :=
  mk_dep_parser (dp_p d) (dp_deps d) (dp_error d).
#[export] Instance set_dp_p : Setter dp_p. Proof. setter dep_parser_eta. Defined.
#[export] Instance set_dp_deps : Setter dp_deps. Proof. setter dep_parser_eta. Defined.
#[export] Instance set_dp_error : Setter dp_error. Proof. setter dep_parser_eta. Defined.

(** ** The parser *)

Section parser.
(** [resolve] is the caller's callback, [None] for NULL; [malloc_ok n] is the
    answer of [malloc] for the node appended to a list of [n] nodes. *)
Context (resolve : option (Z -> bool)) (malloc_ok : nat -> bool).
Implicit Types (dp : dep_parser).

Definition dp_ok dp : bool := bool_decide (dp_error dp = DEP_PARSE_OK).

Definition skip_ws dp : dep_parser := dp <| dp_p ::= skip_while isspace |>.

Definition emit dp (type : dep_type) (job_id : Z) : dep_parser :=
  if negb (dp_ok dp) then dp
  else if negb (malloc_ok (length (dp_deps dp))) then dp <| dp_error := DEP_PARSE_SYNTAX |>
  else dp <| dp_deps ::= fun l => l ++ [mk_job_dep type job_id] |>.

Definition syntax_error dp : dep_parser := dp <| dp_error := DEP_PARSE_SYNTAX |>.

(** [strncmp(s, lit, strlen(lit)) == 0], with the text after [lit]. *)
Fixpoint strip_prefix (lit s : string) : option string :=
  match lit, s with
  | EmptyString, _ => Some s
  | String a lit', String b s' => if Ascii.eqb a b then strip_prefix lit' s' else None
  | String _ _, EmptyString => None
  end.

(** The keyword of a condition and the text after it. *)
Definition dep_keyword (s : string) : option (dep_type * string) :=
  match strip_prefix "done" s with
  | Some s' => Some (DEP_DONE, s')
  | None =>
      match strip_prefix "exit" s with
      | Some s' => Some (DEP_EXIT, s')
      | None =>
          match strip_prefix "ended" s with
          | Some s' => Some (DEP_ENDED, s')
          | None => None
          end
      end
  end.

Definition parse_funccall dp : dep_parser :=
  match dep_keyword (dp_p dp) with
  | None => syntax_error dp
  | Some (type, p) =>
      let dp := skip_ws (dp <| dp_p := p |>) in
      match strip_prefix "(" (dp_p dp) with
      | None => syntax_error dp
      | Some p =>
          let dp := skip_ws (dp <| dp_p := p |>) in
          match strtoll (dp_p dp) with
          | None => syntax_error dp
          | Some (job_id, p) =>
              let dp := skip_ws (dp <| dp_p := p |>) in
              match strip_prefix ")" (dp_p dp) with
              | None => syntax_error dp
              | Some p =>
                  let dp := dp <| dp_p := p |> in
                  match resolve with
                  | Some f =>
                      if f job_id then emit dp type job_id
                      else dp <| dp_error := DEP_PARSE_UNKNOWN_JOB |>
                  | None => emit dp type job_id
                  end
              end
          end
      end
  end.

Fixpoint parse_expr (fuel : nat) dp : res dep_parser :=
  match fuel with
  | O => Crash OutOfFuel
  | S f =>
      let* dp := parse_term f dp in
      parse_expr_loop f (skip_ws dp)
  end
with parse_expr_loop (fuel : nat) dp : res dep_parser :=
  match fuel with
  | O => Crash OutOfFuel
  | S f =>
      match (if dp_ok dp then strip_prefix "||" (dp_p dp) else None) with
      | Some p =>
          let* dp := parse_term f (dp <| dp_p := p |>) in
          parse_expr_loop f (skip_ws (emit dp DEP_OR 0))
      | None => Ok dp
      end
  end
with parse_term (fuel : nat) dp : res dep_parser :=
  match fuel with
  | O => Crash OutOfFuel
  | S f =>
      let* dp := parse_factor f dp in
      parse_term_loop f (skip_ws dp)
  end
with parse_term_loop (fuel : nat) dp : res dep_parser :=
  match fuel with
  | O => Crash OutOfFuel
  | S f =>
      match (if dp_ok dp then strip_prefix "&&" (dp_p dp) else None) with
      | Some p =>
          let* dp := parse_factor f (dp <| dp_p := p |>) in
          parse_term_loop f (skip_ws (emit dp DEP_AND 0))
      | None => Ok dp
      end
  end
with parse_factor (fuel : nat) dp : res dep_parser :=
  match fuel with
  | O => Crash OutOfFuel
  | S f =>
      let dp := skip_ws dp in
      if negb (dp_ok dp) then Ok dp
      else
        match strip_prefix "!" (dp_p dp) with
        | Some p =>
            let* dp := parse_factor f (dp <| dp_p := p |>) in
            Ok (emit dp DEP_NOT 0)
        | None =>
            match strip_prefix "(" (dp_p dp) with
            | Some p =>
                let* dp := parse_expr f (dp <| dp_p := p |>) in
                let dp := skip_ws dp in
                if negb (dp_ok dp) then Ok dp
                else
                  match strip_prefix ")" (dp_p dp) with
                  | None => Ok (syntax_error dp)
                  | Some p => Ok (dp <| dp_p := p |>)
                  end
            | None => Ok (parse_funccall dp)
            end
        end
  end.

(** The calls nest at most five deep per character of the text. *)
Definition dep_fuel (s : string) : nat := (5 * String.length s + 3)%nat.

(** [deps] is empty on entry (the caller has just initialised it); the result
    is the returned status and the list as the caller finds it. *)
Definition dep_parse (str : string) : res (dep_parse_status * list job_dep) :=
  let* dp := parse_expr (dep_fuel str) (mk_dep_parser str [] DEP_PARSE_OK) in
  let dp := skip_ws dp in
  let dp :=
    if dp_ok dp && negb (String.eqb (dp_p dp) EmptyString)
    then syntax_error dp else dp in
  if dp_ok dp then Ok (dp_error dp, dp_deps dp)
  else Ok (dp_error dp, []).

End parser.

(** ** The evaluator *)

(** [stack[--sp]] and [stack[sp++] = v] on the sixteen entry array; the head of
    the list is the top. *)
Definition dep_pop (stack : list Z) : res (Z * list Z) :=
  match stack with
  | a :: st => Ok (a, st)
  | [] => Crash BadIndex
  end.

Definition dep_push (v : Z) (stack : list Z) : res (list Z) :=
  if (length stack <? DEP_MAX_STACK)%nat then Ok (v :: stack) else Crash BadIndex.

Definition c_true (z : Z) : bool := negb (z =? 0).

Definition dep_eval_step (check : dep_type -> Z -> Z) (stack : list Z) (d : job_dep)
    : res (list Z) :=
  match dep_kind d with
  | DEP_AND =>
      let* (b, st) := dep_pop stack in
      let* (a, st) := dep_pop st in
      dep_push (b2z (c_true a && c_true b)) st
  | DEP_OR =>
      let* (b, st) := dep_pop stack in
      let* (a, st) := dep_pop st in
      dep_push (b2z (c_true a || c_true b)) st
  | DEP_NOT =>
      let* (a, st) := dep_pop stack in
      dep_push (b2z (negb (c_true a))) st
  | t => dep_push (check t (dep_job_id d)) stack
  end.

Definition dep_list_eval (deps : list job_dep) (check : dep_type -> Z -> Z) : res Z :=
  let* st := res_fold (dep_eval_step check) deps [] in
  let* (v, _) := dep_pop st in
  Ok v.

(** ** The conditions as expressions *)

Inductive dep_call : Type := CallDone | CallExit | CallEnded.

Definition call_type (c : dep_call) : dep_type :=
  match c with CallDone => DEP_DONE | CallExit => DEP_EXIT | CallEnded => DEP_ENDED end.

Inductive dexp : Type :=
  | DCall (c : dep_call) (job_id : Z)
  | DNot (e : dexp)
  | DAnd (e1 e2 : dexp)
  | DOr (e1 e2 : dexp).

(** The postfix list of an expression. *)
Fixpoint postfix (e : dexp) : list job_dep :=
  match e with
  | DCall c id => [mk_job_dep (call_type c) id]
  | DNot e => postfix e ++ [mk_job_dep DEP_NOT 0]
  | DAnd e1 e2 => postfix e1 ++ postfix e2 ++ [mk_job_dep DEP_AND 0]
  | DOr e1 e2 => postfix e1 ++ postfix e2 ++ [mk_job_dep DEP_OR 0]
  end.

(** What a condition means, given the callback. *)
Fixpoint dmeaning (check : dep_type -> Z -> Z) (e : dexp) : Z :=
  match e with
  | DCall c id => check (call_type c) id
  | DNot e => b2z (negb (c_true (dmeaning check e)))
  | DAnd e1 e2 => b2z (c_true (dmeaning check e1) && c_true (dmeaning check e2))
  | DOr e1 e2 => b2z (c_true (dmeaning check e1) || c_true (dmeaning check e2))
  end.

(** The stack entries an evaluation needs. *)
Fixpoint ddepth (e : dexp) : nat :=
  match e with
  | DCall _ _ => 1
  | DNot e => ddepth e
  | DAnd e1 e2 | DOr e1 e2 => Nat.max (ddepth e1) (S (ddepth e2))
  end.

Fixpoint dcalls (e : dexp) : list Z :=
  match e with
  | DCall _ id => [id]
  | DNot e => dcalls e
  | DAnd e1 e2 | DOr e1 e2 => dcalls e1 ++ dcalls e2
  end.

Definition call_name (c : dep_call) : string :=
  match c with CallDone => "done" | CallExit => "exit" | CallEnded => "ended" end.

(** Conditions as a user writes them, with every operation in parentheses. *)
Fixpoint dprint (e : dexp) : string :=
  match e with
  | DCall c id => call_name c +:+ "(" +:+ print_int id +:+ ")"
  | DNot e => "!" +:+ dprint e
  | DAnd e1 e2 => "(" +:+ dprint e1 +:+ " && " +:+ dprint e2 +:+ ")"
  | DOr e1 e2 => "(" +:+ dprint e1 +:+ " || " +:+ dprint e2 +:+ ")"
  end.

(** ** The parser returns, and what it builds is the postfix of an expression *)

Lemma strip_prefix_length lit s s' :
  strip_prefix lit s = Some s' -> String.length s = (String.length lit + String.length s')%nat.
Proof.
  revert s. induction lit as [|a lit IH]; intros s; cbn; [by intros [= ->]|].
  destruct s as [|b s]; [done|]. destruct (Ascii.eqb a b); [|done]. intros H%IH. cbn. lia.
Qed.

Lemma strip_prefix_app lit s : strip_prefix lit (lit +:+ s) = Some s.
Proof. induction lit as [|a lit IH]; cbn; [done|]. by rewrite Ascii.eqb_refl. Qed.

Arguments strip_prefix : simpl never.
Arguments skip_while : simpl never.

Lemma dep_keyword_spec s t s' :
  dep_keyword s = Some (t, s') ->
  (String.length s' < String.length s)%nat /\ exists c, t = call_type c.
Proof.
  unfold dep_keyword. repeat case_match; intros ?; simplify_eq;
    match goal with H : strip_prefix _ s = Some _ |- _ => apply strip_prefix_length in H; cbn in H end.
  - split; [lia|by exists CallDone].
  - split; [lia|by exists CallExit].
  - split; [lia|by exists CallEnded].
Qed.

Section parser_correct.
Context (resolve : option (Z -> bool)) (malloc_ok : nat -> bool).
Implicit Types (dp : dep_parser).

Abbreviation plen dp := (String.length (dp_p dp)).

(** Every job the expression names is known to the callback. *)
Definition resolved (e : dexp) : Prop :=
  match resolve with
  | Some f => Forall (fun id => f id = true) (dcalls e)
  | None => True
  end.

(** A parsing function that ends without an error consumed text and appended
    the postfix of one expression. *)
Definition parsed dp dp' : Prop :=
  (plen dp' <= plen dp)%nat /\
  (dp_error dp' = DEP_PARSE_OK ->
   dp_error dp = DEP_PARSE_OK /\
   exists e, dp_deps dp' = dp_deps dp ++ postfix e /\ resolved e).

(** A loop extends the expression already at the end of the list. *)
Definition extended dp dp' : Prop :=
  (plen dp' <= plen dp)%nat /\
  (dp_error dp' = DEP_PARSE_OK ->
   dp_error dp = DEP_PARSE_OK /\
   forall base e0, dp_deps dp = base ++ postfix e0 -> resolved e0 ->
   exists e, dp_deps dp' = base ++ postfix e /\ resolved e).

Lemma resolved_bin e e1 e2 :
  dcalls e = dcalls e1 ++ dcalls e2 -> resolved e1 -> resolved e2 -> resolved e.
Proof.
  unfold resolved. intros ->. destruct resolve; [|done]. by rewrite Forall_app.
Qed.

Lemma skip_ws_length dp : (plen (skip_ws dp) <= plen dp)%nat.
Proof. apply skip_while_length. Qed.

Lemma emit_spec dp t id :
  dp_p (emit malloc_ok dp t id) = dp_p dp /\
  (dp_error (emit malloc_ok dp t id) = DEP_PARSE_OK ->
   dp_error dp = DEP_PARSE_OK /\
   dp_deps (emit malloc_ok dp t id) = dp_deps dp ++ [mk_job_dep t id]).
Proof.
  unfold emit, dp_ok. case_bool_decide as E; cbn; [|done].
  destruct (malloc_ok (length (dp_deps dp))); cbn; [|done]. done.
Qed.

Lemma parse_funccall_spec dp :
  dp_error dp = DEP_PARSE_OK -> parsed dp (parse_funccall resolve malloc_ok dp).
Proof.
  intros Hok. unfold parse_funccall.
  destruct (dep_keyword (dp_p dp)) as [[t p]|] eqn:Ek; [|by split].
  apply dep_keyword_spec in Ek as [Hl [c ->]].
  pose proof (skip_while_length isspace p) as Hs1. cbn.
  destruct (strip_prefix "(" (skip_while isspace p)) as [p1|] eqn:E1; [|split; cbn; [lia|done]].
  apply strip_prefix_length in E1. cbn in E1.
  pose proof (skip_while_length isspace p1) as Hs2. cbn.
  unfold strtoll. destruct (scan_number (skip_while isspace p1)) as [[id p2]|] eqn:E2;
    [|split; cbn; [lia|done]].
  apply scan_number_length in E2. pose proof (skip_while_length isspace p2) as Hs3. cbn.
  destruct (strip_prefix ")" (skip_while isspace p2)) as [p3|] eqn:E3; [|split; cbn; [lia|done]].
  apply strip_prefix_length in E3. cbn in E3.
  assert (Hemit : (match resolve with Some f => f (saturate64 id) = true | None => True end) ->
    parsed dp (emit malloc_ok (mk_dep_parser p3 (dp_deps dp) (dp_error dp)) (call_type c) (saturate64 id))).
  { intros Hr. split.
    - rewrite (proj1 (emit_spec _ _ _)). cbn. lia.
    - intros [H1 H2]%emit_spec. split; [done|]. exists (DCall c (saturate64 id)).
      rewrite H2. split; [done|]. unfold resolved. destruct resolve; [|done]. by constructor. }
  destruct resolve as [f|]; [|by apply Hemit].
  destruct (f (saturate64 id)) eqn:Ef; [by apply Hemit|]. split; cbn; [lia|done].
Qed.

(** A binary operator after a second operand. *)
Lemma extended_step dp dp1 dp2 t mk :
  (forall e1 e2, postfix (mk e1 e2) = postfix e1 ++ postfix e2 ++ [mk_job_dep t 0] /\
                 dcalls (mk e1 e2) = dcalls e1 ++ dcalls e2) ->
  (exists p, dp1 = dp <| dp_p := p |> /\ (String.length p <= plen dp)%nat) ->
  parsed dp1 dp2 ->
  extended dp (skip_ws (emit malloc_ok dp2 t 0)).
Proof.
  intros Hmk (p & -> & Hp) [Hl Hok]. destruct (emit_spec dp2 t 0) as [Hep Hee].
  split.
  - pose proof (skip_ws_length (emit malloc_ok dp2 t 0)) as Hs. rewrite Hep in Hs. cbn in *. lia.
  - intros Herr. destruct (Hee Herr) as [H1 H2]. destruct (Hok H1) as (H3 & e & Hd & Hr).
    split; [done|]. intros base e0 Hb Hr0. exists (mk e0 e).
    destruct (Hmk e0 e) as [Hpost Hcalls]. split.
    + cbn. rewrite H2, Hd. cbn. rewrite Hb, Hpost, <- !app_assoc. done.
    + by eapply resolved_bin.
Qed.

Lemma extended_trans dp1 dp2 dp3 : extended dp1 dp2 -> extended dp2 dp3 -> extended dp1 dp3.
Proof.
  intros [H1 H2] [H3 H4]. split; [lia|]. intros Hok. destruct (H4 Hok) as [H5 H6].
  destruct (H2 H5) as [H7 H8]. split; [done|]. intros base e0 Hb Hr0.
  destruct (H8 base e0 Hb Hr0) as (e & He & Hr). by apply (H6 base e).
Qed.

Lemma parsed_extended dp1 dp2 dp3 : parsed dp1 dp2 -> extended (skip_ws dp2) dp3 -> parsed dp1 dp3.
Proof.
  intros [H1 H2] [H3 H4]. pose proof (skip_ws_length dp2). split; [lia|]. intros Hok.
  destruct (H4 Hok) as [H5 H6]. destruct (H2 H5) as (H7 & e & He & Hr). split; [done|].
  by apply (H6 (dp_deps dp1) e).
Qed.

(** [f] returns on every text that [n] rounds of fuel can cover. *)
Definition returns (n k : nat) (R : dep_parser -> dep_parser -> Prop)
    (f : dep_parser -> res dep_parser) : Prop :=
  forall dp, (5 * plen dp + k <= n)%nat -> exists dp', f dp = Ok dp' /\ R dp dp'.

(** An operand followed by its loop ([parse_expr] and [parse_term]). *)
Lemma returns_seq n k k1 k2 f g :
  (k1 < k)%nat -> (k2 < k)%nat -> returns n k1 parsed f -> returns n k2 extended g ->
  returns (S n) k parsed (fun dp => let* dp := f dp in g (skip_ws dp)).
Proof.
  intros Hk1 Hk2 Hf Hg dp Hn. destruct (Hf dp) as (dp1 & -> & Hp1); [lia|]. cbn.
  destruct (Hg (skip_ws dp1)) as (dp2 & Hdp2 & Hp2).
  { destruct Hp1. pose proof (skip_ws_length dp1). lia. }
  exists dp2. split; [done|]. by eapply parsed_extended.
Qed.

(** The loops over [||] and [&&]. *)
Lemma returns_loop n k k1 lit t mk f g :
  (forall e1 e2, postfix (mk e1 e2) = postfix e1 ++ postfix e2 ++ [mk_job_dep t 0] /\
                 dcalls (mk e1 e2) = dcalls e1 ++ dcalls e2) ->
  String.length lit = 2%nat -> (k1 <= k + 4)%nat ->
  returns n k1 parsed f -> returns n k extended g ->
  returns (S n) k extended (fun dp =>
    match (if dp_ok dp then strip_prefix lit (dp_p dp) else None) with
    | Some p =>
        let* dp := f (dp <| dp_p := p |>) in
        g (skip_ws (emit malloc_ok dp t 0))
    | None => Ok dp
    end).
Proof.
  intros Hmk Hlit Hk Hf Hg dp Hn.
  destruct (dp_ok dp) eqn:Eok; [|exists dp; split; [done|]].
  2:{ split; [done|]. intros E. unfold dp_ok in Eok. case_bool_decide; done. }
  destruct (strip_prefix lit (dp_p dp)) as [p|] eqn:Ep.
  2:{ exists dp. split; [done|]. split; [done|]. intros ?; split; [done|]. eauto. }
  apply strip_prefix_length in Ep.
  destruct (Hf (dp <| dp_p := p |>)) as (dp1 & -> & Hp1); [cbn; lia|]. cbn [res_bind].
  assert (He : extended dp (skip_ws (emit malloc_ok dp1 t 0))).
  { eapply (extended_step dp _ dp1 t mk Hmk); [|exact Hp1]. exists p. split; [done|lia]. }
  destruct (Hg (skip_ws (emit malloc_ok dp1 t 0))) as (dp2 & Hdp2 & Hp2).
  { destruct Hp1 as [Hl _]. cbn in Hl. pose proof (skip_ws_length (emit malloc_ok dp1 t 0)) as Hs.
    rewrite (proj1 (emit_spec _ _ _)) in Hs. lia. }
  exists dp2. split; [done|]. by eapply extended_trans.
Qed.

Lemma parsed_skip_ws dp d : parsed (skip_ws dp) d -> parsed dp d.
Proof.
  intros [H1 H2]. pose proof (skip_ws_length dp). split; [lia|]. intros Hok. by destruct (H2 Hok).
Qed.

Lemma returns_factor n :
  returns n 1 parsed (parse_factor resolve malloc_ok n) ->
  returns n 3 parsed (parse_expr resolve malloc_ok n) ->
  returns (S n) 1 parsed (parse_factor resolve malloc_ok (S n)).
Proof.
  intros IHf IHe dp Hn. pose proof (skip_ws_length dp) as Hws.
  change (exists dp', (let dp0 := skip_ws dp in
    if negb (dp_ok dp0) then Ok dp0
    else match strip_prefix "!" (dp_p dp0) with
      | Some p => let* dp := parse_factor resolve malloc_ok n (dp0 <| dp_p := p |>) in
                  Ok (emit malloc_ok dp DEP_NOT 0)
      | None => match strip_prefix "(" (dp_p dp0) with
          | Some p => let* dp := parse_expr resolve malloc_ok n (dp0 <| dp_p := p |>) in
              if negb (dp_ok (skip_ws dp)) then Ok (skip_ws dp)
              else match strip_prefix ")" (dp_p (skip_ws dp)) with
                   | None => Ok (syntax_error (skip_ws dp))
                   | Some p => Ok ((skip_ws dp) <| dp_p := p |>) end
          | None => Ok (parse_funccall resolve malloc_ok dp0) end end) = Ok dp' /\ parsed dp dp').
  assert (Hsame := parsed_skip_ws dp). set (dp0 := skip_ws dp) in *. clearbody dp0. cbn zeta.
  unfold dp_ok at 1. case_bool_decide as Eok; cbn [negb].
  2:{ exists dp0. split; [done|]. by apply Hsame. }
  destruct (strip_prefix "!" (dp_p dp0)) as [p|] eqn:Ep.
  { apply strip_prefix_length in Ep. cbn in Ep.
    destruct (IHf (dp0 <| dp_p := p |>)) as (dp1 & -> & [Hl Hp1]); [cbn; lia|].
    cbn in Hl |- *. eexists. split; [done|]. apply Hsame. split.
    - rewrite (proj1 (emit_spec _ _ _)). lia.
    - intros [H1 H2]%emit_spec. destruct (Hp1 H1) as (H3 & e & He & Hr). split; [done|].
      exists (DNot e). rewrite H2, He. cbn. by rewrite <- app_assoc. }
  destruct (strip_prefix "(" (dp_p dp0)) as [p|] eqn:Ep2.
  { apply strip_prefix_length in Ep2. cbn in Ep2.
    destruct (IHe (dp0 <| dp_p := p |>)) as (dp1 & -> & [Hl Hp1]); [cbn; lia|].
    cbn in Hl. cbn [res_bind]. pose proof (skip_ws_length dp1) as Hs.
    assert (Hp2 : parsed dp0 (skip_ws dp1)) by (split; [lia|exact Hp1]).
    set (dp2 := skip_ws dp1) in *. clearbody dp2.
    unfold dp_ok. case_bool_decide as Eok2; cbn [negb]; [|by eauto].
    destruct Hp2 as [Hl2 Hp2].
    destruct (strip_prefix ")" (dp_p dp2)) as [p2|] eqn:Ep3.
    - apply strip_prefix_length in Ep3. cbn in Ep3. eexists. split; [done|].
      apply Hsame. split; [cbn; lia|done].
    - eexists. split; [done|]. apply Hsame. split; [done|done]. }
  eexists. split; [done|]. by apply Hsame, parse_funccall_spec.
Qed.

(** Total correctness of the five functions, by induction on the fuel. *)
Lemma parse_total n :
  returns n 3 parsed (parse_expr resolve malloc_ok n) /\
  returns n 2 extended (parse_expr_loop resolve malloc_ok n) /\
  returns n 2 parsed (parse_term resolve malloc_ok n) /\
  returns n 1 extended (parse_term_loop resolve malloc_ok n) /\
  returns n 1 parsed (parse_factor resolve malloc_ok n).
Proof.
  induction n as [|n (IHe & IHel & IHt & IHtl & IHf)];
    [repeat split; intros dp Hn; lia|].
  split_and!.
  - by apply (returns_seq n 3 2 2); [lia|lia|..].
  - by apply (returns_loop n 2 2 "||" DEP_OR DOr); [| |lia|..].
  - by apply (returns_seq n 2 1 1); [lia|lia|..].
  - by apply (returns_loop n 1 1 "&&" DEP_AND DAnd); [| |lia|..].
  - by apply returns_factor.
Qed.

(** [dep_parse] always returns; it succeeds exactly with the postfix of an
    expression whose jobs are known, and otherwise leaves the list empty. *)
Lemma dep_parse_total str :
  exists st deps, dep_parse resolve malloc_ok str = Ok (st, deps) /\
    match st with
    | DEP_PARSE_OK => exists e, deps = postfix e /\ resolved e
    | _ => deps = []
    end.
Proof.
  unfold dep_parse.
  destruct (proj1 (parse_total (dep_fuel str)) (mk_dep_parser str [] DEP_PARSE_OK))
    as (dp & -> & [_ Hp]); [unfold dep_fuel; cbn; lia|]. cbn [res_bind].
  assert (Hp1 : dp_error (skip_ws dp) = DEP_PARSE_OK ->
    exists e, dp_deps (skip_ws dp) = postfix e /\ resolved e).
  { intros Hok. by destruct (Hp Hok) as (_ & e & Hd & Hr); exists e. }
  set (dp1 := skip_ws dp) in *. clearbody dp1.
  destruct (dp_ok dp1 && negb (String.eqb (dp_p dp1) EmptyString)); [by eexists _, _|].
  unfold dp_ok. case_bool_decide as Eok.
  - rewrite Eok. eexists _, _. split; [done|]. by apply Hp1.
  - eexists _, _. split; [done|]. by destruct (dp_error dp1).
Qed.

End parser_correct.

(** ** Printing and parsing again *)

Section roundtrip.
Context (resolve : option (Z -> bool)).
Implicit Types (s : string) (l : list job_dep).

Abbreviation mem := (fun _ : nat => true).
Abbreviation ok s l := (mk_dep_parser s l DEP_PARSE_OK).
Abbreviation factor := (parse_factor resolve mem).
Abbreviation term := (parse_term resolve mem).
Abbreviation term_loop := (parse_term_loop resolve mem).
Abbreviation expr := (parse_expr resolve mem).
Abbreviation expr_loop := (parse_expr_loop resolve mem).

(** The jobs of an expression are 64-bit ids the callback knows. *)
Definition known (id : Z) : Prop :=
  is_i64 id = true /\ match resolve with Some f => f id = true | None => True end.

(** [factor] at [s] reads an expression and stops at the text [s']. *)
Definition reads (m : nat) s s' (e : dexp) : Prop :=
  forall n l, (m <= n)%nat -> factor n (ok s l) = Ok (ok s' (l ++ postfix e)).

Lemma emit_ok s l t id : emit mem (ok s l) t id = ok s (l ++ [mk_job_dep t id]).
Proof. done. Qed.

Lemma factor_blank n s l : factor n (ok (" " +:+ s) l) = factor n (ok s l).
Proof. by destruct n. Qed.

Lemma term_loop_stop n s l :
  strip_prefix "&&" s = None -> term_loop (S n) (ok s l) = Ok (ok s l).
Proof. intros Hs. change (match strip_prefix "&&" s with
  | Some p => let* dp := factor n (ok p l) in term_loop n (skip_ws (emit mem dp DEP_AND 0))
  | None => Ok (ok s l) end = Ok (ok s l)). by rewrite Hs. Qed.

Lemma expr_loop_stop n s l :
  strip_prefix "||" s = None -> expr_loop (S n) (ok s l) = Ok (ok s l).
Proof. intros Hs. change (match strip_prefix "||" s with
  | Some p => let* dp := term n (ok p l) in expr_loop n (skip_ws (emit mem dp DEP_OR 0))
  | None => Ok (ok s l) end = Ok (ok s l)). by rewrite Hs. Qed.

Lemma reads_not m s s' e : reads m s s' e -> reads (S m) ("!" +:+ s) s' (DNot e).
Proof.
  intros He [|n] l Hn; [lia|].
  change ((let* dp := factor n (ok s l) in Ok (emit mem dp DEP_NOT 0)) =
          Ok (ok s' (l ++ postfix e ++ [mk_job_dep DEP_NOT 0]))).
  rewrite He by lia. cbn [res_bind]. by rewrite emit_ok, app_assoc.
Qed.

(** [factor] on a parenthesis is [expr] inside it. *)
Lemma reads_paren m s s' e :
  (forall n l, (m <= n)%nat -> expr n (ok s l) = Ok (ok (")" +:+ s') (l ++ postfix e))) ->
  reads (S m) ("(" +:+ s) s' e.
Proof.
  intros He [|n] l Hn; [lia|].
  change ((let* dp := expr n (ok s l) in
           let dp := skip_ws dp in
           if negb (dp_ok dp) then Ok dp
           else match strip_prefix ")" (dp_p dp) with
                | None => Ok (syntax_error dp)
                | Some p => Ok (dp <| dp_p := p |>) end) = Ok (ok s' (l ++ postfix e))).
  by rewrite He by lia.
Qed.

Lemma reads_and m1 m2 s s1 s' e1 e2 :
  reads m1 s (" && " +:+ s1) e1 -> reads m2 s1 (")" +:+ s') e2 ->
  reads (S (S (S (S (S (Nat.max m1 m2)))))) ("(" +:+ s) s' (DAnd e1 e2).
Proof.
  intros H1 H2. apply reads_paren. intros n l Hn.
  destruct n as [|[|[|[|n]]]]; try lia.
  change (expr (S (S (S (S n)))) (ok s l)) with
    (let* dp := (let* dp := factor (S (S n)) (ok s l) in term_loop (S (S n)) (skip_ws dp)) in
     expr_loop (S (S (S n))) (skip_ws dp)).
  rewrite H1 by lia. cbn [res_bind].
  change (term_loop (S (S n)) (skip_ws (ok (" && " +:+ s1) (l ++ postfix e1)))) with
    (let* dp := factor (S n) (ok (" " +:+ s1) (l ++ postfix e1)) in
     term_loop (S n) (skip_ws (emit mem dp DEP_AND 0))).
  rewrite factor_blank, H2 by lia. cbn [res_bind]. rewrite emit_ok.
  change (skip_ws (ok (")" +:+ s') ?x)) with (ok (")" +:+ s') x).
  rewrite term_loop_stop by done. cbn [res_bind].
  change (skip_ws (ok (")" +:+ s') ?x)) with (ok (")" +:+ s') x).
  rewrite expr_loop_stop by done. cbn [postfix]. by rewrite <- !app_assoc.
Qed.

Lemma reads_or m1 m2 s s1 s' e1 e2 :
  reads m1 s (" || " +:+ s1) e1 -> reads m2 s1 (")" +:+ s') e2 ->
  reads (S (S (S (S (S (Nat.max m1 m2)))))) ("(" +:+ s) s' (DOr e1 e2).
Proof.
  intros H1 H2. apply reads_paren. intros n l Hn.
  destruct n as [|[|[|[|n]]]]; try lia.
  change (expr (S (S (S (S n)))) (ok s l)) with
    (let* dp := (let* dp := factor (S (S n)) (ok s l) in term_loop (S (S n)) (skip_ws dp)) in
     expr_loop (S (S (S n))) (skip_ws dp)).
  rewrite H1 by lia. cbn [res_bind].
  change (skip_ws (ok (" || " +:+ s1) ?x)) with (ok ("|| " +:+ s1) x).
  rewrite term_loop_stop by done. cbn [res_bind].
  change (expr_loop (S (S (S n))) (skip_ws (ok ("|| " +:+ s1) (l ++ postfix e1)))) with
    (let* dp := (let* dp := factor (S n) (ok (" " +:+ s1) (l ++ postfix e1)) in
                 term_loop (S n) (skip_ws dp)) in
     expr_loop (S (S n)) (skip_ws (emit mem dp DEP_OR 0))).
  rewrite factor_blank, H2 by lia. cbn [res_bind].
  change (skip_ws (ok (")" +:+ s') ?x)) with (ok (")" +:+ s') x).
  rewrite term_loop_stop by done. cbn [res_bind]. rewrite emit_ok.
  change (skip_ws (ok (")" +:+ s') ?x)) with (ok (")" +:+ s') x).
  rewrite expr_loop_stop by done. cbn [postfix]. by rewrite <- !app_assoc.
Qed.

Lemma strtoll_print id s :
  is_i64 id = true ->
  strtoll (skip_while isspace (print_int id +:+ ")" +:+ s)) = Some (id, ")" +:+ s).
Proof.
  intros Hid. unfold strtoll.
  replace (scan_number (skip_while isspace (print_int id +:+ ")" +:+ s)))
    with (scan_number (print_int id +:+ ")" +:+ s))
    by (unfold scan_number; by rewrite skip_while_idem).
  rewrite print_int_scan; [|by apply (conv_fits_bound CLong)|done].
  by rewrite (conv_cut_fits CLong id Hid : saturate64 id = id).
Qed.

Lemma reads_call c id s :
  known id -> reads 1 (dprint (DCall c id) +:+ s) s (DCall c id).
Proof.
  intros [Hid Hres] [|n] l Hn; [lia|].
  assert (Hfun : parse_funccall resolve mem (ok (dprint (DCall c id) +:+ s) l) =
                 ok s (l ++ postfix (DCall c id))).
  { cbn [dprint]. rewrite <- !string_app_assoc. unfold parse_funccall.
    replace (dep_keyword _) with (Some (call_type c, "(" +:+ print_int id +:+ ")" +:+ s))
      by (by destruct c).
    cbn -[String.append strtoll].
    change (strip_prefix "(" (skip_while isspace ("(" +:+ ?x))) with (Some x).
    cbn iota beta. rewrite strtoll_print by done. cbn iota beta.
    change (strip_prefix ")" (skip_while isspace (")" +:+ ?x))) with (Some x).
    cbn iota beta. destruct resolve as [f|]; [by rewrite Hres|done]. }
  transitivity (Ok (parse_funccall resolve mem (ok (dprint (DCall c id) +:+ s) l)));
    [|by rewrite Hfun]. by destruct c.
Qed.

Fixpoint read_fuel (e : dexp) : nat :=
  match e with
  | DCall _ _ => 1
  | DNot e => S (read_fuel e)
  | DAnd e1 e2 | DOr e1 e2 => 5 + Nat.max (read_fuel e1) (read_fuel e2)
  end.

Lemma reads_print e s :
  Forall known (dcalls e) -> reads (read_fuel e) (dprint e +:+ s) s e.
Proof.
  revert s. induction e as [c id|e IH|e1 IH1 e2 IH2|e1 IH1 e2 IH2]; intros s Hk.
  - apply reads_call. by inversion Hk.
  - cbn [dprint]. rewrite <- string_app_assoc. apply reads_not. auto.
  - apply Forall_app in Hk as [Hk1 Hk2]. cbn [dprint]. rewrite <- !string_app_assoc.
    eapply reads_and; eauto.
  - apply Forall_app in Hk as [Hk1 Hk2]. cbn [dprint]. rewrite <- !string_app_assoc.
    eapply reads_or; eauto.
Qed.

Lemma read_fuel_length e : (read_fuel e <= 5 * String.length (dprint e))%nat.
Proof.
  induction e as [c id|e IH|e1 IH1 e2 IH2|e1 IH1 e2 IH2];
    cbn [dprint read_fuel]; rewrite ?string_length_app; cbn [String.length]; [|lia..].
  destruct c; cbn; lia.
Qed.

(** Printing an expression and parsing the text gives its postfix list. *)
Lemma dep_parse_print e :
  Forall known (dcalls e) ->
  dep_parse resolve mem (dprint e) = Ok (DEP_PARSE_OK, postfix e).
Proof.
  intros Hk. unfold dep_parse. pose proof (read_fuel_length e) as Hf.
  pose proof (reads_print e EmptyString Hk) as Hr. rewrite string_app_nil_r in Hr.
  unfold dep_fuel. replace (5 * String.length (dprint e) + 3)%nat
    with (S (S (S (5 * String.length (dprint e))))) by lia.
  set (n := (5 * String.length (dprint e))%nat) in *.
  change (expr (S (S (S n))) (ok (dprint e) [])) with
    (let* dp := (let* dp := factor (S n) (ok (dprint e) []) in term_loop (S n) (skip_ws dp)) in
     expr_loop (S (S n)) (skip_ws dp)).
  rewrite Hr by lia. cbn [res_bind].
  change (skip_ws (ok EmptyString ?x)) with (ok EmptyString x).
  rewrite term_loop_stop by done. cbn [res_bind].
  change (skip_ws (ok EmptyString ?x)) with (ok EmptyString x).
  by rewrite expr_loop_stop by done.
Qed.

End roundtrip.

(** ** Evaluation *)

Section evaluation.
Context (check : dep_type -> Z -> Z).

(** Evaluating the nodes [ts] pushes [v] when the stack has room for [d] more
    entries, and writes outside the array otherwise. *)
Definition pushes (ts : list job_dep) (d : nat) (v : Z) : Prop :=
  forall rest st,
    res_fold (dep_eval_step check) (ts ++ rest) st =
    if (length st + d <=? DEP_MAX_STACK)%nat
    then res_fold (dep_eval_step check) rest (v :: st)
    else Crash BadIndex.

Lemma pushes_bin ts1 ts2 d1 d2 v1 v2 t v :
  pushes ts1 d1 v1 -> pushes ts2 d2 v2 -> (1 <= d2)%nat ->
  (forall st, dep_eval_step check (v2 :: v1 :: st) (mk_job_dep t 0) = dep_push v st) ->
  pushes (ts1 ++ ts2 ++ [mk_job_dep t 0]) (Nat.max d1 (S d2)) v.
Proof.
  intros H1 H2 Hd2 Hop rest st. rewrite <- !app_assoc, H1.
  destruct (Nat.leb_spec (length st + d1) DEP_MAX_STACK),
           (Nat.leb_spec (length st + Nat.max d1 (S d2)) DEP_MAX_STACK); try lia; try done;
  rewrite H2; cbn [length];
  destruct (Nat.leb_spec (S (length st) + d2) DEP_MAX_STACK); try lia; try done.
  cbn [app res_fold]. rewrite Hop. unfold dep_push.
  by rewrite (proj2 (Nat.ltb_lt _ _)) by lia.
Qed.

Lemma ddepth_pos e : (1 <= ddepth e)%nat.
Proof. induction e; cbn; lia. Qed.

Lemma eval_postfix e : pushes (postfix e) (ddepth e) (dmeaning check e).
Proof.
  induction e as [c id|e IH|e1 IH1 e2 IH2|e1 IH1 e2 IH2]; cbn [postfix ddepth dmeaning].
  - intros rest st. rewrite Nat.add_1_r. cbn [app res_fold]. unfold dep_eval_step, dep_push.
    destruct c; cbn [call_type dep_kind dep_job_id];
    destruct (Nat.ltb_spec (length st) DEP_MAX_STACK), (Nat.leb_spec (S (length st)) DEP_MAX_STACK);
      lia || done.
  - intros rest st. rewrite <- app_assoc, IH. pose proof (ddepth_pos e).
    destruct (Nat.leb_spec (length st + ddepth e) DEP_MAX_STACK); [|done].
    cbn. unfold dep_push. by rewrite (proj2 (Nat.ltb_lt _ _)) by lia.
  - eapply pushes_bin; eauto using ddepth_pos.
  - eapply pushes_bin; eauto using ddepth_pos.
Qed.

Lemma dep_list_eval_postfix e :
  dep_list_eval (postfix e) check =
  if (ddepth e <=? DEP_MAX_STACK)%nat then Ok (dmeaning check e) else Crash BadIndex.
Proof.
  unfold dep_list_eval. rewrite <- (app_nil_r (postfix e)), eval_postfix. cbn.
  by destruct (ddepth e <=? DEP_MAX_STACK)%nat.
Qed.

End evaluation.

(** ** The properties of dependency conditions *)

(** ** The callback only refuses *)

(** [g] gives what [f] gives whenever [f] ends without an error. *)
Definition agrees (f g : dep_parser -> res dep_parser) : Prop :=
  forall dp dp', f dp = Ok dp' -> dp_ok dp' = true -> dp_ok dp = true /\ g dp = Ok dp'.

Lemma agrees_emit malloc_ok dp t id : dp_ok (emit malloc_ok dp t id) = true -> dp_ok dp = true.
Proof. unfold emit. destruct (dp_ok dp) eqn:E; cbn [negb]; [done|]. by rewrite E. Qed.

Lemma agrees_seq f1 g1 f2 g2 :
  agrees f1 g1 -> agrees f2 g2 ->
  agrees (fun dp => let* dp := f1 dp in f2 (skip_ws dp)) (fun dp => let* dp := g1 dp in g2 (skip_ws dp)).
Proof.
  intros H1 H2 dp dp' (d1 & E1 & E2)%res_bind_Ok Hok. destruct (H2 _ _ E2 Hok) as [Hok1 G2].
  destruct (H1 _ _ E1 Hok1) as [Hok0 G1]. split; [done|]. by rewrite G1.
Qed.

Lemma agrees_loop malloc_ok lit t f1 g1 f2 g2 :
  agrees f1 g1 -> agrees f2 g2 ->
  agrees (fun dp => match (if dp_ok dp then strip_prefix lit (dp_p dp) else None) with
                    | Some p => let* dp := f1 (dp <| dp_p := p |>) in f2 (skip_ws (emit malloc_ok dp t 0))
                    | None => Ok dp end)
         (fun dp => match (if dp_ok dp then strip_prefix lit (dp_p dp) else None) with
                    | Some p => let* dp := g1 (dp <| dp_p := p |>) in g2 (skip_ws (emit malloc_ok dp t 0))
                    | None => Ok dp end).
Proof.
  intros H1 H2 dp dp' H Hok. destruct (dp_ok dp) eqn:E; [|by injection H as <-; congruence].
  split; [done|]. destruct (strip_prefix lit (dp_p dp)) as [p|]; [|done].
  apply res_bind_Ok in H as (d1 & E1 & E2). destruct (H2 _ _ E2 Hok) as [Hok1 G2].
  destruct (H1 _ _ E1 (agrees_emit malloc_ok d1 t 0 Hok1)) as [_ G1]. by rewrite G1.
Qed.

Lemma parse_factor_S resolve malloc_ok n dp :
  parse_factor resolve malloc_ok (S n) dp =
  let dp := skip_ws dp in
  if negb (dp_ok dp) then Ok dp
  else
    match strip_prefix "!" (dp_p dp) with
    | Some p => let* dp := parse_factor resolve malloc_ok n (dp <| dp_p := p |>) in Ok (emit malloc_ok dp DEP_NOT 0)
    | None =>
        match strip_prefix "(" (dp_p dp) with
        | Some p =>
            let* dp := parse_expr resolve malloc_ok n (dp <| dp_p := p |>) in
            let dp := skip_ws dp in
            if negb (dp_ok dp) then Ok dp
            else match strip_prefix ")" (dp_p dp) with
                 | None => Ok (syntax_error dp)
                 | Some p => Ok (dp <| dp_p := p |>)
                 end
        | None => Ok (parse_funccall resolve malloc_ok dp)
        end
    end.
Proof. done. Qed.

Section agreement.
Context (f : Z -> bool) (malloc_ok : nat -> bool).

Lemma parse_funccall_agrees dp :
  dp_ok dp = true -> dp_ok (parse_funccall (Some f) malloc_ok dp) = true ->
  parse_funccall None malloc_ok dp = parse_funccall (Some f) malloc_ok dp.
Proof.
  unfold parse_funccall. intros _. repeat case_match; done.
Qed.

Lemma parse_factor_agrees n :
  agrees (parse_factor (Some f) malloc_ok n) (parse_factor None malloc_ok n) ->
  agrees (parse_expr (Some f) malloc_ok n) (parse_expr None malloc_ok n) ->
  agrees (parse_factor (Some f) malloc_ok (S n)) (parse_factor None malloc_ok (S n)).
Proof.
  intros IHf IHe dp dp' H Hok. rewrite parse_factor_S in H |- *.
  cbv zeta in H. destruct (dp_ok (skip_ws dp)) eqn:E; cbn [negb] in H; [|by injection H as <-; congruence].
  split; [done|]. cbv zeta in *. rewrite E. cbn [negb] in *. destruct (strip_prefix "!" _) as [p|].
  { apply res_bind_Ok in H as (d1 & E1 & [= <-]). apply agrees_emit in Hok.
    by rewrite (proj2 (IHf _ _ E1 Hok)). }
  destruct (strip_prefix "(" _) as [p|].
  - apply res_bind_Ok in H as (d1 & E1 & H). assert (Hok1 : dp_ok d1 = true).
    { destruct (dp_ok (skip_ws d1)) eqn:E2; [done|]. cbn [negb] in H. by injection H as <-; congruence. }
    by rewrite (proj2 (IHe _ _ E1 Hok1)).
  - injection H as <-. by rewrite parse_funccall_agrees.
Qed.

Lemma parse_agrees n :
  agrees (parse_expr (Some f) malloc_ok n) (parse_expr None malloc_ok n) /\
  agrees (parse_expr_loop (Some f) malloc_ok n) (parse_expr_loop None malloc_ok n) /\
  agrees (parse_term (Some f) malloc_ok n) (parse_term None malloc_ok n) /\
  agrees (parse_term_loop (Some f) malloc_ok n) (parse_term_loop None malloc_ok n) /\
  agrees (parse_factor (Some f) malloc_ok n) (parse_factor None malloc_ok n).
Proof.
  induction n as [|n (I1 & I2 & I3 & I4 & I5)]; [by repeat split|]. split; [|split; [|split; [|split]]].
  - exact (agrees_seq _ _ _ _ I3 I2).
  - exact (agrees_loop malloc_ok "||" DEP_OR _ _ _ _ I3 I2).
  - exact (agrees_seq _ _ _ _ I5 I4).
  - exact (agrees_loop malloc_ok "&&" DEP_AND _ _ _ _ I5 I4).
  - by apply parse_factor_agrees.
Qed.

(** A text accepted with a callback is accepted without one, with the same list:
    what the replay of the log relies on. *)
Lemma dep_parse_unresolved s ds :
  dep_parse (Some f) malloc_ok s = Ok (DEP_PARSE_OK, ds) -> dep_parse None malloc_ok s = Ok (DEP_PARSE_OK, ds).
Proof.
  unfold dep_parse. intros (dp & E & H)%res_bind_Ok.
  assert (Hok : dp_ok dp = true).
  { destruct (dp_ok dp) eqn:Eok; [done|]. exfalso. unfold dp_ok in *. cbn in H. rewrite Eok in H. cbn in H.
    rewrite Eok in H. injection H as H _. by rewrite H in Eok. }
  destruct (parse_agrees (dep_fuel s)) as [I _]. by rewrite (proj2 (I _ _ E Hok)).
Qed.
End agreement.

(** C35: [dep_parse] returns on every text, whatever the callback and the
    allocator answer: on [DEP_PARSE_OK] the list is the postfix of an expression
    all of whose jobs the callback knows, on an error the list is empty. *)
Theorem dep_parse_sound resolve malloc_ok str :
  exists st deps, dep_parse resolve malloc_ok str = Ok (st, deps) /\
    match st with
    | DEP_PARSE_OK => exists e, deps = postfix e /\ resolved resolve e
    | _ => deps = []
    end.
Proof. apply dep_parse_total. Qed.

(** Print/parse round trip: a condition written out with its parentheses is
    parsed back to the postfix list of the same expression. *)
Theorem dep_parse_roundtrip resolve e :
  Forall (known resolve) (dcalls e) ->
  dep_parse resolve (fun _ => true) (dprint e) = Ok (DEP_PARSE_OK, postfix e).
Proof. apply dep_parse_print. Qed.

Lemma dep_parse_roundtrip_witness :
  dep_parse (Some (fun id => id <? 20)) (fun _ => true)
    (dprint (DOr (DCall CallDone 12) (DNot (DAnd (DCall CallExit 13) (DCall CallEnded 7))))) =
  Ok (DEP_PARSE_OK,
      postfix (DOr (DCall CallDone 12) (DNot (DAnd (DCall CallExit 13) (DCall CallEnded 7))))).
Proof. apply (dep_parse_roundtrip (Some (fun id => id <? 20))). repeat constructor. Defined.

(** C34: evaluating a parsed condition gives its meaning and never pops an empty
    stack; the sixteen entries are enough exactly when the expression needs no
    more than sixteen, and otherwise the evaluator writes past the array. *)
Theorem dep_list_eval_meaning check e :
  dep_list_eval (postfix e) check =
  if (ddepth e <=? DEP_MAX_STACK)%nat then Ok (dmeaning check e) else Crash BadIndex.
Proof. apply dep_list_eval_postfix. Qed.

(** A condition of seventeen calls nested to the right. *)
Fixpoint right_nest (n : nat) : dexp :=
  match n with
  | O => DCall CallDone 1
  | S n' => DAnd (DCall CallDone 1) (right_nest n')
  end.

(** The parser has no bound on nesting: a condition of seventeen calls that
    nest to the right is accepted, and evaluating it overruns the stack. *)
Theorem dep_stack_overrun :
  dep_parse (Some (fun _ => true)) (fun _ => true) (dprint (right_nest 16)) =
    Ok (DEP_PARSE_OK, postfix (right_nest 16)) /\
  dep_list_eval (postfix (right_nest 16)) (fun _ _ => 1) = Crash BadIndex.
Proof. split; vm_compute; reflexivity. Qed.
