(* ===== verification/LogFormat.v ===== *)
(** * The event log format (src/batch/lib/log.c, include/batch/lib/log.h)

    One text line per event: a header (event name, version, time), integers in
    decimal and quoted strings.  Writers and readers of every event, and the
    round trip between them. *)

From S2P Require Import Prelude CString.

Open Scope string_scope.
Open Scope list_scope.
Open Scope Z_scope.

Definition LOG_VERSION : Z := 1.

Inductive event_type : Type :=
  | EVENT_NULL
  | EVENT_JOB_NEW
  | EVENT_JOB_START
  | EVENT_JOB_FORK
  | EVENT_JOB_SIGNAL
  | EVENT_JOB_FINISH
  | EVENT_JOB_PEND_SUSP
  | EVENT_JOB_PEND_RESUME
  | EVENT_JOB_SUSP
  | EVENT_JOB_MOVE
  | EVENT_JOB_PRIORITY
  | EVENT_JOB_PEND.

#[export] Instance event_type_eq_dec : EqDecision event_type.
Proof. solve_decision. Defined.

Definition event_name (t : event_type) : string :=
  match t with
  | EVENT_NULL => "NULL"
  | EVENT_JOB_NEW => "JOB_NEW"
  | EVENT_JOB_START => "JOB_START"
  | EVENT_JOB_FORK => "JOB_FORK"
  | EVENT_JOB_SIGNAL => "JOB_SIGNAL"
  | EVENT_JOB_FINISH => "JOB_FINISH"
  | EVENT_JOB_PEND_SUSP => "JOB_PEND_SUSP"
  | EVENT_JOB_PEND_RESUME => "JOB_PEND_RESUME"
  | EVENT_JOB_SUSP => "JOB_SUSP"
  | EVENT_JOB_MOVE => "JOB_MOVE"
  | EVENT_JOB_PRIORITY => "JOB_PRIORITY"
  | EVENT_JOB_PEND => "JOB_PEND"
  end.

(** The event types in the order of the search loop, which starts at 1. *)
Definition event_types : list event_type :=
  [EVENT_JOB_NEW; EVENT_JOB_START; EVENT_JOB_FORK; EVENT_JOB_SIGNAL;
   EVENT_JOB_FINISH; EVENT_JOB_PEND_SUSP; EVENT_JOB_PEND_RESUME; EVENT_JOB_SUSP;
   EVENT_JOB_MOVE; EVENT_JOB_PRIORITY; EVENT_JOB_PEND].

Record event_rec : Type := mk_event_rec {
  rec_version : Z;
  rec_type : event_type;
  rec_time : Z;
  rec_rest : string
}.

(** ** The payload structs *)

Record log_job_new : Type := mk_log_job_new {
  ln_job_id : Z;
  ln_array_id : Z;
  ln_array_index : Z;
  ln_array_start : Z;
  ln_array_end : Z;
  ln_array_stride : Z;
  ln_uid : Z;
  ln_gid : Z;
  ln_state : Z;
  ln_priority : Z;
  ln_submit_time : Z;
  ln_begin_time : Z;
  ln_term_time : Z;
  ln_num_cpu : Z;
  ln_num_hosts : Z;
  ln_num_gpus : Z;
  ln_mem_mb : Z;
  ln_storage_mb : Z;
  ln_flags : Z;
  ln_username : string;
  ln_job_name : string;
  ln_queue : string;
  ln_project_name : string;
  ln_gpu_model : string;
  ln_machines : string;
  ln_tokenpool : string;
  ln_depend_cond : string
}.

Record log_job_start : Type := mk_log_job_start {
  ls_job_id : Z;
  ls_dispatch_time : Z;
  ls_nhosts : Z;
  ls_cpus_per_host : Z;
  ls_gpus_per_host : Z;
  ls_gpu_model : string;
  ls_gpu_assigned : string;
  ls_hosts : string
}.

Record log_job_fork : Type := mk_log_job_fork {
  lf_job_id : Z;
  lf_job_pid : Z;
  lf_fork_time : Z
}.

Record log_job_signal : Type := mk_log_job_signal {
  lg_job_id : Z;
  lg_signal_num : Z;
  lg_uid : Z;
  lg_signal_time : Z
}.

Record log_job_finish : Type := mk_log_job_finish {
  le_job_id : Z;
  le_uid : Z;
  le_state : Z;
  le_exit_status : Z;
  le_end_time : Z
}.

(** [log_job_pend_susp], [log_job_pend_resume], [log_job_susp] and
    [log_job_pend] have the same two fields. *)
Record log_job_mark : Type := mk_log_job_mark {
  lk_job_id : Z;
  lk_event_time : Z
}.

Record log_job_move : Type := mk_log_job_move {
  lm_job_id : Z;
  lm_event_time : Z;
  lm_from_queue : string;
  lm_to_queue : string
}.

Record log_job_priority : Type := mk_log_job_priority {
  lp_job_id : Z;
  lp_event_time : Z;
  lp_old_priority : Z;
  lp_new_priority : Z
}.

(** ** Header and quoted strings *)

Definition write_hdr (type : event_type) (t : Z) : res string :=
  let* _ := c_assert (0 <? t) in
  Ok (event_name type +:+ print_ints [LOG_VERSION; t]).

Definition write_qstr (s : string) : string :=
  String " " (String dquote s) +:+ String dquote EmptyString.

(** The string and the text after its closing quote. *)
Definition read_qstr (p : string) (maxlen : nat) : option (string * string) :=
  match skip_while (fun c => Ascii.eqb c " ") p with
  | String c s =>
      if Ascii.eqb c dquote then
        match strchr_split dquote s with
        | Some (v, e) => if (maxlen <=? String.length v)%nat then None else Some (v, e)
        | None => None
        end
      else None
  | EmptyString => None
  end.

Fixpoint parse_event_type_in (ts : list event_type) (name : string) : event_type :=
  match ts with
  | [] => EVENT_NULL
  | t :: ts' => if String.eqb name (event_name t) then t else parse_event_type_in ts' name
  end.

Definition parse_event_type (name : string) : event_type :=
  parse_event_type_in event_types name.

(** One line of the file: the record ([None] for -1) and the rest of the file. *)
Definition log_read_hdr (fp : string) : option event_rec * string :=
  match fgets LL_BUFSIZ_4K fp with
  | None => (None, fp)
  | Some (line, fp') =>
      match scanf_word 63 line with
      | None => (None, fp')
      | Some (etype, s) =>
          match scanf_ints [CInt; CLong] s with
          | Some ([ver; ts], rest) =>
              (Some (mk_event_rec ver (parse_event_type etype) ts (strbuf LL_BUFSIZ_4K rest)), fp')
          | _ => (None, fp')
          end
      end
  end.

Definition newline_str : string := String newline EmptyString.

(** ** The writers *)

Definition log_write_job_new (j : log_job_new) : res string :=
  let* h := write_hdr EVENT_JOB_NEW (ln_submit_time j) in
  Ok (h +:+ print_ints
        [ln_job_id j; ln_array_id j; ln_array_index j; ln_array_start j;
         ln_array_end j; ln_array_stride j; ln_uid j; ln_gid j; ln_state j;
         ln_priority j; ln_begin_time j; ln_term_time j; ln_num_cpu j;
         ln_num_hosts j; ln_num_gpus j; ln_mem_mb j; ln_storage_mb j; ln_flags j]
      +:+ write_qstr (ln_username j) +:+ write_qstr (ln_job_name j)
      +:+ write_qstr (ln_queue j) +:+ write_qstr (ln_project_name j)
      +:+ write_qstr (ln_gpu_model j) +:+ write_qstr (ln_machines j)
      +:+ write_qstr (ln_tokenpool j) +:+ write_qstr (ln_depend_cond j)
      +:+ newline_str).

Definition log_write_job_start (j : log_job_start) : res string :=
  let* h := write_hdr EVENT_JOB_START (ls_dispatch_time j) in
  Ok (h +:+ print_ints [ls_job_id j; ls_nhosts j; ls_cpus_per_host j; ls_gpus_per_host j]
      +:+ write_qstr (ls_gpu_model j) +:+ write_qstr (ls_gpu_assigned j)
      +:+ write_qstr (ls_hosts j) +:+ newline_str).

Definition log_write_job_fork (j : log_job_fork) : res string :=
  let* h := write_hdr EVENT_JOB_FORK (lf_fork_time j) in
  Ok (h +:+ print_ints [lf_job_id j; lf_job_pid j] +:+ newline_str).

Definition log_write_job_signal (j : log_job_signal) : res string :=
  let* h := write_hdr EVENT_JOB_SIGNAL (lg_signal_time j) in
  Ok (h +:+ print_ints [lg_job_id j; lg_signal_num j; lg_uid j] +:+ newline_str).

Definition log_write_job_finish (j : log_job_finish) : res string :=
  let* h := write_hdr EVENT_JOB_FINISH (le_end_time j) in
  Ok (h +:+ print_ints [le_job_id j; le_uid j; le_state j; le_exit_status j; le_end_time j]
      +:+ newline_str).

Definition log_write_job_mark (type : event_type) (j : log_job_mark) : res string :=
  let* h := write_hdr type (lk_event_time j) in
  Ok (h +:+ print_ints [lk_job_id j] +:+ newline_str).

Definition log_write_job_pend_susp := log_write_job_mark EVENT_JOB_PEND_SUSP.
Definition log_write_job_pend_resume := log_write_job_mark EVENT_JOB_PEND_RESUME.
Definition log_write_job_susp := log_write_job_mark EVENT_JOB_SUSP.
Definition log_write_job_pend := log_write_job_mark EVENT_JOB_PEND.

Definition log_write_job_move (j : log_job_move) : res string :=
  let* h := write_hdr EVENT_JOB_MOVE (lm_event_time j) in
  Ok (h +:+ print_ints [lm_job_id j] +:+ write_qstr (lm_from_queue j)
      +:+ write_qstr (lm_to_queue j) +:+ newline_str).

Definition log_write_job_priority (j : log_job_priority) : res string :=
  let* h := write_hdr EVENT_JOB_PRIORITY (lp_event_time j) in
  Ok (h +:+ print_ints [lp_job_id j; lp_old_priority j; lp_new_priority j] +:+ newline_str).

(** ** The parsers: [None] is -1 *)

(** Successive [read_qstr] calls into buffers of the given sizes. *)
Fixpoint read_qstrs (sizes : list nat) (p : string) : option (list string) :=
  match sizes with
  | [] => Some []
  | n :: sizes' =>
      match read_qstr p n with
      | Some (v, p') =>
          match read_qstrs sizes' p' with
          | Some vs => Some (v :: vs)
          | None => None
          end
      | None => None
      end
  end.

Definition job_new_convs : list conv :=
  [CLong; CLong; CInt; CInt; CInt; CInt; CUInt; CUInt; CInt; CInt; CLong; CLong;
   CInt; CInt; CInt; CULong; CULong; CUInt].

Definition job_new_sizes : list nat :=
  [LL_BUFSIZ_64; LL_BUFSIZ_64; LL_BUFSIZ_64; LL_BUFSIZ_64; LL_BUFSIZ_64;
   LL_BUFSIZ_1K; LL_BUFSIZ_256; LL_BUFSIZ_4K].

Definition log_parse_job_new (rec : event_rec) : option log_job_new :=
  match scanf_ints job_new_convs (rec_rest rec) with
  | Some ([job_id; array_id; array_index; array_start; array_end; array_stride;
           uid; gid; state; priority; begin_time; term_time; num_cpu; num_hosts;
           num_gpus; mem_mb; storage_mb; flags], p) =>
      match read_qstrs job_new_sizes p with
      | Some [username; job_name; queue; project; gpu_model; machines; tokenpool;
              depend_cond] =>
          Some (mk_log_job_new job_id array_id array_index array_start array_end
                  array_stride uid gid state priority (rec_time rec) begin_time
                  term_time num_cpu num_hosts num_gpus mem_mb storage_mb flags
                  username job_name queue project gpu_model machines tokenpool
                  depend_cond)
      | _ => None
      end
  | _ => None
  end.

Definition log_parse_job_start (rec : event_rec) : option log_job_start :=
  match scanf_ints [CLong; CInt; CInt; CInt] (rec_rest rec) with
  | Some ([job_id; nhosts; cpus; gpus], p) =>
      match read_qstrs [LL_BUFSIZ_64; LL_BUFSIZ_64; LL_BUFSIZ_4K] p with
      | Some [gpu_model; gpu_assigned; hosts] =>
          Some (mk_log_job_start job_id (rec_time rec) nhosts cpus gpus
                  gpu_model gpu_assigned hosts)
      | _ => None
      end
  | _ => None
  end.

Definition log_parse_job_fork (rec : event_rec) : option log_job_fork :=
  match scanf_ints [CLong; CInt] (rec_rest rec) with
  | Some ([job_id; pid], _) => Some (mk_log_job_fork job_id pid (rec_time rec))
  | _ => None
  end.

Definition log_parse_job_signal (rec : event_rec) : option log_job_signal :=
  match scanf_ints [CLong; CInt; CUInt] (rec_rest rec) with
  | Some ([job_id; signum; uid], _) => Some (mk_log_job_signal job_id signum uid (rec_time rec))
  | _ => None
  end.

Definition log_parse_job_finish (rec : event_rec) : option log_job_finish :=
  match scanf_ints [CLong; CUInt; CInt; CInt] (rec_rest rec) with
  | Some ([job_id; uid; state; exit_status], _) =>
      Some (mk_log_job_finish job_id uid state exit_status (rec_time rec))
  | _ => None
  end.

Definition log_parse_job_mark (rec : event_rec) : option log_job_mark :=
  match scanf_ints [CLong] (rec_rest rec) with
  | Some ([job_id], _) => Some (mk_log_job_mark job_id (rec_time rec))
  | _ => None
  end.

Definition log_parse_job_pend_susp := log_parse_job_mark.
Definition log_parse_job_pend_resume := log_parse_job_mark.
Definition log_parse_job_susp := log_parse_job_mark.
Definition log_parse_job_pend := log_parse_job_mark.

Definition log_parse_job_move (rec : event_rec) : option log_job_move :=
  match scanf_ints [CLong] (rec_rest rec) with
  | Some ([job_id], p) =>
      match read_qstrs [LL_BUFSIZ_64; LL_BUFSIZ_64] p with
      | Some [from_queue; to_queue] =>
          Some (mk_log_job_move job_id (rec_time rec) from_queue to_queue)
      | _ => None
      end
  | _ => None
  end.

Definition log_parse_job_priority (rec : event_rec) : option log_job_priority :=
  match scanf_ints [CLong; CInt; CInt] (rec_rest rec) with
  | Some ([job_id; old_priority; new_priority], _) =>
      Some (mk_log_job_priority job_id (rec_time rec) old_priority new_priority)
  | _ => None
  end.

(** ** One event of any type *)

Inductive log_event : Type :=
  | LogNew (j : log_job_new)
  | LogStart (j : log_job_start)
  | LogFork (j : log_job_fork)
  | LogSignal (j : log_job_signal)
  | LogFinish (j : log_job_finish)
  | LogPendSusp (j : log_job_mark)
  | LogPendResume (j : log_job_mark)
  | LogSusp (j : log_job_mark)
  | LogMove (j : log_job_move)
  | LogPriority (j : log_job_priority)
  | LogPend (j : log_job_mark).

Definition log_write (e : log_event) : res string :=
  match e with
  | LogNew j => log_write_job_new j
  | LogStart j => log_write_job_start j
  | LogFork j => log_write_job_fork j
  | LogSignal j => log_write_job_signal j
  | LogFinish j => log_write_job_finish j
  | LogPendSusp j => log_write_job_pend_susp j
  | LogPendResume j => log_write_job_pend_resume j
  | LogSusp j => log_write_job_susp j
  | LogMove j => log_write_job_move j
  | LogPriority j => log_write_job_priority j
  | LogPend j => log_write_job_pend j
  end.

(** The choice of the parser by the type of the record, as the replay loop of
    mbd makes it. *)
Definition log_parse (rec : event_rec) : option log_event :=
  match rec_type rec with
  | EVENT_NULL => None
  | EVENT_JOB_NEW => LogNew <$> log_parse_job_new rec
  | EVENT_JOB_START => LogStart <$> log_parse_job_start rec
  | EVENT_JOB_FORK => LogFork <$> log_parse_job_fork rec
  | EVENT_JOB_SIGNAL => LogSignal <$> log_parse_job_signal rec
  | EVENT_JOB_FINISH => LogFinish <$> log_parse_job_finish rec
  | EVENT_JOB_PEND_SUSP => LogPendSusp <$> log_parse_job_pend_susp rec
  | EVENT_JOB_PEND_RESUME => LogPendResume <$> log_parse_job_pend_resume rec
  | EVENT_JOB_SUSP => LogSusp <$> log_parse_job_susp rec
  | EVENT_JOB_MOVE => LogMove <$> log_parse_job_move rec
  | EVENT_JOB_PRIORITY => LogPriority <$> log_parse_job_priority rec
  | EVENT_JOB_PEND => LogPend <$> log_parse_job_pend rec
  end.

(** ** Events that fit the format *)

(** No quote and no newline, and short enough for its buffer. *)
Definition qstr_ok (size : nat) (s : string) : bool :=
  forall_chars (fun c => negb (Ascii.eqb c dquote) && negb (Ascii.eqb c newline)) s
  && (String.length s <? size)%nat.

Definition event_time (e : log_event) : Z :=
  match e with
  | LogNew j => ln_submit_time j
  | LogStart j => ls_dispatch_time j
  | LogFork j => lf_fork_time j
  | LogSignal j => lg_signal_time j
  | LogFinish j => le_end_time j
  | LogPendSusp j | LogPendResume j | LogSusp j | LogPend j => lk_event_time j
  | LogMove j => lm_event_time j
  | LogPriority j => lp_event_time j
  end.

Definition event_type_of (e : log_event) : event_type :=
  match e with
  | LogNew _ => EVENT_JOB_NEW
  | LogStart _ => EVENT_JOB_START
  | LogFork _ => EVENT_JOB_FORK
  | LogSignal _ => EVENT_JOB_SIGNAL
  | LogFinish _ => EVENT_JOB_FINISH
  | LogPendSusp _ => EVENT_JOB_PEND_SUSP
  | LogPendResume _ => EVENT_JOB_PEND_RESUME
  | LogSusp _ => EVENT_JOB_SUSP
  | LogMove _ => EVENT_JOB_MOVE
  | LogPriority _ => EVENT_JOB_PRIORITY
  | LogPend _ => EVENT_JOB_PEND
  end.

(** The integers of the payload with their conversions, in the order written. *)
Definition event_ints (e : log_event) : list (conv * Z) :=
  match e with
  | LogNew j =>
      [(CLong, ln_job_id j); (CLong, ln_array_id j); (CInt, ln_array_index j);
       (CInt, ln_array_start j); (CInt, ln_array_end j); (CInt, ln_array_stride j);
       (CUInt, ln_uid j); (CUInt, ln_gid j); (CInt, ln_state j); (CInt, ln_priority j);
       (CLong, ln_begin_time j); (CLong, ln_term_time j); (CInt, ln_num_cpu j);
       (CInt, ln_num_hosts j); (CInt, ln_num_gpus j); (CULong, ln_mem_mb j);
       (CULong, ln_storage_mb j); (CUInt, ln_flags j)]
  | LogStart j =>
      [(CLong, ls_job_id j); (CInt, ls_nhosts j); (CInt, ls_cpus_per_host j);
       (CInt, ls_gpus_per_host j)]
  | LogFork j => [(CLong, lf_job_id j); (CInt, lf_job_pid j)]
  | LogSignal j => [(CLong, lg_job_id j); (CInt, lg_signal_num j); (CUInt, lg_uid j)]
  | LogFinish j =>
      [(CLong, le_job_id j); (CUInt, le_uid j); (CInt, le_state j); (CInt, le_exit_status j);
       (CLong, le_end_time j)]
  | LogPendSusp j | LogPendResume j | LogSusp j | LogPend j => [(CLong, lk_job_id j)]
  | LogMove j => [(CLong, lm_job_id j)]
  | LogPriority j =>
      [(CLong, lp_job_id j); (CInt, lp_old_priority j); (CInt, lp_new_priority j)]
  end.

(** The quoted strings of the payload with the sizes of their buffers. *)
Definition event_strs (e : log_event) : list (nat * string) :=
  match e with
  | LogNew j =>
      [(LL_BUFSIZ_64, ln_username j); (LL_BUFSIZ_64, ln_job_name j);
       (LL_BUFSIZ_64, ln_queue j); (LL_BUFSIZ_64, ln_project_name j);
       (LL_BUFSIZ_64, ln_gpu_model j); (LL_BUFSIZ_1K, ln_machines j);
       (LL_BUFSIZ_256, ln_tokenpool j); (LL_BUFSIZ_4K, ln_depend_cond j)]
  | LogStart j =>
      [(LL_BUFSIZ_64, ls_gpu_model j); (LL_BUFSIZ_64, ls_gpu_assigned j);
       (LL_BUFSIZ_4K, ls_hosts j)]
  | LogMove j => [(LL_BUFSIZ_64, lm_from_queue j); (LL_BUFSIZ_64, lm_to_queue j)]
  | _ => []
  end.

Definition event_ok (e : log_event) : bool :=
  (0 <? event_time e) && is_i64 (event_time e)
  && forallb (fun p => conv_fits p.1 p.2) (event_ints e)
  && forallb (fun p => qstr_ok p.1 p.2) (event_strs e).

(** ** Round trip *)

Fixpoint write_qstrs (ss : list string) : string :=
  match ss with
  | [] => EmptyString
  | s :: ss' => write_qstr s +:+ write_qstrs ss'
  end.

Definition event_payload (e : log_event) : string :=
  print_ints (event_ints e).*2 +:+ write_qstrs (event_strs e).*2.

(** Every writer writes the header, the integers, the strings and a newline. *)
Lemma log_write_text e :
  0 < event_time e ->
  log_write e = Ok (event_name (event_type_of e) +:+ print_ints [LOG_VERSION; event_time e]
                    +:+ event_payload e +:+ newline_str).
Proof.
  intros Ht. apply Z.ltb_lt in Ht.
  destruct e; cbn [log_write event_type_of event_time event_payload] in *;
    unfold event_payload, log_write_job_pend_susp, log_write_job_pend_resume,
      log_write_job_susp, log_write_job_pend, log_write_job_mark,
      log_write_job_new, log_write_job_start, log_write_job_fork, log_write_job_signal,
      log_write_job_finish, log_write_job_move, log_write_job_priority, write_hdr;
    rewrite Ht; cbn [c_assert guard_or res_bind]; f_equal;
    cbn [event_ints event_strs fmap list_fmap snd write_qstrs];
    by rewrite <- ?string_app_assoc, ?string_app_nil_r.
Qed.

Lemma read_qstr_write s size p :
  qstr_ok size s = true -> read_qstr (write_qstr s +:+ p) size = Some (s, p).
Proof.
  intros [Hc Hl]%andb_prop. unfold write_qstr. rewrite <- string_app_assoc.
  change (match strchr_split dquote (s +:+ String dquote p) with
          | Some (v, e) => if (size <=? String.length v)%nat then None else Some (v, e)
          | None => None end = Some (s, p)).
  rewrite strchr_split_app.
  - apply Nat.ltb_lt in Hl. by rewrite (proj2 (Nat.leb_gt _ _)) by done.
  - eapply forall_chars_impl; [|exact Hc]. by intros c [? _]%andb_prop.
Qed.

Lemma read_qstrs_write (ps : list (nat * string)) p :
  forallb (fun q => qstr_ok q.1 q.2) ps = true ->
  read_qstrs ps.*1 (write_qstrs ps.*2 +:+ p) = Some ps.*2.
Proof.
  induction ps as [|[n s] ps IH]; [done|]. cbn [forallb fst snd].
  intros [H1 H2]%andb_prop. cbn [fmap list_fmap fst snd read_qstrs write_qstrs].
  rewrite <- string_app_assoc, read_qstr_write by done. by rewrite IH.
Qed.

Lemma scanf_payload (ivs : list (conv * Z)) (ss : list string) :
  forallb (fun q => conv_fits q.1 q.2) ivs = true ->
  scanf_ints ivs.*1 (print_ints ivs.*2 +:+ write_qstrs ss +:+ newline_str) =
  Some (ivs.*2, write_qstrs ss +:+ newline_str).
Proof.
  intros Hf. apply print_ints_scanf; [|by destruct ss].
  induction ivs as [|[k v] ivs IH]; cbn in *; [constructor|].
  apply andb_prop in Hf as [H1 H2]. constructor; auto.
Qed.

(** [sscanf] with fewer conversions than numbers reads a prefix. *)
Lemma scanf_payload_prefix (ivs1 ivs2 : list (conv * Z)) (ss : list string) :
  forallb (fun q => conv_fits q.1 q.2) ivs1 = true ->
  scanf_ints ivs1.*1 (print_ints (ivs1 ++ ivs2).*2 +:+ write_qstrs ss +:+ newline_str) =
  Some (ivs1.*2, print_ints ivs2.*2 +:+ write_qstrs ss +:+ newline_str).
Proof.
  intros Hf. rewrite fmap_app.
  assert (Happ : forall a b, print_ints (a ++ b) = print_ints a +:+ print_ints b).
  { induction a as [|v a IH]; intros b; [done|]. cbn [app print_ints].
    by rewrite IH, <- !string_app_assoc. }
  rewrite Happ, <- string_app_assoc. apply print_ints_scanf; [|by destruct ivs2, ss].
  induction ivs1 as [|[k v] ivs1 IH]; cbn in *; [constructor|].
  apply andb_prop in Hf as [H1 H2]. constructor; auto.
Qed.

(** The payload parser of the event's type reads the payload back. *)
Lemma log_parse_payload e :
  event_ok e = true ->
  log_parse (mk_event_rec LOG_VERSION (event_type_of e) (event_time e)
               (event_payload e +:+ newline_str)) = Some e.
Proof.
  intros [[_ Hi]%andb_prop Hs]%andb_prop. unfold event_payload.
  rewrite <- string_app_assoc. apply read_qstrs_write with (p := newline_str) in Hs.
  pose proof (scanf_payload _ (event_strs e).*2 Hi) as Hp.
  destruct e as [j|j|j|j|j|j|j|j|j|j|j]; unfold log_parse; cbn [rec_type event_type_of].
  - unfold log_parse_job_new. cbn [rec_rest].
    rewrite (Hp : scanf_ints job_new_convs _ = _). cbn [event_ints fmap list_fmap snd].
    rewrite (Hs : read_qstrs job_new_sizes _ = _). by destruct j.
  - unfold log_parse_job_start. cbn [rec_rest].
    rewrite (Hp : scanf_ints [CLong; CInt; CInt; CInt] _ = _). cbn [event_ints fmap list_fmap snd].
    rewrite (Hs : read_qstrs [LL_BUFSIZ_64; LL_BUFSIZ_64; LL_BUFSIZ_4K] _ = _). by destruct j.
  - unfold log_parse_job_fork. cbn [rec_rest].
    rewrite (Hp : scanf_ints [CLong; CInt] _ = _). by destruct j.
  - unfold log_parse_job_signal. cbn [rec_rest].
    rewrite (Hp : scanf_ints [CLong; CInt; CUInt] _ = _). by destruct j.
  - unfold log_parse_job_finish. cbn [rec_rest].
    pose proof (scanf_payload_prefix [(CLong, le_job_id j); (CUInt, le_uid j); (CInt, le_state j);
      (CInt, le_exit_status j)] [(CLong, le_end_time j)] []) as Hq.
    cbn [forallb fst snd event_ints] in Hi, Hq. rewrite !andb_true_iff in Hi, Hq.
    change (write_qstrs (event_strs (LogFinish j)).*2) with (write_qstrs []).
    change (event_ints (LogFinish j)) with
      ([(CLong, le_job_id j); (CUInt, le_uid j); (CInt, le_state j); (CInt, le_exit_status j)]
       ++ [(CLong, le_end_time j)]).
    rewrite (Hq ltac:(tauto) : scanf_ints [CLong; CUInt; CInt; CInt] _ = _). by destruct j.
  - unfold log_parse_job_pend_susp, log_parse_job_mark. cbn [rec_rest].
    rewrite (Hp : scanf_ints [CLong] _ = _). by destruct j.
  - unfold log_parse_job_pend_resume, log_parse_job_mark. cbn [rec_rest].
    rewrite (Hp : scanf_ints [CLong] _ = _). by destruct j.
  - unfold log_parse_job_susp, log_parse_job_mark. cbn [rec_rest].
    rewrite (Hp : scanf_ints [CLong] _ = _). by destruct j.
  - unfold log_parse_job_move. cbn [rec_rest].
    rewrite (Hp : scanf_ints [CLong] _ = _). cbn [event_ints fmap list_fmap snd].
    rewrite (Hs : read_qstrs [LL_BUFSIZ_64; LL_BUFSIZ_64] _ = _). by destruct j.
  - unfold log_parse_job_priority. cbn [rec_rest].
    rewrite (Hp : scanf_ints [CLong; CInt; CInt] _ = _). by destruct j.
  - unfold log_parse_job_pend, log_parse_job_mark. cbn [rec_rest].
    rewrite (Hp : scanf_ints [CLong] _ = _). by destruct j.
Qed.

Lemma write_qstrs_chars (ps : list (nat * string)) :
  forallb (fun q => qstr_ok q.1 q.2) ps = true ->
  forall_chars not_newline (write_qstrs ps.*2) = true.
Proof.
  induction ps as [|[n s] ps IH]; [done|]. cbn [forallb fst snd].
  intros [[H1 _]%andb_prop H2]%andb_prop. cbn [fmap list_fmap write_qstrs snd].
  rewrite forall_chars_app, IH by done. unfold write_qstr. rewrite forall_chars_app.
  cbn [forall_chars]. eapply (forall_chars_impl _ not_newline) in H1.
  - by rewrite H1.
  - by intros c [_ ?]%andb_prop.
Qed.

Lemma digit_not_newline c : isdigit c = true -> not_newline c = true.
Proof.
  unfold not_newline. destruct (Ascii.eqb_spec c newline) as [->|]; [by vm_compute|done].
Qed.

(** Reading a line back gives its header and its payload. *)
Lemma log_read_hdr_line ty t payload rest :
  ty <> EVENT_NULL -> 0 < t -> is_i64 t = true ->
  forall_chars not_newline payload = true -> head_is isdigit (payload +:+ newline_str) = false ->
  (String.length (event_name ty +:+ print_ints [LOG_VERSION; t] +:+ payload) < 4095)%nat ->
  log_read_hdr ((event_name ty +:+ print_ints [LOG_VERSION; t] +:+ payload +:+ newline_str) +:+ rest) =
  (Some (mk_event_rec LOG_VERSION ty t (payload +:+ newline_str)), rest).
Proof.
  intros Hty Ht Hi Hc Hhead Hlen. unfold log_read_hdr.
  set (line := event_name ty +:+ print_ints [LOG_VERSION; t] +:+ payload) in *.
  replace ((event_name ty +:+ print_ints [LOG_VERSION; t] +:+ payload +:+ newline_str) +:+ rest)
    with (line +:+ String newline rest) by (unfold line; by rewrite <- !string_app_assoc).
  assert (Hf : fgets LL_BUFSIZ_4K (line +:+ String newline rest) = Some (line +:+ newline_str, rest)).
  { unfold fgets. rewrite fgets_from_line.
    - by destruct ty.
    - unfold line. rewrite !forall_chars_app, Hc, andb_true_r.
      rewrite print_ints_chars by (done || apply digit_not_newline). by destruct ty.
    - unfold LL_BUFSIZ_4K. lia. }
  rewrite Hf.
  assert (Hw : scanf_word 63 (line +:+ newline_str) =
    Some (event_name ty, print_ints [LOG_VERSION; t] +:+ payload +:+ newline_str)).
  { unfold line. rewrite <- !string_app_assoc. by destruct ty. }
  rewrite Hw, (print_ints_scanf [CInt; CLong]) by (done || by repeat constructor).
  rewrite strbuf_fits.
  - replace (parse_event_type (event_name ty)) with ty; [done|]. by destruct ty.
  - unfold line in Hlen. rewrite !string_length_app in Hlen. rewrite string_length_app.
    unfold LL_BUFSIZ_4K, newline_str. cbn [String.length]. lia.
Qed.

(** A written event is read back, and the reader stops at the next line. *)
Lemma log_roundtrip e rest :
  event_ok e = true ->
  exists text, log_write e = Ok text /\
    ((String.length text <= 4095)%nat ->
     exists rec, log_read_hdr (text +:+ rest) = (Some rec, rest) /\ log_parse rec = Some e).
Proof.
  intros Hok. pose proof Hok as [[[Ht Ht2]%andb_prop Hi]%andb_prop Hs]%andb_prop.
  apply Z.ltb_lt in Ht. eexists. split; [by apply log_write_text|]. intros Hlen.
  eexists. split; [|by apply log_parse_payload]. apply log_read_hdr_line; try done.
  - by destruct e.
  - unfold event_payload. rewrite forall_chars_app, write_qstrs_chars by done.
    by rewrite print_ints_chars by (done || apply digit_not_newline).
  - unfold event_payload. rewrite <- string_app_assoc. apply print_ints_head.
    by destruct ((event_strs e).*2).
  - rewrite !string_length_app in Hlen. rewrite !string_length_app.
    cbn [newline_str String.length] in Hlen. change (String.length newline_str) with 1%nat in Hlen. lia.
Qed.

(** C28: the event log round trips: every event of the eleven types whose fields
    fit their C types and buffers and whose strings hold no quote and no newline
    is written as one line that [log_read_hdr] and the payload parser of its
    type read back unchanged, as long as the line fits the reader's buffer. *)
Theorem log_event_roundtrip e rest :
  event_ok e = true ->
  exists text, log_write e = Ok text /\
    ((String.length text <= 4095)%nat ->
     exists rec, log_read_hdr (text +:+ rest) = (Some rec, rest) /\ log_parse rec = Some e).
Proof. apply log_roundtrip. Qed.

Definition demo_event : log_event :=
  LogStart (mk_log_job_start 101 1700000000 2 4 1 "a100" "0,1" "node1 node2").

Lemma log_event_roundtrip_witness :
  event_ok demo_event = true /\
  exists text, log_write demo_event = Ok text /\
    ((String.length text <= 4095)%nat ->
     exists rec, log_read_hdr (text +:+ "JOB_FORK 1 5 101 77") = (Some rec, "JOB_FORK 1 5 101 77") /\
       log_parse rec = Some demo_event).
Proof.
  split; [vm_compute; reflexivity|].
  apply (log_event_roundtrip demo_event "JOB_FORK 1 5 101 77"). vm_compute. reflexivity.
Defined.

(** A string field with a quote in it: [write_qstr] does not escape it. *)
Definition quoted_move : log_event :=
  LogMove (mk_log_job_move 7 1700000000 (String "a" (String dquote "b")) "night").

(** Strings are not escaped: a queue name that holds a double quote is
    written in a form the parser of the same event does not accept. *)
Theorem log_quote_not_escaped :
  exists text rec, log_write quoted_move = Ok text /\
    log_read_hdr text = (Some rec, EmptyString) /\ log_parse rec = None.
Proof. eexists _, _. repeat split; vm_compute; reflexivity. Qed.
