(* ===== verification/MbdTypes.v ===== *)
(** * The data of mbd (include/batch/mbd/mbd.h, include/llbatch.h, wire.h)

    The records of the master daemon and its whole state as one record.  A
    pointer to a host or a queue is its index in the daemon's list, a pointer to
    a job is its job id; the job lists hold job ids in list order. *)

From S2P Require Import Prelude CString LlHash Dependency LogFormat.

Open Scope string_scope.
Open Scope list_scope.
Open Scope Z_scope.

(** ** Enumerations *)

Inductive job_state : Type :=
  | JOB_PENDING | JOB_HELD | JOB_RUNNING | JOB_SUSPENDED | JOB_EXITED
  | JOB_DONE | JOB_ORPHAN | JOB_BROKEN | JOB_UNKNOWN
  | JOB_BADSTATE (z : Z).

#[export] Instance job_state_eq_dec : EqDecision job_state.
Proof. solve_decision. Defined.

(** The integer the C code stores, and back; an integer outside the enum stays
    what it is. *)
Definition job_state_num (s : job_state) : Z :=
  match s with
  | JOB_PENDING => 1 | JOB_HELD => 2 | JOB_RUNNING => 3 | JOB_SUSPENDED => 4
  | JOB_EXITED => 5 | JOB_DONE => 6 | JOB_ORPHAN => 7 | JOB_BROKEN => 8
  | JOB_UNKNOWN => 9 | JOB_BADSTATE z => z
  end.

Definition job_state_of (z : Z) : job_state :=
  if z =? 1 then JOB_PENDING else if z =? 2 then JOB_HELD
  else if z =? 3 then JOB_RUNNING else if z =? 4 then JOB_SUSPENDED
  else if z =? 5 then JOB_EXITED else if z =? 6 then JOB_DONE
  else if z =? 7 then JOB_ORPHAN else if z =? 8 then JOB_BROKEN
  else if z =? 9 then JOB_UNKNOWN else JOB_BADSTATE z.

Inductive pend_reason : Type :=
  | PEND_NONE | PEND_JOB_NOT_READY | PEND_QUEUE_CLOSED | PEND_TOKENS
  | PEND_NO_HOSTS | PEND_NOT_ENOUGH_CPUS | PEND_NOT_ENOUGH_MEM
  | PEND_NOT_ENOUGH_STORAGE | PEND_NOT_ENOUGH_GPUS | PEND_GPU_MODEL
  | PEND_HOST_EXCLUSIVE | PEND_HOST_OVERFLOW | PEND_DEPEND.

#[export] Instance pend_reason_eq_dec : EqDecision pend_reason.
Proof. solve_decision. Defined.

Inductive job_list_id : Type := JOB_LIST_PEND | JOB_LIST_RUN | JOB_LIST_FINISH.

#[export] Instance job_list_id_eq_dec : EqDecision job_list_id.
Proof. solve_decision. Defined.

Definition QUEUE_OPEN : Z := 0.
Definition QUEUE_CLOSED : Z := 1.

Definition HOST_OK : Z := 0.
Definition HOST_UNAVAIL : Z := 2.
Definition HOST_CLOSED : Z := 1.

Definition JOB_FLAG_EXCLUSIVE : Z := 1.
Definition JOB_FLAG_HOLD : Z := 2.
Definition JOB_FLAG_ARRAY : Z := 4.

(** [flags & bit]. *)
Definition has_flag (flags bit : Z) : bool := negb (Z.land flags bit =? 0).

(** Status values: MBD_OK and the errno values of Linux. *)
Definition MBD_OK : Z := 0.
Definition EPERM : Z := 1.
Definition ESRCH : Z := 3.
Definition EAGAIN : Z := 11.
Definition ENOMEM : Z := 12.
Definition EINVAL : Z := 22.
Definition EPROTO : Z := 71.

(** Signal numbers of Linux. *)
Definition SIGINT : Z := 2.
Definition SIGKILL : Z := 9.
Definition SIGTERM : Z := 15.
Definition SIGCONT : Z := 18.
Definition SIGSTOP : Z := 19.
Definition SIGTSTP : Z := 20.

(** The operations of the protocol (include/batch/lib/rpc.h). *)
Inductive batch_op : Type :=
  | BATCH_JOB_SUBMIT | BATCH_JOB_SUBMIT_ACK | BATCH_JOB_SIGNAL | BATCH_JOB_SIGNAL_ACK
  | BATCH_JOB_INFO | BATCH_JOB_INFO_ACK | BATCH_HOST_INFO | BATCH_HOST_INFO_ACK
  | BATCH_QUEUE_INFO | BATCH_QUEUE_INFO_ACK | BATCH_GROUP_INFO | BATCH_GROUP_INFO_ACK
  | BATCH_SBD_REGISTER | BATCH_SBD_REGISTER_ACK | BATCH_TOKEN_INFO | BATCH_TOKEN_INFO_ACK
  | BATCH_NEW_JOB | BATCH_NEW_JOB_REPLY | BATCH_NEW_JOB_REPLY_ACK
  | BATCH_JOB_FINISH | BATCH_JOB_FINISH_ACK
  | BATCH_SBD_JOB_SIGNAL | BATCH_SBD_JOB_SIGNAL_REPLY | BATCH_JOB_MISSING
  | BATCH_QUEUE_ADMIN | BATCH_QUEUE_ADMIN_ACK | BATCH_HOST_ADMIN | BATCH_HOST_ADMIN_ACK
  | BATCH_JOB_MOVE | BATCH_JOB_MOVE_ACK | BATCH_JOB_PRIORITY | BATCH_JOB_PRIORITY_ACK.

#[export] Instance batch_op_eq_dec : EqDecision batch_op.
Proof. solve_decision. Defined.

(** ** Jobs *)

Record job_token : Type := mk_job_token {
  tok_name : string;
  tok_count : Z
}.

Record job_resources : Type := mk_job_resources {
  num_cpus : Z;
  num_hosts : Z;
  num_gpus : Z;
  gpu_model : string;
  mem_mb : Z;
  storage_mb : Z;
  wall_seconds : Z;
  machines_str : string;
  machines : ll_hash unit;
  tokenpool_str : string;
  tokens : list job_token
}.

Definition job_resources_eta (x : job_resources) : job_resources :=
    mk_job_resources (num_cpus x) (num_hosts x) (num_gpus x) (gpu_model x) (mem_mb x)
    (storage_mb x) (wall_seconds x) (machines_str x) (machines x) (tokenpool_str x) (tokens x).
#[export] Instance set_num_cpus : Setter num_cpus. Proof. setter job_resources_eta. Defined.
#[export] Instance set_num_hosts : Setter num_hosts. Proof. setter job_resources_eta. Defined.
#[export] Instance set_num_gpus : Setter num_gpus. Proof. setter job_resources_eta. Defined.
#[export] Instance set_gpu_model : Setter gpu_model. Proof. setter job_resources_eta. Defined.
#[export] Instance set_mem_mb : Setter mem_mb. Proof. setter job_resources_eta. Defined.
#[export] Instance set_storage_mb : Setter storage_mb. Proof. setter job_resources_eta. Defined.
#[export] Instance set_wall_seconds : Setter wall_seconds. Proof. setter job_resources_eta. Defined.
#[export] Instance set_machines_str : Setter machines_str. Proof. setter job_resources_eta. Defined.
#[export] Instance set_machines : Setter machines. Proof. setter job_resources_eta. Defined.
#[export] Instance set_tokenpool_str : Setter tokenpool_str. Proof. setter job_resources_eta. Defined.
#[export] Instance set_tokens : Setter tokens. Proof. setter job_resources_eta. Defined.

(** [queue] and the entries of [run_hosts] are pointers: [None] is NULL.
    [run_hosts] is the array of [num_hosts] entries, of which the first
    [run_nhosts] are in use. *)
Record job_data : Type := mk_job_data {
  job_id : Z;
  uid : Z;
  gid : Z;
  pid : Z;
  user : string;
  state : job_state;
  exit_status : Z;
  priority : Z;
  submit_time : Z;
  dispatch_time : Z;
  fork_time : Z;
  end_time : Z;
  susp_time : Z;
  unknown_time : Z;
  begin_time : Z;
  term_time : Z;
  signal_time : Z;
  queue : option nat;
  project : string;
  name : string;
  flags : Z;
  list_id : job_list_id;
  pend_reason_of : pend_reason;
  deps : list job_dep;
  depend_cond : string;
  dep_refcnt : Z;
  rsrc : job_resources;
  run_nhosts : nat;
  run_hosts : list (option nat);
  gpu_assigned : string;
  array_id : Z;
  array_index : Z;
  array_start : Z;
  array_end : Z;
  array_stride : Z;
  array_element_cnt : Z
}.

Definition job_data_eta (x : job_data) : job_data :=
    mk_job_data (job_id x) (uid x) (gid x) (pid x) (user x) (state x) (exit_status x) (priority
    x) (submit_time x) (dispatch_time x) (fork_time x) (end_time x) (susp_time x) (unknown_time
    x) (begin_time x) (term_time x) (signal_time x) (queue x) (project x) (name x) (flags x)
    (list_id x) (pend_reason_of x) (deps x) (depend_cond x) (dep_refcnt x) (rsrc x) (run_nhosts
    x) (run_hosts x) (gpu_assigned x) (array_id x) (array_index x) (array_start x) (array_end x)
    (array_stride x) (array_element_cnt x).
#[export] Instance set_job_id : Setter job_id. Proof. setter job_data_eta. Defined.
#[export] Instance set_uid : Setter uid. Proof. setter job_data_eta. Defined.
#[export] Instance set_gid : Setter gid. Proof. setter job_data_eta. Defined.
#[export] Instance set_pid : Setter pid. Proof. setter job_data_eta. Defined.
#[export] Instance set_user : Setter user. Proof. setter job_data_eta. Defined.
#[export] Instance set_state : Setter state. Proof. setter job_data_eta. Defined.
#[export] Instance set_exit_status : Setter exit_status. Proof. setter job_data_eta. Defined.
#[export] Instance set_priority : Setter priority. Proof. setter job_data_eta. Defined.
#[export] Instance set_submit_time : Setter submit_time. Proof. setter job_data_eta. Defined.
#[export] Instance set_dispatch_time : Setter dispatch_time. Proof. setter job_data_eta. Defined.
#[export] Instance set_fork_time : Setter fork_time. Proof. setter job_data_eta. Defined.
#[export] Instance set_end_time : Setter end_time. Proof. setter job_data_eta. Defined.
#[export] Instance set_susp_time : Setter susp_time. Proof. setter job_data_eta. Defined.
#[export] Instance set_unknown_time : Setter unknown_time. Proof. setter job_data_eta. Defined.
#[export] Instance set_begin_time : Setter begin_time. Proof. setter job_data_eta. Defined.
#[export] Instance set_term_time : Setter term_time. Proof. setter job_data_eta. Defined.
#[export] Instance set_signal_time : Setter signal_time. Proof. setter job_data_eta. Defined.
#[export] Instance set_queue : Setter queue. Proof. setter job_data_eta. Defined.
#[export] Instance set_project : Setter project. Proof. setter job_data_eta. Defined.
#[export] Instance set_name : Setter name. Proof. setter job_data_eta. Defined.
#[export] Instance set_flags : Setter flags. Proof. setter job_data_eta. Defined.
#[export] Instance set_list_id : Setter list_id. Proof. setter job_data_eta. Defined.
#[export] Instance set_pend_reason_of : Setter pend_reason_of. Proof. setter job_data_eta. Defined.
#[export] Instance set_deps : Setter deps. Proof. setter job_data_eta. Defined.
#[export] Instance set_depend_cond : Setter depend_cond. Proof. setter job_data_eta. Defined.
#[export] Instance set_dep_refcnt : Setter dep_refcnt. Proof. setter job_data_eta. Defined.
#[export] Instance set_rsrc : Setter rsrc. Proof. setter job_data_eta. Defined.
#[export] Instance set_run_nhosts : Setter run_nhosts. Proof. setter job_data_eta. Defined.
#[export] Instance set_run_hosts : Setter run_hosts. Proof. setter job_data_eta. Defined.
#[export] Instance set_gpu_assigned : Setter gpu_assigned. Proof. setter job_data_eta. Defined.
#[export] Instance set_array_id : Setter array_id. Proof. setter job_data_eta. Defined.
#[export] Instance set_array_index : Setter array_index. Proof. setter job_data_eta. Defined.
#[export] Instance set_array_start : Setter array_start. Proof. setter job_data_eta. Defined.
#[export] Instance set_array_end : Setter array_end. Proof. setter job_data_eta. Defined.
#[export] Instance set_array_stride : Setter array_stride. Proof. setter job_data_eta. Defined.
#[export] Instance set_array_element_cnt : Setter array_element_cnt. Proof. setter job_data_eta. Defined.

(** ** Hosts, queues, pools *)

Record gpu_id : Type := mk_gpu_id {
  gpu_dev : Z;
  in_use : bool
}.

Record mbd_gpu : Type := mk_mbd_gpu {
  g_model : string;
  g_ids_str : string;
  g_count : Z;
  g_ids : list gpu_id
}.

Definition mbd_gpu_eta (x : mbd_gpu) : mbd_gpu :=
  mk_mbd_gpu (g_model x) (g_ids_str x) (g_count x) (g_ids x).
#[export] Instance set_g_model : Setter g_model. Proof. setter mbd_gpu_eta. Defined.
#[export] Instance set_g_ids_str : Setter g_ids_str. Proof. setter mbd_gpu_eta. Defined.
#[export] Instance set_g_count : Setter g_count. Proof. setter mbd_gpu_eta. Defined.
#[export] Instance set_g_ids : Setter g_ids. Proof. setter mbd_gpu_eta. Defined.

(** [struct mbd_host] with its [struct host_resources] inlined. *)
Record mbd_host : Type := mk_mbd_host {
  h_name : string;
  h_addr : string;
  total_cpu : Z;
  free_cpu : Z;
  total_mem_mb : Z;
  free_mem_mb : Z;
  total_storage_mb : Z;
  free_storage_mb : Z;
  h_gpu : mbd_gpu;
  h_port : Z;
  host_idx : Z;
  h_state : Z;
  candidate : bool;
  exclusive : bool;
  h_num_jobs : Z;
  h_num_run : Z;
  h_num_susp : Z;
  sbd_chan : Z;
  h_cpus_used : Z
}.

Definition mbd_host_eta (x : mbd_host) : mbd_host :=
    mk_mbd_host (h_name x) (h_addr x) (total_cpu x) (free_cpu x) (total_mem_mb x) (free_mem_mb
    x) (total_storage_mb x) (free_storage_mb x) (h_gpu x) (h_port x) (host_idx x) (h_state x)
    (candidate x) (exclusive x) (h_num_jobs x) (h_num_run x) (h_num_susp x) (sbd_chan x)
    (h_cpus_used x).
#[export] Instance set_h_name : Setter h_name. Proof. setter mbd_host_eta. Defined.
#[export] Instance set_h_addr : Setter h_addr. Proof. setter mbd_host_eta. Defined.
#[export] Instance set_total_cpu : Setter total_cpu. Proof. setter mbd_host_eta. Defined.
#[export] Instance set_free_cpu : Setter free_cpu. Proof. setter mbd_host_eta. Defined.
#[export] Instance set_total_mem_mb : Setter total_mem_mb. Proof. setter mbd_host_eta. Defined.
#[export] Instance set_free_mem_mb : Setter free_mem_mb. Proof. setter mbd_host_eta. Defined.
#[export] Instance set_total_storage_mb : Setter total_storage_mb. Proof. setter mbd_host_eta. Defined.
#[export] Instance set_free_storage_mb : Setter free_storage_mb. Proof. setter mbd_host_eta. Defined.
#[export] Instance set_h_gpu : Setter h_gpu. Proof. setter mbd_host_eta. Defined.
#[export] Instance set_h_port : Setter h_port. Proof. setter mbd_host_eta. Defined.
#[export] Instance set_host_idx : Setter host_idx. Proof. setter mbd_host_eta. Defined.
#[export] Instance set_h_state : Setter h_state. Proof. setter mbd_host_eta. Defined.
#[export] Instance set_candidate : Setter candidate. Proof. setter mbd_host_eta. Defined.
#[export] Instance set_exclusive : Setter exclusive. Proof. setter mbd_host_eta. Defined.
#[export] Instance set_h_num_jobs : Setter h_num_jobs. Proof. setter mbd_host_eta. Defined.
#[export] Instance set_h_num_run : Setter h_num_run. Proof. setter mbd_host_eta. Defined.
#[export] Instance set_h_num_susp : Setter h_num_susp. Proof. setter mbd_host_eta. Defined.
#[export] Instance set_sbd_chan : Setter sbd_chan. Proof. setter mbd_host_eta. Defined.
#[export] Instance set_h_cpus_used : Setter h_cpus_used. Proof. setter mbd_host_eta. Defined.

(** The membership tables are the finite maps their hash tables stand for; the
    value of [q_host_hash] is the host. *)
Record mbd_queue : Type := mk_mbd_queue {
  q_name : string;
  q_description : string;
  q_hosts_spec : string;
  q_users : string;
  q_priority : Z;
  q_max_jobs : Z;
  q_num_jobs : Z;
  q_num_pend : Z;
  q_num_run : Z;
  q_num_susp : Z;
  q_num_held : Z;
  q_state : Z;
  q_cpus_used : Z;
  q_hosts_used : Z;
  q_host_hash : gmap string nat;
  q_user_hash : gmap string unit
}.

Definition mbd_queue_eta (x : mbd_queue) : mbd_queue :=
    mk_mbd_queue (q_name x) (q_description x) (q_hosts_spec x) (q_users x) (q_priority x)
    (q_max_jobs x) (q_num_jobs x) (q_num_pend x) (q_num_run x) (q_num_susp x) (q_num_held x)
    (q_state x) (q_cpus_used x) (q_hosts_used x) (q_host_hash x) (q_user_hash x).
#[export] Instance set_q_name : Setter q_name. Proof. setter mbd_queue_eta. Defined.
#[export] Instance set_q_description : Setter q_description. Proof. setter mbd_queue_eta. Defined.
#[export] Instance set_q_hosts_spec : Setter q_hosts_spec. Proof. setter mbd_queue_eta. Defined.
#[export] Instance set_q_users : Setter q_users. Proof. setter mbd_queue_eta. Defined.
#[export] Instance set_q_priority : Setter q_priority. Proof. setter mbd_queue_eta. Defined.
#[export] Instance set_q_max_jobs : Setter q_max_jobs. Proof. setter mbd_queue_eta. Defined.
#[export] Instance set_q_num_jobs : Setter q_num_jobs. Proof. setter mbd_queue_eta. Defined.
#[export] Instance set_q_num_pend : Setter q_num_pend. Proof. setter mbd_queue_eta. Defined.
#[export] Instance set_q_num_run : Setter q_num_run. Proof. setter mbd_queue_eta. Defined.
#[export] Instance set_q_num_susp : Setter q_num_susp. Proof. setter mbd_queue_eta. Defined.
#[export] Instance set_q_num_held : Setter q_num_held. Proof. setter mbd_queue_eta. Defined.
#[export] Instance set_q_state : Setter q_state. Proof. setter mbd_queue_eta. Defined.
#[export] Instance set_q_cpus_used : Setter q_cpus_used. Proof. setter mbd_queue_eta. Defined.
#[export] Instance set_q_hosts_used : Setter q_hosts_used. Proof. setter mbd_queue_eta. Defined.
#[export] Instance set_q_host_hash : Setter q_host_hash. Proof. setter mbd_queue_eta. Defined.
#[export] Instance set_q_user_hash : Setter q_user_hash. Proof. setter mbd_queue_eta. Defined.

Record mbd_group : Type := mk_mbd_group {
  grp_name : string;
  grp_members : string;
  grp_num_members : Z
}.

Record mbd_token_pool : Type := mk_mbd_token_pool {
  p_name : string;
  p_total : Z;
  p_free : Z
}.

Definition mbd_token_pool_eta (x : mbd_token_pool) : mbd_token_pool :=
  mk_mbd_token_pool (p_name x) (p_total x) (p_free x).
#[export] Instance set_p_name : Setter p_name. Proof. setter mbd_token_pool_eta. Defined.
#[export] Instance set_p_total : Setter p_total. Proof. setter mbd_token_pool_eta. Defined.
#[export] Instance set_p_free : Setter p_free. Proof. setter mbd_token_pool_eta. Defined.

(** ** Wire structs *)

Record wire_job_sig : Type := mk_wire_job_sig {
  sig_job_id : Z;
  sig_array_index : Z;
  sig_sig : Z;
  sig_uid : Z
}.

Record wire_job_reply : Type := mk_wire_job_reply {
  rep_job_id : Z;
  rep_pid : Z;
  rep_pgid : Z;
  rep_state : Z
}.

Record wire_job_finish : Type := mk_wire_job_finish {
  fin_job_id : Z;
  fin_state : Z;
  fin_exit_status : Z;
  fin_pid : Z
}.

Record wire_job_ack : Type := mk_wire_job_ack {
  ack_job_id : Z;
  ack_op : batch_op
}.

(** What [mbd_dispatch_job] fills in from the job; the fields it copies from
    the sidecar and the script are not part of the daemon's state. *)
Record wire_job_start : Type := mk_wire_job_start {
  ws_job_id : Z;
  ws_uid : Z;
  ws_gid : Z;
  ws_job_name : string;
  ws_queue : string;
  ws_username : string;
  ws_hosts : string;
  ws_term_time : Z;
  ws_gpus_per_host : Z;
  ws_ncpus : Z;
  ws_mem_mb : Z;
  ws_gpu_model : string;
  ws_gpu_assigned : string
}.

(** The fields of [struct wire_job_submit] that mbd keeps or logs; the paths and
    the command only pass through to the sidecar file. *)
Record wire_job_submit : Type := mk_wire_job_submit {
  sub_name : string;
  sub_queue : string;
  sub_project : string;
  sub_machines : string;
  sub_depend_cond : string;
  sub_gpu_model : string;
  sub_username : string;
  sub_num_cpus : Z;
  sub_num_hosts : Z;
  sub_num_gpus : Z;
  sub_mem_mb : Z;
  sub_storage_mb : Z;
  sub_tokenpool : string;
  sub_flags : Z;
  sub_begin_time : Z;
  sub_term_time : Z;
  sub_array_start : Z;
  sub_array_end : Z;
  sub_array_stride : Z
}.

Definition wire_job_submit_eta (x : wire_job_submit) : wire_job_submit :=
    mk_wire_job_submit (sub_name x) (sub_queue x) (sub_project x) (sub_machines x)
    (sub_depend_cond x) (sub_gpu_model x) (sub_username x) (sub_num_cpus x) (sub_num_hosts x)
    (sub_num_gpus x) (sub_mem_mb x) (sub_storage_mb x) (sub_tokenpool x) (sub_flags x)
    (sub_begin_time x) (sub_term_time x) (sub_array_start x) (sub_array_end x) (sub_array_stride
    x).
#[export] Instance set_sub_name : Setter sub_name. Proof. setter wire_job_submit_eta. Defined.
#[export] Instance set_sub_queue : Setter sub_queue. Proof. setter wire_job_submit_eta. Defined.
#[export] Instance set_sub_project : Setter sub_project. Proof. setter wire_job_submit_eta. Defined.
#[export] Instance set_sub_machines : Setter sub_machines. Proof. setter wire_job_submit_eta. Defined.
#[export] Instance set_sub_depend_cond : Setter sub_depend_cond. Proof. setter wire_job_submit_eta. Defined.
#[export] Instance set_sub_gpu_model : Setter sub_gpu_model. Proof. setter wire_job_submit_eta. Defined.
#[export] Instance set_sub_username : Setter sub_username. Proof. setter wire_job_submit_eta. Defined.
#[export] Instance set_sub_num_cpus : Setter sub_num_cpus. Proof. setter wire_job_submit_eta. Defined.
#[export] Instance set_sub_num_hosts : Setter sub_num_hosts. Proof. setter wire_job_submit_eta. Defined.
#[export] Instance set_sub_num_gpus : Setter sub_num_gpus. Proof. setter wire_job_submit_eta. Defined.
#[export] Instance set_sub_mem_mb : Setter sub_mem_mb. Proof. setter wire_job_submit_eta. Defined.
#[export] Instance set_sub_storage_mb : Setter sub_storage_mb. Proof. setter wire_job_submit_eta. Defined.
#[export] Instance set_sub_tokenpool : Setter sub_tokenpool. Proof. setter wire_job_submit_eta. Defined.
#[export] Instance set_sub_flags : Setter sub_flags. Proof. setter wire_job_submit_eta. Defined.
#[export] Instance set_sub_begin_time : Setter sub_begin_time. Proof. setter wire_job_submit_eta. Defined.
#[export] Instance set_sub_term_time : Setter sub_term_time. Proof. setter wire_job_submit_eta. Defined.
#[export] Instance set_sub_array_start : Setter sub_array_start. Proof. setter wire_job_submit_eta. Defined.
#[export] Instance set_sub_array_end : Setter sub_array_end. Proof. setter wire_job_submit_eta. Defined.
#[export] Instance set_sub_array_stride : Setter sub_array_stride. Proof. setter wire_job_submit_eta. Defined.

(** ** Messages *)

Inductive msg_body : Type :=
  | BodyNone
  | BodySubmit (job_id : Z)
  | BodyAck (a : wire_job_ack)
  | BodySig (s : wire_job_sig)
  | BodyStart (s : wire_job_start)
  | BodyRegister (jobs : list (Z * Z)).

Record msg : Type := mk_msg {
  m_chan : Z;
  m_op : batch_op;
  m_status : Z;
  m_body : msg_body
}.

(** ** The environment of one handler

    The answers the daemon gets from outside during one call: the clock, the
    signing of headers, the output queues of the channels and the allocator,
    each by the number of the attempt so that two attempts may be answered
    differently; the errno of writing the script and the sidecar of a job
    ([None] for success); whether they can be read at dispatch; whether the state
    file of a queue or a host can be created or removed; and the value an
    uninitialised stack variable happens to hold. *)
Record env : Type := mk_env {
  now : Z;
  sign_ok : nat -> bool;
  enq_ok : nat -> Z -> bool;
  alloc_ok : nat -> bool;
  script_err : Z -> option Z;
  sidecar_err : Z -> option Z;
  job_files_ok : Z -> bool;
  state_file_ok : string -> bool;
  garbage : Z
}.

(** ** The daemon's state *)

(** [jobs] is the job table ([job_id_hash] and the records it points to, keyed by
    the id whose decimal text is the key); [manifest] the event log as the events
    written; [outbox] the messages queued on channels, oldest first; [io] the
    number of attempts to sign, to queue or to allocate made so far;
    [host_plan_ready] whether the scheduler's plan array is allocated;
    [queue_files] and [host_files] the names of the files under mbd/queues and
    mbd/hosts of the state directory, which record what an administrator closed. *)
Record mbd : Type := mk_mbd {
  jobs : gmap Z job_data;
  pend_jobs_list : list Z;
  run_jobs_list : list Z;
  finish_jobs_list : list Z;
  hosts : list mbd_host;
  queues : list mbd_queue;
  pools : list mbd_token_pool;
  host_name_hash : gmap string nat;
  queue_name_hash : gmap string nat;
  pool_name_hash : gmap string nat;
  group_name_hash : gmap string mbd_group;
  sbd_chan_hash : gmap Z nat;
  default_queue : string;
  mgr_uid : Z;
  assert_counters : bool;
  job_id_seq : Z;
  job_id_seq_file : option Z;
  host_plan_ready : bool;
  queue_files : gset string;
  host_files : gset string;
  manifest : list log_event;
  outbox : list msg;
  io : nat
}.

Definition mbd_eta (x : mbd) : mbd :=
    mk_mbd (jobs x) (pend_jobs_list x) (run_jobs_list x) (finish_jobs_list x) (hosts x) (queues
    x) (pools x) (host_name_hash x) (queue_name_hash x) (pool_name_hash x) (group_name_hash x)
    (sbd_chan_hash x) (default_queue x) (mgr_uid x) (assert_counters x) (job_id_seq x)
    (job_id_seq_file x) (host_plan_ready x) (queue_files x) (host_files x) (manifest x) (outbox x) (io x).
#[export] Instance set_jobs : Setter jobs. Proof. setter mbd_eta. Defined.
#[export] Instance set_pend_jobs_list : Setter pend_jobs_list. Proof. setter mbd_eta. Defined.
#[export] Instance set_run_jobs_list : Setter run_jobs_list. Proof. setter mbd_eta. Defined.
#[export] Instance set_finish_jobs_list : Setter finish_jobs_list. Proof. setter mbd_eta. Defined.
#[export] Instance set_hosts : Setter hosts. Proof. setter mbd_eta. Defined.
#[export] Instance set_queues : Setter queues. Proof. setter mbd_eta. Defined.
#[export] Instance set_pools : Setter pools. Proof. setter mbd_eta. Defined.
#[export] Instance set_host_name_hash : Setter host_name_hash. Proof. setter mbd_eta. Defined.
#[export] Instance set_queue_name_hash : Setter queue_name_hash. Proof. setter mbd_eta. Defined.
#[export] Instance set_pool_name_hash : Setter pool_name_hash. Proof. setter mbd_eta. Defined.
#[export] Instance set_group_name_hash : Setter group_name_hash. Proof. setter mbd_eta. Defined.
#[export] Instance set_sbd_chan_hash : Setter sbd_chan_hash. Proof. setter mbd_eta. Defined.
#[export] Instance set_default_queue : Setter default_queue. Proof. setter mbd_eta. Defined.
#[export] Instance set_mgr_uid : Setter mgr_uid. Proof. setter mbd_eta. Defined.
#[export] Instance set_assert_counters : Setter assert_counters. Proof. setter mbd_eta. Defined.
#[export] Instance set_job_id_seq : Setter job_id_seq. Proof. setter mbd_eta. Defined.
#[export] Instance set_job_id_seq_file : Setter job_id_seq_file. Proof. setter mbd_eta. Defined.
#[export] Instance set_host_plan_ready : Setter host_plan_ready. Proof. setter mbd_eta. Defined.
#[export] Instance set_queue_files : Setter queue_files. Proof. setter mbd_eta. Defined.
#[export] Instance set_host_files : Setter host_files. Proof. setter mbd_eta. Defined.
#[export] Instance set_manifest : Setter manifest. Proof. setter mbd_eta. Defined.
#[export] Instance set_outbox : Setter outbox. Proof. setter mbd_eta. Defined.
#[export] Instance set_io : Setter io. Proof. setter mbd_eta. Defined.

