(* ===== verification/MbdBase.v ===== *)
(** * Shared operations of mbd (src/batch/mbd/job.c, sched.c, events.c, net.c)

    The job table and the job lists, the output queue and the event log, the
    accounting of hosts, GPUs and tokens, dependency evaluation, and the
    daemon's own cross check of its counters. *)

From S2P Require Import Prelude CString LlHash Dependency LogFormat MbdTypes.

Open Scope string_scope.
Open Scope list_scope.
Open Scope Z_scope.

(** ** Access through pointers *)

Definition upd_job (id : Z) (f : job_data -> job_data) (w : mbd) : mbd :=
  w <| jobs ::= alter f id |>.

Definition upd_host (h : nat) (f : mbd_host -> mbd_host) (w : mbd) : mbd :=
  w <| hosts ::= alter f h |>.

Definition upd_queue (q : nat) (f : mbd_queue -> mbd_queue) (w : mbd) : mbd :=
  w <| queues ::= alter f q |>.

(** The queue a job points to. *)
Definition job_queue (w : mbd) (j : job_data) : res mbd_queue :=
  let* q := deref (queue j) in
  nth_res (queues w) q.

(** [job->queue->field op= ...]. *)
Definition upd_job_queue (j : job_data) (f : mbd_queue -> mbd_queue) (w : mbd) : res mbd :=
  let* q := deref (queue j) in
  let* _ := nth_res (queues w) q in
  Ok (upd_queue q f w).

Fixpoint res_map {A B} (f : A -> res B) (l : list A) : res (list B) :=
  match l with
  | [] => Ok []
  | x :: l' =>
      let* y := f x in
      let* ys := res_map f l' in
      Ok (y :: ys)
  end.

(** [job->run_hosts[i]] dereferenced. *)
Definition run_host (j : job_data) (i : nat) : res nat :=
  let* o := nth_res (run_hosts j) i in
  deref o.

(** The hosts a loop [for (i = 0; i < job->run_nhosts; i++)] goes through. *)
Definition run_host_ptrs (j : job_data) : res (list nat) :=
  res_map (run_host j) (seq 0 (run_nhosts j)).

(** ** Output and log *)

(** [auth_sign_header]: [false] for -1. *)
Definition auth_sign_header (e : env) (w : mbd) : mbd * bool :=
  (w <| io ::= S |>, sign_ok e (io w)).

(** [enqueue_payload] and [enqueue_header]: [false] for -1. *)
Definition enqueue_payload (e : env) (chan : Z) (op : batch_op) (status : Z)
    (body : msg_body) (w : mbd) : mbd * bool :=
  let ok := enq_ok e (io w) chan in
  let w := w <| io ::= S |> in
  if ok then (w <| outbox ::= fun l => l ++ [mk_msg chan op status body] |>, true)
  else (w, false).

Definition enqueue_header (e : env) (chan : Z) (op : batch_op) (status : Z) (w : mbd)
    : mbd * bool :=
  enqueue_payload e chan op status BodyNone w.

(** [calloc]: [false] for NULL. *)
Definition try_alloc (e : env) (w : mbd) : mbd * bool :=
  (w <| io ::= S |>, alloc_ok e (io w)).

(** Append one event to the manifest. *)
Definition log_append (ev : log_event) (w : mbd) : res mbd :=
  let* _ := log_write ev in
  Ok (w <| manifest ::= fun l => l ++ [ev] |>).

(** [event_job_new] *)
Definition event_job_new (j : job_data) (ws : wire_job_submit) (w : mbd) : res mbd :=
  log_append (LogNew (mk_log_job_new
    (job_id j) (array_id j) (array_index j) (array_start j) (array_end j)
    (array_stride j) (uid j) (gid j) (job_state_num (state j)) (priority j)
    (submit_time j) (sub_begin_time ws) (sub_term_time ws)
    (sub_num_cpus ws) (sub_num_hosts ws) (sub_num_gpus ws) (sub_mem_mb ws)
    (sub_storage_mb ws) (sub_flags ws)
    (strbuf LL_BUFSIZ_64 (sub_username ws)) (strbuf LL_BUFSIZ_64 (sub_name ws))
    (strbuf LL_BUFSIZ_64 (sub_queue ws)) (strbuf LL_BUFSIZ_64 (sub_project ws))
    (strbuf LL_BUFSIZ_64 (sub_gpu_model ws)) (strbuf LL_BUFSIZ_1K (sub_machines ws))
    (strbuf LL_BUFSIZ_256 (sub_tokenpool ws)) (strbuf LL_BUFSIZ_4K (sub_depend_cond ws)))) w.

(** The space-separated names of hosts, cut to a buffer of [size]. *)
Fixpoint hosts_line (size : nat) (first : bool) (buf : string) (names : list string) : string :=
  match names with
  | [] => buf
  | n :: ns =>
      let buf := if first then buf else (ll_strlcat buf " " size).1 in
      hosts_line size false (ll_strlcat buf n size).1 ns
  end.

Definition host_names (w : mbd) (hs : list nat) : res (list string) :=
  res_map (fun h => let* hh := nth_res (hosts w) h in Ok (h_name hh)) hs.

Definition event_job_start (j : job_data) (w : mbd) : res mbd :=
  let* hs := run_host_ptrs j in
  let* names := host_names w hs in
  log_append (LogStart (mk_log_job_start
    (job_id j) (dispatch_time j) (num_hosts (rsrc j)) (num_cpus (rsrc j)) (num_gpus (rsrc j))
    (strbuf LL_BUFSIZ_64 (gpu_model (rsrc j))) (strbuf LL_BUFSIZ_64 (gpu_assigned j))
    (hosts_line LL_BUFSIZ_4K true EmptyString names))) w.

Definition event_job_fork (j : job_data) (w : mbd) : res mbd :=
  log_append (LogFork (mk_log_job_fork (job_id j) (pid j) (fork_time j))) w.

Definition event_job_signal (j : job_data) (ws : wire_job_sig) (w : mbd) : res mbd :=
  log_append (LogSignal (mk_log_job_signal (job_id j) (sig_sig ws) (sig_uid ws) (signal_time j))) w.

Definition event_job_finish (j : job_data) (w : mbd) : res mbd :=
  log_append (LogFinish (mk_log_job_finish (job_id j) (uid j) (job_state_num (state j))
    (exit_status j) (end_time j))) w.

Definition event_job_pend_susp (e : env) (j : job_data) (w : mbd) : res mbd :=
  log_append (LogPendSusp (mk_log_job_mark (job_id j) (now e))) w.

Definition event_job_pend_resume (e : env) (j : job_data) (w : mbd) : res mbd :=
  log_append (LogPendResume (mk_log_job_mark (job_id j) (now e))) w.

Definition event_job_susp (e : env) (j : job_data) (w : mbd) : res mbd :=
  log_append (LogSusp (mk_log_job_mark (job_id j) (now e))) w.

Definition event_job_pend (e : env) (j : job_data) (w : mbd) : res mbd :=
  log_append (LogPend (mk_log_job_mark (job_id j) (now e))) w.

Definition event_job_move (e : env) (j : job_data) (to_queue : string) (w : mbd) : res mbd :=
  let* q := job_queue w j in
  log_append (LogMove (mk_log_job_move (job_id j) (now e)
    (strbuf LL_BUFSIZ_64 (q_name q)) (strbuf LL_BUFSIZ_64 to_queue))) w.

Definition event_job_priority (e : env) (j : job_data) (old_priority : Z) (w : mbd) : res mbd :=
  log_append (LogPriority (mk_log_job_priority (job_id j) (now e) old_priority (priority j))) w.

(** ** The job lists *)

Definition job_list (l : job_list_id) (w : mbd) : list Z :=
  match l with
  | JOB_LIST_PEND => pend_jobs_list w
  | JOB_LIST_RUN => run_jobs_list w
  | JOB_LIST_FINISH => finish_jobs_list w
  end.

Definition upd_job_list (l : job_list_id) (f : list Z -> list Z) (w : mbd) : mbd :=
  match l with
  | JOB_LIST_PEND => w <| pend_jobs_list ::= f |>
  | JOB_LIST_RUN => w <| run_jobs_list ::= f |>
  | JOB_LIST_FINISH => w <| finish_jobs_list ::= f |>
  end.

Fixpoint remove_first (id : Z) (l : list Z) : option (list Z) :=
  match l with
  | [] => None
  | x :: l' =>
      if x =? id then Some l'
      else match remove_first id l' with Some r => Some (x :: r) | None => None end
  end.

Definition job_set_list (id : Z) (l : job_list_id) (w : mbd) : mbd :=
  upd_job id (fun j => j <| list_id := l |>) (upd_job_list l (fun xs => xs ++ [id]) w).

(** Unlinking an entry that is not on the list given corrupts both lists. *)
Definition job_move_list (id : Z) (from to : job_list_id) (w : mbd) : res mbd :=
  match remove_first id (job_list from w) with
  | None => Crash ListCorrupt
  | Some l => Ok (job_set_list id to (upd_job_list from (fun _ => l) w))
  end.

Definition job_find (w : mbd) (id : Z) : option job_data := jobs w !! id.

Definition job_array_element_finished (j : job_data) (w : mbd) : mbd :=
  if array_id j =? 0 then w
  else
    match job_find w (array_id j) with
    | Some _ => upd_job (array_id j) (fun h => h <| array_element_cnt ::= Z.pred |>) w
    | None => w
    end.

(** ** GPUs *)

Definition gpu_ids_count_free (g : mbd_gpu) : Z :=
  sumZ (fun d => b2z (negb (in_use d))) (take (Z.to_nat (g_count g)) (g_ids g)).

(** The loop over the first [n] devices: those whose flag was [from] get [to];
    the count of them. *)
Definition gpu_flip (from to : bool) (n : nat) (ids : list gpu_id) : list gpu_id * Z :=
  (map (fun d => if Bool.eqb (in_use d) from then mk_gpu_id (gpu_dev d) to else d) (take n ids)
     ++ drop n ids,
   sumZ (fun d => b2z (Bool.eqb (in_use d) from)) (take n ids)).

Definition gpu_ids_mark_free (num_gpus : Z) (g : mbd_gpu) : res mbd_gpu :=
  let* _ := c_assert (num_gpus <=? g_count g) in
  let (ids, freed) := gpu_flip true false (Z.to_nat num_gpus) (g_ids g) in
  let* _ := c_assert (freed =? num_gpus) in
  Ok (g <| g_ids := ids |>).

Definition gpu_ids_mark_inuse (num_gpus : Z) (g : mbd_gpu) : res mbd_gpu :=
  let* _ := c_assert (num_gpus <=? g_count g) in
  let (ids, marked) := gpu_flip false true (Z.to_nat num_gpus) (g_ids g) in
  let* _ := c_assert (marked =? num_gpus) in
  Ok (g <| g_ids := ids |>).

(** ** Host resources *)

Definition is_exclusive (j : job_data) : bool := has_flag (flags j) JOB_FLAG_EXCLUSIVE.

Definition state_is (s : job_state) (j : job_data) : bool := bool_decide (state j = s).

(** One round of [reset_host_resources]. *)
Definition host_release (j : job_data) (h : mbd_host) : res mbd_host :=
  let h := h <| free_cpu ::= fun c => c + num_cpus (rsrc j) |>
             <| free_mem_mb ::= fun m => u64 (m + mem_mb (rsrc j)) |>
             <| free_storage_mb ::= fun m => u64 (m + storage_mb (rsrc j)) |>
             <| h_num_jobs ::= Z.pred |>
             <| h_cpus_used ::= fun c => c - num_cpus (rsrc j) |> in
  let h := if state_is JOB_RUNNING j then h <| h_num_run ::= Z.pred |> else h in
  let h := if state_is JOB_SUSPENDED j then h <| h_num_susp ::= Z.pred |> else h in
  let h := if is_exclusive j then h <| exclusive := false |> else h in
  if 0 <? num_gpus (rsrc j) then
    let* g := gpu_ids_mark_free (num_gpus (rsrc j)) (h_gpu h) in
    Ok (h <| h_gpu := g |>)
  else Ok h.

(** A loop that updates the hosts of a list one after the other. *)
Definition each_host (f : mbd_host -> res mbd_host) (hs : list nat) (w : mbd) : res mbd :=
  res_fold (fun w h =>
    let* hh := nth_res (hosts w) h in
    let* hh := f hh in
    Ok (w <| hosts ::= <[h := hh]> |>)) hs w.

Definition reset_host_resources (j : job_data) (w : mbd) : res mbd :=
  let* hs := run_host_ptrs j in
  each_host (host_release j) hs w.

(** One round of [host_update_resources] (sched.c). *)
Definition host_charge (j : job_data) (h : mbd_host) : mbd_host :=
  let h := h <| free_cpu ::= fun c => c - num_cpus (rsrc j) |>
             <| free_mem_mb ::= fun m => u64 (m - mem_mb (rsrc j)) |>
             <| free_storage_mb ::= fun m => u64 (m - storage_mb (rsrc j)) |>
             <| h_num_jobs ::= Z.succ |>
             <| h_num_run ::= Z.succ |>
             <| h_cpus_used ::= fun c => c + num_cpus (rsrc j) |> in
  let h := if free_cpu h <=? 0 then h <| candidate := false |> else h in
  if is_exclusive j then h <| exclusive := true |> else h.

Definition host_update_resources (j : job_data) (w : mbd) : res mbd :=
  let* hs := run_host_ptrs j in
  each_host (fun h => Ok (host_charge j h)) hs w.

(** ** Tokens *)

Definition pool_add (name : string) (delta : Z) (w : mbd) : mbd :=
  match pool_name_hash w !! name with
  | Some p => w <| pools ::= alter (fun q => q <| p_free ::= fun f => f + delta |>) p |>
  | None => w
  end.

Definition token_alloc (j : job_data) (w : mbd) : mbd :=
  foldl (fun w t => pool_add (tok_name t) (- tok_count t) w) w (tokens (rsrc j)).

Definition token_pool_release (j : job_data) (w : mbd) : mbd :=
  foldl (fun w t => pool_add (tok_name t) (tok_count t) w) w (tokens (rsrc j)).

Definition tokens_available (w : mbd) (j : job_data) : bool :=
  forallb (fun t =>
    match pool_name_hash w !! tok_name t with
    | Some p =>
        match pools w !! p with
        | Some pl => tok_count t <=? p_free pl
        | None => false
        end
    | None => false
    end) (tokens (rsrc j)).

(** ** Dependencies *)

Definition dep_job_check (j : job_data) (t : dep_type) : bool :=
  match t with
  | DEP_DONE => state_is JOB_DONE j
  | DEP_EXIT => state_is JOB_EXITED j
  | DEP_ENDED => state_is JOB_DONE j || state_is JOB_EXITED j
  | _ => false
  end.

Definition array_has_member (w : mbd) (l : list Z) (aid : Z) : bool :=
  existsb (fun id => match jobs w !! id with
                     | Some j => array_id j =? aid
                     | None => false
                     end) l.

Definition dep_array_check (w : mbd) (aid : Z) (t : dep_type) : bool :=
  if array_has_member w (pend_jobs_list w) aid then false
  else if array_has_member w (run_jobs_list w) aid then false
  else forallb (fun id => match jobs w !! id with
                          | Some j => negb (array_id j =? aid) || dep_job_check j t
                          | None => true
                          end) (finish_jobs_list w).

Definition dep_call_eval (w : mbd) (t : dep_type) (id : Z) : Z :=
  match job_find w id with
  | None => 0
  | Some j =>
      if negb (array_id j =? 0) && (array_id j =? job_id j)
      then b2z (dep_array_check w (array_id j) t)
      else b2z (dep_job_check j t)
  end.

Definition job_dep_satisfied (w : mbd) (j : job_data) : res bool :=
  match deps j with
  | [] => Ok true
  | ds =>
      let* cc := dep_list_eval ds (dep_call_eval w) in
      Ok (0 <? cc)
  end.

(** The jobs a dependency list refers to, one for each call node. *)
Definition dep_is_call (d : job_dep) : bool :=
  match dep_kind d with DEP_DONE | DEP_EXIT | DEP_ENDED => true | _ => false end.

Definition job_deps_refcnt (j : job_data) (delta : Z) (w : mbd) : mbd :=
  foldl (fun w d =>
    if dep_is_call d then
      upd_job (dep_job_id d) (fun t => t <| dep_refcnt ::= fun r => r + delta |>) w
    else w) w (deps j).

Definition job_deps_hold (j : job_data) (w : mbd) : mbd := job_deps_refcnt j 1 w.
Definition job_deps_release (j : job_data) (w : mbd) : mbd := job_deps_refcnt j (-1) w.

(** ** Permissions *)

Definition is_manager (w : mbd) (u : Z) : bool := (u =? 0) || (u =? mgr_uid w).

Definition queue_user_allowed (q : mbd_queue) (u : string) : bool :=
  if (size (q_user_hash q) =? 0)%nat then true
  else bool_decide (is_Some (q_user_hash q !! u)).

(** ** The cross check of the counters *)

Definition job_uses_host (j : job_data) (h : nat) : bool :=
  existsb (fun o => bool_decide (o = Some h)) (take (run_nhosts j) (run_hosts j)).

(** The jobs of a list, in list order; an entry of a list is a job record. *)
Definition listed_jobs (w : mbd) (l : list Z) : res (list job_data) :=
  res_map (fun id => deref (jobs w !! id)) l.

(** The counts of one host recomputed from the run list: jobs, running,
    suspended, cpus. *)
Record host_count : Type := mk_host_count {
  hc_jobs : Z; hc_run : Z; hc_susp : Z; hc_cpus : Z
}.

Definition count_host_job (h : nat) (c : host_count) (j : job_data) : res host_count :=
  if negb (job_uses_host j h) then Ok c
  else
    let c := mk_host_count (hc_jobs c + 1) (hc_run c) (hc_susp c) (hc_cpus c + num_cpus (rsrc j)) in
    match state j with
    | JOB_SUSPENDED => Ok (mk_host_count (hc_jobs c) (hc_run c) (hc_susp c + 1) (hc_cpus c))
    | JOB_RUNNING => Ok (mk_host_count (hc_jobs c) (hc_run c + 1) (hc_susp c) (hc_cpus c))
    | JOB_ORPHAN => Ok c
    | _ => Crash AssertFailed
    end.

Definition assert_host (run : list job_data) (i : nat) (h : mbd_host) : res unit :=
  let* _ := c_assert (0 <=? free_cpu h) in
  let* c := res_fold (count_host_job i) run (mk_host_count 0 0 0 0) in
  c_assert ((h_num_jobs h =? hc_jobs c) && (h_num_run h =? hc_run c)
            && (h_num_susp h =? hc_susp c) && (h_cpus_used h =? hc_cpus c)).

Record queue_count : Type := mk_queue_count {
  qc_jobs : Z; qc_pend : Z; qc_run : Z; qc_susp : Z; qc_held : Z; qc_cpus : Z; qc_hosts : Z
}.

Definition count_queue_pend (q : nat) (c : queue_count) (j : job_data) : res queue_count :=
  if negb (bool_decide (queue j = Some q)) then Ok c
  else
    match state j with
    | JOB_HELD =>
        Ok (mk_queue_count (qc_jobs c + 1) (qc_pend c) (qc_run c) (qc_susp c) (qc_held c + 1)
              (qc_cpus c) (qc_hosts c))
    | JOB_PENDING | JOB_BROKEN | JOB_ORPHAN =>
        Ok (mk_queue_count (qc_jobs c + 1) (qc_pend c + 1) (qc_run c) (qc_susp c) (qc_held c)
              (qc_cpus c) (qc_hosts c))
    | _ => Crash AssertFailed
    end.

Definition count_queue_run (q : nat) (c : queue_count) (j : job_data) : res queue_count :=
  if negb (bool_decide (queue j = Some q)) then Ok c
  else
    let n := Z.of_nat (run_nhosts j) in
    match state j with
    | JOB_SUSPENDED =>
        Ok (mk_queue_count (qc_jobs c + 1) (qc_pend c) (qc_run c) (qc_susp c + 1) (qc_held c)
              (qc_cpus c + num_cpus (rsrc j) * n) (qc_hosts c + n))
    | JOB_RUNNING =>
        Ok (mk_queue_count (qc_jobs c + 1) (qc_pend c) (qc_run c + 1) (qc_susp c) (qc_held c)
              (qc_cpus c + num_cpus (rsrc j) * n) (qc_hosts c + n))
    | _ => Crash AssertFailed
    end.

Definition assert_queue (pend run : list job_data) (i : nat) (q : mbd_queue) : res unit :=
  let* c := res_fold (count_queue_pend i) pend (mk_queue_count 0 0 0 0 0 0 0) in
  let* c := res_fold (count_queue_run i) run c in
  c_assert ((q_num_jobs q =? qc_jobs c) && (q_num_pend q =? qc_pend c)
            && (q_num_run q =? qc_run c) && (q_num_susp q =? qc_susp c)
            && (q_num_held q =? qc_held c) && (q_cpus_used q =? qc_cpus c)
            && (q_hosts_used q =? qc_hosts c)).

(** The loop over a list of hosts or queues with their indices. *)
Fixpoint each_indexed {A} (f : nat -> A -> res unit) (i : nat) (l : list A) : res unit :=
  match l with
  | [] => Ok tt
  | x :: l' =>
      let* _ := f i x in
      each_indexed f (S i) l'
  end.

Definition mbd_assert_counters (w : mbd) : res unit :=
  if negb (assert_counters w) then Ok tt
  else
    let* run := listed_jobs w (run_jobs_list w) in
    let* _ := each_indexed (assert_host run) 0 (hosts w) in
    let* pend := listed_jobs w (pend_jobs_list w) in
    each_indexed (assert_queue pend run) 0 (queues w).
