(* ===== verification/MbdJob.v ===== *)
(** * The job handlers of mbd (src/batch/mbd/job.c)

    Submission, the replies of the execution daemons, job control (signals,
    moving between queues, priorities). *)

From S2P Require Import Prelude CString LlHash Dependency LogFormat MbdTypes MbdBase.

Open Scope string_scope.
Open Scope list_scope.
Open Scope Z_scope.

(** ** Submission *)

(** The [do ... while (job_find(job_id_seq) != NULL)] loop: every round but the
    last finds a job, so the table bounds the rounds. *)
Fixpoint next_job_id_from (fuel : nat) (w : mbd) (seq : Z) : res Z :=
  match fuel with
  | O => Crash OutOfFuel
  | S f =>
      let seq := seq + 1 in
      match job_find w seq with
      | Some _ => next_job_id_from f w seq
      | None => Ok seq
      end
  end.

Definition next_job_id (w : mbd) : res (mbd * Z) :=
  let* id := next_job_id_from (S (size (jobs w))) w (job_id_seq w) in
  Ok (w <| job_id_seq := id |>, id).

Definition hash_add (h : ll_hash unit) (key : string) : res (ll_hash unit) :=
  let* (h, _) := ll_hash_insert alloc_fine h key tt false in
  Ok h.

Definition machines_hash_insert_token (w : mbd) (h : ll_hash unit) (tok : string)
    : res (ll_hash unit) :=
  match group_name_hash w !! tok with
  | Some g =>
      res_fold hash_add (strtok_all is_blank (strbuf LL_BUFSIZ_1K (grp_members g))) h
  | None => hash_add h tok
  end.

Definition is_machine_delim (c : ascii) : bool := is_blank c || is_comma c.

Definition machines_hash_populate (w : mbd) (ms : string) : res (ll_hash unit) :=
  let* o := ll_hash_init alloc_fine 101 in
  let* h := deref o in
  if String.eqb ms EmptyString then Ok h
  else res_fold (machines_hash_insert_token w)
         (strtok_all is_machine_delim (strbuf LL_BUFSIZ_4K ms)) h.

Definition empty_hash : ll_hash unit := mk_ll_hash [] 0 0.

(** A record fresh from [calloc]. *)
Definition zero_resources : job_resources :=
  mk_job_resources 0 0 0 EmptyString 0 0 0 EmptyString empty_hash EmptyString [].

Definition zero_job : job_data :=
  mk_job_data 0 0 0 0 EmptyString (JOB_BADSTATE 0) 0 0 0 0 0 0 0 0 0 0 0 None
    EmptyString EmptyString 0 JOB_LIST_PEND PEND_NONE [] EmptyString 0 zero_resources
    0 [] EmptyString 0 0 0 0 0 0.

(** The result of [job_alloc] and [job_prepare]: the state, the request (which
    they complete in place) and the errno or the new job. *)
Definition job_alloc (e : env) (ws : wire_job_submit) (w : mbd)
    : res (mbd * wire_job_submit * (Z + job_data)) :=
  let (w, ok) := try_alloc e w in
  if negb ok then Ok (w, ws, inl ENOMEM)
  else
    let* (w, id) := next_job_id w in
    let* ms := machines_hash_populate w (sub_machines ws) in
    let nh := if 0 <? nentries ms then nentries ms else sub_num_hosts ws in
    let ws := if String.eqb (sub_name ws) EmptyString
              then ws <| sub_name := "-" |> else ws in
    let ws := if String.eqb (sub_queue ws) EmptyString
              then ws <| sub_queue := strbuf LL_BUFSIZ_256 (default_queue w) |> else ws in
    let nh1 := if nh <? 1 then 1 else nh in
    let rs := mk_job_resources (sub_num_cpus ws) nh (sub_num_gpus ws)
                (strbuf LL_BUFSIZ_256 (sub_gpu_model ws)) (sub_mem_mb ws) (sub_storage_mb ws)
                0 (strbuf LL_BUFSIZ_4K (sub_machines ws)) ms EmptyString [] in
    let j := zero_job
      <| job_id := id |>
      <| flags := sub_flags ws |>
      <| state := if has_flag (sub_flags ws) JOB_FLAG_HOLD then JOB_HELD else JOB_PENDING |>
      <| submit_time := now e |>
      <| user := strbuf LL_BUFSIZ_64 (sub_username ws) |>
      <| begin_time := sub_begin_time ws |>
      <| term_time := sub_term_time ws |>
      <| project := strbuf LL_BUFSIZ_256 (sub_project ws) |>
      <| name := strbuf LL_BUFSIZ_64 (sub_name ws) |>
      <| rsrc := rs |> in
    match queue_name_hash w !! sub_queue ws with
    | None => Ok (w, ws, inl EINVAL)
    | Some q =>
        let* qq := nth_res (queues w) q in
        let j := j <| queue := Some q |> <| priority := q_priority qq |> in
        if negb (queue_user_allowed qq (user j)) then Ok (w, ws, inl EPERM)
        else
          let j := j <| rsrc ::= fun r => r <| num_hosts := nh1 |> |>
                     <| run_hosts := replicate (Z.to_nat nh1) None |> in
          let (w, ok) := try_alloc e w in
          if negb ok then Ok (w, ws, inl ENOMEM) else Ok (w, ws, inr j)
    end.

Definition is_eq_sign : ascii := "="%char.

(** One [name=count] of the token request; [None] is -1 with EINVAL. The test of
    [ll_atoi]'s result never fails ([ll_atoi] returns 0 or 1), so a text that is
    no number leaves [count] uninitialised. *)
Definition job_parse_token (e : env) (w : mbd) (tok : string) : option job_token :=
  match strchr_split is_eq_sign tok with
  | None => None
  | Some (nm, v) =>
      let count := match ll_atoi v with Some c => c | None => garbage e end in
      if count <=? 0 then None
      else
        match pool_name_hash w !! nm with
        | None => None
        | Some _ => Some (mk_job_token (strbuf LL_BUFSIZ_64 nm) count)
        end
  end.

Fixpoint opt_map {A B} (f : A -> option B) (l : list A) : option (list B) :=
  match l with
  | [] => Some []
  | x :: l' =>
      match f x with
      | None => None
      | Some y => match opt_map f l' with Some ys => Some (y :: ys) | None => None end
      end
  end.

Definition job_parse_tokens (e : env) (w : mbd) (tokenpool : string) : option (list job_token) :=
  if String.eqb tokenpool EmptyString then Some []
  else opt_map (job_parse_token e w) (strtok_all is_comma (strbuf LL_BUFSIZ_1K tokenpool)).

Definition dep_resolve_job (w : mbd) (id : Z) : bool := bool_decide (is_Some (job_find w id)).

(** The job with its dependency list, and whether the text was accepted. *)
Definition job_deps_set (j : job_data) (cond : string) (resolve : option (Z -> bool))
    : res (job_data * bool) :=
  if String.eqb cond EmptyString then Ok (j, true)
  else
    let j := j <| depend_cond := strbuf LL_BUFSIZ_4K cond |> in
    let* (st, ds) := dep_parse resolve (fun _ => true) cond in
    Ok (j <| deps := ds |>, bool_decide (st = DEP_PARSE_OK)).

Definition job_parse_deps (w : mbd) (j : job_data) (cond : string) : res (job_data * bool) :=
  job_deps_set j cond (Some (dep_resolve_job w)).

Definition job_replay_deps (j : job_data) (cond : string) : res job_data :=
  let* (j, ok) := job_deps_set j cond None in
  if ok : bool then Ok j
  else Ok (j <| deps := [] |> <| depend_cond := EmptyString |>).

(** The authenticated caller. *)
Record caller : Type := mk_caller { c_uid : Z; c_gid : Z }.

Definition job_prepare (e : env) (ws : wire_job_submit) (hdr : caller) (w : mbd)
    : res (mbd * wire_job_submit * (Z + job_data)) :=
  let* (w, ws, r) := job_alloc e ws w in
  match r with
  | inl err => Ok (w, ws, inl err)
  | inr j =>
      let j := j <| uid := c_uid hdr |> <| gid := c_gid hdr |> in
      match script_err e (job_id j) with
      | Some err => Ok (w, ws, inl err)
      | None =>
          match sidecar_err e (job_id j) with
          | Some err => Ok (w, ws, inl err)
          | None =>
              match job_parse_tokens e w (sub_tokenpool ws) with
              | None => Ok (w, ws, inl EINVAL)
              | Some ts =>
                  let j := j <| rsrc ::= fun r => r <| tokens := ts |>
                                   <| tokenpool_str := strbuf LL_BUFSIZ_256 (sub_tokenpool ws) |> |> in
                  let* (j, ok) := job_parse_deps w j (sub_depend_cond ws) in
                  if ok : bool then Ok (w, ws, inr j) else Ok (w, ws, inl EINVAL)
              end
          end
      end
  end.

Definition job_commit (j : job_data) (ws : wire_job_submit) (w : mbd) : res mbd :=
  let id := job_id j in
  let* _ := c_assert (bool_decide (jobs w !! id = None)) in
  let w := w <| jobs ::= <[id := j]> |> in
  let w := job_deps_hold j w in
  let w := job_set_list id JOB_LIST_PEND w in
  let* w := event_job_new j ws w in
  upd_job_queue j (fun q =>
    let q := match state j with
             | JOB_PENDING => q <| q_num_pend ::= Z.succ |>
             | JOB_HELD => q <| q_num_held ::= Z.succ |>
             | _ => q
             end in
    q <| q_num_jobs ::= Z.succ |>) w.

Definition job_commit_prepared (prepared : list job_data) (ws : wire_job_submit) (w : mbd)
    : res mbd :=
  res_fold (fun w j => job_commit j ws w) prepared w.

(** [array_head->array_element_cnt++]: the head is the first job prepared. *)
Definition bump_head (l : list job_data) : list job_data :=
  match l with
  | [] => []
  | h :: t => h <| array_element_cnt ::= Z.succ |> :: t
  end.

(** The loop that prepares the jobs of one submission; [fuel] is the number of
    indices. [inl err] when a job could not be prepared. *)
Fixpoint prepare_loop (e : env) (hdr : caller) (fuel : nat) (start stop stride index : Z)
    (prepared : list job_data) (ws : wire_job_submit) (w : mbd)
    : res (mbd * wire_job_submit * (Z + list job_data)) :=
  match fuel with
  | O => Ok (w, ws, inr prepared)
  | S f =>
      let* (w, ws, r) := job_prepare e ws hdr w in
      match r with
      | inl err =>
          let* _ := c_assert (negb (err =? 0)) in
          Ok (w, ws, inl err)
      | inr j =>
          let* aid :=
            match prepared with
            | [] => Ok (job_id j)
            | h :: _ =>
                let prev := match last prepared with Some p => job_id p | None => 0 end in
                let* _ := c_assert (job_id j =? prev + 1) in
                Ok (job_id h)
            end in
          let array := has_flag (sub_flags ws) JOB_FLAG_ARRAY in
          let j := if array then
                     j <| array_id := aid |> <| array_index := index |>
                       <| array_start := start |> <| array_end := stop |>
                       <| array_stride := stride |>
                   else j in
          let prepared := prepared ++ [j] in
          let prepared := if array then bump_head prepared else prepared in
          prepare_loop e hdr f start stop stride (index + stride) prepared ws w
      end
  end.

Definition job_register_reply (e : env) (chan : Z) (id : Z) (w : mbd) : mbd * bool :=
  enqueue_payload e chan BATCH_JOB_SUBMIT_ACK MBD_OK (BodySubmit id) w.

Definition job_register_error (e : env) (chan : Z) (status : Z) (w : mbd) : mbd :=
  (enqueue_payload e chan BATCH_JOB_SUBMIT_ACK status (BodySubmit (-1)) w).1.

Definition job_id_seq_write (w : mbd) : mbd := w <| job_id_seq_file := Some (job_id_seq w) |>.

(** The number of rounds of [for (index = start; index <= end; index += stride)]. *)
Definition range_count (start stop stride : Z) : nat :=
  if stop <? start then O else Z.to_nat ((stop - start) / stride + 1).

(** The decoded request; a request that does not decode closes the channel. *)
Definition job_register (e : env) (chan : Z) (hdr : caller) (ws : wire_job_submit) (w : mbd)
    : res mbd :=
  let array := has_flag (sub_flags ws) JOB_FLAG_ARRAY in
  if array && ((sub_array_stride ws <=? 0) || (sub_array_end ws <? sub_array_start ws))
  then Ok (job_register_error e chan EINVAL w)
  else
    let start := if array then sub_array_start ws else 0 in
    let stop := if array then sub_array_end ws else 0 in
    let stride := if array then sub_array_stride ws else 1 in
    let* (w, ws, r) :=
      prepare_loop e hdr (range_count start stop stride) start stop stride start [] ws w in
    match r with
    | inl err => Ok (job_register_error e chan err w)
    | inr prepared =>
        let aid := match prepared with [] => 0 | h :: _ => job_id h end in
        let (w, ok) := job_register_reply e chan aid w in
        if negb ok then Ok w
        else
          let* w := job_commit_prepared prepared ws w in
          Ok (job_id_seq_write w)
    end.

(** ** Replies of the execution daemons *)

(** [job->queue->num_run--] or [num_susp--] by the state, the CPUs and hosts
    used: the part that finishing, rejecting and losing a job share. *)
Definition queue_leave_run (j : job_data) (q : mbd_queue) : mbd_queue :=
  let q := if state_is JOB_RUNNING j then q <| q_num_run ::= Z.pred |> else q in
  let q := if state_is JOB_SUSPENDED j then q <| q_num_susp ::= Z.pred |> else q in
  q <| q_cpus_used ::= fun c => c - num_cpus (rsrc j) * Z.of_nat (run_nhosts j) |>
    <| q_hosts_used ::= fun c => c - Z.of_nat (run_nhosts j) |>.

(** Sign and queue an acknowledgement; [false] when either fails. *)
Definition send_ack (e : env) (chan : Z) (op : batch_op) (id : Z) (of_op : batch_op) (w : mbd)
    : mbd * bool :=
  let (w, ok) := auth_sign_header e w in
  if negb ok then (w, false)
  else enqueue_payload e chan op MBD_OK (BodyAck (mk_wire_job_ack id of_op)) w.

Definition mbd_job_reject_dispatch (e : env) (id : Z) (j : job_data) (w : mbd) : res mbd :=
  let* _ := c_assert (state_is JOB_RUNNING j) in
  let* _ := c_assert (bool_decide (list_id j = JOB_LIST_RUN)) in
  let* h := run_host j 0 in
  let* hh := nth_res (hosts w) h in
  let chan := sbd_chan hh in
  let* w := reset_host_resources j w in
  let w := token_pool_release j w in
  let* w := upd_job_queue j (fun q =>
    let q := if state_is JOB_RUNNING j then q <| q_num_run ::= Z.pred |>
             else q <| q_num_susp ::= Z.pred |> in
    q <| q_num_pend ::= Z.succ |>
      <| q_cpus_used ::= fun c => c - num_cpus (rsrc j) * Z.of_nat (run_nhosts j) |>
      <| q_hosts_used ::= fun c => c - Z.of_nat (run_nhosts j) |>) w in
  let w := upd_job id (fun j => j
    <| pid := 0 |> <| fork_time := 0 |> <| dispatch_time := 0 |>
    <| state := JOB_PENDING |> <| pend_reason_of := PEND_NONE |>
    <| run_hosts := replicate (Z.to_nat (num_hosts (rsrc j))) None |>
    <| run_nhosts := 0%nat |>) w in
  let* w := job_move_list id JOB_LIST_RUN JOB_LIST_PEND w in
  let* _ := mbd_assert_counters w in
  let* w := event_job_pend e j w in
  Ok (send_ack e chan BATCH_NEW_JOB_REPLY_ACK id BATCH_NEW_JOB_REPLY w).1.

(** [n] is the host the reply came from. *)
Definition mbd_new_job_reply (e : env) (n : nat) (r : wire_job_reply) (w : mbd) : res mbd :=
  let* nn := nth_res (hosts w) n in
  match job_find w (rep_job_id r) with
  | None => Ok w
  | Some j =>
      let id := rep_job_id r in
      if rep_state r =? job_state_num JOB_PENDING then
        if state_is JOB_PENDING j || state_is JOB_HELD j then
          let* _ := c_assert (bool_decide (list_id j = JOB_LIST_PEND)) in
          Ok w
        else mbd_job_reject_dispatch e id j w
      else
        let duplicate := 0 <? fork_time j in
        let (w, ok) := send_ack e (sbd_chan nn) BATCH_NEW_JOB_REPLY_ACK id BATCH_NEW_JOB_REPLY w in
        if negb ok then Ok w
        else if duplicate then Ok w
        else
          let j := j <| pid := rep_pid r |> <| fork_time := now e |> <| state := JOB_RUNNING |> in
          let w := upd_job id (fun j => j <| pid := rep_pid r |> <| fork_time := now e |>
                                          <| state := JOB_RUNNING |>) w in
          event_job_fork j w
  end.

Definition mbd_job_finish (e : env) (n : nat) (f : wire_job_finish) (w : mbd) : res mbd :=
  let* nn := nth_res (hosts w) n in
  let id := fin_job_id f in
  match job_find w id with
  | None =>
      Ok (send_ack e (sbd_chan nn) BATCH_JOB_FINISH_ACK id BATCH_JOB_FINISH w).1
  | Some j =>
      let* h := run_host j 0 in
      let* hh := nth_res (hosts w) h in
      if negb (String.eqb (h_name nn) (h_name hh)) then Ok w
      else
        let duplicate := 0 <? end_time j in
        let* _ := c_assert (duplicate || state_is JOB_RUNNING j || state_is JOB_SUSPENDED j) in
        let (w, ok) := send_ack e (sbd_chan nn) BATCH_JOB_FINISH_ACK id BATCH_JOB_FINISH w in
        if negb ok then Ok w
        else if duplicate then Ok w
        else
          let st := if fin_state f =? 0 then JOB_DONE else JOB_EXITED in
          let fin j := j <| end_time := now e |> <| exit_status := fin_exit_status f |>
                         <| state := st |> in
          let* w := reset_host_resources j w in
          let w := token_pool_release j w in
          let* w := upd_job_queue j (fun q => queue_leave_run j q <| q_num_jobs ::= Z.pred |>) w in
          let w := upd_job id fin w in
          let* w := job_move_list id JOB_LIST_RUN JOB_LIST_FINISH w in
          let w := job_array_element_finished j w in
          let* w := event_job_finish (fin j) w in
          let* _ := mbd_assert_counters w in
          Ok w
  end.

(** A signal acknowledged by the execution daemon with status [status]. *)
Definition mbd_job_signal_reply (n : nat) (s : wire_job_sig) (status : Z) (w : mbd) : res mbd :=
  let* _ := nth_res (hosts w) n in
  let id := sig_job_id s in
  match job_find w id with
  | None => Ok w
  | Some j =>
      if negb (status =? MBD_OK) then Ok w
      else
        let* w :=
          if (sig_sig s =? SIGSTOP) || (sig_sig s =? SIGTSTP) then
            let w := upd_job id (fun j => j <| state := JOB_SUSPENDED |>) w in
            let* w := upd_job_queue j (fun q => q <| q_num_run ::= Z.pred |>
                                                  <| q_num_susp ::= Z.succ |>) w in
            Ok (upd_host n (fun h => h <| h_num_susp ::= Z.succ |> <| h_num_run ::= Z.pred |>) w)
          else if sig_sig s =? SIGCONT then
            let w := upd_job id (fun j => j <| state := JOB_RUNNING |>) w in
            let* w := upd_job_queue j (fun q => q <| q_num_susp ::= Z.pred |>
                                                  <| q_num_run ::= Z.succ |>) w in
            Ok (upd_host n (fun h => h <| h_num_susp ::= Z.pred |> <| h_num_run ::= Z.succ |>) w)
          else Ok w in
        let* _ := mbd_assert_counters w in
        Ok w
  end.

(** [mbd_job_missing] (src/batch/mbd/sbd.c): the daemon of host [n] has no
    record of the job. *)
Definition mbd_job_missing (e : env) (n : nat) (id : Z) (w : mbd) : res mbd :=
  match job_find w id with
  | None => Ok w
  | Some j =>
      if state_is JOB_ORPHAN j then Ok w
      else if (run_nhosts j =? 0)%nat then Ok w
      else
        let* o := nth_res (run_hosts j) 0 in
        if negb (bool_decide (o = Some n)) then Ok w
        else if negb (state_is JOB_RUNNING j || state_is JOB_SUSPENDED j) then Ok w
        else
          let* w := reset_host_resources j w in
          let w := token_pool_release j w in
          let* w := upd_job_queue j (fun q => queue_leave_run j q <| q_num_jobs ::= Z.pred |>) w in
          let w := upd_job id (fun j => j
            <| pid := 0 |> <| fork_time := 0 |> <| dispatch_time := 0 |>
            <| pend_reason_of := PEND_NONE |> <| state := JOB_PENDING |>) w in
          let* w := job_move_list id JOB_LIST_RUN JOB_LIST_PEND w in
          let* w := upd_job_queue j (fun q => q <| q_num_jobs ::= Z.succ |>
                                                <| q_num_pend ::= Z.succ |>) w in
          let* _ := mbd_assert_counters w in
          event_job_pend e j w
  end.

(** ** Job control *)

Definition job_move (e : env) (chan : Z) (hdr : caller) (id : Z) (to_queue : string) (w : mbd)
    : res mbd :=
  let reply status w := (enqueue_header e chan BATCH_JOB_MOVE_ACK status w).1 in
  match job_find w id with
  | None => Ok (reply ESRCH w)
  | Some j =>
      if negb (state_is JOB_PENDING j) && negb (state_is JOB_HELD j) then Ok (reply EINVAL w)
      else
        match queue_name_hash w !! to_queue with
        | None => Ok (reply ESRCH w)
        | Some to =>
            let* tq := nth_res (queues w) to in
            if negb (uid j =? c_uid hdr) && negb (is_manager w (c_uid hdr)) then Ok (reply EPERM w)
            else if negb (queue_user_allowed tq (user j)) then Ok (reply EPERM w)
            else
              let* w := upd_job_queue j (fun q =>
                let q := if state_is JOB_PENDING j then q <| q_num_pend ::= Z.pred |>
                         else q <| q_num_held ::= Z.pred |> in
                q <| q_num_jobs ::= Z.pred |>) w in
              let* w := event_job_move e j (q_name tq) w in
              let w := upd_job id (fun j => j <| queue := Some to |>) w in
              let w := upd_queue to (fun q =>
                let q := if state_is JOB_PENDING j then q <| q_num_pend ::= Z.succ |>
                         else q <| q_num_held ::= Z.succ |> in
                q <| q_num_jobs ::= Z.succ |>) w in
              let w := reply MBD_OK w in
              let* _ := mbd_assert_counters w in
              Ok w
        end
  end.

(** The functions below return the new state and the status for the caller. *)

Definition finish_pending_job (e : env) (id : Z) (j : job_data) (ws : wire_job_sig) (w : mbd)
    : res (mbd * Z) :=
  let* w := upd_job_queue j (fun q =>
    let q := if state_is JOB_PENDING j then q <| q_num_pend ::= Z.pred |> else q in
    let q := if state_is JOB_HELD j then q <| q_num_held ::= Z.pred |> else q in
    q <| q_num_jobs ::= Z.pred |>) w in
  let fin j := j <| signal_time := now e |> <| end_time := now e |> <| state := JOB_EXITED |> in
  let w := upd_job id fin w in
  let w := job_deps_release j w in
  let* w := event_job_signal (fin j) ws w in
  let* w := event_job_finish (fin j) w in
  let* w := job_move_list id JOB_LIST_PEND JOB_LIST_FINISH w in
  Ok (job_array_element_finished j w, MBD_OK).

Definition stop_pending_job (e : env) (id : Z) (j : job_data) (ws : wire_job_sig) (w : mbd)
    : res (mbd * Z) :=
  if state_is JOB_HELD j then Ok (w, MBD_OK)
  else
    let upd j := j <| state := JOB_HELD |> <| signal_time := now e |> in
    let w := upd_job id upd w in
    let* w := event_job_signal (upd j) ws w in
    let* w := event_job_pend_susp e j w in
    let* w := upd_job_queue j (fun q => q <| q_num_pend ::= Z.pred |> <| q_num_held ::= Z.succ |>) w in
    Ok (w, MBD_OK).

Definition resume_pending_job (e : env) (id : Z) (j : job_data) (ws : wire_job_sig) (w : mbd)
    : res (mbd * Z) :=
  if negb (state_is JOB_HELD j) then Ok (w, MBD_OK)
  else
    let upd j := j <| state := JOB_PENDING |> <| signal_time := now e |> in
    let w := upd_job id upd w in
    let* w := event_job_signal (upd j) ws w in
    let* w := event_job_pend_resume e j w in
    let* w := upd_job_queue j (fun q => q <| q_num_held ::= Z.pred |> <| q_num_pend ::= Z.succ |>) w in
    Ok (w, MBD_OK).

Definition signal_pending_job (e : env) (id : Z) (j : job_data) (ws : wire_job_sig) (w : mbd)
    : res (mbd * Z) :=
  let s := sig_sig ws in
  if (s =? SIGTERM) || (s =? SIGINT) || (s =? SIGKILL) then finish_pending_job e id j ws w
  else if (s =? SIGSTOP) || (s =? SIGTSTP) then stop_pending_job e id j ws w
  else if s =? SIGCONT then resume_pending_job e id j ws w
  else Ok (w, EINVAL).

Definition signal_running_job (e : env) (id : Z) (j : job_data) (ws : wire_job_sig) (w : mbd)
    : res (mbd * Z) :=
  let* h := run_host j 0 in
  let* hh := nth_res (hosts w) h in
  if sbd_chan hh <? 0 then Ok (w, EAGAIN)
  else
    let (w, ok) := auth_sign_header e w in
    if negb ok then Ok (w, EAGAIN)
    else
      let (w, ok) := enqueue_payload e (sbd_chan hh) BATCH_SBD_JOB_SIGNAL MBD_OK (BodySig ws) w in
      if negb ok then Ok (w, EAGAIN)
      else
        let upd j := j <| signal_time := now e |> in
        let w := upd_job id upd w in
        let* w := event_job_signal (upd j) ws w in
        Ok (w, MBD_OK).

Definition sig_for (ws : wire_job_sig) (id : Z) : wire_job_sig :=
  mk_wire_job_sig id (sig_array_index ws) (sig_sig ws) (sig_uid ws).

Definition is_stop (s : Z) : bool := (s =? SIGSTOP) || (s =? SIGTSTP).

Definition signal_one_job (e : env) (u : Z) (id : Z) (j : job_data) (req : wire_job_sig) (w : mbd)
    : res (mbd * Z) :=
  if negb (uid j =? u) && negb (is_manager w u) then Ok (w, EPERM)
  else if state_is JOB_DONE j || state_is JOB_EXITED j then Ok (w, EINVAL)
  else if is_stop (sig_sig req) && (state_is JOB_SUSPENDED j || state_is JOB_HELD j)
  then Ok (w, MBD_OK)
  else if (sig_sig req =? SIGCONT) && (state_is JOB_PENDING j || state_is JOB_RUNNING j)
  then Ok (w, MBD_OK)
  else
    let req := sig_for req (job_id j) in
    if state_is JOB_ORPHAN j || state_is JOB_BROKEN j then signal_pending_job e id j req w
    else if state_is JOB_PENDING j || state_is JOB_HELD j then signal_pending_job e id j req w
    else signal_running_job e id j req w.

(** The elements from [id] on, [fuel] of them; the count of those signalled. *)
Fixpoint signal_array_from (e : env) (u : Z) (fuel : nat) (id : Z) (req : wire_job_sig)
    (n : Z) (w : mbd) : res (mbd * Z) :=
  match fuel with
  | O => Ok (w, n)
  | S f =>
      match job_find w id with
      | None => signal_array_from e u f (id + 1) req n w
      | Some j =>
          if state_is JOB_DONE j || state_is JOB_EXITED j
          then signal_array_from e u f (id + 1) req n w
          else if negb (uid j =? u) && negb (is_manager w u)
          then signal_array_from e u f (id + 1) req n w
          else
            let* (w, _) := signal_one_job e u id j req w in
            signal_array_from e u f (id + 1) req (n + 1) w
      end
  end.

Definition array_size (head : job_data) : nat :=
  range_count (array_start head) (array_end head) (array_stride head).

Definition signal_array (e : env) (u : Z) (head : job_data) (req : wire_job_sig) (w : mbd)
    : res (mbd * Z) :=
  signal_array_from e u (array_size head) (job_id head) req 0 w.

(** The two walks of [bkill 0]; the pending walk saves the next entry before a
    job leaves the list, the running walk moves no job. *)
Definition scan_pending (e : env) (u : Z) (req : wire_job_sig) (acc : mbd * Z) (id : Z)
    : res (mbd * Z) :=
  let (w, n) := acc in
  let* j := deref (jobs w !! id) in
  let* _ := c_assert (state_is JOB_PENDING j || state_is JOB_HELD j) in
  if negb (uid j =? u) && negb (is_manager w u) then Ok (w, n)
  else
    let* (w, _) := signal_pending_job e id j (sig_for req (job_id j)) w in
    Ok (w, n + 1).

Definition scan_running (e : env) (u : Z) (req : wire_job_sig) (acc : mbd * Z) (id : Z)
    : res (mbd * Z) :=
  let (w, n) := acc in
  let* j := deref (jobs w !! id) in
  let* o := nth_res (run_hosts j) 0 in
  let* _ := c_assert (bool_decide (is_Some o)) in
  if state_is JOB_ORPHAN j || state_is JOB_BROKEN j then Ok (w, n)
  else
    let* h := deref o in
    let* hh := nth_res (hosts w) h in
    if sbd_chan hh <? 0 then Ok (w, n)
    else
      let* _ := c_assert (state_is JOB_RUNNING j || state_is JOB_SUSPENDED j) in
      if negb (uid j =? u) && negb (is_manager w u) then Ok (w, n)
      else
        let* (w, _) := signal_running_job e id j (sig_for req (job_id j)) w in
        Ok (w, n + 1).

Definition signal_jobs_scan (e : env) (u : Z) (req : wire_job_sig) (w : mbd) : res (mbd * Z) :=
  let* (w, n) := res_fold (scan_pending e u req) (pend_jobs_list w) (w, 0) in
  res_fold (scan_running e u req) (run_jobs_list w) (w, n).

(** The search loop of [job_find_array]. *)
Fixpoint find_array_from (w : mbd) (fuel : nat) (index stride id target : Z) : option job_data :=
  match fuel with
  | O => None
  | S f =>
      if index =? target then job_find w id
      else find_array_from w f (index + stride) stride (id + 1) target
  end.

Definition job_find_array (w : mbd) (aid : Z) (target : Z) : option job_data :=
  match job_find w aid with
  | None => None
  | Some head =>
      if negb (array_id head =? job_id head) then None
      else find_array_from w (array_size head) (array_start head) (array_stride head)
             (job_id head) target
  end.

Definition jobs_signal (e : env) (chan : Z) (hdr : caller) (req0 : wire_job_sig) (w : mbd)
    : res mbd :=
  let reply status w := (enqueue_header e chan BATCH_JOB_SIGNAL_ACK status w).1 in
  let u := c_uid hdr in
  let req := mk_wire_job_sig (sig_job_id req0) (sig_array_index req0) (sig_sig req0) u in
  if sig_job_id req =? 0 then
    let* (w, _) := signal_jobs_scan e u req w in
    Ok (reply MBD_OK w)
  else if negb (sig_array_index req =? 0) then
    match job_find_array w (sig_job_id req) (sig_array_index req) with
    | None => Ok (reply ESRCH w)
    | Some j =>
        let* (w, cc) := signal_one_job e u (job_id j) j (sig_for req (job_id j)) w in
        Ok (reply cc w)
    end
  else
    match job_find w (sig_job_id req) with
    | None => Ok (reply ESRCH w)
    | Some j =>
        let id := sig_job_id req in
        if negb (array_id j =? 0) && (array_id j =? job_id j) then
          let* _ := c_assert (array_index j =? array_start j) in
          let* (w, n) := signal_array e u j req w in
          if 0 <? n then Ok (reply MBD_OK w)
          else
            let* j := deref (jobs w !! id) in
            let* (w, cc) := signal_one_job e u id j req w in
            Ok (reply cc w)
        else
          let* (w, cc) := signal_one_job e u id j req w in
          Ok (reply cc w)
    end.

Definition job_priority (e : env) (chan : Z) (hdr : caller) (id : Z) (prio : Z) (w : mbd)
    : res mbd :=
  let reply status w := (enqueue_header e chan BATCH_JOB_PRIORITY_ACK status w).1 in
  let mgr := is_manager w (c_uid hdr) in
  match job_find w id with
  | None => Ok (reply ESRCH w)
  | Some j =>
      if state_is JOB_DONE j || state_is JOB_EXITED j then Ok (reply EINVAL w)
      else if negb (uid j =? c_uid hdr) && negb mgr then Ok (reply EPERM w)
      else
        let* over :=
          if mgr then Ok false
          else let* q := job_queue w j in Ok (q_priority q <? prio) in
        if over : bool then Ok (reply EPERM w)
        else if prio <? 0 then Ok (reply EINVAL w)
        else if (priority j <? prio) && negb mgr then Ok (reply EPERM w)
        else if prio =? priority j then Ok (reply MBD_OK w)
        else
          let upd j := j <| priority := prio |> in
          let w := upd_job id upd w in
          let* w := event_job_priority e (upd j) (priority j) w in
          Ok (reply MBD_OK w)
  end.
