(* ===== verification/MbdSched.v ===== *)
(** * The scheduler and the dispatch of jobs (src/batch/mbd/sched.c, sbd.c)

    One scheduling cycle: the candidate hosts, the order of the pending jobs, the
    requirements a host must meet, the plan of hosts for a job, its dispatch to
    the execution daemon and the accounting that follows. *)

From S2P Require Import Prelude CString LlHash Dependency LogFormat MbdTypes MbdBase MbdJob.

Open Scope string_scope.
Open Scope list_scope.
Open Scope Z_scope.

(** ** qsort

    The C library's sort is a parameter: what it promises is a permutation of
    the array that is sorted for a comparison that is a total preorder. *)

Definition cmp_le {A} (cmp : A -> A -> Z) (a b : A) : Prop := cmp a b <= 0.

Class QSort : Type := {
  qsort : forall {A : Type}, (A -> A -> Z) -> list A -> list A;
  qsort_perm : forall A (cmp : A -> A -> Z) l, qsort cmp l ≡ₚ l;
  qsort_sorted : forall A (cmp : A -> A -> Z) l,
    (forall a b, a ∈ l -> b ∈ l -> cmp_le cmp a b \/ cmp_le cmp b a) ->
    (forall a b c, a ∈ l -> b ∈ l -> c ∈ l ->
       cmp_le cmp a b -> cmp_le cmp b c -> cmp_le cmp a c) ->
    StronglySorted (cmp_le cmp) (qsort cmp l)
}.

(** ** The order of the pending jobs *)

(** What [pend_job_cmp] reads of a job. *)
Record pend_key : Type := mk_pend_key {
  pk_id : Z;
  pk_queue_priority : Z;
  pk_priority : Z
}.

Definition pend_job_cmp (a b : pend_key) : Z :=
  let r := i32 (pk_queue_priority b - pk_queue_priority a) in
  if negb (r =? 0) then r
  else
    let r := i32 (pk_priority b - pk_priority a) in
    if negb (r =? 0) then r
    else if pk_id a <? pk_id b then -1
    else if pk_id b <? pk_id a then 1
    else 0.

Definition job_pend_key (w : mbd) (id : Z) : res pend_key :=
  let* j := deref (jobs w !! id) in
  let* q := job_queue w j in
  Ok (mk_pend_key id (q_priority q) (priority j)).

Definition SCHED_SORT_BUF_MAX : Z := 131072.

(** [ll_list_sort_buf(&pend_jobs_list, sort_buf, pend_job_cmp)]. *)
Definition sort_pend_list `{QSort} (w : mbd) : res mbd :=
  if (length (pend_jobs_list w) <? 2)%nat then Ok w
  else
    let* _ := guard_or (Z.of_nat (length (pend_jobs_list w)) <=? SCHED_SORT_BUF_MAX) BadIndex in
    let* keys := res_map (job_pend_key w) (pend_jobs_list w) in
    Ok (w <| pend_jobs_list := map pk_id (qsort pend_job_cmp keys) |>).

(** ** Hosts *)

Definition host_usable (h : mbd_host) : bool :=
  (h_state h =? HOST_OK) && negb (sbd_chan h <? 0) && negb (free_cpu h <=? 0).

(** The number of free slots of the candidate hosts. *)
Definition mark_candidates (w : mbd) : mbd * Z :=
  (w <| hosts ::= map (fun h => h <| candidate := host_usable h |>) |>,
   sumZ (fun h => if host_usable h then free_cpu h else 0) (hosts w)).

Definition job_is_ready (e : env) (j : job_data) : bool :=
  state_is JOB_PENDING j && negb ((0 <? begin_time j) && (now e <? begin_time j)).

Definition host_in_queue_group (q : mbd_queue) (h : mbd_host) : bool :=
  bool_decide (is_Some (q_host_hash q !! h_name h)).

(** The counts of the reasons why hosts were left out. *)
Record pend_diag : Type := mk_pend_diag {
  d_no_gpus : Z; d_gpu_model : Z; d_exclusive : Z; d_no_mem : Z; d_no_storage : Z;
  d_no_cpus : Z; d_not_in_queue : Z; d_host_overflow : Z
}.

Definition diag_zero : pend_diag := mk_pend_diag 0 0 0 0 0 0 0 0.

Definition pend_diag_eta (x : pend_diag) : pend_diag :=
  mk_pend_diag (d_no_gpus x) (d_gpu_model x) (d_exclusive x) (d_no_mem x) (d_no_storage x)
    (d_no_cpus x) (d_not_in_queue x) (d_host_overflow x).
#[export] Instance set_d_no_gpus : Setter d_no_gpus. Proof. setter pend_diag_eta. Defined.
#[export] Instance set_d_gpu_model : Setter d_gpu_model. Proof. setter pend_diag_eta. Defined.
#[export] Instance set_d_exclusive : Setter d_exclusive. Proof. setter pend_diag_eta. Defined.
#[export] Instance set_d_no_mem : Setter d_no_mem. Proof. setter pend_diag_eta. Defined.
#[export] Instance set_d_no_storage : Setter d_no_storage. Proof. setter pend_diag_eta. Defined.
#[export] Instance set_d_no_cpus : Setter d_no_cpus. Proof. setter pend_diag_eta. Defined.
#[export] Instance set_d_not_in_queue : Setter d_not_in_queue. Proof. setter pend_diag_eta. Defined.
#[export] Instance set_d_host_overflow : Setter d_host_overflow. Proof. setter pend_diag_eta. Defined.

Definition diag_reason (d : pend_diag) : pend_reason :=
  if negb (d_exclusive d =? 0) then PEND_HOST_EXCLUSIVE
  else if negb (d_gpu_model d =? 0) then PEND_GPU_MODEL
  else if negb (d_no_gpus d =? 0) then PEND_NOT_ENOUGH_GPUS
  else if negb (d_no_mem d =? 0) then PEND_NOT_ENOUGH_MEM
  else if negb (d_no_storage d =? 0) then PEND_NOT_ENOUGH_STORAGE
  else if negb (d_no_cpus d =? 0) then PEND_NOT_ENOUGH_CPUS
  else PEND_NO_HOSTS.

(** The returned count as a truth value. *)
Definition host_has_gpu_count (h : mbd_host) (j : job_data) : bool :=
  let n := gpu_ids_count_free (h_gpu h) in
  (num_gpus (rsrc j) <=? n) && negb (n =? 0).

Definition host_has_gpu_model_and_count (h : mbd_host) (j : job_data) : bool :=
  String.eqb (g_model (h_gpu h)) (gpu_model (rsrc j)) && host_has_gpu_count h j.

Definition host_meets_requirements (h : mbd_host) (j : job_data) (d : pend_diag)
    : bool * pend_diag :=
  if negb (candidate h) then (false, d)
  else if exclusive h then (false, d <| d_exclusive ::= Z.succ |>)
  else if is_exclusive j && (0 <? h_num_jobs h) then (false, d <| d_exclusive ::= Z.succ |>)
  else if free_cpu h <? num_cpus (rsrc j) then (false, d <| d_no_cpus ::= Z.succ |>)
  else if free_mem_mb h <? mem_mb (rsrc j) then (false, d <| d_no_mem ::= Z.succ |>)
  else if free_storage_mb h <? storage_mb (rsrc j) then (false, d <| d_no_storage ::= Z.succ |>)
  else if (0 <? num_gpus (rsrc j)) && negb (host_has_gpu_count h j)
  then (false, d <| d_no_gpus ::= Z.succ |>)
  else if negb (String.eqb (gpu_model (rsrc j)) EmptyString)
          && negb (host_has_gpu_model_and_count h j)
  then (false, d <| d_gpu_model ::= Z.succ |>)
  else (true, d).

(** ** Plans *)

(** One machine the job asked for by name: the host added to the plan, if any. *)
Definition plan_machine (w : mbd) (q : mbd_queue) (j : job_data)
    (acc : list nat * pend_diag) (entry : string * unit) : res (list nat * pend_diag) :=
  let (plan, d) := acc in
  match q_host_hash q !! entry.1 with
  | None => Ok (plan, d <| d_not_in_queue ::= Z.succ |>)
  | Some h =>
      let* hh := nth_res (hosts w) h in
      let (ok, d) := host_meets_requirements hh j d in
      if negb ok then Ok (plan, d)
      else
        let* _ := guard_or (length plan <? length (hosts w))%nat BadIndex in
        Ok (plan ++ [h], d)
  end.

(** One host of the host list, with its index. *)
Definition plan_host (q : mbd_queue) (j : job_data) (acc : list nat * pend_diag)
    (h : nat * mbd_host) : list nat * pend_diag :=
  let (plan, d) := acc in
  if negb (host_in_queue_group q h.2) then (plan, d <| d_not_in_queue ::= Z.succ |>)
  else
    let (ok, d) := host_meets_requirements h.2 j d in
    if ok then (plan ++ [h.1], d) else (plan, d).

(** The bytes the hosts string of the plan may take. *)
Definition hosts_len (w : mbd) (hs : list nat) : res Z :=
  let* names := host_names w hs in
  Ok (sumZ (fun n => Z.of_nat (String.length n) + 16) names).

(** The first [n] entries of the plan array; an unset entry is NULL. *)
Definition plan_prefix (plan : list nat) (n : nat) : res (list nat) :=
  let* _ := guard_or (n <=? length plan)%nat NullDeref in
  Ok (take n plan).

(** [job->run_hosts[i] = host_plan[i]] for the hosts of the plan. *)
Definition set_run_hosts (hs : list nat) (j : job_data) : res job_data :=
  let* _ := guard_or (length hs <=? length (run_hosts j))%nat BadIndex in
  Ok (j <| run_hosts := map Some hs ++ drop (length hs) (run_hosts j) |>
        <| run_nhosts := length hs |>).

(** The end both planners share: the string check and the commit of the plan.
    [inl d] is the result 0, [inr j] the result 1 with the job updated. *)
Definition commit_plan (w : mbd) (j : job_data) (plan : list nat) (n : nat) (d : pend_diag)
    : res (pend_diag + job_data) :=
  let* checked := plan_prefix plan (Z.to_nat (num_hosts (rsrc j))) in
  let* len := hosts_len w checked in
  if Z.of_nat LL_BUFSIZ_8K <=? len then Ok (inl (d <| d_host_overflow ::= Z.succ |>))
  else
    let* hs := plan_prefix plan n in
    let* j := set_run_hosts hs j in
    Ok (inr j).

Definition build_host_plan_machines (w : mbd) (q : mbd_queue) (j : job_data)
    : res (pend_diag + job_data) :=
  let ms := machines (rsrc j) in
  let need := Z.to_nat (nentries ms) in
  let* (plan, d) :=
    res_fold (plan_machine w q j)
      (iter_collect ms (S (length (entries ms))) ll_hash_iter_init) ([], diag_zero) in
  if (length plan <? need)%nat then Ok (inl d)
  else commit_plan w j plan need d.

(** What [host_plan_cmp] reads of a host. *)
Definition host_plan_cmp (a b : nat * Z) : Z := i32 (a.2 - b.2).

Definition build_host_plan `{QSort} (w : mbd) (j : job_data) : res (pend_diag + job_data) :=
  let* q := job_queue w j in
  if 0 <? nentries (machines (rsrc j)) then build_host_plan_machines w q j
  else
    let (plan, d) := foldl (plan_host q j) ([], diag_zero) (imap pair (hosts w)) in
    if Z.of_nat (length plan) <? num_hosts (rsrc j) then Ok (inl d)
    else
      let* keys := res_map (fun h => let* hh := nth_res (hosts w) h in Ok (h, free_cpu hh)) plan in
      let plan := map fst (qsort host_plan_cmp keys) in
      commit_plan w j plan (Z.to_nat (num_hosts (rsrc j))) d.

(** ** Dispatch (sbd.c) *)

Definition MAXHOSTNAMELEN : nat := 64.

Fixpoint build_hosts_str_from (size : nat) (first : bool) (buf : string) (ncpus : Z)
    (names : list string) : string :=
  match names with
  | [] => buf
  | n :: ns =>
      let entry := strbuf (MAXHOSTNAMELEN + 16)
                     ((if first then EmptyString else ",") +:+ n +:+ ":" +:+ print_int ncpus) in
      build_hosts_str_from size false (ll_strlcat buf entry size).1 ncpus ns
  end.

Definition build_hosts_str (w : mbd) (j : job_data) : res string :=
  let* hs := run_host_ptrs j in
  let* names := host_names w hs in
  Ok (build_hosts_str_from LL_BUFSIZ_8K true EmptyString (num_cpus (rsrc j)) names).

(** The walk over the devices: the free ones are taken until [want] are. *)
Fixpoint assign_gpus (want : nat) (first : bool) (buf : string) (ids : list gpu_id)
    : list gpu_id * string :=
  match ids, want with
  | [], _ => ([], buf)
  | _, O => (ids, buf)
  | d :: ids', S want' =>
      if in_use d then
        let (r, b) := assign_gpus want first buf ids' in (d :: r, b)
      else
        let buf := if first then buf else (ll_strlcat buf "," LL_BUFSIZ_64).1 in
        let buf := (ll_strlcat buf (strbuf 16 (print_int (gpu_dev d))) LL_BUFSIZ_64).1 in
        let (r, b) := assign_gpus want' false buf ids' in
        (mk_gpu_id (gpu_dev d) true :: r, b)
  end.

Definition build_gpu_assigned_str (g : mbd_gpu) (n : Z) : res (mbd_gpu * string) :=
  let* _ := c_assert (n <=? g_count g) in
  let c := Z.to_nat (g_count g) in
  let (ids, s) := assign_gpus (Z.to_nat n) true EmptyString (take c (g_ids g)) in
  Ok (g <| g_ids := ids ++ drop c (g_ids g) |>, s).

(** The job record already carries the plan; [false] is -1. *)
Definition mbd_dispatch_job (e : env) (id : Z) (w : mbd) : res (mbd * bool) :=
  let* j := deref (jobs w !! id) in
  let* h := run_host j 0 in
  let* hh := nth_res (hosts w) h in
  let* _ := c_assert (0 <? sbd_chan hh) in
  let* _ := guard_or (job_files_ok e id) Fatal in
  let* q := job_queue w j in
  let* hosts_str := build_hosts_str w j in
  let* (w, assigned) :=
    if 0 <? num_gpus (rsrc j) then
      let* (g, s) := build_gpu_assigned_str (h_gpu hh) (num_gpus (rsrc j)) in
      let w := upd_host h (fun hh => hh <| h_gpu := g |>) w in
      let w := upd_job id (fun j => j <| gpu_assigned := strbuf LL_BUFSIZ_64 s |>) w in
      Ok (w, s)
    else Ok (w, EmptyString) in
  let ws := mk_wire_job_start (job_id j) (uid j) (gid j) (strbuf LL_BUFSIZ_256 (name j))
              (strbuf LL_BUFSIZ_64 (q_name q)) (strbuf LL_BUFSIZ_64 (user j)) hosts_str
              (term_time j) (num_gpus (rsrc j)) (num_cpus (rsrc j)) (mem_mb (rsrc j))
              (strbuf LL_BUFSIZ_64 (gpu_model (rsrc j))) assigned in
  let (w, ok) := auth_sign_header e w in
  if negb ok then Ok (w, false)
  else
    let (w, ok) := enqueue_payload e (sbd_chan hh) BATCH_NEW_JOB MBD_OK (BodyStart ws) w in
    if negb ok then Ok (w, false)
    else
      let w := upd_job id (fun j => j <| dispatch_time := now e |> <| state := JOB_RUNNING |>) w in
      let* j := deref (jobs w !! id) in
      let* w := event_job_start j w in
      let* w := job_move_list id JOB_LIST_PEND JOB_LIST_RUN w in
      Ok (w, true).

(** ** The scheduling cycle *)

(** What one round of the loop decides. *)
Inductive sched_next : Type :=
  | SchedGo (free_slots : Z)   (* continue with the next job *)
  | SchedBreak                 (* no slots left: leave the loop *)
  | SchedReturn.               (* no plan array: leave schedule() *)

Definition set_pend_reason (id : Z) (r : pend_reason) (w : mbd) : mbd :=
  upd_job id (fun j => j <| pend_reason_of := r |>) w.

(** The accounting after a successful dispatch. *)
Definition sched_account (id : Z) (w : mbd) : res mbd :=
  let* j := deref (jobs w !! id) in
  let w := match deps j with [] => w | _ => job_deps_release j w end in
  let* w := host_update_resources j w in
  let w := token_alloc j w in
  upd_job_queue j (fun q => q
    <| q_num_run ::= Z.succ |> <| q_num_pend ::= Z.pred |>
    <| q_cpus_used ::= fun c => c + num_cpus (rsrc j) * Z.of_nat (run_nhosts j) |>
    <| q_hosts_used ::= fun c => c + Z.of_nat (run_nhosts j) |>) w.

(** [build_plan_array]: the array is allocated once. *)
Definition build_plan_array (e : env) (w : mbd) : mbd * bool :=
  if host_plan_ready w then (w, true)
  else
    let (w, ok) := try_alloc e w in
    if ok then (w <| host_plan_ready := true |>, true) else (w, false).

Definition sched_job `{QSort} (e : env) (id : Z) (free_slots : Z) (w : mbd)
    : res (mbd * sched_next) :=
  let* j := deref (jobs w !! id) in
  if negb (job_is_ready e j)
  then Ok (set_pend_reason id PEND_JOB_NOT_READY w, SchedGo free_slots)
  else
    let* q := job_queue w j in
    if bool_decide (q_state q = QUEUE_CLOSED)
    then Ok (set_pend_reason id PEND_QUEUE_CLOSED w, SchedGo free_slots)
    else if negb (tokens_available w j)
    then Ok (set_pend_reason id PEND_TOKENS w, SchedGo free_slots)
    else
      let* sat := job_dep_satisfied w j in
      if negb sat
      then Ok (set_pend_reason id PEND_DEPEND w, SchedGo free_slots)
      else
        let (w, ready) := build_plan_array e w in
        if negb ready then Ok (w, SchedReturn)
        else
          let* r := build_host_plan w j in
          match r with
          | inl d => Ok (set_pend_reason id (diag_reason d) w, SchedGo free_slots)
          | inr j' =>
              let w := upd_job id (fun _ => j' <| pend_reason_of := PEND_NONE |>) w in
              let* (w, ok) := mbd_dispatch_job e id w in
              if negb ok then Ok (w, SchedGo free_slots)
              else
                let* w := sched_account id w in
                let free_slots :=
                  free_slots - num_cpus (rsrc j') * Z.of_nat (run_nhosts j') in
                if free_slots <=? 0 then Ok (w, SchedBreak) else Ok (w, SchedGo free_slots)
          end.

(** The walk over the sorted list: the next entry is read before the job may
    leave the list. [false] when schedule() returned early. *)
Fixpoint sched_loop `{QSort} (e : env) (ids : list Z) (free_slots : Z) (w : mbd)
    : res (mbd * bool) :=
  match ids with
  | [] => Ok (w, true)
  | id :: ids' =>
      let* (w, nx) := sched_job e id free_slots w in
      match nx with
      | SchedGo fs => sched_loop e ids' fs w
      | SchedBreak => Ok (w, true)
      | SchedReturn => Ok (w, false)
      end
  end.

Definition schedule `{QSort} (e : env) (w : mbd) : res mbd :=
  match pend_jobs_list w with
  | [] => Ok w
  | _ =>
      let (w, free_slots) := mark_candidates w in
      if free_slots =? 0 then Ok w
      else
        let* w := sort_pend_list w in
        let* (w, finished) := sched_loop e (pend_jobs_list w) free_slots w in
        if negb finished then Ok w
        else
          let* _ := mbd_assert_counters w in
          Ok w
  end.
