(* ===== verification/MbdEvents.v ===== *)
(** * Replay and compaction of the event log (src/batch/mbd/events.c)

    At start the daemon reads its event log, applies every event to the job table
    and rebuilds from the jobs all that is not logged: counters, host resources,
    token pools, dependency holds and array counts.  When enough jobs have
    finished it writes the log anew from memory and drops the finished jobs that
    nothing refers to. *)

From S2P Require Import Prelude CString LlHash Dependency LogFormat MbdTypes MbdBase MbdJob.

Open Scope string_scope.
Open Scope list_scope.
Open Scope Z_scope.

(** ** One event *)

(** The record [calloc] returned with the fields of the event assigned, before the
    queue, the host array and the dependencies. *)
Definition replayed_job (e : log_job_new) (ms : ll_hash unit) : job_data :=
  mk_job_data (ln_job_id e) (ln_uid e) (ln_gid e) 0 (strbuf LL_BUFSIZ_64 (ln_username e))
    (job_state_of (ln_state e)) 0 (ln_priority e) (ln_submit_time e) 0 0 0 0 0
    (ln_begin_time e) (ln_term_time e) 0 None (strbuf LL_BUFSIZ_256 (ln_project_name e))
    (strbuf LL_BUFSIZ_64 (ln_job_name e)) (ln_flags e) JOB_LIST_PEND PEND_NONE [] EmptyString 0
    (mk_job_resources (ln_num_cpu e)
       (if 0 <? nentries ms then i32 (nentries ms) else ln_num_hosts e)
       (ln_num_gpus e) (strbuf LL_BUFSIZ_256 (ln_gpu_model e)) (ln_mem_mb e)
       (ln_storage_mb e) 0 EmptyString ms EmptyString [])
    0 [] EmptyString (ln_array_id e) (ln_array_index e) (ln_array_start e) (ln_array_end e)
    (ln_array_stride e) 0.

(** [None] is NULL.  [calloc] of a negative count fails: as a size it is larger
    than memory. *)
Definition replay_alloc (e : env) (ev : log_job_new) (w : mbd) : res (mbd * option job_data) :=
  let (w, ok) := try_alloc e w in
  if negb ok then Ok (w, None)
  else
    let* ms := machines_hash_populate w (ln_machines ev) in
    let j := replayed_job ev ms in
    let j := match queue_name_hash w !! ln_queue ev with
             | Some q => j <| queue := Some q |>
             | None => j <| state := JOB_ORPHAN |>
             end in
    let n := num_hosts (rsrc j) in
    let (w, ok) := try_alloc e w in
    if negb (ok && (0 <=? n)) then Ok (w, None)
    else
      let* j := job_replay_deps (j <| run_hosts := replicate (Z.to_nat n) None |>) (ln_depend_cond ev) in
      Ok (w, Some j).

(** The job goes to the table and to the end of the pending list.  The id of a
    logged job is new; a second record under one id is a list entry the table
    does not know, which the model does not follow. *)
Definition replay_insert (j : job_data) (w : mbd) : res mbd :=
  let* _ := guard_or (bool_decide (jobs w !! job_id j = None)) ListCorrupt in
  Ok (job_set_list (job_id j) JOB_LIST_PEND (w <| jobs ::= <[job_id j := j]> |>)).

(** The largest id seen and the number of jobs restored go with the state. *)
Record replay_state : Type := mk_replay {
  rp_mbd : mbd;
  rp_max_id : Z;
  rp_restored : Z
}.

Definition replay_job_new (e : env) (ev : log_job_new) (s : replay_state) : res replay_state :=
  let max_id := if rp_max_id s <? ln_job_id ev then ln_job_id ev else rp_max_id s in
  let* (w, o) := replay_alloc e ev (rp_mbd s) in
  match o with
  | None => Ok (mk_replay w max_id (rp_restored s))
  | Some j =>
      let* w := replay_insert j w in
      Ok (mk_replay w max_id (rp_restored s + 1))
  end.

(** The walk over the host names: the job with the hosts found so far, and
    [false] when a name is not a host of the job's queue. *)
Fixpoint replay_run_hosts (qh : gmap string nat) (nhosts : Z) (toks : list string) (j : job_data)
    : res (job_data * bool) :=
  match toks with
  | [] => Ok (j, true)
  | tok :: toks' =>
      match qh !! tok with
      | None => Ok (j, false)
      | Some h =>
          if nhosts <=? Z.of_nat (run_nhosts j) then Ok (j, true)
          else
            let* _ := guard_or (run_nhosts j <? length (run_hosts j))%nat BadIndex in
            replay_run_hosts qh nhosts toks'
              (j <| run_hosts ::= <[run_nhosts j := Some h]> |> <| run_nhosts ::= S |>)
      end
  end.

Definition replay_set_run_hosts (w : mbd) (j : job_data) (ev : log_job_start) : res (job_data * bool) :=
  let toks := strtok_all is_machine_delim (strbuf LL_BUFSIZ_4K (ls_hosts ev)) in
  let* qh := match toks with
             | [] => Ok ∅
             | _ => let* q := job_queue w j in Ok (q_host_hash q)
             end in
  let* (j, ok) := replay_run_hosts qh (ls_nhosts ev) toks j in
  if negb ok then Ok (j, false)
  else
    let* _ := c_assert (Z.of_nat (run_nhosts j) =? ls_nhosts ev) in
    Ok (j, true).

Definition replay_job_start (ev : log_job_start) (w : mbd) : res mbd :=
  let id := ls_job_id ev in
  match job_find w id with
  | None => Ok w
  | Some j =>
      if state_is JOB_ORPHAN j then Ok w
      else
        let* (j, ok) := replay_set_run_hosts w j ev in
        if negb ok then Ok (upd_job id (fun _ => j <| state := JOB_BROKEN |>) w)
        else
          let w := upd_job id (fun _ => j <| state := JOB_RUNNING |>
                     <| dispatch_time := ls_dispatch_time ev |>
                     <| gpu_assigned := strbuf LL_BUFSIZ_64 (ls_gpu_assigned ev) |>) w in
          job_move_list id JOB_LIST_PEND JOB_LIST_RUN w
  end.

(** The events that only change the record of a job they find. *)
Definition replay_update (id : Z) (f : job_data -> job_data) (w : mbd) : mbd :=
  match job_find w id with
  | None => w
  | Some _ => upd_job id f w
  end.

Definition replay_job_fork (ev : log_job_fork) (w : mbd) : mbd :=
  replay_update (lf_job_id ev)
    (fun j => j <| pid := lf_job_pid ev |> <| fork_time := lf_fork_time ev |>) w.

Definition replay_job_signal (ev : log_job_signal) (w : mbd) : mbd :=
  replay_update (lg_job_id ev) (fun j => j <| signal_time := lg_signal_time ev |>) w.

Definition replay_job_susp (ev : log_job_mark) (w : mbd) : mbd :=
  replay_update (lk_job_id ev) (fun j => j <| state := JOB_SUSPENDED |>) w.

Definition replay_job_priority (ev : log_job_priority) (w : mbd) : mbd :=
  replay_update (lp_job_id ev) (fun j => j <| priority := lp_new_priority ev |>) w.

Definition replay_job_finish (ev : log_job_finish) (w : mbd) : res mbd :=
  let id := le_job_id ev in
  match job_find w id with
  | None => Ok w
  | Some j =>
      let w := upd_job id (fun j => j <| state := job_state_of (le_state ev) |>
                 <| exit_status := le_exit_status ev |> <| uid := le_uid ev |>
                 <| end_time := le_end_time ev |>) w in
      let from := if bool_decide (list_id j = JOB_LIST_RUN) then JOB_LIST_RUN else JOB_LIST_PEND in
      let* w := job_move_list id from JOB_LIST_FINISH w in
      Ok (job_array_element_finished j w)
  end.

Definition replay_job_pend_susp (ev : log_job_mark) (w : mbd) : res mbd :=
  match job_find w (lk_job_id ev) with
  | None => Ok w
  | Some j =>
      let* _ := c_assert (state_is JOB_PENDING j) in
      Ok (upd_job (lk_job_id ev) (fun j => j <| state := JOB_HELD |>) w)
  end.

Definition replay_job_pending_resume (ev : log_job_mark) (w : mbd) : res mbd :=
  match job_find w (lk_job_id ev) with
  | None => Ok w
  | Some j =>
      let* _ := c_assert (state_is JOB_HELD j) in
      Ok (upd_job (lk_job_id ev) (fun j => j <| state := JOB_PENDING |>) w)
  end.

Definition replay_job_move (ev : log_job_move) (w : mbd) : mbd :=
  replay_update (lm_job_id ev)
    (fun j => match queue_name_hash w !! lm_to_queue ev with
              | Some q => j <| queue := Some q |>
              | None => j <| state := JOB_ORPHAN |>
              end) w.

Definition replay_job_pend (ev : log_job_mark) (w : mbd) : res mbd :=
  let id := lk_job_id ev in
  match job_find w id with
  | None => Ok w
  | Some j =>
      let* _ := c_assert (bool_decide (list_id j = JOB_LIST_RUN)) in
      let* w := job_move_list id JOB_LIST_RUN JOB_LIST_PEND w in
      Ok (upd_job id (fun j => j <| pid := 0 |> <| fork_time := 0 |> <| dispatch_time := 0 |>
                                 <| state := JOB_PENDING |> <| run_nhosts := 0%nat |>) w)
  end.

(** ** The replay loop *)

Definition on_mbd (f : mbd -> res mbd) (s : replay_state) : res replay_state :=
  let* w := f (rp_mbd s) in
  Ok (mk_replay w (rp_max_id s) (rp_restored s)).

(** The branch of the loop for an event of each type. *)
Definition replay_event (e : env) (s : replay_state) (ev : log_event) : res replay_state :=
  match ev with
  | LogNew x => replay_job_new e x s
  | LogStart x => on_mbd (replay_job_start x) s
  | LogFork x => on_mbd (fun w => Ok (replay_job_fork x w)) s
  | LogSignal x => on_mbd (fun w => Ok (replay_job_signal x w)) s
  | LogFinish x => on_mbd (replay_job_finish x) s
  | LogPendSusp x => on_mbd (replay_job_pend_susp x) s
  | LogPendResume x => on_mbd (replay_job_pending_resume x) s
  | LogSusp x => on_mbd (fun w => Ok (replay_job_susp x w)) s
  | LogMove x => on_mbd (fun w => Ok (replay_job_move x w)) s
  | LogPriority x => on_mbd (fun w => Ok (replay_job_priority x w)) s
  | LogPend x => on_mbd (replay_job_pend x) s
  end.

(** A record of unknown type or one that does not parse is passed over; the loop
    ends at the end of the file or at a line whose header does not parse.  Every
    round reads at least one character. *)
Fixpoint replay_loop (e : env) (fuel : nat) (fp : string) (s : replay_state) : res replay_state :=
  match fuel with
  | O => Crash OutOfFuel
  | S f =>
      let (o, fp) := log_read_hdr fp in
      match o with
      | None => Ok s
      | Some rec =>
          let* s := match log_parse rec with
                    | Some ev => replay_event e s ev
                    | None => Ok s
                    end in
          replay_loop e f fp s
      end
  end.

(** ** Rebuilding what is not logged *)

Definition queue_reset (q : mbd_queue) : mbd_queue :=
  q <| q_num_jobs := 0 |> <| q_num_pend := 0 |> <| q_num_run := 0 |> <| q_num_susp := 0 |>
    <| q_num_held := 0 |> <| q_cpus_used := 0 |> <| q_hosts_used := 0 |>.

Definition host_reset (h : mbd_host) : mbd_host :=
  h <| h_num_jobs := 0 |> <| h_num_run := 0 |> <| h_num_susp := 0 |> <| h_cpus_used := 0 |>
    <| exclusive := false |>
    <| h_gpu ::= fun g => g <| g_ids := (gpu_flip true false (Z.to_nat (g_count g)) (g_ids g)).1 |> |>.

Definition replay_reset_counters (w : mbd) : mbd :=
  w <| queues ::= map queue_reset |> <| hosts ::= map host_reset |>.

(** One round of [replay_charge_running_job]. *)
Definition host_recharge (j : job_data) (h : mbd_host) : res mbd_host :=
  let h := h <| free_cpu ::= fun c => c - num_cpus (rsrc j) |>
             <| free_mem_mb ::= fun m => u64 (m - mem_mb (rsrc j)) |>
             <| free_storage_mb ::= fun m => u64 (m - storage_mb (rsrc j)) |>
             <| h_num_jobs ::= Z.succ |>
             <| h_cpus_used ::= fun c => c + num_cpus (rsrc j) |> in
  let h := if state_is JOB_SUSPENDED j then h <| h_num_susp ::= Z.succ |>
           else h <| h_num_run ::= Z.succ |> in
  let h := if is_exclusive j then h <| exclusive := true |> else h in
  if 0 <? num_gpus (rsrc j) then
    let* g := gpu_ids_mark_inuse (num_gpus (rsrc j)) (h_gpu h) in
    Ok (h <| h_gpu := g |>)
  else Ok h.

Definition replay_charge_running_job (j : job_data) (w : mbd) : res mbd :=
  let* hs := run_host_ptrs j in
  each_host (host_recharge j) hs w.

(** A pending job counts in its queue. *)
Definition rebuild_pend (w : mbd) (id : Z) : res mbd :=
  let* j := deref (jobs w !! id) in
  let* _ := c_assert (bool_decide (is_Some (queue j))) in
  match state j with
  | JOB_HELD => upd_job_queue j (fun q => q <| q_num_jobs ::= Z.succ |> <| q_num_held ::= Z.succ |>) w
  | JOB_PENDING | JOB_BROKEN | JOB_ORPHAN =>
      upd_job_queue j (fun q => q <| q_num_jobs ::= Z.succ |> <| q_num_pend ::= Z.succ |>) w
  | _ => Crash AssertFailed
  end.

(** A running job counts in its queue, is charged to its hosts and takes its
    tokens. *)
Definition rebuild_run (w : mbd) (id : Z) : res mbd :=
  let* j := deref (jobs w !! id) in
  let* _ := c_assert (bool_decide (is_Some (queue j))) in
  let n := Z.of_nat (run_nhosts j) in
  let charge q := q <| q_num_jobs ::= Z.succ |>
                    <| q_cpus_used ::= fun c => c + num_cpus (rsrc j) * n |>
                    <| q_hosts_used ::= fun c => c + n |> in
  let* w :=
    match state j with
    | JOB_RUNNING => upd_job_queue j (fun q => charge q <| q_num_run ::= Z.succ |>) w
    | JOB_SUSPENDED => upd_job_queue j (fun q => charge q <| q_num_susp ::= Z.succ |>) w
    | _ => Crash AssertFailed
    end in
  let* w := replay_charge_running_job j w in
  Ok (token_alloc j w).

Definition rebuild_deps (w : mbd) (id : Z) : res mbd :=
  let* j := deref (jobs w !! id) in
  Ok (match deps j with [] => w | _ => job_deps_hold j w end).

Definition rebuild_array (w : mbd) (id : Z) : res mbd :=
  let* j := deref (jobs w !! id) in
  if array_id j =? 0 then Ok w
  else Ok (replay_update (array_id j) (fun h => h <| array_element_cnt ::= Z.succ |>) w).

Definition replay_rebuild_counters (w : mbd) : res mbd :=
  let w := replay_reset_counters w in
  let* w := res_fold rebuild_pend (pend_jobs_list w) w in
  let* w := res_fold rebuild_run (run_jobs_list w) w in
  let* w := res_fold rebuild_deps (pend_jobs_list w) w in
  let* w := res_fold rebuild_array (pend_jobs_list w) w in
  res_fold rebuild_array (run_jobs_list w) w.

(** The number in the sequence file; a file that is not there or holds no number
    is [None]. *)
Definition job_id_seq_read (w : mbd) : mbd :=
  match job_id_seq_file w with
  | Some s => if job_id_seq w <? s then w <| job_id_seq := s |> else w
  | None => w
  end.

(** What opening and reading the log gives. *)
Inductive log_file : Type :=
  | LogMissing
  | LogUnreadable
  | LogText (text : string) (io_error : bool).

(** The state and the number of jobs restored. *)
Definition jobs_replay (e : env) (f : log_file) (w : mbd) : res (mbd * Z) :=
  match f with
  | LogMissing => Ok (w, 0)
  | LogUnreadable => Crash Fatal
  | LogText text io_error =>
      let* s := replay_loop e (S (String.length text)) text (mk_replay w 0 0) in
      let* _ := guard_or (negb io_error) Fatal in
      let w := rp_mbd s in
      let w := if job_id_seq w <? rp_max_id s then w <| job_id_seq := rp_max_id s |> else w in
      let w := job_id_seq_read w in
      let* w := replay_rebuild_counters w in
      let* _ := mbd_assert_counters w in
      Ok (w, rp_restored s)
  end.

(** ** Compaction *)

Definition compact_write_job_new (j : job_data) (w : mbd) : res mbd :=
  let* q := job_queue w j in
  log_append (LogNew (mk_log_job_new
    (job_id j) (array_id j) (array_index j) (array_start j) (array_end j) (array_stride j)
    (uid j) (gid j) (job_state_num (state j)) (priority j) (submit_time j) (begin_time j)
    (term_time j) (num_cpus (rsrc j)) (num_hosts (rsrc j)) (num_gpus (rsrc j))
    (mem_mb (rsrc j)) (storage_mb (rsrc j)) (flags j)
    (strbuf LL_BUFSIZ_64 (user j)) (strbuf LL_BUFSIZ_64 (name j))
    (strbuf LL_BUFSIZ_64 (q_name q)) (strbuf LL_BUFSIZ_64 (project j))
    (strbuf LL_BUFSIZ_64 (gpu_model (rsrc j))) (strbuf LL_BUFSIZ_1K (machines_str (rsrc j)))
    (strbuf LL_BUFSIZ_256 (tokenpool_str (rsrc j))) (strbuf LL_BUFSIZ_4K (depend_cond j)))) w.

(** The loop runs over [num_hosts] entries of [run_hosts]; the GPU assignment is
    not written. *)
Definition compact_write_job_start (j : job_data) (w : mbd) : res mbd :=
  let* hs := res_map (run_host j) (seq 0 (Z.to_nat (num_hosts (rsrc j)))) in
  let* names := host_names w hs in
  log_append (LogStart (mk_log_job_start
    (job_id j) (dispatch_time j) (num_hosts (rsrc j)) (num_cpus (rsrc j)) (num_gpus (rsrc j))
    (strbuf LL_BUFSIZ_64 (gpu_model (rsrc j))) EmptyString
    (hosts_line LL_BUFSIZ_4K true EmptyString names))) w.

Definition compact_write_job_fork (j : job_data) (w : mbd) : res mbd :=
  log_append (LogFork (mk_log_job_fork (job_id j) (pid j) (fork_time j))) w.

Definition compact_write_job_finish (j : job_data) (w : mbd) : res mbd :=
  log_append (LogFinish (mk_log_job_finish (job_id j) (uid j) (job_state_num (state j))
    (exit_status j) (end_time j))) w.

(** The start of a job with the fork that may have followed. *)
Definition compact_write_job_run (j : job_data) (w : mbd) : res mbd :=
  let* w := compact_write_job_start j w in
  if negb (fork_time j =? 0) then compact_write_job_fork j w else Ok w.

Definition compact_write_job_finished (j : job_data) (w : mbd) : res mbd :=
  let* w := compact_write_job_new j w in
  let* w := if negb (dispatch_time j =? 0) then compact_write_job_run j w else Ok w in
  compact_write_job_finish j w.

(** Whether a finished job is still needed: a pending job's condition refers to
    it, or it is the head of an array with elements left. *)
Definition finished_needed (j : job_data) : bool :=
  (0 <? dep_refcnt j)
  || ((array_id j =? job_id j) && negb (array_id j =? 0) && (0 <? array_element_cnt j)).

Definition compact_pend (w : mbd) (id : Z) : res mbd :=
  let* j := deref (jobs w !! id) in
  compact_write_job_new j w.

Definition compact_run (w : mbd) (id : Z) : res mbd :=
  let* j := deref (jobs w !! id) in
  let* w := compact_write_job_new j w in
  compact_write_job_run j w.

(** The walk over the finished jobs saves the next entry before one is freed. *)
Definition compact_finish (w : mbd) (id : Z) : res mbd :=
  let* j := deref (jobs w !! id) in
  if finished_needed j then compact_write_job_finished j w
  else
    match remove_first id (finish_jobs_list w) with
    | None => Crash ListCorrupt
    | Some l => Ok (w <| finish_jobs_list := l |> <| jobs ::= delete (job_id j) |>)
    end.

(** The old log is renamed away and a new one written. *)
Definition manifest_rebuild (w : mbd) : res mbd :=
  let w := w <| manifest := [] |> in
  let* w := res_fold compact_pend (pend_jobs_list w) w in
  let* w := res_fold compact_run (run_jobs_list w) w in
  res_fold compact_finish (finish_jobs_list w) w.

Definition maybe_rebuild_manifest (threshold : Z) (w : mbd) : res mbd :=
  if Z.of_nat (length (finish_jobs_list w)) <? threshold then Ok w
  else manifest_rebuild w.
