(* ===== verification/MbdNet.v ===== *)
(** * Connections, administration and the routing of messages
      (src/batch/mbd/sbd.c, net.c, dispatch.c, admin.c)

    Registration and loss of an execution daemon, opening and closing of queues
    and hosts with the state files that outlive a restart, and the dispatch of a
    received message to its handler. *)

From S2P Require Import Prelude CString LlHash Dependency LogFormat MbdTypes MbdBase MbdJob MbdSched.

Open Scope string_scope.
Open Scope list_scope.
Open Scope Z_scope.

(** ** Registration of an execution daemon *)

(** The jobs of the run list that were sent to host [n], with their pids. *)
Definition sbd_run_list (n : nat) (w : mbd) : res (list (Z * Z)) :=
  let* run := listed_jobs w (run_jobs_list w) in
  res_fold (fun acc j =>
    let* o := nth_res (run_hosts j) 0 in
    Ok (if bool_decide (o = Some n) then acc ++ [(job_id j, i32 (pid j))] else acc)) run [].

(** [None] is -1: the array could not be allocated. *)
Definition build_sbd_run_list (e : env) (n : nat) (w : mbd) : res (mbd * option (list (Z * Z))) :=
  let* l := sbd_run_list n w in
  match l with
  | [] => Ok (w, Some [])
  | _ => let (w, ok) := try_alloc e w in
         Ok (w, if ok then Some l else None)
  end.

Definition mbd_sbd_disconnect (n : nat) (w : mbd) : res mbd :=
  let* nn := nth_res (hosts w) n in
  let w := upd_host n (fun h => h <| sbd_chan := -1 |>
             <| h_state := Z.lor HOST_UNAVAIL (Z.land (h_state nn) HOST_CLOSED) |>) w in
  Ok (w <| sbd_chan_hash ::= delete (sbd_chan nn) |>).

(** [ll_hash_insert(..., 0)]: a key that is there keeps its value. *)
Definition hash_insert_new (k : Z) (v : nat) (m : gmap Z nat) : gmap Z nat :=
  match m !! k with Some _ => m | None => <[k := v]> m end.

(** [false] is -1. *)
Definition mbd_sbd_register (e : env) (chan : Z) (hostname : string) (w : mbd) : res (mbd * bool) :=
  match host_name_hash w !! strbuf MAXHOSTNAMELEN hostname with
  | None => Ok (w, false)
  | Some n =>
      let* nn := nth_res (hosts w) n in
      if negb (sbd_chan nn =? -1) then Ok (w, false)
      else
        let w := upd_host n (fun h => h <| sbd_chan := chan |>) w in
        let w := w <| sbd_chan_hash ::= hash_insert_new chan n |> in
        let* (w, r) := build_sbd_run_list e n w in
        match r with
        | None => let* w := mbd_sbd_disconnect n w in Ok (w, false)
        | Some l =>
            let w := upd_host n (fun h => h <| h_state ::= fun s => Z.lor HOST_OK (Z.land s HOST_CLOSED) |>) w in
            let (w, ok) := auth_sign_header e w in
            if negb ok then let* w := mbd_sbd_disconnect n w in Ok (w, false)
            else Ok ((enqueue_payload e chan BATCH_SBD_REGISTER_ACK MBD_OK (BodyRegister l) w).1, true)
        end
  end.

(** ** Administration *)

Definition queue_state_write (e : env) (q : mbd_queue) (w : mbd) : mbd :=
  if negb (state_file_ok e (q_name q)) then w
  else if q_state q =? QUEUE_CLOSED then w <| queue_files ::= fun s => {[ q_name q ]} ∪ s |>
  else w <| queue_files ::= fun s => s ∖ {[ q_name q ]} |>.

Definition host_state_write (e : env) (h : mbd_host) (w : mbd) : mbd :=
  if negb (state_file_ok e (h_name h)) then w
  else if negb (Z.land (h_state h) HOST_CLOSED =? 0) then w <| host_files ::= fun s => {[ h_name h ]} ∪ s |>
  else w <| host_files ::= fun s => s ∖ {[ h_name h ]} |>.

Definition queue_admin (e : env) (chan : Z) (hdr : caller) (nm : string) (op : Z) (w : mbd) : res mbd :=
  let reply status w := (enqueue_header e chan BATCH_QUEUE_ADMIN_ACK status w).1 in
  if negb (is_manager w (c_uid hdr)) then Ok (reply EPERM w)
  else
    match queue_name_hash w !! nm with
    | None => Ok (reply ESRCH w)
    | Some qi =>
        let* q := nth_res (queues w) qi in
        let w := upd_queue qi (fun q => q <| q_state := op |>) w in
        let w := queue_state_write e (q <| q_state := op |>) w in
        Ok (reply MBD_OK w)
    end.

Definition host_admin (e : env) (chan : Z) (hdr : caller) (nm : string) (op : Z) (w : mbd) : res mbd :=
  let reply status w := (enqueue_header e chan BATCH_HOST_ADMIN_ACK status w).1 in
  if negb (is_manager w (c_uid hdr)) then Ok (reply EPERM w)
  else
    match host_name_hash w !! nm with
    | None => Ok (reply EINVAL w)
    | Some n =>
        let* h := nth_res (hosts w) n in
        let st := if op =? HOST_CLOSED then Z.lor (h_state h) HOST_CLOSED
                  else Z.land (h_state h) (Z.lnot HOST_CLOSED) in
        let w := upd_host n (fun h => h <| h_state := st |>) w in
        let w := host_state_write e (h <| h_state := st |>) w in
        Ok (reply MBD_OK w)
    end.

(** The state files are read back at start, in directory order. *)
Definition is_dot_file (s : string) : bool :=
  match s with String c _ => code c =? 46 | EmptyString => false end.

Definition queue_state_init (names : list string) (w : mbd) : mbd :=
  foldl (fun w nm =>
    if is_dot_file nm then w
    else match queue_name_hash w !! nm with
         | None => w <| queue_files ::= fun s => s ∖ {[ nm ]} |>
         | Some q => upd_queue q (fun q => q <| q_state := QUEUE_CLOSED |>) w
         end) w names.

(** A file without a host is meant to be removed too, but the path given to
    [unlink] lacks the directory [hosts], so the file stays. *)
Definition host_state_init (names : list string) (w : mbd) : mbd :=
  foldl (fun w nm =>
    if is_dot_file nm then w
    else match host_name_hash w !! nm with
         | None => w
         | Some h => upd_host h (fun h => h <| h_state ::= fun s => Z.lor s HOST_CLOSED |>) w
         end) w names.

(** ** Routing *)

(** What arrives on a channel: an error, a message that is refused before its
    body is read (it cannot be dequeued, its header does not decode, its opcode,
    its signature or its version is bad), or a message with its decoded body. *)
Inductive arrival (M : Type) : Type :=
  | ChanError
  | BadMessage
  | GoodMessage (hdr : caller) (m : M).
Arguments ChanError {M}.
Arguments BadMessage {M}.
Arguments GoodMessage {M} hdr m.

(** The requests of clients that change the daemon's state; the information
    requests only send a reply. *)
Inductive client_msg : Type :=
  | MSubmit (ws : wire_job_submit)
  | MSignal (s : wire_job_sig)
  | MRegister (hostname : string)
  | MQueueAdmin (nm : string) (op : Z)
  | MHostAdmin (nm : string) (op : Z)
  | MJobMove (id : Z) (to_queue : string)
  | MJobPriority (id : Z) (prio : Z).

(** The messages of an execution daemon; any other operation is dropped. *)
Inductive sbd_msg : Type :=
  | SNewJobReply (r : wire_job_reply)
  | SJobFinish (f : wire_job_finish)
  | SSignalReply (s : wire_job_sig) (status : Z)
  | SJobMissing (id : Z)
  | SOther.

Definition route (e : env) (chan : Z) (a : arrival client_msg) (w : mbd) : res mbd :=
  match a with
  | ChanError | BadMessage => Ok w
  | GoodMessage hdr m =>
      match m with
      | MSubmit ws => job_register e chan hdr ws w
      | MSignal s => jobs_signal e chan hdr s w
      | MRegister h => let* (w, _) := mbd_sbd_register e chan h w in Ok w
      | MQueueAdmin nm op => queue_admin e chan hdr nm op w
      | MHostAdmin nm op => host_admin e chan hdr nm op w
      | MJobMove id q => job_move e chan hdr id q w
      | MJobPriority id p => job_priority e chan hdr id p w
      end
  end.

Definition mbd_sbd_route (e : env) (n : nat) (a : arrival sbd_msg) (w : mbd) : res mbd :=
  match a with
  | ChanError => mbd_sbd_disconnect n w
  | BadMessage => Ok w
  | GoodMessage _ m =>
      match m with
      | SNewJobReply r => mbd_new_job_reply e n r w
      | SJobFinish f => mbd_job_finish e n f w
      | SSignalReply s status => mbd_job_signal_reply n s status w
      | SJobMissing id => mbd_job_missing e n id w
      | SOther => Ok w
      end
  end.

(** A channel belongs to an execution daemon or to a client; [ac] and [asb] are
    what the message is in either case. *)
Definition mbd_message (e : env) (chan : Z) (ac : arrival client_msg) (asb : arrival sbd_msg)
    (w : mbd) : res mbd :=
  match sbd_chan_hash w !! chan with
  | Some n =>
      let* nn := nth_res (hosts w) n in
      let* _ := c_assert (sbd_chan nn =? chan) in
      mbd_sbd_route e n asb w
  | None => route e chan ac w
  end.
