(* ===== verification/MbdInv.v ===== *)
(** * The accounting invariant of mbd

    What the counters of queues and hosts mean: each is the sum, over the job
    table, of what the jobs contribute to it.  The invariant ties the job table,
    the three job lists, the queue counters and the host counters and resources
    together; the lemmas here say how a change of one job and the matching
    changes of counters keep it. *)

From S2P Require Import Prelude CString LlHash Dependency LogFormat MbdTypes MbdBase.

Open Scope Z_scope.

(** ** What the accounting depends on *)

(** The part of a job record that lists, counters and resources depend on. *)
Record jcore : Type := mk_jcore {
  jc_id : Z;
  jc_queue : option nat;
  jc_list : job_list_id;
  jc_state : job_state;
  jc_nhosts : nat;
  jc_hosts : list (option nat);
  jc_cpus : Z;
  jc_mem : Z;
  jc_storage : Z;
  jc_excl : bool;
  jc_slots : Z;
  jc_machines : ll_hash unit;
  jc_end : Z
}.

Definition core (j : job_data) : jcore :=
  mk_jcore (job_id j) (queue j) (list_id j) (state j) (run_nhosts j) (run_hosts j)
    (num_cpus (rsrc j)) (mem_mb (rsrc j)) (storage_mb (rsrc j)) (is_exclusive j)
    (num_hosts (rsrc j)) (machines (rsrc j)) (end_time j).

Definition jcore_eta (x : jcore) : jcore :=
  mk_jcore (jc_id x) (jc_queue x) (jc_list x) (jc_state x) (jc_nhosts x) (jc_hosts x)
    (jc_cpus x) (jc_mem x) (jc_storage x) (jc_excl x) (jc_slots x) (jc_machines x) (jc_end x).
#[export] Instance set_jc_queue : Setter jc_queue. Proof. setter jcore_eta. Defined.
#[export] Instance set_jc_list : Setter jc_list. Proof. setter jcore_eta. Defined.
#[export] Instance set_jc_state : Setter jc_state. Proof. setter jcore_eta. Defined.
#[export] Instance set_jc_nhosts : Setter jc_nhosts. Proof. setter jcore_eta. Defined.
#[export] Instance set_jc_hosts : Setter jc_hosts. Proof. setter jcore_eta. Defined.
#[export] Instance set_jc_end : Setter jc_end. Proof. setter jcore_eta. Defined.

Definition cores (w : mbd) : gmap Z jcore := core <$> jobs w.

(** ** Contributions *)

Inductive qfield : Type := QJobs | QPend | QRun | QSusp | QHeld | QCpus | QHosts.

Definition qget (f : qfield) (q : mbd_queue) : Z :=
  match f with
  | QJobs => q_num_jobs q
  | QPend => q_num_pend q
  | QRun => q_num_run q
  | QSusp => q_num_susp q
  | QHeld => q_num_held q
  | QCpus => q_cpus_used q
  | QHosts => q_hosts_used q
  end.

(** What a job adds to the counter [f] of the queue it is in. *)
Definition qweight (f : qfield) (c : jcore) : Z :=
  match jc_list c, f with
  | JOB_LIST_PEND, QJobs => 1
  | JOB_LIST_PEND, QPend =>
      match jc_state c with JOB_PENDING | JOB_BROKEN | JOB_ORPHAN => 1 | _ => 0 end
  | JOB_LIST_PEND, QHeld => match jc_state c with JOB_HELD => 1 | _ => 0 end
  | JOB_LIST_RUN, QJobs => 1
  | JOB_LIST_RUN, QRun => match jc_state c with JOB_RUNNING => 1 | _ => 0 end
  | JOB_LIST_RUN, QSusp => match jc_state c with JOB_SUSPENDED => 1 | _ => 0 end
  | JOB_LIST_RUN, QCpus => jc_cpus c * Z.of_nat (jc_nhosts c)
  | JOB_LIST_RUN, QHosts => Z.of_nat (jc_nhosts c)
  | _, _ => 0
  end.

Definition qcontrib (f : qfield) (q : nat) (c : jcore) : Z :=
  if bool_decide (jc_queue c = Some q) then qweight f c else 0.

(** The sums over the jobs that run on a host: jobs, running, suspended, CPUs,
    memory, storage and exclusive jobs. *)
Inductive hfield : Type := HJobs | HRun | HSusp | HCpus | HMem | HStorage | HExcl.

Definition uses (c : jcore) (h : nat) : bool :=
  bool_decide (jc_list c = JOB_LIST_RUN)
  && existsb (fun o => bool_decide (o = Some h)) (take (jc_nhosts c) (jc_hosts c)).

Definition hweight (f : hfield) (c : jcore) : Z :=
  match f with
  | HJobs => 1
  | HRun => match jc_state c with JOB_RUNNING => 1 | _ => 0 end
  | HSusp => match jc_state c with JOB_SUSPENDED => 1 | _ => 0 end
  | HCpus => jc_cpus c
  | HMem => jc_mem c
  | HStorage => jc_storage c
  | HExcl => b2z (jc_excl c)
  end.

Definition hcontrib (f : hfield) (h : nat) (c : jcore) : Z :=
  if uses c h then hweight f c else 0.

(** ** The invariant *)

Definition pend_state (s : job_state) : Prop := s = JOB_PENDING \/ s = JOB_HELD.
Definition run_state (s : job_state) : Prop := s = JOB_RUNNING \/ s = JOB_SUSPENDED.
Definition done_state (s : job_state) : Prop := s = JOB_DONE \/ s = JOB_EXITED.

(** The plan of a running job: distinct hosts of the daemon. *)
Definition plan_ok (nhosts : nat) (c : jcore) : Prop :=
  exists hs, take (jc_nhosts c) (jc_hosts c) = map Some hs /\ length hs = jc_nhosts c /\
    hs <> [] /\ NoDup hs /\ Forall (fun h => (h < nhosts)%nat) hs.

(** The hosts a job points to, whether it runs there or did. *)
Definition ptrs_ok (nhosts : nat) (c : jcore) : Prop :=
  exists hs, take (jc_nhosts c) (jc_hosts c) = map Some hs /\ length hs = jc_nhosts c /\
    Forall (fun h => (h < nhosts)%nat) hs.

Record core_ok (nq nh : nat) (id : Z) (c : jcore) : Prop := mk_core_ok {
  ok_id : jc_id c = id;
  ok_queue : exists q, jc_queue c = Some q /\ (q < nq)%nat;
  ok_cpus : 0 <= jc_cpus c;
  ok_mem : 0 <= jc_mem c /\ 0 <= jc_storage c;
  ok_slots : 1 <= jc_slots c /\ Z.of_nat (length (jc_hosts c)) = jc_slots c;
  ok_machines : 0 < nentries (jc_machines c) ->
                hash_wf (jc_machines c) /\ jc_slots c = nentries (jc_machines c);
  ok_state : match jc_list c with
             | JOB_LIST_PEND => pend_state (jc_state c) /\ jc_end c = 0
             | JOB_LIST_RUN => run_state (jc_state c) /\ plan_ok nh c /\ jc_end c = 0
             | JOB_LIST_FINISH => done_state (jc_state c) /\ 0 < jc_end c
             end;
  ok_ptrs : ptrs_ok nh c
}.

(** Each list holds the jobs marked with it, once. *)
Definition lists_ok (m : gmap Z jcore) (L : job_list_id -> list Z) : Prop :=
  forall l, NoDup (L l) /\
    forall id, id ∈ L l <-> exists c, m !! id = Some c /\ jc_list c = l.

Definition queue_ok (m : gmap Z jcore) (q : nat) (qq : mbd_queue) : Prop :=
  forall f, qget f qq = mapsum (qcontrib f q) m.

Record host_ok (m : gmap Z jcore) (h : nat) (hh : mbd_host) : Prop := mk_host_ok {
  ho_jobs : h_num_jobs hh = mapsum (hcontrib HJobs h) m;
  ho_run : h_num_run hh = mapsum (hcontrib HRun h) m;
  ho_susp : h_num_susp hh = mapsum (hcontrib HSusp h) m;
  ho_cpus : h_cpus_used hh = mapsum (hcontrib HCpus h) m;
  ho_free : free_cpu hh + h_cpus_used hh = total_cpu hh;
  ho_nonneg : 0 <= free_cpu hh;
  ho_mem : free_mem_mb hh = u64 (total_mem_mb hh - mapsum (hcontrib HMem h) m);
  ho_storage : free_storage_mb hh = u64 (total_storage_mb hh - mapsum (hcontrib HStorage h) m);
  ho_fits : mapsum (hcontrib HMem h) m <= total_mem_mb hh /\
            mapsum (hcontrib HStorage h) m <= total_storage_mb hh;
  ho_excl : exclusive hh = (0 <? mapsum (hcontrib HExcl h) m);
  ho_alone : 0 < mapsum (hcontrib HExcl h) m -> h_num_jobs hh = 1
}.

(** The accounting part of the daemon's state. *)
Record acct : Type := mk_acct {
  a_cores : gmap Z jcore;
  a_pend : list Z;
  a_run : list Z;
  a_finish : list Z;
  a_queues : list mbd_queue;
  a_hosts : list mbd_host
}.

Definition acct_eta (x : acct) : acct :=
  mk_acct (a_cores x) (a_pend x) (a_run x) (a_finish x) (a_queues x) (a_hosts x).
#[export] Instance set_a_cores : Setter a_cores. Proof. setter acct_eta. Defined.
#[export] Instance set_a_pend : Setter a_pend. Proof. setter acct_eta. Defined.
#[export] Instance set_a_run : Setter a_run. Proof. setter acct_eta. Defined.
#[export] Instance set_a_finish : Setter a_finish. Proof. setter acct_eta. Defined.
#[export] Instance set_a_queues : Setter a_queues. Proof. setter acct_eta. Defined.
#[export] Instance set_a_hosts : Setter a_hosts. Proof. setter acct_eta. Defined.

Definition acct_of (w : mbd) : acct :=
  mk_acct (cores w) (pend_jobs_list w) (run_jobs_list w) (finish_jobs_list w)
    (queues w) (hosts w).

Definition a_list (l : job_list_id) (A : acct) : list Z :=
  match l with
  | JOB_LIST_PEND => a_pend A
  | JOB_LIST_RUN => a_run A
  | JOB_LIST_FINISH => a_finish A
  end.

Definition upd_a_list (l : job_list_id) (f : list Z -> list Z) (A : acct) : acct :=
  match l with
  | JOB_LIST_PEND => A <| a_pend ::= f |>
  | JOB_LIST_RUN => A <| a_run ::= f |>
  | JOB_LIST_FINISH => A <| a_finish ::= f |>
  end.

(** The membership table of a queue names hosts of the daemon. *)
Definition queue_hosts_ok (H : list mbd_host) (q : mbd_queue) : Prop :=
  forall name h, q_host_hash q !! name = Some h ->
    exists hh, H !! h = Some hh /\ h_name hh = name.

Record acct_ok (A : acct) : Prop := mk_acct_ok {
  ao_jobs : forall id c, a_cores A !! id = Some c ->
    core_ok (length (a_queues A)) (length (a_hosts A)) id c;
  ao_lists : lists_ok (a_cores A) (fun l => a_list l A);
  ao_queues : forall q qq, a_queues A !! q = Some qq -> queue_ok (a_cores A) q qq;
  ao_hosts : forall h hh, a_hosts A !! h = Some hh -> host_ok (a_cores A) h hh;
  ao_members : forall q qq, a_queues A !! q = Some qq -> queue_hosts_ok (a_hosts A) qq
}.

(** The invariant of the daemon. *)
Definition inv (w : mbd) : Prop := acct_ok (acct_of w).

(** ** Cores under job updates *)

Lemma cores_lookup w id : cores w !! id = core <$> jobs w !! id.
Proof. apply lookup_fmap. Qed.

Lemma cores_lookup_Some w id j : jobs w !! id = Some j -> cores w !! id = Some (core j).
Proof. intros H. by rewrite cores_lookup, H. Qed.

(** An update that leaves the core of jobs alone leaves the accounting alone. *)
Lemma fmap_alter_inert (f : job_data -> job_data) id (m : gmap Z job_data) :
  (forall j, core (f j) = core j) -> core <$> alter f id m = core <$> m.
Proof.
  intros Hf. apply map_eq. intros i. rewrite !lookup_fmap.
  destruct (decide (i = id)) as [->|].
  - rewrite lookup_alter_eq. destruct (m !! id); cbn; by rewrite ?Hf.
  - by rewrite lookup_alter_ne by congruence.
Qed.

Lemma fmap_alter_core (f : job_data -> job_data) id (m : gmap Z job_data) j :
  m !! id = Some j -> core <$> alter f id m = <[id := core (f j)]> (core <$> m).
Proof.
  intros Hj. apply map_eq. intros i. rewrite lookup_fmap.
  destruct (decide (i = id)) as [->|].
  - by rewrite lookup_alter_eq, lookup_insert_eq, Hj.
  - by rewrite lookup_alter_ne, lookup_insert_ne, lookup_fmap by congruence.
Qed.

(** ** Lists *)

Lemma remove_first_in id l : id ∈ l -> exists r, remove_first id l = Some r.
Proof.
  induction l as [|x l IH]; [by intros ?%not_elem_of_nil|]. cbn.
  destruct (Z.eqb_spec x id) as [->|Hne]; [eauto|].
  intros [->|Hin]%elem_of_cons; [done|]. destruct (IH Hin) as [r ->]. eauto.
Qed.

Lemma remove_first_perm id l r : remove_first id l = Some r -> l ≡ₚ id :: r.
Proof.
  revert r. induction l as [|x l IH]; intros r; [done|]. cbn.
  destruct (Z.eqb_spec x id) as [->|]; [by intros [= ->]|].
  destruct (remove_first id l) as [r'|]; [|done]. intros [= <-].
  rewrite (IH r' eq_refl). solve_Permutation.
Qed.

Lemma lists_ok_same m L id c c' :
  lists_ok m L -> m !! id = Some c -> jc_list c' = jc_list c -> lists_ok (<[id := c']> m) L.
Proof.
  intros HL Hc Hl l. destruct (HL l) as [Hnd Hin]. split; [done|]. intros i. rewrite Hin.
  destruct (decide (i = id)) as [->|].
  - rewrite lookup_insert_eq, Hc. split; intros (x & [= <-] & Hx); eexists; split; eauto; congruence.
  - by rewrite lookup_insert_ne by congruence.
Qed.

Lemma lists_ok_move m L L' id c c' from to r :
  lists_ok m L -> m !! id = Some c -> jc_list c = from -> jc_list c' = to -> from <> to ->
  remove_first id (L from) = Some r ->
  (forall l, L' l = if bool_decide (l = from) then r
                    else if bool_decide (l = to) then L to ++ [id] else L l) ->
  lists_ok (<[id := c']> m) L'.
Proof.
  intros HL Hc Hf Ht Hne Hr HL' l. rewrite HL'.
  pose proof (remove_first_perm _ _ _ Hr) as Hp.
  assert (Hother : forall i k, i <> id ->
    (i ∈ L k <-> exists x, <[id := c']> m !! i = Some x /\ jc_list x = k)).
  { intros i k Hi. rewrite lookup_insert_ne by congruence. apply HL. }
  destruct (HL from) as [Hndf Hinf]. rewrite Hp in Hndf.
  apply NoDup_cons in Hndf as [Hnin Hndr].
  case_bool_decide as E1; [subst l|case_bool_decide as E2; [subst l|]].
  - split; [done|]. intros i. destruct (decide (i = id)) as [->|Hi].
    + rewrite lookup_insert_eq. split; [done|]. intros (x & [= <-] & Hx). congruence.
    + rewrite <- Hother by done. rewrite Hp, elem_of_cons. naive_solver.
  - destruct (HL to) as [Hndt Hint]. split.
    + apply NoDup_app. split; [done|]. split; [|apply NoDup_singleton].
      intros i Hi ->%list_elem_of_singleton. apply Hint in Hi as (x & Hx & Hxl). congruence.
    + intros i. rewrite elem_of_app, list_elem_of_singleton.
      destruct (decide (i = id)) as [->|Hi].
      * rewrite lookup_insert_eq. split; [eauto|]. auto.
      * rewrite <- Hother by done. naive_solver.
  - split; [apply HL|]. intros i. destruct (decide (i = id)) as [->|Hi]; [|by apply Hother].
    rewrite lookup_insert_eq. split.
    + intros (x & Hx & Hxl)%HL. congruence.
    + intros (x & [= <-] & Hx). congruence.
Qed.

(** A new job at the end of a list. *)
Lemma lists_ok_new m L L' id c :
  lists_ok m L -> m !! id = None ->
  (forall l, L' l = if bool_decide (l = jc_list c) then L l ++ [id] else L l) ->
  lists_ok (<[id := c]> m) L'.
Proof.
  intros HL Hc HL' l. rewrite HL'. destruct (HL l) as [Hnd Hin].
  assert (Hid : forall k, id ∉ L k). { intros k (x & Hx & _)%HL. congruence. }
  case_bool_decide as E.
  - split.
    + apply NoDup_app. split; [done|]. split; [|apply NoDup_singleton].
      intros i Hi ->%list_elem_of_singleton. by eapply Hid.
    + intros i. rewrite elem_of_app, list_elem_of_singleton, Hin.
      destruct (decide (i = id)) as [->|Hi].
      * rewrite lookup_insert_eq. split; [eauto|]. auto.
      * rewrite lookup_insert_ne by congruence. naive_solver.
  - split; [done|]. intros i. destruct (decide (i = id)) as [->|Hi].
    + rewrite lookup_insert_eq. split; [by intros ?%Hid|]. intros (x & [= <-] & Hx). congruence.
    + rewrite lookup_insert_ne by congruence. apply Hin.
Qed.

(** ** Counters *)

Lemma queue_ok_update m id c c' q qq qq' :
  queue_ok m q qq -> m !! id = Some c ->
  (forall f, qget f qq' = qget f qq - qcontrib f q c + qcontrib f q c') ->
  queue_ok (<[id := c']> m) q qq'.
Proof. intros Hq Hc Hd f. rewrite Hd, (mapsum_update _ _ _ c) by done. by rewrite Hq. Qed.

Lemma queue_ok_new m id c q qq qq' :
  queue_ok m q qq -> m !! id = None ->
  (forall f, qget f qq' = qget f qq + qcontrib f q c) ->
  queue_ok (<[id := c]> m) q qq'.
Proof. intros Hq Hc Hd f. rewrite Hd, mapsum_insert_new by done. rewrite Hq. lia. Qed.

(** How a host changes with a job that changes from [c] to [c']. *)
Record host_delta (h : nat) (c c' : jcore) (hh hh' : mbd_host) : Prop := mk_host_delta {
  hd_jobs : h_num_jobs hh' = h_num_jobs hh - hcontrib HJobs h c + hcontrib HJobs h c';
  hd_run : h_num_run hh' = h_num_run hh - hcontrib HRun h c + hcontrib HRun h c';
  hd_susp : h_num_susp hh' = h_num_susp hh - hcontrib HSusp h c + hcontrib HSusp h c';
  hd_cpus : h_cpus_used hh' = h_cpus_used hh - hcontrib HCpus h c + hcontrib HCpus h c';
  hd_free : free_cpu hh' = free_cpu hh + hcontrib HCpus h c - hcontrib HCpus h c';
  hd_nonneg : 0 <= free_cpu hh';
  hd_mem : free_mem_mb hh' = u64 (free_mem_mb hh + hcontrib HMem h c - hcontrib HMem h c');
  hd_storage : free_storage_mb hh' =
    u64 (free_storage_mb hh + hcontrib HStorage h c - hcontrib HStorage h c');
  hd_total : total_cpu hh' = total_cpu hh /\ total_mem_mb hh' = total_mem_mb hh /\
             total_storage_mb hh' = total_storage_mb hh /\ h_name hh' = h_name hh;
  hd_excl : exclusive hh' =
    if uses c' h && jc_excl c' then true
    else if uses c h && jc_excl c then false else exclusive hh;
  hd_alone : uses c' h = true -> uses c h = false ->
    exclusive hh = false /\ (jc_excl c' = true -> h_num_jobs hh = 0);
  hd_fits : uses c' h = true -> uses c h = false ->
    jc_mem c' <= free_mem_mb hh /\ jc_storage c' <= free_storage_mb hh
}.

(** A job keeps what it asked for. *)
Definition same_request (c c' : jcore) : Prop :=
  jc_excl c' = jc_excl c /\ jc_mem c' = jc_mem c /\ jc_storage c' = jc_storage c.

(** Room for a sum of requests when one job changes. *)
Lemma fits_update (T S x : Z) (u u' : bool) :
  S <= T -> 0 <= x -> (u' = true -> u = false -> x <= u64 (T - S)) ->
  S - (if u then x else 0) + (if u' then x else 0) <= T.
Proof.
  intros HS Hx Hf. destruct u, u'; try lia.
  specialize (Hf eq_refl eq_refl). unfold u64 in Hf.
  pose proof (Z.mod_le (T - S) (2 ^ 64)). lia.
Qed.

Lemma hcontrib_excl_le h c : 0 <= hcontrib HExcl h c <= hcontrib HJobs h c.
Proof. unfold hcontrib. destruct (uses c h); cbn; [|lia]. destruct (jc_excl c); cbn; lia. Qed.

Lemma hsum_excl_le h (m : gmap Z jcore) :
  0 <= mapsum (hcontrib HExcl h) m <= mapsum (hcontrib HJobs h) m.
Proof.
  split; [apply mapsum_nonneg; intros; apply hcontrib_excl_le|].
  assert (H : 0 <= mapsum (fun c => hcontrib HJobs h c + - hcontrib HExcl h c) m).
  { apply mapsum_nonneg. intros i c _. pose proof (hcontrib_excl_le h c). lia. }
  rewrite mapsum_add in H.
  assert (Hneg : mapsum (fun c => - hcontrib HExcl h c) m = - mapsum (hcontrib HExcl h) m).
  { clear H. induction m as [|i x m Hi IH] using map_ind; [by rewrite !mapsum_empty|].
    rewrite !mapsum_insert_new by done. lia. }
  lia.
Qed.

(** The exclusive mark under a change of one job. *)
Lemma excl_update (m : gmap Z jcore) id h c c' (excl : bool) (nj : Z) :
  m !! id = Some c -> jc_excl c' = jc_excl c ->
  excl = (0 <? mapsum (hcontrib HExcl h) m) ->
  nj = mapsum (hcontrib HJobs h) m ->
  (0 < mapsum (hcontrib HExcl h) m -> nj = 1) ->
  (uses c' h = true -> uses c h = false -> excl = false /\ (jc_excl c' = true -> nj = 0)) ->
  (if uses c' h && jc_excl c' then true
   else if uses c h && jc_excl c then false else excl)
  = (0 <? mapsum (hcontrib HExcl h) (<[id := c']> m)) /\
  (0 < mapsum (hcontrib HExcl h) (<[id := c']> m) ->
   nj - hcontrib HJobs h c + hcontrib HJobs h c' = 1).
Proof.
  intros Hc Hx He Hj Ha Hnew. rewrite (mapsum_update _ _ _ c c') by done.
  assert (Hdel : mapsum (hcontrib HExcl h) m = hcontrib HExcl h c + mapsum (hcontrib HExcl h) (delete id m))
    by by apply mapsum_delete.
  assert (Hdelj : mapsum (hcontrib HJobs h) m = hcontrib HJobs h c + mapsum (hcontrib HJobs h) (delete id m))
    by by apply mapsum_delete.
  pose proof (hsum_excl_le h (delete id m)) as Hle.
  set (E := mapsum (hcontrib HExcl h) (delete id m)) in *.
  set (J := mapsum (hcontrib HJobs h) (delete id m)) in *.
  rewrite Hdel in *. clear Hdel. rewrite Hdelj in Hj. clear Hdelj. subst excl nj.
  clearbody E J. unfold hcontrib in *. cbn [hweight] in *. rewrite Hx in *.
  destruct (uses c h), (uses c' h), (jc_excl c); cbn [andb b2z] in *;
    try destruct (Hnew eq_refl eq_refl) as [Hn1 Hn2]; try specialize (Hn2 eq_refl);
    split; try lia; intros; try lia.
Qed.

Lemma host_ok_update m id c c' h hh hh' :
  host_ok m h hh -> m !! id = Some c -> same_request c c' ->
  0 <= jc_mem c /\ 0 <= jc_storage c ->
  host_delta h c c' hh hh' -> host_ok (<[id := c']> m) h hh'.
Proof.
  intros [H1 H2 H3 H4 H5 H6 H7 H8 [F1 F2] H9 H10] Hc (Hx & Hxm & Hxs) [Hm Hst]
    [D1 D2 D3 D4 D5 D6 D7 D8 (D9 & D10 & D11 & _) D12 D13 D14].
  destruct (excl_update m id h c c' (exclusive hh) (h_num_jobs hh) Hc Hx H9 H1 H10 D13) as [Hex Hal].
  split; rewrite ?(mapsum_update _ _ _ c c' Hc) in *.
  - lia.
  - lia.
  - lia.
  - lia.
  - lia.
  - lia.
  - rewrite D7, D10, H7.
    replace (u64 (total_mem_mb hh - mapsum (hcontrib HMem h) m) + hcontrib HMem h c - hcontrib HMem h c')
      with (u64 (total_mem_mb hh - mapsum (hcontrib HMem h) m) + (hcontrib HMem h c - hcontrib HMem h c')) by lia.
    unfold u64. rewrite Zplus_mod_idemp_l. f_equal. lia.
  - rewrite D8, D11, H8.
    replace (u64 (total_storage_mb hh - mapsum (hcontrib HStorage h) m) + hcontrib HStorage h c - hcontrib HStorage h c')
      with (u64 (total_storage_mb hh - mapsum (hcontrib HStorage h) m) + (hcontrib HStorage h c - hcontrib HStorage h c')) by lia.
    unfold u64. rewrite Zplus_mod_idemp_l. f_equal. lia.
  - rewrite D10, D11. unfold hcontrib at 2 3 5 6. cbn [hweight]. rewrite Hxm, Hxs in *.
    rewrite H7, H8 in D14. split; apply fits_update; try done; intros Hu' Hu; by apply D14.
  - by rewrite D12.
  - intros HE. rewrite D1. apply Hal. lia.
Qed.

(** ** Changing one job *)

(** The conditions on queues and hosts when a job changes from [c] to [c']. *)
Definition queues_follow (c c' : jcore) (Q Q' : list mbd_queue) : Prop :=
  length Q' = length Q /\
  forall q qq', Q' !! q = Some qq' -> exists qq, Q !! q = Some qq /\
    q_host_hash qq' = q_host_hash qq /\
    forall f, qget f qq' = qget f qq - qcontrib f q c + qcontrib f q c'.

Definition hosts_follow (c c' : jcore) (H H' : list mbd_host) : Prop :=
  length H' = length H /\
  forall h hh', H' !! h = Some hh' -> exists hh, H !! h = Some hh /\ host_delta h c c' hh hh'.

Lemma members_follow c c' Q Q' H H' q qq' :
  queues_follow c c' Q Q' -> hosts_follow c c' H H' ->
  (forall q qq, Q !! q = Some qq -> queue_hosts_ok H qq) ->
  Q' !! q = Some qq' -> queue_hosts_ok H' qq'.
Proof.
  intros [_ HQ] [Hlen HH] Hm (qq & Hqq & He & _)%HQ name h Hn. rewrite He in Hn.
  destruct (Hm q qq Hqq name h Hn) as (hh & Hhh & Hname).
  apply lookup_lt_Some in Hhh as Hlt. rewrite <- Hlen in Hlt.
  destruct (lookup_lt_is_Some_2 _ _ Hlt) as [hh' Hhh']. exists hh'. split; [done|].
  destruct (HH h hh' Hhh') as (x & Hx & Hd). rewrite Hhh in Hx. injection Hx as <-.
  destruct (hd_total _ _ _ _ _ Hd) as (_ & _ & _ & ->). done.
Qed.

Lemma acct_ok_step A A' id c c' :
  acct_ok A -> a_cores A !! id = Some c -> a_cores A' = <[id := c']> (a_cores A) ->
  same_request c c' ->
  core_ok (length (a_queues A)) (length (a_hosts A)) id c' ->
  lists_ok (a_cores A') (fun l => a_list l A') ->
  queues_follow c c' (a_queues A) (a_queues A') ->
  hosts_follow c c' (a_hosts A) (a_hosts A') ->
  acct_ok A'.
Proof.
  intros [Hj Hl Hq Hh Hm] Hc Hc' Hx Hok HL HQ' HH'.
  split; [|done|..|by intros q qq'; apply (members_follow c c' (a_queues A) _ (a_hosts A))];
    destruct HQ' as [Qlen HQ], HH' as [Hlen HH]; rewrite Hc'.
  - rewrite Qlen, Hlen. intros i x. destruct (decide (i = id)) as [->|].
    + rewrite lookup_insert_eq. by intros [= <-].
    + rewrite lookup_insert_ne by congruence. apply Hj.
  - intros q qq' (qq & Hqq & _ & Hd)%HQ. eapply queue_ok_update; eauto.
  - intros h hh' (hh & Hhh & Hd)%HH. eapply host_ok_update; eauto. apply (ok_mem _ _ _ _ (Hj id c Hc)).
Qed.

(** A job that uses no host before nor after leaves the hosts alone. *)
Lemma host_delta_idle h c c' hh :
  uses c h = false -> uses c' h = false -> 0 <= free_cpu hh ->
  0 <= free_mem_mb hh < 2 ^ 64 -> 0 <= free_storage_mb hh < 2 ^ 64 ->
  host_delta h c c' hh hh.
Proof.
  intros H1 H2 H3 H4 H5. split; unfold hcontrib; rewrite ?H1, ?H2; cbn [andb];
    try lia; try done; rewrite ?Z.add_0_r, ?Z.sub_0_r, ?u64_small; done.
Qed.

Lemma host_ok_ranges m h hh :
  host_ok m h hh ->
  0 <= free_cpu hh /\ 0 <= free_mem_mb hh < 2 ^ 64 /\ 0 <= free_storage_mb hh < 2 ^ 64.
Proof. intros [_ _ _ _ _ H6 -> -> _ _ _]. split; [done|]. split; apply u64_range. Qed.

Lemma hosts_follow_idle A c c' :
  acct_ok A -> (forall h, uses c h = false) -> (forall h, uses c' h = false) ->
  hosts_follow c c' (a_hosts A) (a_hosts A).
Proof.
  intros HA H1 H2. split; [done|]. intros h hh Hh. exists hh. split; [done|].
  destruct (host_ok_ranges _ _ _ (ao_hosts A HA h hh Hh)) as (? & ? & ?).
  by apply host_delta_idle.
Qed.

Lemma uses_not_run c h : jc_list c <> JOB_LIST_RUN -> uses c h = false.
Proof. intros H. unfold uses. by rewrite bool_decide_eq_false_2. Qed.

(** One queue updated, the one the job stays in. *)
Lemma queues_follow_alter c c' Q q f :
  jc_queue c = Some q -> jc_queue c' = Some q ->
  (forall qq, q_host_hash (f qq) = q_host_hash qq) ->
  (forall qq g, qget g (f qq) = qget g qq - qweight g c + qweight g c') ->
  queues_follow c c' Q (alter f q Q).
Proof.
  intros Hc Hc' Hs Hf. split; [by rewrite length_alter|]. intros i qq'. unfold qcontrib.
  rewrite Hc, Hc'. destruct (decide (i = q)) as [->|Hne].
  - rewrite list_lookup_alter_eq. destruct (Q !! q) as [qq|]; [|done]. intros [= <-].
    exists qq. split; [done|]. split; [done|]. intros g. rewrite bool_decide_eq_true_2 by done. apply Hf.
  - rewrite list_lookup_alter_ne by done. intros Hi. exists qq'. split; [done|]. split; [done|]. intros g.
    rewrite bool_decide_eq_false_2 by congruence. lia.
Qed.

Lemma queues_follow_same c c' Q :
  jc_queue c = jc_queue c' -> (forall g, qweight g c = qweight g c') ->
  queues_follow c c' Q Q.
Proof.
  intros Hq Hw. split; [done|]. intros i qq Hi. exists qq. split; [done|]. split; [done|].
  intros g. unfold qcontrib. rewrite Hq, Hw. lia.
Qed.

(** ** The sums over lists *)

(** A sum over the table is a sum over a list that holds every job that counts. *)
Lemma mapsum_list {A} (f : A -> Z) (L : list Z) (m : gmap Z A) (xs : list A) :
  NoDup L -> Forall2 (fun id x => m !! id = Some x) L xs ->
  (forall id x, m !! id = Some x -> id ∉ L -> f x = 0) ->
  mapsum f m = sumZ f xs.
Proof.
  intros Hnd HF. revert m HF. induction Hnd as [|id L Hid Hnd IH] in xs |- *;
    intros m HF Hz; inversion HF as [|? x ? xs' Hx HF']; subst.
  - apply mapsum_zero. intros i x Hi. apply (Hz i x Hi). apply not_elem_of_nil.
  - rewrite (mapsum_delete f m id x Hx). cbn. f_equal. apply IH.
    + clear -HF' Hid. induction HF' as [|i y L xs Hi HF IH]; [constructor|].
      apply not_elem_of_cons in Hid as [Hne Hid]. constructor; [|by apply IH].
      by rewrite lookup_delete_ne.
    + intros i y [Hne Hi]%lookup_delete_Some Hnin. apply (Hz i y Hi).
      rewrite not_elem_of_cons. auto.
Qed.
