(* ===== verification/MbdFrame.v ===== *)
(** * What the shared operations of mbd do to the accounting

    One equation per operation of [MbdBase]: which part of the accounting it
    changes, and that it leaves the rest alone. *)

From S2P Require Import Prelude CString LlHash Dependency LogFormat MbdTypes MbdBase MbdInv.

Open Scope Z_scope.

Implicit Types (w : mbd) (j : job_data) (id : Z).

(** Compute with the accounting record. *)
Ltac acct_simpl :=
  cbv beta iota delta [upd set_a_cores set_a_pend set_a_run set_a_finish set_a_queues
    set_a_hosts a_cores a_pend a_run a_finish a_queues a_hosts acct_of upd_a_list a_list].

(** ** Operations outside the accounting *)

Lemma acct_upd_job id f g w :
  (forall j, core (f j) = g (core j)) ->
  acct_of (upd_job id f w) = (acct_of w) <| a_cores ::= alter g id |>.
Proof.
  intros Hfg. acct_simpl. unfold upd_job, cores. cbn. f_equal. apply map_eq. intros i.
  destruct (decide (i = id)) as [->|].
  - rewrite lookup_fmap, !lookup_alter_eq, lookup_fmap. destruct (jobs w !! id); cbn; by rewrite ?Hfg.
  - by rewrite lookup_fmap, !lookup_alter_ne, lookup_fmap by congruence.
Qed.

Lemma acct_upd_job_inert id f w :
  (forall j, core (f j) = core j) -> acct_of (upd_job id f w) = acct_of w.
Proof.
  intros Hf. unfold acct_of, upd_job, cores. cbn. by rewrite fmap_alter_inert.
Qed.

Lemma acct_job_deps_refcnt j d w : acct_of (job_deps_refcnt j d w) = acct_of w.
Proof.
  unfold job_deps_refcnt. revert w. induction (deps j) as [|x ds IH]; intros w; cbn; [done|].
  rewrite IH. destruct (dep_is_call x); [|done]. by apply acct_upd_job_inert.
Qed.

Lemma acct_array_finished j w : acct_of (job_array_element_finished j w) = acct_of w.
Proof.
  unfold job_array_element_finished. destruct (array_id j =? 0); [done|].
  destruct (job_find w (array_id j)); [|done]. by apply acct_upd_job_inert.
Qed.

Lemma acct_pool_add n d w : acct_of (pool_add n d w) = acct_of w.
Proof. unfold pool_add. by destruct (pool_name_hash w !! n). Qed.

Lemma acct_token_release j w : acct_of (token_pool_release j w) = acct_of w.
Proof.
  unfold token_pool_release. revert w. induction (tokens (rsrc j)) as [|t ts IH]; intros w; cbn; [done|].
  by rewrite IH, acct_pool_add.
Qed.

Lemma acct_token_alloc j w : acct_of (token_alloc j w) = acct_of w.
Proof.
  unfold token_alloc. revert w. induction (tokens (rsrc j)) as [|t ts IH]; intros w; cbn; [done|].
  by rewrite IH, acct_pool_add.
Qed.

Lemma acct_enqueue e c op st b w : acct_of (enqueue_payload e c op st b w).1 = acct_of w.
Proof. unfold enqueue_payload. by destruct (enq_ok e (io w) c). Qed.

Lemma acct_enqueue_header e c op st w : acct_of (enqueue_header e c op st w).1 = acct_of w.
Proof. apply acct_enqueue. Qed.

Lemma acct_sign e w : acct_of (auth_sign_header e w).1 = acct_of w.
Proof. done. Qed.

Lemma acct_log_append ev w w' : log_append ev w = Ok w' -> acct_of w' = acct_of w.
Proof. unfold log_append. intros. by inv_res. Qed.

(** ** Queues *)

Lemma acct_upd_queue q f w : acct_of (upd_queue q f w) = (acct_of w) <| a_queues ::= alter f q |>.
Proof. done. Qed.

Lemma upd_job_queue_Ok j f w w' :
  upd_job_queue j f w = Ok w' ->
  exists q, queue j = Some q /\ (q < length (queues w))%nat /\ w' = upd_queue q f w.
Proof. unfold upd_job_queue. intros. inv_res. eauto using lookup_lt_Some. Qed.

Lemma upd_job_queue_total j f w q :
  queue j = Some q -> (q < length (queues w))%nat -> upd_job_queue j f w = Ok (upd_queue q f w).
Proof.
  intros Hq Hlt. unfold upd_job_queue, nth_res. rewrite Hq. cbn.
  destruct (lookup_lt_is_Some_2 _ _ Hlt) as [x ->]. done.
Qed.

(** ** Lists *)

Lemma job_list_acct l w : a_list l (acct_of w) = job_list l w.
Proof. by destruct l. Qed.

Lemma acct_set_list id l w :
  acct_of (job_set_list id l w) =
  (upd_a_list l (fun xs => xs ++ [id]) (acct_of w)) <| a_cores ::= alter (fun c => c <| jc_list := l |>) id |>.
Proof.
  unfold job_set_list. rewrite acct_upd_job with (g := fun c => c <| jc_list := l |>) by done.
  by destruct l.
Qed.

Lemma job_move_list_Ok id from to w w' :
  job_move_list id from to w = Ok w' ->
  exists r, remove_first id (job_list from w) = Some r /\
    w' = job_set_list id to (upd_job_list from (fun _ => r) w).
Proof.
  unfold job_move_list. destruct (remove_first id (job_list from w)); [|done].
  intros [= <-]. eauto.
Qed.

Lemma acct_upd_job_list l f w : acct_of (upd_job_list l f w) = upd_a_list l f (acct_of w).
Proof. by destruct l. Qed.

Lemma job_move_list_acct id from to w r :
  remove_first id (a_list from (acct_of w)) = Some r ->
  exists w', job_move_list id from to w = Ok w' /\
    acct_of w' = (upd_a_list to (fun xs => xs ++ [id]) (upd_a_list from (fun _ => r) (acct_of w)))
                   <| a_cores ::= alter (fun c => c <| jc_list := to |>) id |>.
Proof.
  rewrite job_list_acct. intros Hr. unfold job_move_list. rewrite Hr. eexists. split; [done|].
  by rewrite acct_set_list, acct_upd_job_list.
Qed.

(** ** Hosts *)

(** The loop over distinct hosts updates each of them once. *)
Lemma each_host_spec f hs w w' :
  NoDup hs -> each_host f hs w = Ok w' ->
  w' = w <| hosts := hosts w' |> /\ length (hosts w') = length (hosts w) /\
  forall h hh', hosts w' !! h = Some hh' -> exists hh, hosts w !! h = Some hh /\
    (if bool_decide (h ∈ hs) then f hh = Ok hh' else hh' = hh).
Proof.
  unfold each_host. intros Hnd. revert w. induction Hnd as [|x hs Hx Hnd IH]; intros w Hw.
  - cbn in Hw. injection Hw as <-. split; [by destruct w|]. split; [done|]. intros h hh Hh.
    exists hh. split; [done|]. by rewrite bool_decide_eq_false_2 by apply not_elem_of_nil.
  - cbn in Hw. inv_res. rename r0 into hx. apply IH in Hw as (He & Hlen & Hs). cbn in Hlen.
    split; [rewrite He at 1; by destruct w|]. split; [by rewrite Hlen, length_insert|].
    intros h hh' Hh. destruct (Hs h hh' Hh) as (hh & Hhh & Hf). cbn in Hhh.
    apply list_lookup_insert_Some in Hhh as [(-> & -> & Hlt)|[Hne Hhh]].
    + rewrite bool_decide_eq_false_2 in Hf by done. subst hh'.
      eexists. split; [done|]. rewrite bool_decide_eq_true_2 by left. done.
    + exists hh. split; [done|]. rewrite (bool_decide_ext _ (h ∈ hs)); [done|].
      rewrite elem_of_cons. naive_solver.
Qed.

Lemma each_host_wp f hs w E :
  NoDup hs -> Forall (fun h => (h < length (hosts w))%nat) hs ->
  (forall hh, wp (f hh) (fun _ => True) E) ->
  wp (each_host f hs w) (fun _ => True) E.
Proof.
  unfold each_host. intros Hnd HF Hf. revert w HF.
  induction Hnd as [|x hs Hx Hnd IH]; intros w HF; [done|].
  apply Forall_cons in HF as [Hlt HF]. cbn.
  destruct (lookup_lt_is_Some_2 _ _ Hlt) as [hx Hhx]. unfold nth_res at 1. rewrite Hhx. cbn.
  do 2 apply wp_bind. eapply wp_mono; [apply Hf| |done]. intros hx' _. apply IH.
  eapply Forall_impl; [exact HF|]. cbn. intros. by rewrite length_insert.
Qed.

(** ** Plans *)

Lemma res_map_nth {A B} (f : A -> res B) l ys :
  Forall2 (fun x y => f x = Ok y) l ys -> res_map f l = Ok ys.
Proof. induction 1 as [|x y l ys Hf _ IH]; [done|]. cbn. by rewrite Hf, IH. Qed.

Lemma res_map_Ok {A B} (f : A -> res B) l ys :
  res_map f l = Ok ys -> Forall2 (fun x y => f x = Ok y) l ys.
Proof.
  revert ys. induction l as [|x l IH]; intros ys H; cbn in H; inv_res; constructor; auto.
Qed.

(** The pointers of a plan. *)
Lemma run_host_ptrs_plan j hs :
  take (run_nhosts j) (run_hosts j) = map Some hs -> length hs = run_nhosts j ->
  run_host_ptrs j = Ok hs.
Proof.
  intros Ht Hl. unfold run_host_ptrs. apply res_map_nth. rewrite <- Hl.
  apply Forall2_same_length_lookup. split; [by rewrite length_seq|].
  intros i x y Hx Hy. apply lookup_seq in Hx as [-> Hi]. cbn.
  unfold run_host, nth_res.
  assert (run_hosts j !! i = Some (Some y)) as ->; [|done].
  rewrite <- (lookup_take_lt _ (run_nhosts j)) by lia. rewrite Ht.
  by rewrite list_lookup_fmap, Hy.
Qed.

Lemma uses_plan c h hs :
  jc_list c = JOB_LIST_RUN -> take (jc_nhosts c) (jc_hosts c) = map Some hs ->
  uses c h = bool_decide (h ∈ hs).
Proof.
  intros Hl Ht. unfold uses. rewrite bool_decide_eq_true_2 by done. cbn. rewrite Ht.
  apply eq_true_iff_eq. rewrite existsb_exists, bool_decide_eq_true. split.
  - intros (o & (y & <- & Hy)%in_map_iff & Ho). apply bool_decide_eq_true in Ho.
    injection Ho as <-. by apply list_elem_of_In.
  - intros Hin. exists (Some h). split; [|by apply bool_decide_eq_true_2].
    apply in_map_iff. exists h. split; [done|]. by apply list_elem_of_In.
Qed.
