(* ===== verification/MbdCheck.v ===== *)
(** * The daemon's cross check agrees with the invariant

    [mbd_assert_counters] recounts queues and hosts from the job lists and aborts
    on a difference: under the invariant it always passes. *)

From S2P Require Import Prelude CString LlHash Dependency LogFormat MbdTypes MbdBase MbdInv MbdFrame.

Open Scope Z_scope.

Implicit Types (w : mbd) (j : job_data) (id : Z).

(** The jobs of a list, as records and as cores. *)
Lemma listed_jobs_ok w l :
  inv w -> exists js, listed_jobs w (job_list l w) = Ok js /\
    Forall2 (fun id x => cores w !! id = Some x) (job_list l w) (map core js) /\
    Forall (fun j => list_id j = l) js.
Proof.
  intros HI. destruct (ao_lists _ HI l) as [_ Hin].
  rewrite job_list_acct in Hin.
  assert (H : forall L, (forall id, id ∈ L -> id ∈ job_list l w) ->
    exists js, listed_jobs w L = Ok js /\
      Forall2 (fun id x => cores w !! id = Some x) L (map core js) /\
      Forall (fun j => list_id j = l) js).
  { induction L as [|id L IH]; intros HL; [exists []; repeat constructor|].
    destruct IH as (js & Hjs & HF & Hl); [intros; apply HL; by right|].
    destruct (proj1 (Hin id)) as (c & Hc & Hcl); [apply HL; left|].
    cbn in Hc. rewrite cores_lookup in Hc. destruct (jobs w !! id) as [j|] eqn:Ej; [|done].
    injection Hc as <-. exists (j :: js). unfold listed_jobs in *. cbn. rewrite Ej. cbn.
    rewrite Hjs. split; [done|]. split; constructor; auto. by apply cores_lookup_Some. }
  by apply H.
Qed.

Lemma job_state_of_list w id j :
  inv w -> jobs w !! id = Some j ->
  match list_id j with
  | JOB_LIST_PEND => pend_state (state j)
  | JOB_LIST_RUN => run_state (state j)
  | JOB_LIST_FINISH => done_state (state j)
  end.
Proof.
  intros HI Hj. pose proof (ok_state _ _ _ _ (ao_jobs _ HI id (core j) (cores_lookup_Some _ _ _ Hj))) as H.
  cbn in H. destruct (list_id j); tauto.
Qed.

(** A list of jobs whose states are those of the list. *)
Definition states_ok (P : job_state -> Prop) (js : list job_data) : Prop :=
  Forall (fun j => P (state j)) js.

Lemma listed_states w l js :
  inv w -> Forall2 (fun id x => cores w !! id = Some x) (job_list l w) (map core js) ->
  Forall (fun j => list_id j = l) js ->
  states_ok (match l with JOB_LIST_PEND => pend_state | JOB_LIST_RUN => run_state
             | JOB_LIST_FINISH => done_state end) js.
Proof.
  intros HI HF Hl. unfold states_ok. apply Forall_lookup. intros i j Hj.
  assert (Hc : map core js !! i = Some (core j)) by by rewrite list_lookup_fmap, Hj.
  destruct (Forall2_lookup_r _ _ _ _ _ HF Hc) as (id & _ & Hid).
  pose proof (ok_state _ _ _ _ (ao_jobs _ HI id _ Hid)) as H. cbn in H.
  pose proof (proj1 (Forall_lookup _ _) Hl i j Hj) as Hlj. cbn in Hlj. rewrite Hlj in H.
  destruct l; tauto.
Qed.

(** ** Hosts *)

Lemma count_host_sum h js c :
  states_ok run_state js -> Forall (fun j => list_id j = JOB_LIST_RUN) js ->
  res_fold (count_host_job h) js c =
  Ok (mk_host_count
        (hc_jobs c + sumZ (hcontrib HJobs h) (map core js))
        (hc_run c + sumZ (hcontrib HRun h) (map core js))
        (hc_susp c + sumZ (hcontrib HSusp h) (map core js))
        (hc_cpus c + sumZ (hcontrib HCpus h) (map core js))).
Proof.
  intros Hs Hl. revert c. induction js as [|j js IH]; intros c.
  - cbn. rewrite !Z.add_0_r. by destruct c.
  - apply Forall_cons in Hs as [Hj Hs]. apply Forall_cons in Hl as [Hlj Hl]. cbn [res_fold map sumZ].
    assert (Hu : uses (core j) h = job_uses_host j h).
    { unfold uses, job_uses_host. cbn. by rewrite bool_decide_eq_true_2. }
    assert (Hstep : count_host_job h c j = Ok (mk_host_count
        (hc_jobs c + hcontrib HJobs h (core j)) (hc_run c + hcontrib HRun h (core j))
        (hc_susp c + hcontrib HSusp h (core j)) (hc_cpus c + hcontrib HCpus h (core j)))).
    { unfold count_host_job, hcontrib. rewrite Hu. destruct (job_uses_host j h); cbn.
      - destruct Hj as [-> | ->]; do 2 f_equal; lia.
      - rewrite !Z.add_0_r. by destruct c. }
    rewrite Hstep. cbn [res_bind]. rewrite (IH Hs Hl). cbn. do 2 f_equal; lia.
Qed.

Lemma assert_host_ok m L js h hh :
  NoDup L -> Forall2 (fun id x => m !! id = Some x) L (map core js) ->
  (forall id c, m !! id = Some c -> id ∉ L -> jc_list c <> JOB_LIST_RUN) ->
  states_ok run_state js -> Forall (fun j => list_id j = JOB_LIST_RUN) js ->
  host_ok m h hh -> assert_host js h hh = Ok tt.
Proof.
  intros Hnd HF Hout Hs Hl [H1 H2 H3 H4 _ H6 _ _ _ _]. unfold assert_host.
  rewrite (proj2 (Z.leb_le _ _) H6). cbn [c_assert guard_or res_bind].
  rewrite count_host_sum by done. cbn [res_bind hc_jobs hc_run hc_susp hc_cpus].
  assert (Hsum : forall f, mapsum (hcontrib f h) m = sumZ (hcontrib f h) (map core js)).
  { intros f. apply mapsum_list with (L := L); [done|done|]. intros id c Hc Hnin.
    unfold hcontrib. rewrite uses_not_run; [done|]. by eapply Hout. }
  rewrite H1, H2, H3, H4, !Hsum, !Z.add_0_l, !Z.eqb_refl. done.
Qed.

(** ** Queues *)

Definition qsum (f : qfield) (q : nat) (js : list job_data) : Z := sumZ (qcontrib f q) (map core js).

Lemma count_pend_sum q js c :
  states_ok pend_state js -> Forall (fun j => list_id j = JOB_LIST_PEND) js ->
  res_fold (count_queue_pend q) js c =
  Ok (mk_queue_count (qc_jobs c + qsum QJobs q js) (qc_pend c + qsum QPend q js)
        (qc_run c + qsum QRun q js) (qc_susp c + qsum QSusp q js) (qc_held c + qsum QHeld q js)
        (qc_cpus c + qsum QCpus q js) (qc_hosts c + qsum QHosts q js)).
Proof.
  unfold qsum. intros Hs Hl. revert c. induction js as [|j js IH]; intros c.
  - cbn. rewrite !Z.add_0_r. by destruct c.
  - apply Forall_cons in Hs as [Hj Hs]. apply Forall_cons in Hl as [Hlj Hl]. cbn [res_fold map sumZ].
    assert (Hstep : count_queue_pend q c j = Ok (mk_queue_count
        (qc_jobs c + qcontrib QJobs q (core j)) (qc_pend c + qcontrib QPend q (core j))
        (qc_run c + qcontrib QRun q (core j)) (qc_susp c + qcontrib QSusp q (core j))
        (qc_held c + qcontrib QHeld q (core j)) (qc_cpus c + qcontrib QCpus q (core j))
        (qc_hosts c + qcontrib QHosts q (core j)))).
    { unfold count_queue_pend, qcontrib, qweight. cbn. rewrite Hlj.
      destruct (bool_decide (queue j = Some q)); cbn.
      - destruct Hj as [-> | ->]; do 2 f_equal; lia.
      - rewrite !Z.add_0_r. by destruct c. }
    rewrite Hstep. cbn [res_bind]. rewrite (IH Hs Hl). cbn. do 2 f_equal; lia.
Qed.

Lemma count_run_sum q js c :
  states_ok run_state js -> Forall (fun j => list_id j = JOB_LIST_RUN) js ->
  res_fold (count_queue_run q) js c =
  Ok (mk_queue_count (qc_jobs c + qsum QJobs q js) (qc_pend c + qsum QPend q js)
        (qc_run c + qsum QRun q js) (qc_susp c + qsum QSusp q js) (qc_held c + qsum QHeld q js)
        (qc_cpus c + qsum QCpus q js) (qc_hosts c + qsum QHosts q js)).
Proof.
  unfold qsum. intros Hs Hl. revert c. induction js as [|j js IH]; intros c.
  - cbn. rewrite !Z.add_0_r. by destruct c.
  - apply Forall_cons in Hs as [Hj Hs]. apply Forall_cons in Hl as [Hlj Hl]. cbn [res_fold map sumZ].
    assert (Hstep : count_queue_run q c j = Ok (mk_queue_count
        (qc_jobs c + qcontrib QJobs q (core j)) (qc_pend c + qcontrib QPend q (core j))
        (qc_run c + qcontrib QRun q (core j)) (qc_susp c + qcontrib QSusp q (core j))
        (qc_held c + qcontrib QHeld q (core j)) (qc_cpus c + qcontrib QCpus q (core j))
        (qc_hosts c + qcontrib QHosts q (core j)))).
    { unfold count_queue_run, qcontrib, qweight. cbn. rewrite Hlj.
      destruct (bool_decide (queue j = Some q)); cbn.
      - destruct Hj as [-> | ->]; do 2 f_equal; lia.
      - rewrite !Z.add_0_r. by destruct c. }
    rewrite Hstep. cbn [res_bind]. rewrite (IH Hs Hl). cbn. do 2 f_equal; lia.
Qed.

Lemma each_indexed_ok {A} (f : nat -> A -> res unit) l i :
  (forall k x, l !! k = Some x -> f (i + k)%nat x = Ok tt) -> each_indexed f i l = Ok tt.
Proof.
  revert i. induction l as [|x l IH]; intros i H; [done|]. cbn.
  rewrite <- (Nat.add_0_r i) at 1. rewrite (H 0%nat x eq_refl). cbn. apply IH.
  intros k y Hk. rewrite Nat.add_succ_l, <- Nat.add_succ_r. by apply H.
Qed.

(** The sum of a contribution over the table, by the two lists that count. *)
Lemma mapsum_pend_run w f q pend run :
  inv w ->
  Forall2 (fun id x => cores w !! id = Some x) (pend_jobs_list w) (map core pend) ->
  Forall2 (fun id x => cores w !! id = Some x) (run_jobs_list w) (map core run) ->
  mapsum (qcontrib f q) (cores w) = qsum f q pend + qsum f q run.
Proof.
  intros HI HP HR. unfold qsum. rewrite <- sumZ_app.
  destruct (ao_lists _ HI JOB_LIST_PEND) as [Np Ip]. destruct (ao_lists _ HI JOB_LIST_RUN) as [Nr Ir].
  cbn in Np, Ip, Nr, Ir.
  apply mapsum_list with (L := pend_jobs_list w ++ run_jobs_list w).
  - apply NoDup_app. split; [done|]. split; [|done].
    intros id (c & Hc & Hl)%Ip (c' & Hc' & Hl')%Ir. congruence.
  - by apply Forall2_app.
  - intros id c Hc Hnin. apply not_elem_of_app in Hnin as [Hn1 Hn2].
    unfold qcontrib, qweight. destruct (jc_list c) eqn:El.
    + exfalso. apply Hn1, Ip. eauto.
    + exfalso. apply Hn2, Ir. eauto.
    + by destruct (bool_decide _).
Qed.

(** The cross check passes under the invariant. *)
Lemma assert_counters_ok w : inv w -> mbd_assert_counters w = Ok tt.
Proof.
  intros HI. unfold mbd_assert_counters. destruct (assert_counters w); [|done]. cbn [negb].
  destruct (listed_jobs_ok w JOB_LIST_RUN HI) as (run & Hrun & HR & HRl).
  destruct (listed_jobs_ok w JOB_LIST_PEND HI) as (pend & Hpend & HP & HPl).
  pose proof (listed_states _ _ _ HI HR HRl) as HRs.
  pose proof (listed_states _ _ _ HI HP HPl) as HPs.
  cbn [job_list] in *. rewrite Hrun, Hpend. cbn [res_bind].
  destruct (ao_lists _ HI JOB_LIST_RUN) as [Nr Ir]. cbn in Nr, Ir.
  rewrite each_indexed_ok; cbn [res_bind].
  - apply each_indexed_ok. intros q qq Hq. cbn [Nat.add].
    unfold assert_queue. rewrite count_pend_sum by done. cbn [res_bind].
    rewrite count_run_sum by done. cbn [res_bind qc_jobs qc_pend qc_run qc_susp qc_held qc_cpus qc_hosts].
    pose proof (ao_queues _ HI q qq Hq) as Hok.
    assert (Hf : forall f, qget f qq = qsum f q pend + qsum f q run).
    { intros f. rewrite (Hok f). by apply mapsum_pend_run. }
    rewrite (Hf QJobs : q_num_jobs qq = _), (Hf QPend : q_num_pend qq = _),
      (Hf QRun : q_num_run qq = _), (Hf QSusp : q_num_susp qq = _),
      (Hf QHeld : q_num_held qq = _), (Hf QCpus : q_cpus_used qq = _),
      (Hf QHosts : q_hosts_used qq = _).
    by rewrite !Z.add_0_l, !Z.eqb_refl.
  - intros h hh Hh. cbn [Nat.add]. eapply (assert_host_ok (cores w)); eauto.
    + intros id c Hc Hnin Hl. apply Hnin, Ir. eauto.
    + by apply (ao_hosts _ HI).
Qed.
