(* ===== verification/MbdSafe.v ===== *)
(** * The job handlers keep the accounting and do not end the daemon

    For every handler of [MbdJob]: under the invariant it returns, and the state
    it returns satisfies the invariant again. *)

From S2P Require Import Prelude CString LlHash Dependency LogFormat MbdTypes MbdBase MbdJob MbdInv MbdFrame MbdCheck.

Open Scope Z_scope.

Implicit Types (w : mbd) (j : job_data) (id : Z).

(** ** Logging *)

Definition logged (ev : log_event) (w : mbd) : mbd := w <| manifest ::= fun l => l ++ [ev] |>.

Lemma log_append_ok ev w : 0 < event_time ev -> log_append ev w = Ok (logged ev w).
Proof. intros Ht. unfold log_append. by rewrite log_write_text. Qed.

Lemma acct_logged ev w : acct_of (logged ev w) = acct_of w.
Proof. done. Qed.

(** ** Single jobs under the invariant *)

Lemma inv_job w id j :
  inv w -> jobs w !! id = Some j -> core_ok (length (queues w)) (length (hosts w)) id (core j).
Proof. intros HI Hj. apply (ao_jobs _ HI). by apply cores_lookup_Some. Qed.

Lemma inv_job_id w id j : inv w -> jobs w !! id = Some j -> job_id j = id.
Proof. intros HI Hj. apply (ok_id _ _ _ _ (inv_job w id j HI Hj)). Qed.

Lemma inv_job_queue w id j :
  inv w -> jobs w !! id = Some j -> exists q, queue j = Some q /\ (q < length (queues w))%nat.
Proof. intros HI Hj. apply (ok_queue _ _ _ _ (inv_job w id j HI Hj)). Qed.

Lemma inv_listed w id j :
  inv w -> jobs w !! id = Some j -> id ∈ job_list (list_id j) w.
Proof.
  intros HI Hj. rewrite <- job_list_acct. apply (ao_lists _ HI).
  exists (core j). split; [by apply cores_lookup_Some|done].
Qed.

Lemma inv_run_plan w id j :
  inv w -> jobs w !! id = Some j -> list_id j = JOB_LIST_RUN ->
  exists hs, run_host_ptrs j = Ok hs /\ hs <> [] /\ NoDup hs /\
    Forall (fun h => (h < length (hosts w))%nat) hs /\
    (forall h, uses (core j) h = bool_decide (h ∈ hs)) /\
    take (run_nhosts j) (run_hosts j) = map Some hs /\ length hs = run_nhosts j.
Proof.
  intros HI Hj Hl. pose proof (ok_state _ _ _ _ (inv_job w id j HI Hj)) as H. cbn in H.
  rewrite Hl in H. destruct H as (_ & (hs & Ht & Hlen & Hne & Hnd & HF) & _).
  exists hs. split; [by apply run_host_ptrs_plan|]. repeat (split; [done|]).
  split; [|done]. intros h. by apply uses_plan.
Qed.

(** ** What a handler keeps *)

(** A finished job stays as it is. *)
Definition fin_kept (w w' : mbd) : Prop :=
  forall i c, cores w !! i = Some c -> jc_list c = JOB_LIST_FINISH -> cores w' !! i = Some c.

(** The promise of every handler: the accounting holds again, and the finished
    jobs are untouched. *)
Definition kept (w w' : mbd) : Prop := inv w' /\ fin_kept w w'.

Lemma fin_kept_same w w' : cores w' = cores w -> fin_kept w w'.
Proof. intros H i c Hc _. by rewrite H. Qed.

Lemma fin_kept_insert w w' id j c' :
  jobs w !! id = Some j -> list_id j <> JOB_LIST_FINISH -> cores w' = <[id := c']> (cores w) ->
  fin_kept w w'.
Proof.
  intros Hj Hl H i c Hc Hf. rewrite H. destruct (decide (i = id)) as [->|].
  - rewrite (cores_lookup_Some _ _ _ Hj) in Hc. injection Hc as <-. done.
  - by rewrite lookup_insert_ne.
Qed.

Lemma fin_kept_trans w1 w2 w3 : fin_kept w1 w2 -> fin_kept w2 w3 -> fin_kept w1 w3.
Proof. intros H1 H2 i c Hc Hf. apply H2; [by apply H1|done]. Qed.

Lemma kept_trans w1 w2 w3 : kept w1 w2 -> kept w2 w3 -> kept w1 w3.
Proof. intros [_ H1] [H2 H3]. split; [done|by eapply fin_kept_trans]. Qed.

Lemma kept_same w w' : inv w -> acct_of w' = acct_of w -> kept w w'.
Proof.
  intros HI Ha. split; [red; by rewrite Ha|]. apply fin_kept_same.
  change (a_cores (acct_of w') = a_cores (acct_of w)). by rewrite Ha.
Qed.

(** ** Output *)

(** Output changes the message queue and the attempt counter only. *)
Definition with_io (n : nat) (out : list msg) (w : mbd) : mbd :=
  w <| io := n |> <| outbox := out |>.

Lemma enqueue_io e c op st b w :
  exists n out, (enqueue_payload e c op st b w).1 = with_io n out w.
Proof.
  unfold enqueue_payload. exists (S (io w)). destruct (enq_ok e (io w) c); cbn.
  - by eexists.
  - exists (outbox w). by destruct w.
Qed.

Lemma send_ack_io e c op id o w : exists n out, (send_ack e c op id o w).1 = with_io n out w.
Proof.
  unfold send_ack, auth_sign_header. destruct (sign_ok e (io w)); cbn [negb].
  - destruct (enqueue_io e c op MBD_OK (BodyAck (mk_wire_job_ack id o)) (w <| io ::= S |>))
      as (n & out & H). exists n, out. exact H.
  - exists (S (io w)), (outbox w). by destruct w.
Qed.

(** Split the result of an output step into its state and its status. *)
Ltac io_step t :=
  let w1 := fresh "w" in let ok := fresh "ok" in let Es := fresh "Es" in
  let n' := fresh "n'" in let out := fresh "out" in let Hio := fresh "Hio" in
  destruct t as [w1 ok] eqn:Es;
  match type of Es with
  | send_ack ?e ?c ?op ?id ?o ?w = _ => destruct (send_ack_io e c op id o w) as (n' & out & Hio)
  | enqueue_payload ?e ?c ?op ?st ?b ?w = _ => destruct (enqueue_io e c op st b w) as (n' & out & Hio)
  end;
  rewrite Es in Hio; cbn [fst] in Hio; subst w1; clear Es.

Lemma inv_with_io n out w : inv w -> inv (with_io n out w).
Proof. done. Qed.

Lemma token_release_pools j w : exists p, token_pool_release j w = w <| pools := p |>.
Proof.
  unfold token_pool_release. revert w. induction (tokens (rsrc j)) as [|t ts IH]; intros w; cbn.
  - exists (pools w). by destruct w.
  - destruct (IH (pool_add (tok_name t) (tok_count t) w)) as [p ->]. exists p.
    unfold pool_add. by destruct (pool_name_hash w !! tok_name t).
Qed.

(** ** Leaving the run list: what finishing, rejecting and losing a job share *)

(** The last step of the release changes the GPU table only. *)
Lemma release_gpus j h h' :
  (if 0 <? num_gpus (rsrc j)
   then let* g := gpu_ids_mark_free (num_gpus (rsrc j)) (h_gpu h) in Ok (h <| h_gpu := g |>)
   else Ok h) = Ok h' -> exists g, h' = h <| h_gpu := g |>.
Proof. intros H. destruct (0 <? _); inv_res; [eauto|]. exists (h_gpu h'). by destruct h'. Qed.

Lemma host_release_delta j h hh hh' c' :
  list_id j = JOB_LIST_RUN -> run_state (state j) ->
  0 <= num_cpus (rsrc j) -> 0 <= free_cpu hh ->
  uses (core j) h = true -> uses c' h = false ->
  host_release j hh = Ok hh' -> host_delta h (core j) c' hh hh'.
Proof.
  intros Hl Hs Hc Hf Hu Hu' Hr.
  unfold host_release in Hr. apply release_gpus in Hr as [g ->].
  destruct Hs as [Hs|Hs]; unfold state_is; rewrite Hs; eval_decide; cbn;
    (destruct (is_exclusive j) eqn:Ex; split; unfold hcontrib; rewrite ?Hu, ?Hu'; cbn;
     rewrite ?Hs, ?Ex; cbn; try lia; try done; by rewrite ?Z.sub_0_r).
Qed.

Lemma host_release_wp j hh : wp (host_release j hh) (fun _ => True) (0 < num_gpus (rsrc j)).
Proof.
  unfold host_release. destruct (Z.ltb_spec 0 (num_gpus (rsrc j))); [|done].
  by apply wp_bind; destruct (gpu_ids_mark_free _ _).
Qed.

Lemma reset_host_resources_wp w id j :
  inv w -> jobs w !! id = Some j -> list_id j = JOB_LIST_RUN ->
  wp (reset_host_resources j w) (fun w' => exists H', w' = w <| hosts := H' |> /\
    forall c', (forall h, uses c' h = false) -> hosts_follow (core j) c' (hosts w) H')
    (0 < num_gpus (rsrc j)).
Proof.
  intros HI Hj Hl. destruct (inv_run_plan w id j HI Hj Hl) as (hs & Hp & _ & Hnd & HF & Hu & _).
  pose proof (inv_job w id j HI Hj) as Hok. unfold reset_host_resources. rewrite Hp. cbn [res_bind].
  destruct (each_host (host_release j) hs w) as [w'|c] eqn:Hw'; cbn.
  - destruct (each_host_spec _ _ _ _ Hnd Hw') as (He & Hlen & Hs).
    exists (hosts w'). split; [done|].
    intros c' Hc'. split; [done|]. intros h hh' Hh'. destruct (Hs h hh' Hh') as (hh & Hhh & Hrel).
    exists hh. split; [done|].
    destruct (host_ok_ranges _ _ _ (ao_hosts _ HI h hh Hhh)) as (Hr1 & Hr2 & Hr3).
    pose proof (ok_state _ _ _ _ Hok) as Hst. cbn in Hst. rewrite Hl in Hst.
    case_bool_decide as Hin.
    + apply (host_release_delta j h hh hh' c'); try done; [tauto|apply Hok|].
      rewrite Hu. by apply bool_decide_eq_true_2.
    + subst hh'. apply host_delta_idle; try done. rewrite Hu. by apply bool_decide_eq_false_2.
  - pose proof (each_host_wp (host_release j) hs w (0 < num_gpus (rsrc j)) Hnd HF) as Hx.
    rewrite Hw' in Hx. apply Hx, host_release_wp.
Qed.

(** The updates of queue counters leave the membership table alone. *)
Ltac same_members :=
  intros; unfold queue_leave_run;
  repeat match goal with |- context [if ?b then _ else _] => destruct b end; reflexivity.

(** The accounting after a job left the run list for [to]. *)
Definition left_run (A : acct) (id : Z) (c' : jcore) (to : job_list_id) (r : list Z)
    (H' : list mbd_host) (q : nat) (f : mbd_queue -> mbd_queue) : acct :=
  (upd_a_list to (fun xs => xs ++ [id]) (A <| a_run := r |>))
    <| a_cores := <[id := c']> (a_cores A) |> <| a_hosts := H' |>
    <| a_queues := alter f q (a_queues A) |>.

Lemma left_run_ok w id j c' to r H' q f :
  inv w -> jobs w !! id = Some j -> list_id j = JOB_LIST_RUN ->
  remove_first id (run_jobs_list w) = Some r -> to <> JOB_LIST_RUN -> jc_list c' = to ->
  same_request (core j) c' -> queue j = Some q -> jc_queue c' = Some q ->
  core_ok (length (queues w)) (length (hosts w)) id c' ->
  (forall c', (forall h, uses c' h = false) -> hosts_follow (core j) c' (hosts w) H') ->
  (forall qq, q_host_hash (f qq) = q_host_hash qq) ->
  (forall qq g, qget g (f qq) = qget g qq - qweight g (core j) + qweight g c') ->
  acct_ok (left_run (acct_of w) id c' to r H' q f).
Proof.
  intros HI Hj Hl Hr Hto Hc' Hx Hq Hq' Hok HH Hm Hf.
  assert (Hcj := cores_lookup_Some _ _ _ Hj).
  apply (acct_ok_step (acct_of w) _ id (core j) c'); try done.
  - apply (lists_ok_move (cores w) (fun l => a_list l (acct_of w)) _ id (core j) c' JOB_LIST_RUN to r);
      try done; [apply (ao_lists _ HI)|].
    intros l. by destruct to, l.
  - by apply queues_follow_alter.
  - apply HH. intros h. apply uses_not_run. congruence.
Qed.

Lemma left_run_kept w w1 w' w2 id j c' to r H' q f :
  jobs w !! id = Some j -> list_id j = JOB_LIST_RUN -> acct_of w1 = acct_of w ->
  acct_of w' = left_run (acct_of w1) id c' to r H' q f ->
  a_cores (acct_of w2) = a_cores (acct_of w') -> fin_kept w w2.
Proof.
  intros Hj Hl H1 Ha H2. apply (fin_kept_insert w w2 id j c'); [done|by rewrite Hl|].
  change (cores w2) with (a_cores (acct_of w2)). rewrite H2, Ha, H1. by destruct to.
Qed.

(** A second update of the same queue. *)
Lemma left_run_queue A id c' to r H' q f f' :
  (left_run A id c' to r H' q f) <| a_queues ::= alter f' q |>
  = left_run A id c' to r H' q (fun qq => f' (f qq)).
Proof. unfold left_run. destruct to; acct_simpl; f_equal; apply list_alter_alter. Qed.

Lemma cores_set_list w id j g l :
  jobs w !! id = Some j ->
  alter (fun c => c <| jc_list := l |>) id (core <$> alter g id (jobs w))
  = <[id := core ((g j) <| list_id := l |>)]> (cores w).
Proof. intros Hj. rewrite (fmap_alter_core _ _ _ j Hj), alter_insert_eq. done. Qed.

(** The steps from the release of the hosts to the move to the list [to]. *)
Lemma leave_run_wp {B} w id j q to f g (K : mbd -> res B) Q (E : Prop) :
  inv w -> jobs w !! id = Some j -> list_id j = JOB_LIST_RUN -> queue j = Some q ->
  (0 < num_gpus (rsrc j) -> E) ->
  (forall w' r H',
     remove_first id (run_jobs_list w) = Some r ->
     (forall c', (forall h, uses c' h = false) -> hosts_follow (core j) c' (hosts w) H') ->
     acct_of w' = left_run (acct_of w) id (core ((g j) <| list_id := to |>)) to r H' q f ->
     wp (K w') Q E) ->
  wp (let* w := reset_host_resources j w in
      let* w := upd_job_queue j f (token_pool_release j w) in
      let* w := job_move_list id JOB_LIST_RUN to (upd_job id g w) in
      K w) Q E.
Proof.
  intros HI Hj Hl Hq HE HK. apply wp_bind.
  eapply wp_mono; [by apply (reset_host_resources_wp w id j)| |done].
  intros w1 (H' & -> & HH). destruct (token_release_pools j (w <| hosts := H' |>)) as [p ->].
  destruct (inv_job_queue w id j HI Hj) as (q' & Hq' & Hlt).
  rewrite (upd_job_queue_total _ _ _ q); [|done|cbn; congruence]. cbn [res_bind].
  destruct (remove_first_in id (run_jobs_list w)) as [r Hr].
  { pose proof (inv_listed w id j HI Hj) as Hin. by rewrite Hl in Hin. }
  unfold job_move_list. cbn [job_list]. cbn. rewrite Hr. cbn [res_bind].
  apply (HK _ r H'); try done. rewrite acct_set_list.
  unfold left_run. destruct to; acct_simpl; f_equal; exact (cores_set_list w id j g _ Hj).
Qed.

(** ** Finishing *)

Lemma inv_run_state w id j :
  inv w -> jobs w !! id = Some j -> list_id j = JOB_LIST_RUN ->
  run_state (state j) /\ end_time j = 0.
Proof.
  intros HI Hj Hl. pose proof (ok_state _ _ _ _ (inv_job w id j HI Hj)) as H. cbn in H.
  rewrite Hl in H. tauto.
Qed.

Lemma inv_finish_state w id j :
  inv w -> jobs w !! id = Some j -> list_id j = JOB_LIST_FINISH ->
  done_state (state j) /\ 0 < end_time j.
Proof.
  intros HI Hj Hl. pose proof (ok_state _ _ _ _ (inv_job w id j HI Hj)) as H. cbn in H.
  rewrite Hl in H. tauto.
Qed.

Lemma inv_pend_state w id j :
  inv w -> jobs w !! id = Some j -> list_id j = JOB_LIST_PEND ->
  pend_state (state j) /\ end_time j = 0.
Proof.
  intros HI Hj Hl. pose proof (ok_state _ _ _ _ (inv_job w id j HI Hj)) as H. cbn in H.
  rewrite Hl in H. tauto.
Qed.

Lemma inv_state_run w id j :
  inv w -> jobs w !! id = Some j -> run_state (state j) -> list_id j = JOB_LIST_RUN.
Proof.
  intros HI Hj Hs. pose proof (ok_state _ _ _ _ (inv_job w id j HI Hj)) as H. cbn in H.
  destruct (list_id j); destruct Hs as [Hs|Hs]; rewrite Hs in H; destruct H as [[?|?] ?]; done.
Qed.

(** The job still points to its hosts, or to none of them. *)
Lemma ptrs_ok_same nh j j' :
  ptrs_ok nh (core j) ->
  (run_nhosts j' = run_nhosts j /\ run_hosts j' = run_hosts j) \/ run_nhosts j' = 0%nat -> ptrs_ok nh (core j').
Proof.
  intros (hs & Ht & Hl & HF) [[Hn Hr]|Hn]; cbn in *.
  - exists hs. cbn. by rewrite Hn, Hr.
  - exists []. cbn. by rewrite Hn.
Qed.

(** What a change of state, list or times leaves to be checked. *)
Lemma core_ok_job nq nh id j j' :
  core_ok nq nh id (core j) ->
  job_id j' = job_id j -> queue j' = queue j -> rsrc j' = rsrc j ->
  length (run_hosts j') = length (run_hosts j) ->
  (run_nhosts j' = run_nhosts j /\ run_hosts j' = run_hosts j) \/ run_nhosts j' = 0%nat ->
  match list_id j' with
  | JOB_LIST_PEND => pend_state (state j') /\ end_time j' = 0
  | JOB_LIST_RUN => run_state (state j') /\ plan_ok nh (core j') /\ end_time j' = 0
  | JOB_LIST_FINISH => done_state (state j') /\ 0 < end_time j'
  end ->
  core_ok nq nh id (core j').
Proof.
  intros [H1 H2 H3 H4 H5 H6 _ H8] Hi Hq Hr Hh Hn Hs. pose proof (ptrs_ok_same _ _ _ H8 Hn). cbn in *.
  split; cbn; rewrite ?Hi, ?Hq, ?Hr, ?Hh; done.
Qed.

(** The job a finish report names, if any, was dispatched and not given back. *)
Definition dispatched (w : mbd) (id : Z) : Prop :=
  forall j, jobs w !! id = Some j ->
    list_id j = JOB_LIST_RUN \/
    (list_id j = JOB_LIST_FINISH /\ exists h, run_host j 0 = Ok h /\ (h < length (hosts w))%nat).

Lemma run_host_0 w id j :
  inv w -> jobs w !! id = Some j -> list_id j = JOB_LIST_RUN ->
  exists h hh, run_host j 0 = Ok h /\ hosts w !! h = Some hh.
Proof.
  intros HI Hj Hl. destruct (inv_run_plan w id j HI Hj Hl) as (hs & Hp & Hne & _ & HF & _ & Ht & Hlen).
  destruct hs as [|h hs]; [done|]. apply Forall_cons in HF as [Hlt _].
  destruct (lookup_lt_is_Some_2 _ _ Hlt) as [hh Hhh]. exists h, hh. split; [|done].
  unfold run_host, nth_res. rewrite <- (lookup_take_lt _ (run_nhosts j)) by (cbn in Hlen; lia).
  by rewrite Ht.
Qed.

Lemma dispatched_host w id j :
  inv w -> jobs w !! id = Some j -> dispatched w id ->
  exists h hh, run_host j 0 = Ok h /\ hosts w !! h = Some hh.
Proof.
  intros HI Hj Hd. destruct (Hd j Hj) as [Hl|(_ & h & Hh & Hlt)]; [by eapply run_host_0|].
  destruct (lookup_lt_is_Some_2 _ _ Hlt) as [hh ?]. eauto.
Qed.

Lemma queue_leave_run_weight j qq c' g :
  list_id j = JOB_LIST_RUN -> run_state (state j) -> jc_list c' = JOB_LIST_FINISH ->
  qget g (queue_leave_run j qq <| q_num_jobs ::= Z.pred |>)
  = qget g qq - qweight g (core j) + qweight g c'.
Proof.
  intros Hl [Hs|Hs] Hc; unfold queue_leave_run, state_is, qweight; rewrite Hs, Hc; eval_decide;
    cbn; rewrite Hl, Hs; destruct g; cbn; lia.
Qed.

(** What a finish report does: nothing (another host, a duplicate, no
    acknowledgement), or the job it names leaves the run list with the state,
    the exit status and the time of the report. *)
Definition finished_job (e : env) (f : wire_job_finish) (j : job_data) : job_data :=
  j <| end_time := now e |> <| exit_status := fin_exit_status f |>
    <| state := if fin_state f =? 0 then JOB_DONE else JOB_EXITED |>
    <| list_id := JOB_LIST_FINISH |>.

Definition finished_by (e : env) (f : wire_job_finish) (w w' : mbd) : Prop :=
  cores w' = cores w \/
  exists j, jobs w !! fin_job_id f = Some j /\ list_id j = JOB_LIST_RUN /\
    cores w' = <[fin_job_id f := core (finished_job e f j)]> (cores w).

Lemma finish_same e f w w' :
  inv w -> acct_of w' = acct_of w -> kept w w' /\ finished_by e f w w'.
Proof.
  intros HI Ha. split; [by apply kept_same|]. left.
  change (a_cores (acct_of w') = a_cores (acct_of w)). by rewrite Ha.
Qed.

Lemma mbd_job_finish_wp e n f w :
  inv w -> (n < length (hosts w))%nat -> 0 < now e ->
  wp (mbd_job_finish e n f w) (fun w' => kept w w' /\ finished_by e f w w')
     (~ dispatched w (fin_job_id f) \/
      exists j, jobs w !! fin_job_id f = Some j /\ 0 < num_gpus (rsrc j)).
Proof.
  intros HI Hn Hnow. unfold mbd_job_finish.
  destruct (lookup_lt_is_Some_2 _ _ Hn) as [nn Hnn]. unfold nth_res at 1. rewrite Hnn. cbn [res_bind].
  unfold job_find. destruct (jobs w !! fin_job_id f) as [j|] eqn:Hj.
  2:{ destruct (send_ack_io e (sbd_chan nn) BATCH_JOB_FINISH_ACK (fin_job_id f) BATCH_JOB_FINISH w)
        as (n' & out & ->). by apply finish_same. }
  destruct (run_host j 0) as [h|c] eqn:Hh; cbn [res_bind].
  2:{ left. intros Hd. destruct (dispatched_host w _ j HI Hj Hd) as (? & ? & ? & _). congruence. }
  unfold nth_res at 1. destruct (hosts w !! h) as [hh|] eqn:Hhh; cbn [res_bind].
  2:{ left. intros Hd. destruct (dispatched_host w _ j HI Hj Hd) as (? & ? & ? & ?). congruence. }
  destruct (negb _); [by apply finish_same|].
  destruct (c_assert _) as [[]|c] eqn:Has; cbn [res_bind]; inv_res.
  2:{ left. intros Hd. destruct (Hd j Hj) as [Hl|[Hl _]].
    - destruct (inv_run_state w _ j HI Hj Hl) as [[Hs|Hs] _]; unfold state_is in Has; rewrite Hs in Has;
        eval_decide; rewrite ?orb_true_r in Has; done.
    - destruct (inv_finish_state w _ j HI Hj Hl) as [_ Hend].
      by rewrite (proj2 (Z.ltb_lt _ _) Hend) in Has. }
  io_step (send_ack e (sbd_chan nn) BATCH_JOB_FINISH_ACK (fin_job_id f) BATCH_JOB_FINISH w).
  destruct ok; cbn [negb]; [|by apply finish_same]. destruct (0 <? end_time j) eqn:Hend; [by apply finish_same|].
  assert (Hs : run_state (state j)).
  { unfold state_is in Has. b2p. destruct Has as [[?|?]|?]; [done|by left|by right]. }
  assert (Hl : list_id j = JOB_LIST_RUN) by by eapply inv_state_run.
  destruct (inv_job_queue w _ j HI Hj) as (q & Hq & _).
  apply (leave_run_wp (with_io n' out w) _ j q); [done..|eauto|].
  intros w' r H' Hr HH Ha.
  assert (HI' : inv w').
  { red. rewrite Ha. eapply (left_run_ok (with_io n' out w)); try done.
    - apply (core_ok_job _ _ _ j); [by apply (inv_job w)|done..|by left|]. cbn. split; [|done].
      destruct (fin_state f =? 0); [by left|by right].
    - same_members.
    - intros qq g. by apply queue_leave_run_weight. }
  unfold event_job_finish. rewrite log_append_ok by exact Hnow. cbn [res_bind].
  assert (HI2 : inv (logged (LogFinish (mk_log_job_finish (job_id j) (uid j)
     (job_state_num (if fin_state f =? 0 then JOB_DONE else JOB_EXITED)) (fin_exit_status f) (now e)))
     (job_array_element_finished j w'))).
  { red. by rewrite acct_logged, acct_array_finished. }
  rewrite assert_counters_ok by exact HI2. split; [split; [exact HI2|]|].
  - eapply (left_run_kept w _ w'); [exact Hj|done| |exact Ha|]; [done|].
    by rewrite acct_logged, acct_array_finished.
  - right. exists j. split; [done|]. split; [done|].
    change (cores w) with (a_cores (acct_of (with_io n' out w))).
    match goal with |- cores ?x = _ => change (cores x) with (a_cores (acct_of x)) end.
    by rewrite acct_logged, acct_array_finished, Ha.
Qed.

(** ** Giving a job back: rejected by the execution daemon, or unknown to it *)

(** Move the queue's counters of a job from the run list to the pend list. *)
Lemma queue_back_weight j qq c' qq' g :
  list_id j = JOB_LIST_RUN -> run_state (state j) ->
  jc_list c' = JOB_LIST_PEND -> jc_state c' = JOB_PENDING ->
  q_num_jobs qq' = q_num_jobs qq -> q_num_pend qq' = q_num_pend qq + 1 ->
  q_num_run qq' = q_num_run qq - b2z (state_is JOB_RUNNING j) ->
  q_num_susp qq' = q_num_susp qq - b2z (state_is JOB_SUSPENDED j) ->
  q_num_held qq' = q_num_held qq ->
  q_cpus_used qq' = q_cpus_used qq - num_cpus (rsrc j) * Z.of_nat (run_nhosts j) ->
  q_hosts_used qq' = q_hosts_used qq - Z.of_nat (run_nhosts j) ->
  qget g qq' = qget g qq - qweight g (core j) + qweight g c'.
Proof.
  intros Hl Hs Hc Hst H1 H2 H3 H4 H5 H6 H7. unfold qweight. rewrite Hc, Hst. cbn. rewrite Hl.
  unfold state_is in *.
  destruct Hs as [Hs|Hs]; rewrite Hs in *; eval_decide; cbn in *; destruct g; cbn; lia.
Qed.

(** The job is pending again; no other job changed. *)
Definition given_back (id : Z) (w w' : mbd) : Prop :=
  exists c', cores w' = <[id := c']> (cores w) /\ jc_list c' = JOB_LIST_PEND /\ jc_state c' = JOB_PENDING.

Definition maybe_back (id : Z) (w w' : mbd) : Prop := cores w' = cores w \/ given_back id w w'.

Lemma back_same id w w' :
  inv w -> acct_of w' = acct_of w -> kept w w' /\ maybe_back id w w'.
Proof.
  intros HI Ha. split; [by apply kept_same|]. left.
  change (a_cores (acct_of w') = a_cores (acct_of w)). by rewrite Ha.
Qed.

Lemma left_run_back w w' w2 id c' r H' q f :
  acct_of w' = left_run (acct_of w) id c' JOB_LIST_PEND r H' q f ->
  cores w2 = cores w' -> jc_list c' = JOB_LIST_PEND -> jc_state c' = JOB_PENDING -> given_back id w w2.
Proof.
  intros Ha Hc Hl Hs. exists c'. split; [|done]. rewrite Hc.
  change (a_cores (acct_of w') = <[id := c']> (cores w)). by rewrite Ha.
Qed.

Lemma mbd_job_reject_dispatch_wp e id j w :
  inv w -> jobs w !! id = Some j -> list_id j = JOB_LIST_RUN -> state j = JOB_RUNNING -> 0 < now e ->
  wp (mbd_job_reject_dispatch e id j w) (fun w' => kept w w' /\ given_back id w w') (0 < num_gpus (rsrc j)).
Proof.
  intros HI Hj Hl Hs Hnow. unfold mbd_job_reject_dispatch.
  apply wp_assert; [by apply bool_decide_eq_true_2|].
  apply wp_assert; [by apply bool_decide_eq_true_2|].
  destruct (run_host_0 w id j HI Hj Hl) as (h & hh & Hh & Hhh). rewrite Hh. cbn [res_bind].
  unfold nth_res at 1. rewrite Hhh. cbn [res_bind].
  destruct (inv_job_queue w _ j HI Hj) as (q & Hq & _).
  pose proof (inv_job w id j HI Hj) as Hok.
  apply (leave_run_wp w id j q); [done..|].
  intros w' r H' Hr HH Ha.
  assert (HI' : inv w').
  { red. rewrite Ha. eapply left_run_ok; try done.
    - apply (core_ok_job _ _ _ j); try done; cbn.
      + rewrite length_replicate. destruct (ok_slots _ _ _ _ Hok) as [_ H]. cbn in H. lia.
      + by right.
      + split; [by left|]. by apply (inv_run_state w id j).
    - same_members.
    - intros qq g. apply queue_back_weight; try done; unfold state_is; rewrite Hs; eval_decide;
        cbn; try lia; by left. }
  rewrite assert_counters_ok by exact HI'. cbn [res_bind].
  unfold event_job_pend. rewrite log_append_ok by exact Hnow. cbn [res_bind wp].
  match goal with |- kept _ (send_ack ?e ?c ?op ?i ?o ?w).1 /\ _ =>
    destruct (send_ack_io e c op i o w) as (n' & out & ->) end.
  split; [split; [exact HI'|by eapply (left_run_kept w w w')]|]. by eapply (left_run_back w w').
Qed.

Lemma mbd_job_missing_wp e n id w :
  inv w -> 0 < now e ->
  wp (mbd_job_missing e n id w) (fun w' => kept w w' /\ maybe_back id w w')
     (exists j, jobs w !! id = Some j /\ 0 < num_gpus (rsrc j)).
Proof.
  intros HI Hnow. unfold mbd_job_missing, job_find.
  destruct (jobs w !! id) as [j|] eqn:Hj; [|by apply back_same].
  destruct (state_is JOB_ORPHAN j); [by apply back_same|]. destruct (Nat.eqb_spec (run_nhosts j) 0) as [|Hnh]; [by apply back_same|].
  pose proof (inv_job w id j HI Hj) as Hok.
  assert (exists o, run_hosts j !! 0%nat = Some o) as [o Ho].
  { apply lookup_lt_is_Some_2. destruct (ok_slots _ _ _ _ Hok) as [H1 H2]. cbn in *. lia. }
  unfold nth_res at 1. rewrite Ho. cbn [res_bind]. destruct (negb (bool_decide _)); [by apply back_same|].
  destruct (negb (_ || _)) eqn:Hrun; [by apply back_same|].
  assert (Hs : run_state (state j)).
  { unfold state_is in Hrun. b2p. destruct Hrun as [H|H]; [by left|by right]. }
  assert (Hl : list_id j = JOB_LIST_RUN) by by eapply inv_state_run.
  destruct (inv_job_queue w _ j HI Hj) as (q & Hq & Hlt).
  apply (leave_run_wp w id j q); [done..|eauto|].
  intros w' r H' Hr HH Ha.
  assert (Hlen : length (queues w') = length (queues w)).
  { change (length (a_queues (acct_of w')) = length (queues w)). rewrite Ha. cbn. apply length_alter. }
  rewrite (upd_job_queue_total _ _ _ q) by (done || by rewrite Hlen). cbn [res_bind].
  set (w2 := upd_queue q _ w').
  assert (HI' : inv w2).
  { red. subst w2. rewrite acct_upd_queue, Ha, left_run_queue. eapply left_run_ok; try done.
    - apply (core_ok_job _ _ _ j); try done; cbn; [by left|].
      split; [by left|]. by apply (inv_run_state w id j).
    - same_members.
    - intros qq g. apply queue_back_weight; try done; unfold queue_leave_run, state_is;
        destruct Hs as [Hs|Hs]; rewrite Hs; eval_decide; cbn; lia. }
  rewrite assert_counters_ok by exact HI'. cbn [res_bind].
  unfold event_job_pend. rewrite log_append_ok by exact Hnow. 
  split; [split; [exact HI'|by eapply (left_run_kept w w w')]|]. right. by eapply (left_run_back w w').
Qed.

(** ** The reply to a dispatch *)

(** A job that is changed in place, keeping its list. *)
Lemma inv_job_update w id j g :
  inv w -> jobs w !! id = Some j ->
  core_ok (length (queues w)) (length (hosts w)) id (core (g j)) ->
  same_request (core j) (core (g j)) -> list_id (g j) = list_id j ->
  queues_follow (core j) (core (g j)) (queues w) (queues w) ->
  hosts_follow (core j) (core (g j)) (hosts w) (hosts w) ->
  inv (upd_job id g w).
Proof.
  intros HI Hj Hok Hx Hl HQ HH. pose proof (cores_lookup_Some _ _ _ Hj) as Hc.
  assert (Hcs : cores (upd_job id g w) = <[id := core (g j)]> (cores w)) by by apply fmap_alter_core.
  apply (acct_ok_step (acct_of w) _ id (core j) (core (g j))); try done.
  change (a_cores (acct_of (upd_job id g w))) with (cores (upd_job id g w)). rewrite Hcs.
  eapply lists_ok_same; [apply (ao_lists _ HI)|done|done].
Qed.

Lemma acct_job_same w id j g :
  jobs w !! id = Some j -> core (g j) = core j -> acct_of (upd_job id g w) = acct_of w.
Proof.
  intros Hj Hg. unfold acct_of.
  assert (cores (upd_job id g w) = cores w) as ->; [|done].
  unfold cores. cbn. rewrite (fmap_alter_core _ _ _ j Hj), Hg. apply insert_id.
  by rewrite lookup_fmap, Hj.
Qed.

(** The replies the daemon expects: for a job that runs, a duplicate of the
    report of a fork, or a refusal of a job that is pending again. *)
Definition reply_expected (w : mbd) (r : wire_job_reply) : Prop :=
  forall j, jobs w !! rep_job_id r = Some j ->
    (list_id j = JOB_LIST_RUN /\ state j = JOB_RUNNING) \/
    (0 < fork_time j /\ rep_state r <> job_state_num JOB_PENDING) \/
    (list_id j = JOB_LIST_PEND /\ rep_state r = job_state_num JOB_PENDING).

Lemma reply_same (P : Prop) w w' :
  inv w -> acct_of w' = acct_of w -> kept w w' /\ (cores w' = cores w \/ P).
Proof. intros HI Ha. destruct (back_same 0 w w' HI Ha) as [H _]. split; [done|]. left.
  change (a_cores (acct_of w') = a_cores (acct_of w)). by rewrite Ha. Qed.

Lemma mbd_new_job_reply_wp e n r w :
  inv w -> (n < length (hosts w))%nat -> 0 < now e -> reply_expected w r ->
  wp (mbd_new_job_reply e n r w) (fun w' => kept w w' /\ (cores w' = cores w \/
       rep_state r = job_state_num JOB_PENDING /\ given_back (rep_job_id r) w w'))
     (exists j, jobs w !! rep_job_id r = Some j /\ 0 < num_gpus (rsrc j)).
Proof.
  intros HI Hn Hnow He. unfold mbd_new_job_reply.
  destruct (lookup_lt_is_Some_2 _ _ Hn) as [nn Hnn]. unfold nth_res at 1. rewrite Hnn. cbn [res_bind].
  unfold job_find. destruct (jobs w !! rep_job_id r) as [j|] eqn:Hj; [|by apply reply_same].
  destruct (Z.eqb_spec (rep_state r) (job_state_num JOB_PENDING)) as [Hr|Hr].
  - destruct (state_is JOB_PENDING j || state_is JOB_HELD j) eqn:Hp.
    + apply wp_assert; [|by apply reply_same]. apply bool_decide_eq_true_2.
      pose proof (ok_state _ _ _ _ (inv_job w _ j HI Hj)) as Hok. cbn in Hok. unfold state_is in Hp.
      destruct (list_id j); [done|exfalso..]; destruct Hok as [[Hs|Hs] _]; rewrite Hs in Hp;
        by eval_decide.
    + destruct (He j Hj) as [[Hl Hs]|[[_ Hx]|[Hl _]]]; [|done|].
      * eapply wp_mono; [by apply mbd_job_reject_dispatch_wp| |eauto]. intros w' [H1 H2]. auto.
      * exfalso. destruct (inv_pend_state w _ j HI Hj Hl) as [[Hs|Hs] _]; unfold state_is in Hp;
          rewrite Hs in Hp; by eval_decide.
  - io_step (send_ack e (sbd_chan nn) BATCH_NEW_JOB_REPLY_ACK (rep_job_id r) BATCH_NEW_JOB_REPLY w).
    destruct ok; cbn [negb]; [|by apply reply_same]. destruct (0 <? fork_time j) eqn:Hf; [by apply reply_same|].
    unfold event_job_fork. rewrite log_append_ok by exact Hnow. cbn [wp].
    destruct (He j Hj) as [[Hl Hs]|[[Hx _]|[_ Hx]]]; [|b2p; lia|done].
    apply reply_same; [done|]. rewrite acct_logged. apply (acct_job_same (with_io n' out w) _ j); [done|].
    unfold core. cbn. by rewrite Hs.
Qed.
