(* ===== verification/MbdDurable.v ===== *)
(** * What the event log says

    The durable part of a job record is what the log keeps of it.  Every event
    has a meaning as a partial function on the table of durable records; the log
    as a whole then means a table.  The replay of src/batch/mbd/events.c is shown
    to compute this meaning. *)

From S2P Require Import Prelude CString LlHash Dependency LogFormat MbdTypes MbdBase MbdJob MbdEvents.
From S2P Require Import MbdInv MbdFrame MbdSafe.

Open Scope string_scope.
Open Scope list_scope.
Open Scope Z_scope.

Implicit Types (w : mbd) (j d : job_data) (id : Z) (m : gmap Z job_data).

(** ** The durable part of a job *)

Definition is_active (s : job_state) : bool :=
  match s with JOB_RUNNING | JOB_SUSPENDED => true | _ => false end.

(** What the log does not keep is set to a fixed value: whether a started job is
    suspended, the reason why a job pends, the derived counts, the token request
    and the text of the machine list, the time of the last signal and the assigned
    GPUs, which a compaction does not write; and the hosts of a job that is not
    started. *)
Definition durable (j : job_data) : job_data :=
  let a := is_active (state j) in
  let r := rsrc j in
  mk_job_data (job_id j) (uid j) (gid j) (pid j) (user j)
    (if a then JOB_RUNNING else state j) (exit_status j) (priority j) (submit_time j)
    (dispatch_time j) (fork_time j) (end_time j) (susp_time j) (unknown_time j) (begin_time j)
    (term_time j) 0 (queue j) (project j) (name j) (flags j) (list_id j) PEND_NONE (deps j)
    (depend_cond j) 0
    (mk_job_resources (num_cpus r) (num_hosts r) (num_gpus r) (gpu_model r) (mem_mb r)
       (storage_mb r) (wall_seconds r) EmptyString (machines r) EmptyString [])
    (if a then run_nhosts j else 0%nat)
    (if a then take (run_nhosts j) (run_hosts j) else [])
    EmptyString
    (array_id j) (array_index j) (array_start j) (array_end j) (array_stride j) 0.

Definition durables (w : mbd) : gmap Z job_data := durable <$> jobs w.

(** Two records with the same durable part; the field updates below respect it. *)
Ltac durable_eq :=
  intros; unfold durable; cbn;
  repeat match goal with
  | |- context [is_active (state ?j)] => destruct (state j) eqn:?; cbn
  end; rewrite ?take_take, ?Nat.min_id; try reflexivity.

Lemma durable_idem j : durable (durable j) = durable j.
Proof. durable_eq. Qed.

Lemma some_eq {A} (x y : A) : Some x = Some y -> x = y.
Proof. congruence. Qed.

Lemma durables_lookup w id j : jobs w !! id = Some j -> durables w !! id = Some (durable j).
Proof. intros H. unfold durables. by rewrite lookup_fmap, H. Qed.

Lemma durables_upd_job w id f j :
  jobs w !! id = Some j -> durables (upd_job id f w) = <[id := durable (f j)]> (durables w).
Proof.
  intros Hj. unfold durables, upd_job. cbn. apply map_eq. intros i. rewrite lookup_fmap.
  destruct (decide (i = id)) as [->|].
  - by rewrite lookup_alter_eq, lookup_insert_eq, Hj.
  - by rewrite lookup_alter_ne, lookup_insert_ne, lookup_fmap by congruence.
Qed.

Lemma durables_upd_inert w id f : (forall j, durable (f j) = durable j) -> durables (upd_job id f w) = durables w.
Proof.
  intros Hf. unfold durables, upd_job. cbn. apply map_eq. intros i. rewrite !lookup_fmap.
  destruct (decide (i = id)) as [->|].
  - rewrite lookup_alter_eq. destruct (jobs w !! id); cbn; by rewrite ?Hf.
  - by rewrite lookup_alter_ne by congruence.
Qed.

(** ** The meaning of the log *)

(** What the meaning depends on beside the table: names and memberships. *)
Record conf : Type := mk_conf {
  cf_queues : gmap string nat;
  cf_groups : gmap string mbd_group;
  cf_members : list (gmap string nat);
  cf_qnames : list string;
  cf_hnames : list string;
  cf_totals : list (Z * Z * Z);
  cf_default : string
}.

(** What a host has to offer. *)
Definition totals (h : mbd_host) : Z * Z * Z := (total_cpu h, total_mem_mb h, total_storage_mb h).

Definition conf_of (w : mbd) : conf :=
  mk_conf (queue_name_hash w) (group_name_hash w) (map q_host_hash (queues w))
    (map q_name (queues w)) (map h_name (hosts w)) (map totals (hosts w)) (default_queue w).

(** The record a JOB_NEW event stands for. *)
Definition logged_job (w : mbd) (x : log_job_new) : option job_data :=
  match machines_hash_populate w (ln_machines x), queue_name_hash w !! ln_queue x with
  | Ok ms, Some q =>
      let j := (replayed_job x ms) <| queue := Some q |> in
      let n := num_hosts (rsrc j) in
      match job_replay_deps (j <| run_hosts := replicate (Z.to_nat n) None |>) (ln_depend_cond x) with
      | Ok j => if 1 <=? n then Some j else None
      | Crash _ => None
      end
  | _, _ => None
  end.

(** The hosts a JOB_START event names. *)
Definition logged_hosts (w : mbd) (d : job_data) (x : log_job_start) : option (list nat) :=
  match queue d with
  | Some q =>
      match map q_host_hash (queues w) !! q with
      | Some qh => opt_map (fun t => qh !! t) (strtok_all is_machine_delim (strbuf LL_BUFSIZ_4K (ls_hosts x)))
      | None => None
      end
  | None => None
  end.

Definition is_pend (d : job_data) : bool :=
  bool_decide (list_id d = JOB_LIST_PEND) && (state_is JOB_PENDING d || state_is JOB_HELD d).

Definition when {A} (b : bool) (a : A) : option A := if b then Some a else None.

Definition ev_start (x : log_job_start) (hs : list nat) (d : job_data) : job_data :=
  d <| run_hosts := map Some hs |> <| run_nhosts := length hs |> <| state := JOB_RUNNING |>
    <| dispatch_time := ls_dispatch_time x |>
    <| gpu_assigned := strbuf LL_BUFSIZ_64 (ls_gpu_assigned x) |> <| list_id := JOB_LIST_RUN |>.

Definition ev_finish (x : log_job_finish) (d : job_data) : job_data :=
  d <| state := job_state_of (le_state x) |> <| exit_status := le_exit_status x |>
    <| uid := le_uid x |> <| end_time := le_end_time x |> <| list_id := JOB_LIST_FINISH |>.

Definition ev_pend (d : job_data) : job_data :=
  d <| pid := 0 |> <| fork_time := 0 |> <| dispatch_time := 0 |> <| state := JOB_PENDING |>
    <| list_id := JOB_LIST_PEND |>.

(** What an event makes of the record of its job; [None] when the event cannot
    follow the ones before it. *)
Definition effect (w : mbd) (ev : log_event) (d : job_data) : option job_data :=
  match ev with
  | LogNew _ => None
  | LogStart x =>
      match logged_hosts w d x with
      | Some hs =>
          when (bool_decide (list_id d = JOB_LIST_PEND) && negb (state_is JOB_ORPHAN d)
                && (Z.of_nat (length hs) =? ls_nhosts x) && (ls_nhosts x =? num_hosts (rsrc d)))
            (ev_start x hs d)
      | None => None
      end
  | LogFork x => Some (d <| pid := lf_job_pid x |> <| fork_time := lf_fork_time x |>)
  | LogSignal x => Some d
  | LogFinish x =>
      when (negb (bool_decide (list_id d = JOB_LIST_FINISH)) && negb (is_active (job_state_of (le_state x))))
        (ev_finish x d)
  | LogPendSusp x => when (state_is JOB_PENDING d) (d <| state := JOB_HELD |>)
  | LogPendResume x => when (state_is JOB_HELD d) (d <| state := JOB_PENDING |>)
  | LogSusp x => when (state_is JOB_RUNNING d) d
  | LogMove x =>
      match queue_name_hash w !! lm_to_queue x with
      | Some q => Some (d <| queue := Some q |>)
      | None => None
      end
  | LogPriority x => Some (d <| priority := lp_new_priority x |>)
  | LogPend x => when (bool_decide (list_id d = JOB_LIST_RUN)) (ev_pend d)
  end.

Definition event_id (ev : log_event) : Z :=
  match ev with
  | LogNew x => ln_job_id x
  | LogStart x => ls_job_id x
  | LogFork x => lf_job_id x
  | LogSignal x => lg_job_id x
  | LogFinish x => le_job_id x
  | LogPendSusp x | LogPendResume x | LogSusp x | LogPend x => lk_job_id x
  | LogMove x => lm_job_id x
  | LogPriority x => lp_job_id x
  end.

Definition apply_event (w : mbd) (m : gmap Z job_data) (ev : log_event) : option (gmap Z job_data) :=
  match ev with
  | LogNew x =>
      match m !! ln_job_id x, logged_job w x with
      | None, Some j => Some (<[ln_job_id x := durable j]> m)
      | _, _ => None
      end
  | _ =>
      match m !! event_id ev with
      | Some d =>
          match effect w ev d with
          | Some d' => Some (<[event_id ev := durable d']> m)
          | None => None
          end
      | None => None
      end
  end.

Fixpoint apply_events (w : mbd) (m : gmap Z job_data) (evs : list log_event) : option (gmap Z job_data) :=
  match evs with
  | [] => Some m
  | ev :: evs' =>
      match apply_event w m ev with
      | Some m' => apply_events w m' evs'
      | None => None
      end
  end.

Lemma apply_events_app w m evs1 evs2 :
  apply_events w m (evs1 ++ evs2) =
  match apply_events w m evs1 with Some m' => apply_events w m' evs2 | None => None end.
Proof. revert m. induction evs1 as [|ev evs IH]; intros m; cbn; [done|]. by destruct (apply_event w m ev). Qed.

Lemma populate_conf w w' ms :
  conf_of w' = conf_of w -> machines_hash_populate w' ms = machines_hash_populate w ms.
Proof.
  intros H. unfold machines_hash_populate, machines_hash_insert_token.
  by rewrite (f_equal cf_groups H : group_name_hash w' = group_name_hash w).
Qed.

Lemma apply_event_conf w w' m ev : conf_of w' = conf_of w -> apply_event w' m ev = apply_event w m ev.
Proof.
  intros H. unfold apply_event, effect, logged_job, logged_hosts.
  rewrite (f_equal cf_queues H : queue_name_hash w' = queue_name_hash w).
  rewrite (f_equal cf_members H : map q_host_hash (queues w') = map q_host_hash (queues w)).
  destruct ev; try done. by rewrite (populate_conf w w').
Qed.

Lemma apply_events_conf w w' m evs : conf_of w' = conf_of w -> apply_events w' m evs = apply_events w m evs.
Proof.
  intros H. revert m. induction evs as [|ev evs IH]; intros m; cbn; [done|]. rewrite (apply_event_conf w w') by done.
  by destruct (apply_event w m ev).
Qed.

(** The effects see no more than the durable part. *)
Lemma ev_start_durable x hs j : durable (ev_start x hs (durable j)) = durable (ev_start x hs j).
Proof. unfold durable, ev_start. cbn. reflexivity. Qed.

Lemma ev_finish_durable x j :
  is_active (job_state_of (le_state x)) = false -> durable (ev_finish x (durable j)) = durable (ev_finish x j).
Proof. intros Ha. unfold durable, ev_finish. cbn. by rewrite Ha. Qed.

Lemma ev_pend_durable j : durable (ev_pend (durable j)) = durable (ev_pend j).
Proof. unfold durable, ev_pend. cbn. reflexivity. Qed.
