(* ===== verification/MbdReplay.v ===== *)
(** * The replay computes the meaning of the log

    Every branch of the replay loop of src/batch/mbd/events.c, run on a table
    whose durable part is known, returns and leaves the table the event means;
    so does the loop on the text of a log. *)

From S2P Require Import Prelude CString LlHash Dependency LogFormat MbdTypes MbdBase MbdJob MbdEvents.
From S2P Require Import MbdInv MbdFrame MbdSafe MbdDurable.

Open Scope string_scope.
Open Scope list_scope.
Open Scope Z_scope.

Implicit Types (w : mbd) (j d : job_data) (id : Z) (m : gmap Z job_data).

(** ** The table during the replay *)

(** Everything but the job table, the job lists and the count of attempts. *)
Definition rest (w : mbd) : mbd :=
  w <| jobs := ∅ |> <| pend_jobs_list := [] |> <| run_jobs_list := [] |> <| finish_jobs_list := [] |>
    <| io := 0%nat |>.

Lemma rest_conf w w' : rest w' = rest w -> conf_of w' = conf_of w.
Proof. intros H. exact (f_equal conf_of H). Qed.

(** What the replay relies on in a record: its key, its array of hosts, that a job
    not started has no hosts yet and that the others point to hosts there are. *)
Definition slot_ok (nhosts : nat) (id : Z) (j : job_data) : Prop :=
  job_id j = id /\ Z.of_nat (length (run_hosts j)) = num_hosts (rsrc j) /\
  (list_id j = JOB_LIST_PEND -> run_nhosts j = 0%nat) /\ ptrs_ok nhosts (core j).

Definition listed (w : mbd) : Prop := lists_ok (cores w) (fun l => job_list l w).

Record table_ok (w : mbd) : Prop := mk_table_ok {
  tb_lists : listed w;
  tb_slots : forall id j, jobs w !! id = Some j -> slot_ok (length (hosts w)) id j
}.

Lemma slots_alter nh (f : job_data -> job_data) id (m : gmap Z job_data) :
  (forall i j, m !! i = Some j -> slot_ok nh i j) -> (forall j, m !! id = Some j -> slot_ok nh id (f j)) ->
  forall i j, alter f id m !! i = Some j -> slot_ok nh i j.
Proof.
  intros H Hf i j. destruct (decide (i = id)) as [->|Hne].
  - rewrite lookup_alter_eq. destruct (m !! id) eqn:E; [|done]. intros [= <-]. by apply Hf.
  - rewrite lookup_alter_ne by done. apply H.
Qed.

Lemma listed_upd_job w id j f :
  listed w -> jobs w !! id = Some j -> list_id (f j) = list_id j -> listed (upd_job id f w).
Proof.
  intros HL Hj Hf. unfold listed, cores, upd_job. cbn. rewrite (fmap_alter_core f id (jobs w) j) by done.
  eapply lists_ok_same; [exact HL|by apply cores_lookup_Some|done].
Qed.

(** A job that stays on its list. *)
Lemma table_upd_job w id j f :
  table_ok w -> jobs w !! id = Some j -> list_id (f j) = list_id j -> slot_ok (length (hosts w)) id (f j) ->
  table_ok (upd_job id f w).
Proof.
  intros [HL HS] Hj Hl Hf. split; [by apply (listed_upd_job w id j)|].
  apply (slots_alter (length (hosts w))); [done|]. intros x Hx. assert (x = j) as -> by congruence. done.
Qed.

(** A job that moves to another list. *)
Lemma move_listed w id j from to :
  listed w -> jobs w !! id = Some j -> list_id j = from -> from <> to ->
  exists w', job_move_list id from to w = Ok w' /\ listed w' /\ rest w' = rest w /\
    jobs w' = alter (fun j => j <| list_id := to |>) id (jobs w).
Proof.
  intros HL Hj Hf Hne.
  assert (Hin : id ∈ job_list from w).
  { apply HL. exists (core j). split; [by apply cores_lookup_Some|done]. }
  destruct (remove_first_in _ _ Hin) as [r Hr]. unfold job_move_list. rewrite Hr. eexists. split; [done|].
  split; [|split; [by destruct from, to|by destruct from, to]].
  pose proof (lists_ok_move (cores w) (fun l => job_list l w)
    (fun l => if bool_decide (l = from) then r else if bool_decide (l = to) then job_list to w ++ [id] else job_list l w)
    id (core j) (core (j <| list_id := to |>)) from to r HL (cores_lookup_Some _ _ _ Hj) Hf eq_refl Hne Hr
    (fun l => eq_refl)) as HM.
  assert (Hc : cores (job_set_list id to (upd_job_list from (fun _ => r) w)) =
               <[id := core (j <| list_id := to |>)]> (cores w)).
  { unfold cores, job_set_list, upd_job. destruct from, to; cbn; by rewrite (fmap_alter_core _ id (jobs w) j). }
  unfold listed. rewrite Hc. intros l. specialize (HM l). destruct from, to, l; cbn in *; done.
Qed.

Lemma durables_alter w w' id j f :
  jobs w !! id = Some j -> jobs w' = alter f id (jobs w) -> durables w' = <[id := durable (f j)]> (durables w).
Proof. intros Hj Hw. rewrite <- (durables_upd_job w id f j Hj). unfold durables. by rewrite Hw. Qed.

Lemma table_new w id j :
  table_ok w -> jobs w !! id = None -> slot_ok (length (hosts w)) id (j <| list_id := JOB_LIST_PEND |>) ->
  table_ok (job_set_list id JOB_LIST_PEND (w <| jobs ::= <[id := j]> |>)).
Proof.
  intros [HL HS] Hn Hs. split.
  - unfold listed.
    assert (Hc : cores (job_set_list id JOB_LIST_PEND (w <| jobs ::= <[id := j]> |>)) =
      <[id := core (j <| list_id := JOB_LIST_PEND |>)]> (cores w)).
    { unfold cores, job_set_list, upd_job. cbn. rewrite alter_insert_eq. by rewrite fmap_insert. }
    rewrite Hc. eapply lists_ok_new; [exact HL|by rewrite cores_lookup, Hn|]. intros l. by destruct l.
  - cbn. rewrite alter_insert_eq. intros i x [[<- <-]|[_ Hx]]%lookup_insert_Some; [done|by apply HS].
Qed.

(** ** One event *)

Record replayed (w0 : mbd) (s : replay_state) (m : gmap Z job_data) : Prop := mk_replayed {
  rp_jobs : durables (rp_mbd s) = m;
  rp_table : table_ok (rp_mbd s);
  rp_rest : rest (rp_mbd s) = rest w0;
  rp_members : forall q qq, queues w0 !! q = Some qq -> queue_hosts_ok (hosts w0) qq;
  rp_ids : forall id, is_Some (m !! id) -> id <= rp_max_id s
}.

(** The job an event of the log finds. *)
Lemma replay_finds w m id d :
  durables w = m -> m !! id = Some d -> exists j, jobs w !! id = Some j /\ d = durable j.
Proof.
  intros <-. unfold durables. rewrite lookup_fmap. destruct (jobs w !! id); [|done]. intros [= <-]. eauto.
Qed.

(** An event that changes one record. *)
Lemma replayed_step w0 s m w' id j j' d' :
  replayed w0 s m -> jobs (rp_mbd s) !! id = Some j ->
  jobs w' = <[id := j']> (jobs (rp_mbd s)) -> rest w' = rest (rp_mbd s) -> listed w' ->
  slot_ok (length (hosts w0)) id j' -> durable j' = durable d' ->
  replayed w0 (mk_replay w' (rp_max_id s) (rp_restored s)) (<[id := durable d']> m).
Proof.
  intros [H1 H2 H3 HM H4] Hj Hw Hr Hl Hs Hd. split; cbn [rp_mbd rp_max_id rp_restored].
  - unfold durables. rewrite Hw, fmap_insert, Hd. by rewrite <- H1.
  - assert (Hh : hosts w' = hosts w0) by (apply (f_equal hosts) in H3, Hr; cbn in *; congruence).
    split; [done|]. rewrite Hw, Hh. intros i x [[<- <-]|[_ Hx]]%lookup_insert_Some; [done|].
    rewrite <- (f_equal hosts H3 : hosts (rp_mbd s) = hosts w0). by apply H2.
  - congruence.
  - done.
  - intros i [x Hx]. apply H4. apply lookup_insert_Some in Hx as [[<- _]|[_ Hx]]; [|eauto].
    rewrite <- H1. eexists. by apply durables_lookup.
Qed.

Lemma alter_at {A} (f : A -> A) id (m : gmap Z A) x : m !! id = Some x -> alter f id m = <[id := f x]> m.
Proof.
  intros Hx. apply map_eq. intros i. destruct (decide (i = id)) as [->|Hne].
  - by rewrite lookup_alter_eq, lookup_insert_eq, Hx.
  - by rewrite lookup_alter_ne, lookup_insert_ne.
Qed.

(** The branches that change a record in place. *)
Lemma replayed_upd w0 s m id j f d' :
  replayed w0 s m -> jobs (rp_mbd s) !! id = Some j ->
  list_id (f j) = list_id j -> slot_ok (length (hosts w0)) id (f j) -> durable (f j) = durable d' ->
  replayed w0 (mk_replay (upd_job id f (rp_mbd s)) (rp_max_id s) (rp_restored s)) (<[id := durable d']> m).
Proof.
  intros H Hj Hl Hs Hd. apply (replayed_step w0 s m _ id j (f j)); try done; [by apply alter_at|].
  apply (listed_upd_job _ id j); [apply H|done..].
Qed.

(** Then the list and one more change, as the branches for JOB_START,
    JOB_FINISH and JOB_PEND make them. *)
Lemma replayed_move w0 s m id j f g from to d' (K : mbd -> res mbd) :
  replayed w0 s m -> jobs (rp_mbd s) !! id = Some j -> list_id j = from -> from <> to ->
  list_id (f j) = list_id j ->
  (forall w, exists w', K w = Ok w' /\ rest w' = rest w /\ (listed w -> listed w') /\
     forall j, jobs w !! id = Some j -> jobs w' = <[id := g j]> (jobs w)) ->
  slot_ok (length (hosts w0)) id (g ((f j) <| list_id := to |>)) -> durable (g ((f j) <| list_id := to |>)) = durable d' ->
  exists w', (let* w := job_move_list id from to (upd_job id f (rp_mbd s)) in K w) = Ok w' /\
    replayed w0 (mk_replay w' (rp_max_id s) (rp_restored s)) (<[id := durable d']> m).
Proof.
  intros H Hj Hf Hne Hl HK Hs Hd.
  assert (Hj1 : jobs (upd_job id f (rp_mbd s)) !! id = Some (f j)) by by cbn; rewrite lookup_alter_eq, Hj.
  destruct (move_listed (upd_job id f (rp_mbd s)) id (f j) from to) as (w1 & Hw1 & HL1 & HR1 & HJ1); try done.
  { apply (listed_upd_job _ id j); [apply H|done..]. }
  { by rewrite Hl. }
  rewrite Hw1. cbn [res_bind]. destruct (HK w1) as (w2 & HK2 & HR2 & HL2 & HJ2). exists w2. split; [done|].
  apply (alter_at (fun j => j <| list_id := to |>)) in Hj1. rewrite Hj1 in HJ1. cbn in HJ1.
  rewrite (alter_at f id _ j), insert_insert_eq in HJ1 by done.
  specialize (HJ2 ((f j) <| list_id := to |>)). rewrite HJ1, lookup_insert_eq, insert_insert_eq in HJ2.
  eapply replayed_step; [done|done|by apply HJ2| |by apply HL2|done|done].
  rewrite HR2. exact HR1.
Qed.

Lemma upd_job_none w id f : jobs w !! id = None -> upd_job id f w = w.
Proof.
  intros Hn. unfold upd_job. assert (Ha : alter f id (jobs w) = jobs w).
  { apply map_eq. intros i. destruct (decide (i = id)) as [->|]; [by rewrite lookup_alter_eq, Hn|].
    by rewrite lookup_alter_ne by congruence. }
  unfold upd, set_jobs. rewrite Ha. by destruct w.
Qed.

(** A change the log does not see. *)
Lemma replayed_inert w0 s m id f :
  replayed w0 s m -> (forall j, durable (f j) = durable j) -> (forall j, list_id (f j) = list_id j) ->
  (forall n i j, slot_ok n i j -> slot_ok n i (f j)) ->
  replayed w0 (mk_replay (upd_job id f (rp_mbd s)) (rp_max_id s) (rp_restored s)) m.
Proof.
  intros [H1 H2 H3 HM H4] Hd Hl Hs. split; cbn [rp_mbd rp_max_id rp_restored]; try done.
  - by rewrite durables_upd_inert.
  - destruct (jobs (rp_mbd s) !! id) as [j|] eqn:Hj.
    + apply (table_upd_job _ id j); try done. by apply Hs, H2.
    + by rewrite upd_job_none.
Qed.

(** *** The hosts of a start *)

Definition with_hosts (hs : list nat) (j : job_data) : job_data :=
  j <| run_hosts := take (run_nhosts j) (run_hosts j) ++ map Some hs
                      ++ drop (run_nhosts j + length hs) (run_hosts j) |>
    <| run_nhosts := (run_nhosts j + length hs)%nat |>.

Lemma with_hosts_cons h hs j :
  (run_nhosts j < length (run_hosts j))%nat ->
  with_hosts hs (j <| run_hosts ::= <[run_nhosts j := Some h]> |> <| run_nhosts ::= S |>) = with_hosts (h :: hs) j.
Proof.
  intros Hlt. unfold with_hosts.
  assert (H1 : take (S (run_nhosts j)) (<[run_nhosts j := Some h]> (run_hosts j)) ++ map Some hs
      ++ drop (S (run_nhosts j) + length hs) (<[run_nhosts j := Some h]> (run_hosts j)) =
    take (run_nhosts j) (run_hosts j) ++ map Some (h :: hs) ++ drop (run_nhosts j + length (h :: hs)) (run_hosts j)).
  { rewrite (take_S_r _ _ (Some h)) by by apply list_lookup_insert_eq.
    rewrite take_insert_ge by lia. rewrite drop_insert_lt by lia. cbn [length map].
    rewrite <- app_assoc. by rewrite Nat.add_succ_r. }
  cbn in *. rewrite H1. by rewrite Nat.add_succ_r.
Qed.

Lemma with_hosts_all hs j :
  run_nhosts j = 0%nat -> length hs = length (run_hosts j) -> run_hosts (with_hosts hs j) = map Some hs.
Proof.
  intros H0 Hl. change (take (run_nhosts j) (run_hosts j) ++ map Some hs
    ++ drop (run_nhosts j + length hs) (run_hosts j) = map Some hs).
  rewrite H0, Hl. cbn [take app]. rewrite drop_ge by lia. apply app_nil_r.
Qed.

Lemma opt_map_members (H : list mbd_host) qq toks hs :
  queue_hosts_ok H qq -> opt_map (fun t => q_host_hash qq !! t) toks = Some hs -> Forall (fun h => (h < length H)%nat) hs.
Proof.
  intros HQ. revert hs. induction toks as [|t toks IH]; intros hs; cbn [opt_map]; [by intros [= <-]|].
  destruct (q_host_hash qq !! t) as [h|] eqn:Ht; [|done]. destruct (opt_map _ toks) as [hs'|]; [|done].
  intros [= <-]. constructor; [|by apply IH]. destruct (HQ _ _ Ht) as (hh & Hh & _). by eapply lookup_lt_Some.
Qed.

Lemma replay_run_hosts_ok qh n toks hs j :
  opt_map (fun t => qh !! t) toks = Some hs -> (run_nhosts j + length hs <= length (run_hosts j))%nat ->
  Z.of_nat (run_nhosts j + length hs) <= n ->
  replay_run_hosts qh n toks j = Ok (with_hosts hs j, true).
Proof.
  revert hs j. induction toks as [|t toks IH]; intros hs j; cbn [opt_map replay_run_hosts].
  - intros [= <-] _ _. unfold with_hosts. cbn. rewrite Nat.add_0_r, take_drop. by destruct j.
  - destruct (qh !! t) as [h|]; [|done]. destruct (opt_map _ toks) as [hs'|]; [|done]. intros [= <-] H1 H2.
    cbn [length] in H1, H2. rewrite (proj2 (Z.leb_gt _ _)) by lia.
    rewrite (proj2 (Nat.ltb_lt _ _)) by lia. cbn [guard_or res_bind].
    rewrite <- with_hosts_cons by lia. apply IH; [done|cbn; rewrite length_insert; lia|cbn; lia].
Qed.

(** *** The branches *)

Section branches.
Context (w0 : mbd) (s : replay_state) (m : gmap Z job_data) (R : replayed w0 s m).

Lemma branch_slot id j : jobs (rp_mbd s) !! id = Some j -> slot_ok (length (hosts w0)) id j.
Proof using R.
  intros Hj. rewrite <- (f_equal hosts (rp_rest _ _ _ R) : hosts (rp_mbd s) = hosts w0).
  by apply (tb_slots _ (rp_table _ _ _ R)).
Qed.

Lemma on_mbd_ok f w' m' :
  f (rp_mbd s) = Ok w' -> replayed w0 (mk_replay w' (rp_max_id s) (rp_restored s)) m' ->
  exists s', on_mbd f s = Ok s' /\ replayed w0 s' m'.
Proof. intros Hf H. unfold on_mbd. rewrite Hf. cbn. eauto. Qed.

Lemma on_mbd_pure f m' :
  replayed w0 (mk_replay (f (rp_mbd s)) (rp_max_id s) (rp_restored s)) m' ->
  exists s', on_mbd (fun w => Ok (f w)) s = Ok s' /\ replayed w0 s' m'.
Proof. intros H. unfold on_mbd. cbn. eauto. Qed.

Lemma replay_job_finish_ok x d d' :
  m !! le_job_id x = Some d -> effect w0 (LogFinish x) d = Some d' ->
  exists w', replay_job_finish x (rp_mbd s) = Ok w' /\
    replayed w0 (mk_replay w' (rp_max_id s) (rp_restored s)) (<[le_job_id x := durable d']> m).
Proof using R.
  intros Hd He. destruct (replay_finds _ _ _ _ (rp_jobs _ _ _ R) Hd) as (j & Hj & ->).
  cbn [effect] in He. unfold when in He. cbn [list_id durable] in He.
  destruct (bool_decide _) eqn:Hb; [done|]. apply bool_decide_eq_false in Hb.
  destruct (is_active (job_state_of (le_state x))) eqn:Ha; [done|]. apply some_eq in He as <-.
  rewrite ev_finish_durable by done. unfold replay_job_finish, job_find. rewrite Hj.
  set (from := if bool_decide (list_id j = JOB_LIST_RUN) then _ else _).
  assert (Hfrom : list_id j = from) by (unfold from; case_bool_decide; [done|]; by destruct (list_id j)).
  destruct (branch_slot _ _ Hj) as (S1 & S2 & S3 & S4).
  match goal with |- context [upd_job _ ?g _] =>
    edestruct (replayed_move w0 s m (le_job_id x) j g (fun j => j) from JOB_LIST_FINISH (ev_finish x j) Ok) as (w' & Hw & HR) end;
    [exact R|exact Hj|exact Hfrom|unfold from; by case_bool_decide|reflexivity| |by split|reflexivity|].
  { intros w. exists w. split; [reflexivity|]. split; [done|]. split; [done|]. intros k Hk. by rewrite insert_id. }
  apply res_bind_Ok in Hw as (w1 & Hw & [= <-]). rewrite Hw. cbn [res_bind]. eexists. split; [reflexivity|].
  unfold job_array_element_finished. destruct (_ =? 0); [exact HR|]. destruct (job_find w1 _); [|exact HR].
  apply (replayed_inert _ _ _ _ _ HR); [durable_eq|done|done].
Qed.

Lemma replay_job_pend_ok x d d' :
  m !! lk_job_id x = Some d -> effect w0 (LogPend x) d = Some d' ->
  exists w', replay_job_pend x (rp_mbd s) = Ok w' /\
    replayed w0 (mk_replay w' (rp_max_id s) (rp_restored s)) (<[lk_job_id x := durable d']> m).
Proof using R.
  intros Hd He. destruct (replay_finds _ _ _ _ (rp_jobs _ _ _ R) Hd) as (j & Hj & ->).
  cbn [effect] in He. unfold when in He. cbn [list_id durable] in He.
  destruct (bool_decide _) eqn:Hb; [|done]. apply some_eq in He as <-. rewrite ev_pend_durable.
  unfold replay_job_pend, job_find. rewrite Hj, Hb. cbn [c_assert guard_or res_bind].
  apply bool_decide_eq_true in Hb.
  destruct (branch_slot _ _ Hj) as (S1 & S2 & S3 & S4).
  assert (Hu : forall w, upd_job (lk_job_id x) (fun j => j) w = w).
  { intros w. unfold upd_job, upd, set_jobs. replace (alter (fun j => j) (lk_job_id x) (jobs w)) with (jobs w); [by destruct w|].
    symmetry. apply alter_id. done. }
  rewrite <- (Hu (rp_mbd s)).
  match goal with |- context [Ok (upd_job _ ?g _)] =>
    edestruct (replayed_move w0 s m (lk_job_id x) j (fun j => j) g JOB_LIST_RUN JOB_LIST_PEND (ev_pend j)
      (fun w => Ok (upd_job (lk_job_id x) g w))) as (w' & Hw & HR) end;
    [exact R|exact Hj|exact Hb|done|reflexivity| |split_and!; try done; by exists []|reflexivity|by eexists].
  intros w. eexists. split; [reflexivity|]. split; [reflexivity|]. split.
  - intros HL. destruct (jobs w !! lk_job_id x) as [y|] eqn:Hy; [|by rewrite upd_job_none].
    by apply (listed_upd_job _ _ y).
  - intros y Hy. exact (alter_at _ _ _ y Hy).
Qed.

Lemma replay_job_start_ok x d d' :
  m !! ls_job_id x = Some d -> effect w0 (LogStart x) d = Some d' ->
  exists w', replay_job_start x (rp_mbd s) = Ok w' /\
    replayed w0 (mk_replay w' (rp_max_id s) (rp_restored s)) (<[ls_job_id x := durable d']> m).
Proof using R.
  intros Hd He. destruct (replay_finds _ _ _ _ (rp_jobs _ _ _ R) Hd) as (j & Hj & ->).
  cbn [effect] in He. destruct (logged_hosts w0 (durable j) x) as [hs|] eqn:Hh; [|done].
  unfold when in He. destruct (_ && _) eqn:Hc; [|done]. apply some_eq in He as <-. rewrite ev_start_durable.
  apply andb_prop in Hc as [[[C1 C2]%andb_prop C3]%andb_prop C4]. cbn [list_id rsrc durable num_hosts] in C1, C4.
  apply bool_decide_eq_true in C1. b2p.
  destruct (branch_slot _ _ Hj) as (S1 & S2 & S3 & S4). specialize (S3 C1).
  unfold replay_job_start, job_find. rewrite Hj.
  assert (Ho : state_is JOB_ORPHAN j = false).
  { unfold state_is, durable in *. cbn in C2. destruct (state j); cbn in *; done. }
  rewrite Ho. unfold replay_set_run_hosts.
  unfold logged_hosts in Hh. cbn [queue durable] in Hh. destruct (queue j) as [q|] eqn:Hq; [|done].
  rewrite <- (f_equal cf_members (rest_conf _ _ (rp_rest _ _ _ R)) :
    map q_host_hash (queues (rp_mbd s)) = map q_host_hash (queues w0)) in Hh.
  rewrite (list_lookup_fmap q_host_hash) in Hh. destruct (queues (rp_mbd s) !! q) as [qq|] eqn:Hqq; [|done]. cbn in Hh.
  assert (Hrun : forall qh, (strtok_all is_machine_delim (strbuf LL_BUFSIZ_4K (ls_hosts x)) <> [] -> qh = q_host_hash qq) ->
    replay_run_hosts qh (ls_nhosts x) (strtok_all is_machine_delim (strbuf LL_BUFSIZ_4K (ls_hosts x))) j =
    Ok (with_hosts hs j, true)).
  { intros qh Hqh. apply replay_run_hosts_ok; [|lia|lia]. destruct (strtok_all _ _); [done|]. by rewrite Hqh. }
  assert (Hx : (let* qh := match strtok_all is_machine_delim (strbuf LL_BUFSIZ_4K (ls_hosts x)) with
             | [] => Ok ∅
             | _ => let* q := job_queue (rp_mbd s) j in Ok (q_host_hash q)
             end in
    replay_run_hosts qh (ls_nhosts x) (strtok_all is_machine_delim (strbuf LL_BUFSIZ_4K (ls_hosts x))) j) =
    Ok (with_hosts hs j, true)).
  { unfold job_queue, nth_res. rewrite Hq. cbn [deref res_bind]. rewrite Hqq. cbn [res_bind].
    destruct (strtok_all _ _) eqn:Ht; cbn [res_bind]; by apply Hrun. }
  apply res_bind_Ok in Hx as (qh & -> & Hx). cbn [res_bind]. rewrite Hx. cbn [res_bind negb run_nhosts].
  assert (Hn : (Z.of_nat (run_nhosts (with_hosts hs j)) =? ls_nhosts x) = true).
  { apply Z.eqb_eq. cbn. lia. }
  rewrite Hn. cbn [c_assert guard_or res_bind negb].
  match goal with |- context [upd_job _ ?g _] =>
    edestruct (replayed_move w0 s m (ls_job_id x) j g (fun j => j) JOB_LIST_PEND JOB_LIST_RUN (ev_start x hs j) Ok) as (w' & Hw & HR) end;
    [exact R|exact Hj|exact C1|done|reflexivity| | | |].
  { intros w. exists w. split; [reflexivity|]. split; [done|]. split; [done|]. intros k Hk. by rewrite insert_id. }
  { split; [done|]. split; [|split; [done|]].
    - change (Z.of_nat (length (run_hosts (with_hosts hs j))) = num_hosts (rsrc j)).
      rewrite with_hosts_all, length_map by lia. lia.
    - exists hs. split; [|split].
      + change (take (run_nhosts j + length hs) (run_hosts (with_hosts hs j)) = map Some hs).
        rewrite with_hosts_all, S3 by lia. rewrite take_ge; [done|]. rewrite length_map. lia.
      + change (length hs = run_nhosts j + length hs)%nat. lia.
      + rewrite (f_equal queues (rp_rest _ _ _ R) : queues (rp_mbd s) = queues w0) in Hqq.
        exact (opt_map_members _ _ _ _ (rp_members _ _ _ R _ _ Hqq) Hh). }
  { pose proof (with_hosts_all hs j S3 ltac:(lia)) as Hall. unfold durable, ev_start.
    cbn -[with_hosts]. change (run_nhosts (with_hosts hs j)) with (run_nhosts j + length hs)%nat.
    rewrite Hall, S3, Nat.add_0_l. reflexivity. }
  apply res_bind_Ok in Hw as (w1 & Hw & [= <-]). eauto.
Qed.

(** The branches without a list. *)
Lemma replay_update_ok id d d' f :
  m !! id = Some d -> (forall j, list_id (f j) = list_id j) ->
  (forall n i j, slot_ok n i j -> slot_ok n i (f j)) -> (forall j, d = durable j -> durable (f j) = durable d') ->
  replayed w0 (mk_replay (upd_job id f (rp_mbd s)) (rp_max_id s) (rp_restored s)) (<[id := durable d']> m) /\
  replay_update id f (rp_mbd s) = upd_job id f (rp_mbd s).
Proof using R.
  intros Hd Hl Hs Hf. destruct (replay_finds _ _ _ _ (rp_jobs _ _ _ R) Hd) as (j & Hj & Hdj). split.
  - apply (replayed_upd w0 s m id j); [exact R|exact Hj|apply Hl| |by apply Hf].
    by apply Hs, branch_slot.
  - unfold replay_update, job_find. by rewrite Hj.
Qed.

Lemma durable_pending j s' :
  s' = JOB_PENDING \/ s' = JOB_HELD -> state_is s' (durable j) = true -> state_is s' j = true.
Proof.
  unfold state_is, durable. cbn. intros [-> | ->]; destruct (state j); cbn; done.
Qed.

Lemma replay_mark_ok x d from to :
  (from = JOB_PENDING \/ from = JOB_HELD) -> is_active to = false ->
  m !! lk_job_id x = Some d -> state_is from d = true ->
  replayed w0 (mk_replay (upd_job (lk_job_id x) (fun j => j <| state := to |>) (rp_mbd s)) (rp_max_id s) (rp_restored s))
    (<[lk_job_id x := durable (d <| state := to |>)]> m) /\
  exists j, jobs (rp_mbd s) !! lk_job_id x = Some j /\ state_is from j = true.
Proof using R.
  intros Hfrom Hto Hd Hs. split.
  - apply (replay_update_ok (lk_job_id x) d); [done|done|done|]. intros j ->. unfold durable. cbn. by rewrite Hto.
  - destruct (replay_finds _ _ _ _ (rp_jobs _ _ _ R) Hd) as (j & Hj & ->). exists j. split; [done|].
    by apply durable_pending.
Qed.
End branches.

(** *** A new job *)

Lemma job_replay_deps_slot nh id j cond j' :
  job_replay_deps j cond = Ok j' -> slot_ok nh id j -> slot_ok nh id j' /\ list_id j' = list_id j.
Proof.
  unfold job_replay_deps, job_deps_set. intros (p & Hp & H)%res_bind_Ok Hs.
  assert (Hx : slot_ok nh id p.1 /\ list_id p.1 = list_id j).
  { destruct (String.eqb _ _); [by injection Hp as <-|]. apply res_bind_Ok in Hp as ([st ds] & _ & Hp).
    assert (Hq : p = (j <| depend_cond := strbuf LL_BUFSIZ_4K cond |> <| deps := ds |>, bool_decide (st = DEP_PARSE_OK)))
      by congruence. rewrite Hq. by split. }
  destruct p as [j1 ok]. cbn [fst] in Hx. destruct ok; [assert (j' = j1) as -> by congruence; done|].
  assert (j' = j1 <| deps := [] |> <| depend_cond := EmptyString |>) as -> by congruence. exact Hx.
Qed.

Lemma logged_job_slot nh w x j : logged_job w x = Some j -> slot_ok nh (ln_job_id x) j /\ list_id j = JOB_LIST_PEND.
Proof.
  unfold logged_job. destruct (machines_hash_populate _ _) as [ms|]; [|done].
  destruct (queue_name_hash w !! _) as [q|]; [|done].
  set (j0 := (replayed_job x ms) <| queue := Some q |>). set (j1 := j0 <| run_hosts := _ |>).
  destruct (job_replay_deps j1 _) as [j'|] eqn:Hd; [|done].
  destruct (Z.leb_spec 1 (num_hosts (rsrc j0))) as [Hn|]; [|done]. intros H%some_eq. subst j'.
  apply (job_replay_deps_slot nh (ln_job_id x)) in Hd as [H1 H2]; [by split|].
  split; [reflexivity|]. split; [|split; [reflexivity|by exists []]].
  change (Z.of_nat (length (replicate (Z.to_nat (num_hosts (rsrc j0))) (@None nat))) = num_hosts (rsrc j0)).
  rewrite length_replicate. lia.
Qed.

Lemma replay_alloc_ok e x w w0 j :
  (forall n, alloc_ok e n = true) -> rest w = rest w0 -> logged_job w0 x = Some j ->
  exists n, replay_alloc e x w = Ok (w <| io := n |>, Some j).
Proof.
  intros He Hr Hj. unfold logged_job in Hj. unfold replay_alloc, try_alloc. rewrite He. cbn [negb].
  set (w1 := w <| io ::= S |>). assert (Hc : conf_of w1 = conf_of w0) by exact (rest_conf _ _ Hr).
  rewrite (populate_conf w0 w1) by done.
  rewrite (f_equal cf_queues Hc : queue_name_hash w1 = queue_name_hash w0).
  destruct (machines_hash_populate w0 _) as [ms|]; [|done]. cbn [res_bind].
  destruct (queue_name_hash w0 !! _) as [q|]; [|done].
  set (j0 := (replayed_job x ms) <| queue := Some q |>) in *. cbv zeta in *. set (j1 := j0 <| run_hosts := _ |>) in *.
  destruct (job_replay_deps j1 _) as [j'|]; [|done].
  destruct (Z.leb_spec 1 (num_hosts (rsrc j0))) as [Hn|]; [|done]. apply some_eq in Hj as ->.
  rewrite He, (proj2 (Z.leb_le 0 _)) by lia. cbn [andb negb res_bind]. eexists. reflexivity.
Qed.

Lemma replay_job_new_ok e w0 s m x m' :
  (forall n, alloc_ok e n = true) -> replayed w0 s m -> apply_event w0 m (LogNew x) = Some m' ->
  exists s', replay_job_new e x s = Ok s' /\ replayed w0 s' m'.
Proof.
  intros He R. cbn [apply_event]. destruct (m !! ln_job_id x) eqn:Hn; [done|].
  destruct (logged_job w0 x) as [j|] eqn:Hj; [|done]. intros <-%some_eq.
  destruct (replay_alloc_ok e x (rp_mbd s) w0 j He (rp_rest _ _ _ R) Hj) as [n Ha].
  destruct (logged_job_slot (length (hosts (rp_mbd s))) _ _ _ Hj) as [[S1 (S2 & S3 & S4)] Hl]. unfold replay_job_new. rewrite Ha. cbn [res_bind].
  set (w1 := (rp_mbd s) <| io := n |>). unfold replay_insert. rewrite S1.
  assert (Hn1 : jobs w1 !! ln_job_id x = None).
  { change (jobs (rp_mbd s) !! ln_job_id x = None). rewrite <- (rp_jobs _ _ _ R) in Hn. unfold durables in Hn.
    rewrite lookup_fmap in Hn. by destruct (jobs (rp_mbd s) !! ln_job_id x). }
  rewrite bool_decide_true by done. cbn [guard_or res_bind]. eexists. split; [reflexivity|].
  destruct R as [R1 R2 R3 RM R4]. split; cbn [rp_mbd rp_max_id rp_restored].
  - rewrite <- R1. unfold durables, job_set_list, upd_job. cbn -[durable]. rewrite alter_insert_eq, fmap_insert.
    f_equal. unfold durable. cbn. by rewrite Hl.
  - apply table_new; [by destruct R2|done|]. split; [exact S1|]. split; [exact S2|]. split; [|exact S4]. intros _. exact (S3 Hl).
  - exact R3.
  - exact RM.
  - intros i [d Hd]. destruct (Z.ltb_spec (rp_max_id s) (ln_job_id x)).
    + apply lookup_insert_Some in Hd as [[<- _]|[_ Hd]]; [lia|]. transitivity (rp_max_id s); [by apply R4; eexists|lia].
    + apply lookup_insert_Some in Hd as [[<- _]|[_ Hd]]; [lia|]. by apply R4; eexists.
Qed.

(** *** Any event, and the log *)

Lemma replay_event_ok e w0 s m ev m' :
  (forall n, alloc_ok e n = true) -> replayed w0 s m -> apply_event w0 m ev = Some m' ->
  exists s', replay_event e s ev = Ok s' /\ replayed w0 s' m'.
Proof.
  intros He R. destruct ev as [x|x|x|x|x|x|x|x|x|x|x]; [by apply replay_job_new_ok|..];
    cbn [apply_event replay_event event_id]; destruct (m !! _) as [d|] eqn:Hd; try done.
  - destruct (effect w0 (LogStart x) d) as [d'|] eqn:Hf; [|done]. intros <-%some_eq.
    destruct (replay_job_start_ok w0 s m R x d d' Hd Hf) as (w' & Hw & HR). exact (on_mbd_ok w0 s _ w' _ Hw HR).
  - cbn [effect]. intros <-%some_eq. apply on_mbd_pure. unfold replay_job_fork.
    eapply replay_update_ok in Hd as [HR ->]; [exact HR|exact R|done|done|]. intros j ->. by durable_eq.
  - cbn [effect]. intros <-%some_eq. apply on_mbd_pure. unfold replay_job_signal.
    eapply replay_update_ok in Hd as [HR ->]; [exact HR|exact R|done|done|]. intros j ->. by durable_eq.
  - destruct (effect w0 (LogFinish x) d) as [d'|] eqn:Hf; [|done]. intros <-%some_eq.
    destruct (replay_job_finish_ok w0 s m R x d d' Hd Hf) as (w' & Hw & HR). exact (on_mbd_ok w0 s _ w' _ Hw HR).
  - cbn [effect]. unfold when. destruct (state_is JOB_PENDING d) eqn:Hs; [|done]. intros <-%some_eq.
    destruct (replay_mark_ok w0 s m R x d JOB_PENDING JOB_HELD) as (HR & j & Hj & Hp); [by left|done..|].
    eapply on_mbd_ok; [|exact HR]. unfold replay_job_pend_susp, job_find. by rewrite Hj, Hp.
  - cbn [effect]. unfold when. destruct (state_is JOB_HELD d) eqn:Hs; [|done]. intros <-%some_eq.
    destruct (replay_mark_ok w0 s m R x d JOB_HELD JOB_PENDING) as (HR & j & Hj & Hp); [by right|done..|].
    eapply on_mbd_ok; [|exact HR]. unfold replay_job_pending_resume, job_find. by rewrite Hj, Hp.
  - cbn [effect]. unfold when. destruct (state_is JOB_RUNNING d) eqn:Hs; [|done]. intros <-%some_eq.
    apply on_mbd_pure. unfold replay_job_susp.
    eapply replay_update_ok in Hd as [HR ->]; [exact HR|exact R|done|done|]. intros j ->.
    unfold state_is in Hs. apply bool_decide_eq_true in Hs. rewrite durable_idem. revert Hs. unfold durable. cbn.
    by destruct (state j).
  - cbn [effect]. destruct (queue_name_hash w0 !! lm_to_queue x) as [q|] eqn:Hq; [|done]. intros <-%some_eq.
    apply on_mbd_pure. unfold replay_job_move.
    rewrite (f_equal cf_queues (rest_conf _ _ (rp_rest _ _ _ R)) : queue_name_hash (rp_mbd s) = queue_name_hash w0), Hq.
    eapply replay_update_ok in Hd as [HR ->]; [exact HR|exact R|done|done|]. intros j ->. by durable_eq.
  - cbn [effect]. intros <-%some_eq. apply on_mbd_pure. unfold replay_job_priority.
    eapply replay_update_ok in Hd as [HR ->]; [exact HR|exact R|done|done|]. intros j ->. by durable_eq.
  - destruct (effect w0 (LogPend x) d) as [d'|] eqn:Hf; [|done]. intros <-%some_eq.
    destruct (replay_job_pend_ok w0 s m R x d d' Hd Hf) as (w' & Hw & HR). exact (on_mbd_ok w0 s _ w' _ Hw HR).
Qed.

(** The text of a log: the lines of its events. *)
Fixpoint log_text (evs : list log_event) : res string :=
  match evs with
  | [] => Ok EmptyString
  | ev :: evs' =>
      let* t := log_write ev in
      let* ts := log_text evs' in
      Ok (t +:+ ts)
  end.

(** Events whose lines the reader can take: their fields fit the format and the
    line fits the buffer. *)
Definition line_ok (ev : log_event) : bool :=
  event_ok ev && match log_write ev with Ok t => (String.length t <=? 4095)%nat | Crash _ => false end.

Lemma replay_loop_ok e w0 evs text s m m' fuel :
  (forall n, alloc_ok e n = true) -> forallb line_ok evs = true -> log_text evs = Ok text ->
  replayed w0 s m -> apply_events w0 m evs = Some m' -> (String.length text < fuel)%nat ->
  exists s', replay_loop e fuel text s = Ok s' /\ replayed w0 s' m'.
Proof.
  intros He. revert text s m fuel. induction evs as [|ev evs IH]; intros text s m fuel Hok Ht R Ha Hf.
  - injection Ht as <-. injection Ha as <-. destruct fuel as [|f]; [lia|]. exists s. by split.
  - cbn [forallb] in Hok. apply andb_prop in Hok as [[Hev Hlen]%andb_prop Hok]. cbn [log_text apply_events] in Ht, Ha.
    destruct (log_roundtrip ev EmptyString Hev) as (t & Hw & _). rewrite Hw in Hlen, Ht. cbn [res_bind] in Ht.
    apply res_bind_Ok in Ht as (ts & Hts & [= <-]). apply Nat.leb_le in Hlen.
    destruct (log_roundtrip ev ts Hev) as (t' & Hw' & Hr). rewrite Hw in Hw'. injection Hw' as <-.
    destruct (Hr Hlen) as (rec & Hrd & Hp). destruct (apply_event w0 m ev) as [m1|] eqn:Hm1; [|done].
    destruct (replay_event_ok e w0 s m ev m1 He R Hm1) as (s1 & Hs1 & R1).
    destruct fuel as [|f]; [lia|]. cbn [replay_loop]. rewrite Hrd, Hp, Hs1. cbn [res_bind].
    apply (IH ts s1 m1 f Hok Hts R1 Ha). rewrite string_length_app in Hf.
    assert (0 < String.length t)%nat; [|lia].
    unfold event_ok in Hev. apply andb_prop in Hev as [[[Htm _]%andb_prop _]%andb_prop _]. apply Z.ltb_lt in Htm.
    rewrite (log_write_text ev Htm) in Hw. injection Hw as <-. destruct ev; cbn; lia.
Qed.
