(* ===== verification/MbdControl.v ===== *)
(** * Job control keeps the accounting and does not end the daemon

    Signals to pending and running jobs, one job, an array or every job of the
    caller; moving a job between queues; changing its priority; the signal
    acknowledgements of the execution daemons. *)

From S2P Require Import Prelude CString LlHash Dependency LogFormat MbdTypes MbdBase MbdJob MbdInv MbdFrame MbdCheck MbdSafe.

Open Scope Z_scope.

Implicit Types (w : mbd) (j : job_data) (id : Z).

(** ** Changing a pending job *)

(** A pending job changed to [c'], staying on its list or moving to the finish
    list, with the counters of its queue changed by [f]. *)
Definition pend_changed (A : acct) (id : Z) (c' : jcore) (q : nat)
    (f : mbd_queue -> mbd_queue) (P F : list Z) : acct :=
  A <| a_cores := <[id := c']> (a_cores A) |> <| a_queues := alter f q (a_queues A) |>
    <| a_pend := P |> <| a_finish := F |>.

Lemma pend_changed_ok w id j c' q f P F :
  inv w -> jobs w !! id = Some j -> list_id j = JOB_LIST_PEND ->
  same_request (core j) c' -> queue j = Some q -> jc_queue c' = Some q ->
  core_ok (length (queues w)) (length (hosts w)) id c' ->
  (forall qq, q_host_hash (f qq) = q_host_hash qq) ->
  (forall qq g, qget g (f qq) = qget g qq - qweight g (core j) + qweight g c') ->
  (jc_list c' = JOB_LIST_PEND /\ P = pend_jobs_list w /\ F = finish_jobs_list w \/
   jc_list c' = JOB_LIST_FINISH /\ remove_first id (pend_jobs_list w) = Some P /\
     F = finish_jobs_list w ++ [id]) ->
  acct_ok (pend_changed (acct_of w) id c' q f P F).
Proof.
  intros HI Hj Hl Hx Hq Hq' Hok Hm Hf Hlist.
  assert (Hcj := cores_lookup_Some _ _ _ Hj).
  apply (acct_ok_step (acct_of w) _ id (core j) c'); try done.
  - destruct Hlist as [(Hc' & -> & ->)|(Hc' & Hr & ->)].
    + apply (lists_ok_same (cores w) _ id (core j)); [apply (ao_lists _ HI)|done|by rewrite Hc'].
    + apply (lists_ok_move (cores w) (fun l => a_list l (acct_of w)) _ id (core j) c'
               JOB_LIST_PEND JOB_LIST_FINISH P); try done; [apply (ao_lists _ HI)|].
      intros l. by destruct l.
  - by apply queues_follow_alter.
  - apply (hosts_follow_idle (acct_of w)); [done|..]; intros h; apply uses_not_run; cbn;
      destruct Hlist as [(Hc' & _)|(Hc' & _)]; congruence.
Qed.

(** The queue counters of a pending job between PENDING, HELD and finished. *)
Lemma pend_weight j qq qq' c' g :
  list_id j = JOB_LIST_PEND -> pend_state (state j) ->
  (jc_list c' = JOB_LIST_PEND /\ pend_state (jc_state c') \/ jc_list c' = JOB_LIST_FINISH) ->
  q_num_jobs qq' = q_num_jobs qq - b2z (bool_decide (jc_list c' = JOB_LIST_FINISH)) ->
  q_num_pend qq' = q_num_pend qq - b2z (state_is JOB_PENDING j) + qweight QPend c' ->
  q_num_held qq' = q_num_held qq - b2z (state_is JOB_HELD j) + qweight QHeld c' ->
  q_num_run qq' = q_num_run qq -> q_num_susp qq' = q_num_susp qq ->
  q_cpus_used qq' = q_cpus_used qq -> q_hosts_used qq' = q_hosts_used qq ->
  qget g qq' = qget g qq - qweight g (core j) + qweight g c'.
Proof.
  intros Hl Hs Hc H1 H2 H3 H4 H5 H6 H7. unfold state_is, qweight in *. cbn. rewrite Hl.
  destruct Hc as [[Hc Hs']|Hc]; rewrite Hc in *;
    [destruct Hs' as [Hs'|Hs']; rewrite Hs' in *|];
    destruct Hs as [Hs|Hs]; rewrite Hs in *; eval_decide; cbn in *; destruct g; cbn in *; lia.
Qed.

(** What the pending handlers promise: the invariant, and no other job touched. *)
Definition only_job (id : Z) (w w' : mbd) : Prop :=
  (forall i, i <> id -> cores w' !! i = cores w !! i) /\ is_Some (cores w' !! id).

Definition ctl_ok (id : Z) (w : mbd) (p : mbd * Z) : Prop := inv p.1 /\ only_job id w p.1.

Lemma only_job_acct id w w' c' :
  cores w' = <[id := c']> (cores w) -> only_job id w w'.
Proof.
  intros H. split; rewrite H; [intros; by apply lookup_insert_ne|].
  rewrite lookup_insert_eq. eauto.
Qed.

Lemma only_job_same id j w w' :
  jobs w !! id = Some j -> cores w' = cores w -> only_job id w w'.
Proof.
  intros Hj H. split; rewrite H; [done|]. rewrite (cores_lookup_Some _ _ _ Hj). eauto.
Qed.

Lemma only_job_fin id j w w' :
  jobs w !! id = Some j -> list_id j <> JOB_LIST_FINISH -> only_job id w w' -> fin_kept w w'.
Proof.
  intros Hj Hl [Ho _] i c Hc Hf. rewrite Ho; [done|]. intros ->.
  rewrite (cores_lookup_Some _ _ _ Hj) in Hc. by injection Hc as <-.
Qed.

Lemma acct_cores w : a_cores (acct_of w) = cores w.
Proof. done. Qed.

Lemma finish_pending_job_wp e id j ws w :
  inv w -> jobs w !! id = Some j -> list_id j = JOB_LIST_PEND -> 0 < now e ->
  wp (finish_pending_job e id j ws w) (ctl_ok id w) False.
Proof.
  intros HI Hj Hl Hnow. unfold finish_pending_job.
  destruct (inv_job_queue w _ j HI Hj) as (q & Hq & Hlt).
  destruct (inv_pend_state w _ j HI Hj Hl) as [Hs Hend].
  rewrite (upd_job_queue_total _ _ _ q) by done. cbn [res_bind].
  unfold event_job_signal, event_job_finish. rewrite log_append_ok by exact Hnow. cbn [res_bind].
  rewrite log_append_ok by exact Hnow. cbn [res_bind].
  destruct (remove_first_in id (pend_jobs_list w)) as [r Hr].
  { pose proof (inv_listed w id j HI Hj) as Hin. by rewrite Hl in Hin. }
  match goal with |- context [job_move_list _ _ _ ?w1] => set (w2 := w1) end.
  set (fin := fun j => j <| signal_time := now e |> <| end_time := now e |> <| state := JOB_EXITED |>).
  assert (Ha : exists f, acct_of w2 = acct_of (upd_job id fin (upd_queue q f w)) /\
    forall qq, f qq = (let q := if state_is JOB_PENDING j then qq <| q_num_pend ::= Z.pred |> else qq in
       let q := if state_is JOB_HELD j then q <| q_num_held ::= Z.pred |> else q in
       q <| q_num_jobs ::= Z.pred |>)).
  { eexists. split; [|done]. unfold w2. rewrite !acct_logged. unfold job_deps_release.
    by rewrite acct_job_deps_refcnt. }
  destruct Ha as (f & Ha & Hf).
  destruct (job_move_list_acct id JOB_LIST_PEND JOB_LIST_FINISH w2 r) as (w3 & -> & H3).
  { by rewrite Ha. }
  cbn [res_bind wp]. 
  assert (H4 : acct_of w3 = pend_changed (acct_of w) id (core ((fin j) <| list_id := JOB_LIST_FINISH |>))
     q f r (finish_jobs_list w ++ [id])).
  { rewrite H3, Ha. unfold pend_changed. acct_simpl. f_equal. exact (cores_set_list w id j fin _ Hj). }
  split; cbn [fst].
  - red. rewrite acct_array_finished, H4. eapply pend_changed_ok; try done; [..|by right].
    + apply (core_ok_job _ _ _ j); try done; [by apply (inv_job w)|by left|]. cbn. split; [by right|done].
    + intros qq. rewrite Hf. same_members.
    + intros qq g. rewrite Hf. apply pend_weight; try done; [by right|..]; cbn; unfold state_is;
        destruct Hs as [Hs|Hs]; rewrite Hs; eval_decide; cbn; lia.
  - apply only_job_acct with (c' := core ((fin j) <| list_id := JOB_LIST_FINISH |>)).
    rewrite <- !acct_cores, acct_array_finished, H4. done.
Qed.

(** Stopping and resuming share the change between PENDING and HELD. *)
Lemma pend_toggle_ok w w' id j q f g :
  inv w -> jobs w !! id = Some j -> queue j = Some q -> list_id j = JOB_LIST_PEND ->
  acct_of w' = acct_of (upd_queue q f (upd_job id g w)) ->
  job_id (g j) = job_id j -> queue (g j) = queue j -> rsrc (g j) = rsrc j ->
  flags (g j) = flags j -> run_hosts (g j) = run_hosts j -> run_nhosts (g j) = run_nhosts j ->
  list_id (g j) = JOB_LIST_PEND -> pend_state (state (g j)) -> end_time (g j) = 0 ->
  (forall qq, q_num_jobs (f qq) = q_num_jobs qq) ->
  (forall qq, q_num_pend (f qq) =
     q_num_pend qq - b2z (state_is JOB_PENDING j) + b2z (state_is JOB_PENDING (g j))) ->
  (forall qq, q_num_held (f qq) =
     q_num_held qq - b2z (state_is JOB_HELD j) + b2z (state_is JOB_HELD (g j))) ->
  (forall qq, q_num_run (f qq) = q_num_run qq /\ q_num_susp (f qq) = q_num_susp qq /\
     q_cpus_used (f qq) = q_cpus_used qq /\ q_hosts_used (f qq) = q_hosts_used qq /\
     q_host_hash (f qq) = q_host_hash qq) ->
  inv w' /\ only_job id w w'.
Proof.
  intros HI Hj Hq Hl Ha Hi Hgq Hr Hfl Hh Hnh Hgl Hgs Hge H1 H2 H3 H4.
  assert (Hc : cores (upd_job id g w) = <[id := core (g j)]> (cores w)) by by apply fmap_alter_core.
  assert (H5 : acct_of w' = pend_changed (acct_of w) id (core (g j)) q f
                 (pend_jobs_list w) (finish_jobs_list w)).
  { rewrite Ha, acct_upd_queue. unfold pend_changed. acct_simpl. by rewrite Hc. }
  split.
  - red. rewrite H5. eapply pend_changed_ok; try done; [..|by left].
    + unfold same_request. cbn. unfold is_exclusive. by rewrite Hfl, Hr.
    + cbn. congruence.
    + apply (core_ok_job _ _ _ j); try done; [by apply (inv_job w)|by rewrite Hh|by left|by rewrite Hgl].
    + intros qq. apply H4.
    + intros qq gg. destruct (inv_pend_state w _ j HI Hj Hl) as [Hs _]. destruct (H4 qq) as (?&?&?&?&?).
      apply pend_weight; try done; [by left|..]; rewrite ?H1, ?H2, ?H3; unfold qweight;
        cbn [jc_list jc_state core]; rewrite Hgl; eval_decide; cbn [b2z]; [lia|..];
        unfold state_is; destruct Hgs as [Hgs|Hgs]; rewrite Hgs; eval_decide; cbn [b2z]; lia.
  - apply only_job_acct with (c' := core (g j)). rewrite <- !acct_cores, H5. done.
Qed.

Lemma stop_pending_job_wp e id j ws w :
  inv w -> jobs w !! id = Some j -> list_id j = JOB_LIST_PEND -> 0 < now e ->
  wp (stop_pending_job e id j ws w) (ctl_ok id w) False.
Proof.
  intros HI Hj Hl Hnow. unfold stop_pending_job.
  destruct (inv_job_queue w _ j HI Hj) as (q & Hq & Hlt).
  destruct (inv_pend_state w _ j HI Hj Hl) as [Hs Hend].
  destruct (state_is JOB_HELD j) eqn:Hh; [by split; [|eapply only_job_same]|].
  assert (Hp : state j = JOB_PENDING).
  { destruct Hs as [Hs|Hs]; [done|]. unfold state_is in Hh. rewrite Hs in Hh. by eval_decide. }
  unfold event_job_signal, event_job_pend_susp. rewrite log_append_ok by exact Hnow. cbn [res_bind].
  rewrite log_append_ok by exact Hnow. cbn [res_bind].
  rewrite (upd_job_queue_total _ _ _ q) by done. cbn [res_bind wp].
  unfold ctl_ok. cbn [fst]. eapply (pend_toggle_ok w _ id j q); [exact HI|exact Hj|exact Hq|exact Hl| |..];
    [rewrite acct_upd_queue, !acct_logged; symmetry; apply acct_upd_queue|..]; try done; cbn.
  - by right.
  - intros qq. unfold state_is. rewrite Hp. cbn. eval_decide. cbn. lia.
  - intros qq. unfold state_is. rewrite Hp. cbn. eval_decide. cbn. lia.
Qed.

Lemma resume_pending_job_wp e id j ws w :
  inv w -> jobs w !! id = Some j -> list_id j = JOB_LIST_PEND -> 0 < now e ->
  wp (resume_pending_job e id j ws w) (ctl_ok id w) False.
Proof.
  intros HI Hj Hl Hnow. unfold resume_pending_job.
  destruct (inv_job_queue w _ j HI Hj) as (q & Hq & Hlt).
  destruct (inv_pend_state w _ j HI Hj Hl) as [Hs Hend].
  destruct (state_is JOB_HELD j) eqn:Hh; cbn [negb]; [|by split; [|eapply only_job_same]].
  assert (Hp : state j = JOB_HELD) by (unfold state_is in Hh; by b2p).
  unfold event_job_signal, event_job_pend_resume. rewrite log_append_ok by exact Hnow. cbn [res_bind].
  rewrite log_append_ok by exact Hnow. cbn [res_bind].
  rewrite (upd_job_queue_total _ _ _ q) by done. cbn [res_bind wp].
  unfold ctl_ok. cbn [fst]. eapply (pend_toggle_ok w _ id j q); [exact HI|exact Hj|exact Hq|exact Hl| |..];
    [rewrite acct_upd_queue, !acct_logged; symmetry; apply acct_upd_queue|..]; try done; cbn.
  - by left.
  - intros qq. unfold state_is. rewrite Hp. cbn. eval_decide. cbn. lia.
  - intros qq. unfold state_is. rewrite Hp. cbn. eval_decide. cbn. lia.
Qed.

Lemma signal_pending_job_wp e id j ws w :
  inv w -> jobs w !! id = Some j -> list_id j = JOB_LIST_PEND -> 0 < now e ->
  wp (signal_pending_job e id j ws w) (ctl_ok id w) False.
Proof.
  intros. unfold signal_pending_job.
  destruct (_ || _ || _); [by apply finish_pending_job_wp|].
  destruct (_ || _); [by apply stop_pending_job_wp|].
  destruct (_ =? _); [by apply resume_pending_job_wp|]. by split; [|eapply only_job_same].
Qed.

(** ** Signalling running jobs *)

Lemma signal_running_job_wp e id j ws w :
  inv w -> jobs w !! id = Some j -> list_id j = JOB_LIST_RUN -> 0 < now e ->
  wp (signal_running_job e id j ws w) (fun p => inv p.1 /\ cores p.1 = cores w) False.
Proof.
  intros HI Hj Hl Hnow. unfold signal_running_job.
  destruct (run_host_0 w id j HI Hj Hl) as (h & hh & -> & Hhh). cbn [res_bind].
  unfold nth_res at 1. rewrite Hhh. cbn [res_bind]. destruct (_ <? _); [done|].
  unfold auth_sign_header. destruct (sign_ok e (io w)); cbn [negb]; [|done].
  io_step (enqueue_payload e (sbd_chan hh) BATCH_SBD_JOB_SIGNAL MBD_OK (BodySig ws) (w <| io ::= S |>)).
  destruct ok; cbn [negb]; [|done].
  unfold event_job_signal. rewrite log_append_ok by exact Hnow. cbn [res_bind wp fst].
  rewrite <- !acct_cores. unfold inv. rewrite !acct_logged, acct_upd_job_inert by done. done.
Qed.

(** ** One job *)

Lemma signal_one_job_wp e u id j req w :
  inv w -> jobs w !! id = Some j -> 0 < now e ->
  wp (signal_one_job e u id j req w) (fun p => ctl_ok id w p /\ fin_kept w p.1) False.
Proof.
  intros HI Hj Hnow. unfold signal_one_job.
  assert (Hsame : forall z : Z, ctl_ok id w (w, z) /\ fin_kept w w).
  { intros z. split; [by split; [|eapply only_job_same]|by apply fin_kept_same]. }
  destruct (_ && _); [apply Hsame|]. destruct (_ || _) eqn:Hd; [apply Hsame|].
  destruct (_ && _); [apply Hsame|]. destruct (_ && _); [apply Hsame|].
  pose proof (ok_state _ _ _ _ (inv_job w id j HI Hj)) as Hst. cbn in Hst. unfold state_is in *.
  destruct (list_id j) eqn:Hl.
  - assert (Hp : forall a b c : res (mbd * Z), (if bool_decide (state j = JOB_ORPHAN) || bool_decide (state j = JOB_BROKEN) then a
       else if bool_decide (state j = JOB_PENDING) || bool_decide (state j = JOB_HELD) then b else c) = b).
    { intros. destruct Hst as [[->| ->] _]; by eval_decide. }
    rewrite Hp. eapply wp_mono; [by apply signal_pending_job_wp| |done].
    intros p [H1 H2]. split; [by split|]. by eapply only_job_fin; [|rewrite Hl|].
  - assert (Hp : forall a b c : res (mbd * Z), (if bool_decide (state j = JOB_ORPHAN) || bool_decide (state j = JOB_BROKEN) then a
       else if bool_decide (state j = JOB_PENDING) || bool_decide (state j = JOB_HELD) then b else c) = c).
    { intros. destruct Hst as [[->| ->] _]; by eval_decide. }
    rewrite Hp. eapply wp_mono; [by apply (signal_running_job_wp e id j)| |done].
    intros p [H1 H2]. split; [by split; [|eapply only_job_same]|by apply fin_kept_same].
  - exfalso. destruct Hst as [[Hs|Hs] _]; rewrite Hs in Hd; by eval_decide.
Qed.

(** ** Every job of the caller, and arrays *)

Lemma cores_inv w id c : cores w !! id = Some c -> exists j, jobs w !! id = Some j /\ core j = c.
Proof. rewrite cores_lookup. destruct (jobs w !! id); [|done]. intros [= <-]. eauto. Qed.

(** The jobs still to visit are on the list [l]. *)
Definition on_list (l : job_list_id) (w : mbd) (ids : list Z) : Prop :=
  forall i, i ∈ ids -> exists c, cores w !! i = Some c /\ jc_list c = l.

Lemma on_list_all l w : inv w -> on_list l w (job_list l w).
Proof. intros HI i Hi. rewrite <- job_list_acct in Hi. by apply (ao_lists _ HI). Qed.

Lemma on_list_head l w id ids :
  on_list l w (id :: ids) -> exists j, jobs w !! id = Some j /\ list_id j = l.
Proof.
  intros H. destruct (H id ltac:(left)) as (c & Hc & Hl). apply cores_inv in Hc as (j & Hj & <-). eauto.
Qed.

Lemma on_list_tail l w w' id ids :
  on_list l w (id :: ids) -> id ∉ ids -> only_job id w w' -> on_list l w' ids.
Proof.
  intros H Hid Ho i Hi. destruct (H i ltac:(by right)) as (c & Hc & Hl). exists c. split; [|done].
  destruct Ho as [Ho _]. rewrite Ho; [done|]. by intros ->.
Qed.

Lemma scan_pending_wp e u req w id ids n :
  inv w -> on_list JOB_LIST_PEND w (id :: ids) -> NoDup (id :: ids) -> 0 < now e ->
  wp (scan_pending e u req (w, n) id)
     (fun p => kept w p.1 /\ on_list JOB_LIST_PEND p.1 ids /\ NoDup ids) False.
Proof.
  intros HI HL [Hid Hnd]%NoDup_cons Hnow. unfold scan_pending.
  destruct (on_list_head _ _ _ _ HL) as (j & Hj & Hl). rewrite Hj. cbn [deref res_bind].
  apply wp_assert.
  { destruct (inv_pend_state w id j HI Hj Hl) as [[Hs|Hs] _]; unfold state_is; rewrite Hs; by eval_decide. }
  destruct (_ && _).
  - split; [by apply kept_same|]. split; [|done].
    eapply on_list_tail; [exact HL|done|by eapply only_job_same].
  - apply wp_bind. eapply wp_mono; [by apply signal_pending_job_wp| |done].
    intros [w' cc] [H1 H2]. split; [|split; [by eapply on_list_tail|done]].
    split; [done|]. by eapply only_job_fin; [|rewrite Hl|].
Qed.

Lemma scan_running_wp e u req w id ids n :
  inv w -> on_list JOB_LIST_RUN w (id :: ids) -> 0 < now e ->
  wp (scan_running e u req (w, n) id) (fun p => kept w p.1 /\ on_list JOB_LIST_RUN p.1 ids) False.
Proof.
  intros HI HL Hnow. unfold scan_running.
  destruct (on_list_head _ _ _ _ HL) as (j & Hj & Hl). rewrite Hj. cbn [deref res_bind].
  assert (Htail : forall w', cores w' = cores w -> on_list JOB_LIST_RUN w' ids).
  { intros w' H i Hi. rewrite H. apply HL. by right. }
  destruct (run_host_0 w id j HI Hj Hl) as (h & hh & Hh & Hhh).
  unfold run_host in Hh. inv_res. subst. unfold nth_res at 1. rewrite Hr. cbn [res_bind].
  apply wp_assert; [by apply bool_decide_eq_true_2; eexists|].
  destruct (_ || _); [split; [by apply kept_same|by apply Htail]|]. cbn [deref res_bind].
  unfold nth_res at 1. rewrite Hhh. cbn [res_bind]. destruct (_ <? _); [split; [by apply kept_same|by apply Htail]|].
  apply wp_assert.
  { destruct (inv_run_state w id j HI Hj Hl) as [[Hs|Hs] _]; unfold state_is; rewrite Hs; by eval_decide. }
  destruct (_ && _); [split; [by apply kept_same|by apply Htail]|].
  apply wp_bind. eapply wp_mono; [by apply (signal_running_job_wp e id j)| |done].
  intros [w' cc] [H1 H2]. split; [|by apply Htail]. split; [done|by apply fin_kept_same].
Qed.

Lemma signal_jobs_scan_wp e u req w :
  inv w -> 0 < now e -> wp (signal_jobs_scan e u req w) (fun p => kept w p.1) False.
Proof.
  intros HI Hnow. unfold signal_jobs_scan. apply wp_bind.
  apply (wp_fold _ (fun ids p => kept w p.1 /\ on_list JOB_LIST_PEND p.1 ids /\ NoDup ids)).
  - split; [by apply kept_same|]. split; [by apply (on_list_all JOB_LIST_PEND)|].
    apply (ao_lists _ HI JOB_LIST_PEND).
  - intros id ids [w1 n] (H1 & H2 & H3).
    eapply wp_mono; [apply (scan_pending_wp e u req w1 id ids n (proj1 H1) H2 H3 Hnow)| |done].
    intros p (G1 & G2). split; [by eapply kept_trans|done].
  - intros [w1 n] (H1 & _). cbn [fst] in H1.
    apply (wp_fold _ (fun ids p => kept w p.1 /\ on_list JOB_LIST_RUN p.1 ids)).
    + split; [done|]. apply (on_list_all JOB_LIST_RUN), H1.
    + intros id ids [w2 n2] (H2 & H3).
      eapply wp_mono; [apply (scan_running_wp e u req w2 id ids n2 (proj1 H2) H3 Hnow)| |done].
      intros p (G1 & G2). split; [by eapply kept_trans|done].
    + by intros [w2 n2] [H2 _].
Qed.

(** No job leaves the table. *)
Definition jobs_kept (w w' : mbd) : Prop :=
  forall i, is_Some (cores w !! i) -> is_Some (cores w' !! i).

Lemma only_job_kept id w w' : only_job id w w' -> jobs_kept w w'.
Proof.
  intros [H1 H2] i Hi. destruct (decide (i = id)) as [->|Hne]; [done|]. by rewrite H1.
Qed.

Lemma signal_array_from_wp e u fuel id req n w :
  inv w -> 0 < now e ->
  wp (signal_array_from e u fuel id req n w) (fun p => kept w p.1 /\ jobs_kept w p.1) False.
Proof.
  intros HI Hnow. revert id n w HI. induction fuel as [|f IH]; intros id n w HI; cbn; [split; [by apply kept_same|by intros i]|].
  unfold job_find. destruct (jobs w !! id) as [j|] eqn:Hj; [|by apply IH].
  destruct (_ || _); [by apply IH|]. destruct (_ && _); [by apply IH|].
  apply wp_bind. eapply wp_mono; [by apply signal_one_job_wp| |done].
  intros [w1 cc] [[H1 H2%only_job_kept] H3]. eapply wp_mono; [by apply IH| |done].
  intros [w2 n2] [H4 H5]. split; [by eapply kept_trans; [split; [exact H1|exact H3]|]|].
  intros i Hi. by apply H5, H2.
Qed.

Lemma find_array_job w fuel index stride id target j :
  inv w -> find_array_from w fuel index stride id target = Some j -> jobs w !! job_id j = Some j.
Proof.
  intros HI. revert index id. induction fuel as [|f IH]; intros index id; cbn; [done|].
  destruct (index =? target); [|apply IH]. unfold job_find. intros Hj.
  by rewrite (inv_job_id w id j HI Hj).
Qed.

(** The head of an array carries the first index. *)
Definition array_heads_ok (w : mbd) : Prop :=
  forall id j, jobs w !! id = Some j -> array_id j <> 0 -> array_id j = job_id j ->
    array_index j = array_start j.

Lemma inv_reply e chan op st w : inv w -> inv (enqueue_header e chan op st w).1.
Proof. intros HI. red. by rewrite acct_enqueue_header. Qed.

Lemma kept_reply e chan op st w w' : kept w w' -> kept w (enqueue_header e chan op st w').1.
Proof.
  intros [HI Hf]. split; [by apply inv_reply|]. eapply fin_kept_trans; [exact Hf|].
  apply fin_kept_same. rewrite <- !acct_cores. by rewrite acct_enqueue_header.
Qed.

Lemma kept_refl w : inv w -> kept w w.
Proof. intros. by apply kept_same. Qed.

Lemma jobs_signal_wp e chan hdr req w :
  inv w -> 0 < now e ->
  wp (jobs_signal e chan hdr req w) (kept w) (~ array_heads_ok w).
Proof.
  intros HI Hnow. pose proof (kept_refl w HI) as Hk. unfold jobs_signal.
  assert (Hone : forall u id j req w1, kept w w1 -> jobs w1 !! id = Some j ->
    wp (let* (w2, cc) := signal_one_job e u id j req w1 in
        Ok (enqueue_header e chan BATCH_JOB_SIGNAL_ACK cc w2).1) (kept w) (~ array_heads_ok w)).
  { intros u id j rq w1 H1 Hj. apply wp_bind.
    eapply wp_mono; [apply (signal_one_job_wp e u id j rq w1 (proj1 H1) Hj Hnow)| |done].
    intros [w2 cc] [[H2 _] H3]. apply kept_reply. eapply kept_trans; [exact H1|]. by split. }
  destruct (_ =? 0).
  { apply wp_bind. eapply wp_mono; [by apply signal_jobs_scan_wp| |done].
    intros [w1 n] H1. by apply kept_reply. }
  destruct (negb _).
  { unfold job_find_array. destruct (job_find w _) as [hd|]; [|by apply kept_reply].
    destruct (negb _); [by apply kept_reply|].
    destruct (find_array_from _ _ _ _ _ _) as [j|] eqn:Hf; [|by apply kept_reply].
    apply Hone; [done|by eapply find_array_job]. }
  unfold job_find. cbn [sig_job_id]. destruct (jobs w !! sig_job_id req) as [j|] eqn:Hj; [|by apply kept_reply].
  destruct (_ && _) eqn:Hhead; [|by apply Hone].
  destruct (c_assert _) as [[]|c] eqn:Has; cbn [res_bind].
  2:{ intros Hah. apply andb_true_iff in Hhead as [Hh1 Hh2]. apply negb_true_iff, Z.eqb_neq in Hh1.
      apply Z.eqb_eq in Hh2. pose proof (Hah _ j Hj Hh1 Hh2) as He. rewrite He, Z.eqb_refl in Has. done. }
  apply wp_bind. eapply wp_mono; [by apply signal_array_from_wp| |done].
  intros [w1 n] [H1 H2]. cbn [fst] in *. destruct (0 <? n); [by apply kept_reply|].
  destruct (H2 (sig_job_id req)) as [c (j1 & Hj1 & _)%cores_inv].
  { rewrite (cores_lookup_Some _ _ _ Hj). eauto. }
  rewrite Hj1. cbn [deref res_bind]. by apply Hone.
Qed.

(** ** Priorities *)

Lemma job_priority_wp e chan hdr id prio w :
  inv w -> 0 < now e -> wp (job_priority e chan hdr id prio w) (kept w) False.
Proof.
  intros HI Hnow. pose proof (kept_refl w HI) as Hk. unfold job_priority, job_find.
  destruct (jobs w !! id) as [j|] eqn:Hj; [|by apply kept_reply].
  destruct (_ || _); [by apply kept_reply|]. destruct (_ && _); [by apply kept_reply|].
  assert (exists b : bool, (if is_manager w (c_uid hdr) then Ok false
     else let* q := job_queue w j in Ok (q_priority q <? prio)) = Ok b) as [b ->].
  { destruct (is_manager w (c_uid hdr)); [eauto|]. unfold job_queue.
    destruct (inv_job_queue w id j HI Hj) as (q & -> & Hlt). cbn.
    destruct (lookup_lt_is_Some_2 _ _ Hlt) as [qq Hqq]. unfold nth_res. rewrite Hqq. cbn. eauto. }
  cbn [res_bind]. destruct b; [by apply kept_reply|]. destruct (_ <? _); [by apply kept_reply|].
  destruct (_ && _); [by apply kept_reply|]. destruct (_ =? _); [by apply kept_reply|].
  unfold event_job_priority. rewrite log_append_ok by exact Hnow. cbn [res_bind wp].
  apply kept_reply, kept_same; [done|]. rewrite acct_logged. by apply acct_upd_job_inert.
Qed.

(** ** Moving a job to another queue *)

(** The job leaves the counters of one queue and enters those of another; the
    two may be the same. *)
Lemma queues_follow_move c c' Q q q' f f' :
  jc_queue c = Some q -> jc_queue c' = Some q' ->
  (forall qq, q_host_hash (f qq) = q_host_hash qq) ->
  (forall qq, q_host_hash (f' qq) = q_host_hash qq) ->
  (forall qq g, qget g (f qq) = qget g qq - qweight g c) ->
  (forall qq g, qget g (f' qq) = qget g qq + qweight g c') ->
  queues_follow c c' Q (alter f' q' (alter f q Q)).
Proof.
  intros Hq Hq' Hm Hm' Hf Hf'. split; [by rewrite !length_alter|]. intros i qq' Hi.
  apply list_lookup_alter_inv in Hi as (q1 & Hi & ->). apply list_lookup_alter_inv in Hi as (qq & Hi & ->).
  exists qq. split; [done|].
  split; [do 2 case_bool_decide; by rewrite ?Hm', ?Hm|]. intros g. unfold qcontrib. rewrite Hq, Hq'.
  rewrite (bool_decide_ext (Some q = Some i) (i = q)), (bool_decide_ext (Some q' = Some i) (i = q'))
    by naive_solver.
  do 2 case_bool_decide; rewrite ?Hf', ?Hf; lia.
Qed.

Definition queue_moved (A : acct) (id : Z) (c' : jcore) (q : nat) (f : mbd_queue -> mbd_queue)
    (q' : nat) (f' : mbd_queue -> mbd_queue) : acct :=
  A <| a_cores := <[id := c']> (a_cores A) |>
    <| a_queues := alter f' q' (alter f q (a_queues A)) |>.

Lemma queue_moved_ok w id j q q' f f' :
  inv w -> jobs w !! id = Some j -> list_id j = JOB_LIST_PEND -> queue j = Some q ->
  (q' < length (queues w))%nat ->
  (forall qq, q_host_hash (f qq) = q_host_hash qq) ->
  (forall qq, q_host_hash (f' qq) = q_host_hash qq) ->
  (forall qq g, qget g (f qq) = qget g qq - qweight g (core j)) ->
  (forall qq g, qget g (f' qq) = qget g qq + qweight g (core (j <| queue := Some q' |>))) ->
  acct_ok (queue_moved (acct_of w) id (core (j <| queue := Some q' |>)) q f q' f').
Proof.
  intros HI Hj Hl Hq Hq' Hm Hm' Hf Hf'. assert (Hc := cores_lookup_Some _ _ _ Hj).
  apply (acct_ok_step (acct_of w) _ id (core j) (core (j <| queue := Some q' |>))); try done.
  - pose proof (inv_job w id j HI Hj) as [H1 H2 H3 H4 H5 H6 H7]. split; try done. eauto.
  - apply (lists_ok_same (cores w) _ id (core j)); [apply (ao_lists _ HI)|done|done].
  - by apply queues_follow_move.
  - apply (hosts_follow_idle (acct_of w)); [done|..]; intros h; apply uses_not_run; cbn; congruence.
Qed.

Lemma pend_kept w w' id j c' :
  jobs w !! id = Some j -> list_id j <> JOB_LIST_FINISH -> inv w' ->
  cores w' = <[id := c']> (cores w) -> kept w w'.
Proof. intros Hj Hl HI Hc. split; [done|by eapply fin_kept_insert]. Qed.

Definition queue_hash_ok (w : mbd) : Prop :=
  forall n q, queue_name_hash w !! n = Some q -> (q < length (queues w))%nat.

Lemma job_move_wp e chan hdr id to_queue w :
  inv w -> 0 < now e ->
  wp (job_move e chan hdr id to_queue w) (kept w) (~ queue_hash_ok w).
Proof.
  intros HI Hnow. pose proof (kept_refl w HI) as Hk. unfold job_move, job_find.
  destruct (jobs w !! id) as [j|] eqn:Hj; [|by apply kept_reply].
  destruct (negb _ && negb _) eqn:Hp; [by apply kept_reply|].
  destruct (queue_name_hash w !! to_queue) as [to|] eqn:Hto; [|by apply kept_reply].
  unfold nth_res at 1. destruct (queues w !! to) as [tq|] eqn:Htq; cbn [res_bind].
  2:{ intros H. apply H in Hto. apply lookup_ge_None in Htq. lia. }
  destruct (negb (uid j =? _) && _); [by apply kept_reply|].
  destruct (negb (queue_user_allowed _ _)); [by apply kept_reply|].
  destruct (inv_job_queue w id j HI Hj) as (q & Hq & Hlt).
  assert (Hl : list_id j = JOB_LIST_PEND /\ pend_state (state j) /\ end_time j = 0).
  { pose proof (ok_state _ _ _ _ (inv_job w id j HI Hj)) as H. cbn in H. unfold state_is in Hp.
    destruct (list_id j); [done|exfalso..]; destruct H as [[Hs|Hs] _]; rewrite Hs in Hp; by eval_decide. }
  destruct Hl as (Hl & Hs & Hend).
  rewrite (upd_job_queue_total _ _ _ q) by done. cbn [res_bind].
  unfold event_job_move, job_queue. rewrite Hq. cbn [deref res_bind]. unfold nth_res at 1.
  destruct (lookup_lt_is_Some_2 _ _ Hlt) as [qq Hqq]. cbn [queues upd_queue].
  match goal with |- context [queues (upd_queue ?q ?f ?w) !! q] =>
    assert (Hl2 : queues (upd_queue q f w) !! q = Some (f qq)) by
      (cbn; by rewrite list_lookup_alter_eq, Hqq) end.
  rewrite Hl2. cbn [res_bind]. clear Hl2.
  rewrite log_append_ok by exact Hnow. cbn [res_bind].
  match goal with |- context [mbd_assert_counters ?x] => assert (HI' : kept w x) end.
  { apply kept_reply. eapply (pend_kept w _ id j); [done|by rewrite Hl| |by apply (fmap_alter_core _ _ _ j)].
    red. rewrite acct_upd_queue.
    match goal with |- acct_ok ((acct_of (upd_job id ?g (logged _ (upd_queue q ?f w)))) <| a_queues ::= alter ?f' to |>) =>
      replace ((acct_of (upd_job id _ (logged _ (upd_queue q _ w)))) <| a_queues ::= alter _ to |>)
        with (queue_moved (acct_of w) id (core (g j)) q f to f')
    end.
    - apply (queue_moved_ok w id j); try done; [by eapply lookup_lt_Some|same_members|same_members|..]; intros x g;
        unfold qweight, state_is; destruct Hs as [Hs|Hs]; rewrite Hs; eval_decide; cbn;
        rewrite Hl, Hs; destruct g; cbn; lia.
    - unfold queue_moved. acct_simpl. f_equal. unfold cores. cbn. by rewrite (fmap_alter_core _ _ _ j Hj). }
  rewrite assert_counters_ok by apply HI'. exact HI'.
Qed.

(** ** Acknowledged signals *)

(** A running job on one host that changes between RUNNING and SUSPENDED. *)
Definition run_toggled (A : acct) (id : Z) (c' : jcore) (q : nat) (f : mbd_queue -> mbd_queue)
    (n : nat) (f' : mbd_host -> mbd_host) : acct :=
  A <| a_cores := <[id := c']> (a_cores A) |> <| a_queues ::= alter f q |>
    <| a_hosts ::= alter f' n |>.

Definition swap_state (s : job_state) : job_state :=
  match s with JOB_RUNNING => JOB_SUSPENDED | _ => JOB_RUNNING end.

Definition run_delta (s : job_state) : Z :=
  match s with JOB_RUNNING => -1 | _ => 1 end.

Lemma uses_state c s h : uses (c <| jc_state := s |>) h = uses c h.
Proof. done. Qed.

Lemma exclusive_while_used w id j h hh :
  inv w -> jobs w !! id = Some j -> hosts w !! h = Some hh ->
  uses (core j) h = true -> is_exclusive j = true -> exclusive hh = true.
Proof.
  intros HI Hj Hh Hu Hx. rewrite (ho_excl _ _ _ (ao_hosts _ HI h hh Hh)). apply Z.ltb_lt.
  pose proof (mapsum_elem_le (hcontrib HExcl h) (cores w) id (core j)) as Hle.
  assert (Hc : hcontrib HExcl h (core j) = 1). { unfold hcontrib. rewrite Hu. cbn. by rewrite Hx. }
  rewrite Hc in Hle. cut (1 <= mapsum (hcontrib HExcl h) (cores w)); [cbn; lia|].
  apply Hle; [|by apply cores_lookup_Some]. intros. apply hcontrib_excl_le.
Qed.

(** The host of a job that changes state. *)
Lemma host_delta_swap h j hh :
  run_state (state j) -> uses (core j) h = true ->
  0 <= free_cpu hh -> 0 <= free_mem_mb hh < 2 ^ 64 -> 0 <= free_storage_mb hh < 2 ^ 64 ->
  (is_exclusive j = true -> exclusive hh = true) ->
  host_delta h (core j) (core (j <| state := swap_state (state j) |>)) hh
    (hh <| h_num_run := h_num_run hh + run_delta (state j) |>
        <| h_num_susp := h_num_susp hh - run_delta (state j) |>).
Proof.
  intros Hs Hu H1 H2 H3 Hx.
  assert (Hu' : uses (core (j <| state := swap_state (state j) |>)) h = true) by done.
  split; unfold hcontrib; rewrite ?Hu, ?Hu'; cbn; try done; try lia.
  - destruct Hs as [Hs|Hs]; rewrite Hs; cbn; lia.
  - destruct Hs as [Hs|Hs]; rewrite Hs; cbn; lia.
  - rewrite u64_small; lia.
  - rewrite u64_small; lia.
  - unfold is_exclusive in *. cbn. fold (is_exclusive j) in *.
    destruct (is_exclusive j); [by apply Hx|done].
Qed.

Lemma run_toggled_ok w id j q n f f' :
  inv w -> jobs w !! id = Some j -> list_id j = JOB_LIST_RUN -> queue j = Some q ->
  run_host_ptrs j = Ok [n] ->
  (forall qq, exists r s, f qq = qq <| q_num_run := r |> <| q_num_susp := s |> /\
     r = q_num_run qq + run_delta (state j) /\ s = q_num_susp qq - run_delta (state j)) ->
  (forall hh, exists r s, f' hh = hh <| h_num_run := r |> <| h_num_susp := s |> /\
     r = h_num_run hh + run_delta (state j) /\ s = h_num_susp hh - run_delta (state j)) ->
  acct_ok (run_toggled (acct_of w) id (core (j <| state := swap_state (state j) |>)) q f n f').
Proof.
  intros HI Hj Hl Hq Hp Hf Hf'. assert (Hc := cores_lookup_Some _ _ _ Hj).
  destruct (inv_run_plan w id j HI Hj Hl) as (hs & Hp' & _ & _ & _ & Hu & _).
  assert (hs = [n]) as -> by congruence. clear Hp'.
  destruct (inv_run_state w id j HI Hj Hl) as [Hs Hend].
  set (j' := j <| state := swap_state (state j) |>).
  apply (acct_ok_step (acct_of w) _ id (core j) (core j')); try done.
  - apply (core_ok_job _ _ _ j); try done; [by apply (inv_job w)|by left|]. cbn. rewrite Hl.
    split; [destruct Hs as [Hs|Hs]; rewrite Hs; [by right|by left]|].
    pose proof (ok_state _ _ _ _ (inv_job w id j HI Hj)) as H. cbn in H. rewrite Hl in H. tauto.
  - apply (lists_ok_same (cores w) _ id (core j)); [apply (ao_lists _ HI)|done|done].
  - apply queues_follow_alter; try done.
    { intros qq. destruct (Hf qq) as (r & s & -> & _). done. }
    intros qq g. destruct (Hf qq) as (r & s & -> & -> & ->).
    unfold qweight. cbn. rewrite Hl. destruct Hs as [Hs|Hs]; rewrite Hs; destruct g; cbn; lia.
  - split; [cbn; by rewrite length_alter|]. intros h hh' Hh'. cbn in Hh'.
    apply list_lookup_alter_inv in Hh' as (hh & Hhh & ->). exists hh. split; [done|].
    pose proof (ao_hosts _ HI h hh Hhh) as Hho.
    destruct (host_ok_ranges _ _ _ Hho) as (Hr1 & Hr2 & Hr3).
    assert (Hx : uses (core j') h = uses (core j) h) by done.
    pose proof (Hu h) as Hux. destruct (bool_decide (h = n)) eqn:Hn.
    + apply bool_decide_eq_true in Hn. rewrite bool_decide_eq_true_2 in Hux by (subst; left).
      destruct (Hf' hh) as (r & s & -> & -> & ->). apply host_delta_swap; try done.
      by eapply exclusive_while_used.
    + apply bool_decide_eq_false in Hn. rewrite bool_decide_eq_false_2 in Hux by (rewrite list_elem_of_singleton; done).
      apply host_delta_idle; congruence || done.
Qed.

(** What the reply to a stop or a resume signal must find for the counters to
    stay right: a job that runs on the replying host only, in the other state. *)
Definition sig_reply_expected (w : mbd) (n : nat) (s : wire_job_sig) : Prop :=
  forall j, jobs w !! sig_job_id s = Some j ->
    is_stop (sig_sig s) || (sig_sig s =? SIGCONT) = true ->
    list_id j = JOB_LIST_RUN /\ run_host_ptrs j = Ok [n] /\
    state j = if is_stop (sig_sig s) then JOB_RUNNING else JOB_SUSPENDED.

Lemma mbd_job_signal_reply_wp n s status w :
  inv w -> (n < length (hosts w))%nat -> sig_reply_expected w n s ->
  wp (mbd_job_signal_reply n s status w) (kept w) False.
Proof.
  intros HI Hn Hex. unfold mbd_job_signal_reply.
  destruct (lookup_lt_is_Some_2 _ _ Hn) as [nn Hnn]. unfold nth_res at 1. rewrite Hnn. cbn [res_bind].
  unfold job_find. destruct (jobs w !! sig_job_id s) as [j|] eqn:Hj; [|by apply kept_same].
  destruct (negb _); [by apply kept_same|]. specialize (Hex j Hj).
  destruct (inv_job_queue w _ j HI Hj) as (q & Hq & Hlt).
  assert (Hfin : forall w', kept w w' -> wp (let* _ := mbd_assert_counters w' in Ok w') (kept w) False).
  { intros w' HI'. rewrite assert_counters_ok by apply HI'. done. }
  fold (is_stop (sig_sig s)). destruct (is_stop (sig_sig s)) eqn:Hst.
  - destruct (Hex eq_refl) as (Hl & Hp & Hs).
    rewrite (upd_job_queue_total _ _ _ q) by done. cbn [res_bind]. apply Hfin.
    eapply (pend_kept w _ (sig_job_id s) j); [done|by rewrite Hl| |by apply (fmap_alter_core _ _ _ j)]. red.
    match goal with |- context [upd_host n ?g (upd_queue q ?f _)] =>
      pose proof (run_toggled_ok w _ j q n f g HI Hj Hl Hq Hp) as Hok end.
    rewrite Hs in Hok. unfold run_toggled in Hok. revert Hok. acct_simpl. unfold cores at 2. cbn.
    rewrite (fmap_alter_core _ _ _ j Hj). intros Hok. apply Hok; intros x;
      [exists (q_num_run x + -1), (q_num_susp x + 1)|exists (h_num_run x + -1), (h_num_susp x + 1)];
      (split; [done|cbn; lia]).
  - destruct (sig_sig s =? SIGCONT) eqn:Hco; [|by apply Hfin, kept_same].
    destruct (Hex eq_refl) as (Hl & Hp & Hs).
    rewrite (upd_job_queue_total _ _ _ q) by done. cbn [res_bind]. apply Hfin.
    eapply (pend_kept w _ (sig_job_id s) j); [done|by rewrite Hl| |by apply (fmap_alter_core _ _ _ j)]. red.
    match goal with |- context [upd_host n ?g (upd_queue q ?f _)] =>
      pose proof (run_toggled_ok w _ j q n f g HI Hj Hl Hq Hp) as Hok end.
    rewrite Hs in Hok. unfold run_toggled in Hok. revert Hok. acct_simpl. unfold cores at 2. cbn.
    rewrite (fmap_alter_core _ _ _ j Hj). intros Hok. apply Hok; intros x;
      [exists (q_num_run x + 1), (q_num_susp x + -1)|exists (h_num_run x + 1), (h_num_susp x + -1)];
      (split; [done|cbn; lia]).
Qed.
