(* ===== verification/MbdSubmit.v ===== *)
(** * Submission: new jobs get unused ids and enter the accounting *)

From S2P Require Import Prelude CString LlHash Dependency LogFormat MbdTypes MbdBase MbdJob MbdInv MbdFrame MbdCheck MbdSafe MbdControl.
From Stdlib Require Import Znumtheory.

Open Scope Z_scope.

Implicit Types (w : mbd) (j : job_data) (id : Z).

(** ** Job ids *)

(** The ids the search went over are all in use. *)
Lemma next_job_id_from_spec fuel w seq :
  match next_job_id_from fuel w seq with
  | Ok id => seq < id /\ jobs w !! id = None /\ (forall i, seq < i < id -> is_Some (jobs w !! i))
  | Crash _ => forall i, seq < i <= seq + Z.of_nat fuel -> is_Some (jobs w !! i)
  end.
Proof.
  revert seq. induction fuel as [|f IH]; intros seq; cbn; [lia|].
  unfold job_find. destruct (jobs w !! (seq + 1)) as [j|] eqn:Hj.
  - specialize (IH (seq + 1)). destruct (next_job_id_from f w (seq + 1)) as [id|].
    + destruct IH as (H1 & H2 & H3). split; [lia|]. split; [done|]. intros i Hi.
      destruct (decide (i = seq + 1)) as [->|]; [eauto|apply H3; lia].
    + intros i Hi. destruct (decide (i = seq + 1)) as [->|]; [eauto|apply IH; lia].
  - split; [lia|]. split; [done|]. lia.
Qed.

(** [n] ids in use need a table of [n] entries. *)
Lemma ids_in_use_size {A} (m : gmap Z A) (a : Z) (n : nat) :
  (forall i, a < i <= a + Z.of_nat n -> is_Some (m !! i)) -> (n <= size m)%nat.
Proof.
  revert m. induction n as [|n IH]; intros m Hm; [lia|].
  destruct (Hm (a + Z.of_nat (S n))) as [x Hx]; [lia|].
  rewrite <- (insert_delete_id m _ _ Hx), map_size_insert_None by apply lookup_delete_eq.
  enough (n <= size (delete (a + Z.of_nat (S n))%Z m))%nat by lia. apply IH. intros i Hi.
  rewrite lookup_delete_ne by lia. apply Hm. lia.
Qed.

Lemma next_job_id_wp w :
  wp (next_job_id w) (fun '(w', id) =>
    w' = w <| job_id_seq := id |> /\ job_id_seq w < id /\ jobs w !! id = None /\
    (forall i, job_id_seq w < i < id -> is_Some (jobs w !! i))) False.
Proof.
  unfold next_job_id. pose proof (next_job_id_from_spec (S (size (jobs w))) w (job_id_seq w)) as H.
  destruct (next_job_id_from _ _ _) as [id|c]; cbn; [done|].
  apply ids_in_use_size in H. lia.
Qed.

(** ** A new job in the accounting *)

Definition job_added (A : acct) (id : Z) (c : jcore) (q : nat) (f : mbd_queue -> mbd_queue) : acct :=
  A <| a_cores := <[id := c]> (a_cores A) |> <| a_pend ::= fun l => l ++ [id] |>
    <| a_queues ::= alter f q |>.

Lemma host_ok_new m id c h hh :
  host_ok m h hh -> m !! id = None -> uses c h = false -> host_ok (<[id := c]> m) h hh.
Proof.
  intros [H1 H2 H3 H4 H5 H6 H7 H8 H9 H10 H11] Hn Hu.
  assert (Hz : forall f, mapsum (hcontrib f h) (<[id := c]> m) = mapsum (hcontrib f h) m).
  { intros f. rewrite mapsum_insert_new by done. unfold hcontrib at 1. rewrite Hu. lia. }
  split; rewrite ?Hz; done.
Qed.

Lemma job_added_ok w id c q f :
  inv w -> jobs w !! id = None -> core_ok (length (queues w)) (length (hosts w)) id c ->
  jc_list c = JOB_LIST_PEND -> jc_queue c = Some q ->
  (forall qq, q_host_hash (f qq) = q_host_hash qq) ->
  (forall qq g, qget g (f qq) = qget g qq + qweight g c) ->
  acct_ok (job_added (acct_of w) id c q f).
Proof.
  intros HI Hn Hok Hl Hq Hm Hf.
  assert (Hn' : cores w !! id = None) by by rewrite cores_lookup, Hn.
  destruct HI as [H1 H2 H3 H4 H5]. split; cbn [job_added].
  - cbn. rewrite length_alter. intros i x. destruct (decide (i = id)) as [->|].
    + rewrite lookup_insert_eq. by intros [= <-].
    + rewrite lookup_insert_ne by congruence. apply H1.
  - eapply lists_ok_new; [exact H2|done|]. intros l. rewrite Hl. by destruct l.
  - intros i qq' (qq & Hqq & ->)%list_lookup_alter_inv. cbn in Hqq.
    eapply queue_ok_new; [by apply H3|done|]. intros g. unfold qcontrib. rewrite Hq.
    rewrite (bool_decide_ext (Some q = Some i) (i = q)) by naive_solver.
    case_bool_decide; [apply Hf|lia].
  - intros h hh Hh. apply host_ok_new; [by apply H4|done|]. apply uses_not_run. by rewrite Hl.
  - intros i qq' (qq & Hqq & ->)%list_lookup_alter_inv name h Hname. cbn in Hqq.
    apply (H5 i qq Hqq). by case_bool_decide; [rewrite Hm in Hname|].
Qed.

(** A job ready to enter the table. *)
Definition job_ready (w : mbd) (j : job_data) : Prop :=
  core_ok (length (queues w)) (length (hosts w)) (job_id j) (core j) /\
  list_id j = JOB_LIST_PEND /\ submit_time j > 0.

Lemma seq_deps_refcnt j d w : job_id_seq (job_deps_refcnt j d w) = job_id_seq w.
Proof.
  unfold job_deps_refcnt. revert w. induction (deps j) as [|x ds IH]; intros w; cbn; [done|].
  rewrite IH. by destruct (dep_is_call x).
Qed.

Lemma job_commit_wp j ws w :
  inv w -> job_ready w j -> jobs w !! job_id j = None ->
  wp (job_commit j ws w) (fun w' => inv w' /\ length (queues w') = length (queues w) /\
    length (hosts w') = length (hosts w) /\ job_id_seq w' = job_id_seq w /\
    cores w' = <[job_id j := core j]> (cores w)) False.
Proof.
  intros HI (Hok & Hl & Ht) Hn. unfold job_commit.
  apply wp_assert; [by apply bool_decide_eq_true_2|].
  unfold event_job_new. rewrite log_append_ok by (cbn; lia). cbn [res_bind].
  destruct (ok_queue _ _ _ _ Hok) as (q & Hq & Hlt). cbn in Hq.
  match goal with |- context [logged ?ev ?x] => set (w1 := logged ev x) end.
  assert (Ha : acct_of w1 = (acct_of w) <| a_cores := <[job_id j := core j]> (cores w) |>
                              <| a_pend ::= fun l => l ++ [job_id j] |>).
  { unfold w1. rewrite acct_logged, acct_set_list. unfold job_deps_hold. rewrite acct_job_deps_refcnt.
    acct_simpl. f_equal. unfold cores. cbn. rewrite fmap_insert, alter_insert_eq.
    f_equal. unfold core. cbn. by rewrite Hl. }
  assert (Hseq : job_id_seq w1 = job_id_seq w).
  { unfold w1. cbn. unfold job_deps_hold. by rewrite seq_deps_refcnt. }
  assert (Hlen : length (queues w1) = length (queues w)).
  { change (length (a_queues (acct_of w1)) = length (queues w)). by rewrite Ha. }
  rewrite (upd_job_queue_total _ _ _ q) by (done || by rewrite Hlen). cbn [wp].
  match goal with |- context [upd_queue q ?f w1] => set (w2 := upd_queue q f w1);
    assert (Hb : acct_of w2 = job_added (acct_of w) (job_id j) (core j) q f) end.
  { unfold w2. rewrite acct_upd_queue, Ha. done. }
  split; [|split; [|split; [|split]]].
  - red. rewrite Hb. apply job_added_ok; try done; [intros qq; by destruct (state j)|]. intros qq g.
    pose proof (ok_state _ _ _ _ Hok) as Hst. cbn in Hst. rewrite Hl in Hst.
    unfold qweight. cbn. rewrite Hl.
    destruct Hst as [[Hs|Hs] _]; rewrite Hs; destruct g; cbn; lia.
  - change (length (a_queues (acct_of w2)) = length (queues w)). rewrite Hb. cbn. apply length_alter.
  - change (length (a_hosts (acct_of w2)) = length (hosts w)). by rewrite Hb.
  - done.
  - change (a_cores (acct_of w2) = <[job_id j := core j]> (cores w)). by rewrite Hb.
Qed.

(** ** The table of machines *)

(** The names of the longest list of groups: 4096 tokens of 1024 members each. *)
Definition max_names : Z := 2 ^ 22.

Lemma prime_above_growth : prime 16777259.
Proof.
  destruct (ll_is_prime_correct 16777259) as (b & Hb & Hp); [lia|].
  apply Hp. assert (ll_is_prime 16777259 = Ok true) as H by (vm_compute; done). congruence.
Qed.

(** A table of at most [k] names that never grew past the bound. *)
Definition names_table (k : Z) (h : ll_hash unit) : Prop :=
  hash_wf h /\ nentries h <= k /\ nbuckets h <= 16777259.

Lemma hash_add_names k h key :
  names_table k h -> k < max_names -> exists h', hash_add h key = Ok h' /\ names_table (k + 1) h'.
Proof.
  unfold max_names. intros (Hwf & Hn & Hb) Hk. unfold hash_add.
  destruct (ll_hash_insert_spec alloc_fine h key tt false Hwf) as (h' & st & Hi & Hwf' & _); [lia|lia|].
  rewrite Hi. cbn. exists h'. split; [done|]. split; [done|].
  destruct (ll_hash_insert_bounds _ _ _ _ _ _ _ Hwf ltac:(lia) Hi) as [H1 H2]. split; [lia|].
  destruct H2 as [->|(H2 & H3 & H4 & H5)]; [done|].
  destruct (Z.le_gt_cases (nbuckets h') 16777259) as [|Hgt]; [done|exfalso].
  apply (H5 16777259); [lia|]. apply prime_above_growth.
Qed.

Lemma hash_add_all k h l :
  names_table k h -> k + Z.of_nat (length l) <= max_names ->
  exists h', res_fold hash_add l h = Ok h' /\ names_table (k + Z.of_nat (length l)) h'.
Proof.
  revert k h. induction l as [|x l IH]; intros k h Hh Hk; cbn in *.
  - exists h. split; [done|]. by rewrite Z.add_0_r.
  - destruct (hash_add_names k h x Hh ltac:(lia)) as (h1 & -> & H1). cbn.
    destruct (IH (k + 1) h1 H1 ltac:(lia)) as (h2 & -> & H2). exists h2. split; [done|].
    by replace (k + Z.of_nat (S (length l))) with (k + 1 + Z.of_nat (length l)) by lia.
Qed.

Lemma insert_tokens_names w k h toks :
  names_table k h -> k + 1024 * Z.of_nat (length toks) <= max_names ->
  exists h', res_fold (machines_hash_insert_token w) toks h = Ok h' /\
    names_table (k + 1024 * Z.of_nat (length toks)) h'.
Proof.
  revert k h. induction toks as [|t toks IH]; intros k h Hh Hk; cbn [res_fold length] in *.
  - exists h. split; [done|]. by rewrite Z.add_0_r.
  - assert (exists h1, machines_hash_insert_token w h t = Ok h1 /\ names_table (k + 1024) h1)
      as (h1 & -> & H1).
    { unfold machines_hash_insert_token. destruct (group_name_hash w !! t) as [g|].
      - set (l := strtok_all _ _).
        assert (Hl : (length l < LL_BUFSIZ_1K)%nat) by by apply strtok_all_buf.
        change LL_BUFSIZ_1K with 1024%nat in Hl.
        destruct (hash_add_all k h l Hh ltac:(lia)) as (h1 & -> & Hw & Hn & Hb). exists h1.
        split; [done|]. split; [done|]. lia.
      - destruct (hash_add_names k h t Hh ltac:(lia)) as (h1 & -> & Hw & Hn & Hb). exists h1.
        split; [done|]. split; [done|]. lia. }
    cbn. destruct (IH (k + 1024) h1 H1 ltac:(lia)) as (h2 & -> & H2). exists h2. split; [done|].
    by replace (k + 1024 * Z.of_nat (S (length toks))) with (k + 1024 + 1024 * Z.of_nat (length toks)) by lia.
Qed.

(** Building the table of machines never fails and the table is well formed. *)
Lemma machines_hash_populate_names w ms :
  exists h, machines_hash_populate w ms = Ok h /\ hash_wf h /\ nentries h <= max_names.
Proof.
  unfold machines_hash_populate.
  destruct (ll_hash_init_spec (V := unit) alloc_fine 101) as (h0 & -> & Hwf & Hmap & Hp); [lia|done|].
  cbn [deref res_bind].
  assert (Hn0 : nentries h0 = 0).
  { pose proof (map_to_list_to_map (M := gmap string) (entries h0) (wf_nodup _ Hwf)) as Hl0.
    change (list_to_map (entries h0)) with (hash_map h0) in Hl0. rewrite Hmap, map_to_list_empty in Hl0.
    apply Permutation_nil_l in Hl0. by rewrite (wf_count _ Hwf), <- Hl0. }
  destruct (String.eqb ms EmptyString); [exists h0; rewrite Hn0; unfold max_names; split; [done|]; split; [done|lia]|].
  match goal with |- context [strtok_all ?d ?s] => set (l := strtok_all d s) end.
  assert (Hl : (length l < LL_BUFSIZ_4K)%nat) by by apply strtok_all_buf.
  change LL_BUFSIZ_4K with 4096%nat in Hl.
  destruct (insert_tokens_names w 0 h0 l) as (h & -> & Hw & Hn & _).
  - split; [done|]. split; [lia|].
    destruct Hp as (_ & _ & Hmin). destruct (Z.le_gt_cases (nbuckets h0) 16777259); [done|exfalso].
    apply (Hmin 16777259); [cbn; lia|]. apply prime_above_growth.
  - unfold max_names. lia.
  - exists h. split; [done|]. split; [done|]. unfold max_names. lia.
Qed.

Lemma machines_hash_populate_wf w ms :
  exists h, machines_hash_populate w ms = Ok h /\ hash_wf h.
Proof. destruct (machines_hash_populate_names w ms) as (h & ? & ? & _). eauto. Qed.

(** ** Preparing the jobs of a submission *)

(** The resource counts of the request are not negative. *)
Definition submit_sane (ws : wire_job_submit) : Prop :=
  0 <= sub_num_cpus ws /\ 0 <= sub_mem_mb ws /\ 0 <= sub_storage_mb ws.

(** Preparing changes the id sequence and the attempt counter only. *)
Definition same_but_seq (w w' : mbd) : Prop :=
  exists seq n, w' = w <| job_id_seq := seq |> <| io := n |> /\ job_id_seq w <= seq.

(** A failed write of a job's files sets errno. *)
Definition errnos_ok (e : env) : Prop :=
  forall id, script_err e id <> Some 0 /\ sidecar_err e id <> Some 0.

Definition prepared_by (e : env) (w : mbd) (p : mbd * wire_job_submit * (Z + job_data)) : Prop :=
  let '(w', ws', r) := p in
  same_but_seq w w' /\ submit_sane ws' /\
  match r with
  | inl err => errnos_ok e -> err <> 0
  | inr j => job_ready w j /\ jobs w !! job_id j = None /\
             job_id_seq w < job_id j /\ job_id j = job_id_seq w' /\
             (forall i, job_id_seq w < i < job_id j -> is_Some (jobs w !! i))
  end.

Lemma job_alloc_wp e ws w :
  submit_sane ws -> 0 < now e -> wp (job_alloc e ws w) (prepared_by e w) (~ queue_hash_ok w).
Proof.
  intros (Hc & Hm & Hst) Hnow. unfold job_alloc, try_alloc.
  destruct (alloc_ok e (io w)); cbn [negb].
  2:{ split; [|done]. exists (job_id_seq w), (S (io w)). split; [by destruct w|lia]. }
  apply wp_bind. eapply wp_mono; [apply next_job_id_wp| |done].
  intros [w1 id] (-> & Hlt & Hn & Hused). cbn in Hlt, Hn, Hused.
  match goal with |- context [machines_hash_populate ?a ?b] =>
    destruct (machines_hash_populate_wf a b) as (ms & -> & Hwf) end. cbn [res_bind].
  cbv zeta. set (nh := if 0 <? nentries ms then _ else _).
  set (nh1 := if nh <? 1 then 1 else nh).
  assert (Hnh1 : 1 <= nh1) by (unfold nh1; destruct (Z.ltb_spec nh 1); lia).
  assert (Hms : 0 < nentries ms -> nh1 = nentries ms).
  { intros Hpos. unfold nh1, nh. rewrite (proj2 (Z.ltb_lt _ _) Hpos).
    destruct (Z.ltb_spec (nentries ms) 1); lia. }
  match goal with |- context [queue_name_hash _ !! sub_queue ?x] => set (ws1 := x) end.
  assert (Hws1 : submit_sane ws1 /\ sub_num_cpus ws1 = sub_num_cpus ws /\
            sub_mem_mb ws1 = sub_mem_mb ws /\ sub_storage_mb ws1 = sub_storage_mb ws).
  { unfold ws1, submit_sane. destruct (String.eqb (sub_name ws) _), (String.eqb (sub_queue _) _); done. }
  destruct Hws1 as (Hsane & H1 & H2 & H3). clearbody ws1 nh1.
  destruct (queue_name_hash _ !! sub_queue ws1) as [q|] eqn:Hqn.
  2:{ split; [|done]. exists id, (S (io w)). split; [done|lia]. }
  unfold nth_res at 1. destruct (queues _ !! q) as [qq|] eqn:Hqq.
  2:{ intros Hq. apply Hq in Hqn. apply lookup_ge_None in Hqq. cbn in Hqq. lia. }
  cbn [res_bind].
  destruct (negb _); [split; [|done]; exists id, (S (io w)); split; [done|lia]|].
  cbn [alloc_ok io]. destruct (alloc_ok e _); cbn [negb wp].
  - split; [exists id, (S (S (io w))); split; [done|lia]|]. split; [done|]. cbn.
    split; [|split; [done|]; split; [lia|done]]. split; [|split; [done|cbn; lia]].
    split; cbn; try done.
    + exists q. split; [done|]. by eapply lookup_lt_Some.
    + lia.
    + lia.
    + rewrite length_replicate. lia.
    + auto.
    + split; [|done]. destruct (has_flag _ _); [by right|by left].
    + by exists [].
  - split; [|done]. exists id, (S (S (io w))). split; [done|lia].
Qed.

Lemma job_deps_set_Ok j cond r j' ok :
  job_deps_set j cond r = Ok (j', ok) ->
  exists dc ds, j' = j <| depend_cond := dc |> <| deps := ds |>.
Proof.
  unfold job_deps_set. destruct (String.eqb cond EmptyString).
  - intros [= <- _]. exists (depend_cond j), (deps j). by destruct j.
  - intros H. apply res_bind_Ok in H as ([st ds] & _ & [= <- _]). eauto.
Qed.

Lemma job_deps_set_total j cond r : exists p, job_deps_set j cond r = Ok p.
Proof.
  unfold job_deps_set. destruct (String.eqb cond EmptyString); [eauto|].
  destruct (dep_parse_total r (fun _ => true) cond) as (st & ds & -> & _). eauto.
Qed.

(** The fields a job keeps from [job_alloc] on. *)
Definition same_job (j j' : job_data) : Prop :=
  core j' = core j /\ submit_time j' = submit_time j.

Lemma job_ready_same w j j' : same_job j j' -> job_ready w j -> job_ready w j'.
Proof.
  intros [Hc Ht] (H1 & H2 & H3).
  assert (Hi : job_id j' = job_id j) by (change (jc_id (core j') = jc_id (core j)); by rewrite Hc).
  assert (Hl : list_id j' = list_id j) by (change (jc_list (core j') = jc_list (core j)); by rewrite Hc).
  split; [by rewrite Hc, Hi|]. by rewrite Hl, Ht.
Qed.

Lemma job_prepare_wp e ws hdr w :
  submit_sane ws -> 0 < now e -> wp (job_prepare e ws hdr w) (prepared_by e w) (~ queue_hash_ok w).
Proof.
  intros Hs Hnow. unfold job_prepare. apply wp_bind.
  eapply wp_mono; [by apply job_alloc_wp| |done]. intros [[w1 ws1] r] (Hw & Hs1 & Hr).
  destruct r as [err|j]; [done|]. destruct Hr as (Hrdy & Hn & Hseq & Hused). cbn [job_id].
  assert (Herr : forall o : option Z, (errnos_ok e -> o <> Some 0) -> forall err, o = Some err -> errnos_ok e -> err <> 0) by naive_solver.
  destruct (script_err _ _) eqn:H1.
  { split; [done|]. split; [done|]. eapply Herr; [|exact H1]. intros He. apply He. }
  destruct (sidecar_err _ _) eqn:H2.
  { split; [done|]. split; [done|]. eapply Herr; [|exact H2]. intros He. apply He. }
  destruct (job_parse_tokens _ _ _) as [ts|]; [|done].
  apply wp_bind. unfold job_parse_deps.
  match goal with |- context [job_deps_set ?a ?b ?c] =>
    destruct (job_deps_set_total a b c) as [[j' ok] Hd] end. rewrite Hd. cbn [wp].
  destruct ok; [|done]. apply job_deps_set_Ok in Hd as (dc & ds & ->).
  split; [done|]. split; [done|]. split; [|done]. by eapply job_ready_same.
Qed.

(** The jobs prepared so far: ready, unused ids, consecutive, up to the sequence. *)
Record batch_ok (w0 w : mbd) (l : list job_data) : Prop := mk_batch_ok {
  bo_state : same_but_seq w0 w;
  bo_ready : Forall (job_ready w0) l;
  bo_unused : Forall (fun j => jobs w0 !! job_id j = None) l;
  bo_range : Forall (fun j => job_id_seq w0 < job_id j <= job_id_seq w) l;
  bo_ids : exists a, map job_id l = seqZ a (Z.of_nat (length l));
  bo_last : forall p, last l = Some p -> job_id p = job_id_seq w
}.

Lemma bump_head_Forall (P : job_data -> Prop) l :
  (forall j n, P j -> P (j <| array_element_cnt := n |>)) -> Forall P l -> Forall P (bump_head l).
Proof. intros HP [|j l' Hj Hl]; constructor; [by apply (HP j)|done]. Qed.

Lemma bump_head_length l : length (bump_head l) = length l.
Proof. by destruct l. Qed.

Lemma bump_head_ids l : map job_id (bump_head l) = map job_id l.
Proof. by destruct l. Qed.

Lemma batch_ok_bump w0 w l : batch_ok w0 w l -> batch_ok w0 w (bump_head l).
Proof.
  intros [H1 H2 H3 H4 H5 H6]. split; [done|..].
  - apply bump_head_Forall; [|done]. intros j n Hj. by eapply job_ready_same.
  - by apply bump_head_Forall.
  - by apply bump_head_Forall.
  - by rewrite bump_head_ids, bump_head_length.
  - intros p Hp. destruct l as [|h [|x t]]; [done| |by apply H6].
    injection Hp as <-. by apply (H6 h).
Qed.

Lemma batch_ok_snoc w0 w w1 l j :
  batch_ok w0 w l -> same_but_seq w w1 -> job_ready w j -> jobs w !! job_id j = None ->
  job_id_seq w < job_id j -> job_id j = job_id_seq w1 ->
  (forall p, last l = Some p -> job_id j = job_id p + 1) ->
  batch_ok w0 w1 (l ++ [j]).
Proof.
  intros [H1 H2 H3 H4 [a H5] _] Hw Hr Hn Hseq Hlast Hp.
  destruct H1 as (s1 & n1 & -> & Hs1). destruct Hw as (s2 & n2 & -> & Hs2). cbn in *.
  split.
  - exists s2, n2. split; [done|]. lia.
  - apply Forall_app. split; [done|]. by constructor.
  - apply Forall_app. split; [done|]. by constructor.
  - apply Forall_app. split; [|constructor; [cbn; lia|done]].
    eapply Forall_impl; [exact H4|]. cbn. lia.
  - rewrite map_app, length_app. cbn. destruct l as [|x l' _] using rev_ind; cbn.
    + exists (job_id j). by rewrite seqZ_cons by lia.
    + exists a. rewrite H5, Nat2Z.inj_add, seqZ_app by lia. f_equal. rewrite seqZ_cons by lia. cbn.
      f_equal. rewrite (Hp x) by apply last_snoc.
      rewrite map_app, length_app, Nat2Z.inj_add, seqZ_app in H5 by lia. cbn in H5.
      apply app_inj_2 in H5 as [_ H5]; [|done]. rewrite seqZ_cons in H5 by lia. injection H5 as H5.
      rewrite length_app. cbn. lia.
  - intros p. rewrite last_snoc. by intros [= <-].
Qed.

(** Every job of the table has an id at or below the sequence. *)
Definition seq_ok (w : mbd) : Prop := forall id, is_Some (jobs w !! id) -> id <= job_id_seq w.

(** What a submission needs to be handled to its end: the table of queue names
    points to queues, the ids are at or below the sequence, and a failed write
    sets errno. *)
Definition register_ready (e : env) (w : mbd) : Prop := queue_hash_ok w /\ seq_ok w /\ errnos_ok e.

(** The ids of a batch follow each other when the sequence is at the top. *)
Lemma batch_next w0 w l j p :
  batch_ok w0 w l -> seq_ok w0 -> job_id_seq w < job_id j ->
  (forall i, job_id_seq w < i < job_id j -> is_Some (jobs w !! i)) ->
  last l = Some p -> job_id j = job_id p + 1.
Proof.
  intros Hb Hs Hlt Hused Hp. rewrite (bo_last _ _ _ Hb p Hp).
  destruct (bo_state _ _ _ Hb) as (s1 & n1 & -> & Hs1). cbn in *.
  destruct (decide (job_id j = s1 + 1)) as [|Hne]; [done|exfalso].
  pose proof (Hs _ (Hused (s1 + 1) ltac:(lia))). lia.
Qed.

Lemma prepare_loop_wp e hdr fuel start stop stride index prepared ws w0 w :
  submit_sane ws -> 0 < now e -> batch_ok w0 w prepared ->
  wp (prepare_loop e hdr fuel start stop stride index prepared ws w)
     (fun '(w', _, r) => same_but_seq w0 w' /\
        match r with
        | inl _ => True
        | inr l => batch_ok w0 w' l /\ length l = (length prepared + fuel)%nat
        end) (~ register_ready e w0).
Proof.
  intros Hs Hnow. revert index prepared ws w Hs.
  induction fuel as [|f IH]; intros index prepared ws w Hs Hb; cbn.
  { split; [apply Hb|]. split; [done|lia]. }
  apply wp_bind. eapply wp_mono; [by apply job_prepare_wp| |].
  2:{ intros Hq (Hq0 & _). apply Hq. by destruct (bo_state _ _ _ Hb) as (s1 & n1 & -> & _). }
  intros [[w1 ws1] r] (Hw & Hs1 & Hr).
  destruct r as [err|j].
  { apply wp_bind. destruct (Z.eqb_spec err 0) as [->|Hne]; cbn; [intros (_ & _ & He); by apply Hr|]. split; [|done].
    destruct (bo_state _ _ _ Hb) as (s1 & n1 & -> & Hs2). destruct Hw as (s2 & n2 & -> & Hs3).
    cbn in *. exists s2, n2. split; [done|lia]. }
  destruct Hr as (Hrdy & Hn & Hseq & Hlast & Hused). apply wp_bind.
  match goal with |- wp ?m _ _ => destruct m as [aid|] eqn:Haid end; cbn [wp].
  2:{ intros (_ & Hsq & _). destruct prepared as [|h t]; [done|].
      destruct (last (h :: t)) as [p|] eqn:Hp; [|by apply last_None in Hp].
      rewrite (batch_next w0 w (h :: t) j p Hb Hsq Hseq Hused Hp) in Haid. by rewrite Z.eqb_refl in Haid. }
  assert (Hp : forall p, last prepared = Some p -> job_id j = job_id p + 1).
  { intros p Hp. destruct prepared as [|h t]; [done|]. inv_res. rewrite Hp in Hr. b2p. lia. }
  set (j1 := if has_flag _ _ then _ else j).
  assert (Hj1 : same_job j j1 /\ job_id j1 = job_id j) by (unfold j1; by destruct (has_flag _ _)).
  destruct Hj1 as [Hj1 Hid].
  assert (Hb1 : batch_ok w0 w1 (prepared ++ [j1])).
  { apply (batch_ok_snoc w0 w); rewrite ?Hid; try done. by eapply job_ready_same. }
  eapply wp_mono; [apply IH; [done|]| |done].
  - destruct (has_flag _ _); [by apply batch_ok_bump|done].
  - intros [[w2 ws2] r2] [H1 H2]. split; [done|]. destruct r2; [done|]. destruct H2 as [H2 H3].
    split; [done|]. rewrite H3. destruct (has_flag _ _); rewrite ?bump_head_length, length_app; cbn; lia.
Qed.

(** ** The whole request *)

Lemma job_commit_prepared_wp l ws w :
  inv w -> Forall (job_ready w) l -> Forall (fun j => jobs w !! job_id j = None) l ->
  NoDup (map job_id l) ->
  wp (job_commit_prepared l ws w) (fun w' => inv w' /\ job_id_seq w' = job_id_seq w /\
    cores w' = foldl (fun m j => <[job_id j := core j]> m) (cores w) l) False.
Proof.
  revert w. induction l as [|j l IH]; intros w HI Hr Hn Hnd; cbn; [done|].
  apply Forall_cons in Hr as [Hj Hr]. apply Forall_cons in Hn as [Hnj Hn].
  apply NoDup_cons in Hnd as [Hni Hnd]. apply wp_bind.
  eapply wp_mono; [by apply job_commit_wp| |done]. intros w1 (H1 & H2 & H3 & H4 & H5).
  eapply wp_mono; [apply IH; try done| |done].
  - eapply Forall_impl; [exact Hr|]. intros x (Hx & ? & ?). split; [|done]. by rewrite H2, H3.
  - apply Forall_forall. intros x Hx. rewrite Forall_forall in Hn. specialize (Hn x Hx).
    assert (Hc : cores w1 !! job_id x = None).
    { rewrite H5, lookup_insert_ne; [by rewrite cores_lookup, Hn|].
      intros He. apply Hni. rewrite He. by apply list_elem_of_fmap_2. }
    rewrite cores_lookup in Hc. by destruct (jobs w1 !! job_id x).
  - intros w2 (G1 & G2 & G3). split; [done|]. split; [congruence|]. by rewrite G3, H5.
Qed.

Lemma inv_same_but_seq w w' : same_but_seq w w' -> inv w -> inv w'.
Proof. by intros (s & n & -> & _). Qed.

(** The number of jobs a request asks for. *)
Definition submit_count (ws : wire_job_submit) : nat :=
  if has_flag (sub_flags ws) JOB_FLAG_ARRAY
  then range_count (sub_array_start ws) (sub_array_end ws) (sub_array_stride ws) else 1.

(** What a request does to the job table: nothing, or as many new jobs as asked
    for, all with unused consecutive ids, the last one saved as the sequence. *)
Definition submitted (ws : wire_job_submit) (w w' : mbd) : Prop :=
  cores w' = cores w \/
  exists a js, map job_id js = seqZ a (Z.of_nat (submit_count ws)) /\
    Forall (fun j => job_id_seq w < job_id j /\ jobs w !! job_id j = None /\
                     list_id j = JOB_LIST_PEND) js /\
    cores w' = foldl (fun m j => <[job_id j := core j]> m) (cores w) js /\
    job_id_seq_file w' = Some (job_id_seq w').

Lemma cores_foldl_lookup js (m : gmap Z jcore) id :
  is_Some (foldl (fun m j => <[job_id j := core j]> m) m js !! id) ->
  is_Some (m !! id) \/ id ∈ map job_id js.
Proof.
  revert m. induction js as [|j js IH]; intros m; cbn; [by left|]. intros [H|H]%IH.
  - destruct (decide (id = job_id j)) as [->|]; [right; left|].
    rewrite lookup_insert_ne in H by done. by left.
  - right. by right.
Qed.

Lemma is_Some_cores w id : is_Some (cores w !! id) <-> is_Some (jobs w !! id).
Proof. rewrite cores_lookup, fmap_is_Some. done. Qed.

Lemma seq_ok_mono w w' : cores w' = cores w -> job_id_seq w <= job_id_seq w' -> seq_ok w -> seq_ok w'.
Proof.
  intros Hc Hle Hs id Hid. apply is_Some_cores in Hid. rewrite Hc in Hid. apply is_Some_cores in Hid.
  specialize (Hs id Hid). lia.
Qed.

Lemma job_register_error_io e chan st w :
  exists n out, job_register_error e chan st w = with_io n out w.
Proof. apply enqueue_io. Qed.

Lemma range_count_1 : range_count 0 0 1 = 1%nat.
Proof. done. Qed.

Lemma job_register_wp e chan hdr ws w :
  inv w -> submit_sane ws -> 0 < now e ->
  wp (job_register e chan hdr ws w)
     (fun w' => inv w' /\ (seq_ok w -> seq_ok w') /\ submitted ws w w') (~ register_ready e w).
Proof.
  intros HI Hs Hnow. unfold job_register.
  assert (Hrej : forall w1 st, same_but_seq w w1 ->
    inv (job_register_error e chan st w1) /\ (seq_ok w -> seq_ok (job_register_error e chan st w1)) /\
    submitted ws w (job_register_error e chan st w1)).
  { intros w1 st (s & n & -> & Hle). destruct (job_register_error_io e chan st (w <| job_id_seq := s |> <| io := n |>))
      as (n' & out & ->). split; [done|]. split; [|by left]. by apply (seq_ok_mono w). }
  destruct (_ && _). { apply Hrej. exists (job_id_seq w), (io w). split; [by destruct w|lia]. }
  match goal with |- context [prepare_loop _ _ (range_count ?a ?b ?c)] =>
    replace (range_count a b c) with (submit_count ws) by (unfold submit_count; by destruct (has_flag _ _)) end.
  apply wp_bind. eapply wp_mono; [apply (prepare_loop_wp _ _ _ _ _ _ _ _ _ w); [done|done|]| |done].
  { split; [|constructor..|by exists 0|done]. exists (job_id_seq w), (io w). split; [by destruct w|lia]. }
  intros [[w1 ws1] r] [Hw Hr]. destruct r as [err|l]; [by apply Hrej|]. destruct Hr as [Hb Hlen].
  unfold job_register_reply.
  match goal with |- context [enqueue_payload ?e ?c ?o ?s ?b w1] => io_step (enqueue_payload e c o s b w1) end.
  destruct ok; cbn [negb].
  2:{ destruct Hw as (s & n & -> & Hle). split; [done|]. split; [by apply (seq_ok_mono w)|by left]. }
  destruct Hb as [_ H2 H3 H4 [a H5] _]. apply wp_bind.
  assert (Hnd : NoDup (map job_id l)) by (rewrite H5; apply NoDup_seqZ).
  destruct Hw as (s & n & -> & Hle).
  eapply wp_mono; [eapply (job_commit_prepared_wp l _ (with_io n' out _)); try done| |done].
  intros w2 (G1 & G2 & G3). split; [done|]. split.
  - intros Hseq id Hid. apply is_Some_cores in Hid. cbn in Hid, G2 |- *.
    change (is_Some (cores w2 !! id)) in Hid. rewrite G3 in Hid.
    apply cores_foldl_lookup in Hid as [Hid|Hid].
    + apply (is_Some_cores w) in Hid. specialize (Hseq id Hid). lia.
    + apply list_elem_of_fmap in Hid as (x & -> & Hx). rewrite Forall_forall in H4.
      specialize (H4 x Hx). cbn in H4. lia.
  - right. exists a, l. rewrite H5, Hlen. split; [done|]. split; [|done].
    apply Forall_forall. intros x Hx. rewrite Forall_forall in H2, H3, H4.
    split; [apply (H4 x Hx)|]. split; [by apply H3|]. by apply (H2 x Hx).
Qed.

Lemma cores_foldl_other js (m : gmap Z jcore) id :
  id ∉ map job_id js -> foldl (fun m j => <[job_id j := core j]> m) m js !! id = m !! id.
Proof.
  revert m. induction js as [|j js IH]; intros m; cbn; [done|]. intros [Hne Hni]%not_elem_of_cons.
  by rewrite IH, lookup_insert_ne.
Qed.

(** New jobs take unused ids, so the finished ones stay. *)
Lemma submitted_fin ws w w' : submitted ws w w' -> fin_kept w w'.
Proof.
  intros [Hc|(a & js & _ & Hjs & Hc & _)]; [by apply fin_kept_same|].
  intros i c Hi _. rewrite Hc, cores_foldl_other; [done|]. intros (j & -> & Hj)%list_elem_of_fmap.
  rewrite Forall_forall in Hjs. destruct (Hjs j Hj) as (_ & Hn & _).
  rewrite cores_lookup, Hn in Hi. done.
Qed.
