(* ===== verification/MbdPlan.v ===== *)
(** * The host plans of the scheduler

    The order of the pending list; the hosts that meet a job's requirements; that
    both planners choose distinct eligible hosts, the general one the fullest of
    them first, and that they give up only when there are too few. *)

From S2P Require Import Prelude CString LlHash Dependency LogFormat MbdTypes MbdBase MbdJob MbdSched.
From S2P Require Import MbdInv MbdFrame MbdSafe.

Open Scope Z_scope.

Implicit Types (w : mbd) (j : job_data) (id : Z).

(** ** What a host must offer *)

Record meets (h : mbd_host) (j : job_data) : Prop := mk_meets {
  mt_candidate : candidate h = true;
  mt_shared : exclusive h = false;
  mt_alone : is_exclusive j = true -> h_num_jobs h <= 0;
  mt_cpu : num_cpus (rsrc j) <= free_cpu h;
  mt_mem : mem_mb (rsrc j) <= free_mem_mb h;
  mt_storage : storage_mb (rsrc j) <= free_storage_mb h;
  mt_gpus : 0 < num_gpus (rsrc j) -> host_has_gpu_count h j = true;
  mt_model : gpu_model (rsrc j) <> EmptyString -> host_has_gpu_model_and_count h j = true
}.

Lemma host_meets_spec h j d : (host_meets_requirements h j d).1 = true <-> meets h j.
Proof.
  unfold host_meets_requirements.
  destruct (candidate h) eqn:E1; cbn [negb]; [|split; [done|by intros []; congruence]].
  destruct (exclusive h) eqn:E2; [split; [done|by intros []; congruence]|].
  destruct (is_exclusive j && (0 <? h_num_jobs h)) eqn:E3.
  { split; [done|]. intros []. b2p. destruct E3 as [E3 E4]. specialize (mt_alone0 E3). lia. }
  destruct (Z.ltb_spec (free_cpu h) (num_cpus (rsrc j))); [split; [done|intros []; lia]|].
  destruct (Z.ltb_spec (free_mem_mb h) (mem_mb (rsrc j))); [split; [done|intros []; lia]|].
  destruct (Z.ltb_spec (free_storage_mb h) (storage_mb (rsrc j))); [split; [done|intros []; lia]|].
  destruct ((0 <? num_gpus (rsrc j)) && negb (host_has_gpu_count h j)) eqn:E4.
  { split; [done|]. intros []. apply andb_true_iff in E4 as [E4 E5]. apply Z.ltb_lt in E4.
    rewrite mt_gpus0 in E5 by done. done. }
  destruct (negb (String.eqb _ _) && negb (host_has_gpu_model_and_count h j)) eqn:E5.
  { split; [done|]. intros []. apply andb_true_iff in E5 as [E5 E6].
    apply negb_true_iff, String.eqb_neq in E5. rewrite mt_model0 in E6 by done. done. }
  split; [|done]. intros _. split; try done.
  - intros Hx. rewrite Hx in E3. cbn in E3. by apply Z.ltb_ge in E3.
  - intros Hg. rewrite (proj2 (Z.ltb_lt _ _) Hg) in E4. cbn in E4. by apply negb_false_iff in E4.
  - intros Hg. apply String.eqb_neq in Hg. rewrite Hg in E5. cbn in E5. by apply negb_false_iff in E5.
Qed.

Definition eligible (q : mbd_queue) (j : job_data) (h : mbd_host) : bool :=
  host_in_queue_group q h && (host_meets_requirements h j diag_zero).1.

Lemma host_meets_diag h j d d' :
  (host_meets_requirements h j d).1 = (host_meets_requirements h j d').1.
Proof. apply eq_true_iff_eq. by rewrite !host_meets_spec. Qed.

(** The walk over the host list collects the eligible hosts, in list order. *)
Lemma plan_host_all q j hs plan d :
  (foldl (plan_host q j) (plan, d) hs).1
  = plan ++ map fst (List.filter (fun p => eligible q j p.2) hs).
Proof.
  revert plan d. induction hs as [|[i h] hs IH]; intros plan d; cbn; [by rewrite app_nil_r|].
  unfold eligible at 1. cbn [snd]. destruct (host_in_queue_group q h); cbn [negb andb]; [|apply IH].
  rewrite (host_meets_diag _ _ diag_zero d). destruct (host_meets_requirements h j d) as [[] d1]; cbn [fst].
  - rewrite IH. cbn. by rewrite <- app_assoc.
  - apply IH.
Qed.

(** ** The eligible hosts *)

Definition eligible_hosts (w : mbd) (q : mbd_queue) (j : job_data) : list nat :=
  map fst (List.filter (fun p => eligible q j p.2) (imap pair (hosts w))).

Lemma imap_pair_elem {A} (l : list A) i x : In (i, x) (imap pair l) <-> l !! i = Some x.
Proof.
  rewrite <- list_elem_of_In, list_elem_of_lookup. split.
  - intros [k Hk]. rewrite list_lookup_imap in Hk. destruct (l !! k) eqn:E; [|done].
    cbn in Hk. congruence.
  - intros Hi. exists i. by rewrite list_lookup_imap, Hi.
Qed.

Lemma eligible_hosts_elem w q j h :
  h ∈ eligible_hosts w q j <-> exists hh, hosts w !! h = Some hh /\ eligible q j hh = true.
Proof.
  unfold eligible_hosts. rewrite list_elem_of_In, in_map_iff. split.
  - intros ([i hh] & <- & [H1 H2]%filter_In). apply imap_pair_elem in H1. eauto.
  - intros (hh & H1 & H2). exists (h, hh). split; [done|]. apply filter_In.
    split; [by apply imap_pair_elem|done].
Qed.

Lemma filter_NoDup_fst {A} (f : nat * A -> bool) (l : list (nat * A)) :
  NoDup (map fst l) -> NoDup (map fst (List.filter f l)).
Proof.
  induction l as [|x l IH]; cbn; [done|]. intros [Hx Hl]%NoDup_cons. destruct (f x); [|by apply IH].
  cbn. apply NoDup_cons. split; [|by apply IH]. rewrite list_elem_of_In, in_map_iff in *.
  intros (y & Hy & [Hin _]%filter_In). apply Hx. eauto.
Qed.

Lemma eligible_hosts_NoDup w q j : NoDup (eligible_hosts w q j).
Proof.
  apply filter_NoDup_fst.
  replace (map fst (imap pair (hosts w))) with (seq 0 (length (hosts w))); [apply NoDup_seq|].
  apply list_eq. intros i. rewrite (list_lookup_fmap fst), list_lookup_imap.
  destruct (hosts w !! i) eqn:E; cbn.
  - apply lookup_seq. split; [done|]. by apply lookup_lt_Some in E.
  - apply lookup_ge_None in E. apply lookup_ge_None. by rewrite length_seq.
Qed.

(** ** The end of both planners *)

Definition planned (j : job_data) (hs : list nat) : job_data :=
  j <| run_hosts := map Some hs ++ drop (length hs) (run_hosts j) |> <| run_nhosts := length hs |>.

Lemma commit_plan_Ok w j plan n d r :
  commit_plan w j plan n d = Ok r ->
  match r with
  | inl _ => exists len, hosts_len w (take (Z.to_nat (num_hosts (rsrc j))) plan) = Ok len /\
               Z.of_nat LL_BUFSIZ_8K <= len
  | inr j' => (n <= length plan)%nat /\ (n <= length (run_hosts j))%nat /\ j' = planned j (take n plan)
  end.
Proof.
  unfold commit_plan, plan_prefix, set_run_hosts. intros H. inv_res. b2p.
  destruct (Z.leb_spec (Z.of_nat LL_BUFSIZ_8K) r1).
  - injection H as <-. eauto.
  - inv_res. b2p. rewrite length_take in *. split; [done|]. split; [lia|].
    unfold planned. by rewrite length_take.
Qed.

(** A plan the accounting can use. *)
Record plan_good (w : mbd) (q : mbd_queue) (j : job_data) (hs : list nat) : Prop := mk_plan_good {
  pg_nodup : NoDup hs;
  pg_nonempty : hs <> [];
  pg_room : (length hs <= length (run_hosts j))%nat;
  pg_eligible : forall h, h ∈ hs -> exists hh, hosts w !! h = Some hh /\ eligible q j hh = true
}.

(** The machines a job asks for by name. *)
Definition machines_ok (j : job_data) : Prop :=
  0 < nentries (machines (rsrc j)) ->
  hash_wf (machines (rsrc j)) /\ num_hosts (rsrc j) = nentries (machines (rsrc j)).

(** ** Machines asked for by name *)

(** The plan so far, with the names still to come. *)
Record named_plan (w : mbd) (q : mbd_queue) (j : job_data) (rest : list (string * unit))
    (plan : list nat) : Prop := mk_named_plan {
  np_nodup : NoDup plan;
  np_eligible : forall h, h ∈ plan -> exists hh, hosts w !! h = Some hh /\ eligible q j hh = true /\
                  h_name hh ∉ rest.*1
}.

(** The host of that name is in the queue's group and can take the job. *)
Definition named_fit (w : mbd) (q : mbd_queue) (j : job_data) (name : string) : bool :=
  match q_host_hash q !! name with
  | Some h => match hosts w !! h with Some hh => eligible q j hh | None => false end
  | None => false
  end.

(** Distinct numbers below a bound are at most that many. *)
Lemma NoDup_bounded (l : list nat) n : NoDup l -> (forall x, x ∈ l -> (x < n)%nat) -> (length l <= n)%nat.
Proof.
  intros Hnd Hl. rewrite <- (length_seq n 0). apply submseteq_length, NoDup_submseteq; [done|].
  intros x Hx. apply elem_of_seq. specialize (Hl x Hx). lia.
Qed.

Lemma plan_machine_step w q j rest plan d entry :
  queue_hosts_ok (hosts w) q -> NoDup (entry :: rest).*1 -> named_plan w q j (entry :: rest) plan ->
  exists plan' d', plan_machine w q j (plan, d) entry = Ok (plan', d') /\ named_plan w q j rest plan' /\
    length plan' = (length plan + Nat.b2n (named_fit w q j entry.1))%nat.
Proof.
  intros Hq [Hni Hnd]%NoDup_cons [Hn He]. unfold plan_machine, named_fit.
  assert (Hkeep : named_plan w q j rest plan).
  { split; [done|]. intros h Hh. destruct (He h Hh) as (hh & H1 & H2 & H3). exists hh. split; [done|].
    split; [done|]. intros Hx. apply H3. by right. }
  destruct (q_host_hash q !! entry.1) as [h|] eqn:Hh; [|eexists _, _; split; [done|]; split; [done|]; cbn; lia].
  destruct (Hq _ _ Hh) as (hh & Hhh & Hname). unfold nth_res at 1. rewrite Hhh. cbn [res_bind].
  assert (Hel : eligible q j hh = (host_meets_requirements hh j d).1).
  { unfold eligible, host_in_queue_group. by rewrite (host_meets_diag _ _ _ d), Hname, Hh. }
  destruct (host_meets_requirements hh j d) as [ok d1] eqn:Em. cbn [fst] in Hel. rewrite Hel.
  destruct ok; cbn [negb]; [|eexists _, _; split; [done|]; split; [done|]; cbn; lia].
  assert (Hnew : NoDup (plan ++ [h])).
  { apply NoDup_app. split; [done|]. split; [|apply NoDup_singleton].
    intros h' Hh' ->%list_elem_of_singleton. destruct (He h Hh') as (hh' & H1 & _ & H3).
    rewrite Hhh in H1. injection H1 as <-. apply H3. rewrite Hname. left. }
  assert (Hlt : (length (plan ++ [h]) <= length (hosts w))%nat).
  { apply NoDup_bounded; [done|]. intros x [Hx|Hx]%elem_of_app.
    - destruct (He x Hx) as (hx & Hhx & _). by eapply lookup_lt_Some.
    - apply list_elem_of_singleton in Hx as ->. by eapply lookup_lt_Some. }
  rewrite length_app in Hlt. cbn in Hlt. rewrite (proj2 (Nat.ltb_lt _ _)) by lia. cbn.
  eexists _, _. split; [done|]. rewrite length_app. split; [|done]. split; [done|].
  intros h' [Hh'|Hh']%elem_of_app; [by apply Hkeep|]. apply list_elem_of_singleton in Hh' as ->.
  exists hh. by rewrite Hname.
Qed.

Lemma plan_machines_all w q j entries plan d :
  queue_hosts_ok (hosts w) q -> NoDup entries.*1 -> named_plan w q j entries plan ->
  exists plan' d', res_fold (plan_machine w q j) entries (plan, d) = Ok (plan', d') /\
    named_plan w q j [] plan' /\ (length plan' <= length plan + length entries)%nat /\
    ((length plan' < length plan + length entries)%nat ->
     exists x, x ∈ entries.*1 /\ named_fit w q j x = false).
Proof.
  intros Hq. revert plan d. induction entries as [|x l IH]; intros plan d Hnd Hp; cbn [res_fold length].
  - eexists _, _. split; [done|]. split; [done|]. split; lia.
  - destruct (plan_machine_step w q j l plan d x Hq Hnd Hp) as (plan1 & d1 & -> & H1 & H2).
    cbn [res_bind]. apply NoDup_cons in Hnd as [_ Hnd]. destruct (IH plan1 d1 Hnd H1) as (plan2 & d2 & -> & H3 & H4 & H5).
    eexists _, _. split; [done|]. split; [done|].
    destruct (named_fit w q j x.1) eqn:E; cbn in H2; (split; [lia|]); intros Hlt.
    + destruct H5 as (y & Hy & Ey); [lia|]. exists y. split; [by right|done].
    + exists x.1. split; [left|done].
Qed.

Lemma take_good w q j l n :
  NoDup l -> (0 < n <= length l)%nat -> (n <= length (run_hosts j))%nat ->
  (forall h, h ∈ l -> exists hh, hosts w !! h = Some hh /\ eligible q j hh = true) ->
  plan_good w q j (take n l).
Proof.
  intros Hnd Hn Hr He. split.
  - eapply sublist_NoDup; [exact Hnd|apply sublist_take].
  - intros H. apply (f_equal length) in H. rewrite length_take in H. cbn in H. lia.
  - rewrite length_take. lia.
  - intros h (i & Hi & _)%elem_of_take. apply He. by eapply list_elem_of_lookup_2.
Qed.

(** A plan whose host names do not fit the message. *)
Definition plan_too_long (w : mbd) (q : mbd_queue) (j : job_data) : Prop :=
  exists hs len, NoDup hs /\ hs ⊆ eligible_hosts w q j /\
    Z.of_nat (length hs) = num_hosts (rsrc j) /\
    hosts_len w hs = Ok len /\ Z.of_nat LL_BUFSIZ_8K <= len.

Lemma res_map_total {A B} (f : A -> res B) l :
  (forall x, x ∈ l -> exists y, f x = Ok y) -> exists ys, res_map f l = Ok ys.
Proof.
  induction l as [|x l IH]; intros Hf; cbn [res_map]; [eauto|]. destruct (Hf x ltac:(left)) as [y ->].
  destruct IH as [ys ->]; [intros; apply Hf; by right|]. cbn. eauto.
Qed.

Lemma host_names_total w hs :
  (forall h, h ∈ hs -> exists hh, hosts w !! h = Some hh) -> exists l, host_names w hs = Ok l.
Proof.
  intros Hh. apply res_map_total. intros h Hin. destruct (Hh h Hin) as [hh Hhh].
  unfold nth_res. rewrite Hhh. cbn. eauto.
Qed.

(** The end of a planner whose plan is long enough. *)
Lemma commit_plan_total w q j plan n d :
  NoDup plan -> (forall h, h ∈ plan -> h ∈ eligible_hosts w q j) ->
  Z.of_nat n = num_hosts (rsrc j) -> (0 < n <= length plan)%nat -> (n <= length (run_hosts j))%nat ->
  exists r, commit_plan w j plan n d = Ok r /\
    match r with
    | inl _ => plan_too_long w q j
    | inr j' => j' = planned j (take n plan) /\ plan_good w q j (take n plan)
    end.
Proof.
  intros Hnd He Hn Hlen Hroom. unfold commit_plan, plan_prefix, set_run_hosts.
  replace (Z.to_nat (num_hosts (rsrc j))) with n by lia. rewrite (proj2 (Nat.leb_le _ _)) by lia. cbn [guard_or res_bind].
  assert (Hel : forall h, h ∈ take n plan -> h ∈ eligible_hosts w q j).
  { intros h (i & Hi & _)%elem_of_take. apply He. by eapply list_elem_of_lookup_2. }
  unfold hosts_len. destruct (host_names_total w (take n plan)) as [names Hnm].
  { intros h Hh. apply Hel, eligible_hosts_elem in Hh as (hh & Hhh & _). eauto. }
  rewrite Hnm. cbn [res_bind]. destruct (Z.leb_spec (Z.of_nat LL_BUFSIZ_8K) (sumZ (fun n => Z.of_nat (String.length n) + 16) names)).
  - eexists. split; [done|]. exists (take n plan). eexists.
    split; [eapply sublist_NoDup; [exact Hnd|apply sublist_take]|]. split; [exact Hel|].
    split; [rewrite length_take; lia|]. unfold hosts_len. rewrite Hnm. by split.
  - rewrite length_take, (proj2 (Nat.leb_le _ _)) by lia. cbn. eexists. split; [done|]. cbn.
    unfold planned. rewrite length_take. split; [done|]. apply take_good; [done|lia|lia|].
    intros h Hh. apply eligible_hosts_elem. by apply He.
Qed.

Lemma build_host_plan_machines_Ok w q j :
  queue_hosts_ok (hosts w) q -> hash_wf (machines (rsrc j)) -> 0 < nentries (machines (rsrc j)) ->
  num_hosts (rsrc j) = nentries (machines (rsrc j)) -> Z.of_nat (length (run_hosts j)) = num_hosts (rsrc j) ->
  exists r, build_host_plan_machines w q j = Ok r /\
    match r with
    | inl _ => (exists name, is_Some (hash_map (machines (rsrc j)) !! name) /\ named_fit w q j name = false) \/
               plan_too_long w q j
    | inr j' => exists hs, j' = planned j hs /\ plan_good w q j hs /\
                  Z.of_nat (length hs) = nentries (machines (rsrc j))
    end.
Proof.
  intros Hq Hwf Hpos Hnh Hroom. unfold build_host_plan_machines.
  rewrite iter_collect_spec by (change (iter_todo (machines (rsrc j)) ll_hash_iter_init)
    with (entries (machines (rsrc j))); lia).
  change (iter_todo (machines (rsrc j)) ll_hash_iter_init) with (entries (machines (rsrc j))).
  destruct (plan_machines_all w q j (entries (machines (rsrc j))) [] diag_zero Hq (wf_nodup _ Hwf)
    ltac:(split; [constructor|by intros ? ?%not_elem_of_nil])) as (plan & d & -> & [Hnd He] & Hlen & Hless).
  cbn [res_bind]. pose proof (wf_count _ Hwf) as Hcnt. cbn in Hlen, Hless.
  destruct (Nat.ltb_spec (length plan) (Z.to_nat (nentries (machines (rsrc j))))) as [Hlt|Hge].
  { eexists. split; [done|]. left. destruct Hless as (x & Hx & Ef); [lia|]. exists x. split; [|done].
    unfold hash_map. destruct (list_to_map (entries (machines (rsrc j))) !! x) eqn:E; [by eexists|].
    by apply not_elem_of_list_to_map in E. }
  destruct (commit_plan_total w q j plan (Z.to_nat (nentries (machines (rsrc j)))) d) as (r & -> & Hr); try done; try lia.
  { intros h Hh. destruct (He h Hh) as (hh & ? & ? & _). apply eligible_hosts_elem. eauto. }
  eexists. split; [done|]. destruct r as [|j']; [by right|]. destruct Hr as [-> Hg].
  eexists. split; [done|]. split; [done|]. rewrite length_take. lia.
Qed.

(** ** The general planner *)

Section general.
Context {QS : QSort}.

Definition host_key (w : mbd) (h : nat) : res (nat * Z) :=
  let* hh := nth_res (hosts w) h in Ok (h, free_cpu hh).

Lemma host_keys_Ok w l keys :
  res_map (host_key w) l = Ok keys ->
  map fst keys = l /\
  forall k, k ∈ keys -> exists hh, hosts w !! k.1 = Some hh /\ k.2 = free_cpu hh.
Proof.
  intros Hk%res_map_Ok. induction Hk as [|h k l keys Hh _ [IH1 IH2]].
  { split; [done|by intros ? ?%not_elem_of_nil]. }
  unfold host_key in Hh. inv_res. cbn. split; [by f_equal|].
  intros k [->|Hk]%elem_of_cons; [eauto|by apply IH2].
Qed.

(** CPU counts are machine integers. *)
Definition host_cpus_ok (w : mbd) : Prop :=
  forall h hh, hosts w !! h = Some hh -> 0 <= free_cpu hh < 2 ^ 31.

Lemma host_plan_cmp_le a b :
  0 <= a.2 < 2 ^ 31 -> 0 <= b.2 < 2 ^ 31 -> cmp_le host_plan_cmp a b <-> a.2 <= b.2.
Proof. intros Ha Hb. unfold cmp_le, host_plan_cmp. rewrite i32_small by lia. lia. Qed.

Lemma qsort_keys_sorted w keys :
  host_cpus_ok w ->
  (forall k, k ∈ keys -> exists hh, hosts w !! k.1 = Some hh /\ k.2 = free_cpu hh) ->
  StronglySorted (fun a b => a.2 <= b.2) (qsort host_plan_cmp keys).
Proof.
  intros Hc Hk.
  assert (Hr : forall k, k ∈ keys -> 0 <= k.2 < 2 ^ 31).
  { intros k Hin. destruct (Hk k Hin) as (hh & Hhh & ->). by eapply Hc. }
  assert (Hs : StronglySorted (cmp_le host_plan_cmp) (qsort host_plan_cmp keys)).
  { apply qsort_sorted.
    - intros a b Ha Hb. rewrite !host_plan_cmp_le by auto. lia.
    - intros a b c Ha Hb Hcc. rewrite !host_plan_cmp_le by auto. lia. }
  assert (Hr' : forall k, k ∈ qsort host_plan_cmp keys -> 0 <= k.2 < 2 ^ 31).
  { intros k. rewrite qsort_perm. apply Hr. }
  clear Hr. induction Hs as [|a l Hs IH Ha]; constructor.
  - apply IH. intros. apply Hr'. by right.
  - rewrite Forall_forall in *. intros b Hb. apply host_plan_cmp_le; [apply Hr'; left|apply Hr'; by right|].
    by apply Ha.
Qed.

(** The head of a sorted list against its tail. *)
Lemma sorted_take_le {A} (f : A -> Z) (l : list A) n a b :
  StronglySorted (fun a b => f a <= f b) l -> a ∈ take n l -> b ∈ drop n l -> f a <= f b.
Proof.
  intros Hs. revert n. induction Hs as [|x l Hs IH Hx]; intros [|n]; cbn; try by intros ?%not_elem_of_nil.
  intros [->|Ha]%elem_of_cons Hb; [|by eapply IH].
  rewrite Forall_forall in Hx. apply Hx. rewrite <- (take_drop n l), elem_of_app. by right.
Qed.

(** What the planners promise about a plan, and about giving up. *)
Definition plan_result (w : mbd) (q : mbd_queue) (j : job_data) (r : pend_diag + job_data) : Prop :=
  match r with
  | inr j' => exists hs, j' = planned j hs /\ plan_good w q j hs /\
      Z.of_nat (length hs) = num_hosts (rsrc j) /\
      (host_cpus_ok w -> nentries (machines (rsrc j)) <= 0 ->
       forall h h' hh hh', h ∈ hs -> h' ∈ eligible_hosts w q j -> h' ∉ hs ->
         hosts w !! h = Some hh -> hosts w !! h' = Some hh' -> free_cpu hh <= free_cpu hh')
  | inl _ => plan_too_long w q j \/
      if 0 <? nentries (machines (rsrc j))
      then exists name, is_Some (hash_map (machines (rsrc j)) !! name) /\ named_fit w q j name = false
      else Z.of_nat (length (eligible_hosts w q j)) < num_hosts (rsrc j)
  end.

Lemma sorted_plan_best w q j keys n h h' hh hh' :
  host_cpus_ok w -> map fst keys = eligible_hosts w q j ->
  (forall k, k ∈ keys -> exists hh, hosts w !! k.1 = Some hh /\ k.2 = free_cpu hh) ->
  let plan := map fst (qsort host_plan_cmp keys) in
  h ∈ take n plan -> h' ∈ eligible_hosts w q j -> h' ∉ take n plan ->
  hosts w !! h = Some hh -> hosts w !! h' = Some hh' -> free_cpu hh <= free_cpu hh'.
Proof.
  intros Hc Hf Hk plan Hh Hh' Hn Hhh Hhh'. pose proof (qsort_keys_sorted w keys Hc Hk) as Hs.
  unfold plan in *. clear plan.
  change (map fst (qsort host_plan_cmp keys)) with (fst <$> qsort host_plan_cmp keys) in *.
  rewrite <- fmap_take in Hh, Hn. apply list_elem_of_fmap in Hh as (k & -> & Hk1).
  rewrite <- Hf in Hh'. apply list_elem_of_fmap in Hh' as (k' & -> & Hk').
  rewrite <- (qsort_perm _ host_plan_cmp keys), <- (take_drop n (qsort host_plan_cmp keys)), elem_of_app in Hk'.
  destruct Hk' as [Hk'|Hk']; [exfalso; by apply Hn, list_elem_of_fmap_2|].
  pose proof (sorted_take_le snd _ n k k' Hs Hk1 Hk') as Hle.
  assert (Hin : k ∈ keys /\ k' ∈ keys).
  { rewrite <- (qsort_perm _ host_plan_cmp keys), <- (take_drop n (qsort host_plan_cmp keys)), !elem_of_app. tauto. }
  destruct (Hk k (proj1 Hin)) as (x & Hx & Ex). destruct (Hk k' (proj2 Hin)) as (y & Hy & Ey).
  rewrite Hhh in Hx. rewrite Hhh' in Hy. injection Hx as <-. injection Hy as <-. lia.
Qed.

Lemma host_keys_total w l :
  (forall h, h ∈ l -> exists hh, hosts w !! h = Some hh) -> exists keys, res_map (host_key w) l = Ok keys.
Proof.
  intros Hh. apply res_map_total. intros h Hin. destruct (Hh h Hin) as [hh Hhh].
  unfold host_key, nth_res. rewrite Hhh. cbn. eauto.
Qed.

Lemma build_host_plan_Ok w j q qi :
  queue j = Some qi -> queues w !! qi = Some q ->
  queue_hosts_ok (hosts w) q -> machines_ok j -> 1 <= num_hosts (rsrc j) ->
  Z.of_nat (length (run_hosts j)) = num_hosts (rsrc j) ->
  exists r, build_host_plan w j = Ok r /\ plan_result w q j r.
Proof.
  intros Hqi Hqq Hq Hm Hnh Hroom. unfold build_host_plan, job_queue.
  rewrite Hqi. cbn [deref res_bind]. unfold nth_res at 1. rewrite Hqq. cbn [res_bind]. unfold plan_result.
  destruct (Z.ltb_spec 0 (nentries (machines (rsrc j)))) as [Hpos|Hpos].
  { destruct (Hm Hpos) as [Hwf Hn]. destruct (build_host_plan_machines_Ok w q j) as (r & -> & Hr); try done.
    eexists. split; [done|]. destruct r as [|j']; [destruct Hr; auto|]. destruct Hr as (hs & -> & Hg & Hl).
    exists hs. split; [done|]. split; [done|]. split; [lia|]. lia. }
  destruct (foldl (plan_host q j) ([], diag_zero) (imap pair (hosts w))) as [plan d] eqn:Ef.
  assert (Hplan : plan = eligible_hosts w q j).
  { pose proof (plan_host_all q j (imap pair (hosts w)) [] diag_zero) as Hx. by rewrite Ef in Hx. }
  subst plan. destruct (Z.ltb_spec (Z.of_nat (length (eligible_hosts w q j))) (num_hosts (rsrc j))).
  { eexists. split; [done|]. by right. }
  destruct (host_keys_total w (eligible_hosts w q j)) as [keys Hkeys].
  { intros h (hh & Hhh & _)%eligible_hosts_elem. eauto. }
  unfold host_key in Hkeys at 1. rewrite Hkeys. cbn [res_bind]. apply host_keys_Ok in Hkeys as [Hf Hk].
  assert (Hperm : map fst (qsort host_plan_cmp keys) ≡ₚ eligible_hosts w q j).
  { rewrite <- Hf. by apply Permutation_map, qsort_perm. }
  pose proof (eligible_hosts_NoDup w q j) as Hnd. rewrite <- Hperm in Hnd.
  pose proof (Permutation_length Hperm) as Hpl. set (n := Z.to_nat (num_hosts (rsrc j))).
  destruct (commit_plan_total w q j (map fst (qsort host_plan_cmp keys)) n d) as (r & -> & Hr); try done; try lia.
  { intros h. by rewrite Hperm. }
  eexists. split; [done|]. destruct r as [|j']; [by left|]. destruct Hr as [-> Hg].
  eexists. split; [done|]. split; [done|]. split; [rewrite length_take; lia|].
  intros Hc _ h h' hh hh' G1 G2 G3 G4 G5. by eapply (sorted_plan_best w q j keys n h h').
Qed.

End general.

(** ** The order of the pending list *)

(** Higher queue priority first, then higher job priority, then the older id. *)
Definition goes_before (a b : pend_key) : Prop :=
  pk_queue_priority b < pk_queue_priority a \/
  pk_queue_priority a = pk_queue_priority b /\
  (pk_priority b < pk_priority a \/
   pk_priority a = pk_priority b /\ pk_id a <= pk_id b).

(** Priorities are not negative machine integers, as the handlers keep them. *)
Definition key_ok (k : pend_key) : Prop :=
  0 <= pk_queue_priority k < 2 ^ 31 /\ 0 <= pk_priority k < 2 ^ 31.

Lemma pend_job_cmp_le a b :
  key_ok a -> key_ok b -> cmp_le pend_job_cmp a b <-> goes_before a b.
Proof.
  intros [Ha1 Ha2] [Hb1 Hb2]. unfold cmp_le, pend_job_cmp, goes_before.
  rewrite !i32_small by lia.
  destruct (Z.eqb_spec (pk_queue_priority b - pk_queue_priority a) 0); cbn [negb]; [|lia].
  destruct (Z.eqb_spec (pk_priority b - pk_priority a) 0); cbn [negb]; [|lia].
  destruct (Z.ltb_spec (pk_id a) (pk_id b)); [lia|].
  destruct (Z.ltb_spec (pk_id b) (pk_id a)); lia.
Qed.

Lemma StronglySorted_impl_elem {A} (R R' : A -> A -> Prop) l :
  (forall a b, a ∈ l -> b ∈ l -> R a b -> R' a b) -> StronglySorted R l -> StronglySorted R' l.
Proof.
  intros HR Hs. induction Hs as [|a l Hs IH Ha]; constructor.
  - apply IH. intros x y Hx Hy. apply HR; by right.
  - rewrite Forall_forall in *. intros b Hb. apply HR; [left|by right|by apply Ha].
Qed.

Section order.
Context {QS : QSort}.

Lemma qsort_pend_sorted keys :
  Forall key_ok keys -> StronglySorted goes_before (qsort pend_job_cmp keys).
Proof.
  intros Hk. rewrite Forall_forall in Hk.
  eapply (StronglySorted_impl_elem (cmp_le pend_job_cmp)).
  - intros a b. rewrite !qsort_perm. intros Ha Hb. by apply pend_job_cmp_le; apply Hk.
  - apply qsort_sorted.
    + intros a b Ha Hb. rewrite !pend_job_cmp_le by auto. unfold goes_before. lia.
    + intros a b c Ha Hb Hc. rewrite !pend_job_cmp_le by auto. unfold goes_before. lia.
Qed.

(** The keys of the listed jobs, as the comparison reads them. *)
Definition pend_key_of (w : mbd) (id : Z) (k : pend_key) : Prop := job_pend_key w id = Ok k.

Lemma job_pend_keys_ids w l keys :
  res_map (job_pend_key w) l = Ok keys -> map pk_id keys = l.
Proof.
  intros Hk%res_map_Ok. induction Hk as [|id k l keys Hk _ IH]; [done|]. cbn. f_equal; [|done].
  unfold job_pend_key in Hk. inv_res. done.
Qed.

Lemma sort_pend_list_Ok w w' :
  (forall id k, id ∈ pend_jobs_list w -> pend_key_of w id k -> key_ok k) ->
  sort_pend_list w = Ok w' ->
  w' = w <| pend_jobs_list := pend_jobs_list w' |> /\
  pend_jobs_list w' ≡ₚ pend_jobs_list w /\
  StronglySorted (fun a b => forall ka kb, pend_key_of w a ka -> pend_key_of w b kb ->
                    goes_before ka kb) (pend_jobs_list w').
Proof.
  intros Hok Hs. unfold sort_pend_list in Hs.
  destruct (Nat.ltb_spec (length (pend_jobs_list w)) 2) as [Hlt|_].
  { injection Hs as <-. split; [by destruct w|]. split; [done|].
    destruct (pend_jobs_list w) as [|a [|b l]]; cbn in Hlt; [constructor| |lia]. by repeat constructor. }
  inv_res. pose proof (res_map_Ok _ _ _ Hr0) as HF. pose proof (job_pend_keys_ids _ _ _ Hr0) as Hids.
  cbn. split; [done|]. rewrite <- Hids. split; [by apply Permutation_map, qsort_perm|].
  assert (Hk : forall k, k ∈ r0 -> pend_key_of w (pk_id k) k).
  { clear -HF. induction HF as [|id k l keys Hk _ IH]; intros x; [by intros ?%not_elem_of_nil|].
    intros [->|Hx]%elem_of_cons; [|by apply IH]. unfold pend_key_of, job_pend_key in *. inv_res. cbn.
    unfold job_queue in *. inv_res. cbn. rewrite Hr. cbn. rewrite Hr1. cbn. unfold nth_res. by rewrite Hr0. }
  assert (Hall : Forall key_ok r0).
  { apply Forall_forall. intros k Hin. eapply Hok; [|by apply Hk]. rewrite <- Hids.
    by apply (list_elem_of_fmap_2 pk_id). }
  pose proof (qsort_pend_sorted r0 Hall) as Hsorted.
  assert (Hk' : forall k, k ∈ qsort pend_job_cmp r0 -> pend_key_of w (pk_id k) k).
  { intros k. rewrite qsort_perm. apply Hk. }
  clear -Hsorted Hk'. induction Hsorted as [|a l Hs IH Ha]; cbn; constructor.
  - apply IH. intros. apply Hk'. by right.
  - rewrite Forall_forall in Ha. apply Forall_forall. intros b (k & -> & Hin)%list_elem_of_fmap ka kb H1 H2.
    pose proof (Hk' a ltac:(left)) as Ga. pose proof (Hk' k ltac:(by right)) as Gb.
    unfold pend_key_of in *. rewrite Ga in H1. rewrite Gb in H2. injection H1 as <-. injection H2 as <-.
    by apply Ha.
Qed.

End order.
