(* ===== verification/MbdSchedSafe.v ===== *)
(** * A scheduling cycle keeps the accounting and overcommits no host *)

From S2P Require Import Prelude CString LlHash Dependency LogFormat MbdTypes MbdBase MbdJob MbdSched.
From S2P Require Import MbdInv MbdFrame MbdCheck MbdSafe MbdControl MbdPlan.

Open Scope Z_scope.

Implicit Types (w : mbd) (j : job_data) (id : Z).

(** ** Charging a host *)

(** The same host but for its GPU table and its candidate mark. *)
Definition same_but_marks (h h' : mbd_host) : Prop :=
  exists g c, h' = h <| h_gpu := g |> <| candidate := c |>.

Lemma host_charge_delta j j' h hh hh1 :
  list_id j = JOB_LIST_PEND -> rsrc j' = rsrc j -> flags j' = flags j -> state j' = JOB_RUNNING ->
  uses (core j') h = true -> meets hh j -> 0 <= h_num_jobs hh -> 0 <= num_cpus (rsrc j) ->
  0 <= mem_mb (rsrc j) -> 0 <= storage_mb (rsrc j) ->
  same_but_marks hh hh1 -> host_delta h (core j) (core j') hh (host_charge j' hh1).
Proof.
  intros Hl Hr Hfl Hs Hu [_ Hx Ha Hc Hm Hst _ _] Hn Hnc Hnm Hns (g & c0 & ->).
  assert (Hu0 : uses (core j) h = false) by (apply uses_not_run; cbn; congruence).
  assert (Hex : is_exclusive j' = is_exclusive j) by (unfold is_exclusive; by rewrite Hfl).
  unfold host_charge. rewrite Hr, Hex. cbv zeta.
  destruct (is_exclusive j) eqn:Ex; cbn;
    destruct (Z.leb_spec (free_cpu hh - num_cpus (rsrc j)) 0);
    (split; unfold hcontrib; rewrite ?Hu, ?Hu0; cbn; rewrite ?Hr, ?Hs, ?Hex, ?Ex; cbn; try lia; try done;
     try (by rewrite ?Z.add_0_r); intros _ _; split; try done; intros; specialize (Ha eq_refl); lia).
Qed.

(** ** Dispatch *)

Definition hosts_marked (H H' : list mbd_host) : Prop :=
  length H' = length H /\
  forall h hh', H' !! h = Some hh' -> exists hh, H !! h = Some hh /\ same_but_marks hh hh'.

Lemma same_but_marks_refl hh : same_but_marks hh hh.
Proof. exists (h_gpu hh), (candidate hh). by destruct hh. Qed.

Lemma hosts_marked_refl H : hosts_marked H H.
Proof. split; [done|]. intros h hh Hh. exists hh. split; [done|apply same_but_marks_refl]. Qed.

Lemma hosts_marked_alter H h g : hosts_marked H (alter (fun hh => hh <| h_gpu := g |>) h H).
Proof.
  split; [apply length_alter|]. intros i hh' (hh & Hhh & ->)%list_lookup_alter_inv.
  exists hh. split; [done|]. case_bool_decide; [exists g, (candidate hh); by destruct hh|apply same_but_marks_refl].
Qed.

Lemma host_ok_marks m h hh hh' : same_but_marks hh hh' -> host_ok m h hh -> host_ok m h hh'.
Proof. intros (g & c0 & ->) []. by split. Qed.

Lemma acct_ok_marks A H' : hosts_marked (a_hosts A) H' -> acct_ok A -> acct_ok (A <| a_hosts := H' |>).
Proof.
  intros [Hlen HH] [H1 H2 H3 H4 H5]. split; cbn; try done.
  - by rewrite Hlen.
  - intros h hh' (hh & Hhh & Hg)%HH. eapply host_ok_marks; [done|by apply H4].
  - intros q qq Hqq name h Hn. destruct (H5 q qq Hqq name h Hn) as (hh & Hhh & Hname).
    apply lookup_lt_Some in Hhh as Hlt. rewrite <- Hlen in Hlt.
    destruct (lookup_lt_is_Some_2 _ _ Hlt) as [hh' Hhh']. exists hh'. split; [done|].
    destruct (HH h hh' Hhh') as (x & Hx & (g & c0 & ->)). rewrite Hhh in Hx. by injection Hx as <-.
Qed.

(** The GPU step of a dispatch changes the GPU table of one host and what the
    job was assigned. *)
Lemma dispatch_gpus id w j h hh w1 s :
  (if 0 <? num_gpus (rsrc j) then
     let* (g, s) := build_gpu_assigned_str (h_gpu hh) (num_gpus (rsrc j)) in
     let w := upd_host h (fun hh => hh <| h_gpu := g |>) w in
     let w := upd_job id (fun j => j <| gpu_assigned := strbuf LL_BUFSIZ_64 s |>) w in
     Ok (w, s)
   else Ok (w, EmptyString)) = Ok (w1, s) ->
  jobs w !! id = Some j ->
  exists H' a, hosts_marked (hosts w) H' /\ acct_of w1 = (acct_of w) <| a_hosts := H' |> /\
    jobs w1 !! id = Some (j <| gpu_assigned := a |>).
Proof.
  intros H Hj. destruct (0 <? num_gpus (rsrc j)).
  - apply res_bind_Ok in H as ([g s'] & _ & [= <- <-]). eexists _, (strbuf LL_BUFSIZ_64 s').
    split; [apply (hosts_marked_alter _ h g)|]. split.
    + by rewrite acct_upd_job_inert.
    + cbn. by rewrite lookup_alter_eq, Hj.
  - injection H as <- <-. exists (hosts w), (gpu_assigned j). split; [apply hosts_marked_refl|].
    split; [done|]. rewrite Hj. by destruct j.
Qed.

(** The accounting after a job went from the pend list to the run list. *)
Definition entered_run (A : acct) (id : Z) (c' : jcore) (r : list Z) : acct :=
  A <| a_cores := <[id := c']> (a_cores A) |> <| a_pend := r |> <| a_run ::= fun l => l ++ [id] |>.

Definition dispatched_job (e : env) (j : job_data) (a : string) : job_data :=
  j <| gpu_assigned := a |> <| dispatch_time := now e |> <| state := JOB_RUNNING |>
    <| list_id := JOB_LIST_RUN |>.

Lemma mbd_dispatch_job_Ok e id w j w' ok :
  jobs w !! id = Some j -> mbd_dispatch_job e id w = Ok (w', ok) ->
  exists H' a, hosts_marked (hosts w) H' /\
    if ok : bool then
      exists r, remove_first id (pend_jobs_list w) = Some r /\
        jobs w' !! id = Some (dispatched_job e j a) /\
        acct_of w' = (entered_run (acct_of w) id (core (dispatched_job e j a)) r) <| a_hosts := H' |>
    else acct_of w' = (acct_of w) <| a_hosts := H' |>.
Proof.
  intros Hj H. unfold mbd_dispatch_job in H. rewrite Hj in H. cbn [deref res_bind] in H.
  do 6 apply res_bind_Ok in H as (? & _ & H). apply res_bind_Ok in H as ([w1 s] & Hg & H).
  destruct (dispatch_gpus _ _ _ _ _ _ _ Hg Hj) as (H' & a & HH & Ha & Hj1). clear Hg.
  exists H', a. split; [done|]. unfold auth_sign_header in H.
  destruct (sign_ok e (io w1)); cbn [negb] in H; [|by injection H as <- <-].
  match type of H with context [enqueue_payload ?e ?c ?o ?st ?b ?w] => 
    io_step (enqueue_payload e c o st b w) end.
  destruct ok0; cbn [negb] in H; [|by injection H as <- <-].
  set (w2 := with_io _ _ _) in H.
  assert (Hj2 : jobs (upd_job id (fun j => j <| dispatch_time := now e |> <| state := JOB_RUNNING |>) w2) !! id
    = Some (j <| gpu_assigned := a |> <| dispatch_time := now e |> <| state := JOB_RUNNING |>)).
  { cbn. by rewrite lookup_alter_eq, Hj1. }
  rewrite Hj2 in H. cbn [deref res_bind] in H. apply res_bind_Ok in H as (w3 & H3 & H).
  apply res_bind_Ok in H as (w4 & H4 & H). injection H as <- <-.
  apply job_move_list_Ok in H4 as (r & Hr & ->).
  unfold event_job_start in H3. inv_res. unfold log_append in H3. inv_res.
  assert (Ha2 : acct_of w2 = (acct_of w) <| a_hosts := H' |>) by exact Ha.
  exists r. split.
  { change (remove_first id (a_pend (acct_of w2)) = Some r) in Hr. by rewrite Ha2 in Hr. }
  split.
  { cbn. rewrite lookup_alter_eq. cbn in Hj2. by rewrite Hj2. }
  rewrite acct_set_list. unfold entered_run.
  pose proof (f_equal a_cores Ha2) as Hc. pose proof (f_equal a_run Ha2) as Hrun.
  pose proof (f_equal a_finish Ha2) as Hfin. pose proof (f_equal a_queues Ha2) as Hqu.
  pose proof (f_equal a_hosts Ha2) as Hho. cbn in Hc, Hrun, Hfin, Hqu, Hho.
  acct_simpl. cbn. rewrite Hrun, Hfin, Hqu, Hho. f_equal. unfold cores at 1. cbn.
  rewrite (fmap_alter_core _ _ _ _ Hj1), alter_insert_eq. f_equal. exact Hc.
Qed.

(** ** The accounting of a dispatched job *)

Definition queue_enter_run (j : job_data) (q : mbd_queue) : mbd_queue :=
  q <| q_num_run ::= Z.succ |> <| q_num_pend ::= Z.pred |>
    <| q_cpus_used ::= fun c => c + num_cpus (rsrc j) * Z.of_nat (run_nhosts j) |>
    <| q_hosts_used ::= fun c => c + Z.of_nat (run_nhosts j) |>.

Lemma token_alloc_pools j w : exists p, token_alloc j w = w <| pools := p |>.
Proof.
  unfold token_alloc. revert w. induction (tokens (rsrc j)) as [|t ts IH]; intros w; cbn.
  - exists (pools w). by destruct w.
  - destruct (IH (pool_add (tok_name t) (- tok_count t) w)) as [p ->]. exists p.
    unfold pool_add. by destruct (pool_name_hash w !! tok_name t).
Qed.

Lemma sched_account_Ok id w j hs w' :
  jobs w !! id = Some j -> run_host_ptrs j = Ok hs -> NoDup hs -> sched_account id w = Ok w' ->
  exists H' q, queue j = Some q /\ (q < length (queues w))%nat /\
    acct_of w' = (acct_of w) <| a_hosts := H' |> <| a_queues ::= alter (queue_enter_run j) q |> /\
    length H' = length (hosts w) /\
    forall h hh', H' !! h = Some hh' -> exists hh, hosts w !! h = Some hh /\
      hh' = if bool_decide (h ∈ hs) then host_charge j hh else hh.
Proof.
  intros Hj Hp Hnd H. unfold sched_account in H. rewrite Hj in H. cbn [deref res_bind] in H.
  set (w1 := match deps j with [] => w | _ => _ end) in H.
  assert (Ha : acct_of w1 = acct_of w).
  { unfold w1. destruct (deps j); [done|]. unfold job_deps_release. by rewrite acct_job_deps_refcnt. }
  apply res_bind_Ok in H as (w2 & H2 & H). unfold host_update_resources in H2. rewrite Hp in H2.
  cbn [res_bind] in H2. apply each_host_spec in H2 as (He & Hlen & Hs); [|done].
  destruct (token_alloc_pools j w2) as [p Hpool]. rewrite Hpool in H.
  apply upd_job_queue_Ok in H as (q & Hq & Hlt & ->). exists (hosts w2), q.
  pose proof (f_equal a_hosts Ha) as Hho. pose proof (f_equal a_queues Ha) as Hqu. cbn in Hho, Hqu.
  split; [done|]. split; [|split; [|split]].
  - cbn in Hlt. rewrite He in Hlt. cbn in Hlt. by rewrite Hqu in Hlt.
  - rewrite acct_upd_queue. transitivity ((acct_of w1) <| a_hosts := hosts w2 |> <| a_queues ::= alter (queue_enter_run j) q |>);
      [|by rewrite Ha]. rewrite He at 1. done.
  - by rewrite Hlen, Hho.
  - intros h hh' Hh'. destruct (Hs h hh' Hh') as (hh & Hhh & Hc). rewrite Hho in Hhh. exists hh.
    split; [done|]. case_bool_decide; [by injection Hc as <-|done].
Qed.

(** ** One round of the scheduling loop *)

Lemma planned_take j hs : take (run_nhosts (planned j hs)) (run_hosts (planned j hs)) = map Some hs.
Proof. cbn. by rewrite take_app_length' by by rewrite length_map. Qed.

Lemma planned_core_ok nq nh id j hs :
  core_ok nq nh id (core j) -> list_id j = JOB_LIST_PEND -> (length hs <= length (run_hosts j))%nat ->
  Forall (fun h => (h < nh)%nat) hs -> core_ok nq nh id (core (planned j hs)).
Proof.
  intros [H1 H2 H3 H4 H5 H6 H7 _] Hl Hlen HF. split; try done.
  - cbn in *. rewrite length_app, length_map, length_drop. split; [apply H5|]. lia.
  - cbn in *. by rewrite Hl in *.
  - exists hs. split; [apply planned_take|done].
Qed.

Lemma plan_good_hosts w qq j hs : plan_good w qq j hs -> Forall (fun h => (h < length (hosts w))%nat) hs.
Proof.
  intros [_ _ _ He]. apply Forall_forall. intros h Hh. destruct (He h Hh) as (hh & Hhh & _).
  by eapply lookup_lt_Some.
Qed.

(** A pending job with a plan, and the counters of hosts and queue charged. *)
Lemma entered_run_ok w id j q qq hs c' r H' :
  inv w -> jobs w !! id = Some j -> list_id j = JOB_LIST_PEND -> state j = JOB_PENDING ->
  queue j = Some q -> queues w !! q = Some qq -> plan_good w qq j hs ->
  c' = (core (planned j hs)) <| jc_state := JOB_RUNNING |> <| jc_list := JOB_LIST_RUN |> ->
  remove_first id (pend_jobs_list w) = Some r ->
  hosts_follow (core j) c' (hosts w) H' ->
  acct_ok ((entered_run (acct_of w) id c' r) <| a_hosts := H' |>
             <| a_queues ::= alter (queue_enter_run (planned j hs)) q |>).
Proof.
  intros HI Hj Hl Hs Hq Hqq Hg -> Hr HH. pose proof Hg as [Hnd Hne Hroom He].
  assert (Hc := cores_lookup_Some _ _ _ Hj). pose proof (inv_job w id j HI Hj) as Hok.
  assert (HF : Forall (fun h => (h < length (hosts w))%nat) hs) by by eapply plan_good_hosts.
  apply (acct_ok_step (acct_of w) _ id (core j)
    ((core (planned j hs)) <| jc_state := JOB_RUNNING |> <| jc_list := JOB_LIST_RUN |>)); try done.
  - pose proof (planned_core_ok _ _ _ _ hs Hok Hl Hroom HF) as [H1 H2 H3 H4 H5 H6 _ H8]. split; try done. cbn.
    split; [by left|]. split; [|by apply (inv_pend_state w id j)]. exists hs.
    by split; [apply planned_take|].
  - apply (lists_ok_move (cores w) (fun l => a_list l (acct_of w)) _ id (core j) _ JOB_LIST_PEND JOB_LIST_RUN r);
      try done; [apply (ao_lists _ HI)|]. intros l. by destruct l.
  - apply queues_follow_alter; try done. intros x g. unfold qweight. cbn. rewrite Hl, Hs.
    destruct g; cbn; lia.
Qed.

Lemma host_delta_idle_marks h c c' hh hh' :
  same_but_marks hh hh' -> host_delta h c c' hh hh -> host_delta h c c' hh hh'.
Proof. intros (g & c0 & ->) []. by split. Qed.

Lemma num_jobs_nonneg w h hh : inv w -> hosts w !! h = Some hh -> 0 <= h_num_jobs hh.
Proof.
  intros HI Hh. rewrite (ho_jobs _ _ _ (ao_hosts _ HI h hh Hh)). apply mapsum_nonneg.
  intros i c _. unfold hcontrib. destruct (uses c h); cbn; lia.
Qed.

(** The hosts after the charge. *)
Lemma charged_hosts_follow w id j qq hs jd H1 H2 :
  inv w -> jobs w !! id = Some j -> list_id j = JOB_LIST_PEND -> plan_good w qq j hs ->
  rsrc jd = rsrc j -> flags jd = flags j -> state jd = JOB_RUNNING ->
  (forall h, uses (core jd) h = bool_decide (h ∈ hs)) ->
  hosts_marked (hosts w) H1 -> length H2 = length H1 ->
  (forall h hh', H2 !! h = Some hh' -> exists hh, H1 !! h = Some hh /\
     hh' = if bool_decide (h ∈ hs) then host_charge jd hh else hh) ->
  hosts_follow (core j) (core jd) (hosts w) H2.
Proof.
  intros HI Hj Hl [_ _ _ He] Hr Hf Hs Hu [Hlen1 HH1] Hlen2 HH2. split; [congruence|].
  intros h hh' (hh1 & Hh1 & ->)%HH2. apply HH1 in Hh1 as (hh & Hhh & Hg). exists hh. split; [done|].
  destruct (host_ok_ranges _ _ _ (ao_hosts _ HI h hh Hhh)) as (Hr1 & Hr2 & Hr3).
  pose proof (inv_job w id j HI Hj) as Hok. specialize (Hu h).
  destruct (bool_decide (h ∈ hs)) eqn:Hin.
  - apply bool_decide_eq_true in Hin. destruct (He h Hin) as (x & Hx & Hel).
    rewrite Hhh in Hx. injection Hx as <-. apply andb_true_iff in Hel as [_ Hm].
    apply host_meets_spec in Hm. eapply host_charge_delta; try done.
    + by eapply num_jobs_nonneg.
    + apply Hok.
    + apply (ok_mem _ _ _ _ Hok).
    + apply (ok_mem _ _ _ _ Hok).
  - apply host_delta_idle_marks; [done|]. apply host_delta_idle; try done. apply uses_not_run. cbn. congruence.
Qed.

(** A pending job that got a plan but could not be sent. *)
Lemma planned_inv w id j hs :
  inv w -> jobs w !! id = Some j -> list_id j = JOB_LIST_PEND -> (length hs <= length (run_hosts j))%nat ->
  Forall (fun h => (h < length (hosts w))%nat) hs ->
  inv (upd_job id (fun _ => (planned j hs) <| pend_reason_of := PEND_NONE |>) w).
Proof.
  intros HI Hj Hl Hlen HF. apply (inv_job_update w id j); try done.
  - apply planned_core_ok; try done. by apply (inv_job w).
  - apply queues_follow_same; [done|]. intros g. unfold qweight. cbn. rewrite Hl. by destruct g.
  - apply (hosts_follow_idle (acct_of w)); [done|..]; intros h; apply uses_not_run; cbn; congruence.
Qed.

Lemma machines_ok_inv w id j : inv w -> jobs w !! id = Some j -> machines_ok j.
Proof. intros HI Hj Hpos. apply (ok_machines _ _ _ _ (inv_job w id j HI Hj) Hpos). Qed.

Section sched.
Context {QS : QSort}.

(** The planner returns on every job of the table. *)
Lemma plan_for w id j q qq :
  inv w -> jobs w !! id = Some j -> queue j = Some q -> queues w !! q = Some qq ->
  exists r, build_host_plan w j = Ok r /\ plan_result w qq j r.
Proof.
  intros HI Hj Hq Hqq. destruct (ok_slots _ _ _ _ (inv_job w id j HI Hj)) as [Hs Hl].
  apply (build_host_plan_Ok w j qq q Hq Hqq (ao_members _ HI q qq Hqq) (machines_ok_inv w id j HI Hj) Hs Hl).
Qed.

(** The branch that dispatches a job with the plan [hs]. *)
Lemma sched_dispatch_inv e id j q qq hs w w1 ok :
  inv w -> jobs w !! id = Some j -> list_id j = JOB_LIST_PEND -> state j = JOB_PENDING ->
  queue j = Some q -> queues w !! q = Some qq -> plan_good w qq j hs ->
  mbd_dispatch_job e id (upd_job id (fun _ => (planned j hs) <| pend_reason_of := PEND_NONE |>) w)
    = Ok (w1, ok) ->
  if ok : bool then
    forall w', sched_account id w1 = Ok w' -> inv w' /\ exists c', cores w' = <[id := c']> (cores w)
  else inv w1 /\ exists c', cores w1 = <[id := c']> (cores w).
Proof.
  intros HI Hj Hl Hs Hq Hqq Hg Hd. set (j1 := (planned j hs) <| pend_reason_of := PEND_NONE |>) in *.
  set (w0 := upd_job id (fun _ => j1) w) in *.
  assert (Hj1 : jobs w0 !! id = Some j1) by (cbn; by rewrite lookup_alter_eq, Hj).
  assert (Hc0 : cores w0 = <[id := core j1]> (cores w)) by by apply (fmap_alter_core _ _ _ j).
  apply (mbd_dispatch_job_Ok _ _ _ j1) in Hd as (H1 & a & HH1 & Hd); [|done].
  destruct ok.
  - destruct Hd as (r & Hr & Hjd & Ha). intros w' Hacc. set (jd := dispatched_job e j1 a) in *.
    assert (Hp : run_host_ptrs jd = Ok hs) by by apply run_host_ptrs_plan; [apply planned_take|].
    apply (sched_account_Ok _ _ jd hs) in Hacc as (H2 & q' & Hq' & _ & Ha' & Hlen & HH2); [|done|done|apply Hg].
    assert (q' = q) as -> by (cbn in Hq'; congruence).
    pose proof (f_equal a_hosts Ha) as Hh1. cbn in Hh1. rewrite Hh1 in Hlen, HH2.
    assert (HHf : hosts_follow (core j) (core jd) (hosts w) H2).
    { eapply charged_hosts_follow; try done. intros h. by apply uses_plan; [|apply planned_take]. }
    assert (Hfin : acct_of w' = (entered_run (acct_of w) id (core jd) r) <| a_hosts := H2 |>
             <| a_queues ::= alter (queue_enter_run (planned j hs)) q |>).
    { rewrite Ha', Ha. unfold entered_run. acct_simpl. f_equal.
      change (<[id := core jd]> (cores w0) = <[id := core jd]> (cores w)). by rewrite Hc0, insert_insert_eq. }
    split.
    + red. rewrite Hfin. by eapply entered_run_ok.
    + exists (core jd). rewrite <- !acct_cores, Hfin. done.
  - split.
    + red. rewrite Hd. apply acct_ok_marks; [done|]. apply (planned_inv w id j); try done; [apply Hg|by eapply plan_good_hosts].
    + exists (core j1). rewrite <- !acct_cores, Hd. done.
Qed.

Lemma build_plan_array_same e w w0 b :
  build_plan_array e w = (w0, b) -> acct_of w0 = acct_of w /\ jobs w0 = jobs w.
Proof.
  unfold build_plan_array, try_alloc. destruct (host_plan_ready w); [by intros [= <- _]|].
  destruct (alloc_ok e (io w)); by intros [= <- _].
Qed.

Lemma set_pend_reason_ok id j r w :
  inv w -> jobs w !! id = Some j -> inv (set_pend_reason id r w) /\ only_job id w (set_pend_reason id r w).
Proof.
  intros HI Hj. assert (Ha : acct_of (set_pend_reason id r w) = acct_of w) by by apply acct_upd_job_inert.
  split; [red; by rewrite Ha|]. eapply only_job_same; [done|]. by rewrite <- !acct_cores, Ha.
Qed.

Lemma sched_job_inv e id fs j w w' nx :
  inv w -> jobs w !! id = Some j -> list_id j = JOB_LIST_PEND ->
  sched_job e id fs w = Ok (w', nx) -> inv w' /\ only_job id w w'.
Proof.
  intros HI Hj Hl H. unfold sched_job in H. rewrite Hj in H. cbn [deref res_bind] in H.
  destruct (job_is_ready e j) eqn:Hrdy; cbn [negb] in H; [|injection H as <- <-; by eapply set_pend_reason_ok].
  apply res_bind_Ok in H as (qq & Hq & H).
  destruct (bool_decide _); [injection H as <- <-; by eapply set_pend_reason_ok|].
  destruct (tokens_available w j); cbn [negb] in H; [|injection H as <- <-; by eapply set_pend_reason_ok].
  apply res_bind_Ok in H as (sat & _ & H).
  destruct sat; cbn [negb] in H; [|injection H as <- <-; by eapply set_pend_reason_ok].
  destruct (build_plan_array e w) as [w0 ready] eqn:Hb.
  apply build_plan_array_same in Hb as [Ha Hjobs].
  assert (HI0 : inv w0) by (red; by rewrite Ha). assert (Hj0 : jobs w0 !! id = Some j) by by rewrite Hjobs.
  assert (Hc0 : cores w0 = cores w) by by rewrite <- !acct_cores, Ha.
  destruct ready; cbn [negb] in H; [|injection H as <- <-; split; [done|by eapply only_job_same]].
  unfold job_queue in Hq. apply res_bind_Ok in Hq as (q & Hr%deref_Ok & Hq%nth_res_Ok).
  assert (Hqq : queues w0 !! q = Some qq) by (change (a_queues (acct_of w0) !! q = Some qq); by rewrite Ha).
  assert (Hs : state j = JOB_PENDING).
  { unfold job_is_ready, state_is in Hrdy. apply andb_true_iff in Hrdy as [Hx _].
    by apply bool_decide_eq_true in Hx. }
  apply res_bind_Ok in H as (r & Hp & H). pose proof (inv_job w0 id j HI0 Hj0) as Hok.
  destruct (plan_for w0 id j q qq HI0 Hj0 Hr Hqq) as (r' & Hp' & Hres).
  rewrite Hp' in Hp. injection Hp as <-.
  destruct r' as [d|j'].
  { injection H as <- <-. destruct (set_pend_reason_ok id j (diag_reason d) w0 HI0 Hj0) as [G1 [G2 G3]].
    split; [done|]. rewrite Hc0 in G2. by split. }
  destruct Hres as (hs & -> & Hg & _). apply res_bind_Ok in H as ([w1 ok] & Hd & H).
  pose proof (sched_dispatch_inv e id j q qq hs w0 w1 ok HI0 Hj0 Hl Hs Hr Hqq Hg Hd) as Hinv.
  destruct ok; cbn [negb] in H.
  - apply res_bind_Ok in H as (w2 & Hacc & H). destruct (Hinv w2 Hacc) as [G1 [c' G2]].
    assert (w' = w2) as -> by (destruct (_ <=? 0); by injection H as <- _).
    split; [done|]. rewrite Hc0 in G2. by eapply only_job_acct.
  - injection H as <- <-. destruct Hinv as [G1 [c' G2]]. split; [done|]. rewrite Hc0 in G2.
    by eapply only_job_acct.
Qed.

(** What the scheduler checked of a job it started. *)
Record start_guards (e : env) (w : mbd) (j : job_data) : Prop := mk_start_guards {
  sg_pending : state j = JOB_PENDING;
  sg_begin : begin_time j <= 0 \/ begin_time j <= now e;
  sg_open : exists q qq, queue j = Some q /\ queues w !! q = Some qq /\ q_state qq <> QUEUE_CLOSED;
  sg_tokens : tokens_available w j = true;
  sg_deps : job_dep_satisfied w j = Ok true
}.

Lemma sched_job_guards e id fs j w w' nx :
  jobs w !! id = Some j -> list_id j = JOB_LIST_PEND -> sched_job e id fs w = Ok (w', nx) ->
  (forall j', jobs w' !! id = Some j' -> list_id j' = JOB_LIST_RUN -> start_guards e w j).
Proof.
  intros Hj Hl H j' Hj' Hl'. unfold sched_job in H. rewrite Hj in H. cbn [deref res_bind] in H.
  assert (Hno : forall r w1, w' = set_pend_reason id r w1 -> jobs w1 = jobs w -> start_guards e w j).
  { intros r w1 -> He. cbn in Hj'. rewrite lookup_alter_eq, He, Hj in Hj'. injection Hj' as <-.
    cbn in Hl'. congruence. }
  destruct (job_is_ready e j) eqn:Hrdy; cbn [negb] in H; [|injection H as <- <-; by eapply Hno].
  apply res_bind_Ok in H as (qq & Hq & H).
  destruct (bool_decide _) eqn:Hopen; [injection H as <- <-; by eapply Hno|].
  destruct (tokens_available w j) eqn:Htok; cbn [negb] in H; [|injection H as <- <-; by eapply Hno].
  apply res_bind_Ok in H as (sat & Hsat & H).
  destruct sat; cbn [negb] in H; [|injection H as <- <-; by eapply Hno].
  unfold job_queue in Hq. apply res_bind_Ok in Hq as (q & Hr%deref_Ok & Hq%nth_res_Ok).
  unfold job_is_ready, state_is in Hrdy. apply andb_true_iff in Hrdy as [Hs Hb].
  apply bool_decide_eq_true in Hs. apply bool_decide_eq_false in Hopen.
  split; try done; [|eauto]. apply negb_true_iff, andb_false_iff in Hb as [Hb|Hb]; b2p; lia.
Qed.

Lemma sched_loop_inv e ids fs w w' b :
  inv w -> on_list JOB_LIST_PEND w ids -> NoDup ids -> sched_loop e ids fs w = Ok (w', b) -> kept w w'.
Proof.
  revert fs w. induction ids as [|id ids IH]; intros fs w HI HL Hnd H; cbn in H.
  - injection H as <- _. by apply kept_refl.
  - apply NoDup_cons in Hnd as [Hid Hnd]. apply res_bind_Ok in H as ([w1 nx] & Hs & H).
    destruct (on_list_head _ _ _ _ HL) as (j & Hj & Hl).
    destruct (sched_job_inv _ _ _ _ _ _ _ HI Hj Hl Hs) as [HI1 Ho].
    assert (Hk1 : kept w w1) by (split; [done|]; by eapply only_job_fin; [|rewrite Hl|]).
    destruct nx; [|by injection H as <- _..]. eapply kept_trans; [exact Hk1|].
    apply (IH _ _ HI1 (on_list_tail _ _ _ _ _ HL Hid Ho) Hnd H).
Qed.

(** ** The whole cycle *)

Lemma mark_candidates_inv w : inv w -> inv (mark_candidates w).1.
Proof.
  intros HI. cbn [mark_candidates fst]. red.
  change (acct_of _) with ((acct_of w) <| a_hosts := map (fun h => h <| candidate := host_usable h |>) (hosts w) |>).
  apply acct_ok_marks; [|done]. split; [apply length_map|].
  intros h hh'. cbn. rewrite (list_lookup_fmap _ (hosts w)). destruct (hosts w !! h) as [hh|]; [|done].
  intros [= <-]. exists hh. split; [done|]. exists (h_gpu hh), (host_usable hh). by destruct hh.
Qed.

Lemma pend_perm_inv w l : inv w -> l ≡ₚ pend_jobs_list w -> inv (w <| pend_jobs_list := l |>).
Proof.
  intros [H1 H2 H3 H4 H5] Hp. split; try done. intros k. destruct (H2 k) as [G1 G2].
  destruct k; try done. cbn in *. split; [by rewrite Hp|]. intros id. rewrite Hp. apply G2.
Qed.

Lemma sort_pend_list_perm w w' :
  sort_pend_list w = Ok w' -> exists l, w' = w <| pend_jobs_list := l |> /\ l ≡ₚ pend_jobs_list w.
Proof.
  unfold sort_pend_list. destruct (_ <? _)%nat.
  - intros [= <-]. exists (pend_jobs_list w). split; [by destruct w|done].
  - intros Hs. inv_res. eexists. split; [done|].
    rewrite <- (job_pend_keys_ids _ _ _ Hr0). by apply Permutation_map, qsort_perm.
Qed.

Lemma schedule_inv e w w' : inv w -> schedule e w = Ok w' -> kept w w'.
Proof.
  intros HI H. unfold schedule in H. destruct (pend_jobs_list w) eqn:Hpl; [injection H as <-; by apply kept_refl|].
  destruct (mark_candidates w) as [w1 fs] eqn:Hm.
  assert (HI1 : inv w1). { pose proof (mark_candidates_inv w HI) as Hx. by rewrite Hm in Hx. }
  assert (Hc1 : cores w1 = cores w) by by injection Hm as <- _.
  destruct (fs =? 0); [injection H as <-; by split; [|apply fin_kept_same]|].
  apply res_bind_Ok in H as (w2 & Hs & H). apply sort_pend_list_perm in Hs as (l' & -> & Hp).
  apply pend_perm_inv with (l := l') in HI1; [|done].
  apply res_bind_Ok in H as ([w3 fin] & Hl & H).
  assert (HI3 : kept w w3).
  { apply sched_loop_inv in Hl as [G1 G2]; [|exact HI1| |].
    - split; [done|]. eapply fin_kept_trans; [|exact G2]. by apply fin_kept_same.
    - apply (on_list_all JOB_LIST_PEND _ HI1).
    - apply (ao_lists _ HI1 JOB_LIST_PEND). }
  destruct fin; cbn [negb] in H; [|by injection H as <-]. inv_res. done.
Qed.

End sched.
