(* ===== verification/MbdTokens.v ===== *)
(** * Token pools: what allocation and release do to the free counts *)

From S2P Require Import Prelude CString LlHash Dependency LogFormat MbdTypes MbdBase.

Open Scope Z_scope.

Implicit Types (w : mbd) (j : job_data).

(** What a job asks of pool [p]. *)
Definition demand (w : mbd) (j : job_data) (p : nat) : Z :=
  sumZ (fun t => if bool_decide (pool_name_hash w !! tok_name t = Some p) then tok_count t else 0)
    (tokens (rsrc j)).

Definition add_free (d : Z) (pl : mbd_token_pool) : mbd_token_pool := pl <| p_free ::= fun f => f + d |>.

Lemma add_free_add a b pl : add_free a (add_free b pl) = add_free (b + a) pl.
Proof. destruct pl as [n t f]. change (mk_mbd_token_pool n t (f + b + a) = mk_mbd_token_pool n t (f + (b + a))). by rewrite Z.add_assoc. Qed.

Lemma add_free_0 pl : add_free 0 pl = pl.
Proof. destruct pl as [n t f]. change (mk_mbd_token_pool n t (f + 0) = mk_mbd_token_pool n t f). by rewrite Z.add_0_r. Qed.

Lemma pool_add_lookup nm d w p :
  pools (pool_add nm d w) !! p =
  add_free (if bool_decide (pool_name_hash w !! nm = Some p) then d else 0) <$> pools w !! p.
Proof.
  unfold pool_add. destruct (pool_name_hash w !! nm) as [q|] eqn:Hq.
  - destruct (decide (p = q)) as [->|Hne].
    + rewrite bool_decide_eq_true_2 by done. cbn. rewrite list_lookup_alter_eq. by destruct (pools w !! q).
    + rewrite bool_decide_eq_false_2 by congruence. cbn. rewrite list_lookup_alter_ne by done.
      destruct (pools w !! p); cbn; by rewrite ?add_free_0.
  - rewrite bool_decide_eq_false_2 by done. destruct (pools w !! p); cbn; by rewrite ?add_free_0.
Qed.

(** The loops over the tokens of a job, with a sign. *)
Lemma tokens_add_lookup (sg : Z) ts w p :
  pools (foldl (fun w t => pool_add (tok_name t) (sg * tok_count t) w) w ts) !! p =
  add_free (sg * sumZ (fun t => if bool_decide (pool_name_hash w !! tok_name t = Some p)
                                then tok_count t else 0) ts) <$> pools w !! p.
Proof.
  revert w. induction ts as [|t ts IH]; intros w; cbn.
  - rewrite Z.mul_0_r. destruct (pools w !! p); cbn; by rewrite ?add_free_0.
  - rewrite IH, pool_add_lookup.
    assert (Hh : pool_name_hash (pool_add (tok_name t) (sg * tok_count t) w) = pool_name_hash w).
    { unfold pool_add. by destruct (pool_name_hash w !! tok_name t). }
    rewrite Hh. destruct (pools w !! p) as [pl|]; [|done]. cbn. f_equal. rewrite add_free_add. f_equal.
    case_bool_decide; lia.
Qed.

Lemma foldl_tokens_ext (f g : Z -> Z) ts w :
  (forall z, f z = g z) ->
  foldl (fun w t => pool_add (tok_name t) (f (tok_count t)) w) w ts =
  foldl (fun w t => pool_add (tok_name t) (g (tok_count t)) w) w ts.
Proof. intros Hfg. revert w. induction ts as [|t ts IH]; intros w; cbn; [done|]. by rewrite Hfg, IH. Qed.

Lemma token_alloc_lookup j w p :
  pools (token_alloc j w) !! p = add_free (- demand w j p) <$> pools w !! p.
Proof.
  unfold token_alloc. rewrite (foldl_tokens_ext Z.opp (Z.mul (-1))) by lia.
  rewrite tokens_add_lookup. unfold demand. by replace (-1 * _) with (- sumZ (fun t => if bool_decide
    (pool_name_hash w !! tok_name t = Some p) then tok_count t else 0) (tokens (rsrc j))) by lia.
Qed.

Lemma token_release_lookup j w p :
  pools (token_pool_release j w) !! p = add_free (demand w j p) <$> pools w !! p.
Proof.
  unfold token_pool_release. rewrite (foldl_tokens_ext (fun z => z) (Z.mul 1)) by lia.
  rewrite tokens_add_lookup. unfold demand. by rewrite Z.mul_1_l.
Qed.

(** Tokens of different pools: the demand on a pool is one token's count. *)
Lemma demand_single w j p :
  NoDup (map (fun t => pool_name_hash w !! tok_name t) (tokens (rsrc j))) ->
  demand w j p = 0 \/
  exists t, t ∈ tokens (rsrc j) /\ pool_name_hash w !! tok_name t = Some p /\ demand w j p = tok_count t.
Proof.
  unfold demand. induction (tokens (rsrc j)) as [|t ts IH]; cbn; [by left|]. intros [Hni Hnd]%NoDup_cons.
  destruct (IH Hnd) as [H0|(t' & Ht' & Hp & Hd)].
  - rewrite H0. case_bool_decide as Hp; [right|by left]. exists t. split; [left|]. split; [done|lia].
  - right. rewrite Hd. rewrite bool_decide_eq_false_2.
    + exists t'. split; [by right|done].
    + intros He. apply Hni. rewrite He, <- Hp. by apply (list_elem_of_fmap_2 (fun t => pool_name_hash w !! tok_name t)).
Qed.
