(* ===== verification/MbdStatic.v ===== *)
(** * What no handler touches

    The parts of the daemon's state that stay as they are while jobs come and go:
    the owner, the dependencies, the GPU request and the array fields of every
    job, the id sequence, the tables of queues and hosts and the channels.  One
    lemma per handler of jobs; they do not depend on the accounting. *)

From S2P Require Import Prelude CString LlHash Dependency LogFormat MbdTypes MbdBase MbdJob MbdSched MbdNet.
From S2P Require Import MbdInv MbdFrame MbdSafe.

Open Scope Z_scope.

Implicit Types (w : mbd) (j : job_data) (id : Z).

Record static : Type := mk_static {
  st_id : Z;
  st_uid : Z;
  st_deps : list job_dep;
  st_gpus : Z;
  st_array_id : Z;
  st_array_index : Z;
  st_array_start : Z
}.

Definition static_of (j : job_data) : static :=
  mk_static (job_id j) (uid j) (deps j) (num_gpus (rsrc j)) (array_id j) (array_index j) (array_start j).

Definition statics (w : mbd) : gmap Z static := static_of <$> jobs w.

Record fixed_part : Type := mk_fixed {
  fx_jobs : gmap Z static;
  fx_seq : Z;
  fx_queues : nat;
  fx_queue_hash : gmap string nat;
  fx_chans : list Z;
  fx_chan_hash : gmap Z nat;
  fx_host_hash : gmap string nat
}.

Definition fixed (w : mbd) : fixed_part :=
  mk_fixed (statics w) (job_id_seq w) (length (queues w)) (queue_name_hash w)
    (map sbd_chan (hosts w)) (sbd_chan_hash w) (host_name_hash w).

(** ** The shared operations *)

Lemma statics_alter (f : job_data -> job_data) id (m : gmap Z job_data) :
  (forall j, m !! id = Some j -> static_of (f j) = static_of j) -> static_of <$> alter f id m = static_of <$> m.
Proof.
  intros Hf. apply map_eq. intros i. rewrite !lookup_fmap. destruct (decide (i = id)) as [->|].
  - rewrite lookup_alter_eq. destruct (m !! id) eqn:E; cbn; [by rewrite Hf|done].
  - by rewrite lookup_alter_ne by congruence.
Qed.

Lemma fixed_upd_job_at id f w :
  (forall j, jobs w !! id = Some j -> static_of (f j) = static_of j) -> fixed (upd_job id f w) = fixed w.
Proof. intros Hf. unfold fixed, statics, upd_job. cbn. by rewrite statics_alter. Qed.

Lemma fixed_upd_job id f w :
  (forall j, static_of (f j) = static_of j) -> fixed (upd_job id f w) = fixed w.
Proof. intros Hf. apply fixed_upd_job_at. auto. Qed.

Lemma map_alter_same {A B} (g : A -> B) f i (l : list A) :
  (forall x, g (f x) = g x) -> map g (alter f i l) = map g l.
Proof.
  intros Hf. apply list_eq. intros k. rewrite !(list_lookup_fmap g). destruct (decide (k = i)) as [->|].
  - rewrite list_lookup_alter_eq. destruct (l !! i); cbn; by rewrite ?Hf.
  - by rewrite list_lookup_alter_ne by congruence.
Qed.

Lemma fixed_upd_host n f w :
  (forall h, sbd_chan (f h) = sbd_chan h) -> fixed (upd_host n f w) = fixed w.
Proof. intros Hf. unfold fixed, upd_host. cbn. by rewrite map_alter_same. Qed.

Lemma fixed_upd_queue q f w : fixed (upd_queue q f w) = fixed w.
Proof. unfold fixed, upd_queue. cbn. by rewrite length_alter. Qed.

Lemma fixed_upd_job_list l f w : fixed (upd_job_list l f w) = fixed w.
Proof. by destruct l. Qed.

Lemma fixed_set_list id l w : fixed (job_set_list id l w) = fixed w.
Proof. unfold job_set_list. rewrite fixed_upd_job by done. apply fixed_upd_job_list. Qed.

Lemma fixed_deps_refcnt j d w : fixed (job_deps_refcnt j d w) = fixed w.
Proof.
  unfold job_deps_refcnt. revert w. induction (deps j) as [|x ds IH]; intros w; cbn; [done|].
  rewrite IH. destruct (dep_is_call x); [|done]. by apply fixed_upd_job.
Qed.

Lemma fixed_deps_release j w : fixed (job_deps_release j w) = fixed w.
Proof. apply fixed_deps_refcnt. Qed.

Lemma fixed_deps_hold j w : fixed (job_deps_hold j w) = fixed w.
Proof. apply fixed_deps_refcnt. Qed.

Lemma fixed_array_finished j w : fixed (job_array_element_finished j w) = fixed w.
Proof.
  unfold job_array_element_finished. destruct (array_id j =? 0); [done|].
  destruct (job_find w (array_id j)); [|done]. by apply fixed_upd_job.
Qed.

Lemma fixed_token_release j w : fixed (token_pool_release j w) = fixed w.
Proof. destruct (token_release_pools j w) as [p ->]. done. Qed.

Lemma fixed_token_alloc j w : fixed (token_alloc j w) = fixed w.
Proof.
  unfold token_alloc. revert w. induction (tokens (rsrc j)) as [|t ts IH]; intros w; cbn; [done|].
  rewrite IH. unfold pool_add. by destruct (pool_name_hash w !! tok_name t).
Qed.

Lemma fixed_enqueue e c op st b w : fixed (enqueue_payload e c op st b w).1 = fixed w.
Proof. unfold enqueue_payload. by destruct (enq_ok e (io w) c). Qed.

Lemma fixed_enqueue_header e c op st w : fixed (enqueue_header e c op st w).1 = fixed w.
Proof. apply fixed_enqueue. Qed.

Lemma fixed_sign e w : fixed (auth_sign_header e w).1 = fixed w.
Proof. done. Qed.

Lemma fixed_send_ack e c op i o w : fixed (send_ack e c op i o w).1 = fixed w.
Proof.
  unfold send_ack, auth_sign_header. destruct (negb _); [done|]. by rewrite fixed_enqueue.
Qed.

Lemma fixed_set_reason id r w : fixed (set_pend_reason id r w) = fixed w.
Proof. by apply fixed_upd_job. Qed.

Lemma fixed_plan_array e w : fixed (build_plan_array e w).1 = fixed w.
Proof.
  unfold build_plan_array, try_alloc. destruct (host_plan_ready w); [done|]. by destruct (alloc_ok e (io w)).
Qed.

Create Rewrite HintDb fixed.
#[export] Hint Rewrite fixed_upd_queue fixed_upd_job_list fixed_set_list fixed_deps_release fixed_deps_hold fixed_array_finished
  fixed_token_release fixed_token_alloc fixed_enqueue fixed_enqueue_header fixed_sign fixed_send_ack
  fixed_set_reason fixed_plan_array : fixed.

(** ** Fallible operations *)

Lemma wp_any {A} (m : res A) : wp m (fun _ => True) True.
Proof. by destruct m. Qed.

Lemma fixed_log_append ev w : wp (log_append ev w) (fun w' => fixed w' = fixed w) True.
Proof. unfold log_append. by destruct (log_write ev). Qed.

Lemma fixed_upd_job_queue j f w : wp (upd_job_queue j f w) (fun w' => fixed w' = fixed w) True.
Proof.
  unfold upd_job_queue. destruct (queue j) as [q|]; [|done]. cbn. destruct (nth_res _ _); [|done]. cbn.
  apply fixed_upd_queue.
Qed.

Lemma fixed_move_list id a b w : wp (job_move_list id a b w) (fun w' => fixed w' = fixed w) True.
Proof.
  unfold job_move_list. destruct (remove_first _ _); [|done]. cbn. by rewrite fixed_set_list, fixed_upd_job_list.
Qed.

Lemma fixed_each_host f hs w :
  (forall h h', f h = Ok h' -> sbd_chan h' = sbd_chan h) ->
  wp (each_host f hs w) (fun w' => fixed w' = fixed w) True.
Proof.
  intros Hf. unfold each_host. apply (wp_fold _ (fun _ x => fixed x = fixed w)); [done| |done].
  intros h r x Hx. apply wp_bind.
  unfold nth_res. destruct (hosts x !! h) as [hh|] eqn:Hh; [|done]. cbn [wp]. apply wp_bind.
  destruct (f hh) as [hh'|] eqn:Hfh; [|done]. cbn [wp]. rewrite <- Hx. unfold fixed. cbn. f_equal.
  rewrite (list_fmap_insert sbd_chan), (Hf _ _ Hfh). apply list_insert_id. by rewrite list_lookup_fmap, Hh.
Qed.

Lemma host_release_chan j h h' : host_release j h = Ok h' -> sbd_chan h' = sbd_chan h.
Proof.
  unfold host_release. intros [g ->]%release_gpus.
  by destruct (is_exclusive j), (state_is JOB_SUSPENDED j), (state_is JOB_RUNNING j).
Qed.

Lemma fixed_reset_hosts j w : wp (reset_host_resources j w) (fun w' => fixed w' = fixed w) True.
Proof.
  unfold reset_host_resources. destruct (run_host_ptrs j) as [hs|]; [|done]. cbn.
  apply fixed_each_host, host_release_chan.
Qed.

Lemma fixed_update_hosts j w : wp (host_update_resources j w) (fun w' => fixed w' = fixed w) True.
Proof.
  unfold host_update_resources. destruct (run_host_ptrs j) as [hs|]; [|done]. cbn.
  apply fixed_each_host. intros h h' [= <-]. unfold host_charge. cbv zeta.
  destruct (is_exclusive j); match goal with |- context [if ?b then _ else _] => destruct b end; done.
Qed.

Create HintDb fixed_ops.
#[export] Hint Resolve fixed_log_append fixed_upd_job_queue fixed_move_list fixed_reset_hosts
  fixed_update_hosts : fixed_ops.

(** Close [fixed (op w') = fixed w] from the equations of the context. *)
Ltac fixed_norm :=
  cbn beta in *; cbn [fst] in *;
  repeat match goal with
  | H : fixed _ = fixed _ |- _ =>
      first [ progress autorewrite with fixed in H | rewrite fixed_upd_job in H by done
            | rewrite fixed_upd_host in H by done ]
  end.
Ltac fixed_eq :=
  fixed_norm;
  repeat first [progress autorewrite with fixed | rewrite fixed_upd_job by done | rewrite fixed_upd_host by done];
  congruence.

(** Walk through the body of a handler. *)
Ltac fixed_walk :=
  repeat match goal with
  | |- wp (res_bind _ _) _ _ => apply wp_bind
  | |- wp (Ok _) _ _ => cbn [wp]
  | |- wp (Crash _) _ _ => exact I
  | |- wp (let (_, _) := ?p in _) _ _ =>
      lazymatch type of p with
      | (mbd * bool)%type =>
          let E := fresh "E" in
          destruct p eqn:E; apply (f_equal (fun x => fixed x.1)) in E;
          autorewrite with fixed in E; cbn [fst] in E
      | _ => destruct p
      end
  | |- wp (match ?x with _ => _ end) _ _ => destruct x eqn:?
  | |- wp ?m _ _ =>
      first [ eapply wp_mono; [solve [eauto 2 with fixed_ops]| intros ? ?| done]
            | eapply wp_mono; [apply wp_any| intros ? _| done] ]
  end.
Ltac fixed_op := fixed_walk; try fixed_eq.

(** ** The handlers *)

Lemma fixed_finish_pending e id j ws w : wp (finish_pending_job e id j ws w) (fun p => fixed p.1 = fixed w) True.
Proof. unfold finish_pending_job, event_job_signal, event_job_finish. fixed_op. Qed.

Lemma fixed_stop_pending e id j ws w : wp (stop_pending_job e id j ws w) (fun p => fixed p.1 = fixed w) True.
Proof. unfold stop_pending_job, event_job_signal, event_job_pend_susp. fixed_op. Qed.

Lemma fixed_resume_pending e id j ws w : wp (resume_pending_job e id j ws w) (fun p => fixed p.1 = fixed w) True.
Proof. unfold resume_pending_job, event_job_signal, event_job_pend_resume. fixed_op. Qed.
#[export] Hint Resolve fixed_finish_pending fixed_stop_pending fixed_resume_pending : fixed_ops.

Lemma fixed_signal_pending e id j ws w : wp (signal_pending_job e id j ws w) (fun p => fixed p.1 = fixed w) True.
Proof. unfold signal_pending_job. fixed_op. Qed.

Lemma fixed_signal_running e id j ws w : wp (signal_running_job e id j ws w) (fun p => fixed p.1 = fixed w) True.
Proof. unfold signal_running_job, event_job_signal. fixed_op. Qed.
#[export] Hint Resolve fixed_signal_pending fixed_signal_running : fixed_ops.

Lemma fixed_signal_one e u id j req w : wp (signal_one_job e u id j req w) (fun p => fixed p.1 = fixed w) True.
Proof. unfold signal_one_job. fixed_op. Qed.
#[export] Hint Resolve fixed_signal_one : fixed_ops.

Lemma fixed_signal_array_from e u fuel id req n w :
  wp (signal_array_from e u fuel id req n w) (fun p => fixed p.1 = fixed w) True.
Proof.
  revert id n w. induction fuel as [|f IH]; intros id n w; cbn; [done|].
  destruct (job_find w id) as [j|]; [|apply IH]. destruct (_ || _); [apply IH|].
  destruct (_ && _); [apply IH|]. apply wp_bind. eapply wp_mono; [apply fixed_signal_one| |done].
  intros [w1 cc] H1. eapply wp_mono; [apply IH| |done]. intros p Hp. cbn in H1. congruence.
Qed.

Lemma fixed_signal_array e u hd req w : wp (signal_array e u hd req w) (fun p => fixed p.1 = fixed w) True.
Proof. apply fixed_signal_array_from. Qed.

Lemma fixed_scan_pending e u req p id : wp (scan_pending e u req p id) (fun q => fixed q.1 = fixed p.1) True.
Proof. unfold scan_pending. fixed_op. Qed.

Lemma fixed_scan_running e u req p id : wp (scan_running e u req p id) (fun q => fixed q.1 = fixed p.1) True.
Proof. unfold scan_running. fixed_op. Qed.

Lemma fixed_fold {B} (f : mbd * Z -> B -> res (mbd * Z)) l p :
  (forall q x, wp (f q x) (fun r => fixed r.1 = fixed q.1) True) ->
  wp (res_fold f l p) (fun r => fixed r.1 = fixed p.1) True.
Proof.
  intros Hf. apply (wp_fold _ (fun _ q => fixed q.1 = fixed p.1)); [done| |done].
  intros x r c Hc. eapply wp_mono; [apply Hf| |done]. cbn. congruence.
Qed.

Lemma fixed_signal_scan e u req w : wp (signal_jobs_scan e u req w) (fun p => fixed p.1 = fixed w) True.
Proof.
  unfold signal_jobs_scan. apply wp_bind.
  eapply wp_mono; [apply fixed_fold; intros; apply fixed_scan_pending| |done]. intros [w1 n] H1.
  eapply wp_mono; [apply fixed_fold; intros; apply fixed_scan_running| |done]. intros p Hp. cbn in *. congruence.
Qed.
#[export] Hint Resolve fixed_signal_array fixed_signal_scan : fixed_ops.

Lemma fixed_jobs_signal e chan hdr req w : wp (jobs_signal e chan hdr req w) (fun w' => fixed w' = fixed w) True.
Proof. unfold jobs_signal. fixed_op. Qed.

Lemma fixed_job_move e chan hdr id q w : wp (job_move e chan hdr id q w) (fun w' => fixed w' = fixed w) True.
Proof. unfold job_move, event_job_move. fixed_op. Qed.

Lemma fixed_job_priority e chan hdr id p w : wp (job_priority e chan hdr id p w) (fun w' => fixed w' = fixed w) True.
Proof. unfold job_priority, event_job_priority. fixed_op. Qed.

Lemma fixed_reject e id j w : wp (mbd_job_reject_dispatch e id j w) (fun w' => fixed w' = fixed w) True.
Proof. unfold mbd_job_reject_dispatch, event_job_pend. fixed_op. Qed.
#[export] Hint Resolve fixed_reject : fixed_ops.

Lemma fixed_new_job_reply e n r w : wp (mbd_new_job_reply e n r w) (fun w' => fixed w' = fixed w) True.
Proof. unfold mbd_new_job_reply, event_job_fork. fixed_op. Qed.

Lemma fixed_job_finish e n f w : wp (mbd_job_finish e n f w) (fun w' => fixed w' = fixed w) True.
Proof. unfold mbd_job_finish, event_job_finish. fixed_op. Qed.

Lemma fixed_signal_reply n s st w : wp (mbd_job_signal_reply n s st w) (fun w' => fixed w' = fixed w) True.
Proof. unfold mbd_job_signal_reply. fixed_op. Qed.

Lemma fixed_job_missing e n id w : wp (mbd_job_missing e n id w) (fun w' => fixed w' = fixed w) True.
Proof. unfold mbd_job_missing, event_job_pend. fixed_op. Qed.

(** ** The scheduler *)

Lemma commit_plan_static w j plan n d j' : commit_plan w j plan n d = Ok (inr j') -> static_of j' = static_of j.
Proof.
  unfold commit_plan. intros H. apply res_bind_Ok in H as (c & _ & H). apply res_bind_Ok in H as (len & _ & H).
  destruct (_ <=? _); [done|]. apply res_bind_Ok in H as (hs & _ & H). apply res_bind_Ok in H as (j1 & H1 & [= <-]).
  unfold set_run_hosts in H1. by inv_res.
Qed.

Section sched.
Context {QS : QSort}.

Lemma build_host_plan_static w j j' : build_host_plan w j = Ok (inr j') -> static_of j' = static_of j.
Proof.
  unfold build_host_plan. intros H. apply res_bind_Ok in H as (q & _ & H). destruct (0 <? _).
  - unfold build_host_plan_machines in H. apply res_bind_Ok in H as ([plan d] & _ & H).
    destruct (_ <? _)%nat; [done|]. by eapply commit_plan_static.
  - destruct (foldl _ _ _) as [plan d]. destruct (_ <? _); [done|].
    apply res_bind_Ok in H as (keys & _ & H). by eapply commit_plan_static.
Qed.

Lemma fixed_dispatch e id w : wp (mbd_dispatch_job e id w) (fun p => fixed p.1 = fixed w) True.
Proof.
  unfold mbd_dispatch_job, event_job_start. do 7 (apply wp_bind; eapply wp_mono; [apply wp_any| intros ? _|done]).
  apply wp_bind. eapply (wp_mono _ (fun p => fixed p.1 = fixed w)); [|intros [w1 s] H1|done].
  - destruct (0 <? _); [|done]. apply wp_bind. eapply wp_mono; [apply wp_any| intros [g s] _|done].
    cbn [wp fst]. by rewrite fixed_upd_job, fixed_upd_host by done.
  - fixed_op.
Qed.

Lemma fixed_account id w : wp (sched_account id w) (fun w' => fixed w' = fixed w) True.
Proof.
  unfold sched_account. apply wp_bind. eapply wp_mono; [apply wp_any| intros j _|done]. cbv zeta.
  assert (H1 : fixed (match deps j with [] => w | _ => job_deps_release j w end) = fixed w)
    by (destruct (deps j); fixed_eq).
  fixed_op.
Qed.
#[local] Hint Resolve fixed_dispatch fixed_account : fixed_ops.

Lemma fixed_sched_job e id fs w : wp (sched_job e id fs w) (fun p => fixed p.1 = fixed w) True.
Proof.
  unfold sched_job. apply wp_bind. destruct (jobs w !! id) as [j|] eqn:Hj; [|done]. cbn [deref wp].
  destruct (negb _); [cbn [wp]; fixed_eq|]. apply wp_bind. eapply wp_mono; [apply wp_any|intros q _|done].
  destruct (bool_decide _); [cbn [wp]; fixed_eq|]. destruct (negb _); [cbn [wp]; fixed_eq|].
  apply wp_bind. eapply wp_mono; [apply wp_any|intros sat _|done]. destruct (negb sat); [cbn [wp]; fixed_eq|].
  destruct (build_plan_array e w) as [w0 ready] eqn:Hb.
  assert (Hj0 : jobs w0 !! id = Some j).
  { unfold build_plan_array, try_alloc in Hb. destruct (host_plan_ready w); [by injection Hb as <- _|].
    destruct (alloc_ok e (io w)); by injection Hb as <- _. }
  assert (H0 : fixed w0 = fixed w) by (by rewrite <- (fixed_plan_array e w), Hb). clear Hb.
  destruct (negb ready); [done|]. apply wp_bind. destruct (build_host_plan w0 j) as [[d|j']|] eqn:Hp; [..|done]; cbn [wp].
  { fixed_eq. }
  apply build_host_plan_static in Hp.
  assert (H1 : fixed (upd_job id (fun _ => j' <| pend_reason_of := PEND_NONE |>) w0) = fixed w).
  { rewrite fixed_upd_job_at; [done|]. intros x Hx. rewrite Hj0 in Hx. by injection Hx as <-. }
  fixed_op.
Qed.

Lemma fixed_sched_loop e ids fs w : wp (sched_loop e ids fs w) (fun p => fixed p.1 = fixed w) True.
Proof.
  revert fs w. induction ids as [|id ids IH]; intros fs w; cbn; [done|].
  apply wp_bind. eapply wp_mono; [apply fixed_sched_job| |done]. intros [w1 nx] H1.
  destruct nx; [|done..]. eapply wp_mono; [apply IH| |done]. cbn in *. congruence.
Qed.

Lemma fixed_mark_candidates w : fixed (mark_candidates w).1 = fixed w.
Proof. unfold fixed. cbn. by rewrite map_map. Qed.

Lemma fixed_schedule e w : wp (schedule e w) (fun w' => fixed w' = fixed w) True.
Proof.
  unfold schedule. destruct (pend_jobs_list w); [done|].
  destruct (mark_candidates w) as [w1 fs] eqn:Hm.
  assert (H1 : fixed w1 = fixed w) by by rewrite <- (fixed_mark_candidates w), Hm. clear Hm.
  destruct (fs =? 0); [done|]. apply wp_bind.
  eapply (wp_mono _ (fun w2 => fixed w2 = fixed w)); [|intros w2 H2|done].
  { unfold sort_pend_list. destruct (_ <? _)%nat; [done|]. apply wp_bind.
    eapply wp_mono; [apply wp_any|intros ? _|done]. apply wp_bind.
    eapply wp_mono; [apply wp_any|intros ? _|done]. done. }
  apply wp_bind. eapply wp_mono; [apply fixed_sched_loop| |done]. intros [w3 fin] H3. cbn in H3.
  destruct (negb fin); [cbn; congruence|]. apply wp_bind. eapply wp_mono; [apply wp_any|intros ? _|done].
  cbn. congruence.
Qed.
End sched.
