(* ===== verification/MbdLogged.v ===== *)
(** * Every handler logs what it does

    The writers of the log: whatever a handler changes in the durable part of the
    job table, the events it appends mean exactly that change.  One lemma per
    handler. *)

From S2P Require Import Prelude CString LlHash Dependency LogFormat MbdTypes MbdBase MbdJob MbdSched MbdNet.
From S2P Require Import MbdInv MbdFrame MbdSafe MbdControl MbdStatic MbdEvents MbdDurable.

Open Scope string_scope.
Open Scope list_scope.
Open Scope Z_scope.

Implicit Types (w : mbd) (j d : job_data) (id : Z) (m : gmap Z job_data).

(** ** The ledger of a state *)

Record ledger_t : Type := mk_ledger {
  lg_jobs : gmap Z job_data;
  lg_log : list log_event;
  lg_conf : conf
}.

Definition ledger (w : mbd) : ledger_t := mk_ledger (durables w) (manifest w) (conf_of w).

(** The events written between two states mean the change of the table. *)
Definition recorded (w w' : mbd) : Prop :=
  conf_of w' = conf_of w /\
  exists evs, manifest w' = manifest w ++ evs /\ apply_events w (durables w) evs = Some (durables w').

Lemma recorded_frame w w' : ledger w' = ledger w -> recorded w w'.
Proof.
  intros H. pose proof (f_equal lg_jobs H) as H1. pose proof (f_equal lg_log H) as H2. pose proof (f_equal lg_conf H) as H3.
  cbn in H1, H2, H3. split; [done|]. exists []. rewrite app_nil_r. cbn. by rewrite H1, H2.
Qed.

Lemma recorded_refl w : recorded w w.
Proof. by apply recorded_frame. Qed.

Lemma recorded_trans w1 w2 w3 : recorded w1 w2 -> recorded w2 w3 -> recorded w1 w3.
Proof.
  intros [H1 (e1 & H2 & H3)] [H4 (e2 & H5 & H6)]. split; [congruence|]. exists (e1 ++ e2).
  rewrite H5, H2, app_assoc. split; [done|]. rewrite apply_events_app, H3. by rewrite <- (apply_events_conf w1 w2).
Qed.

Lemma recorded_ledger w w1 w2 : recorded w w1 -> ledger w2 = ledger w1 -> recorded w w2.
Proof. intros H1 H2. eapply recorded_trans; [exact H1|by apply recorded_frame]. Qed.

(** ** Operations outside the ledger *)

Lemma ledger_upd_inert id f w : (forall j, durable (f j) = durable j) -> ledger (upd_job id f w) = ledger w.
Proof. intros Hf. unfold ledger. by rewrite durables_upd_inert. Qed.

(** The part of a host the log depends on, with what the host has to offer. *)
Definition hconf (h : mbd_host) := (h_name h, totals h).

Lemma ledger_upd_host n f w : (forall h, hconf (f h) = hconf h) -> ledger (upd_host n f w) = ledger w.
Proof.
  intros Hf. unfold ledger, conf_of, upd_host. cbn.
  rewrite !map_alter_same; [done|intros x; pose proof (f_equal snd (Hf x)) as H; exact H|
    intros x; pose proof (f_equal fst (Hf x)) as H; exact H].
Qed.

(** The part of a queue the log depends on. *)
Definition qconf (q : mbd_queue) := (q_host_hash q, q_name q).

Lemma ledger_upd_queue q f w : (forall x, qconf (f x) = qconf x) -> ledger (upd_queue q f w) = ledger w.
Proof.
  intros Hf. unfold ledger, conf_of, upd_queue. cbn.
  rewrite !map_alter_same; [done|intros x; pose proof (f_equal snd (Hf x)) as H; exact H|
    intros x; pose proof (f_equal fst (Hf x)) as H; exact H].
Qed.

Lemma ledger_upd_job_list l f w : ledger (upd_job_list l f w) = ledger w.
Proof. by destruct l. Qed.

Lemma ledger_deps_refcnt j (n : Z) w : ledger (job_deps_refcnt j n w) = ledger w.
Proof.
  unfold job_deps_refcnt. revert w. induction (deps j) as [|x ds IH]; intros w; cbn; [done|].
  rewrite IH. destruct (dep_is_call x); [|done]. apply ledger_upd_inert. durable_eq.
Qed.

Lemma ledger_deps_release j w : ledger (job_deps_release j w) = ledger w.
Proof. apply ledger_deps_refcnt. Qed.

Lemma ledger_deps_hold j w : ledger (job_deps_hold j w) = ledger w.
Proof. apply ledger_deps_refcnt. Qed.

Lemma ledger_array_finished j w : ledger (job_array_element_finished j w) = ledger w.
Proof.
  unfold job_array_element_finished. destruct (array_id j =? 0); [done|].
  destruct (job_find w (array_id j)); [|done]. apply ledger_upd_inert. durable_eq.
Qed.

Lemma ledger_token_release j w : ledger (token_pool_release j w) = ledger w.
Proof. destruct (token_release_pools j w) as [p ->]. done. Qed.

Lemma ledger_token_alloc j w : ledger (token_alloc j w) = ledger w.
Proof.
  unfold token_alloc. revert w. induction (tokens (rsrc j)) as [|t ts IH]; intros w; cbn; [done|].
  rewrite IH. unfold pool_add. by destruct (pool_name_hash w !! tok_name t).
Qed.

Lemma ledger_enqueue e c op st b w : ledger (enqueue_payload e c op st b w).1 = ledger w.
Proof. unfold enqueue_payload. by destruct (enq_ok e (io w) c). Qed.

Lemma ledger_enqueue_header e c op st w : ledger (enqueue_header e c op st w).1 = ledger w.
Proof. apply ledger_enqueue. Qed.

Lemma ledger_sign e w : ledger (auth_sign_header e w).1 = ledger w.
Proof. done. Qed.

Lemma ledger_send_ack e c op i o w : ledger (send_ack e c op i o w).1 = ledger w.
Proof. unfold send_ack, auth_sign_header. destruct (negb _); [done|]. by rewrite ledger_enqueue. Qed.

Lemma ledger_set_reason id r w : ledger (set_pend_reason id r w) = ledger w.
Proof. apply ledger_upd_inert. durable_eq. Qed.

Lemma ledger_plan_array e w : ledger (build_plan_array e w).1 = ledger w.
Proof.
  unfold build_plan_array, try_alloc. destruct (host_plan_ready w); [done|]. by destruct (alloc_ok e (io w)).
Qed.

Create Rewrite HintDb ledger.
#[export] Hint Rewrite ledger_upd_job_list ledger_deps_release ledger_deps_hold ledger_array_finished
  ledger_token_release ledger_token_alloc ledger_enqueue ledger_enqueue_header ledger_sign ledger_send_ack
  ledger_set_reason ledger_plan_array : ledger.

(** ** Operations on the ledger *)

(** A change of a record that sees no more than the durable part. *)
Definition compat (f : job_data -> job_data) : Prop := forall j, durable (f (durable j)) = durable (f j).

Definition change_job (id : Z) (f : job_data -> job_data) (L : ledger_t) : ledger_t :=
  mk_ledger (alter (fun d => durable (f d)) id (lg_jobs L)) (lg_log L) (lg_conf L).

Definition add_event (ev : log_event) (L : ledger_t) : ledger_t :=
  mk_ledger (lg_jobs L) (lg_log L ++ [ev]) (lg_conf L).

Lemma ledger_upd_job id f w : compat f -> ledger (upd_job id f w) = change_job id f (ledger w).
Proof.
  intros Hf. unfold ledger, change_job. cbn [lg_jobs lg_log lg_conf].
  change (mk_ledger (durable <$> alter f id (jobs w)) (manifest w) (conf_of w) =
          mk_ledger (alter (fun d => durable (f d)) id (durable <$> jobs w)) (manifest w) (conf_of w)).
  f_equal. apply map_eq. intros i.
  rewrite lookup_fmap. destruct (decide (i = id)) as [->|Hne].
  - rewrite !lookup_alter_eq, lookup_fmap. destruct (jobs w !! id); cbn; by rewrite ?Hf.
  - by rewrite !lookup_alter_ne, lookup_fmap by congruence.
Qed.

Lemma compat_list l : compat (fun j => j <| list_id := l |>).
Proof. intros j. durable_eq. Qed.

Lemma ledger_set_list id l w :
  ledger (job_set_list id l w) = change_job id (fun j => j <| list_id := l |>) (ledger w).
Proof. unfold job_set_list. rewrite ledger_upd_job by apply compat_list. by rewrite ledger_upd_job_list. Qed.

Lemma ledger_log_append ev w : wp (log_append ev w) (fun w' => ledger w' = add_event ev (ledger w)) True.
Proof. unfold log_append. by destruct (log_write ev). Qed.

Lemma ledger_move_list id a b w :
  wp (job_move_list id a b w) (fun w' => ledger w' = change_job id (fun j => j <| list_id := b |>) (ledger w)) True.
Proof.
  unfold job_move_list. destruct (remove_first _ _); [|done]. cbn [wp].
  by rewrite ledger_set_list, ledger_upd_job_list.
Qed.

Lemma ledger_upd_job_queue j f w :
  (forall x, qconf (f x) = qconf x) -> wp (upd_job_queue j f w) (fun w' => ledger w' = ledger w) True.
Proof.
  intros Hf. unfold upd_job_queue. destruct (queue j) as [q|]; [|done]. cbn. destruct (nth_res _ _); [|done]. cbn.
  by apply ledger_upd_queue.
Qed.

Lemma ledger_each_host f hs w :
  (forall h h', f h = Ok h' -> hconf h' = hconf h) ->
  wp (each_host f hs w) (fun w' => ledger w' = ledger w) True.
Proof.
  intros Hf. unfold each_host. apply (wp_fold _ (fun _ x => ledger x = ledger w)); [done| |done].
  intros h r x Hx. apply wp_bind.
  unfold nth_res. destruct (hosts x !! h) as [hh|] eqn:Hh; [|done]. cbn [wp]. apply wp_bind.
  destruct (f hh) as [hh'|] eqn:Hfh; [|done]. cbn [wp]. rewrite <- Hx. unfold ledger, conf_of. cbn. do 2 f_equal.
  - rewrite (list_fmap_insert h_name), (f_equal fst (Hf _ _ Hfh) : h_name hh' = h_name hh).
    apply list_insert_id. by rewrite list_lookup_fmap, Hh.
  - rewrite (list_fmap_insert totals), (f_equal snd (Hf _ _ Hfh) : totals hh' = totals hh).
    apply list_insert_id. by rewrite list_lookup_fmap, Hh.
Qed.

Lemma ledger_reset_hosts j w : wp (reset_host_resources j w) (fun w' => ledger w' = ledger w) True.
Proof.
  unfold reset_host_resources. destruct (run_host_ptrs j) as [hs|]; [|done]. cbn.
  apply ledger_each_host. intros h h'. unfold host_release. intros [g ->]%release_gpus.
  by destruct (is_exclusive j), (state_is JOB_SUSPENDED j), (state_is JOB_RUNNING j).
Qed.

Lemma ledger_update_hosts j w : wp (host_update_resources j w) (fun w' => ledger w' = ledger w) True.
Proof.
  unfold host_update_resources. destruct (run_host_ptrs j) as [hs|]; [|done]. cbn.
  apply ledger_each_host. intros h h' [= <-]. unfold host_charge. cbv zeta.
  destruct (is_exclusive j); match goal with |- context [if ?b then _ else _] => destruct b end; done.
Qed.

Create HintDb ledger_ops.
#[export] Hint Resolve ledger_log_append ledger_move_list ledger_reset_hosts ledger_update_hosts : ledger_ops.

(** ** Transactions *)

(** One job changes, and the events written say how. *)
Lemma recorded_job w w' id j f evs :
  jobs w !! id = Some j ->
  ledger w' = mk_ledger (<[id := f]> (durables w)) (manifest w ++ evs) (conf_of w) ->
  apply_events w (durables w) evs = Some (<[id := f]> (durables w)) -> recorded w w'.
Proof.
  intros Hj H Ha. pose proof (f_equal lg_jobs H) as H1. pose proof (f_equal lg_log H) as H2.
  pose proof (f_equal lg_conf H) as H3. cbn in H1, H2, H3. split; [done|]. exists evs. by rewrite H2, H1.
Qed.

Lemma apply_one w m id d ev d' :
  event_id ev = id -> m !! id = Some d -> effect w ev d = Some d' ->
  apply_event w m ev = Some (<[id := durable d']> m).
Proof. intros <- Hd He. destruct ev; [done|..]; cbn [apply_event] in *; by rewrite Hd, He. Qed.

(** The events of one job in a row. *)
Fixpoint effects (w : mbd) (evs : list log_event) (d : job_data) : option job_data :=
  match evs with
  | [] => Some d
  | ev :: evs' =>
      match effect w ev d with
      | Some d' => effects w evs' (durable d')
      | None => None
      end
  end.

Lemma apply_effects w id evs m d d' :
  Forall (fun ev => event_id ev = id) evs -> m !! id = Some d -> effects w evs d = Some d' ->
  apply_events w m evs = Some (<[id := d']> m).
Proof.
  intros HF. revert m d. induction HF as [|ev evs He HF IH]; intros m d Hd H; cbn in *.
  - injection H as <-. by rewrite insert_id.
  - destruct (effect w ev d) as [d1|] eqn:Hev; [|done].
    rewrite (apply_one w m id d ev d1) by done.
    rewrite (IH _ (durable d1)); [by rewrite insert_insert_eq|by rewrite lookup_insert_eq|done].
Qed.

(** Normal forms of the ledger after a transaction on one job. *)
Lemma change_first w id j f :
  jobs w !! id = Some j ->
  change_job id f (ledger w) = mk_ledger (<[id := durable (f (durable j))]> (durables w)) (manifest w ++ []) (conf_of w).
Proof.
  intros Hj. unfold change_job, ledger. cbn [lg_jobs lg_log lg_conf]. rewrite app_nil_r. f_equal.
  apply map_eq. intros i. destruct (decide (i = id)) as [->|Hne].
  - by rewrite lookup_alter_eq, lookup_insert_eq, (durables_lookup w id j Hj).
  - by rewrite lookup_alter_ne, lookup_insert_ne.
Qed.

Lemma change_next id f d m l c :
  change_job id f (mk_ledger (<[id := d]> m) l c) = mk_ledger (<[id := durable (f d)]> m) l c.
Proof. unfold change_job. cbn [lg_jobs lg_log lg_conf]. by rewrite alter_insert_eq. Qed.

Lemma add_event_first w id j ev :
  jobs w !! id = Some j ->
  add_event ev (ledger w) = mk_ledger (<[id := durable j]> (durables w)) (manifest w ++ [ev]) (conf_of w).
Proof.
  intros Hj. unfold add_event, ledger. cbn [lg_jobs lg_log lg_conf]. f_equal.
  symmetry. apply insert_id. by apply durables_lookup.
Qed.

Lemma add_event_next ev m l evs c : add_event ev (mk_ledger m (l ++ evs) c) = mk_ledger m (l ++ (evs ++ [ev])) c.
Proof. unfold add_event. cbn [lg_jobs lg_log lg_conf]. by rewrite app_assoc. Qed.

Ltac queue_frame := intros ?; unfold queue_leave_run; cbv zeta; repeat case_match; reflexivity.
Ltac compat_tac := intros ?; durable_eq.

(** Walk through the body of a handler, keeping the ledger. *)
Ltac ledger_walk :=
  repeat match goal with
  | |- wp (res_bind _ _) _ _ => apply wp_bind
  | |- wp (Ok _) _ _ => cbn [wp]
  | |- wp (Crash _) _ _ => exact I
  | |- wp (let (_, _) := ?p in _) _ _ =>
      lazymatch type of p with
      | (mbd * bool)%type =>
          let E := fresh "E" in
          destruct p eqn:E; apply (f_equal (fun x => ledger x.1)) in E;
          autorewrite with ledger in E; cbn [fst] in E; symmetry in E
      | _ => destruct p
      end
  | |- wp (match ?x with _ => _ end) _ _ => destruct x eqn:?
  | |- wp ?m _ _ =>
      first [ eapply wp_mono; [solve [eauto 2 with ledger_ops]| intros ? ?| done]
            | eapply wp_mono; [apply ledger_upd_job_queue; solve [queue_frame]| intros ? ?| done]
            | eapply wp_mono; [apply wp_any| intros ? _| done] ]
  end; cbn [fst snd] in *.

(** Rewrite the ledger of the goal to that of the first state. *)
Ltac ledger_eqs :=
  repeat first
    [ progress autorewrite with ledger
    | match goal with H : ledger ?x = _ |- context [ledger ?x] => rewrite H end
    | rewrite ledger_set_list
    | rewrite ledger_upd_inert by solve [durable_eq]
    | rewrite ledger_upd_host by reflexivity
    | rewrite ledger_upd_queue by queue_frame
    | rewrite ledger_upd_job by solve [compat_tac] ].

(** Close the branches that leave the ledger alone. *)
Ltac ledger_same := try solve [apply recorded_frame; ledger_eqs; reflexivity].


(** A transaction on one job: [ledger_tx id j Hj] leaves the events' effect. *)
Ltac ledger_tx id Hj :=
  match type of Hj with jobs ?w !! _ = Some ?j =>
    eapply (recorded_job w _ id j); [exact Hj| |];
    [ ledger_eqs; rewrite ?(change_first w id j), ?(add_event_first w id j) by exact Hj;
      repeat first [rewrite add_event_next | rewrite change_next]; reflexivity
    | eapply (apply_effects w id _ _ (durable j)); [|by apply durables_lookup|] ]
  end.

Lemma finish_pending_logged e id j ws w :
  jobs w !! id = Some j -> job_id j = id -> list_id j = JOB_LIST_PEND ->
  wp (finish_pending_job e id j ws w) (fun p => recorded w p.1) True.
Proof.
  intros Hj Hid Hl. unfold finish_pending_job, event_job_signal, event_job_finish. ledger_walk.
  ledger_tx id Hj; [by repeat constructor|]. cbn [effects effect app]. unfold when.
  cbn [list_id durable]. rewrite Hl. cbn. reflexivity.
Qed.

Lemma stop_pending_logged e id j ws w :
  jobs w !! id = Some j -> job_id j = id -> pend_state (state j) ->
  wp (stop_pending_job e id j ws w) (fun p => recorded w p.1) True.
Proof.
  intros Hj Hid [Hs|Hs]; unfold stop_pending_job, event_job_signal, event_job_pend_susp, state_is; rewrite Hs;
    eval_decide; ledger_walk; ledger_same.
  ledger_tx id Hj; [by repeat constructor|]. unfold durable. cbn. rewrite Hs. cbn. reflexivity.
Qed.

Lemma resume_pending_logged e id j ws w :
  jobs w !! id = Some j -> job_id j = id -> pend_state (state j) ->
  wp (resume_pending_job e id j ws w) (fun p => recorded w p.1) True.
Proof.
  intros Hj Hid [Hs|Hs]; unfold resume_pending_job, event_job_signal, event_job_pend_resume, state_is; rewrite Hs;
    eval_decide; cbn [negb]; ledger_walk; ledger_same.
  ledger_tx id Hj; [by repeat constructor|]. unfold durable. cbn. rewrite Hs. cbn. reflexivity.
Qed.

Lemma signal_running_logged e id j ws w :
  jobs w !! id = Some j -> job_id j = id ->
  wp (signal_running_job e id j ws w) (fun p => recorded w p.1) True.
Proof.
  intros Hj Hid. unfold signal_running_job, event_job_signal. ledger_walk; ledger_same.
  ledger_tx id Hj; [by repeat constructor|]. cbn [effects effect app]. by rewrite durable_idem.
Qed.

Section logged.
Context (w : mbd) (HI : inv w).

Lemma signal_pending_logged e id j ws :
  jobs w !! id = Some j -> list_id j = JOB_LIST_PEND ->
  wp (signal_pending_job e id j ws w) (fun p => recorded w p.1) True.
Proof using HI.
  intros Hj Hl. pose proof (inv_job_id w id j HI Hj) as Hid.
  destruct (inv_pend_state w id j HI Hj Hl) as [Hs _]. unfold signal_pending_job.
  destruct (_ || _ || _); [by apply finish_pending_logged|].
  destruct (_ || _); [by apply stop_pending_logged|].
  destruct (_ =? _); [by apply resume_pending_logged|]. apply recorded_refl.
Qed.

Lemma signal_one_logged e u id j req :
  jobs w !! id = Some j -> wp (signal_one_job e u id j req w) (fun p => recorded w p.1) True.
Proof using HI.
  intros Hj. unfold signal_one_job. pose proof (inv_job_id w id j HI Hj) as Hid.
  assert (Hr : recorded w w) by apply recorded_refl.
  destruct (negb _ && _); [done|]. destruct (state_is JOB_DONE j || state_is JOB_EXITED j) eqn:Hd; [done|].
  destruct (is_stop _ && _); [done|]. destruct ((_ =? _) && _); [done|]. cbv zeta.
  assert (Hp : list_id j = JOB_LIST_PEND -> wp (signal_pending_job e id j (sig_for req (job_id j)) w) (fun p => recorded w p.1) True).
  { intros. by apply signal_pending_logged. }
  pose proof (ok_state _ _ _ _ (inv_job w id j HI Hj)) as Hok. cbn in Hok.
  destruct (list_id j) eqn:Hl.
  - destruct (state_is JOB_ORPHAN j || _); [by apply Hp|]. destruct (state_is JOB_PENDING j || _) eqn:E; [by apply Hp|]. exfalso.
    unfold state_is in E. destruct Hok as [[Hs|Hs] _]; rewrite Hs in E; by eval_decide.
  - unfold state_is. destruct Hok as [[Hs|Hs] _]; rewrite Hs; eval_decide; cbn [orb]; by apply signal_running_logged.
  - exfalso. unfold state_is in Hd. destruct Hok as [[Hs|Hs] _]; rewrite Hs in Hd; by eval_decide.
Qed.
End logged.

Lemma signal_array_logged e u fuel id req n w :
  inv w -> 0 < now e -> wp (signal_array_from e u fuel id req n w) (fun p => recorded w p.1) True.
Proof.
  intros HI Hnow. revert id n w HI. induction fuel as [|f IH]; intros id n w HI; cbn; [apply recorded_refl|].
  unfold job_find. destruct (jobs w !! id) as [j|] eqn:Hj; [|by apply IH].
  destruct (_ || _); [by apply IH|]. destruct (_ && _); [by apply IH|].
  apply wp_bind. eapply wp_mono; [apply (wp_and _ _ _ _ _ (signal_one_job_wp e u id j req w HI Hj Hnow)
    (signal_one_logged w HI e u id j req Hj))| |done].
  intros [w1 cc] [[[H1 _] _] H2]. eapply wp_mono; [by apply IH| |done]. intros p Hp. by eapply recorded_trans.
Qed.

Lemma scan_pending_logged e u req w id ids n :
  inv w -> on_list JOB_LIST_PEND w (id :: ids) -> wp (scan_pending e u req (w, n) id) (fun p => recorded w p.1) True.
Proof.
  intros HI HL. unfold scan_pending. destruct (on_list_head _ _ _ _ HL) as (j & Hj & Hl). rewrite Hj.
  cbn [deref res_bind]. apply wp_bind. eapply wp_mono; [apply wp_any|intros ? _|done].
  destruct (_ && _); [apply recorded_refl|]. apply wp_bind.
  eapply wp_mono; [by apply signal_pending_logged| |done]. by intros [w1 cc].
Qed.

Lemma scan_running_logged e u req w id ids n :
  inv w -> on_list JOB_LIST_RUN w (id :: ids) -> wp (scan_running e u req (w, n) id) (fun p => recorded w p.1) True.
Proof.
  intros HI HL. unfold scan_running. destruct (on_list_head _ _ _ _ HL) as (j & Hj & Hl). rewrite Hj.
  cbn [deref res_bind]. apply wp_bind. eapply wp_mono; [apply wp_any|intros o _|done].
  apply wp_bind. eapply wp_mono; [apply wp_any|intros ? _|done]. destruct (_ || _); [apply recorded_refl|].
  apply wp_bind. eapply wp_mono; [apply wp_any|intros h _|done].
  apply wp_bind. eapply wp_mono; [apply wp_any|intros hh _|done]. destruct (_ <? _); [apply recorded_refl|].
  apply wp_bind. eapply wp_mono; [apply wp_any|intros ? _|done]. destruct (_ && _); [apply recorded_refl|].
  apply wp_bind. eapply wp_mono; [apply signal_running_logged; [done|by eapply inv_job_id]| |done]. by intros [w1 cc].
Qed.

Lemma signal_scan_logged e u req w :
  inv w -> 0 < now e -> wp (signal_jobs_scan e u req w) (fun p => recorded w p.1) True.
Proof.
  intros HI Hnow. unfold signal_jobs_scan. apply wp_bind.
  apply (wp_fold _ (fun ids p => inv p.1 /\ recorded w p.1 /\ on_list JOB_LIST_PEND p.1 ids /\ NoDup ids)).
  - split; [done|]. split; [apply recorded_refl|]. split; [by apply (on_list_all JOB_LIST_PEND)|].
    apply (ao_lists _ HI JOB_LIST_PEND).
  - intros id ids [w1 n] (H1 & H2 & H3 & H4). cbn [fst] in *.
    eapply wp_mono; [apply (wp_and _ _ _ _ _ (scan_pending_wp e u req w1 id ids n H1 H3 H4 Hnow)
      (scan_pending_logged e u req w1 id ids n H1 H3))| |done].
    intros p [([G1 _] & G2 & G3) G4]. split; [done|]. split; [by eapply recorded_trans|done].
  - intros [w1 n] (H1 & H2 & _). cbn [fst] in *.
    apply (wp_fold _ (fun ids p => inv p.1 /\ recorded w p.1 /\ on_list JOB_LIST_RUN p.1 ids)).
    + split; [done|]. split; [done|]. by apply (on_list_all JOB_LIST_RUN).
    + intros id ids [w2 n2] (G1 & G2 & G3). cbn [fst] in *.
      eapply wp_mono; [apply (wp_and _ _ _ _ _ (scan_running_wp e u req w2 id ids n2 G1 G3 Hnow)
        (scan_running_logged e u req w2 id ids n2 G1 G3))| |done].
      intros p [([F1 _] & F2) F3]. split; [done|]. split; [by eapply recorded_trans|done].
    + by intros p (_ & ? & _).
Qed.

Lemma jobs_signal_logged e chan hdr req w :
  inv w -> 0 < now e -> wp (jobs_signal e chan hdr req w) (recorded w) True.
Proof.
  intros HI Hnow. unfold jobs_signal.
  assert (Hrep : forall st w1, recorded w w1 -> recorded w (enqueue_header e chan BATCH_JOB_SIGNAL_ACK st w1).1).
  { intros st w1 H1. eapply recorded_ledger; [exact H1|]. apply ledger_enqueue_header. }
  assert (Hone : forall u id j req w1, inv w1 -> recorded w w1 -> jobs w1 !! id = Some j ->
    wp (let* (w2, cc) := signal_one_job e u id j req w1 in
        Ok (enqueue_header e chan BATCH_JOB_SIGNAL_ACK cc w2).1) (recorded w) True).
  { intros u id j r w1 HI1 H1 Hj. apply wp_bind. eapply wp_mono; [by apply signal_one_logged| |done].
    intros [w2 cc] H2. apply Hrep. by eapply recorded_trans. }
  assert (Hr : recorded w w) by apply recorded_refl. cbv zeta. cbn [sig_job_id sig_array_index].
  destruct (sig_job_id req =? 0).
  { apply wp_bind. eapply wp_mono; [by apply signal_scan_logged| |done]. intros [w1 n] H1. by apply Hrep. }
  destruct (negb (sig_array_index req =? 0)).
  { destruct (job_find_array w _ _) as [j|] eqn:Hf; [|by apply Hrep]. apply Hone; [done..|].
    unfold job_find_array in Hf. destruct (job_find w _); [|done]. destruct (negb _); [done|].
    by eapply find_array_job. }
  unfold job_find. destruct (jobs w !! sig_job_id req) as [j|] eqn:Hj; [|by apply Hrep].
  destruct (_ && _); [|by apply Hone]. apply wp_bind. eapply wp_mono; [apply wp_any|intros ? _|done].
  apply wp_bind. unfold signal_array.
  eapply wp_mono; [apply (wp_and _ _ _ _ _ (signal_array_from_wp e (c_uid hdr) (array_size j) (job_id j)
    (mk_wire_job_sig (sig_job_id req) (sig_array_index req) (sig_sig req) (c_uid hdr)) 0 w HI Hnow)
    (signal_array_logged e (c_uid hdr) (array_size j) (job_id j) _ 0 w HI Hnow))| |done].
  intros [w1 n] [[[H1 _] _] H2]. cbn [fst] in *. destruct (0 <? n); [by apply Hrep|].
  apply wp_bind. destruct (jobs w1 !! sig_job_id req) as [j1|] eqn:Hj1; [|done]. cbn [deref wp]. by apply Hone.
Qed.

(** ** Names *)

(** A host name the log can carry: not empty, no separator. *)
Definition host_name_ok (s : string) : bool :=
  negb (String.eqb s EmptyString) && forall_chars (fun c => negb (is_machine_delim c)) s.

(** The configuration the log can carry: the name table of the queues is right
    and its names fit their buffer; the host names are distinct, are single words
    and fit, all together, the buffer of the hosts line. *)
Record conf_ok (c : conf) : Prop := mk_conf_ok {
  co_queues : forall nm q, cf_queues c !! nm = Some q -> cf_qnames c !! q = Some nm /\ (String.length nm < 64)%nat;
  co_distinct : NoDup (cf_hnames c);
  co_names : Forall (fun s => host_name_ok s = true) (cf_hnames c);
  co_fit : sumZ (fun s => Z.of_nat (String.length s) + 1) (cf_hnames c) < 4096
}.

Lemma conf_queue_name w nm q qq :
  conf_ok (conf_of w) -> queue_name_hash w !! nm = Some q -> queues w !! q = Some qq ->
  q_name qq = nm /\ strbuf LL_BUFSIZ_64 (q_name qq) = nm.
Proof.
  intros C Hn Hq. destruct (co_queues _ C nm q Hn) as [H1 H2]. cbn in H1.
  rewrite (list_lookup_fmap q_name), Hq in H1. injection H1 as <-. split; [done|]. by apply strbuf_fits.
Qed.

Lemma job_move_logged e chan hdr id to_queue w :
  inv w -> conf_ok (conf_of w) -> wp (job_move e chan hdr id to_queue w) (recorded w) True.
Proof.
  intros HI C. unfold job_move, job_find. cbv zeta. destruct (jobs w !! id) as [j|] eqn:Hj; [|cbn [wp]; ledger_same].
  pose proof (inv_job_id w id j HI Hj) as Hid.
  destruct (_ && _); [cbn [wp]; ledger_same|]. destruct (queue_name_hash w !! to_queue) as [to|] eqn:Hto; [|cbn [wp]; ledger_same].
  apply wp_bind. unfold nth_res at 1. destruct (queues w !! to) as [tq|] eqn:Htq; [|done]. cbn [wp].
  destruct (_ && _); [cbn [wp]; ledger_same|]. destruct (negb _); [cbn [wp]; ledger_same|].
  destruct (conf_queue_name w to_queue to tq C Hto Htq) as [Hn Hb].
  unfold event_job_move. ledger_walk.
  ledger_tx id Hj; [by repeat constructor|]. cbn [effects effect app lm_to_queue]. rewrite Hb, Hto. reflexivity.
Qed.

Lemma job_priority_logged e chan hdr id prio w :
  inv w -> wp (job_priority e chan hdr id prio w) (recorded w) True.
Proof.
  intros HI. unfold job_priority, job_find, event_job_priority. cbv zeta.
  destruct (jobs w !! id) as [j|] eqn:Hj; [|cbn [wp]; ledger_same].
  pose proof (inv_job_id w id j HI Hj) as Hid.
  ledger_walk; ledger_same; ledger_tx id Hj; try by repeat constructor.
Qed.

(** ** Reports of the execution daemons *)

Lemma reject_logged e id j w :
  jobs w !! id = Some j -> job_id j = id ->
  wp (mbd_job_reject_dispatch e id j w) (recorded w) True.
Proof.
  intros Hj Hid. unfold mbd_job_reject_dispatch, event_job_pend. apply wp_bind.
  destruct (c_assert (state_is JOB_RUNNING j)) eqn:Hs; [|done]. cbn [wp]. apply wp_bind.
  destruct (c_assert (bool_decide _)) eqn:Hl; [|done]. cbn [wp]. inv_res. apply bool_decide_eq_true in Hl.
  ledger_walk. ledger_tx id Hj; [by repeat constructor|]. cbn [effects effect app]. unfold when.
  cbn [list_id durable]. rewrite Hl. unfold ev_pend, durable. cbn. reflexivity.
Qed.

Lemma new_job_reply_logged e n r w :
  inv w -> reply_expected w r -> wp (mbd_new_job_reply e n r w) (recorded w) True.
Proof.
  intros HI Hex. unfold mbd_new_job_reply, job_find, event_job_fork. apply wp_bind.
  eapply wp_mono; [apply wp_any|intros nn _|done].
  destruct (jobs w !! rep_job_id r) as [j|] eqn:Hj; [|cbn [wp]; ledger_same].
  pose proof (inv_job_id w _ j HI Hj) as Hid. destruct (Z.eqb_spec (rep_state r) (job_state_num JOB_PENDING)) as [Hr|Hr].
  - destruct (_ || _); [|by apply reject_logged]. ledger_walk. ledger_same.
  - io_step (send_ack e (sbd_chan nn) BATCH_NEW_JOB_REPLY_ACK (rep_job_id r) BATCH_NEW_JOB_REPLY w).
    destruct ok; cbn [negb]; [|cbn [wp]; ledger_same]. destruct (0 <? fork_time j) eqn:Hf; [cbn [wp]; ledger_same|].
    destruct (Hex j Hj) as [[Hl Hs]|[[Hx _]|[_ Hx]]]; [|b2p; lia|done].
    eapply wp_mono; [apply ledger_log_append|intros w' Hw'|done].
    eapply (recorded_job w w' (rep_job_id r) j); [exact Hj| |].
    { rewrite Hw'. unfold add_event, ledger. cbn [lg_jobs lg_log lg_conf].
      rewrite (durables_upd_job (with_io n' out w) _ _ j) by exact Hj. reflexivity. }
    eapply (apply_effects w (rep_job_id r) _ _ (durable j)); [by repeat constructor|by apply durables_lookup|].
    cbn [effects effect]. f_equal. unfold durable. cbn. rewrite Hs. cbn. by rewrite take_take, Nat.min_id.
Qed.

Lemma job_finish_logged e n f w :
  inv w -> wp (mbd_job_finish e n f w) (recorded w) True.
Proof.
  intros HI. unfold mbd_job_finish, job_find, event_job_finish. apply wp_bind.
  eapply wp_mono; [apply wp_any|intros nn _|done].
  destruct (jobs w !! fin_job_id f) as [j|] eqn:Hj; [|cbn [wp]; ledger_same].
  pose proof (inv_job_id w _ j HI Hj) as Hid.
  apply wp_bind. eapply wp_mono; [apply wp_any|intros h _|done].
  apply wp_bind. eapply wp_mono; [apply wp_any|intros hh _|done].
  destruct (negb _); [cbn [wp]; ledger_same|]. cbv zeta. apply wp_bind.
  destruct (c_assert _) eqn:Has; [|done]. cbn [wp]. inv_res.
  destruct (0 <? end_time j) eqn:Hend; [ledger_walk; ledger_same|].
  assert (Hl : list_id j = JOB_LIST_RUN).
  { eapply inv_state_run; [exact HI|exact Hj|]. unfold state_is in Has. b2p. destruct Has as [[?|?]|?]; [done|by left|by right]. }
  destruct (fin_state f =? 0); ledger_walk; ledger_same; (ledger_tx (fin_job_id f) Hj; [by repeat constructor|]);
    cbn [effects effect app le_state]; unfold when; cbn [list_id durable]; rewrite Hl; reflexivity.
Qed.

Lemma signal_reply_logged n s status w :
  inv w -> sig_reply_expected w n s -> wp (mbd_job_signal_reply n s status w) (recorded w) True.
Proof.
  intros HI Hex. unfold mbd_job_signal_reply, job_find. apply wp_bind.
  eapply wp_mono; [apply wp_any|intros nn _|done].
  destruct (jobs w !! sig_job_id s) as [j|] eqn:Hj; [|cbn [wp]; ledger_same].
  destruct (negb _); [cbn [wp]; ledger_same|]. specialize (Hex j Hj). unfold is_stop in Hex.
  assert (Hsame : forall st, is_active st = true -> is_active (state j) = true ->
    ledger (upd_job (sig_job_id s) (fun j => j <| state := st |>) w) = ledger w).
  { intros st Ha Hs. unfold ledger. rewrite (durables_upd_job w _ _ j) by done. rewrite insert_id; [done|].
    rewrite (durables_lookup w _ j Hj). f_equal. unfold durable. cbn. by rewrite Ha, Hs. }
  apply wp_bind. destruct ((sig_sig s =? SIGSTOP) || (sig_sig s =? SIGTSTP)) eqn:E1; cbn [orb] in Hex.
  - destruct (Hex eq_refl) as (_ & _ & Hs).
    assert (Ha : is_active (state j) = true)  by by rewrite Hs.
    pose proof (Hsame JOB_SUSPENDED eq_refl Ha) as H0.
    set (w1 := upd_job _ _ w) in *. ledger_walk. apply recorded_frame. by ledger_eqs.
  - destruct (sig_sig s =? SIGCONT); [|ledger_walk; ledger_same].
    destruct (Hex eq_refl) as (_ & _ & Hs).
    assert (Ha : is_active (state j) = true) by by rewrite Hs.
    pose proof (Hsame JOB_RUNNING eq_refl Ha) as H0.
    set (w1 := upd_job _ _ w) in *. ledger_walk. apply recorded_frame. by ledger_eqs.
Qed.

Lemma job_missing_logged e n id w :
  inv w -> wp (mbd_job_missing e n id w) (recorded w) True.
Proof.
  intros HI. unfold mbd_job_missing, job_find, event_job_pend.
  destruct (jobs w !! id) as [j|] eqn:Hj; [|cbn [wp]; ledger_same].
  pose proof (inv_job_id w _ j HI Hj) as Hid.
  destruct (state_is JOB_ORPHAN j); [cbn [wp]; ledger_same|]. destruct (_ =? _)%nat; [cbn [wp]; ledger_same|].
  apply wp_bind. eapply wp_mono; [apply wp_any|intros o _|done]. destruct (negb _); [cbn [wp]; ledger_same|].
  destruct (negb _) eqn:Hs; [cbn [wp]; ledger_same|].
  assert (Hl : list_id j = JOB_LIST_RUN).
  { eapply inv_state_run; [exact HI|exact Hj|]. unfold state_is in Hs. b2p. destruct Hs; [by left|by right]. }
  ledger_walk. ledger_tx id Hj; [by repeat constructor|]. cbn [effects effect app]. unfold when.
  cbn [list_id durable]. rewrite Hl. unfold ev_pend, durable. cbn. reflexivity.
Qed.

(** ** Registration and administration *)

Lemma disconnect_logged n w : wp (mbd_sbd_disconnect n w) (recorded w) True.
Proof.
  unfold mbd_sbd_disconnect. apply wp_bind. eapply wp_mono; [apply wp_any|intros nn _|done]. cbn [wp].
  apply recorded_frame. match goal with |- context [upd_host n ?f w] => exact (ledger_upd_host n f w (fun _ => eq_refl)) end.
Qed.

Lemma register_logged e chan hn w : wp (mbd_sbd_register e chan hn w) (fun p => recorded w p.1) True.
Proof.
  unfold mbd_sbd_register. destruct (host_name_hash w !! _) as [n|]; [|apply recorded_refl].
  apply wp_bind. eapply wp_mono; [apply wp_any|intros nn _|done]. destruct (negb _); [apply recorded_refl|].
  set (w1 := upd sbd_chan_hash _ _).
  assert (H1 : ledger w1 = ledger w).
  { match goal with w1 := context [upd_host n ?f w] |- _ => exact (ledger_upd_host n f w (fun _ => eq_refl)) end. }
  clearbody w1. apply wp_bind.
  eapply (wp_mono _ (fun p => ledger p.1 = ledger w)); [|intros [w2 r] H2|done].
  { unfold build_sbd_run_list. apply wp_bind. eapply wp_mono; [apply wp_any|intros l _|done]. by destruct l. }
  assert (Hd : forall w3, ledger w3 = ledger w ->
    wp (let* w := mbd_sbd_disconnect n w3 in Ok (w, false)) (fun p => recorded w p.1) True).
  { intros w3 H3. apply wp_bind. eapply wp_mono; [apply disconnect_logged|intros w4 H4|done]. cbn [wp fst].
    eapply recorded_trans; [|exact H4]. by apply recorded_frame. }
  cbn [fst] in H2. destruct r as [l|]; [|by apply Hd].
  set (w3 := upd_host n _ w2). assert (H3 : ledger w3 = ledger w) by (unfold w3; by rewrite ledger_upd_host).
  clearbody w3. unfold auth_sign_header. destruct (negb _); [by apply Hd|]. cbn [wp fst].
  apply recorded_frame. by rewrite ledger_enqueue.
Qed.

Lemma queue_admin_logged e chan hdr nm op w : wp (queue_admin e chan hdr nm op w) (recorded w) True.
Proof.
  unfold queue_admin. destruct (negb _); [cbn [wp]; ledger_same|].
  destruct (queue_name_hash w !! nm) as [q|]; [|cbn [wp]; ledger_same].
  apply wp_bind. eapply wp_mono; [apply wp_any|intros qq _|done]. cbn [wp]. apply recorded_frame.
  rewrite ledger_enqueue_header. unfold queue_state_write. destruct (negb _); [|destruct (_ =? _)];
    by apply (ledger_upd_queue q (fun q => q <| q_state := op |>) w).
Qed.

Lemma host_admin_logged e chan hdr nm op w : wp (host_admin e chan hdr nm op w) (recorded w) True.
Proof.
  unfold host_admin. destruct (negb _); [cbn [wp]; ledger_same|].
  destruct (host_name_hash w !! nm) as [n|]; [|cbn [wp]; ledger_same].
  apply wp_bind. eapply wp_mono; [apply wp_any|intros hh _|done]. cbn [wp]. apply recorded_frame.
  rewrite ledger_enqueue_header. unfold host_state_write. set (st := if op =? HOST_CLOSED then _ else _).
  destruct (negb _); [by apply (ledger_upd_host n (fun h => h <| h_state := st |>) w)|].
  match goal with |- context [if ?b then _ else _] => destruct b end;
    by apply (ledger_upd_host n (fun h => h <| h_state := st |>) w).
Qed.
