(* ===== verification/MbdLoggedSched.v ===== *)
(** * The scheduler logs what it starts

    The hosts line of a JOB_START event reads back as the hosts of the plan; the
    dispatch of a job, and with it the whole scheduling cycle, logs the change it
    makes. *)

From S2P Require Import Prelude CString LlHash Dependency LogFormat MbdTypes MbdBase MbdJob MbdSched MbdNet.
From S2P Require Import MbdInv MbdFrame MbdSafe MbdControl MbdPlan MbdSchedSafe MbdStatic MbdEvents MbdDurable MbdLogged.

Open Scope string_scope.
Open Scope list_scope.
Open Scope Z_scope.

Implicit Types (w : mbd) (j d : job_data) (id : Z) (m : gmap Z job_data).

(** ** The hosts line *)

Lemma strlcat_fits dst src size :
  (String.length dst + String.length src < size)%nat -> (ll_strlcat dst src size).1 = dst +:+ src.
Proof.
  intros H. unfold ll_strlcat. rewrite (proj2 (Nat.leb_gt _ _)) by lia. unfold ll_strlcpy.
  destruct (size - String.length dst)%nat eqn:E; [lia|]. by rewrite (proj2 (Nat.ltb_lt _ _)) by lia.
Qed.

(** The names, each after a space. *)
Fixpoint tail_words (names : list string) : string :=
  match names with
  | [] => EmptyString
  | n :: ns => " " +:+ n +:+ tail_words ns
  end.

Definition words (names : list string) : string :=
  match names with
  | [] => EmptyString
  | n :: ns => n +:+ tail_words ns
  end.

Definition words_len (names : list string) : nat := String.length (tail_words names).

Lemma hosts_line_tail size buf names :
  (String.length buf + words_len names < size)%nat -> hosts_line size false buf names = buf +:+ tail_words names.
Proof.
  unfold words_len. revert buf. induction names as [|n ns IH]; intros buf H; cbn [hosts_line tail_words] in *.
  - by rewrite string_app_nil_r.
  - rewrite !string_length_app in H. cbn [String.length] in H.
    rewrite (strlcat_fits buf " ") by (cbn; lia). rewrite strlcat_fits by (rewrite string_length_app; cbn; lia).
    rewrite IH by (rewrite !string_length_app; cbn; lia). by rewrite <- !string_app_assoc.
Qed.

Lemma hosts_line_words size names : (words_len names < size)%nat -> hosts_line size true EmptyString names = words names.
Proof.
  destruct names as [|n ns]; [done|]. unfold words_len. cbn [hosts_line words tail_words String.append String.length].
  rewrite string_length_app. intros H. rewrite strlcat_fits by (cbn; lia). cbn [String.append].
  apply hosts_line_tail. unfold words_len. lia.
Qed.

Lemma strtok_word delim cur n s :
  forall_chars (fun c => negb (delim c)) n = true -> n <> EmptyString ->
  strtok_from delim cur (n +:+ s) =
  strtok_from delim (Some ((match cur with Some t => t | None => EmptyString end) +:+ n)) s.
Proof.
  revert cur. induction n as [|c n IH]; intros cur Hc Hn; [done|]. cbn [forall_chars] in Hc.
  apply andb_prop in Hc as [H1 H2]. cbn [String.append strtok_from].
  rewrite (proj1 (negb_true_iff _) H1). destruct n as [|c' n]; [done|].
  rewrite IH by done. do 2 f_equal. by rewrite <- string_app_assoc.
Qed.

Lemma strtok_tail names cur :
  Forall (fun s => host_name_ok s = true) names ->
  strtok_from is_machine_delim (Some cur) (tail_words names) = cur :: names.
Proof.
  intros HF. revert cur. induction HF as [|n ns Hn HF IH]; intros cur; [done|].
  cbn [tail_words String.append strtok_from]. change (is_machine_delim " ") with true. cbn iota.
  unfold host_name_ok in Hn. apply andb_prop in Hn as [H1 H2].
  rewrite strtok_word by (done || (intros ->; done)). cbn [String.append]. by rewrite IH.
Qed.

Lemma strtok_words names :
  Forall (fun s => host_name_ok s = true) names -> strtok_all is_machine_delim (words names) = names.
Proof.
  intros HF. destruct HF as [|n ns Hn HF]; [done|]. unfold strtok_all. cbn [words].
  unfold host_name_ok in Hn. apply andb_prop in Hn as [H1 H2].
  rewrite strtok_word by (done || (intros ->; done)). cbn [String.append]. by apply strtok_tail.
Qed.

Lemma words_length names : (String.length (words names) <= words_len names)%nat.
Proof. destruct names as [|n ns]; [done|]. unfold words_len. cbn. rewrite !string_length_app. lia. Qed.

Lemma words_len_sum names : Z.of_nat (words_len names) = sumZ (fun s => Z.of_nat (String.length s) + 1) names.
Proof.
  unfold words_len. induction names as [|n ns IH]; [done|]. cbn [tail_words sumZ String.append String.length].
  rewrite string_length_app. lia.
Qed.

(** Some of the names, each once, are no longer than all of them. *)
Lemma sum_distinct (names all : list string) (f : string -> Z) :
  (forall s, 0 <= f s) -> NoDup names -> (forall s, s ∈ names -> s ∈ all) -> sumZ f names <= sumZ f all.
Proof.
  intros Hf Hnd Hin. destruct (submseteq_Permutation names all (NoDup_submseteq _ _ Hnd Hin)) as [k Hk].
  rewrite (sumZ_perm f _ _ Hk), sumZ_app. pose proof (sumZ_nonneg f k (fun x _ => Hf x)). lia.
Qed.

(** ** The start of a job *)

Lemma host_names_Forall2 w hs names :
  host_names w hs = Ok names -> Forall2 (fun h n => map h_name (hosts w) !! h = Some n) hs names.
Proof.
  unfold host_names. revert names. induction hs as [|h hs IH]; intros names; cbn; [intros [= <-]; constructor|].
  intros (n & Hn & (ns & Hns & [= <-])%res_bind_Ok)%res_bind_Ok. constructor; [|by apply IH].
  apply res_bind_Ok in Hn as (hh & Hh%nth_res_Ok & [= <-]). by rewrite (list_lookup_fmap h_name), Hh.
Qed.

Lemma names_distinct (all names : list string) hs :
  NoDup all -> NoDup hs -> Forall2 (fun h n => all !! h = Some n) hs names -> NoDup names.
Proof.
  intros Ha Hh HF. induction HF as [|h n hs names Hn HF IH]; [constructor|].
  apply NoDup_cons in Hh as [Hout Hh]. constructor; [|by apply IH]. intros Hin. apply Hout.
  apply list_elem_of_lookup in Hin as [i Hi]. destruct (Forall2_lookup_r _ _ _ i n HF Hi) as (h' & Hh' & Hx).
  rewrite (NoDup_lookup all h h' n Ha Hn Hx). by eapply list_elem_of_lookup_2.
Qed.

Lemma logged_hosts_line w q qq hs names d x :
  conf_ok (conf_of w) -> queue d = Some q -> queues w !! q = Some qq -> queue_hosts_ok (hosts w) qq ->
  (forall h, h ∈ hs -> exists hh, hosts w !! h = Some hh /\ host_in_queue_group qq hh = true) ->
  NoDup hs -> Forall2 (fun h n => map h_name (hosts w) !! h = Some n) hs names -> ls_hosts x = hosts_line LL_BUFSIZ_4K true EmptyString names ->
  logged_hosts w d x = Some hs.
Proof.
  intros C Hq Hqq Hm Hin Hnd HF Hx.
  assert (Hsub : forall s, s ∈ names -> s ∈ map h_name (hosts w)).
  { intros s Hs. apply list_elem_of_lookup in Hs as [i Hi]. destruct (Forall2_lookup_r _ _ _ i s HF Hi) as (h & _ & Hh).
    by eapply list_elem_of_lookup_2. }
  pose proof (names_distinct _ _ _ (co_distinct _ C) Hnd HF) as Hnn.
  assert (Hok : Forall (fun s => host_name_ok s = true) names).
  { apply Forall_forall. intros s Hs. pose proof (co_names _ C) as Hall. rewrite Forall_forall in Hall. by apply Hall, Hsub. }
  assert (Hfit : (words_len names < 4096)%nat).
  { assert (Hf : forall s : string, 0 <= Z.of_nat (String.length s) + 1) by (intros; lia).
    pose proof (sum_distinct names _ _ Hf Hnn Hsub) as Hle.
    pose proof (co_fit _ C) as Hc. cbn in Hc. rewrite <- words_len_sum in Hle. lia. }
  unfold logged_hosts. rewrite Hq, (list_lookup_fmap q_host_hash), Hqq, Hx. cbn [fmap option_fmap option_map].
  rewrite hosts_line_words by exact Hfit.
  rewrite strbuf_fits by (pose proof (words_length names); unfold LL_BUFSIZ_4K; lia).
  rewrite strtok_words by done. clear Hx Hnn Hok Hfit Hsub Hnd.
  induction HF as [|h n hs names Hh HF IH]; [done|]. cbn [opt_map].
  destruct (Hin h ltac:(left)) as (hh & Hhh & Hg). rewrite (list_lookup_fmap h_name), Hhh in Hh. injection Hh as <-.
  unfold host_in_queue_group in Hg. apply bool_decide_eq_true in Hg as [h' Hh'].
  destruct (Hm _ _ Hh') as (hh' & Hhh' & Hname).
  assert (h' = h) as ->.
  { eapply (NoDup_lookup (map h_name (hosts w))); [apply (co_distinct _ C)|..]; rewrite (list_lookup_fmap h_name).
    - by rewrite Hhh'; cbn; rewrite Hname.
    - by rewrite Hhh. }
  rewrite Hh'. rewrite IH; [done|]. intros y Hy. apply Hin. by right.
Qed.

Lemma dispatch_gpus_ledger id w j h hh w1 s :
  (if 0 <? num_gpus (rsrc j) then
     let* (g, s) := build_gpu_assigned_str (h_gpu hh) (num_gpus (rsrc j)) in
     let w := upd_host h (fun hh => hh <| h_gpu := g |>) w in
     let w := upd_job id (fun j => j <| gpu_assigned := strbuf LL_BUFSIZ_64 s |>) w in
     Ok (w, s)
   else Ok (w, EmptyString)) = Ok (w1, s) -> ledger w1 = ledger w.
Proof.
  intros H. destruct (0 <? num_gpus (rsrc j)); [|by injection H as <- _].
  apply res_bind_Ok in H as ([g s'] & _ & [= <- <-]).
  rewrite ledger_upd_inert by durable_eq. by apply ledger_upd_host.
Qed.

(** The job carries its plan: it is on the pend list, and its hosts belong to its
    queue. *)
Record ready_to_start (w : mbd) (id : Z) (j : job_data) (hs : list nat) : Prop := mk_ready {
  rs_job : jobs w !! id = Some j;
  rs_id : job_id j = id;
  rs_list : list_id j = JOB_LIST_PEND;
  rs_state : state j = JOB_PENDING;
  rs_hosts : take (run_nhosts j) (run_hosts j) = map Some hs;
  rs_len : run_nhosts j = length hs;
  rs_asked : Z.of_nat (length hs) = num_hosts (rsrc j);
  rs_nodup : NoDup hs;
  rs_queue : exists q qq, queue j = Some q /\ queues w !! q = Some qq /\ queue_hosts_ok (hosts w) qq /\
    forall h, h ∈ hs -> exists hh, hosts w !! h = Some hh /\ host_in_queue_group qq hh = true
}.

Lemma dispatch_effect e w id j hs a x names :
  conf_ok (conf_of w) -> ready_to_start w id j hs ->
  Forall2 (fun h n => map h_name (hosts w) !! h = Some n) hs names ->
  ls_nhosts x = num_hosts (rsrc j) -> ls_dispatch_time x = now e ->
  ls_hosts x = hosts_line LL_BUFSIZ_4K true EmptyString names ->
  effects w [LogStart x] (durable j) = Some (durable (dispatched_job e j a)).
Proof.
  intros C [Hj Hid Hl Hs Hh Hlen Hn Hnd (q & qq & Hq & Hqq & Hm & Hin)] HF Hx1 Hx2 Hx3. cbn [effects effect].
  rewrite (logged_hosts_line w q qq hs names (durable j) x) by done.
  unfold state_is. cbn [list_id state rsrc num_hosts durable]. rewrite Hl, Hs, Hx1, Hn, Z.eqb_refl.
  change (Some (durable (ev_start x hs (durable j))) = Some (durable (dispatched_job e j a))).
  rewrite ev_start_durable. f_equal. unfold durable, ev_start, dispatched_job. cbn. 
  by rewrite Hx2, Hh, Hlen, <- (length_map Some hs), firstn_all.
Qed.

(** The write of the start event, for a job that was sent. *)
Lemma start_logged e w w1 id j hs a :
  conf_ok (conf_of w) -> ready_to_start w id j hs -> ledger w1 = ledger w ->
  jobs w1 !! id = Some (j <| gpu_assigned := a |>) ->
  wp (let w := upd_job id (fun j => j <| dispatch_time := now e |> <| state := JOB_RUNNING |>) w1 in
      let* j := deref (jobs w !! id) in
      let* w := event_job_start j w in
      let* w := job_move_list id JOB_LIST_PEND JOB_LIST_RUN w in
      Ok (w, true)) (fun p => recorded w p.1) True.
Proof.
  intros C R HL Hj1. cbv zeta.
  set (j2 := j <| gpu_assigned := a |> <| dispatch_time := now e |> <| state := JOB_RUNNING |>).
  set (w2 := upd_job id _ w1). assert (Hj2 : jobs w2 !! id = Some j2) by (cbn; by rewrite lookup_alter_eq, Hj1).
  assert (HL2 : ledger w2 = mk_ledger (<[id := durable j2]> (durables w)) (manifest w) (conf_of w)).
  { unfold ledger. unfold w2 at 1. rewrite (durables_upd_job w1 _ _ _ Hj1).
    pose proof (f_equal lg_jobs HL) as H1. pose proof (f_equal lg_log HL) as H2. pose proof (f_equal lg_conf HL) as H3.
    cbn in H1, H2, H3. by rewrite H1, <- H2, <- H3. }
  clearbody w2. rewrite Hj2. cbn [deref res_bind]. apply wp_bind. unfold event_job_start. apply wp_bind.
  rewrite (run_host_ptrs_plan j2 hs) by (apply R || (symmetry; apply R)). cbn [wp]. apply wp_bind.
  destruct (host_names w2 hs) as [names|] eqn:Hn; [|done]. cbn [wp].
  apply host_names_Forall2 in Hn. pose proof (f_equal (fun L => cf_hnames (lg_conf L)) HL2) as Hnames.
  cbn in Hnames. rewrite Hnames in Hn. ledger_walk. ledger_eqs.
  eapply (recorded_job w _ id j (durable (dispatched_job e j a))); [apply R| |].
  - ledger_eqs. unfold add_event. cbn [lg_jobs lg_log lg_conf]. rewrite change_next. f_equal. f_equal.
    unfold durable, dispatched_job, j2. cbn. by rewrite take_idemp.
  - eapply (apply_effects w id _ _ (durable j)); [repeat constructor; apply R|apply durables_lookup, R|].
    by eapply dispatch_effect.
Qed.

Lemma dispatch_logged e id w j hs :
  conf_ok (conf_of w) -> ready_to_start w id j hs ->
  wp (mbd_dispatch_job e id w) (fun p => recorded w p.1) True.
Proof.
  intros C R. unfold mbd_dispatch_job. rewrite (rs_job _ _ _ _ R). cbn [deref res_bind].
  do 6 (apply wp_bind; eapply wp_mono; [apply wp_any|intros ? _|done]). apply wp_bind.
  match goal with |- wp ?m _ _ => destruct m as [[w1 s]|] eqn:Hg; [|done] end. cbn [wp].
  pose proof (dispatch_gpus_ledger _ _ _ _ _ _ _ Hg) as HL.
  apply dispatch_gpus in Hg as (_ & ga & _ & _ & Hj1); [|apply R].
  unfold auth_sign_header. destruct (sign_ok e (io w1)); cbn [negb]; [|cbn [wp fst]; by apply recorded_frame].
  match goal with |- context [enqueue_payload ?e ?c ?o ?st ?b ?w] => io_step (enqueue_payload e c o st b w) end.
  destruct ok; cbn [negb]; [|cbn [wp fst]; by apply recorded_frame].
  by apply (start_logged e w _ id j hs ga).
Qed.

(** ** The scheduling cycle *)

Lemma account_logged id w : wp (sched_account id w) (fun w' => ledger w' = ledger w) True.
Proof.
  unfold sched_account. destruct (jobs w !! id) as [j|]; [|done]. cbn [deref res_bind]. apply wp_bind.
  set (w1 := match deps j with [] => w | _ => _ end).
  assert (H1 : ledger w1 = ledger w) by (unfold w1; destruct (deps j); [done|apply ledger_deps_release]).
  clearbody w1. eapply wp_mono; [apply ledger_update_hosts|intros w2 H2|done].
  eapply wp_mono; [apply ledger_upd_job_queue; done|intros w3 H3|done].
  rewrite H3, ledger_token_alloc. congruence.
Qed.

Section sched.
Context {QS : QSort}.

(** The plan is written into the record before the job is sent. *)
Lemma planned_ready w id j q qq hs :
  inv w -> jobs w !! id = Some j -> list_id j = JOB_LIST_PEND -> state j = JOB_PENDING ->
  queue j = Some q -> queues w !! q = Some qq -> plan_good w qq j hs ->
  Z.of_nat (length hs) = num_hosts (rsrc j) ->
  let j1 := (planned j hs) <| pend_reason_of := PEND_NONE |> in
  let w1 := upd_job id (fun _ => j1) w in
  ledger w1 = ledger w /\ ready_to_start w1 id j1 hs.
Proof.
  intros HI Hj Hl Hs Hq Hqq [Hnd Hne Hroom He] Hn j1 w1. split.
  - unfold ledger. unfold w1 at 1. rewrite (durables_upd_job w _ _ j Hj), insert_id; [done|].
    rewrite (durables_lookup w id j Hj). f_equal. unfold durable, j1. cbn. by rewrite Hs.
  - split; try done.
    + cbn. by rewrite lookup_alter_eq, Hj.
    + exact (inv_job_id w id j HI Hj).
    + apply planned_take.
    + exists q, qq. split; [done|]. split; [done|]. split; [apply (ao_members _ HI q qq Hqq)|].
      intros h Hh. destruct (He h Hh) as (hh & Hhh & Hel). exists hh. split; [done|].
      by apply andb_true_iff in Hel as [? _].
Qed.

Lemma sched_job_logged e id fs j w :
  inv w -> conf_ok (conf_of w) -> jobs w !! id = Some j -> list_id j = JOB_LIST_PEND ->
  wp (sched_job e id fs w) (fun p => recorded w p.1) True.
Proof.
  intros HI C Hj Hl. unfold sched_job. rewrite Hj. cbn [deref res_bind].
  assert (Hno : forall r w1 (nx : sched_next), ledger w1 = ledger w -> recorded w (set_pend_reason id r w1, nx).1).
  { intros r w1 nx H. apply recorded_frame. cbn [fst]. by rewrite ledger_set_reason. }
  destruct (job_is_ready e j) eqn:Hrdy; cbn [negb]; [|by apply Hno].
  apply wp_bind. destruct (job_queue w j) as [qq|] eqn:Hq; [|done]. cbn [wp].
  destruct (bool_decide _); [by apply Hno|]. destruct (tokens_available w j); cbn [negb]; [|by apply Hno].
  apply wp_bind. eapply wp_mono; [apply wp_any|intros sat _|done]. destruct sat; cbn [negb]; [|by apply Hno].
  destruct (build_plan_array e w) as [w0 ready] eqn:Hb.
  assert (HL0 : ledger w0 = ledger w) by (pose proof (ledger_plan_array e w) as H; by rewrite Hb in H).
  apply build_plan_array_same in Hb as [Ha Hjobs].
  assert (HI0 : inv w0) by (red; by rewrite Ha). assert (Hj0 : jobs w0 !! id = Some j) by by rewrite Hjobs.
  destruct ready; cbn [negb]; [|by apply recorded_frame].
  unfold job_queue in Hq. apply res_bind_Ok in Hq as (q & Hr%deref_Ok & Hq%nth_res_Ok).
  assert (Hqq : queues w0 !! q = Some qq) by (change (a_queues (acct_of w0) !! q = Some qq); by rewrite Ha).
  assert (Hs : state j = JOB_PENDING).
  { unfold job_is_ready, state_is in Hrdy. apply andb_true_iff in Hrdy as [Hx _]. by apply bool_decide_eq_true in Hx. }
  destruct (plan_for w0 id j q qq HI0 Hj0 Hr Hqq) as (r & -> & Hres). cbn [res_bind].
  destruct r as [d|j']; [by apply Hno|]. destruct Hres as (hs & -> & Hg & Hn & _). cbv zeta.
  destruct (planned_ready w0 id j q qq hs HI0 Hj0 Hl Hs Hr Hqq Hg Hn) as [HL1 R]. cbv zeta in HL1, R.
  set (w1 := upd_job id _ w0) in *.
  assert (C1 : conf_ok (conf_of w1)).
  { pose proof (f_equal lg_conf HL1) as H1. pose proof (f_equal lg_conf HL0) as H0. cbn in H0, H1. by rewrite H1, H0. }
  apply wp_bind. eapply wp_mono; [by eapply (dispatch_logged e id w1 _ hs)|intros [w2 ok] H2|done]. cbn [fst] in H2.
  assert (H3 : recorded w w2) by (eapply recorded_trans; [|exact H2]; apply recorded_frame; congruence).
  destruct ok; cbn [negb]; [|done]. apply wp_bind. eapply wp_mono; [apply account_logged|intros w3 HL3|done].
  destruct (_ <=? 0); cbn [wp fst]; by eapply recorded_ledger.
Qed.

Lemma recorded_conf w w' : recorded w w' -> conf_ok (conf_of w) -> conf_ok (conf_of w').
Proof. intros [-> _]. done. Qed.

Lemma sched_loop_logged e ids fs w :
  inv w -> conf_ok (conf_of w) -> on_list JOB_LIST_PEND w ids -> NoDup ids ->
  wp (sched_loop e ids fs w) (fun p => recorded w p.1) True.
Proof.
  revert fs w. induction ids as [|id ids IH]; intros fs w HI C HL Hnd; cbn [sched_loop]; [apply recorded_refl|].
  apply NoDup_cons in Hnd as [Hid Hnd]. destruct (on_list_head _ _ _ _ HL) as (j & Hj & Hl). apply wp_bind.
  pose proof (sched_job_logged e id fs j w HI C Hj Hl) as Hlog.
  destruct (sched_job e id fs w) as [[w1 nx]|] eqn:Hs; [|done]. cbn [wp fst] in *.
  destruct (sched_job_inv _ _ _ _ _ _ _ HI Hj Hl Hs) as [HI1 Ho]. destruct nx; [|done..].
  eapply wp_mono; [apply IH; [done|by eapply recorded_conf|by eapply on_list_tail|done]|intros p Hp|done].
  by eapply recorded_trans.
Qed.

Lemma schedule_logged e w : inv w -> conf_ok (conf_of w) -> wp (schedule e w) (recorded w) True.
Proof.
  intros HI C. unfold schedule. destruct (pend_jobs_list w) eqn:Hpl; [apply recorded_refl|].
  pose proof (mark_candidates_inv w HI) as HI1. destruct (mark_candidates w) as [w1 fs] eqn:Hm. cbn [fst] in HI1.
  assert (HL1 : ledger w1 = ledger w).
  { injection Hm as <- _. unfold ledger, conf_of, durables. cbn. by rewrite !map_map. }
  destruct (fs =? 0); [by apply recorded_frame|]. apply wp_bind.
  destruct (sort_pend_list w1) as [w2|] eqn:Hs; [|done]. cbn [wp].
  apply sort_pend_list_perm in Hs as (l' & -> & Hp). pose proof (pend_perm_inv _ _ HI1 Hp) as HI2. apply wp_bind.
  assert (H2 : recorded w (w1 <| pend_jobs_list := l' |>)) by by apply recorded_frame.
  eapply wp_mono; [apply sched_loop_logged; [exact HI2|by eapply recorded_conf|..]|intros [w3 fin] H3|done].
  - by apply (on_list_all JOB_LIST_PEND).
  - apply (ao_lists _ HI2 JOB_LIST_PEND).
  - cbn [fst] in H3. assert (H4 : recorded w w3) by by eapply recorded_trans.
    destruct (negb fin); [done|]. apply wp_bind. eapply wp_mono; [apply wp_any|intros ? _|done]. done.
Qed.

End sched.
