(* ===== verification/MbdLoggedSubmit.v ===== *)
(** * A submission logs the jobs it makes

    The event of a new job carries the request; replayed, it gives the durable part
    of the very record the submission made. *)

From S2P Require Import Prelude CString LlHash Dependency LogFormat MbdTypes MbdBase MbdJob MbdEvents MbdInv.
From S2P Require Import MbdFrame MbdSafe MbdSubmit MbdStatic MbdDurable MbdLogged.

Open Scope string_scope.
Open Scope list_scope.
Open Scope Z_scope.

Implicit Types (w : mbd) (j d : job_data) (id : Z).

(** ** What a submission makes *)

(** The request with its defaults filled in. *)
Definition fill (w : mbd) (ws : wire_job_submit) : wire_job_submit :=
  let ws := if String.eqb (sub_name ws) EmptyString then ws <| sub_name := "-" |> else ws in
  if String.eqb (sub_queue ws) EmptyString
  then ws <| sub_queue := strbuf LL_BUFSIZ_256 (default_queue w) |> else ws.

Lemma fill_idem w ws : fill w (fill w ws) = fill w ws.
Proof.
  unfold fill. destruct (String.eqb_spec (sub_name ws) EmptyString) as [Hn|Hn];
    destruct (String.eqb_spec (sub_queue ws) EmptyString) as [Hq|Hq]; cbn; rewrite ?Hq; cbn;
    repeat match goal with |- context [String.eqb ?a ?b] => destruct (String.eqb_spec a b) end; cbn in *;
    try done; by destruct ws.
Qed.

(** The dependencies a job has for the text of its request. *)
Definition deps_of (cond : string) (ds : list job_dep) (dc : string) : Prop :=
  if String.eqb cond EmptyString then ds = [] /\ dc = EmptyString
  else dep_parse None (fun _ => true) cond = Ok (DEP_PARSE_OK, ds) /\ dc = strbuf LL_BUFSIZ_4K cond.

Definition asked_hosts (ws : wire_job_submit) (ms : ll_hash unit) : Z :=
  let nh := if 0 <? nentries ms then nentries ms else sub_num_hosts ws in
  if nh <? 1 then 1 else nh.

(** The durable part of a job made from the request: beside the request, the
    caller, the time and the place in an array. *)
Definition made_record (ws : wire_job_submit) (ms : ll_hash unit) (q : nat) (j : job_data) : job_data :=
  mk_job_data (job_id j) (uid j) (gid j) 0 (strbuf LL_BUFSIZ_64 (sub_username ws))
    (if has_flag (sub_flags ws) JOB_FLAG_HOLD then JOB_HELD else JOB_PENDING) 0 (priority j) (submit_time j)
    0 0 0 0 0 (sub_begin_time ws) (sub_term_time ws) 0 (Some q) (strbuf LL_BUFSIZ_256 (sub_project ws))
    (strbuf LL_BUFSIZ_64 (sub_name ws)) (sub_flags ws) JOB_LIST_PEND PEND_NONE (deps j) (depend_cond j) 0
    (mk_job_resources (sub_num_cpus ws) (asked_hosts ws ms) (sub_num_gpus ws)
       (strbuf LL_BUFSIZ_256 (sub_gpu_model ws)) (sub_mem_mb ws) (sub_storage_mb ws) 0 EmptyString ms EmptyString [])
    0 [] EmptyString (array_id j) (array_index j) (array_start j) (array_end j) (array_stride j) 0.

Definition made (w : mbd) (ws : wire_job_submit) (j : job_data) : Prop :=
  exists ms q, machines_hash_populate w (sub_machines ws) = Ok ms /\
    queue_name_hash w !! sub_queue ws = Some q /\ deps_of (sub_depend_cond ws) (deps j) (depend_cond j) /\
    durable j = made_record ws ms q j.

(** Before the dependencies are parsed. *)
Definition alloc_made (w : mbd) (ws : wire_job_submit) (j : job_data) : Prop :=
  exists ms q, machines_hash_populate w (sub_machines ws) = Ok ms /\
    queue_name_hash w !! sub_queue ws = Some q /\ deps j = [] /\ depend_cond j = EmptyString /\
    durable j = made_record ws ms q j.

Lemma job_alloc_made e ws w :
  wp (job_alloc e ws w) (fun '(w', ws', r) =>
    match r with inr j => ws' = fill w ws /\ alloc_made w ws' j | inl _ => True end) True.
Proof.
  unfold job_alloc, try_alloc. destruct (alloc_ok e (io w)); cbn [negb]; [|done].
  apply wp_bind. unfold next_job_id. destruct (next_job_id_from _ _ _) as [id|]; [|done]. cbn [res_bind wp].
  set (w1 := _ <| job_id_seq := id |>).
  change (machines_hash_populate w1 (sub_machines ws)) with (machines_hash_populate w (sub_machines ws)).
  change (default_queue w1) with (default_queue w). change (queue_name_hash w1) with (queue_name_hash w).
  destruct (machines_hash_populate w (sub_machines ws)) as [ms|] eqn:Hms; [|done]. cbn [res_bind]. cbv zeta.
  change (if String.eqb (sub_queue (if String.eqb (sub_name ws) EmptyString then ws <| sub_name := "-" |> else ws)) EmptyString
          then (if String.eqb (sub_name ws) EmptyString then ws <| sub_name := "-" |> else ws)
            <| sub_queue := strbuf LL_BUFSIZ_256 (default_queue w) |>
          else (if String.eqb (sub_name ws) EmptyString then ws <| sub_name := "-" |> else ws)) with (fill w ws).
  assert (Hm : sub_machines (fill w ws) = sub_machines ws /\ sub_num_hosts (fill w ws) = sub_num_hosts ws).
  { unfold fill. destruct (String.eqb (sub_name ws) _), (String.eqb (sub_queue _) _); done. }
  destruct Hm as [Hm Hnh]. set (ws1 := fill w ws) in *. rewrite <- Hnh. rewrite <- Hm in *.
  fold (asked_hosts ws1 ms). clearbody w1 ws1.
  destruct (queue_name_hash w !! sub_queue ws1) as [q|] eqn:Hq; [|done].
  destruct (nth_res (queues w1) q) as [qq|]; [|done]. cbn [res_bind].
  destruct (negb _); [done|]. destruct (negb _); [done|]. cbn [wp]. split; [done|].
  exists ms, q. split; [done|]. split; [done|]. split; [done|]. split; [done|].
  unfold durable, made_record. cbn. by destruct (has_flag (sub_flags ws1) JOB_FLAG_HOLD).
Qed.

(** The dependency text accepted at submission parses the same at replay, where
    the named jobs are not looked up. *)
Lemma parse_deps_of w j cond j' :
  deps j = [] -> depend_cond j = EmptyString -> job_parse_deps w j cond = Ok (j', true) ->
  deps_of cond (deps j') (depend_cond j') /\ j' = j <| depend_cond := depend_cond j' |> <| deps := deps j' |>.
Proof.
  intros Hd Hc. unfold job_parse_deps, job_deps_set, deps_of. destruct (String.eqb cond EmptyString).
  - intros [= <-]. split; [done|]. by destruct j.
  - intros H. apply res_bind_Ok in H as ([st ds] & Hp & H).
    assert (Hj' : j <| depend_cond := strbuf LL_BUFSIZ_4K cond |> <| deps := ds |> = j') by congruence.
    assert (Hst : bool_decide (st = DEP_PARSE_OK) = true) by congruence. apply bool_decide_eq_true in Hst.
    subst j' st. cbn. split; [|done]. split; [|done]. by eapply dep_parse_unresolved.
Qed.

Lemma job_prepare_made e ws hdr w :
  wp (job_prepare e ws hdr w) (fun '(w', ws', r) =>
    match r with inr j => ws' = fill w ws /\ made w ws' j | inl _ => True end) True.
Proof.
  unfold job_prepare. apply wp_bind. eapply wp_mono; [apply job_alloc_made| |done].
  intros [[w1 ws1] [err|j]]; [done|]. intros (Hws & ms & q & Hms & Hq & Hd & Hc & Hr).
  destruct (script_err _ _); [done|]. destruct (sidecar_err _ _); [done|].
  destruct (job_parse_tokens e w1 _) as [ts|]; [|done]. apply wp_bind.
  match goal with |- wp (job_parse_deps w1 ?x ?c) _ _ => destruct (job_parse_deps w1 x c) as [[j' ok]|] eqn:Hp end;
    [|done]. cbn [wp]. destruct ok; [|done]. apply parse_deps_of in Hp as [Hds Hj']; [|done|done].
  split; [done|]. exists ms, q. split; [done|]. split; [done|]. split; [done|]. rewrite Hj'.
  clear Hj' Hds. revert Hr. generalize (depend_cond j') (deps j'). intros dc ds Hr.
  transitivity ((durable j) <| uid := c_uid hdr |> <| gid := c_gid hdr |> <| depend_cond := dc |> <| deps := ds |>);
    [done|]. by rewrite Hr.
Qed.

Lemma made_conf w w' ws j : conf_of w' = conf_of w -> made w ws j -> made w' ws j.
Proof.
  intros Hc (ms & q & H1 & H2 & H3). exists ms, q. rewrite (populate_conf w w') by done.
  by rewrite (f_equal cf_queues Hc : queue_name_hash w' = queue_name_hash w).
Qed.

(** The place in an array is no part of the request. *)
Lemma made_array w ws j ai ix st en sd :
  made w ws j ->
  made w ws (j <| array_id := ai |> <| array_index := ix |> <| array_start := st |> <| array_end := en |>
               <| array_stride := sd |>).
Proof.
  intros (ms & q & H1 & H2 & H3 & Hr). exists ms, q. split; [done|]. split; [done|]. split; [done|].
  transitivity ((durable j) <| array_id := ai |> <| array_index := ix |> <| array_start := st |>
    <| array_end := en |> <| array_stride := sd |>); [done|]. by rewrite Hr.
Qed.

Lemma made_bump w ws l : Forall (made w ws) l -> Forall (made w ws) (bump_head l).
Proof. intros [|h t (ms & q & H) Ht]; [constructor|]. constructor; [|done]. by exists ms, q. Qed.

Lemma fill_conf w w' ws : conf_of w' = conf_of w -> fill w' ws = fill w ws.
Proof. intros Hc. unfold fill. by rewrite (f_equal cf_default Hc : default_queue w' = default_queue w). Qed.

Lemma seq_ledger w w' : same_but_seq w w' -> ledger w' = ledger w.
Proof. by intros (s & n & -> & _). Qed.

Lemma seq_conf w w' : same_but_seq w w' -> conf_of w' = conf_of w.
Proof. by intros (s & n & -> & _). Qed.

(** The jobs of a batch are made from the request as it stands at its end. *)
Definition batch_made (w : mbd) (ws : wire_job_submit) (l : list job_data) : Prop :=
  Forall (made w (fill w ws)) l /\ (l = [] \/ fill w ws = ws).

Lemma batch_made_snoc w ws l j : batch_made w ws l -> made w (fill w ws) j -> batch_made w (fill w ws) (l ++ [j]).
Proof.
  intros [HF _] Hj. split; rewrite fill_idem; [|by right]. apply Forall_app. split; [done|]. by constructor.
Qed.

Lemma prepare_loop_made e hdr fuel start stop stride index prepared ws w0 w :
  submit_sane ws -> 0 < now e -> conf_of w = conf_of w0 -> batch_made w0 ws prepared ->
  wp (prepare_loop e hdr fuel start stop stride index prepared ws w)
     (fun '(w', ws', r) => match r with inr l => batch_made w0 ws' l /\ (ws' = ws \/ ws' = fill w0 ws) | inl _ => True end) True.
Proof.
  intros Hs Hnow. revert index prepared ws w Hs.
  induction fuel as [|f IH]; intros index prepared ws w Hs Hc Hb; cbn [prepare_loop]; [by split; [|left]|].
  apply wp_bind. eapply wp_mono.
  { apply wp_and; [by apply (job_prepare_wp e ws hdr w)|apply job_prepare_made]. }
  2:{ done. }
  intros [[w1 ws1] [err|j]] [(Hw & Hs1 & _) Hm]; [apply wp_bind; by destruct (c_assert _)|]. destruct Hm as [Hws Hj].
  rewrite (fill_conf w0 w) in Hws by done. apply (made_conf w w0) in Hj; [|done]. subst ws1.
  apply wp_bind. eapply wp_mono; [apply wp_any|intros aid _|done].
  set (j1 := if has_flag _ _ then _ else j).
  assert (Hj1 : made w0 (fill w0 ws) j1) by (unfold j1; destruct (has_flag _ _); [by apply made_array|done]).
  clearbody j1. eapply wp_mono; [apply IH; [done| |]| |done].
  - by rewrite (seq_conf _ _ Hw).
  - pose proof (batch_made_snoc _ _ _ _ Hb Hj1) as [H1 H2]. destruct (has_flag _ _); [|by split].
    split; [by apply made_bump|by right; apply fill_idem].
  - intros [[w2 ws2] [err|l]]; [done|]. intros [H1 H2]. split; [done|]. right. rewrite fill_idem in H2. by destruct H2.
Qed.

(** ** Requests the log can carry *)

(** The event writes the texts of the request to fields shorter than those of the
    record, and the host count as the caller sent it. *)
Record submit_logs (ws : wire_job_submit) : Prop := mk_submit_logs {
  sl_project : (String.length (sub_project ws) < 64)%nat;
  sl_gpu_model : (String.length (sub_gpu_model ws) < 64)%nat;
  sl_machines : (String.length (sub_machines ws) < 1024)%nat;
  sl_depend : (String.length (sub_depend_cond ws) < 4096)%nat;
  sl_hosts : 1 <= sub_num_hosts ws
}.

Lemma submit_logs_fill w ws : submit_logs ws -> submit_logs (fill w ws).
Proof. intros []. unfold fill. destruct (String.eqb (sub_name ws) _), (String.eqb (sub_queue _) _); by split. Qed.

Definition new_event (j : job_data) (ws : wire_job_submit) : log_job_new :=
  mk_log_job_new (job_id j) (array_id j) (array_index j) (array_start j) (array_end j)
    (array_stride j) (uid j) (gid j) (job_state_num (state j)) (priority j)
    (submit_time j) (sub_begin_time ws) (sub_term_time ws)
    (sub_num_cpus ws) (sub_num_hosts ws) (sub_num_gpus ws) (sub_mem_mb ws)
    (sub_storage_mb ws) (sub_flags ws)
    (strbuf LL_BUFSIZ_64 (sub_username ws)) (strbuf LL_BUFSIZ_64 (sub_name ws))
    (strbuf LL_BUFSIZ_64 (sub_queue ws)) (strbuf LL_BUFSIZ_64 (sub_project ws))
    (strbuf LL_BUFSIZ_64 (sub_gpu_model ws)) (strbuf LL_BUFSIZ_1K (sub_machines ws))
    (strbuf LL_BUFSIZ_256 (sub_tokenpool ws)) (strbuf LL_BUFSIZ_4K (sub_depend_cond ws)).

Lemma strbuf_twice n m s : (String.length s < n)%nat -> (n <= m)%nat -> strbuf m (strbuf n s) = strbuf m s.
Proof. intros H1 H2. by rewrite (strbuf_fits n). Qed.

Lemma replay_deps_of j cond ds dc :
  deps j = [] -> depend_cond j = EmptyString -> deps_of cond ds dc -> (String.length cond < 4096)%nat ->
  job_replay_deps j (strbuf LL_BUFSIZ_4K cond) = Ok (j <| depend_cond := dc |> <| deps := ds |>).
Proof.
  intros Hd Hc H Hl. rewrite (strbuf_fits LL_BUFSIZ_4K cond) by done. unfold deps_of in H. unfold job_replay_deps, job_deps_set.
  destruct (String.eqb cond EmptyString).
  - destruct H as [-> ->]. cbn. by destruct j; cbn in *; subst.
  - destruct H as [-> ->]. cbn. done.
Qed.

Lemma made_logged w ws j :
  conf_ok (conf_of w) -> submit_logs ws -> made w ws j ->
  exists j', logged_job w (new_event j ws) = Some j' /\ durable j' = durable j.
Proof.
  intros C [S1 S2 S3 S4 S5] (ms & q & Hms & Hq & Hd & Hr).
  assert (Hq' : queue_name_hash w !! strbuf LL_BUFSIZ_64 (sub_queue ws) = Some q).
  { destruct (co_queues _ C _ _ Hq) as [_ Hl]. by rewrite strbuf_fits. }
  unfold logged_job, new_event. cbn [ln_machines ln_queue ln_depend_cond].
  rewrite (strbuf_fits LL_BUFSIZ_1K) by done. rewrite Hms, Hq'.
  rewrite (replay_deps_of _ _ (deps j) (depend_cond j)) by done.
  destruct (machines_hash_populate_names w (sub_machines ws)) as (ms' & Hms' & _ & Hn). rewrite Hms in Hms'.
  injection Hms' as <-. unfold max_names in Hn.
  assert (Hn1 : (if 0 <? nentries ms then i32 (nentries ms) else sub_num_hosts ws) = asked_hosts ws ms).
  { unfold asked_hosts. destruct (Z.ltb_spec 0 (nentries ms)).
    - rewrite i32_small by lia. destruct (Z.ltb_spec (nentries ms) 1); lia.
    - destruct (Z.ltb_spec (sub_num_hosts ws) 1); lia. }
  assert (Hst : state j = if has_flag (sub_flags ws) JOB_FLAG_HOLD then JOB_HELD else JOB_PENDING).
  { pose proof (f_equal state Hr) as H. cbn in H. revert H. unfold is_active.
    destruct (state j), (has_flag _ _); cbn; congruence. }
  match goal with |- context [1 <=? ?n] =>
    change n with (if 0 <? nentries ms then i32 (nentries ms) else sub_num_hosts ws) end.
  assert (Ha : (1 <=? asked_hosts ws ms) = true).
  { unfold asked_hosts. apply Z.leb_le. destruct (Z.ltb_spec (if 0 <? nentries ms then nentries ms else sub_num_hosts ws) 1); lia. }
  rewrite Hn1, Ha. eexists. split; [reflexivity|]. rewrite Hr. clear Hr.
  unfold durable, made_record, replayed_job. cbn. rewrite Hn1, Hst, !strbuf_idem.
  rewrite !(strbuf_twice 64 256) by (done || lia). by destruct (has_flag (sub_flags ws) JOB_FLAG_HOLD).
Qed.

(** ** The whole request *)

Lemma job_commit_logged j ws w :
  conf_ok (conf_of w) -> submit_logs ws -> made w ws j -> list_id j = JOB_LIST_PEND ->
  wp (job_commit j ws w) (recorded w) True.
Proof.
  intros C S M Hl. unfold job_commit. apply wp_bind. destruct (c_assert _) eqn:Hn; [|done]. cbn [wp].
  inv_res. apply bool_decide_eq_true in Hn.
  destruct (made_logged w ws j C S M) as (j' & Hlog & Hdur). cbv zeta.
  set (w1 := w <| jobs ::= <[job_id j := j]> |>).
  assert (H1 : ledger w1 = mk_ledger (<[job_id j := durable j]> (durables w)) (manifest w) (conf_of w)).
  { unfold ledger, durables, w1. cbn. by rewrite fmap_insert. }
  clearbody w1. unfold event_job_new. fold (new_event j ws). ledger_walk.
  assert (H2 : ledger a1 = mk_ledger (<[job_id j := durable j]> (durables w)) (manifest w ++ [LogNew (new_event j ws)]) (conf_of w)).
  { ledger_eqs. rewrite change_next. unfold add_event. cbn [lg_jobs lg_log lg_conf]. do 2 f_equal.
    unfold durable. cbn. by destruct (state j); cbn; rewrite ?take_idemp, Hl. }
  pose proof (f_equal lg_jobs H2) as G1. pose proof (f_equal lg_log H2) as G2. pose proof (f_equal lg_conf H2) as G3.
  cbn in G1, G2, G3. split; [done|]. exists [LogNew (new_event j ws)]. split; [done|].
  cbn [apply_events apply_event ln_job_id new_event]. unfold durables at 1. rewrite lookup_fmap, Hn. cbn [fmap option_fmap option_map].
  fold (new_event j ws). by rewrite Hlog, Hdur, G1.
Qed.

Lemma commit_all_logged l ws w :
  conf_ok (conf_of w) -> submit_logs ws -> Forall (made w ws) l -> Forall (fun j => list_id j = JOB_LIST_PEND) l ->
  wp (job_commit_prepared l ws w) (recorded w) True.
Proof.
  unfold job_commit_prepared. revert w. induction l as [|j l IH]; intros w C S HM HL; cbn [res_fold]; [apply recorded_refl|].
  apply Forall_cons in HM as [Hj HM]. apply Forall_cons in HL as [Hl HL]. apply wp_bind.
  eapply wp_mono; [by apply job_commit_logged|intros w1 H1|done].
  pose proof (proj1 H1) as Hc. eapply wp_mono; [apply IH; [by rewrite Hc|done| |done]|intros w2 H2|done].
  - eapply Forall_impl; [exact HM|]. intros x. by apply made_conf.
  - by eapply recorded_trans.
Qed.

Lemma job_register_logged e chan hdr ws w :
  inv w -> conf_ok (conf_of w) -> submit_sane ws -> 0 < now e -> submit_logs ws ->
  wp (job_register e chan hdr ws w) (recorded w) True.
Proof.
  intros HI C Hs Hnow Hlog. unfold job_register.
  assert (Hrej : forall w1 st, same_but_seq w w1 -> recorded w (job_register_error e chan st w1)).
  { intros w1 st H. apply recorded_frame. unfold job_register_error. rewrite ledger_enqueue. by apply seq_ledger. }
  assert (Hsame : same_but_seq w w) by (exists (job_id_seq w), (io w); split; [by destruct w|lia]).
  destruct (_ && _); [by apply Hrej|]. cbv zeta. apply wp_bind.
  assert (Hb0 : batch_ok w w []) by (split; [exact Hsame|constructor..|by exists 0|done]).
  assert (Hm0 : batch_made w ws []) by (split; [constructor|by left]).
  eapply wp_mono; [apply (wp_and _ _ _ _ _ (prepare_loop_wp _ _ _ _ _ _ _ _ _ w w Hs Hnow Hb0)
    (prepare_loop_made _ _ _ _ _ _ _ _ _ w w Hs Hnow eq_refl Hm0))| |done].
  intros [[w1 ws1] [err|l]] [[Hw Hr] Hm]; [by apply Hrej|]. destruct Hr as [Hb _], Hm as [[HM HF] Hws].
  unfold job_register_reply.
  match goal with |- context [enqueue_payload ?e ?c ?o ?s ?b w1] => io_step (enqueue_payload e c o s b w1) end.
  assert (Hrec : recorded w (with_io n' out w1)) by (apply recorded_frame; exact (seq_ledger _ _ Hw)).
  destruct ok; cbn [negb wp]; [|done]. apply wp_bind.
  assert (Hl1 : submit_logs ws1) by (destruct Hws as [->| ->]; [done|by apply submit_logs_fill]).
  pose proof (proj1 Hrec) as Hc.
  eapply wp_mono; [apply commit_all_logged; [by rewrite Hc|done|..]|intros w2 H2|done].
  - destruct HF as [-> |HF]; [constructor|]. rewrite HF in HM. eapply Forall_impl; [exact HM|]. intros x. by apply made_conf.
  - destruct Hb as [_ H2 _ _ _ _]. eapply Forall_impl; [exact H2|]. by intros x (_ & ? & _).
  - cbn [wp]. by eapply recorded_ledger; [eapply recorded_trans|].
Qed.
