(* ===== verification/MbdRebuild.v ===== *)
(** * Rebuilding the books after a replay

    The log keeps no counter: [replay_rebuild_counters] counts the jobs of the
    replayed table anew.  Each pass adds the contribution of one job; at the end
    the counters of queues and hosts are the sums over the table. *)

From S2P Require Import Prelude CString LlHash Dependency LogFormat MbdTypes MbdBase MbdJob MbdEvents.
From S2P Require Import MbdInv MbdFrame MbdCheck MbdSafe MbdSubmit MbdSchedSafe MbdStatic MbdDurable MbdLogged.

Open Scope list_scope.
Open Scope Z_scope.

Implicit Types (w : mbd) (j : job_data) (id : Z).

(** ** Counters in the course of the rebuild *)

(** The counters hold the contributions of the jobs [cs] counted so far. *)
Definition qcount (cs : list jcore) (q : nat) (qq : mbd_queue) : Prop :=
  forall f, qget f qq = sumZ (qcontrib f q) cs.

Record hcount (cs : list jcore) (h : nat) (hh : mbd_host) : Prop := mk_hcount {
  hn_jobs : h_num_jobs hh = sumZ (hcontrib HJobs h) cs;
  hn_run : h_num_run hh = sumZ (hcontrib HRun h) cs;
  hn_susp : h_num_susp hh = sumZ (hcontrib HSusp h) cs;
  hn_cpus : h_cpus_used hh = sumZ (hcontrib HCpus h) cs;
  hn_free : free_cpu hh = total_cpu hh - sumZ (hcontrib HCpus h) cs;
  hn_mem : free_mem_mb hh = u64 (total_mem_mb hh - sumZ (hcontrib HMem h) cs);
  hn_storage : free_storage_mb hh = u64 (total_storage_mb hh - sumZ (hcontrib HStorage h) cs);
  hn_excl : exclusive hh = (0 <? sumZ (hcontrib HExcl h) cs)
}.

(** What the rebuild keeps of a host. *)
Definition hkeep (h : mbd_host) := (hconf h, sbd_chan h).

Record counted (w0 : mbd) (cs : list jcore) (w : mbd) : Prop := mk_counted {
  ct_same : w = w0 <| queues := queues w |> <| hosts := hosts w |> <| pools := pools w |>;
  ct_qkeep : map qconf (queues w) = map qconf (queues w0);
  ct_hkeep : map hkeep (hosts w) = map hkeep (hosts w0);
  ct_queues : forall q qq, queues w !! q = Some qq -> qcount cs q qq;
  ct_hosts : forall h hh, hosts w !! h = Some hh -> hcount cs h hh
}.

Section counted.
Context (w0 w : mbd) (cs : list jcore) (R : counted w0 cs w).

Lemma counted_jobs : jobs w = jobs w0.
Proof using R. by rewrite (ct_same _ _ _ R). Qed.

Lemma counted_queues_len : length (queues w) = length (queues w0).
Proof using R. rewrite <- !(length_map qconf). by rewrite (ct_qkeep _ _ _ R). Qed.

Lemma counted_hosts_len : length (hosts w) = length (hosts w0).
Proof using R. rewrite <- !(length_map hkeep). by rewrite (ct_hkeep _ _ _ R). Qed.
End counted.

(** One more job that adds nothing to the hosts. *)
Lemma hcount_idle cs c h hh : hcount cs h hh -> uses c h = false -> hcount (cs ++ [c]) h hh.
Proof.
  intros [] Hu. split; rewrite sumZ_app; cbn [sumZ]; unfold hcontrib at 2; rewrite Hu, !Z.add_0_r; done.
Qed.

Lemma map_alter_keep {A B} (g : A -> B) (f : A -> A) i l : (forall x, g (f x) = g x) -> map g (alter f i l) = map g l.
Proof. intros H. by apply map_alter_same. Qed.

(** A queue that takes one more job. *)
Lemma counted_queue w0 w cs c q f :
  counted w0 cs w -> jc_queue c = Some q -> (forall x, qconf (f x) = qconf x) ->
  (forall x g, qget g (f x) = qget g x + qweight g c) -> (forall h, uses c h = false) ->
  counted w0 (cs ++ [c]) (upd_queue q f w).
Proof.
  intros [R1 R2 R3 R4 R5] Hq Hk Hf Hu. split.
  - rewrite R1 at 1. done.
  - cbn. by rewrite map_alter_keep.
  - exact R3.
  - intros i qq (x & Hx & ->)%list_lookup_alter_inv g. rewrite sumZ_app. cbn [sumZ]. rewrite Z.add_0_r.
    unfold qcontrib at 2. rewrite Hq. rewrite (bool_decide_ext (Some q = Some i) (i = q)) by naive_solver.
    specialize (R4 i x Hx g). case_bool_decide; [rewrite Hf|]; lia.
  - intros h hh Hh. apply hcount_idle; [by apply R5|apply Hu].
Qed.

Lemma rebuild_pend_ok w0 w cs id j q :
  counted w0 cs w -> jobs w0 !! id = Some j -> list_id j = JOB_LIST_PEND -> pend_state (state j) ->
  queue j = Some q -> (q < length (queues w0))%nat ->
  exists w', rebuild_pend w id = Ok w' /\ counted w0 (cs ++ [core j]) w'.
Proof.
  intros R Hj Hl Hs Hq Hlt. unfold rebuild_pend. rewrite (counted_jobs _ _ _ R), Hj. cbn [deref res_bind].
  rewrite Hq, bool_decide_eq_true_2 by eauto. cbn [c_assert guard_or res_bind].
  assert (Hlt' : (q < length (queues w))%nat) by by rewrite (counted_queues_len _ _ _ R).
  destruct Hs as [Hs|Hs]; rewrite Hs; rewrite (upd_job_queue_total _ _ _ q) by done; eexists; (split; [reflexivity|]);
    (apply counted_queue; [done|done|done|intros x g; unfold qweight; cbn; rewrite Hl, Hs; destruct g; cbn; lia|]);
    intros h; apply uses_not_run; cbn; congruence.
Qed.

(** *** A running job *)

Definition recharged (j : job_data) (h : mbd_host) : mbd_host :=
  let h := h <| free_cpu ::= fun c => c - num_cpus (rsrc j) |>
             <| free_mem_mb ::= fun m => u64 (m - mem_mb (rsrc j)) |>
             <| free_storage_mb ::= fun m => u64 (m - storage_mb (rsrc j)) |>
             <| h_num_jobs ::= Z.succ |>
             <| h_cpus_used ::= fun c => c + num_cpus (rsrc j) |> in
  let h := if state_is JOB_SUSPENDED j then h <| h_num_susp ::= Z.succ |> else h <| h_num_run ::= Z.succ |> in
  if is_exclusive j then h <| exclusive := true |> else h.

Lemma host_recharge_Ok j h : num_gpus (rsrc j) <= 0 -> host_recharge j h = Ok (recharged j h).
Proof. intros H. unfold host_recharge. by rewrite (proj2 (Z.ltb_ge 0 _)). Qed.

Lemma hcount_charged cs j h hh :
  hcount cs h hh -> uses (core j) h = true -> run_state (state j) ->
  hcount (cs ++ [core j]) h (recharged j hh).
Proof.
  intros [] Hu Hs.
  assert (Hex : 0 <= sumZ (hcontrib HExcl h) cs).
  { apply sumZ_nonneg. intros x _. unfold hcontrib. destruct (uses x h); cbn; [|lia]. pose proof (b2z_range (jc_excl x)). lia. }
  unfold recharged, state_is.
  destruct Hs as [Hs|Hs]; rewrite Hs; eval_decide; destruct (is_exclusive j) eqn:He;
    (split; rewrite sumZ_app; cbn [sumZ]; unfold hcontrib at 2; rewrite Hu, Z.add_0_r; cbn; rewrite ?Hs, ?He; cbn;
     try lia; try (rewrite hn_mem0 || rewrite hn_storage0; rewrite u64_sub; f_equal; lia);
     try (symmetry; apply Z.ltb_lt; lia); rewrite hn_excl0; f_equal; lia).
Qed.

Lemma recharged_keep j h : hkeep (recharged j h) = hkeep h.
Proof. unfold recharged. by destruct (state_is JOB_SUSPENDED j), (is_exclusive j). Qed.

Lemma recharge_hosts j hs w :
  num_gpus (rsrc j) <= 0 -> run_host_ptrs j = Ok hs -> NoDup hs -> Forall (fun h => (h < length (hosts w))%nat) hs ->
  exists w', replay_charge_running_job j w = Ok w' /\ w' = w <| hosts := hosts w' |> /\
    map hkeep (hosts w') = map hkeep (hosts w) /\
    forall h hh', hosts w' !! h = Some hh' -> exists hh, hosts w !! h = Some hh /\
      hh' = if bool_decide (h ∈ hs) then recharged j hh else hh.
Proof.
  intros Hg Hp Hnd HF. unfold replay_charge_running_job. rewrite Hp. cbn [res_bind].
  assert (Hwp : wp (each_host (host_recharge j) hs w) (fun _ => True) False).
  { apply each_host_wp; [done|done|]. intros hh. by rewrite host_recharge_Ok. }
  destruct (wp_total _ _ Hwp) as (w' & Hw & _). exists w'. split; [done|].
  destruct (each_host_spec _ _ _ _ Hnd Hw) as (He & Hlen & Hs). split; [done|].
  assert (Hs' : forall h hh', hosts w' !! h = Some hh' -> exists hh, hosts w !! h = Some hh /\
      hh' = if bool_decide (h ∈ hs) then recharged j hh else hh).
  { intros h hh' Hh. destruct (Hs h hh' Hh) as (hh & Hhh & Hc). exists hh. split; [done|].
    case_bool_decide; [|done]. rewrite host_recharge_Ok in Hc by done. congruence. }
  split; [|done]. apply list_eq_same_length with (n := length (hosts w)); rewrite ?length_map; try done.
  intros i x y _ Hx Hy. rewrite (list_lookup_fmap hkeep) in Hx, Hy.
  destruct (hosts w' !! i) as [hh'|] eqn:Hh'; [|done]. destruct (Hs' i hh' Hh') as (hh & Hhh & ->).
  rewrite Hhh in Hy. injection Hx as <-. injection Hy as <-. case_bool_decide; [apply recharged_keep|done].
Qed.

Lemma counted_run w0 w cs j q f hs w3 :
  counted w0 cs w -> list_id j = JOB_LIST_RUN -> run_state (state j) -> queue j = Some q ->
  take (run_nhosts j) (run_hosts j) = map Some hs ->
  (forall x, qconf (f x) = qconf x) -> (forall x g, qget g (f x) = qget g x + qweight g (core j)) ->
  w3 = (upd_queue q f w) <| hosts := hosts w3 |> -> map hkeep (hosts w3) = map hkeep (hosts w) ->
  (forall h hh', hosts w3 !! h = Some hh' -> exists hh, hosts w !! h = Some hh /\
     hh' = if bool_decide (h ∈ hs) then recharged j hh else hh) ->
  counted w0 (cs ++ [core j]) (token_alloc j w3).
Proof.
  intros [R1 R2 R3 R4 R5] Hl Hs Hq Ht Hk Hf He Hkeep Hh. destruct (token_alloc_pools j w3) as [p ->].
  assert (Hqs : queues w3 = alter f q (queues w)) by by rewrite He.
  split.
  - cbn. rewrite He at 1. rewrite R1 at 1. by rewrite Hqs.
  - cbn. by rewrite Hqs, map_alter_keep.
  - cbn. congruence.
  - cbn. rewrite Hqs. intros i qq (x & Hx & ->)%list_lookup_alter_inv g. rewrite sumZ_app. cbn [sumZ]. rewrite Z.add_0_r.
    unfold qcontrib at 2. change (jc_queue (core j)) with (queue j). rewrite Hq.
    rewrite (bool_decide_ext (Some q = Some i) (i = q)) by naive_solver.
    specialize (R4 i x Hx g). case_bool_decide; [rewrite Hf|]; lia.
  - cbn. intros h hh' (hh & Hhh & ->)%Hh. pose proof (R5 h hh Hhh) as Hc.
    pose proof (uses_plan (core j) h hs Hl Ht) as Hu. case_bool_decide; [by apply hcount_charged|by apply hcount_idle].
Qed.

Lemma rebuild_run_ok w0 w cs id j q hs :
  counted w0 cs w -> jobs w0 !! id = Some j -> list_id j = JOB_LIST_RUN -> run_state (state j) ->
  queue j = Some q -> (q < length (queues w0))%nat -> num_gpus (rsrc j) <= 0 ->
  take (run_nhosts j) (run_hosts j) = map Some hs -> length hs = run_nhosts j -> NoDup hs ->
  Forall (fun h => (h < length (hosts w0))%nat) hs ->
  exists w', rebuild_run w id = Ok w' /\ counted w0 (cs ++ [core j]) w'.
Proof.
  intros R Hj Hl Hs Hq Hlt Hg Ht Hn Hnd HF. unfold rebuild_run. rewrite (counted_jobs _ _ _ R), Hj. cbn [deref res_bind].
  rewrite Hq, bool_decide_eq_true_2 by eauto. cbn [c_assert guard_or res_bind].
  assert (Hlt' : (q < length (queues w))%nat) by by rewrite (counted_queues_len _ _ _ R).
  assert (Hp : run_host_ptrs j = Ok hs) by by apply run_host_ptrs_plan.
  assert (HF' : forall f, Forall (fun h => (h < length (hosts (upd_queue q f w)))%nat) hs)
    by (intros f; cbn; by rewrite (counted_hosts_len _ _ _ R)).
  destruct Hs as [Hs|Hs]; rewrite Hs; rewrite (upd_job_queue_total _ _ _ q) by done; cbn [res_bind];
    (match goal with |- context [upd_queue q ?f w] =>
       destruct (recharge_hosts j hs (upd_queue q f w) Hg Hp Hnd (HF' f)) as (w3 & -> & He & Hkeep & Hh) end;
     eexists; split; [reflexivity|];
     eapply counted_run; [exact R|done|by (left + right)|exact Hq|exact Ht| | |exact He|exact Hkeep|exact Hh];
     [done|intros x g; unfold qweight; cbn; rewrite Hl, Hs; destruct g; cbn; lia]).
Qed.

(** ** The passes over the lists *)

Lemma counted_fold step w0 L js cs w :
  counted w0 cs w -> Forall2 (fun id j => jobs w0 !! id = Some j) L js ->
  (forall id j cs w, jobs w0 !! id = Some j -> j ∈ js -> counted w0 cs w ->
     exists w', step w id = Ok w' /\ counted w0 (cs ++ [core j]) w') ->
  exists w', res_fold step L w = Ok w' /\ counted w0 (cs ++ map core js) w'.
Proof.
  intros R HF Hstep. revert cs w R. induction HF as [|id j L js Hj HF IH]; intros cs w R.
  - exists w. cbn. by rewrite app_nil_r.
  - destruct (Hstep id j cs w Hj ltac:(left) R) as (w1 & H1 & R1). cbn [res_fold map]. rewrite H1. cbn [res_bind].
    destruct (IH ltac:(intros; eapply Hstep; eauto; by right) _ _ R1) as (w2 & H2 & R2). exists w2. split; [done|].
    by rewrite <- app_assoc in R2.
Qed.

(** The passes that only count dependencies and array elements. *)
Definition quiet (w w' : mbd) : Prop := acct_of w' = acct_of w /\ ledger w' = ledger w /\ fixed w' = fixed w.

Lemma quiet_trans w1 w2 w3 : quiet w1 w2 -> quiet w2 w3 -> quiet w1 w3.
Proof. intros (? & ? & ?) (? & ? & ?). repeat split; congruence. Qed.

Lemma quiet_jobs w w' id : quiet w w' -> is_Some (jobs w !! id) -> is_Some (jobs w' !! id).
Proof.
  intros (Ha & _ & _). pose proof (f_equal (fun A => a_cores A !! id) Ha) as H. cbn in H.
  rewrite !cores_lookup in H. intros [j Hj]. rewrite Hj in H. destruct (jobs w' !! id); [eauto|done].
Qed.

Lemma quiet_fold step L w :
  (forall w id, is_Some (jobs w !! id) -> exists w', step w id = Ok w' /\ quiet w w') ->
  (forall id, id ∈ L -> is_Some (jobs w !! id)) -> exists w', res_fold step L w = Ok w' /\ quiet w w'.
Proof.
  intros Hs. revert w. induction L as [|id L IH]; intros w HL; [by exists w|].
  destruct (Hs w id (HL id ltac:(left))) as (w1 & H1 & Q1). cbn. rewrite H1. cbn.
  destruct (IH w1) as (w2 & H2 & Q2); [intros i Hi; apply (quiet_jobs w); [done|apply HL; by right]|].
  exists w2. split; [done|by eapply quiet_trans].
Qed.

Lemma rebuild_deps_quiet w id : is_Some (jobs w !! id) -> exists w', rebuild_deps w id = Ok w' /\ quiet w w'.
Proof.
  intros [j Hj]. unfold rebuild_deps. rewrite Hj. cbn. eexists. split; [reflexivity|].
  destruct (deps j) eqn:Hd; [done|]. split; [apply acct_job_deps_refcnt|].
  split; [apply ledger_deps_hold|apply fixed_deps_hold].
Qed.

Lemma rebuild_array_quiet w id : is_Some (jobs w !! id) -> exists w', rebuild_array w id = Ok w' /\ quiet w w'.
Proof.
  intros [j Hj]. unfold rebuild_array, replay_update, job_find. rewrite Hj. cbn.
  destruct (array_id j =? 0); [by eexists|]. destruct (jobs w !! array_id j); [|by eexists].
  eexists. split; [reflexivity|]. split; [by apply acct_upd_job_inert|].
  split; [apply ledger_upd_inert; durable_eq|by apply fixed_upd_job].
Qed.

(** ** The whole rebuild *)

(** The jobs fit the host. *)
Record fits (m : gmap Z jcore) (h : nat) (hh : mbd_host) : Prop := mk_fits {
  ft_cpu : mapsum (hcontrib HCpus h) m <= total_cpu hh;
  ft_mem : mapsum (hcontrib HMem h) m <= total_mem_mb hh;
  ft_storage : mapsum (hcontrib HStorage h) m <= total_storage_mb hh;
  ft_alone : 0 < mapsum (hcontrib HExcl h) m -> mapsum (hcontrib HJobs h) m = 1
}.

(** A host as the configuration gives it. *)
Definition unused (hh : mbd_host) : Prop :=
  free_cpu hh = total_cpu hh /\ free_mem_mb hh = u64 (total_mem_mb hh) /\
  free_storage_mb hh = u64 (total_storage_mb hh).

(** A replayed table that can be rebuilt. *)
Record rebuildable (w : mbd) : Prop := mk_rebuildable {
  rb_lists : lists_ok (cores w) (fun l => job_list l w);
  rb_jobs : forall id j, jobs w !! id = Some j ->
    core_ok (length (queues w)) (length (hosts w)) id (core j) /\ num_gpus (rsrc j) <= 0;
  rb_members : forall q qq, queues w !! q = Some qq -> queue_hosts_ok (hosts w) qq;
  rb_unused : forall h hh, hosts w !! h = Some hh -> unused hh;
  rb_fits : forall h hh, hosts w !! h = Some hh -> fits (cores w) h hh
}.

Lemma reset_counted w :
  (forall h hh, hosts w !! h = Some hh -> unused hh) ->
  counted (replay_reset_counters w) [] (replay_reset_counters w).
Proof.
  intros Hu. split; [done..| |].
  - intros q qq. cbn. rewrite (list_lookup_fmap queue_reset). destruct (queues w !! q) as [x|]; [|done].
    intros [= <-] f. by destruct f.
  - intros h hh. cbn. rewrite (list_lookup_fmap host_reset). destruct (hosts w !! h) as [x|] eqn:Hx; [|done].
    intros [= <-]. destruct (Hu h x Hx) as (H1 & H2 & H3). split; cbn; rewrite ?Z.sub_0_r; done.
Qed.

(** The jobs of a list. *)
Lemma list_jobs w l :
  lists_ok (cores w) (fun l => job_list l w) ->
  exists js, Forall2 (fun id j => jobs w !! id = Some j) (job_list l w) js /\ Forall (fun j => list_id j = l) js.
Proof.
  intros HL. assert (Hin : forall id, id ∈ job_list l w -> exists j, jobs w !! id = Some j /\ list_id j = l).
  { intros id (c & Hc & Hl)%HL. rewrite cores_lookup in Hc. destruct (jobs w !! id) as [j|]; [|done].
    injection Hc as <-. eauto. }
  revert Hin. generalize (job_list l w). induction l0 as [|id L IH]; intros Hin; [exists []; by constructor|].
  destruct (Hin id ltac:(left)) as (j & Hj & Hl). destruct IH as (js & H1 & H2); [intros; apply Hin; by right|].
  exists (j :: js). by split; constructor.
Qed.

(** A sum over the table, by the two lists that count. *)
Lemma mapsum_lists (f : jcore -> Z) w pj rj :
  lists_ok (cores w) (fun l => job_list l w) -> (forall c, jc_list c = JOB_LIST_FINISH -> f c = 0) ->
  Forall2 (fun id j => jobs w !! id = Some j) (pend_jobs_list w) pj ->
  Forall2 (fun id j => jobs w !! id = Some j) (run_jobs_list w) rj ->
  mapsum f (cores w) = sumZ f (map core pj ++ map core rj).
Proof.
  intros HL Hf HP HR. destruct (HL JOB_LIST_PEND) as [Np Ip]. destruct (HL JOB_LIST_RUN) as [Nr Ir]. cbn in Np, Ip, Nr, Ir.
  assert (Hcore : forall L js, Forall2 (fun id j => jobs w !! id = Some j) L js ->
    Forall2 (fun id x => cores w !! id = Some x) L (map core js)).
  { intros L js HF. induction HF; constructor; [by apply cores_lookup_Some|done]. }
  apply mapsum_list with (L := pend_jobs_list w ++ run_jobs_list w).
  - apply NoDup_app. split; [done|]. split; [|done].
    intros id (c & Hc & Hl)%Ip (c' & Hc' & Hl')%Ir. congruence.
  - apply Forall2_app; by apply Hcore.
  - intros id c Hc Hnin. apply not_elem_of_app in Hnin as [Hn1 Hn2]. apply Hf. destruct (jc_list c) eqn:El; [| |done].
    + exfalso. apply Hn1, Ip. eauto.
    + exfalso. apply Hn2, Ir. eauto.
Qed.

Lemma hcount_ok m cs h hh :
  (forall f, mapsum (hcontrib f h) m = sumZ (hcontrib f h) cs) -> fits m h hh -> hcount cs h hh -> host_ok m h hh.
Proof.
  intros Hs [F1 F2 F3 F4] [H1 H2 H3 H4 H5 H6 H7 H8]. split; rewrite ?Hs in *; try done; try lia.
Qed.

Lemma Forall2_elem_r {A B} (P : A -> B -> Prop) l k y : Forall2 P l k -> y ∈ k -> exists x, x ∈ l /\ P x y.
Proof.
  intros HF Hy. apply list_elem_of_lookup in Hy as [i Hi]. destruct (Forall2_lookup_r _ _ _ _ _ HF Hi) as (x & Hx & Hp).
  exists x. split; [by eapply list_elem_of_lookup_2|done].
Qed.

Section rebuild.
Context (w : mbd) (R : rebuildable w).
Let w1 := replay_reset_counters w.

Lemma reset_lengths : length (queues w1) = length (queues w) /\ length (hosts w1) = length (hosts w).
Proof using Type. cbn. by rewrite !length_map. Qed.

(** Both counting passes return. *)
Lemma rebuild_counts :
  exists w2 w3 pj rj, res_fold rebuild_pend (pend_jobs_list w1) w1 = Ok w2 /\
    res_fold rebuild_run (run_jobs_list w2) w2 = Ok w3 /\
    Forall2 (fun id j => jobs w !! id = Some j) (pend_jobs_list w) pj /\
    Forall2 (fun id j => jobs w !! id = Some j) (run_jobs_list w) rj /\
    counted w1 (map core pj ++ map core rj) w3.
Proof using R.
  destruct (list_jobs w JOB_LIST_PEND (rb_lists _ R)) as (pj & HP & HPl).
  destruct (list_jobs w JOB_LIST_RUN (rb_lists _ R)) as (rj & HR & HRl). cbn [job_list] in HP, HR.
  destruct reset_lengths as [Lq Lh]. rewrite Forall_forall in HPl, HRl.
  destruct (counted_fold rebuild_pend w1 (pend_jobs_list w) pj [] w1 (reset_counted w (rb_unused _ R)) HP)
    as (w2 & H2 & R2).
  { intros id j cs x Hj Hin Hc. destruct (rb_jobs _ R id j Hj) as [Hok _]. pose proof (HPl j Hin) as Hl.
    destruct (ok_queue _ _ _ _ Hok) as (q & Hq & Hlt). pose proof (ok_state _ _ _ _ Hok) as Hs. cbn in Hq, Hs.
    rewrite Hl in Hs. eapply rebuild_pend_ok; [exact Hc|exact Hj|done|apply Hs|exact Hq|by rewrite Lq]. }
  destruct (counted_fold rebuild_run w1 (run_jobs_list w) rj (map core pj) w2 R2 HR) as (w3 & H3 & R3).
  { intros id j cs x Hj Hin Hc. destruct (rb_jobs _ R id j Hj) as [Hok Hg]. pose proof (HRl j Hin) as Hl.
    destruct (ok_queue _ _ _ _ Hok) as (q & Hq & Hlt). pose proof (ok_state _ _ _ _ Hok) as Hs. cbn in Hq, Hs.
    rewrite Hl in Hs. destruct Hs as (Hs & (hs & Ht & Hn & _ & Hnd & HF) & _).
    eapply rebuild_run_ok; [exact Hc|exact Hj|done|done|exact Hq|by rewrite Lq|done|exact Ht|done|done|by rewrite Lh]. }
  exists w2, w3, pj, rj. split; [exact H2|]. split; [|done].
  assert (Hrl : run_jobs_list w2 = run_jobs_list w) by by rewrite (ct_same _ _ _ R2). by rewrite Hrl.
Qed.

Lemma counted_inv w3 pj rj :
  Forall2 (fun id j => jobs w !! id = Some j) (pend_jobs_list w) pj ->
  Forall2 (fun id j => jobs w !! id = Some j) (run_jobs_list w) rj ->
  counted w1 (map core pj ++ map core rj) w3 -> inv w3.
Proof using R.
  intros HP HR C. destruct reset_lengths as [Lq Lh].
  pose proof (ct_same _ _ _ C) as Hs. pose proof (counted_jobs _ _ _ C) as Hj.
  assert (Hc : cores w3 = cores w) by (unfold cores; by rewrite Hj).
  assert (Hsum : forall f, (forall c, jc_list c = JOB_LIST_FINISH -> f c = 0) ->
    mapsum f (cores w) = sumZ f (map core pj ++ map core rj)) by (intros f Hf; by apply mapsum_lists; [apply R|..]).
  assert (Hhost : forall h hh, hosts w3 !! h = Some hh -> exists hh0, hosts w !! h = Some hh0 /\ hconf hh = hconf hh0).
  { intros h hh Hh. pose proof (f_equal (fun l => l !! h) (ct_hkeep _ _ _ C)) as Hk. cbn in Hk.
    rewrite map_map, !list_lookup_fmap, Hh in Hk. destruct (hosts w !! h) as [hh0|]; [|done].
    exists hh0. split; [done|]. injection Hk. intros; unfold hconf, totals; congruence. }
  split; cbn; rewrite ?Hc.
  - rewrite (counted_queues_len _ _ _ C), (counted_hosts_len _ _ _ C), Lq, Lh. intros id c Hi.
    rewrite cores_lookup in Hi. destruct (jobs w !! id) as [j|] eqn:E; [|done]. injection Hi as <-. by apply (rb_jobs _ R).
  - pose proof (rb_lists _ R) as HL. intros l. specialize (HL l).
    rewrite Hs. by destruct l.
  - intros q qq Hq f. rewrite (ct_queues _ _ _ C q qq Hq f). symmetry. apply Hsum.
    intros c Hl. unfold qcontrib, qweight. rewrite Hl. by destruct (bool_decide _).
  - intros h hh Hh. destruct (Hhost h hh Hh) as (hh0 & H0 & Hk). unfold hconf, totals in Hk.
    apply hcount_ok with (cs := map core pj ++ map core rj); [|..|by apply C].
    + intros f. apply Hsum. intros c Hl. unfold hcontrib. rewrite uses_not_run; [done|congruence].
    + injection Hk as _ E1 E2 E3. destruct (rb_fits _ R h hh0 H0). split; by rewrite ?E1, ?E2, ?E3.
  - intros q qq Hq nm h Hn.
    pose proof (f_equal (fun l => l !! q) (ct_qkeep _ _ _ C)) as Hk. cbn in Hk.
    rewrite map_map, !list_lookup_fmap, Hq in Hk. destruct (queues w !! q) as [qq0|] eqn:Hq0; [|done].
    assert (Hm : q_host_hash qq = q_host_hash qq0) by (injection Hk; intros; congruence). rewrite Hm in Hn.
    destruct (rb_members _ R q qq0 Hq0 nm h Hn) as (hh0 & Hh0 & Hname).
    assert (Hlt : (h < length (hosts w3))%nat) by (rewrite (counted_hosts_len _ _ _ C), Lh; by eapply lookup_lt_Some).
    destruct (lookup_lt_is_Some_2 _ _ Hlt) as [hh Hh]. exists hh. split; [done|].
    destruct (Hhost h hh Hh) as (x & Hx & Hkx). unfold hconf in Hkx. congruence.
Qed.

Lemma counted_ledger w3 cs : counted w1 cs w3 -> ledger w3 = ledger w /\ fixed w3 = fixed w.
Proof using Type.
  intros C. pose proof (ct_same _ _ _ C) as Hs. destruct reset_lengths as [Lq Lh].
  pose proof (ct_qkeep _ _ _ C) as Hq. pose proof (ct_hkeep _ _ _ C) as Hh.
  assert (Hq1 : forall B (g : _ -> B), map (fun q => g (qconf q)) (queues w3) = map (fun q => g (qconf q)) (queues w)).
  { intros B g. rewrite <- !(map_map qconf g), Hq. cbn. by rewrite !map_map. }
  assert (Hh1 : forall B (g : _ -> B), map (fun h => g (hkeep h)) (hosts w3) = map (fun h => g (hkeep h)) (hosts w)).
  { intros B g. rewrite <- !(map_map hkeep g), Hh. cbn. by rewrite !map_map. }
  pose proof (Hq1 _ fst : map q_host_hash (queues w3) = map q_host_hash (queues w)) as Q1.
  pose proof (Hq1 _ snd : map q_name (queues w3) = map q_name (queues w)) as Q2.
  pose proof (Hh1 _ (fun x => x.1.1) : map h_name (hosts w3) = map h_name (hosts w)) as H1.
  pose proof (Hh1 _ (fun x => x.1.2) : map totals (hosts w3) = map totals (hosts w)) as H2.
  pose proof (Hh1 _ snd : map sbd_chan (hosts w3) = map sbd_chan (hosts w)) as H3.
  split.
  - unfold ledger, conf_of, durables. rewrite Q1, Q2, H1, H2. by rewrite Hs.
  - unfold fixed, statics. rewrite H3, (counted_queues_len _ _ _ C), Lq. by rewrite Hs.
Qed.

(** The rebuild returns on every table it is given after a replay; it leaves the
    log, the records and the tables alone, and the books are right. *)
Lemma replay_rebuild_ok :
  exists w', replay_rebuild_counters w = Ok w' /\ inv w' /\ ledger w' = ledger w /\ fixed w' = fixed w.
Proof using R.
  destruct rebuild_counts as (w2 & w3 & pj & rj & H2 & H3 & HP & HR & C).
  pose proof (counted_inv w3 pj rj HP HR C) as HI. destruct (counted_ledger w3 _ C) as [HL HF].
  unfold replay_rebuild_counters. fold w1. rewrite H2. cbn [res_bind]. rewrite H3. cbn [res_bind].
  assert (Hpass : forall step l x, (forall w id, is_Some (jobs w !! id) -> exists w', step w id = Ok w' /\ quiet w w') ->
    quiet w3 x -> exists y, res_fold step (job_list l x) x = Ok y /\ quiet w3 y).
  { intros step l x Hs Q. destruct (quiet_fold step (job_list l x) x Hs) as (y & Hy & Qy).
    - intros id Hid. apply (quiet_jobs w3); [done|].
      assert (Hid' : id ∈ a_list l (acct_of w3)) by (destruct Q as (Ha & _); rewrite <- Ha; by destruct l).
      apply (ao_lists _ HI l) in Hid' as (c & Hc & _). apply is_Some_cores. eauto.
    - exists y. split; [done|by eapply quiet_trans]. }
  destruct (Hpass rebuild_deps JOB_LIST_PEND w3 rebuild_deps_quiet) as (w4 & H4 & Q4); [done|].
  cbn [job_list] in H4. rewrite H4. cbn [res_bind].
  destruct (Hpass rebuild_array JOB_LIST_PEND w4 rebuild_array_quiet Q4) as (w5 & H5 & Q5).
  cbn [job_list] in H5. rewrite H5. cbn [res_bind].
  destruct (Hpass rebuild_array JOB_LIST_RUN w5 rebuild_array_quiet Q5) as (w6 & H6 & (Qa & Ql & Qf)).
  cbn [job_list] in H6. exists w6. split; [exact H6|]. split; [red; by rewrite Qa|]. split; congruence.
Qed.
End rebuild.
