(* ===== verification/MbdCompact.v ===== *)
(** * Compaction of the event log

    When enough finished jobs are held, the daemon writes its log anew from memory
    and drops the finished jobs nothing refers to ([manifest_rebuild] of
    src/batch/mbd/events.c).  The new log tells the table that remains. *)

From S2P Require Import Prelude CString LlHash Dependency LogFormat MbdTypes MbdBase MbdJob MbdSched MbdEvents.
From S2P Require Import MbdInv MbdFrame MbdSafe MbdSubmit MbdPlan MbdDurable MbdLogged MbdLoggedSched MbdLoggedSubmit.

Open Scope string_scope.
Open Scope list_scope.
Open Scope Z_scope.

Implicit Types (w x : mbd) (j d : job_data) (id : Z).

(** ** The events written for one job *)

Definition compact_new (q : mbd_queue) (j : job_data) : log_job_new :=
  mk_log_job_new
    (job_id j) (array_id j) (array_index j) (array_start j) (array_end j) (array_stride j)
    (uid j) (gid j) (job_state_num (state j)) (priority j) (submit_time j) (begin_time j)
    (term_time j) (num_cpus (rsrc j)) (num_hosts (rsrc j)) (num_gpus (rsrc j))
    (mem_mb (rsrc j)) (storage_mb (rsrc j)) (flags j)
    (strbuf LL_BUFSIZ_64 (user j)) (strbuf LL_BUFSIZ_64 (name j))
    (strbuf LL_BUFSIZ_64 (q_name q)) (strbuf LL_BUFSIZ_64 (project j))
    (strbuf LL_BUFSIZ_64 (gpu_model (rsrc j))) (strbuf LL_BUFSIZ_1K (machines_str (rsrc j)))
    (strbuf LL_BUFSIZ_256 (tokenpool_str (rsrc j))) (strbuf LL_BUFSIZ_4K (depend_cond j)).

Definition compact_start (names : list string) (j : job_data) : log_job_start :=
  mk_log_job_start
    (job_id j) (dispatch_time j) (num_hosts (rsrc j)) (num_cpus (rsrc j)) (num_gpus (rsrc j))
    (strbuf LL_BUFSIZ_64 (gpu_model (rsrc j))) EmptyString (hosts_line LL_BUFSIZ_4K true EmptyString names).

Definition start_events (names : list string) (j : job_data) : list log_event :=
  LogStart (compact_start names j) ::
  if negb (fork_time j =? 0) then [LogFork (mk_log_job_fork (job_id j) (pid j) (fork_time j))] else [].

Definition finish_event (j : job_data) : log_event :=
  LogFinish (mk_log_job_finish (job_id j) (uid j) (job_state_num (state j)) (exit_status j) (end_time j)).

Definition add_events (evs : list log_event) (w : mbd) : mbd := w <| manifest ::= fun l => l ++ evs |>.

(** ** Jobs the log can carry *)

(** The request as the record keeps it. *)
Record request_kept (w : mbd) (j : job_data) (q : nat) (qq : mbd_queue) : Prop := mk_request_kept {
  rk_queue : queue j = Some q;
  rk_queues : queues w !! q = Some qq;
  rk_name : queue_name_hash w !! q_name qq = Some q;
  rk_submit : 0 < submit_time j;
  rk_user : (String.length (user j) < 64)%nat;
  rk_jname : (String.length (name j) < 64)%nat;
  rk_project : (String.length (project j) < 64)%nat;
  rk_model : (String.length (gpu_model (rsrc j)) < 64)%nat;
  rk_len : (String.length (machines_str (rsrc j)) < 1024)%nat;
  rk_machines : machines_hash_populate w (machines_str (rsrc j)) = Ok (machines (rsrc j));
  rk_cond : (String.length (depend_cond j) < 4096)%nat;
  rk_deps : deps_of (depend_cond j) (deps j) (depend_cond j);
  rk_hosts : 1 <= num_hosts (rsrc j) /\ (0 < nentries (machines (rsrc j)) -> num_hosts (rsrc j) = nentries (machines (rsrc j)));
  rk_none : wall_seconds (rsrc j) = 0 /\ susp_time j = 0 /\ unknown_time j = 0;
  rk_state : match state j with JOB_BADSTATE _ | JOB_ORPHAN => False | _ => True end
}.

(** The start of a job as the record keeps it. *)
Record start_kept (w : mbd) (j : job_data) (qq : mbd_queue) (hs : list nat) : Prop := mk_start_kept {
  sk_time : 0 < dispatch_time j;
  sk_hosts : run_hosts j = map Some hs;
  sk_len : Z.of_nat (length hs) = num_hosts (rsrc j);
  sk_nodup : NoDup hs;
  sk_members : forall h, h ∈ hs -> exists hh, hosts w !! h = Some hh /\ host_in_queue_group qq hh = true;
  sk_fork : 0 < fork_time j \/ fork_time j = 0 /\ pid j = 0
}.

Definition not_started (j : job_data) : Prop := dispatch_time j = 0 /\ fork_time j = 0 /\ pid j = 0.

(** A job whose record the compaction can write. *)
Definition compactable (w : mbd) (j : job_data) : Prop :=
  exists q qq, request_kept w j q qq /\
  match list_id j with
  | JOB_LIST_PEND => not_started j /\ end_time j = 0 /\ exit_status j = 0
  | JOB_LIST_RUN => (exists hs, start_kept w j qq hs /\ run_nhosts j = length hs) /\ end_time j = 0 /\ exit_status j = 0
  | JOB_LIST_FINISH => (not_started j \/ exists hs, start_kept w j qq hs) /\ 0 < end_time j
  end.

(** ** Writing *)

Lemma add_events_nil w : add_events [] w = w.
Proof.
  transitivity (w <| manifest := manifest w ++ [] |>); [done|]. rewrite app_nil_r. by destruct w.
Qed.

Lemma add_events_app a b w : add_events b (add_events a w) = add_events (a ++ b) w.
Proof.
  transitivity (w <| manifest := (manifest w ++ a) ++ b |>); [done|]. by rewrite <- app_assoc.
Qed.

Lemma write_new_ok j q qq w x :
  request_kept w j q qq -> queues x = queues w ->
  compact_write_job_new j x = Ok (add_events [LogNew (compact_new qq j)] x).
Proof.
  intros K Hq. unfold compact_write_job_new, job_queue. rewrite (rk_queue _ _ _ _ K). cbn [deref res_bind].
  unfold nth_res. rewrite Hq, (rk_queues _ _ _ _ K). cbn [res_bind]. rewrite log_append_ok by apply K. done.
Qed.

Lemma write_run_ok j qq hs w x :
  start_kept w j qq hs -> hosts x = hosts w ->
  exists names, Forall2 (fun h n => map h_name (hosts w) !! h = Some n) hs names /\
    compact_write_job_run j x = Ok (add_events (start_events names j) x).
Proof.
  intros K Hh. unfold compact_write_job_run, compact_write_job_start.
  assert (Hp : res_map (run_host j) (seq 0 (Z.to_nat (num_hosts (rsrc j)))) = Ok hs).
  { rewrite <- (sk_len _ _ _ _ K), Nat2Z.id. set (j1 := j <| run_nhosts := length hs |>).
    assert (Ht : take (run_nhosts j1) (run_hosts j1) = map Some hs).
    { cbn. rewrite (sk_hosts _ _ _ _ K). by rewrite <- (length_map Some hs), firstn_all. }
    exact (run_host_ptrs_plan j1 hs Ht eq_refl). }
  rewrite Hp. cbn [res_bind].
  assert (Hn : exists names, host_names x hs = Ok names).
  { apply res_map_total. intros h Hin. destruct (sk_members _ _ _ _ K h Hin) as (hh & Hhh & _).
    unfold nth_res. rewrite Hh, Hhh. cbn. eauto. }
  destruct Hn as [names Hn]. exists names. split.
  { rewrite <- Hh. by apply host_names_Forall2. }
  rewrite Hn. cbn [res_bind]. rewrite log_append_ok by apply K. cbn [res_bind]. unfold start_events.
  destruct (Z.eqb_spec (fork_time j) 0) as [Hf|Hf]; cbn [negb]; [done|].
  unfold compact_write_job_fork. rewrite log_append_ok; [|destruct (sk_fork _ _ _ _ K) as [?|[? _]]; cbn; lia].
  change (Ok (add_events [LogFork (mk_log_job_fork (job_id j) (pid j) (fork_time j))]
    (add_events [LogStart (compact_start names j)] x)) = Ok (add_events (LogStart (compact_start names j)
    :: [LogFork (mk_log_job_fork (job_id j) (pid j) (fork_time j))]) x)). by rewrite add_events_app.
Qed.

(** ** Meaning *)

(** The durable record of a job as its first event tells it, and as its start. *)
Definition told_new (j : job_data) : job_data :=
  let r := rsrc j in
  mk_job_data (job_id j) (uid j) (gid j) 0 (user j)
    (if is_active (state j) then JOB_RUNNING else state j) 0 (priority j) (submit_time j)
    0 0 0 0 0 (begin_time j) (term_time j) 0 (queue j) (project j) (name j) (flags j) JOB_LIST_PEND PEND_NONE (deps j)
    (depend_cond j) 0
    (mk_job_resources (num_cpus r) (num_hosts r) (num_gpus r) (gpu_model r) (mem_mb r) (storage_mb r) 0 EmptyString
       (machines r) EmptyString [])
    0 [] EmptyString (array_id j) (array_index j) (array_start j) (array_end j) (array_stride j) 0.

Lemma new_told w j q qq :
  conf_ok (conf_of w) -> request_kept w j q qq ->
  exists d, logged_job w (compact_new qq j) = Some d /\ durable d = told_new j.
Proof.
  intros C [K1 K2 K3 K4 K5 K6 K7 K8 K9 K10 K11 K12 [K13 K13'] (K14 & _) K15].
  unfold logged_job, compact_new. cbn [ln_machines ln_queue ln_depend_cond].
  rewrite (strbuf_fits LL_BUFSIZ_1K), K10 by done.
  destruct (co_queues _ C _ _ K3) as [_ Hl]. rewrite (strbuf_fits LL_BUFSIZ_64 (q_name qq)), K3 by done.
  rewrite (replay_deps_of _ _ (deps j) (depend_cond j)) by done.
  destruct (machines_hash_populate_names w (machines_str (rsrc j))) as (ms & Hms & _ & Hn). rewrite K10 in Hms.
  assert (ms = machines (rsrc j)) as -> by congruence. unfold max_names in Hn.
  assert (Hn1 : (if 0 <? nentries (machines (rsrc j)) then i32 (nentries (machines (rsrc j))) else num_hosts (rsrc j))
    = num_hosts (rsrc j)).
  { destruct (Z.ltb_spec 0 (nentries (machines (rsrc j)))) as [Hp|]; [|done]. rewrite i32_small by lia. symmetry. by apply K13'. }
  match goal with |- context [1 <=? ?n] =>
    change n with (if 0 <? nentries (machines (rsrc j)) then i32 (nentries (machines (rsrc j))) else num_hosts (rsrc j)) end.
  rewrite Hn1, (proj2 (Z.leb_le _ _) K13). eexists. split; [reflexivity|].
  assert (Hst : job_state_of (job_state_num (state j)) = state j) by (by destruct (state j)).
  unfold durable, told_new, replayed_job. cbn. rewrite Hst, Hn1, K1, !strbuf_idem.
  rewrite !(strbuf_twice 64 256) by (done || lia).
  rewrite (strbuf_fits LL_BUFSIZ_64 (user j)), (strbuf_fits LL_BUFSIZ_64 (name j)) by done.
  rewrite (strbuf_fits 256 (project j)), (strbuf_fits 256 (gpu_model (rsrc j))) by lia.
  by destruct (is_active (state j)).
Qed.

Definition told_run (hs : list nat) (p f : Z) (j : job_data) : job_data :=
  let r := rsrc j in
  mk_job_data (job_id j) (uid j) (gid j) p (user j) JOB_RUNNING 0 (priority j) (submit_time j)
    (dispatch_time j) f 0 0 0 (begin_time j) (term_time j) 0 (queue j) (project j) (name j) (flags j) JOB_LIST_RUN
    PEND_NONE (deps j) (depend_cond j) 0
    (mk_job_resources (num_cpus r) (num_hosts r) (num_gpus r) (gpu_model r) (mem_mb r) (storage_mb r) 0 EmptyString
       (machines r) EmptyString [])
    (length hs) (map Some hs) EmptyString (array_id j) (array_index j) (array_start j) (array_end j) (array_stride j) 0.

Lemma take_all_hosts (hs : list nat) : take (length hs) (map Some hs) = map Some hs.
Proof. by rewrite <- (length_map Some hs), firstn_all. Qed.

Lemma told_new_durable j : durable (told_new j) = told_new j.
Proof. unfold durable, told_new. cbn. by destruct (state j). Qed.

Lemma start_told w j q qq hs names :
  conf_ok (conf_of w) -> (forall q qq, queues w !! q = Some qq -> queue_hosts_ok (hosts w) qq) ->
  request_kept w j q qq -> start_kept w j qq hs ->
  Forall2 (fun h n => map h_name (hosts w) !! h = Some n) hs names ->
  effects w (start_events names j) (told_new j) = Some (told_run hs (pid j) (fork_time j) j).
Proof.
  intros C Hm K S HF. unfold start_events. cbn [effects effect].
  rewrite (logged_hosts_line w q qq hs names (told_new j) (compact_start names j)); try done.
  2:{ apply K. } 2:{ apply K. } 2:{ apply (Hm q), K. } 2:{ apply S. } 2:{ apply S. }
  unfold state_is. cbn [list_id state rsrc num_hosts told_new ls_nhosts compact_start].
  rewrite (sk_len _ _ _ _ S), !Z.eqb_refl.
  assert (Hno : bool_decide ((if is_active (state j) then JOB_RUNNING else state j) = JOB_ORPHAN) = false).
  { apply bool_decide_eq_false_2. pose proof (rk_state _ _ _ _ K). by destruct (state j). }
  rewrite Hno, bool_decide_eq_true_2 by done. cbn [andb negb when].
  match goal with |- context [durable (ev_start ?a ?b ?c)] => set (d1 := durable (ev_start a b c)) end.
  assert (Hd1 : d1 = told_run hs 0 0 j).
  { unfold d1, durable, told_run, ev_start, told_new. cbn. by rewrite take_all_hosts. }
  clearbody d1. rewrite Hd1. clear Hd1 d1. destruct (Z.eqb_spec (fork_time j) 0) as [Hf|Hf]; cbn [negb effects effect].
  - destruct (sk_fork _ _ _ _ S) as [?|[_ Hp]]; [lia|]. by rewrite Hf, Hp.
  - cbn [lf_job_pid lf_fork_time]. f_equal. unfold durable, told_run. cbn. by rewrite take_all_hosts.
Qed.

(** The events of one job mean its record. *)
Lemma job_told w j q qq evs m :
  conf_ok (conf_of w) -> request_kept w j q qq -> m !! job_id j = None ->
  Forall (fun ev => event_id ev = job_id j) evs -> effects w evs (told_new j) = Some (durable j) ->
  apply_events w m (LogNew (compact_new qq j) :: evs) = Some (<[job_id j := durable j]> m).
Proof.
  intros C K Hm HF He. destruct (new_told w j q qq C K) as (d & Hd & Hdur).
  cbn [apply_events apply_event]. change (ln_job_id (compact_new qq j)) with (job_id j). rewrite Hm, Hd, Hdur.
  rewrite (apply_effects w (job_id j) evs _ (told_new j) (durable j)); [by rewrite insert_insert_eq|done|apply lookup_insert_eq|done].
Qed.

Definition compact_job (j : job_data) (w : mbd) : res mbd :=
  match list_id j with
  | JOB_LIST_PEND => compact_write_job_new j w
  | JOB_LIST_RUN => let* w := compact_write_job_new j w in compact_write_job_run j w
  | JOB_LIST_FINISH => compact_write_job_finished j w
  end.

Section compact.
Context (w : mbd) (HI : inv w) (C : conf_ok (conf_of w)).

Let members : forall q qq, queues w !! q = Some qq -> queue_hosts_ok (hosts w) qq := ao_members _ HI.

Lemma durable_pend j q qq :
  request_kept w j q qq -> list_id j = JOB_LIST_PEND -> is_active (state j) = false -> not_started j ->
  end_time j = 0 -> exit_status j = 0 -> durable j = told_new j.
Proof using Type.
  intros K Hl Ha (H1 & H2 & H3) H4 H5. destruct (rk_none _ _ _ _ K) as (N1 & N2 & N3).
  unfold durable, told_new. by rewrite Hl, Ha, H1, H2, H3, H4, H5, N1, N2, N3.
Qed.

Lemma durable_run j q qq hs :
  request_kept w j q qq -> list_id j = JOB_LIST_RUN -> is_active (state j) = true -> start_kept w j qq hs ->
  run_nhosts j = length hs -> end_time j = 0 -> exit_status j = 0 -> durable j = told_run hs (pid j) (fork_time j) j.
Proof using Type.
  intros K Hl Ha S Hn H4 H5. destruct (rk_none _ _ _ _ K) as (N1 & N2 & N3).
  unfold durable, told_run. by rewrite Hl, Ha, H4, H5, N1, N2, N3, Hn, (sk_hosts _ _ _ _ S), take_all_hosts.
Qed.

Lemma start_ids names j : Forall (fun ev => event_id ev = job_id j) (start_events names j).
Proof using Type. unfold start_events. destruct (negb _); by repeat constructor. Qed.

Lemma finish_told j d :
  list_id d <> JOB_LIST_FINISH -> is_active (state j) = false ->
  match state j with JOB_BADSTATE _ => False | _ => True end ->
  durable (d <| state := state j |> <| exit_status := exit_status j |> <| uid := uid j |> <| end_time := end_time j |>
             <| list_id := JOB_LIST_FINISH |>) = durable j ->
  effects w [finish_event j] d = Some (durable j).
Proof using Type.
  intros Hl Ha Hb Hd. unfold finish_event. cbn [effects effect le_state].
  assert (Hst : job_state_of (job_state_num (state j)) = state j) by (by destruct (state j)).
  rewrite Hst, Ha, bool_decide_eq_false_2 by done. cbn [negb andb when]. unfold ev_finish.
  cbn [le_state le_exit_status le_uid le_end_time]. by rewrite Hst, Hd.
Qed.

Lemma effects_app a b d :
  effects w (a ++ b) d = match effects w a d with Some d' => effects w b d' | None => None end.
Proof using Type.
  revert d. induction a as [|ev a IH]; intros d; cbn [effects app]; [done|]. destruct (effect w ev d); [apply IH|done].
Qed.

Lemma finished_told j q qq hs :
  request_kept w j q qq -> list_id j = JOB_LIST_FINISH -> is_active (state j) = false ->
  (not_started j -> effects w [finish_event j] (told_new j) = Some (durable j)) /\
  (start_kept w j qq hs -> effects w [finish_event j] (told_run hs (pid j) (fork_time j) j) = Some (durable j)).
Proof using Type.
  intros K Hl Ha. destruct (rk_none _ _ _ _ K) as (N1 & N2 & N3).
  assert (Hb : match state j with JOB_BADSTATE _ => False | _ => True end)
    by (pose proof (rk_state _ _ _ _ K); by destruct (state j)).
  split; [intros (H1 & H2 & H3)|intros S]; (apply finish_told; [done|done|done|]); unfold durable, told_new, told_run;
    cbn; by rewrite ?Hl, ?Ha, ?H1, ?H2, ?H3, ?N1, ?N2, ?N3.
Qed.

(** The log of a job is written and tells its record. *)
Lemma compact_job_ok id j x :
  jobs w !! id = Some j -> compactable w j -> queues x = queues w -> hosts x = hosts w ->
  exists evs, compact_job j x = Ok (add_events evs x) /\
    forall m, m !! id = None -> apply_events w m evs = Some (<[id := durable j]> m).
Proof using HI C.
  intros Hj (q & qq & K & Hc) Hq Hh. pose proof (inv_job_id w id j HI Hj) as Hid.
  pose proof (ok_state _ _ _ _ (inv_job w id j HI Hj)) as Hs. cbn in Hs. unfold compact_job.
  assert (Hnew := fun y => write_new_ok j q qq w y K).
  destruct (list_id j) eqn:Hl.
  - destruct Hc as (Hn & He & Hx). eexists. split; [by apply Hnew|]. intros m Hm. rewrite <- Hid in *.
    apply (job_told w j q qq []); [done|done|done|constructor|]. cbn. f_equal. symmetry.
    apply (durable_pend j q qq); try done. by destruct Hs as [[->| ->] _].
  - destruct Hc as ((hs & S & Hn) & He & Hx). rewrite Hnew by done. cbn [res_bind].
    destruct (write_run_ok j qq hs w (add_events [LogNew (compact_new qq j)] x) S) as (names & HF & ->); [done|].
    rewrite add_events_app. eexists. split; [reflexivity|]. intros m Hm. rewrite <- Hid in *.
    apply (job_told w j q qq (start_events names j)); [done|done|done|apply start_ids|].
    rewrite (start_told w j q qq hs names) by done. f_equal. symmetry. apply (durable_run j q qq); try done.
    by destruct Hs as [[->| ->] _].
  - destruct Hc as [Hc He]. unfold compact_write_job_finished. rewrite Hnew by done. cbn [res_bind].
    assert (Ha : is_active (state j) = false) by by destruct Hs as [[->| ->] _].
    assert (Hfin : forall y, compact_write_job_finish j y = Ok (add_events [finish_event j] y))
      by (intros y; unfold compact_write_job_finish; by rewrite log_append_ok).
    destruct Hc as [Hn|(hs & S)].
    + rewrite (proj1 Hn). cbn [Z.eqb negb res_bind]. rewrite Hfin, add_events_app. eexists. split; [reflexivity|].
      intros m Hm. rewrite <- Hid in *. apply (job_told w j q qq [finish_event j]); try done; [by repeat constructor|].
      by apply (finished_told j q qq []).
    + destruct (Z.eqb_spec (dispatch_time j) 0) as [Hz|_]; [pose proof (sk_time _ _ _ _ S); lia|]. cbn [negb].
      destruct (write_run_ok j qq hs w (add_events [LogNew (compact_new qq j)] x) S) as (names & HF & ->); [done|].
      cbn [res_bind]. rewrite Hfin, !add_events_app. eexists. split; [reflexivity|].
      intros m Hm. rewrite <- Hid in *.
      apply (job_told w j q qq (start_events names j ++ [finish_event j])); try done.
      { apply Forall_app. split; [apply start_ids|by repeat constructor]. }
      rewrite effects_app, (start_told w j q qq hs names) by done. by apply (finished_told j q qq hs).
Qed.
End compact.

(** ** Dropping a finished job *)

Lemma cores_delete w id : cores (w <| jobs ::= delete id |>) = delete id (cores w).
Proof. unfold cores. cbn. by rewrite fmap_delete. Qed.

Lemma inv_drop w id j l :
  inv w -> jobs w !! id = Some j -> list_id j = JOB_LIST_FINISH -> remove_first id (finish_jobs_list w) = Some l ->
  inv (w <| finish_jobs_list := l |> <| jobs ::= delete id |>).
Proof.
  intros HI Hj Hl Hr. pose proof (cores_lookup_Some _ _ _ Hj) as Hc. destruct HI as [H1 H2 H3 H4 H5].
  assert (Hz : forall f, (forall c, jc_list c = JOB_LIST_FINISH -> f c = 0) -> mapsum f (delete id (cores w)) = mapsum f (cores w)).
  { intros f Hf. rewrite (mapsum_delete f (cores w) id (core j)) by done. rewrite (Hf (core j) Hl). lia. }
  assert (Hq : forall f q, mapsum (qcontrib f q) (delete id (cores w)) = mapsum (qcontrib f q) (cores w)).
  { intros f q. apply Hz. intros c El. unfold qcontrib, qweight. rewrite El. by destruct (bool_decide _). }
  assert (Hh : forall f h, mapsum (hcontrib f h) (delete id (cores w)) = mapsum (hcontrib f h) (cores w)).
  { intros f h. apply Hz. intros c El. unfold hcontrib. rewrite uses_not_run; [done|congruence]. }
  split; cbn -[cores]; change (cores _) with (cores (w <| jobs ::= delete id |>)); rewrite ?cores_delete.
  - intros i c [_ Hi]%lookup_delete_Some. by apply H1.
  - intros k. destruct (H2 k) as [Hnd Hin]. cbn in Hnd, Hin.
    assert (Hother : forall i, (exists c, delete id (cores w) !! i = Some c /\ jc_list c = k) <-> i <> id /\ i ∈ a_list k (acct_of w)).
    { intros i. rewrite Hin. split.
      - intros (c & [Hne Hi]%lookup_delete_Some & Hk). split; [done|eauto].
      - intros (Hne & c & Hi & Hk). exists c. split; [|done]. by rewrite lookup_delete_ne. }
    pose proof (remove_first_perm _ _ _ Hr) as Hp.
    assert (Hout : k <> JOB_LIST_FINISH -> id ∉ a_list k (acct_of w)).
    { intros Hk (c & Hi & Hk')%Hin. rewrite Hc in Hi. injection Hi as <-. cbn in Hk'. congruence. }
    destruct k; cbn -[cores] in *.
    + split; [done|]. intros i. rewrite Hother. specialize (Hout ltac:(done)). set_solver.
    + split; [done|]. intros i. rewrite Hother. specialize (Hout ltac:(done)). set_solver.
    + rewrite Hp in Hnd. apply NoDup_cons in Hnd as [Hni Hnd]. split; [done|]. intros i. rewrite Hother, Hp. set_solver.
  - intros q qq Hqq f. rewrite Hq. by apply H3.
  - intros h hh Hhh. destruct (H4 h hh Hhh). split; rewrite ?Hh; done.
  - exact H5.
Qed.

(** ** The three walks *)

Section walks.
Context (w : mbd) (HI : inv w) (C : conf_ok (conf_of w)).
Context (HC : forall id j, jobs w !! id = Some j -> compactable w j).

(** [P]: the jobs written so far; [D]: the jobs dropped. *)
Record compacting (P D : list Z) (x : mbd) : Prop := mk_compacting {
  cp_same : x = w <| manifest := manifest x |> <| finish_jobs_list := finish_jobs_list x |> <| jobs := jobs x |>;
  cp_jobs : forall i, jobs x !! i = if bool_decide (i ∈ D) then None else jobs w !! i;
  cp_told : exists m, apply_events w ∅ (manifest x) = Some m /\
    forall i, m !! i = if bool_decide (i ∈ P) then durables w !! i else None;
  cp_inv : inv x;
  cp_finish : D = [] -> finish_jobs_list x = finish_jobs_list w
}.

Lemma compacting_write P D x id j :
  compacting P D x -> jobs w !! id = Some j -> id ∉ P ->
  exists x', compact_job j x = Ok x' /\ compacting (id :: P) D x'.
Proof using HI C HC.
  intros [R1 R2 (m & R3 & R4) R5 R6] Hj Hid.
  destruct (compact_job_ok w HI C id j x Hj (HC id j Hj)) as (evs & He & Ht); [by rewrite R1|by rewrite R1|].
  exists (add_events evs x). split; [done|]. split; [|exact R2| |exact R5|exact R6].
  - rewrite R1 at 1. done.
  - exists (<[id := durable j]> m). split.
    + change (manifest (add_events evs x)) with (manifest x ++ evs). rewrite apply_events_app, R3. apply Ht.
      rewrite R4. by rewrite bool_decide_eq_false_2.
    + intros i. destruct (decide (i = id)) as [->|Hne].
      * rewrite lookup_insert_eq, bool_decide_eq_true_2 by (left). by rewrite (durables_lookup w id j Hj).
      * rewrite lookup_insert_ne, R4 by done. rewrite (bool_decide_ext (i ∈ id :: P) (i ∈ P)) by set_solver. done.
Qed.

Lemma compacting_drop P D x id j :
  compacting P D x -> jobs w !! id = Some j -> list_id j = JOB_LIST_FINISH -> id ∉ D ->
  exists l, remove_first id (finish_jobs_list x) = Some l /\
    compacting P (id :: D) (x <| finish_jobs_list := l |> <| jobs ::= delete id |>).
Proof using HI C HC.
  intros [R1 R2 R3 R5 R6] Hj Hl Hid.
  assert (Hjx : jobs x !! id = Some j) by by rewrite R2, bool_decide_eq_false_2.
  assert (Hin : id ∈ finish_jobs_list x) by (pose proof (inv_listed x id j R5 Hjx) as H; by rewrite Hl in H).
  destruct (remove_first_in _ _ Hin) as [l Hr]. exists l. split; [done|]. split.
  - rewrite R1 at 1. done.
  - intros i. cbn. destruct (decide (i = id)) as [->|Hne].
    + rewrite lookup_delete_eq, bool_decide_eq_true_2 by left. done.
    + rewrite lookup_delete_ne, R2 by done. rewrite (bool_decide_ext (i ∈ id :: D) (i ∈ D)) by set_solver. done.
  - exact R3.
  - by apply (inv_drop x id j).
  - done.
Qed.

(** A walk over a list: the jobs [keep] are written, the others dropped. *)
Lemma compact_fold step keep L P D x :
  NoDup L -> (forall id, id ∈ L -> (id ∉ P) /\ (id ∉ D)) -> compacting P D x ->
  (forall id P D x, id ∈ L -> id ∉ P -> id ∉ D -> compacting P D x -> exists x', step x id = Ok x' /\
     compacting (if keep id : bool then id :: P else P) (if keep id then D else id :: D) x') ->
  exists x' P' D', res_fold step L x = Ok x' /\ compacting P' D' x' /\
    (forall i, i ∈ P' <-> i ∈ P \/ i ∈ L /\ keep i = true) /\ (forall i, i ∈ D' <-> i ∈ D \/ i ∈ L /\ keep i = false).
Proof using HI C HC.
  intros Hnd Hout R Hstep. revert P D x Hout R. induction L as [|id L IH]; intros P D x Hout R.
  - exists x, P, D. split; [done|]. split; [done|]. split; set_solver.
  - apply NoDup_cons in Hnd as [Hid Hnd]. destruct (Hout id ltac:(left)) as [HP HD].
    destruct (Hstep id P D x ltac:(left) HP HD R) as (x1 & H1 & R1). cbn [res_fold]. rewrite H1. cbn [res_bind].
    assert (Hout1 : forall i, i ∈ L -> (i ∉ if keep id then id :: P else P) /\ (i ∉ if keep id then D else id :: D)).
    { intros i Hi. destruct (Hout i ltac:(by right)). assert (i <> id) by congruence. destruct (keep id); set_solver. }
    assert (Hstep1 : forall i P D x, i ∈ L -> i ∉ P -> i ∉ D -> compacting P D x -> exists x', step x i = Ok x' /\
      compacting (if keep i then i :: P else P) (if keep i then D else i :: D) x') by (intros; eapply Hstep; eauto; by right).
    destruct (IH Hnd Hstep1 _ _ x1 Hout1 R1) as (x2 & P' & D' & H2 & R2 & HP' & HD').
    exists x2, P', D'. split; [done|]. split; [done|]. split; intros i.
    + rewrite HP'. destruct (keep id) eqn:E; rewrite ?elem_of_cons; split; intros H;
        repeat match goal with H : _ \/ _ |- _ => destruct H as [H|H] | H : _ /\ _ |- _ => destruct H as [H ?] end; subst; auto; congruence.
    + rewrite HD'. destruct (keep id) eqn:E; rewrite ?elem_of_cons; split; intros H;
        repeat match goal with H : _ \/ _ |- _ => destruct H as [H|H] | H : _ /\ _ |- _ => destruct H as [H ?] end; subst; auto; congruence.
Qed.

(** The finished jobs a compaction drops. *)
Definition dropped (id : Z) : Prop :=
  exists j, jobs w !! id = Some j /\ list_id j = JOB_LIST_FINISH /\ finished_needed j = false.

Definition needed_id (id : Z) : bool := match jobs w !! id with Some j => finished_needed j | None => false end.

Lemma walk_start : compacting [] [] (w <| manifest := [] |>).
Proof using HI C HC.
  split; [done|by intros i; rewrite bool_decide_eq_false_2 by set_solver| |exact HI|done].
  exists ∅. split; [done|]. intros i. by rewrite bool_decide_eq_false_2 by set_solver.
Qed.

Lemma compacting_lists P D x : compacting P D x -> pend_jobs_list x = pend_jobs_list w /\ run_jobs_list x = run_jobs_list w.
Proof using Type. intros R. by rewrite (cp_same _ _ _ R). Qed.

(** A walk that writes every job of a list. *)
Lemma write_walk step l P x :
  (forall x j id, jobs x !! id = Some j -> list_id j = l -> step x id = compact_job j x) ->
  (forall id, id ∈ job_list l w -> id ∉ P) -> compacting P [] x ->
  exists x' P', res_fold step (job_list l w) x = Ok x' /\ compacting P' [] x' /\
    (forall i, i ∈ P' <-> i ∈ P \/ i ∈ job_list l w).
Proof using HI C HC.
  intros Hs Hout R. pose proof (ao_lists _ HI l) as [Hnd Hin]. rewrite job_list_acct in Hnd, Hin.
  destruct (compact_fold step (fun _ => true) (job_list l w) P [] x Hnd) as (x' & P' & D' & H1 & H2 & H3 & H4).
  - intros id Hid. split; [by apply Hout|set_solver].
  - done.
  - intros id P1 D1 x1 Hid HP HD R1. apply Hin in Hid as (c & Hc & Hl). cbn in Hc. rewrite cores_lookup in Hc.
    destruct (jobs w !! id) as [j|] eqn:Hj; [|done]. injection Hc as <-.
    rewrite (Hs x1 j id); [by eapply compacting_write| |done].
    by rewrite (cp_jobs _ _ _ R1), bool_decide_eq_false_2.
  - exists x', P'. split; [done|].
    assert (D' = []) as -> by (destruct D' as [|d D']; [done|]; destruct (proj1 (H4 d) ltac:(left)) as [?|[_ ?]]; [set_solver|done]).
    split; [done|]. intros i. rewrite H3. naive_solver.
Qed.

Lemma manifest_rebuild_ok :
  exists w', manifest_rebuild w = Ok w' /\ inv w' /\
    w' = w <| manifest := manifest w' |> <| finish_jobs_list := finish_jobs_list w' |> <| jobs := jobs w' |> /\
    (forall id, dropped id -> jobs w' !! id = None) /\
    (forall id, ~ dropped id -> jobs w' !! id = jobs w !! id) /\
    apply_events w ∅ (manifest w') = Some (durables w').
Proof using HI C HC.
  unfold manifest_rebuild. cbv zeta.
  assert (Hlist : forall l id, id ∈ job_list l w <-> exists j, jobs w !! id = Some j /\ list_id j = l).
  { intros l id. pose proof (ao_lists _ HI l) as [_ Hin]. rewrite job_list_acct in Hin. rewrite Hin. cbn. rewrite cores_lookup. split.
    - intros (c & Hc & Hl). destruct (jobs w !! id) as [j|]; [|done]. injection Hc as <-. eauto.
    - intros (j & -> & Hl). eexists. split; [done|done]. }
  destruct (write_walk compact_pend JOB_LIST_PEND [] (w <| manifest := [] |>)) as (x1 & P1 & H1 & R1 & HP1); [| |exact walk_start|].
  { intros x j id Hj Hl. unfold compact_pend, compact_job. by rewrite Hj, Hl. }
  { set_solver. }
  change (pend_jobs_list (w <| manifest := [] |>)) with (job_list JOB_LIST_PEND w). rewrite H1. cbn [res_bind].
  rewrite (proj2 (compacting_lists _ _ _ R1)).
  destruct (write_walk compact_run JOB_LIST_RUN P1 x1) as (x2 & P2 & H2 & R2 & HP2); [| |exact R1|].
  { intros x j id Hj Hl. unfold compact_run, compact_job. by rewrite Hj, Hl. }
  { intros id (j & Hj & Hl)%Hlist [?|(j' & Hj' & Hl')%Hlist]%HP1; [set_solver|congruence]. }
  cbn [job_list] in H2. rewrite H2. cbn [res_bind]. rewrite (cp_finish _ _ _ R2 eq_refl).
  pose proof (ao_lists _ HI JOB_LIST_FINISH) as [Hnd _]. cbn in Hnd.
  destruct (compact_fold compact_finish needed_id (finish_jobs_list w) P2 [] x2 Hnd) as (w' & P' & D' & H3 & R3 & HP3 & HD3).
  { intros id Hid. split; [|set_solver]. apply (Hlist JOB_LIST_FINISH) in Hid as (j & Hj & Hl).
    intros [[?|(j' & Hj' & Hl')%Hlist]%HP1|(j' & Hj' & Hl')%Hlist]%HP2; [set_solver|congruence..]. }
  { exact R2. }
  { intros id P D x Hid HP HD R. apply (Hlist JOB_LIST_FINISH) in Hid as (j & Hj & Hl). unfold compact_finish.
    rewrite (cp_jobs _ _ _ R), bool_decide_eq_false_2, Hj by done. cbn [deref res_bind]. unfold needed_id. rewrite Hj.
    destruct (finished_needed j).
    - destruct (compacting_write P D x id j R Hj HP) as (x' & Hx & R'). unfold compact_job in Hx. rewrite Hl in Hx. eauto.
    - destruct (compacting_drop P D x id j R Hj Hl HD) as (l & -> & R'). rewrite (inv_job_id w id j HI Hj). eauto. }
  exists w'. split; [done|]. split; [apply R3|].
  assert (HD : forall id, id ∈ D' <-> dropped id).
  { intros id. rewrite HD3. change (finish_jobs_list w) with (job_list JOB_LIST_FINISH w). rewrite Hlist. unfold dropped, needed_id. split.
    - intros [?|((j & Hj & Hl) & Hn)]; [set_solver|]. rewrite Hj in Hn. eauto.
    - intros (j & Hj & Hl & Hn). right. rewrite Hj. eauto. }
  split; [exact (cp_same _ _ _ R3)|]. split; [|split].
  - intros id Hid%HD. by rewrite (cp_jobs _ _ _ R3), bool_decide_eq_true_2.
  - intros id Hid. rewrite (cp_jobs _ _ _ R3), bool_decide_eq_false_2; [done|]. by intros ?%HD.
  - destruct (cp_told _ _ _ R3) as (m & Hm & Hlook). rewrite Hm. f_equal. apply map_eq. intros i. rewrite Hlook.
    unfold durables at 2. rewrite lookup_fmap, (cp_jobs _ _ _ R3). unfold durables. rewrite lookup_fmap.
    destruct (jobs w !! i) as [j|] eqn:Hj; [|by repeat case_bool_decide].
    assert (Hl : forall l, i ∈ job_list l w <-> list_id j = l).
    { intros l. rewrite Hlist. split; [intros (x & Hx & Hxl); congruence|eauto]. }
    assert (Hd : dropped i <-> list_id j = JOB_LIST_FINISH /\ finished_needed j = false).
    { unfold dropped. split; [intros (x & Hx & Hxl); assert (x = j) as -> by congruence; done|eauto]. }
    assert (Hiff : i ∈ P' <-> ~ dropped i).
    { rewrite HP3, Hd, HP2, HP1, elem_of_nil. rewrite (Hl JOB_LIST_PEND), (Hl JOB_LIST_RUN), (Hl JOB_LIST_FINISH).
      unfold needed_id. rewrite Hj. clear. destruct (list_id j), (finished_needed j); intuition congruence. }
    rewrite <- (HD i) in Hiff. clear -Hiff. repeat case_bool_decide; tauto || done.
Qed.
End walks.
