(* ===== verification/MbdRun.v ===== *)
(** * The daemon as a whole: every step keeps the accounting

    Registration, disconnection and administration; the step relation of the
    daemon (a message on a channel or the scheduling timer) and the invariant of
    every reachable state; the channel table; the state files. *)

From S2P Require Import Prelude CString LlHash Dependency LogFormat MbdTypes MbdBase MbdJob MbdSched MbdNet.
From S2P Require Import MbdInv MbdFrame MbdCheck MbdSafe MbdControl MbdSubmit MbdPlan MbdSchedSafe.

Open Scope Z_scope.

Implicit Types (w : mbd) (j : job_data) (id : Z).

(** ** Changes outside the books *)

(** The fields of a host the accounting reads. *)
Definition books (h : mbd_host) :=
  (h_name h, (total_cpu h, free_cpu h, h_cpus_used h), (total_mem_mb h, free_mem_mb h),
   (total_storage_mb h, free_storage_mb h), exclusive h, (h_num_jobs h, h_num_run h, h_num_susp h)).

(** The fields of a queue the accounting reads. *)
Definition queue_books (q : mbd_queue) :=
  (q_num_jobs q, q_num_pend q, q_num_run q, q_num_susp q, q_num_held q, q_cpus_used q,
   q_hosts_used q, q_host_hash q).

Lemma host_ok_books m h hh hh' : books hh' = books hh -> host_ok m h hh -> host_ok m h hh'.
Proof.
  destruct hh, hh'. unfold books. cbn. intros [= -> -> -> -> -> -> -> -> -> -> -> ->] []. by split.
Qed.

Lemma queue_ok_books m q qq qq' : queue_books qq' = queue_books qq -> queue_ok m q qq -> queue_ok m q qq'.
Proof.
  destruct qq, qq'. unfold queue_books. cbn. intros [= -> -> -> -> -> -> -> ->] H f.
  specialize (H f). by destruct f.
Qed.

Lemma acct_ok_host_books A n f :
  (forall h, books (f h) = books h) -> acct_ok A -> acct_ok (A <| a_hosts ::= alter f n |>).
Proof.
  intros Hf [H1 H2 H3 H4 H5]. split; cbn; try done.
  - by rewrite length_alter.
  - intros h hh' (hh & Hhh & ->)%list_lookup_alter_inv. case_bool_decide; [|by apply H4].
    eapply host_ok_books; [apply Hf|by apply H4].
  - intros q qq Hqq name h Hn. destruct (H5 q qq Hqq name h Hn) as (hh & Hhh & Hname).
    destruct (decide (h = n)) as [->|Hne].
    + exists (f hh). rewrite list_lookup_alter_eq, Hhh. split; [done|].
      specialize (Hf hh). unfold books in Hf. congruence.
    + exists hh. by rewrite list_lookup_alter_ne.
Qed.

Lemma acct_ok_queue_books A q f :
  (forall x, queue_books (f x) = queue_books x) -> acct_ok A -> acct_ok (A <| a_queues ::= alter f q |>).
Proof.
  intros Hf [H1 H2 H3 H4 H5]. split; cbn; try done.
  - by rewrite length_alter.
  - intros i qq' (qq & Hqq & ->)%list_lookup_alter_inv. case_bool_decide; [|by apply H3].
    eapply queue_ok_books; [apply Hf|by apply H3].
  - intros i qq' (qq & Hqq & ->)%list_lookup_alter_inv name h Hn. apply (H5 i qq Hqq).
    case_bool_decide; [|done]. specialize (Hf qq). unfold queue_books in Hf. congruence.
Qed.

Lemma upd_host_books n f w0 w :
  (forall h, books (f h) = books h) -> kept w0 w -> kept w0 (upd_host n f w).
Proof. intros Hf [HI Hk]. split; [by apply (acct_ok_host_books (acct_of w))|done]. Qed.

Lemma upd_queue_books q f w0 w :
  (forall x, queue_books (f x) = queue_books x) -> kept w0 w -> kept w0 (upd_queue q f w).
Proof. intros Hf [HI Hk]. split; [by apply (acct_ok_queue_books (acct_of w))|done]. Qed.

(** ** Registration and administration keep the invariant *)

Lemma mbd_sbd_disconnect_kept n w0 w w' : kept w0 w -> mbd_sbd_disconnect n w = Ok w' -> kept w0 w'.
Proof.
  intros HI H. unfold mbd_sbd_disconnect in H. inv_res.
  change (kept w0 (upd_host n (fun h => h <| sbd_chan := -1 |>
    <| h_state := Z.lor HOST_UNAVAIL (Z.land (h_state r) HOST_CLOSED) |>) w)).
  by apply upd_host_books.
Qed.

Lemma mbd_sbd_register_kept e chan hn w w' b :
  kept w w -> mbd_sbd_register e chan hn w = Ok (w', b) -> kept w w'.
Proof.
  intros HI H. unfold mbd_sbd_register in H. destruct (host_name_hash w !! _) as [n|]; [|by injection H as <- _].
  apply res_bind_Ok in H as (nn & _ & H). destruct (negb _); [by injection H as <- _|].
  apply res_bind_Ok in H as ([w2 r] & Hb & H).
  assert (HI2 : kept w w2).
  { unfold build_sbd_run_list in Hb. apply res_bind_Ok in Hb as (l & _ & Hb).
    assert (HI1 : kept w (upd_host n (fun h => h <| sbd_chan := chan |>) w)) by by apply upd_host_books.
    destruct l as [|x l]; injection Hb as <- _; exact HI1. }
  destruct r as [l|].
  - unfold auth_sign_header in H.
    assert (HI3 : kept w (upd_host n (fun h => h <| h_state ::= fun s => Z.lor HOST_OK (Z.land s HOST_CLOSED) |>) w2))
      by by apply upd_host_books.
    destruct (sign_ok _ _); cbn [negb] in H.
    + injection H as <- _.
      match goal with |- kept _ (enqueue_payload ?e ?c ?o ?s ?b ?w).1 =>
        destruct (enqueue_io e c o s b w) as (n' & out & ->) end. exact HI3.
    + apply res_bind_Ok in H as (w3 & H3 & [= <- _]). eapply mbd_sbd_disconnect_kept; [|exact H3]. exact HI3.
  - apply res_bind_Ok in H as (w3 & H3 & [= <- _]). by eapply mbd_sbd_disconnect_kept.
Qed.

Lemma queue_admin_kept e chan hdr nm op w w' :
  kept w w -> queue_admin e chan hdr nm op w = Ok w' -> kept w w'.
Proof.
  intros HI H. unfold queue_admin in H. destruct (negb _); [injection H as <-; by apply kept_reply|].
  destruct (queue_name_hash w !! nm) as [q|]; [|injection H as <-; by apply kept_reply].
  inv_res. apply kept_reply.
  assert (HI1 : kept w (upd_queue q (fun q => q <| q_state := op |>) w)) by by apply upd_queue_books.
  unfold queue_state_write. destruct (negb _); [exact HI1|].
  match goal with |- kept w (if ?b then _ else _) => destruct b; exact HI1 end.
Qed.

Lemma host_admin_kept e chan hdr nm op w w' :
  kept w w -> host_admin e chan hdr nm op w = Ok w' -> kept w w'.
Proof.
  intros HI H. unfold host_admin in H. destruct (negb _); [injection H as <-; by apply kept_reply|].
  destruct (host_name_hash w !! nm) as [n|]; [|injection H as <-; by apply kept_reply].
  inv_res. apply kept_reply. set (st := if op =? HOST_CLOSED then _ else _).
  assert (HI1 : kept w (upd_host n (fun h => h <| h_state := st |>) w)) by by apply upd_host_books.
  unfold host_state_write. destruct (negb _); [exact HI1|].
  match goal with |- kept w (if ?b then _ else _) => destruct b; exact HI1 end.
Qed.

(** ** The step relation *)

(** The messages the daemon expects. *)
Definition expected_client (a : arrival client_msg) : Prop :=
  match a with GoodMessage _ (MSubmit ws) => submit_sane ws | _ => True end.

Definition expected_sbd (w : mbd) (n : nat) (a : arrival sbd_msg) : Prop :=
  match a with
  | GoodMessage _ (SNewJobReply r) => reply_expected w r
  | GoodMessage _ (SSignalReply s _) => sig_reply_expected w n s
  | _ => True
  end.

Section run.
Context {QS : QSort}.

Inductive mbd_step : mbd -> mbd -> Prop :=
  | step_message e chan ac asb w w' :
      0 < now e -> expected_client ac ->
      (forall n, sbd_chan_hash w !! chan = Some n -> expected_sbd w n asb) ->
      mbd_message e chan ac asb w = Ok w' -> mbd_step w w'
  | step_timer e w w' : schedule e w = Ok w' -> mbd_step w w'.

Inductive reachable (w0 : mbd) : mbd -> Prop :=
  | reach_start : reachable w0 w0
  | reach_step w w' : reachable w0 w -> mbd_step w w' -> reachable w0 w'.

Lemma route_kept e chan a w w' :
  inv w -> 0 < now e -> expected_client a -> route e chan a w = Ok w' -> kept w w'.
Proof.
  intros HI Hnow Hex H. pose proof (kept_refl w HI) as Hk.
  destruct a as [| |hdr m]; cbn in H; [by injection H as <-..|]. destruct m.
  - apply (wp_Ok _ _ _ _ (job_register_wp e chan hdr ws w HI Hex Hnow)) in H as (H & _ & Hs).
    split; [done|by eapply submitted_fin].
  - by apply (wp_Ok _ _ _ _ (jobs_signal_wp e chan hdr s w HI Hnow)) in H.
  - apply res_bind_Ok in H as ([w1 b] & H1 & [= <-]). by eapply mbd_sbd_register_kept.
  - by eapply queue_admin_kept.
  - by eapply host_admin_kept.
  - by apply (wp_Ok _ _ _ _ (job_move_wp e chan hdr id to_queue w HI Hnow)) in H.
  - by apply (wp_Ok _ _ _ _ (job_priority_wp e chan hdr id prio w HI Hnow)) in H.
Qed.

Lemma mbd_sbd_route_kept e n a w w' :
  inv w -> (n < length (hosts w))%nat -> 0 < now e -> expected_sbd w n a ->
  mbd_sbd_route e n a w = Ok w' -> kept w w'.
Proof.
  intros HI Hn Hnow Hex H. pose proof (kept_refl w HI) as Hk. destruct a as [| |hdr m]; cbn in H.
  - by eapply mbd_sbd_disconnect_kept.
  - by injection H as <-.
  - destruct m.
    + by apply (wp_Ok _ _ _ _ (mbd_new_job_reply_wp e n r w HI Hn Hnow Hex)) in H as [H _].
    + by apply (wp_Ok _ _ _ _ (mbd_job_finish_wp e n f w HI Hn Hnow)) in H as [H _].
    + by apply (wp_Ok _ _ _ _ (mbd_job_signal_reply_wp n s status w HI Hn Hex)) in H.
    + by apply (wp_Ok _ _ _ _ (mbd_job_missing_wp e n id w HI Hnow)) in H as [H _].
    + by injection H as <-.
Qed.

Lemma mbd_step_kept w w' : inv w -> mbd_step w w' -> kept w w'.
Proof.
  intros HI Hst. revert HI. destruct Hst as [e chan ac asb w1 w2 Hnow Hc Hs H|e w1 w2 H]; intros HI;
    [|by eapply schedule_inv].
  unfold mbd_message in H. destruct (sbd_chan_hash w1 !! chan) as [n|]; [|by eapply route_kept].
  inv_res. eapply mbd_sbd_route_kept; [done| |done|by apply Hs|done]. by eapply lookup_lt_Some.
Qed.

Lemma reachable_kept w0 w : inv w0 -> reachable w0 w -> kept w0 w.
Proof.
  intros HI. induction 1 as [|w w' _ IH Hs]; [by apply kept_refl|].
  eapply kept_trans; [exact IH|]. by apply mbd_step_kept; [apply IH|].
Qed.

End run.

(** ** The channel table *)

(** Every entry of the channel table is the channel of its host. *)
Definition chan_ok (w : mbd) : Prop :=
  forall c n, sbd_chan_hash w !! c = Some n ->
    0 <= c /\ exists hh, hosts w !! n = Some hh /\ sbd_chan hh = c.

Lemma chan_ok_other w w' :
  sbd_chan_hash w' = sbd_chan_hash w ->
  (forall n hh, hosts w !! n = Some hh -> exists hh', hosts w' !! n = Some hh' /\ sbd_chan hh' = sbd_chan hh) ->
  chan_ok w -> chan_ok w'.
Proof.
  intros Hc Hh Hok c n Hn. rewrite Hc in Hn. destruct (Hok c n Hn) as (H0 & hh & Hhh & He).
  split; [done|]. destruct (Hh n hh Hhh) as (hh' & ? & ?). exists hh'. split; [done|congruence].
Qed.

Lemma upd_host_chan n f w :
  (forall h, sbd_chan (f h) = sbd_chan h) -> chan_ok w -> chan_ok (upd_host n f w).
Proof.
  intros Hf. apply chan_ok_other; [done|]. intros i hh Hi. cbn.
  destruct (decide (i = n)) as [->|Hne].
  - exists (f hh). by rewrite list_lookup_alter_eq, Hi.
  - exists hh. by rewrite list_lookup_alter_ne.
Qed.

Lemma mbd_sbd_disconnect_chan n w w' : chan_ok w -> mbd_sbd_disconnect n w = Ok w' -> chan_ok w'.
Proof.
  intros Hok H. unfold mbd_sbd_disconnect in H. inv_res. intros c i Hi. cbn in Hi.
  apply lookup_delete_Some in Hi as [Hne Hi]. destruct (Hok c i Hi) as (H0 & hh & Hhh & He). split; [done|].
  destruct (decide (i = n)) as [->|Hin]; [congruence|]. exists hh. cbn. by rewrite list_lookup_alter_ne.
Qed.

Lemma register_chan n nn chan w :
  chan_ok w -> hosts w !! n = Some nn -> sbd_chan nn = -1 -> 0 <= chan -> sbd_chan_hash w !! chan = None ->
  chan_ok ((upd_host n (fun h => h <| sbd_chan := chan |>) w) <| sbd_chan_hash ::= hash_insert_new chan n |>).
Proof.
  intros Hok Hn Hfree Hpos Hnew c i. cbn. unfold hash_insert_new. rewrite Hnew.
  intros [[<- <-]|[Hne Hi]]%lookup_insert_Some.
  - split; [done|]. exists (nn <| sbd_chan := chan |>). by rewrite list_lookup_alter_eq, Hn.
  - destruct (Hok c i Hi) as (H0 & hh & Hhh & He). split; [done|].
    destruct (decide (i = n)) as [->|Hin]; [|exists hh; by rewrite list_lookup_alter_ne].
    rewrite Hn in Hhh. injection Hhh as <-. lia.
Qed.

Lemma mbd_sbd_register_chan e chan hn w w' b :
  chan_ok w -> 0 <= chan -> sbd_chan_hash w !! chan = None ->
  mbd_sbd_register e chan hn w = Ok (w', b) -> chan_ok w'.
Proof.
  intros Hok Hpos Hnew H. unfold mbd_sbd_register in H.
  destruct (host_name_hash w !! _) as [n|]; [|by injection H as <- _].
  apply res_bind_Ok in H as (nn & Hn%nth_res_Ok & H). destruct (negb _) eqn:Hfree; [by injection H as <- _|].
  apply negb_false_iff, Z.eqb_eq in Hfree.
  pose proof (register_chan n nn chan w Hok Hn Hfree Hpos Hnew) as Hok1.
  apply res_bind_Ok in H as ([w2 r] & Hb & H).
  assert (Hok2 : chan_ok w2).
  { unfold build_sbd_run_list in Hb. apply res_bind_Ok in Hb as (l & _ & Hb).
    destruct l as [|x l]; injection Hb as <- _; exact Hok1. }
  destruct r as [l|].
  - unfold auth_sign_header in H.
    assert (Hok3 : chan_ok (upd_host n (fun h => h <| h_state ::= fun s => Z.lor HOST_OK (Z.land s HOST_CLOSED) |>) w2))
      by by apply upd_host_chan.
    destruct (sign_ok _ _); cbn [negb] in H.
    + injection H as <- _.
      match goal with |- chan_ok (enqueue_payload ?e ?c ?o ?s ?b ?w).1 =>
        destruct (enqueue_io e c o s b w) as (n' & out & ->) end. exact Hok3.
    + apply res_bind_Ok in H as (w3 & H3 & [= <- _]). eapply mbd_sbd_disconnect_chan; [|exact H3]. exact Hok3.
  - apply res_bind_Ok in H as (w3 & H3 & [= <- _]). by eapply mbd_sbd_disconnect_chan.
Qed.

(** ** The state files of queues *)

(** Queue names are keys of the queue table and no hidden files. *)
Definition queue_names_ok (w : mbd) : Prop :=
  (forall nm q, queue_name_hash w !! nm = Some q -> exists qq, queues w !! q = Some qq /\ q_name qq = nm) /\
  (forall q qq, queues w !! q = Some qq -> queue_name_hash w !! q_name qq = Some q /\
     is_dot_file (q_name qq) = false).

(** The files name the closed queues. *)
Definition queue_files_ok (w : mbd) : Prop :=
  forall q qq, queues w !! q = Some qq -> (q_name qq ∈ queue_files w <-> q_state qq = QUEUE_CLOSED).

Lemma queue_admin_files e chan hdr nm op w w' :
  (forall s, state_file_ok e s = true) -> queue_names_ok w -> queue_files_ok w ->
  queue_admin e chan hdr nm op w = Ok w' -> queue_files_ok w'.
Proof.
  intros Hfs [Hn1 Hn2] Hf H. unfold queue_admin in H.
  assert (Hre : forall st x, queue_files_ok x -> queue_files_ok (enqueue_header e chan BATCH_QUEUE_ADMIN_ACK st x).1).
  { intros st x Hx. unfold enqueue_header.
    destruct (enqueue_io e chan BATCH_QUEUE_ADMIN_ACK st BodyNone x) as (n & out & ->). exact Hx. }
  destruct (negb _); [injection H as <-; by apply Hre|].
  destruct (queue_name_hash w !! nm) as [q|] eqn:Hq; [|injection H as <-; by apply Hre].
  inv_res. apply Hre. destruct (Hn1 nm q Hq) as (qq & Hqq & Hname). rewrite Hr in Hqq. injection Hqq as <-.
  unfold queue_state_write. rewrite Hfs. cbn [negb q_state].
  assert (Hother : forall i y, queues w !! i = Some y -> i <> q -> q_name y <> q_name r).
  { intros i y Hy Hne He. destruct (Hn2 i y Hy) as [G1 _]. destruct (Hn2 q r Hr) as [G2 _]. congruence. }
  match goal with |- queue_files_ok (if ?b then _ else _) => change b with (op =? QUEUE_CLOSED) end.
  destruct (Z.eqb_spec op QUEUE_CLOSED) as [Hc|Hc]; intros i x Hx; cbn in Hx |- *;
    apply list_lookup_alter_inv in Hx as (y & Hy & ->); case_bool_decide as Hi;
    [subst i; rewrite Hr in Hy; injection Hy as <-; set_solver
    |pose proof (Hother i y Hy Hi); rewrite <- (Hf i y Hy); set_solver
    |subst i; rewrite Hr in Hy; injection Hy as <-; set_solver
    |pose proof (Hother i y Hy Hi); rewrite <- (Hf i y Hy); set_solver].
Qed.

(** Reading the files back closes the queues they name, and only those. *)
Lemma queue_state_init_spec names w :
  queue_names_ok w ->
  queue_names_ok (queue_state_init names w) /\
  forall q qq, queues w !! q = Some qq -> exists qq', queues (queue_state_init names w) !! q = Some qq' /\
    q_name qq' = q_name qq /\
    q_state qq' = if bool_decide (q_name qq ∈ names) then QUEUE_CLOSED else q_state qq.
Proof.
  revert w. induction names as [|nm names IH]; intros w Hok.
  { split; [done|]. intros q qq Hq. exists qq. split; [done|]. split; [done|].
    by rewrite bool_decide_eq_false_2 by apply not_elem_of_nil. }
  unfold queue_state_init. cbn [foldl].
  set (w1 := if is_dot_file nm then w else _).
  assert (H1 : queue_names_ok w1 /\ forall q qq, queues w !! q = Some qq -> exists qq', queues w1 !! q = Some qq' /\
    q_name qq' = q_name qq /\ q_state qq' = if bool_decide (q_name qq = nm) then QUEUE_CLOSED else q_state qq).
  { unfold w1. destruct Hok as [Hn1 Hn2]. destruct (is_dot_file nm) eqn:Hdot.
    - split; [done|]. intros q qq Hq. exists qq. split; [done|]. split; [done|].
      rewrite bool_decide_eq_false_2; [done|]. intros <-. destruct (Hn2 q qq Hq). congruence.
    - destruct (queue_name_hash w !! nm) as [q0|] eqn:Hq0.
      + split; [split|].
        * intros x q Hx. destruct (Hn1 x q Hx) as (qq & Hqq & Hname). cbn.
          destruct (decide (q = q0)) as [->|]; [rewrite list_lookup_alter_eq, Hqq; by eexists|].
          rewrite list_lookup_alter_ne by done. eauto.
        * intros q qq Hqq. cbn in Hqq. apply list_lookup_alter_inv in Hqq as (x & Hx & ->).
          destruct (Hn2 q x Hx). by case_bool_decide.
        * intros q qq Hq. cbn. destruct (decide (q = q0)) as [->|Hne].
          -- rewrite list_lookup_alter_eq, Hq. eexists. split; [done|]. split; [done|].
             destruct (Hn1 nm q0 Hq0) as (x & Hx & Hname). rewrite Hq in Hx. injection Hx as <-.
             by rewrite bool_decide_eq_true_2.
          -- rewrite list_lookup_alter_ne by done. exists qq. split; [done|]. split; [done|].
             rewrite bool_decide_eq_false_2; [done|]. intros <-. destruct (Hn2 q qq Hq). congruence.
      + split; [done|]. intros q qq Hq. exists qq. split; [done|]. split; [done|].
        rewrite bool_decide_eq_false_2; [done|]. intros <-. destruct (Hn2 q qq Hq). congruence. }
  destruct H1 as [Hok1 H1]. destruct (IH w1 Hok1) as [Hok2 H2]. split; [done|].
  intros q qq Hq. destruct (H1 q qq Hq) as (q1 & Hq1 & Hname1 & Hst1).
  destruct (H2 q q1 Hq1) as (q2 & Hq2 & Hname2 & Hst2). exists q2. split; [done|]. split; [congruence|].
  rewrite Hst2, Hst1, Hname1. clear. repeat case_bool_decide; set_solver.
Qed.
