(* ===== verification/MbdLive.v ===== *)
(** * The daemon returns

    A scheduling cycle runs to its end: no assertion of the planner, of the
    dispatch or of the cross check fails, no pointer is NULL and no index out of
    range, as long as every dependency condition fits the evaluation stack, the
    files of the jobs can be read, no execution daemon has channel zero and the
    pending list fits the sort buffer. *)

From S2P Require Import Prelude CString LlHash Dependency LogFormat MbdTypes MbdBase MbdJob MbdSched MbdNet.
From S2P Require Import MbdInv MbdFrame MbdCheck MbdSafe MbdControl MbdSubmit MbdPlan MbdSchedSafe MbdStatic MbdRun.

Open Scope Z_scope.

Implicit Types (w : mbd) (j : job_data) (id : Z).

(** ** Dependencies *)

(** The condition of a job is an expression that fits the stack. *)
Definition deps_fit (ds : list job_dep) : Prop :=
  ds = [] \/ exists e, ds = postfix e /\ (ddepth e <= DEP_MAX_STACK)%nat.

Lemma job_dep_satisfied_total w j : deps_fit (deps j) -> exists b, job_dep_satisfied w j = Ok b.
Proof.
  intros Hd. unfold job_dep_satisfied. destruct Hd as [->|(x & -> & Hx)]; [eauto|].
  destruct (postfix x) eqn:E; [eauto|]. rewrite <- E, dep_list_eval_postfix, (proj2 (Nat.leb_le _ _) Hx).
  cbn. eauto.
Qed.

(** ** Dispatch *)

Lemma meets_gpus hh j : meets hh j -> 0 < num_gpus (rsrc j) -> num_gpus (rsrc j) <= g_count (h_gpu hh).
Proof.
  intros Hm Hpos. pose proof (mt_gpus _ _ Hm Hpos) as Hg. unfold host_has_gpu_count in Hg. b2p.
  unfold gpu_ids_count_free in Hg.
  assert (Hle : forall l : list gpu_id, sumZ (fun d => b2z (negb (in_use d))) l <= Z.of_nat (length l)).
  { induction l as [|d l IH]; cbn; [lia|]. destruct (in_use d); cbn; lia. }
  pose proof (Hle (take (Z.to_nat (g_count (h_gpu hh))) (g_ids (h_gpu hh)))) as H1.
  rewrite length_take in H1. lia.
Qed.

(** What a dispatch needs of the job with its plan [h :: hs]. *)
Record can_dispatch (e : env) (w : mbd) (id : Z) (j : job_data) (h : nat) (hs : list nat) (hh : mbd_host) : Prop :=
  mk_can_dispatch {
  cd_plan : run_host_ptrs j = Ok (h :: hs);
  cd_hosts : Forall (fun i => (i < length (hosts w))%nat) (h :: hs);
  cd_host : hosts w !! h = Some hh;
  cd_chan : 0 < sbd_chan hh;
  cd_files : job_files_ok e id = true;
  cd_queue : exists q qq, queue j = Some q /\ queues w !! q = Some qq;
  cd_gpus : 0 < num_gpus (rsrc j) -> num_gpus (rsrc j) <= g_count (h_gpu hh);
  cd_pend : id ∈ pend_jobs_list w
}.

Lemma run_host_head j h hs : run_host_ptrs j = Ok (h :: hs) -> run_host j 0 = Ok h.
Proof.
  unfold run_host_ptrs. destruct (run_nhosts j) as [|n]; [done|]. cbn [seq res_map]. intros H.
  apply res_bind_Ok in H as (y & Hy & H). apply res_bind_Ok in H as (ys & _ & H). by injection H as <- _.
Qed.

Lemma host_names_of w hs :
  Forall (fun i => (i < length (hosts w))%nat) hs -> exists l, host_names w hs = Ok l.
Proof.
  intros HF. apply host_names_total. intros i Hi. rewrite Forall_forall in HF.
  apply lookup_lt_is_Some_2. by apply HF.
Qed.

Lemma mbd_dispatch_job_total e id w j h hs hh :
  jobs w !! id = Some j -> 0 < now e -> can_dispatch e w id j h hs hh ->
  exists r, mbd_dispatch_job e id w = Ok r.
Proof.
  intros Hj Hnow [Hp HF Hh Hc Hf (q & qq & Hq & Hqq) Hg Hin]. unfold mbd_dispatch_job.
  rewrite Hj. cbn [deref res_bind]. rewrite (run_host_head _ _ _ Hp). cbn [res_bind].
  unfold nth_res at 1. rewrite Hh. cbn [res_bind]. rewrite (proj2 (Z.ltb_lt _ _) Hc), Hf. cbn [c_assert guard_or res_bind].
  unfold job_queue. rewrite Hq. cbn [deref res_bind]. unfold nth_res at 1. rewrite Hqq. cbn [res_bind].
  unfold build_hosts_str. rewrite Hp. cbn [res_bind].
  destruct (host_names_of w (h :: hs) HF) as [names ->]. cbn [res_bind].
  match goal with |- exists r, res_bind ?m _ = _ => assert (Hm : exists w1 s, m = Ok (w1, s) /\
    length (hosts w1) = length (hosts w) /\ pend_jobs_list w1 = pend_jobs_list w /\
    exists a, jobs w1 !! id = Some (j <| gpu_assigned := a |>)) end.
  { destruct (Z.ltb_spec 0 (num_gpus (rsrc j))).
    - unfold build_gpu_assigned_str. rewrite (proj2 (Z.leb_le _ _)) by auto. cbn [c_assert guard_or res_bind].
      destruct (assign_gpus _ _ _ _) as [ids s]. cbn [res_bind]. eexists _, _. split; [done|].
      split; [apply length_alter|]. split; [done|]. eexists. cbn. by rewrite lookup_alter_eq, Hj.
    - eexists _, _. split; [done|]. split; [done|]. split; [done|]. exists (gpu_assigned j). rewrite Hj. by destruct j. }
  destruct Hm as (w1 & s & -> & Hlen & Hpend & a & Hj1). cbn [res_bind]. unfold auth_sign_header.
  destruct (sign_ok e (io w1)); cbn [negb]; [|eauto].
  match goal with |- context [enqueue_payload ?e ?c ?o ?st ?b ?w] => io_step (enqueue_payload e c o st b w) end.
  destruct ok; cbn [negb]; [|eauto]. set (w2 := with_io _ _ _).
  match goal with |- context [deref (jobs ?x !! id)] => assert (Hj2 : jobs x !! id =
    Some (j <| gpu_assigned := a |> <| dispatch_time := now e |> <| state := JOB_RUNNING |>)) end.
  { cbn. by rewrite lookup_alter_eq, Hj1. }
  rewrite Hj2. cbn [deref res_bind]. unfold event_job_start.
  match goal with |- context [run_host_ptrs ?x] => change (run_host_ptrs x) with (run_host_ptrs j) end.
  rewrite Hp. cbn [res_bind]. match goal with |- context [host_names ?x _] => 
    destruct (host_names_of x (h :: hs)) as [names2 ->] end.
  { cbn. by rewrite Hlen. }
  cbn [res_bind]. rewrite log_append_ok by done. cbn [res_bind]. unfold job_move_list.
  match goal with |- context [remove_first id ?l] => destruct (remove_first_in id l) as [r ->] end.
  { cbn. by rewrite Hpend. }
  eauto.
Qed.

Lemma sched_account_total id w j hs :
  jobs w !! id = Some j -> run_host_ptrs j = Ok hs -> NoDup hs ->
  Forall (fun i => (i < length (hosts w))%nat) hs ->
  (exists q, queue j = Some q /\ (q < length (queues w))%nat) ->
  exists w', sched_account id w = Ok w'.
Proof.
  intros Hj Hp Hnd HF (q & Hq & Hlt). unfold sched_account. rewrite Hj. cbn [deref res_bind].
  set (w1 := match deps j with [] => w | _ => _ end).
  assert (Ha : acct_of w1 = acct_of w).
  { unfold w1. destruct (deps j); [done|]. unfold job_deps_release. by rewrite acct_job_deps_refcnt. }
  assert (Hw1 : hosts w1 = hosts w /\ queues w1 = queues w).
  { split; [apply (f_equal a_hosts Ha)|apply (f_equal a_queues Ha)]. }
  destruct Hw1 as [Hh1 Hq1]. unfold host_update_resources. rewrite Hp. cbn [res_bind].
  rewrite <- Hh1 in HF.
  pose proof (each_host_wp (fun h => Ok (host_charge j h)) hs w1 False Hnd HF ltac:(done)) as He.
  destruct (each_host _ hs w1) as [w2|] eqn:E; [|done]. cbn [res_bind].
  apply each_host_spec in E as (E & _ & _); [|done]. destruct (token_alloc_pools j w2) as [p ->].
  rewrite (upd_job_queue_total j _ _ q); [eauto|done|]. cbn. rewrite E. cbn. by rewrite Hq1.
Qed.

(** ** Candidate hosts *)

(** A host that is a candidate of the cycle has an execution daemon. *)
Definition cand_ok (w : mbd) : Prop :=
  forall h hh, hosts w !! h = Some hh -> candidate hh = true -> 0 < sbd_chan hh.

Lemma cand_hosts w w' : hosts w' = hosts w -> cand_ok w -> cand_ok w'.
Proof. intros H Hc h hh. rewrite H. apply Hc. Qed.

Lemma cand_upd_host n f w :
  (forall h, sbd_chan (f h) = sbd_chan h /\ (candidate (f h) = true -> candidate h = true)) ->
  cand_ok w -> cand_ok (upd_host n f w).
Proof.
  intros Hf Hc h hh' (hh & Hhh & ->)%list_lookup_alter_inv. case_bool_decide; [|by eapply Hc].
  destruct (Hf hh) as [-> H2]. intros Hx%H2. by eapply Hc.
Qed.

Lemma cand_dispatch e id w : cand_ok w -> wp (mbd_dispatch_job e id w) (fun p => cand_ok p.1) True.
Proof.
  intros Hc. unfold mbd_dispatch_job.
  do 7 (apply wp_bind; eapply wp_mono; [apply wp_any| intros ? _|done]).
  apply wp_bind. eapply (wp_mono _ (fun p => cand_ok p.1)); [|intros [w1 s] H1|done].
  { destruct (0 <? _); [|done]. apply wp_bind. eapply wp_mono; [apply wp_any|intros [g s] _|done].
    cbn [wp fst]. by apply cand_upd_host. }
  cbn [fst] in H1. unfold auth_sign_header. destruct (sign_ok e (io w1)); cbn [negb wp fst]; [|done].
  match goal with |- context [enqueue_payload ?e ?c ?o ?st ?b ?w] => io_step (enqueue_payload e c o st b w) end.
  destruct ok; cbn [negb wp fst]; [|done]. apply wp_bind. eapply wp_mono; [apply wp_any|intros j _|done].
  apply wp_bind. eapply (wp_mono _ cand_ok); [|intros w2 H2|done].
  - unfold event_job_start. apply wp_bind. eapply wp_mono; [apply wp_any|intros ? _|done].
    apply wp_bind. eapply wp_mono; [apply wp_any|intros ? _|done]. unfold log_append. apply wp_bind.
    eapply wp_mono; [apply wp_any|intros ? _|done]. exact H1.
  - apply wp_bind. unfold job_move_list. destruct (remove_first _ _); [|done]. exact H2.
Qed.

Lemma cand_account id w : cand_ok w -> wp (sched_account id w) cand_ok True.
Proof.
  intros Hc. unfold sched_account. apply wp_bind. eapply wp_mono; [apply wp_any|intros j _|done].
  set (w1 := match deps j with [] => w | _ => _ end).
  assert (H1 : cand_ok w1).
  { eapply cand_hosts; [|exact Hc]. change (a_hosts (acct_of w1) = a_hosts (acct_of w)).
    unfold w1. destruct (deps j); [done|]. unfold job_deps_release. by rewrite acct_job_deps_refcnt. }
  apply wp_bind. eapply (wp_mono _ cand_ok); [|intros w2 H2|done].
  - unfold host_update_resources. apply wp_bind. eapply wp_mono; [apply wp_any|intros hs _|done].
    apply (wp_fold _ (fun _ x => cand_ok x)); [done| |done]. intros h r x Hx. cbn [wp].
    unfold nth_res. destruct (hosts x !! h) as [hh|] eqn:Hh; [|done]. cbn [res_bind wp].
    intros i hh' Hi. cbn in Hi. apply list_lookup_insert_Some in Hi as [(-> & <- & _)|[_ Hi]]; [|by eapply Hx].
    intros Hcand. unfold host_charge in *. cbv zeta in *.
    destruct (is_exclusive j); destruct (_ <=? 0) in *; first [exact (Hx i hh Hh Hcand)|by cbn in Hcand].
  - destruct (token_alloc_pools j w2) as [p ->]. unfold upd_job_queue.
    apply wp_bind. eapply wp_mono; [apply wp_any|intros ? _|done]. apply wp_bind.
    eapply wp_mono; [apply wp_any|intros ? _|done]. exact H2.
Qed.

Section sched.
Context {QS : QSort}.

Lemma cand_sched_job e id fs w : cand_ok w -> wp (sched_job e id fs w) (fun p => cand_ok p.1) True.
Proof.
  intros Hc. unfold sched_job. apply wp_bind. eapply wp_mono; [apply wp_any|intros j _|done].
  destruct (negb _); [done|]. apply wp_bind. eapply wp_mono; [apply wp_any|intros q _|done].
  destruct (bool_decide _); [done|]. destruct (negb _); [done|].
  apply wp_bind. eapply wp_mono; [apply wp_any|intros sat _|done]. destruct (negb sat); [done|].
  destruct (build_plan_array e w) as [w0 ready] eqn:Hb.
  assert (H0 : cand_ok w0).
  { eapply cand_hosts; [|exact Hc]. unfold build_plan_array, try_alloc in Hb.
    destruct (host_plan_ready w); [by injection Hb as <- _|]. by destruct (alloc_ok e (io w)); injection Hb as <- _. }
  destruct (negb ready); [done|]. apply wp_bind. eapply wp_mono; [apply wp_any|intros [d|j'] _|done]; [done|].
  apply wp_bind. eapply wp_mono; [apply cand_dispatch| |done]; [done|]. intros [w1 ok] H1. cbn in H1.
  destruct (negb ok); [done|]. apply wp_bind. eapply wp_mono; [by apply cand_account| |done].
  intros w2 H2. by destruct (_ <=? 0).
Qed.

(** ** One round and the whole cycle *)

Record cycle_ready (e : env) (w : mbd) : Prop := mk_cycle_ready {
  cr_inv : inv w;
  cr_cand : cand_ok w;
  cr_deps : forall id s, statics w !! id = Some s -> deps_fit (st_deps s);
  cr_files : forall id, job_files_ok e id = true;
  cr_now : 0 < now e
}.

Lemma statics_lookup w id j : jobs w !! id = Some j -> statics w !! id = Some (static_of j).
Proof. intros Hj. unfold statics. by rewrite lookup_fmap, Hj. Qed.

Lemma sched_job_total e id fs w j :
  cycle_ready e w -> jobs w !! id = Some j -> list_id j = JOB_LIST_PEND ->
  exists p, sched_job e id fs w = Ok p.
Proof.
  intros [HI Hc Hd Hf Hnow] Hj Hl. unfold sched_job. rewrite Hj. cbn [deref res_bind].
  destruct (job_is_ready e j) eqn:Hrdy; cbn [negb]; [|eauto].
  destruct (inv_job_queue w id j HI Hj) as (q & Hq & Hlt).
  destruct (lookup_lt_is_Some_2 _ _ Hlt) as [qq Hqq].
  unfold job_queue. rewrite Hq. cbn [deref res_bind]. unfold nth_res at 1. rewrite Hqq. cbn [res_bind].
  destruct (bool_decide _); [eauto|]. destruct (negb _); [eauto|].
  destruct (job_dep_satisfied_total w j) as [sat ->]; [apply (Hd id _ (statics_lookup w id j Hj))|].
  cbn [res_bind]. destruct (negb sat); [eauto|].
  destruct (build_plan_array e w) as [w0 ready] eqn:Hb. apply build_plan_array_same in Hb as [Ha Hjobs].
  assert (HI0 : inv w0) by (red; by rewrite Ha). assert (Hj0 : jobs w0 !! id = Some j) by by rewrite Hjobs.
  destruct (negb ready); [eauto|].
  assert (Hqq0 : queues w0 !! q = Some qq) by (change (a_queues (acct_of w0) !! q = Some qq); by rewrite Ha).
  assert (Hc0 : cand_ok w0) by (eapply cand_hosts; [|exact Hc]; apply (f_equal a_hosts Ha)).
  destruct (plan_for w0 id j q qq HI0 Hj0 Hq Hqq0) as (r & -> & Hr). cbn [res_bind].
  destruct r as [d|j']; [eauto|]. destruct Hr as (hs & -> & Hg & _).
  set (j1 := (planned j hs) <| pend_reason_of := PEND_NONE |>). set (w1 := upd_job id (fun _ => j1) w0).
  assert (Hj1 : jobs w1 !! id = Some j1) by (cbn; by rewrite lookup_alter_eq, Hj0).
  destruct hs as [|h hs]; [by destruct (pg_nonempty _ _ _ _ Hg)|].
  assert (HF : Forall (fun i => (i < length (hosts w1))%nat) (h :: hs)).
  { apply Forall_forall. intros i Hi. destruct (pg_eligible _ _ _ _ Hg i Hi) as (hh & Hhh & _). by eapply lookup_lt_Some. }
  destruct (pg_eligible _ _ _ _ Hg h ltac:(left)) as (hh & Hhh & Hel).
  apply andb_true_iff in Hel as [_ Hm%host_meets_spec].
  assert (Hp : run_host_ptrs j1 = Ok (h :: hs)) by by apply run_host_ptrs_plan; [apply planned_take|].
  destruct (mbd_dispatch_job_total e id w1 j1 h hs hh Hj1 Hnow) as [[w2 ok] Hdis].
  { split; try done.
    - apply (Hc0 h hh Hhh), Hm.
    - eauto.
    - intros Hpos. by apply (meets_gpus hh j).
    - pose proof (inv_listed w0 id j HI0 Hj0) as Hin. by rewrite Hl in Hin. }
  rewrite Hdis. cbn [res_bind]. destruct ok; cbn [negb]; [|eauto].
  apply (mbd_dispatch_job_Ok _ _ _ j1) in Hdis as (H1 & a & [Hlen1 _] & (r & _ & Hjd & Ha2)); [|done].
  pose proof (f_equal a_hosts Ha2) as Hh2. pose proof (f_equal a_queues Ha2) as Hq2. cbn in Hh2, Hq2.
  destruct (sched_account_total id w2 (dispatched_job e j1 a) (h :: hs)) as [w3 ->]; try done.
  - apply Hg.
  - rewrite Hh2, Hlen1. exact HF.
  - exists q. split; [done|]. rewrite Hq2. by eapply lookup_lt_Some.
  - cbn [res_bind]. destruct (_ <=? 0); eauto.
Qed.

Lemma cycle_ready_next e id fs w j p :
  cycle_ready e w -> jobs w !! id = Some j -> list_id j = JOB_LIST_PEND ->
  sched_job e id fs w = Ok p -> cycle_ready e p.1 /\ only_job id w p.1.
Proof.
  intros [HI Hc Hd Hf Hnow] Hj Hl H. destruct p as [w1 nx].
  destruct (sched_job_inv e id fs j w w1 nx HI Hj Hl H) as [HI1 Ho]. split; [|done].
  split; cbn; try done.
  - apply (wp_Ok _ _ _ _ (cand_sched_job e id fs w Hc) H).
  - pose proof (wp_Ok _ _ _ _ (fixed_sched_job e id fs w) H) as Hfx. cbn in Hfx.
    intros i s. change (statics w1) with (fx_jobs (fixed w1)). rewrite Hfx. apply Hd.
Qed.

Lemma sched_loop_total e ids fs w :
  cycle_ready e w -> on_list JOB_LIST_PEND w ids -> NoDup ids -> exists p, sched_loop e ids fs w = Ok p.
Proof.
  revert fs w. induction ids as [|id ids IH]; intros fs w Hr HL Hnd; cbn; [eauto|].
  apply NoDup_cons in Hnd as [Hid Hnd]. destruct (on_list_head _ _ _ _ HL) as (j & Hj & Hl).
  destruct (sched_job_total e id fs w j Hr Hj Hl) as [[w1 nx] Hs]. rewrite Hs. cbn [res_bind].
  destruct (cycle_ready_next e id fs w j _ Hr Hj Hl Hs) as [Hr1 Ho].
  destruct nx; [|eauto..]. apply IH; [done| |done]. by apply (on_list_tail _ _ _ _ _ HL).
Qed.

(** What a whole cycle needs besides the accounting. *)
Record sched_ready (e : env) (w : mbd) : Prop := mk_sched_ready {
  sr_chans : forall h hh, hosts w !! h = Some hh -> sbd_chan hh <> 0;
  sr_deps : forall id j, jobs w !! id = Some j -> deps_fit (deps j);
  sr_files : forall id, job_files_ok e id = true;
  sr_room : Z.of_nat (length (pend_jobs_list w)) <= SCHED_SORT_BUF_MAX;
  sr_now : 0 < now e
}.

Lemma sort_pend_list_total w :
  inv w -> Z.of_nat (length (pend_jobs_list w)) <= SCHED_SORT_BUF_MAX -> exists w', sort_pend_list w = Ok w'.
Proof.
  intros HI Hlen. unfold sort_pend_list. destruct (_ <? 2)%nat; [eauto|].
  rewrite (proj2 (Z.leb_le _ _) Hlen). cbn [guard_or res_bind].
  destruct (res_map_total (job_pend_key w) (pend_jobs_list w)) as [keys ->]; [|cbn; eauto].
  intros id Hin. destruct (on_list_all JOB_LIST_PEND w HI id Hin) as (c & Hc & _). apply cores_inv in Hc as (j & Hj & _).
  unfold job_pend_key. rewrite Hj. cbn [deref res_bind].
  destruct (inv_job_queue w id j HI Hj) as (q & Hq & Hlt). unfold job_queue. rewrite Hq. cbn [deref res_bind].
  destruct (lookup_lt_is_Some_2 _ _ Hlt) as [qq Hqq]. unfold nth_res. rewrite Hqq. cbn. eauto.
Qed.

Lemma schedule_total e w : inv w -> sched_ready e w -> exists w', schedule e w = Ok w'.
Proof.
  intros HI [Hch Hd Hf Hroom Hnow]. unfold schedule. destruct (pend_jobs_list w) eqn:Hpl; [eauto|]. rewrite <- Hpl in Hroom.
  destruct (mark_candidates w) as [w1 fs] eqn:Hm.
  assert (HI1 : inv w1). { pose proof (mark_candidates_inv w HI) as Hx. by rewrite Hm in Hx. }
  assert (Hw1 : w1 = w <| hosts ::= map (fun h => h <| candidate := host_usable h |>) |>) by by injection Hm as <- _.
  clear Hm. destruct (fs =? 0); [eauto|].
  destruct (sort_pend_list_total w1 HI1) as [w2 Hs]; [by rewrite Hw1|]. rewrite Hs. cbn [res_bind].
  apply sort_pend_list_perm in Hs as (l' & -> & Hp). apply pend_perm_inv with (l := l') in HI1; [|done].
  set (w2 := w1 <| pend_jobs_list := l' |>) in *.
  assert (Hr : cycle_ready e w2).
  { split; try done.
    - intros h hh' Hh. unfold w2 in Hh. rewrite Hw1 in Hh. cbn in Hh.
      rewrite (list_lookup_fmap _ (hosts w)) in Hh. destruct (hosts w !! h) as [hh|] eqn:Hhh; [|done].
      injection Hh as <-. cbn. intros Hu. specialize (Hch h hh Hhh). unfold host_usable in Hu. b2p. lia.
    - intros id s. unfold w2. rewrite Hw1. unfold statics. cbn. rewrite lookup_fmap.
      destruct (jobs w !! id) as [j|] eqn:Hj; [|done]. intros [= <-]. by apply (Hd id). }
  destruct (sched_loop_total e (pend_jobs_list w2) fs w2 Hr (on_list_all JOB_LIST_PEND w2 HI1)
    (proj1 (ao_lists _ HI1 JOB_LIST_PEND))) as [[w3 fin] Hl]. rewrite Hl. cbn [res_bind].
  destruct fin; cbn [negb]; [|eauto].
  destruct (sched_loop_inv e _ _ _ _ _ HI1 (on_list_all JOB_LIST_PEND w2 HI1)
    (proj1 (ao_lists _ HI1 JOB_LIST_PEND)) Hl) as [HI3 _].
  rewrite (assert_counters_ok w3 HI3). cbn. eauto.
Qed.
End sched.
