(* ===== verification/MbdProgress.v ===== *)
(** * The daemon never aborts

    From a good state, every message it expects and every timer is handled to the
    end and leaves a good state: no assertion, no NULL dereference and no index
    out of range is reachable. *)

From S2P Require Import Prelude CString LlHash Dependency LogFormat MbdTypes MbdBase MbdJob MbdSched MbdNet.
From S2P Require Import MbdInv MbdFrame MbdCheck MbdSafe MbdControl MbdSubmit MbdPlan MbdSchedSafe MbdStatic MbdRun MbdLive.

Open Scope Z_scope.

Implicit Types (w : mbd) (j : job_data) (id : Z).

(** ** The jobs of a submission *)

(** What the request says about GPUs, dependencies and flags stays as it is
    while its name and queue are filled in. *)
Definition same_ask (ws ws' : wire_job_submit) : Prop :=
  sub_num_gpus ws' = sub_num_gpus ws /\ sub_depend_cond ws' = sub_depend_cond ws /\ sub_flags ws' = sub_flags ws.

Definition prepared_static (ws : wire_job_submit) (w : mbd) (j : job_data) : Prop :=
  num_gpus (rsrc j) = sub_num_gpus ws /\
  (deps j = [] \/ exists st, dep_parse (Some (dep_resolve_job w)) (fun _ => true) (sub_depend_cond ws) = Ok (st, deps j)).

Lemma job_alloc_static e ws w :
  wp (job_alloc e ws w) (fun '(w', ws', r) => same_ask ws ws' /\ jobs w' = jobs w /\
    match r with inl _ => True | inr j => num_gpus (rsrc j) = sub_num_gpus ws /\ deps j = [] /\ array_id j = 0 end) True.
Proof.
  unfold job_alloc, try_alloc. destruct (alloc_ok e (io w)); cbn [negb]; [|done].
  apply wp_bind. eapply wp_mono; [apply next_job_id_wp| |done]. intros [w1 id] (-> & _).
  apply wp_bind. eapply wp_mono; [apply wp_any|intros ms _|done]. cbv zeta.
  match goal with |- context [queue_name_hash _ !! sub_queue ?x] => set (ws1 := x) end.
  assert (Hws : same_ask ws ws1).
  { unfold ws1. by destruct (String.eqb (sub_name ws) _), (String.eqb (sub_queue _) _). }
  destruct (queue_name_hash _ !! sub_queue ws1) as [q|]; [|done].
  apply wp_bind. eapply wp_mono; [apply wp_any|intros qq _|done].
  destruct (negb _); [done|]. destruct (negb _); [done|]. cbn [wp]. split; [done|]. split; [done|].
  split; [|done]. cbn. apply Hws.
Qed.

Lemma job_prepare_static e ws hdr w :
  wp (job_prepare e ws hdr w) (fun '(w', ws', r) => same_ask ws ws' /\ jobs w' = jobs w /\
    match r with inl _ => True | inr j => prepared_static ws w j /\ array_id j = 0 end) True.
Proof.
  unfold job_prepare. apply wp_bind. eapply wp_mono; [apply job_alloc_static| |done].
  intros [[w1 ws1] r] (Hws & Hj & Hr). destruct r as [err|j]; [done|]. destruct Hr as (Hg & Hd & Ha).
  destruct (script_err _ _); [done|]. destruct (sidecar_err _ _); [done|].
  destruct (job_parse_tokens _ _ _) as [ts|]; [|done]. apply wp_bind. unfold job_parse_deps, job_deps_set.
  destruct (String.eqb _ _).
  - cbn [wp]. split; [done|]. split; [done|]. split; [|done]. split; [done|]. by left.
  - apply wp_bind. destruct (dep_parse _ _ _) as [[st ds]|] eqn:Hp; [|done]. cbn [wp].
    destruct (bool_decide _); [|done]. split; [done|]. split; [done|]. split; [|done]. split; [done|]. right.
    exists st. cbn. destruct Hws as (_ & Hc & _). rewrite <- Hc. unfold dep_resolve_job, job_find in *.
    by rewrite Hj in Hp.
Qed.

(** The head of an array carries the first index. *)
Definition head_ok (s : static) : Prop :=
  st_array_id s <> 0 -> st_array_id s = st_id s -> st_array_index s = st_array_start s.

Lemma prepare_loop_static e hdr fuel start stop stride index prepared ws0 ws w0 w :
  submit_sane ws -> 0 < now e -> batch_ok w0 w prepared -> jobs w = jobs w0 -> same_ask ws0 ws ->
  Forall (prepared_static ws0 w0) prepared -> Forall (fun j => head_ok (static_of j)) prepared ->
  (prepared = [] -> index = start) ->
  wp (prepare_loop e hdr fuel start stop stride index prepared ws w)
     (fun '(_, _, r) => match r with
        | inl _ => True
        | inr l => Forall (prepared_static ws0 w0) l /\ Forall (fun j => head_ok (static_of j)) l
        end) True.
Proof.
  intros Hs Hnow. revert index prepared ws w Hs.
  induction fuel as [|f IH]; intros index prepared ws w Hs Hb Hj Hws Hst Hh Hix; cbn; [done|].
  apply wp_bind.
  eapply wp_mono; [apply (wp_and _ _ _ _ _ (job_prepare_wp e ws hdr w Hs Hnow) (job_prepare_static e ws hdr w))| |done].
  intros [[w1 ws1] r] [(Hw & Hs1 & Hr) (Hws1 & Hj1 & Hr1)].
  destruct r as [err|j].
  { apply wp_bind. eapply wp_mono; [apply wp_any|done|done]. }
  destruct Hr as (Hrdy & Hn & Hseq & Hlast & Hused). destruct Hr1 as [Hst1 Ha1]. apply wp_bind.
  match goal with |- wp ?m _ _ => destruct m as [aid|] eqn:Haid end; [|done]. cbn [wp].
  assert (Hp : forall p, last prepared = Some p -> job_id j = job_id p + 1).
  { intros p Hp. destruct prepared as [|h t]; [done|]. inv_res. rewrite Hp in Hr. b2p. lia. }
  set (j1 := if has_flag _ _ then _ else j).
  assert (Hj1' : same_job j j1 /\ job_id j1 = job_id j) by (unfold j1; by destruct (has_flag _ _)).
  destruct Hj1' as [Hsame Hid].
  assert (Hb1 : batch_ok w0 w1 (prepared ++ [j1])).
  { apply (batch_ok_snoc w0 w); rewrite ?Hid; try done. by eapply job_ready_same. }
  assert (Hst2 : prepared_static ws0 w0 j1).
  { assert (Hx : prepared_static ws0 w0 j).
    { destruct Hst1 as [H1 H2]. destruct Hws as (G1 & G2 & _). split; [congruence|].
      destruct H2 as [H2|[st H2]]; [by left|right]. exists st. rewrite <- G2.
      unfold dep_resolve_job, job_find in *. by rewrite Hj in H2. }
    unfold j1. by destruct (has_flag _ _). }
  assert (Hh2 : head_ok (static_of j1)).
  { unfold j1. destruct (has_flag _ _); [|by intros Hx; cbn in Hx]. intros _. cbn. intros He.
    destruct prepared as [|h t]; [by apply Hix|exfalso]. inv_res.
    pose proof (bo_range _ _ _ Hb) as Hrg. apply Forall_cons in Hrg as [Hrg _]. lia. }
  eapply wp_mono; [apply IH| |done]; try done.
  - destruct (has_flag _ _); [by apply batch_ok_bump|done].
  - congruence.
  - destruct Hws as (G1 & G2 & G3). destruct Hws1 as (F1 & F2 & F3). repeat split; congruence.
  - assert (HF : Forall (prepared_static ws0 w0) (prepared ++ [j1])) by (apply Forall_app; split; [done|by constructor]).
    destruct (has_flag _ _); [by apply bump_head_Forall|done].
  - assert (HF : Forall (fun j => head_ok (static_of j)) (prepared ++ [j1])) by (apply Forall_app; split; [done|by constructor]).
    destruct (has_flag _ _); [by apply bump_head_Forall|done].
  - intros Hx. exfalso. destruct (has_flag _ _); destruct prepared; done.
Qed.

(** ** Committing the jobs *)

Definition add_jobs (js : list job_data) (w : mbd) : mbd :=
  w <| jobs := foldl (fun m j => <[job_id j := j]> m) (jobs w) js |>.

Lemma fixed_jobs_eq w w' (f : gmap Z job_data -> gmap Z job_data) :
  (forall m m', static_of <$> m = static_of <$> m' -> static_of <$> f m = static_of <$> f m') ->
  fixed w' = fixed w -> fixed (w' <| jobs ::= f |>) = fixed (w <| jobs ::= f |>).
Proof.
  intros Hf H. unfold fixed, statics in *. cbn. injection H as H1 H2 H3 H4 H5 H6 H7.
  by rewrite (Hf _ _ H1), H2, H3, H4, H5, H6, H7.
Qed.

Lemma fixed_job_commit j ws w :
  wp (job_commit j ws w) (fun w' => fixed w' = fixed (w <| jobs ::= <[job_id j := j]> |>)) True.
Proof.
  unfold job_commit. apply wp_bind. eapply wp_mono; [apply wp_any|intros ? _|done].
  apply wp_bind. unfold event_job_new.
  eapply wp_mono; [apply fixed_log_append|intros w1 H1|done]. cbn beta in H1.
  eapply wp_mono; [apply fixed_upd_job_queue|intros w2 H2|done]. cbn beta in H2.
  rewrite H2, H1, fixed_set_list, fixed_deps_hold. done.
Qed.

Lemma statics_insert_eq j (m m' : gmap Z job_data) :
  static_of <$> m = static_of <$> m' -> static_of <$> <[job_id j := j]> m = static_of <$> <[job_id j := j]> m'.
Proof. intros H. by rewrite !fmap_insert, H. Qed.

Lemma statics_inserts_eq js (m m' : gmap Z job_data) :
  static_of <$> m = static_of <$> m' ->
  static_of <$> foldl (fun m j => <[job_id j := j]> m) m js = static_of <$> foldl (fun m j => <[job_id j := j]> m) m' js.
Proof. revert m m'. induction js as [|j js IH]; intros m m' H; cbn; [done|]. by apply IH, statics_insert_eq. Qed.

Lemma fixed_commit_prepared js ws w :
  wp (job_commit_prepared js ws w) (fun w' => fixed w' = fixed (add_jobs js w)) True.
Proof.
  unfold job_commit_prepared. revert w. induction js as [|j js IH]; intros w; cbn; [by destruct w|].
  apply wp_bind. eapply wp_mono; [apply fixed_job_commit|intros w1 H1|done]. cbn beta in H1.
  eapply wp_mono; [apply IH|intros w2 H2|done]. cbn beta in H2. rewrite H2.
  apply (fixed_jobs_eq _ _ (fun m => foldl (fun m j => <[job_id j := j]> m) m js)) in H1; [exact H1|].
  apply statics_inserts_eq.
Qed.

(** What a submission leaves: the same state with the new jobs in the table. *)
Definition added (ws : wire_job_submit) (w w' : mbd) : Prop :=
  exists js s, fixed w' = fixed ((add_jobs js w) <| job_id_seq := s |>) /\
    Forall (prepared_static ws w) js /\ Forall (fun j => head_ok (static_of j)) js.

Lemma job_register_added e chan hdr ws w :
  submit_sane ws -> 0 < now e -> wp (job_register e chan hdr ws w) (added ws w) True.
Proof.
  intros Hs Hnow. unfold job_register.
  assert (Hrej : forall w1 st, same_but_seq w w1 -> added ws w (job_register_error e chan st w1)).
  { intros w1 st (s & n & -> & _). exists [], s. split; [|split; constructor].
    unfold job_register_error. by rewrite fixed_enqueue. }
  destruct (_ && _). { apply Hrej. exists (job_id_seq w), (io w). split; [by destruct w|lia]. }
  assert (Hb : batch_ok w w []).
  { split; [|constructor..|by exists 0|done]. exists (job_id_seq w), (io w). split; [by destruct w|lia]. }
  apply wp_bind. eapply wp_mono; [apply (wp_and _ _ _ _ _
    (prepare_loop_wp e hdr _ _ _ _ _ [] ws w w Hs Hnow Hb)
    (prepare_loop_static e hdr _ _ _ _ _ [] ws ws w w Hs Hnow Hb eq_refl ltac:(done) ltac:(done) ltac:(done) ltac:(done)))| |done].
  intros [[w1 ws1] r] [[Hw Hr] Hst]. destruct r as [err|l]; [by apply Hrej|].
  unfold job_register_reply.
  match goal with |- context [enqueue_payload ?e ?c ?o ?s ?b w1] => io_step (enqueue_payload e c o s b w1) end.
  destruct Hw as (s & n & -> & _). destruct ok; cbn [negb].
  2:{ exists [], s. by split; [|split; constructor]. }
  apply wp_bind. eapply wp_mono; [apply fixed_commit_prepared|intros w2 H2|done]. cbn beta in H2. cbn [wp].
  exists l, s. split; [|done]. change (fixed (job_id_seq_write w2)) with (fixed w2). by rewrite H2.
Qed.

(** ** Good states *)

Record fixed_good (F : fixed_part) : Prop := mk_fixed_good {
  fg_seq : forall id, is_Some (fx_jobs F !! id) -> id <= fx_seq F;
  fg_queues : forall nm q, fx_queue_hash F !! nm = Some q -> (q < fx_queues F)%nat;
  fg_hosts : forall nm n, fx_host_hash F !! nm = Some n -> (n < length (fx_chans F))%nat;
  fg_chans : forall c n, fx_chan_hash F !! c = Some n -> 0 <= c /\ fx_chans F !! n = Some c;
  fg_chan0 : forall n c, fx_chans F !! n = Some c -> c <> 0;
  fg_deps : forall id s, fx_jobs F !! id = Some s -> deps_fit (st_deps s);
  fg_gpus : forall id s, fx_jobs F !! id = Some s -> st_gpus s <= 0;
  fg_heads : forall id s, fx_jobs F !! id = Some s -> head_ok s
}.

(** The accounting is right, ids are at or below the sequence, the tables point
    to queues and hosts, channels and hosts agree, no job asks for a GPU, every
    dependency condition fits the stack, and array heads carry the first index. *)
Definition good (w : mbd) : Prop := inv w /\ fixed_good (fixed w).

Lemma good_kept w w' : good w -> inv w' -> fixed w' = fixed w -> good w'.
Proof. intros [_ H] HI He. split; [done|]. by rewrite He. Qed.

Section facts.
Context (w : mbd) (G : good w).

Lemma good_seq : seq_ok w.
Proof using G.
  intros id [j Hj]. apply (fg_seq _ (proj2 G)). cbn. unfold statics. rewrite lookup_fmap, Hj. by eexists.
Qed.

Lemma good_queues : queue_hash_ok w.
Proof using G. intros nm q. apply (fg_queues _ (proj2 G)). Qed.

Lemma good_heads : array_heads_ok w.
Proof using G. intros id j Hj. apply (fg_heads _ (proj2 G) id (static_of j)), statics_lookup, Hj. Qed.

Lemma good_gpus id j : jobs w !! id = Some j -> num_gpus (rsrc j) <= 0.
Proof using G. intros Hj. apply (fg_gpus _ (proj2 G) id (static_of j)), statics_lookup, Hj. Qed.

Lemma good_deps id j : jobs w !! id = Some j -> deps_fit (deps j).
Proof using G. intros Hj. apply (fg_deps _ (proj2 G) id (static_of j)), statics_lookup, Hj. Qed.

Lemma good_chan c n :
  sbd_chan_hash w !! c = Some n -> 0 <= c /\ exists hh, hosts w !! n = Some hh /\ sbd_chan hh = c.
Proof using G.
  intros Hc. destruct (fg_chans _ (proj2 G) c n Hc) as [H0 H1]. split; [done|]. cbn in H1.
  rewrite (list_lookup_fmap sbd_chan) in H1. destruct (hosts w !! n); [|done]. injection H1 as <-. eauto.
Qed.

Lemma good_chan0 h hh : hosts w !! h = Some hh -> sbd_chan hh <> 0.
Proof using G. intros Hh. apply (fg_chan0 _ (proj2 G) h). cbn. by rewrite (list_lookup_fmap sbd_chan), Hh. Qed.
End facts.

(** ** The handlers from a good state *)

Lemma good_added ws w w' :
  good w -> inv w' -> seq_ok w' -> added ws w w' -> sub_num_gpus ws <= 0 ->
  (forall st ds, dep_parse (Some (dep_resolve_job w)) (fun _ => true) (sub_depend_cond ws) = Ok (st, ds) -> deps_fit ds) ->
  good w'.
Proof.
  intros [_ Hg] HI Hs (js & s & He & Hst & Hh) Hgpu Hdep. split; [done|].
  assert (Hj : forall id x, statics w' !! id = Some x ->
    statics w !! id = Some x \/ exists j, j ∈ js /\ x = static_of j).
  { change (statics w') with (fx_jobs (fixed w')). rewrite He. cbn. unfold statics. cbn. clear.
    generalize (jobs w). induction js as [|j js IH]; intros m id x; cbn; [by left|]. intros [H|(y & Hy & ->)]%IH.
    - rewrite fmap_insert in H. apply lookup_insert_Some in H as [[_ <-]|[_ H]]; [|by left].
      right. exists j. split; [left|done].
    - right. exists y. split; [by right|done]. }
  rewrite Forall_forall in Hst, Hh.
  assert (Hseq : fx_seq (fixed w') = job_id_seq w') by done.
  destruct Hg as [G1 G2 G3 G4 G5 G6 G7 G8]. split.
  - intros id [x Hx]. apply Hs. cbn in Hx. unfold statics in Hx. rewrite lookup_fmap in Hx.
    destruct (jobs w' !! id); [by eexists|done].
  - rewrite He. apply G2.
  - rewrite He. apply G3.
  - rewrite He. apply G4.
  - rewrite He. apply G5.
  - intros id x [Hx|(j & Hin & ->)]%Hj; [by eapply G6|]. destruct (Hst j Hin) as [_ [Hd|[st Hd]]].
    + by left.
    + by eapply Hdep.
  - intros id x [Hx|(j & Hin & ->)]%Hj; [by eapply G7|]. destruct (Hst j Hin) as [Hd _]. cbn. lia.
  - intros id x [Hx|(j & Hin & ->)]%Hj; [by eapply G8|]. by apply Hh.
Qed.

(** Registration and disconnection change channels only. *)
Definition with_chan (n : nat) (c : Z) (h : gmap Z nat) (F : fixed_part) : fixed_part :=
  mk_fixed (fx_jobs F) (fx_seq F) (fx_queues F) (fx_queue_hash F) (<[n := c]> (fx_chans F)) h (fx_host_hash F).

Lemma fixed_set_chan n c f w :
  (forall h, sbd_chan (f h) = c) ->
  fixed (upd_host n f w) = with_chan n c (sbd_chan_hash w) (fixed w).
Proof.
  intros Hf. unfold fixed, with_chan. cbn. f_equal. apply list_eq. intros i.
  rewrite (list_lookup_fmap sbd_chan). destruct (decide (i = n)) as [->|Hne].
  - rewrite list_lookup_alter_eq. destruct (hosts w !! n) as [hh|] eqn:Hh; cbn.
    + rewrite Hf, list_lookup_insert_eq; [done|]. rewrite length_map. by eapply lookup_lt_Some.
    + rewrite list_insert_ge; [by rewrite (list_lookup_fmap sbd_chan), Hh|].
      rewrite length_map. by apply lookup_ge_None.
  - by rewrite list_lookup_alter_ne, list_lookup_insert_ne, (list_lookup_fmap sbd_chan) by congruence.
Qed.

Lemma fixed_good_chan n c h F :
  fixed_good F -> c <> 0 ->
  (forall c' n', h !! c' = Some n' -> 0 <= c' /\ <[n := c]> (fx_chans F) !! n' = Some c') ->
  fixed_good (with_chan n c h F).
Proof.
  intros [G1 G2 G3 G4 G5 G6 G7 G8] Hc Hh. split; cbn; try done.
  - intros nm x Hx. rewrite length_insert. by eapply G3.
  - intros i x [(-> & <- & _)|[_ Hx]]%list_lookup_insert_Some; [done|by eapply G5].
Qed.

Lemma mbd_sbd_disconnect_good n nn w :
  good w -> hosts w !! n = Some nn ->
  exists w', mbd_sbd_disconnect n w = Ok w' /\ good w'.
Proof.
  intros G Hn. destruct (mbd_sbd_disconnect n w) as [w'|] eqn:H.
  2:{ unfold mbd_sbd_disconnect, nth_res in H. by rewrite Hn in H. }
  exists w'. split; [done|]. destruct G as [HI Hg].
  split; [apply (mbd_sbd_disconnect_kept n w w w' (kept_refl w HI) H)|].
  unfold mbd_sbd_disconnect, nth_res in H. rewrite Hn in H. cbn [res_bind] in H.
  match type of H with Ok ?x = Ok _ => assert (Hw : x = w') by congruence end. rewrite <- Hw. clear H Hw.
  match goal with |- context [upd_host n ?f w] => set (w1 := upd_host n f w) end.
  assert (H1 : fixed (w1 <| sbd_chan_hash ::= delete (sbd_chan nn) |>) =
    with_chan n (-1) (delete (sbd_chan nn) (sbd_chan_hash w)) (fixed w)).
  { assert (Hx : fixed w1 = with_chan n (-1) (sbd_chan_hash w) (fixed w)) by by apply fixed_set_chan.
    unfold with_chan, fixed in *. cbn in *. injection Hx as Hx1. by rewrite Hx1. }
  rewrite H1. apply fixed_good_chan; [done|done|]. intros c i [Hne Hi]%lookup_delete_Some.
  destruct (fg_chans _ Hg c i Hi) as [H0 Hc]. split; [done|].
  rewrite list_lookup_insert_ne; [done|]. intros ->. cbn in Hc.
  rewrite (list_lookup_fmap sbd_chan), Hn in Hc. by injection Hc.
Qed.

Lemma sbd_run_list_total n w : inv w -> exists l, sbd_run_list n w = Ok l.
Proof.
  intros HI. unfold sbd_run_list. destruct (listed_jobs_ok w JOB_LIST_RUN HI) as (run & Hrun & HR & _).
  change (job_list JOB_LIST_RUN w) with (run_jobs_list w) in Hrun. rewrite Hrun. cbn [res_bind].
  match goal with |- exists l, res_fold ?f run [] = Ok l =>
    destruct (res_fold_total f (fun _ => True) run []) as (l & -> & _); [done| |eauto] end.
  intros c j Hj _.
  assert (Hlen : run_hosts j <> []).
  { apply list_elem_of_lookup in Hj as [i Hi].
    destruct (Forall2_lookup_r _ _ _ i (core j) HR) as (id & _ & Hc); [by rewrite (list_lookup_fmap core), Hi|].
    pose proof (ok_slots _ _ _ _ (ao_jobs _ HI id (core j) Hc)) as [Hs Hl]. cbn in Hs, Hl. intros Hx. rewrite Hx in Hl.
    cbn in Hl. lia. }
  unfold nth_res. destruct (run_hosts j) as [|o l]; [done|]. cbn. eauto.
Qed.

(** The rest of a registration once the channel is set. *)
Definition register_end (e : env) (chan : Z) (n : nat) (w : mbd) (r : option (list (Z * Z))) : res (mbd * bool) :=
  match r with
  | None => let* w := mbd_sbd_disconnect n w in Ok (w, false)
  | Some l =>
      let w := upd_host n (fun h => h <| h_state ::= fun s => Z.lor HOST_OK (Z.land s HOST_CLOSED) |>) w in
      let (w, ok) := auth_sign_header e w in
      if negb ok then let* w := mbd_sbd_disconnect n w in Ok (w, false)
      else Ok ((enqueue_payload e chan BATCH_SBD_REGISTER_ACK MBD_OK (BodyRegister l) w).1, true)
  end.

Lemma register_end_good e chan n hh w r :
  good w -> hosts w !! n = Some hh -> exists w' b, register_end e chan n w r = Ok (w', b) /\ good w'.
Proof.
  intros G Hn. destruct r as [l|]; cbn [register_end].
  - set (w2 := upd_host n _ _).
    assert (G2 : good w2).
    { apply (good_kept w); [done|by apply (upd_host_books n _ w w); [|apply kept_refl, G]|by apply fixed_upd_host]. }
    unfold auth_sign_header. destruct (sign_ok e (io w2)); cbn [negb].
    + eexists _, _. split; [done|]. apply (good_kept w2); [done| |by rewrite fixed_enqueue].
      red. rewrite acct_enqueue. apply G2.
    + destruct (mbd_sbd_disconnect_good n (hh <| h_state ::= fun s => Z.lor HOST_OK (Z.land s HOST_CLOSED) |>)
        (w2 <| io ::= S |>)) as (w4 & -> & G4); [exact G2|cbn; by rewrite list_lookup_alter_eq, Hn|].
      cbn. eauto.
  - destruct (mbd_sbd_disconnect_good n hh w G Hn) as (w4 & -> & G4). cbn. eauto.
Qed.

(** A free host takes a new channel. *)
Lemma take_chan_good n nn chan w :
  good w -> hosts w !! n = Some nn -> sbd_chan nn = -1 -> 0 < chan -> sbd_chan_hash w !! chan = None ->
  good ((upd_host n (fun h => h <| sbd_chan := chan |>) w) <| sbd_chan_hash ::= hash_insert_new chan n |>).
Proof.
  intros G Hn Hfree Hpos Hnew. split; [by apply (upd_host_books n _ w w); [|apply kept_refl, G]|].
  match goal with |- fixed_good (fixed ?x) =>
    assert (Hx : fixed x = with_chan n chan (<[chan := n]> (sbd_chan_hash w)) (fixed w)) end.
  { assert (Hx : fixed (upd_host n (fun h => h <| sbd_chan := chan |>) w) = with_chan n chan (sbd_chan_hash w) (fixed w))
      by by apply fixed_set_chan.
    unfold with_chan, fixed in *. cbn in *. injection Hx as Hx1. unfold hash_insert_new. by rewrite Hx1, Hnew. }
  rewrite Hx. apply fixed_good_chan; [apply G|lia|]. intros c i [[<- <-]|[Hne Hi]]%lookup_insert_Some.
  - split; [lia|]. apply list_lookup_insert_eq. cbn. rewrite length_map. by eapply lookup_lt_Some.
  - destruct (fg_chans _ (proj2 G) c i Hi) as [H0 Hc]. split; [done|].
    rewrite list_lookup_insert_ne; [done|]. intros ->. cbn in Hc.
    rewrite (list_lookup_fmap sbd_chan), Hn in Hc. injection Hc as <-. lia.
Qed.

Lemma mbd_sbd_register_good e chan hn w :
  good w -> 0 < chan -> sbd_chan_hash w !! chan = None ->
  exists w' b, mbd_sbd_register e chan hn w = Ok (w', b) /\ good w'.
Proof.
  intros G Hpos Hnew. unfold mbd_sbd_register.
  destruct (host_name_hash w !! _) as [n|] eqn:Hhn; [|eauto].
  pose proof (fg_hosts _ (proj2 G) _ _ Hhn) as Hlt. cbn in Hlt. rewrite length_map in Hlt.
  destruct (lookup_lt_is_Some_2 _ _ Hlt) as [nn Hn]. unfold nth_res. rewrite Hn. cbn [res_bind].
  destruct (Z.eqb_spec (sbd_chan nn) (-1)) as [Hfree|]; cbn [negb]; [|eauto].
  pose proof (take_chan_good n nn chan w G Hn Hfree Hpos Hnew) as G1. set (w1 := upd sbd_chan_hash _ _) in *.
  assert (Hn1 : exists h1, hosts w1 !! n = Some h1) by (cbn; rewrite list_lookup_alter_eq, Hn; cbn; eauto).
  clearbody w1. destruct Hn1 as [h1 Hn1]. destruct (sbd_run_list_total n w1 (proj1 G1)) as [l Hl].
  unfold build_sbd_run_list. rewrite Hl. cbn [res_bind]. destruct l as [|x l].
  - apply (register_end_good e chan n h1 w1 (Some []) G1 Hn1).
  - unfold try_alloc. cbn [res_bind]. set (w2 := w1 <| io ::= S |>).
    destruct (alloc_ok e (io w1)).
    + apply (register_end_good e chan n h1 w2 (Some (x :: l)) G1 Hn1).
    + apply (register_end_good e chan n h1 w2 None G1 Hn1).
Qed.

Lemma fixed_queue_admin e chan hdr nm op w : wp (queue_admin e chan hdr nm op w) (fun w' => fixed w' = fixed w) True.
Proof.
  unfold queue_admin. destruct (negb _); [cbn [wp]; fixed_eq|].
  destruct (queue_name_hash w !! nm) as [q|]; [|cbn [wp]; fixed_eq].
  apply wp_bind. eapply wp_mono; [apply wp_any|intros qq _|done]. cbn [wp]. rewrite fixed_enqueue_header.
  unfold queue_state_write. destruct (negb _); [|destruct (_ =? _)]; apply fixed_upd_queue.
Qed.

Lemma fixed_host_admin e chan hdr nm op w : wp (host_admin e chan hdr nm op w) (fun w' => fixed w' = fixed w) True.
Proof.
  unfold host_admin. destruct (negb _); [cbn [wp]; fixed_eq|].
  destruct (host_name_hash w !! nm) as [q|]; [|cbn [wp]; fixed_eq].
  apply wp_bind. eapply wp_mono; [apply wp_any|intros hh _|done]. cbn [wp]. rewrite fixed_enqueue_header.
  unfold host_state_write. destruct (negb _); [by apply fixed_upd_host|].
  match goal with |- context [if ?b then _ else _] => destruct b end; by apply fixed_upd_host.
Qed.

(** The hosts and queues a name stands for are there. *)
Lemma admin_total e chan hdr nm op w :
  good w -> (exists w', queue_admin e chan hdr nm op w = Ok w') /\ (exists w', host_admin e chan hdr nm op w = Ok w').
Proof.
  intros G. unfold queue_admin, host_admin. destruct (negb _); [split; eauto|]. split.
  - destruct (queue_name_hash w !! nm) as [q|] eqn:Hq; [|eauto].
    pose proof (good_queues w G _ _ Hq) as Hlt. destruct (lookup_lt_is_Some_2 _ _ Hlt) as [qq Hqq].
    unfold nth_res. rewrite Hqq. cbn. eauto.
  - destruct (host_name_hash w !! nm) as [n|] eqn:Hn; [|eauto].
    pose proof (fg_hosts _ (proj2 G) _ _ Hn) as Hlt. cbn in Hlt. rewrite length_map in Hlt.
    destruct (lookup_lt_is_Some_2 _ _ Hlt) as [hh Hhh]. unfold nth_res. rewrite Hhh. cbn. eauto.
Qed.

(** ** Inputs *)

(** A submission the daemon can take: counts that are not negative, no GPUs, and
    a dependency condition that fits the stack if it parses. *)
Definition submit_fits (w : mbd) (ws : wire_job_submit) : Prop :=
  submit_sane ws /\ sub_num_gpus ws <= 0 /\
  forall st ds, dep_parse (Some (dep_resolve_job w)) (fun _ => true) (sub_depend_cond ws) = Ok (st, ds) -> deps_fit ds.

Inductive input : Type :=
  | InMessage (chan : Z) (ac : arrival client_msg) (asb : arrival sbd_msg)
  | InTimer.

Definition mbd_input `{QSort} (e : env) (i : input) (w : mbd) : res mbd :=
  match i with
  | InMessage chan ac asb => mbd_message e chan ac asb w
  | InTimer => schedule e w
  end.

Definition input_ok (e : env) (w : mbd) (i : input) : Prop :=
  0 < now e /\
  match i with
  | InMessage chan ac asb =>
      0 < chan /\ errnos_ok e /\
      match sbd_chan_hash w !! chan with
      | Some n =>
          match asb with
          | GoodMessage _ (SNewJobReply r) => reply_expected w r
          | GoodMessage _ (SJobFinish f) => dispatched w (fin_job_id f)
          | GoodMessage _ (SSignalReply s _) => sig_reply_expected w n s
          | _ => True
          end
      | None => match ac with GoodMessage _ (MSubmit ws) => submit_fits w ws | _ => True end
      end
  | InTimer =>
      (forall id, job_files_ok e id = true) /\ Z.of_nat (length (pend_jobs_list w)) <= SCHED_SORT_BUF_MAX
  end.

(** A handler that keeps the accounting and the fixed part. *)
Lemma good_handler w (m : res mbd) :
  good w -> wp m (kept w) False -> wp m (fun w' => fixed w' = fixed w) True -> exists w', m = Ok w' /\ good w'.
Proof.
  intros G Hk Hf. destruct (wp_total _ _ Hk) as (w' & -> & [HI _]). exists w'. split; [done|].
  by apply (good_kept w).
Qed.

Section run.
Context {QS : QSort}.

Lemma sbd_route_good e n nn asb w :
  good w -> 0 < now e -> hosts w !! n = Some nn ->
  match asb with
  | GoodMessage _ (SNewJobReply r) => reply_expected w r
  | GoodMessage _ (SJobFinish f) => dispatched w (fin_job_id f)
  | GoodMessage _ (SSignalReply s _) => sig_reply_expected w n s
  | _ => True
  end -> exists w', mbd_sbd_route e n asb w = Ok w' /\ good w'.
Proof.
  intros G Hnow Hn Hex. assert (Hlt := lookup_lt_Some _ _ _ Hn).
  assert (Hgpu : forall id, ~ exists j, jobs w !! id = Some j /\ 0 < num_gpus (rsrc j)).
  { intros id (j & Hj & Hpos). pose proof (good_gpus w G id j Hj). lia. }
  destruct asb as [| |hdr m]; [by eapply mbd_sbd_disconnect_good|by exists w|]. destruct m; cbn [mbd_sbd_route].
  - apply (good_handler w); [done| |apply fixed_new_job_reply].
    eapply wp_mono; [by apply (mbd_new_job_reply_wp e n r w (proj1 G))|by intros a []|apply Hgpu].
  - apply (good_handler w); [done| |apply fixed_job_finish].
    eapply wp_mono; [by apply (mbd_job_finish_wp e n f w (proj1 G))|by intros a []|].
    intros [Hd|Hd]; [by apply Hd|by eapply Hgpu].
  - apply (good_handler w); [done| |apply fixed_signal_reply]. by apply mbd_job_signal_reply_wp; [apply G|..].
  - apply (good_handler w); [done| |apply fixed_job_missing].
    eapply wp_mono; [by apply (mbd_job_missing_wp e n id w (proj1 G))|by intros a []|apply Hgpu].
  - by exists w.
Qed.

Lemma route_good e chan ac w :
  good w -> 0 < now e -> 0 < chan -> errnos_ok e -> sbd_chan_hash w !! chan = None ->
  match ac with GoodMessage _ (MSubmit ws) => submit_fits w ws | _ => True end ->
  exists w', route e chan ac w = Ok w' /\ good w'.
Proof.
  intros G Hnow Hpos Herr Hch Hex. destruct ac as [| |hdr m]; [by exists w..|]. destruct m; cbn [route].
  - destruct Hex as (Hs & Hg & Hd).
    assert (Hreg : wp (job_register e chan hdr ws w) (fun w' => inv w' /\ (seq_ok w -> seq_ok w') /\ submitted ws w w') False).
    { eapply wp_mono; [by apply (job_register_wp e chan hdr ws w (proj1 G))|done|].
      intros Hn. apply Hn. split; [by apply good_queues|]. split; [by apply good_seq|done]. }
    destruct (wp_total _ _ Hreg) as (w' & Hw & HI & Hseq & _). exists w'. split; [done|].
    pose proof (wp_Ok _ _ _ _ (job_register_added e chan hdr ws w Hs Hnow) Hw) as Ha.
    eapply good_added; try done. apply Hseq. by apply good_seq.
  - apply (good_handler w); [done| |apply fixed_jobs_signal].
    eapply wp_mono; [by apply (jobs_signal_wp e chan hdr s w (proj1 G))|done|]. intros Hn. by apply Hn, (good_heads w).
  - destruct (mbd_sbd_register_good e chan hostname w G Hpos Hch) as (w' & b & -> & Hw). cbn. eauto.
  - destruct (admin_total e chan hdr nm op w G) as [[w' Hw] _]. exists w'. split; [done|].
    apply (good_kept w); [done| |by apply (wp_Ok _ _ _ _ (fixed_queue_admin e chan hdr nm op w))].
    apply (queue_admin_kept e chan hdr nm op w w' (kept_refl w (proj1 G)) Hw).
  - destruct (admin_total e chan hdr nm op w G) as [_ [w' Hw]]. exists w'. split; [done|].
    apply (good_kept w); [done| |by apply (wp_Ok _ _ _ _ (fixed_host_admin e chan hdr nm op w))].
    apply (host_admin_kept e chan hdr nm op w w' (kept_refl w (proj1 G)) Hw).
  - apply (good_handler w); [done| |apply fixed_job_move].
    eapply wp_mono; [by apply (job_move_wp e chan hdr id to_queue w (proj1 G))|done|]. intros Hn. by apply Hn, (good_queues w).
  - apply (good_handler w); [done| |apply fixed_job_priority]. by apply job_priority_wp; [apply G|].
Qed.

Lemma mbd_input_good e i w : good w -> input_ok e w i -> exists w', mbd_input e i w = Ok w' /\ good w'.
Proof.
  intros G [Hnow Hi]. destruct i as [chan ac asb|]; cbn [mbd_input].
  - destruct Hi as (Hpos & Herr & Hi). unfold mbd_message. destruct (sbd_chan_hash w !! chan) as [n|] eqn:Hch.
    + destruct (good_chan w G chan n Hch) as (_ & nn & Hn & He). unfold nth_res. rewrite Hn. cbn [res_bind].
      rewrite He, Z.eqb_refl. by eapply sbd_route_good.
    + by apply route_good.
  - destruct Hi as [Hf Hroom].
    destruct (schedule_total e w (proj1 G)) as [w' Hw].
    { split; try done; [by apply good_chan0|by apply good_deps]. }
    exists w'. split; [done|].
    apply (good_kept w); [done|apply (schedule_inv e w w' (proj1 G) Hw)|apply (wp_Ok _ _ _ _ (fixed_schedule e w) Hw)].
Qed.

(** Runs of the daemon on inputs it can take. *)
Inductive run_ok : mbd -> list (env * input) -> Prop :=
  | run_nil w : run_ok w []
  | run_cons e i l w : input_ok e w i -> (forall w', mbd_input e i w = Ok w' -> run_ok w' l) -> run_ok w ((e, i) :: l).

Definition mbd_run (l : list (env * input)) (w : mbd) : res mbd :=
  res_fold (fun w '(e, i) => mbd_input e i w) l w.

Lemma mbd_run_good l w : good w -> run_ok w l -> exists w', mbd_run l w = Ok w' /\ good w'.
Proof.
  intros G Hr. revert G. induction Hr as [w|e i l w Hi _ IH]; intros G; cbn; [by exists w|].
  destruct (mbd_input_good e i w G Hi) as (w1 & H1 & G1). unfold mbd_run in IH. rewrite H1. by apply IH.
Qed.
End run.
