(* ===== verification/MbdRestart.v ===== *)
(** * Crash and restart

    Whatever the daemon did before it stopped, the log it wrote brings the job
    table back: every run is recorded in the log, and the replay of the log on a
    freshly configured daemon restores the durable part of every job and rebuilds
    right books. *)

From S2P Require Import Prelude CString LlHash Dependency LogFormat MbdTypes MbdBase MbdJob MbdSched MbdEvents MbdNet.
From S2P Require Import MbdInv MbdFrame MbdCheck MbdSafe MbdDurable MbdReplay MbdControl MbdSubmit MbdStatic.
From S2P Require Import MbdLogged MbdLoggedSched MbdLoggedSubmit MbdRebuild MbdRun MbdLive MbdProgress.

Open Scope string_scope.
Open Scope list_scope.
Open Scope Z_scope.

Implicit Types (w : mbd) (j d : job_data) (id : Z).

(** ** Every run is recorded *)

Definition input_logs (i : input) : Prop :=
  match i with InMessage _ (GoodMessage _ (MSubmit ws)) _ => submit_logs ws | _ => True end.

Section run.
Context {QS : QSort}.

Lemma sbd_route_logged e n asb w :
  inv w -> match asb with
  | GoodMessage _ (SNewJobReply r) => reply_expected w r
  | GoodMessage _ (SSignalReply s _) => sig_reply_expected w n s
  | _ => True
  end -> wp (mbd_sbd_route e n asb w) (recorded w) True.
Proof.
  intros HI Hex. destruct asb as [| |hdr m]; [apply disconnect_logged|apply recorded_refl|].
  destruct m; cbn [mbd_sbd_route].
  - by apply new_job_reply_logged.
  - by apply job_finish_logged.
  - by apply signal_reply_logged.
  - by apply job_missing_logged.
  - apply recorded_refl.
Qed.

Lemma route_logged e chan ac w :
  inv w -> conf_ok (conf_of w) -> 0 < now e ->
  match ac with GoodMessage _ (MSubmit ws) => submit_sane ws /\ submit_logs ws | _ => True end ->
  wp (route e chan ac w) (recorded w) True.
Proof.
  intros HI C Hnow Hex. destruct ac as [| |hdr m]; [apply recorded_refl..|]. destruct m; cbn [route].
  - destruct Hex. by apply job_register_logged.
  - by apply jobs_signal_logged.
  - apply wp_bind. eapply wp_mono; [apply register_logged| |done]. by intros [w1 b].
  - apply queue_admin_logged.
  - apply host_admin_logged.
  - by apply job_move_logged.
  - by apply job_priority_logged.
Qed.

Lemma mbd_input_logged e i w :
  inv w -> conf_ok (conf_of w) -> input_ok e w i -> input_logs i -> wp (mbd_input e i w) (recorded w) True.
Proof.
  intros HI C [Hnow Hi] Hl. destruct i as [chan ac asb|]; cbn [mbd_input]; [|by apply schedule_logged].
  destruct Hi as (_ & _ & Hi). unfold mbd_message. destruct (sbd_chan_hash w !! chan) as [n|].
  - apply wp_bind. eapply wp_mono; [apply wp_any|intros nn _|done].
    apply wp_bind. eapply wp_mono; [apply wp_any|intros ? _|done].
    apply sbd_route_logged; [done|]. by destruct asb as [| |hdr []].
  - apply route_logged; [done..|]. destruct ac as [| |hdr []]; try done. split; [apply Hi|done].
Qed.
End run.

(** ** The replayed table has the books of the lost one *)

Lemma durable_active j j' : durable j' = durable j -> is_active (state j') = is_active (state j).
Proof. intros H. pose proof (f_equal state H) as Hs. cbn in Hs. destruct (state j), (state j'); cbn in *; congruence. Qed.

(** What the durable part says of the core. *)
Lemma durable_core j j' :
  durable j' = durable j ->
  job_id j' = job_id j /\ queue j' = queue j /\ list_id j' = list_id j /\ num_cpus (rsrc j') = num_cpus (rsrc j) /\
  mem_mb (rsrc j') = mem_mb (rsrc j) /\ storage_mb (rsrc j') = storage_mb (rsrc j) /\ is_exclusive j' = is_exclusive j /\
  num_hosts (rsrc j') = num_hosts (rsrc j) /\ machines (rsrc j') = machines (rsrc j) /\ end_time j' = end_time j.
Proof.
  intros H. unfold is_exclusive.
  pose proof (f_equal (fun d => num_cpus (rsrc d)) H). pose proof (f_equal (fun d => mem_mb (rsrc d)) H).
  pose proof (f_equal (fun d => storage_mb (rsrc d)) H). pose proof (f_equal (fun d => num_hosts (rsrc d)) H).
  pose proof (f_equal (fun d => machines (rsrc d)) H). pose proof (f_equal flags H) as Hf. cbn in Hf. rewrite Hf.
  repeat split; try done; [exact (f_equal job_id H)|exact (f_equal queue H)|exact (f_equal list_id H)|exact (f_equal end_time H)].
Qed.

Lemma durable_inactive j j' : durable j' = durable j -> is_active (state j) = false -> state j' = state j.
Proof.
  intros H Ha. pose proof (durable_active _ _ H) as Ha'. pose proof (f_equal state H) as Hs. cbn in Hs.
  by rewrite Ha', Ha in Hs.
Qed.

Lemma durable_plan j j' :
  durable j' = durable j -> is_active (state j) = true ->
  run_nhosts j' = run_nhosts j /\ take (run_nhosts j') (run_hosts j') = take (run_nhosts j) (run_hosts j).
Proof.
  intros H Ha. pose proof (durable_active _ _ H) as Ha'.
  pose proof (f_equal run_nhosts H) as H1. pose proof (f_equal run_hosts H) as H2. cbn in H1, H2.
  by rewrite Ha', Ha in H1, H2.
Qed.

Lemma durable_core_ok nq nh id j j' :
  durable j' = durable j -> slot_ok nh id j' -> core_ok nq nh id (core j) -> core_ok nq nh id (core j').
Proof.
  intros H (Hid & Hlen & _ & Hptr) [O1 O2 O3 O4 O5 O6 O7 _].
  destruct (durable_core _ _ H) as (E1 & E2 & E3 & E4 & E5 & E6 & E7 & E8 & E9 & E10).
  cbn in *. split; cbn; rewrite ?E2, ?E4, ?E5, ?E6, ?E8, ?E9, ?E10; try done.
  - split; [apply O5|congruence].
  - rewrite E3. destruct (list_id j).
    + rewrite (durable_inactive _ _ H); [done|]. destruct O7 as [[->| ->] _]; done.
    + destruct O7 as (Hs & (hs & Hp) & He). cbn in Hp.
      assert (Ha : is_active (state j) = true) by by destruct Hs as [->| ->].
      destruct (durable_plan _ _ H Ha) as [Hn Ht]. split; [|split; [|done]].
      * pose proof (durable_active _ _ H) as Ha'. rewrite Ha in Ha'. destruct (state j'); (by left) || (by right) || done.
      * exists hs. cbn. by rewrite Ht, Hn.
    + rewrite (durable_inactive _ _ H); [done|]. destruct O7 as [[->| ->] _]; done.
Qed.

Definition kept_field (f : hfield) : bool := match f with HRun | HSusp => false | _ => true end.

Lemma durable_hcontrib f h j j' :
  kept_field f = true -> durable j' = durable j -> (list_id j = JOB_LIST_RUN -> is_active (state j) = true) ->
  hcontrib f h (core j') = hcontrib f h (core j).
Proof.
  intros Hf H Hrun. destruct (durable_core _ _ H) as (_ & _ & E3 & E4 & E5 & E6 & E7 & _ & _ & _).
  assert (Hu : uses (core j') h = uses (core j) h).
  { unfold uses. cbn. rewrite E3. case_bool_decide as Hl; [|done]. cbn.
    by destruct (durable_plan _ _ H (Hrun Hl)) as [_ ->]. }
  unfold hcontrib. rewrite Hu. destruct (uses (core j) h); [|done].
  destruct f; cbn in *; congruence.
Qed.

Lemma durables_hcontrib f h w w' :
  kept_field f = true -> inv w -> durables w' = durables w ->
  mapsum (hcontrib f h) (cores w') = mapsum (hcontrib f h) (cores w).
Proof.
  intros Hf HI Hd. unfold cores. rewrite !mapsum_fmap.
  assert (Hrun : forall id j, jobs w !! id = Some j -> list_id j = JOB_LIST_RUN -> is_active (state j) = true).
  { intros id j Hj Hl. pose proof (job_state_of_list w id j HI Hj) as Hs. rewrite Hl in Hs. by destruct Hs as [->| ->]. }
  assert (Hx : forall w1, durables w1 = durables w ->
    mapsum (fun j => hcontrib f h (core j)) (jobs w1) = mapsum (fun j => hcontrib f h (core j)) (durables w)).
  { intros w1 H1. rewrite <- H1. unfold durables. rewrite mapsum_fmap. apply mapsum_ext. intros id j1 Hj1.
    pose proof (f_equal (fun m => m !! id) H1) as Hid. cbn in Hid. unfold durables in Hid.
    rewrite !lookup_fmap, Hj1 in Hid. destruct (jobs w !! id) as [j|] eqn:Hj; [|done]. apply some_eq in Hid.
    rewrite (durable_hcontrib f h j j1 Hf Hid (Hrun id j Hj)).
    symmetry. apply durable_hcontrib; [done|by rewrite durable_idem|by eapply Hrun]. }
  by rewrite !Hx.
Qed.

(** ** The restart *)

(** A daemon as its configuration makes it: no jobs, and right books. *)
Definition blank (w : mbd) : Prop := inv w /\ jobs w = ∅.

Lemma blank_lists w : blank w -> pend_jobs_list w = [] /\ run_jobs_list w = [] /\ finish_jobs_list w = [].
Proof.
  intros [HI Hj].
  assert (Hl : forall l, a_list l (acct_of w) = []).
  { intros l. destruct (a_list l (acct_of w)) as [|id L] eqn:E; [done|]. exfalso.
    assert (Hin : id ∈ a_list l (acct_of w)) by (rewrite E; left).
    apply (ao_lists _ HI l) in Hin as (c & Hc & _). cbn in Hc. unfold cores in Hc. by rewrite Hj, fmap_empty in Hc. }
  split; [exact (Hl JOB_LIST_PEND)|]. split; [exact (Hl JOB_LIST_RUN)|exact (Hl JOB_LIST_FINISH)].
Qed.

Lemma blank_unused w h hh : blank w -> hosts w !! h = Some hh -> unused hh.
Proof.
  intros [HI Hj] Hh. pose proof (ao_hosts _ HI h hh Hh) as [_ _ _ H4 H5 _ H7 H8 _ _ _].
  cbn in H4, H7, H8. unfold cores in *. rewrite Hj, fmap_empty, !mapsum_empty, ?Z.sub_0_r in *. split; [lia|done].
Qed.

Lemma replayed_rebuildable w0 w w2 :
  blank w0 -> inv w -> (forall id j, jobs w !! id = Some j -> num_gpus (rsrc j) <= 0) ->
  conf_of w0 = conf_of w -> durables w2 = durables w -> table_ok w2 ->
  queues w2 = queues w0 -> hosts w2 = hosts w0 -> rebuildable w2.
Proof.
  intros B HI Hg Hc Hd [HL HS] Hq Hh.
  assert (Hlen : length (queues w0) = length (queues w) /\ length (hosts w0) = length (hosts w)).
  { split; [rewrite <- !(length_map q_name)|rewrite <- !(length_map h_name)]; f_equal;
      [exact (f_equal cf_qnames Hc)|exact (f_equal cf_hnames Hc)]. }
  split.
  - exact HL.
  - intros id j2 Hj2. pose proof (f_equal (fun m => m !! id) Hd) as Hid. cbn in Hid. unfold durables in Hid.
    rewrite !lookup_fmap, Hj2 in Hid. destruct (jobs w !! id) as [j|] eqn:Hj; [|done]. apply some_eq in Hid.
    pose proof (HS _ _ Hj2) as Hs2. rewrite Hh in Hs2. rewrite Hq, Hh. destruct Hlen as [Hl1 Hl2].
    rewrite Hl2 in Hs2. rewrite Hl1, Hl2. split.
    + apply (durable_core_ok _ _ id j); [done|done|by apply inv_job].
    + pose proof (f_equal (fun d => num_gpus (rsrc d)) Hid) as Hx. cbn in Hx. rewrite Hx. by eapply Hg.
  - rewrite Hq, Hh. apply (ao_members _ (proj1 B)).
  - intros h hh. rewrite Hh. by apply blank_unused.
  - intros h hh. rewrite Hh. intros H0.
    pose proof (f_equal (fun c => cf_totals c !! h) Hc) as Ht. cbn in Ht.
    rewrite !(list_lookup_fmap totals), H0 in Ht. destruct (hosts w !! h) as [x|] eqn:Hx; [|done].
    unfold totals in Ht. injection Ht as E1 E2 E3. pose proof (ao_hosts _ HI h x Hx) as [J1 _ _ J4 J5 J6 _ _ J9 _ J11].
    cbn in *. split; rewrite !(durables_hcontrib _ h w w2) by done; rewrite ?E1, ?E2, ?E3.
    + lia.
    + apply J9.
    + apply J9.
    + intros Hex. rewrite <- J1. by apply J11.
Qed.

(** The sequence after the replay: never below an id of the log. *)
Lemma replay_sequence w max :
  exists s, max <= s /\ job_id_seq w <= s /\
    job_id_seq_read (if job_id_seq w <? max then w <| job_id_seq := max |> else w) = w <| job_id_seq := s |>.
Proof.
  unfold job_id_seq_read. destruct (Z.ltb_spec (job_id_seq w) max); cbn;
    destruct (job_id_seq_file w) as [n|]; try (destruct (Z.ltb_spec max n)); try (destruct (Z.ltb_spec (job_id_seq w) n));
    (exists n + exists max + exists (job_id_seq w)); (split; [lia|split; [lia|by destruct w]]).
Qed.

(** The statics of a job are durable. *)
Lemma durables_statics w w' : durables w' = durables w -> statics w' = statics w.
Proof.
  intros H.
  assert (Hx : forall w1, statics w1 = static_of <$> durables w1)
    by (intros w1; unfold statics, durables; rewrite <- map_fmap_compose; done).
  by rewrite !Hx, H.
Qed.

Lemma blank_replayed w0 : blank w0 -> replayed w0 (mk_replay w0 0 0) ∅.
Proof.
  intros [HI Hj]. split; cbn; [unfold durables; by rewrite Hj, fmap_empty| |done|exact (ao_members _ HI)|by intros id [? ?]].
  split; [|rewrite Hj; by intros]. intros l. pose proof (ao_lists _ HI l) as H. cbn in H. by destruct l.
Qed.

Lemma jobs_replay_ok e w0 w evs text :
  (forall n, alloc_ok e n = true) -> blank w0 -> inv w ->
  (forall id j, jobs w !! id = Some j -> num_gpus (rsrc j) <= 0) -> conf_of w0 = conf_of w ->
  forallb line_ok evs = true -> log_text evs = Ok text -> apply_events w0 ∅ evs = Some (durables w) ->
  exists w' n, jobs_replay e (LogText text false) w0 = Ok (w', n) /\ inv w' /\ durables w' = durables w /\
    manifest w' = manifest w0 /\ conf_of w' = conf_of w0 /\
    (forall id, is_Some (jobs w' !! id) -> id <= job_id_seq w') /\
    fixed w' = mk_fixed (statics w) (job_id_seq w') (fx_queues (fixed w0)) (fx_queue_hash (fixed w0))
      (fx_chans (fixed w0)) (fx_chan_hash (fixed w0)) (fx_host_hash (fixed w0)).
Proof.
  intros He B HI Hg Hc Hok Ht Ha. unfold jobs_replay.
  destruct (replay_loop_ok e w0 evs text _ ∅ (durables w) (S (String.length text)) He Hok Ht (blank_replayed w0 B) Ha)
    as (s & -> & [R1 R2 R3 RM R4]); [lia|]. cbn [res_bind guard_or negb].
  destruct (replay_sequence (rp_mbd s) (rp_max_id s)) as (seq & Hs1 & _ & ->).
  set (w2 := rp_mbd s) in *. set (w3 := w2 <| job_id_seq := seq |>).
  assert (R : rebuildable w3).
  { apply (replayed_rebuildable w0 w); try done; [by destruct R2|exact (f_equal queues R3)|exact (f_equal hosts R3)]. }
  destruct (replay_rebuild_ok w3 R) as (w' & -> & HI' & HL & HF). cbn [res_bind].
  rewrite (assert_counters_ok w' HI'). cbn [res_bind]. exists w', (rp_restored s). split; [done|]. split; [done|].
  pose proof (f_equal lg_jobs HL) as L1. pose proof (f_equal lg_log HL) as L2. pose proof (f_equal lg_conf HL) as L3.
  cbn in L1, L2, L3.
  assert (Hd : durables w' = durables w) by (rewrite L1; exact R1).
  assert (Hseq : job_id_seq w' = seq) by (exact (f_equal fx_seq HF)).
  split; [done|]. split; [rewrite L2; exact (f_equal manifest R3)|]. split; [rewrite L3; exact (f_equal conf_of R3)|].
  split.
  - intros id [j Hj]. rewrite Hseq. transitivity (rp_max_id s); [|done]. apply R4. rewrite <- Hd.
    eexists. by apply durables_lookup.
  - rewrite HF, Hseq. unfold fixed. cbn [fx_queues fx_queue_hash fx_chans fx_chan_hash fx_host_hash].
    rewrite (durables_statics w w3) by exact R1.
    pose proof (f_equal queues R3) as Q1. pose proof (f_equal hosts R3) as Q2. pose proof (f_equal queue_name_hash R3) as Q3.
    pose proof (f_equal sbd_chan_hash R3) as Q4. pose proof (f_equal host_name_hash R3) as Q5. cbn in Q1, Q2, Q3, Q4, Q5.
    cbn. by rewrite Q1, Q2, Q3, Q4, Q5.
Qed.

(** ** A daemon over any number of restarts *)

(** The log tells the job table. *)
Definition faithful (w0 w : mbd) : Prop :=
  conf_of w = conf_of w0 /\ apply_events w0 ∅ (manifest w) = Some (durables w).

(** The state a new process starts from: the configuration, and the files the old
    one left. *)
Definition restarted (w0 w : mbd) : mbd :=
  w0 <| manifest := manifest w |> <| job_id_seq_file := job_id_seq_file w |>
     <| queue_files := queue_files w |> <| host_files := host_files w |>.

(** A log the reader takes: every line fits the format and its buffer. *)
Definition readable (w : mbd) (text : string) : Prop :=
  forallb line_ok (manifest w) = true /\ log_text (manifest w) = Ok text.

(** A first start with an empty log. *)
Record first_start (w0 : mbd) : Prop := mk_first_start {
  fs_good : good w0;
  fs_jobs : jobs w0 = ∅;
  fs_log : manifest w0 = [];
  fs_conf : conf_ok (conf_of w0)
}.

Section lifetime.
Context {QS : QSort} (w0 : mbd).

(** Inputs the daemon can take, and crashes followed by a replay of the log. *)
Inductive lifetime : mbd -> Prop :=
  | life_start : lifetime w0
  | life_input e i w w' :
      lifetime w -> input_ok e w i -> input_logs i -> mbd_input e i w = Ok w' -> lifetime w'
  | life_crash e text n w w' :
      lifetime w -> (forall k, alloc_ok e k = true) -> readable w text ->
      jobs_replay e (LogText text false) (restarted w0 w) = Ok (w', n) -> lifetime w'.

Context (F : first_start w0).

Lemma restarted_blank w : blank (restarted w0 w).
Proof using F. split; [exact (proj1 (fs_good _ F))|exact (fs_jobs _ F)]. Qed.

(** A crash at a good state with a faithful log is recovered from. *)
Lemma restart_ok e w text :
  good w -> faithful w0 w -> (forall k, alloc_ok e k = true) -> readable w text ->
  exists w' n, jobs_replay e (LogText text false) (restarted w0 w) = Ok (w', n) /\ good w' /\ faithful w0 w' /\
    durables w' = durables w /\ manifest w' = manifest w.
Proof using F.
  intros G [Hc Ha] He [Hok Ht]. destruct G as [HI HG].
  assert (Hg : forall id j, jobs w !! id = Some j -> num_gpus (rsrc j) <= 0) by (intros; by eapply (good_gpus w)).
  destruct (jobs_replay_ok e (restarted w0 w) w (manifest w) text He (restarted_blank w) HI Hg (eq_sym Hc) Hok Ht)
    as (w' & n & Hr & HI' & Hd & Hm & Hc' & Hseq & HF).
  { by rewrite (apply_events_conf w0). }
  exists w', n. split; [done|]. split; [|split; [|done]].
  - split; [done|]. rewrite HF. destruct (fs_good _ F) as [_ [G1 G2 G3 G4 G5 G6 G7 G8]], HG as [F1 F2 F3 F4 F5 F6 F7 F8].
    split; cbn in *; try done.
    intros id [x Hx]. apply Hseq. rewrite <- (durables_statics w w' Hd) in Hx. unfold statics in Hx.
    rewrite lookup_fmap in Hx. by destruct (jobs w' !! id).
  - split; [by rewrite Hc'|]. rewrite Hm, Hd. exact Ha.
Qed.

Lemma input_faithful e i w w' :
  good w -> faithful w0 w -> input_ok e w i -> input_logs i -> mbd_input e i w = Ok w' -> good w' /\ faithful w0 w'.
Proof using F.
  intros G [Hc Ha] Hi Hl H. split.
  - destruct (mbd_input_good e i w G Hi) as (x & Hx & G'). rewrite H in Hx. by injection Hx as ->.
  - assert (C : conf_ok (conf_of w)) by (rewrite Hc; apply F).
    destruct (wp_Ok _ _ _ _ (mbd_input_logged e i w (proj1 G) C Hi Hl) H) as [Hc' (evs & Hm & He)].
    split; [congruence|]. rewrite Hm, apply_events_app, Ha. by rewrite <- (apply_events_conf w0 w).
Qed.

Lemma lifetime_good w : lifetime w -> good w /\ faithful w0 w.
Proof using F.
  induction 1 as [|e i w w' _ [G Hf] Hi Hl H|e text n w w' _ [G Hf] He Hr H].
  - split; [apply F|]. split; [done|]. rewrite (fs_log _ F). cbn. unfold durables. by rewrite (fs_jobs _ F), fmap_empty.
  - by eapply input_faithful.
  - destruct (restart_ok e w text G Hf He Hr) as (x & m & Hx & G' & Hf' & _). rewrite H in Hx. by injection Hx as -> _.
Qed.
End lifetime.
