(* ===== verification/MbdDemo.v ===== *)
(** * A small cluster

    Two hosts, one queue, one token pool; the states the daemon goes through when
    a job is submitted, scheduled, started and finished.  The properties of the
    daemon are instantiated on these states. *)

From S2P Require Import Prelude CString LlHash Dependency LogFormat MbdTypes MbdBase MbdJob MbdSched MbdNet.
From S2P Require Import MbdInv MbdFrame MbdCheck MbdSafe MbdControl MbdSubmit MbdPlan MbdSchedSafe MbdRun.

Open Scope string_scope.
Open Scope list_scope.
Open Scope Z_scope.

(** ** An insertion sort meets what is asked of qsort *)

Section insertion.
Context {A : Type} (cmp : A -> A -> Z).

Fixpoint sort_insert (x : A) (l : list A) : list A :=
  match l with
  | [] => [x]
  | y :: l' => if cmp x y <=? 0 then x :: l else y :: sort_insert x l'
  end.

Definition insertion_sort (l : list A) : list A := foldr sort_insert [] l.

Lemma sort_insert_perm x l : sort_insert x l ≡ₚ x :: l.
Proof.
  induction l as [|y l IH]; cbn; [done|]. destruct (cmp x y <=? 0); [done|]. rewrite IH. constructor.
Qed.

Lemma insertion_sort_perm l : insertion_sort l ≡ₚ l.
Proof. induction l as [|x l IH]; cbn; [done|]. by rewrite sort_insert_perm, IH. Qed.

Lemma sort_insert_sorted x l :
  (forall b, b ∈ l -> cmp_le cmp x b \/ cmp_le cmp b x) ->
  (forall b c, b ∈ l -> c ∈ l -> cmp_le cmp x b -> cmp_le cmp b c -> cmp_le cmp x c) ->
  StronglySorted (cmp_le cmp) l -> StronglySorted (cmp_le cmp) (sort_insert x l).
Proof.
  intros Htot Htr Hs. induction Hs as [|y l Hs IH Hy]; cbn; [by repeat constructor|].
  destruct (Z.leb_spec (cmp x y) 0) as [Hle|Hgt].
  - constructor; [by constructor|]. apply Forall_cons. split; [done|].
    rewrite Forall_forall in Hy |- *. intros b Hb. eapply Htr; [left|by right|done|by apply Hy].
  - assert (Hyx : cmp_le cmp y x) by (destruct (Htot y ltac:(left)) as [Hx|Hx]; [unfold cmp_le in Hx; lia|done]).
    constructor.
    + apply IH; [intros b Hb; apply Htot; by right|].
      intros b c Hb Hc. apply Htr; by right.
    + rewrite Forall_forall in Hy |- *. intros b. rewrite sort_insert_perm.
      intros [->|Hb]%elem_of_cons; [done|by apply Hy].
Qed.

Lemma insertion_sort_sorted l :
  (forall a b, a ∈ l -> b ∈ l -> cmp_le cmp a b \/ cmp_le cmp b a) ->
  (forall a b c, a ∈ l -> b ∈ l -> c ∈ l -> cmp_le cmp a b -> cmp_le cmp b c -> cmp_le cmp a c) ->
  StronglySorted (cmp_le cmp) (insertion_sort l).
Proof.
  induction l as [|x l IH]; intros Htot Htr; cbn; [constructor|].
  apply sort_insert_sorted.
  - intros b. rewrite insertion_sort_perm. intros Hb. apply Htot; [left|by right].
  - intros b c. rewrite !insertion_sort_perm. intros Hb Hc. apply Htr; [left|by right|by right].
  - apply IH; [intros a b Ha Hb; apply Htot; by right|].
    intros a b c Ha Hb Hc. apply Htr; by right.
Qed.
End insertion.

#[export] Instance insertion_qsort : QSort := {
  qsort := @insertion_sort;
  qsort_perm := @insertion_sort_perm;
  qsort_sorted := @insertion_sort_sorted
}.

(** ** The cluster *)

Definition demo_host (nm : string) (chan : Z) : mbd_host :=
  mk_mbd_host nm "10.0.0.1" 4 4 1000 1000 500 500 (mk_mbd_gpu EmptyString EmptyString 0 [])
    6882 0 HOST_OK false false 0 0 0 chan 0.

Definition demo_queue : mbd_queue :=
  mk_mbd_queue "normal" EmptyString "all" EmptyString 10 100 0 0 0 0 0 QUEUE_OPEN 0 0
    {[ "node1" := 0%nat; "node2" := 1%nat ]} ∅.

Definition demo0 : mbd :=
  mk_mbd ∅ [] [] [] [demo_host "node1" 5; demo_host "node2" 6] [demo_queue]
    [mk_mbd_token_pool "lic" 1 1]
    {[ "node1" := 0%nat; "node2" := 1%nat ]} {[ "normal" := 0%nat ]} {[ "lic" := 0%nat ]} ∅
    {[ 5 := 0%nat; 6 := 1%nat ]} "normal" 500 true 100 None false ∅ ∅ [] [] 0.

Definition demo_env : env :=
  mk_env 1000 (fun _ => true) (fun _ _ => true) (fun _ => true) (fun _ => None) (fun _ => None)
    (fun _ => true) (fun _ => true) 0.

Definition demo_user : caller := mk_caller 1001 1001.

Definition demo_submit (cpus : Z) (tokens : string) : wire_job_submit :=
  mk_wire_job_submit "sim" "normal" "proj" EmptyString EmptyString EmptyString "alice"
    cpus 1 0 100 50 tokens 0 0 0 0 0 0.

Definition or_else (r : res mbd) (d : mbd) : mbd := match r with Ok w => w | Crash _ => d end.

(** Submitted, scheduled, started, finished. *)
Definition demo1 : mbd := or_else (job_register demo_env 9 demo_user (demo_submit 2 "lic=1") demo0) demo0.
Definition demo2 : mbd := or_else (schedule demo_env demo1) demo0.
Definition demo_reply : wire_job_reply := mk_wire_job_reply 101 4242 4242 (job_state_num JOB_RUNNING).
Definition demo3 : mbd := or_else (mbd_new_job_reply demo_env 0 demo_reply demo2) demo0.
Definition demo_finish : wire_job_finish := mk_wire_job_finish 101 0 0 4242.
Definition demo4 : mbd := or_else (mbd_job_finish demo_env 0 demo_finish demo3) demo0.

Lemma demo0_inv : inv demo0.
Proof.
  assert (Hc : a_cores (acct_of demo0) = ∅) by by vm_compute.
  split; rewrite ?Hc.
  - intros id c Hl. by rewrite lookup_empty in Hl.
  - intros l. split; [destruct l; constructor|]. intros id. split.
    + destruct l; by intros ?%not_elem_of_nil.
    + intros (c & Hl & _). by rewrite lookup_empty in Hl.
  - intros q qq Hq f. destruct q as [|q]; [|done]. injection Hq as <-. by destruct f.
  - intros h hh Hh. destruct h as [|[|h]]; [injection Hh as <-..|done]; split; vm_compute; try done; lia.
  - intros q qq Hq nm h Hn. destruct q as [|q]; [|done]. injection Hq as <-. cbn in Hn.
    apply lookup_insert_Some in Hn as [[<- <-]|[_ Hn]]; [by eexists|].
    apply lookup_singleton_Some in Hn as [<- <-]. by eexists.
Qed.

Lemma demo_submit_sane c t : 0 <= c -> submit_sane (demo_submit c t).
Proof. intros. by repeat split. Qed.

Lemma demo1_ok : job_register demo_env 9 demo_user (demo_submit 2 "lic=1") demo0 = Ok demo1.
Proof. vm_compute. reflexivity. Qed.

Lemma demo2_ok : schedule demo_env demo1 = Ok demo2.
Proof. vm_compute. reflexivity. Qed.

Lemma demo3_ok : mbd_new_job_reply demo_env 0 demo_reply demo2 = Ok demo3.
Proof. vm_compute. reflexivity. Qed.

Lemma demo4_ok : mbd_job_finish demo_env 0 demo_finish demo3 = Ok demo4.
Proof. vm_compute. reflexivity. Qed.

Lemma demo_reply_expected : reply_expected demo2 demo_reply.
Proof. intros j Hj. vm_compute in Hj. injection Hj as <-. by left. Qed.

(** The run of the demo as steps of the daemon. *)
Lemma demo_reachable : reachable demo0 demo4.
Proof.
  assert (H1 : mbd_step demo0 demo1).
  { apply (step_message demo_env 9 (GoodMessage demo_user (MSubmit (demo_submit 2 "lic=1"))) BadMessage).
    - done.
    - by apply demo_submit_sane.
    - intros n Hn. by vm_compute in Hn.
    - vm_compute. reflexivity. }
  assert (H2 : mbd_step demo1 demo2) by apply (step_timer demo_env), demo2_ok.
  assert (H3 : mbd_step demo2 demo3).
  { apply (step_message demo_env 5 BadMessage (GoodMessage demo_user (SNewJobReply demo_reply))).
    - done.
    - exact I.
    - intros n _. exact demo_reply_expected.
    - vm_compute. reflexivity. }
  assert (H4 : mbd_step demo3 demo4).
  { apply (step_message demo_env 5 BadMessage (GoodMessage demo_user (SJobFinish demo_finish))).
    - done.
    - exact I.
    - intros n _. exact I.
    - vm_compute. reflexivity. }
  exact (reach_step _ _ _ (reach_step _ _ _ (reach_step _ _ _ (reach_step _ _ _ (reach_start _) H1) H2) H3) H4).
Qed.

Lemma demo_inv1 : inv demo1.
Proof.
  apply (wp_Ok _ _ _ _ (job_register_wp demo_env 9 demo_user (demo_submit 2 "lic=1") demo0 demo0_inv
    (demo_submit_sane 2 "lic=1" ltac:(lia)) ltac:(done)) demo1_ok).
Qed.

Lemma demo_inv2 : inv demo2.
Proof. apply (schedule_inv demo_env demo1 demo2 demo_inv1 demo2_ok). Qed.

Lemma demo_inv3 : inv demo3.
Proof.
  apply (wp_Ok _ _ _ _ (mbd_new_job_reply_wp demo_env 0 demo_reply demo2 demo_inv2
    ltac:(vm_compute; lia) ltac:(done) demo_reply_expected) demo3_ok).
Qed.
