(* ===== verification/LlList.v ===== *)
(** * The intrusive doubly linked list (base/lib/ll.list.c)

    The entries live in a memory of cells, [next] and [prev] are addresses and the
    list record holds the two ends and the count.  [is_list] says which sequence of
    addresses a list stands for; every operation is shown to do to that sequence what
    the daemons' models do to their sequences of job ids, and to leave the entries of
    other lists alone. *)

From S2P Require Import Prelude CString LlHash Dependency LogFormat MbdTypes MbdBase MbdJob MbdSched MbdDemo.

Open Scope list_scope.
Open Scope Z_scope.

(** ** Memory *)

(** The address of an entry. *)
Abbreviation addr := Z (only parsing).

Record ll_list_entry : Type := mk_ll_list_entry {
  le_next : option addr;
  le_prev : option addr
}.

Abbreviation cells := (gmap Z ll_list_entry).

Record ll_list : Type := mk_ll_list {
  l_head : option addr;
  l_tail : option addr;
  l_count : Z
}.

(** Reading through a pointer that points nowhere is undefined. *)
Definition load (m : cells) (p : addr) : res ll_list_entry := deref (m !! p).

Definition set_next (m : cells) (p : addr) (v : option addr) : res cells :=
  let* e := load m p in Ok (<[p := mk_ll_list_entry v (le_prev e)]> m).

Definition set_prev (m : cells) (p : addr) (v : option addr) : res cells :=
  let* e := load m p in Ok (<[p := mk_ll_list_entry (le_next e) v]> m).

Definition set_entry (m : cells) (p : addr) (nx pv : option addr) : res cells :=
  let* m := set_next m p nx in set_prev m p pv.

(** ** Operations *)

Definition ll_list_init : ll_list := mk_ll_list None None 0.

(** [alloc] is whether calloc succeeds; [None] is NULL. *)
Definition ll_list_create (alloc : bool) : option ll_list :=
  if alloc then Some ll_list_init else None.

Definition ll_list_append (m : cells) (l : ll_list) (ent : addr) : res (cells * ll_list) :=
  let* m := set_entry m ent None (l_tail l) in
  match l_tail l with
  | Some t => let* m := set_next m t (Some ent) in
              Ok (m, mk_ll_list (l_head l) (Some ent) (l_count l + 1))
  | None => Ok (m, mk_ll_list (Some ent) (Some ent) (l_count l + 1))
  end.

Definition ll_list_remove (m : cells) (l : ll_list) (ent : option addr) : res (cells * ll_list) :=
  match ent with
  | None => Ok (m, l)
  | Some ent =>
      let* e := load m ent in
      let* mh := match le_prev e with
                 | Some p => let* m := set_next m p (le_next e) in Ok (m, l_head l)
                 | None => Ok (m, le_next e)
                 end in
      let (m, head) := mh : cells * option addr in
      let* e := load m ent in
      let* mt := match le_next e with
                 | Some q => let* m := set_prev m q (le_prev e) in Ok (m, l_tail l)
                 | None => Ok (m, le_prev e)
                 end in
      let (m, tail) := mt : cells * option addr in
      let* m := set_entry m ent None None in
      Ok (m, mk_ll_list head tail (l_count l - 1))
  end.

Definition ll_list_is_empty (l : ll_list) : bool :=
  match l_head l with None => true | Some _ => false end.

Definition ll_list_count (l : ll_list) : Z := l_count l.

Definition ll_list_push (m : cells) (l : ll_list) (ent : addr) : res (cells * ll_list) :=
  let* m := set_prev m ent None in
  let* m := set_next m ent (l_head l) in
  match l_head l with
  | Some h => let* m := set_prev m h (Some ent) in
              Ok (m, mk_ll_list (Some ent) (l_tail l) (l_count l + 1))
  | None => Ok (m, mk_ll_list (Some ent) (Some ent) (l_count l + 1))
  end.

Definition ll_list_pop (m : cells) (l : ll_list) : res (cells * ll_list * option addr) :=
  match l_head l with
  | None => Ok (m, l, None)
  | Some ent =>
      let* e := load m ent in
      let* mt := match le_next e with
                 | Some h => let* m := set_prev m h None in Ok (m, l_tail l)
                 | None => Ok (m, None)
                 end in
      let (m, tail) := mt : cells * option addr in
      let* m := set_entry m ent None None in
      Ok (m, mk_ll_list (le_next e) tail (l_count l - 1), Some ent)
  end.

Definition ll_list_dequeue (m : cells) (l : ll_list) : res (cells * ll_list * option addr) :=
  ll_list_pop m l.

(** The loop [for (e = head; e; e = e->next)] with the addresses it visits. *)
Fixpoint list_walk (fuel : nat) (m : cells) (e : option addr) : res (list addr) :=
  match e with
  | None => Ok []
  | Some p =>
      match fuel with
      | O => Crash OutOfFuel
      | S fuel =>
          let* c := load m p in
          let* l := list_walk fuel m (le_next c) in
          Ok (p :: l)
      end
  end.

(** [ll_list_foreach]: the arguments of the calls of [fn]; a list has at most as
    many entries as the memory has cells. *)
Definition ll_list_foreach (m : cells) (l : ll_list) : res (list addr) :=
  list_walk (size m) m (l_head l).

Fixpoint list_walk_back (fuel : nat) (m : cells) (e : option addr) : res (list addr) :=
  match e with
  | None => Ok []
  | Some p =>
      match fuel with
      | O => Crash OutOfFuel
      | S fuel =>
          let* c := load m p in
          let* l := list_walk_back fuel m (le_prev c) in
          Ok (p :: l)
      end
  end.

Definition ll_list_foreach_reverse (m : cells) (l : ll_list) : res (list addr) :=
  list_walk_back (size m) m (l_tail l).

(** The arguments of the cleanup callback, which may free the entry. *)
Definition ll_list_clear (m : cells) (l : ll_list) : res (ll_list * list addr) :=
  let* visited := list_walk (size m) m (l_head l) in Ok (ll_list_init, visited).

(** The first [n] entries, read by [arr[i] = e; e = e->next]. *)
Fixpoint list_take (n : nat) (m : cells) (e : option addr) : res (list addr) :=
  match n with
  | O => Ok []
  | S n' =>
      let* p := deref e in
      let* c := load m p in
      let* l := list_take n' m (le_next c) in
      Ok (p :: l)
  end.

Definition list_rebuild (m : cells) (arr : list addr) : res (cells * ll_list) :=
  res_fold (fun (ml : cells * ll_list) ent => ll_list_append ml.1 ml.2 ent) arr (m, ll_list_init).

(** [buf] holds at least [l_count l] pointers. *)
Definition ll_list_sort_buf `{QSort} (cmp : addr -> addr -> Z) (m : cells) (l : ll_list)
    : res (cells * ll_list) :=
  if l_count l <? 2 then Ok (m, l)
  else
    let* arr := list_take (Z.to_nat (l_count l)) m (l_head l) in
    list_rebuild m (qsort cmp arr).

(** [false] is -1, when calloc fails. *)
Definition ll_list_sort `{QSort} (alloc : bool) (cmp : addr -> addr -> Z) (m : cells) (l : ll_list)
    : res (cells * ll_list * bool) :=
  if l_count l <? 2 then Ok (m, l, true)
  else if negb alloc then Ok (m, l, false)
  else
    let* arr := list_take (Z.to_nat (l_count l)) m (l_head l) in
    let* ml := list_rebuild m (qsort cmp arr) in
    Ok (ml, true).

(** ** Segments *)

(** The first address of [xs], [q] when there is none; the last one, [p] when there
    is none. *)
Definition first_or (xs : list addr) (q : option addr) : option addr :=
  match xs with [] => q | x :: _ => Some x end.

Definition last_or (p : option addr) (xs : list addr) : option addr :=
  match last xs with None => p | Some x => Some x end.

(** [lseg m p xs q]: the cells [xs] are linked in this order, [p] is before the first
    and [q] after the last. *)
Fixpoint lseg (m : cells) (p : option addr) (xs : list addr) (q : option addr) : Prop :=
  match xs with
  | [] => True
  | x :: xs' => m !! x = Some (mk_ll_list_entry (first_or xs' q) p) /\ lseg m (Some x) xs' q
  end.

(** The sequence a list stands for. *)
Record is_list (m : cells) (l : ll_list) (xs : list addr) : Prop := mk_is_list {
  il_seg : lseg m None xs None;
  il_head : l_head l = first_or xs None;
  il_tail : l_tail l = last_or None xs;
  il_count : l_count l = Z.of_nat (length xs);
  il_nodup : NoDup xs
}.

(** Cells outside [xs] are as they were. *)
Definition same_outside (xs : list addr) (m m' : cells) : Prop :=
  forall y, y ∉ xs -> m' !! y = m !! y.

Lemma last_or_cons p x xs : last_or p (x :: xs) = last_or (Some x) xs.
Proof. unfold last_or. rewrite last_cons. by destruct (last xs). Qed.

Lemma last_or_snoc p xs x : last_or p (xs ++ [x]) = Some x.
Proof. unfold last_or. by rewrite last_snoc. Qed.

Lemma lseg_app m p xs ys q :
  lseg m p (xs ++ ys) q <-> lseg m p xs (first_or ys q) /\ lseg m (last_or p xs) ys q.
Proof.
  revert p. induction xs as [|x xs IH]; intros p; [by cbn; tauto|]. cbn [lseg app]. rewrite IH, last_or_cons.
  replace (first_or (xs ++ ys) q) with (first_or xs (first_or ys q)) by by destruct xs. tauto.
Qed.

Lemma lseg_same m m' p xs q : (forall x, x ∈ xs -> m' !! x = m !! x) -> lseg m p xs q -> lseg m' p xs q.
Proof.
  revert p. induction xs as [|x xs IH]; intros p Hs; [done|]. cbn. intros [H1 H2].
  rewrite Hs by by left. split; [done|]. apply IH; [|done]. intros y Hy. apply Hs. by right.
Qed.

Lemma lseg_in m p xs q x : lseg m p xs q -> x ∈ xs -> is_Some (m !! x).
Proof.
  revert p. induction xs as [|y xs IH]; intros p; [by intros _ ?%not_elem_of_nil|]. cbn.
  intros [H1 H2] [->|Hx]%elem_of_cons; [by eexists|by eapply IH].
Qed.

Lemma lseg_dom m p xs q : lseg m p xs q -> list_to_set xs ⊆@{gset addr} dom m.
Proof.
  intros H x Hx. rewrite elem_of_list_to_set in Hx. apply elem_of_dom. by eapply lseg_in.
Qed.

Lemma lseg_length m p xs q : NoDup xs -> lseg m p xs q -> (length xs <= size m)%nat.
Proof.
  intros N H. rewrite <- (size_list_to_set (C := gset addr) xs N), <- (size_dom (D := gset addr) m).
  by apply subseteq_size, (lseg_dom m p xs q).
Qed.

(** ** Writing through pointers *)

Lemma set_next_Ok m p e v : m !! p = Some e -> set_next m p v = Ok (<[p := mk_ll_list_entry v (le_prev e)]> m).
Proof. intros H. unfold set_next, load. by rewrite H. Qed.

Lemma set_prev_Ok m p e v : m !! p = Some e -> set_prev m p v = Ok (<[p := mk_ll_list_entry (le_next e) v]> m).
Proof. intros H. unfold set_prev, load. by rewrite H. Qed.

Lemma set_entry_Ok m p nx pv : is_Some (m !! p) -> set_entry m p nx pv = Ok (<[p := mk_ll_list_entry nx pv]> m).
Proof.
  intros [e H]. unfold set_entry. rewrite (set_next_Ok _ _ e) by done. cbn [res_bind].
  rewrite (set_prev_Ok _ _ (mk_ll_list_entry nx (le_prev e))) by by rewrite lookup_insert_eq.
  cbn. by rewrite insert_insert_eq.
Qed.

Lemma insert_outside (m : cells) x v xs : x ∈ xs -> same_outside xs m (<[x := v]> m).
Proof. intros Hx y Hy. rewrite lookup_insert_ne; [done|]. by intros ->. Qed.

Lemma outside_trans xs m1 m2 m3 : same_outside xs m1 m2 -> same_outside xs m2 m3 -> same_outside xs m1 m3.
Proof. intros H1 H2 y Hy. by rewrite H2, H1. Qed.

Lemma lseg_insert m p xs q x v : x ∉ xs -> lseg m p xs q -> lseg (<[x := v]> m) p xs q.
Proof.
  intros Hx. apply lseg_same. intros y Hy. rewrite lookup_insert_ne; [done|]. by intros ->.
Qed.

(** A segment whose first cell gets another predecessor, or whose last cell another
    successor. *)
Lemma lseg_set_first m p p' x xs q :
  NoDup (x :: xs) -> lseg m p (x :: xs) q ->
  lseg (<[x := mk_ll_list_entry (first_or xs q) p']> m) p' (x :: xs) q.
Proof.
  intros [Hx N]%NoDup_cons [H1 H2]. split; [by rewrite lookup_insert_eq|]. by apply lseg_insert.
Qed.

Lemma lseg_set_last m p xs x q q' :
  NoDup (xs ++ [x]) -> lseg m p (xs ++ [x]) q ->
  lseg (<[x := mk_ll_list_entry q' (last_or p xs)]> m) p (xs ++ [x]) q'.
Proof.
  intros (N & Hd & _)%NoDup_app [H1 H2]%lseg_app. apply lseg_app. cbn in H1 |- *. split.
  - apply lseg_insert; [|done]. intros Hx. apply (Hd x Hx). by left.
  - split; [by rewrite lookup_insert_eq|done].
Qed.

(** The last cell of a list that is not empty. *)
Lemma last_split xs t : last_or None xs = Some t -> exists ys, xs = ys ++ [t].
Proof.
  unfold last_or. destruct (last xs) as [y|] eqn:H; [|done]. intros [= ->]. by apply last_Some.
Qed.

Lemma last_none xs : last_or None xs = None -> xs = [].
Proof. unfold last_or. destruct (last xs) eqn:H; [done|]. by apply last_None in H. Qed.

(** ** Append and push *)

Lemma append_refines m l xs x :
  is_list m l xs -> x ∉ xs -> is_Some (m !! x) ->
  exists m' l', ll_list_append m l x = Ok (m', l') /\ is_list m' l' (xs ++ [x]) /\ same_outside (x :: xs) m m'.
Proof.
  intros [S Hh Ht Hc N] Hx Hm. unfold ll_list_append. rewrite set_entry_Ok by done. cbn [res_bind].
  assert (N' : NoDup (xs ++ [x])).
  { apply NoDup_app. split_and!; [done| |apply NoDup_singleton]. intros y Hy ->%list_elem_of_singleton. done. }
  destruct (l_tail l) as [t|] eqn:Htl.
  - destruct (last_split xs t (eq_sym Ht)) as [ys ->].
    pose proof S as [S1 [S2 _]]%lseg_app. cbn [first_or] in S1, S2.
    assert (Hxt : x <> t) by (intros ->; apply Hx, elem_of_app; right; by left).
    rewrite (set_next_Ok _ _ (mk_ll_list_entry None (last_or None ys))).
    2: { by rewrite lookup_insert_ne. }
    cbn [res_bind le_prev]. eexists _, _. split; [done|]. split; [split; cbn|].
    + apply lseg_app. rewrite last_or_snoc. split.
      * apply (lseg_set_last _ _ _ _ None); [done|]. by apply lseg_insert.
      * split; [|done]. rewrite lookup_insert_ne, lookup_insert_eq by done. cbn. done.
    + rewrite Hh. by destruct ys.
    + by rewrite last_or_snoc.
    + rewrite Hc, !length_app. cbn. lia.
    + done.
    + eapply outside_trans; apply insert_outside; [by left|]. right. apply elem_of_app. right. by left.
  - apply eq_sym, last_none in Ht as ->. eexists _, _. split; [done|]. split; [split; cbn|].
    + by rewrite lookup_insert_eq.
    + done.
    + done.
    + rewrite Hc. done.
    + apply NoDup_singleton.
    + apply insert_outside. by left.
Qed.

Lemma push_refines m l xs x :
  is_list m l xs -> x ∉ xs -> is_Some (m !! x) ->
  exists m' l', ll_list_push m l x = Ok (m', l') /\ is_list m' l' (x :: xs) /\ same_outside (x :: xs) m m'.
Proof.
  intros [S Hh Ht Hc N] Hx [e He]. unfold ll_list_push. rewrite (set_prev_Ok _ _ e) by done. cbn [res_bind].
  rewrite (set_next_Ok _ _ (mk_ll_list_entry (le_next e) None)) by by rewrite lookup_insert_eq.
  cbn [res_bind le_prev]. rewrite insert_insert_eq.
  assert (N' : NoDup (x :: xs)) by by apply NoDup_cons.
  destruct xs as [|h xs]; rewrite Hh; cbn [first_or].
  - eexists _, _. split; [done|]. split; [split; cbn|].
    + by rewrite lookup_insert_eq.
    + done.
    + done.
    + by rewrite Hc.
    + done.
    + apply insert_outside. by left.
  - assert (Hxh : x <> h) by (intros ->; apply Hx; by left). cbn in S. destruct S as [S1 S2].
    rewrite (set_prev_Ok _ _ (mk_ll_list_entry (first_or xs None) None)) by by rewrite lookup_insert_ne.
    cbn [res_bind le_next]. eexists _, _. split; [done|]. split; [split; cbn -[lseg]|].
    + split; [rewrite lookup_insert_ne, lookup_insert_eq by done; cbn; done|].
      apply (lseg_set_first _ None); [done|]. apply lseg_insert; [done|]. by split.
    + done.
    + rewrite Ht, !last_or_cons. done.
    + rewrite Hc. cbn. lia.
    + done.
    + eapply outside_trans; apply insert_outside; [by left|]. right. by left.
Qed.

(** ** Remove and pop *)

(** Unlinking from the left: the cells before [x] now lead to what follows it. *)
Lemma unlink_left m ys x q :
  NoDup (ys ++ [x]) -> lseg m None ys (Some x) -> m !! x = Some (mk_ll_list_entry q (last_or None ys)) ->
  exists m', match last_or None ys with
             | Some p => let* m := set_next m p q in Ok (m, first_or ys (Some x))
             | None => Ok (m, q)
             end = Ok (m', first_or ys q) /\ lseg m' None ys q /\ same_outside ys m m'.
Proof.
  intros N S Hx. destruct (last_or None ys) as [p|] eqn:Hp.
  - destruct (last_split ys p Hp) as [us ->]. pose proof S as [_ [S2 _]]%lseg_app.
    rewrite (set_next_Ok _ _ _ _ S2). cbn [res_bind le_prev]. eexists. split; [by destruct us|]. split.
    + apply (lseg_set_last _ _ _ _ (Some x)); [|done]. by apply NoDup_app in N as [? _].
    + apply insert_outside, elem_of_app. right. by left.
  - apply last_none in Hp as ->. eexists. by split.
Qed.

(** Unlinking from the right. *)
Lemma unlink_right m zs p t :
  NoDup zs -> (exists p', lseg m p' zs None) -> t = last_or p zs ->
  exists m', match first_or zs None with
             | Some q => let* m := set_prev m q p in Ok (m, t)
             | None => Ok (m, p)
             end = Ok (m', t) /\ lseg m' p zs None /\ same_outside zs m m'.
Proof.
  intros N [p' S] ->. destruct zs as [|q zs]; cbn [first_or].
  - eexists. by split.
  - pose proof S as [S1 _]. rewrite (set_prev_Ok _ _ _ _ S1). cbn [res_bind le_next]. eexists. split; [done|].
    split; [by eapply lseg_set_first|]. apply insert_outside. by left.
Qed.

Lemma remove_refines m l ys x zs :
  is_list m l (ys ++ x :: zs) ->
  exists m' l', ll_list_remove m l (Some x) = Ok (m', l') /\ is_list m' l' (ys ++ zs) /\
    same_outside (ys ++ x :: zs) m m' /\ m' !! x = Some (mk_ll_list_entry None None).
Proof.
  intros [S Hh Ht Hc N]. pose proof N as (Ny & Hyz & [Hxz Nz]%NoDup_cons)%NoDup_app.
  pose proof S as [S1 [S2 S3]]%lseg_app. cbn [first_or] in S1.
  assert (Hxy : x ∉ ys) by (intros Hx; apply (Hyz x Hx); by left).
  assert (Nyx : NoDup (ys ++ [x])).
  { apply NoDup_app. split_and!; [done| |apply NoDup_singleton]. by intros y Hy ->%list_elem_of_singleton. }
  assert (Hhd : l_head l = first_or ys (Some x)) by (rewrite Hh; by destruct ys).
  assert (Htl : l_tail l = last_or (Some x) zs).
  { rewrite Ht. unfold last_or. rewrite last_app, last_cons. by destruct (last zs). }
  unfold ll_list_remove, load at 1. rewrite S2. cbn [deref res_bind le_next le_prev]. rewrite Hhd.
  destruct (unlink_left m ys x (first_or zs None) Nyx S1 S2) as (m1 & -> & T1 & O1). cbn [res_bind].
  unfold load at 1. rewrite O1, S2 by done. cbn [deref res_bind le_next le_prev]. rewrite Htl.
  assert (T3 : lseg m1 (Some x) zs None).
  { apply (lseg_same m); [|done]. intros z Hz. apply O1. intros Hy. apply (Hyz z Hy). by right. }
  destruct (first_or zs None) as [q|] eqn:Hq.
  - destruct zs as [|z zs]; [done|]. cbn in Hq. injection Hq as ->.
    destruct (unlink_right m1 (q :: zs) (last_or None ys) (last_or (last_or None ys) (q :: zs)))
      as (m2 & H2 & T2 & O2); [done|by eexists|done|].
    cbn [first_or] in H2. rewrite !last_or_cons in H2 |- *. rewrite H2. cbn [res_bind].
    assert (Hm2 : m2 !! x = m1 !! x) by by apply O2.
    rewrite set_entry_Ok by (rewrite Hm2, O1, S2 by done; by eexists). cbn [res_bind].
    eexists _, _. split; [done|]. split_and!; [split; cbn -[lseg]| |by rewrite lookup_insert_eq].
    + apply lseg_insert; [by intros [?|?]%elem_of_app|]. apply lseg_app. cbn [first_or]. split; [|done].
      apply (lseg_same m1); [|done]. intros y Hy. apply O2. intros Hz. apply (Hyz y Hy). by right.
    + by destruct ys.
    + unfold last_or. rewrite last_app, last_cons. by destruct (last zs).
    + rewrite Hc, !length_app. cbn. lia.
    + apply NoDup_app. split_and!; [done| |done]. intros y Hy Hz. apply (Hyz y Hy). by right.
    + intros y Hy. rewrite not_elem_of_app, not_elem_of_cons in Hy. destruct Hy as (Hy & Hyx & Hy').
      rewrite lookup_insert_ne, O2, O1 by done. done.
  - destruct zs as [|z zs]; [|done]. cbn [res_bind]. rewrite set_entry_Ok by (rewrite O1, S2 by done; by eexists). cbn [res_bind].
    eexists _, _. split; [done|]. rewrite app_nil_r. split_and!; [split; cbn -[lseg]| |by rewrite lookup_insert_eq].
    + by apply lseg_insert.
    + done.
    + done.
    + rewrite Hc, !length_app. cbn. lia.
    + done.
    + intros y Hy. rewrite not_elem_of_app, not_elem_of_cons in Hy. destruct Hy as (Hy & Hyx & _).
      by rewrite lookup_insert_ne, O1.
Qed.

Lemma pop_refines m l xs :
  is_list m l xs ->
  match xs with
  | [] => ll_list_pop m l = Ok (m, l, None)
  | x :: xs' => exists m' l', ll_list_pop m l = Ok (m', l', Some x) /\ is_list m' l' xs' /\
                  same_outside xs m m' /\ m' !! x = Some (mk_ll_list_entry None None)
  end.
Proof.
  intros L. destruct xs as [|x xs].
  - unfold ll_list_pop. by rewrite (il_head _ _ _ L).
  - destruct (remove_refines m l [] x xs L) as (m' & l' & H & R). exists m', l'. split; [|done].
    destruct L as [[S1 S2] Hh Ht Hc N]. unfold ll_list_remove, load in H. rewrite S1 in H. cbn in H. rewrite S1 in H.
    cbn [deref res_bind le_next le_prev] in H. unfold ll_list_pop, load. rewrite Hh. cbn [first_or]. rewrite S1.
    cbn [deref res_bind le_next le_prev].
    destruct (first_or xs None) as [q|]; inv_res; [rewrite Hr0|]; cbn [res_bind]; by rewrite Hr.
Qed.

(** ** Loops over a list *)

Lemma walk_seg fuel m p xs : lseg m p xs None -> (length xs <= fuel)%nat -> list_walk fuel m (first_or xs None) = Ok xs.
Proof.
  revert fuel p. induction xs as [|x xs IH]; intros fuel p S Hf; [by destruct fuel|].
  destruct fuel as [|fuel]; [cbn in Hf; lia|]. destruct S as [S1 S2]. cbn [first_or list_walk]. unfold load. rewrite S1.
  cbn [deref res_bind le_next]. rewrite (IH fuel (Some x)); [done|done|cbn in Hf; lia].
Qed.

Lemma walk_back_seg fuel m xs q :
  lseg m None xs q -> (length xs <= fuel)%nat -> list_walk_back fuel m (last_or None xs) = Ok (rev xs).
Proof.
  revert fuel q. induction xs as [|x xs IH] using rev_ind; intros fuel q S Hf; [by destruct fuel|].
  rewrite length_app in Hf. cbn in Hf. destruct fuel as [|fuel]; [lia|].
  apply lseg_app in S as [S1 [S2 _]]. rewrite last_or_snoc. cbn [list_walk_back]. unfold load. rewrite S2.
  cbn [deref res_bind le_prev]. rewrite (IH fuel _ S1) by lia. by rewrite rev_app_distr.
Qed.

Lemma take_seg m p xs : lseg m p xs None -> list_take (length xs) m (first_or xs None) = Ok xs.
Proof.
  revert p. induction xs as [|x xs IH]; intros p S; [done|]. destruct S as [S1 S2].
  cbn [first_or length list_take deref res_bind]. unfold load. rewrite S1. cbn [deref res_bind le_next].
  by rewrite (IH _ S2).
Qed.

Lemma rebuild_loop m l xs ys :
  is_list m l xs -> NoDup (xs ++ ys) -> (forall y, y ∈ ys -> is_Some (m !! y)) ->
  exists m' l', res_fold (fun (ml : cells * ll_list) ent => ll_list_append ml.1 ml.2 ent) ys (m, l) = Ok (m', l') /\
    is_list m' l' (xs ++ ys) /\ same_outside (xs ++ ys) m m'.
Proof.
  revert m l xs. induction ys as [|y ys IH]; intros m l xs L N Hm.
  { exists m, l. rewrite app_nil_r. by split_and!. }
  pose proof N as (_ & Hd & [Hy _]%NoDup_cons)%NoDup_app.
  destruct (append_refines m l xs y) as (m1 & l1 & H1 & L1 & O1); [done| |apply Hm; by left|].
  { intros Hx. apply (Hd y Hx). by left. }
  cbn [res_fold fst snd]. rewrite H1. cbn [res_bind].
  destruct (IH m1 l1 (xs ++ [y])) as (m2 & l2 & H2 & L2 & O2); [done| | |].
  - by rewrite <- app_assoc.
  - intros z Hz. rewrite O1; [apply Hm; by right|]. intros [->|Hx]%elem_of_cons; [done|].
    apply (Hd z Hx). by right.
  - rewrite <- !app_assoc in *. exists m2, l2. split_and!; [done|done|]. eapply outside_trans; [|exact O2].
    intros z Hz. apply O1. intros Hz'. apply Hz. set_solver.
Qed.

Lemma rebuild_refines m xs :
  NoDup xs -> (forall x, x ∈ xs -> is_Some (m !! x)) ->
  exists m' l', list_rebuild m xs = Ok (m', l') /\ is_list m' l' xs /\ same_outside xs m m'.
Proof.
  intros N Hm. apply (rebuild_loop m ll_list_init []); [|done|done]. split; try done. apply NoDup_nil_2.
Qed.

Lemma sort_buf_refines `{QSort} cmp m l xs :
  is_list m l xs ->
  exists m' l', ll_list_sort_buf cmp m l = Ok (m', l') /\ is_list m' l' (qsort cmp xs) /\ same_outside xs m m'.
Proof.
  intros L. pose proof L as [S Hh Ht Hc N]. unfold ll_list_sort_buf. rewrite Hc.
  pose proof (qsort_perm addr cmp xs) as P. destruct (Z.ltb_spec (Z.of_nat (length xs)) 2) as [Hlt|Hge].
  - exists m, l. split_and!; [done| |done]. destruct xs as [|x [|y xs]]; cbn in Hlt; [| |lia].
    + apply Permutation_sym, Permutation_nil in P. by rewrite P.
    + apply Permutation_sym, Permutation_length_1_inv in P. by rewrite P.
  - rewrite Nat2Z.id, Hh, (take_seg m None) by done. cbn [res_bind].
    destruct (rebuild_refines m (qsort cmp xs)) as (m' & l' & H1 & L' & O).
    + by rewrite P.
    + intros x Hx. rewrite P in Hx. by eapply lseg_in.
    + exists m', l'. split_and!; [done|done|]. intros y Hy. apply O. by rewrite P.
Qed.

Lemma sort_is_sort_buf `{QSort} cmp m l :
  ll_list_sort true cmp m l = let* ml := ll_list_sort_buf cmp m l in Ok (ml, true).
Proof.
  unfold ll_list_sort, ll_list_sort_buf. destruct (l_count l <? 2); [done|]. cbn [negb].
  by destruct (list_take _ m (l_head l)).
Qed.

(** ** The refinement *)

(** What an operation makes of the sequence [xs]: it returns, the list stands for
    [xs'], and only cells of [zs] have changed. *)
Definition yields (zs xs' : list addr) (m : cells) (r : res (cells * ll_list)) : Prop :=
  exists m' l', r = Ok (m', l') /\ is_list m' l' xs' /\ same_outside zs m m'.

Lemma remove_first_split x xs r :
  remove_first x xs = Some r -> exists ys zs, xs = ys ++ x :: zs /\ r = ys ++ zs.
Proof.
  revert r. induction xs as [|y xs IH]; cbn; [done|]. intros r. destruct (Z.eqb_spec y x) as [->|].
  - intros [= <-]. by exists [], xs.
  - destruct (remove_first x xs) as [r'|]; [|done]. intros [= <-]. destruct (IH r' eq_refl) as (ys & zs & -> & ->).
    by exists (y :: ys), zs.
Qed.

(** Two lists in one memory: the move of an entry from one to the other. *)
Lemma list_move_refines m a b ys x zs ws :
  is_list m a (ys ++ x :: zs) -> is_list m b ws -> (forall y, y ∈ ws -> y ∉ ys ++ x :: zs) ->
  exists m1 a' m2 b', ll_list_remove m a (Some x) = Ok (m1, a') /\ ll_list_append m1 b x = Ok (m2, b') /\
    is_list m2 a' (ys ++ zs) /\ is_list m2 b' (ws ++ [x]).
Proof.
  intros La Lb Hd. destruct (remove_refines m a ys x zs La) as (m1 & a' & H1 & La1 & O1 & Hx).
  assert (Lb1 : is_list m1 b ws).
  { destruct Lb as [S ? ? ? ?]. split; try done. apply (lseg_same m); [|done]. intros y Hy. by apply O1, Hd. }
  assert (Hxw : x ∉ ws) by (intros Hw; apply (Hd x Hw); set_solver).
  destruct (append_refines m1 b ws x) as (m2 & b' & H2 & Lb2 & O2); [done|done|by eexists|].
  exists m1, a', m2, b'. split_and!; [done|done| |done]. destruct La1 as [S ? ? ? N]. split; try done.
  apply (lseg_same m1); [|done]. intros y Hy. apply O2. intros [->|Hw]%elem_of_cons.
  - pose proof (il_nodup _ _ _ La) as (_ & Hyz & [Hxz _]%NoDup_cons)%NoDup_app.
    apply elem_of_app in Hy as [Hy|Hy]; [|done]. apply (Hyz x Hy). by left.
  - apply (Hd y Hw). set_solver.
Qed.

(** C37: the pointer operations of the list are the operations on sequences that the
    models of the daemons use.  On a list that stands for [xs]: appending and pushing
    an entry of no list adds it at the end and at the front; removing an entry gives
    [remove_first], and popping takes the first, with the links of the entry reset; the
    two loops visit [xs] forward and backward; the sort is [qsort] of [xs], in place
    and without allocation in the buffered form, and unchanged when calloc fails; count
    and emptiness are those of [xs].  Every operation returns, and none touches the
    links of an entry that is neither its argument nor on the list. *)
Theorem ll_list_refines `{QSort} m l xs :
  is_list m l xs ->
  (forall x, x ∉ xs -> is_Some (m !! x) ->
     yields (x :: xs) (xs ++ [x]) m (ll_list_append m l x) /\
     yields (x :: xs) (x :: xs) m (ll_list_push m l x)) /\
  (forall x r, remove_first x xs = Some r ->
     exists m' l', ll_list_remove m l (Some x) = Ok (m', l') /\ is_list m' l' r /\
       same_outside xs m m' /\ m' !! x = Some (mk_ll_list_entry None None)) /\
  (match xs with
   | [] => ll_list_pop m l = Ok (m, l, None)
   | x :: xs' => exists m' l', ll_list_pop m l = Ok (m', l', Some x) /\ is_list m' l' xs' /\
                   same_outside xs m m' /\ m' !! x = Some (mk_ll_list_entry None None)
   end) /\
  ll_list_foreach m l = Ok xs /\ ll_list_foreach_reverse m l = Ok (rev xs) /\
  (forall cmp, yields xs (qsort cmp xs) m (ll_list_sort_buf cmp m l) /\
     ll_list_sort true cmp m l = (let* ml := ll_list_sort_buf cmp m l in Ok (ml, true)) /\
     exists ok, ll_list_sort false cmp m l = Ok (m, l, ok)) /\
  ll_list_count l = Z.of_nat (length xs) /\ (ll_list_is_empty l = true <-> xs = []).
Proof.
  intros L. pose proof L as [S Hh Ht Hc N]. pose proof (lseg_length _ _ _ _ N S) as Hlen.
  split; [|split; [|split; [|split; [|split; [|split; [|split]]]]]].
  - intros x Hx Hm. split; [by apply append_refines|by apply push_refines].
  - intros x r (ys & zs & -> & ->)%remove_first_split.
    by apply remove_refines.
  - by apply pop_refines.
  - unfold ll_list_foreach. rewrite Hh. by eapply walk_seg.
  - unfold ll_list_foreach_reverse. rewrite Ht. by eapply walk_back_seg.
  - intros cmp. split_and!; [by apply sort_buf_refines|by apply sort_is_sort_buf|].
    unfold ll_list_sort. destruct (l_count l <? 2); by eexists.
  - done.
  - unfold ll_list_is_empty. rewrite Hh. by destruct xs.
Qed.

(** A list of two entries. *)
Definition list_demo_cells : cells :=
  {[ 1 := mk_ll_list_entry (Some 2) None; 2 := mk_ll_list_entry None (Some 1); 3 := mk_ll_list_entry None None ]}.
Definition list_demo : ll_list := mk_ll_list (Some 1) (Some 2) 2.

Lemma list_demo_ok : is_list list_demo_cells list_demo [1; 2].
Proof. split; try done. repeat (apply NoDup_cons; split; [set_solver|]). apply NoDup_nil_2. Qed.

Lemma ll_list_refines_witness : ll_list_foreach list_demo_cells list_demo = Ok [1; 2].
Proof. apply (ll_list_refines list_demo_cells list_demo [1; 2] list_demo_ok). Defined.
