(* ===== verification/MbdProps.v ===== *)
(** * The properties of the master daemon

    Each theorem states one property of the daemon's handlers on any state that
    satisfies the accounting invariant, and is followed by its instance on the
    demo cluster where it has hypotheses. *)

From S2P Require Import Prelude CString LlHash Dependency LogFormat MbdTypes MbdBase MbdJob MbdSched MbdNet.
From S2P Require Import MbdInv MbdFrame MbdCheck MbdSafe MbdControl MbdSubmit MbdPlan MbdSchedSafe MbdTokens MbdStatic MbdRun MbdLive MbdProgress MbdDemo.

Open Scope string_scope.
Open Scope list_scope.
Open Scope Z_scope.

(** ** The daemon as a whole *)





(** The daemon's own cross check, which recounts every host and queue from
    the job lists and aborts on a difference, passes whenever the books are
    right. *)
Theorem mbd_assert_counters_passes w : inv w -> mbd_assert_counters w = Ok tt.
Proof. apply assert_counters_ok. Qed.

Lemma mbd_assert_counters_passes_witness : assert_counters demo2 = true /\ mbd_assert_counters demo2 = Ok tt.
Proof. split; [reflexivity|]. apply (mbd_assert_counters_passes demo2 demo_inv2). Defined.

(** ** Reports of the execution daemons *)





(** A report that the execution daemon does not know a job (it lost it in a
    restart) is handled without ending the daemon and leaves the books right; if
    it changes anything, the job is pending again and nothing else changed. *)
Theorem mbd_job_missing_correct e n id w :
  inv w -> 0 < now e ->
  (forall j, jobs w !! id = Some j -> num_gpus (rsrc j) <= 0) ->
  exists w', mbd_job_missing e n id w = Ok w' /\ inv w' /\ fin_kept w w' /\ maybe_back id w w'.
Proof.
  intros HI Hnow Hg. pose proof (mbd_job_missing_wp e n id w HI Hnow) as H.
  destruct (mbd_job_missing e n id w) as [w'|c]; cbn in H.
  - destruct H as [[H1 H2] H3]. eauto.
  - destruct H as (j & Hj & Hx). specialize (Hg j Hj). lia.
Qed.

Lemma mbd_job_missing_correct_witness :
  exists w', mbd_job_missing demo_env 0 101 demo3 = Ok w' /\ inv w' /\ fin_kept demo3 w' /\
    maybe_back 101 demo3 w'.
Proof.
  apply (mbd_job_missing_correct demo_env 0 101 demo3).
  - exact demo_inv3.
  - reflexivity.
  - intros j Hj. vm_compute in Hj. injection Hj as <-. vm_compute. discriminate.
Defined.

(** The acknowledgement of a stop or resume signal for a job that runs on the
    answering host alone, in the other state, moves it between the running and
    the suspended counters of its queue and host, without ending the daemon. *)
Theorem mbd_job_signal_reply_correct n s status w :
  inv w -> (n < length (hosts w))%nat -> sig_reply_expected w n s ->
  exists w', mbd_job_signal_reply n s status w = Ok w' /\ inv w' /\ fin_kept w w'.
Proof.
  intros HI Hn He. pose proof (mbd_job_signal_reply_wp n s status w HI Hn He) as H.
  destruct (mbd_job_signal_reply n s status w) as [w'|c]; cbn in H; [|done]. destruct H as [H1 H2]. eauto.
Qed.

Definition demo_stop : wire_job_sig := mk_wire_job_sig 101 0 SIGSTOP 1001.

Lemma mbd_job_signal_reply_correct_witness :
  exists w', mbd_job_signal_reply 0 demo_stop MBD_OK demo3 = Ok w' /\ inv w' /\ fin_kept demo3 w'.
Proof.
  apply (mbd_job_signal_reply_correct 0 demo_stop MBD_OK demo3).
  - exact demo_inv3.
  - vm_compute. lia.
  - intros j Hj _. vm_compute in Hj. injection Hj as <-. vm_compute. repeat split.
Defined.

(** ** Job control *)


Definition demo_kill_all : wire_job_sig := mk_wire_job_sig 0 0 SIGKILL 1001.

Lemma demo_heads w : w = demo1 -> array_heads_ok w.
Proof.
  intros -> id j Hj Hne _. apply elem_of_map_to_list in Hj. vm_compute in Hj.
  apply list_elem_of_singleton in Hj. injection Hj as -> ->. vm_compute in Hne. done.
Qed.


(** Moving a pending or held job to another queue takes it out of the
    counters of the one and into those of the other; every refusal (no such job
    or queue, a job that runs or has finished, a caller without the right)
    leaves the books alone; the daemon does not end. *)
Theorem job_move_correct e chan hdr id to_queue w :
  inv w -> 0 < now e -> queue_hash_ok w ->
  exists w', job_move e chan hdr id to_queue w = Ok w' /\ inv w' /\ fin_kept w w'.
Proof.
  intros HI Hnow Hq. pose proof (job_move_wp e chan hdr id to_queue w HI Hnow) as H.
  destruct (job_move e chan hdr id to_queue w) as [w'|c]; cbn in H; [|done]. destruct H as [H1 H2]. eauto.
Qed.

Lemma demo_queue_hash : queue_hash_ok demo1.
Proof.
  intros n q Hq. change (queue_name_hash demo1) with ({[ "normal" := 0%nat ]} : gmap string nat) in Hq.
  apply lookup_singleton_Some in Hq as [_ <-]. vm_compute. lia.
Qed.

Lemma job_move_correct_witness :
  exists w', job_move demo_env 9 demo_user 101 "normal" demo1 = Ok w' /\ inv w' /\ fin_kept demo1 w'.
Proof.
  apply (job_move_correct demo_env 9 demo_user 101 "normal" demo1).
  - exact demo_inv1.
  - reflexivity.
  - exact demo_queue_hash.
Defined.

(** A change of priority never ends the daemon and touches no counter. *)
Theorem job_priority_correct e chan hdr id prio w :
  inv w -> 0 < now e ->
  exists w', job_priority e chan hdr id prio w = Ok w' /\ inv w' /\ fin_kept w w'.
Proof.
  intros HI Hnow. pose proof (job_priority_wp e chan hdr id prio w HI Hnow) as H.
  destruct (job_priority e chan hdr id prio w) as [w'|c]; cbn in H; [|done]. destruct H as [H1 H2]. eauto.
Qed.

Lemma job_priority_correct_witness :
  exists w', job_priority demo_env 9 demo_user 101 3 demo1 = Ok w' /\ inv w' /\ fin_kept demo1 w'.
Proof. apply (job_priority_correct demo_env 9 demo_user 101 3 demo1); [exact demo_inv1|reflexivity]. Defined.

(** ** Submission *)

(** The search for a job id ends, on an id above the sequence that no job
    has, and skips only ids that are in use. *)
Theorem next_job_id_unused w :
  exists id, next_job_id w = Ok (w <| job_id_seq := id |>, id) /\ job_id_seq w < id /\
    jobs w !! id = None /\ forall i, job_id_seq w < i < id -> is_Some (jobs w !! i).
Proof.
  pose proof (next_job_id_wp w) as H. destruct (next_job_id w) as [[w' id]|c]; cbn in H; [|done].
  destruct H as (-> & H1 & H2 & H3). eauto.
Qed.


Lemma demo_queue_hash0 : queue_hash_ok demo0.
Proof.
  intros n q Hq. change (queue_name_hash demo0) with ({[ "normal" := 0%nat ]} : gmap string nat) in Hq.
  apply lookup_singleton_Some in Hq as [_ <-]. apply Nat.ltb_lt. vm_compute. reflexivity.
Qed.

Lemma demo_seq : seq_ok demo0.
Proof.
  intros id Hid. change (jobs demo0) with (∅ : gmap Z job_data) in Hid. rewrite lookup_empty in Hid.
  destruct Hid. discriminate.
Qed.


(** ** Scheduling *)

(** The pending list is ordered before it is walked: the same jobs, those of
    queues of higher priority first, then those of higher priority, then the
    older ones. *)
Theorem sort_pend_list_order {QS : QSort} w :
  inv w -> Z.of_nat (length (pend_jobs_list w)) <= SCHED_SORT_BUF_MAX ->
  (forall id k, id ∈ pend_jobs_list w -> pend_key_of w id k -> key_ok k) ->
  exists w', sort_pend_list w = Ok w' /\
  w' = w <| pend_jobs_list := pend_jobs_list w' |> /\
  pend_jobs_list w' ≡ₚ pend_jobs_list w /\
  StronglySorted (fun a b => forall ka kb, pend_key_of w a ka -> pend_key_of w b kb ->
                    goes_before ka kb) (pend_jobs_list w').
Proof.
  intros HI Hlen Hk. destruct (sort_pend_list_total w HI Hlen) as [w' Hw]. exists w'. split; [done|].
  by apply sort_pend_list_Ok.
Qed.

(** Two pending jobs, the older one with a lower priority. *)
Definition demo5 : mbd :=
  or_else (job_register demo_env 9 demo_user (demo_submit 2 EmptyString) demo1) demo0.
Definition demo6 : mbd := or_else (job_priority demo_env 9 demo_user 101 3 demo5) demo0.
Definition demo7 : mbd := or_else (sort_pend_list demo6) demo0.

Lemma demo_inv6 : inv demo6.
Proof.
  assert (H5 : job_register demo_env 9 demo_user (demo_submit 2 EmptyString) demo1 = Ok demo5)
    by (vm_compute; reflexivity).
  assert (H6 : job_priority demo_env 9 demo_user 101 3 demo5 = Ok demo6) by (vm_compute; reflexivity).
  assert (HI5 : inv demo5).
  { apply (wp_Ok _ _ _ _ (job_register_wp demo_env 9 demo_user (demo_submit 2 EmptyString) demo1 demo_inv1
      (demo_submit_sane 2 EmptyString ltac:(lia)) ltac:(done)) H5). }
  apply (wp_Ok _ _ _ _ (job_priority_wp demo_env 9 demo_user 101 3 demo5 HI5 ltac:(done)) H6).
Qed.

Lemma sort_pend_list_order_witness :
  pend_jobs_list demo6 = [101; 102] /\ pend_jobs_list demo7 = [102; 101] /\
  exists w', sort_pend_list demo6 = Ok w' /\ pend_jobs_list w' ≡ₚ pend_jobs_list demo6.
Proof.
  assert (Hl : pend_jobs_list demo6 = [101; 102]) by (vm_compute; reflexivity).
  split; [exact Hl|]. split; [vm_compute; reflexivity|].
  destruct (sort_pend_list_order demo6) as (w' & H1 & _ & H2 & _).
  - exact demo_inv6.
  - rewrite Hl. vm_compute. discriminate.
  - intros id k Hid Hk. rewrite Hl in Hid. apply elem_of_cons in Hid as [->|Hid].
    + vm_compute in Hk. injection Hk as <-. vm_compute. repeat split; discriminate || reflexivity.
    + apply list_elem_of_singleton in Hid as ->. vm_compute in Hk. injection Hk as <-.
      vm_compute. repeat split; discriminate || reflexivity.
  - exists w'. split; [exact H1|exact H2].
Defined.


Lemma demo_jobs1 id j : jobs demo1 !! id = Some j -> id = 101 /\ deps j = [].
Proof.
  assert (Hk : map_to_list ((fun j => deps j) <$> jobs demo1) = [(101, [])]) by (vm_compute; reflexivity).
  intros Hj. assert (Hd : ((fun j => deps j) <$> jobs demo1) !! id = Some (deps j)) by by rewrite lookup_fmap, Hj.
  apply elem_of_map_to_list in Hd. rewrite Hk in Hd. apply list_elem_of_singleton in Hd. by injection Hd as -> ->.
Qed.

Lemma demo_chans h hh : hosts demo1 !! h = Some hh -> sbd_chan hh <> 0.
Proof.
  assert (Hc : map sbd_chan (hosts demo1) = [5; 6]) by (vm_compute; reflexivity).
  intros Hh. assert (Hx : map sbd_chan (hosts demo1) !! h = Some (sbd_chan hh)) by by rewrite (list_lookup_fmap sbd_chan), Hh.
  rewrite Hc in Hx. destruct h as [|[|h]]; [injection Hx as <-; lia..|discriminate].
Qed.


(** C15: the planner is sound, best-fit and complete: a plan has as many hosts as
    the job asked for, all different, all in the queue's group and able to take
    the job (candidate, not exclusive, enough CPUs, memory, storage and GPUs);
    without named machines no host left out has fewer free CPUs than one chosen;
    and the planner always returns, giving up only when too few hosts are
    eligible (a named one is not, if machines are named) or the names of a plan
    do not fit the message. *)
Theorem build_host_plan_sound_complete {QS : QSort} w j q qi :
  queue j = Some qi -> queues w !! qi = Some q ->
  queue_hosts_ok (hosts w) q -> machines_ok j -> 1 <= num_hosts (rsrc j) ->
  Z.of_nat (length (run_hosts j)) = num_hosts (rsrc j) ->
  exists r, build_host_plan w j = Ok r /\ plan_result w q j r.
Proof. apply build_host_plan_Ok. Qed.

Lemma mark_candidates_keeps w :
  jobs (mark_candidates w).1 = jobs w /\ queues (mark_candidates w).1 = queues w.
Proof. done. Qed.

Lemma build_host_plan_sound_complete_witness :
  exists j r, jobs demo1 !! 101 = Some j /\
    build_host_plan (mark_candidates demo1).1 j = Ok r /\
    exists q, queues demo1 !! 0%nat = Some q /\ plan_result (mark_candidates demo1).1 q j r.
Proof.
  destruct (jobs demo1 !! 101) as [j|] eqn:Hj; [|vm_compute in Hj; discriminate].
  destruct (queues demo1 !! 0%nat) as [q|] eqn:Hq; [|vm_compute in Hq; discriminate].
  assert (Hw : inv (mark_candidates demo1).1) by exact (mark_candidates_inv demo1 demo_inv1).
  destruct (mark_candidates_keeps demo1) as [Hk1 Hk2].
  assert (Hjw : jobs (mark_candidates demo1).1 !! 101 = Some j) by (rewrite Hk1; exact Hj).
  assert (Hqw : queues (mark_candidates demo1).1 !! 0%nat = Some q) by (rewrite Hk2; exact Hq).
  destruct (build_host_plan_sound_complete (mark_candidates demo1).1 j q 0) as (r & Hr & Hres).
  - vm_compute in Hj. injection Hj as <-. reflexivity.
  - exact Hqw.
  - exact (ao_members _ Hw 0%nat q Hqw).
  - exact (machines_ok_inv _ 101 j Hw Hjw).
  - exact (proj1 (ok_slots _ _ _ _ (inv_job _ 101 j Hw Hjw))).
  - exact (proj2 (ok_slots _ _ _ _ (inv_job _ 101 j Hw Hjw))).
  - exists j, r. split; [reflexivity|]. split; [exact Hr|]. exists q. split; [reflexivity|exact Hres].
Defined.



(** ** Tokens *)

(** Releasing the tokens of a job undoes their allocation, pool by pool. *)
Theorem tokens_release_undoes_alloc j w :
  pools (token_pool_release j (token_alloc j w)) = pools w.
Proof.
  apply list_eq. intros p. rewrite token_release_lookup, token_alloc_lookup.
  assert (Hd : demand (token_alloc j w) j p = demand w j p).
  { unfold demand. destruct (token_alloc_pools j w) as [ps ->]. done. }
  rewrite Hd. destruct (pools w !! p) as [pl|]; cbn; [|done].
  by rewrite add_free_add, Z.add_opp_diag_l, add_free_0.
Qed.

(** No token pool goes below zero: when the tokens a job asks for are free and
    it asks every pool once, allocating them leaves no pool negative. *)
Theorem tokens_never_negative j w :
  tokens_available w j = true ->
  NoDup (map (fun t => pool_name_hash w !! tok_name t) (tokens (rsrc j))) ->
  (forall p pl, pools w !! p = Some pl -> 0 <= p_free pl) ->
  forall p pl, pools (token_alloc j w) !! p = Some pl -> 0 <= p_free pl.
Proof.
  intros Hav Hnd Hpos p pl Hp. rewrite token_alloc_lookup in Hp.
  destruct (pools w !! p) as [pl0|] eqn:Hp0; [|done]. injection Hp as <-. cbn.
  specialize (Hpos p pl0 Hp0). destruct (demand_single w j p Hnd) as [->|(t & Ht & Hh & ->)]; [lia|].
  unfold tokens_available in Hav. rewrite forallb_forall in Hav.
  apply list_elem_of_In in Ht. specialize (Hav t Ht). rewrite Hh, Hp0 in Hav. apply Z.leb_le in Hav. lia.
Qed.

Lemma tokens_never_negative_witness :
  exists j, jobs demo1 !! 101 = Some j /\ tokens_available demo1 j = true /\
    forall p pl, pools (token_alloc j demo1) !! p = Some pl -> 0 <= p_free pl.
Proof.
  destruct (jobs demo1 !! 101) as [j|] eqn:Hj; [|vm_compute in Hj; discriminate].
  exists j. vm_compute in Hj. injection Hj as <-. split; [reflexivity|]. split; [vm_compute; reflexivity|].
  apply tokens_never_negative.
  - vm_compute. reflexivity.
  - apply NoDup_singleton.
  - intros p pl Hp. change (pools demo1) with [mk_mbd_token_pool "lic" 1 1] in Hp.
    destruct p as [|p]; [|discriminate]. injection Hp as <-. vm_compute. discriminate.
Defined.

(** ** Connections *)

(** Registration and loss of execution daemons keep the channel table right:
    every entry is the channel of the host it names, so the check made on every
    message of an execution daemon never fails; a host that is connected is never
    taken over by a second registration. *)
Theorem sbd_channels_consistent e chan hn n w w1 w2 b :
  chan_ok w -> 0 <= chan -> sbd_chan_hash w !! chan = None ->
  mbd_sbd_register e chan hn w = Ok (w1, b) -> mbd_sbd_disconnect n w1 = Ok w2 ->
  chan_ok w1 /\ chan_ok w2 /\
  (forall m hh, host_name_hash w !! strbuf MAXHOSTNAMELEN hn = Some m -> hosts w !! m = Some hh ->
     sbd_chan hh <> -1 -> w1 = w /\ b = false).
Proof.
  intros Hok Hpos Hnew Hr Hd.
  pose proof (mbd_sbd_register_chan e chan hn w w1 b Hok Hpos Hnew Hr) as Hok1.
  split; [done|]. split; [by eapply mbd_sbd_disconnect_chan|].
  intros m hh Hm Hh Hne. unfold mbd_sbd_register in Hr. rewrite Hm in Hr. unfold nth_res in Hr at 1.
  rewrite Hh in Hr. cbn [res_bind] in Hr. apply Z.eqb_neq in Hne. rewrite Hne in Hr. cbn in Hr.
  by injection Hr as <- <-.
Qed.

(** A cluster whose second host is not connected. *)
Definition demo8 : mbd := or_else (mbd_sbd_disconnect 1 demo0) demo0.
Definition demo9 : mbd := match mbd_sbd_register demo_env 7 "node2" demo8 with Ok (w, _) => w | Crash _ => demo0 end.
Definition demo10 : mbd := or_else (mbd_sbd_disconnect 1 demo9) demo0.

Lemma demo8_chan_ok : chan_ok demo8.
Proof.
  intros c n Hn. change (sbd_chan_hash demo8) with (delete 6 ({[ 5 := 0%nat; 6 := 1%nat ]} : gmap Z nat)) in Hn.
  apply lookup_delete_Some in Hn as [Hne Hn]. apply lookup_insert_Some in Hn as [[<- <-]|[_ Hn]].
  - split; [lia|]. by eexists.
  - apply lookup_singleton_Some in Hn as [<- _]. done.
Qed.

Lemma sbd_channels_consistent_witness : chan_ok demo9 /\ chan_ok demo10.
Proof.
  destruct (sbd_channels_consistent demo_env 7 "node2" 1 demo8 demo9 demo10 true) as (H1 & H2 & _).
  - exact demo8_chan_ok.
  - lia.
  - vm_compute. reflexivity.
  - vm_compute. reflexivity.
  - vm_compute. reflexivity.
  - split; [exact H1|exact H2].
Defined.

(** ** Closed queues survive a restart *)

(** An administrator's closing or opening of a queue and a restart agree: the
    state files name exactly the closed queues after every request, and a daemon
    that starts with every queue open and reads those files back has closed
    exactly the queues that were closed before. *)
Theorem queue_state_survives_restart e chan hdr nm op w w' fresh names :
  (forall s, state_file_ok e s = true) -> queue_names_ok w -> queue_files_ok w ->
  queue_admin e chan hdr nm op w = Ok w' ->
  queue_names_ok fresh -> (forall x, x ∈ names <-> x ∈ queue_files w') ->
  (forall q qq, queues w' !! q = Some qq -> exists q0, queues fresh !! q = Some q0 /\
     q_name q0 = q_name qq /\ q_state q0 = QUEUE_OPEN) ->
  queue_files_ok w' /\
  forall q qq, queues w' !! q = Some qq -> exists q1, queues (queue_state_init names fresh) !! q = Some q1 /\
    (q_state q1 = QUEUE_CLOSED <-> q_state qq = QUEUE_CLOSED).
Proof.
  intros Hfs Hn Hf Hadm Hfresh Hnames Hopen.
  pose proof (queue_admin_files e chan hdr nm op w w' Hfs Hn Hf Hadm) as Hf'. split; [done|].
  intros q qq Hq. destruct (Hopen q qq Hq) as (q0 & Hq0 & Hname & Hst).
  destruct (queue_state_init_spec names fresh Hfresh) as [_ Hs].
  destruct (Hs q q0 Hq0) as (q1 & Hq1 & _ & Hst1). exists q1. split; [done|].
  rewrite Hst1, Hst, <- (Hf' q qq Hq), Hname, <- Hnames. clear Hst1.
  case_bool_decide; split; done.
Qed.

Definition demo_mgr : caller := mk_caller 500 500.
Definition demo_closed : mbd := or_else (queue_admin demo_env 9 demo_mgr "normal" QUEUE_CLOSED demo0) demo0.

Lemma demo_queue_names : queue_names_ok demo0.
Proof.
  split.
  - intros nm q Hq. change (({[ "normal" := 0%nat ]} : gmap string nat) !! nm = Some q) in Hq.
    apply lookup_singleton_Some in Hq as [<- <-]. exists demo_queue. split; reflexivity.
  - intros q qq Hq. destruct q as [|q]; [|vm_compute in Hq; discriminate]. injection Hq as <-.
    split; vm_compute; reflexivity.
Qed.

Lemma queue_state_survives_restart_witness :
  queue_files_ok demo_closed /\
  forall q qq, queues demo_closed !! q = Some qq ->
    exists q1, queues (queue_state_init ["normal"] demo0) !! q = Some q1 /\
      (q_state q1 = QUEUE_CLOSED <-> q_state qq = QUEUE_CLOSED).
Proof.
  apply (queue_state_survives_restart demo_env 9 demo_mgr "normal" QUEUE_CLOSED demo0 demo_closed demo0 ["normal"]).
  - reflexivity.
  - exact demo_queue_names.
  - intros q qq Hq. destruct q as [|q]; [|discriminate]. injection Hq as <-. vm_compute. split; discriminate.
  - vm_compute. reflexivity.
  - exact demo_queue_names.
  - intros x. assert (Hq : queue_files demo_closed = {[ "normal" ]}) by (vm_compute; reflexivity).
    rewrite Hq, elem_of_singleton, list_elem_of_singleton. reflexivity.
  - intros q qq Hq. destruct q as [|q]; [|vm_compute in Hq; discriminate]. vm_compute in Hq.
    injection Hq as <-. eexists. split; [reflexivity|]. vm_compute. split; reflexivity.
Defined.

(** ** The daemon never aborts *)

(** No run of the daemon on messages it expects aborts: from a good state, any
    sequence of client requests (submissions with sane counts, no GPUs and a
    dependency condition that fits the evaluation stack), reports of execution
    daemons about jobs they were sent, registrations, disconnections and
    scheduling timers is handled to its end, and the state is good again. *)
Theorem mbd_never_aborts {QS : QSort} l w :
  good w -> run_ok w l -> exists w', mbd_run l w = Ok w' /\ good w'.
Proof. apply mbd_run_good. Qed.

Lemma demo0_good : good demo0.
Proof.
  split; [exact demo0_inv|].
  assert (Hj : fx_jobs (fixed demo0) = ∅) by (vm_compute; reflexivity).
  split; rewrite ?Hj.
  - intros id [s Hs]. rewrite lookup_empty in Hs. discriminate.
  - exact demo_queue_hash0.
  - intros nm n Hn. change (fx_host_hash (fixed demo0)) with ({[ "node1" := 0%nat; "node2" := 1%nat ]} : gmap string nat) in Hn.
    apply lookup_insert_Some in Hn as [[_ <-]|[_ Hn]]; [apply Nat.ltb_lt; vm_compute; reflexivity|].
    apply lookup_singleton_Some in Hn as [_ <-]. apply Nat.ltb_lt. vm_compute. reflexivity.
  - intros c n Hc. change (fx_chan_hash (fixed demo0)) with ({[ 5 := 0%nat; 6 := 1%nat ]} : gmap Z nat) in Hc.
    apply lookup_insert_Some in Hc as [[<- <-]|[_ Hc]]; [split; [lia|reflexivity]|].
    apply lookup_singleton_Some in Hc as [<- <-]. split; [lia|reflexivity].
  - intros [|[|n]] c Hc; [injection Hc as <-; lia..|vm_compute in Hc; discriminate].
  - intros id s Hs. rewrite lookup_empty in Hs. discriminate.
  - intros id s Hs. rewrite lookup_empty in Hs. discriminate.
  - intros id s Hs. rewrite lookup_empty in Hs. discriminate.
Qed.

Definition demo_in1 : input := InMessage 9 (GoodMessage demo_user (MSubmit (demo_submit 2 "lic=1"))) BadMessage.
Definition demo_in3 : input := InMessage 5 BadMessage (GoodMessage demo_user (SNewJobReply demo_reply)).
Definition demo_in4 : input := InMessage 5 BadMessage (GoodMessage demo_user (SJobFinish demo_finish)).

Definition demo_run : list (env * input) :=
  [(demo_env, demo_in1); (demo_env, InTimer); (demo_env, demo_in3); (demo_env, demo_in4)].

Lemma demo_errnos : errnos_ok demo_env.
Proof. intros id. split; discriminate. Qed.

Lemma demo_in1_run : mbd_input demo_env demo_in1 demo0 = Ok demo1.
Proof. vm_compute. reflexivity. Qed.

Lemma demo_in3_run : mbd_input demo_env demo_in3 demo2 = Ok demo3.
Proof. vm_compute. reflexivity. Qed.

Lemma demo_in1_ok : input_ok demo_env demo0 demo_in1.
Proof.
  assert (Hc : sbd_chan_hash demo0 !! 9 = None) by (vm_compute; reflexivity).
  split; [done|]. split; [lia|]. split; [exact demo_errnos|]. rewrite Hc.
  split; [by apply demo_submit_sane|]. split; [done|]. intros st ds Hp. vm_compute in Hp. injection Hp as _ <-. by left.
Qed.

Lemma demo_in2_ok : input_ok demo_env demo1 InTimer.
Proof. split; [done|]. split; [done|]. vm_compute. discriminate. Qed.

Lemma demo_in3_ok : input_ok demo_env demo2 demo_in3.
Proof.
  assert (Hc : sbd_chan_hash demo2 !! 5 = Some 0%nat) by (vm_compute; reflexivity).
  split; [done|]. split; [lia|]. split; [exact demo_errnos|]. rewrite Hc. exact demo_reply_expected.
Qed.

Lemma demo_in4_ok : input_ok demo_env demo3 demo_in4.
Proof.
  assert (Hc : sbd_chan_hash demo3 !! 5 = Some 0%nat) by (vm_compute; reflexivity).
  assert (Hl : list_id <$> jobs demo3 !! 101 = Some JOB_LIST_RUN) by (vm_compute; reflexivity).
  split; [done|]. split; [lia|]. split; [exact demo_errnos|]. rewrite Hc.
  intros j Hj. left. change (fin_job_id demo_finish) with 101 in Hj. rewrite Hj in Hl. by injection Hl.
Qed.

Lemma demo_run_ok : run_ok demo0 demo_run.
Proof.
  constructor; [exact demo_in1_ok|]. intros w1 H1. rewrite demo_in1_run in H1. assert (w1 = demo1) as -> by congruence.
  constructor; [exact demo_in2_ok|]. intros w2 H2. cbn [mbd_input] in H2. rewrite demo2_ok in H2.
  assert (w2 = demo2) as -> by congruence.
  constructor; [exact demo_in3_ok|]. intros w3 H3. rewrite demo_in3_run in H3. assert (w3 = demo3) as -> by congruence.
  constructor; [exact demo_in4_ok|]. intros w4 _. constructor.
Qed.

Lemma mbd_never_aborts_witness : exists w', mbd_run demo_run demo0 = Ok w' /\ good w'.
Proof.
  apply (mbd_never_aborts demo_run demo0).
  - exact demo0_good.
  - exact demo_run_ok.
Defined.
