(* ===== verification/MbdRestartProps.v ===== *)
(** * Properties of the event log: crash recovery *)

From S2P Require Import Prelude CString LlHash Dependency LogFormat MbdTypes MbdBase MbdJob MbdSched MbdEvents MbdNet.
From S2P Require Import MbdInv MbdFrame MbdSafe MbdDurable MbdReplay MbdSubmit MbdLogged MbdLoggedSubmit MbdRebuild.
From S2P Require Import MbdCompact MbdRun MbdProgress MbdRestart MbdDemo MbdProps.

Open Scope string_scope.
Open Scope list_scope.
Open Scope Z_scope.



(** The counters are rebuilt right: from any replayed job table whose jobs fit
    the configured hosts, the rebuild returns, and every counter of every queue and
    host and every free amount is the sum over the jobs again; the job records'
    durable part and the log stay as they are. *)
Theorem rebuild_restores_books w :
  rebuildable w -> exists w', replay_rebuild_counters w = Ok w' /\ inv w' /\
    durables w' = durables w /\ manifest w' = manifest w.
Proof.
  intros R. destruct (replay_rebuild_ok w R) as (w' & H & HI & HL & _). exists w'. split; [done|]. split; [done|].
  split; [exact (f_equal lg_jobs HL)|exact (f_equal lg_log HL)].
Qed.

(** ** Witnesses *)

Lemma demo_conf_ok : conf_ok (conf_of demo0).
Proof.
  split.
  - intros nm q H. change (cf_queues (conf_of demo0)) with ({[ "normal" := 0%nat ]} : gmap string nat) in H.
    apply lookup_singleton_Some in H as [<- <-]. split; [reflexivity|]. apply Nat.ltb_lt. reflexivity.
  - vm_compute. repeat constructor; set_solver.
  - repeat constructor.
  - reflexivity.
Qed.

Lemma demo_first_start : first_start demo0.
Proof. split; [exact demo0_good|reflexivity|reflexivity|exact demo_conf_ok]. Qed.

Lemma demo_submit_logs c t : submit_logs (demo_submit c t).
Proof. split; cbn; lia. Qed.

(** The demo's run as a life: submitted, scheduled, started. *)
Lemma demo_lifetime : lifetime demo0 demo3.
Proof.
  eapply (life_input demo0); [|exact demo_in3_ok|exact I|exact demo_in3_run].
  eapply (life_input demo0); [|exact demo_in2_ok|exact I|exact demo2_ok].
  eapply (life_input demo0); [|exact demo_in1_ok|apply demo_submit_logs|exact demo_in1_run]. apply life_start.
Qed.

Definition demo_text : string := match log_text (manifest demo3) with Ok t => t | Crash _ => EmptyString end.

Lemma demo_readable : readable demo3 demo_text.
Proof. split; vm_compute; reflexivity. Qed.



(** The table of the demo with the hosts and queues as configured: one running job
    to count. *)
Definition lost_books (w0 w : mbd) : mbd := w <| hosts := hosts w0 |> <| queues := queues w0 |>.
Definition demo_lost : mbd := lost_books demo0 demo3.

Lemma lost_books_rebuildable w0 w :
  blank w0 -> inv w -> conf_of w0 = conf_of w ->
  (forall id j, jobs w !! id = Some j -> num_gpus (rsrc j) <= 0 /\ slot_ok (length (hosts w0)) id j) -> rebuildable (lost_books w0 w).
Proof.
  intros B HI Hc Hs. apply (replayed_rebuildable w0 w); try done.
  - intros id j Hj. by apply (Hs id j).
  - split; [|intros id j Hj; by apply (Hs id j)].
    intros l. pose proof (ao_lists _ HI l) as H. by destruct l.
Qed.

Lemma demo3_job id j : jobs demo3 !! id = Some j -> id = 101 /\ Some j = jobs demo3 !! 101.
Proof.
  intros H. assert (Hd : dom (jobs demo3) = {[ 101 ]}) by (vm_compute; reflexivity).
  assert (Hi : id ∈ dom (jobs demo3)) by (apply elem_of_dom; eauto). rewrite Hd in Hi.
  apply elem_of_singleton in Hi as ->. split; [reflexivity|]. symmetry. exact H.
Qed.

Lemma demo_slots id j : jobs demo3 !! id = Some j -> num_gpus (rsrc j) <= 0 /\ slot_ok (length (hosts demo0)) id j.
Proof.
  intros Hj. pose proof (inv_job_id _ _ _ demo_inv3 Hj) as Hid.
  pose proof (ok_slots _ _ _ _ (inv_job _ _ _ demo_inv3 Hj)) as [_ Hn].
  pose proof (ok_ptrs _ _ _ _ (inv_job _ _ _ demo_inv3 Hj)) as Hp.
  destruct (demo3_job id j Hj) as [-> H].
  assert (Hx : (fun j => (num_gpus (rsrc j), list_id j)) <$> jobs demo3 !! 101 = Some (0, JOB_LIST_RUN))
    by (vm_compute; reflexivity).
  rewrite <- H in Hx. clear H Hj. cbn in Hx, Hn. apply some_eq in Hx.
  pose proof (f_equal fst Hx) as H1. pose proof (f_equal snd Hx) as H2. cbn [fst snd] in H1, H2. clear Hx.
  split; [lia|]. split; [exact Hid|]. split; [exact Hn|]. split; [congruence|exact Hp].
Qed.

Lemma demo_rebuildable : rebuildable demo_lost.
Proof.
  apply (lost_books_rebuildable demo0 demo3).
  - split; [exact demo0_inv|reflexivity].
  - exact demo_inv3.
  - vm_compute. reflexivity.
  - exact demo_slots.
Qed.

Lemma rebuild_restores_books_witness :
  exists w', replay_rebuild_counters demo_lost = Ok w' /\ inv w' /\
    durables w' = durables demo_lost /\ manifest w' = manifest demo_lost.
Proof. apply (rebuild_restores_books demo_lost). exact demo_rebuildable. Defined.

(** ** Compaction *)


Definition demo3_record : job_data := default zero_job (jobs demo3 !! 101).

Lemma demo3_compactable : compactable demo3 demo3_record.
Proof.
  exists 0%nat, (default demo_queue (queues demo3 !! 0%nat)).
  assert (Hl : list_id demo3_record = JOB_LIST_RUN) by (vm_compute; reflexivity). split.
  - split; try (vm_compute; reflexivity); try (apply Nat.ltb_lt; vm_compute; reflexivity).
    + vm_compute. split; reflexivity.
    + vm_compute. split; discriminate.
    + vm_compute. split; [reflexivity|split; reflexivity].
  - rewrite Hl. split; [|split; vm_compute; reflexivity]. exists [0%nat]. split; [|vm_compute; reflexivity].
    split; try (vm_compute; reflexivity).
    + apply NoDup_singleton.
    + intros h ->%list_elem_of_singleton. exists (default (demo_host EmptyString 0) (hosts demo3 !! 0%nat)).
      split; vm_compute; reflexivity.
    + left. vm_compute. reflexivity.
Qed.

Lemma demo3_conf_ok : conf_ok (conf_of demo3).
Proof. assert (H : conf_of demo3 = conf_of demo0) by (vm_compute; reflexivity). rewrite H. exact demo_conf_ok. Qed.

