(* ===== verification/MbdFindings.v ===== *)
(** * Behaviours the code does not intend

    Each theorem here exhibits, on the model, an input on which the code departs
    from what it is meant to do: a run of the handlers from the small cluster, or
    a general statement where there is one. *)

From S2P Require Import Prelude CString LlHash Dependency LogFormat MbdTypes MbdBase MbdJob MbdSched MbdNet.
From S2P Require Import MbdInv MbdSafe MbdRun MbdDemo.

Open Scope string_scope.
Open Scope list_scope.
Open Scope Z_scope.

(** A sequence of handlers. *)
Definition run_all (fs : list (mbd -> res mbd)) (w : mbd) : res mbd := res_fold (fun w f => f w) fs w.

Definition submit (ws : wire_job_submit) : mbd -> res mbd := job_register demo_env 9 demo_user ws.
Definition timer : mbd -> res mbd := schedule demo_env.
Definition started (id : Z) : mbd -> res mbd :=
  mbd_new_job_reply demo_env 0 (mk_wire_job_reply id 4242 4242 (job_state_num JOB_RUNNING)).
Definition finished (id : Z) : mbd -> res mbd :=
  mbd_job_finish demo_env 0 (mk_wire_job_finish id 0 0 4242).
Definition stopped (id : Z) : mbd -> res mbd :=
  mbd_job_signal_reply 0 (mk_wire_job_sig id 0 SIGSTOP 1001) MBD_OK.

(** ** A refused message leaves the host connected *)

(** A message of an execution daemon that is refused (it cannot be decoded, its
    opcode, signature or version is bad) shuts the channel and leaves the host as
    it was: its channel number is still set, so every later registration of that
    host, on any channel, is refused. *)
Theorem sbd_bad_message_stuck e e' chan chan' ac hostname n nn w :
  sbd_chan_hash w !! chan = Some n -> hosts w !! n = Some nn -> sbd_chan nn = chan -> chan <> -1 ->
  host_name_hash w !! strbuf MAXHOSTNAMELEN hostname = Some n ->
  exists w', mbd_message e chan ac BadMessage w = Ok w' /\ mbd_sbd_register e' chan' hostname w' = Ok (w', false).
Proof.
  intros Hc Hn Hch Hne Hname. exists w. split.
  - unfold mbd_message. rewrite Hc. unfold nth_res. rewrite Hn. cbn [res_bind].
    unfold c_assert. by rewrite Hch, Z.eqb_refl.
  - unfold mbd_sbd_register. rewrite Hname. unfold nth_res. rewrite Hn. cbn [res_bind].
    by rewrite Hch, (proj2 (Z.eqb_neq _ _) Hne).
Qed.

Lemma sbd_bad_message_stuck_witness :
  exists w', mbd_message demo_env 5 BadMessage BadMessage demo0 = Ok w' /\
    mbd_sbd_register demo_env 8 "node1" w' = Ok (w', false).
Proof.
  apply (sbd_bad_message_stuck demo_env demo_env 5 8 BadMessage "node1" 0 (demo_host "node1" 5) demo0).
  - vm_compute. reflexivity.
  - reflexivity.
  - reflexivity.
  - lia.
  - vm_compute. reflexivity.
Defined.

(** ** GPU devices are freed by position *)

Definition gpu_host : mbd_host := (demo_host "node1" 5)
  <| h_gpu := mk_mbd_gpu "A100" "0,1" 2 [mk_gpu_id 0 false; mk_gpu_id 1 false] |>.
Definition gpu_cluster : mbd := demo0 <| hosts := [gpu_host; demo_host "node2" 6] |>.
Definition gpu_submit : wire_job_submit := (demo_submit 1 EmptyString) <| sub_num_gpus := 1 |>.
Definition gpu_script : list (mbd -> res mbd) :=
  [submit gpu_submit; timer; started 101; submit gpu_submit; timer; started 102; finished 102].

(** The device flags of the first host and the devices given to jobs 101 and 102. *)
Definition gpu_view (r : res mbd) : option (list bool * option string * option string) :=
  match r with
  | Ok w => match hosts w with
            | h :: _ => Some (map in_use (g_ids (h_gpu h)), gpu_assigned <$> (jobs w !! 101), gpu_assigned <$> (jobs w !! 102))
            | [] => None
            end
  | Crash _ => None
  end.

(** Two jobs hold devices 0 and 1; when the second finishes, device 0 is marked free
    although the first still runs on it, and the finish of the first then stops the daemon
    on the assertion that it freed one device. *)
Theorem gpu_free_by_position :
  gpu_view (run_all gpu_script gpu_cluster) = Some ([false; true], Some "0", Some "1") /\
  run_all (gpu_script ++ [finished 101]) gpu_cluster = Crash AssertFailed.
Proof. split; vm_compute; reflexivity. Qed.

(** ** Requests that are not validated *)

(** A job that asks for minus four cpus is accepted and started, and its host
    then shows eight free cpus of four; a token pool named twice is checked entry
    by entry, so a job starts with one free token of the two it takes. *)
Theorem requests_not_validated :
  (exists w h, run_all [submit (demo_submit (-4) EmptyString); timer] demo0 = Ok w /\
    hosts w !! 0%nat = Some h /\ total_cpu h = 4 /\ free_cpu h = 8) /\
  (exists w, run_all [submit (demo_submit 1 "lic=1,lic=1"); timer] demo0 = Ok w /\
    pools w = [mk_mbd_token_pool "lic" 1 (-1)]).
Proof.
  split.
  - eexists _, _. split; [vm_compute; reflexivity|]. split; [vm_compute; reflexivity|]. split; reflexivity.
  - eexists. split; vm_compute; reflexivity.
Qed.

(** ** Reports the daemon does not guard against *)

(** A finish report for a job that was never sent to a host dereferences its null
    host pointer; a second acknowledgement of a stop runs into the counter checks. *)
Theorem unexpected_reports_crash :
  run_all [submit (demo_submit 1 EmptyString); finished 101] demo0 = Crash NullDeref /\
  run_all [submit (demo_submit 1 EmptyString); timer; started 101; stopped 101; stopped 101] demo0 =
    Crash AssertFailed.
Proof. split; vm_compute; reflexivity. Qed.
