(* ===== verification/Conf.v ===== *)
(** * The configuration of mbd

    The parsers of llb.hosts and llb.queues and [conf_init] (src/batch/mbd/conf.c)
    with the name lookup they use ([get_host_by_name] of src/base/lib/ll.host.c).
    -1 is [None]; what the code computes before it fails is dropped, since the
    daemon ends then.  The tables keyed by name are finite maps, whose own
    allocations succeed. *)

From S2P Require Import Prelude CString LlConf LlHash Dependency LogFormat MbdTypes MbdBase MbdJob MbdSched.

Open Scope string_scope.
Open Scope list_scope.
Open Scope Z_scope.

(** ** State and surroundings *)

(** The daemon with the tables that only the configuration fills: [group_list] and
    [host_addr_hash]. *)
Record conf_state : Type := mk_conf_state {
  cs_mbd : mbd;
  group_list : list mbd_group;
  host_addr_hash : gmap string nat
}.

Definition conf_state_eta (x : conf_state) : conf_state :=
  mk_conf_state (cs_mbd x) (group_list x) (host_addr_hash x).
#[export] Instance set_cs_mbd : Setter cs_mbd. Proof. setter conf_state_eta. Defined.
#[export] Instance set_group_list : Setter group_list. Proof. setter conf_state_eta. Defined.
#[export] Instance set_host_addr_hash : Setter host_addr_hash. Proof. setter conf_state_eta. Defined.

(** What the daemon is told from outside: the allocator, the directory of the
    configuration, its files, [strdup] for every line of ll.conf, whether the log
    opens, [getaddrinfo] (the canonical name, if any, and the first address as
    text), [getgrnam] (the members of a group), the user that runs the daemon and
    the name of a user. *)
Record conf_env : Type := mk_conf_env {
  ce_env : env;
  ce_dir : option string;
  ce_files : string -> option text_file;
  ce_strdup : nat -> bool;
  ce_openlog : bool;
  ce_getaddrinfo : string -> option (option string * string);
  ce_getgrnam : string -> option (list string);
  ce_uid : Z;
  ce_getpwuid : Z -> option (option string)
}.

(** [ll_hash_insert(ht, key, value, 0)]: an existing entry stays. *)
Definition hash_put {A} (k : string) (v : A) (m : gmap string A) : gmap string A :=
  match m !! k with Some _ => m | None => <[k := v]> m end.

(** ** Names and sizes *)

(** The text up to the last [c] and the text after it. *)
Fixpoint strrchr_split (c : ascii) (s : string) : option (string * string) :=
  match s with
  | EmptyString => None
  | String d s' =>
      match strrchr_split c s' with
      | Some (a, b) => Some (String d a, b)
      | None => if Ascii.eqb d c then Some (EmptyString, s') else None
      end
  end.

Definition parse_size_mb (s : string) : Z :=
  match s with
  | EmptyString => 0
  | _ =>
      match scan_number s with
      | None => 0
      | Some (v, rest) =>
          let v := saturate_u64 v in
          match rest with
          | EmptyString => v
          | String c EmptyString =>
              let c := code (tolower c) in
              if c =? 109 then v
              else if c =? 103 then u64 (v * 1024)
              else if c =? 116 then u64 (v * 1024 * 1024)
              else 0
          | _ => 0
          end
      end
  end.

(** The name and the address; the name is cut to its buffer. *)
Definition get_host_by_name (getaddrinfo : string -> option (option string * string)) (hostname : string)
    : option (string * string) :=
  match hostname with
  | EmptyString => None
  | _ =>
      match getaddrinfo hostname with
      | None => None
      | Some (canon, addr) =>
          let name := match canon with Some (String c s) => String c s | _ => hostname end in
          Some (strbuf MAXHOSTNAMELEN name, addr)
      end
  end.

Definition find_host_by_name (w : mbd) (name : string) : option nat := host_name_hash w !! name.

(** ** GPU lists *)

(** One more device, unless the array is full. *)
Definition add_gpu (max_ids : nat) (id : Z) (ids : list gpu_id) : option (list gpu_id) :=
  if (max_ids <=? length ids)%nat then None else Some (ids ++ [mk_gpu_id id false]).

(** [for (i = lo; i <= hi; i++)]: the array is full after [max_ids] rounds, so
    [fuel] above it is enough. *)
Fixpoint gpu_range (fuel max_ids : nat) (i hi : Z) (ids : list gpu_id) : option (list gpu_id) :=
  match fuel with
  | O => None
  | S fuel =>
      if hi <? i then Some ids
      else
        match add_gpu max_ids i ids with
        | None => None
        | Some ids => gpu_range fuel max_ids (i32 (i + 1)) hi ids
        end
  end.

Definition gpu_token (max_ids : nat) (tok : string) (ids : list gpu_id) : option (list gpu_id) :=
  match strchr_split "-" tok with
  | Some (a, b) =>
      let lo := atoi a in
      let hi := atoi b in
      if hi <? lo then None else gpu_range (S (S max_ids)) max_ids lo hi ids
  | None => add_gpu max_ids (atoi tok) ids
  end.

Fixpoint gpu_tokens (max_ids : nat) (toks : list string) (ids : list gpu_id) : option (list gpu_id) :=
  match toks with
  | [] => Some ids
  | t :: toks =>
      match gpu_token max_ids t ids with
      | None => None
      | Some ids => gpu_tokens max_ids toks ids
      end
  end.

(** The devices; the count is their number. *)
Definition parse_gpu_ids (s : string) (max_ids : nat) : option (list gpu_id) :=
  gpu_tokens max_ids (strtok_all is_comma (strbuf LL_BUFSIZ_64 s)) [].

Definition GPU_IDS_MAX : nat := 64.

Definition no_gpu : mbd_gpu := mk_mbd_gpu EmptyString EmptyString 0 [].

(** The GPU part of a row of the host tables. *)
Definition make_gpu (model ids : string) : option mbd_gpu :=
  if negb (String.eqb model "-") && negb (String.eqb ids "-") then
    match parse_gpu_ids ids GPU_IDS_MAX with
    | None => None
    | Some l => Some (mk_mbd_gpu (strbuf LL_BUFSIZ_64 model) (strbuf LL_BUFSIZ_64 ids) (Z.of_nat (length l)) l)
    end
  else Some no_gpu.

(** A host with nothing on it. *)
Definition new_host (nm addr : string) (cpu mem storage : Z) (gpu : mbd_gpu) (port : Z) : mbd_host :=
  mk_mbd_host nm addr cpu cpu mem mem storage storage gpu port 0 HOST_UNAVAIL false false 0 0 0 (-1) 0.

(** ** Sections of a file *)

Section table.
Context {S : Type} (name : string) (header : string -> bool) (row : string -> S -> attempt S)
  (at_end : bool -> bool).

(** The loop shared by [parse_token_pools], [parse_hosts], [parse_groups] and
    [parse_sim]: the first section called [name...] is read, a header line and then
    one row per line until its End. [at_end] is what the end of the file means. *)
Fixpoint parse_table (lines : list string) (in_section header_checked : bool) (s : S) : attempt S :=
  match lines with
  | [] => if at_end in_section then pret s else pfail
  | line :: lines =>
      let p := trim line in
      if skipped_line p then parse_table lines in_section header_checked s
      else
        match ll_conf_parse_begin p with
        | Some section =>
            if String.prefix name section then parse_table lines true false s
            else parse_table lines in_section header_checked s
        | None =>
            if negb in_section then parse_table lines in_section header_checked s
            else if negb header_checked then
              if header p then parse_table lines true true s else pfail
            else
              match ll_conf_parse_end p with
              | Some _ => pret s
              | None => let? s := row p s in parse_table lines true true s
              end
        end
  end.

Definition parse_file (f : option text_file) (s : S) : attempt S :=
  match f with
  | None => pfail
  | Some f => parse_table (file_lines LL_BUFSIZ_1K (tf_text f)) false false s
  end.
End table.

(** ** Token pools *)

Definition tokens_hdr : list string := ["POOL_NAME"; "AVAILABLE"].

Definition token_row (E : conf_env) (p : string) (c : conf_state) : attempt conf_state :=
  match scanf_word 63 p with
  | None => pfail
  | Some (nm, rest) =>
      match scanf_ints [CInt] rest with
      | Some ([total], _) =>
          if total <=? 0 then pfail
          else
            let (w, ok) := try_alloc (ce_env E) (cs_mbd c) in
            if negb ok then pfail
            else
              let tp := mk_mbd_token_pool (strbuf LL_BUFSIZ_64 nm) total total in
              pret (c <| cs_mbd := w <| pool_name_hash ::= hash_put (p_name tp) (length (pools w)) |>
                                     <| pools ::= fun l => l ++ [tp] |> |>)
      | _ => pfail
      end
  end.

Definition parse_token_pools (E : conf_env) (f : option text_file) (c : conf_state) : attempt conf_state :=
  parse_file "TokenPool" (fun p => ll_conf_check_header p tokens_hdr) (token_row E) (fun _ => true) f c.

(** ** Hosts *)

Definition host_hdr : list string := ["HOST_NAME"; "CPU"; "MEM"; "STORAGE"; "GPU_MODEL"; "GPU_IDS"].

(** [sscanf] of the last four words of a row. *)
Definition scan_sizes (s : string) : option (string * string * string * string) :=
  match scanf_word 31 s with
  | None => None
  | Some (mem, s) =>
      match scanf_word 31 s with
      | None => None
      | Some (storage, s) =>
          match scanf_word 63 s with
          | None => None
          | Some (model, s) =>
              match scanf_word 63 s with
              | None => None
              | Some (ids, _) => Some (mem, storage, model, ids)
              end
          end
      end
  end.

(** The columns of a row of the Host section. *)
Definition scan_host (p : string) : option (string * Z * (string * string * string * string)) :=
  match scanf_word 63 p with
  | None => None
  | Some (nm, s) =>
      match scanf_ints [CInt] s with
      | Some ([cpu], s) =>
          match scan_sizes s with
          | None => None
          | Some r => Some (nm, cpu, r)
          end
      | _ => None
      end
  end.

Definition make_host (E : conf_env) (alloc : bool) (p : string) : option mbd_host :=
  if negb alloc then None
  else
    match scan_host p with
    | None => None
    | Some (hostname, cpu, (mem, storage, model, ids)) =>
        match get_host_by_name (ce_getaddrinfo E) hostname with
        | None => None
        | Some (nm, addr) =>
            if parse_size_mb mem =? 0 then None
            else if parse_size_mb storage =? 0 then None
            else
              match make_gpu model ids with
              | None => None
              | Some g => Some (new_host nm addr cpu (parse_size_mb mem) (parse_size_mb storage) g 0)
              end
        end
    end.

(** A host at the end of the list, in the table of names if its name is new. *)
Definition add_host (h : mbd_host) (w : mbd) : mbd :=
  w <| host_name_hash ::= hash_put (h_name h) (length (hosts w)) |> <| hosts ::= fun l => l ++ [h] |>.

Definition host_row (E : conf_env) (p : string) (c : conf_state) : attempt conf_state :=
  let (w, ok) := try_alloc (ce_env E) (cs_mbd c) in
  match make_host E ok p with
  | None => pfail
  | Some h => pret (c <| cs_mbd := add_host h w |> <| host_addr_hash ::= hash_put (h_addr h) (length (hosts w)) |>)
  end.

Definition parse_hosts (E : conf_env) (f : option text_file) (c : conf_state) : attempt conf_state :=
  parse_file "Host" (fun p => ll_conf_check_header p host_hdr) (host_row E) (fun _ => false) f c.

(** ** Simulated hosts *)

Definition sim_hdr : list string :=
  ["NAME"; "REAL_HOST"; "PORT"; "CPU"; "MEM"; "STORAGE"; "GPU_MODEL"; "GPU_IDS"].

(** A conversion with the width 255 into a buffer of [MAXHOSTNAMELEN] bytes. *)
Definition scan_name (s : string) : attempt (string * string) :=
  match scanf_word 255 s with
  | None => pfail
  | Some (nm, s) =>
      let* _ := guard_or (String.length nm <? MAXHOSTNAMELEN)%nat BadIndex in
      pret (nm, s)
  end.

Definition scan_sim (p : string) : attempt (string * string * Z * Z * (string * string * string * string)) :=
  let? (nm, s) := scan_name p in
  let? (real, s) := scan_name s in
  match scanf_ints [CInt; CInt] s with
  | Some ([port; cpu], s) =>
      match scan_sizes s with
      | None => pfail
      | Some r => pret (nm, real, port, cpu, r)
      end
  | _ => pfail
  end.

Definition sim_row (E : conf_env) (p : string) (c : conf_state) : attempt conf_state :=
  let? (nm, real, port, cpu, (mem, storage, model, ids)) := scan_sim p in
  if (port <? 1) || (65535 <? port) then pfail
  else
    match find_host_by_name (cs_mbd c) real with
    | None => pfail
    | Some r =>
        let (w, ok) := try_alloc (ce_env E) (cs_mbd c) in
        if negb ok then pfail
        else
          let* rh := nth_res (hosts w) r in
          if parse_size_mb mem =? 0 then pfail
          else if parse_size_mb storage =? 0 then pfail
          else
            match make_gpu model ids with
            | None => pfail
            | Some g =>
                pret (c <| cs_mbd := add_host (new_host (strbuf MAXHOSTNAMELEN nm) (h_addr rh) cpu
                                       (parse_size_mb mem) (parse_size_mb storage) g port) w |>)
            end
    end.

Definition parse_sim (E : conf_env) (f : option text_file) (c : conf_state) : attempt conf_state :=
  parse_file "Sim" (fun p => ll_conf_check_header p sim_hdr) (sim_row E) negb f c.

(** ** Host groups *)

Definition group_words (g : string) : list string := strtok_all is_blank (strbuf LL_BUFSIZ_1K g).

Definition make_group (alloc : bool) (w : mbd) (p : string) : option mbd_group :=
  match strchr_split "(" p with
  | None => None
  | Some (nm, rest) =>
      match strrchr_split ")" rest with
      | None => None
      | Some (members, _) =>
          let members := trim members in
          if negb alloc then None
          else if forallb (fun t => bool_decide (is_Some (host_name_hash w !! t))) (group_words members) then
            Some (mk_mbd_group (strbuf LL_BUFSIZ_64 (trim nm)) (strbuf LL_BUFSIZ_1K members)
                    (Z.of_nat (length (group_words members))))
          else None
      end
  end.

Definition group_row (E : conf_env) (p : string) (c : conf_state) : attempt conf_state :=
  let (w, ok) := try_alloc (ce_env E) (cs_mbd c) in
  match make_group ok w p with
  | None => pfail
  | Some g => pret (c <| cs_mbd := w <| group_name_hash ::= hash_put (grp_name g) g |> |>
                      <| group_list ::= fun l => l ++ [g] |>)
  end.

(** The header line of this section is skipped unread. *)
Definition parse_groups (E : conf_env) (f : option text_file) (c : conf_state) : attempt conf_state :=
  parse_file "HostGroup" (fun _ => true) (group_row E) negb f c.

(** ** Queues *)

Record queue_conf : Type := mk_queue_conf {
  qc_name : string;
  qc_desc : string;
  qc_hosts_spec : string;
  qc_users : string;
  qc_priority : Z
}.

Definition queue_conf_eta (x : queue_conf) : queue_conf :=
  mk_queue_conf (qc_name x) (qc_desc x) (qc_hosts_spec x) (qc_users x) (qc_priority x).
#[export] Instance set_qc_name : Setter qc_name. Proof. setter queue_conf_eta. Defined.
#[export] Instance set_qc_desc : Setter qc_desc. Proof. setter queue_conf_eta. Defined.
#[export] Instance set_qc_hosts_spec : Setter qc_hosts_spec. Proof. setter queue_conf_eta. Defined.
#[export] Instance set_qc_users : Setter qc_users. Proof. setter queue_conf_eta. Defined.
#[export] Instance set_qc_priority : Setter qc_priority. Proof. setter queue_conf_eta. Defined.

(** [memset(&qc, 0, sizeof(qc))]. *)
Definition queue_conf_zero : queue_conf := mk_queue_conf EmptyString EmptyString EmptyString EmptyString 0.

Definition commit_queue (E : conf_env) (qc : queue_conf) (c : conf_state) : attempt conf_state :=
  if String.eqb (qc_name qc) EmptyString then pfail
  else if String.eqb (qc_hosts_spec qc) EmptyString then pfail
  else
    let (w, ok) := try_alloc (ce_env E) (cs_mbd c) in
    if negb ok then pfail
    else
      let q := mk_mbd_queue (strbuf LL_BUFSIZ_64 (qc_name qc)) (strbuf LL_BUFSIZ_256 (qc_desc qc))
                 (strbuf LL_BUFSIZ_256 (qc_hosts_spec qc)) (strbuf LL_BUFSIZ_256 (qc_users qc))
                 (qc_priority qc) 0 0 0 0 0 0 QUEUE_OPEN 0 0 ∅ ∅ in
      pret (c <| cs_mbd := w <| queue_name_hash ::= hash_put (q_name q) (length (queues w)) |>
                             <| queues ::= fun l => l ++ [q] |> |>).

(** [ll_atoi] returns 0 or 1 and [ll_strlcpy] a length, so only an unknown key is
    an error, and a priority that is no number leaves the one before. *)
Definition parse_queue_conf (qc : queue_conf) (key val : string) : option queue_conf :=
  if strcaseeq key "QUEUE_NAME" then Some (qc <| qc_name := strbuf LL_BUFSIZ_64 val |>)
  else if strcaseeq key "PRIORITY" then
    Some (match ll_atoi val with Some v => qc <| qc_priority := v |> | None => qc end)
  else if strcaseeq key "DESCRIPTION" then Some (qc <| qc_desc := strbuf LL_BUFSIZ_256 val |>)
  else if strcaseeq key "HOSTS" then Some (qc <| qc_hosts_spec := strbuf LL_BUFSIZ_256 val |>)
  else if strcaseeq key "USERS" then Some (qc <| qc_users := strbuf LL_BUFSIZ_256 val |>)
  else None.

Fixpoint queue_lines (E : conf_env) (lines : list string) (in_section : bool) (qc : queue_conf) (c : conf_state)
    : attempt conf_state :=
  match lines with
  | [] => if in_section then pfail else pret c
  | line :: lines =>
      let p := trim line in
      if skipped_line p then queue_lines E lines in_section qc c
      else
        match ll_conf_parse_begin p with
        | Some section =>
            if String.prefix "Queue" section then queue_lines E lines true queue_conf_zero c
            else queue_lines E lines in_section qc c
        | None =>
            if negb in_section then queue_lines E lines in_section qc c
            else
              match ll_conf_parse_end p with
              | Some _ =>
                  let? c := commit_queue E qc c in
                  queue_lines E lines false queue_conf_zero c
              | None =>
                  match strchr_split "=" p with
                  | None => pfail
                  | Some (key, val) =>
                      match parse_queue_conf qc (rtrim key) (rtrim (ltrim val)) with
                      | None => pfail
                      | Some qc => queue_lines E lines true qc c
                      end
                  end
              end
        end
  end.

Definition parse_queues (E : conf_env) (f : option text_file) (c : conf_state) : attempt conf_state :=
  match f with
  | None => pfail
  | Some f => queue_lines E (file_lines LL_BUFSIZ_1K (tf_text f)) false queue_conf_zero c
  end.

(** ** Membership of queues *)

(** One host name of a queue: the host goes in under its own name. *)
Definition expand_host (w : mbd) (nm : string) (m : gmap string nat) : attempt (gmap string nat) :=
  match find_host_by_name w nm with
  | None => pfail
  | Some h => let* hh := nth_res (hosts w) h in pret (hash_put (h_name hh) h m)
  end.

Fixpoint expand_hosts (w : mbd) (nms : list string) (m : gmap string nat) : attempt (gmap string nat) :=
  match nms with
  | [] => pret m
  | nm :: nms => let? m := expand_host w nm m in expand_hosts w nms m
  end.

(** The host names a word of HOSTS stands for. *)
Definition token_hosts (w : mbd) (tok : string) : list string :=
  match group_name_hash w !! tok with
  | Some g => group_words (grp_members g)
  | None => [tok]
  end.

Definition queue_hosts (w : mbd) (q : mbd_queue) : list string :=
  concat (map (token_hosts w) (strtok_all is_blank (strbuf LL_BUFSIZ_1K (q_hosts_spec q)))).

Definition expand_queue (w : mbd) (q : mbd_queue) : attempt mbd_queue :=
  let? m := expand_hosts w (queue_hosts w q) ∅ in
  pret (q <| q_host_hash := m |>).

Fixpoint expand_queues (w : mbd) (qs : list mbd_queue) : attempt (list mbd_queue) :=
  match qs with
  | [] => pret []
  | q :: qs => let? q := expand_queue w q in let? qs := expand_queues w qs in pret (q :: qs)
  end.

Definition conf_expand_queues (w : mbd) : attempt mbd :=
  let? qs := expand_queues w (queues w) in pret (w <| queues := qs |>).

(** The users a word of USERS stands for: the members of a group that has some. *)
Definition token_users (getgrnam : string -> option (list string)) (tok : string) : list string :=
  match getgrnam tok with
  | Some (u :: us) => u :: us
  | _ => [tok]
  end.

Definition expand_users (getgrnam : string -> option (list string)) (q : mbd_queue) : mbd_queue :=
  if String.eqb (q_users q) EmptyString || String.eqb (q_users q) "*" then q <| q_user_hash := ∅ |>
  else
    let users := concat (map (token_users getgrnam) (strtok_all is_blank (strbuf LL_BUFSIZ_4K (q_users q)))) in
    q <| q_user_hash := foldl (fun m u => hash_put u tt m) ∅ users |>.

Definition conf_expand_queue_users (getgrnam : string -> option (list string)) (w : mbd) : mbd :=
  w <| queues ::= map (expand_users getgrnam) |>.

(** ** The start of the daemon *)

Definition init_manager (E : conf_env) (w : mbd) : option mbd :=
  let w := w <| mgr_uid := ce_uid E |> in
  match ce_getpwuid E (ce_uid E) with
  | Some (Some _) => Some w
  | _ => None
  end.

Definition check_ll_config (ps : list ll_kv) : bool :=
  forallb (fun k => negb (ll_conf_param_missing (param ps k)))
    [LL_STATE_DIR; LL_MBD_PORT; LL_MBD_HOST; LL_MBD_USER; LL_DEFAULT_QUEUE].

(** The parameters loaded and the state configured; [default_queue] is the value
    of LL_DEFAULT_QUEUE. *)
Definition conf_init (E : conf_env) (ps : list ll_kv * bool) (c : conf_state) : attempt (list ll_kv * conf_state) :=
  match ll_init (ce_strdup E) (ce_dir E) (ce_files E) ps with
  | None => pfail
  | Some (ps, _) =>
      if negb (check_ll_config ps) then pfail
      else if negb (ce_openlog E) then pfail
      else
        let* dir := deref (ce_dir E) in
        match conf_path dir "llb.hosts" with
        | None => pfail
        | Some path =>
            let? c := parse_hosts E (ce_files E path) c in
            let? c := parse_token_pools E (ce_files E path) c in
            let? c := parse_sim E (ce_files E path) c in
            let? c := parse_groups E (ce_files E path) c in
            match conf_path dir "llb.queues" with
            | None => pfail
            | Some path =>
                let? c := parse_queues E (ce_files E path) c in
                let? w := conf_expand_queues (cs_mbd c) in
                let w := conf_expand_queue_users (ce_getgrnam E) w in
                match init_manager E w, param ps LL_DEFAULT_QUEUE with
                | Some w, Some q =>
                    if bool_decide (is_Some (queue_name_hash w !! q)) then
                      pret (ps, c <| cs_mbd := w <| default_queue := q |> |>)
                    else pfail
                | _, _ => pfail
                end
            end
        end
  end.
