(* ===== verification/ConfProps.v ===== *)
(** * What an accepted configuration gives

    A configuration that [conf_init] accepts fills the tables of the daemon right
    ([configured]), and the daemon it leaves can start its life ([first_start]). *)

From S2P Require Import Prelude CString LlConf LlHash Dependency LogFormat MbdTypes MbdBase MbdJob MbdSched.
From S2P Require Import MbdNet MbdInv MbdDurable MbdStatic MbdLogged MbdProgress MbdRestart MbdDemo Conf.

Open Scope string_scope.
Open Scope list_scope.
Open Scope Z_scope.

(** ** Statements *)

(** A table keyed by name finds the first entry of the list with the name; it holds
    what [f] takes of the place and the entry. *)
Definition table_by {A B} (f : nat * A -> B) (proj : A -> string) (l : list A) (m : gmap string B) : Prop :=
  forall nm, m !! nm = f <$> list_find (fun x => proj x = nm) l.

Definition name_table {A} : (A -> string) -> list A -> gmap string nat -> Prop := table_by fst.
Definition entry_table {A} : (A -> string) -> list A -> gmap string A -> Prop := table_by snd.

(** A host as configured: nothing on it, no execution daemon yet. *)
Record host_new (h : mbd_host) : Prop := mk_host_new {
  hn_make : h = new_host (h_name h) (h_addr h) (total_cpu h) (total_mem_mb h) (total_storage_mb h) (h_gpu h) (h_port h);
  hn_name : (0 < String.length (h_name h) < MAXHOSTNAMELEN)%nat;
  hn_mem : 0 < total_mem_mb h < 2 ^ 64;
  hn_storage : 0 < total_storage_mb h < 2 ^ 64;
  hn_gpus : g_count (h_gpu h) = Z.of_nat (length (g_ids (h_gpu h))) /\ (length (g_ids (h_gpu h)) <= GPU_IDS_MAX)%nat;
  hn_free : Forall (fun d => in_use d = false) (g_ids (h_gpu h));
  hn_port : 0 <= h_port h <= 65535
}.

(** A queue as configured: open and empty. *)
Record queue_new (q : mbd_queue) : Prop := mk_queue_new {
  qn_counts : q_num_jobs q = 0 /\ q_num_pend q = 0 /\ q_num_run q = 0 /\ q_num_susp q = 0 /\ q_num_held q = 0 /\
              q_cpus_used q = 0 /\ q_hosts_used q = 0;
  qn_state : q_state q = QUEUE_OPEN;
  qn_name : (0 < String.length (q_name q) < LL_BUFSIZ_64)%nat;
  qn_hosts : q_hosts_spec q <> EmptyString
}.

Definition pool_new (p : mbd_token_pool) : Prop := 0 < p_total p /\ p_free p = p_total p.

(** The part of the state no parser touches. *)
Definition rest (w : mbd) :=
  ((jobs w, pend_jobs_list w, run_jobs_list w, finish_jobs_list w), sbd_chan_hash w,
   (job_id_seq w, job_id_seq_file w), (queue_files w, host_files w, manifest w, outbox w)).

(** The state while the files are read. *)
Record parsing (w0 : mbd) (c : conf_state) : Prop := mk_parsing {
  pa_hosts : name_table h_name (hosts (cs_mbd c)) (host_name_hash (cs_mbd c));
  pa_queues : name_table q_name (queues (cs_mbd c)) (queue_name_hash (cs_mbd c));
  pa_pools : name_table p_name (pools (cs_mbd c)) (pool_name_hash (cs_mbd c));
  pa_groups : entry_table grp_name (group_list c) (group_name_hash (cs_mbd c));
  pa_hosts_new : Forall host_new (hosts (cs_mbd c));
  pa_queues_new : Forall queue_new (queues (cs_mbd c));
  pa_pools_new : Forall pool_new (pools (cs_mbd c));
  pa_members : Forall (fun g => Forall (fun t => is_Some (host_name_hash (cs_mbd c) !! t)) (group_words (grp_members g)))
                 (group_list c);
  pa_rest : rest (cs_mbd c) = rest w0
}.

(** HOSTS of the queue names the host, directly or through a group. *)
Definition names_host (w : mbd) (q : mbd_queue) (nm : string) : Prop :=
  exists tok, tok ∈ strtok_all is_blank (strbuf LL_BUFSIZ_1K (q_hosts_spec q)) /\
    match group_name_hash w !! tok with
    | Some g => nm ∈ strtok_all is_blank (strbuf LL_BUFSIZ_1K (grp_members g))
    | None => nm = tok
    end.

(** USERS of the queue names the user, directly or through a Unix group that has
    members; an empty USERS and a star name nobody. *)
Definition names_user (getgrnam : string -> option (list string)) (q : mbd_queue) (u : string) : Prop :=
  q_users q <> EmptyString /\ q_users q <> "*" /\
  exists tok, tok ∈ strtok_all is_blank (strbuf LL_BUFSIZ_4K (q_users q)) /\
    match getgrnam tok with
    | None | Some [] => u = tok
    | Some us => u ∈ us
    end.

(** The tables of a queue: its hosts, each with its place in the host list, and its
    users are those it names. *)
Definition queue_expanded (getgrnam : string -> option (list string)) (w : mbd) (q : mbd_queue) : Prop :=
  (forall nm h, q_host_hash q !! nm = Some h <-> names_host w q nm /\ host_name_hash w !! nm = Some h) /\
  (forall nm, names_host w q nm -> is_Some (host_name_hash w !! nm)) /\
  (forall u, is_Some (q_user_hash q !! u) <-> names_user getgrnam q u).

(** The state after an accepted configuration. *)
Record configured (E : conf_env) (w0 : mbd) (c : conf_state) : Prop := mk_configured {
  cd_parsed : parsing w0 c;
  cd_expanded : Forall (queue_expanded (ce_getgrnam E) (cs_mbd c)) (queues (cs_mbd c));
  cd_default : is_Some (queue_name_hash (cs_mbd c) !! default_queue (cs_mbd c));
  cd_manager : mgr_uid (cs_mbd c) = ce_uid E
}.

(** ** Tables *)

Lemma list_find_snoc {A} (P : A -> Prop) `{forall x, Decision (P x)} l x :
  list_find P (l ++ [x]) =
  match list_find P l with Some r => Some r | None => if decide (P x) then Some (length l, x) else None end.
Proof.
  induction l as [|y l IH]; cbn; [by destruct (decide (P x))|]. destruct (decide (P y)); [done|]. rewrite IH.
  destruct (list_find P l) as [[i z]|]; cbn; [done|]. by destruct (decide (P x)).
Qed.

Lemma table_snoc {A B} (f : nat * A -> B) (proj : A -> string) l m x :
  table_by f proj l m -> table_by f proj (l ++ [x]) (hash_put (proj x) (f (length l, x)) m).
Proof.
  intros H nm. rewrite list_find_snoc. unfold hash_put. destruct (decide (proj x = nm)) as [<-|Hne].
  - rewrite (H (proj x)). destruct (list_find _ l) as [[i y]|] eqn:El; cbn.
    + by rewrite (H (proj x)), El.
    + by rewrite lookup_insert_eq.
  - assert (E : (match m !! proj x with Some _ => m | None => <[proj x := f (length l, x)]> m end) !! nm = m !! nm).
    { destruct (m !! proj x); [done|]. by rewrite lookup_insert_ne. }
    rewrite E, (H nm). by destruct (list_find _ l) as [[? ?]|].
Qed.

Lemma name_table_Some {A} (proj : A -> string) l m nm i :
  name_table proj l m -> m !! nm = Some i -> exists x, l !! i = Some x /\ proj x = nm.
Proof.
  intros H Hi. rewrite (H nm) in Hi. destruct (list_find _ l) as [[k x]|] eqn:E; [|done]. injection Hi as <-.
  apply list_find_Some in E as (? & ? & _). eauto.
Qed.

Lemma hash_put_mono {A} (m : gmap string A) k v nm : is_Some (m !! nm) -> is_Some (hash_put k v m !! nm).
Proof.
  intros Hs. unfold hash_put. destruct (m !! k) eqn:E; [done|].
  rewrite lookup_insert_ne; [done|]. intros ->. rewrite E in Hs. by destruct Hs.
Qed.

Lemma Forall_snoc {A} (P : A -> Prop) l x : Forall P l -> P x -> Forall P (l ++ [x]).
Proof. intros. apply Forall_app. split; [done|]. by constructor. Qed.

(** ** Words and sizes *)

Lemma saturate_u64_range v : 0 <= saturate_u64 v < 2 ^ 64.
Proof. unfold saturate_u64. destruct (Z.leb_spec (2 ^ 64) (Z.abs v)); [lia|]. apply Z.mod_pos_bound. lia. Qed.

Lemma parse_size_range s : 0 <= parse_size_mb s < 2 ^ 64.
Proof.
  unfold parse_size_mb. repeat case_match; try lia; try apply saturate_u64_range; apply Z.mod_pos_bound; lia.
Qed.

Lemma strbuf_nonempty size s : (1 < size)%nat -> s <> EmptyString -> (0 < String.length (strbuf size s))%nat.
Proof.
  intros H Hs. unfold strbuf, ll_strlcpy. destruct size as [|size]; [lia|]. destruct (_ <? _)%nat; cbn [fst].
  - destruct s; [done|cbn; lia].
  - rewrite substring_length. destruct s; [done|cbn; lia].
Qed.

Lemma scanf_word_nonempty n s a b : scanf_word n s = Some (a, b) -> a <> EmptyString.
Proof. unfold scanf_word. destruct (take_word _ _) as [[|c t] r]; [done|]. by intros [= <- <-]. Qed.

(** ** GPUs *)

Definition gpus_ok (max : nat) (ids : list gpu_id) : Prop :=
  (length ids <= max)%nat /\ Forall (fun d => in_use d = false) ids.

Lemma add_gpu_ok max i ids ids' : add_gpu max i ids = Some ids' -> gpus_ok max ids -> gpus_ok max ids'.
Proof.
  unfold add_gpu. destruct (Nat.leb_spec max (length ids)); [done|]. intros [= <-] [H1 H2]. split.
  - rewrite length_app. cbn. lia.
  - by apply Forall_snoc.
Qed.

Lemma gpu_range_ok max hi : forall fuel i ids ids',
  gpu_range fuel max i hi ids = Some ids' -> gpus_ok max ids -> gpus_ok max ids'.
Proof.
  induction fuel as [|fuel IH]; intros i ids ids' H Hok; cbn in H; [done|]. destruct (hi <? i); [congruence|].
  destruct (add_gpu max i ids) as [l|] eqn:E; [|done]. eapply IH; [exact H|]. by eapply add_gpu_ok.
Qed.

(** The fuel of the loop does not matter: the array is full before it ends. *)
Lemma gpu_range_fuel max hi : forall fuel i ids,
  (length ids <= max)%nat -> (max - length ids < fuel)%nat ->
  gpu_range (S fuel) max i hi ids = gpu_range fuel max i hi ids.
Proof.
  induction fuel as [|fuel IH]; intros i ids Hl Hf; [lia|].
  change (gpu_range (S (S fuel)) max i hi ids) with
    (if hi <? i then Some ids else match add_gpu max i ids with None => None
       | Some ids => gpu_range (S fuel) max (i32 (i + 1)) hi ids end).
  cbn [gpu_range]. destruct (hi <? i); [done|]. unfold add_gpu. destruct (Nat.leb_spec max (length ids)); [done|].
  apply IH; rewrite length_app; cbn; lia.
Qed.

Lemma gpu_tokens_ok max : forall toks ids ids',
  gpu_tokens max toks ids = Some ids' -> gpus_ok max ids -> gpus_ok max ids'.
Proof.
  induction toks as [|t toks IH]; intros ids ids' H Hok; cbn in H; [congruence|].
  destruct (gpu_token max t ids) as [l|] eqn:E; [|done]. eapply IH; [exact H|]. clear H IH.
  unfold gpu_token in E. destruct (strchr_split "-" t) as [[a b]|]; [|by eapply add_gpu_ok].
  destruct (atoi b <? atoi a); [done|]. by eapply gpu_range_ok.
Qed.

Lemma make_gpu_ok model ids g : make_gpu model ids = Some g ->
  g_count g = Z.of_nat (length (g_ids g)) /\ gpus_ok GPU_IDS_MAX (g_ids g).
Proof.
  unfold make_gpu. destruct (_ && _).
  - unfold parse_gpu_ids. destruct (gpu_tokens _ _ _) as [l|] eqn:E; [|done]. intros [= <-]. split; [done|].
    eapply gpu_tokens_ok; [exact E|]. split; [cbn; lia|constructor].
  - intros [= <-]. split; [done|]. split; [cbn; lia|constructor].
Qed.

Lemma new_host_new nm addr cpu mem storage model ids g port :
  (0 < String.length nm < MAXHOSTNAMELEN)%nat -> parse_size_mb mem <> 0 -> parse_size_mb storage <> 0 ->
  make_gpu model ids = Some g -> 0 <= port <= 65535 ->
  host_new (new_host nm addr cpu (parse_size_mb mem) (parse_size_mb storage) g port).
Proof.
  intros Hn Hm Hs [Hc [Hl Hu]]%make_gpu_ok Hp.
  pose proof (parse_size_range mem). pose proof (parse_size_range storage). split; cbn; try done; lia.
Qed.

(** ** Parsers *)

(** What every row keeps, a section keeps. *)
Lemma parse_table_keeps {S} name header (row : string -> S -> attempt S) at_end (P : S -> Prop) :
  (forall p s s', P s -> row p s = Ok (Some s') -> P s') ->
  forall lines b1 b2 s s', P s -> parse_table name header row at_end lines b1 b2 s = Ok (Some s') -> P s'.
Proof.
  intros Hrow. induction lines as [|line lines IH]; intros b1 b2 s s' HP H; cbn in H.
  - destruct (at_end b1); [|done]. by injection H as <-.
  - destruct (skipped_line _); [eauto|]. destruct (ll_conf_parse_begin _) as [sec|].
    { destruct (String.prefix name sec); eauto. }
    destruct (negb b1); [eauto|]. destruct (negb b2).
    { destruct (header _); [eauto|done]. }
    destruct (ll_conf_parse_end _); [by injection H as <-|].
    apply pbind_Some in H as (s1 & H1 & H). eauto.
Qed.

Lemma parse_file_keeps {S} name header (row : string -> S -> attempt S) at_end (P : S -> Prop) f s s' :
  (forall p s s', P s -> row p s = Ok (Some s') -> P s') -> P s ->
  parse_file name header row at_end f s = Ok (Some s') -> P s'.
Proof. intros Hrow HP. unfold parse_file. destruct f; [|done]. by apply parse_table_keeps. Qed.

Section rows.
Context (E : conf_env) (w0 : mbd).

Lemma parsing_add_host c h io1 :
  parsing w0 c -> host_new h -> parsing w0 (c <| cs_mbd := add_host h ((cs_mbd c) <| io := io1 |>) |>).
Proof.
  intros [] Hn. split; cbn; try done.
  - by apply (table_snoc fst h_name).
  - by apply Forall_snoc.
  - eapply Forall_impl; [done|]. intros g Hg. eapply Forall_impl; [exact Hg|]. intros t. apply hash_put_mono.
Qed.

Lemma token_row_parsing p c c' : parsing w0 c -> token_row E p c = Ok (Some c') -> parsing w0 c'.
Proof.
  intros [] H. unfold token_row in H. destruct (scanf_word 63 p) as [[nm s]|]; [|done].
  destruct (scanf_ints [CInt] s) as [[[|total [|]] r]|]; try done.
  destruct (Z.leb_spec total 0); [done|]. cbn [try_alloc] in H. destruct (alloc_ok _ _); [|done].
  injection H as <-. split; cbn; try done.
  - by apply (table_snoc fst p_name).
  - apply Forall_snoc; [done|]. split; [cbn; lia|done].
Qed.

Lemma host_row_parsing p c c' : parsing w0 c -> host_row E p c = Ok (Some c') -> parsing w0 c'.
Proof.
  intros HP H. unfold host_row, try_alloc in H.
  destruct (make_host E _ p) as [h|] eqn:Hh; [|done]. injection H as <-.
  apply (parsing_add_host _ h (S (io (cs_mbd c)))) in HP; [by destruct HP; split|].
  unfold make_host in Hh. destruct (negb _); [done|]. destruct (scan_host p) as [[[hn cpu] [[[mem st] model] ids]]|]; [|done].
  destruct (get_host_by_name _ hn) as [[nm addr]|] eqn:Hg; [|done].
  destruct (Z.eqb_spec (parse_size_mb mem) 0); [done|]. destruct (Z.eqb_spec (parse_size_mb st) 0); [done|].
  destruct (make_gpu model ids) as [g|] eqn:Hgpu; [|done]. injection Hh as <-.
  eapply new_host_new; try done. unfold get_host_by_name in Hg.
  destruct hn as [|ch hn]; [done|]. destruct (ce_getaddrinfo E _) as [[canon a]|]; [|done]. injection Hg as <- _.
  split; [apply strbuf_nonempty|apply strbuf_length]; unfold MAXHOSTNAMELEN; try lia. by destruct canon as [[|]|].
Qed.

Lemma sim_row_parsing p c c' : parsing w0 c -> sim_row E p c = Ok (Some c') -> parsing w0 c'.
Proof.
  intros HP H. unfold sim_row in H. apply pbind_Some in H as ([[[[nm real] port] cpu] [[[mem st] model] ids]] & Hs & H).
  destruct (Z.ltb_spec port 1); [done|]. destruct (Z.ltb_spec 65535 port); [done|]. cbn [orb] in H.
  destruct (find_host_by_name _ _) as [r|]; [|done]. cbn [try_alloc] in H. destruct (negb _); [done|].
  apply res_bind_Ok in H as (rh & _ & H). 
  destruct (Z.eqb_spec (parse_size_mb mem) 0); [done|]. destruct (Z.eqb_spec (parse_size_mb st) 0); [done|].
  destruct (make_gpu model ids) as [g|] eqn:Hgpu; [|done]. injection H as <-.
  apply parsing_add_host; [done|]. eapply new_host_new; try done; [|lia].
  unfold scan_sim in Hs. apply pbind_Some in Hs as ([nm' s1] & Hn & Hs). apply pbind_Some in Hs as ([real' s2] & _ & Hs).
  assert (nm' = nm) as -> by (repeat case_match; try done; by injection Hs as ->).
  unfold scan_name in Hn. destruct (scanf_word 255 p) as [[a b]|] eqn:Hw; [|done].
  apply res_bind_Ok in Hn as (u & _ & Hn). injection Hn as -> _.
  split; [apply strbuf_nonempty|apply strbuf_length]; unfold MAXHOSTNAMELEN; try lia. by eapply scanf_word_nonempty.
Qed.

Lemma group_row_parsing p c c' : parsing w0 c -> group_row E p c = Ok (Some c') -> parsing w0 c'.
Proof.
  intros [] H. unfold group_row, try_alloc in H. destruct (make_group _ _ p) as [g|] eqn:Hg; [|done].
  injection H as <-. split; cbn; try done.
  - by apply (table_snoc snd grp_name).
  - apply Forall_snoc; [done|].
    unfold make_group in Hg. destruct (strchr_split _ p) as [[nm rst]|]; [|done].
    destruct (strrchr_split _ rst) as [[ms r]|]; [|done]. destruct (negb _); [done|].
    destruct (forallb _ _) eqn:Ha; [|done]. injection Hg as <-. cbn. apply Is_true_true_2, forallb_True in Ha.
    unfold group_words at 1. rewrite strbuf_idem. eapply Forall_impl; [exact Ha|].
    intros t Ht. cbn in Ht. by apply bool_decide_unpack in Ht.
Qed.

Lemma commit_queue_parsing qc c c' : parsing w0 c -> commit_queue E qc c = Ok (Some c') -> parsing w0 c'.
Proof.
  intros [] H. unfold commit_queue in H. destruct (String.eqb_spec (qc_name qc) EmptyString); [done|].
  destruct (String.eqb_spec (qc_hosts_spec qc) EmptyString); [done|]. cbn [try_alloc] in H. destruct (alloc_ok _ _); [|done].
  injection H as <-. split; cbn; try done.
  - by apply (table_snoc fst q_name).
  - apply Forall_snoc; [done|]. split; cbn [q_num_jobs q_num_pend q_num_run q_num_susp q_num_held q_cpus_used q_hosts_used q_state q_name q_hosts_spec]; try done.
    + split; [apply strbuf_nonempty|apply strbuf_length]; unfold LL_BUFSIZ_64; try lia; done.
    + intros Hz. pose proof (strbuf_nonempty LL_BUFSIZ_256 (qc_hosts_spec qc)) as Hl. rewrite Hz in Hl.
      unfold LL_BUFSIZ_256 in Hl. cbn in Hl. by specialize (Hl ltac:(lia) ltac:(done)); lia.
Qed.

Lemma queue_lines_parsing : forall lines b qc c c',
  parsing w0 c -> queue_lines E lines b qc c = Ok (Some c') -> parsing w0 c'.
Proof.
  induction lines as [|line lines IH]; intros b qc c c' HP H; cbn in H.
  - destruct b; [done|]. by injection H as <-.
  - destruct (skipped_line _); [eauto|]. destruct (ll_conf_parse_begin _) as [sec|].
    { destruct (String.prefix _ sec); eauto. }
    destruct (negb b); [eauto|]. destruct (ll_conf_parse_end _).
    { apply pbind_Some in H as (c1 & H1 & H). eapply IH; [|exact H]. by eapply commit_queue_parsing. }
    destruct (strchr_split _ _) as [[k v]|]; [|done]. destruct (parse_queue_conf _ _ _) as [qc'|]; [eauto|done].
Qed.
End rows.

(** ** Expansion *)

Lemma name_table_names {A} (proj : A -> string) l l' m :
  map proj l' = map proj l -> name_table proj l m -> name_table proj l' m.
Proof.
  intros Hm H nm. rewrite (H nm). clear H. revert l Hm.
  induction l' as [|x l' IH]; intros [|y l] Hm; try done. cbn in Hm. injection Hm as Hx Hm. cbn. rewrite Hx.
  destruct (decide (proj y = nm)); [done|]. specialize (IH l Hm).
  destruct (list_find _ l) as [[? ?]|], (list_find _ l') as [[? ?]|]; cbn in *; congruence.
Qed.

Section expand.
Context (w : mbd) (T : name_table h_name (hosts w) (host_name_hash w)).

Lemma expand_host_spec nm m m' : expand_host w nm m = Ok (Some m') ->
  exists h, host_name_hash w !! nm = Some h /\ m' = hash_put nm h m.
Proof using T.
  unfold expand_host, find_host_by_name. destruct (host_name_hash w !! nm) as [h|] eqn:Eh; [|done]. intros H.
  apply res_bind_Ok in H as (hh & Hh & H). apply nth_res_Ok in Hh. injection H as <-. exists h. split; [done|].
  destruct (name_table_Some _ _ _ _ _ T Eh) as (x & Hx & <-). by replace x with hh by congruence.
Qed.

Lemma expand_hosts_spec : forall nms m m',
  m ⊆ host_name_hash w -> expand_hosts w nms m = Ok (Some m') ->
  (forall nm, nm ∈ nms -> is_Some (host_name_hash w !! nm)) /\
  forall nm, m' !! nm = if decide (nm ∈ nms) then host_name_hash w !! nm else m !! nm.
Proof using T.
  induction nms as [|n nms IH]; intros m m' Hm H; cbn in H.
  - injection H as <-. split; [by intros ? ?%not_elem_of_nil|]. intros nm. case_decide as Hin; [|done]. by apply not_elem_of_nil in Hin.
  - apply pbind_Some in H as (m1 & H1 & H). apply expand_host_spec in H1 as (h & Hh & ->).
    assert (Hl : forall nm, hash_put n h m !! nm = if decide (nm = n) then Some h else m !! nm).
    { intros nm. unfold hash_put. destruct (m !! n) as [h'|] eqn:E.
      - case_decide; [subst nm|done]. rewrite E. assert (host_name_hash w !! n = Some h') by by eapply lookup_weaken. congruence.
      - case_decide; [subst nm; by rewrite lookup_insert_eq|by rewrite lookup_insert_ne]. }
    destruct (IH (hash_put n h m) m') as [Hs Hm']; [|done|].
    { apply map_subseteq_spec. intros nm i. rewrite Hl. case_decide; [by intros [= <-]; subst|]. intros. by eapply lookup_weaken. }
    split.
    + intros nm [->|Hin]%elem_of_cons; [by eexists|auto].
    + intros nm. rewrite Hm', Hl. destruct (decide (nm ∈ nms)) as [Hin|Hin].
      * by rewrite decide_True by by right.
      * destruct (decide (nm = n)) as [->|Hne]; [by rewrite decide_True by left|].
        by rewrite decide_False by (rewrite elem_of_cons; naive_solver).
Qed.

(** The queue keeps all but its tables. *)
Definition same_queue (q q' : mbd_queue) : Prop :=
  exists mh mu, q' = q <| q_host_hash := mh |> <| q_user_hash := mu |>.

Definition hosts_expanded (q q' : mbd_queue) : Prop :=
  (exists mh, q' = q <| q_host_hash := mh |>) /\
  (forall nm, q_host_hash q' !! nm = if decide (nm ∈ queue_hosts w q) then host_name_hash w !! nm else None) /\
  (forall nm, nm ∈ queue_hosts w q -> is_Some (host_name_hash w !! nm)).

Lemma queue_hosts_spec q nm : nm ∈ queue_hosts w q <-> names_host w q nm.
Proof using Type.
  unfold queue_hosts, names_host. rewrite list_elem_of_In, in_concat. split.
  - intros (l & (t & <- & Ht)%in_map_iff & Hn). exists t. rewrite list_elem_of_In. split; [done|].
    rewrite <- list_elem_of_In in Hn. unfold token_hosts in Hn. destruct (group_name_hash w !! t); [done|].
    by apply list_elem_of_singleton in Hn.
  - intros (t & Ht & Hn). exists (token_hosts w t). rewrite <- !list_elem_of_In. split; [by apply list_elem_of_fmap_2|].
    unfold token_hosts. destruct (group_name_hash w !! t); [done|]. by apply list_elem_of_singleton.
Qed.

Lemma expand_queues_spec : forall qs qs', expand_queues w qs = Ok (Some qs') -> Forall2 hosts_expanded qs qs'.
Proof using T.
  induction qs as [|q qs IH]; intros qs' H; cbn in H; [by injection H as <-|].
  apply pbind_Some in H as (q' & Hq & H). apply pbind_Some in H as (l & Hl & H). injection H as <-.
  constructor; [|auto]. unfold expand_queue in Hq. apply pbind_Some in Hq as (m & Hm & Hq). injection Hq as <-.
  destruct (expand_hosts_spec _ _ _ (map_empty_subseteq _) Hm) as [Hs Hl']. split; [by eexists|]. split; [|done]. intros nm. cbn.
  rewrite Hl'. case_decide; [done|]. apply lookup_empty.
Qed.
End expand.

Lemma put_all_spec (l : list string) (m : gmap string unit) u :
  is_Some (foldl (fun m u => hash_put u tt m) m l !! u) <-> is_Some (m !! u) \/ u ∈ l.
Proof.
  revert m. induction l as [|x l IH]; intros m; cbn [foldl].
  - split; [by left|]. by intros [?|?%not_elem_of_nil].
  - rewrite IH, elem_of_cons. unfold hash_put. destruct (m !! x) as [v|] eqn:E.
    + split; [naive_solver|]. intros [?|[->|?]]; [by left|left; by rewrite E|by right].
    + destruct (decide (u = x)) as [->|]; [rewrite lookup_insert_eq|rewrite lookup_insert_ne by done]; naive_solver.
Qed.

Lemma token_users_spec gr tok u : u ∈ token_users gr tok <->
  match gr tok with None | Some [] => u = tok | Some us => u ∈ us end.
Proof. unfold token_users. destruct (gr tok) as [[|x us]|]; [apply list_elem_of_singleton|done|apply list_elem_of_singleton]. Qed.

Lemma expand_users_spec gr q u : is_Some (q_user_hash (expand_users gr q) !! u) <-> names_user gr q u.
Proof.
  unfold expand_users, names_user. destruct (String.eqb_spec (q_users q) EmptyString) as [E1|E1]; cbn [orb].
  { change (q_user_hash _) with (∅ : gmap string unit). rewrite lookup_empty. split; [by intros []|naive_solver]. }
  destruct (String.eqb_spec (q_users q) "*") as [E2|E2].
  { change (q_user_hash _) with (∅ : gmap string unit). rewrite lookup_empty. split; [by intros []|naive_solver]. }
  set (users := concat _). change (q_user_hash _) with (foldl (fun m u => hash_put u tt m) (∅ : gmap string unit) users).
  rewrite put_all_spec, lookup_empty. subst users. rewrite list_elem_of_In, in_concat. split.
  - intros [[]|(l & (t & <- & Ht)%in_map_iff & Hu)]; [done|]. split; [done|]. split; [done|]. exists t.
    rewrite list_elem_of_In. split; [done|]. by apply token_users_spec, list_elem_of_In.
  - intros (_ & _ & t & Ht & Hu). right. exists (token_users gr t). rewrite <- !list_elem_of_In. split; [by apply list_elem_of_fmap_2|].
    by apply token_users_spec.
Qed.

(** The queues of the daemon after both expansions. *)
Lemma expanded_queues gr w w1 :
  name_table h_name (hosts w) (host_name_hash w) -> conf_expand_queues w = Ok (Some w1) ->
  let w2 := conf_expand_queue_users gr w1 in
  Forall2 same_queue (queues w) (queues w2) /\ Forall (queue_expanded gr w2) (queues w2) /\
  w2 = w <| queues := queues w2 |>.
Proof.
  intros T H. unfold conf_expand_queues in H. apply pbind_Some in H as (qs & Hq & H). injection H as <-.
  apply (expand_queues_spec w T) in Hq. intros w2.
  assert (Hqs : queues w2 = map (expand_users gr) qs) by done. split; [|split; [|by destruct w]].
  - rewrite Hqs. clear -Hq. induction Hq as [|q q' qs qs' Hh _ IH]; cbn [map]; constructor; [|done].
    destruct Hh as [(mh & ->) _]. unfold expand_users. destruct (_ || _); eexists mh, _; reflexivity.
  - rewrite Hqs. apply Forall_map. clear Hqs. induction Hq as [|q q' qs qs' Hh _ IH]; constructor; [|exact IH].
    destruct Hh as [(mh & ->) [H1 H2]]. unfold compose, queue_expanded.
    assert (Hx : forall q, q_host_hash (expand_users gr q) = q_host_hash q /\ q_hosts_spec (expand_users gr q) = q_hosts_spec q /\
                 q_users (expand_users gr q) = q_users q)
      by (intros x; unfold expand_users; by destruct (_ || _)).
    destruct (Hx (q <| q_host_hash := mh |>)) as (Hx1 & Hx2 & Hx3).
    assert (Hqh : queue_hosts w2 (expand_users gr (q <| q_host_hash := mh |>)) = queue_hosts w q).
    { unfold queue_hosts. by rewrite Hx2. }
    assert (Hn : forall nm, names_host w2 (expand_users gr (q <| q_host_hash := mh |>)) nm <-> nm ∈ queue_hosts w q).
    { intros nm. rewrite <- Hqh. symmetry. apply queue_hosts_spec. }
    split; [|split].
    + intros nm h. rewrite Hx1, H1, Hn. case_decide; [naive_solver|]. split; [done|naive_solver].
    + intros nm Hnm. by apply H2, Hn.
    + intros u. rewrite expand_users_spec. unfold names_user. by rewrite Hx3.
Qed.

(** ** The daemon after its configuration *)

(** The tables before the files are read: the lists and tables of [mbd_init]. *)
Record unconfigured (c : conf_state) : Prop := mk_unconfigured {
  un_hosts : hosts (cs_mbd c) = [] /\ host_name_hash (cs_mbd c) = ∅;
  un_queues : queues (cs_mbd c) = [] /\ queue_name_hash (cs_mbd c) = ∅;
  un_pools : pools (cs_mbd c) = [] /\ pool_name_hash (cs_mbd c) = ∅;
  un_groups : group_list c = [] /\ group_name_hash (cs_mbd c) = ∅
}.

(** No job, no connection, no event. *)
Record idle (w : mbd) : Prop := mk_idle {
  id_jobs : jobs w = ∅;
  id_lists : pend_jobs_list w = [] /\ run_jobs_list w = [] /\ finish_jobs_list w = [];
  id_chans : sbd_chan_hash w = ∅;
  id_log : manifest w = []
}.

Lemma table_nil {A B} (f : nat * A -> B) (proj : A -> string) : table_by f proj [] ∅.
Proof. intros nm. by rewrite lookup_empty. Qed.

Lemma parsing_start c : unconfigured c -> parsing (cs_mbd c) c.
Proof.
  intros [[H1 H2] [H3 H4] [H5 H6] [H7 H8]]. split; rewrite ?H1, ?H2, ?H3, ?H4, ?H5, ?H6, ?H7, ?H8; try apply table_nil; constructor.
Qed.

Lemma same_queue_new qs qs' : Forall2 same_queue qs qs' -> Forall queue_new qs -> Forall queue_new qs' /\ map q_name qs' = map q_name qs.
Proof.
  induction 1 as [|q q' qs qs' (mh & mu & ->) _ IH]; intros HF; [by split|].
  apply Forall_cons in HF as [[H1 H2 H3 H4] HF]. destruct (IH HF) as [IH1 IH2]. split.
  - constructor; [by split|done].
  - cbn. by rewrite IH2.
Qed.

Lemma parsing_expanded gr w0 c w1 :
  parsing w0 c -> conf_expand_queues (cs_mbd c) = Ok (Some w1) ->
  let w2 := conf_expand_queue_users gr w1 in
  parsing w0 (c <| cs_mbd := w2 |>) /\ Forall (queue_expanded gr w2) (queues w2).
Proof.
  intros [P1 P2 P3 P4 P5 P6 P7 P8 P9] H. destruct (expanded_queues gr _ _ P1 H) as (Hs & Hx & Hw).
  intros w2. change (conf_expand_queue_users gr w1) with w2 in Hs, Hx, Hw. split; [|done].
  destruct (same_queue_new _ _ Hs P6) as [Hn Hm]. clearbody w2. remember (queues w2) as qs eqn:Eq. clear Eq. subst w2.
  split; cbn; try done. by eapply name_table_names.
Qed.

Lemma conf_init_ok E ps c ps' c' :
  unconfigured c -> conf_init E ps c = Ok (Some (ps', c')) ->
  configured E (cs_mbd c) c' /\ param ps' LL_DEFAULT_QUEUE = Some (default_queue (cs_mbd c')).
Proof.
  intros HU%parsing_start H. unfold conf_init in H. destruct (ll_init _ _ _ ps) as [[ps1 b]|]; [|done].
  destruct (negb _); [done|]. destruct (negb _); [done|]. apply res_bind_Ok in H as (dir & _ & H).
  destruct (conf_path dir _) as [path|]; [|done].
  apply pbind_Some in H as (c1 & H1 & H). eapply parse_file_keeps in H1; [|apply host_row_parsing|exact HU].
  apply pbind_Some in H as (c2 & H2 & H). eapply parse_file_keeps in H2; [|apply token_row_parsing|exact H1].
  apply pbind_Some in H as (c3 & H3 & H). eapply parse_file_keeps in H3; [|apply sim_row_parsing|exact H2].
  apply pbind_Some in H as (c4 & H4 & H). eapply parse_file_keeps in H4; [|apply group_row_parsing|exact H3].
  destruct (conf_path dir _) as [path2|]; [|done].
  apply pbind_Some in H as (c5 & H5 & H). unfold parse_queues in H5. destruct (ce_files E path2); [|done].
  eapply queue_lines_parsing in H5; [|exact H4]. apply pbind_Some in H as (w6 & H6 & H).
  destruct (parsing_expanded (ce_getgrnam E) _ _ _ H5 H6) as [HP HX].
  unfold init_manager in H. destruct (ce_getpwuid E (ce_uid E)) as [[nm|]|]; try done.
  destruct (param ps1 LL_DEFAULT_QUEUE) as [dq|] eqn:Hd; [|done]. case_bool_decide as Hq; [|done]. injection H as <- <-.
  split; [|exact Hd]. split; [|exact HX|exact Hq|done]. destruct HP. by split.
Qed.

Section start.
Context (E : conf_env) (w0 : mbd) (c : conf_state) (C : configured E w0 c) (I : idle w0).
Let w := cs_mbd c.

Lemma configured_idle : idle w.
Proof using C I.
  pose proof (pa_rest _ _ (cd_parsed _ _ _ C)) as Hr. destruct I as [H1 (H2 & H3 & H4) H5 H6].
  unfold rest in Hr. fold w in Hr. injection Hr as R1 R2 R3 R4 R5 R6 R7 R8 R9 R10 R11. split; [congruence|split_and!; congruence|congruence..].
Qed.

Lemma host_new_ok h hh : host_new hh -> 0 <= total_cpu hh -> host_ok ∅ h hh.
Proof using Type.
  intros [Hm _ [Hm1 Hm2] [Hs1 Hs2] _ _ _] Hc. rewrite Hm. split; rewrite ?mapsum_empty; cbn; try done; try lia.
  - rewrite Z.sub_0_r. unfold u64. symmetry. apply Z.mod_small. lia.
  - rewrite Z.sub_0_r. unfold u64. symmetry. apply Z.mod_small. lia.
Qed.

(** The books of an idle daemon are right exactly when no CPU count is negative. *)
Lemma configured_inv : inv w <-> Forall (fun h => 0 <= total_cpu h) (hosts w).
Proof using C I.
  destruct configured_idle as [Hj (Hl1 & Hl2 & Hl3) _ _]. destruct (cd_parsed _ _ _ C) as [P1 P2 _ _ P5 P6 _ _ _]. fold w in P1, P2, P5, P6.
  assert (Hc : a_cores (acct_of w) = ∅) by (cbn; unfold cores; by rewrite Hj, fmap_empty). split.
  - intros HI. apply Forall_lookup. intros i h Hi. destruct (ao_hosts _ HI i h Hi) as [_ _ _ H4 H5 H6 _ _ _ _ _].
    rewrite Hc, mapsum_empty in H4. lia.
  - intros HF. split; rewrite ?Hc.
    + intros id j Hl. by rewrite lookup_empty in Hl.
    + intros l. assert (Hl : a_list l (acct_of w) = []) by by destruct l. rewrite Hl. split; [constructor|]. intros id. split.
      * by intros ?%not_elem_of_nil.
      * intros (x & Hx & _). by rewrite lookup_empty in Hx.
    + intros q qq Hq f. rewrite mapsum_empty. rewrite Forall_lookup in P6. destruct (P6 q qq Hq) as [(?&?&?&?&?&?&?) _ _ _]. by destruct f.
    + intros h hh Hh. rewrite Forall_lookup in P5, HF. apply host_new_ok; eauto.
    + intros q qq Hq nm h Hn. pose proof (cd_expanded _ _ _ C) as Hx. rewrite Forall_lookup in Hx. destruct (Hx q qq Hq) as [H1 _].
      apply H1 in Hn as [_ Hn]. by apply (name_table_Some h_name _ (host_name_hash w)).
Qed.

Lemma configured_good : Forall (fun h => 0 <= total_cpu h) (hosts w) -> good w.
Proof using C I.
  intros HF. split; [by apply configured_inv|]. destruct configured_idle as [Hj _ Hch _].
  destruct (cd_parsed _ _ _ C) as [P1 P2 _ _ P5 _ _ _ _]. fold w in P1, P2, P5.
  assert (Hs : statics w = ∅) by (unfold statics; by rewrite Hj, fmap_empty).
  split; cbn; rewrite ?Hs, ?Hch.
  - intros id [s Hl]. by rewrite lookup_empty in Hl.
  - intros nm q Hq. destruct (name_table_Some _ _ _ _ _ P2 Hq) as (x & Hx & _). by apply lookup_lt_Some in Hx.
  - intros nm h Hh. rewrite length_map. destruct (name_table_Some _ _ _ _ _ P1 Hh) as (x & Hx & _). by apply lookup_lt_Some in Hx.
  - intros k n Hn. by rewrite lookup_empty in Hn.
  - intros n k Hn. apply list_lookup_fmap_Some in Hn as (h & -> & Hh). rewrite Forall_lookup in P5.
    destruct (P5 n h Hh) as [-> _ _ _ _ _ _]. done.
  - intros id s Hl. by rewrite lookup_empty in Hl.
  - intros id s Hl. by rewrite lookup_empty in Hl.
  - intros id s Hl. by rewrite lookup_empty in Hl.
Qed.

Lemma configured_first_start :
  Forall (fun h => 0 <= total_cpu h) (hosts w) -> NoDup (map h_name (hosts w)) ->
  Forall (fun h => forall_chars (fun ch => negb (is_machine_delim ch)) (h_name h) = true) (hosts w) ->
  sumZ (fun h => Z.of_nat (String.length (h_name h)) + 1) (hosts w) < 4096 -> first_start w.
Proof using C I.
  intros HF HN Hw Hsum. destruct configured_idle as [Hj _ _ Hm]. split; [by apply configured_good|done|done|].
  destruct (cd_parsed _ _ _ C) as [_ P2 _ _ P5 P6 _ _ _]. fold w in P2, P5, P6. split; cbn.
  - intros nm q Hq. destruct (name_table_Some _ _ _ _ _ P2 Hq) as (x & Hx & <-).
    split; [by rewrite (list_lookup_fmap q_name), Hx|]. rewrite Forall_lookup in P6. apply (P6 q x Hx).
  - done.
  - apply Forall_map. rewrite Forall_forall in Hw, P5 |- *. intros h Hh. unfold compose, host_name_ok. rewrite (Hw h Hh), andb_true_r.
    pose proof (hn_name _ (P5 h Hh)). apply negb_true_iff, String.eqb_neq. intros Hz. rewrite Hz in *. cbn in *. lia.
  - clear -Hsum. revert Hsum. generalize (hosts w). intros l. generalize 4096. induction l as [|h l IH]; intros k; cbn; [done|].
    intros Hk. specialize (IH (k - (Z.of_nat (String.length (h_name h)) + 1))). lia.
Qed.
End start.

(** ** Reading returns *)

(** No word is longer than the buffers of the host names; [k] more characters of
    the first one fit. *)
Fixpoint words_fit (k : nat) (s : string) : bool :=
  match s with
  | EmptyString => true
  | String c s' =>
      if isspace c then words_fit 63 s'
      else match k with O => false | S k => words_fit k s' end
  end.

Lemma words_fit_mono s : forall k k', (k <= k')%nat -> words_fit k s = true -> words_fit k' s = true.
Proof.
  induction s as [|c s IH]; intros k k' Hk H; [done|]. cbn in *. destruct (isspace c); [done|].
  destruct k as [|k]; [done|]. destruct k' as [|k']; [lia|]. eapply IH; [|exact H]. lia.
Qed.

Lemma words_fit_fgets n s : forall k, (k <= 63)%nat -> words_fit k s = true ->
  words_fit k (fgets_from n s).1 = true /\ words_fit 63 (fgets_from n s).2 = true.
Proof.
  revert s. induction n as [|n IH]; intros s k Hk H; cbn.
  { split; [done|]. by apply (words_fit_mono s k). }
  destruct s as [|c s]; [done|]. destruct (Ascii.eqb_spec c newline) as [->|Hc].
  - cbn in H |- *. done.
  - cbn in H. destruct (isspace c) eqn:Ec.
    + destruct (IH s 63%nat ltac:(lia) H) as [H1 H2]. destruct (fgets_from n s). cbn in *. by rewrite Ec.
    + destruct k as [|k]; [done|]. destruct (IH s k ltac:(lia) H) as [H1 H2]. destruct (fgets_from n s). cbn in *. by rewrite Ec.
Qed.

Lemma words_fit_lines size s : words_fit 63 s = true -> Forall (fun l => words_fit 63 l = true) (file_lines size s).
Proof.
  unfold file_lines. generalize (S (String.length s)) as fuel. intros fuel. revert s.
  induction fuel as [|fuel IH]; intros s H; cbn; [constructor|]. unfold fgets. destruct s as [|c s]; [constructor|].
  pose proof (words_fit_fgets (size - 1) (String c s) 63 ltac:(lia) H) as [H1 H2].
  destruct (fgets_from _ _) as [a b]. constructor; [done|auto].
Qed.

Lemma words_fit_skip f s : (forall c, f c = true -> isspace c = true) -> words_fit 63 s = true -> words_fit 63 (skip_while f s) = true.
Proof.
  intros Hf. induction s as [|c s IH]; [done|]. intros H.
  change (skip_while f (String c s)) with (if f c then skip_while f s else String c s).
  destruct (f c) eqn:Ec; [|exact H]. apply IH.
  change (words_fit 63 (String c s)) with (if isspace c then words_fit 63 s else words_fit 62 s) in H. by rewrite (Hf c Ec) in H.
Qed.

Lemma words_fit_rtrim s : forall k, words_fit k s = true -> words_fit k (rtrim s) = true.
Proof.
  induction s as [|c s IH]; intros k H; [done|]. cbn in *.
  assert (Ht : forall t, (forall k, words_fit k s = true -> words_fit k t = true) ->
    (if isspace c then words_fit 63 s else match k with O => false | S k => words_fit k s end) = true ->
    words_fit k (String c t) = true).
  { intros t Hs. cbn. destruct (isspace c); [apply Hs|]. destruct k; [done|apply Hs]. }
  destruct (rtrim s) as [|d t] eqn:Er.
  - destruct (is_trailing c); [done|]. by apply Ht.
  - apply Ht; [|done]. intros. by apply IH.
Qed.

Lemma words_fit_trim s : words_fit 63 s = true -> words_fit 63 (trim s) = true.
Proof.
  intros H. apply words_fit_rtrim, words_fit_skip; [|done]. intros c. unfold is_blank, isspace.
  destruct (code c =? 32); [done|]. cbn. intros Hc%Z.eqb_eq. rewrite Hc. done.
Qed.

Lemma take_word_fits n s : forall k, (k <= 63)%nat -> words_fit k s = true ->
  (String.length (take_word n s).1 <= k)%nat /\ words_fit 63 (take_word n s).2 = true.
Proof.
  revert s. induction n as [|n IH]; intros s k Hk H.
  { cbn. split; [lia|]. by apply (words_fit_mono s k). }
  destruct s as [|c s]; [cbn; split; [lia|done]|]. cbn in H |- *. destruct (isspace c) eqn:Ec.
  - cbn. rewrite Ec. split; [lia|done].
  - destruct k as [|k]; [done|]. destruct (IH s k ltac:(lia) H) as [H1 H2]. destruct (take_word n s). cbn in *. split; [lia|done].
Qed.

Lemma scan_name_fits s : words_fit 63 s = true ->
  match scan_name s with
  | Ok (Some (nm, rest)) => words_fit 63 rest = true
  | Ok None => True
  | Crash _ => False
  end.
Proof.
  intros H. unfold scan_name, scanf_word.
  assert (Hs : words_fit 63 (skip_while isspace s) = true) by by apply words_fit_skip.
  pose proof (take_word_fits 255 _ 63 ltac:(lia) Hs) as [H1 H2]. destruct (take_word 255 _) as [a b]. cbn in H1, H2.
  destruct a as [|ch a]; [done|]. destruct (Nat.ltb_spec (String.length (String ch a)) MAXHOSTNAMELEN) as [|Hl]; cbn [guard_or res_bind]; [done|].
  unfold MAXHOSTNAMELEN in Hl. cbn in H1, Hl. lia.
Qed.

Lemma scan_sim_returns p : words_fit 63 p = true -> exists o, scan_sim p = Ok o.
Proof.
  intros H. unfold scan_sim. pose proof (scan_name_fits p H) as H1.
  destruct (scan_name p) as [[[nm s]|]|]; [|eauto|done]. cbn [pbind res_bind].
  pose proof (scan_name_fits s H1) as H2. destruct (scan_name s) as [[[real s2]|]|]; [|eauto|done]. cbn [pbind res_bind].
  repeat case_match; unfold pfail, pret; eauto.
Qed.

Section returns.
Context (E : conf_env) (w0 : mbd).

Lemma sim_row_returns p c : parsing w0 c -> words_fit 63 p = true -> exists o, sim_row E p c = Ok o.
Proof.
  intros HP H. unfold sim_row. destruct (scan_sim_returns p H) as [[[[[[nm real] port] cpu] [[[mem st] model] ids]]|] ->];
    cbn [pbind res_bind]; [|eauto].
  destruct (_ || _); [unfold pfail; eauto|]. unfold find_host_by_name.
  destruct (host_name_hash (cs_mbd c) !! real) as [r|] eqn:Er; [|unfold pfail; eauto]. cbn [try_alloc].
  destruct (negb _); [unfold pfail; eauto|].
  destruct (name_table_Some _ _ _ _ _ (pa_hosts _ _ HP) Er) as (hh & Hh & _).
  unfold nth_res. cbn. rewrite Hh. cbn [res_bind]. repeat case_match; unfold pfail, pret; eauto.
Qed.

Lemma parse_table_returns {S} name header (row : string -> S -> attempt S) at_end (P : S -> Prop) :
  (forall p s s', P s -> row p s = Ok (Some s') -> P s') ->
  (forall p s, P s -> words_fit 63 p = true -> exists o, row p s = Ok o) ->
  forall lines b1 b2 s, Forall (fun l => words_fit 63 l = true) lines -> P s ->
  exists o, parse_table name header row at_end lines b1 b2 s = Ok o.
Proof.
  intros Hrow Hret. induction lines as [|line lines IH]; intros b1 b2 s HF HP; cbn.
  - unfold pret, pfail. destruct (at_end b1); eauto.
  - apply Forall_cons in HF as [Hl HF]. repeat case_match; unfold pret, pfail; eauto.
    destruct (Hret (trim line) s HP (words_fit_trim _ Hl)) as [[s'|] Hs]; rewrite Hs; cbn [pbind res_bind]; [|eauto]. eauto.
Qed.

Lemma queue_lines_returns : forall lines b qc c, exists o, queue_lines E lines b qc c = Ok o.
Proof.
  induction lines as [|line lines IH]; intros b qc c; cbn; [unfold pret, pfail; destruct b; eauto|].
  repeat case_match; unfold pfail; eauto. unfold commit_queue, try_alloc. cbn [negb].
  repeat case_match; cbn [pbind res_bind pfail pret]; eauto.
Qed.

Lemma expand_queues_returns w : name_table h_name (hosts w) (host_name_hash w) ->
  forall qs, exists o, expand_queues w qs = Ok o.
Proof.
  intros T. assert (Hh : forall nms m, exists o, expand_hosts w nms m = Ok o).
  { induction nms as [|nm nms IH]; intros m; cbn; [unfold pret; eauto|]. unfold expand_host, find_host_by_name.
    destruct (host_name_hash w !! nm) as [h|] eqn:Eh; cbn [pbind res_bind]; [|eauto].
    destruct (name_table_Some _ _ _ _ _ T Eh) as (hh & Hh & _). unfold nth_res. rewrite Hh. cbn [pbind res_bind pret]. apply IH. }
  induction qs as [|q qs [o IH]]; cbn; [unfold pret; eauto|]. unfold expand_queue.
  destruct (Hh (queue_hosts w q) ∅) as [[m|] ->]; cbn [pbind res_bind pret]; [|eauto]. rewrite IH. destruct o; cbn; eauto.
Qed.
End returns.

Lemma conf_init_returns_ok E params c :
  unconfigured c -> (forall path f, ce_files E path = Some f -> words_fit 63 (tf_text f) = true) ->
  exists o, conf_init E (params, false) c = Ok o.
Proof.
  intros HU%parsing_start Hw. unfold conf_init, ll_init. destruct (ce_dir E) as [dir|]; [|unfold pfail; eauto].
  destruct (conf_path dir "ll.conf") as [p0|]; [|unfold pfail; eauto].
  destruct (ll_conf_load _ _ _) as [ps|]; [|unfold pfail; eauto]. do 2 (destruct (negb _); [unfold pfail; eauto|]).
  cbn [deref res_bind]. destruct (conf_path dir "llb.hosts") as [path|]; [|unfold pfail; eauto].
  assert (Hsec : forall name header row at_end s,
    (forall p s s', parsing (cs_mbd c) s -> row p s = Ok (Some s') -> parsing (cs_mbd c) s') ->
    (forall p s, parsing (cs_mbd c) s -> words_fit 63 p = true -> exists o, row p s = Ok o) -> parsing (cs_mbd c) s ->
    match parse_file name header row at_end (ce_files E path) s with Ok (Some s') => parsing (cs_mbd c) s' | Ok None => True | Crash _ => False end).
  { intros name header row at_end s Hk Hr HP. unfold parse_file. destruct (ce_files E path) as [f|] eqn:Ef; [|done].
    destruct (parse_table_returns name header row at_end (parsing (cs_mbd c)) Hk Hr (file_lines LL_BUFSIZ_1K (tf_text f)) false false s)
      as [[s'|] Hs]; [apply words_fit_lines; eauto|done| |by rewrite Hs]. rewrite Hs. by eapply parse_table_keeps. }
  assert (Hnext : forall (m : attempt conf_state) k,
    match m with Ok (Some s') => parsing (cs_mbd c) s' | Ok None => True | Crash _ => False end ->
    (forall s', parsing (cs_mbd c) s' -> exists o, k s' = Ok o) -> exists o : option (list ll_kv * conf_state), pbind m k = Ok o).
  { intros [[s'|]|] k Hm Hk; cbn; eauto. done. }
  apply Hnext; [apply Hsec; [apply host_row_parsing| |done]|].
  { intros p s _ _. unfold host_row, try_alloc, pret, pfail. case_match; eauto. }
  intros c1 P1. apply Hnext; [apply Hsec; [apply token_row_parsing| |done]|].
  { intros p s _ _. unfold token_row, try_alloc, pret, pfail. repeat case_match; eauto. }
  intros c2 P2. apply Hnext; [apply Hsec; [apply sim_row_parsing|apply sim_row_returns|done]|].
  intros c3 P3. apply Hnext; [apply Hsec; [apply group_row_parsing| |done]|].
  { intros p s _ _. unfold group_row, try_alloc, pret, pfail. repeat case_match; eauto. }
  intros c4 P4. destruct (conf_path dir "llb.queues") as [path2|]; [|unfold pfail; eauto].
  apply Hnext.
  { unfold parse_queues. destruct (ce_files E path2) as [f|]; [|done].
    destruct (queue_lines_returns E (file_lines LL_BUFSIZ_1K (tf_text f)) false queue_conf_zero c4) as [[s'|] Hs]; rewrite Hs; [|done].
    by eapply queue_lines_parsing. }
  intros c5 P5. unfold conf_expand_queues.
  destruct (expand_queues_returns _ (pa_hosts _ _ P5) (queues (cs_mbd c5))) as [[qs|] ->]; cbn [pbind res_bind pret]; [|eauto].
  repeat case_match; unfold pfail, pret; eauto.
Qed.

(** ** Properties *)

(** C33: a configuration that is accepted fills the tables right.  The name tables of
    the hosts, the queues, the token pools and the groups find the first entry with
    the name; every host has a name that fits its buffer, sizes above zero and at
    most 64 GPUs, all free, and is not connected; every queue is open and empty;
    every pool is full; the members of every group are hosts.  The host table of a
    queue holds exactly the hosts its HOSTS names, directly or through a group, and
    its user table exactly the users its USERS names; the default queue exists, the
    manager is the user of the process, and jobs, log and connections are as before. *)
Theorem conf_init_configured E ps c ps' c' :
  unconfigured c -> conf_init E ps c = Ok (Some (ps', c')) ->
  configured E (cs_mbd c) c' /\ param ps' LL_DEFAULT_QUEUE = Some (default_queue (cs_mbd c')).
Proof. apply conf_init_ok. Qed.


(** Reading the configuration returns, with a state or with -1, on every content
    of the files in which no word is longer than 63 characters, whatever the
    sections, the headers and the rows are, and whatever the allocator and the
    system answer. *)
Theorem conf_init_returns E params c :
  unconfigured c -> (forall path f, ce_files E path = Some f -> words_fit 63 (tf_text f) = true) ->
  exists o, conf_init E (params, false) c = Ok o.
Proof. apply conf_init_returns_ok. Qed.

(** A row of the Sim section whose name has between 64 and 255 characters writes
    past the buffer of the name. *)
Lemma sim_name_overruns E c nm row :
  (64 <= String.length nm <= 255)%nat -> forall_chars (fun ch => negb (isspace ch)) nm = true ->
  head_is isspace row = true -> sim_row E (nm +:+ row) c = Crash BadIndex.
Proof.
  intros Hl Hn Hr. assert (Ht : forall n s, forall_chars (fun ch => negb (isspace ch)) s = true ->
    (String.length s <= n)%nat -> take_word n (s +:+ row) = (s, row)).
  { induction n as [|n IH]; intros [|ch s] Hs Hle; cbn in Hle; try lia.
    - by destruct row.
    - destruct row as [|r row]; [done|]. cbn in Hr. cbn. by rewrite Hr.
    - cbn in Hs. apply andb_prop in Hs as [Hc Hs]. apply negb_true_iff in Hc. cbn. rewrite Hc, IH by (done || lia). done. }
  unfold sim_row, scan_sim, scan_name, scanf_word. destruct nm as [|ch nm]; [cbn in Hl; lia|].
  assert (Hsk : skip_while isspace (String ch nm +:+ row) = String ch nm +:+ row).
  { apply skip_while_head. cbn in Hn |- *. apply andb_prop in Hn as [Hc _]. by apply negb_true_iff in Hc. }
  rewrite Hsk, Ht by (done || lia).
  destruct (Nat.ltb_spec (String.length (String ch nm)) MAXHOSTNAMELEN) as [Hlt|]; [unfold MAXHOSTNAMELEN in Hlt; lia|]. done.
Qed.

(** ** A configuration *)

Definition text_of (l : list string) : string :=
  foldr (fun a b => a +:+ String newline b) EmptyString l.

Definition demo_hosts_text : string := text_of
  ["# the cluster"; "Begin Host"; "HOST_NAME CPU MEM STORAGE GPU_MODEL GPU_IDS";
   "node1 4 1000 500 - -"; "  node2   8 16G 1T A100 0-1,3"; "End Host"; EmptyString;
   "Begin TokenPool"; "POOL_NAME AVAILABLE"; "lic 2"; "End TokenPool";
   "Begin Sim"; "NAME REAL_HOST PORT CPU MEM STORAGE GPU_MODEL GPU_IDS"; "sim1 node1 7000 2 10 10 - -"; "End Sim";
   "Begin HostGroup"; "GROUP_NAME GROUP_MEMBERS"; "all (node1 node2)"; "End HostGroup"].

Definition demo_queues_text : string := text_of
  ["Begin Queue"; "QUEUE_NAME = normal"; "priority=10"; "HOSTS = all sim1"; "USERS = staff bob"; "End Queue"].

Definition demo_conf_text : string := text_of
  ["LL_STATE_DIR=/var/ll"; "LL_MBD_HOST = head"; "LL_DEFAULT_QUEUE=normal"; "# LL_MBD_PORT"].

Definition demo_files (path : string) : option text_file :=
  if String.eqb path "/etc/ll/ll.conf" then Some (mk_text_file demo_conf_text false)
  else if String.eqb path "/etc/ll/llb.hosts" then Some (mk_text_file demo_hosts_text false)
  else if String.eqb path "/etc/ll/llb.queues" then Some (mk_text_file demo_queues_text false)
  else None.

Definition demo_conf_env : conf_env :=
  mk_conf_env demo_env (Some "/etc/ll") demo_files (fun _ => true) true (fun _ => Some (None, "10.0.0.1"))
    (fun g => if String.eqb g "staff" then Some ["alice"] else None) 500 (fun _ => Some (Some "lavalite")).

Definition demo_blank : conf_state :=
  mk_conf_state (mk_mbd ∅ [] [] [] [] [] [] ∅ ∅ ∅ ∅ ∅ EmptyString 0 false 100 None false ∅ ∅ [] [] 0) [] ∅.

Definition demo_configured : list ll_kv * conf_state :=
  match conf_init demo_conf_env (ll_params, false) demo_blank with
  | Ok (Some r) => r
  | _ => ([], demo_blank)
  end.

Lemma demo_configured_ok : conf_init demo_conf_env (ll_params, false) demo_blank = Ok (Some demo_configured).
Proof. vm_compute. reflexivity. Qed.

Lemma demo_blank_unconfigured : unconfigured demo_blank.
Proof. by repeat split. Qed.

Lemma demo_blank_idle : idle (cs_mbd demo_blank).
Proof. by repeat split. Qed.

Lemma conf_init_configured_witness :
  configured demo_conf_env (cs_mbd demo_blank) demo_configured.2 /\
  map (fun h => (h_name h, total_mem_mb h, g_count (h_gpu h))) (hosts (cs_mbd demo_configured.2)) =
    [("node1", 1000, 0); ("node2", 16384, 3); ("sim1", 10, 0)].
Proof.
  split; [|vm_compute; reflexivity].
  apply (conf_init_configured demo_conf_env (ll_params, false) demo_blank demo_configured.1);
    [exact demo_blank_unconfigured|]. rewrite <- surjective_pairing. exact demo_configured_ok.
Defined.


Lemma conf_init_returns_witness : exists o, conf_init demo_conf_env (ll_params, false) demo_blank = Ok o.
Proof.
  apply conf_init_returns; [exact demo_blank_unconfigured|]. intros path f. cbn [ce_files demo_conf_env]. unfold demo_files.
  repeat case_match; intros [= <-]; vm_compute; reflexivity.
Defined.
