(* ===== verification/History.v ===== *)
(** * Job histories

    [llb_hist_info] of src/batch/lib/history.c: the history of jobs that bhist shows,
    read from the event logs of mbd and the sidecar files of the jobs.  A pointer to
    a text is [None] for NULL; the array of jobs is a list and the hash table of
    their ids a finite map to places in it. *)

From S2P Require Import Prelude CString LlConf LlHash Dependency LogFormat MbdTypes MbdBase MbdJob MbdSched MbdEvents.
From S2P Require Import MbdInv MbdDurable MbdReplay MbdStatic MbdLogged MbdProgress MbdRestart MbdDemo MbdRestartProps.

Open Scope string_scope.
Open Scope list_scope.
Open Scope Z_scope.

(** ** Data *)

Record job_event : Type := mk_job_event {
  jv_type : event_type;
  jv_time : Z;
  jv_state : Z;
  jv_exit_status : Z;
  jv_signal : Z;
  jv_pid : Z;
  jv_run_hosts : option string;
  jv_from_queue : option string;
  jv_to_queue : option string;
  jv_old_priority : Z;
  jv_new_priority : Z;
  jv_gpu_assigned : option string
}.

Definition job_event_eta (x : job_event) : job_event :=
  mk_job_event (jv_type x) (jv_time x) (jv_state x) (jv_exit_status x) (jv_signal x) (jv_pid x) (jv_run_hosts x)
    (jv_from_queue x) (jv_to_queue x) (jv_old_priority x) (jv_new_priority x) (jv_gpu_assigned x).
#[export] Instance set_jv_state : Setter jv_state. Proof. setter job_event_eta. Defined.
#[export] Instance set_jv_exit_status : Setter jv_exit_status. Proof. setter job_event_eta. Defined.
#[export] Instance set_jv_signal : Setter jv_signal. Proof. setter job_event_eta. Defined.
#[export] Instance set_jv_pid : Setter jv_pid. Proof. setter job_event_eta. Defined.
#[export] Instance set_jv_run_hosts : Setter jv_run_hosts. Proof. setter job_event_eta. Defined.
#[export] Instance set_jv_from_queue : Setter jv_from_queue. Proof. setter job_event_eta. Defined.
#[export] Instance set_jv_to_queue : Setter jv_to_queue. Proof. setter job_event_eta. Defined.
#[export] Instance set_jv_old_priority : Setter jv_old_priority. Proof. setter job_event_eta. Defined.
#[export] Instance set_jv_new_priority : Setter jv_new_priority. Proof. setter job_event_eta. Defined.
#[export] Instance set_jv_gpu_assigned : Setter jv_gpu_assigned. Proof. setter job_event_eta. Defined.

(** The CPU time is kept as the text given to [atof]. *)
Record job_res_usage : Type := mk_job_res_usage {
  ru_mem_mb : Z;
  ru_swap_mb : Z;
  ru_cpu_time : string
}.

Definition job_res_usage_eta (x : job_res_usage) : job_res_usage :=
  mk_job_res_usage (ru_mem_mb x) (ru_swap_mb x) (ru_cpu_time x).
#[export] Instance set_ru_mem_mb : Setter ru_mem_mb. Proof. setter job_res_usage_eta. Defined.
#[export] Instance set_ru_swap_mb : Setter ru_swap_mb. Proof. setter job_res_usage_eta. Defined.
#[export] Instance set_ru_cpu_time : Setter ru_cpu_time. Proof. setter job_res_usage_eta. Defined.

(** What comes from the submit sidecar. *)
Record submit_fields : Type := mk_submit_fields {
  sf_submit_host : option string;
  sf_machines : option string;
  sf_cwd : option string;
  sf_command : option string;
  sf_depend_cond : option string;
  sf_in_file : option string;
  sf_out_file : option string;
  sf_err_file : option string;
  sf_comment : option string;
  sf_gpu_model : option string;
  sf_tokenpool : option string;
  sf_begin_time : Z;
  sf_term_time : Z
}.

Definition submit_fields_eta (x : submit_fields) : submit_fields :=
  mk_submit_fields (sf_submit_host x) (sf_machines x) (sf_cwd x) (sf_command x) (sf_depend_cond x) (sf_in_file x)
    (sf_out_file x) (sf_err_file x) (sf_comment x) (sf_gpu_model x) (sf_tokenpool x) (sf_begin_time x) (sf_term_time x).
#[export] Instance set_sf_submit_host : Setter sf_submit_host. Proof. setter submit_fields_eta. Defined.
#[export] Instance set_sf_machines : Setter sf_machines. Proof. setter submit_fields_eta. Defined.
#[export] Instance set_sf_cwd : Setter sf_cwd. Proof. setter submit_fields_eta. Defined.
#[export] Instance set_sf_command : Setter sf_command. Proof. setter submit_fields_eta. Defined.
#[export] Instance set_sf_depend_cond : Setter sf_depend_cond. Proof. setter submit_fields_eta. Defined.
#[export] Instance set_sf_in_file : Setter sf_in_file. Proof. setter submit_fields_eta. Defined.
#[export] Instance set_sf_out_file : Setter sf_out_file. Proof. setter submit_fields_eta. Defined.
#[export] Instance set_sf_err_file : Setter sf_err_file. Proof. setter submit_fields_eta. Defined.
#[export] Instance set_sf_comment : Setter sf_comment. Proof. setter submit_fields_eta. Defined.
#[export] Instance set_sf_gpu_model : Setter sf_gpu_model. Proof. setter submit_fields_eta. Defined.
#[export] Instance set_sf_tokenpool : Setter sf_tokenpool. Proof. setter submit_fields_eta. Defined.
#[export] Instance set_sf_begin_time : Setter sf_begin_time. Proof. setter submit_fields_eta. Defined.
#[export] Instance set_sf_term_time : Setter sf_term_time. Proof. setter submit_fields_eta. Defined.

Record job_hist_info : Type := mk_job_hist_info {
  hi_job_id : Z;
  hi_array_id : Z;
  hi_array_index : Z;
  hi_array_start : Z;
  hi_array_end : Z;
  hi_array_stride : Z;
  hi_uid : Z;
  hi_state : Z;
  hi_priority : Z;
  hi_submit_time : Z;
  hi_num_cpus : Z;
  hi_num_hosts : Z;
  hi_num_gpus : Z;
  hi_mem_mb : Z;
  hi_storage_mb : Z;
  hi_username : string;
  hi_name : string;
  hi_queue : option string;
  hi_project : string;
  hi_submit : submit_fields;
  hi_usage : job_res_usage;
  hi_events : list job_event
}.

Definition job_hist_info_eta (x : job_hist_info) : job_hist_info :=
  mk_job_hist_info (hi_job_id x) (hi_array_id x) (hi_array_index x) (hi_array_start x) (hi_array_end x)
    (hi_array_stride x) (hi_uid x) (hi_state x) (hi_priority x) (hi_submit_time x) (hi_num_cpus x) (hi_num_hosts x)
    (hi_num_gpus x) (hi_mem_mb x) (hi_storage_mb x) (hi_username x) (hi_name x) (hi_queue x) (hi_project x)
    (hi_submit x) (hi_usage x) (hi_events x).
#[export] Instance set_hi_uid : Setter hi_uid. Proof. setter job_hist_info_eta. Defined.
#[export] Instance set_hi_state : Setter hi_state. Proof. setter job_hist_info_eta. Defined.
#[export] Instance set_hi_priority : Setter hi_priority. Proof. setter job_hist_info_eta. Defined.
#[export] Instance set_hi_submit_time : Setter hi_submit_time. Proof. setter job_hist_info_eta. Defined.
#[export] Instance set_hi_queue : Setter hi_queue. Proof. setter job_hist_info_eta. Defined.
#[export] Instance set_hi_submit : Setter hi_submit. Proof. setter job_hist_info_eta. Defined.
#[export] Instance set_hi_usage : Setter hi_usage. Proof. setter job_hist_info_eta. Defined.
#[export] Instance set_hi_events : Setter hi_events. Proof. setter job_hist_info_eta. Defined.

(** [struct job_hist]: what is asked for, and what was found; [jh_io] counts the
    allocations made. *)
Record job_hist : Type := mk_job_hist {
  jh_job_id : Z;
  jh_array_id : Z;
  jh_array_index : Z;
  jh_uid : Z;
  jh_all : bool;
  jh_jobs : list job_hist_info;
  jh_max_jobs : nat;
  jh_hash : gmap Z nat;
  jh_io : nat
}.

Definition job_hist_eta (x : job_hist) : job_hist :=
  mk_job_hist (jh_job_id x) (jh_array_id x) (jh_array_index x) (jh_uid x) (jh_all x) (jh_jobs x) (jh_max_jobs x)
    (jh_hash x) (jh_io x).
#[export] Instance set_jh_jobs : Setter jh_jobs. Proof. setter job_hist_eta. Defined.
#[export] Instance set_jh_max_jobs : Setter jh_max_jobs. Proof. setter job_hist_eta. Defined.
#[export] Instance set_jh_hash : Setter jh_hash. Proof. setter job_hist_eta. Defined.
#[export] Instance set_jh_io : Setter jh_io. Proof. setter job_hist_eta. Defined.

(** ** Surroundings *)

(** The allocator by the number of the allocation, the state directory, the files
    by path, and the names in the directory of mbd in the order of [readdir]:
    [inr ENOENT] when there is no such directory. *)
Record hist_env : Type := mk_hist_env {
  he_alloc : nat -> bool;
  he_state_dir : string;
  he_files : string -> log_file;
  he_readdir : list string + Z;
  he_uid : Z;
  he_mbd_user : option string;
  he_getpwnam : string -> option Z
}.

Definition jh_alloc (E : hist_env) (jh : job_hist) : job_hist * bool :=
  (jh <| jh_io ::= S |>, he_alloc E (jh_io jh)).

Definition hist_strdup (E : hist_env) (s : string) (jh : job_hist) : job_hist * option string :=
  let (jh, ok) := jh_alloc E jh in (jh, if ok then Some s else None).

(** The text of a file that can be opened. *)
Definition opened (f : log_file) : option string :=
  match f with LogText t _ => Some t | _ => None end.

Definition HIST_JOB_BUCKETS : Z := 10.

Definition hist_job_sidecar_path (E : hist_env) (job_id : Z) (file : string) : option string :=
  let path := he_state_dir E +:+ "/mbd/jobs/" +:+ print_int (Z.rem job_id HIST_JOB_BUCKETS) +:+ "/"
              +:+ print_int job_id +:+ "/" +:+ file in
  if (PATH_MAX <=? String.length path)%nat then None else Some path.

(** The keys and values of a sidecar file. *)
Definition sidecar_line (line : string) : option (string * string) :=
  match strchr_split "=" line with
  | None => None
  | Some (key, val) => Some (trim key, trim val)
  end.

Definition sidecar_pairs (E : hist_env) (job_id : Z) (file : string) (size : nat) : list (string * string) :=
  match hist_job_sidecar_path E job_id file ≫= fun path => opened (he_files E path) with
  | None => []
  | Some text => omap sidecar_line (file_lines size text)
  end.

(** ** The sidecar files *)

Section fields.
Context (E : hist_env).

(** One text field: set from its key unless it is set already. *)
Definition text_field (name key val : string) (get : submit_fields -> option string)
    (set : option string -> submit_fields -> submit_fields) (k : job_hist * submit_fields) : job_hist * submit_fields :=
  let (jh, f) := k in
  if strcaseeq key name && bool_decide (get f = None) then
    let (jh, v) := hist_strdup E val jh in (jh, set v f)
  else (jh, f).

Definition hist_apply_submit_field (k : job_hist * submit_fields) (kv : string * string) : job_hist * submit_fields :=
  let '(key, val) := kv in
  let k := text_field "command" key val sf_command (fun v f => f <| sf_command := v |>) k in
  let k := text_field "cwd" key val sf_cwd (fun v f => f <| sf_cwd := v |>) k in
  let k := text_field "submit_host" key val sf_submit_host (fun v f => f <| sf_submit_host := v |>) k in
  let k := text_field "machines" key val sf_machines (fun v f => f <| sf_machines := v |>) k in
  let k := text_field "depend_cond" key val sf_depend_cond (fun v f => f <| sf_depend_cond := v |>) k in
  let k := text_field "in_file" key val sf_in_file (fun v f => f <| sf_in_file := v |>) k in
  let k := text_field "out_file" key val sf_out_file (fun v f => f <| sf_out_file := v |>) k in
  let k := text_field "err_file" key val sf_err_file (fun v f => f <| sf_err_file := v |>) k in
  let k := text_field "comment" key val sf_comment (fun v f => f <| sf_comment := v |>) k in
  let k := text_field "gpu_model" key val sf_gpu_model (fun v f => f <| sf_gpu_model := v |>) k in
  let k := text_field "tokenpool" key val sf_tokenpool (fun v f => f <| sf_tokenpool := v |>) k in
  let (jh, f) := k in
  let f := if strcaseeq key "begin_time" && (sf_begin_time f =? 0) then f <| sf_begin_time := atol val |> else f in
  let f := if strcaseeq key "term_time" && (sf_term_time f =? 0) then f <| sf_term_time := atol val |> else f in
  (jh, f).

Definition submit_zero : submit_fields :=
  mk_submit_fields None None None None None None None None None None None 0 0.

Definition hist_load_sidecar (job_id : Z) (jh : job_hist) : job_hist * submit_fields :=
  foldl hist_apply_submit_field (jh, submit_zero) (sidecar_pairs E job_id "submit" LL_BUFSIZ_4K).

Definition strtoull (s : string) : Z :=
  match scan_number s with Some (v, _) => saturate_u64 v | None => 0 end.

Definition usage_field (u : job_res_usage) (kv : string * string) : job_res_usage :=
  let '(key, val) := kv in
  if strcaseeq key "mem_mb" then u <| ru_mem_mb := strtoull val |>
  else if strcaseeq key "swap_mb" then u <| ru_swap_mb := strtoull val |>
  else if strcaseeq key "cpu_time" then u <| ru_cpu_time := val |>
  else u.

Definition hist_load_usage_sidecar (job_id : Z) : job_res_usage :=
  foldl usage_field (mk_job_res_usage 0 0 EmptyString) (sidecar_pairs E job_id "usage" LL_BUFSIZ_256).
End fields.

(** ** The jobs found *)

(** The place of the job. *)
Definition hist_find (jh : job_hist) (job_id : Z) : option nat := jh_hash jh !! job_id.

Definition upd_hist (i : nat) (f : job_hist_info -> job_hist_info) (jh : job_hist) : job_hist :=
  jh <| jh_jobs ::= alter f i |>.

Definition hist_event_exists (j : job_hist_info) (type : event_type) (time : Z) : bool :=
  existsb (fun ev => bool_decide (jv_type ev = type) && (jv_time ev =? time)) (hi_events j).

Section events.
Context (E : hist_env).

(** The texts of a new job; they are all needed. *)
Definition hist_new_texts (e : log_job_new) (jh : job_hist) : job_hist * bool :=
  let (jh, a) := hist_strdup E (ln_username e) jh in
  let (jh, b) := hist_strdup E (ln_job_name e) jh in
  let (jh, c) := hist_strdup E (ln_queue e) jh in
  let (jh, d) := hist_strdup E (ln_project_name e) jh in
  (jh, bool_decide (is_Some a) && bool_decide (is_Some b) && bool_decide (is_Some c) && bool_decide (is_Some d)).

(** Room for one more job. *)
Definition hist_grow (jh : job_hist) : job_hist * bool :=
  if (length (jh_jobs jh) =? jh_max_jobs jh)%nat then
    let (jh, ok) := jh_alloc E jh in
    if ok then (jh <| jh_max_jobs := (if jh_max_jobs jh =? 0 then N.to_nat 1024 else jh_max_jobs jh * 2)%nat |>, true)
    else (jh, false)
  else (jh, true).

Definition hist_new (e : log_job_new) (f : submit_fields) (u : job_res_usage) : job_hist_info :=
  mk_job_hist_info (ln_job_id e) (ln_array_id e) (ln_array_index e) (ln_array_start e) (ln_array_end e)
    (ln_array_stride e) (ln_uid e) (ln_state e) (ln_priority e) (ln_submit_time e) (ln_num_cpu e) (ln_num_hosts e)
    (ln_num_gpus e) (ln_mem_mb e) (ln_storage_mb e) (ln_username e) (ln_job_name e) (Some (ln_queue e))
    (ln_project_name e) f u [].

Definition hist_add (e : log_job_new) (jh : job_hist) : job_hist :=
  let (jh, ok) := hist_grow jh in
  if negb ok then jh
  else
    let (jh, ok) := hist_new_texts e jh in
    if negb ok then jh
    else
      let (jh, f) := hist_load_sidecar E (ln_job_id e) jh in
      let u := hist_load_usage_sidecar E (ln_job_id e) in
      jh <| jh_hash ::= fun h => match h !! ln_job_id e with
                                 | Some _ => h
                                 | None => <[ln_job_id e := length (jh_jobs jh)]> h
                                 end |>
         <| jh_jobs ::= fun l => l ++ [hist_new e f u] |>.

(** The two filters: the job that is asked for, and the owner. *)
Definition hist_match_new (jh : job_hist) (e : log_job_new) : bool :=
  let own := jh_all jh || (ln_uid e =? jh_uid jh) in
  if negb (jh_array_id jh =? 0) then
    (ln_array_id e =? jh_array_id jh) && (ln_array_index e =? jh_array_index jh) && own
  else if 0 <? jh_job_id jh then
    ((ln_job_id e =? jh_job_id jh) || (ln_array_id e =? jh_job_id jh)) && own
  else own.

(** A repeated JOB_NEW changes the state of a job that has not started. *)
Definition hist_apply_new (rec : event_rec) (jh : job_hist) : job_hist :=
  match log_parse_job_new rec with
  | None => jh
  | Some e =>
      if negb (hist_match_new jh e) then jh
      else
        match hist_find jh (ln_job_id e) with
        | Some i =>
            upd_hist i (fun j =>
              let j := if (hi_state j =? job_state_num JOB_PENDING) || (hi_state j =? job_state_num JOB_HELD)
                       then j <| hi_state := ln_state e |> else j in
              j <| hi_submit_time := ln_submit_time e |>) jh
        | None => hist_add e jh
        end
  end.

(** The job of an event and room for the event, unless the event is there. *)
Definition hist_slot (job_id : Z) (rec : event_rec) (jh : job_hist) : job_hist * option nat :=
  match hist_find jh job_id with
  | None => (jh, None)
  | Some i =>
      match jh_jobs jh !! i with
      | None => (jh, None)
      | Some j =>
          if hist_event_exists j (rec_type rec) (rec_time rec) then (jh, None)
          else
            let (jh, ok) := jh_alloc E jh in
            (jh, if ok then Some i else None)
      end
  end.

(** [memset] of the new event, with its type and its time. *)
Definition blank_event (rec : event_rec) : job_event :=
  mk_job_event (rec_type rec) (rec_time rec) 0 0 0 0 None None None 0 0 None.

(** The event at the end of the job's, and a change of the job. *)
Definition add_event (i : nat) (ev : job_event) (f : job_hist_info -> job_hist_info) (jh : job_hist) : job_hist :=
  upd_hist i (fun j => (f j) <| hi_events ::= fun l => l ++ [ev] |>) jh.

Definition hist_apply_start (rec : event_rec) (jh : job_hist) : job_hist :=
  match log_parse_job_start rec with
  | None => jh
  | Some e =>
      match hist_slot (ls_job_id e) rec jh with
      | (jh, None) => jh
      | (jh, Some i) =>
          let (jh, hosts) := hist_strdup E (ls_hosts e) jh in
          let (jh, gpus) := hist_strdup E (ls_gpu_assigned e) jh in
          add_event i ((blank_event rec) <| jv_state := job_state_num JOB_RUNNING |> <| jv_run_hosts := hosts |>
                         <| jv_gpu_assigned := gpus |>)
            (fun j => j <| hi_state := job_state_num JOB_RUNNING |>) jh
      end
  end.

Definition hist_apply_fork (rec : event_rec) (jh : job_hist) : job_hist :=
  match log_parse_job_fork rec with
  | None => jh
  | Some e =>
      match hist_slot (lf_job_id e) rec jh with
      | (jh, None) => jh
      | (jh, Some i) => add_event i ((blank_event rec) <| jv_pid := i32 (lf_job_pid e) |>) (fun j => j) jh
      end
  end.

Definition hist_apply_signal (rec : event_rec) (jh : job_hist) : job_hist :=
  match log_parse_job_signal rec with
  | None => jh
  | Some e =>
      match hist_slot (lg_job_id e) rec jh with
      | (jh, None) => jh
      | (jh, Some i) => add_event i ((blank_event rec) <| jv_signal := lg_signal_num e |>) (fun j => j) jh
      end
  end.

Definition hist_apply_finish (rec : event_rec) (jh : job_hist) : job_hist :=
  match log_parse_job_finish rec with
  | None => jh
  | Some e =>
      match hist_slot (le_job_id e) rec jh with
      | (jh, None) => jh
      | (jh, Some i) =>
          add_event i ((blank_event rec) <| jv_state := le_state e |> <| jv_exit_status := le_exit_status e |>)
            (fun j => j <| hi_state := le_state e |> <| hi_uid := le_uid e |>) jh
      end
  end.

(** The four events that only set a state. *)
Definition hist_apply_mark (s : job_state) (rec : event_rec) (jh : job_hist) : job_hist :=
  match log_parse_job_mark rec with
  | None => jh
  | Some e =>
      match hist_slot (lk_job_id e) rec jh with
      | (jh, None) => jh
      | (jh, Some i) =>
          add_event i ((blank_event rec) <| jv_state := job_state_num s |>) (fun j => j <| hi_state := job_state_num s |>) jh
      end
  end.

Definition hist_apply_pend_susp := hist_apply_mark JOB_HELD.
Definition hist_apply_pend_resume := hist_apply_mark JOB_PENDING.
Definition hist_apply_susp := hist_apply_mark JOB_SUSPENDED.
Definition hist_apply_pend := hist_apply_mark JOB_PENDING.

Definition hist_apply_move (rec : event_rec) (jh : job_hist) : job_hist :=
  match log_parse_job_move rec with
  | None => jh
  | Some e =>
      match hist_slot (lm_job_id e) rec jh with
      | (jh, None) => jh
      | (jh, Some i) =>
          let (jh, q) := hist_strdup E (lm_to_queue e) jh in
          let (jh, from) := hist_strdup E (lm_from_queue e) jh in
          let (jh, to) := hist_strdup E (lm_to_queue e) jh in
          add_event i ((blank_event rec) <| jv_from_queue := from |> <| jv_to_queue := to |>)
            (fun j => j <| hi_queue := q |>) jh
      end
  end.

Definition hist_apply_priority (rec : event_rec) (jh : job_hist) : job_hist :=
  match log_parse_job_priority rec with
  | None => jh
  | Some e =>
      match hist_slot (lp_job_id e) rec jh with
      | (jh, None) => jh
      | (jh, Some i) =>
          add_event i ((blank_event rec) <| jv_old_priority := lp_old_priority e |> <| jv_new_priority := lp_new_priority e |>)
            (fun j => j <| hi_priority := lp_new_priority e |>) jh
      end
  end.

Definition hist_apply_event (rec : event_rec) (jh : job_hist) : job_hist :=
  match rec_type rec with
  | EVENT_NULL => jh
  | EVENT_JOB_NEW => hist_apply_new rec jh
  | EVENT_JOB_START => hist_apply_start rec jh
  | EVENT_JOB_FORK => hist_apply_fork rec jh
  | EVENT_JOB_SIGNAL => hist_apply_signal rec jh
  | EVENT_JOB_FINISH => hist_apply_finish rec jh
  | EVENT_JOB_PEND_SUSP => hist_apply_pend_susp rec jh
  | EVENT_JOB_PEND_RESUME => hist_apply_pend_resume rec jh
  | EVENT_JOB_SUSP => hist_apply_susp rec jh
  | EVENT_JOB_MOVE => hist_apply_move rec jh
  | EVENT_JOB_PRIORITY => hist_apply_priority rec jh
  | EVENT_JOB_PEND => hist_apply_pend rec jh
  end.

(** ** Reading the logs *)

(** Every round takes a line, so the length of the text bounds the rounds. *)
Fixpoint hist_scan_from (fuel : nat) (fp : string) (jh : job_hist) : job_hist :=
  match fuel with
  | O => jh
  | S fuel =>
      let (o, fp) := log_read_hdr fp in
      match o with
      | None => jh
      | Some rec => hist_scan_from fuel fp (hist_apply_event rec jh)
      end
  end.

(** [None] for -1 with an errno other than ENOENT. *)
Definition hist_scan_file (f : log_file) (jh : job_hist) : option job_hist :=
  match f with
  | LogMissing => Some jh
  | LogUnreadable => None
  | LogText text _ => Some (hist_scan_from (S (String.length text)) text jh)
  end.

Definition hist_is_manifest (name : string) : bool :=
  if String.prefix "manifest" name then
    match String.substring 8 (String.length name - 8) name with
    | EmptyString => true
    | String c p => (code c =? 46) && negb (String.eqb p EmptyString) && forall_chars isdigit p
    end
  else false.

Fixpoint hist_scan_names (dir : string) (names : list string) (jh : job_hist) : option job_hist :=
  match names with
  | [] => Some jh
  | name :: names =>
      if negb (hist_is_manifest name) then hist_scan_names dir names jh
      else
        let path := dir +:+ "/" +:+ name in
        if (PATH_MAX <=? String.length path)%nat then None
        else
          match hist_scan_file (he_files E path) jh with
          | None => None
          | Some jh => hist_scan_names dir names jh
          end
  end.

Definition ENOENT : Z := 2.

Definition hist_scan_events (jh : job_hist) : option job_hist :=
  let dir := he_state_dir E +:+ "/mbd" in
  if (PATH_MAX <=? String.length dir)%nat then None
  else
    match he_readdir E with
    | inr err => if err =? ENOENT then Some jh else None
    | inl names => hist_scan_names dir names jh
    end.

Definition llb_caller_is_admin : bool :=
  if he_uid E =? 0 then true
  else
    match he_mbd_user E with
    | None | Some EmptyString => false
    | Some u => match he_getpwnam E u with Some id => he_uid E =? id | None => false end
    end.

Definition hist_job_cmp (a b : job_hist_info) : Z :=
  if hi_job_id a <? hi_job_id b then -1 else if hi_job_id b <? hi_job_id a then 1 else 0.

(** [init] is whether the hash table and the parameters are set up; [None] for NULL. *)
Definition llb_hist_info `{QSort} (init : bool) (job_id array_id array_index uid : Z) : option (list job_hist_info) :=
  if negb init then None
  else
    let jh := mk_job_hist job_id array_id array_index uid llb_caller_is_admin [] 0 ∅ 0 in
    match hist_scan_events jh with
    | None => None
    | Some jh =>
        match jh_jobs jh with
        | [] => None
        | l => Some (qsort hist_job_cmp l)
        end
    end.
End events.

(** * What a history shows

    The history of a log says what the log means: for a daemon whose events of one
    job and one type differ in their second, the histories an administrator gets
    from the manifest are those of the jobs of the table, in their states. *)

Implicit Types (jh : job_hist) (h : job_hist_info).

(** ** The table of histories *)

(** The hash table and the array agree. *)
Record hist_wf jh : Prop := mk_hist_wf {
  hw_place : forall id i, jh_hash jh !! id = Some i -> exists h, jh_jobs jh !! i = Some h /\ hi_job_id h = id;
  hw_known : forall i h, jh_jobs jh !! i = Some h -> jh_hash jh !! hi_job_id h = Some i
}.

Definition hist_lookup jh (id : Z) : option job_hist_info := jh_hash jh !! id ≫= fun i => jh_jobs jh !! i.

Lemma hist_lookup_Some jh id h : hist_wf jh ->
  hist_lookup jh id = Some h <-> exists i, jh_hash jh !! id = Some i /\ jh_jobs jh !! i = Some h /\ hi_job_id h = id.
Proof.
  intros W. unfold hist_lookup. split.
  - intros (i & Hi & Hh)%bind_Some. exists i. split; [done|]. split; [done|].
    destruct (hw_place _ W id i Hi) as (h' & Hh' & <-). congruence.
  - intros (i & -> & Hh & _). done.
Qed.

Lemma upd_hist_spec i f jh id :
  hist_wf jh -> jh_hash jh !! id = Some i -> (forall h, hi_job_id (f h) = hi_job_id h) ->
  hist_wf (upd_hist i f jh) /\
  forall k, hist_lookup (upd_hist i f jh) k = if decide (k = id) then f <$> hist_lookup jh id else hist_lookup jh k.
Proof.
  intros W Hi Hf. split.
  - split; cbn.
    + intros k n Hk. destruct (hw_place _ W k n Hk) as (h & Hh & <-). destruct (decide (n = i)) as [->|].
      * exists (f h). by rewrite list_lookup_alter_eq, Hh.
      * exists h. by rewrite list_lookup_alter_ne.
    + intros n h Hh. apply list_lookup_alter_inv in Hh as (h0 & Hh0 & ->). rewrite <- (hw_known _ W n h0 Hh0).
      f_equal. case_bool_decide; [apply Hf|done].
  - intros k. unfold hist_lookup. cbn. case_decide as Hk.
    + subst k. rewrite Hi. cbn. apply list_lookup_alter_eq.
    + destruct (jh_hash jh !! k) as [n|] eqn:En; [|done]. cbn. rewrite list_lookup_alter_ne; [done|].
      intros <-. destruct (hw_place _ W k _ En) as (a & Ha & <-). destruct (hw_place _ W id _ Hi) as (b & Hb & <-). congruence.
Qed.

(** ** One event *)

(** What an event makes of the history of its job, when all allocations succeed. *)
Definition logged_event (ev : log_event) : job_event :=
  let b := mk_job_event (event_type_of ev) (event_time ev) 0 0 0 0 None None None 0 0 None in
  match ev with
  | LogNew _ => b
  | LogStart x => b <| jv_state := job_state_num JOB_RUNNING |> <| jv_run_hosts := Some (ls_hosts x) |>
                    <| jv_gpu_assigned := Some (ls_gpu_assigned x) |>
  | LogFork x => b <| jv_pid := i32 (lf_job_pid x) |>
  | LogSignal x => b <| jv_signal := lg_signal_num x |>
  | LogFinish x => b <| jv_state := le_state x |> <| jv_exit_status := le_exit_status x |>
  | LogPendSusp _ => b <| jv_state := job_state_num JOB_HELD |>
  | LogPendResume _ => b <| jv_state := job_state_num JOB_PENDING |>
  | LogSusp _ => b <| jv_state := job_state_num JOB_SUSPENDED |>
  | LogMove x => b <| jv_from_queue := Some (lm_from_queue x) |> <| jv_to_queue := Some (lm_to_queue x) |>
  | LogPriority x => b <| jv_old_priority := lp_old_priority x |> <| jv_new_priority := lp_new_priority x |>
  | LogPend _ => b <| jv_state := job_state_num JOB_PENDING |>
  end.

Definition hist_change (ev : log_event) h : job_hist_info :=
  match ev with
  | LogStart _ => h <| hi_state := job_state_num JOB_RUNNING |>
  | LogFinish x => h <| hi_state := le_state x |> <| hi_uid := le_uid x |>
  | LogPendSusp _ => h <| hi_state := job_state_num JOB_HELD |>
  | LogPendResume _ | LogPend _ => h <| hi_state := job_state_num JOB_PENDING |>
  | LogSusp _ => h <| hi_state := job_state_num JOB_SUSPENDED |>
  | LogMove x => h <| hi_queue := Some (lm_to_queue x) |>
  | LogPriority x => h <| hi_priority := lp_new_priority x |>
  | _ => h
  end.

Definition hist_effect (ev : log_event) h : job_hist_info :=
  (hist_change ev h) <| hi_events ::= fun l => l ++ [logged_event ev] |>.

Section event.
Context (E : hist_env) (HA : forall n, he_alloc E n = true).

Lemma parse_type rec ev : log_parse rec = Some ev -> rec_type rec = event_type_of ev /\ rec_time rec = event_time ev.
Proof using Type.
  unfold log_parse. destruct (rec_type rec); cbn; intros H; try done; apply fmap_Some in H as (x & Hx & ->); split; try done;
    revert Hx; unfold log_parse_job_new, log_parse_job_start, log_parse_job_fork, log_parse_job_signal, log_parse_job_finish,
      log_parse_job_pend_susp, log_parse_job_pend_resume, log_parse_job_susp, log_parse_job_pend, log_parse_job_mark,
      log_parse_job_move, log_parse_job_priority; repeat case_match; intros; simplify_eq; done.
Qed.

Lemma hist_slot_spec id rec jh i h :
  jh_hash jh !! id = Some i -> jh_jobs jh !! i = Some h ->
  hist_slot E id rec jh = if hist_event_exists h (rec_type rec) (rec_time rec) then (jh, None) else (jh <| jh_io ::= S |>, Some i).
Proof using HA.
  intros Hi Hh. unfold hist_slot, hist_find. rewrite Hi, Hh. destruct (hist_event_exists _ _ _); [done|].
  unfold jh_alloc. by rewrite HA.
Qed.

(** An event of a known job, not seen before, is added; the job changes as the
    event says. *)
Lemma hist_apply_known rec ev jh h :
  hist_wf jh -> log_parse rec = Some ev -> event_type_of ev <> EVENT_JOB_NEW -> hist_lookup jh (event_id ev) = Some h ->
  hist_event_exists h (event_type_of ev) (event_time ev) = false ->
  hist_wf (hist_apply_event E rec jh) /\
  forall k, hist_lookup (hist_apply_event E rec jh) k =
            if decide (k = event_id ev) then Some (hist_effect ev h) else hist_lookup jh k.
Proof using HA.
  intros W Hp Hnew Hl Hex. destruct (parse_type _ _ Hp) as [Ht Hm].
  apply (hist_lookup_Some _ _ _ W) in Hl as Hl'. destruct Hl' as (i & Hi & Hh & _).
  assert (Hs : hist_slot E (event_id ev) rec jh = (jh <| jh_io ::= S |>, Some i)).
  { rewrite (hist_slot_spec _ _ _ _ _ Hi Hh), Ht, Hm. by rewrite Hex. }
  assert (Hb : forall ty tm, ty = rec_type rec -> tm = rec_time rec -> mk_job_event ty tm 0 0 0 0 None None None 0 0 None = blank_event rec)
    by by intros ? ? -> ->.
  assert (Hadd : forall n f, (forall x, hi_job_id (f x) = hi_job_id x) -> f h = hist_change ev h ->
    hist_wf (add_event i (logged_event ev) f (jh <| jh_io := n |>)) /\
    forall k, hist_lookup (add_event i (logged_event ev) f (jh <| jh_io := n |>)) k =
              if decide (k = event_id ev) then Some (hist_effect ev h) else hist_lookup jh k).
  { intros n f Hf Hfh. assert (W' : hist_wf (jh <| jh_io := n |>)) by (destruct W; by split).
    destruct (upd_hist_spec i (fun j => (f j) <| hi_events ::= fun l => l ++ [logged_event ev] |>) (jh <| jh_io := n |>) (event_id ev) W' Hi)
      as [W2 Hk]; [intros x; cbn; apply Hf|]. split; [exact W2|]. intros k. etransitivity; [exact (Hk k)|]. case_decide; [|done].
    change (hist_lookup (jh <| jh_io := n |>) (event_id ev)) with (hist_lookup jh (event_id ev)). rewrite Hl. cbn [fmap option_fmap option_map].
    unfold hist_effect. by rewrite Hfh. }
  unfold hist_apply_event. rewrite Ht. clear Hl Hex Hi Hh W. unfold log_parse in Hp. rewrite Ht in Hp.
  destruct ev; cbn in Hp, Hnew |- *; try done; apply fmap_Some in Hp as (x & Hx & [= <-]);
    unfold hist_apply_start, hist_apply_fork, hist_apply_signal, hist_apply_finish, hist_apply_pend_susp, hist_apply_pend_resume,
      hist_apply_susp, hist_apply_pend, hist_apply_mark, hist_apply_move, hist_apply_priority;
    unfold log_parse_job_pend_susp, log_parse_job_pend_resume, log_parse_job_susp, log_parse_job_pend in Hx; rewrite Hx;
    cbn [event_id] in Hs; rewrite Hs; unfold hist_strdup, jh_alloc; rewrite ?HA;
    rewrite <- (Hb _ _ (eq_sym Ht) (eq_sym Hm));
    match goal with |- hist_wf (add_event _ _ ?f _) /\ _ => eapply (Hadd _ f); [done|done] end.
Qed.
End event.

(** ** A new job *)

(** The sidecars only cost allocations. *)
Lemma text_field_io E nm key val get set jh f :
  exists n g, text_field E nm key val get set (jh, f) = (jh <| jh_io := n |>, g).
Proof.
  unfold text_field. destruct (_ && _).
  - unfold hist_strdup, jh_alloc. eauto.
  - exists (jh_io jh), f. by destruct jh.
Qed.

Lemma submit_field_io E jh f kv : exists n g, hist_apply_submit_field E (jh, f) kv = (jh <| jh_io := n |>, g).
Proof.
  destruct kv as [key val]. unfold hist_apply_submit_field.
  repeat match goal with |- context [text_field ?E ?nm ?k ?v ?g ?s (?j, ?f)] =>
    let n := fresh "n" in let g' := fresh "g" in destruct (text_field_io E nm k v g s j f) as (n & g' & ->) end.
  eexists _, _. reflexivity.
Qed.

Lemma load_sidecar_io E id jh : exists n f, hist_load_sidecar E id jh = (jh <| jh_io := n |>, f).
Proof.
  unfold hist_load_sidecar. generalize submit_zero as f. generalize (sidecar_pairs E id "submit" LL_BUFSIZ_4K) as l.
  intros l. revert jh. induction l as [|kv l IH]; intros jh f; cbn [foldl].
  - exists (jh_io jh), f. by destruct jh.
  - destruct (submit_field_io E jh f kv) as (n & g & ->). destruct (IH (jh <| jh_io := n |>) g) as (n' & f' & ->). eauto.
Qed.

Lemma log_write_nonempty ev t : event_ok ev = true -> log_write ev = Ok t -> (0 < String.length t)%nat.
Proof.
  intros Hev Hw. unfold event_ok in Hev. apply andb_prop in Hev as [[[Htm _]%andb_prop _]%andb_prop _]. apply Z.ltb_lt in Htm.
  rewrite (log_write_text ev Htm) in Hw. injection Hw as <-. destruct ev; cbn; lia.
Qed.

Section scan.
Context (E : hist_env) (HA : forall n, he_alloc E n = true).

Lemma hist_add_spec e jh :
  exists n m f u, hist_add E e jh = jh <| jh_io := n |> <| jh_max_jobs := m |>
    <| jh_hash ::= fun t => match t !! ln_job_id e with Some _ => t | None => <[ln_job_id e := length (jh_jobs jh)]> t end |>
    <| jh_jobs ::= fun l => l ++ [hist_new e f u] |>.
Proof using HA.
  assert (Hg : exists n m, hist_grow E jh = (jh <| jh_io := n |> <| jh_max_jobs := m |>, true)).
  { unfold hist_grow, jh_alloc. rewrite HA. destruct (_ =? _)%nat; [eauto|]. exists (jh_io jh), (jh_max_jobs jh). by destruct jh. }
  destruct Hg as (n & m & Hg). unfold hist_add. rewrite Hg. cbn [negb].
  unfold hist_new_texts, hist_strdup, jh_alloc. rewrite !HA.
  match goal with |- context [if negb (?a && ?b && ?c && ?d) then _ else _] =>
    change (negb (a && b && c && d)) with false end. cbv iota.
  match goal with |- context [hist_load_sidecar E ?i ?j] => destruct (load_sidecar_io E i j) as (n' & f & ->) end.
  eexists _, _, _, _. reflexivity.
Qed.

(** A JOB_NEW of a job that is asked for and not known makes a history. *)
Lemma hist_apply_fresh rec x jh :
  hist_wf jh -> log_parse rec = Some (LogNew x) -> hist_match_new jh x = true -> hist_lookup jh (ln_job_id x) = None ->
  exists f u, hist_wf (hist_apply_event E rec jh) /\
  forall k, hist_lookup (hist_apply_event E rec jh) k = if decide (k = ln_job_id x) then Some (hist_new x f u) else hist_lookup jh k.
Proof using HA.
  intros W Hp Hmatch Hl. destruct (parse_type _ _ Hp) as [Ht _]. cbn in Ht.
  assert (Hn : jh_hash jh !! ln_job_id x = None).
  { destruct (jh_hash jh !! ln_job_id x) as [i|] eqn:Ei; [|done]. destruct (hw_place _ W _ _ Ei) as (h & Hh & Hid).
    unfold hist_lookup in Hl. rewrite Ei in Hl. cbn in Hl. congruence. }
  unfold hist_apply_event. rewrite Ht. unfold log_parse in Hp. rewrite Ht in Hp. apply fmap_Some in Hp as (x' & Hx & [= <-]).
  unfold hist_apply_new. rewrite Hx, Hmatch. cbn [negb]. unfold hist_find. rewrite Hn.
  destruct (hist_add_spec x jh) as (n & m & f & u & ->). exists f, u. split.
  - split; cbn; rewrite Hn.
    + intros id i [[<- <-]|[Hne Hi]]%lookup_insert_Some.
      * exists (hist_new x f u). split; [|done]. by apply list_lookup_middle.
      * destruct (hw_place _ W _ _ Hi) as (h & Hh & Hid). exists h. split; [|done]. by apply lookup_app_l_Some.
    + intros i h [Hh|[Hge Hh]]%lookup_app_Some.
      * pose proof (hw_known _ W _ _ Hh). rewrite lookup_insert_ne; [done|]. congruence.
      * apply list_lookup_singleton_Some in Hh as [Hz <-]. cbn [hi_job_id hist_new]. rewrite lookup_insert_eq. f_equal. lia.
  - intros k. unfold hist_lookup. cbn. rewrite Hn. case_decide as Hk.
    + subst k. rewrite lookup_insert_eq. cbn. by apply list_lookup_middle.
    + rewrite lookup_insert_ne by congruence. destruct (jh_hash jh !! k) as [i|] eqn:Ei; [|done]. cbn.
      destruct (hw_place _ W _ _ Ei) as (h & Hh & _). rewrite Hh. by apply lookup_app_l_Some.
Qed.

(** ** The history and the meaning of the log *)

(** A started job counts as running, suspended or not. *)
Definition running_as (s : job_state) : job_state := if is_active s then JOB_RUNNING else s.

(** The history of a job agrees with its record in the tables of [w]. *)
Record agrees (w : mbd) h (d : job_data) : Prop := mk_agrees {
  ag_id : hi_job_id h = job_id d;
  ag_uid : hi_uid h = uid d;
  ag_state : running_as (job_state_of (hi_state h)) = running_as (state d);
  ag_priority : hi_priority h = priority d;
  ag_queue : exists qn, hi_queue h = Some qn /\ queue_name_hash w !! qn = queue d;
  ag_submit : hi_submit_time h = submit_time d;
  ag_request : (hi_num_cpus h, hi_num_gpus h, hi_mem_mb h, hi_storage_mb h) =
               (num_cpus (rsrc d), num_gpus (rsrc d), mem_mb (rsrc d), storage_mb (rsrc d));
  ag_array : (hi_array_id h, hi_array_index h) = (array_id d, array_index d)
}.

Lemma running_durable j : running_as (state (durable j)) = running_as (state j).
Proof using Type. unfold durable, running_as. cbn. by destruct (state j). Qed.

Lemma agrees_durable w h j : agrees w h (durable j) <-> agrees w h j.
Proof using Type. split; intros []; split; try done; by rewrite ?running_durable in *. Qed.

Lemma logged_job_agrees w x j f u : logged_job w x = Some j -> agrees w (hist_new x f u) j.
Proof using Type.
  unfold logged_job. destruct (machines_hash_populate w _) as [ms|]; [|done].
  destruct (queue_name_hash w !! ln_queue x) as [q|] eqn:Hq; [|done].
  set (j1 := (replayed_job x ms) <| queue := Some q |> <| run_hosts := _ |>).
  destruct (job_replay_deps j1 _) as [j'|] eqn:Hd; [|done]. case_match; [|done]. intros [= <-].
  assert (Hf : (job_id j', uid j', state j', priority j', queue j', submit_time j', rsrc j', array_id j', array_index j') =
               (job_id j1, uid j1, state j1, priority j1, queue j1, submit_time j1, rsrc j1, array_id j1, array_index j1)).
  { revert Hd. unfold job_replay_deps, job_deps_set. generalize j1. intros j2 Hd. repeat (case_match; simplify_eq; cbn in *; inv_res; try done). }
  injection Hf as F1 F2 F3 F4 F5 F6 F7 F8 F9. split; rewrite ?F1, ?F2, ?F3, ?F4, ?F5, ?F6, ?F7, ?F8, ?F9; try done. by exists (ln_queue x).
Qed.

Lemma hist_effect_agrees w ev h d d' :
  agrees w h d -> effect w ev d = Some d' -> agrees w (hist_effect ev h) d'.
Proof using Type.
  intros [A1 A2 A3 A4 A5 A6 A7 A8] He. unfold effect, when in He.
  destruct ev; repeat (case_match; try done); simplify_eq; split; cbn in *; try first [done|congruence|by eexists].
  all: unfold state_is in *; b2p; by match goal with H : state ?d = _ |- _ => rewrite H end.
Qed.

(** What is asked for does not change. *)
Definition hist_query jh := (jh_job_id jh, jh_array_id jh, jh_array_index jh, jh_uid jh, jh_all jh).

Lemma hist_slot_query id rec jh jh' o : hist_slot E id rec jh = (jh', o) -> hist_query jh' = hist_query jh.
Proof using Type. unfold hist_slot, jh_alloc. intros H. repeat (case_match; simplify_eq; try done). Qed.

Lemma hist_apply_query rec jh : hist_query (hist_apply_event E rec jh) = hist_query jh.
Proof using HA.
  unfold hist_apply_event, hist_apply_new, hist_apply_start, hist_apply_fork, hist_apply_signal, hist_apply_finish, hist_apply_pend_susp,
    hist_apply_pend_resume, hist_apply_susp, hist_apply_pend, hist_apply_mark, hist_apply_move, hist_apply_priority.
  destruct (rec_type rec); try done;
    match goal with |- context [match ?p rec with _ => _ end] => destruct (p rec) as [x|]; [|done] end;
    try match goal with |- context [hist_slot E ?id rec jh] =>
      destruct (hist_slot E id rec jh) as [jh' [i|]] eqn:Hs; apply hist_slot_query in Hs; exact Hs end.
  destruct (negb _); [done|]. destruct (hist_find jh _); [done|]. by destruct (hist_add_spec x jh) as (n & m & f & u & ->).
Qed.

Definition event_key (ev : log_event) : Z * event_type * Z := (event_id ev, event_type_of ev, event_time ev).

(** The histories so far, the table the log means so far and the events read. *)
Record tells (w : mbd) (seen : list log_event) (m : gmap Z job_data) jh : Prop := mk_tells {
  tl_wf : hist_wf jh;
  tl_query : jh_all jh = true /\ jh_array_id jh = 0 /\ jh_job_id jh <= 0;
  tl_dom : forall id, is_Some (hist_lookup jh id) <-> is_Some (m !! id);
  tl_agree : forall id h d, hist_lookup jh id = Some h -> m !! id = Some d -> agrees w h d;
  tl_seen : forall id h v, hist_lookup jh id = Some h -> v ∈ hi_events h ->
              exists ev, ev ∈ seen /\ event_key ev = (id, jv_type v, jv_time v)
}.

Lemma tells_fresh w seen m jh h ev :
  tells w seen m jh -> hist_lookup jh (event_id ev) = Some h -> event_key ev ∉ map event_key seen ->
  hist_event_exists h (event_type_of ev) (event_time ev) = false.
Proof using Type.
  intros T Hh Hnew. destruct (hist_event_exists h _ _) eqn:Ex; [|done]. exfalso. apply Hnew.
  apply existsb_exists in Ex as (v & Hv & [Ht Hm]%andb_prop). apply list_elem_of_In in Hv.
  apply bool_decide_eq_true in Ht. apply Z.eqb_eq in Hm.
  destruct (tl_seen _ _ _ _ T _ _ _ Hh Hv) as (ev' & Hin & Hk). rewrite Ht, Hm in Hk.
  unfold event_key at 1. rewrite <- Hk. by apply list_elem_of_fmap_2.
Qed.

(** What one history and one record become. *)
Lemma tells_insert w seen m jh jh' ev id h d :
  tells w seen m jh -> hist_wf jh' -> hist_query jh' = hist_query jh ->
  (forall k, hist_lookup jh' k = if decide (k = id) then Some h else hist_lookup jh k) -> agrees w h d ->
  (forall v, v ∈ hi_events h -> exists x, x ∈ seen ++ [ev] /\ event_key x = (id, jv_type v, jv_time v)) ->
  tells w (seen ++ [ev]) (<[id := d]> m) jh'.
Proof using Type.
  intros [T1 T2 T3 T4 T5] W Hq Hl Ha Hv. unfold hist_query in Hq. injection Hq as Q1 Q2 Q3 Q4 Q5. split; [done| | | |].
  - by rewrite Q1, Q2, Q5.
  - intros k. rewrite Hl. case_decide as Hk; [subst k; rewrite lookup_insert_eq; naive_solver|]. by rewrite lookup_insert_ne.
  - intros k h' d'. rewrite Hl. case_decide as Hk; [subst k; rewrite lookup_insert_eq; naive_solver|]. rewrite lookup_insert_ne by done. eauto.
  - intros k h' v. rewrite Hl. case_decide as Hk; [subst k; intros [= <-]; eauto|]. intros Hh Hin.
    destruct (T5 k h' v Hh Hin) as (x & Hx & He). exists x. split; [|done]. apply elem_of_app. by left.
Qed.

Lemma tells_event w seen m m' jh rec ev :
  tells w seen m jh -> log_parse rec = Some ev -> apply_event w m ev = Some m' -> event_key ev ∉ map event_key seen ->
  tells w (seen ++ [ev]) m' (hist_apply_event E rec jh).
Proof using HA.
  intros T Hp Hm Hnew. destruct (decide (event_type_of ev = EVENT_JOB_NEW)) as [Ht|Ht].
  - destruct ev as [x| | | | | | | | | |]; try done. cbn in Hm. destruct (m !! ln_job_id x) eqn:Em; [done|].
    destruct (logged_job w x) as [j|] eqn:Hj; [|done]. injection Hm as <-.
    assert (Hl : hist_lookup jh (ln_job_id x) = None).
    { destruct (hist_lookup jh (ln_job_id x)) eqn:El; [|done]. assert (is_Some (m !! ln_job_id x)) as [? ?] by (apply (tl_dom _ _ _ _ T); by rewrite El). congruence. }
    destruct (tl_query _ _ _ _ T) as (Q1 & Q2 & Q3).
    destruct (hist_apply_fresh rec x jh (tl_wf _ _ _ _ T) Hp) as (f & u & W & Hk); [|done|].
    { unfold hist_match_new. rewrite Q1, Q2. cbn. by destruct (Z.ltb_spec 0 (jh_job_id jh)); [lia|]. }
    eapply tells_insert; [exact T|exact W|apply hist_apply_query|exact Hk|by apply agrees_durable, logged_job_agrees|].
    cbn. by intros v ?%not_elem_of_nil.
  - assert (Hm' : exists d d', m !! event_id ev = Some d /\ effect w ev d = Some d' /\ m' = <[event_id ev := durable d']> m).
    { destruct ev; try done; cbn -[effect] in Hm; repeat case_match; simplify_eq; eauto. }
    destruct Hm' as (d & d' & Hd & He & ->).
    assert (is_Some (hist_lookup jh (event_id ev))) as [h Hh] by (apply (tl_dom _ _ _ _ T); by rewrite Hd).
    pose proof (tells_fresh _ _ _ _ _ _ T Hh Hnew) as Hex.
    destruct (hist_apply_known E HA rec ev jh h (tl_wf _ _ _ _ T) Hp Ht Hh Hex) as [W Hk].
    eapply tells_insert; [exact T|exact W|apply hist_apply_query|exact Hk| |].
    + apply agrees_durable. eapply hist_effect_agrees; [|exact He]. by eapply (tl_agree _ _ _ _ T).
    + intros v. assert (Hev : hi_events (hist_effect ev h) = hi_events h ++ [logged_event ev]) by by destruct ev. rewrite Hev.
      intros [Hin|Hin%list_elem_of_singleton]%elem_of_app; [|subst v].
      * destruct (tl_seen _ _ _ _ T _ _ _ Hh Hin) as (x & Hx & Hkx). exists x. split; [|done]. apply elem_of_app. by left.
      * exists ev. split; [apply elem_of_app; right; by apply list_elem_of_singleton|]. by destruct ev.
Qed.

Lemma tells_text w evs : forall text seen m m' jh fuel,
  forallb line_ok evs = true -> log_text evs = Ok text -> tells w seen m jh -> apply_events w m evs = Some m' ->
  NoDup (map event_key (seen ++ evs)) -> (String.length text < fuel)%nat ->
  tells w (seen ++ evs) m' (hist_scan_from E fuel text jh).
Proof using HA.
  induction evs as [|ev evs IH]; intros text seen m m' jh fuel Hok Ht T Ha HN Hf.
  - injection Ht as <-. injection Ha as <-. rewrite app_nil_r. destruct fuel as [|f]; [lia|]. exact T.
  - cbn [forallb] in Hok. apply andb_prop in Hok as [[Hev Hlen]%andb_prop Hok]. cbn [log_text apply_events] in Ht, Ha.
    destruct (log_roundtrip ev EmptyString Hev) as (t & Hw & _). rewrite Hw in Hlen, Ht. cbn [res_bind] in Ht.
    apply res_bind_Ok in Ht as (ts & Hts & [= <-]). apply Nat.leb_le in Hlen.
    destruct (log_roundtrip ev ts Hev) as (t' & Hw' & Hr). rewrite Hw in Hw'. injection Hw' as <-.
    destruct (Hr Hlen) as (rec & Hrd & Hp). destruct (apply_event w m ev) as [m1|] eqn:Hm1; [|done].
    destruct fuel as [|f]; [lia|]. cbn [hist_scan_from]. rewrite Hrd.
    assert (HN2 : NoDup (map event_key ((seen ++ [ev]) ++ evs))) by by rewrite <- app_assoc.
    replace (seen ++ ev :: evs) with ((seen ++ [ev]) ++ evs) by by rewrite <- app_assoc.
    eapply IH; [done|exact Hts| |exact Ha|exact HN2|].
    + eapply tells_event; [exact T|exact Hp|exact Hm1|]. rewrite map_app in HN. apply NoDup_app in HN as (_ & HN & _).
      intros Hin. apply (HN _ Hin). by left.
    + rewrite string_length_app in Hf. pose proof (log_write_nonempty ev t Hev Hw). lia.
Qed.
End scan.

(** ** The whole history *)

Lemma scan_names_filter E dir names jh :
  hist_scan_names E dir names jh = hist_scan_names E dir (List.filter hist_is_manifest names) jh.
Proof.
  revert jh. induction names as [|n names IH]; intros jh; [done|]. cbn [hist_scan_names List.filter].
  destruct (hist_is_manifest n) eqn:Hm; cbn [negb]; [|apply IH]. cbn [hist_scan_names]. rewrite Hm. cbn [negb].
  destruct (_ <=? _)%nat; [done|]. destruct (hist_scan_file E _ jh); [apply IH|done].
Qed.

Lemma tells_jobs w evs m jh : tells w evs m jh ->
  (forall id, id ∈ map hi_job_id (jh_jobs jh) <-> is_Some (m !! id)) /\
  forall h d, h ∈ jh_jobs jh -> m !! hi_job_id h = Some d -> agrees w h d.
Proof.
  intros [W _ T3 T4 _].
  assert (Hl : forall h, h ∈ jh_jobs jh -> hist_lookup jh (hi_job_id h) = Some h).
  { intros h (i & Hi)%list_elem_of_lookup. apply hist_lookup_Some; [done|]. exists i. split; [by apply hw_known|done]. }
  split.
  - intros id. split.
    + intros Hid. apply list_elem_of_fmap in Hid as (h & -> & Hin). apply T3. by rewrite (Hl h Hin).
    + intros [h Hh]%T3. apply hist_lookup_Some in Hh as (i & _ & Hi & <-); [|done]. apply list_elem_of_fmap_2. by eapply list_elem_of_lookup_2.
  - intros h d Hin Hd. by eapply T4; [apply Hl|].
Qed.

Lemma hist_cmp_sorted {QS : QSort} l : StronglySorted (cmp_le hist_job_cmp) (qsort hist_job_cmp l).
Proof.
  apply qsort_sorted; unfold cmp_le, hist_job_cmp.
  - intros a b _ _. destruct (Z.ltb_spec (hi_job_id a) (hi_job_id b)), (Z.ltb_spec (hi_job_id b) (hi_job_id a)); lia.
  - intros a b c _ _ _. repeat (case_match; b2p); lia.
Qed.

(** The calls that read the manifest of the daemon, and nothing else, as an
    administrator. *)
Record reads_manifest (E : hist_env) (text : string) : Prop := mk_reads_manifest {
  rm_alloc : forall n, he_alloc E n = true;
  rm_admin : llb_caller_is_admin E = true;
  rm_dir : exists names, he_readdir E = inl names /\ List.filter hist_is_manifest names = ["manifest"];
  rm_file : he_files E (he_state_dir E +:+ "/mbd/manifest") = LogText text false;
  rm_path : (String.length (he_state_dir E) + 13 < PATH_MAX)%nat
}.

Lemma history_ok {QS : QSort} E w w0 evs text uid m :
  reads_manifest E text -> forallb line_ok evs = true -> log_text evs = Ok text -> NoDup (map event_key evs) ->
  apply_events w0 ∅ evs = Some m -> m = durables w -> jobs w <> ∅ ->
  exists l, llb_hist_info E true 0 0 0 uid = Some l /\ StronglySorted (cmp_le hist_job_cmp) l /\
    (forall id, id ∈ map hi_job_id l <-> is_Some (jobs w !! id)) /\
    (forall h j, h ∈ l -> jobs w !! hi_job_id h = Some j -> agrees w0 h j).
Proof.
  intros [HA Had (names & Hd & Hf) Hfile Hp] Hok Ht HN Ha -> Hne. unfold llb_hist_info. cbn [negb].
  set (jh0 := mk_job_hist _ _ _ _ _ _ _ _ _).
  assert (T0 : tells w0 [] ∅ jh0).
  { split; [by split|by split_and!| | |]; cbn.
    - intros id. unfold hist_lookup. cbn. rewrite !lookup_empty. cbn. split; by intros [].
    - intros id h d. by rewrite lookup_empty.
    - intros id h v. unfold hist_lookup. cbn. by rewrite lookup_empty. }
  pose proof (tells_text E HA w0 evs text [] ∅ _ jh0 (S (String.length text)) Hok Ht T0 Ha HN ltac:(lia)) as T.
  set (jh1 := hist_scan_from E (S (String.length text)) text jh0) in T.
  assert (Hs : hist_scan_events E jh0 = Some jh1).
  { unfold hist_scan_events. rewrite Hd. destruct (Nat.leb_spec PATH_MAX (String.length (he_state_dir E +:+ "/mbd"))) as [Hle|_].
    { rewrite string_length_app in Hle. cbn in Hle. lia. }
    rewrite scan_names_filter, Hf. cbn [hist_scan_names]. change (negb (hist_is_manifest "manifest")) with false. cbv iota.
    assert (Hpath : (he_state_dir E +:+ "/mbd") +:+ "/" +:+ "manifest" = he_state_dir E +:+ "/mbd/manifest") by by rewrite <- string_app_assoc.
    rewrite Hpath. destruct (Nat.leb_spec PATH_MAX (String.length (he_state_dir E +:+ "/mbd/manifest"))) as [Hle|_].
    { rewrite string_length_app in Hle. cbn in Hle. lia. }
    by rewrite Hfile. }
  rewrite Hs. destruct (tells_jobs _ _ _ _ T) as [Hids Hag].
  assert (Hj : jh_jobs jh1 <> []).
  { intros Hz. apply Hne. apply map_eq. intros id. rewrite lookup_empty. destruct (jobs w !! id) as [j|] eqn:Hj; [|done]. exfalso.
    assert (Hin : id ∈ map hi_job_id (jh_jobs jh1)) by (apply Hids; by rewrite (durables_lookup _ _ _ Hj)).
    rewrite Hz in Hin. by apply not_elem_of_nil in Hin. }
  exists (qsort hist_job_cmp (jh_jobs jh1)). split; [by destruct (jh_jobs jh1)|]. split; [apply hist_cmp_sorted|].
  pose proof (qsort_perm _ hist_job_cmp (jh_jobs jh1)) as Hperm. split.
  - intros id. transitivity (id ∈ map hi_job_id (jh_jobs jh1)).
    + assert (Hpm : map hi_job_id (qsort hist_job_cmp (jh_jobs jh1)) ≡ₚ map hi_job_id (jh_jobs jh1)) by by apply Permutation_map. by rewrite Hpm.
    + rewrite Hids. unfold durables. rewrite lookup_fmap. by destruct (jobs w !! id).
  - intros h j Hin Hj'. rewrite Hperm in Hin. apply agrees_durable. apply (Hag h (durable j) Hin). by apply durables_lookup.
Qed.


Definition demo_hist_env : hist_env :=
  mk_hist_env (fun _ => true) "/var/ll"
    (fun path => if String.eqb path "/var/ll/mbd/manifest" then LogText demo_text false else LogMissing)
    (inl ["."; ".."; "manifest"; "job_id_seq"; "jobs"]) 0 (Some "lavalite") (fun _ => None).


(** ** Who sees what *)

(** The records a scan of the text reads. *)
Fixpoint file_records_from (fuel : nat) (fp : string) : list event_rec :=
  match fuel with
  | O => []
  | S fuel =>
      let (o, fp) := log_read_hdr fp in
      match o with None => [] | Some rec => rec :: file_records_from fuel fp end
  end.

Definition file_records (text : string) : list event_rec := file_records_from (S (String.length text)) text.

(** A JOB_NEW event of a log the call can read. *)
Definition logged_new (E : hist_env) (e : log_job_new) : Prop :=
  exists path text err rec, he_files E path = LogText text err /\ rec ∈ file_records text /\ log_parse_job_new rec = Some e.

(** The job of the history was submitted by the user. *)
Definition submitted_by (E : hist_env) (uid : Z) h : Prop :=
  exists e, logged_new E e /\ ln_uid e = uid /\ ln_job_id e = hi_job_id h /\ ln_username e = hi_username h.

Record owned (E : hist_env) (uid : Z) jh : Prop := mk_owned {
  ow_query : jh_all jh = false /\ jh_uid jh = uid;
  ow_jobs : Forall (submitted_by E uid) (jh_jobs jh)
}.

Section owner.
Context (E : hist_env) (uid : Z).

Lemma owned_upd i f jh n :
  (forall h, hi_job_id (f h) = hi_job_id h /\ hi_username (f h) = hi_username h) -> owned E uid jh ->
  owned E uid (upd_hist i f (jh <| jh_io := n |>)).
Proof.
  intros Hf [Q J]. split; [done|]. cbn. apply Forall_alter; [done|]. intros h _ (e & He & Hu & Hi & Hn).
  exists e. destruct (Hf h) as [-> ->]. done.
Qed.

Lemma owned_io jh n : owned E uid jh -> owned E uid (jh <| jh_io := n |>).
Proof. by intros [Q J]. Qed.

Lemma owned_slot id rec jh jh' o : owned E uid jh -> hist_slot E id rec jh = (jh', o) -> exists n, jh' = jh <| jh_io := n |>.
Proof.
  intros O. unfold hist_slot, jh_alloc. intros H. assert (Hid : exists n, jh = jh <| jh_io := n |>) by (exists (jh_io jh); by destruct jh).
  repeat (case_match; simplify_eq; eauto).
Qed.

Lemma owned_add e jh : logged_new E e -> ln_uid e = uid -> owned E uid jh -> owned E uid (hist_add E e jh).
Proof.
  intros He Hu O. unfold hist_add. destruct (hist_grow E jh) as [jh1 ok] eqn:Hg.
  assert (O1 : owned E uid jh1).
  { unfold hist_grow, jh_alloc in Hg. destruct O. repeat case_match; simplify_eq; by split. }
  destruct (negb ok); [done|]. 
  assert (Ht : exists n b, hist_new_texts E e jh1 = (jh1 <| jh_io := n |>, b))
    by (unfold hist_new_texts, hist_strdup, jh_alloc; eauto).
  destruct Ht as (n & b & ->). destruct (negb b); [by apply owned_io|].
  match goal with |- context [hist_load_sidecar E ?i ?j] => destruct (load_sidecar_io E i j) as (n' & f & ->) end.
  destruct O1 as [Q J]. split; [done|]. cbn. apply Forall_app. split; [done|]. constructor; [|constructor]. by exists e.
Qed.

Lemma owned_event rec jh :
  (forall e, log_parse_job_new rec = Some e -> logged_new E e) -> owned E uid jh -> owned E uid (hist_apply_event E rec jh).
Proof.
  intros Hsrc O. unfold hist_apply_event.
  assert (Hadd : forall id i jh' ev f, hist_slot E id rec jh = (jh', Some i) ->
    (forall h, hi_job_id (f h) = hi_job_id h /\ hi_username (f h) = hi_username h) ->
    forall n, owned E uid (add_event i ev f (jh' <| jh_io := n |>))).
  { intros id i jh' ev f Hs Hf n. destruct (owned_slot _ _ _ _ _ O Hs) as [n' ->].
    apply (owned_upd i (fun j => (f j) <| hi_events ::= fun l => l ++ [ev] |>) jh n); [|done]. intros h. cbn. apply Hf. }
  assert (Hkeep : forall jh', exists n, jh' = jh' <| jh_io := n |>) by (intros jh'; exists (jh_io jh'); by destruct jh').
  unfold hist_apply_new, hist_apply_start, hist_apply_fork, hist_apply_signal, hist_apply_finish, hist_apply_pend_susp,
    hist_apply_pend_resume, hist_apply_susp, hist_apply_pend, hist_apply_mark, hist_apply_move, hist_apply_priority.
  destruct (rec_type rec); try done;
    match goal with |- context [match ?p rec with _ => _ end] => destruct (p rec) as [x|] eqn:Hx; [|done] end;
    try match goal with |- context [hist_slot E ?id rec jh] =>
      destruct (hist_slot E id rec jh) as [jh' [i|]] eqn:Hs; [|destruct (owned_slot _ _ _ _ _ O Hs) as [n ->]; by apply owned_io];
      first [eapply (Hadd _ _ _ _ _ Hs); by intros
            |destruct (Hkeep jh') as [n ->]; eapply (Hadd _ _ _ _ _ Hs); by intros] end.
  destruct (hist_match_new jh x) eqn:Hm; [|done]. cbn [negb].
  destruct (hist_find jh _) as [i|].
  - match goal with |- owned _ _ (upd_hist i ?f _) => pose proof (owned_upd i f jh (jh_io jh)) as Hu end.
    destruct jh. apply Hu; [|done]. intros h. by destruct (_ || _).
  - apply owned_add; [auto| |done]. destruct (ow_query _ _ _ O) as [Q1 Q2]. unfold hist_match_new in Hm. rewrite Q1, Q2 in Hm. cbn [orb] in Hm.
    repeat case_match; b2p; naive_solver.
Qed.
End owner.

Section owner_scan.
Context (E : hist_env) (uid : Z).

Lemma owned_records fuel : forall fp jh,
  (forall rec e, rec ∈ file_records_from fuel fp -> log_parse_job_new rec = Some e -> logged_new E e) ->
  owned E uid jh -> owned E uid (hist_scan_from E fuel fp jh).
Proof.
  induction fuel as [|fuel IH]; intros fp jh Hsrc O; cbn in *; [done|].
  destruct (log_read_hdr fp) as [[rec|] fp']; [|done]. apply IH.
  - intros r e Hr. apply Hsrc. by right.
  - apply owned_event; [|done]. intros e. apply Hsrc. left.
Qed.

Lemma owned_names dir names : forall jh jh', hist_scan_names E dir names jh = Some jh' -> owned E uid jh -> owned E uid jh'.
Proof.
  induction names as [|n names IH]; intros jh jh' H O; cbn [hist_scan_names] in H; [congruence|].
  destruct (negb _); [eauto|]. destruct (_ <=? _)%nat; [done|].
  destruct (hist_scan_file E _ jh) as [jh1|] eqn:Hs; [|done]. eapply IH; [exact H|].
  unfold hist_scan_file in Hs. destruct (he_files E _) as [| |text err] eqn:Hfile; simplify_eq; [done|].
  apply owned_records; [|done]. intros rec e Hr He. by exists (dir +:+ "/" +:+ n), text, err, rec.
Qed.
End owner_scan.

(** A user sees his own jobs only: whatever the logs and the sidecars hold and
    whatever is asked for, every history that a caller who is not an administrator
    gets is of a job that a log records as submitted by the user asked for. *)
Theorem history_own_jobs {QS : QSort} E init job_id array_id array_index uid l :
  llb_caller_is_admin E = false -> llb_hist_info E init job_id array_id array_index uid = Some l ->
  Forall (submitted_by E uid) l.
Proof.
  intros Had H. unfold llb_hist_info in H. destruct (negb init); [done|]. rewrite Had in H.
  destruct (hist_scan_events E _) as [jh|] eqn:Hs; [|done].
  assert (O : owned E uid jh).
  { unfold hist_scan_events in Hs. destruct (_ <=? _)%nat; [done|]. set (jh0 := mk_job_hist _ _ _ _ _ _ _ _ _) in Hs.
    assert (O0 : owned E uid jh0) by (split; [done|constructor]).
    destruct (he_readdir E) as [names|err]; [by eapply owned_names|]. destruct (err =? ENOENT); [|done]. by injection Hs as <-. }
  assert (Hl : l = qsort hist_job_cmp (jh_jobs jh)) by (destruct (jh_jobs jh); congruence).
  rewrite Hl, qsort_perm. apply O.
Qed.

Definition demo_user_env : hist_env :=
  mk_hist_env (he_alloc demo_hist_env) (he_state_dir demo_hist_env) (he_files demo_hist_env) (he_readdir demo_hist_env)
    1001 (Some "lavalite") (fun _ => Some 500).

Lemma history_own_jobs_witness :
  exists l, llb_hist_info demo_user_env true 0 0 0 1001 = Some l /\ map hi_job_id l = [101] /\ Forall (submitted_by demo_user_env 1001) l.
Proof.
  destruct (llb_hist_info demo_user_env true 0 0 0 1001) as [l|] eqn:H; [|vm_compute in H; discriminate].
  exists l. split; [done|]. split; [vm_compute in H; injection H as <-; reflexivity|].
  apply (history_own_jobs demo_user_env true 0 0 0 1001 l); [reflexivity|exact H].
Defined.

(** ** Where a history departs from the log *)

Definition demo_new : log_event :=
  LogNew (mk_log_job_new 7 0 0 0 0 0 1001 1001 1 0 10 0 0 1 1 0 0 0 0 "alice" "sim" "normal" "p" EmptyString EmptyString
            EmptyString EmptyString).

Definition text_of_log (evs : list log_event) : string := match log_text evs with Ok t => t | Crash _ => EmptyString end.

(** The states an administrator is shown when the directory lists these logs. *)
Definition shown_states (logs : list (string * list log_event)) : option (list Z) :=
  let E := mk_hist_env (fun _ => true) "/var/ll"
             (fun path => match List.find (fun x => String.eqb path ("/var/ll/mbd/" +:+ x.1)) logs with
                          | Some x => LogText (text_of_log x.2) false
                          | None => LogMissing
                          end)
             (inl (map fst logs)) 0 None (fun _ => None) in
  map hi_state <$> llb_hist_info E true 0 0 0 0.

(** A job that is held, resumed and held in one second: the second hold has the type
    and the time of the first and is dropped, so the job is shown as pending. *)
Lemma same_second_dropped :
  let evs := [demo_new; LogPendSusp (mk_log_job_mark 7 20); LogPendResume (mk_log_job_mark 7 20); LogPendSusp (mk_log_job_mark 7 20)] in
  shown_states [("manifest", evs)] = Some [job_state_num JOB_PENDING] /\
  match apply_events demo0 ∅ evs with Some m => state <$> m !! 7 | None => None end = Some JOB_HELD.
Proof. split; vm_compute; reflexivity. Qed.

(** An archive that the directory lists after the log that followed it: a job that is
    done is shown as suspended, since its suspension is read last. *)
Lemma archive_order_matters :
  let start := LogStart (mk_log_job_start 7 20 1 1 0 EmptyString EmptyString "node1") in
  let old := [demo_new; start; LogSusp (mk_log_job_mark 7 30)] in
  let new := [demo_new; start; LogFinish (mk_log_job_finish 7 1001 (job_state_num JOB_DONE) 0 50)] in
  shown_states [("manifest.1", old); ("manifest", new)] = Some [job_state_num JOB_DONE] /\
  shown_states [("manifest", new); ("manifest.1", old)] = Some [job_state_num JOB_SUSPENDED].
Proof. split; vm_compute; reflexivity. Qed.
