(* ===== verification/SbdTypes.v ===== *)
(** * The data of the execution daemon (include/batch/sbd/sbd.h, wire.h)

    The job record of sbd, the daemon's global variables as one record, the
    system calls it makes and the state monad its handlers are written in.  A
    pointer to a job is its id. *)

From S2P Require Import Prelude CString LlHash Dependency LogFormat MbdTypes MbdBase MbdJob MbdSched MbdNet.

Open Scope string_scope.
Open Scope list_scope.
Open Scope Z_scope.

(** ** Constants *)

Definition PATH_MAX : nat := 4096.

Definition EINTR : Z := 4.
Definition ENOENT : Z := 2.
Definition EEXIST : Z := 17.
Definition ENAMETOOLONG : Z := 36.

Definition SIGUSR2 : Z := 12.

Definition JOB_SUCCESS : Z := 0.
Definition JOB_FAILURE : Z := 1.

(** ** Jobs *)

(** What the control group of a job has used; the CPU time in microseconds. *)
Record job_res_usage : Type := mk_job_res_usage {
  ru_mem_mb : Z;
  ru_swap_mb : Z;
  ru_cpu_usec : Z
}.

(** [struct sbd_job].  The three flags are [bool_t], an int that a state file may
    set to anything. *)
Record sbd_job : Type := mk_sbd_job {
  sj_job_id : Z;
  sj_pid : Z;
  sj_pgid : Z;
  sj_uid : Z;
  sj_gid : Z;
  sj_umask : Z;
  sj_ncpus : Z;
  sj_mem_mb : Z;
  sj_user : string;
  sj_user_home : string;
  sj_user_cwd : string;
  sj_command : string;
  sj_job_name : string;
  sj_queue : string;
  sj_hosts : string;
  sj_gpu_assigned : string;
  sj_in_file : string;
  sj_out_file : string;
  sj_err_file : string;
  terminate_time : Z;
  terminate_kill_time : Z;
  pid_acked : Z;
  time_pid_acked : Z;
  reply_last_send : Z;
  finish_acked : Z;
  time_finish_acked : Z;
  finish_last_send : Z;
  retry_exit_count : Z;
  sj_exit_status : Z;
  exit_status_valid : Z;
  sj_end_time : Z;
  res_usage : job_res_usage
}.

Definition sbd_job_eta (x : sbd_job) : sbd_job :=   mk_sbd_job (sj_job_id x) (sj_pid x) (sj_pgid
    x) (sj_uid x) (sj_gid x) (sj_umask x) (sj_ncpus x) (sj_mem_mb x) (sj_user x) (sj_user_home
    x) (sj_user_cwd x) (sj_command x) (sj_job_name x) (sj_queue x) (sj_hosts x) (sj_gpu_assigned
    x) (sj_in_file x) (sj_out_file x) (sj_err_file x) (terminate_time x) (terminate_kill_time x)
    (pid_acked x) (time_pid_acked x) (reply_last_send x) (finish_acked x) (time_finish_acked x)
    (finish_last_send x) (retry_exit_count x) (sj_exit_status x) (exit_status_valid x)
    (sj_end_time x) (res_usage x).
#[export] Instance set_sj_job_id : Setter sj_job_id. Proof. setter sbd_job_eta. Defined.
#[export] Instance set_sj_pid : Setter sj_pid. Proof. setter sbd_job_eta. Defined.
#[export] Instance set_sj_pgid : Setter sj_pgid. Proof. setter sbd_job_eta. Defined.
#[export] Instance set_sj_uid : Setter sj_uid. Proof. setter sbd_job_eta. Defined.
#[export] Instance set_sj_gid : Setter sj_gid. Proof. setter sbd_job_eta. Defined.
#[export] Instance set_sj_umask : Setter sj_umask. Proof. setter sbd_job_eta. Defined.
#[export] Instance set_sj_ncpus : Setter sj_ncpus. Proof. setter sbd_job_eta. Defined.
#[export] Instance set_sj_mem_mb : Setter sj_mem_mb. Proof. setter sbd_job_eta. Defined.
#[export] Instance set_sj_user : Setter sj_user. Proof. setter sbd_job_eta. Defined.
#[export] Instance set_sj_user_home : Setter sj_user_home. Proof. setter sbd_job_eta. Defined.
#[export] Instance set_sj_user_cwd : Setter sj_user_cwd. Proof. setter sbd_job_eta. Defined.
#[export] Instance set_sj_command : Setter sj_command. Proof. setter sbd_job_eta. Defined.
#[export] Instance set_sj_job_name : Setter sj_job_name. Proof. setter sbd_job_eta. Defined.
#[export] Instance set_sj_queue : Setter sj_queue. Proof. setter sbd_job_eta. Defined.
#[export] Instance set_sj_hosts : Setter sj_hosts. Proof. setter sbd_job_eta. Defined.
#[export] Instance set_sj_gpu_assigned : Setter sj_gpu_assigned. Proof. setter sbd_job_eta. Defined.
#[export] Instance set_sj_in_file : Setter sj_in_file. Proof. setter sbd_job_eta. Defined.
#[export] Instance set_sj_out_file : Setter sj_out_file. Proof. setter sbd_job_eta. Defined.
#[export] Instance set_sj_err_file : Setter sj_err_file. Proof. setter sbd_job_eta. Defined.
#[export] Instance set_terminate_time : Setter terminate_time. Proof. setter sbd_job_eta. Defined.
#[export] Instance set_terminate_kill_time : Setter terminate_kill_time. Proof. setter sbd_job_eta. Defined.
#[export] Instance set_pid_acked : Setter pid_acked. Proof. setter sbd_job_eta. Defined.
#[export] Instance set_time_pid_acked : Setter time_pid_acked. Proof. setter sbd_job_eta. Defined.
#[export] Instance set_reply_last_send : Setter reply_last_send. Proof. setter sbd_job_eta. Defined.
#[export] Instance set_finish_acked : Setter finish_acked. Proof. setter sbd_job_eta. Defined.
#[export] Instance set_time_finish_acked : Setter time_finish_acked. Proof. setter sbd_job_eta. Defined.
#[export] Instance set_finish_last_send : Setter finish_last_send. Proof. setter sbd_job_eta. Defined.
#[export] Instance set_retry_exit_count : Setter retry_exit_count. Proof. setter sbd_job_eta. Defined.
#[export] Instance set_sj_exit_status : Setter sj_exit_status. Proof. setter sbd_job_eta. Defined.
#[export] Instance set_exit_status_valid : Setter exit_status_valid. Proof. setter sbd_job_eta. Defined.
#[export] Instance set_sj_end_time : Setter sj_end_time. Proof. setter sbd_job_eta. Defined.
#[export] Instance set_res_usage : Setter res_usage. Proof. setter sbd_job_eta. Defined.

(** ** Messages *)

(** The fields of [struct wire_job_start] that come from the sidecar and the
    script of the job; the others are those of [wire_job_start]. *)
Record wire_job_files : Type := mk_wire_job_files {
  wf_umask : Z;
  wf_home_dir : string;
  wf_cwd : string;
  wf_command : string;
  wf_in_file : string;
  wf_out_file : string;
  wf_err_file : string;
  wf_script : string
}.

Inductive sbd_body : Type :=
  | OutReply (r : wire_job_reply)
  | OutFinish (f : wire_job_finish) (u : job_res_usage)
  | OutSig (s : wire_job_sig)
  | OutState (id st : Z)
  | OutRegister (hostname : string).

(** A message queued for mbd. *)
Record sbd_out : Type := mk_sbd_out {
  so_op : batch_op;
  so_status : Z;
  so_body : sbd_body
}.

(** What mbd sends; [None] is a body that does not decode. *)
Inductive mbd_msg : Type :=
  | RNewJob (m : option (wire_job_start * wire_job_files))
  | RNewJobReplyAck (a : option wire_job_ack)
  | RJobFinishAck (a : option wire_job_ack)
  | RJobSignal (s : option wire_job_sig)
  | RRegisterAck (l : option (list (Z * Z)))
  | RUnknown.

(** ** System calls

    The calls whose answer decides what a handler does.  [SysAlloc] is calloc,
    [SysHashInsert] the allocation inside ll_hash_insert, [SysSign] the signing
    of a header, [SysEnqueue] the buffer, the encoding and the queue of the
    channel to mbd, [SysConnect] a new channel to mbd. *)
Inductive syscall : Type :=
  | SysAlloc
  | SysHashInsert
  | SysSign
  | SysEnqueue
  | SysConnect
  | SysGethostname
  | SysMkdir (path : string)
  | SysRmdir (path : string)
  | SysUnlink (path : string)
  | SysChmod (path : string)
  | SysChown (path : string)
  | SysOpen (path : string)
  | SysWrite (path : string)
  | SysFsync (path : string)
  | SysClose (path : string)
  | SysRename (src dst : string)
  | SysFork (job_id : Z)
  | SysForkPruner
  | SysKill (target sig : Z)
  | SysKillpg (pgid sig : Z)
  | SysCgWrite (path val : string)
  | SysCgRead (path : string).

#[export] Instance syscall_eq_dec : EqDecision syscall.
Proof. solve_decision. Defined.

(** The answers of one handler: the clock; the answer to a call by its place in
    the trace (0 for success or the errno; the pid of a fork and the number of a
    channel when positive, resp. not negative); the children waitpid yields until
    it has no more; what the files of the kernel under the control groups hold;
    the host's name; the errno left by an earlier call. *)
Record senv : Type := mk_senv {
  s_now : Z;
  sys : syscall -> nat -> Z;
  children : list (Z * Z);
  cg_file : string -> option string;
  hostname : string;
  stale_errno : Z
}.

(** ** The daemon's state *)

(** What the configuration and the options fix. *)
Record sbd_conf : Type := mk_sbd_conf {
  sbd_job_dir : string;
  sbd_state_dir : string;
  prune_interval : Z;
  num_jobs_retain : Z;
  sbd_timer : Z;
  sbd_resend_timer : Z;
  sim_name : string;
  cg_base : string
}.

(** [sjobs] is the table [sbd_job_hash] with the records it points to and
    [sbd_job_list] the list of the same records; [files] the regular files under
    the daemon's directories, by path, which outlive the process; [soutbox] the
    messages queued for mbd, oldest first; [strace] the system calls made so far
    with their answers. *)
Record sbd : Type := mk_sbd {
  sjobs : gmap Z sbd_job;
  sbd_job_list : list Z;
  sbd_mbd_chan : Z;
  pruner_pid : Z;
  last_prune : Z;
  last_try : Z;
  got_sigchld : bool;
  sconf : sbd_conf;
  files : gmap string string;
  soutbox : list sbd_out;
  strace : list (syscall * Z)
}.

Definition sbd_eta (x : sbd) : sbd :=   mk_sbd (sjobs x) (sbd_job_list x) (sbd_mbd_chan x)
    (pruner_pid x) (last_prune x) (last_try x) (got_sigchld x) (sconf x) (files x) (soutbox x)
    (strace x).
#[export] Instance set_sjobs : Setter sjobs. Proof. setter sbd_eta. Defined.
#[export] Instance set_sbd_job_list : Setter sbd_job_list. Proof. setter sbd_eta. Defined.
#[export] Instance set_sbd_mbd_chan : Setter sbd_mbd_chan. Proof. setter sbd_eta. Defined.
#[export] Instance set_pruner_pid : Setter pruner_pid. Proof. setter sbd_eta. Defined.
#[export] Instance set_last_prune : Setter last_prune. Proof. setter sbd_eta. Defined.
#[export] Instance set_last_try : Setter last_try. Proof. setter sbd_eta. Defined.
#[export] Instance set_got_sigchld : Setter got_sigchld. Proof. setter sbd_eta. Defined.
#[export] Instance set_sconf : Setter sconf. Proof. setter sbd_eta. Defined.
#[export] Instance set_files : Setter files. Proof. setter sbd_eta. Defined.
#[export] Instance set_soutbox : Setter soutbox. Proof. setter sbd_eta. Defined.
#[export] Instance set_strace : Setter strace. Proof. setter sbd_eta. Defined.

(** ** The monad of the handlers

    A handler runs on the state and returns or ends the process; the state at
    the end of the process is kept, since the files in it survive. *)

Inductive sbd_end : Type :=
  | SBD_FATAL_STORAGE
  | SBD_FATAL_INVARIANT
  | SBD_FATAL_ENQUEUE
  | SbdAssertFailed
  | SbdNullDeref
  | SbdAbort.

#[export] Instance sbd_end_eq_dec : EqDecision sbd_end.
Proof. solve_decision. Defined.

Inductive outcome (A : Type) : Type :=
  | Ret (a : A)
  | Exit (c : sbd_end).
Arguments Ret {A} a.
Arguments Exit {A} c.

Definition sM (A : Type) : Type := sbd -> outcome A * sbd.

Definition ret {A} (a : A) : sM A := fun s => (Ret a, s).

Definition sbind {A B} (m : sM A) (k : A -> sM B) : sM B :=
  fun s => match m s with
           | (Ret a, s') => k a s'
           | (Exit c, s') => (Exit c, s')
           end.

Notation "'let!' x ':=' m 'in' k" := (sbind m (fun x => k))
  (at level 10, x pattern, m at level 100, k at level 200,
   format "'let!'  x  ':='  m  'in' '//' k") : lava_scope.

Definition gets {A} (f : sbd -> A) : sM A := fun s => (Ret (f s), s).

Definition modify (f : sbd -> sbd) : sM unit := fun s => (Ret tt, f s).

Definition sbd_fatal {A} (c : sbd_end) : sM A := fun s => (Exit c, s).

Definition s_assert (b : bool) : sM unit :=
  if b then ret tt else sbd_fatal SbdAssertFailed.

(** The record a job pointer points to. *)
Definition get_job (id : Z) : sM sbd_job :=
  fun s => match sjobs s !! id with
           | Some j => (Ret j, s)
           | None => (Exit SbdNullDeref, s)
           end.

Definition upd_sjob (id : Z) (f : sbd_job -> sbd_job) : sM unit :=
  modify (fun s => s <| sjobs ::= alter f id |>).

(** [for (e = sbd_job_list.head; e; e = e->next)]: no body changes the list. *)
Fixpoint s_iter {A} (f : A -> sM unit) (l : list A) : sM unit :=
  match l with
  | [] => ret tt
  | x :: l' => let! _ := f x in s_iter f l'
  end.

Definition for_jobs (f : Z -> sM unit) : sM unit :=
  let! l := gets sbd_job_list in s_iter f l.

(** One system call. *)
Definition sys_call (e : senv) (c : syscall) : sM Z :=
  fun s => let r := sys e c (length (strace s)) in
           (Ret r, s <| strace ::= fun l => l ++ [(c, r)] |>).

(** A call that succeeds with 0. *)
Definition sys_ok (e : senv) (c : syscall) : sM bool :=
  let! r := sys_call e c in ret (r =? 0).

(** ** Reasoning about handlers

    [swp m Q E s]: run from [s], the handler [m] returns in a state related by
    [Q], or ends the process in a state related by [E]. *)

Definition swp {A} (m : sM A) (Q : A -> sbd -> Prop) (E : sbd_end -> sbd -> Prop) (s : sbd) : Prop :=
  match m s with
  | (Ret a, s') => Q a s'
  | (Exit c, s') => E c s'
  end.

Lemma swp_bind {A B} (m : sM A) (k : A -> sM B) Q E s :
  swp m (fun a s' => swp (k a) Q E s') E s -> swp (sbind m k) Q E s.
Proof. unfold swp, sbind. destruct (m s) as [[a|c] s']; done. Qed.

Lemma swp_mono {A} (m : sM A) (Q Q' : A -> sbd -> Prop) (E E' : sbd_end -> sbd -> Prop) s :
  swp m Q E s -> (forall a s', Q a s' -> Q' a s') -> (forall c s', E c s' -> E' c s') ->
  swp m Q' E' s.
Proof. unfold swp. destruct (m s) as [[a|c] s']; eauto. Qed.

Lemma swp_and {A} (m : sM A) Q1 Q2 E1 E2 s :
  swp m Q1 E1 s -> swp m Q2 E2 s ->
  swp m (fun a s' => Q1 a s' /\ Q2 a s') (fun c s' => E1 c s' /\ E2 c s') s.
Proof. unfold swp. destruct (m s) as [[a|c] s']; auto. Qed.

Lemma swp_iter {A} (f : A -> sM unit) (P : list A -> sbd -> Prop) E l s :
  P l s ->
  (forall x l' s, P (x :: l') s -> swp (f x) (fun _ s' => P l' s') E s) ->
  swp (s_iter f l) (fun _ s' => P [] s') E s.
Proof.
  intros HP Hstep. revert s HP. induction l as [|x l IH]; intros s HP; cbn; [done|].
  apply swp_bind. eapply swp_mono; [by apply Hstep|cbn; intros _ s'; apply IH|done].
Qed.

Lemma swp_for_jobs (f : Z -> sM unit) (P : list Z -> sbd -> Prop) E s :
  P (sbd_job_list s) s ->
  (forall x l' s, P (x :: l') s -> swp (f x) (fun _ s' => P l' s') E s) ->
  swp (for_jobs f) (fun _ s' => P [] s') E s.
Proof. intros HP Hstep. unfold for_jobs, gets, swp, sbind. by apply (swp_iter f P). Qed.
