(* ===== verification/Wire.v ===== *)
(** * Messages on the wire (batch/lib/wire.c, base/lib/ll.protocol.c)

    Every struct that travels between the daemons and the clients, with the XDR
    function that encodes and decodes it, and the framing of a message with its
    header.  A [char] buffer of a struct is the list of its bytes. *)

From S2P Require Import Prelude CString MbdTypes MbdBase MbdJob MbdSched SbdTypes.

Open Scope list_scope.
Open Scope Z_scope.

(** ** Codecs

    An XDR function works in both directions: [put] is what it writes when the
    stream encodes, [get] what it reads when the stream decodes, with the rest of the
    stream, and [None] for a return of FALSE; [fits] says which values its C type
    holds. *)
Record codec (A : Type) : Type := mk_codec {
  put : A -> list Z;
  get : list Z -> option (A * list Z);
  fits : A -> bool
}.
Arguments mk_codec {A}.
Arguments put {A}.
Arguments get {A}.
Arguments fits {A}.

(** Decoding yields what was encoded and leaves the rest; what is cut short is refused. *)
Record codec_ok {A} (c : codec A) : Prop := mk_codec_ok {
  co_get : forall a rest, fits c a = true -> get c (put c a ++ rest) = Some (a, rest);
  co_cut : forall a p q, fits c a = true -> put c a = p ++ q -> q <> [] -> get c p = None
}.

(** ** The XDR library

    The library the code links against (RPC) is a parameter.  [XdrLaws] states what
    its documentation (RFC 4506) says of the functions the code calls: which values
    they carry, that they are their own inverse, that they refuse a short stream, and
    how many bytes they take, always a multiple of four. *)
Definition INT32_MAX : Z := 2 ^ 31 - 1.
Definition UINT32_MAX : Z := 2 ^ 32 - 1.

Definition is_byte (b : Z) : bool := (0 <=? b) && (b <? 256).

(** The bytes an opaque of [n] bytes takes. *)
Definition round4 (n : nat) : nat := Nat.mul 4 ((n + 3) / 4).

(** Bytes of a C string: no NUL among them. *)
Definition is_text (s : list Z) : bool := forallb (fun b => is_byte b && negb (b =? 0)) s.

Class XdrLib : Type := {
  xdr_int32_t : codec Z;
  xdr_uint32_t : codec Z;
  xdr_int64_t : codec Z;
  xdr_uint64_t : codec Z;
  xdr_double : codec Z;
  xdr_opaque : nat -> codec (list Z);
  xdr_bytes : Z -> codec (list Z);
  xdr_wrapstring : codec (list Z);
  xdr_array : forall {A}, Z -> codec A -> codec (list A)
}.

Class XdrLaws `{XdrLib} : Prop := {
  int32_ok : codec_ok xdr_int32_t;
  int32_fits : forall z, fits xdr_int32_t z = is_i32 z;
  int32_size : forall z, fits xdr_int32_t z = true -> length (put xdr_int32_t z) = 4%nat;
  uint32_ok : codec_ok xdr_uint32_t;
  uint32_fits : forall z, fits xdr_uint32_t z = is_u32 z;
  uint32_size : forall z, fits xdr_uint32_t z = true -> length (put xdr_uint32_t z) = 4%nat;
  int64_ok : codec_ok xdr_int64_t;
  int64_fits : forall z, fits xdr_int64_t z = is_i64 z;
  int64_size : forall z, fits xdr_int64_t z = true -> length (put xdr_int64_t z) = 8%nat;
  uint64_ok : codec_ok xdr_uint64_t;
  uint64_fits : forall z, fits xdr_uint64_t z = is_u64 z;
  uint64_size : forall z, fits xdr_uint64_t z = true -> length (put xdr_uint64_t z) = 8%nat;
  double_ok : codec_ok xdr_double;
  double_fits : forall z, fits xdr_double z = is_u64 z;
  double_size : forall z, fits xdr_double z = true -> length (put xdr_double z) = 8%nat;
  opaque_ok : forall n, codec_ok (xdr_opaque n);
  opaque_fits : forall n s, fits (xdr_opaque n) s = (length s =? n)%nat && forallb is_byte s;
  opaque_size : forall n s, fits (xdr_opaque n) s = true -> length (put (xdr_opaque n) s) = round4 n;
  bytes_ok : forall max, codec_ok (xdr_bytes max);
  bytes_fits : forall max s, 0 <= max <= UINT32_MAX ->
    fits (xdr_bytes max) s = (Z.of_nat (length s) <=? max) && forallb is_byte s;
  bytes_size : forall max s, fits (xdr_bytes max) s = true ->
    length (put (xdr_bytes max) s) = (4 + round4 (length s))%nat;
  string_ok : codec_ok xdr_wrapstring;
  string_fits : forall s, fits xdr_wrapstring s = (Z.of_nat (length s) <=? UINT32_MAX) && is_text s;
  string_size : forall s, fits xdr_wrapstring s = true -> length (put xdr_wrapstring s) = (4 + round4 (length s))%nat;
  array_ok : forall A max (c : codec A), codec_ok c -> codec_ok (xdr_array max c);
  array_fits : forall A max (c : codec A) l, 0 <= max <= UINT32_MAX ->
    fits (xdr_array max c) l = (Z.of_nat (length l) <=? max) && forallb (fits c) l;
  array_size : forall A max (c : codec A) l, fits (xdr_array max c) l = true ->
    length (put (xdr_array max c) l) = (4 + sum_list_with (fun a => length (put c a)) l)%nat
}.

(** ** Structs field by field

    [struct (fields mk <+> c1 @ f1 <+> c2 @ f2)] is the C function that calls [c1] on
    the field [f1], then [c2] on [f2], and returns FALSE at the first that fails. *)
Record builder (R A : Type) : Type := mk_builder {
  bput : R -> list Z;
  bget : list Z -> option (A * list Z);
  bfits : R -> bool;
  bval : R -> A
}.
Arguments mk_builder {R A}.
Arguments bput {R A}.
Arguments bget {R A}.
Arguments bfits {R A}.
Arguments bval {R A}.

Definition fields {R A} (a : A) : builder R A :=
  mk_builder (fun _ => []) (fun s => Some (a, s)) (fun _ => true) (fun _ => a).

Definition with_field {R A B} (b : builder R (A -> B)) (c : codec A) (f : R -> A) : builder R B :=
  mk_builder (fun r => bput b r ++ put c (f r))
    (fun s => match bget b s with
              | None => None
              | Some (g, s) => match get c s with None => None | Some (a, s) => Some (g a, s) end
              end)
    (fun r => bfits b r && fits c (f r))
    (fun r => bval b r (f r)).

Notation "b '<+>' c '@' f" := (with_field b c f) (at level 50, c at level 9, f at level 9, left associativity) : lava_scope.

Definition struct {R} (b : builder R R) : codec R := mk_codec (bput b) (bget b) (bfits b).

Record builder_ok {R A} (b : builder R A) : Prop := mk_builder_ok {
  bo_get : forall r rest, bfits b r = true -> bget b (bput b r ++ rest) = Some (bval b r, rest);
  bo_cut : forall r p q, bfits b r = true -> bput b r = p ++ q -> q <> [] -> bget b p = None
}.

Lemma fields_ok {R A} (a : A) : builder_ok (@fields R A a).
Proof. split; [done|]. intros r p q _ H Hq. by apply eq_sym, app_eq_nil in H as [_ ->]. Qed.

Lemma field_ok {R A B} (b : builder R (A -> B)) (c : codec A) f :
  builder_ok b -> codec_ok c -> builder_ok (b <+> c @ f).
Proof.
  intros [B1 B2] [C1 C2]. split; cbn.
  - intros r rest [H1 H2]%andb_prop. by rewrite <- app_assoc, B1, C1.
  - intros r p q [H1 H2]%andb_prop Hpq Hq. apply app_eq_inv in Hpq as [(k & Hk & ->)|(k & -> & Hk)].
    + destruct k as [|z k].
      * rewrite app_nil_r in Hk. rewrite <- (app_nil_r p), <- Hk, B1 by done.
        by rewrite (C2 (f r) [] (put c (f r))).
      * by rewrite (B2 r p (z :: k)).
    + rewrite B1 by done. by rewrite (C2 (f r) k q).
Qed.

Lemma struct_ok {R} (b : builder R R) : builder_ok b -> (forall r, bval b r = r) -> codec_ok (struct b).
Proof.
  intros [B1 B2] V. split; cbn.
  - intros a rest Ha. by rewrite B1, V.
  - intros a p q Ha. by apply B2.
Qed.

(** ** The structs

    The fields are in the order of the wire; [sig_uid] of [wire_job_sig] is not among
    them, mbd fills it in from the header.  A pointer with its count is a list. *)

Record wire_sbd_job : Type := mk_wire_sbd_job {
  wsj_job_id : Z;
  wsj_pid : Z
}.

Record wire_sbd_register : Type := mk_wire_sbd_register {
  wreg_hostname : list Z;
  wreg_jobs : list wire_sbd_job
}.

Record wire_job_state : Type := mk_wire_job_state {
  wjs_job_id : Z;
  wjs_state : Z
}.

Record wire_job_finish : Type := mk_wire_job_finish {
  wfin_job_id : Z;
  wfin_state : Z;
  wfin_exit_status : Z;
  wfin_pid : Z;
  wfin_mem_mb : Z;
  wfin_swap_mb : Z;
  wfin_cpu_time : Z
}.

Record wire_job_script : Type := mk_wire_job_script {
  wscr_data : list Z
}.

Record wire_job_sig : Type := mk_wire_job_sig {
  wsig_job_id : Z;
  wsig_array_index : Z;
  wsig_sig : Z
}.

Record wire_job_submit : Type := mk_wire_job_submit {
  wsub_name : list Z;
  wsub_queue : list Z;
  wsub_project : list Z;
  wsub_comment : list Z;
  wsub_machines : list Z;
  wsub_in_file : list Z;
  wsub_out_file : list Z;
  wsub_err_file : list Z;
  wsub_cwd : list Z;
  wsub_depend_cond : list Z;
  wsub_command : list Z;
  wsub_gpu_model : list Z;
  wsub_submit_host : list Z;
  wsub_username : list Z;
  wsub_home_dir : list Z;
  wsub_tokenpool : list Z;
  wsub_num_cpus : Z;
  wsub_num_hosts : Z;
  wsub_num_gpus : Z;
  wsub_mem_mb : Z;
  wsub_storage_mb : Z;
  wsub_umask : Z;
  wsub_flags : Z;
  wsub_begin_time : Z;
  wsub_term_time : Z;
  wsub_susp_time : Z;
  wsub_resume_time : Z;
  wsub_array_start : Z;
  wsub_array_end : Z;
  wsub_array_stride : Z
}.

Record wire_job_submit_reply : Type := mk_wire_job_submit_reply {
  wsr_job_id : Z
}.

Record wire_job_info_req : Type := mk_wire_job_info_req {
  wreq_job_id : Z;
  wreq_flags : Z
}.

Record wire_job_info : Type := mk_wire_job_info {
  wji_job_id : Z;
  wji_array_id : Z;
  wji_array_index : Z;
  wji_uid : Z;
  wji_pid : Z;
  wji_state : Z;
  wji_exit_status : Z;
  wji_priority : Z;
  wji_pend_reason : Z;
  wji_submit_time : Z;
  wji_dispatch_time : Z;
  wji_end_time : Z;
  wji_susp_time : Z;
  wji_name : list Z;
  wji_queue : list Z;
  wji_submit_host : list Z;
  wji_run_hosts : list Z;
  wji_comment : list Z
}.

Record wire_job_info_array : Type := mk_wire_job_info_array {
  wjia_jobs : list wire_job_info
}.

Record wire_job_start : Type := mk_wire_job_start {
  wst_job_id : Z;
  wst_uid : Z;
  wst_gid : Z;
  wst_umask : Z;
  wst_job_name : list Z;
  wst_queue : list Z;
  wst_username : list Z;
  wst_home_dir : list Z;
  wst_cwd : list Z;
  wst_command : list Z;
  wst_in_file : list Z;
  wst_out_file : list Z;
  wst_err_file : list Z;
  wst_hosts : list Z;
  wst_term_time : Z;
  wst_gpus_per_host : Z;
  wst_ncpus : Z;
  wst_mem_mb : Z;
  wst_gpu_model : list Z;
  wst_script : wire_job_script;
  wst_gpu_assigned : list Z
}.

Record wire_job_reply : Type := mk_wire_job_reply {
  wrep_job_id : Z;
  wrep_pid : Z;
  wrep_pgid : Z;
  wrep_state : Z
}.

Record wire_host_info : Type := mk_wire_host_info {
  whi_name : list Z;
  whi_state : Z;
  whi_total_cpu : Z;
  whi_free_cpu : Z;
  whi_total_gpu : Z;
  whi_free_gpu : Z;
  whi_total_mem_mb : Z;
  whi_free_mem_mb : Z;
  whi_total_storage_mb : Z;
  whi_free_storage_mb : Z;
  whi_num_jobs : Z;
  whi_num_run : Z;
  whi_num_susp : Z;
  whi_gpu_model : list Z;
  whi_gpu_ids : list Z
}.

Record wire_host_info_array : Type := mk_wire_host_info_array {
  whia_hosts : list wire_host_info
}.

Record wire_host_admin : Type := mk_wire_host_admin {
  wha_name : list Z;
  wha_op : Z
}.

Record wire_queue_info : Type := mk_wire_queue_info {
  wqi_name : list Z;
  wqi_description : list Z;
  wqi_hosts : list (list Z);
  wqi_users : list (list Z);
  wqi_priority : Z;
  wqi_max_jobs : Z;
  wqi_num_jobs : Z;
  wqi_num_pend : Z;
  wqi_num_run : Z;
  wqi_num_susp : Z;
  wqi_num_held : Z;
  wqi_num_cpus_used : Z;
  wqi_num_hosts_used : Z;
  wqi_status : Z
}.

Record wire_queue_admin : Type := mk_wire_queue_admin {
  wqa_name : list Z;
  wqa_op : Z
}.

Record wire_queue_info_array : Type := mk_wire_queue_info_array {
  wqia_queues : list wire_queue_info
}.

Record wire_group_info : Type := mk_wire_group_info {
  wgi_name : list Z;
  wgi_num_members : Z;
  wgi_members : list Z
}.

Record wire_group_info_array : Type := mk_wire_group_info_array {
  wgia_groups : list wire_group_info
}.

Record wire_job_ack : Type := mk_wire_job_ack {
  wack_job_id : Z;
  wack_ack_op : Z
}.

Record wire_token_info : Type := mk_wire_token_info {
  wti_name : list Z;
  wti_total : Z;
  wti_free : Z
}.

Record wire_token_info_array : Type := mk_wire_token_info_array {
  wtia_tokens : list wire_token_info
}.

Record wire_job_move : Type := mk_wire_job_move {
  wmv_job_id : Z;
  wmv_to_queue : list Z
}.

Record wire_job_priority : Type := mk_wire_job_priority {
  wpr_job_id : Z;
  wpr_priority : Z
}.

Record wire_job_query : Type := mk_wire_job_query {
  wq_job_id : Z;
  wq_array_id : Z;
  wq_array_index : Z;
  wq_flags : Z;
  wq_uid : Z
}.

(** ** Their XDR functions *)

Section wire.
Context `{XdrLib}.

Definition xdr_wire_sbd_job : codec wire_sbd_job :=
  struct (fields mk_wire_sbd_job
    <+> xdr_int64_t @ wsj_job_id
    <+> xdr_int32_t @ wsj_pid).

Definition xdr_wire_sbd_register : codec wire_sbd_register :=
  struct (fields mk_wire_sbd_register
    <+> (xdr_opaque MAXHOSTNAMELEN) @ wreg_hostname
    <+> (xdr_array INT32_MAX xdr_wire_sbd_job) @ wreg_jobs).

Definition xdr_wire_job_state : codec wire_job_state :=
  struct (fields mk_wire_job_state
    <+> xdr_int64_t @ wjs_job_id
    <+> xdr_int32_t @ wjs_state).

Definition xdr_wire_job_finish : codec wire_job_finish :=
  struct (fields mk_wire_job_finish
    <+> xdr_int64_t @ wfin_job_id
    <+> xdr_int32_t @ wfin_state
    <+> xdr_int32_t @ wfin_exit_status
    <+> xdr_int32_t @ wfin_pid
    <+> xdr_uint64_t @ wfin_mem_mb
    <+> xdr_uint64_t @ wfin_swap_mb
    <+> xdr_double @ wfin_cpu_time).

Definition xdr_wire_job_script : codec wire_job_script :=
  struct (fields mk_wire_job_script
    <+> (xdr_bytes UINT32_MAX) @ wscr_data).

Definition xdr_wire_job_sig : codec wire_job_sig :=
  struct (fields mk_wire_job_sig
    <+> xdr_int64_t @ wsig_job_id
    <+> xdr_int32_t @ wsig_array_index
    <+> xdr_int32_t @ wsig_sig).

Definition xdr_wire_job_submit : codec wire_job_submit :=
  struct (fields mk_wire_job_submit
    <+> (xdr_opaque LL_BUFSIZ_256) @ wsub_name
    <+> (xdr_opaque LL_BUFSIZ_256) @ wsub_queue
    <+> (xdr_opaque LL_BUFSIZ_64) @ wsub_project
    <+> (xdr_opaque LL_BUFSIZ_1K) @ wsub_comment
    <+> (xdr_opaque LL_BUFSIZ_4K) @ wsub_machines
    <+> (xdr_opaque PATH_MAX) @ wsub_in_file
    <+> (xdr_opaque PATH_MAX) @ wsub_out_file
    <+> (xdr_opaque PATH_MAX) @ wsub_err_file
    <+> (xdr_opaque PATH_MAX) @ wsub_cwd
    <+> (xdr_opaque LL_BUFSIZ_4K) @ wsub_depend_cond
    <+> (xdr_opaque PATH_MAX) @ wsub_command
    <+> (xdr_opaque LL_BUFSIZ_256) @ wsub_gpu_model
    <+> (xdr_opaque MAXHOSTNAMELEN) @ wsub_submit_host
    <+> (xdr_opaque LL_BUFSIZ_256) @ wsub_username
    <+> (xdr_opaque PATH_MAX) @ wsub_home_dir
    <+> (xdr_opaque LL_BUFSIZ_256) @ wsub_tokenpool
    <+> xdr_int32_t @ wsub_num_cpus
    <+> xdr_int32_t @ wsub_num_hosts
    <+> xdr_int32_t @ wsub_num_gpus
    <+> xdr_uint64_t @ wsub_mem_mb
    <+> xdr_uint64_t @ wsub_storage_mb
    <+> xdr_uint32_t @ wsub_umask
    <+> xdr_uint32_t @ wsub_flags
    <+> xdr_int64_t @ wsub_begin_time
    <+> xdr_int64_t @ wsub_term_time
    <+> xdr_int64_t @ wsub_susp_time
    <+> xdr_int64_t @ wsub_resume_time
    <+> xdr_int32_t @ wsub_array_start
    <+> xdr_int32_t @ wsub_array_end
    <+> xdr_int32_t @ wsub_array_stride).

Definition xdr_wire_job_submit_reply : codec wire_job_submit_reply :=
  struct (fields mk_wire_job_submit_reply
    <+> xdr_int64_t @ wsr_job_id).

Definition xdr_wire_job_info_req : codec wire_job_info_req :=
  struct (fields mk_wire_job_info_req
    <+> xdr_int64_t @ wreq_job_id
    <+> xdr_int32_t @ wreq_flags).

Definition xdr_wire_job_info : codec wire_job_info :=
  struct (fields mk_wire_job_info
    <+> xdr_int64_t @ wji_job_id
    <+> xdr_int64_t @ wji_array_id
    <+> xdr_int32_t @ wji_array_index
    <+> xdr_uint32_t @ wji_uid
    <+> xdr_int32_t @ wji_pid
    <+> xdr_int32_t @ wji_state
    <+> xdr_int32_t @ wji_exit_status
    <+> xdr_int32_t @ wji_priority
    <+> xdr_int32_t @ wji_pend_reason
    <+> xdr_int64_t @ wji_submit_time
    <+> xdr_int64_t @ wji_dispatch_time
    <+> xdr_int64_t @ wji_end_time
    <+> xdr_int64_t @ wji_susp_time
    <+> (xdr_opaque LL_BUFSIZ_64) @ wji_name
    <+> (xdr_opaque LL_BUFSIZ_64) @ wji_queue
    <+> (xdr_opaque MAXHOSTNAMELEN) @ wji_submit_host
    <+> (xdr_opaque LL_BUFSIZ_4K) @ wji_run_hosts
    <+> (xdr_opaque LL_BUFSIZ_512) @ wji_comment).

Definition xdr_wire_job_info_array : codec wire_job_info_array :=
  struct (fields mk_wire_job_info_array
    <+> (xdr_array INT32_MAX xdr_wire_job_info) @ wjia_jobs).

Definition xdr_wire_job_start : codec wire_job_start :=
  struct (fields mk_wire_job_start
    <+> xdr_int64_t @ wst_job_id
    <+> xdr_uint32_t @ wst_uid
    <+> xdr_uint32_t @ wst_gid
    <+> xdr_uint32_t @ wst_umask
    <+> (xdr_opaque LL_BUFSIZ_256) @ wst_job_name
    <+> (xdr_opaque LL_BUFSIZ_64) @ wst_queue
    <+> (xdr_opaque LL_BUFSIZ_64) @ wst_username
    <+> (xdr_opaque PATH_MAX) @ wst_home_dir
    <+> (xdr_opaque PATH_MAX) @ wst_cwd
    <+> (xdr_opaque LL_BUFSIZ_512) @ wst_command
    <+> (xdr_opaque PATH_MAX) @ wst_in_file
    <+> (xdr_opaque PATH_MAX) @ wst_out_file
    <+> (xdr_opaque PATH_MAX) @ wst_err_file
    <+> (xdr_opaque LL_BUFSIZ_8K) @ wst_hosts
    <+> xdr_int64_t @ wst_term_time
    <+> xdr_int32_t @ wst_gpus_per_host
    <+> xdr_int32_t @ wst_ncpus
    <+> xdr_uint64_t @ wst_mem_mb
    <+> (xdr_opaque LL_BUFSIZ_64) @ wst_gpu_model
    <+> xdr_wire_job_script @ wst_script
    <+> (xdr_opaque LL_BUFSIZ_64) @ wst_gpu_assigned).

Definition xdr_wire_job_reply : codec wire_job_reply :=
  struct (fields mk_wire_job_reply
    <+> xdr_int64_t @ wrep_job_id
    <+> xdr_int32_t @ wrep_pid
    <+> xdr_int32_t @ wrep_pgid
    <+> xdr_int32_t @ wrep_state).

Definition xdr_wire_host_info : codec wire_host_info :=
  struct (fields mk_wire_host_info
    <+> (xdr_opaque MAXHOSTNAMELEN) @ whi_name
    <+> xdr_int32_t @ whi_state
    <+> xdr_int32_t @ whi_total_cpu
    <+> xdr_int32_t @ whi_free_cpu
    <+> xdr_int32_t @ whi_total_gpu
    <+> xdr_int32_t @ whi_free_gpu
    <+> xdr_uint64_t @ whi_total_mem_mb
    <+> xdr_uint64_t @ whi_free_mem_mb
    <+> xdr_uint64_t @ whi_total_storage_mb
    <+> xdr_uint64_t @ whi_free_storage_mb
    <+> xdr_int32_t @ whi_num_jobs
    <+> xdr_int32_t @ whi_num_run
    <+> xdr_int32_t @ whi_num_susp
    <+> (xdr_opaque LL_BUFSIZ_64) @ whi_gpu_model
    <+> (xdr_opaque LL_BUFSIZ_64) @ whi_gpu_ids).

Definition xdr_wire_host_info_array : codec wire_host_info_array :=
  struct (fields mk_wire_host_info_array
    <+> (xdr_array INT32_MAX xdr_wire_host_info) @ whia_hosts).

Definition xdr_wire_host_admin : codec wire_host_admin :=
  struct (fields mk_wire_host_admin
    <+> (xdr_opaque MAXHOSTNAMELEN) @ wha_name
    <+> xdr_int32_t @ wha_op).

Definition xdr_wire_queue_info : codec wire_queue_info :=
  struct (fields mk_wire_queue_info
    <+> (xdr_opaque LL_BUFSIZ_64) @ wqi_name
    <+> (xdr_opaque LL_BUFSIZ_256) @ wqi_description
    <+> (xdr_array INT32_MAX xdr_wrapstring) @ wqi_hosts
    <+> (xdr_array INT32_MAX xdr_wrapstring) @ wqi_users
    <+> xdr_int32_t @ wqi_priority
    <+> xdr_int32_t @ wqi_max_jobs
    <+> xdr_int32_t @ wqi_num_jobs
    <+> xdr_int32_t @ wqi_num_pend
    <+> xdr_int32_t @ wqi_num_run
    <+> xdr_int32_t @ wqi_num_susp
    <+> xdr_int32_t @ wqi_num_held
    <+> xdr_int32_t @ wqi_num_cpus_used
    <+> xdr_int32_t @ wqi_num_hosts_used
    <+> xdr_int32_t @ wqi_status).

Definition xdr_wire_queue_admin : codec wire_queue_admin :=
  struct (fields mk_wire_queue_admin
    <+> (xdr_opaque LL_BUFSIZ_64) @ wqa_name
    <+> xdr_int32_t @ wqa_op).

Definition xdr_wire_queue_info_array : codec wire_queue_info_array :=
  struct (fields mk_wire_queue_info_array
    <+> (xdr_array INT32_MAX xdr_wire_queue_info) @ wqia_queues).

Definition xdr_wire_group_info : codec wire_group_info :=
  struct (fields mk_wire_group_info
    <+> (xdr_opaque LL_BUFSIZ_64) @ wgi_name
    <+> xdr_int32_t @ wgi_num_members
    <+> (xdr_opaque LL_BUFSIZ_1K) @ wgi_members).

Definition xdr_wire_group_info_array : codec wire_group_info_array :=
  struct (fields mk_wire_group_info_array
    <+> (xdr_array INT32_MAX xdr_wire_group_info) @ wgia_groups).

Definition xdr_wire_job_ack : codec wire_job_ack :=
  struct (fields mk_wire_job_ack
    <+> xdr_int64_t @ wack_job_id
    <+> xdr_int32_t @ wack_ack_op).

Definition xdr_wire_token_info : codec wire_token_info :=
  struct (fields mk_wire_token_info
    <+> (xdr_opaque LL_BUFSIZ_64) @ wti_name
    <+> xdr_int32_t @ wti_total
    <+> xdr_int32_t @ wti_free).

Definition xdr_wire_token_info_array : codec wire_token_info_array :=
  struct (fields mk_wire_token_info_array
    <+> (xdr_array INT32_MAX xdr_wire_token_info) @ wtia_tokens).

Definition xdr_wire_job_move : codec wire_job_move :=
  struct (fields mk_wire_job_move
    <+> xdr_int64_t @ wmv_job_id
    <+> (xdr_opaque LL_BUFSIZ_64) @ wmv_to_queue).

Definition xdr_wire_job_priority : codec wire_job_priority :=
  struct (fields mk_wire_job_priority
    <+> xdr_int64_t @ wpr_job_id
    <+> xdr_int32_t @ wpr_priority).

Definition xdr_wire_job_query : codec wire_job_query :=
  struct (fields mk_wire_job_query
    <+> xdr_int64_t @ wq_job_id
    <+> xdr_int64_t @ wq_array_id
    <+> xdr_int32_t @ wq_array_index
    <+> xdr_int32_t @ wq_flags
    <+> xdr_int32_t @ wq_uid).

(** All of them, by type. *)
Inductive wire_type : Type :=
  | WSbdJob
  | WSbdRegister
  | WJobState
  | WJobFinish
  | WJobScript
  | WJobSig
  | WJobSubmit
  | WJobSubmitReply
  | WJobInfoReq
  | WJobInfo
  | WJobInfoArray
  | WJobStart
  | WJobReply
  | WHostInfo
  | WHostInfoArray
  | WHostAdmin
  | WQueueInfo
  | WQueueAdmin
  | WQueueInfoArray
  | WGroupInfo
  | WGroupInfoArray
  | WJobAck
  | WTokenInfo
  | WTokenInfoArray
  | WJobMove
  | WJobPriority
  | WJobQuery.

Definition wire_struct (t : wire_type) : Type :=
  match t with
  | WSbdJob => wire_sbd_job
  | WSbdRegister => wire_sbd_register
  | WJobState => wire_job_state
  | WJobFinish => wire_job_finish
  | WJobScript => wire_job_script
  | WJobSig => wire_job_sig
  | WJobSubmit => wire_job_submit
  | WJobSubmitReply => wire_job_submit_reply
  | WJobInfoReq => wire_job_info_req
  | WJobInfo => wire_job_info
  | WJobInfoArray => wire_job_info_array
  | WJobStart => wire_job_start
  | WJobReply => wire_job_reply
  | WHostInfo => wire_host_info
  | WHostInfoArray => wire_host_info_array
  | WHostAdmin => wire_host_admin
  | WQueueInfo => wire_queue_info
  | WQueueAdmin => wire_queue_admin
  | WQueueInfoArray => wire_queue_info_array
  | WGroupInfo => wire_group_info
  | WGroupInfoArray => wire_group_info_array
  | WJobAck => wire_job_ack
  | WTokenInfo => wire_token_info
  | WTokenInfoArray => wire_token_info_array
  | WJobMove => wire_job_move
  | WJobPriority => wire_job_priority
  | WJobQuery => wire_job_query
  end.

Definition xdr_wire (t : wire_type) : codec (wire_struct t) :=
  match t with
  | WSbdJob => xdr_wire_sbd_job
  | WSbdRegister => xdr_wire_sbd_register
  | WJobState => xdr_wire_job_state
  | WJobFinish => xdr_wire_job_finish
  | WJobScript => xdr_wire_job_script
  | WJobSig => xdr_wire_job_sig
  | WJobSubmit => xdr_wire_job_submit
  | WJobSubmitReply => xdr_wire_job_submit_reply
  | WJobInfoReq => xdr_wire_job_info_req
  | WJobInfo => xdr_wire_job_info
  | WJobInfoArray => xdr_wire_job_info_array
  | WJobStart => xdr_wire_job_start
  | WJobReply => xdr_wire_job_reply
  | WHostInfo => xdr_wire_host_info
  | WHostInfoArray => xdr_wire_host_info_array
  | WHostAdmin => xdr_wire_host_admin
  | WQueueInfo => xdr_wire_queue_info
  | WQueueAdmin => xdr_wire_queue_admin
  | WQueueInfoArray => xdr_wire_queue_info_array
  | WGroupInfo => xdr_wire_group_info
  | WGroupInfoArray => xdr_wire_group_info_array
  | WJobAck => xdr_wire_job_ack
  | WTokenInfo => xdr_wire_token_info
  | WTokenInfoArray => xdr_wire_token_info_array
  | WJobMove => xdr_wire_job_move
  | WJobPriority => xdr_wire_job_priority
  | WJobQuery => xdr_wire_job_query
  end.

(** *** Round trips *)

Context `{!XdrLaws}.

Ltac codec_laws :=
  repeat first
    [ apply int32_ok | apply uint32_ok | apply int64_ok | apply uint64_ok | apply double_ok
    | apply opaque_ok | apply bytes_ok | apply string_ok | apply array_ok
    | apply struct_ok; [|by intros []]
    | apply fields_ok | apply field_ok ].

Lemma xdr_wire_ok t : codec_ok (xdr_wire t).
Proof using Type*. destruct t; unfold xdr_wire; codec_laws. Qed.
End wire.

(** ** Framing (ll.protocol.c) *)

(** The fields in the order of the wire. *)
Record protocol_header : Type := mk_protocol_header {
  hdr_sequence : Z;
  hdr_version : Z;
  hdr_operation : Z;
  hdr_length : Z;
  hdr_status : Z;
  hdr_uid : Z;
  hdr_gid : Z;
  hdr_timestamp : Z;
  hdr_hmac : list Z
}.

Definition protocol_header_eta (x : protocol_header) : protocol_header :=
  mk_protocol_header (hdr_sequence x) (hdr_version x) (hdr_operation x) (hdr_length x) (hdr_status x)
    (hdr_uid x) (hdr_gid x) (hdr_timestamp x) (hdr_hmac x).
#[export] Instance set_hdr_sequence : Setter hdr_sequence. Proof. setter protocol_header_eta. Defined.
#[export] Instance set_hdr_version : Setter hdr_version. Proof. setter protocol_header_eta. Defined.
#[export] Instance set_hdr_operation : Setter hdr_operation. Proof. setter protocol_header_eta. Defined.
#[export] Instance set_hdr_length : Setter hdr_length. Proof. setter protocol_header_eta. Defined.
#[export] Instance set_hdr_status : Setter hdr_status. Proof. setter protocol_header_eta. Defined.
#[export] Instance set_hdr_uid : Setter hdr_uid. Proof. setter protocol_header_eta. Defined.
#[export] Instance set_hdr_gid : Setter hdr_gid. Proof. setter protocol_header_eta. Defined.
#[export] Instance set_hdr_timestamp : Setter hdr_timestamp. Proof. setter protocol_header_eta. Defined.
#[export] Instance set_hdr_hmac : Setter hdr_hmac. Proof. setter protocol_header_eta. Defined.

(** [sizeof(struct protocol_header)] *)
Definition PACKET_HEADER_SIZE : nat := 64.

Definition CURRENT_PROTOCOL_VERSION : Z := 131072.

Definition HMAC_SIZE : nat := 32.

Definition init_protocol_header : protocol_header :=
  mk_protocol_header 0 CURRENT_PROTOCOL_VERSION 0 0 0 0 0 0 (replicate HMAC_SIZE 0).

(** An encoding stream over memory: the buffer and the position in it. *)
Record xdrmem : Type := mk_xdrmem {
  xm_buf : list Z;
  xm_pos : nat
}.

Definition xdrmem_create (buf : list Z) : xdrmem := mk_xdrmem buf 0.

Definition xdr_getpos (x : xdrmem) : nat := xm_pos x.

(** A position past the end is refused. *)
Definition xdr_setpos (x : xdrmem) (pos : nat) : xdrmem :=
  if (pos <=? length (xm_buf x))%nat then mk_xdrmem (xm_buf x) pos else x.

(** The bytes written at the position, [None] when they do not fit. *)
Definition xdr_write (x : xdrmem) (bytes : list Z) : option xdrmem :=
  if (xm_pos x + length bytes <=? length (xm_buf x))%nat
  then Some (mk_xdrmem (take (xm_pos x) (xm_buf x) ++ bytes ++ drop (xm_pos x + length bytes) (xm_buf x))
               (xm_pos x + length bytes))
  else None.

Section protocol.
Context `{XdrLib}.

Definition xdr_pack_hdr : codec protocol_header :=
  struct (fields mk_protocol_header
    <+> xdr_int32_t @ hdr_sequence
    <+> xdr_int32_t @ hdr_version
    <+> xdr_int32_t @ hdr_operation
    <+> xdr_int32_t @ hdr_length
    <+> xdr_int32_t @ hdr_status
    <+> xdr_uint32_t @ hdr_uid
    <+> xdr_uint32_t @ hdr_gid
    <+> xdr_uint32_t @ hdr_timestamp
    <+> (xdr_opaque HMAC_SIZE) @ hdr_hmac).

(** A payload with its XDR function, written by a stream; the bytes a struct takes go
    to the stream one field after the other, which fails as soon as one does not fit. *)
Inductive payload : Type :=
  | Payload {A : Type} (c : codec A) (a : A).

Definition payload_bytes (p : payload) : list Z := match p with Payload c a => put c a end.

Definition write_payload (x : xdrmem) (p : option payload) : option xdrmem :=
  match p with None => Some x | Some p => xdr_write x (payload_bytes p) end.

(** The stream after the message and the header as sent; [None] is FALSE. *)
Definition encode_header (x : xdrmem) (hdr : protocol_header) : option (xdrmem * protocol_header) :=
  let hdr := hdr <| hdr_length := Z.of_nat (xdr_getpos x) - Z.of_nat PACKET_HEADER_SIZE |> in
  match xdr_write (xdr_setpos x 0) (put xdr_pack_hdr hdr) with
  | None => None
  | Some x => Some (xdr_setpos x (Z.to_nat (hdr_length hdr + Z.of_nat PACKET_HEADER_SIZE)), hdr)
  end.

Definition ll_encode_msg (x : xdrmem) (p : option payload) (hdr : protocol_header)
    : option (xdrmem * protocol_header) :=
  let x := xdr_setpos x PACKET_HEADER_SIZE in
  match write_payload x p with
  | None => None
  | Some x => encode_header x hdr
  end.

Definition ll_encode_msg2 (x : xdrmem) (hdr : protocol_header) (p p2 : option payload)
    : option (xdrmem * protocol_header) :=
  let x := xdr_setpos x PACKET_HEADER_SIZE in
  match write_payload x p with
  | None => None
  | Some x =>
      match write_payload x p2 with
      | None => None
      | Some x => encode_header x hdr
      end
  end.

(** The bytes that are sent: the buffer up to the position. *)
Definition sent_bytes (x : xdrmem) : list Z := take (xm_pos x) (xm_buf x).

Context `{!XdrLaws}.

Lemma pack_hdr_ok : codec_ok xdr_pack_hdr.
Proof using Type*.
  apply struct_ok; [|by intros []]. repeat first [apply int32_ok | apply uint32_ok | apply opaque_ok | apply fields_ok | apply field_ok].
Qed.

Lemma pack_hdr_size hdr : fits xdr_pack_hdr hdr = true -> length (put xdr_pack_hdr hdr) = PACKET_HEADER_SIZE.
Proof using Type*.
  cbn. intros Hf. repeat (apply andb_prop in Hf as [Hf ?]).
  rewrite !length_app, !int32_size, !uint32_size, opaque_size by done. done.
Qed.

(** Both encoders: the message is its header, with the length filled in, followed by
    the payloads, whenever the buffer has room. *)
Lemma encode_msg2_bytes buf hdr p p2 :
  let body := default [] (payload_bytes <$> p) ++ default [] (payload_bytes <$> p2) in
  let hdr' := hdr <| hdr_length := Z.of_nat (length body) |> in
  (PACKET_HEADER_SIZE + length body <= length buf)%nat -> fits xdr_pack_hdr hdr' = true ->
  exists x, ll_encode_msg2 (xdrmem_create buf) hdr p p2 = Some (x, hdr') /\
    xdr_getpos x = (PACKET_HEADER_SIZE + length body)%nat /\ sent_bytes x = put xdr_pack_hdr hdr' ++ body.
Proof using Type*.
  intros body hdr' Hlen Hf. unfold ll_encode_msg2, xdrmem_create, xdr_setpos at 1. cbn [xm_buf].
  set (b1 := default [] (payload_bytes <$> p)) in *. set (b2 := default [] (payload_bytes <$> p2)) in *.
  unfold body in *. rewrite length_app in Hlen.
  rewrite (proj2 (Nat.leb_le _ _)) by lia.
  assert (Hw : forall x q, let b := default [] (payload_bytes <$> q) in
    (xm_pos x + length b <= length (xm_buf x))%nat ->
    write_payload x q = Some (mk_xdrmem (take (xm_pos x) (xm_buf x) ++ b ++ drop (xm_pos x + length b) (xm_buf x)) (xm_pos x + length b))).
  { intros [bx px] q b Hb. destruct q as [q|]; cbn [write_payload].
    - unfold xdr_write. by rewrite (proj2 (Nat.leb_le _ _)).
    - cbn. rewrite Nat.add_0_r, take_drop. done. }
  rewrite Hw by (cbn [xm_pos xm_buf]; fold b1; lia). cbn [xm_pos xm_buf]. fold b1.
  set (buf1 := take PACKET_HEADER_SIZE buf ++ b1 ++ drop (PACKET_HEADER_SIZE + length b1) buf).
  assert (L1 : length buf1 = length buf).
  { unfold buf1. rewrite !length_app, length_take, length_drop. lia. }
  rewrite Hw by (cbn [xm_pos xm_buf]; fold b2; lia). cbn [xm_pos xm_buf]. fold b2.
  set (buf2 := take (PACKET_HEADER_SIZE + length b1) buf1 ++ b2 ++ drop (PACKET_HEADER_SIZE + length b1 + length b2) buf1).
  assert (L2 : length buf2 = length buf).
  { unfold buf2. rewrite !length_app, length_take, length_drop. lia. }
  unfold encode_header, xdr_getpos. cbn [xm_pos].
  replace (Z.of_nat (PACKET_HEADER_SIZE + length b1 + length b2) - Z.of_nat PACKET_HEADER_SIZE)
    with (Z.of_nat (length (b1 ++ b2))) by (rewrite length_app; lia).
  change (hdr <| hdr_length := Z.of_nat (length (b1 ++ b2)) |>) with hdr'.
  change (xdr_setpos (mk_xdrmem buf2 (PACKET_HEADER_SIZE + length b1 + length b2)) 0) with (mk_xdrmem buf2 0).
  pose proof (pack_hdr_size _ Hf) as Lh. set (hb := put xdr_pack_hdr hdr') in *. clearbody hb.
  unfold xdr_write. cbn [xm_pos xm_buf]. rewrite Lh, (proj2 (Nat.leb_le _ _)) by lia. cbn [take app Nat.add].
  unfold xdr_getpos, sent_bytes, xdr_setpos. cbn [xm_buf xm_pos]. rewrite take_0. cbn [app].
  replace (Z.to_nat (hdr_length hdr' + Z.of_nat PACKET_HEADER_SIZE)) with (PACKET_HEADER_SIZE + (length b1 + length b2))%nat.
  2: { change (hdr_length hdr') with (Z.of_nat (length (b1 ++ b2))). rewrite length_app. lia. }
  rewrite (proj2 (Nat.leb_le _ _)) by (rewrite length_app, Lh, length_drop; lia).
  eexists. split; [done|]. cbn [xm_buf xm_pos]. split; [by rewrite length_app|].
  rewrite take_app_ge by (rewrite Lh; lia). rewrite Lh. f_equal.
  replace (PACKET_HEADER_SIZE + (length b1 + length b2) - PACKET_HEADER_SIZE)%nat with (length b1 + length b2)%nat by lia.
  assert (D : drop PACKET_HEADER_SIZE (take (PACKET_HEADER_SIZE + length b1) buf1) = b1).
  { unfold buf1. rewrite <- take_drop_commute, drop_app_length', take_app_length' by (rewrite ?length_take; lia). done. }
  unfold buf2. rewrite drop_app_le, D, app_assoc by (rewrite length_take; lia). apply take_app_length'.
  rewrite length_app. lia.
Qed.
End protocol.
