(* ===== verification/WireXdr.v ===== *)
(** * An implementation of the XDR library

    Big-endian integers of four and eight bytes, opaque data padded to four, counted
    arrays: the format of RFC 4506, which shows that the laws asked of the library can
    be met and lets the messages be evaluated. *)

From S2P Require Import Prelude CString MbdTypes MbdBase MbdJob MbdSched SbdTypes Wire.

Open Scope list_scope.
Open Scope Z_scope.

(** ** Integers *)

Fixpoint be_put (n : nat) (z : Z) : list Z :=
  match n with
  | O => []
  | S n' => (z / 256 ^ Z.of_nat n') mod 256 :: be_put n' z
  end.

Fixpoint be_val (acc : Z) (s : list Z) : Z :=
  match s with [] => acc | b :: s' => be_val (acc * 256 + b) s' end.

Definition be_get (n : nat) (s : list Z) : option (Z * list Z) :=
  if (n <=? length s)%nat then Some (be_val 0 (take n s), drop n s) else None.

Lemma be_put_length n z : length (be_put n z) = n.
Proof. induction n; cbn; congruence. Qed.

Lemma be_val_put n acc z : be_val acc (be_put n z) = acc * 256 ^ Z.of_nat n + z mod 256 ^ Z.of_nat n.
Proof.
  revert acc. induction n as [|n IH]; intros acc; [cbn; rewrite Z.mod_1_r; lia|].
  cbn [be_put be_val]. rewrite IH. rewrite Nat2Z.inj_succ, Z.pow_succ_r by lia.
  rewrite (Z.mul_comm 256 (256 ^ Z.of_nat n)), (Z.rem_mul_r z (256 ^ Z.of_nat n) 256) by lia. lia.
Qed.

Lemma be_get_put n z rest : 0 <= z < 256 ^ Z.of_nat n -> be_get n (be_put n z ++ rest) = Some (z, rest).
Proof.
  intros Hz. unfold be_get. rewrite length_app, be_put_length, (proj2 (Nat.leb_le _ _)) by lia.
  rewrite take_app_length', drop_app_length' by by rewrite be_put_length. rewrite be_val_put, Z.mod_small by done. done.
Qed.

Lemma be_get_short n s : (length s < n)%nat -> be_get n s = None.
Proof. intros H. unfold be_get. by rewrite (proj2 (Nat.leb_gt _ _)). Qed.

(** A codec for integers of [n] bytes: [enc] maps them to [0, 256^n). *)
Definition int_codec (n : nat) (enc dec : Z -> Z) (ok : Z -> bool) : codec Z :=
  mk_codec (fun z => be_put n (enc z))
    (fun s => match be_get n s with None => None | Some (v, s) => Some (dec v, s) end) ok.

Lemma int_codec_ok n enc dec ok :
  (forall z, ok z = true -> 0 <= enc z < 256 ^ Z.of_nat n /\ dec (enc z) = z) -> codec_ok (int_codec n enc dec ok).
Proof.
  intros H. split; cbn.
  - intros z rest Hz. destruct (H z Hz) as [H1 H2]. by rewrite be_get_put, H2.
  - intros z p q Hz Hpq Hq. rewrite be_get_short; [done|].
    assert (Hl : length (p ++ q) = n) by by rewrite <- Hpq, be_put_length. rewrite length_app in Hl.
    destruct q; [done|]. cbn in Hl. lia.
Qed.

Definition signed (b : Z) (v : Z) : Z := if v <? 2 ^ (b - 1) then v else v - 2 ^ b.

Definition rfc_int32 : codec Z := int_codec 4 u32 (signed 32) is_i32.
Definition rfc_uint32 : codec Z := int_codec 4 id id is_u32.
Definition rfc_int64 : codec Z := int_codec 8 u64 (signed 64) is_i64.
Definition rfc_uint64 : codec Z := int_codec 8 id id is_u64.

Lemma signed_mod b z : 0 < b -> - 2 ^ (b - 1) <= z < 2 ^ (b - 1) -> signed b (z mod 2 ^ b) = z.
Proof.
  intros Hb Hz. unfold signed. assert (H2 : 2 ^ b = 2 * 2 ^ (b - 1)) by (rewrite <- Z.pow_succ_r by lia; f_equal; lia).
  destruct (Z.ltb_spec z 0).
  - assert (z mod 2 ^ b = z + 2 ^ b) as ->.
    { rewrite <- (Z.mod_small (z + 2 ^ b) (2 ^ b)) by lia. rewrite <- Zplus_mod_idemp_r, Z.mod_same, Z.add_0_r by lia. done. }
    destruct (Z.ltb_spec (z + 2 ^ b) (2 ^ (b - 1))); lia.
  - rewrite Z.mod_small by lia. destruct (Z.ltb_spec z (2 ^ (b - 1))); lia.
Qed.

Lemma rfc_int32_ok : codec_ok rfc_int32.
Proof.
  apply int_codec_ok. unfold is_i32, u32. intros z [H1 H2]%andb_prop. apply Z.leb_le in H1. apply Z.ltb_lt in H2.
  split; [apply Z.mod_pos_bound; lia|]. apply (signed_mod 32); lia.
Qed.

Lemma rfc_int64_ok : codec_ok rfc_int64.
Proof.
  apply int_codec_ok. unfold is_i64, u64. intros z [H1 H2]%andb_prop. apply Z.leb_le in H1. apply Z.ltb_lt in H2.
  split; [apply Z.mod_pos_bound; lia|]. apply (signed_mod 64); lia.
Qed.

Lemma rfc_uint32_ok : codec_ok rfc_uint32.
Proof.
  apply int_codec_ok. unfold is_u32. intros z [H1 H2]%andb_prop. apply Z.leb_le in H1. apply Z.ltb_lt in H2.
  split; [unfold id; lia|done].
Qed.

Lemma rfc_uint64_ok : codec_ok rfc_uint64.
Proof.
  apply int_codec_ok. unfold is_u64. intros z [H1 H2]%andb_prop. apply Z.leb_le in H1. apply Z.ltb_lt in H2.
  split; [unfold id; lia|done].
Qed.

(** ** Opaque data *)

Definition opaque_put (n : nat) (s : list Z) : list Z := s ++ replicate (round4 n - n) 0.

Definition opaque_get (n : nat) (s : list Z) : option (list Z * list Z) :=
  if (round4 n <=? length s)%nat then Some (take n s, drop (round4 n) s) else None.

Definition rfc_opaque (n : nat) : codec (list Z) :=
  mk_codec (opaque_put n) (opaque_get n) (fun s => (length s =? n)%nat && forallb is_byte s).

Lemma round4_ge n : (n <= round4 n)%nat.
Proof. unfold round4. pose proof (Nat.div_mod_eq (n + 3) 4). pose proof (Nat.mod_upper_bound (n + 3) 4). lia. Qed.

Lemma opaque_put_length n s : length s = n -> length (opaque_put n s) = round4 n.
Proof. intros Hs. unfold opaque_put. rewrite length_app, length_replicate. pose proof (round4_ge n). lia. Qed.

Lemma opaque_get_put n s rest : length s = n -> opaque_get n (opaque_put n s ++ rest) = Some (s, rest).
Proof.
  intros Hs. pose proof (opaque_put_length n s Hs) as L. unfold opaque_get.
  rewrite length_app, L, (proj2 (Nat.leb_le _ _)) by lia. rewrite drop_app_length' by done.
  unfold opaque_put. by rewrite <- app_assoc, take_app_length'.
Qed.

Lemma opaque_get_short n s : (length s < round4 n)%nat -> opaque_get n s = None.
Proof. intros H. unfold opaque_get. by rewrite (proj2 (Nat.leb_gt _ _)). Qed.

Lemma app_short {A} (p q : list A) : q <> [] -> (length p < length (p ++ q))%nat.
Proof. intros Hq. rewrite length_app. destruct q; [done|]. cbn. lia. Qed.

Lemma rfc_opaque_ok n : codec_ok (rfc_opaque n).
Proof.
  split; cbn.
  - intros s rest [H _]%andb_prop. apply Nat.eqb_eq in H. by apply opaque_get_put.
  - intros s p q [H _]%andb_prop Hpq Hq. apply Nat.eqb_eq in H. apply opaque_get_short.
    rewrite <- (opaque_put_length n s H), Hpq. by apply app_short.
Qed.

(** ** Counted data *)

(** A count up to [max] followed by what [g] reads for it. *)
Definition counted {A} (max : Z) (len : A -> nat) (p : A -> list Z) (g : nat -> list Z -> option (A * list Z))
    (ok : A -> bool) : codec A :=
  mk_codec (fun a => be_put 4 (Z.of_nat (len a)) ++ p a)
    (fun s => match be_get 4 s with
              | None => None
              | Some (n, s) => if max <? n then None else g (Z.to_nat n) s
              end)
    (fun a => (Z.of_nat (len a) <=? max) && (Z.of_nat (len a) <=? UINT32_MAX) && ok a).

Lemma counted_ok {A} max len (p : A -> list Z) g ok :
  (forall a rest, ok a = true -> g (len a) (p a ++ rest) = Some (a, rest)) ->
  (forall a u v, ok a = true -> p a = u ++ v -> v <> [] -> g (len a) u = None) ->
  codec_ok (counted max len p g ok).
Proof.
  intros Hg Hc. split; cbn -[be_put].
  - intros a rest [[H1 H2]%andb_prop H3]%andb_prop. apply Z.leb_le in H1, H2. unfold UINT32_MAX in H2.
    rewrite <- app_assoc, be_get_put by (cbn; lia). rewrite (proj2 (Z.ltb_ge max _)) by lia. rewrite Nat2Z.id. by apply Hg.
  - intros a u v [[H1 H2]%andb_prop H3]%andb_prop Huv Hv. apply Z.leb_le in H1, H2. unfold UINT32_MAX in H2.
    destruct (decide (length u < 4)%nat) as [Hs|Hl]; [by rewrite be_get_short|].
    apply app_eq_inv in Huv as [(k & Hk & ->)|(k & -> & Hk)].
    + assert (Hlen : length (u ++ k) = 4%nat) by by rewrite <- Hk, be_put_length.
      rewrite length_app in Hlen. destruct k as [|z k]; [|cbn in Hlen; lia]. rewrite app_nil_r in Hk. subst u.
      rewrite <- (app_nil_r (be_put 4 _)), be_get_put by (cbn; lia). rewrite (proj2 (Z.ltb_ge max _)) by lia. rewrite Nat2Z.id.
      by apply (Hc a [] (p a)).
    + rewrite be_get_put by (cbn; lia). rewrite (proj2 (Z.ltb_ge max _)) by lia. rewrite Nat2Z.id. by apply (Hc a k v).
Qed.

Definition rfc_bytes (max : Z) : codec (list Z) :=
  counted max (fun s => length s) (fun s => opaque_put (length s) s) opaque_get (forallb is_byte).

Definition rfc_string : codec (list Z) :=
  counted UINT32_MAX (fun s => length s) (fun s => opaque_put (length s) s) opaque_get is_text.

Fixpoint get_n {A} (c : codec A) (n : nat) (s : list Z) : option (list A * list Z) :=
  match n with
  | O => Some ([], s)
  | S n' => match get c s with
            | None => None
            | Some (a, s) => match get_n c n' s with None => None | Some (l, s) => Some (a :: l, s) end
            end
  end.

Definition rfc_array {A} (max : Z) (c : codec A) : codec (list A) :=
  counted max (fun l => length l) (fun l => concat (map (put c) l)) (get_n c) (forallb (fits c)).

Lemma get_n_put {A} (c : codec A) l rest :
  codec_ok c -> forallb (fits c) l = true -> get_n c (length l) (concat (map (put c) l) ++ rest) = Some (l, rest).
Proof.
  intros C. induction l as [|a l IH]; cbn; [done|]. intros [Ha Hl]%andb_prop.
  by rewrite <- app_assoc, (co_get c C), (IH Hl).
Qed.

Lemma get_n_cut {A} (c : codec A) l u v :
  codec_ok c -> forallb (fits c) l = true -> concat (map (put c) l) = u ++ v -> v <> [] -> get_n c (length l) u = None.
Proof.
  intros C. revert u. induction l as [|a l IH]; cbn; intros u.
  - intros _ H Hv. by apply eq_sym, app_eq_nil in H as [_ ->].
  - intros [Ha Hl]%andb_prop H Hv. apply app_eq_inv in H as [(k & Hk & ->)|(k & -> & Hk)].
    + destruct k as [|z k].
      * rewrite app_nil_r in Hk. subst u. rewrite <- (app_nil_r (put c a)), (co_get c C) by done.
        cbn in Hv. by rewrite (IH [] Hl).
      * by rewrite (co_cut c C a u (z :: k)).
    + rewrite (co_get c C) by done. by rewrite (IH k Hl).
Qed.

#[export] Instance rfc4506 : XdrLib := {
  xdr_int32_t := rfc_int32;
  xdr_uint32_t := rfc_uint32;
  xdr_int64_t := rfc_int64;
  xdr_uint64_t := rfc_uint64;
  xdr_double := rfc_uint64;
  xdr_opaque := rfc_opaque;
  xdr_bytes := rfc_bytes;
  xdr_wrapstring := rfc_string;
  xdr_array := fun A => @rfc_array A
}.

Lemma counted_size {A} max len (p : A -> list Z) g ok a :
  length (put (counted max len p g ok) a) = (4 + length (p a))%nat.
Proof. cbn -[be_put]. by rewrite length_app, be_put_length. Qed.

Lemma counted_fits {A} max len (p : A -> list Z) g ok a :
  0 <= max <= UINT32_MAX -> fits (counted max len p g ok) a = (Z.of_nat (len a) <=? max) && ok a.
Proof.
  intros Hm. cbn. destruct (Z.leb_spec (Z.of_nat (len a)) max) as [H|H]; [|done].
  by rewrite (proj2 (Z.leb_le _ UINT32_MAX)) by lia.
Qed.

Lemma rfc_bytes_ok max : codec_ok (rfc_bytes max).
Proof.
  apply counted_ok.
  - intros s rest _. by apply opaque_get_put.
  - intros s u v _ H Hv. apply opaque_get_short. rewrite <- (opaque_put_length (length s) s eq_refl), H. by apply app_short.
Qed.

Lemma rfc_string_ok : codec_ok rfc_string.
Proof.
  apply counted_ok.
  - intros s rest _. by apply opaque_get_put.
  - intros s u v _ H Hv. apply opaque_get_short. rewrite <- (opaque_put_length (length s) s eq_refl), H. by apply app_short.
Qed.

Lemma rfc_array_ok {A} max (c : codec A) : codec_ok c -> codec_ok (rfc_array max c).
Proof.
  intros C. apply counted_ok.
  - intros l rest Hl. by apply get_n_put.
  - intros l u v Hl H Hv. by eapply get_n_cut.
Qed.

#[export] Instance rfc4506_laws : XdrLaws.
Proof.
  split.
  - apply rfc_int32_ok.
  - done.
  - intros. apply be_put_length.
  - apply rfc_uint32_ok.
  - done.
  - intros. apply be_put_length.
  - apply rfc_int64_ok.
  - done.
  - intros. apply be_put_length.
  - apply rfc_uint64_ok.
  - done.
  - intros. apply be_put_length.
  - apply rfc_uint64_ok.
  - done.
  - intros. apply be_put_length.
  - apply rfc_opaque_ok.
  - done.
  - intros n s [H _]%andb_prop. apply Nat.eqb_eq in H. by apply opaque_put_length.
  - apply rfc_bytes_ok.
  - intros max s Hm. by apply counted_fits.
  - intros max s _. unfold xdr_bytes, rfc4506, rfc_bytes. by rewrite counted_size, opaque_put_length.
  - apply rfc_string_ok.
  - intros s. apply counted_fits. unfold UINT32_MAX. lia.
  - intros s _. unfold xdr_wrapstring, rfc4506, rfc_string. by rewrite counted_size, opaque_put_length.
  - intros A max c. apply rfc_array_ok.
  - intros A max c l Hm. by apply counted_fits.
  - intros A max c l _. unfold xdr_array, rfc4506, rfc_array. rewrite counted_size. f_equal.
    induction l as [|a l IH]; cbn; [done|]. by rewrite length_app, IH.
Qed.
