(* ===== verification/WireProps.v ===== *)
(** * What the messages promise

    The round trip of every struct and of a whole message, stated for any XDR library
    that keeps the laws of RFC 4506, with witnesses on one that does. *)

From S2P Require Import Prelude CString MbdTypes MbdBase MbdJob MbdSched SbdTypes Wire WireXdr.

Open Scope list_scope.
Open Scope Z_scope.

(** ** Decoding a message

    What a receiver does with the bytes of a frame: the header, then the payload with
    the XDR function of the operation. *)
Definition decode_msg {A} `{XdrLib} (c : codec A) (s : list Z) : option (protocol_header * A * list Z) :=
  match get xdr_pack_hdr s with
  | None => None
  | Some (hdr, s) => match get c s with None => None | Some (a, s) => Some (hdr, a, s) end
  end.

Section props.
Context `{XdrLib} `{!XdrLaws}.

Lemma encode_msg_as_msg2 x p hdr : ll_encode_msg x p hdr = ll_encode_msg2 x hdr p None.
Proof. unfold ll_encode_msg, ll_encode_msg2. by destruct write_payload. Qed.

(** Any struct with an XDR function that keeps the contract. *)
Lemma message_carries {A} (c : codec A) (a : A) buf hdr :
  let n := length (put c a) in
  let hdr' := hdr <| hdr_length := Z.of_nat n |> in
  codec_ok c -> fits c a = true -> fits xdr_pack_hdr hdr' = true -> (PACKET_HEADER_SIZE + n <= length buf)%nat ->
  exists x, ll_encode_msg (xdrmem_create buf) (Some (Payload c a)) hdr = Some (x, hdr') /\
    xdr_getpos x = (PACKET_HEADER_SIZE + n)%nat /\
    (forall rest, decode_msg c (sent_bytes x ++ rest) = Some (hdr', a, rest)) /\
    forall p q, sent_bytes x = p ++ q -> q <> [] -> decode_msg c p = None.
Proof using Type*.
  intros n hdr' [G' C'] Ha Hh Hroom. rewrite encode_msg_as_msg2.
  destruct (encode_msg2_bytes buf hdr (Some (Payload c a)) None) as (x & Hx & Hpos & Hs);
    cbn [fmap option_fmap option_map default payload_bytes id] in *; rewrite ?app_nil_r in *; [done..|].
  fold n hdr' in Hx, Hpos, Hs. pose proof pack_hdr_ok as [G C].
  exists x. split_and!; [done|done| |].
  - intros rest. unfold decode_msg. rewrite Hs, <- app_assoc, G by done. cbv beta iota. by rewrite G'.
  - intros p q Hp Hq. rewrite Hs in Hp. unfold decode_msg. apply app_eq_inv in Hp as [(k & Hk & ->)|(k & -> & Hk)].
    + destruct k as [|z k].
      * rewrite app_nil_r in Hk. rewrite <- (app_nil_r p), <- Hk, G by done. by rewrite (C' a [] (put c a)).
      * by rewrite (C hdr' p (z :: k)).
    + rewrite G by done. by rewrite (C' a k q).
Qed.

(** A buffer without room for the payload. *)
Lemma message_refused {A} (c : codec A) (a : A) buf hdr :
  (PACKET_HEADER_SIZE <= length buf)%nat -> (length buf < PACKET_HEADER_SIZE + length (put c a))%nat ->
  ll_encode_msg (xdrmem_create buf) (Some (Payload c a)) hdr = None.
Proof.
  intros H1 H2. unfold ll_encode_msg, xdrmem_create, xdr_setpos. cbn [xm_buf].
  rewrite (proj2 (Nat.leb_le _ _)) by lia. cbn [write_payload]. unfold xdr_write. cbn [xm_pos xm_buf payload_bytes].
  by rewrite (proj2 (Nat.leb_gt _ _)) by lia.
Qed.

(** C27: A message survives the wire: whatever struct it carries and whatever the header
    says, if the buffer has room for the header and the payload, [ll_encode_msg]
    succeeds, the header it leaves announces exactly the length of the payload, and a
    receiver that decodes the bytes sent, with anything after them on the stream, gets
    that header, that payload and the rest back; a message cut short anywhere inside
    the payload or the header is refused, never decoded to something else. *)
Theorem message_roundtrip t (a : wire_struct t) buf hdr :
  let n := length (put (xdr_wire t) a) in
  let hdr' := hdr <| hdr_length := Z.of_nat n |> in
  fits (xdr_wire t) a = true ->
  fits xdr_pack_hdr hdr' = true ->
  (PACKET_HEADER_SIZE + n <= length buf)%nat ->
  exists x, ll_encode_msg (xdrmem_create buf) (Some (Payload (xdr_wire t) a)) hdr = Some (x, hdr') /\
    xdr_getpos x = (PACKET_HEADER_SIZE + n)%nat /\
    (forall rest, decode_msg (xdr_wire t) (sent_bytes x ++ rest) = Some (hdr', a, rest)) /\
    forall p q, sent_bytes x = p ++ q -> q <> [] -> decode_msg (xdr_wire t) p = None.
Proof using Type*. intros n hdr'. apply message_carries, xdr_wire_ok. Qed.
End props.

(** A finish report of an execution daemon in its buffer of 1K. *)
Definition demo_wire_finish : wire_job_finish := mk_wire_job_finish 101 6 0 4242 512 0 0.

Lemma message_roundtrip_witness :
  exists x, ll_encode_msg (xdrmem_create (replicate LL_BUFSIZ_1K 0))
      (Some (Payload (xdr_wire WJobFinish) demo_wire_finish)) init_protocol_header =
      Some (x, init_protocol_header <| hdr_length := 44 |>) /\
    xdr_getpos x = 108%nat /\
    (forall rest, decode_msg (xdr_wire WJobFinish) (sent_bytes x ++ rest) =
       Some (init_protocol_header <| hdr_length := 44 |>, demo_wire_finish, rest)) /\
    forall p q, sent_bytes x = p ++ q -> q <> [] -> decode_msg (xdr_wire WJobFinish) p = None.
Proof.
  assert (Hn : length (put (xdr_wire WJobFinish) demo_wire_finish) = 44%nat) by (vm_compute; reflexivity).
  pose proof (message_roundtrip WJobFinish demo_wire_finish (replicate LL_BUFSIZ_1K 0) init_protocol_header) as M.
  cbv zeta in M. rewrite Hn in M. apply M.
  - vm_compute. reflexivity.
  - vm_compute. reflexivity.
  - vm_compute. lia.
Defined.
