(* ===== verification/Auth.v ===== *)
(** * Authentication of headers (src/base/lib/auth.c)

    A client signs the header of a request with a key shared by the cluster; mbd checks
    the signature and the age before it looks at the request.  HMAC-SHA256 comes from a
    library and is a parameter. *)

From S2P Require Import Prelude CString MbdTypes MbdBase MbdJob MbdSched SbdTypes Wire WireXdr.

Open Scope list_scope.
Open Scope Z_scope.

Definition AUTH_KEY_SIZE : nat := 32.
Definition AUTH_MAX_AGE : Z := 60.

(** The static variables of the file. *)
Record auth_state : Type := mk_auth_state {
  auth_key : list Z;
  auth_key_loaded : bool;
  auth_required : bool;
  auth_allowed_age : Z
}.

Definition auth_state_eta (x : auth_state) : auth_state :=
  mk_auth_state (auth_key x) (auth_key_loaded x) (auth_required x) (auth_allowed_age x).
#[export] Instance set_auth_key : Setter auth_key. Proof. setter auth_state_eta. Defined.
#[export] Instance set_auth_key_loaded : Setter auth_key_loaded. Proof. setter auth_state_eta. Defined.
#[export] Instance set_auth_required' : Setter auth_required. Proof. setter auth_state_eta. Defined.
#[export] Instance set_auth_allowed_age : Setter auth_allowed_age. Proof. setter auth_state_eta. Defined.

Definition auth_start : auth_state := mk_auth_state (replicate AUTH_KEY_SIZE 0) false true AUTH_MAX_AGE.

(** ** The key *)

(** [file] is what [read] gets of the key file, [None] when LL_CONF_DIR is not set or the
    file cannot be opened; [false] for -1. *)
Definition auth_load_key (file : option (list Z)) (st : auth_state) : auth_state * bool :=
  if auth_key_loaded st then (st, true)
  else
    match file with
    | None => (st, false)
    | Some bytes =>
        let bytes := take AUTH_KEY_SIZE bytes in
        let st := st <| auth_key ::= fun k => bytes ++ drop (length bytes) k |> in
        if negb (length bytes =? AUTH_KEY_SIZE)%nat then (st, false)
        else (st <| auth_key_loaded := true |>, true)
    end.

Definition auth_init (file : option (list Z)) (required allowed_age : Z) (st : auth_state) : auth_state * bool :=
  let (st, ok) := auth_load_key file st in
  if negb ok then (st, false)
  else
    let st := st <| auth_required := negb (required =? 0) |> in
    (if 0 <? allowed_age then st <| auth_allowed_age := allowed_age |> else st, true).

Definition auth_set_required (required : Z) (st : auth_state) : auth_state :=
  st <| auth_required := negb (required =? 0) |>.

(** The key file afterwards: an existing one is kept.  [random] is what [getrandom] fills
    in, [creat] whether the file can be created, [written] how many bytes are written. *)
Definition auth_generate_key (path_ok : bool) (random : option (list Z)) (creat : bool) (written : nat)
    (file : option (list Z)) : option (list Z) * bool :=
  if negb path_ok then (file, false)
  else
    match random with
    | None => (file, false)
    | Some key =>
        match file with
        | Some k => (Some k, true)
        | None =>
            if negb creat then (None, false)
            else (Some (take written key), (written =? AUTH_KEY_SIZE)%nat)
        end
    end.

(** ** Signatures *)

(** The bytes of [struct protocol_header] in memory, on a little-endian machine. *)
Definition le_bytes (z : Z) : list Z := rev (be_put 4 (u32 z)).

Definition header_image (h : protocol_header) : list Z :=
  le_bytes (hdr_sequence h) ++ le_bytes (hdr_operation h) ++ le_bytes (hdr_version h) ++ le_bytes (hdr_length h) ++
  le_bytes (hdr_status h) ++ le_bytes (hdr_uid h) ++ le_bytes (hdr_gid h) ++ le_bytes (hdr_timestamp h) ++ hdr_hmac h.

Section hmac.
(** [HMAC(EVP_sha256(), key, ...)]: the digest, [None] on failure. *)
Variable HMAC : list Z -> list Z -> option (list Z).

(** What is signed: the signature and the length are cleared first. *)
Definition unsigned (h : protocol_header) : protocol_header :=
  h <| hdr_hmac := replicate HMAC_SIZE 0 |> <| hdr_length := 0 |>.

Definition compute_hmac (st : auth_state) (h : protocol_header) : option (list Z) :=
  match HMAC (auth_key st) (header_image (unsigned h)) with
  | Some d => if (length d =? AUTH_KEY_SIZE)%nat then Some d else None
  | None => None
  end.

(** The header as signed, [None] for -1. *)
Definition auth_sign_header (file : option (list Z)) (getuid getgid time : Z) (h : protocol_header) (st : auth_state)
    : auth_state * option protocol_header :=
  let (st, ok) := auth_load_key file st in
  if negb ok then (st, None)
  else
    let h := h <| hdr_uid := u32 getuid |> <| hdr_gid := u32 getgid |> <| hdr_timestamp := u32 time |>
               <| hdr_hmac := replicate HMAC_SIZE 0 |> in
    match compute_hmac st h with
    | Some d => (st, Some (h <| hdr_hmac := d |>))
    | None => (st, None)
    end.

(** [true] for 0. *)
Definition auth_verify_header (file : option (list Z)) (time : Z) (h : protocol_header) (st : auth_state)
    : auth_state * bool :=
  if negb (auth_required st) then (st, true)
  else
    let (st, ok) := auth_load_key file st in
    if negb ok then (st, false)
    else
      match compute_hmac st h with
      | None => (st, false)
      | Some expected =>
          if negb (bool_decide (expected = take AUTH_KEY_SIZE (hdr_hmac h))) then (st, false)
          else
            let age := i32 (i32 (u32 time) - i32 (hdr_timestamp h)) in
            let age := if age <? 0 then i32 (- age) else age in
            (st, negb (i32 (auth_allowed_age st) <? age))
      end.

(** ** What it protects *)

(** The fields under the signature. *)
Definition signed_fields (h : protocol_header) : list Z :=
  [hdr_sequence h; hdr_operation h; hdr_version h; hdr_status h; hdr_uid h; hdr_gid h; hdr_timestamp h].

Definition fields_fit (h : protocol_header) : Prop :=
  forallb is_i32 [hdr_sequence h; hdr_operation h; hdr_version h; hdr_status h] = true /\
  forallb is_u32 [hdr_uid h; hdr_gid h; hdr_timestamp h] = true.

Lemma le_bytes_length z : length (le_bytes z) = 4%nat.
Proof. unfold le_bytes. by rewrite length_rev, be_put_length. Qed.

Lemma le_bytes_inj x y : le_bytes x = le_bytes y -> u32 x = u32 y.
Proof.
  intros He. unfold le_bytes in He. apply (f_equal (@rev Z)) in He. rewrite !rev_involutive in He.
  apply (f_equal (be_val 0)) in He. rewrite !be_val_put in He.
  assert (Hm : forall z, u32 z mod 256 ^ Z.of_nat 4 = u32 z).
  { intros z. apply Z.mod_small. unfold u32. change (256 ^ Z.of_nat 4) with (2 ^ 32). apply Z.mod_pos_bound. lia. }
  by rewrite !Hm in He.
Qed.

Lemma u32_i32 x y : is_i32 x = true -> is_i32 y = true -> u32 x = u32 y -> x = y.
Proof.
  unfold is_i32, u32. intros [H1 H2]%andb_prop [H3 H4]%andb_prop He. b2p.
  apply (f_equal (signed 32)) in He. by rewrite !(signed_mod 32) in He by lia.
Qed.

Lemma u32_u32 x y : is_u32 x = true -> is_u32 y = true -> u32 x = u32 y -> x = y.
Proof. unfold is_u32, u32. intros [H1 H2]%andb_prop [H3 H4]%andb_prop He. b2p. by rewrite !Z.mod_small in He by lia. Qed.

(** The image determines the signed fields. *)
Lemma image_inj h1 h2 :
  fields_fit h1 -> fields_fit h2 -> header_image (unsigned h1) = header_image (unsigned h2) ->
  signed_fields h1 = signed_fields h2.
Proof.
  intros [F1 G1] [F2 G2] He. unfold header_image, unsigned in He. cbn -[le_bytes] in He.
  cbn in F1, G1, F2, G2.
  repeat match goal with H : _ && _ = true |- _ => apply andb_prop in H as [? H] end.
  repeat (apply app_inj_1 in He as [? He]; [|by rewrite !le_bytes_length]).
  unfold signed_fields.
  rewrite (u32_i32 (hdr_sequence h1) (hdr_sequence h2)), (u32_i32 (hdr_operation h1) (hdr_operation h2)),
    (u32_i32 (hdr_version h1) (hdr_version h2)), (u32_i32 (hdr_status h1) (hdr_status h2)),
    (u32_u32 (hdr_uid h1) (hdr_uid h2)), (u32_u32 (hdr_gid h1) (hdr_gid h2)),
    (u32_u32 (hdr_timestamp h1) (hdr_timestamp h2)) by (done || by apply le_bytes_inj).
  done.
Qed.
Lemma loaded_load_key file st : auth_key_loaded st = true -> auth_load_key file st = (st, true).
Proof. intros Hl. unfold auth_load_key. by rewrite Hl. Qed.

(** Clocks that agree up to the allowed age. *)
Lemma age_ok t1 t2 a :
  0 <= t1 < 2 ^ 31 -> 0 <= t2 < 2 ^ 31 -> 0 <= a < 2 ^ 31 ->
  let age := i32 (i32 (u32 t1) - i32 t2) in
  negb (i32 a <? if age <? 0 then i32 (- age) else age) = (Z.abs (t1 - t2) <=? a).
Proof.
  intros H1 H2 Ha. cbv zeta.
  assert (Hi : forall z, - 2 ^ 31 <= z < 2 ^ 31 -> i32 z = z) by (intros z Hz; unfold i32; rewrite Z.mod_small; lia).
  assert (Hu : u32 t1 = t1) by (unfold u32; apply Z.mod_small; lia).
  rewrite Hu, (Hi t1), (Hi t2), (Hi (t1 - t2)), (Hi a) by lia.
  rewrite <- Z.leb_antisym. destruct (Z.ltb_spec (t1 - t2) 0); [rewrite Hi by lia; f_equal; lia|f_equal; lia].
Qed.

(** A signed header passes, whatever length is filled in, while the clocks agree up to the
    allowed age. *)
Lemma signed_accepted file file' sk vk uid gid t t' h h' len :
  (auth_load_key file' vk).2 = true -> auth_key (auth_load_key file' vk).1 = auth_key (auth_load_key file sk).1 ->
  0 <= auth_allowed_age vk < 2 ^ 31 -> 0 <= t < 2 ^ 31 -> 0 <= t' < 2 ^ 31 ->
  (auth_sign_header file uid gid t h sk).2 = Some h' ->
  (auth_verify_header file' t' (h' <| hdr_length := len |>) vk).2 =
    negb (auth_required vk) || (Z.abs (t' - t) <=? auth_allowed_age vk).
Proof.
  intros Hv Hk Ha Ht Ht' Hsign. unfold auth_verify_header. destruct (auth_required vk); cbn [negb orb]; [|done].
  assert (Hage : auth_allowed_age (auth_load_key file' vk).1 = auth_allowed_age vk).
  { unfold auth_load_key. repeat case_match; done. }
  destruct (auth_load_key file' vk) as [vk' ok]. cbn [fst snd] in *. subst ok. cbn [negb].
  unfold auth_sign_header in Hsign. destruct (auth_load_key file sk) as [sk' ok']. cbn [fst] in Hk.
  destruct ok'; cbn [negb snd] in Hsign; [|done].
  set (h0 := h <| hdr_uid := _ |> <| hdr_gid := _ |> <| hdr_timestamp := _ |> <| hdr_hmac := _ |>) in Hsign.
  unfold compute_hmac in *. destruct (HMAC (auth_key sk') (header_image (unsigned h0))) as [d|] eqn:Hd; [|done].
  destruct (length d =? AUTH_KEY_SIZE)%nat eqn:Hl; [|done]. cbn [snd] in Hsign.
  assert (h' = h0 <| hdr_hmac := d |>) as -> by congruence.
  change (unsigned (h0 <| hdr_hmac := d |> <| hdr_length := len |>)) with (unsigned h0).
  rewrite Hk, Hd, Hl. change (hdr_hmac (h0 <| hdr_hmac := d |> <| hdr_length := len |>)) with d.
  rewrite take_ge, bool_decide_true by (try apply Nat.eqb_eq in Hl; done || lia). cbn [negb snd].
  change (hdr_timestamp (h0 <| hdr_hmac := d |> <| hdr_length := len |>)) with (u32 t).
  assert (Hu : u32 t = t) by (unfold u32; apply Z.mod_small; lia). rewrite Hu, Hage. by rewrite age_ok.
Qed.

(** C30: The signature of a request protects its header and nothing else.  A header signed
    with the cluster's key is accepted while the clocks agree up to the allowed age,
    whatever length is filled in later; and if mbd, which holds the key, accepts another
    header under the same signature, then either every field of the two but the length is
    the same (the operation, the caller's uid and gid and the time among them), or two
    different messages with the same digest are at hand. *)
Theorem auth_header_protected file file' sk vk uid gid t t' h h' len :
  auth_key_loaded sk = true -> auth_key_loaded vk = true -> auth_key vk = auth_key sk ->
  auth_required vk = true -> 0 <= auth_allowed_age vk < 2 ^ 31 -> 0 <= t < 2 ^ 31 -> 0 <= t' < 2 ^ 31 ->
  (auth_sign_header file uid gid t h sk).2 = Some h' -> fields_fit h' ->
  (auth_verify_header file' t' (h' <| hdr_length := len |>) vk).2 = (Z.abs (t' - t) <=? auth_allowed_age vk) /\
  forall h2, hdr_hmac h2 = hdr_hmac h' -> fields_fit h2 -> (auth_verify_header file' t' h2 vk).2 = true ->
    signed_fields h2 = signed_fields h' \/
    exists m1 m2, m1 <> m2 /\ HMAC (auth_key sk) m1 = HMAC (auth_key sk) m2.
Proof.
  intros Hs Hv Hk Hr Ha Ht Ht' Hsign Hf.
  pose proof (signed_accepted file file' sk vk uid gid t t' h h' len) as Hpass.
  rewrite !loaded_load_key in Hpass by done. specialize (Hpass eq_refl Hk Ha Ht Ht' Hsign).
  unfold auth_sign_header in Hsign. rewrite loaded_load_key in Hsign by done.
  cbn [negb] in Hsign. set (h0 := h <| hdr_uid := _ |> <| hdr_gid := _ |> <| hdr_timestamp := _ |> <| hdr_hmac := _ |>) in Hsign.
  unfold compute_hmac in Hsign. destruct (HMAC (auth_key sk) (header_image (unsigned h0))) as [d|] eqn:Hd; [|done].
  destruct (length d =? AUTH_KEY_SIZE)%nat eqn:Hl; [|done]. assert (h' = h0 <| hdr_hmac := d |>) as -> by (cbn [snd] in Hsign; congruence). clear Hsign. apply Nat.eqb_eq in Hl.
  assert (Hver : forall h2, hdr_hmac h2 = d -> (auth_verify_header file' t' h2 vk).2 =
    match compute_hmac vk h2 with
    | Some e => bool_decide (e = d) && negb (i32 (auth_allowed_age vk) <?
        let age := i32 (i32 (u32 t') - i32 (hdr_timestamp h2)) in if age <? 0 then i32 (- age) else age)
    | None => false
    end).
  { intros h2 Hh. unfold auth_verify_header. rewrite Hr, loaded_load_key by done. cbn [negb].
    destruct (compute_hmac vk h2) as [e|]; [|done]. rewrite Hh, take_ge by lia. by case_bool_decide. }
  split.
  - rewrite Hpass, Hr. done.
  - intros h2 Hh Hf2 Hacc. cbn in Hh. rewrite Hver in Hacc by done. unfold compute_hmac in Hacc. rewrite Hk in Hacc.
    destruct (HMAC (auth_key sk) (header_image (unsigned h2))) as [e|] eqn:He; [|done].
    destruct (length e =? AUTH_KEY_SIZE)%nat; [|done]. apply andb_prop in Hacc as [Hed _]. apply bool_decide_eq_true in Hed as ->.
    destruct (decide (header_image (unsigned h2) = header_image (unsigned h0))) as [Hi|Hi].
    + left. by apply (image_inj h2 (h0 <| hdr_hmac := d |>)).
    + right. exists (header_image (unsigned h2)), (header_image (unsigned h0)). split; [done|congruence].
Qed.
End hmac.

(** *** A digest for the witness: the bytes of the fields themselves. *)
Definition demo_digest (key m : list Z) : option (list Z) := Some (take AUTH_KEY_SIZE m).

Definition demo_auth : auth_state := (auth_load_key (Some (replicate AUTH_KEY_SIZE 7)) auth_start).1.

Definition demo_signed : protocol_header :=
  default init_protocol_header (auth_sign_header demo_digest None 1001 100 1000 init_protocol_header demo_auth).2.

Lemma auth_header_protected_witness :
  (auth_verify_header demo_digest None 1030 (demo_signed <| hdr_length := 44 |>) demo_auth).2 = true /\
  (auth_verify_header demo_digest None 1061 demo_signed demo_auth).2 = false.
Proof.
  split.
  - destruct (auth_header_protected demo_digest None None demo_auth demo_auth 1001 100 1000 1030 init_protocol_header demo_signed 44)
      as [H _]; [vm_compute; done..|exact H].
  - destruct (auth_header_protected demo_digest None None demo_auth demo_auth 1001 100 1000 1061 init_protocol_header demo_signed 0)
      as [H _]; [vm_compute; done..|exact H].
Defined.
