(* ===== verification/MbdMain.v ===== *)
(** * The process of mbd (src/batch/mbd/mbd.c)

    Its options, its start (the configuration, the key, the network, the directories,
    the replay of the log and the state files, in that order) and its main loop: rounds
    of epoll in which the timer, the listening channel and the connections are served.
    The files an earlier process left are a [disk]; what the system answers at the start
    is an [init_env]. *)

From S2P Require Import Prelude CString LlConf LlHash Dependency LogFormat MbdTypes MbdBase MbdJob MbdSched MbdEvents MbdNet Conf.
From S2P Require Import SbdTypes Wire WireXdr Auth.
From S2P Require Import MbdInv MbdFrame MbdSafe MbdControl MbdDurable MbdReplay MbdSubmit MbdStatic MbdLogged MbdRebuild MbdCompact MbdRun MbdProgress MbdRestart.
From S2P Require Import MbdDemo MbdProps MbdRestartProps ConfProps.

Open Scope string_scope.
Open Scope list_scope.
Open Scope Z_scope.

(** ** Options *)

Inductive mbd_exit : Type :=
  | MBD_EXIT_CONF
  | MBD_EXIT_NET
  | MBD_EXIT_EVENTS
  | MBD_EXIT_JOBS
  | MBD_EXIT_MEM
  | MBD_EXIT_FATAL.

Definition mbd_exit_str (x : mbd_exit) : string :=
  match x with
  | MBD_EXIT_CONF => "configuration error"
  | MBD_EXIT_NET => "network error"
  | MBD_EXIT_EVENTS => "events log error"
  | MBD_EXIT_JOBS => "job directory error"
  | MBD_EXIT_MEM => "out of memory"
  | MBD_EXIT_FATAL => "fatal error"
  end.

Definition SCHED_TIMER : Z := 2.

Record mbd_opts : Type := mk_mbd_opts {
  mo_conf_dir : option string;
  mo_sched_timer : Z
}.

(** The options after one more, or the status the program ends with. *)
Definition mbd_option (o : ascii * string) (s : mbd_opts) : mbd_opts + Z :=
  let (c, arg) := o in
  if Ascii.eqb c "c" then inl (mk_mbd_opts (Some arg) (mo_sched_timer s))
  else if Ascii.eqb c "V" then inr 0
  else if Ascii.eqb c "t" then
    match ll_atoi arg with
    | None => inr (-1)
    | Some v => if v <=? 0 then inr (-1) else inl (mk_mbd_opts (mo_conf_dir s) v)
    end
  else inr (-1).

Fixpoint mbd_options (l : list (ascii * string)) (s : mbd_opts) : mbd_opts + Z :=
  match l with
  | [] => inl s
  | o :: l => match mbd_option o s with inl s => mbd_options l s | inr code => inr code end
  end.

(** The daemon never runs as root. *)
Definition check_not_root (ruid euid : Z) : res unit := guard_or (negb ((ruid =? 0) || (euid =? 0))) Fatal.

(** Up to [mbd_init]: [env_dir] is LL_CONF_DIR of the environment. *)
Definition mbd_main_options (env_dir : option string) (ruid euid : Z) (l : list (ascii * string)) : res (mbd_opts + Z) :=
  match mbd_options l (mk_mbd_opts None SCHED_TIMER) with
  | inr code => Ok (inr code)
  | inl s =>
      match mo_conf_dir s, env_dir with
      | None, None => Ok (inr (-1))
      | _, _ => let* _ := check_not_root ruid euid in Ok (inl s)
      end
  end.

(** ** The network *)

(** The answers of epoll_create1, of the listening channel for a port, of epoll_ctl for
    it, of the timer channel for a period and of epoll_ctl for it. *)
Record net_answers : Type := mk_net_answers {
  na_efd : bool;
  na_server : Z -> Z;
  na_add_server : bool;
  na_timer : Z -> Z;
  na_add_timer : bool
}.

(** The port, the listening channel and the timer channel; on a failure the channels that
    were closed.  The conversion writes an int where the port has 16 bits.  When the timer
    cannot be watched the code closes the channel numbered as the period, not the timer. *)
Definition network_init (a : net_answers) (ps : list ll_kv) (sched_timer : Z) : (Z * Z * Z) + list Z :=
  if negb (na_efd a) then inr []
  else
    match param ps LL_MBD_PORT ≫= ll_atoi with
    | None => inr []
    | Some v =>
        let port := v mod 2 ^ 16 in
        let chan_mbd := na_server a port in
        if chan_mbd <? 0 then inr []
        else if negb (na_add_server a) then inr [chan_mbd]
        else
          let chan_timer := na_timer a sched_timer in
          if chan_timer <? 0 then inr [chan_mbd]
          else if negb (na_add_timer a) then inr [sched_timer; chan_mbd]
          else inl (port, chan_mbd, chan_timer)
    end.

(** A connection: the channel [chan_accept] gives, the address of the peer as text, and
    whether epoll takes the channel. *)
Record accept_answers : Type := mk_accept_answers {
  aa_chan : Z;
  aa_addr : option string;
  aa_epoll : bool
}.

(** The channel of an accepted connection; only hosts of the configuration are let in. *)
Definition mbd_accept (addrs : gmap string nat) (a : accept_answers) : option Z :=
  if aa_chan a <? 0 then None
  else
    match aa_addr a with
    | None => None
    | Some addr =>
        match addrs !! addr with
        | None => None
        | Some _ => if aa_epoll a then Some (aa_chan a) else None
        end
    end.

(** ** Directories, log and sequence *)

Definition JOB_BUCKETS : nat := 10.
Definition LL_MBD_JOB_FINISH_THRESHOLD : nat := 8.
Definition FINISH_THRESHOLD : Z := 1000.

(** The number of an archived log, [None] for any other name. *)
Definition archive_number (nm : string) : option Z :=
  match strip_prefix "manifest." nm with
  | None | Some EmptyString => None
  | Some p => if forall_chars isdigit p then Some (u32 (atol p)) else None
  end.

(** The highest number of an archive; a directory that cannot be read has none. *)
Definition manifest_seq_scan (names : option (list string)) (seq : Z) : Z :=
  foldl (fun seq nm => match archive_number nm with Some n => if seq <? n then n else seq | None => seq end)
    seq (default [] names).

(** A path that has to fit, and a directory that has to be there. *)
Definition path_or_die (dir name : string) : res string :=
  match conf_path dir name with Some p => Ok p | None => Crash Fatal end.

Definition dir_or_die (mkdir : string -> bool) (dir name : string) : res string :=
  let* p := path_or_die dir name in
  let* _ := guard_or (mkdir p) Fatal in
  Ok p.

(** The path of the log, the threshold of a compaction and the number of the last
    archive.  [mkdir] says whether a directory is there or was made, [names] lists the
    directory of the daemon. *)
Definition events_init (mkdir : string -> bool) (names : option (list string)) (ps : list ll_kv) : res (string * Z * Z) :=
  let* dir := dir_or_die mkdir (default "(null)" (param ps LL_STATE_DIR)) "mbd" in
  let* path := path_or_die dir "manifest" in
  let* jobs_dir := dir_or_die mkdir dir "jobs" in
  let* _ := res_fold (fun _ i => let* _ := dir_or_die mkdir jobs_dir (print_int (Z.of_nat i)) in Ok tt) (seq 0 JOB_BUCKETS) tt in
  let t := default FINISH_THRESHOLD (param ps LL_MBD_JOB_FINISH_THRESHOLD ≫= ll_atoi) in
  let t := if t <? 0 then FINISH_THRESHOLD else t in
  Ok (path, t, manifest_seq_scan names 0).

(** ** The jobs *)

(** The job tables are emptied and the cross check of the counters switched on or off. *)
Definition job_reset (ps : list ll_kv) (w : mbd) : mbd :=
  w <| jobs := ∅ |> <| pend_jobs_list := [] |> <| run_jobs_list := [] |> <| finish_jobs_list := [] |>
    <| assert_counters := negb (default 0 (param ps LL_ASSERT_COUNTERS ≫= ll_atoi) =? 0) |>.

Definition job_init (e : env) (log : log_file) (ps : list ll_kv) (w : mbd) : res mbd :=
  let* (w, _) := jobs_replay e log (job_reset ps w) in
  Ok w.

(** ** The start *)

(** What an earlier process left: the events of the log, the sequence file, and the
    closed queues and hosts. *)
Record disk : Type := mk_disk {
  d_log : list log_event;
  d_seq : option Z;
  d_queues : gset string;
  d_hosts : gset string
}.

Definition disk_of (w : mbd) : disk := mk_disk (manifest w) (job_id_seq_file w) (queue_files w) (host_files w).

Definition on_disk (d : disk) (w : mbd) : mbd :=
  w <| manifest := d_log d |> <| job_id_seq_file := d_seq d |> <| queue_files := d_queues d |> <| host_files := d_hosts d |>.

(** The configuration, the period of the scheduler, the key file, what the stack holds
    where [auth_age] is not set, the network, the directories, the text of the log, and
    the listings of the state files, [None] when a directory cannot be made or read. *)
Record init_env : Type := mk_init_env {
  ie_conf : conf_env;
  ie_sched_timer : Z;
  ie_key : option (list Z);
  ie_stack : Z;
  ie_net : net_answers;
  ie_mkdir : string -> bool;
  ie_names : option (list string);
  ie_log : log_file;
  ie_queue_names : option (list string);
  ie_host_names : option (list string)
}.

Record mbd_proc : Type := mk_mbd_proc {
  mp_mbd : mbd;
  mp_addrs : gmap string nat;
  mp_auth : auth_state;
  mp_chan_mbd : Z;
  mp_chan_timer : Z;
  mp_threshold : Z
}.

Definition mbd_init (ie : init_env) (d : disk) (ps : list ll_kv * bool) (c : conf_state) : attempt mbd_proc :=
  let? (ps, c) := conf_init (ie_conf ie) ps c in
  let age := default (ie_stack ie) (param ps LL_AUTH_MAX_AGE ≫= ll_atoi) in
  let (auth, ok) := auth_init (ie_key ie) 1 (u32 age) auth_start in
  if negb ok then pfail
  else
    match network_init (ie_net ie) ps (ie_sched_timer ie) with
    | inr _ => pfail
    | inl (_, chan_mbd, chan_timer) =>
        let* (_, threshold, _) := events_init (ie_mkdir ie) (ie_names ie) ps in
        let* w := job_init (ce_env (ie_conf ie)) (ie_log ie) ps (on_disk d (cs_mbd c)) in
        match ie_queue_names ie with
        | None => pfail
        | Some qs =>
            let w := queue_state_init qs w in
            match ie_host_names ie with
            | None => pfail
            | Some hs =>
                let w := host_state_init hs w in
                pret (mk_mbd_proc w (host_addr_hash c) auth chan_mbd chan_timer threshold)
            end
        end
    end.

(** ** The main loop *)

(** One event: its channel, whether the channel is done reading, whether it is readable,
    and what is there to take: a message of a client, one of an execution daemon, or a
    connection. *)
Record mbd_ev : Type := mk_mbd_ev {
  me_chan : Z;
  me_ready : bool;
  me_readable : bool;
  me_client : arrival client_msg;
  me_sbd : arrival sbd_msg;
  me_accept : accept_answers;
  me_env : env
}.

Section loop.
Context `{QSort}.

(** What [mbd_accept] returns is not used: a connection that was let in shows up as events
    of its own. *)
Definition mbd_event (addrs : gmap string nat) (chan_mbd chan_timer threshold : Z) (ev : mbd_ev) (w : mbd) : res mbd :=
  if negb (me_ready ev) then Ok w
  else if me_chan ev =? chan_timer then
    let* w := schedule (me_env ev) w in
    maybe_rebuild_manifest threshold w
  else if me_chan ev =? chan_mbd then
    let _ := mbd_accept addrs (me_accept ev) in
    Ok w
  else if me_readable ev then mbd_message (me_env ev) (me_chan ev) (me_client ev) (me_sbd ev) w
  else Ok w.

(** The rounds of epoll, [None] for one that failed; the loop itself has no end. *)
Definition mbd_loop (addrs : gmap string nat) (chan_mbd chan_timer threshold : Z) (rounds : list (option (list mbd_ev)))
    (w : mbd) : res mbd :=
  res_fold (fun w evs => res_fold (fun w ev => mbd_event addrs chan_mbd chan_timer threshold ev w) (default [] evs) w) rounds w.

(** A process: its start and the rounds after it; [None] when it did not start. *)
Definition mbd_main (ie : init_env) (d : disk) (ps : list ll_kv * bool) (c : conf_state) (rounds : list (option (list mbd_ev))) : attempt mbd :=
  let? p := mbd_init ie d ps c in
  let* w := mbd_loop (mp_addrs p) (mp_chan_mbd p) (mp_chan_timer p) (mp_threshold p) rounds (mp_mbd p) in
  pret w.
End loop.

(** * Properties of the process of mbd

    A life of the daemon as its processes make it: a start on an empty log, events of the
    main loop with the compactions the timer brings, and any number of crashes, each
    followed by a full start on the files that were left. *)

(** ** The state files change neither the books nor the jobs *)

(** Same accounting, same fixed part, same configuration, same jobs and log. *)
Definition same_life (w w' : mbd) : Prop :=
  (inv w -> inv w') /\ fixed w' = fixed w /\ conf_of w' = conf_of w /\ durables w' = durables w /\ manifest w' = manifest w.

Lemma same_life_refl w : same_life w w.
Proof. done. Qed.

Lemma same_life_trans w1 w2 w3 : same_life w1 w2 -> same_life w2 w3 -> same_life w1 w3.
Proof. intros (A1 & A2 & A3 & A4 & A5) (B1 & B2 & B3 & B4 & B5). split_and!; [tauto|congruence..]. Qed.

Lemma same_life_fold {A} (f : mbd -> A -> mbd) l w :
  (forall w a, same_life w (f w a)) -> same_life w (foldl f w l).
Proof.
  intros Hf. revert w. induction l as [|a l IH]; intros w; cbn; [apply same_life_refl|].
  eapply same_life_trans; [apply Hf|apply IH].
Qed.

Lemma same_life_queue q st w : same_life w (upd_queue q (fun x => x <| q_state := st |>) w).
Proof.
  split; [|split; [apply fixed_upd_queue|split; [|done]]].
  - intros I. assert (K : kept w (upd_queue q (fun x => x <| q_state := st |>) w)) by (by apply upd_queue_books, kept_refl). apply K.
  - unfold conf_of, upd_queue. cbn. by rewrite !map_alter_same.
Qed.

Lemma same_life_host h f w :
  (forall x, books (f x) = books x /\ sbd_chan (f x) = sbd_chan x /\ h_name (f x) = h_name x /\ totals (f x) = totals x) ->
  same_life w (upd_host h f w).
Proof.
  intros Hf. split; [|split; [apply fixed_upd_host; intros x; apply Hf|split; [|done]]].
  - intros I. assert (K : kept w (upd_host h f w)) by (apply upd_host_books; [apply Hf|by apply kept_refl]). apply K.
  - unfold conf_of, upd_host. cbn. by rewrite !map_alter_same by (intros x; apply Hf).
Qed.

Lemma queue_state_init_same names w : same_life w (queue_state_init names w).
Proof.
  apply same_life_fold. intros x nm. destruct (is_dot_file nm); [apply same_life_refl|].
  destruct (queue_name_hash x !! nm); [apply same_life_queue|done].
Qed.

Lemma host_state_init_same names w : same_life w (host_state_init names w).
Proof.
  apply same_life_fold. intros x nm. destruct (is_dot_file nm); [apply same_life_refl|].
  destruct (host_name_hash x !! nm); [by apply same_life_host|apply same_life_refl].
Qed.

Lemma same_life_good w0 w w' : same_life w w' -> good w -> faithful w0 w -> good w' /\ faithful w0 w'.
Proof.
  intros (A1 & A2 & A3 & A4 & A5) G [F1 F2]. split; [apply (good_kept w); [done|by apply A1, G|done]|].
  split; congruence.
Qed.

(** ** Compaction in a life *)

(** A compaction that is due can write every job. *)
Definition compaction_ok (threshold : Z) (w : mbd) : Prop :=
  threshold <= Z.of_nat (length (finish_jobs_list w)) -> forall id j, jobs w !! id = Some j -> compactable w j.

Lemma good_fewer w w' :
  good w -> inv w' -> w' = w <| manifest := manifest w' |> <| finish_jobs_list := finish_jobs_list w' |> <| jobs := jobs w' |> ->
  (forall id j, jobs w' !! id = Some j -> jobs w !! id = Some j) -> good w'.
Proof.
  intros [_ [G1 G2 G3 G4 G5 G6 G7 G8]] I He Hj. split; [done|].
  assert (Hs : forall id x, statics w' !! id = Some x -> statics w !! id = Some x).
  { intros id x. unfold statics. rewrite !lookup_fmap. destruct (jobs w' !! id) as [j|] eqn:Hx; [|done]. by rewrite (Hj id j Hx). }
  assert (Hf : fixed w' = mk_fixed (statics w') (job_id_seq w) (length (queues w)) (queue_name_hash w)
    (map sbd_chan (hosts w)) (sbd_chan_hash w) (host_name_hash w)) by (by rewrite He).
  rewrite Hf. split; cbn in *; try done.
  - intros id [x Hx]. apply G1. exists x. by apply Hs.
  - intros id x Hx. by eapply G6, Hs.
  - intros id x Hx. by eapply G7, Hs.
  - intros id x Hx. by eapply G8, Hs.
Qed.

Lemma maybe_rebuild_ok w0 threshold w :
  conf_ok (conf_of w0) -> good w -> faithful w0 w -> compaction_ok threshold w ->
  exists w', maybe_rebuild_manifest threshold w = Ok w' /\ good w' /\ faithful w0 w'.
Proof.
  intros C G F Hc. unfold maybe_rebuild_manifest. destruct (_ <? _) eqn:Ht; [by exists w|]. apply Z.ltb_ge in Ht.
  destruct (manifest_rebuild_ok w (proj1 G)) as (w' & H1 & I' & He & H2 & H3 & H4).
  { by rewrite (proj1 F). }
  { exact (Hc Ht). }
  assert (Hcf : conf_of w' = conf_of w) by (by rewrite He).
  exists w'. split; [done|]. split.
  - apply (good_fewer w); [done..|]. intros id j Hj. destruct (jobs w !! id) as [x|] eqn:Hx.
    + rewrite <- Hj. symmetry. rewrite <- Hx. apply H3. intros Hd. rewrite (H2 id Hd) in Hj. done.
    + rewrite H3 in Hj; [congruence|]. intros (y & Hy & _). congruence.
  - split; [by rewrite Hcf, (proj1 F)|]. by rewrite (apply_events_conf w w0) by (by rewrite (proj1 F)).
Qed.

(** ** Lives *)

Section process.
Context {QS : QSort} (E : conf_env) (ps ps1 : list ll_kv) (loaded : bool) (c0 c1 : conf_state).

(** The log is the text of the events on disk. *)
Definition log_is (f : log_file) (evs : list log_event) : Prop :=
  match f with
  | LogMissing => evs = []
  | LogUnreadable => False
  | LogText text io_error => io_error = false /\ forallb line_ok evs = true /\ log_text evs = Ok text
  end.

(** What a start needs from the system: memory, a key, a port and a timer, its
    directories, and a log that can be read. *)
Record init_ok (ie : init_env) (d : disk) : Prop := mk_init_ok {
  io_conf : ie_conf ie = E;
  io_alloc : forall k, alloc_ok (ce_env E) k = true;
  io_key : exists key, ie_key ie = Some key /\ (AUTH_KEY_SIZE <= length key)%nat;
  io_net : exists x, network_init (ie_net ie) ps1 (ie_sched_timer ie) = inl x;
  io_events : exists x, events_init (ie_mkdir ie) (ie_names ie) ps1 = Ok x;
  io_log : log_is (ie_log ie) (d_log d);
  io_queues : is_Some (ie_queue_names ie);
  io_hosts : is_Some (ie_host_names ie)
}.

(** An event the daemon can take. *)
Definition mbd_event_ok (p : mbd_proc) (ev : mbd_ev) (w : mbd) : Prop :=
  if negb (me_ready ev) then True
  else if me_chan ev =? mp_chan_timer p then
    input_ok (me_env ev) w InTimer /\ forall w1, schedule (me_env ev) w = Ok w1 -> compaction_ok (mp_threshold p) w1
  else if me_chan ev =? mp_chan_mbd p then True
  else if me_readable ev then
    input_ok (me_env ev) w (InMessage (me_chan ev) (me_client ev) (me_sbd ev)) /\
    input_logs (InMessage (me_chan ev) (me_client ev) (me_sbd ev))
  else True.

Definition proc_event (p : mbd_proc) (ev : mbd_ev) (w : mbd) : res mbd :=
  mbd_event (mp_addrs p) (mp_chan_mbd p) (mp_chan_timer p) (mp_threshold p) ev w.

Definition proc_loop (p : mbd_proc) (rounds : list (option (list mbd_ev))) : res mbd :=
  mbd_loop (mp_addrs p) (mp_chan_mbd p) (mp_chan_timer p) (mp_threshold p) rounds (mp_mbd p).

Fixpoint mbd_events_ok (p : mbd_proc) (evs : list mbd_ev) (w : mbd) : Prop :=
  match evs with
  | [] => True
  | ev :: evs => mbd_event_ok p ev w /\ forall w', proc_event p ev w = Ok w' -> mbd_events_ok p evs w'
  end.

(** All events of all rounds. *)
Definition mbd_rounds_ok (p : mbd_proc) (rounds : list (option (list mbd_ev))) (w : mbd) : Prop :=
  mbd_events_ok p (concat (map (default []) rounds)) w.

Definition with_mbd (p : mbd_proc) (w : mbd) : mbd_proc :=
  mk_mbd_proc w (mp_addrs p) (mp_auth p) (mp_chan_mbd p) (mp_chan_timer p) (mp_threshold p).

(** A first process on an empty log, events, and crashes followed by a new process on the
    files of the old one. *)
Inductive mbd_life : mbd_proc -> Prop :=
  | life_born ie d p :
      d_log d = [] -> init_ok ie d -> mbd_init ie d (ps, loaded) c0 = Ok (Some p) -> mbd_life p
  | life_event ev p w' :
      mbd_life p -> mbd_event_ok p ev (mp_mbd p) -> proc_event p ev (mp_mbd p) = Ok w' -> mbd_life (with_mbd p w')
  | life_reborn ie p p' :
      mbd_life p -> init_ok ie (disk_of (mp_mbd p)) ->
      mbd_init ie (disk_of (mp_mbd p)) (ps, loaded) c0 = Ok (Some p') -> mbd_life p'.

Hypothesis HU : unconfigured c0.
Hypothesis HI : idle (cs_mbd c0).
Hypothesis HC : conf_init E (ps, loaded) c0 = Ok (Some (ps1, c1)).
Hypothesis HF : Forall (fun h => 0 <= total_cpu h) (hosts (cs_mbd c1)).
Hypothesis HN : NoDup (map h_name (hosts (cs_mbd c1))).
Hypothesis HW : Forall (fun h => forall_chars (fun ch => negb (is_machine_delim ch)) (h_name h) = true) (hosts (cs_mbd c1)).
Hypothesis HL : sumZ (fun h => Z.of_nat (String.length (h_name h)) + 1) (hosts (cs_mbd c1)) < 4096.

(** The configured daemon without jobs. *)
Definition blank_mbd : mbd := job_reset ps1 (cs_mbd c1).

Lemma blank_first_start : first_start blank_mbd.
Proof using HU HI HC HF HN HW HL.
  destruct (conf_init_ok _ _ _ _ _ HU HC) as [C _].
  pose proof (configured_first_start E _ _ C HI HF HN HW HL) as [G J L K].
  destruct (configured_idle E _ _ C HI) as [_ (L1 & L2 & L3) _ _].
  assert (Hb : blank_mbd = (cs_mbd c1) <| assert_counters := assert_counters blank_mbd |>).
  { unfold blank_mbd, job_reset. destruct (cs_mbd c1). cbn in *. by subst. }
  rewrite Hb. split; [split; apply G|done..].
Qed.

(** ** Events *)

Lemma event_lives p ev w :
  good w -> faithful blank_mbd w -> mbd_event_ok p ev w ->
  exists w', proc_event p ev w = Ok w' /\ good w' /\ faithful blank_mbd w'.
Proof using HU HI HC HF HN HW HL.
  pose proof blank_first_start as F. intros G Hf Hok. unfold proc_event, mbd_event, mbd_event_ok in *.
  destruct (negb (me_ready ev)); [by exists w|]. destruct (me_chan ev =? mp_chan_timer p).
  - destruct Hok as [Hi Hc]. destruct (mbd_input_good _ _ _ G Hi) as (w1 & H1 & G1).
    destruct (input_faithful blank_mbd F _ _ _ _ G Hf Hi I H1) as [_ Hf1]. cbn [mbd_input] in H1. rewrite H1. cbn [res_bind].
    apply maybe_rebuild_ok; [apply F|done|done|by apply Hc].
  - destruct (me_chan ev =? mp_chan_mbd p); [by exists w|]. destruct (me_readable ev); [|by exists w].
    destruct Hok as [Hi Hl]. destruct (mbd_input_good _ _ _ G Hi) as (w1 & H1 & G1). exists w1. split; [done|].
    by apply (input_faithful blank_mbd F _ _ _ _ G Hf Hi Hl H1).
Qed.

Lemma events_live p evs : forall w,
  good w -> faithful blank_mbd w -> mbd_events_ok p evs w ->
  exists w', res_fold (fun w ev => proc_event p ev w) evs w = Ok w' /\ good w' /\ faithful blank_mbd w'.
Proof using HU HI HC HF HN HW HL.
  induction evs as [|ev evs IH]; intros w G Hf Hok; cbn [res_fold]; [by exists w|]. destruct Hok as [H1 H2].
  destruct (event_lives p ev w G Hf H1) as (w1 & Hw & G1 & F1). rewrite Hw. cbn [res_bind]. apply IH; [done..|by apply H2].
Qed.

(** The rounds are one sequence of events. *)
Lemma loop_events p rounds w :
  mbd_loop (mp_addrs p) (mp_chan_mbd p) (mp_chan_timer p) (mp_threshold p) rounds w =
  res_fold (fun w ev => proc_event p ev w) (concat (map (default []) rounds)) w.
Proof using Type.
  revert w. unfold mbd_loop. induction rounds as [|r rounds IH]; intros w; cbn [res_fold map concat]; [done|].
  rewrite res_fold_app. unfold proc_event at 1. destruct (res_fold _ (default [] r) w); cbn [res_bind]; [apply IH|done].
Qed.

(** ** The start *)

Lemma key_loads key : (AUTH_KEY_SIZE <= length key)%nat -> forall age, (auth_init (Some key) 1 age auth_start).2 = true.
Proof using Type.
  intros Hk age. unfold auth_init, auth_load_key. cbn [auth_key_loaded auth_start].
  rewrite (proj2 (Nat.eqb_eq _ _) (length_take_le key _ Hk)). by destruct (0 <? age).
Qed.

Lemma job_init_recovers w f :
  (forall k, alloc_ok (ce_env E) k = true) -> good w -> faithful blank_mbd w -> log_is f (manifest w) ->
  exists w', job_init (ce_env E) f ps1 (on_disk (disk_of w) (cs_mbd c1)) = Ok w' /\
    good w' /\ faithful blank_mbd w' /\ durables w' = durables w.
Proof using HU HI HC HF HN HW HL.
  pose proof blank_first_start as F. intros Ha G Hf Hlog. unfold job_init.
  change (job_reset ps1 (on_disk (disk_of w) (cs_mbd c1))) with (restarted blank_mbd w).
  destruct f as [| |text err]; [|done|].
  - cbn in Hlog. destruct Hf as [Hc Hd]. rewrite Hlog in Hd. cbn in Hd. injection Hd as Hd.
    assert (Hb : durables (restarted blank_mbd w) = ∅) by (unfold durables; cbn; by rewrite fmap_empty).
    exists (restarted blank_mbd w). split; [done|]. split; [split; apply F|]. split; [|congruence].
    split; [done|]. change (manifest (restarted blank_mbd w)) with (manifest w). by rewrite Hlog, Hb.
  - destruct Hlog as (-> & Hl1 & Hl2).
    destruct (restart_ok blank_mbd F (ce_env E) w text G Hf Ha (conj Hl1 Hl2)) as (w' & n & -> & G' & Hf' & Hd & _).
    exists w'. split; [done|]. by split_and!.
Qed.

Lemma init_recovers ie w :
  good w -> faithful blank_mbd w -> init_ok ie (disk_of w) ->
  exists p, mbd_init ie (disk_of w) (ps, loaded) c0 = Ok (Some p) /\
    good (mp_mbd p) /\ faithful blank_mbd (mp_mbd p) /\ durables (mp_mbd p) = durables w.
Proof using HU HI HC HF HN HW HL.
  intros G Hf [Hconf Ha (key & Hk & Hlen) ([[port cm] ct] & Hn) ([[path thr] sq] & He) Hlog [qs Hq] [hs Hh]].
  unfold mbd_init. rewrite Hconf, HC. cbn [pbind res_bind]. rewrite Hk.
  match goal with |- context [auth_init ?k ?r ?a ?s] => pose proof (key_loads key Hlen a) as Hok; destruct (auth_init k r a s) as [au ok] end.
  cbn in Hok. subst ok. cbn [negb]. rewrite Hn, He. cbn [res_bind].
  destruct (job_init_recovers w (ie_log ie) Ha G Hf Hlog) as (w1 & -> & G1 & F1 & D1). cbn [res_bind]. rewrite Hq, Hh.
  eexists. split; [reflexivity|]. cbn [mp_mbd].
  pose proof (same_life_trans _ _ _ (queue_state_init_same qs w1) (host_state_init_same hs _)) as S.
  destruct (same_life_good blank_mbd w1 _ S G1 F1) as [G2 F2]. split_and!; [done|done|]. destruct S as (_ & _ & _ & Hd & _). congruence.
Qed.

(** An empty log is told by the state of no jobs. *)
Lemma empty_disk d : d_log d = [] -> disk_of (on_disk d blank_mbd) = d /\ good (on_disk d blank_mbd) /\ faithful blank_mbd (on_disk d blank_mbd).
Proof using HU HI HC HF HN HW HL.
  intros Hd. pose proof blank_first_start as F. split; [by destruct d|]. split; [split; apply F|]. split; [done|].
  change (manifest (on_disk d blank_mbd)) with (d_log d). rewrite Hd. cbn. unfold durables. cbn. by rewrite fmap_empty.
Qed.

Lemma life_good p : mbd_life p -> good (mp_mbd p) /\ faithful blank_mbd (mp_mbd p).
Proof using HU HI HC HF HN HW HL.
  induction 1 as [ie d p Hd Hi Hm|ev p w' _ [G Hf] Hok Hm|ie p p' _ [G Hf] Hi Hm].
  - destruct (empty_disk d Hd) as (He & G & Hf). rewrite <- He in Hi, Hm.
    destruct (init_recovers ie _ G Hf Hi) as (x & Hx & G' & F' & _). rewrite Hm in Hx. by injection Hx as ->.
  - destruct (event_lives p ev _ G Hf Hok) as (x & Hx & G' & F'). rewrite Hm in Hx. by injection Hx as ->.
  - destruct (init_recovers ie _ G Hf Hi) as (x & Hx & G' & F' & _). rewrite Hm in Hx. by injection Hx as ->.
Qed.

End process.

(** ** An instance *)

Definition demo_ie (log : log_file) : init_env :=
  mk_init_env demo_conf_env 2 (Some (replicate 32 7)) 0 (mk_net_answers true (fun _ => 3) true (fun _ => 4) true)
    (fun _ => true) (Some ["."; "manifest"; "manifest.2"]) log (Some ["."]) (Some ["."]).

Definition demo_d0 : disk := mk_disk [] None ∅ ∅.

Definition demo_proc : mbd_proc :=
  match mbd_init (demo_ie LogMissing) demo_d0 (ll_params, false) demo_blank with
  | Ok (Some p) => p
  | _ => mk_mbd_proc demo0 ∅ auth_start 0 0 0
  end.

(** A connection from node1, a submission on it, and a tick. *)
Definition demo_ev (chan : Z) (m : arrival client_msg) : mbd_ev :=
  mk_mbd_ev chan true true m BadMessage (mk_accept_answers 9 (Some "10.0.0.1") true) demo_env.

Definition demo_sub : arrival client_msg := GoodMessage demo_user (MSubmit (demo_submit 2 "lic=1")).

Definition demo_mbd_rounds : list (option (list mbd_ev)) :=
  [Some [demo_ev 3 BadMessage; demo_ev 9 demo_sub]; None; Some [demo_ev 4 BadMessage]].

Lemma demo_proc_ok : mbd_init (demo_ie LogMissing) demo_d0 (ll_params, false) demo_blank = Ok (Some demo_proc).
Proof. vm_compute. reflexivity. Qed.

Lemma demo_init_ok : init_ok demo_conf_env demo_configured.1 (demo_ie LogMissing) demo_d0.
Proof.
  split; [done|done| | | |done|by eexists|by eexists].
  - exists (replicate 32 7). split; [done|]. by vm_compute.
  - eexists. vm_compute. reflexivity.
  - eexists. vm_compute. reflexivity.
Qed.

(** The state after the submission, and after the tick. *)
Definition demo_mbd1 : mbd := or_else (proc_event demo_proc (demo_ev 9 demo_sub) (mp_mbd demo_proc)) demo0.
Definition demo_mbd2 : mbd := or_else (schedule demo_env demo_mbd1) demo0.

Lemma demo_rounds_ok : mbd_rounds_ok demo_proc demo_mbd_rounds (mp_mbd demo_proc).
Proof.
  assert (E1 : proc_event demo_proc (demo_ev 3 BadMessage) (mp_mbd demo_proc) = Ok (mp_mbd demo_proc)) by (vm_compute; reflexivity).
  assert (E2 : proc_event demo_proc (demo_ev 9 demo_sub) (mp_mbd demo_proc) = Ok demo_mbd1) by (vm_compute; reflexivity).
  assert (E3 : schedule demo_env demo_mbd1 = Ok demo_mbd2) by (vm_compute; reflexivity).
  assert (C1 : mp_chan_timer demo_proc = 4) by (vm_compute; reflexivity).
  assert (C2 : mp_chan_mbd demo_proc = 3) by (vm_compute; reflexivity).
  split; [unfold mbd_event_ok; by rewrite C1, C2|]. intros w1 H1. rewrite E1 in H1. assert (w1 = mp_mbd demo_proc) as -> by congruence. split.
  - unfold mbd_event_ok. rewrite C1, C2. split; [|apply demo_submit_logs]. assert (Hc : sbd_chan_hash (mp_mbd demo_proc) !! 9 = None) by (vm_compute; reflexivity).
    split; [done|]. split; [done|]. split; [exact demo_errnos|]. cbn [me_chan demo_ev]. rewrite Hc.
    split; [by apply demo_submit_sane|]. split; [done|]. intros st ds Hp. vm_compute in Hp. injection Hp as _ <-. by left.
  - intros w2 H2. rewrite E2 in H2. assert (w2 = demo_mbd1) as -> by congruence. split; [|by intros]. unfold mbd_event_ok. rewrite C1. split.
    + split; [done|]. split; [done|]. vm_compute. discriminate.
    + intros w3 H3. cbn [me_env demo_ev] in H3. rewrite E3 in H3. assert (w3 = demo_mbd2) as -> by congruence. intros Hle. exfalso.
      assert (Hlt : (Z.of_nat (length (finish_jobs_list demo_mbd2)) <? mp_threshold demo_proc) = true) by (vm_compute; reflexivity).
      apply Z.ltb_lt in Hlt. exact (Z.lt_irrefl _ (Z.lt_le_trans _ _ _ Hlt Hle)).
Qed.

