(* ===== verification/Channel.v ===== *)
(** * Channels (src/base/lib/ll.channel.c)

    The table of channels of a daemon, the framing of messages on a stream (a header of
    fixed size that announces the length of the payload), the partial reads and writes
    of a non-blocking socket, and the blocking calls of the clients.  What the kernel
    answers to a system call is an argument. *)

From S2P Require Import Prelude CString MbdTypes MbdBase MbdJob MbdSched SbdTypes Wire.
From S2P Require Import WireXdr WireProps.

Open Scope list_scope.
Open Scope Z_scope.

(** ** Data *)

Definition CHAN_MAX : nat := N.to_nat 10204.

Inductive chan_type : Type := UDP_SERVER | TCP_SERVER | TCP_CONNECT | TCP_CLIENT | UDP_CLIENT | TIMER_FD.

Inductive chan_event : Type := CHAN_EPOLLNONE | CHAN_EPOLLIN | CHAN_EPOLLOUT | CHAN_EPOLLERR.

#[export] Instance chan_type_eq_dec : EqDecision chan_type.
Proof. solve_decision. Defined.

#[export] Instance chan_event_eq_dec : EqDecision chan_event.
Proof. solve_decision. Defined.

(** [cb_data] holds the bytes written to the buffer so far. *)
Record chan_buffer : Type := mk_chan_buffer {
  cb_data : list Z;
  cb_pos : nat;
  cb_len : nat
}.

Definition chan_buffer_eta (x : chan_buffer) : chan_buffer := mk_chan_buffer (cb_data x) (cb_pos x) (cb_len x).
#[export] Instance set_cb_data : Setter cb_data. Proof. setter chan_buffer_eta. Defined.
#[export] Instance set_cb_pos : Setter cb_pos. Proof. setter chan_buffer_eta. Defined.
#[export] Instance set_cb_len : Setter cb_len. Proof. setter chan_buffer_eta. Defined.

Record chan_data : Type := mk_chan_data {
  ch_sock : Z;
  ch_type : chan_type;
  ch_send : list chan_buffer;
  ch_recv : list chan_buffer;
  ch_events : chan_event
}.

Definition chan_data_eta (x : chan_data) : chan_data :=
  mk_chan_data (ch_sock x) (ch_type x) (ch_send x) (ch_recv x) (ch_events x).
#[export] Instance set_ch_sock : Setter ch_sock. Proof. setter chan_data_eta. Defined.
#[export] Instance set_ch_type : Setter ch_type. Proof. setter chan_data_eta. Defined.
#[export] Instance set_ch_send : Setter ch_send. Proof. setter chan_data_eta. Defined.
#[export] Instance set_ch_recv : Setter ch_recv. Proof. setter chan_data_eta. Defined.
#[export] Instance set_ch_events : Setter ch_events. Proof. setter chan_data_eta. Defined.

(** ** The kernel's side *)

(** What [read] or [write] does: EINTR, EAGAIN, another errno, or at most [k + 1] bytes. *)
Inductive io_outcome : Type :=
  | IoIntr
  | IoAgain
  | IoError
  | IoSome (k : nat).

Inductive read_result : Type :=
  | ReadIntr
  | ReadAgain
  | ReadError
  | ReadBytes (bytes : list Z).

(** [read] of up to [n] bytes from the bytes [s] that have arrived; no byte is the end
    of the stream. *)
Definition sock_read (o : io_outcome) (n : nat) (s : list Z) : read_result * list Z :=
  match o with
  | IoIntr => (ReadIntr, s)
  | IoAgain => (ReadAgain, s)
  | IoError => (ReadError, s)
  | IoSome k => (ReadBytes (take (Nat.min (S k) n) s), drop (Nat.min (S k) n) s)
  end.

(** ** Reading and writing one channel *)

(** [make_buf] after a [calloc] that succeeded. *)
Definition make_buf : chan_buffer := mk_chan_buffer [] 0 0.

Section io.
Context `{XdrLib}.

(** The header is complete: room for the payload, or a message of a header alone; for a
    negative length neither. *)
Definition header_done (al : bool) (b : chan_buffer) (bs : list chan_buffer) (chan : chan_data) : chan_data :=
  let keep b := chan <| ch_recv := b :: bs |> in
  match get xdr_pack_hdr (cb_data b) with
  | None => (keep b) <| ch_events := CHAN_EPOLLERR |>
  | Some (hdr, _) =>
      if 0 <? hdr_length hdr then
        if al && (Z.of_nat PACKET_HEADER_SIZE + hdr_length hdr <=? INT32_MAX)
        then keep (b <| cb_len := (PACKET_HEADER_SIZE + Z.to_nat (hdr_length hdr))%nat |>)
        else (keep b) <| ch_events := CHAN_EPOLLERR |>
      else if hdr_length hdr =? 0 then (keep b) <| ch_events := CHAN_EPOLLIN |>
      else keep b
  end.

(** One [read] into the buffer [b] up to [upto] bytes, then [k] on what it holds. *)
Definition read_into (o : io_outcome) (upto : nat) (b : chan_buffer) (bs : list chan_buffer) (s : list Z)
    (chan : chan_data) (k : chan_buffer -> chan_data) : chan_data * list Z :=
  let keep b := chan <| ch_recv := b :: bs |> in
  match sock_read o (upto - cb_pos b) s with
  | (ReadIntr, s) | (ReadAgain, s) => (keep b, s)
  | (ReadError, s) | (ReadBytes [], s) => ((keep b) <| ch_events := CHAN_EPOLLERR |>, s)
  | (ReadBytes bytes, s) => (k (b <| cb_data ::= fun d => d ++ bytes |> <| cb_pos ::= fun p => (p + length bytes)%nat |>), s)
  end.

(** [al i] answers the allocation of the buffer, of the header and of the payload; the
    channel afterwards and the bytes left to read. *)
Definition doread (al : nat -> bool) (o : io_outcome) (s : list Z) (chan : chan_data) : chan_data * list Z :=
  let found := match ch_recv chan with
               | [] => if al 0%nat then Some (make_buf, []) else None
               | b :: bs => Some (b, bs)
               end in
  match found with
  | None => (chan <| ch_events := CHAN_EPOLLERR |>, s)
  | Some (b, bs) =>
      let keep b := chan <| ch_recv := b :: bs |> in
      if (cb_len b =? 0)%nat && negb (al 1%nat) then ((keep b) <| ch_events := CHAN_EPOLLERR |>, s)
      else
        let b := if (cb_len b =? 0)%nat then mk_chan_buffer [] 0 PACKET_HEADER_SIZE else b in
        if (cb_len b =? PACKET_HEADER_SIZE)%nat && (cb_pos b <? PACKET_HEADER_SIZE)%nat then
          read_into o PACKET_HEADER_SIZE b bs s chan (fun b =>
            if (cb_pos b =? PACKET_HEADER_SIZE)%nat then header_done (al 2%nat) b bs chan else keep b)
        else if (cb_pos b <? cb_len b)%nat then
          read_into o (cb_len b) b bs s chan (fun b =>
            if (cb_pos b =? cb_len b)%nat then (keep b) <| ch_events := CHAN_EPOLLIN |> else keep b)
        else (keep b, s)
  end.

(** The channel, the bytes handed to the kernel, and whether the interest in writing is
    given up. *)
Definition dowrite (o : io_outcome) (chan : chan_data) : chan_data * list Z * bool :=
  match ch_send chan with
  | [] => (chan, [], false)
  | b :: bs =>
      match o with
      | IoIntr | IoAgain => (chan, [], false)
      | IoError => (chan <| ch_events := CHAN_EPOLLERR |>, [], true)
      | IoSome k =>
          let cc := Nat.min (S k) (cb_len b - cb_pos b) in
          let out := take cc (drop (cb_pos b) (cb_data b)) in
          let b := b <| cb_pos ::= fun p => (p + cc)%nat |> in
          if (cb_pos b =? cb_len b)%nat
          then (chan <| ch_send := bs |>, out, match bs with [] => true | _ => false end)
          else (chan <| ch_send := b :: bs |>, out, false)
      end
  end.

(** The body of the loop of [chan_epoll]: [ein] and [eout] are the events of the kernel. *)
Definition chan_epoll_one (al : nat -> bool) (ein : option io_outcome) (eout : option io_outcome) (s : list Z)
    (chan : chan_data) : chan_data * list Z * list Z * bool :=
  let chan := chan <| ch_events := CHAN_EPOLLNONE |> in
  match ch_type chan with
  | TCP_SERVER | UDP_SERVER | TIMER_FD => (chan <| ch_events := CHAN_EPOLLIN |>, s, [], false)
  | _ =>
      let '(chan, s) := match ein with Some o => doread al o s chan | None => (chan, s) end in
      match eout with
      | Some o => let '(chan, out, off) := dowrite o chan in (chan, s, out, off)
      | None => (chan, s, [], false)
      end
  end.
End io.

(** ** The table

    [channels] has [CHAN_MAX] entries; an index outside is an access out of bounds. *)

Definition upd_chan (cs : list chan_data) (i : nat) (f : chan_data -> chan_data) : list chan_data := alter f i cs.

Definition chan_at (cs : list chan_data) (id : Z) : res chan_data :=
  if id <? 0 then Crash BadIndex else nth_res cs (Z.to_nat id).

Definition free_chan : chan_data := mk_chan_data (-1) UDP_SERVER [] [] CHAN_EPOLLNONE.

(** The table is zeroed before; the type of a channel is set when it is opened. *)
Definition chan_init : list chan_data := replicate CHAN_MAX free_chan.

Fixpoint chan_find_free_from (cs : list chan_data) (i : nat) : option nat :=
  match cs with
  | [] => None
  | c :: cs' => if ch_sock c =? -1 then Some i else chan_find_free_from cs' (S i)
  end.

Definition chan_find_free (cs : list chan_data) : option nat := chan_find_free_from cs 0.

Definition chan_is_udp (t : chan_type) : bool := match t with UDP_CLIENT | UDP_SERVER => true | _ => false end.

(** The bound is tested with [>], so that [CHAN_MAX] itself passes. *)
Definition out_of_range (id : Z) : bool := (id <? 0) || (Z.of_nat CHAN_MAX <? id).

Definition chan_is_valid (cs : list chan_data) (id : Z) : res bool :=
  if out_of_range id then Ok false
  else let* c := chan_at cs id in Ok (negb (ch_sock c =? -1)).

Definition chan_sock (cs : list chan_data) (id : Z) : res Z :=
  if out_of_range id then Ok (-1) else let* c := chan_at cs id in Ok (ch_sock c).

(** [socket]: the descriptor, or [None]; [steps] answers the calls that follow it. *)
Definition open_socket (cs : list chan_data) (sock : option Z) (steps : bool) (f : chan_data -> chan_data)
    : list chan_data * option nat :=
  match chan_find_free cs, sock with
  | Some i, Some fd =>
      if steps then (upd_chan cs i (fun c => f (c <| ch_sock := fd |>)), Some i)
      else (upd_chan cs i (fun c => c <| ch_sock := -1 |>), None)
  | _, _ => (cs, None)
  end.

Definition chan_udp_server (sock : option Z) (setsockopt_ok bind_ok : bool) (cs : list chan_data)
    : list chan_data * option nat :=
  open_socket cs sock (setsockopt_ok && bind_ok) (fun c => c <| ch_type := UDP_SERVER |>).

Definition chan_tcp_server (sock : option Z) (setsockopt_ok bind_ok listen_ok : bool) (cs : list chan_data)
    : list chan_data * option nat :=
  open_socket cs sock (setsockopt_ok && bind_ok && listen_ok) (fun c => c <| ch_type := TCP_SERVER |>).

Definition chan_udp_client (sock : option Z) (cs : list chan_data) : list chan_data * option nat :=
  open_socket cs sock true (fun c => c <| ch_type := UDP_CLIENT |> <| ch_events := CHAN_EPOLLNONE |>).

Definition chan_tcp_client (sock : option Z) (cs : list chan_data) : list chan_data * option nat :=
  open_socket cs sock true (fun c => c <| ch_type := TCP_CLIENT |> <| ch_events := CHAN_EPOLLNONE |>).

(** The channel of an accepted socket; a failure leaves the socket open and unowned. *)
Definition chan_open (s : Z) (nonblock_ok : bool) (cs : list chan_data) : list chan_data * option nat :=
  match chan_find_free cs with
  | None => (cs, None)
  | Some i =>
      if negb nonblock_ok then (cs, None)
      else (upd_chan cs i (fun c => c <| ch_type := TCP_CONNECT |> <| ch_sock := s |> <| ch_send := [] |> <| ch_recv := [] |>),
            Some i)
  end.

Definition chan_accept (accepted : option Z) (nonblock_ok : bool) (id : Z) (cs : list chan_data)
    : res (list chan_data * option nat) :=
  let* c := chan_at cs id in
  if negb (bool_decide (ch_type c = TCP_SERVER)) then Ok (cs, None)
  else match accepted with
       | None => Ok (cs, None)
       | Some s => Ok (chan_open s nonblock_ok cs)
       end.

(** [false] for -1. *)
Definition chan_close (id : Z) (cs : list chan_data) : res (list chan_data * bool) :=
  if out_of_range id then Ok (cs, false)
  else
    let* c := chan_at cs id in
    if ch_sock c <? 0 then Ok (cs, false)
    else Ok (upd_chan cs (Z.to_nat id) (fun c =>
               c <| ch_send := [] |> <| ch_recv := [] |> <| ch_events := CHAN_EPOLLNONE |> <| ch_sock := -1 |>), true).

Definition chan_create_timer (tfd : option Z) (settime_ok : bool) (cs : list chan_data) : res (list chan_data * option nat) :=
  match chan_find_free cs, tfd with
  | Some i, Some fd =>
      let cs := upd_chan cs i (fun c => c <| ch_sock := fd |> <| ch_type := TIMER_FD |>) in
      if settime_ok then Ok (cs, Some i)
      else let* (cs, _) := chan_close (Z.of_nat i) cs in Ok (cs, None)
  | _, _ => Ok (cs, None)
  end.

Definition chan_enqueue (id : Z) (msg : chan_buffer) (cs : list chan_data) : res (list chan_data * bool) :=
  let* ok := chan_is_valid cs id in
  if negb ok then Ok (cs, false)
  else Ok (upd_chan cs (Z.to_nat id) (fun c => c <| ch_send ::= fun l => l ++ [msg] |>), true).

(** The oldest message received; [inl] is the errno. *)
Definition chan_dequeue (id : Z) (cs : list chan_data) : res (list chan_data * (Z + chan_buffer)) :=
  let* ok := chan_is_valid cs id in
  if negb ok then Ok (cs, inl EINVAL)
  else
    let* c := chan_at cs id in
    match ch_recv c with
    | [] => Ok (cs, inl ENOENT)
    | b :: bs => Ok (upd_chan cs (Z.to_nat id) (fun c => c <| ch_recv := bs |>), inr b)
    end.

Definition chan_has_error (cs : list chan_data) (id : Z) : res bool :=
  let* c := chan_at cs id in Ok (bool_decide (ch_events c = CHAN_EPOLLERR)).

Definition chan_is_readable (cs : list chan_data) (id : Z) : res bool :=
  let* ok := chan_is_valid cs id in
  if negb ok then Ok false
  else
    let* c := chan_at cs id in
    Ok (bool_decide (ch_events c = CHAN_EPOLLIN) || bool_decide (ch_events c = CHAN_EPOLLERR)).

(** The interest in writing of a channel: [None] when it is not changed. *)
Definition chan_set_write_interest (efd : Z) (ctl_ok : bool) (on : bool) : option bool :=
  if efd <? 0 then None else if ctl_ok then Some on else None.

(** [calloc] of the buffer and of its data. *)
Definition chan_alloc_buf (al1 al2 : bool) (size : nat) : option chan_buffer :=
  if negb al1 then None else if negb al2 then None
  else Some (mk_chan_buffer (replicate size 0) 0 0).

(** ** Blocking calls

    One outcome for each system call; the loops go on until they have all the bytes. *)
Inductive loop_result (A : Type) : Type :=
  | LoopDone (a : A)
  | LoopFail
  | LoopBlocked.
Arguments LoopDone {A} a.
Arguments LoopFail {A}.
Arguments LoopBlocked {A}.

(** The bytes read, the outcomes left and the bytes left on the socket. *)
Fixpoint read_loop (again : bool) (os : list io_outcome) (n : nat) (got s : list Z)
    : loop_result (list Z * list io_outcome * list Z) :=
  match n with
  | O => LoopDone (got, os, s)
  | S _ =>
      match os with
      | [] => LoopBlocked
      | o :: os =>
          match sock_read o n s with
          | (ReadIntr, s) => read_loop again os n got s
          | (ReadAgain, s) => if again then read_loop again os n got s else LoopFail
          | (ReadError, _) | (ReadBytes [], _) => LoopFail
          | (ReadBytes bytes, s) => read_loop again os (n - length bytes) (got ++ bytes) s
          end
      end
  end.

Definition chan_read (os : list io_outcome) (n : nat) (s : list Z) := read_loop false os n [] s.

(** With a poll before each read, whose time-out or error is an [IoError]. *)
Definition chan_read_nonblock (nonblock_ok : bool) (os : list io_outcome) (n : nat) (s : list Z) :=
  if nonblock_ok then read_loop true os n [] s else LoopFail.

(** The bytes handed to the kernel and the outcomes left. *)
Fixpoint write_loop (os : list io_outcome) (buf sent : list Z) : loop_result (list Z * list io_outcome) :=
  match buf with
  | [] => LoopDone (sent, os)
  | _ =>
      match os with
      | [] => LoopBlocked
      | IoIntr :: os => write_loop os buf sent
      | IoAgain :: _ | IoError :: _ => LoopFail
      | IoSome k :: os => write_loop os (drop (S k) buf) (sent ++ take (S k) buf)
      end
  end.

Definition chan_write (os : list io_outcome) (buf : list Z) := write_loop os buf [].

Section rpc.
Context `{XdrLib}.

Definition send_protocol_header (os : list io_outcome) (hdr : protocol_header) : loop_result (list Z * list io_outcome) :=
  match xdr_write (xdrmem_create (replicate PACKET_HEADER_SIZE 0)) (put xdr_pack_hdr hdr) with
  | None => LoopFail
  | Some x => chan_write os (xm_buf x)
  end.

Definition recv_protocol_header (os : list io_outcome) (s : list Z)
    : loop_result (protocol_header * list io_outcome * list Z) :=
  match chan_read os PACKET_HEADER_SIZE s with
  | LoopDone (b, os, s) =>
      match get xdr_pack_hdr b with
      | None => LoopFail
      | Some (hdr, _) => LoopDone (hdr, os, s)
      end
  | LoopFail => LoopFail
  | LoopBlocked => LoopBlocked
  end.

(** [ready] is what [rd_poll] answers, [reply] the bytes that arrive; the bytes sent, the
    header and the payload of the reply. *)
Definition chan_rpc (os : list io_outcome) (snd : list Z) (ready alloc : bool) (reply : list Z)
    : loop_result (list Z * protocol_header * list Z) :=
  match chan_write os snd with
  | LoopDone (sent, os) =>
      if negb ready then LoopFail
      else
        match recv_protocol_header os reply with
        | LoopDone (hdr, os, s) =>
            if hdr_length hdr =? 0 then LoopDone (sent, hdr, [])
            else if negb alloc || (hdr_length hdr <? 0) then LoopFail
            else
              match chan_read os (Z.to_nat (hdr_length hdr)) s with
              | LoopDone (b, _, _) => LoopDone (sent, hdr, b)
              | LoopFail => LoopFail
              | LoopBlocked => LoopBlocked
              end
        | LoopFail => LoopFail
        | LoopBlocked => LoopBlocked
        end
  | LoopFail => LoopFail
  | LoopBlocked => LoopBlocked
  end.
End rpc.

(** ** Connecting *)

Record sockaddr_in : Type := mk_sockaddr_in { sin_addr : Z; sin_port : Z }.

#[export] Instance sockaddr_in_eq_dec : EqDecision sockaddr_in.
Proof. solve_decision. Defined.

(** [getsockname] and [getpeername], [None] when they fail. *)
Definition chan_self_connected (local remote : option sockaddr_in) : bool :=
  match local, remote with
  | Some l, Some r => bool_decide (l = r)
  | _, _ => false
  end.

Inductive connect_result : Type := ConnDone | ConnProgress | ConnFail (errno : Z).

(** What the calls of [chan_connect] answer. *)
Record connect_env : Type := mk_connect_env {
  cn_getfl : bool;
  cn_setfl : bool;
  cn_connect : connect_result;
  cn_poll : Z;
  cn_poll_errno : Z;
  cn_sockerr : option Z;
  cn_sockerr_errno : Z;
  cn_restore : bool;
  cn_local : option sockaddr_in;
  cn_remote : option sockaddr_in
}.

Definition ETIMEDOUT : Z := 110.

(** [None]: connected; [Some errno]: -1 with that errno ([-1] where it is left as it was). *)
Definition chan_connect (e : connect_env) (id : Z) (peer : option sockaddr_in) (cs : list chan_data) : res (option Z) :=
  let* ok := chan_is_valid cs id in
  if negb ok then Ok (Some (-1))
  else
    let* c := chan_at cs id in
    if negb (bool_decide (ch_type c = TCP_CLIENT)) then Ok (Some (-1))
    else match peer with
         | None => Ok (Some (-1))
         | Some _ =>
             if negb (cn_getfl e) then Ok (Some (-1))
             else if negb (cn_setfl e) then Ok (Some (-1))
             else
               let done :=
                 if negb (cn_restore e) then Some (-1)
                 else if chan_self_connected (cn_local e) (cn_remote e) then Some EPROTO
                 else None in
               Ok (match cn_connect e with
                   | ConnDone => done
                   | ConnFail errno => Some errno
                   | ConnProgress =>
                       if cn_poll e <? 0 then Some (cn_poll_errno e)
                       else if cn_poll e =? 0 then Some ETIMEDOUT
                       else match cn_sockerr e with
                            | None => Some (cn_sockerr_errno e)
                            | Some err => if negb (err =? 0) then Some err else done
                            end
                   end)
         end.

(** * What the channels promise

    Two daemons joined by a stream: whatever the kernel makes of the reads and writes,
    the messages come out as they went in, whole and in order. *)

Section link.
Context `{XdrLib} `{!XdrLaws}.

(** ** Frames *)

(** What [ll_encode_msg] leaves in a buffer: a header that announces the payload. *)
Definition framed (m : list Z) : Prop :=
  exists hdr body, m = put xdr_pack_hdr hdr ++ body /\ fits xdr_pack_hdr hdr = true /\
    hdr_length hdr = Z.of_nat (length body) /\ Z.of_nat (length m) <= INT32_MAX.

(** The bytes of a buffer to send, and those not sent yet. *)
Definition frame_of (b : chan_buffer) : list Z := take (cb_len b) (cb_data b).
Definition unsent (b : chan_buffer) : list Z := drop (cb_pos b) (frame_of b).

Lemma framed_length m : framed m -> (PACKET_HEADER_SIZE <= length m)%nat.
Proof using Type*. intros (hdr & body & -> & Hf & _ & _). rewrite length_app, pack_hdr_size by done. lia. Qed.

Lemma framed_header m :
  framed m -> exists hdr, get xdr_pack_hdr (take PACKET_HEADER_SIZE m) = Some (hdr, []) /\
    hdr_length hdr = Z.of_nat (length m - PACKET_HEADER_SIZE) /\ Z.of_nat (length m) <= INT32_MAX.
Proof using Type*.
  intros (hdr & body & -> & Hf & Hl & Hmax). exists hdr. pose proof (pack_hdr_size hdr Hf) as Hs.
  split; [|split; [rewrite length_app, Hl; lia|done]].
  rewrite take_app_length' by done. rewrite <- (app_nil_r (put xdr_pack_hdr hdr)). by apply (co_get _ pack_hdr_ok).
Qed.

(** ** The link *)

(** The sender's channel and its registration for writing, the bytes under way, the
    receiver's channel, what was queued and what was handed to the receiver's handlers. *)
Record link : Type := mk_link {
  lk_tx : chan_data;
  lk_interest : bool;
  lk_pipe : list Z;
  lk_rx : chan_data;
  lk_sent : list (list Z);
  lk_got : list (list Z);
  lk_closed : bool
}.

Definition is_stream (c : chan_data) : bool := match ch_type c with TCP_CONNECT | TCP_CLIENT => true | _ => false end.

(** The receiving daemon after one event: a complete message is taken off the channel, an
    error closes it. *)
Definition handle (c : chan_data) : chan_data * list (list Z) * bool :=
  match ch_events c with
  | CHAN_EPOLLIN =>
      match ch_recv c with
      | b :: bs => (c <| ch_recv := bs |>, [cb_data b], false)
      | [] => (c, [], false)
      end
  | CHAN_EPOLLERR => (c, [], true)
  | _ => (c, [], false)
  end.

(** A message is queued and the channel registered for writing; the kernel reports that
    the sender may write; it reports that the receiver may read.  As long as the sender
    lives, a read with nothing under way is an EAGAIN, not an end of the stream. *)
Inductive lstep : link -> link -> Prop :=
  | LSend tx i p rx s g b :
      framed (frame_of b) -> cb_pos b = 0%nat -> (cb_len b <= length (cb_data b))%nat ->
      lstep (mk_link tx i p rx s g false)
            (mk_link (tx <| ch_send ::= fun l => l ++ [b] |>) true p rx (s ++ [frame_of b]) g false)
  | LWrite tx p rx s g al o tx' out off :
      chan_epoll_one al None (Some o) [] tx = (tx', [], out, off) ->
      lstep (mk_link tx true p rx s g false)
            (mk_link tx' (negb off) (p ++ out) rx s g (bool_decide (ch_events tx' = CHAN_EPOLLERR)))
  | LRead tx i p rx s g al o rx' p' rx'' ms e :
      (forall k, o = IoSome k -> p <> []) ->
      chan_epoll_one al (Some o) None p rx = (rx', p', [], false) ->
      handle rx' = (rx'', ms, e) ->
      lstep (mk_link tx i p rx s g false) (mk_link tx i p' rx'' s (g ++ ms) e).

(** ** The invariant *)

Definition sendable (b : chan_buffer) : Prop :=
  framed (frame_of b) /\ (cb_pos b < cb_len b)%nat /\ (cb_len b <= length (cb_data b))%nat.

Definition partial (rx : chan_data) : list Z := match ch_recv rx with b :: _ => cb_data b | [] => [] end.

(** A receive buffer in the middle of the next message. *)
Definition receiving (b : chan_buffer) (ms : list (list Z)) : Prop :=
  cb_pos b = length (cb_data b) /\
  ((cb_len b = PACKET_HEADER_SIZE /\ (cb_pos b < PACKET_HEADER_SIZE)%nat) \/
   exists m ms', ms = m :: ms' /\ cb_len b = length m /\ (PACKET_HEADER_SIZE <= cb_pos b < cb_len b)%nat).

Record open_ok (l : link) (ms : list (list Z)) : Prop := mk_open_ok {
  oo_sent : lk_sent l = lk_got l ++ ms;
  oo_framed : Forall framed ms;
  oo_bytes : partial (lk_rx l) ++ lk_pipe l ++ concat (map unsent (ch_send (lk_tx l))) = concat ms;
  oo_send : Forall sendable (ch_send (lk_tx l));
  oo_interest : ch_send (lk_tx l) <> [] -> lk_interest l = true;
  oo_types : is_stream (lk_tx l) = true /\ is_stream (lk_rx l) = true;
  oo_recv : ch_recv (lk_rx l) = [] \/ exists b, ch_recv (lk_rx l) = [b] /\ receiving b ms
}.

Definition link_ok (l : link) : Prop :=
  if lk_closed l then exists ms, lk_sent l = lk_got l ++ ms else exists ms, open_ok l ms.

Lemma stream_epoll al ein eout s c :
  is_stream c = true ->
  chan_epoll_one al ein eout s c =
    let c := c <| ch_events := CHAN_EPOLLNONE |> in
    let '(c, s) := match ein with Some o => doread al o s c | None => (c, s) end in
    match eout with
    | Some o => let '(c, out, off) := dowrite o c in (c, s, out, off)
    | None => (c, s, [], false)
    end.
Proof. unfold is_stream, chan_epoll_one. cbn. by destruct (ch_type c). Qed.

(** ** Writing *)

Lemma dowrite_ok o c c' out off :
  dowrite o c = (c', out, off) -> Forall sendable (ch_send c) -> ch_send c <> [] -> ch_events c = CHAN_EPOLLNONE ->
  ch_type c' = ch_type c /\
  ((ch_events c' = CHAN_EPOLLERR /\ o = IoError) \/
   (ch_events c' = CHAN_EPOLLNONE /\ Forall sendable (ch_send c') /\
    concat (map unsent (ch_send c)) = out ++ concat (map unsent (ch_send c')) /\
    (ch_send c' <> [] -> off = false) /\
    ((exists k, o = IoSome k) -> out <> []))).
Proof.
  unfold dowrite. destruct (ch_send c) as [|b bs] eqn:Hs; [done|]. intros Hw HF _ He.
  apply Forall_cons in HF as [(Hb1 & Hb2 & Hb3) HF]. destruct o as [| | |k].
  - injection Hw as <- <- <-. split; [done|]. right. rewrite Hs. split_and!; try done; [by constructor|]. by intros [? ?].
  - injection Hw as <- <- <-. split; [done|]. right. rewrite Hs. split_and!; try done; [by constructor|]. by intros [? ?].
  - injection Hw as <- <- <-. split; [done|]. by left.
  - revert Hw. set (cc := Nat.min (S k) (cb_len b - cb_pos b)). assert (Hcc : (0 < cc <= cb_len b - cb_pos b)%nat) by lia. clearbody cc.
    assert (Hout : take cc (drop (cb_pos b) (cb_data b)) = take cc (unsent b)).
    { unfold unsent, frame_of. rewrite !take_drop_commute, take_take. do 2 f_equal. lia. }
    assert (Hlen : length (unsent b) = (cb_len b - cb_pos b)%nat).
    { unfold unsent, frame_of. rewrite length_drop, length_take. lia. }
    assert (Hne : take cc (unsent b) <> []).
    { intros Hx. apply (f_equal length) in Hx. rewrite length_take, Hlen in Hx. cbn [length] in Hx. lia. }
    change ((cb_pos (b <| cb_pos ::= fun p => (p + cc)%nat |>) =? cb_len (b <| cb_pos ::= fun p => (p + cc)%nat |>))%nat)
      with (cb_pos b + cc =? cb_len b)%nat.
    destruct (Nat.eqb_spec (cb_pos b + cc) (cb_len b)) as [Heq|Heq].
    + intros [= <- <- <-]. split; [done|]. right. rewrite Hout. cbn [map concat].
      split_and!; try done.
      * f_equal. symmetry. apply take_ge. lia.
      * by destruct bs.
    + intros [= <- <- <-]. split; [done|]. right. rewrite Hout. cbn -[unsent take drop].
      split_and!; try done.
      * constructor; [|done]. split_and!; [done|change (cb_pos b + cc < cb_len b)%nat; lia|done].
      * match goal with |- context [unsent ?b' ++ _] =>
          change (unsent b') with (drop (cb_pos b + cc) (frame_of b)) end.
        rewrite app_assoc. f_equal. rewrite <- drop_drop. fold (unsent b). symmetry. apply take_drop.
Qed.
(** ** Reading *)

Definition more (bytes : list Z) (b : chan_buffer) : chan_buffer :=
  b <| cb_data ::= fun d => d ++ bytes |> <| cb_pos ::= fun p => (p + length bytes)%nat |>.

Lemma read_into_cases o upto b p c k c' p' :
  read_into o upto b [] p c k = (c', p') -> (cb_pos b < upto)%nat -> (forall j, o = IoSome j -> p <> []) ->
  (c' = c <| ch_recv := [b] |> /\ p' = p /\ forall j, o <> IoSome j) \/
  (o = IoError /\ ch_events c' = CHAN_EPOLLERR /\ ch_type c' = ch_type c) \/
  (exists bytes, bytes <> [] /\ p = bytes ++ p' /\ (length bytes <= upto - cb_pos b)%nat /\ c' = k (more bytes b)).
Proof.
  unfold read_into. intros Hr Hlt Hp. destruct o as [| | |j]; cbn [sock_read] in Hr.
  - injection Hr as <- <-. left. split_and!; [done|done|by intros].
  - injection Hr as <- <-. left. split_and!; [done|done|by intros].
  - injection Hr as <- <-. right. left. done.
  - specialize (Hp j eq_refl). set (n := Nat.min (S j) (upto - cb_pos b)) in *. assert (Hn : (0 < n <= upto - cb_pos b)%nat) by lia. clearbody n.
    right. right. destruct (take n p) as [|z bs] eqn:Ht.
    + destruct p; [done|]. destruct n; [lia|]. cbn in Ht. discriminate.
    + pose proof (f_equal fst Hr) as H1. pose proof (f_equal snd Hr) as H2. cbn [fst snd] in H1, H2. subst c' p'.
      exists (z :: bs). split; [done|]. split; [by rewrite <- Ht, take_drop|].
      split; [rewrite <- Ht, length_take; lia|done].
Qed.

(** The buffer a read starts with. *)
Lemma doread_buffer al o p c ms :
  (ch_recv c = [] \/ exists b, ch_recv c = [b] /\ receiving b ms) ->
  ((exists i, al i = false) /\ ch_events (doread al o p c).1 = CHAN_EPOLLERR /\ ch_type (doread al o p c).1 = ch_type c) \/
  exists b, receiving b ms /\ cb_data b = partial c /\
    doread al o p c =
      if (cb_len b =? PACKET_HEADER_SIZE)%nat && (cb_pos b <? PACKET_HEADER_SIZE)%nat then
        read_into o PACKET_HEADER_SIZE b [] p c (fun b =>
          if (cb_pos b =? PACKET_HEADER_SIZE)%nat then header_done (al 2%nat) b [] c else c <| ch_recv := [b] |>)
      else if (cb_pos b <? cb_len b)%nat then
        read_into o (cb_len b) b [] p c (fun b =>
          if (cb_pos b =? cb_len b)%nat then c <| ch_recv := [b] |> <| ch_events := CHAN_EPOLLIN |> else c <| ch_recv := [b] |>)
      else (c <| ch_recv := [b] |>, p).
Proof.
  unfold doread, partial. intros [Hr|(b & Hr & Hb)]; rewrite Hr.
  - destruct (al 0%nat) eqn:A0; [|left; eauto]. cbn [make_buf cb_len Nat.eqb andb]. destruct (al 1%nat) eqn:A1; cbn [negb]; [|left; eauto].
    right. exists (mk_chan_buffer [] 0 PACKET_HEADER_SIZE). split; [|done]. split; [done|]. left. split; [done|]. cbn. unfold PACKET_HEADER_SIZE. lia.
  - right. exists b. split; [done|]. split; [done|].
    assert (Hz : (cb_len b =? 0)%nat = false).
    { apply Nat.eqb_neq. destruct Hb as [_ [[-> _]|(m & ms' & _ & _ & Hl)]]; unfold PACKET_HEADER_SIZE in *; lia. }
    rewrite Hz. done.
Qed.

Lemma concat_take (m : list Z) ms (d rest : list Z) :
  d ++ rest = concat (m :: ms) -> (length d <= length m)%nat -> d = take (length d) m.
Proof.
  intros He Hl. apply (f_equal (take (length d))) in He. rewrite take_app_length in He.
  etransitivity; [exact He|]. cbn [concat]. by rewrite take_app_le by lia.
Qed.

(** What one read makes of the channel, when the stream carries the messages [ms]. *)
Definition read_outcome (al : nat -> bool) (o : io_outcome) (p : list Z) (ms : list (list Z)) (c c' : chan_data)
    (p' : list Z) : Prop :=
  ch_type c' = ch_type c /\
  ((ch_events c' = CHAN_EPOLLERR /\ (o = IoError \/ exists i, al i = false)) \/
   (ch_events c' = CHAN_EPOLLNONE /\ partial c' ++ p' = partial c ++ p /\
    (exists b, ch_recv c' = [b] /\ receiving b ms) /\ ((exists k, o = IoSome k) -> (length p' < length p)%nat)) \/
   (ch_events c' = CHAN_EPOLLIN /\ (length p' < length p)%nat /\
    exists b m ms', ch_recv c' = [b] /\ ms = m :: ms' /\ cb_data b = m /\ m ++ p' = partial c ++ p)).

(** The two phases. *)
Lemma header_phase al o p c b ms rest c' p' :
  receiving b ms -> cb_data b = partial c -> ch_events c = CHAN_EPOLLNONE -> Forall framed ms ->
  partial c ++ p ++ rest = concat ms -> (forall k, o = IoSome k -> p <> []) ->
  cb_len b = PACKET_HEADER_SIZE -> (cb_pos b < PACKET_HEADER_SIZE)%nat ->
  read_into o PACKET_HEADER_SIZE b [] p c (fun b =>
    if (cb_pos b =? PACKET_HEADER_SIZE)%nat then header_done (al 2%nat) b [] c else c <| ch_recv := [b] |>) = (c', p') ->
  read_outcome al o p ms c c' p'.
Proof using Type*.
  intros [Hpos Hb] Hd He HF Hbytes Hp Hlen Hlt Hr.
  apply read_into_cases in Hr as [(-> & -> & Hno)|[(K0 & H1 & H2)|(bytes & Hne & -> & Hle & ->)]]; [| | |done|done].
  - split; [done|]. right. left. split; [done|]. unfold partial at 1. cbn. rewrite Hd. split; [done|].
    split; [exists b; split; [done|]; by split|]. intros [k ->]. by destruct (Hno k).
  - split; [done|]. left. by split; [|left].
  - assert (Hlb : (0 < length bytes)%nat) by (destruct bytes; [done|cbn; lia]).
    assert (Hsh : (length p' < length (bytes ++ p'))%nat) by (rewrite length_app; lia).
    destruct (Nat.eqb_spec (cb_pos (more bytes b)) PACKET_HEADER_SIZE) as [Heq|Hnq];
      [change (cb_pos b + length bytes = PACKET_HEADER_SIZE)%nat in Heq|change (cb_pos b + length bytes <> PACKET_HEADER_SIZE)%nat in Hnq].
    + assert (Hdl : length (partial c ++ bytes) = PACKET_HEADER_SIZE) by (rewrite length_app, <- Hd; lia).
      destruct ms as [|m ms'].
      { cbn in Hbytes. apply (f_equal length) in Hbytes. rewrite !length_app in Hbytes. cbn in Hbytes. lia. }
      apply Forall_cons in HF as [Hm HF]. pose proof (framed_length m Hm) as Hml.
      assert (Hpre : partial c ++ bytes = take PACKET_HEADER_SIZE m).
      { rewrite <- Hdl. apply (concat_take m ms' _ (p' ++ rest)); [by rewrite <- !app_assoc in *|lia]. }
      destruct (framed_header m Hm) as (hdr & Hg & Hl & Hmax). rewrite <- Hpre in Hg.
      unfold header_done. change (cb_data (more bytes b)) with (cb_data b ++ bytes). rewrite Hd, Hg, Hl.
      assert (Hpart : partial (c <| ch_recv := [more bytes b] |>) = partial c ++ bytes) by by rewrite <- Hd.
      destruct (Z.ltb_spec 0 (Z.of_nat (length m - PACKET_HEADER_SIZE))) as [Hpay|Hno].
      * rewrite (proj2 (Z.leb_le _ INT32_MAX)) by lia. rewrite andb_true_r.
        destruct (al 2%nat) eqn:A2; [|split; [done|]; left; by eauto]. split; [done|]. right. left. split; [done|].
        split; [unfold partial at 1; cbn; by rewrite Hd, <- app_assoc|]. split; [|done].
        eexists. split; [done|]. split; [cbn; rewrite length_app; lia|]. right. exists m, ms'. split; [done|].
        match goal with |- cb_len ?x = _ /\ _ =>
          change (cb_len x) with (PACKET_HEADER_SIZE + Z.to_nat (Z.of_nat (length m - PACKET_HEADER_SIZE)))%nat;
          change (cb_pos x) with (cb_pos b + length bytes)%nat end.
        rewrite Nat2Z.id. split; lia.
      * rewrite (proj2 (Z.eqb_eq _ 0)) by lia. split; [done|]. right. right. split; [done|]. split; [done|].
        exists (more bytes b), m, ms'. split; [done|]. split; [done|].
        assert (Hm' : m = partial c ++ bytes) by (rewrite Hpre, take_ge by lia; done).
        split; [cbn; by rewrite Hd|]. rewrite Hm' at 1. by rewrite <- app_assoc.
    + split; [done|]. right. left. split; [done|]. split; [unfold partial at 1; cbn; by rewrite Hd, <- app_assoc|].
      split; [|done]. exists (more bytes b). split; [done|]. split; [cbn; rewrite length_app; lia|]. left. split; [done|]. cbn. lia.
Qed.
Lemma payload_phase al o p c b ms rest c' p' :
  receiving b ms -> cb_data b = partial c -> ch_events c = CHAN_EPOLLNONE ->
  partial c ++ p ++ rest = concat ms -> (forall k, o = IoSome k -> p <> []) ->
  (PACKET_HEADER_SIZE <= cb_pos b < cb_len b)%nat ->
  read_into o (cb_len b) b [] p c (fun b =>
    if (cb_pos b =? cb_len b)%nat then c <| ch_recv := [b] |> <| ch_events := CHAN_EPOLLIN |> else c <| ch_recv := [b] |>) = (c', p') ->
  read_outcome al o p ms c c' p'.
Proof using Type*.
  intros Hrec Hd He Hbytes Hp Hlt Hr. pose proof Hrec as [Hpos [[H1 H2]|(m & ms' & -> & Hlen & _)]]; [lia|].
  apply read_into_cases in Hr as [(-> & -> & Hno)|[(K0 & H1 & H2)|(bytes & Hne & -> & Hle & ->)]]; [| | |lia|done].
  - split; [done|]. right. left. split; [done|]. unfold partial at 1. cbn. rewrite Hd. split; [done|].
    split; [by exists b|]. intros [k ->]. by destruct (Hno k).
  - split; [done|]. left. by split; [|left].
  - assert (Hlb : (0 < length bytes)%nat) by (destruct bytes; [done|cbn; lia]).
    assert (Hsh : (length p' < length (bytes ++ p'))%nat) by (rewrite length_app; lia).
    change (cb_pos (more bytes b)) with (cb_pos b + length bytes)%nat. change (cb_len (more bytes b)) with (cb_len b).
    assert (Hpart : cb_data (more bytes b) = partial c ++ bytes) by (cbn; by rewrite Hd).
    destruct (Nat.eqb_spec (cb_pos b + length bytes) (cb_len b)) as [Heq|Hnq]; (split; [done|]); right.
    + right. split; [done|]. split; [done|]. exists (more bytes b), m, ms'. split; [done|]. split; [done|].
      assert (Hdl : length (partial c ++ bytes) = length m) by (rewrite length_app, <- Hd; lia).
      assert (Hm : partial c ++ bytes = m).
      { rewrite (concat_take m ms' (partial c ++ bytes) (p' ++ rest)); [|by rewrite <- !app_assoc in *|lia].
        rewrite Hdl. apply take_ge. lia. }
      rewrite Hpart. split; [done|]. by rewrite <- Hm, <- app_assoc.
    + left. split; [done|]. split; [change (cb_data (more bytes b) ++ p' = partial c ++ bytes ++ p'); by rewrite Hpart, <- app_assoc|].
      split; [|done]. exists (more bytes b). split; [done|]. split; [cbn; rewrite length_app; lia|]. right.
      exists m, ms'. split; [done|]. split; [done|].
      change (PACKET_HEADER_SIZE <= cb_pos b + length bytes < cb_len b)%nat. lia.
Qed.

Lemma doread_ok al o p c ms rest c' p' :
  doread al o p c = (c', p') ->
  (ch_recv c = [] \/ exists b, ch_recv c = [b] /\ receiving b ms) -> ch_events c = CHAN_EPOLLNONE -> Forall framed ms ->
  partial c ++ p ++ rest = concat ms -> (forall k, o = IoSome k -> p <> []) -> read_outcome al o p ms c c' p'.
Proof using Type*.
  intros Hr Hrec He HF Hbytes Hp.
  destruct (doread_buffer al o p c ms Hrec) as [(K0 & H1 & H2)|(b & Hb & Hd & Heq)].
  - rewrite Hr in H1, H2. split; [done|]. left. by split; [|right].
  - rewrite Heq in Hr. clear Heq. pose proof Hb as [Hpos Hcase].
    destruct (Nat.eqb_spec (cb_len b) PACKET_HEADER_SIZE) as [Hl|Hl], (Nat.ltb_spec (cb_pos b) PACKET_HEADER_SIZE) as [Hq|Hq]; cbn [andb] in Hr.
    + by eapply header_phase.
    + destruct Hcase as [[_ ?]|(m & ms' & _ & _ & ?)]; lia.
    + destruct Hcase as [[? _]|(m & ms' & _ & _ & ?)]; [done|lia].
    + destruct Hcase as [[? _]|(m & ms' & -> & Hlen & Hlt)]; [done|].
      rewrite (proj2 (Nat.ltb_lt _ _)) in Hr by lia. by eapply payload_phase.
Qed.

(** ** Steps *)

Lemma is_stream_type c c' : ch_type c' = ch_type c -> is_stream c' = is_stream c.
Proof. unfold is_stream. by intros ->. Qed.

Lemma write_step tx p rx s g al o tx' out off :
  link_ok (mk_link tx true p rx s g false) ->
  chan_epoll_one al None (Some o) [] tx = (tx', [], out, off) ->
  link_ok (mk_link tx' (negb off) (p ++ out) rx s g (bool_decide (ch_events tx' = CHAN_EPOLLERR))).
Proof.
  unfold link_ok. cbn [lk_closed]. intros [ms [H1 H2 H3 H4 H5 [H6 H7] H8]] Hw.
  cbn [lk_sent lk_got lk_rx lk_pipe lk_tx lk_interest] in *.
  rewrite stream_epoll in Hw by done. cbn zeta in Hw. set (tx0 := tx <| ch_events := CHAN_EPOLLNONE |>) in Hw.
  destruct (dowrite o tx0) as [[c out'] off'] eqn:Hd. injection Hw as <- <- <-.
  destruct (decide (ch_send tx0 = [])) as [Hnil|Hne].
  - assert (Hx : dowrite o tx0 = (tx0, [], false)) by (unfold dowrite; by rewrite Hnil). rewrite Hx in Hd.
    injection Hd as <- <- <-. rewrite app_nil_r. rewrite bool_decide_false by done. exists ms. by split.
  - apply dowrite_ok in Hd as [Ht Hd]; [|done|done|done]. destruct Hd as [[-> _]|(He & HF & Hc & Hoff & _)].
    + rewrite bool_decide_true by done. eauto.
    + rewrite bool_decide_false by by rewrite He. exists ms. split; cbn [lk_sent lk_got lk_rx lk_pipe lk_tx lk_interest]; try done.
      * rewrite <- H3. change (ch_send tx) with (ch_send tx0). by rewrite Hc, <- app_assoc.
      * intros Hs. by rewrite (Hoff Hs).
      * by rewrite (is_stream_type tx0 c).
Qed.

Lemma read_step tx i p rx s g al o rx' p' rx'' ms e :
  link_ok (mk_link tx i p rx s g false) -> (forall k, o = IoSome k -> p <> []) ->
  chan_epoll_one al (Some o) None p rx = (rx', p', [], false) -> handle rx' = (rx'', ms, e) ->
  link_ok (mk_link tx i p' rx'' s (g ++ ms) e).
Proof using Type*.
  unfold link_ok. cbn [lk_closed]. intros [todo [H1 H2 H3 H4 H5 [H6 H7] H8]] Hp Hr Hh.
  cbn [lk_sent lk_got lk_rx lk_pipe lk_tx lk_interest] in *.
  rewrite stream_epoll in Hr by done. cbn zeta in Hr. set (rx0 := rx <| ch_events := CHAN_EPOLLNONE |>) in Hr.
  destruct (doread al o p rx0) as [c s'] eqn:Hd. injection Hr as <- <-.
  destruct (doread_ok al o p rx0 todo _ c s' Hd H8 eq_refl H2 H3 Hp)
    as [Ht [[He _]|[(He & Hpart & (b & Hb & Hbr) & _)|(He & _ & b & m & ms' & Hb & -> & Hm & Hpart)]]];
    unfold handle in Hh; rewrite He in Hh.
  - injection Hh as <- <- <-. rewrite app_nil_r. eauto.
  - injection Hh as <- <- <-. rewrite app_nil_r. exists todo. split; cbn [lk_sent lk_got lk_rx lk_pipe lk_tx lk_interest]; try done.
    + by rewrite app_assoc, Hpart, <- app_assoc.
    + by rewrite (is_stream_type rx0 c).
    + right. by exists b.
  - rewrite Hb in Hh. injection Hh as <- <- <-. rewrite Hm. exists ms'. apply Forall_cons in H2 as [_ H2].
    split; cbn [lk_sent lk_got lk_rx lk_pipe lk_tx lk_interest]; try done.
    + by rewrite H1, <- app_assoc.
    + change (partial rx) with (partial rx0) in H3. rewrite app_assoc, <- Hpart, <- app_assoc in H3. cbn [concat] in H3.
      by apply app_inv_head in H3.
    + split; [done|]. exact (eq_trans (is_stream_type rx0 c Ht) H7).
    + by left.
Qed.

Lemma send_step tx i p rx s g b :
  link_ok (mk_link tx i p rx s g false) -> framed (frame_of b) -> cb_pos b = 0%nat -> (cb_len b <= length (cb_data b))%nat ->
  link_ok (mk_link (tx <| ch_send ::= fun l => l ++ [b] |>) true p rx (s ++ [frame_of b]) g false).
Proof using Type*.
  unfold link_ok. cbn [lk_closed]. intros [todo [H1 H2 H3 H4 H5 [H6 H7] H8]] Hf Hpos Hlen.
  exists (todo ++ [frame_of b]). cbn [lk_sent lk_got lk_rx lk_pipe lk_tx lk_interest] in *.
  pose proof (framed_length _ Hf) as Hl. unfold frame_of in Hl. rewrite length_take in Hl. unfold PACKET_HEADER_SIZE in Hl.
  split; cbn [lk_sent lk_got lk_rx lk_pipe lk_tx lk_interest]; try done.
  - by rewrite H1, app_assoc.
  - apply Forall_app. by split; [|constructor].
  - change (ch_send (tx <| ch_send ::= fun l => l ++ [b] |>)) with (ch_send tx ++ [b]).
    rewrite map_app, !concat_app, <- H3. cbn [map concat]. unfold unsent at 2. rewrite Hpos, drop_0, <- !app_assoc. done.
  - change (ch_send (tx <| ch_send ::= fun l => l ++ [b] |>)) with (ch_send tx ++ [b]). apply Forall_app. split; [done|].
    constructor; [|done]. split_and!; [done|lia|done].
  - destruct H8 as [?|(b' & Hb & Hp & Hc)]; [by left|]. right. exists b'. split; [done|]. split; [done|].
    destruct Hc as [?|(m & ms' & -> & Hc)]; [by left|]. right. by exists m, (ms' ++ [frame_of b]).
Qed.

Lemma lstep_ok l l' : lstep l l' -> link_ok l -> link_ok l'.
Proof using Type*.
  intros [] HL.
  - by apply send_step with (i := i).
  - by eapply write_step.
  - by eapply read_step.
Qed.
(** Nothing under way and nothing queued: all of it was handed over. *)
Lemma drained_all l ms : open_ok l ms -> ch_send (lk_tx l) = [] -> lk_pipe l = [] -> ms = [].
Proof using Type*.
  intros [_ H2 H3 _ _ _ H8] Hs Hp. rewrite Hs, Hp in H3. cbn in H3. rewrite app_nil_r in H3.
  destruct ms as [|m ms]; [done|]. exfalso. apply Forall_cons in H2 as [Hm _]. apply framed_length in Hm.
  apply (f_equal length) in H3. cbn [concat] in H3. rewrite length_app in H3. unfold partial in H3.
  destruct H8 as [Hr|(b & Hr & Hpos & Hc)]; rewrite Hr in H3.
  - cbn in H3. unfold PACKET_HEADER_SIZE in Hm. lia.
  - destruct Hc as [[_ Hc]|(m' & ms' & [= <- <-] & Hl & Hc)]; lia.
Qed.

Definition in_flight (l : link) : nat :=
  (2 * length (concat (map unsent (ch_send (lk_tx l)))) + length (lk_pipe l))%nat.

(** A read that finds bytes takes some, one that is answered with bytes sends some. *)
Lemma read_progress tx i p rx s g :
  link_ok (mk_link tx i p rx s g false) -> p <> [] ->
  exists l', lstep (mk_link tx i p rx s g false) l' /\ lk_sent l' = s /\ lk_closed l' = false /\
    (in_flight l' < in_flight (mk_link tx i p rx s g false))%nat.
Proof using Type*.
  intros HL Hp. pose proof HL as [ms [H1 H2 H3 H4 H5 [H6 H7] H8]]. cbn [lk_sent lk_got lk_rx lk_pipe lk_tx lk_interest] in *.
  set (al := fun _ : nat => true). set (rx0 := rx <| ch_events := CHAN_EPOLLNONE |>).
  destruct (doread al (IoSome 0) p rx0) as [c s'] eqn:Hd.
  assert (Hr : chan_epoll_one al (Some (IoSome 0)) None p rx = (c, s', [], false)).
  { rewrite stream_epoll by done. cbn zeta. fold rx0. by rewrite Hd. }
  destruct (handle c) as [[rx'' out] e] eqn:Hh.
  assert (Hpp : forall k, IoSome 0 = IoSome k -> p <> []) by done.
  exists (mk_link tx i s' rx'' s (g ++ out) e). split; [by eapply LRead|]. split; [done|]. unfold in_flight. cbn [lk_tx lk_pipe lk_closed].
  destruct (doread_ok al (IoSome 0) p rx0 ms _ c s' Hd H8 eq_refl H2 H3 Hpp)
    as [Ht [[He [?|[? ?]]]|[(He & _ & _ & Hlt)|(He & Hlt & b & m & ms' & Hb & _)]]]; [done|done| |];
    unfold handle in Hh; rewrite He in Hh.
  - injection Hh as <- <- <-. split; [done|]. specialize (Hlt ltac:(eauto)). lia.
  - rewrite Hb in Hh. injection Hh as <- <- <-. split; [done|]. lia.
Qed.

Lemma write_progress tx i p rx s g :
  link_ok (mk_link tx i p rx s g false) -> ch_send tx <> [] ->
  exists l', lstep (mk_link tx i p rx s g false) l' /\ lk_sent l' = s /\ lk_closed l' = false /\
    (in_flight l' < in_flight (mk_link tx i p rx s g false))%nat.
Proof using Type*.
  intros HL Hne. pose proof HL as [ms [H1 H2 H3 H4 H5 [H6 H7] H8]]. cbn [lk_sent lk_got lk_rx lk_pipe lk_tx lk_interest] in *.
  rewrite (H5 Hne). set (tx0 := tx <| ch_events := CHAN_EPOLLNONE |>).
  destruct (dowrite (IoSome 0) tx0) as [[c out] off] eqn:Hd.
  assert (Hw : chan_epoll_one (fun _ => true) None (Some (IoSome 0)) [] tx = (c, [], out, off)).
  { rewrite stream_epoll by done. cbn zeta. fold tx0. by rewrite Hd. }
  eexists. split; [by eapply LWrite|]. split; [done|]. unfold in_flight. cbn [lk_tx lk_pipe lk_closed].
  apply dowrite_ok in Hd as [Ht [[_ ?]|(He & HF & Hc & _ & Hout)]]; [done| |done..].
  rewrite bool_decide_false by by rewrite He. split; [done|]. change (ch_send tx) with (ch_send tx0). rewrite Hc, !length_app.
  specialize (Hout ltac:(eauto)). destruct out; [done|]. cbn [length]. lia.
Qed.

Lemma drain n l :
  (in_flight l <= n)%nat -> link_ok l -> lk_closed l = false ->
  exists l', rtc lstep l l' /\ lk_sent l' = lk_sent l /\ lk_got l' = lk_sent l.
Proof using Type*.
  revert l. induction n as [n IH] using lt_wf_ind. intros l Hn HL Hc.
  destruct l as [tx i p rx s g cl]. cbn [lk_closed lk_sent] in *. subst cl.
  assert (Hgo : (exists l', lstep (mk_link tx i p rx s g false) l' /\ lk_sent l' = s /\ lk_closed l' = false /\
      (in_flight l' < in_flight (mk_link tx i p rx s g false))%nat) ->
    exists l', rtc lstep (mk_link tx i p rx s g false) l' /\ lk_sent l' = s /\ lk_got l' = s).
  { intros (l1 & Hstep & Hs1 & Hc1 & Hlt). destruct (IH (in_flight l1) ltac:(lia) l1) as (l' & K1 & K2 & K3);
      [lia|by eapply lstep_ok|done|]. exists l'. split; [by eapply rtc_l|]. rewrite Hs1 in K2, K3. done. }
  destruct (decide (p = [])) as [->|Hp]; [|by apply Hgo, read_progress].
  destruct (decide (ch_send tx = [])) as [Hs|Hs]; [|by apply Hgo, write_progress].
  pose proof HL as [ms Ho]. cbn in Ho. pose proof (drained_all _ _ Ho Hs eq_refl) as ->.
  pose proof (oo_sent _ _ Ho) as Hsent. cbn in Hsent. rewrite app_nil_r in Hsent.
  exists (mk_link tx i [] rx s g false). by split; [apply rtc_refl|].
Qed.

(** Two open stream channels with nothing queued. *)
Definition fresh_link (tx rx : chan_data) : link := mk_link tx false [] rx [] [] false.

Lemma fresh_ok tx rx :
  is_stream tx = true -> is_stream rx = true -> ch_send tx = [] -> ch_recv rx = [] -> link_ok (fresh_link tx rx).
Proof. intros H1 H2 H3 H4. exists []. split; cbn; rewrite ?H3, ?H4; try done; [unfold partial; by rewrite H4|by left]. Qed.

(** C14: The channels carry messages faithfully.  Between two daemons, whatever messages
    are queued and however the kernel splits the reads and the writes (a byte at a time,
    interrupted, refused for now, failed allocations), the receiver's handlers get exactly
    the messages queued, each whole, once and in order, never a part or a mixture; as long
    as neither end fails, a channel with something queued stays registered for writing,
    nothing is held back once queue and stream are empty, and there always is a way to
    get everything across. *)
Theorem channel_delivers tx rx l :
  is_stream tx = true -> is_stream rx = true -> ch_send tx = [] -> ch_recv rx = [] ->
  rtc lstep (fresh_link tx rx) l ->
  lk_got l `prefix_of` lk_sent l /\
  (lk_closed l = false ->
     (ch_send (lk_tx l) <> [] -> lk_interest l = true) /\
     (ch_send (lk_tx l) = [] -> lk_pipe l = [] -> lk_got l = lk_sent l) /\
     exists l', rtc lstep l l' /\ lk_sent l' = lk_sent l /\ lk_got l' = lk_sent l).
Proof using Type*.
  intros H1 H2 H3 H4 Hr.
  assert (HL : link_ok l).
  { apply (rtc_ind_r (R := lstep) link_ok (fresh_link tx rx)); [by apply fresh_ok| |done]. intros y z _ Hs HL. by apply (lstep_ok y z). }
  split.
  - unfold link_ok in HL. destruct (lk_closed l); [destruct HL as [ms ->]|destruct HL as [ms [-> _ _ _ _ _ _]]]; by eexists.
  - intros Hc. split_and!; [| |by eapply drain].
    + unfold link_ok in HL. rewrite Hc in HL. destruct HL as [ms Ho]. apply Ho.
    + intros Hs Hp. unfold link_ok in HL. rewrite Hc in HL. destruct HL as [ms Ho].
      pose proof (drained_all _ _ Ho Hs Hp) as ->. pose proof (oo_sent _ _ Ho) as Hsent. by rewrite app_nil_r in Hsent.
Qed.
End link.

(** *** A message in two pieces *)

Definition demo_chan : chan_data := mk_chan_data 7 TCP_CONNECT [] [] CHAN_EPOLLNONE.

Definition demo_frame : list Z := put xdr_pack_hdr init_protocol_header.

Definition demo_buffer : chan_buffer := mk_chan_buffer demo_frame 0 PACKET_HEADER_SIZE.

Definition demo_link : link :=
  mk_link (demo_chan <| ch_send := [demo_buffer] |>) true [] demo_chan [demo_frame] [] false.

Lemma demo_framed : framed (frame_of demo_buffer).
Proof. exists init_protocol_header, []. by vm_compute. Qed.

Lemma demo_link_reachable : rtc lstep (fresh_link demo_chan demo_chan) demo_link.
Proof. eapply rtc_once, (LSend demo_chan false [] demo_chan [] [] demo_buffer); [apply demo_framed|done|done]. Qed.

Lemma channel_delivers_witness :
  lk_got demo_link `prefix_of` lk_sent demo_link /\
  exists l', rtc lstep demo_link l' /\ lk_got l' = [demo_frame].
Proof.
  destruct (channel_delivers demo_chan demo_chan demo_link) as [H1 H2].
  - reflexivity.
  - reflexivity.
  - reflexivity.
  - reflexivity.
  - exact demo_link_reachable.
  - split; [exact H1|]. destruct (H2 eq_refl) as (_ & _ & l' & K1 & _ & K2). exists l'. split; [exact K1|exact K2].
Defined.

(** ** A header with a negative length *)

(** The kernel reports a channel readable again and again. *)
Definition poll_in `{XdrLib} (x : chan_data * list Z) (ev : (nat -> bool) * io_outcome) : chan_data * list Z :=
  let '(c, s, _, _) := chan_epoll_one ev.1 (Some ev.2) None x.2 x.1 in (c, s).

Lemma stalled_stays `{XdrLib} c s b ev :
  is_stream c = true -> ch_recv c = [b] -> cb_len b = PACKET_HEADER_SIZE -> cb_pos b = PACKET_HEADER_SIZE ->
  poll_in (c, s) ev = (c <| ch_events := CHAN_EPOLLNONE |>, s).
Proof.
  intros Hst Hr Hl Hp. unfold poll_in. cbn [fst snd]. rewrite stream_epoll by done. cbn zeta.
  set (c0 := c <| ch_events := CHAN_EPOLLNONE |>).
  assert (Hd : doread ev.1 ev.2 s c0 = (c0, s)).
  { unfold doread. change (ch_recv c0) with (ch_recv c). rewrite Hr. rewrite Hl.
    cbn [Nat.eqb andb PACKET_HEADER_SIZE]. rewrite Hl, Hp. cbn [Nat.eqb Nat.ltb Nat.leb andb PACKET_HEADER_SIZE]. rewrite <- Hr. by destruct c. }
  by rewrite Hd.
Qed.

(** A header with a negative length stops a channel for good, and it is looked at
    before the sender is authenticated: when a peer sends a header [h] that announces a
    negative length, and then anything, [s], the channel reads the header and from then on
    every report of the kernel that it is readable leaves what waits on the socket unread
    and tells the daemon nothing; the epoll loop is level triggered, so it spins. *)
Theorem negative_length_stalls `{XdrLib} c h s hdr rest evs :
  is_stream c = true -> ch_recv c = [] -> length h = PACKET_HEADER_SIZE ->
  get xdr_pack_hdr h = Some (hdr, rest) -> hdr_length hdr < 0 ->
  let x := poll_in (c, h ++ s) (fun _ => true, IoSome PACKET_HEADER_SIZE) in
  x.2 = s /\ ch_events x.1 = CHAN_EPOLLNONE /\
  (foldl poll_in x evs).2 = s /\ ch_events (foldl poll_in x evs).1 = CHAN_EPOLLNONE /\
  ch_recv (foldl poll_in x evs).1 = ch_recv x.1.
Proof.
  intros Hst Hr Hlen Hg Hneg x. set (b := mk_chan_buffer h PACKET_HEADER_SIZE PACKET_HEADER_SIZE).
  assert (Hx : x = (c <| ch_events := CHAN_EPOLLNONE |> <| ch_recv := [b] |>, s)).
  { subst x. unfold poll_in. cbn [fst snd]. rewrite stream_epoll by done. cbn zeta.
    set (c0 := c <| ch_events := CHAN_EPOLLNONE |>).
    assert (Hd : doread (fun _ => true) (IoSome PACKET_HEADER_SIZE) (h ++ s) c0 = (c0 <| ch_recv := [b] |>, s)).
    { unfold doread. change (ch_recv c0) with (ch_recv c). rewrite Hr.
      cbn [make_buf cb_len Nat.eqb andb negb PACKET_HEADER_SIZE cb_pos Nat.ltb Nat.leb]. unfold read_into.
      cbn [sock_read cb_pos Nat.sub Nat.min PACKET_HEADER_SIZE].
      rewrite take_app_length', drop_app_length' by done. destruct h as [|z h']; [done|].
      cbn [cb_data cb_pos upd set_cb_data set_cb_pos app Nat.add]. rewrite Hlen. cbn [Nat.eqb PACKET_HEADER_SIZE].
      unfold header_done. match goal with |- context [get xdr_pack_hdr ?d] => change d with (z :: h') end. rewrite Hg. rewrite (proj2 (Z.ltb_ge _ _)), (proj2 (Z.eqb_neq _ _)) by lia.
      done. }
    by rewrite Hd. }
  assert (Hev : forall c1, is_stream c1 = true -> ch_recv c1 = [b] -> ch_events c1 = CHAN_EPOLLNONE ->
    let y := foldl poll_in (c1, s) evs in y.2 = s /\ ch_events y.1 = CHAN_EPOLLNONE /\ ch_recv y.1 = [b]).
  { induction evs as [|ev evs IH]; intros c1 K1 K2 K3; [done|]. cbn [foldl].
    rewrite (stalled_stays c1 s b ev K1 K2) by done. by apply IH. }
  rewrite Hx. destruct (Hev (c <| ch_events := CHAN_EPOLLNONE |> <| ch_recv := [b] |>)) as (K1 & K2 & K3); done.
Qed.

Definition demo_bad_header : list Z := put xdr_pack_hdr (init_protocol_header <| hdr_length := -1 |>).

Lemma negative_length_stalls_witness :
  ch_events (foldl poll_in (poll_in (demo_chan, demo_bad_header ++ [1; 2; 3]) (fun _ => true, IoSome PACKET_HEADER_SIZE))
    (replicate 5 (fun _ => true, IoSome 9))).1 = CHAN_EPOLLNONE.
Proof.
  apply (negative_length_stalls demo_chan demo_bad_header [1; 2; 3] (init_protocol_header <| hdr_length := -1 |>) []).
  - reflexivity.
  - reflexivity.
  - reflexivity.
  - vm_compute. reflexivity.
  - reflexivity.
Defined.
