(* ===== verification/MbdInfo.v ===== *)
(** * Information requests (src/batch/mbd/dispatch.c)

    What mbd answers to bjobs, bqueues, bhosts, bgroups and btokens: the records it
    fills in, the array and the buffer it allocates for them, and the bytes it queues.
    None of these handlers changes the state of the daemon: they are functions of it. *)

From S2P Require Import Prelude CString LlHash Dependency LogFormat MbdTypes MbdBase MbdJob MbdSched SbdTypes Wire.
From S2P Require Import MbdInv MbdFrame MbdSafe MbdPlan MbdDemo.
From S2P Require Import WireXdr WireProps.

Open Scope string_scope.
Open Scope list_scope.
Open Scope Z_scope.

(** ** Struct sizes

    The layout the compiler gives a struct on a 64-bit machine: each member at the next
    multiple of its alignment, the whole padded to the largest one. *)
Inductive c_member : Type :=
  | CI32
  | CI64
  | CPtr
  | CChars (n : nat).

Definition c_size (m : c_member) : nat :=
  match m with CI32 => 4 | CI64 => 8 | CPtr => 8 | CChars n => n end%nat.

Definition c_align (m : c_member) : nat :=
  match m with CI32 => 4 | CI64 => 8 | CPtr => 8 | CChars _ => 1 end%nat.

Definition round_up (a n : nat) : nat := Nat.mul a ((n + (a - 1)) / a).

Definition sizeof (ms : list c_member) : nat :=
  round_up (foldr (fun m a => Nat.max (c_align m) a) 1%nat ms)
    (foldl (fun off m => (round_up (c_align m) off + c_size m)%nat) 0%nat ms).

Definition members_wire_job_info : list c_member :=
  [CI64; CI64; CI32; CI32; CI32; CI32; CI32; CI32; CI32; CI64; CI64; CI64; CI64;
   CChars LL_BUFSIZ_64; CChars LL_BUFSIZ_64; CChars MAXHOSTNAMELEN; CChars LL_BUFSIZ_4K; CChars LL_BUFSIZ_512].

Definition members_wire_host_info : list c_member :=
  [CChars MAXHOSTNAMELEN; CI32; CI32; CI32; CI32; CI32; CI64; CI64; CI64; CI64; CI32; CI32; CI32;
   CChars LL_BUFSIZ_64; CChars LL_BUFSIZ_64].

Definition members_wire_group_info : list c_member := [CChars LL_BUFSIZ_64; CI32; CChars LL_BUFSIZ_1K].

Definition members_wire_queue_info : list c_member :=
  [CChars LL_BUFSIZ_64; CChars LL_BUFSIZ_256; CI32; CPtr; CI32; CPtr;
   CI32; CI32; CI32; CI32; CI32; CI32; CI32; CI32; CI32; CI32].

Definition members_wire_token_info : list c_member := [CChars LL_BUFSIZ_64; CI32; CI32].

(** Every [..._array] is a count and a pointer. *)
Definition members_wire_array : list c_member := [CI32; CPtr].

(** ** Replies *)

Definition batch_op_num (op : batch_op) : Z :=
  match op with
  | BATCH_JOB_SUBMIT => 1 | BATCH_JOB_SUBMIT_ACK => 2 | BATCH_JOB_SIGNAL => 3 | BATCH_JOB_SIGNAL_ACK => 4
  | BATCH_JOB_INFO => 5 | BATCH_JOB_INFO_ACK => 6 | BATCH_HOST_INFO => 7 | BATCH_HOST_INFO_ACK => 8
  | BATCH_QUEUE_INFO => 9 | BATCH_QUEUE_INFO_ACK => 10 | BATCH_GROUP_INFO => 11 | BATCH_GROUP_INFO_ACK => 12
  | BATCH_SBD_REGISTER => 13 | BATCH_SBD_REGISTER_ACK => 14 | BATCH_TOKEN_INFO => 15 | BATCH_TOKEN_INFO_ACK => 16
  | BATCH_NEW_JOB => 17 | BATCH_NEW_JOB_REPLY => 18 | BATCH_NEW_JOB_REPLY_ACK => 19
  | BATCH_JOB_FINISH => 20 | BATCH_JOB_FINISH_ACK => 21
  | BATCH_SBD_JOB_SIGNAL => 22 | BATCH_SBD_JOB_SIGNAL_REPLY => 23 | BATCH_JOB_MISSING => 24
  | BATCH_QUEUE_ADMIN => 25 | BATCH_QUEUE_ADMIN_ACK => 26 | BATCH_HOST_ADMIN => 27 | BATCH_HOST_ADMIN_ACK => 28
  | BATCH_JOB_MOVE => 29 | BATCH_JOB_MOVE_ACK => 30 | BATCH_JOB_PRIORITY => 31 | BATCH_JOB_PRIORITY_ACK => 32
  end.

(** What a handler calls last: [enqueue_header], [enqueue_payload] with the size of the
    buffer, or nothing (a return of -1, after which the channel is closed). *)
Inductive info_reply : Type :=
  | ReplyHeader (op : batch_op) (status : Z)
  | ReplyPayload (op : batch_op) (t : wire_type) (a : wire_struct t) (siz : nat)
  | ReplyFail.

Section encode.
Context `{XdrLib}.

Definition reply_header (op : batch_op) (status : Z) : protocol_header :=
  init_protocol_header <| hdr_operation := batch_op_num op |> <| hdr_status := status |>.

(** The bytes [enqueue_payload] and [enqueue_header] put in the buffer; [None] when the
    encoding fails, which returns -1. *)
Definition encode_reply (r : info_reply) : option (list Z) :=
  match r with
  | ReplyHeader op status =>
      match xdr_write (xdrmem_create (replicate LL_BUFSIZ_256 0)) (put xdr_pack_hdr (reply_header op status)) with
      | Some x => Some (sent_bytes x)
      | None => None
      end
  | ReplyPayload op t a siz =>
      match ll_encode_msg (xdrmem_create (replicate siz 0)) (Some (Payload (xdr_wire t) a)) (reply_header op MBD_OK) with
      | Some (x, _) => Some (sent_bytes x)
      | None => None
      end
  | ReplyFail => None
  end.

(** ** Jobs *)

(** A [char] array of [n] bytes, zeroed, after [ll_strlcpy]. *)
Definition chars (n : nat) (s : string) : list Z :=
  let b := map code (list_ascii_of_string (strbuf n s)) in b ++ replicate (n - length b) 0.

(** The text of a [char] array: the bytes before the first NUL, which has to be in it. *)
Fixpoint c_str (b : list Z) : res string :=
  match b with
  | [] => Crash BadIndex
  | z :: b => if z =? 0 then Ok EmptyString else let* s := c_str b in Ok (String (ascii_of_nat (Z.to_nat z)) s)
  end.

Definition pend_reason_num (r : pend_reason) : Z :=
  match r with
  | PEND_NONE => 0 | PEND_JOB_NOT_READY => 1 | PEND_QUEUE_CLOSED => 2 | PEND_TOKENS => 3
  | PEND_NO_HOSTS => 4 | PEND_NOT_ENOUGH_CPUS => 5 | PEND_NOT_ENOUGH_MEM => 6
  | PEND_NOT_ENOUGH_STORAGE => 7 | PEND_NOT_ENOUGH_GPUS => 8 | PEND_GPU_MODEL => 9
  | PEND_HOST_EXCLUSIVE => 10 | PEND_HOST_OVERFLOW => 11 | PEND_DEPEND => 12
  end.

(** The line of hosts: "2@node1 2@node2". *)
Fixpoint info_hosts (first : bool) (buf : string) (ncpus : Z) (names : list string) : string :=
  match names with
  | [] => buf
  | n :: ns =>
      let buf := if first then buf else (ll_strlcat buf " " LL_BUFSIZ_4K).1 in
      let entry := strbuf (MAXHOSTNAMELEN + LL_BUFSIZ_64) (print_int ncpus +:+ "@" +:+ n) in
      info_hosts false (ll_strlcat buf entry LL_BUFSIZ_4K).1 ncpus ns
  end.

Definition job_data_to_wire (w : mbd) (j : job_data) : res wire_job_info :=
  let* st :=
    if state_is JOB_RUNNING j || state_is JOB_SUSPENDED j then
      let* h := run_host j 0 in
      let* hh := nth_res (hosts w) h in
      Ok (if sbd_chan hh <? 0 then JOB_UNKNOWN else state j)
    else Ok (state j) in
  let* q := job_queue w j in
  let* hs := run_host_ptrs j in
  let* names := host_names w hs in
  Ok (mk_wire_job_info (job_id j) (array_id j) (array_index j) (u32 (uid j)) (pid j)
    (job_state_num st) (exit_status j) (priority j) (pend_reason_num (pend_reason_of j))
    (submit_time j) (dispatch_time j) (end_time j) (susp_time j)
    (chars LL_BUFSIZ_64 (name j)) (chars LL_BUFSIZ_64 (q_name q)) (replicate MAXHOSTNAMELEN 0)
    (chars LL_BUFSIZ_4K (info_hosts true EmptyString (num_cpus (rsrc j)) names))
    (replicate LL_BUFSIZ_512 0)).

(** [job_data_to_wire(job, &dst[count]); count++] on an array of [cap] records, of which
    [dst] are filled in. *)
Definition collect_job (w : mbd) (cap : nat) (j : job_data) (dst : list wire_job_info) : res (list wire_job_info) :=
  let* _ := guard_or (length dst <? cap)%nat BadIndex in
  let* x := job_data_to_wire w j in
  Ok (dst ++ [x]).

Definition collect_list (w : mbd) (l : list Z) (cap : nat) (u : Z) (all : bool) (dst : list wire_job_info)
    : res (list wire_job_info) :=
  res_fold (fun dst id =>
    let* j := deref (jobs w !! id) in
    if negb all && negb (uid j =? u) then Ok dst else collect_job w cap j dst) l dst.

(** The loop of [maybe_collect_array]: [fuel] elements from [id] on. *)
Fixpoint collect_array_from (w : mbd) (cap : nat) (u : Z) (all : bool) (fuel : nat) (id : Z)
    (dst : list wire_job_info) : res (list wire_job_info) :=
  match fuel with
  | O => Ok dst
  | S f =>
      match job_find w id with
      | None => collect_array_from w cap u all f (id + 1) dst
      | Some j =>
          if negb all && negb (uid j =? u) then collect_array_from w cap u all f (id + 1) dst
          else
            let* dst := collect_job w cap j dst in
            collect_array_from w cap u all f (id + 1) dst
      end
  end.

Definition maybe_collect_array (w : mbd) (aid : Z) (cap : nat) (u : Z) (all : bool) (dst : list wire_job_info)
    : res (list wire_job_info) :=
  match job_find w aid with
  | None => Ok dst
  | Some head =>
      if negb (array_id head =? job_id head) then Ok dst
      else collect_array_from w cap u all (MbdJob.array_size head) (job_id head) dst
  end.

Definition info_ntotal (w : mbd) : nat :=
  (length (pend_jobs_list w) + length (run_jobs_list w) + length (finish_jobs_list w))%nat.

Definition jobs_reply (jobs : list wire_job_info) : info_reply :=
  ReplyPayload BATCH_JOB_INFO_ACK WJobInfoArray (mk_wire_job_info_array jobs)
    (sizeof members_wire_job_info * length jobs + sizeof members_wire_array + PACKET_HEADER_SIZE + LL_BUFSIZ_64)%nat.

(** The lookup of one job, shared by N[m] and N. *)
Definition jobs_info_one (w : mbd) (o : option job_data) (cap : nat) (u : Z) (all : bool) : res info_reply :=
  match o with
  | None => Ok (ReplyHeader BATCH_JOB_INFO_ACK ESRCH)
  | Some j =>
      if negb all && negb (uid j =? u) then Ok (ReplyHeader BATCH_JOB_INFO_ACK EPERM)
      else let* dst := collect_job w cap j [] in Ok (jobs_reply dst)
  end.

Definition jobs_info_ref (alloc : bool) (w : mbd) (u : Z) (req : wire_job_query) : res info_reply :=
  let all := is_manager w u in
  let ntotal := if (info_ntotal w =? 0)%nat then 1%nat else info_ntotal w in
  if negb alloc then Ok ReplyFail
  else if negb (wq_array_id req =? 0) then
    jobs_info_one w (job_find_array w (wq_array_id req) (wq_array_index req)) ntotal u all
  else
    let* dst := maybe_collect_array w (wq_job_id req) ntotal u all [] in
    if (length dst =? 0)%nat then jobs_info_one w (job_find w (wq_job_id req)) ntotal u all
    else Ok (jobs_reply dst).

Definition LLB_JOB_DONE : Z := 1.
Definition LLB_JOB_PEND : Z := 2.
Definition LLB_JOB_RUN : Z := 8.

Definition jobs_info_list (alloc : bool) (w : mbd) (caller : Z) (req : wire_job_query) : res info_reply :=
  let all := is_manager w caller in
  let u := if all then 0 else caller in
  let ntotal := info_ntotal w in
  if (0 <? ntotal)%nat then
    if negb alloc then Ok ReplyFail
    else
      let get l dst := collect_list w l ntotal u all dst in
      let* dst :=
        if wq_flags req =? 0 then
          let* dst := get (pend_jobs_list w) [] in
          get (run_jobs_list w) dst
        else
          let* dst := if has_flag (wq_flags req) LLB_JOB_PEND then get (pend_jobs_list w) [] else Ok [] in
          let* dst := if has_flag (wq_flags req) LLB_JOB_RUN then get (run_jobs_list w) dst else Ok dst in
          if has_flag (wq_flags req) LLB_JOB_DONE then get (finish_jobs_list w) dst else Ok dst in
      Ok (jobs_reply dst)
  else Ok (jobs_reply []).

(** [s] is the body of the message. *)
Definition jobs_info (alloc : bool) (w : mbd) (u : Z) (s : list Z) : res info_reply :=
  match get xdr_wire_job_query s with
  | None => Ok ReplyFail
  | Some (req, _) =>
      if negb (wq_job_id req =? -1) || negb (wq_array_id req =? 0) then jobs_info_ref alloc w u req
      else jobs_info_list alloc w u req
  end.
End encode.

(** ** Queues, groups, hosts, tokens *)

(** The keys of a membership table, in the order of its walk: [None] when the array
    cannot be allocated. *)
Definition hash_keys_dup {A} (alloc : bool) (h : gmap string A) : option (list string) :=
  if (size h =? 0)%nat then Some []
  else if negb alloc then None
  else Some (map fst (map_to_list h)).

Definition bytes_of (s : string) : list Z := map code (list_ascii_of_string s).

(** What the loop adds for one queue: the strings with four bytes each, and two counts. *)
Definition queue_strings_size (hs us : list string) : nat :=
  (list_sum (map (fun s => String.length s + 4) hs) + list_sum (map (fun s => String.length s + 4) us) + 8)%nat.

(** [alloc] answers the two allocations of each queue. *)
Fixpoint queues_info_loop (alloc : nat -> bool) (i : nat) (qs : list mbd_queue) : option (list wire_queue_info * nat) :=
  match qs with
  | [] => Some ([], 0%nat)
  | q :: qs' =>
      match hash_keys_dup (alloc (2 * i)%nat) (q_host_hash q), hash_keys_dup (alloc (2 * i + 1)%nat) (q_user_hash q) with
      | Some hs, Some us =>
          match queues_info_loop alloc (S i) qs' with
          | None => None
          | Some (l, siz) =>
              Some (mk_wire_queue_info (chars LL_BUFSIZ_64 (q_name q)) (chars LL_BUFSIZ_256 (q_description q))
                      (map bytes_of hs) (map bytes_of us) (q_priority q) (q_max_jobs q) (q_num_jobs q)
                      (q_num_pend q) (q_num_run q) (q_num_susp q) (q_num_held q) (q_cpus_used q) (q_hosts_used q)
                      (q_state q) :: l,
                    (queue_strings_size hs us + siz)%nat)
          end
      | _, _ => None
      end
  end.

Definition queues_info (alloc0 : bool) (alloc : nat -> bool) (w : mbd) : info_reply :=
  if negb alloc0 then ReplyFail
  else
    match queues_info_loop alloc 0 (queues w) with
    | None => ReplyFail
    | Some (l, siz) =>
        ReplyPayload BATCH_QUEUE_INFO_ACK WQueueInfoArray (mk_wire_queue_info_array l)
          (siz + sizeof members_wire_queue_info * length (queues w) + sizeof members_wire_array
           + PACKET_HEADER_SIZE + LL_BUFSIZ_64)%nat
    end.

(** The groups in the order of [group_list]. *)
Definition host_group_info (alloc : bool) (group_list : list mbd_group) : info_reply :=
  if negb alloc then ReplyFail
  else
    ReplyPayload BATCH_GROUP_INFO_ACK WGroupInfoArray
      (mk_wire_group_info_array (map (fun g =>
         mk_wire_group_info (chars LL_BUFSIZ_64 (grp_name g)) (grp_num_members g)
           (chars LL_BUFSIZ_1K (grp_members g))) group_list))
      (sizeof members_wire_group_info * length group_list + sizeof members_wire_array
       + PACKET_HEADER_SIZE + LL_BUFSIZ_64)%nat.

Definition host_to_wire (h : mbd_host) : wire_host_info :=
  mk_wire_host_info (chars MAXHOSTNAMELEN (h_name h)) (h_state h) (total_cpu h) (free_cpu h)
    (g_count (h_gpu h)) (gpu_ids_count_free (h_gpu h)) (total_mem_mb h) (free_mem_mb h)
    (total_storage_mb h) (free_storage_mb h) (h_num_jobs h) (h_num_run h) (h_num_susp h)
    (chars LL_BUFSIZ_64 (g_model (h_gpu h))) (chars LL_BUFSIZ_64 (g_ids_str (h_gpu h))).

Definition hosts_info (alloc : bool) (w : mbd) : info_reply :=
  if negb alloc then ReplyFail
  else
    ReplyPayload BATCH_HOST_INFO_ACK WHostInfoArray (mk_wire_host_info_array (map host_to_wire (hosts w)))
      (sizeof members_wire_host_info * length (hosts w) + sizeof members_wire_array
       + PACKET_HEADER_SIZE + LL_BUFSIZ_64)%nat.

Definition tokens_info (alloc : bool) (w : mbd) : info_reply :=
  if negb alloc then ReplyHeader BATCH_TOKEN_INFO_ACK ENOMEM
  else
    ReplyPayload BATCH_TOKEN_INFO_ACK WTokenInfoArray
      (mk_wire_token_info_array (map (fun p =>
         mk_wire_token_info (chars LL_BUFSIZ_64 (p_name p)) (p_total p) (p_free p)) (pools w)))
      (PACKET_HEADER_SIZE + length (pools w) * sizeof members_wire_token_info + LL_BUFSIZ_256)%nat.

(** * What the information requests promise *)

(** ** bjobs *)

Definition in_table (w : mbd) (j : job_data) : Prop := jobs w !! job_id j = Some j.

(** A user sees his own jobs, a manager all of them. *)
Definition visible (w : mbd) (u : Z) (j : job_data) : bool := is_manager w u || (uid j =? u).

(** The jobs a query asks for: the element m of array N, the job N or the elements of
    array N, or the jobs on the lists its flags name. *)
Definition asked (w : mbd) (req : wire_job_query) (j : job_data) : Prop :=
  if decide (wq_array_id req <> 0) then
    exists head k, jobs w !! wq_array_id req = Some head /\ array_id head = wq_array_id req /\
      (k < MbdJob.array_size head)%nat /\
      array_start head + Z.of_nat k * array_stride head = wq_array_index req /\
      job_id j = wq_array_id req + Z.of_nat k
  else if decide (wq_job_id req <> -1) then
    job_id j = wq_job_id req \/
    exists head, jobs w !! wq_job_id req = Some head /\ array_id head = wq_job_id req /\
      wq_job_id req <= job_id j < wq_job_id req + Z.of_nat (MbdJob.array_size head)
  else
    match list_id j with
    | JOB_LIST_PEND => wq_flags req = 0 \/ has_flag (wq_flags req) LLB_JOB_PEND = true
    | JOB_LIST_RUN => wq_flags req = 0 \/ has_flag (wq_flags req) LLB_JOB_RUN = true
    | JOB_LIST_FINISH => wq_flags req <> 0 /\ has_flag (wq_flags req) LLB_JOB_DONE = true
    end.

(** The answer to a query: the records of exactly the jobs asked for that the caller may
    see, each once; or the errno that says why there is none. *)
Definition answers (w : mbd) (u : Z) (req : wire_job_query) (r : info_reply) : Prop :=
  (exists js xs, r = jobs_reply xs /\ Forall2 (fun j x => job_data_to_wire w j = Ok x) js xs /\
     NoDup (map job_id js) /\ forall j, j ∈ js <-> in_table w j /\ asked w req j /\ visible w u j = true) \/
  (r = ReplyHeader BATCH_JOB_INFO_ACK ESRCH /\ forall j, in_table w j -> ~ asked w req j) \/
  (r = ReplyHeader BATCH_JOB_INFO_ACK EPERM /\ (exists j, in_table w j /\ asked w req j) /\
     forall j, in_table w j -> asked w req j -> visible w u j = false).

Section jobs.
Context (w : mbd) (HI : inv w).

Lemma to_wire_total id j : jobs w !! id = Some j -> exists x, job_data_to_wire w j = Ok x.
Proof using HI.
  intros Hj. destruct (inv_job w id j HI Hj) as [_ (q & Hq & Hlt) _ _ _ _ Hst (hs & Ht & Hl & HF)].
  cbn in Hq, Ht, Hl, HF. apply lookup_lt_is_Some in Hlt as [qq Hqq].
  assert (Hp : run_host_ptrs j = Ok hs) by by apply run_host_ptrs_plan.
  destruct (host_names_total w hs) as [ns Hns].
  { intros h Hh. rewrite Forall_forall in HF. by apply lookup_lt_is_Some, HF. }
  assert (Hs : exists st, (if state_is JOB_RUNNING j || state_is JOB_SUSPENDED j then
      let* h := run_host j 0 in
      let* hh := nth_res (hosts w) h in
      Ok (if sbd_chan hh <? 0 then JOB_UNKNOWN else state j)
    else Ok (state j)) = Ok st).
  { destruct (_ || _) eqn:Hr; [|eauto].
    assert (Hrun : list_id j = JOB_LIST_RUN).
    { apply (inv_state_run w id); try done. unfold state_is in Hr.
      apply orb_prop in Hr as [Hr|Hr]; apply bool_decide_eq_true in Hr; [by left|by right]. }
    destruct (run_host_0 w id j HI Hj Hrun) as (h & hh & -> & Hh). cbn [res_bind]. unfold nth_res. rewrite Hh.
    cbn [res_bind]. eauto. }
  destruct Hs as [st Hs]. unfold job_data_to_wire. rewrite Hs. cbn [res_bind].
  unfold job_queue, nth_res. rewrite Hq. cbn [deref res_bind]. rewrite Hqq. cbn [res_bind].
  rewrite Hp. cbn [res_bind]. rewrite Hns. cbn [res_bind]. eauto.
Qed.

(** The jobs of a sequence of ids that are there and that the caller sees. *)
Definition seen (vis : job_data -> bool) (ids : list Z) : list job_data :=
  List.filter vis (omap (fun id => jobs w !! id) ids).

Definition present (ids : list Z) : list job_data := omap (fun id => jobs w !! id) ids.

Lemma collect_job_ok cap id j dst :
  jobs w !! id = Some j -> (length dst < cap)%nat ->
  exists x, job_data_to_wire w j = Ok x /\ collect_job w cap j dst = Ok (dst ++ [x]).
Proof using HI.
  intros Hj Hc. destruct (to_wire_total id j Hj) as [x Hx]. exists x. split; [done|].
  unfold collect_job. rewrite (proj2 (Nat.ltb_lt _ _)) by lia. cbn [guard_or res_bind]. by rewrite Hx.
Qed.

Lemma collect_list_ok cap u all ids dst :
  Forall (fun id => is_Some (jobs w !! id)) ids -> (length dst + length ids <= cap)%nat ->
  exists xs, collect_list w ids cap u all dst = Ok (dst ++ xs) /\
    Forall2 (fun j x => job_data_to_wire w j = Ok x) (seen (fun j => all || (uid j =? u)) ids) xs.
Proof using HI.
  intros HF. revert dst. induction HF as [|id ids [j Hj] HF IH]; intros dst Hc; cbn in *.
  - exists []. by rewrite app_nil_r.
  - unfold collect_list, seen in *. cbn [res_fold omap list_omap]. rewrite Hj. cbn [deref res_bind List.filter].
    rewrite <- negb_orb. destruct (all || _); cbn [negb res_bind].
    + destruct (collect_job_ok cap id j dst Hj) as (x & Hx & ->); [lia|]. cbn [res_bind].
      destruct (IH (dst ++ [x])) as (xs & -> & H2); [rewrite length_app; cbn; lia|].
      exists (x :: xs). rewrite <- app_assoc. split; [done|]. by constructor.
    + apply IH. lia.
Qed.

Fixpoint ids_from (id : Z) (n : nat) : list Z := match n with O => [] | S n' => id :: ids_from (id + 1) n' end.

Lemma ids_from_elem id n i : i ∈ ids_from id n <-> id <= i < id + Z.of_nat n.
Proof.
  revert id. induction n as [|n IH]; intros id; cbn [ids_from].
  - split; [by intros ?%not_elem_of_nil|lia].
  - rewrite elem_of_cons, IH. lia.
Qed.

Lemma ids_from_NoDup id n : NoDup (ids_from id n).
Proof.
  revert id. induction n as [|n IH]; intros id; cbn [ids_from]; constructor; [|done].
  rewrite ids_from_elem. lia.
Qed.

Lemma collect_array_ok cap u all n id dst :
  (length dst + length (present (ids_from id n)) <= cap)%nat ->
  exists xs, collect_array_from w cap u all n id dst = Ok (dst ++ xs) /\
    Forall2 (fun j x => job_data_to_wire w j = Ok x) (seen (fun j => all || (uid j =? u)) (ids_from id n)) xs.
Proof using HI.
  revert id dst. induction n as [|n IH]; intros id dst; cbn [collect_array_from ids_from].
  - exists []. by rewrite app_nil_r.
  - unfold seen, present, job_find in *. cbn [omap list_omap]. destruct (jobs w !! id) as [j|] eqn:Hj; [|apply IH].
    cbn [List.filter length]. intros Hc. rewrite <- negb_orb. destruct (all || _); cbn [negb].
    + destruct (collect_job_ok cap id j dst Hj) as (x & Hx & ->); [lia|]. cbn [res_bind].
      destruct (IH (id + 1) (dst ++ [x])) as (xs & -> & H2); [rewrite length_app; cbn; lia|].
      exists (x :: xs). rewrite <- app_assoc. split; [done|]. by constructor.
    + apply IH. lia.
Qed.

(** A job in the table is on one of the three lists. *)
Definition all_ids : list Z := pend_jobs_list w ++ run_jobs_list w ++ finish_jobs_list w.

Lemma all_ids_elem id : id ∈ all_ids <-> is_Some (jobs w !! id).
Proof using HI.
  unfold all_ids. rewrite !elem_of_app.
  pose proof (proj2 (ao_lists _ HI JOB_LIST_PEND) id) as H1. pose proof (proj2 (ao_lists _ HI JOB_LIST_RUN) id) as H2.
  pose proof (proj2 (ao_lists _ HI JOB_LIST_FINISH) id) as H3. cbn in H1, H2, H3. rewrite cores_lookup in *.
  destruct (jobs w !! id) as [j|]; cbn in *.
  - split; [eauto|]. intros _. destruct (list_id j) eqn:Hl;
      [left; apply H1|right; left; apply H2|right; right; apply H3]; by exists (core j).
  - split; [|by intros [? ?]]. intros [H|[H|H]]; [apply H1 in H|apply H2 in H|apply H3 in H]; by destruct H as (? & ? & _).
Qed.

Lemma present_ids ids : map job_id (present ids) = List.filter (fun id => bool_decide (is_Some (jobs w !! id))) ids.
Proof using HI.
  unfold present. induction ids as [|id ids IH]; cbn; [done|]. destruct (jobs w !! id) as [j|] eqn:Hj; cbn.
  - by rewrite (inv_job_id w id j HI Hj), IH.
  - done.
Qed.

(** So an array of the size of the lists is large enough for distinct jobs. *)
Lemma present_length ids : NoDup ids -> (length (present ids) <= info_ntotal w)%nat.
Proof using HI.
  intros Hn. rewrite <- (length_map job_id), present_ids.
  assert (Hs : List.filter (fun id => bool_decide (is_Some (jobs w !! id))) ids ⊆+ all_ids).
  { apply NoDup_submseteq.
    - apply NoDup_ListNoDup, List.NoDup_filter, NoDup_ListNoDup, Hn.
    - intros id Hid. apply list_elem_of_In, filter_In in Hid as [_ Hid]. apply bool_decide_eq_true in Hid.
      by apply all_ids_elem. }
  apply submseteq_length in Hs. unfold all_ids in Hs. rewrite !length_app in Hs. unfold info_ntotal. lia.
Qed.

Lemma seen_elem vis ids j : j ∈ seen vis ids <-> in_table w j /\ job_id j ∈ ids /\ vis j = true.
Proof using HI.
  unfold seen. rewrite list_elem_of_In, filter_In, <- list_elem_of_In, list_elem_of_omap. split.
  - intros [(id & Hid & Hj) Hv]. rewrite <- (inv_job_id w id j HI Hj) in Hid. split; [|done].
    unfold in_table. by rewrite (inv_job_id w id j HI Hj).
  - intros (Hj & Hid & Hv). split; [|done]. by exists (job_id j).
Qed.

Lemma NoDup_map_filter {A B} (f : A -> B) p (l : list A) : NoDup (map f l) -> NoDup (map f (List.filter p l)).
Proof.
  induction l as [|x l IH]; cbn; [done|]. intros [Hx Hl]%NoDup_cons. destruct (p x); cbn; [|by apply IH].
  constructor; [|by apply IH]. intros Hin. apply Hx. apply list_elem_of_In, in_map_iff in Hin as (y & Hy & Hiny).
  apply filter_In in Hiny as [Hiny _]. rewrite <- Hy. apply list_elem_of_In, in_map_iff. eauto.
Qed.

Lemma seen_NoDup vis ids : NoDup ids -> NoDup (map job_id (seen vis ids)).
Proof using HI.
  intros Hn. apply NoDup_map_filter. fold (present ids). rewrite present_ids.
  by apply NoDup_ListNoDup, List.NoDup_filter, NoDup_ListNoDup.
Qed.

Lemma seen_app vis l1 l2 : seen vis (l1 ++ l2) = seen vis l1 ++ seen vis l2.
Proof. unfold seen. by rewrite omap_app, List.filter_app. Qed.

Lemma find_array_spec n idx st id t :
  (exists k, (k < n)%nat /\ idx + Z.of_nat k * st = t /\
     find_array_from w n idx st id t = job_find w (id + Z.of_nat k)) \/
  ((forall k, (k < n)%nat -> idx + Z.of_nat k * st <> t) /\ find_array_from w n idx st id t = None).
Proof.
  revert idx id. induction n as [|n IH]; intros idx id; cbn [find_array_from]; [right; split; [lia|done]|].
  destruct (Z.eqb_spec idx t) as [->|Hne].
  - left. exists 0%nat. split; [lia|]. split; [lia|]. by rewrite Z.add_0_r.
  - destruct (IH (idx + st) (id + 1)) as [(k & H1 & H2 & H3)|[H1 H2]].
    + left. exists (S k). split; [lia|]. split; [lia|]. rewrite H3. f_equal. lia.
    + right. split; [|done]. intros k Hk. destruct k as [|k]; [lia|]. specialize (H1 k ltac:(lia)). lia.
Qed.

(** The elements of an array have distinct indices. *)
Lemma array_index_inj j k1 k2 :
  (k1 < MbdJob.array_size j)%nat -> (k2 < MbdJob.array_size j)%nat ->
  array_start j + Z.of_nat k1 * array_stride j = array_start j + Z.of_nat k2 * array_stride j -> k1 = k2.
Proof.
  unfold MbdJob.array_size, range_count. destruct (Z.ltb_spec (array_end j) (array_start j)); [lia|].
  intros H1 H2 He. destruct (Z.lt_ge_cases 0 (array_stride j)); [nia|].
  assert (Hq : (array_end j - array_start j) / array_stride j <= 0).
  { destruct (Z.eq_dec (array_stride j) 0) as [->|]; [by rewrite Z.div_0_r|].
    pose proof (Z.div_mod (array_end j - array_start j) (array_stride j) ltac:(lia)).
    pose proof (Z.mod_neg_bound (array_end j - array_start j) (array_stride j) ltac:(lia)). nia. }
  lia.
Qed.

(** One job, or none: the answer of [jobs_info_one]. *)
Lemma one_answers o cap u req :
  (0 < cap)%nat ->
  (forall j, o = Some j -> in_table w j /\ asked w req j) ->
  (forall j, in_table w j -> asked w req j -> visible w u j = true -> o = Some j) ->
  (o = None -> forall j, in_table w j -> ~ asked w req j) ->
  (forall j, o = Some j -> visible w u j = false -> forall j', in_table w j' -> asked w req j' -> visible w u j' = false) ->
  exists r, jobs_info_one w o cap u (is_manager w u) = Ok r /\ answers w u req r.
Proof using HI.
  intros Hc H1 H2 H3 H4. unfold jobs_info_one, answers. destruct o as [j|].
  - destruct (H1 j eq_refl) as [Ht Ha]. rewrite <- negb_orb. change (is_manager w u || (uid j =? u)) with (visible w u j).
    destruct (visible w u j) eqn:Hv; cbn [negb].
    + destruct (collect_job_ok cap _ j [] Ht) as (x & Hx & ->); [cbn; lia|]. cbn [res_bind app].
      eexists. split; [done|]. left. exists [j], [x]. split; [done|]. split; [by repeat constructor|].
      split; [by apply NoDup_singleton|]. intros j'. rewrite list_elem_of_singleton. split; [by intros ->|].
      intros (K1 & K2 & K3). specialize (H2 j' K1 K2 K3). congruence.
    + eexists. split; [done|]. right. right. split; [done|]. split; [eauto|]. by apply (H4 j).
  - eexists. split; [done|]. right. left. split; [done|]. by apply H3.
Qed.

Lemma found_in_table id j : jobs w !! id = Some j -> in_table w j /\ job_id j = id.
Proof using HI. intros Hj. pose proof (inv_job_id w id j HI Hj) as Hi. unfold in_table. by rewrite Hi. Qed.

(** The element m of the array N: what [job_find_array] finds is what is asked for. *)
Lemma find_array_asked req j :
  wq_array_id req <> 0 ->
  job_find_array w (wq_array_id req) (wq_array_index req) = Some j <-> in_table w j /\ asked w req j.
Proof using HI.
  intros Hne. unfold asked. rewrite decide_True by done. unfold job_find_array, job_find. split.
  - destruct (jobs w !! wq_array_id req) as [head|] eqn:Hh; [|done]. pose proof (inv_job_id _ _ _ HI Hh) as Hi.
    rewrite Hi. destruct (Z.eqb_spec (array_id head) (wq_array_id req)) as [Ha|]; [|done]. cbn [negb].
    destruct (find_array_spec (MbdJob.array_size head) (array_start head) (array_stride head) (wq_array_id req) (wq_array_index req))
      as [(k & H1 & H2 & ->)|[_ ->]]; [|done]. intros Hj. destruct (found_in_table _ _ Hj) as [Ht Hid].
    split; [done|]. exists head, k. done.
  - intros (Ht & head & k & Hh & Ha & Hk & Hx & Hid). rewrite Hh. rewrite (inv_job_id _ _ _ HI Hh), Ha, Z.eqb_refl. cbn [negb].
    destruct (find_array_spec (MbdJob.array_size head) (array_start head) (array_stride head) (wq_array_id req) (wq_array_index req))
      as [(k' & H1 & H2 & ->)|[H1 _]]; [|by destruct (H1 k)].
    assert (k' = k) as -> by (apply (array_index_inj head); [done|done|lia]). unfold job_find. by rewrite <- Hid.
Qed.

(** The ids [maybe_collect_array] goes through for N. *)
Definition array_ids (N : Z) : list Z :=
  match jobs w !! N with
  | Some head => if array_id head =? N then ids_from N (MbdJob.array_size head) else []
  | None => []
  end.

Lemma array_ids_elem N i :
  i ∈ array_ids N <-> exists head, jobs w !! N = Some head /\ array_id head = N /\
    N <= i < N + Z.of_nat (MbdJob.array_size head).
Proof.
  unfold array_ids. destruct (jobs w !! N) as [head|]; [|split; [by intros ?%not_elem_of_nil|by intros (? & ? & _)]].
  destruct (Z.eqb_spec (array_id head) N).
  - rewrite ids_from_elem. split; [eauto|]. by intros (? & [= <-] & _ & ?).
  - split; [by intros ?%not_elem_of_nil|]. by intros (? & [= <-] & ? & _).
Qed.

Lemma array_ids_NoDup N : NoDup (array_ids N).
Proof. unfold array_ids. destruct (jobs w !! N); [|constructor]. destruct (_ =? _); [apply ids_from_NoDup|constructor]. Qed.

Lemma array_collected N cap u :
  (info_ntotal w <= cap)%nat ->
  exists xs, maybe_collect_array w N cap u (is_manager w u) [] = Ok xs /\
    Forall2 (fun j x => job_data_to_wire w j = Ok x) (seen (visible w u) (array_ids N)) xs.
Proof using HI.
  intros Hcap. pose proof (array_ids_NoDup N) as Hnd. unfold maybe_collect_array, job_find, array_ids in *.
  destruct (jobs w !! N) as [head|] eqn:Hh; [|by exists []].
  rewrite (inv_job_id _ _ _ HI Hh). destruct (array_id head =? N); [|by exists []]. cbn [negb].
  apply (collect_array_ok cap u (is_manager w u) _ N []). cbn [length Nat.add].
  transitivity (info_ntotal w); [by apply present_length|done].
Qed.

Lemma ref_answers u req :
  wq_job_id req <> -1 \/ wq_array_id req <> 0 ->
  exists r, jobs_info_ref true w u req = Ok r /\ answers w u req r.
Proof using HI.
  intros Href. unfold jobs_info_ref. cbn [negb].
  set (cap := if (info_ntotal w =? 0)%nat then 1%nat else info_ntotal w).
  assert (Hcap : (0 < cap)%nat /\ (info_ntotal w <= cap)%nat)
    by (unfold cap; destruct (Nat.eqb_spec (info_ntotal w) 0); lia).
  destruct (Z.eqb_spec (wq_array_id req) 0) as [H0|H0]; cbn [negb].
  2:{ apply one_answers; [lia|..].
      - intros j. by apply find_array_asked.
      - intros j H1 H2 _. by apply find_array_asked.
      - intros Hn j H1 H2. by rewrite (proj2 (find_array_asked req j H0)) in Hn.
      - intros j Hj Hv j' H1 H2. rewrite (proj2 (find_array_asked req j' H0)) in Hj by done. congruence. }
  assert (Hasked : forall j, asked w req j <-> job_id j = wq_job_id req \/ job_id j ∈ array_ids (wq_job_id req)).
  { intros j. unfold asked. rewrite decide_False by lia. rewrite decide_True by (destruct Href; done).
    by rewrite array_ids_elem. }
  set (N := wq_job_id req) in *. destruct (array_collected N cap u) as (xs & -> & Hxs); [lia|].
  cbn [res_bind]. pose proof (Forall2_length _ _ _ Hxs) as Hlen.
  destruct (Nat.eqb_spec (length xs) 0) as [Hz|Hz].
  - assert (Hnone : forall j, in_table w j -> job_id j ∈ array_ids N -> visible w u j = false).
    { intros j H1 H2. destruct (visible w u j) eqn:Hv; [|done]. exfalso.
      assert (Hin : j ∈ seen (visible w u) (array_ids N)) by by apply seen_elem.
      rewrite Hz in Hlen. apply length_zero_iff_nil in Hlen. rewrite Hlen in Hin. by apply not_elem_of_nil in Hin. }
    apply one_answers; [lia|..]; unfold job_find.
    + intros j Hj. destruct (found_in_table _ _ Hj) as [Ht Hi]. split; [done|]. apply Hasked. by left.
    + intros j H1 H2 Hv. apply Hasked in H2 as [H2|H2]; [by rewrite <- H2|]. by rewrite (Hnone j H1 H2) in Hv.
    + intros Hn j H1 H2. unfold in_table in H1. apply Hasked in H2 as [H2|H2]; [by rewrite H2, Hn in H1|].
      apply array_ids_elem in H2 as (head & Hh & _). by rewrite Hn in Hh.
    + intros j Hj Hv j' H1 H2. apply Hasked in H2 as [H2|H2]; [|by apply Hnone].
      unfold in_table in H1. rewrite H2 in H1. congruence.
  - eexists. split; [done|]. left. exists (seen (visible w u) (array_ids N)), xs. split; [done|]. split; [done|].
    split; [by apply seen_NoDup, array_ids_NoDup|]. intros j. rewrite seen_elem, Hasked.
    split; [tauto|]. intros (H1 & H2 & H3). split; [done|]. split; [|done]. destruct H2 as [H2|H2]; [|done].
    destruct (seen (visible w u) (array_ids N)) as [|j0 l] eqn:Hs; [cbn in Hlen; lia|].
    assert (Hin : j0 ∈ seen (visible w u) (array_ids N)) by (rewrite Hs; left). apply seen_elem in Hin as (_ & Hin & _).
    apply array_ids_elem in Hin as (head & K1 & K2 & K3). apply array_ids_elem. exists head. split; [done|]. split; [done|]. lia.
Qed.

(** The lists a query without a job names. *)
Definition listed_ids (req : wire_job_query) : list Z :=
  let on f := (wq_flags req =? 0) || has_flag (wq_flags req) f in
  (if on LLB_JOB_PEND then pend_jobs_list w else []) ++ (if on LLB_JOB_RUN then run_jobs_list w else []) ++
  (if negb (wq_flags req =? 0) && has_flag (wq_flags req) LLB_JOB_DONE then finish_jobs_list w else []).

Lemma list_elem l id : id ∈ job_list l w <-> exists j, jobs w !! id = Some j /\ list_id j = l.
Proof using HI.
  pose proof (proj2 (ao_lists _ HI l) id) as H. destruct l; cbn in *; rewrite H, cores_lookup;
    (destruct (jobs w !! id) as [j|]; cbn; (split; [intros (c & Hc & Hl)|intros (j' & Hc & Hl)]; [|]); try done;
     injection Hc as <-; eexists; split; done).
Qed.

Lemma all_ids_NoDup : NoDup all_ids.
Proof using HI.
  assert (Hdis : forall l1 l2 id, id ∈ job_list l1 w -> id ∈ job_list l2 w -> l1 = l2).
  { intros l1 l2 id (j1 & Hj1 & <-)%list_elem (j2 & Hj2 & <-)%list_elem. congruence. }
  unfold all_ids. apply NoDup_app. split; [apply (ao_lists _ HI JOB_LIST_PEND)|]. split.
  - intros id H1 [H2|H2]%elem_of_app.
    + by specialize (Hdis JOB_LIST_PEND JOB_LIST_RUN id H1 H2).
    + by specialize (Hdis JOB_LIST_PEND JOB_LIST_FINISH id H1 H2).
  - apply NoDup_app. split; [apply (ao_lists _ HI JOB_LIST_RUN)|]. split; [|apply (ao_lists _ HI JOB_LIST_FINISH)].
    intros id H1 H2. by specialize (Hdis JOB_LIST_RUN JOB_LIST_FINISH id H1 H2).
Qed.

Lemma listed_sublist req : listed_ids req `sublist_of` all_ids.
Proof.
  unfold listed_ids, all_ids. apply sublist_app; [destruct (_ || _); [done|apply sublist_nil_l]|].
  apply sublist_app; [destruct (_ || _); [done|apply sublist_nil_l]|].
  destruct (_ && _); [done|apply sublist_nil_l].
Qed.

Lemma listed_elem req j :
  wq_job_id req = -1 -> wq_array_id req = 0 -> in_table w j -> job_id j ∈ listed_ids req <-> asked w req j.
Proof using HI.
  intros H1 H2 Hj. unfold asked. rewrite decide_False by lia. rewrite decide_False by lia.
  assert (Hl : forall (b : bool) l, job_id j ∈ (if b then job_list l w else []) <-> b = true /\ list_id j = l).
  { intros b l. destruct b.
    - rewrite list_elem. split; [|intros [_ Hl]; by exists j]. intros (j' & Hj' & Hl). unfold in_table in Hj. split; congruence.
    - split; [by intros ?%not_elem_of_nil|by intros []]. }
  unfold listed_ids. rewrite !elem_of_app, (Hl _ JOB_LIST_PEND), (Hl _ JOB_LIST_RUN), (Hl _ JOB_LIST_FINISH).
  rewrite !orb_true_iff, andb_true_iff, negb_true_iff, Z.eqb_eq, Z.eqb_neq. destruct (list_id j); naive_solver.
Qed.

(** One of the walks of [jobs_info_list]. *)
Lemma walk_ok (b : bool) l u all cap dst :
  (length dst + length (if b then job_list l w else []) <= cap)%nat ->
  exists xs, (if b then collect_list w (job_list l w) cap u all dst else Ok dst) = Ok (dst ++ xs) /\
    Forall2 (fun j x => job_data_to_wire w j = Ok x)
      (seen (fun j => all || (uid j =? u)) (if b then job_list l w else [])) xs /\
    (length xs <= length (if b then job_list l w else []))%nat.
Proof using HI.
  intros Hc. destruct b; [|exists []; by rewrite app_nil_r].
  destruct (collect_list_ok cap u all (job_list l w) dst) as (xs & H1 & H2); [|done|].
  - apply Forall_forall. intros id Hid. apply list_elem in Hid as (j & Hj & _). eauto.
  - exists xs. split; [done|]. split; [done|]. apply Forall2_length in H2. rewrite <- H2. unfold seen.
    etransitivity; [apply List.filter_length_le|]. clear. induction (job_list l w) as [|i k IH]; cbn; [done|].
    destruct (jobs w !! i); cbn; lia.
Qed.

Lemma list_answers u req :
  wq_job_id req = -1 -> wq_array_id req = 0 ->
  exists r, jobs_info_list true w u req = Ok r /\ answers w u req r.
Proof using HI.
  intros H1 H2.
  assert (Hfin : forall xs, Forall2 (fun j x => job_data_to_wire w j = Ok x) (seen (visible w u) (listed_ids req)) xs ->
    answers w u req (jobs_reply xs)).
  { intros xs Hxs. left. exists (seen (visible w u) (listed_ids req)), xs. split; [done|]. split; [done|]. split.
    - apply seen_NoDup. eapply sublist_NoDup; [apply all_ids_NoDup|apply listed_sublist].
    - intros j. rewrite seen_elem. split; intros (K1 & K2 & K3); (split; [done|]; split; [|done]);
        by apply (listed_elem req j). }
  unfold jobs_info_list. cbn [negb].
  destruct (Nat.ltb_spec 0 (info_ntotal w)) as [Hn|Hn].
  - set (u' := if is_manager w u then 0 else u).
    assert (Hvis : forall ids, seen (fun j => is_manager w u || (uid j =? u')) ids = seen (visible w u) ids).
    { intros ids. apply List.filter_ext. intros j. unfold visible, u'. by destruct (is_manager w u). }
    set (b1 := (wq_flags req =? 0) || has_flag (wq_flags req) LLB_JOB_PEND).
    set (b2 := (wq_flags req =? 0) || has_flag (wq_flags req) LLB_JOB_RUN).
    set (b3 := negb (wq_flags req =? 0) && has_flag (wq_flags req) LLB_JOB_DONE).
    assert (Hlen : forall (b : bool) (l : list Z), (length (if b then l else []) <= length l)%nat) by (intros [] ?; cbn; lia).
    pose proof (Hlen b1 (pend_jobs_list w)). pose proof (Hlen b2 (run_jobs_list w)). pose proof (Hlen b3 (finish_jobs_list w)).
    destruct (walk_ok b1 JOB_LIST_PEND u' (is_manager w u) (info_ntotal w) []) as (x1 & E1 & F1 & L1).
    { cbn [length job_list]. unfold info_ntotal. lia. }
    destruct (walk_ok b2 JOB_LIST_RUN u' (is_manager w u) (info_ntotal w) x1) as (x2 & E2 & F2 & L2).
    { cbn [length job_list] in *. unfold info_ntotal. lia. }
    destruct (walk_ok b3 JOB_LIST_FINISH u' (is_manager w u) (info_ntotal w) (x1 ++ x2)) as (x3 & E3 & F3 & L3).
    { cbn [length job_list] in *. rewrite length_app. unfold info_ntotal. lia. }
    cbn [job_list app] in *. exists (jobs_reply ((x1 ++ x2) ++ x3)). split.
    + unfold b1, b2, b3 in E1, E2, E3. destruct (wq_flags req =? 0); cbn [orb andb negb] in *.
      * rewrite E1. cbn [res_bind]. rewrite E2. cbn [res_bind]. by injection E3 as <-.
      * rewrite E1. cbn [res_bind]. rewrite E2. cbn [res_bind]. by rewrite E3.
    + apply Hfin. rewrite <- app_assoc. unfold listed_ids. rewrite !seen_app, <- !Hvis.
      by repeat apply Forall2_app.
  - exists (jobs_reply []). split; [done|]. apply Hfin.
    assert (He : listed_ids req = []).
    { pose proof (listed_sublist req) as Hs. apply sublist_length in Hs. unfold all_ids in Hs. rewrite !length_app in Hs.
      unfold info_ntotal in Hn. apply length_zero_iff_nil. lia. }
    by rewrite He.
Qed.
End jobs.

Lemma jobs_info_answers `{XdrLib} w u s req rest :
  inv w -> get xdr_wire_job_query s = Some (req, rest) ->
  exists r, jobs_info true w u s = Ok r /\ answers w u req r.
Proof.
  intros HI Hg. unfold jobs_info. rewrite Hg.
  destruct (Z.eqb_spec (wq_job_id req) (-1)), (Z.eqb_spec (wq_array_id req) 0); cbn [negb orb];
    (by apply ref_answers; auto) || by apply list_answers.
Qed.

(** Bjobs is answered right and privately.  Whatever query a client sends, mbd neither
    crashes nor writes past the array it allocated; the reply carries a record for exactly
    the jobs asked for (the element of an array, a job or all the elements of an array, or
    the jobs on the lists the flags name) that the caller may see, his own or, for a
    manager, anyone's, and each of them once; when there is none it is ESRCH if no such job
    is in the table and EPERM only if there is one and it belongs to someone else. *)
Theorem jobs_info_correct `{XdrLib} w u s req rest :
  inv w -> get xdr_wire_job_query s = Some (req, rest) ->
  exists r, jobs_info true w u s = Ok r /\ answers w u req r.
Proof. apply jobs_info_answers. Qed.

Definition demo_query : wire_job_query := mk_wire_job_query 101 0 0 0 (-1).

Lemma jobs_info_correct_witness :
  exists r, jobs_info true demo3 1001 (put xdr_wire_job_query demo_query) = Ok r /\ answers demo3 1001 demo_query r.
Proof.
  apply (jobs_info_correct demo3 1001 (put xdr_wire_job_query demo_query) demo_query []).
  - exact demo_inv3.
  - vm_compute. reflexivity.
Defined.

(** ** The buffers of the replies *)

Section sizes.
Context `{XdrLib} `{!XdrLaws}.

Ltac field_sizes Hf :=
  cbn in Hf; repeat (apply andb_prop in Hf as [Hf ?]);
  rewrite !length_app, ?int32_size, ?uint32_size, ?int64_size, ?uint64_size, ?opaque_size by done; vm_compute; reflexivity.

Lemma job_info_size x : fits xdr_wire_job_info x = true -> length (put xdr_wire_job_info x) = N.to_nat 4876.
Proof using Type*. intros Hf. cbn. field_sizes Hf. Qed.

Lemma host_info_size x : fits xdr_wire_host_info x = true -> length (put xdr_wire_host_info x) = N.to_nat 256.
Proof using Type*. intros Hf. cbn. field_sizes Hf. Qed.

Lemma group_info_size x : fits xdr_wire_group_info x = true -> length (put xdr_wire_group_info x) = N.to_nat 1092.
Proof using Type*. intros Hf. cbn. field_sizes Hf. Qed.

Lemma token_info_size x : fits xdr_wire_token_info x = true -> length (put xdr_wire_token_info x) = N.to_nat 72.
Proof using Type*. intros Hf. cbn. field_sizes Hf. Qed.

(** An array of structs of one size. *)
Lemma array_even_size {A} (c : codec A) k l :
  (forall x, fits c x = true -> length (put c x) = k) -> fits (xdr_array INT32_MAX c) l = true ->
  length (put (xdr_array INT32_MAX c) l) = (4 + k * length l)%nat.
Proof using Type*.
  intros Hk Hf. rewrite Wire.array_size by done. f_equal. rewrite array_fits in Hf by (unfold UINT32_MAX, INT32_MAX; lia).
  apply andb_prop in Hf as [_ Hf]. induction l as [|x l IH]; cbn in *; [lia|].
  apply andb_prop in Hf as [Hx Hl]. rewrite (Hk x Hx), IH by done. lia.
Qed.

Lemma op_is_i32 op : is_i32 (batch_op_num op) = true.
Proof. by destruct op. Qed.

Lemma reply_header_fits op n :
  Z.of_nat n < 2 ^ 31 -> fits xdr_pack_hdr ((reply_header op MBD_OK) <| hdr_length := Z.of_nat n |>) = true.
Proof using Type*.
  intros Hn. cbn. rewrite !int32_fits, !uint32_fits, opaque_fits, op_is_i32. unfold is_i32 at 3.
  rewrite (proj2 (Z.leb_le _ (Z.of_nat n))), (proj2 (Z.ltb_lt (Z.of_nat n) _)) by lia. reflexivity.
Qed.

Lemma size_job_info : sizeof members_wire_job_info = N.to_nat 4880.
Proof. vm_compute. reflexivity. Qed.

Lemma size_host_info : sizeof members_wire_host_info = N.to_nat 264.
Proof. vm_compute. reflexivity. Qed.

Lemma size_group_info : sizeof members_wire_group_info = N.to_nat 1092.
Proof. vm_compute. reflexivity. Qed.

Lemma size_queue_info : sizeof members_wire_queue_info = N.to_nat 392.
Proof. vm_compute. reflexivity. Qed.

Lemma size_token_info : sizeof members_wire_token_info = N.to_nat 72.
Proof. vm_compute. reflexivity. Qed.

Lemma size_array : sizeof members_wire_array = N.to_nat 16.
Proof. vm_compute. reflexivity. Qed.

Ltac size_lia :=
  rewrite ?size_job_info, ?size_host_info, ?size_group_info, ?size_queue_info, ?size_token_info, ?size_array;
  unfold PACKET_HEADER_SIZE, LL_BUFSIZ_64, LL_BUFSIZ_256; lia.

(** A reply whose encoding fits its buffer is queued, and the client decodes it. *)
Definition delivered (r : info_reply) : Prop :=
  match r with
  | ReplyPayload op t a siz =>
      fits (xdr_wire t) a = true -> Z.of_nat siz < 2 ^ 31 ->
      exists s n, encode_reply r = Some s /\
        decode_msg (xdr_wire t) s = Some ((reply_header op MBD_OK) <| hdr_length := n |>, a, [])
  | _ => True
  end.

Lemma reply_delivered op t (a : wire_struct t) siz :
  (fits (xdr_wire t) a = true -> (PACKET_HEADER_SIZE + length (put (xdr_wire t) a) <= siz)%nat) ->
  delivered (ReplyPayload op t a siz).
Proof using Type*.
  intros Hroom Hf Hs. specialize (Hroom Hf). unfold encode_reply.
  destruct (message_carries (xdr_wire t) a (replicate siz 0) (reply_header op MBD_OK)) as (x & -> & _ & Hd & _);
    [apply xdr_wire_ok|done|apply reply_header_fits; lia|by rewrite length_replicate|].
  eexists _, _. split; [done|]. rewrite <- (app_nil_r (sent_bytes x)). apply Hd.
Qed.

Lemma host_array_size (a : wire_host_info_array) :
  fits (xdr_wire WHostInfoArray) a = true ->
  length (put (xdr_wire WHostInfoArray) a) = (4 + N.to_nat 256 * length (whia_hosts a))%nat.
Proof using Type*. exact (array_even_size xdr_wire_host_info _ (whia_hosts a) host_info_size). Qed.

Lemma token_array_size (a : wire_token_info_array) :
  fits (xdr_wire WTokenInfoArray) a = true ->
  length (put (xdr_wire WTokenInfoArray) a) = (4 + N.to_nat 72 * length (wtia_tokens a))%nat.
Proof using Type*. exact (array_even_size xdr_wire_token_info _ (wtia_tokens a) token_info_size). Qed.

Lemma group_array_size (a : wire_group_info_array) :
  fits (xdr_wire WGroupInfoArray) a = true ->
  length (put (xdr_wire WGroupInfoArray) a) = (4 + N.to_nat 1092 * length (wgia_groups a))%nat.
Proof using Type*. exact (array_even_size xdr_wire_group_info _ (wgia_groups a) group_info_size). Qed.

Lemma job_array_size (a : wire_job_info_array) :
  fits (xdr_wire WJobInfoArray) a = true ->
  length (put (xdr_wire WJobInfoArray) a) = (4 + N.to_nat 4876 * length (wjia_jobs a))%nat.
Proof using Type*. exact (array_even_size xdr_wire_job_info _ (wjia_jobs a) job_info_size). Qed.

(** C39: The buffers mbd computes for its replies are large enough: the answers to bhosts,
    btokens, bgroups and bjobs always encode, for any number of hosts, pools, groups and
    jobs and whatever the strings hold, and the client decodes exactly what was put in. *)
Theorem info_replies_fit alloc w groups jobs :
  delivered (hosts_info alloc w) /\ delivered (tokens_info alloc w) /\
  delivered (host_group_info alloc groups) /\ delivered (jobs_reply jobs).
Proof using Type*.
  split; [|split; [|split]].
  - unfold hosts_info. destruct alloc; [|exact I]. refine (reply_delivered _ WHostInfoArray _ _ _).
    intros Hf. rewrite (host_array_size _ Hf). cbn [whia_hosts]. rewrite length_map. size_lia.
  - unfold tokens_info. destruct alloc; [|exact I]. refine (reply_delivered _ WTokenInfoArray _ _ _).
    intros Hf. rewrite (token_array_size _ Hf). cbn [wtia_tokens]. rewrite length_map. size_lia.
  - unfold host_group_info. destruct alloc; [|exact I]. refine (reply_delivered _ WGroupInfoArray _ _ _).
    intros Hf. rewrite (group_array_size _ Hf). cbn [wgia_groups]. rewrite length_map. size_lia.
  - refine (reply_delivered _ WJobInfoArray _ _ _).
    intros Hf. rewrite (job_array_size _ Hf). cbn [wjia_jobs]. size_lia.
Qed.
(** *** bqueues *)

(** The values of a reply are in the range of their C types; the size of its buffer. *)
Definition reply_fits (r : info_reply) : bool :=
  match r with ReplyPayload _ t a _ => fits (xdr_wire t) a | _ => true end.

Definition reply_size (r : info_reply) : nat := match r with ReplyPayload _ _ _ siz => siz | _ => O end.

(** The bytes XDR adds to fill strings up to a multiple of four. *)
Definition padding (names : list string) : nat :=
  list_sum (map (fun s => round4 (String.length s) - String.length s)%nat names).

Definition keys {A} (h : gmap string A) : list string := map fst (map_to_list h).

Definition queue_padding (q : mbd_queue) : nat := (padding (keys (q_host_hash q)) + padding (keys (q_user_hash q)))%nat.

Lemma keys_dup {A} (h : gmap string A) : hash_keys_dup true h = Some (keys h).
Proof.
  unfold hash_keys_dup, keys. destruct (Nat.eqb_spec (size h) 0) as [Hz|]; [|done].
  apply map_size_empty_inv in Hz as ->. by rewrite map_to_list_empty.
Qed.

Lemma bytes_of_length s : length (bytes_of s) = String.length s.
Proof. unfold bytes_of. rewrite length_map. induction s; cbn; congruence. Qed.

Lemma list_sum_cons x l : list_sum (x :: l) = (x + list_sum l)%nat.
Proof. done. Qed.

Lemma strings_size names :
  fits (xdr_array INT32_MAX xdr_wrapstring) (map bytes_of names) = true ->
  (length (put (xdr_array INT32_MAX xdr_wrapstring) (map bytes_of names)) =
   4 + (list_sum (map (fun s => String.length s + 4) names) + padding names))%nat.
Proof using Type*.
  intros Hf. rewrite Wire.array_size by done. f_equal. rewrite array_fits in Hf by (unfold UINT32_MAX, INT32_MAX; lia).
  apply andb_prop in Hf as [_ Hf]. unfold padding. induction names as [|s names IH]; [done|]. cbn [map sum_list_with forallb] in *.
  rewrite !list_sum_cons. apply andb_prop in Hf as [Hs Hl]. rewrite (IH Hl), string_size, bytes_of_length by done.
  pose proof (round4_ge (String.length s)). lia.
Qed.

Lemma queue_info_size x hs us :
  wqi_hosts x = map bytes_of hs -> wqi_users x = map bytes_of us -> fits xdr_wire_queue_info x = true ->
  length (put xdr_wire_queue_info x) = (N.to_nat 360 + queue_strings_size hs us + padding hs + padding us)%nat.
Proof using Type*.
  intros H1 H2 Hf. cbn in Hf |- *. rewrite H1, H2 in *. repeat (apply andb_prop in Hf as [Hf ?]).
  rewrite !length_app, !int32_size, !opaque_size, !strings_size by done. unfold queue_strings_size.
  change (round4 LL_BUFSIZ_64) with 64%nat. change (round4 LL_BUFSIZ_256) with 256%nat. cbn [length]. lia.
Qed.

Lemma queues_loop_size i qs :
  exists l siz, queues_info_loop (fun _ => true) i qs = Some (l, siz) /\ length l = length qs /\
    (forallb (fits xdr_wire_queue_info) l = true ->
     (sum_list_with (fun x => length (put xdr_wire_queue_info x)) l =
      N.to_nat 360 * length qs + siz + list_sum (map queue_padding qs))%nat).
Proof using Type*.
  revert i. induction qs as [|q qs IH]; intros i; cbn [queues_info_loop].
  - exists [], 0%nat. split; [done|]. split; [done|]. intros _. cbn. lia.
  - rewrite !keys_dup. destruct (IH (S i)) as (l & siz & -> & Hl & Hs). eexists _, _. split; [done|].
    split; [cbn; congruence|]. cbn [forallb sum_list_with length map]. rewrite list_sum_cons.
    intros [Hq Hf]%andb_prop. rewrite (queue_info_size _ (keys (q_host_hash q)) (keys (q_user_hash q))), (Hs Hf) by done.
    unfold queue_padding. lia.
Qed.

(** Bqueues is answered only while the padding is small.  The buffer counts the
    characters of the names of a queue's hosts and users and four bytes for each, but the
    encoding fills every name up to a multiple of four bytes: mbd queues the reply exactly
    when all this filling together is at most 32 bytes for each queue and 76 more;
    otherwise the encoding fails, and the client's connection is closed. *)
Theorem queues_info_answered w :
  let r := queues_info true (fun _ => true) w in
  reply_fits r = true -> Z.of_nat (reply_size r) < 2 ^ 31 ->
  is_Some (encode_reply r) <-> (list_sum (map queue_padding (queues w)) <= 32 * length (queues w) + 76)%nat.
Proof using Type*.
  unfold queues_info. destruct (queues_loop_size 0 (queues w)) as (l & siz & -> & Hl & Hs).
  cbn [negb reply_fits reply_size]. intros Hf Hsiz.
  assert (Hlen : length (put (xdr_wire WQueueInfoArray) (mk_wire_queue_info_array l)) =
    (4 + sum_list_with (fun x => length (put xdr_wire_queue_info x)) l)%nat)
    by exact (Wire.array_size wire_queue_info INT32_MAX xdr_wire_queue_info l Hf).
  rewrite Hs in Hlen.
  2:{ change (fits (xdr_array INT32_MAX xdr_wire_queue_info) l = true) in Hf.
      rewrite array_fits in Hf by (unfold UINT32_MAX, INT32_MAX; lia). by apply andb_prop in Hf as [_ Hf]. }
  set (n := (siz + _ + _ + _ + _)%nat) in *.
  assert (Hiff : (PACKET_HEADER_SIZE + length (put (xdr_wire WQueueInfoArray) (mk_wire_queue_info_array l)) <= n)%nat <->
    (list_sum (map queue_padding (queues w)) <= 32 * length (queues w) + 76)%nat).
  { rewrite Hlen. subst n. rewrite size_queue_info, size_array. unfold PACKET_HEADER_SIZE, LL_BUFSIZ_64. lia. }
  rewrite <- Hiff. split.
  - intros [s Hs']. apply Nat.nlt_ge. intros Hlt. cbn [encode_reply] in Hs'.
    rewrite (message_refused (xdr_wire WQueueInfoArray)) in Hs'; [done|rewrite length_replicate..]; [|lia].
    subst n. unfold PACKET_HEADER_SIZE, LL_BUFSIZ_64. lia.
  - intros Hroom. destruct (reply_delivered BATCH_QUEUE_INFO_ACK WQueueInfoArray (mk_wire_queue_info_array l) n
      (fun _ => Hroom) Hf Hsiz) as (s & k & -> & _). eauto.
Qed.
End sizes.

Lemma info_replies_fit_witness :
  exists s n, encode_reply (hosts_info true demo3) = Some s /\
    decode_msg (xdr_wire WHostInfoArray) s =
      Some ((reply_header BATCH_HOST_INFO_ACK MBD_OK) <| hdr_length := n |>,
            mk_wire_host_info_array (map host_to_wire (hosts demo3)), []).
Proof.
  destruct (info_replies_fit true demo3 [] []) as (Hh & _). apply Hh.
  - vm_compute. reflexivity.
  - vm_compute. reflexivity.
Defined.

(** A queue on [n] hosts with names of five characters. *)
Definition wide_queue (n : nat) : mbd_queue :=
  demo_queue <| q_host_hash := list_to_map (map (fun i => ("node" +:+ String (ascii_of_nat (48 + i)) EmptyString, i)) (seq 0 n)) |>.

Definition wide (n : nat) : mbd := demo0 <| queues := [wide_queue n] |>.

Lemma queues_info_answered_witness :
  is_Some (encode_reply (queues_info true (fun _ => true) (wide 36))) /\
  encode_reply (queues_info true (fun _ => true) (wide 37)) = None.
Proof.
  split.
  - apply (queues_info_answered (wide 36)).
    + vm_compute. reflexivity.
    + vm_compute. reflexivity.
    + apply Nat.leb_le. vm_compute. reflexivity.
  - destruct (encode_reply _) as [s|] eqn:He; [|reflexivity]. exfalso.
    assert (Hb : (list_sum (map queue_padding (queues (wide 37))) <= 32 * length (queues (wide 37)) + 76)%nat).
    { apply (queues_info_answered (wide 37)).
      - vm_compute. reflexivity.
      - vm_compute. reflexivity.
      - exists s. exact He. }
    apply Nat.leb_le in Hb. vm_compute in Hb. discriminate.
Defined.
