(* ===== verification/Arrival.v ===== *)
(** * Requests and replies as bytes (src/batch/mbd/net.c, dispatch.c, job.c)

    What [route] does with the bytes of a client: the header, the checks, the body with
    the XDR function of the operation, the handler, and the bytes of the reply.  The
    handlers themselves are those of [MbdNet] and [MbdInfo]; a [char] array of a request
    that has no NUL in it is read past its end, [BadIndex]. *)

From S2P Require Import Prelude CString LlHash Dependency LogFormat MbdTypes MbdBase MbdJob MbdSched MbdNet.
From S2P Require Import SbdTypes Wire WireXdr Auth MbdInfo.

Open Scope string_scope.
Open Scope list_scope.
Open Scope Z_scope.

(** ** Decoding *)

Definition valid_batch_ops : list batch_op :=
  [BATCH_JOB_SUBMIT; BATCH_JOB_SUBMIT_ACK; BATCH_JOB_SIGNAL; BATCH_JOB_SIGNAL_ACK; BATCH_JOB_INFO; BATCH_JOB_INFO_ACK;
   BATCH_HOST_INFO; BATCH_HOST_INFO_ACK; BATCH_QUEUE_INFO; BATCH_QUEUE_INFO_ACK; BATCH_GROUP_INFO; BATCH_GROUP_INFO_ACK;
   BATCH_SBD_REGISTER; BATCH_SBD_REGISTER_ACK; BATCH_TOKEN_INFO; BATCH_TOKEN_INFO_ACK; BATCH_NEW_JOB;
   BATCH_NEW_JOB_REPLY; BATCH_NEW_JOB_REPLY_ACK; BATCH_JOB_FINISH; BATCH_JOB_FINISH_ACK; BATCH_SBD_JOB_SIGNAL;
   BATCH_SBD_JOB_SIGNAL_REPLY; BATCH_JOB_MISSING; BATCH_QUEUE_ADMIN; BATCH_QUEUE_ADMIN_ACK; BATCH_HOST_ADMIN;
   BATCH_HOST_ADMIN_ACK; BATCH_JOB_MOVE; BATCH_JOB_MOVE_ACK; BATCH_JOB_PRIORITY; BATCH_JOB_PRIORITY_ACK].

(** The operation of a number, [None] where [valid_batch_op] is 0. *)
Definition batch_op_of (n : Z) : option batch_op :=
  List.find (fun op => batch_op_num op =? n) valid_batch_ops.

(** A message that closes the connection, a body that is answered with EPROTO, a request,
    or an operation that is no request of a client. *)
Inductive client_request : Type :=
  | RqRefused
  | RqBadBody (ack : batch_op)
  | RqControl (hdr : caller) (m : client_msg)
  | RqInfo (op : batch_op) (hdr : caller) (body : list Z)
  | RqIgnored.

(** The fields of a submission that the daemon keeps, as strings. *)
Definition submit_of_wire (x : Wire.wire_job_submit) : res MbdTypes.wire_job_submit :=
  let* nm := c_str (wsub_name x) in
  let* q := c_str (wsub_queue x) in
  let* project := c_str (wsub_project x) in
  let* machines := c_str (wsub_machines x) in
  let* depend := c_str (wsub_depend_cond x) in
  let* model := c_str (wsub_gpu_model x) in
  let* user := c_str (wsub_username x) in
  let* pool := c_str (wsub_tokenpool x) in
  Ok (MbdTypes.mk_wire_job_submit nm q project machines depend model user (wsub_num_cpus x) (wsub_num_hosts x)
        (wsub_num_gpus x) (wsub_mem_mb x) (wsub_storage_mb x) pool (wsub_flags x) (wsub_begin_time x)
        (wsub_term_time x) (wsub_array_start x) (wsub_array_end x) (wsub_array_stride x)).

Section arrival.
Context `{XdrLib} (HMAC : list Z -> list Z -> option (list Z)).

(** The first lines of the handlers. *)
Definition decode_body (op : batch_op) (hdr : caller) (s : list Z) : res client_request :=
  match op with
  | BATCH_JOB_SUBMIT =>
      match get xdr_wire_job_submit s with
      | None => Ok RqRefused
      | Some (x, s) =>
          match get xdr_wire_job_script s with
          | None => Ok RqRefused
          | Some _ => let* ws := submit_of_wire x in Ok (RqControl hdr (MSubmit ws))
          end
      end
  | BATCH_JOB_SIGNAL =>
      Ok match get xdr_wire_job_sig s with
         | None => RqBadBody BATCH_JOB_SIGNAL_ACK
         | Some (x, _) =>
             RqControl hdr (MSignal (MbdTypes.mk_wire_job_sig (wsig_job_id x) (wsig_array_index x) (wsig_sig x) (c_uid hdr)))
         end
  | BATCH_SBD_REGISTER =>
      match get xdr_wire_sbd_register s with
      | None => Ok RqRefused
      | Some (x, _) => let* h := c_str (wreg_hostname x) in Ok (RqControl hdr (MRegister h))
      end
  | BATCH_QUEUE_ADMIN =>
      match get xdr_wire_queue_admin s with
      | None => Ok (RqBadBody BATCH_QUEUE_ADMIN_ACK)
      | Some (x, _) => let* nm := c_str (wqa_name x) in Ok (RqControl hdr (MQueueAdmin nm (wqa_op x)))
      end
  | BATCH_HOST_ADMIN =>
      match get xdr_wire_host_admin s with
      | None => Ok (RqBadBody BATCH_HOST_ADMIN_ACK)
      | Some (x, _) => let* nm := c_str (wha_name x) in Ok (RqControl hdr (MHostAdmin nm (wha_op x)))
      end
  | BATCH_JOB_MOVE =>
      match get xdr_wire_job_move s with
      | None => Ok RqRefused
      | Some (x, _) => let* q := c_str (wmv_to_queue x) in Ok (RqControl hdr (MJobMove (wmv_job_id x) q))
      end
  | BATCH_JOB_PRIORITY =>
      Ok match get xdr_wire_job_priority s with
         | None => RqRefused
         | Some (x, _) => RqControl hdr (MJobPriority (wpr_job_id x) (wpr_priority x))
         end
  | BATCH_JOB_INFO | BATCH_HOST_INFO | BATCH_QUEUE_INFO | BATCH_GROUP_INFO | BATCH_TOKEN_INFO =>
      Ok (RqInfo op hdr s)
  | _ => Ok RqIgnored
  end.

Definition decode_request (file : option (list Z)) (time : Z) (st : auth_state) (s : list Z)
    : res (auth_state * client_request) :=
  match get xdr_pack_hdr s with
  | None => Ok (st, RqRefused)
  | Some (hdr, body) =>
      match batch_op_of (hdr_operation hdr) with
      | None => Ok (st, RqRefused)
      | Some op =>
          let (st, ok) := auth_verify_header HMAC file time hdr st in
          if negb ok then Ok (st, RqRefused)
          else if negb (hdr_version hdr =? CURRENT_PROTOCOL_VERSION) then Ok (st, RqRefused)
          else let* rq := decode_body op (mk_caller (hdr_uid hdr) (hdr_gid hdr)) body in Ok (st, rq)
      end
  end.

(** ** Replies *)

Definition members_wire_job_submit_reply : list c_member := [CI64].

(** The bytes of a message queued for a client. *)
Definition encode_msg (m : msg) : option (list Z) :=
  match m_body m with
  | BodyNone => encode_reply (ReplyHeader (m_op m) (m_status m))
  | BodySubmit id =>
      match ll_encode_msg
              (xdrmem_create (replicate (PACKET_HEADER_SIZE + sizeof members_wire_job_submit_reply + LL_BUFSIZ_64) 0))
              (Some (Payload xdr_wire_job_submit_reply (mk_wire_job_submit_reply id)))
              (reply_header (m_op m) (m_status m)) with
      | Some (x, _) => Some (sent_bytes x)
      | None => None
      end
  | _ => None
  end.

(** The messages a step queues on a channel, and their bytes. *)
Definition chan_msgs (chan : Z) (w w' : mbd) : list msg :=
  List.filter (fun m => m_chan m =? chan) (drop (length (outbox w)) (outbox w')).

Definition replies (chan : Z) (w w' : mbd) : list Z := concat (omap encode_msg (chan_msgs chan w w')).

(** The answer to an information request: the handler and its allocations. *)
Definition info_answer (alloc : nat -> bool) (groups : list mbd_group) (w : mbd) (op : batch_op) (u : Z) (body : list Z)
    : res info_reply :=
  match op with
  | BATCH_JOB_INFO => jobs_info (alloc 0%nat) w u body
  | BATCH_QUEUE_INFO => Ok (queues_info (alloc 0%nat) (fun i => alloc (S i)) w)
  | BATCH_GROUP_INFO => Ok (host_group_info (alloc 0%nat) groups)
  | BATCH_HOST_INFO => Ok (hosts_info (alloc 0%nat) w)
  | BATCH_TOKEN_INFO => Ok (tokens_info (alloc 0%nat) w)
  | _ => Ok ReplyFail
  end.

(** [route] on the bytes of a frame: the state afterwards and the bytes that go back. *)
Definition serve (e : env) (alloc : nat -> bool) (groups : list mbd_group) (file : option (list Z)) (chan : Z)
    (st : auth_state) (w : mbd) (s : list Z) : res (auth_state * mbd * list Z) :=
  let* (st, rq) := decode_request file (now e) st s in
  match rq with
  | RqRefused | RqIgnored => Ok (st, w, [])
  | RqBadBody ack => let w' := (enqueue_header e chan ack EPROTO w).1 in Ok (st, w', replies chan w w')
  | RqControl hdr m => let* w' := route e chan (GoodMessage hdr m) w in Ok (st, w', replies chan w w')
  | RqInfo op hdr body =>
      let* r := info_answer alloc groups w op (c_uid hdr) body in
      Ok (st, w, default [] (encode_reply r))
  end.
End arrival.
