(* ===== verification/MbdReply.v ===== *)
(** * What the control requests answer

    Every request of a client that is not a submission is answered by at most one
    message on its channel, a header with a status, after everything else the handler
    does; signals to execution daemons go to other channels. *)

From S2P Require Import Prelude CString LlHash Dependency LogFormat MbdTypes MbdBase MbdJob MbdSched MbdNet.
From S2P Require Import MbdInv MbdFrame MbdSafe MbdStatic SbdTypes Wire MbdInfo Arrival.

Open Scope string_scope.
Open Scope list_scope.
Open Scope Z_scope.

(** Nothing new on the channel, and the execution daemons stay on theirs. *)
Definition quiet (chan : Z) (w w' : mbd) : Prop :=
  map sbd_chan (hosts w') = map sbd_chan (hosts w) /\
  exists l, outbox w' = outbox w ++ l /\ Forall (fun m => m_chan m <> chan) l.

(** The channel is not that of an execution daemon. *)
Definition foreign (chan : Z) (w : mbd) : Prop := Forall (fun c => c <> chan) (map sbd_chan (hosts w)).

Lemma quiet_refl chan w : quiet chan w w.
Proof. split; [done|]. exists []. by rewrite app_nil_r. Qed.

Lemma hushed_trans chan w1 w2 w3 : quiet chan w1 w2 -> quiet chan w2 w3 -> quiet chan w1 w3.
Proof.
  intros [Hh (l & Ho & Hl)] [Hh' (l' & Ho' & Hl')]. split; [congruence|]. exists (l ++ l').
  rewrite Ho', Ho, app_assoc. split; [done|]. by apply Forall_app.
Qed.

Lemma quiet_same chan w w' : hosts w' = hosts w -> outbox w' = outbox w -> quiet chan w w'.
Proof. intros Hh Ho. split; [by rewrite Hh|]. exists []. by rewrite app_nil_r. Qed.

Lemma quiet_foreign chan w w' : quiet chan w w' -> foreign chan w -> foreign chan w'.
Proof. intros [Hh _] Hf. unfold foreign. by rewrite Hh. Qed.

(** *** The steps of the handlers *)

Lemma quiet_queue chan j f w w' : upd_job_queue j f w = Ok w' -> quiet chan w w'.
Proof. intros (q & _ & _ & ->)%upd_job_queue_Ok. by apply quiet_same. Qed.

Lemma quiet_log chan ev w w' : log_append ev w = Ok w' -> quiet chan w w'.
Proof. unfold log_append. intros. inv_res. by apply quiet_same. Qed.

Lemma quiet_move chan id l1 l2 w w' : job_move_list id l1 l2 w = Ok w' -> quiet chan w w'.
Proof. intros (r & _ & ->)%job_move_list_Ok. apply quiet_same; by destruct l1, l2. Qed.

Lemma quiet_array chan j w : quiet chan w (job_array_element_finished j w).
Proof.
  unfold job_array_element_finished. destruct (array_id j =? 0); [apply quiet_refl|].
  destruct (job_find w (array_id j)); [by apply quiet_same|apply quiet_refl].
Qed.

Lemma quiet_deps chan j w : quiet chan w (job_deps_release j w).
Proof.
  unfold job_deps_release, job_deps_refcnt. revert w. induction (deps j) as [|d l IH]; intros w; [apply quiet_refl|].
  cbn [foldl]. eapply hushed_trans; [|apply IH]. destruct (dep_is_call d); by apply quiet_same.
Qed.

(** Follows the steps of a handler from the last to the first. *)
Ltac quiet_back :=
  repeat match goal with
  | |- quiet _ ?w ?w => apply quiet_refl
  | |- quiet _ _ (job_array_element_finished _ _) => eapply hushed_trans; [|apply quiet_array]
  | |- quiet _ _ (job_deps_release _ _) => eapply hushed_trans; [|apply quiet_deps]
  | |- quiet _ _ (upd_job _ _ ?v) => apply hushed_trans with v; [|by apply quiet_same]
  | |- quiet _ _ (upd_queue _ _ ?v) => apply hushed_trans with v; [|by apply quiet_same]
  | H : upd_job_queue _ _ _ = Ok ?w' |- quiet _ _ ?w' => eapply hushed_trans; [|eapply quiet_queue, H]
  | H : log_append _ _ = Ok ?w' |- quiet _ _ ?w' => eapply hushed_trans; [|eapply quiet_log, H]
  | H : job_move_list _ _ _ _ = Ok ?w' |- quiet _ _ ?w' => eapply hushed_trans; [|eapply quiet_move, H]
  end.

(** A step that answers with a status. *)
Definition quiet_status (chan : Z) (w : mbd) (r : mbd * Z) : Prop := quiet chan w r.1 /\ is_i32 r.2 = true.

Lemma quiet_pending chan e id j ws w r : signal_pending_job e id j ws w = Ok r -> quiet_status chan w r.
Proof.
  unfold signal_pending_job, finish_pending_job, stop_pending_job, resume_pending_job,
    event_job_signal, event_job_finish, event_job_pend_susp, event_job_pend_resume.
  intros Hr. repeat case_match; inv_res; (split; [|done]); cbn [fst]; quiet_back.
Qed.

Lemma quiet_enqueue chan e c op status body w : c <> chan -> quiet chan w (enqueue_payload e c op status body w).1.
Proof.
  intros Hc. unfold enqueue_payload. destruct (enq_ok e (io w) c); [|by apply quiet_same].
  split; [done|]. eexists. split; [done|]. by repeat constructor.
Qed.

Lemma quiet_running chan e id j ws w r : foreign chan w -> signal_running_job e id j ws w = Ok r -> quiet_status chan w r.
Proof.
  intros Hf. unfold signal_running_job, event_job_signal. intros Hr. inv_res.
  destruct (sbd_chan r1 <? 0); [inv_res; split; [apply quiet_refl|done]|].
  unfold auth_sign_header in Hr. destruct (sign_ok e (io w)); cbn [negb] in Hr; [|inv_res; split; [by apply quiet_same|done]].
  assert (Hc : sbd_chan r1 <> chan).
  { unfold foreign in Hf. rewrite Forall_map, Forall_forall in Hf. by eapply Hf, list_elem_of_lookup_2. }
  pose proof (quiet_enqueue chan e (sbd_chan r1) BATCH_SBD_JOB_SIGNAL MBD_OK (BodySig ws) (w <| io ::= S |>) Hc) as Hq.
  destruct (enqueue_payload _ _ _ _ _ _) as [w1 ok]. cbn [fst] in Hq.
  apply (hushed_trans chan w) in Hq; [|by apply quiet_same].
  destruct ok; cbn [negb] in Hr; inv_res; (split; [|done]); cbn [fst]; quiet_back; done.
Qed.

Lemma quiet_one chan e u id j req w r : foreign chan w -> signal_one_job e u id j req w = Ok r -> quiet_status chan w r.
Proof.
  intros Hf. unfold signal_one_job. intros Hr.
  repeat (case_match; [try (inv_res; split; [apply quiet_refl|done])|]); try (by eapply quiet_pending); by eapply quiet_running.
Qed.

Lemma quiet_array_from chan e u fuel id req n w r :
  foreign chan w -> signal_array_from e u fuel id req n w = Ok r -> quiet chan w r.1.
Proof.
  revert id n w. induction fuel as [|fuel IH]; intros id n w Hf; cbn [signal_array_from]; [intros [= <-]; apply quiet_refl|].
  intros Hr. repeat case_match; [by eapply IH..| |by eapply IH]. inv_res. destruct r0 as [w1 cc].
  apply (quiet_one chan) in Hr0 as [Hq _]; [|done]. eapply hushed_trans; [exact Hq|]. eapply IH; [|done]. by eapply quiet_foreign.
Qed.

Lemma hushed_fold {A} chan (f : mbd * Z -> A -> res (mbd * Z)) l acc r :
  (forall acc a r, foreign chan acc.1 -> f acc a = Ok r -> quiet chan acc.1 r.1) ->
  foreign chan acc.1 -> res_fold f l acc = Ok r -> quiet chan acc.1 r.1.
Proof.
  intros Hs. revert acc. induction l as [|a l IH]; intros acc Hf Hr; cbn in Hr; [inv_res; apply quiet_refl|].
  inv_res. apply Hs in Hr0; [|done]. eapply hushed_trans; [exact Hr0|]. apply IH; [by eapply quiet_foreign|done].
Qed.

Lemma quiet_scan chan e u req w r : foreign chan w -> signal_jobs_scan e u req w = Ok r -> quiet chan w r.1.
Proof.
  intros Hf. unfold signal_jobs_scan. intros Hr. inv_res. destruct r0 as [w1 n].
  assert (Hq : quiet chan w w1).
  { apply (hushed_fold chan _ _ (w, 0) (w1, n)) in Hr0; [done| |done]. clear. intros [w m] id [w' n'] Hf Hr. unfold scan_pending in Hr. cbn in *.
    inv_res. case_match; inv_res; [apply quiet_refl|].
    match goal with H : signal_pending_job _ _ _ _ _ = Ok ?r |- _ => destruct r as [w1 cc]; apply (quiet_pending chan) in H as [? _] end. by inv_res. }
  eapply hushed_trans; [exact Hq|]. apply quiet_foreign in Hq; [|done]. apply (hushed_fold chan _ _ (w1, n)) in Hr; [done| |done].
  clear. intros [w m] id [w' n'] Hf Hr. unfold scan_running in Hr. cbn in *. inv_res.
  repeat (case_match; inv_res; try apply quiet_refl).
  match goal with H : signal_running_job _ _ _ _ _ = Ok _ |- _ => by apply (quiet_running chan) in H as [? _] end.
Qed.

(** *** The replies *)

(** The handler has done its work and then queues a header. *)
Definition answered (chan : Z) (e : env) (w w' : mbd) : Prop :=
  exists w1 op status, quiet chan w w1 /\ is_i32 status = true /\ w' = (enqueue_header e chan op status w1).1.

Lemma answered_now chan e w op status :
  is_i32 status = true -> answered chan e w (enqueue_header e chan op status w).1.
Proof. intros Hs. exists w, op, status. split; [apply quiet_refl|done]. Qed.

Lemma signal_answered chan e hdr req w w' : foreign chan w -> jobs_signal e chan hdr req w = Ok w' -> answered chan e w w'.
Proof.
  intros Hf. unfold jobs_signal. intros Hr.
  assert (H1 : forall id j q r (v : mbd), quiet chan w v -> signal_one_job e (c_uid hdr) id j q v = Ok r ->
    answered chan e w (enqueue_header e chan BATCH_JOB_SIGNAL_ACK r.2 r.1).1).
  { intros id j q r v Hv Ho. apply (quiet_one chan) in Ho as [Hq Hi]; [|by eapply quiet_foreign].
    exists r.1, BATCH_JOB_SIGNAL_ACK, r.2. split; [by eapply hushed_trans|done]. }
  cbn [sig_job_id sig_array_index] in Hr. destruct (sig_job_id req =? 0).
  { inv_res. destruct r as [w1 n]. inv_res. apply (quiet_scan chan) in Hr0; [|done].
    by exists w1, BATCH_JOB_SIGNAL_ACK, MBD_OK. }
  destruct (negb _).
  { destruct (job_find_array _ _ _) as [j|]; inv_res; [|by apply answered_now].
    destruct r as [w1 cc]. inv_res. eapply (H1 _ _ _ (w1, cc) w); [apply quiet_refl|done]. }
  destruct (job_find _ _) as [j|]; [|inv_res; by apply answered_now]. destruct (_ && _); inv_res.
  - destruct r0 as [w1 n]. apply (quiet_array_from chan) in Hr1; [|done]. cbn [fst] in Hr1.
    destruct (0 <? n); inv_res; [by exists w1, BATCH_JOB_SIGNAL_ACK, MBD_OK|].
    destruct r1 as [w2 cc]. inv_res. by eapply (H1 _ _ _ (w2, cc) w1).
  - destruct r as [w1 cc]. inv_res. eapply (H1 _ _ _ (w1, cc) w); [apply quiet_refl|done].
Qed.

Lemma move_answered chan e hdr id q w w' : job_move e chan hdr id q w = Ok w' -> answered chan e w w'.
Proof.
  unfold job_move, event_job_move. intros Hr. repeat (case_match; inv_res; try by apply answered_now).
  all: eexists _, BATCH_JOB_MOVE_ACK, MBD_OK; (split; [|done]); quiet_back.
Qed.

Lemma priority_answered chan e hdr id p w w' : job_priority e chan hdr id p w = Ok w' -> answered chan e w w'.
Proof.
  unfold job_priority, event_job_priority. intros Hr. repeat (case_match; inv_res; try by apply answered_now).
  all: eexists _, BATCH_JOB_PRIORITY_ACK, MBD_OK; (split; [|done]); quiet_back.
Qed.

Lemma queue_answered chan e hdr nm op w w' : queue_admin e chan hdr nm op w = Ok w' -> answered chan e w w'.
Proof.
  unfold queue_admin. intros Hr. repeat (case_match; inv_res; try by apply answered_now).
  eexists _, BATCH_QUEUE_ADMIN_ACK, MBD_OK. split; [|done]. apply quiet_same; unfold queue_state_write; by repeat case_match.
Qed.

Lemma alter_chans (f : mbd_host -> mbd_host) i l :
  (forall h, sbd_chan (f h) = sbd_chan h) -> map sbd_chan (alter f i l) = map sbd_chan l.
Proof. intros Hf. revert i. induction l as [|h l IH]; intros [|i]; cbn; f_equal; auto. Qed.

Lemma host_answered chan e hdr nm op w w' : host_admin e chan hdr nm op w = Ok w' -> answered chan e w w'.
Proof.
  unfold host_admin. intros Hr. repeat (case_match; inv_res; try by apply answered_now).
  all: eexists _, BATCH_HOST_ADMIN_ACK, MBD_OK; (split; [|done]); unfold host_state_write; repeat case_match.
  all: (split; [by apply alter_chans|exists []; by rewrite app_nil_r]).
Qed.

(** The requests of a client but for submissions and registrations. *)
Definition is_command (m : client_msg) : bool :=
  match m with MSubmit _ | MRegister _ => false | _ => true end.

Lemma command_answered chan e hdr m w w' :
  is_command m = true -> foreign chan w -> route e chan (GoodMessage hdr m) w = Ok w' -> answered chan e w w'.
Proof.
  destruct m; cbn [is_command route]; try done; intros _ Hf.
  - by apply signal_answered.
  - apply queue_answered.
  - apply host_answered.
  - apply move_answered.
  - apply priority_answered.
Qed.

(** A reply without a body is all there is, if any. *)
Definition plain_reply (ms : list msg) : Prop :=
  ms = [] \/ exists m, ms = [m] /\ m_body m = BodyNone /\ is_i32 (m_status m) = true.

Lemma answered_plain chan e w w' : answered chan e w w' -> plain_reply (chan_msgs chan w w').
Proof.
  intros (w1 & op & status & [_ (l & Ho & Hl)] & Hs & ->). unfold chan_msgs, enqueue_header, enqueue_payload.
  assert (Hf : List.filter (fun m => m_chan m =? chan) l = []).
  { clear Ho. induction Hl as [|m l Hm Hl IH]; [done|]. cbn. destruct (Z.eqb_spec (m_chan m) chan); [done|exact IH]. }
  destruct (enq_ok e (io w1) chan); cbn [fst].
  - right. exists (mk_msg chan op status BodyNone). split; [|done].
    match goal with |- context [drop _ (outbox ?x)] => change (outbox x) with (outbox w1 ++ [mk_msg chan op status BodyNone]) end.
    rewrite Ho, <- app_assoc, drop_app_length.
    rewrite List.filter_app, Hf. cbn. by rewrite Z.eqb_refl.
  - left. match goal with |- context [drop _ (outbox ?x)] => change (outbox x) with (outbox w1) end. by rewrite Ho, drop_app_length.
Qed.

(** *** Submissions *)

(** The same hosts and the same messages. *)
Definition unsaid (w w' : mbd) : Prop := hosts w' = hosts w /\ outbox w' = outbox w.

Lemma unsaid_trans w1 w2 w3 : unsaid w1 w2 -> unsaid w2 w3 -> unsaid w1 w3.
Proof. intros [? ?] [? ?]. split; congruence. Qed.

Lemma alloc_unsaid e ws w : wp (job_alloc e ws w) (fun '(w', _, _) => unsaid w w') True.
Proof.
  unfold job_alloc, try_alloc. destruct (negb _); [done|]. apply wp_bind. unfold next_job_id.
  destruct (next_job_id_from _ _ _) as [id|]; [|done]. cbn [res_bind wp].
  apply wp_bind. eapply wp_mono; [apply wp_any|intros ms _|done]. cbv zeta.
  destruct (queue_name_hash _ !! _) as [q|]; [|done]. apply wp_bind. eapply wp_mono; [apply wp_any|intros qq _|done].
  by repeat (destruct (negb _); [done|]).
Qed.

Lemma prepare_unsaid e ws hdr w : wp (job_prepare e ws hdr w) (fun '(w', _, _) => unsaid w w') True.
Proof.
  unfold job_prepare. apply wp_bind. eapply wp_mono; [apply alloc_unsaid| |done].
  intros [[w1 ws1] [err|j]] Hw; [done|]. destruct (script_err _ _); [done|]. destruct (sidecar_err _ _); [done|].
  destruct (job_parse_tokens _ _ _); [|done]. apply wp_bind. eapply wp_mono; [apply wp_any|intros [j' []] _|done]; done.
Qed.

Lemma loop_unsaid e hdr fuel start stop stride index prepared ws w :
  wp (prepare_loop e hdr fuel start stop stride index prepared ws w) (fun '(w', _, _) => unsaid w w') True.
Proof.
  revert index prepared ws w. induction fuel as [|f IH]; intros index prepared ws w; [done|]. cbn [prepare_loop].
  apply wp_bind. eapply wp_mono; [apply prepare_unsaid| |done]. intros [[w1 ws1] [err|j]] Hw.
  - apply wp_bind. eapply wp_mono; [apply wp_any|done|done].
  - apply wp_bind. eapply wp_mono; [apply wp_any|intros aid _|done]. eapply wp_mono; [apply IH| |done].
    intros [[w2 ws2] r] Hw2. by eapply unsaid_trans.
Qed.

Lemma refcnt_unsaid j d w : unsaid w (job_deps_refcnt j d w).
Proof.
  unfold job_deps_refcnt. revert w. induction (deps j) as [|x l IH]; intros w; [done|]. cbn [foldl].
  eapply unsaid_trans; [|apply IH]. by destruct (dep_is_call x).
Qed.

Lemma commit_unsaid j ws w w' : job_commit j ws w = Ok w' -> unsaid w w'.
Proof.
  unfold job_commit, event_job_new, log_append. intros Hc. inv_res. apply upd_job_queue_Ok in Hc as (q & _ & _ & ->).
  destruct (refcnt_unsaid j 1 (w <| jobs ::= <[job_id j:=j]> |>)) as [Hh Ho]. by split.
Qed.

Lemma commits_unsaid l ws w w' : job_commit_prepared l ws w = Ok w' -> unsaid w w'.
Proof.
  unfold job_commit_prepared. revert w. induction l as [|j l IH]; intros w Hc; cbn in Hc; inv_res; [done|].
  apply commit_unsaid in Hr. eapply unsaid_trans; [exact Hr|by apply IH].
Qed.

(** A submission is answered with the id of the job or -1. *)
Lemma register_replies e chan hdr ws w w' :
  job_register e chan hdr ws w = Ok w' ->
  chan_msgs chan w w' = [] \/ exists m id, chan_msgs chan w w' = [m] /\ m_body m = BodySubmit id.
Proof.
  assert (Hone : forall w1 status id, unsaid w w1 -> forall w2,
    unsaid (enqueue_payload e chan BATCH_JOB_SUBMIT_ACK status (BodySubmit id) w1).1 w2 ->
    chan_msgs chan w w2 = [] \/ exists m id, chan_msgs chan w w2 = [m] /\ m_body m = BodySubmit id).
  { intros w1 status id [_ Ho] w2 [_ Ho2]. unfold chan_msgs. rewrite Ho2. unfold enqueue_payload.
    destruct (enq_ok e (io w1) chan); cbn [fst].
    - right. exists (mk_msg chan BATCH_JOB_SUBMIT_ACK status (BodySubmit id)), id. split; [|done].
      match goal with |- context [drop _ (outbox ?x)] => change (outbox x) with (outbox w1 ++ [mk_msg chan BATCH_JOB_SUBMIT_ACK status (BodySubmit id)]) end.
      rewrite Ho, drop_app_length. cbn. by rewrite Z.eqb_refl.
    - left. match goal with |- context [drop _ (outbox ?x)] => change (outbox x) with (outbox w1) end. by rewrite Ho, drop_all. }
  unfold job_register. intros Hr. destruct (_ && _); [inv_res; by eapply (Hone w)|]. inv_res. destruct r as [[w1 ws1] r].
  pose proof (wp_Ok _ _ _ _ (loop_unsaid _ _ _ _ _ _ _ _ _ _) Hr0) as Hu. cbn in Hu.
  destruct r as [err|prepared]; [inv_res; by eapply (Hone w1)|].
  unfold job_register_reply in Hr. destruct (enqueue_payload _ _ _ _ _ _) as [w2 ok] eqn:Hq.
  pose proof (Hone w1 MBD_OK (match prepared with [] => 0 | h :: _ => job_id h end) Hu) as Hone'. rewrite Hq in Hone'. cbn [fst] in Hone'.
  destruct ok; cbn [negb] in Hr; inv_res; [|by apply Hone'].
  apply Hone'. apply commits_unsaid in Hr1. exact Hr1.
Qed.
