(* ===== verification/Client.v ===== *)
(** * The client library (src/batch/lib/rpc.c, api.c, submit.c)

    What bjobs, bqueues, bsub and the other commands call: each function builds a signed
    request, sends it to mbd on a connection that is kept between calls, and turns the
    reply into the structs of llbatch.h.  The statics of the library are the state
    [client]; every call answers with a value, with -1 or NULL and the errno it sets, or
    not at all when the peer never answers.  Reading a [char] array of a reply that has
    no NUL in it is [BadIndex]. *)

From S2P Require Import Prelude CString LlConf JobScript LlHash Dependency LogFormat MbdTypes MbdBase MbdJob MbdSched.
From S2P Require Import Conf SbdTypes Wire WireXdr Auth Channel MbdInfo.

Open Scope string_scope.
Open Scope list_scope.
Open Scope Z_scope.

(** ** State, environment, outcomes *)

Record client : Type := mk_client {
  cl_auth : auth_state;
  cl_params : list ll_kv * bool;
  cl_initialized : bool;
  cl_mbd_port : Z;
  cl_conntimeout : Z;
  cl_recvtimeout : Z;
  cl_mbd_node : string;
  cl_channels : list chan_data;
  cl_chan_mbd : Z
}.

Definition client_eta (x : client) : client :=
  mk_client (cl_auth x) (cl_params x) (cl_initialized x) (cl_mbd_port x) (cl_conntimeout x) (cl_recvtimeout x)
    (cl_mbd_node x) (cl_channels x) (cl_chan_mbd x).
#[export] Instance set_cl_auth : Setter cl_auth. Proof. setter client_eta. Defined.
#[export] Instance set_cl_params : Setter cl_params. Proof. setter client_eta. Defined.
#[export] Instance set_cl_initialized : Setter cl_initialized. Proof. setter client_eta. Defined.
#[export] Instance set_cl_mbd_port : Setter cl_mbd_port. Proof. setter client_eta. Defined.
#[export] Instance set_cl_conntimeout : Setter cl_conntimeout. Proof. setter client_eta. Defined.
#[export] Instance set_cl_recvtimeout : Setter cl_recvtimeout. Proof. setter client_eta. Defined.
#[export] Instance set_cl_mbd_node : Setter cl_mbd_node. Proof. setter client_eta. Defined.
#[export] Instance set_cl_channels : Setter cl_channels. Proof. setter client_eta. Defined.
#[export] Instance set_cl_chan_mbd : Setter cl_chan_mbd. Proof. setter client_eta. Defined.

(** The process before its first call. *)
Definition client_start : client :=
  mk_client auth_start (ll_params, false) false 0 0 0 EmptyString chan_init (-1).

(** What the system answers during one call.  [ce_alloc] answers the allocations of the
    buffers and arrays in their order, [ce_strdup i] those of the strings of record [i];
    [ce_peer] is what arrives on the connection after the bytes sent. *)
Record client_env : Type := mk_client_env {
  ce_alloc : nat -> bool;
  ce_strdup : nat -> nat -> bool;
  ce_conf_alloc : nat -> bool;
  ce_conf_dir : option string;
  ce_fs : string -> option text_file;
  ce_getaddrinfo : string -> option (option string * string);
  ce_inet : string -> Z;
  ce_key : option (list Z);
  ce_getuid : Z;
  ce_getgid : Z;
  ce_time : Z;
  ce_socket : option Z;
  ce_connect : connect_env;
  ce_io : list io_outcome;
  ce_ready : bool;
  ce_peer : list Z -> list Z
}.

(** A value, a failure with the errno it sets ([None] where a call inside sets it), or a
    call that does not come back. *)
Inductive outcome (A : Type) : Type :=
  | Ret (a : A)
  | Err (errno : option Z)
  | Blocked.
Arguments Ret {A} a.
Arguments Err {A} errno.
Arguments Blocked {A}.

Definition cM (A : Type) : Type := client -> res (client * outcome A).

Definition cret {A} (a : A) : cM A := fun c => Ok (c, Ret a).
Definition cerr {A} (errno : option Z) : cM A := fun c => Ok (c, Err errno).
Definition cget : cM client := fun c => Ok (c, Ret c).
Definition cmod (f : client -> client) : cM unit := fun c => Ok (f c, Ret tt).
Definition clift {A} (m : res A) : cM A := fun c => let* a := m in Ok (c, Ret a).

Definition cbind {A B} (m : cM A) (k : A -> cM B) : cM B :=
  fun c =>
    let* (c, o) := m c in
    match o with
    | Ret a => k a c
    | Err errno => Ok (c, Err errno)
    | Blocked => Ok (c, Blocked)
    end.

Notation "'let!' x := m 'in' k" := (cbind m (fun x => k))
  (at level 10, x pattern, m at level 100, k at level 200).

(** A failure with its errno unless the answer is there. *)
Definition cexpect {A} (errno : option Z) (o : option A) : cM A :=
  match o with Some a => cret a | None => cerr errno end.

Definition cguard (errno : option Z) (b : bool) : cM unit := if b then cret tt else cerr errno.

(** ** C strings *)

(** [strdup] of a [char] array; the callers do not look whether it is NULL. *)
Definition strdup (ok : bool) (b : list Z) : res (option string) :=
  let* s := c_str b in Ok (if ok then Some s else None).

(** ** rpc.c *)

Definition LL_API_CONNTIMEOUT : nat := 15.
Definition LL_API_RECVTIMEOUT : nat := 16.

Section lib.
Context `{XdrLib} (HMAC : list Z -> list Z -> option (list Z)) (E : client_env).

Definition int_param (ps : list ll_kv) (i : nat) : option Z := param ps i ≫= ll_atoi.

(** The port is read into a 16-bit variable: the low half of the [int] stays. *)
Definition mbd_rpc_init : cM unit :=
  let! c := cget in
  if cl_initialized c then cret tt
  else
    let! ps := cexpect (Some EINVAL) (ll_init (ce_conf_alloc E) (ce_conf_dir E) (ce_fs E) (cl_params c)) in
    let! _ := cmod (fun c => c <| cl_params := ps |>) in
    let! port := cexpect (Some EINVAL) (int_param ps.1 LL_MBD_PORT) in
    let! _ := cmod (fun c => c <| cl_mbd_port := port mod 2 ^ 16 |>) in
    let! t := cexpect (Some EINVAL) (int_param ps.1 LL_API_CONNTIMEOUT) in
    let! _ := cmod (fun c => c <| cl_conntimeout := t |>) in
    let! t := cexpect (Some EINVAL) (int_param ps.1 LL_API_RECVTIMEOUT) in
    let! _ := cmod (fun c => c <| cl_recvtimeout := t |>) in
    let! node := cexpect (Some EINVAL) (param ps.1 LL_MBD_HOST ≫= get_host_by_name (ce_getaddrinfo E)) in
    cmod (fun c => c <| cl_mbd_node := node.2 |> <| cl_channels := chan_init |> <| cl_initialized := true |>).

(** [chan_close(chan_mbd); chan_mbd = -1;] *)
Definition drop_mbd : cM unit :=
  let! c := cget in
  let! r := clift (chan_close (cl_chan_mbd c) (cl_channels c)) in
  cmod (fun c => c <| cl_channels := r.1 |> <| cl_chan_mbd := -1 |>).

Definition connect_mbd : cM unit :=
  let! c := cget in
  if 0 <=? cl_chan_mbd c then cret tt
  else
    let (cs, o) := chan_tcp_client (ce_socket E) (cl_channels c) in
    let! _ := cmod (fun c => c <| cl_channels := cs |> <| cl_chan_mbd := -1 |>) in
    let! i := cexpect None o in
    let! _ := cmod (fun c => c <| cl_chan_mbd := Z.of_nat i |>) in
    let peer := mk_sockaddr_in (ce_inet E (cl_mbd_node c)) (cl_mbd_port c) in
    let! r := clift (chan_connect (ce_connect E) (Z.of_nat i) (Some peer) cs) in
    match r with
    | None => cret tt
    | Some errno => let! _ := drop_mbd in cerr (if errno =? -1 then None else Some errno)
    end.

(** The header and the payload of the reply. *)
Definition call_mbd (req : list Z) : cM (protocol_header * list Z) :=
  let! _ := mbd_rpc_init in
  let! _ := connect_mbd in
  match chan_rpc (ce_io E) req (ce_ready E) (ce_alloc E 1) (ce_peer E req) with
  | LoopBlocked => fun c => Ok (c, Blocked)
  | LoopFail => let! _ := drop_mbd in cerr None
  | LoopDone (_, hdr, b) =>
      if negb (hdr_status hdr =? MBD_OK) then let! _ := drop_mbd in cerr (Some (hdr_status hdr))
      else cret (hdr, b)
  end.

(** ** Requests *)

(** The signed request in a buffer of [siz] bytes. *)
Definition build_request (op : batch_op) (siz : nat) (p : option payload) (sign_errno encode_errno : option Z) : cM (list Z) :=
  let! c := cget in
  let (st, o) := auth_sign_header HMAC (ce_key E) (ce_getuid E) (ce_getgid E) (ce_time E)
                   (reply_header op MBD_OK) (cl_auth c) in
  let! _ := cmod (fun c => c <| cl_auth := st |>) in
  let! hdr := cexpect sign_errno o in
  let! r := cexpect encode_errno (ll_encode_msg (xdrmem_create (replicate siz 0)) p hdr) in
  cret (sent_bytes r.1).

(** A request without a body, built in an array of the stack, and its decoded reply. *)
Definition query_mbd {A} (op : batch_op) (c : codec A) : cM A :=
  let! req := build_request op LL_BUFSIZ_256 None None None in
  let! r := call_mbd req in
  let! _ := cguard None (hdr_status r.1 =? MBD_OK) in
  let! x := cexpect None (get c r.2) in
  cret x.1.

(** A request with a body and an empty reply. *)
Definition command_mbd (op : batch_op) (siz : nat) (p : payload) (status_errno : Z -> Z) : cM unit :=
  let! _ := cguard None (ce_alloc E 0) in
  let! req := build_request op siz (Some p) None (Some EPROTO) in
  let! r := call_mbd req in
  cguard (Some (status_errno (hdr_status r.1))) (hdr_status r.1 =? MBD_OK).

End lib.

(** ** api.c: information *)

(** The records of a reply, one after the other. *)
Fixpoint convert {A B} (f : nat -> A -> res B) (i : nat) (l : list A) : res (list B) :=
  match l with
  | [] => Ok []
  | x :: l => let* y := f i x in let* ys := convert f (S i) l in Ok (y :: ys)
  end.

Record queue_info : Type := mk_queue_info {
  qi_name : option string;
  qi_description : option string;
  qi_hosts : list (option string);
  qi_users : list (option string);
  qi_status : Z;
  qi_priority : Z;
  qi_max_jobs : Z;
  qi_num_jobs : Z;
  qi_num_pend : Z;
  qi_num_held : Z;
  qi_num_run : Z;
  qi_num_susp : Z;
  qi_num_cpus_used : Z;
  qi_num_hosts_used : Z
}.

Record host_group : Type := mk_host_group {
  hg_name : option string;
  hg_members : option string
}.

Record host_info : Type := mk_host_info {
  hoi_name : option string;
  hoi_state : Z;
  hoi_total_cpu : Z;
  hoi_free_cpu : Z;
  hoi_total_gpu : Z;
  hoi_free_gpu : Z;
  hoi_total_mem_mb : Z;
  hoi_free_mem_mb : Z;
  hoi_total_storage_mb : Z;
  hoi_free_storage_mb : Z;
  hoi_num_jobs : Z;
  hoi_num_run : Z;
  hoi_num_susp : Z;
  hoi_gpu_model : option string;
  hoi_gpu_ids : option string
}.

Record token_pool_info : Type := mk_token_pool_info {
  tpi_name : option string;
  tpi_total : Z;
  tpi_free : Z;
  tpi_used : Z
}.

Record job_info_req : Type := mk_job_info_req {
  jr_job_id : Z;
  jr_array_id : Z;
  jr_array_index : Z;
  jr_uid : Z;
  jr_flags : Z
}.

Record job_info : Type := mk_job_info {
  ji_job_id : Z;
  ji_array_id : Z;
  ji_array_index : Z;
  ji_uid : Z;
  ji_pid : Z;
  ji_state : Z;
  ji_exit_status : Z;
  ji_priority : Z;
  ji_pend_reason : Z;
  ji_submit_time : Z;
  ji_dispatch_time : Z;
  ji_end_time : Z;
  ji_susp_time : Z;
  ji_name : option string;
  ji_queue : option string;
  ji_submit_host : option string;
  ji_run_hosts : option string;
  ji_comment : option string
}.

(** The strings of a list arrive with their length, so they are copied whole. *)
Definition dup_strings (ok : nat -> bool) (l : list (list Z)) : list (option string) :=
  imap (fun j b => if ok j : bool then Some (string_of_list_ascii (map (fun z => ascii_of_nat (Z.to_nat z)) b)) else None) l.

(** An array of strings; when it cannot be allocated, [llb_free_queue_info] walks the
    strings of the array that is not there. *)
Definition dup_array (alloc : bool) (ok : nat -> bool) (l : list (list Z)) : res (list (option string)) :=
  match l with
  | [] => Ok []
  | _ => if alloc then Ok (dup_strings ok l) else Crash NullDeref
  end.

Definition queue_from_wire (alloc : nat -> bool) (dup : nat -> nat -> bool) (i : nat) (src : wire_queue_info)
    : res queue_info :=
  let* nm := strdup (dup i 0%nat) (wqi_name src) in
  let* desc := strdup (dup i 1%nat) (wqi_description src) in
  let* hs := dup_array (alloc (3 + 2 * i)%nat) (fun j => dup i (2 + j)%nat) (wqi_hosts src) in
  let* us := dup_array (alloc (4 + 2 * i)%nat) (fun j => dup i (2 + length (wqi_hosts src) + j)%nat) (wqi_users src) in
  Ok (mk_queue_info nm desc hs us (wqi_status src) (wqi_priority src) (wqi_max_jobs src) (wqi_num_jobs src)
        (wqi_num_pend src) (wqi_num_held src) (wqi_num_run src) (wqi_num_susp src) (wqi_num_cpus_used src)
        (wqi_num_hosts_used src)).

Definition group_from_wire (dup : nat -> nat -> bool) (i : nat) (src : wire_group_info) : res host_group :=
  let* nm := strdup (dup i 0%nat) (wgi_name src) in
  let* members := strdup (dup i 1%nat) (wgi_members src) in
  Ok (mk_host_group nm members).

Definition host_from_wire (dup : nat -> nat -> bool) (i : nat) (src : wire_host_info) : res host_info :=
  let* nm := strdup (dup i 0%nat) (whi_name src) in
  let* model := strdup (dup i 1%nat) (whi_gpu_model src) in
  let* ids := strdup (dup i 2%nat) (whi_gpu_ids src) in
  Ok (mk_host_info nm (whi_state src) (whi_total_cpu src) (whi_free_cpu src) (whi_total_gpu src) (whi_free_gpu src)
        (whi_total_mem_mb src) (whi_free_mem_mb src) (whi_total_storage_mb src) (whi_free_storage_mb src)
        (whi_num_jobs src) (whi_num_run src) (whi_num_susp src) model ids).

(** The used tokens are computed in 32 bits. *)
Definition token_from_wire (dup : nat -> nat -> bool) (i : nat) (src : wire_token_info) : res token_pool_info :=
  let* nm := strdup (dup i 0%nat) (wti_name src) in
  Ok (mk_token_pool_info nm (wti_total src) (wti_free src) (i32 (wti_total src - wti_free src))).

Definition job_from_wire (dup : nat -> nat -> bool) (i : nat) (src : wire_job_info) : res job_info :=
  let* nm := strdup (dup i 0%nat) (wji_name src) in
  let* q := strdup (dup i 1%nat) (wji_queue src) in
  let* sh := strdup (dup i 2%nat) (wji_submit_host src) in
  let* rh := strdup (dup i 3%nat) (wji_run_hosts src) in
  let* cm := strdup (dup i 4%nat) (wji_comment src) in
  Ok (mk_job_info (wji_job_id src) (wji_array_id src) (wji_array_index src) (wji_uid src) (wji_pid src)
        (wji_state src) (wji_exit_status src) (wji_priority src) (wji_pend_reason src) (wji_submit_time src)
        (wji_dispatch_time src) (wji_end_time src) (wji_susp_time src) nm q sh rh cm).

Definition members_wire_job_info_req : list c_member := [CI64; CI32].
Definition members_wire_queue_admin : list c_member := [CChars LL_BUFSIZ_64; CI32].
Definition members_wire_host_admin : list c_member := [CChars MAXHOSTNAMELEN; CI32].
Definition members_wire_job_move : list c_member := [CI64; CChars LL_BUFSIZ_64].
Definition members_wire_job_priority : list c_member := [CI64; CI32].

Section api.
Context `{XdrLib} (HMAC : list Z -> list Z -> option (list Z)) (E : client_env).

Definition llb_queue_info : cM (list queue_info) :=
  let! w := query_mbd HMAC E BATCH_QUEUE_INFO xdr_wire_queue_info_array in
  let! _ := cguard None (ce_alloc E 2) in
  clift (convert (queue_from_wire (ce_alloc E) (ce_strdup E)) 0 (wqia_queues w)).

(** NULL without an errno for no groups. *)
Definition llb_group_info : cM (list host_group) :=
  let! w := query_mbd HMAC E BATCH_GROUP_INFO xdr_wire_group_info_array in
  let! _ := cguard None (negb (length (wgia_groups w) =? 0)%nat) in
  let! _ := cguard None (ce_alloc E 2) in
  clift (convert (group_from_wire (ce_strdup E)) 0 (wgia_groups w)).

Definition llb_host_info : cM (list host_info) :=
  let! w := query_mbd HMAC E BATCH_HOST_INFO xdr_wire_host_info_array in
  let! _ := cguard None (ce_alloc E 2) in
  clift (convert (host_from_wire (ce_strdup E)) 0 (whia_hosts w)).

Definition llb_token_info : cM (list token_pool_info) :=
  let! w := query_mbd HMAC E BATCH_TOKEN_INFO xdr_wire_token_info_array in
  let! _ := cguard None (ce_alloc E 2) in
  clift (convert (token_from_wire (ce_strdup E)) 0 (wtia_tokens w)).

(** The buffer has the size of another struct; no jobs is NULL with [*n = 0]. *)
Definition llb_job_info (req : job_info_req) : cM (list job_info) :=
  let! _ := cguard None (ce_alloc E 0) in
  let q := mk_wire_job_query (jr_job_id req) (jr_array_id req) (jr_array_index req) (jr_flags req) (jr_uid req) in
  let! m := build_request HMAC E BATCH_JOB_INFO (PACKET_HEADER_SIZE + sizeof members_wire_job_info_req + LL_BUFSIZ_64)
              (Some (Payload xdr_wire_job_query q)) (Some EPROTO) (Some EPROTO) in
  let! r := call_mbd E m in
  let! _ := cguard (Some (hdr_status r.1)) (hdr_status r.1 =? 0) in
  let! w := cexpect (Some EPROTO) (get xdr_wire_job_info_array r.2) in
  if (length (wjia_jobs w.1) =? 0)%nat then cret []
  else
    let! _ := cguard None (ce_alloc E 2) in
    clift (convert (job_from_wire (ce_strdup E)) 0 (wjia_jobs w.1)).

(** ** api.c: commands *)

Definition llb_signal_job (jobid index sig : Z) : cM unit :=
  command_mbd HMAC E BATCH_JOB_SIGNAL LL_BUFSIZ_1K (Payload xdr_wire_job_sig (mk_wire_job_sig jobid index sig))
    (fun _ => EPROTO).

Definition llb_queue_admin (nm : string) (op : Z) : cM unit :=
  command_mbd HMAC E BATCH_QUEUE_ADMIN (PACKET_HEADER_SIZE + sizeof members_wire_queue_admin + LL_BUFSIZ_64)
    (Payload xdr_wire_queue_admin (mk_wire_queue_admin (chars LL_BUFSIZ_64 nm) op)) (fun status => status).

Definition llb_host_admin (nm : string) (op : Z) : cM unit :=
  command_mbd HMAC E BATCH_HOST_ADMIN (PACKET_HEADER_SIZE + sizeof members_wire_host_admin + LL_BUFSIZ_64)
    (Payload xdr_wire_host_admin (mk_wire_host_admin (chars MAXHOSTNAMELEN nm) op)) (fun status => status).

Definition llb_move_job (id : Z) (to_queue : string) : cM unit :=
  command_mbd HMAC E BATCH_JOB_MOVE (PACKET_HEADER_SIZE + sizeof members_wire_job_move + LL_BUFSIZ_64)
    (Payload xdr_wire_job_move (mk_wire_job_move id (chars LL_BUFSIZ_64 to_queue))) (fun status => status).

Definition llb_priority_job (id : Z) (prio : Z) : cM unit :=
  command_mbd HMAC E BATCH_JOB_PRIORITY (PACKET_HEADER_SIZE + sizeof members_wire_job_priority + LL_BUFSIZ_64)
    (Payload xdr_wire_job_priority (mk_wire_job_priority id prio)) (fun status => status).
End api.

(** ** submit.c *)

(** [%d] of [sscanf], and a character that has to be next. *)
Definition scan_d (s : string) : option (Z * string) :=
  match scan_number s with Some (v, s) => Some (conv_cut CInt v, s) | None => None end.

Definition scan_char (c : ascii) (s : string) : option string :=
  match s with String d s => if Ascii.eqb c d then Some s else None | EmptyString => None end.

(** START-END:STRIDE or START-END; [None] for -1, which sets EINVAL. *)
Definition llb_parse_array (spec : string) : option (Z * Z * Z) :=
  let range s :=
    match scan_d s with
    | None => None
    | Some (start, s) =>
        match scan_char "-" s with
        | None => None
        | Some s => match scan_d s with None => None | Some (stop, s) => Some (start, stop, s) end
        end
    end in
  match strchr_split ":" spec with
  | Some _ =>
      match range spec with
      | None => None
      | Some (start, stop, s) =>
          match scan_char ":" s ≫= scan_d with
          | None => None
          | Some (stride, s) =>
              if negb (String.eqb s EmptyString) then None
              else if start <? 1 then None
              else if stop <? start then None
              else if stride <? 1 then None
              else Some (start, stop, stride)
          end
      end
  | None =>
      match range spec with
      | None => None
      | Some (start, stop, s) =>
          if negb (String.eqb s EmptyString) then None
          else if start <? 1 then None
          else if stop <? start then None
          else Some (start, stop, 1)
      end
  end.

(** Syntax only: there is no table to look ids up in. *)
Definition llb_parse_dependency (malloc_ok : nat -> bool) (cond : string) : res bool :=
  let* (status, _) := dep_parse None malloc_ok cond in Ok (bool_decide (status = DEP_PARSE_OK)).

Record job_submit : Type := mk_job_submit {
  js_name : option string;
  js_queue : option string;
  js_machines : option string;
  js_gpu_model : option string;
  js_depend_cond : option string;
  js_in_file : option string;
  js_out_file : option string;
  js_err_file : option string;
  js_command : option string;
  js_project : option string;
  js_comment : option string;
  js_num_cpus : Z;
  js_num_hosts : Z;
  js_num_gpus : Z;
  js_mem_mb : Z;
  js_storage_mb : Z;
  js_tokenpool : option string;
  js_begin_time : Z;
  js_term_time : Z;
  js_flags : Z;
  js_array_start : Z;
  js_array_end : Z;
  js_array_stride : Z
}.

(** What the system says about the user: name and home directory, the host, the working
    directory, the mask, the environment, and how allocations for the script go. *)
Record submit_env : Type := mk_submit_env {
  se_passwd : option (string * string);
  se_hostname : option string;
  se_cwd : option string;
  se_umask : Z;
  se_environ : list string;
  se_alloc : nat -> bool
}.

(** [if (s != NULL) ll_strlcpy(dst, s, n)] into a zeroed array. *)
Definition opt_chars (n : nat) (s : option string) : list Z := chars n (default EmptyString s).

(** [gethostname] and [getcwd] fail when the text does not fit. *)
Definition fitting (n : nat) (s : option string) : option string :=
  match s with Some s => if (String.length s <? n)%nat then Some s else None | None => None end.

Definition fill_wire (S : submit_env) (js : job_submit) : cM wire_job_submit :=
  let! command := cexpect (Some EINVAL) (js_command js) in
  let! pw := cexpect None (se_passwd S) in
  let! host := cexpect None (fitting MAXHOSTNAMELEN (se_hostname S)) in
  let! cwd := cexpect None (fitting PATH_MAX (se_cwd S)) in
  cret (mk_wire_job_submit (opt_chars LL_BUFSIZ_256 (js_name js)) (opt_chars LL_BUFSIZ_256 (js_queue js))
    (opt_chars LL_BUFSIZ_64 (js_project js)) (opt_chars LL_BUFSIZ_1K (js_comment js))
    (opt_chars LL_BUFSIZ_4K (js_machines js)) (opt_chars PATH_MAX (js_in_file js)) (opt_chars PATH_MAX (js_out_file js))
    (opt_chars PATH_MAX (js_err_file js)) (chars PATH_MAX cwd) (opt_chars LL_BUFSIZ_4K (js_depend_cond js))
    (chars PATH_MAX command) (opt_chars LL_BUFSIZ_256 (js_gpu_model js)) (chars MAXHOSTNAMELEN host)
    (chars LL_BUFSIZ_256 pw.1) (chars PATH_MAX pw.2) (opt_chars LL_BUFSIZ_256 (js_tokenpool js))
    (if js_num_cpus js =? 0 then 1 else js_num_cpus js) (if js_num_hosts js =? 0 then 1 else js_num_hosts js)
    (js_num_gpus js) (js_mem_mb js) (js_storage_mb js) (u32 (se_umask S)) (js_flags js)
    (js_begin_time js) (js_term_time js) 0 0 (js_array_start js) (js_array_end js) (js_array_stride js)).

Definition members_wire_job_submit : list c_member :=
  [CChars LL_BUFSIZ_256; CChars LL_BUFSIZ_256; CChars LL_BUFSIZ_64; CChars LL_BUFSIZ_1K; CChars LL_BUFSIZ_4K;
   CChars PATH_MAX; CChars PATH_MAX; CChars PATH_MAX; CChars PATH_MAX; CChars LL_BUFSIZ_4K; CChars PATH_MAX;
   CChars LL_BUFSIZ_256; CChars MAXHOSTNAMELEN; CChars LL_BUFSIZ_256; CChars PATH_MAX; CI32; CI32; CI32; CI64; CI64;
   CChars LL_BUFSIZ_256; CI32; CI32; CI64; CI64; CI64; CI64; CI32; CI32; CI32].

Definition XDR_OPAQUE_OVERHEAD : nat := 64.

Section submit.
Context `{XdrLib} (HMAC : list Z -> list Z -> option (list Z)) (E : client_env) (S : submit_env).

(** The signed request with the job and its script. *)
Definition submit_request (w : wire_job_submit) (script : string * Z) : cM (list Z) :=
  let data := mk_wire_job_script (take (Z.to_nat script.2) (bytes_of script.1)) in
  let bufsz := Z.of_nat (PACKET_HEADER_SIZE + sizeof members_wire_job_submit + XDR_OPAQUE_OVERHEAD) + script.2 in
  let! _ := cguard None (ce_alloc E 0) in
  let! c := cget in
  let (st, o) := auth_sign_header HMAC (ce_key E) (ce_getuid E) (ce_getgid E) (ce_time E)
                   (reply_header BATCH_JOB_SUBMIT MBD_OK) (cl_auth c) in
  let! _ := cmod (fun c => c <| cl_auth := st |>) in
  let! hdr := cexpect (Some EPROTO) o in
  let! r := cexpect (Some EPROTO)
              (ll_encode_msg2 (xdrmem_create (replicate (Z.to_nat (u32 bufsz)) 0)) hdr
                 (Some (Payload xdr_wire_job_submit w)) (Some (Payload xdr_wire_job_script data))) in
  cret (sent_bytes r.1).

Definition llb_submit (js : job_submit) : cM Z :=
  let! w := fill_wire S js in
  let! o := clift (create_jobscript (se_alloc S) (se_environ S) (default EmptyString (js_command js))) in
  let! script := cexpect None o in
  let! req := submit_request w script in
  let! r := call_mbd E req in
  let! rep := cexpect (Some EPROTO) (get xdr_wire_job_submit_reply r.2) in
  if wsr_job_id rep.1 <=? 0 then cerr (Some EPROTO) else cret (wsr_job_id rep.1).
End submit.

(** ** Names *)

Definition pend_reason_msg (r : pend_reason) : string :=
  match r with
  | PEND_NONE => "pending scheduling"
  | PEND_JOB_NOT_READY => "job not ready for scheduling"
  | PEND_QUEUE_CLOSED => "queue is closed"
  | PEND_TOKENS => "token pool exhausted"
  | PEND_NO_HOSTS => "no eligible hosts in queue"
  | PEND_NOT_ENOUGH_CPUS => "not enough free CPUs on any host"
  | PEND_NOT_ENOUGH_MEM => "not enough free memory on any host"
  | PEND_NOT_ENOUGH_STORAGE => "not enough free storage on any host"
  | PEND_NOT_ENOUGH_GPUS => "not enough free GPUs on any host"
  | PEND_GPU_MODEL => "no host has the required GPU model"
  | PEND_HOST_EXCLUSIVE => "exclusive constraint cannot be satisfied"
  | PEND_HOST_OVERFLOW => "host allocation size overflow buffer"
  | PEND_DEPEND => "waiting for job dependency"
  end.

Definition llb_job_state_str (st : Z) : string :=
  if st =? 1 then "PEND" else if st =? 2 then "HELD" else if st =? 3 then "RUN" else if st =? 4 then "SUSP"
  else if st =? 5 then "EXIT" else if st =? 6 then "DONE" else if st =? 8 then "BROKEN" else if st =? 7 then "ORPHAN"
  else if st =? 9 then "UNKNOWN" else "BADSTATE".

(** [None] for an operation without an entry in the table. *)
Definition batch_op_name (op : batch_op) : option string :=
  match op with
  | BATCH_JOB_SUBMIT => Some "BATCH_JOB_SUBMIT" | BATCH_JOB_SUBMIT_ACK => Some "BATCH_JOB_SUBMIT_ACK"
  | BATCH_JOB_SIGNAL => Some "BATCH_JOB_SIGNAL" | BATCH_JOB_SIGNAL_ACK => Some "BATCH_JOB_SIGNAL_ACK"
  | BATCH_JOB_INFO => Some "BATCH_JOB_INFO" | BATCH_JOB_INFO_ACK => Some "BATCH_JOB_INFO_ACK"
  | BATCH_HOST_INFO => Some "BATCH_HOST_INFO" | BATCH_HOST_INFO_ACK => Some "BATCH_HOST_INFO_ACK"
  | BATCH_QUEUE_INFO => Some "BATCH_QUEUE_INFO" | BATCH_QUEUE_INFO_ACK => Some "BATCH_QUEUE_INFO_ACK"
  | BATCH_GROUP_INFO => Some "BATCH_GROUP_INFO" | BATCH_GROUP_INFO_ACK => Some "BATCH_GROUP_INFO_ACK"
  | BATCH_NEW_JOB => Some "BATCH_NEW_JOB" | BATCH_NEW_JOB_REPLY => Some "BATCH_NEW_JOB_REPLY"
  | BATCH_NEW_JOB_REPLY_ACK => Some "BATCH_NEW_JOB_REPLY_ACK"
  | BATCH_JOB_FINISH => Some "BATCH_JOB_FINISH" | BATCH_JOB_FINISH_ACK => Some "BATCH_JOB_FINISH_ACK"
  | BATCH_SBD_JOB_SIGNAL => Some "BATCH_SBD_JOB_SIGNAL" | BATCH_SBD_JOB_SIGNAL_REPLY => None
  | BATCH_SBD_REGISTER => Some "BATCH_SBD_REGISTER" | BATCH_SBD_REGISTER_ACK => Some "BATCH_SBD_REGISTER_ACK"
  | BATCH_TOKEN_INFO => Some "BATCH_TOKEN_INFO" | BATCH_TOKEN_INFO_ACK => Some "BATCH_TOKEN_INFO_ACK"
  | BATCH_QUEUE_ADMIN => Some "BATCH_QUEUE_ADMIN" | BATCH_QUEUE_ADMIN_ACK => Some "BATCH_QUEUE_ADMIN_ACK"
  | BATCH_HOST_ADMIN => Some "BATCH_HOST_ADMIN" | BATCH_HOST_ADMIN_ACK => Some "BATCH_HOST_ADMIN_ACK"
  | BATCH_JOB_MOVE => Some "BATCH_JOB_MOVE" | BATCH_JOB_MOVE_ACK => Some "BATCH_JOB_MOVE_ACK"
  | BATCH_JOB_PRIORITY => Some "BATCH_JOB_PRIORITY" | BATCH_JOB_PRIORITY_ACK => Some "BATCH_JOB_PRIORITY_ACK"
  | BATCH_JOB_MISSING => Some "BATCH_JOB_MISSING"
  end.

Definition batch_op_str (op : batch_op) : string := default "UNKNOWN" (batch_op_name op).
