(* ===== verification/ClientProps.v ===== *)
(** * What a call of the client library promises

    The library and mbd on the two ends of a connection: a request is built and signed,
    arrives, is decoded and handled, and the reply becomes the value of the call. *)

From S2P Require Import Prelude CString LlConf JobScript LlHash Dependency LogFormat MbdTypes MbdBase MbdJob MbdSched MbdNet.
From S2P Require Import MbdInv MbdDemo Conf SbdTypes Wire WireXdr WireProps Auth Channel MbdInfo Arrival MbdReply Client.

Open Scope string_scope.
Open Scope list_scope.
Open Scope Z_scope.

(** ** Char arrays *)

Fixpoint until_nul (s : string) : string :=
  match s with
  | EmptyString => EmptyString
  | String c s => if code c =? 0 then EmptyString else String c (until_nul s)
  end.

Lemma c_str_text s k : c_str (map code (list_ascii_of_string s) ++ replicate (S k) 0) = Ok (until_nul s).
Proof.
  induction s as [|a s IH]; [done|]. cbn [list_ascii_of_string map app c_str until_nul].
  destruct (code a =? 0); [done|]. rewrite IH. cbn [res_bind]. unfold code.
  by rewrite Nat2Z.id, ascii_nat_embedding.
Qed.

Lemma c_str_chars n s : (0 < n)%nat -> c_str (chars n s) = Ok (until_nul (strbuf n s)).
Proof.
  intros Hn. unfold chars. pose proof (strbuf_length n s Hn) as Hl.
  assert (Hm : length (map code (list_ascii_of_string (strbuf n s))) = String.length (strbuf n s)).
  { rewrite length_map. generalize (strbuf n s). intros t. induction t; cbn; congruence. }
  rewrite Hm. destruct (n - String.length (strbuf n s))%nat eqn:Hk; [lia|]. apply c_str_text.
Qed.

Lemma chars_length n s : (0 < n)%nat -> length (chars n s) = n.
Proof.
  intros Hn. unfold chars. pose proof (strbuf_length n s Hn) as Hl. rewrite length_app, length_replicate, !length_map.
  assert (Hm : forall t, length (list_ascii_of_string t) = String.length t) by (intros t; induction t; cbn; congruence).
  rewrite Hm. lia.
Qed.

Lemma chars_bytes n s : forallb is_byte (chars n s) = true.
Proof.
  unfold chars. rewrite forallb_app. apply andb_true_intro. split.
  - apply forallb_forall. intros z [a [<- _]]%in_map_iff. unfold is_byte, code.
    pose proof (nat_ascii_bounded a). lia.
  - apply forallb_forall. intros z Hz%list_elem_of_In%elem_of_replicate. by destruct Hz as [-> _].
Qed.

(** ** The connection *)

(** The calls make progress: every one moves some bytes or is interrupted, and [n] of
    them move bytes. *)
Definition moves (o : io_outcome) : bool := match o with IoSome _ => true | _ => false end.
Definition flows (os : list io_outcome) (n : nat) : Prop :=
  Forall (fun o => match o with IoSome _ | IoIntr => True | _ => False end) os /\ (n <= length (List.filter moves os))%nat.

Lemma read_flows again os n k got s :
  flows os k -> (n <= k)%nat -> (n <= length s)%nat ->
  exists os', read_loop again os n got s = LoopDone (got ++ take n s, os', drop n s) /\ flows os' (k - n).
Proof.
  revert n k got s. induction os as [|o os IH]; intros n k got s [Ho Hk] Hn Hs.
  - cbn in Hk. assert (n = O) as -> by lia. exists []. cbn. rewrite app_nil_r, drop_0. split; [done|split; [done|cbn; lia]].
  - destruct n as [|n]. { exists (o :: os). cbn [read_loop]. rewrite take_0, drop_0, app_nil_r. split; [done|]. by rewrite Nat.sub_0_r. }
    apply Forall_cons in Ho as [Ho Hos]. cbn [read_loop]. destruct o as [| | |j]; try done; cbn [sock_read].
    + apply (IH (S n) k); [split; [done|exact Hk]|done..].
    + set (m := Nat.min (S j) (S n)). cbn [List.filter moves length] in Hk.
      assert (Hm : length (take m s) = m) by (rewrite length_take; lia).
      destruct (take m s) as [|z bytes] eqn:Hb; [cbn in Hm; lia|]. rewrite <- Hb in *.
      assert (Hr : forall r, r = (S n - length (take m s))%nat -> exists os', read_loop again os r (got ++ take m s) (drop m s) =
         LoopDone (got ++ take (S n) s, os', drop (S n) s) /\ flows os' (k - S n)).
      { intros r ->. rewrite Hm. destruct (IH (S n - m)%nat (k - m)%nat (got ++ take m s) (drop m s)) as (os' & -> & Hf).
        - split; [done|]. unfold m. lia.
        - unfold m. lia.
        - rewrite length_drop. unfold m. lia.
        - exists os'. rewrite <- app_assoc. split; [|by replace (k - S n)%nat with (k - m - (S n - m))%nat by (unfold m; lia)].
          assert (Ht : take m s ++ take (S n - m) (drop m s) = take (S n) s).
          { rewrite take_take_drop. f_equal. unfold m. lia. }
          rewrite Ht, drop_drop. do 3 f_equal. f_equal. unfold m. lia. }
      apply Hr. by rewrite Hb.
Qed.

Lemma write_flows os k buf sent :
  flows os k -> (length buf <= k)%nat ->
  exists os', write_loop os buf sent = LoopDone (sent ++ buf, os') /\ flows os' (k - length buf).
Proof.
  revert k buf sent. induction os as [|o os IH]; intros k buf sent [Ho Hk] Hb.
  - cbn in Hk. destruct buf; [|cbn in Hb; lia]. exists []. cbn. rewrite app_nil_r. split; [done|split; [done|cbn; lia]].
  - destruct buf as [|z buf]. { exists (o :: os). cbn. rewrite app_nil_r, Nat.sub_0_r. done. }
    apply Forall_cons in Ho as [Ho Hos]. cbn [write_loop]. destruct o as [| | |j]; try done.
    + apply (IH k); [split; [done|exact Hk]|done].
    + cbn [List.filter moves length] in *. set (b := z :: buf) in *.
      destruct (IH (k - length (take (S j) b))%nat (drop (S j) b) (sent ++ take (S j) b)) as (os' & -> & Hf).
      * split; [done|]. rewrite length_take. unfold b. cbn [length]. lia.
      * rewrite length_drop, length_take. unfold b. cbn [length]. lia.
      * exists os'. rewrite <- app_assoc, take_drop. split; [done|].
        replace (k - S (length buf))%nat with (k - length (take (S j) b) - length (drop (S j) b))%nat; [done|].
        rewrite length_take, length_drop. unfold b. cbn [length]. lia.
Qed.

Section link.
Context `{XdrLib} `{!XdrLaws}.

(** A reply that arrives whole. *)
Lemma rpc_done os req hdr body rest k :
  flows os k -> (length req + PACKET_HEADER_SIZE + length body <= k)%nat ->
  fits xdr_pack_hdr hdr = true -> hdr_length hdr = Z.of_nat (length body) ->
  chan_rpc os req true true (put xdr_pack_hdr hdr ++ body ++ rest) = LoopDone (req, hdr, body).
Proof using Type*.
  intros Hf Hk Hh Hlen. unfold chan_rpc, chan_write.
  destruct (write_flows os k req [] Hf ltac:(lia)) as (os1 & -> & Hf1). cbn [negb app].
  unfold recv_protocol_header, chan_read. pose proof (pack_hdr_size hdr Hh) as Hs. pose proof pack_hdr_ok as [G _].
  destruct (read_flows false os1 PACKET_HEADER_SIZE _ [] (put xdr_pack_hdr hdr ++ body ++ rest) Hf1) as (os2 & -> & Hf2);
    [lia|rewrite !length_app; lia|]. cbn [app]. rewrite <- Hs, take_app_length, drop_app_length.
  rewrite <- (app_nil_r (put xdr_pack_hdr hdr)) at 1. rewrite G by done. rewrite Hlen.
  destruct (Z.eqb_spec (Z.of_nat (length body)) 0) as [Hz|Hz]; [by destruct body|].
  rewrite (proj2 (Z.ltb_ge _ _)) by lia. cbn [negb orb]. rewrite Nat2Z.id.
  destruct (read_flows false os2 (length body) _ [] (body ++ rest) Hf2) as (os3 & -> & _); [lia|rewrite length_app; lia|].
  cbn [app]. by rewrite take_app_length.
Qed.

(** The peer closes the connection. *)
Lemma rpc_eof os req k :
  flows os k -> (length req < k)%nat -> chan_rpc os req true true [] = LoopFail.
Proof.
  intros Hf Hk. unfold chan_rpc, chan_write. destruct (write_flows os k req [] Hf ltac:(lia)) as (os1 & -> & Hf1).
  cbn [negb app]. unfold recv_protocol_header, chan_read.
  assert (Hr : forall os n, flows os 1 -> read_loop false os (S n) [] [] = LoopFail).
  { clear. induction os as [|o os IH]; intros n [Ho Hk]; [cbn in Hk; lia|]. apply Forall_cons in Ho as [Ho Hos].
    destruct o; try done. cbn [read_loop sock_read]. apply IH. split; done. }
  change PACKET_HEADER_SIZE with 64%nat. rewrite (Hr os1 63%nat); [done|]. destruct Hf1 as [F L]. split; [done|lia].
Qed.
End link.

(** ** The two ends *)

(** The channel of the library is in the table. *)
Definition client_wf (c : client) : Prop :=
  length (cl_channels c) = CHAN_MAX /\ cl_chan_mbd c < Z.of_nat CHAN_MAX.

Lemma find_free_lt cs i k : chan_find_free_from cs i = Some k -> (k < i + length cs)%nat.
Proof.
  revert i. induction cs as [|x cs IH]; intros i; [done|]. cbn [chan_find_free_from length].
  destruct (ch_sock x =? -1); [intros [= <-]; lia|]. intros Hk%IH. lia.
Qed.

Lemma drop_mbd_total c : client_wf c -> exists c', drop_mbd c = Ok (c', Ret tt) /\ client_wf c'.
Proof.
  intros [Hl Hc]. unfold drop_mbd, cbind, cget, clift, cmod. cbn [res_bind]. unfold chan_close.
  assert (Hwf : forall cs : list chan_data, length cs = CHAN_MAX -> client_wf (c <| cl_channels := cs |> <| cl_chan_mbd := -1 |>))
    by (intros cs Hcs; split; [done|cbn; lia]).
  destruct (out_of_range (cl_chan_mbd c)) eqn:Ho; cbn [res_bind fst]; [eexists; split; [done|by apply Hwf]|].
  unfold out_of_range in Ho. apply orb_false_iff in Ho as [Ho _]. apply Z.ltb_ge in Ho.
  unfold chan_at. rewrite (proj2 (Z.ltb_ge _ _)) by done. unfold nth_res.
  destruct (lookup_lt_is_Some_2 (cl_channels c) (Z.to_nat (cl_chan_mbd c))) as [x ->]; [lia|]. cbn [res_bind].
  destruct (ch_sock x <? 0); cbn [res_bind fst]; (eexists; split; [done|]); apply Hwf; [done|].
  unfold upd_chan. by rewrite length_alter.
Qed.

Lemma rpc_init_wf E c c' : client_wf c -> mbd_rpc_init E c = Ok (c', Ret tt) -> client_wf c'.
Proof.
  intros [Hl Hc]. unfold mbd_rpc_init, cbind, cget, cexpect, cmod. cbn [res_bind].
  destruct (cl_initialized c); [unfold cret; intros [= <-]; done|].
  repeat (case_match; cbn [cret cerr res_bind]; try done). intros [= <-]. split; [done|]. cbn. done.
Qed.

Lemma connect_wf E c c' : client_wf c -> connect_mbd E c = Ok (c', Ret tt) -> client_wf c'.
Proof.
  intros [Hl Hc]. unfold connect_mbd, cbind at 1, cget. cbn [res_bind].
  destruct (0 <=? cl_chan_mbd c); [unfold cret; intros [= <-]; done|].
  unfold chan_tcp_client, open_socket. destruct (chan_find_free (cl_channels c)) as [i|] eqn:Hi; [|done].
  destruct (ce_socket E) as [fd|]; [|done]. unfold cbind at 1, cmod. cbn [res_bind].
  unfold cbind at 1, cexpect at 1, cret at 1. cbn [res_bind]. unfold cbind at 1. cbn [res_bind].
  unfold cbind at 1, clift at 1. destruct (chan_connect _ _ _ _) as [[errno|]|]; cbn [res_bind]; [|intros [= <-]|done].
  - unfold cbind. destruct (drop_mbd _) as [[c1 [| |]]|]; done.
  - apply find_free_lt in Hi. split; [|cbn; lia]. transitivity (length (cl_channels c)); [apply length_alter|done].
Qed.

(** A client and an mbd of one cluster: the same key, clocks that agree up to the allowed
    age, a digest of the right size, a connection that can be made; [ce_peer] is mbd. *)
Record cluster `{XdrLib} (HMAC : list Z -> list Z -> option (list Z)) (E : client_env) (c : client)
    (e : env) (alloc : nat -> bool) (groups : list mbd_group) (file : option (list Z)) (chan : Z)
    (st : auth_state) (w : mbd) : Prop := mk_cluster {
  cl_client_key : (auth_load_key (ce_key E) (cl_auth c)).2 = true;
  cl_mbd_key : (auth_load_key file st).2 = true;
  cl_same_key : auth_key (auth_load_key file st).1 = auth_key (auth_load_key (ce_key E) (cl_auth c)).1;
  cl_digest : forall k m, exists d, HMAC k m = Some d /\ length d = HMAC_SIZE /\ forallb is_byte d = true;
  cl_age : 0 <= auth_allowed_age st < 2 ^ 31;
  cl_time : 0 <= ce_time E < 2 ^ 31;
  cl_now : 0 <= now e < 2 ^ 31;
  cl_clocks : Z.abs (now e - ce_time E) <= auth_allowed_age st;
  cl_uid : is_u32 (ce_getuid E) = true;
  cl_gid : is_u32 (ce_getgid E) = true;
  cl_alloc : forall i, ce_alloc E i = true;
  cl_ready : ce_ready E = true;
  cl_wf : client_wf c;
  cl_connects : forall a, exists c', (let! _ := mbd_rpc_init E in connect_mbd E) (c <| cl_auth := a |>) = Ok (c', Ret tt);
  cl_peer : forall m, ce_peer E m = match serve HMAC e alloc groups file chan st w m with Ok (_, _, r) => r | Crash _ => [] end
}.

Lemma chars_fits `{XdrLib} `{!XdrLaws} n s : (0 < n)%nat -> fits (xdr_opaque n) (chars n s) = true.
Proof using Type*. intros Hn. by rewrite opaque_fits, chars_length, chars_bytes, Nat.eqb_refl. Qed.

Section ends.
Context `{XdrLib} `{!XdrLaws} (HMAC : list Z -> list Z -> option (list Z)) (E : client_env) (c : client)
  (e : env) (alloc : nat -> bool) (groups : list mbd_group) (file : option (list Z)) (chan : Z)
  (st : auth_state) (w : mbd) (CL : cluster HMAC E c e alloc groups file chan st w).

Definition me : caller := mk_caller (ce_getuid E) (ce_getgid E).

Lemma op_of_num op : batch_op_of (batch_op_num op) = Some op.
Proof. by destruct op. Qed.

(** Signing succeeds and leaves a header that fits the wire. *)
Lemma signs op n :
  Z.of_nat n < 2 ^ 31 ->
  exists a hdr, auth_sign_header HMAC (ce_key E) (ce_getuid E) (ce_getgid E) (ce_time E) (reply_header op MBD_OK) (cl_auth c) =
      (a, Some hdr) /\
    fits xdr_pack_hdr (hdr <| hdr_length := Z.of_nat n |>) = true /\
    hdr_operation hdr = batch_op_num op /\ hdr_version hdr = CURRENT_PROTOCOL_VERSION /\ hdr_status hdr = 0 /\
    hdr_uid hdr = ce_getuid E /\ hdr_gid hdr = ce_getgid E.
Proof using Type*.
  intros Hn. destruct CL as [Hk _ _ Hd _ Ht _ _ Hu Hg _ _ _ _ _]. unfold auth_sign_header.
  destruct (auth_load_key (ce_key E) (cl_auth c)) as [a ok]. cbn [snd] in Hk. subst ok. cbn [negb].
  unfold compute_hmac. destruct (Hd (auth_key a) (header_image (unsigned ((reply_header op MBD_OK) <| hdr_uid := u32 (ce_getuid E) |>
    <| hdr_gid := u32 (ce_getgid E) |> <| hdr_timestamp := u32 (ce_time E) |> <| hdr_hmac := replicate HMAC_SIZE 0 |>))))
    as (d & -> & Hl & Hb). rewrite Hl. cbn [Nat.eqb AUTH_KEY_SIZE HMAC_SIZE].
  assert (Hu32 : forall z, is_u32 z = true -> u32 z = z) by (intros z Hz; unfold is_u32 in Hz; unfold u32; apply Z.mod_small; lia).
  rewrite !Hu32 by (done || unfold is_u32; lia). eexists a, _. split; [done|]. split; [|done].
  cbn. rewrite !int32_fits, !uint32_fits, opaque_fits, op_is_i32, Hu, Hg, Hl, Hb.
  assert (Hz : is_i32 (Z.of_nat n) = true) by (unfold is_i32; lia).
  assert (Ht' : is_u32 (ce_time E) = true) by (unfold is_u32; lia). rewrite Hz, Ht'. done.
Qed.

(** What mbd reads from a request of this client. *)
Lemma request_decoded op a hdr n body :
  auth_sign_header HMAC (ce_key E) (ce_getuid E) (ce_getgid E) (ce_time E) (reply_header op MBD_OK) (cl_auth c) = (a, Some hdr) ->
  fits xdr_pack_hdr (hdr <| hdr_length := n |>) = true ->
  hdr_operation hdr = batch_op_num op -> hdr_version hdr = CURRENT_PROTOCOL_VERSION ->
  hdr_uid hdr = ce_getuid E -> hdr_gid hdr = ce_getgid E ->
  exists st', decode_request HMAC file (now e) st (put xdr_pack_hdr (hdr <| hdr_length := n |>) ++ body) =
    let* rq := decode_body op me body in Ok (st', rq).
Proof using Type*.
  intros Hs Hf Hop Hv Hu Hg. destruct CL as [_ Hmk Hsame _ Ha Ht Hn Hc _ _ _ _ _ _ _].
  unfold decode_request. pose proof pack_hdr_ok as [G _]. rewrite G by done.
  change (hdr_operation (hdr <| hdr_length := n |>)) with (hdr_operation hdr). rewrite Hop, op_of_num.
  pose proof (signed_accepted HMAC (ce_key E) file (cl_auth c) st (ce_getuid E) (ce_getgid E) (ce_time E) (now e)
    (reply_header op MBD_OK) hdr n Hmk Hsame Ha Ht Hn) as Hok. rewrite Hs in Hok. specialize (Hok eq_refl).
  destruct (auth_verify_header HMAC file (now e) (hdr <| hdr_length := n |>) st) as [st' ok]. cbn [snd] in Hok.
  rewrite (proj2 (Z.leb_le _ _)), orb_true_r in Hok by done. subst ok. cbn [negb].
  change (hdr_version (hdr <| hdr_length := n |>)) with (hdr_version hdr). rewrite Hv, Z.eqb_refl. cbn [negb].
  exists st'. unfold me. cbn. by rewrite Hu, Hg.
Qed.

(** [call_mbd] on a reply whose first frame has this header and body. *)
Lemma call_answered a req hdr body rest k :
  flows (ce_io E) k -> (length req + PACKET_HEADER_SIZE + length body <= k)%nat ->
  fits xdr_pack_hdr hdr = true -> hdr_length hdr = Z.of_nat (length body) ->
  ce_peer E req = put xdr_pack_hdr hdr ++ body ++ rest ->
  exists c', call_mbd E req (c <| cl_auth := a |>) =
    Ok (c', if hdr_status hdr =? MBD_OK then Ret (hdr, body) else Err (Some (hdr_status hdr))).
Proof using Type*.
  intros Hf Hk Hh Hl Hp. destruct CL as [_ _ _ _ _ _ _ _ _ _ Hal Hr Hwf Hcon _]. destruct (Hcon a) as [c' Hc].
  unfold call_mbd. unfold cbind at 1 in Hc. unfold cbind at 1.
  destruct (mbd_rpc_init E (c <| cl_auth := a |>)) as [[c1 [[]| |]]|] eqn:Hi; try done. cbn [res_bind] in *.
  unfold cbind at 1. rewrite Hc. cbn [res_bind]. rewrite Hr, Hal, Hp, (rpc_done _ _ _ _ _ k) by done.
  destruct (hdr_status hdr =? MBD_OK); cbn [negb]; [by exists c'|].
  apply rpc_init_wf in Hi; [|by destruct Hwf]. apply connect_wf in Hc; [|done].
  destruct (drop_mbd_total c' Hc) as (c2 & Hd & _). exists c2. unfold cbind. by rewrite Hd.
Qed.

(** The connection is closed instead. *)
Lemma call_closed a req k :
  flows (ce_io E) k -> (length req < k)%nat -> ce_peer E req = [] ->
  exists c', call_mbd E req (c <| cl_auth := a |>) = Ok (c', Err None).
Proof using Type*.
  intros Hf Hk Hp. destruct CL as [_ _ _ _ _ _ _ _ _ _ Hal Hr Hwf Hcon _]. destruct (Hcon a) as [c' Hc].
  unfold call_mbd. unfold cbind at 1 in Hc. unfold cbind at 1.
  destruct (mbd_rpc_init E (c <| cl_auth := a |>)) as [[c1 [[]| |]]|] eqn:Hi; try done. cbn [res_bind] in *.
  unfold cbind at 1. rewrite Hc. cbn [res_bind]. rewrite Hr, Hal, Hp, (rpc_eof _ _ k) by done.
  apply rpc_init_wf in Hi; [|by destruct Hwf]. apply connect_wf in Hc; [|done].
  destruct (drop_mbd_total c' Hc) as (c2 & Hd & _). exists c2. unfold cbind. by rewrite Hd.
Qed.

(** A request is built, and arrives as what it was. *)
Lemma request_arrives op siz p se ee :
  let body := default [] (payload_bytes <$> p) in
  (PACKET_HEADER_SIZE + length body <= siz)%nat -> Z.of_nat (length body) < 2 ^ 31 ->
  exists a bytes st', build_request HMAC E op siz p se ee c = Ok (c <| cl_auth := a |>, Ret bytes) /\
    length bytes = (PACKET_HEADER_SIZE + length body)%nat /\
    decode_request HMAC file (now e) st bytes = let* rq := decode_body op me body in Ok (st', rq).
Proof using Type*.
  intros body Hs Hn. destruct (signs op (length body) Hn) as (a & hdr & Hsign & Hf & Hop & Hv & _ & Hu & Hg).
  destruct (request_decoded op a hdr (Z.of_nat (length body)) body Hsign Hf Hop Hv Hu Hg) as [st' Hd].
  destruct (encode_msg2_bytes (replicate siz 0) hdr p None) as (x & Hx & _ & Hb);
    [cbn [fmap option_fmap option_map default]; rewrite app_nil_r, length_replicate; done|
     cbn [fmap option_fmap option_map default]; by rewrite app_nil_r|].
  cbn [fmap option_fmap option_map] in Hb. cbn [default] in Hb. rewrite app_nil_r in Hb. fold body in Hb.
  exists a, (sent_bytes x), st'. split; [|split].
  - unfold build_request, cbind, cget, cmod. cbn [res_bind]. rewrite Hsign. cbn [res_bind cexpect cret].
    unfold cret. cbn [res_bind]. rewrite encode_msg_as_msg2, Hx. cbn [cexpect]. unfold cret. by cbn [res_bind fst].
  - rewrite Hb, length_app. f_equal. by apply pack_hdr_size.
  - by rewrite Hb, Hd.
Qed.

(** *** Replies without a body *)

Lemma header_frame op status :
  is_i32 status = true -> fits xdr_pack_hdr (reply_header op status) = true /\
  encode_reply (ReplyHeader op status) = Some (put xdr_pack_hdr (reply_header op status)).
Proof using Type*.
  intros Hs. assert (Hf : fits xdr_pack_hdr (reply_header op status) = true).
  { cbn. rewrite !int32_fits, !uint32_fits, opaque_fits, op_is_i32, Hs. reflexivity. }
  split; [done|]. pose proof (pack_hdr_size _ Hf) as Hl. unfold encode_reply, xdr_write, xdrmem_create. cbn [xm_pos xm_buf].
  rewrite Hl, length_replicate. change (0 + PACKET_HEADER_SIZE <=? LL_BUFSIZ_256)%nat with true. cbv iota.
  unfold sent_bytes. cbn [xm_pos xm_buf]. rewrite take_0. cbn [app Nat.add]. by rewrite <- Hl, take_app_length.
Qed.

(** The value of a call that gets these messages. *)
Definition said (ms : list msg) : outcome unit :=
  match ms with m :: _ => if m_status m =? MBD_OK then Ret tt else Err (Some (m_status m)) | [] => Err None end.

Lemma command_runs op siz p msg w' f :
  let body := payload_bytes p in
  (PACKET_HEADER_SIZE + length body <= siz)%nat -> (length body <= 512)%nat ->
  decode_body op me body = Ok (RqControl me msg) -> route e chan (GoodMessage me msg) w = Ok w' ->
  flows (ce_io E) LL_BUFSIZ_1K -> plain_reply (chan_msgs chan w w') ->
  exists c', command_mbd HMAC E op siz p f c = Ok (c', said (chan_msgs chan w w')).
Proof using Type*.
  intros body Hs Hb Hd Hr Hf Hpl. destruct (request_arrives op siz (Some p) None (Some EPROTO)) as (a & bytes & st' & Hreq & Hl & Ha);
    [exact Hs|change (Z.of_nat (length body) < 2 ^ 31); lia|].
  cbn [fmap option_fmap option_map default id] in Hl, Ha. fold body in Hl, Ha. rewrite Hd in Ha. cbn [res_bind] in Ha.
  assert (Hp : ce_peer E bytes = replies chan w w').
  { destruct CL as [_ _ _ _ _ _ _ _ _ _ _ _ _ _ Hp]. rewrite Hp. unfold serve. rewrite Ha. cbn [res_bind]. rewrite Hr. done. }
  assert (Hcmd : forall c' o, call_mbd E bytes (c <| cl_auth := a |>) = Ok (c', o) ->
    command_mbd HMAC E op siz p f c = Ok (c', match o with Ret r => if hdr_status r.1 =? MBD_OK then Ret tt else Err (Some (f (hdr_status r.1))) | Err x => Err x | Blocked => Blocked end)).
  { intros c' o Hc. unfold command_mbd, cbind at 1, cguard at 1. destruct CL as [_ _ _ _ _ _ _ _ _ _ Hal _ _ _ _]. rewrite Hal.
    unfold cret at 1. cbn [res_bind]. unfold cbind at 1. rewrite Hreq. cbn [res_bind]. unfold cbind at 1. rewrite Hc. cbn [res_bind].
    destruct o as [r|x|]; [|done|done]. unfold cguard. by destruct (hdr_status r.1 =? MBD_OK). }
  assert (Hlen : (length bytes + PACKET_HEADER_SIZE < LL_BUFSIZ_1K)%nat) by (rewrite Hl; unfold PACKET_HEADER_SIZE, LL_BUFSIZ_1K; lia).
  destruct Hpl as [Hm|(m & Hm & Hbn & Hi)]; rewrite Hm.
  - destruct (call_closed a bytes LL_BUFSIZ_1K) as [c' Hc]; [done|lia|by rewrite Hp; unfold replies; rewrite Hm|].
    exists c'. by apply Hcmd in Hc.
  - destruct (header_frame (m_op m) (m_status m) Hi) as [Hfit Henc].
    destruct (call_answered a bytes (reply_header (m_op m) (m_status m)) [] [] LL_BUFSIZ_1K)
      as [c' Hc]; [done|cbn [length]; lia|done|done| |].
    { rewrite Hp. unfold replies. rewrite Hm. cbn [omap list_omap]. unfold encode_msg at 1. rewrite Hbn, Henc. done. }
    exists c'. apply Hcmd in Hc. rewrite Hc. unfold said. change (hdr_status (reply_header (m_op m) (m_status m))) with (m_status m).
    destruct (m_status m =? MBD_OK) eqn:Hst; [|done]. cbn [fst].
    change (hdr_status (reply_header (m_op m) (m_status m))) with (m_status m). by rewrite Hst.
Qed.

(** ** Commands *)

Inductive command : Type :=
  | CmdSignal (jobid index sig : Z)
  | CmdQueueAdmin (nm : string) (op : Z)
  | CmdHostAdmin (nm : string) (op : Z)
  | CmdMove (id : Z) (to_queue : string)
  | CmdPriority (id : Z) (prio : Z).

Definition run_command (cmd : command) : cM unit :=
  match cmd with
  | CmdSignal jobid index sig => llb_signal_job HMAC E jobid index sig
  | CmdQueueAdmin nm op => llb_queue_admin HMAC E nm op
  | CmdHostAdmin nm op => llb_host_admin HMAC E nm op
  | CmdMove id q => llb_move_job HMAC E id q
  | CmdPriority id prio => llb_priority_job HMAC E id prio
  end.

(** What mbd is asked to do: names are cut to their arrays. *)
Definition command_msg (cmd : command) : client_msg :=
  match cmd with
  | CmdSignal jobid index sig => MSignal (MbdTypes.mk_wire_job_sig jobid index sig (ce_getuid E))
  | CmdQueueAdmin nm op => MQueueAdmin (until_nul (strbuf LL_BUFSIZ_64 nm)) op
  | CmdHostAdmin nm op => MHostAdmin (until_nul (strbuf MAXHOSTNAMELEN nm)) op
  | CmdMove id q => MJobMove id (until_nul (strbuf LL_BUFSIZ_64 q))
  | CmdPriority id prio => MJobPriority id prio
  end.

(** The arguments are values of their C types. *)
Definition command_fits (cmd : command) : bool :=
  match cmd with
  | CmdSignal jobid index sig => is_i64 jobid && is_i32 index && is_i32 sig
  | CmdQueueAdmin _ op | CmdHostAdmin _ op => is_i32 op
  | CmdMove id _ => is_i64 id
  | CmdPriority id prio => is_i64 id && is_i32 prio
  end.

Definition command_payload (cmd : command) : payload :=
  match cmd with
  | CmdSignal jobid index sig => Payload xdr_wire_job_sig (mk_wire_job_sig jobid index sig)
  | CmdQueueAdmin nm op => Payload xdr_wire_queue_admin (mk_wire_queue_admin (chars LL_BUFSIZ_64 nm) op)
  | CmdHostAdmin nm op => Payload xdr_wire_host_admin (mk_wire_host_admin (chars MAXHOSTNAMELEN nm) op)
  | CmdMove id q => Payload xdr_wire_job_move (mk_wire_job_move id (chars LL_BUFSIZ_64 q))
  | CmdPriority id prio => Payload xdr_wire_job_priority (mk_wire_job_priority id prio)
  end.

Definition command_op (cmd : command) : batch_op :=
  match cmd with
  | CmdSignal _ _ _ => BATCH_JOB_SIGNAL
  | CmdQueueAdmin _ _ => BATCH_QUEUE_ADMIN
  | CmdHostAdmin _ _ => BATCH_HOST_ADMIN
  | CmdMove _ _ => BATCH_JOB_MOVE
  | CmdPriority _ _ => BATCH_JOB_PRIORITY
  end.

(** A struct whose fields fit is small and decodes to itself. *)
Definition carried {A} (c : codec A) (a : A) : Prop := get c (put c a) = Some (a, []) /\ (length (put c a) <= 80)%nat.

Ltac carries t :=
  let Hf := fresh "Hf" in let G := fresh "G" in
  intros;
  lazymatch goal with |- carried _ ?a =>
    assert (Hf : fits (xdr_wire t) a = true)
      by (cbn; rewrite ?int32_fits, ?int64_fits; repeat match goal with H : _ = true |- _ => rewrite H end; done)
  end;
  split;
  [ destruct (xdr_wire_ok t) as [G _]; specialize (G _ [] Hf); rewrite app_nil_r in G; exact G
  | clear Hf; cbn; rewrite !length_app, ?int32_size, ?int64_size, ?opaque_size by (rewrite ?int32_fits, ?int64_fits; done);
    apply Nat.leb_le; vm_compute; reflexivity ].

Lemma sig_carried a b s : is_i64 a = true -> is_i32 b = true -> is_i32 s = true -> carried xdr_wire_job_sig (mk_wire_job_sig a b s).
Proof using Type*. carries WJobSig. Qed.

Lemma queue_admin_carried b op :
  fits (xdr_opaque LL_BUFSIZ_64) b = true -> is_i32 op = true -> carried xdr_wire_queue_admin (mk_wire_queue_admin b op).
Proof using Type*. carries WQueueAdmin. Qed.

Lemma host_admin_carried b op :
  fits (xdr_opaque MAXHOSTNAMELEN) b = true -> is_i32 op = true -> carried xdr_wire_host_admin (mk_wire_host_admin b op).
Proof using Type*. carries WHostAdmin. Qed.

Lemma move_carried id b :
  is_i64 id = true -> fits (xdr_opaque LL_BUFSIZ_64) b = true -> carried xdr_wire_job_move (mk_wire_job_move id b).
Proof using Type*. carries WJobMove. Qed.

Lemma priority_carried id p : is_i64 id = true -> is_i32 p = true -> carried xdr_wire_job_priority (mk_wire_job_priority id p).
Proof using Type*. carries WJobPriority. Qed.

Lemma query_carried a b i f u :
  is_i64 a = true -> is_i64 b = true -> is_i32 i = true -> is_i32 f = true -> is_i32 u = true ->
  carried xdr_wire_job_query (mk_wire_job_query a b i f u).
Proof using Type*. carries WJobQuery. Qed.

Lemma command_arrives cmd :
  command_fits cmd = true ->
  decode_body (command_op cmd) me (payload_bytes (command_payload cmd)) = Ok (RqControl me (command_msg cmd)) /\
  (length (payload_bytes (command_payload cmd)) <= 80)%nat.
Proof using Type*.
  intros Hc. destruct cmd; cbn [command_fits] in Hc; rewrite ?andb_true_iff in Hc; destruct_and?;
    cbn [command_op command_payload payload_bytes decode_body command_msg].
  - destruct (sig_carried jobid index sig) as [-> ?]; done.
  - destruct (queue_admin_carried (chars LL_BUFSIZ_64 nm) op) as [-> ?]; [apply chars_fits; unfold LL_BUFSIZ_64; lia|done|].
    cbn [wqa_name wqa_op]. rewrite c_str_chars by (unfold LL_BUFSIZ_64; lia). done.
  - destruct (host_admin_carried (chars MAXHOSTNAMELEN nm) op) as [-> ?]; [apply chars_fits; unfold MAXHOSTNAMELEN; lia|done|].
    cbn [wha_name wha_op]. rewrite c_str_chars by (unfold MAXHOSTNAMELEN; lia). done.
  - destruct (move_carried id (chars LL_BUFSIZ_64 to_queue)) as [-> ?]; [done|apply chars_fits; unfold LL_BUFSIZ_64; lia|].
    cbn [wmv_job_id wmv_to_queue]. rewrite c_str_chars by (unfold LL_BUFSIZ_64; lia). done.
  - destruct (priority_carried id prio) as [-> ?]; done.
Qed.

(** The size of the buffer, and the bytes that are sent. *)
Definition command_siz (cmd : command) : nat :=
  match cmd with
  | CmdSignal _ _ _ => LL_BUFSIZ_1K
  | CmdQueueAdmin _ _ => PACKET_HEADER_SIZE + sizeof members_wire_queue_admin + LL_BUFSIZ_64
  | CmdHostAdmin _ _ => PACKET_HEADER_SIZE + sizeof members_wire_host_admin + LL_BUFSIZ_64
  | CmdMove _ _ => PACKET_HEADER_SIZE + sizeof members_wire_job_move + LL_BUFSIZ_64
  | CmdPriority _ _ => PACKET_HEADER_SIZE + sizeof members_wire_job_priority + LL_BUFSIZ_64
  end%nat.

Definition command_request (cmd : command) : cM (list Z) :=
  build_request HMAC E (command_op cmd) (command_siz cmd) (Some (command_payload cmd)) None (Some EPROTO).

Lemma run_command_is cmd : exists f, run_command cmd = command_mbd HMAC E (command_op cmd) (command_siz cmd) (command_payload cmd) f.
Proof. destruct cmd; eexists; reflexivity. Qed.

Lemma command_room cmd : (PACKET_HEADER_SIZE + 80 <= command_siz cmd)%nat.
Proof. destruct cmd; apply Nat.leb_le; vm_compute; reflexivity. Qed.
End ends.

Section commands.
Context `{XdrLib} `{!XdrLaws}.

(** C9: a command does what it says and returns what mbd decided.  For bkill, bmove,
    bpriority and the administration of queues and hosts, with any arguments, between a
    client and an mbd of one cluster: the request the library builds fits its buffer,
    passes the checks of mbd as coming from the uid and gid of the caller, and is
    handled as exactly that request, the names cut to their arrays; the call returns 0
    when mbd answers MBD_OK, -1 with the status of the answer as errno when it answers
    anything else, and -1 when mbd closes the connection without an answer. *)
Theorem command_carried_out HMAC E c e alloc groups file chan st w cmd w' :
  cluster HMAC E c e alloc groups file chan st w -> flows (ce_io E) LL_BUFSIZ_1K -> foreign chan w ->
  command_fits cmd = true ->
  route e chan (GoodMessage (me E) (command_msg E cmd)) w = Ok w' ->
  (exists c1 req st', command_request HMAC E cmd c = Ok (c1, Ret req) /\
     serve HMAC e alloc groups file chan st w req = Ok (st', w', replies chan w w')) /\
  exists c', run_command HMAC E cmd c = Ok (c', said (chan_msgs chan w w')).
Proof using Type*.
  intros CL Hf Hfo Hc Hr. destruct (command_arrives HMAC E c e alloc groups file chan st w CL cmd Hc) as [Hd Hl]. pose proof (command_room cmd) as Hs. split.
  - destruct (request_arrives HMAC E c e alloc groups file chan st w CL (command_op cmd) (command_siz cmd) (Some (command_payload cmd)) None (Some EPROTO))
      as (a & req & st' & Hreq & _ & Ha); [cbn [fmap option_fmap option_map default id]; lia|
        cbn [fmap option_fmap option_map default id]; lia|].
    cbn [fmap option_fmap option_map default id] in Ha. rewrite Hd in Ha. cbn [res_bind] in Ha.
    exists (c <| cl_auth := a |>), req, st'. split; [done|]. unfold serve. rewrite Ha. cbn [res_bind]. by rewrite Hr.
  - destruct (run_command_is HMAC E cmd) as [f ->].
    apply (command_runs HMAC E c e alloc groups file chan st w CL _ _ _ (command_msg E cmd)); try done; [lia|lia|].
    apply answered_plain with e. apply (command_answered chan e (me E) (command_msg E cmd)); [by destruct cmd|done|done].
Qed.
End commands.

(** ** bjobs *)

(** The record of a job as the user gets it. *)
Record job_shown (w : mbd) (j : job_data) (r : job_info) : Prop := mk_job_shown {
  sh_ids : ji_job_id r = job_id j /\ ji_array_id r = array_id j /\ ji_array_index r = array_index j;
  sh_uid : ji_uid r = u32 (uid j);
  sh_pid : ji_pid r = pid j;
  sh_state : ji_state r = job_state_num (state j) \/
    (ji_state r = job_state_num JOB_UNKNOWN /\ state_is JOB_RUNNING j || state_is JOB_SUSPENDED j = true /\
     exists h hh, run_host j 0 = Ok h /\ hosts w !! h = Some hh /\ sbd_chan hh < 0);
  sh_exit : ji_exit_status r = exit_status j;
  sh_priority : ji_priority r = priority j;
  sh_reason : ji_pend_reason r = pend_reason_num (pend_reason_of j);
  sh_times : ji_submit_time r = submit_time j /\ ji_dispatch_time r = dispatch_time j /\ ji_end_time r = end_time j /\
    ji_susp_time r = susp_time j;
  sh_name : ji_name r = Some (until_nul (strbuf LL_BUFSIZ_64 (name j)));
  sh_queue : exists q, job_queue w j = Ok q /\ ji_queue r = Some (until_nul (strbuf LL_BUFSIZ_64 (q_name q)));
  sh_hosts : exists hs names, run_host_ptrs j = Ok hs /\ host_names w hs = Ok names /\
    ji_run_hosts r = Some (until_nul (strbuf LL_BUFSIZ_4K (info_hosts true EmptyString (num_cpus (rsrc j)) names)))
}.

Lemma c_str_zeros n : (0 < n)%nat -> c_str (replicate n 0) = Ok EmptyString.
Proof. by destruct n; [lia|]. Qed.

Definition wire_record (j : job_data) (st : job_state) (q : mbd_queue) (names : list string) : wire_job_info :=
  mk_wire_job_info (job_id j) (array_id j) (array_index j) (u32 (uid j)) (pid j)
    (job_state_num st) (exit_status j) (priority j) (pend_reason_num (pend_reason_of j))
    (submit_time j) (dispatch_time j) (end_time j) (susp_time j)
    (chars LL_BUFSIZ_64 (name j)) (chars LL_BUFSIZ_64 (q_name q)) (replicate MAXHOSTNAMELEN 0)
    (chars LL_BUFSIZ_4K (info_hosts true EmptyString (num_cpus (rsrc j)) names))
    (replicate LL_BUFSIZ_512 0).

Lemma to_wire_record w j x :
  job_data_to_wire w j = Ok x ->
  exists st q hs names, x = wire_record j st q names /\
    (st = state j \/ (st = JOB_UNKNOWN /\ state_is JOB_RUNNING j || state_is JOB_SUSPENDED j = true /\
     exists h hh, run_host j 0 = Ok h /\ hosts w !! h = Some hh /\ sbd_chan hh < 0)) /\
    job_queue w j = Ok q /\ run_host_ptrs j = Ok hs /\ host_names w hs = Ok names.
Proof.
  unfold job_data_to_wire. fold (wire_record j).
  intros (st & Hst & (q & Hq & (hs & Hhs & (names & Hn & Hx)%res_bind_Ok)%res_bind_Ok)%res_bind_Ok)%res_bind_Ok.
  exists st, q, hs, names. split; [|split; [|done]].
  - unfold wire_record. congruence.
  - destruct (_ || _) eqn:Hs; [|left; congruence]. inv_res.
    destruct (Z.ltb_spec (sbd_chan r0) 0); [right|by left]. split; [done|]. split; [done|]. by exists r, r0.
Qed.

Lemma shown w j x dup i :
  (forall k, dup i k = true) -> job_data_to_wire w j = Ok x -> exists r, job_from_wire dup i x = Ok r /\ job_shown w j r.
Proof.
  intros Hdup (st & q & hs & names & -> & Hst & Hq & Hhs & Hn)%to_wire_record.
  unfold job_from_wire, strdup, wire_record. rewrite !Hdup.
  cbn [wji_name wji_queue wji_submit_host wji_run_hosts wji_comment].
  rewrite !c_str_chars by (unfold LL_BUFSIZ_64, MAXHOSTNAMELEN, LL_BUFSIZ_4K, LL_BUFSIZ_512; lia).
  rewrite !c_str_zeros by (unfold LL_BUFSIZ_64, MAXHOSTNAMELEN, LL_BUFSIZ_4K, LL_BUFSIZ_512; lia).
  cbn [res_bind]. eexists. split; [reflexivity|].
  constructor; try done; [|by exists q|by exists hs, names].
  destruct Hst as [->|(-> & Hr & Hh)]; [by left|by right].
Qed.

Lemma convert_ok {J A B} (f : nat -> A -> res B) (P : J -> A -> Prop) (Q : J -> B -> Prop) js l i :
  (forall i j a, P j a -> exists b, f i a = Ok b /\ Q j b) -> Forall2 P js l -> exists bs, convert f i l = Ok bs /\ Forall2 Q js bs.
Proof.
  intros Hf HF. revert i. induction HF as [|j a js l Hp HF IH]; intros i; [by exists []|].
  destruct (Hf i j a Hp) as (b & Hb & Hq), (IH (S i)) as (bs & Hbs & HF2).
  exists (b :: bs). cbn. rewrite Hb. cbn [res_bind]. rewrite Hbs. by split; [|constructor].
Qed.

(** The numbers of a job are values of their C types. *)
Definition job_in_range (j : job_data) : bool :=
  is_i64 (job_id j) && is_i64 (array_id j) && is_i32 (array_index j) && is_i32 (pid j) && is_i32 (job_state_num (state j)) &&
  is_i32 (exit_status j) && is_i32 (priority j) && is_i64 (submit_time j) && is_i64 (dispatch_time j) &&
  is_i64 (end_time j) && is_i64 (susp_time j).

Lemma job_info_fits `{XdrLib} `{!XdrLaws} x :
  is_i64 (wji_job_id x) = true -> is_i64 (wji_array_id x) = true -> is_i32 (wji_array_index x) = true ->
  is_u32 (wji_uid x) = true -> is_i32 (wji_pid x) = true -> is_i32 (wji_state x) = true ->
  is_i32 (wji_exit_status x) = true -> is_i32 (wji_priority x) = true -> is_i32 (wji_pend_reason x) = true ->
  is_i64 (wji_submit_time x) = true -> is_i64 (wji_dispatch_time x) = true -> is_i64 (wji_end_time x) = true ->
  is_i64 (wji_susp_time x) = true ->
  fits (xdr_opaque LL_BUFSIZ_64) (wji_name x) = true -> fits (xdr_opaque LL_BUFSIZ_64) (wji_queue x) = true ->
  fits (xdr_opaque MAXHOSTNAMELEN) (wji_submit_host x) = true -> fits (xdr_opaque LL_BUFSIZ_4K) (wji_run_hosts x) = true ->
  fits (xdr_opaque LL_BUFSIZ_512) (wji_comment x) = true -> fits xdr_wire_job_info x = true.
Proof using Type*.
  intros. cbn. rewrite ?int32_fits, ?int64_fits, ?uint32_fits. repeat match goal with H : _ = true |- _ => rewrite H; clear H end. done.
Qed.

Lemma zeros_fits `{XdrLib} `{!XdrLaws} n : fits (xdr_opaque n) (replicate n 0) = true.
Proof using Type*.
  rewrite opaque_fits, length_replicate, Nat.eqb_refl. cbn. apply forallb_forall.
  intros z Hz%list_elem_of_In%elem_of_replicate. by destruct Hz as [-> _].
Qed.

Lemma in_range_fits `{XdrLib} `{!XdrLaws} w j x :
  job_in_range j = true -> job_data_to_wire w j = Ok x -> fits xdr_wire_job_info x = true.
Proof using Type*.
  unfold job_in_range. rewrite !andb_true_iff. intros (((((((((( H1 & H2) & H3) & H4) & H5) & H6) & H7) & H8) & H9) & H10) & H11).
  intros (st & q & hs & names & -> & Hst & _)%to_wire_record.
  assert (Hi : is_i32 (job_state_num st) = true) by by destruct Hst as [->|(-> & _)].
  assert (Hu : is_u32 (u32 (uid j)) = true) by (unfold is_u32, u32; pose proof (Z.mod_pos_bound (uid j) (2 ^ 32)); lia).
  assert (Hpr : is_i32 (pend_reason_num (pend_reason_of j)) = true) by by destruct (pend_reason_of j).
  apply job_info_fits; try assumption; first [apply zeros_fits | apply chars_fits; unfold LL_BUFSIZ_64, LL_BUFSIZ_4K; lia].
Qed.

(** The whole call: the records of exactly the jobs asked for that the caller may see,
    each once, or the errno that says why there is none. *)
Definition query_of (req : job_info_req) : wire_job_query :=
  mk_wire_job_query (jr_job_id req) (jr_array_id req) (jr_array_index req) (jr_flags req) (jr_uid req).

Definition bjobs_answer (w : mbd) (u : Z) (req : job_info_req) (o : outcome (list job_info)) : Prop :=
  (exists js rs, o = Ret rs /\ Forall2 (job_shown w) js rs /\ NoDup (map job_id js) /\
     forall j, j ∈ js <-> in_table w j /\ asked w (query_of req) j /\ visible w u j = true) \/
  (o = Err (Some ESRCH) /\ forall j, in_table w j -> ~ asked w (query_of req) j) \/
  (o = Err (Some EPERM) /\ (exists j, in_table w j /\ asked w (query_of req) j) /\
     forall j, in_table w j -> asked w (query_of req) j -> visible w u j = false).

Definition req_in_range (req : job_info_req) : bool :=
  is_i64 (jr_job_id req) && is_i64 (jr_array_id req) && is_i32 (jr_array_index req) && is_i32 (jr_flags req) &&
  is_i32 (jr_uid req).

(** The bytes of a reply of [n] records. *)
Definition reply_bytes (n : nat) : nat := (sizeof members_wire_job_info * n + LL_BUFSIZ_256)%nat.

Section bjobs.
Context `{XdrLib} `{!XdrLaws}.

Lemma jobs_frame xs :
  Forall (fun x => fits xdr_wire_job_info x = true) xs -> Z.of_nat (reply_bytes (length xs)) < 2 ^ 31 ->
  let body := put xdr_wire_job_info_array (mk_wire_job_info_array xs) in
  let hdr := (reply_header BATCH_JOB_INFO_ACK MBD_OK) <| hdr_length := Z.of_nat (length body) |> in
  encode_reply (jobs_reply xs) = Some (put xdr_pack_hdr hdr ++ body) /\ fits xdr_pack_hdr hdr = true /\
  (length body + PACKET_HEADER_SIZE <= reply_bytes (length xs))%nat /\
  get xdr_wire_job_info_array body = Some (mk_wire_job_info_array xs, []).
Proof using Type*.
  intros HF Hn body hdr. unfold reply_bytes in Hn. rewrite size_job_info in Hn.
  assert (Hf : fits (xdr_wire WJobInfoArray) (mk_wire_job_info_array xs) = true).
  { change (fits (xdr_array INT32_MAX xdr_wire_job_info) xs = true). rewrite array_fits by (unfold UINT32_MAX, INT32_MAX; lia).
    rewrite (proj2 (Z.leb_le _ _)) by (unfold INT32_MAX; lia). cbn. apply forallb_forall. intros x Hx%list_elem_of_In.
    rewrite Forall_forall in HF. by apply HF. }
  pose proof (job_array_size _ Hf) as Hl. change (put (xdr_wire WJobInfoArray) (mk_wire_job_info_array xs)) with body in Hl.
  cbn [wjia_jobs] in Hl.
  assert (Hh : fits xdr_pack_hdr hdr = true) by (apply reply_header_fits; rewrite Hl; lia).
  split; [|split; [done|split]].
  - unfold encode_reply, jobs_reply. rewrite encode_msg_as_msg2.
    match goal with |- context [replicate ?n 0] => set (siz := n) end.
    destruct (encode_msg2_bytes (replicate siz 0) (reply_header BATCH_JOB_INFO_ACK MBD_OK)
      (Some (Payload (xdr_wire WJobInfoArray) (mk_wire_job_info_array xs))) None) as (x & -> & _ & Hb).
    + cbn [fmap option_fmap option_map default id payload_bytes]. rewrite app_nil_r, length_replicate.
      change (put (xdr_wire WJobInfoArray) (mk_wire_job_info_array xs)) with body. rewrite Hl. unfold siz.
      rewrite size_job_info, size_array. unfold PACKET_HEADER_SIZE, LL_BUFSIZ_64. lia.
    + cbn [fmap option_fmap option_map default id payload_bytes]. rewrite app_nil_r. exact Hh.
    + cbn [fmap option_fmap option_map default id payload_bytes] in Hb. rewrite app_nil_r in Hb. by rewrite Hb.
  - rewrite Hl. unfold reply_bytes. rewrite size_job_info. unfold PACKET_HEADER_SIZE, LL_BUFSIZ_256. lia.
  - destruct (xdr_wire_ok WJobInfoArray) as [G _]. specialize (G _ [] Hf). rewrite app_nil_r in G. exact G.
Qed.

Lemma answer_length w js :
  inv w -> NoDup (map job_id js) -> (forall j, j ∈ js -> in_table w j) -> (length js <= info_ntotal w)%nat.
Proof.
  intros HI Hn Ht. pose proof (present_length w HI (map job_id js) Hn) as Hp.
  enough (Hl : present w (map job_id js) = js) by by rewrite Hl in Hp.
  clear Hn Hp. unfold present. induction js as [|j js IH]; [done|]. cbn [map omap list_omap].
  rewrite (Ht j) by apply list_elem_of_here. f_equal. apply IH. intros k Hk. apply Ht. by apply list_elem_of_further.
Qed.

(** What [llb_job_info] makes of the reply to its request. *)
Lemma job_info_replied HMAC E c a m req :
  (forall i, ce_alloc E i = true) ->
  build_request HMAC E BATCH_JOB_INFO (PACKET_HEADER_SIZE + sizeof members_wire_job_info_req + LL_BUFSIZ_64)
    (Some (Payload xdr_wire_job_query (query_of req))) (Some EPROTO) (Some EPROTO) c = Ok (c <| cl_auth := a |>, Ret m) ->
  forall c' o, call_mbd E m (c <| cl_auth := a |>) = Ok (c', o) ->
  llb_job_info HMAC E req c =
    match o with
    | Ret r =>
        (let! _ := cguard (Some (hdr_status r.1)) (hdr_status r.1 =? 0) in
         let! w := cexpect (Some EPROTO) (get xdr_wire_job_info_array r.2) in
         if (length (wjia_jobs w.1) =? 0)%nat then cret []
         else let! _ := cguard None (ce_alloc E 2) in clift (convert (job_from_wire (ce_strdup E)) 0 (wjia_jobs w.1))) c'
    | Err x => Ok (c', Err x)
    | Blocked => Ok (c', Blocked)
    end.
Proof.
  intros Hal Hb c' o Hc. unfold llb_job_info, cbind at 1, cguard at 1. rewrite Hal. unfold cret at 1. cbn [res_bind].
  unfold cbind at 1. fold (query_of req). rewrite Hb. cbn [res_bind]. unfold cbind at 1. rewrite Hc. cbn [res_bind].
  by destruct o.
Qed.

(** Bjobs, from the command line of the user to the tables of mbd and back.  Between a
    client and an mbd of one cluster, whatever query the user makes: the call ends, and
    returns a record for exactly the jobs asked for that this user may see, each of them
    once, with the numbers, the state, the name, the queue and the hosts the daemon has
    for it (the state is "unknown" for a running job whose host is not connected); when
    there is none, -1 with ESRCH if no such job is in the table, and with EPERM only if
    there is one and it belongs to someone else.  The connection may deliver the bytes in
    any pieces and interrupt any call. *)
Theorem bjobs_end_to_end HMAC E c e alloc groups file chan st w req :
  inv w -> cluster HMAC E c e alloc groups file chan st w -> alloc 0%nat = true ->
  (forall i k, ce_strdup E i k = true) ->
  (forall j, in_table w j -> job_in_range j = true) -> req_in_range req = true ->
  Z.of_nat (reply_bytes (info_ntotal w)) < 2 ^ 31 ->
  flows (ce_io E) (LL_BUFSIZ_256 + reply_bytes (info_ntotal w)) ->
  exists c' o, llb_job_info HMAC E req c = Ok (c', o) /\ bjobs_answer w (ce_getuid E) req o.
Proof using Type*.
  intros HI CL Hal Hdup Hrange Hreq Hsize Hflows. unfold req_in_range in Hreq. rewrite !andb_true_iff in Hreq.
  destruct Hreq as ((((R1 & R2) & R3) & R4) & R5).
  destruct (query_carried HMAC E c e alloc groups file chan st w CL _ _ _ _ _ R1 R2 R3 R4 R5) as [Hget Hlen]. fold (query_of req) in Hget, Hlen.
  set (body := put xdr_wire_job_query (query_of req)) in *.
  destruct (request_arrives HMAC E c e alloc groups file chan st w CL BATCH_JOB_INFO
    (PACKET_HEADER_SIZE + sizeof members_wire_job_info_req + LL_BUFSIZ_64)
    (Some (Payload xdr_wire_job_query (query_of req))) (Some EPROTO) (Some EPROTO)) as (a & m & st' & Hb & Hm & Hd);
    cbn [fmap option_fmap option_map default id payload_bytes]; fold body.
  { assert (Hs : (PACKET_HEADER_SIZE + 80 <= PACKET_HEADER_SIZE + sizeof members_wire_job_info_req + LL_BUFSIZ_64)%nat)
      by (apply Nat.leb_le; vm_compute; reflexivity). lia. }
  { lia. }
  cbn [fmap option_fmap option_map default id payload_bytes] in Hm, Hd. fold body in Hm, Hd. cbn [decode_body res_bind] in Hd.
  destruct (jobs_info_answers w (ce_getuid E) body (query_of req) [] HI Hget) as (r & Hr & Hans).
  assert (Hp : ce_peer E m = default [] (encode_reply r)).
  { rewrite (cl_peer _ _ _ _ _ _ _ _ _ _ CL). unfold serve. rewrite Hd. cbn [res_bind info_answer]. rewrite Hal.
    change (c_uid (me E)) with (ce_getuid E). rewrite Hr. done. }
  pose proof (job_info_replied HMAC E c a m req (cl_alloc _ _ _ _ _ _ _ _ _ _ CL) Hb) as Hcall.
  assert (Herr : forall status, is_i32 status = true -> (status =? MBD_OK) = false -> r = ReplyHeader BATCH_JOB_INFO_ACK status ->
    exists c', llb_job_info HMAC E req c = Ok (c', Err (Some status))).
  { intros status Hi Hs ->. destruct (header_frame HMAC E c e alloc groups file chan st w CL BATCH_JOB_INFO_ACK status Hi) as [Hf Henc].
    destruct (call_answered HMAC E c e alloc groups file chan st w CL a m (reply_header BATCH_JOB_INFO_ACK status) [] [] _ Hflows)
      as [c' Hc]; [|done|done|by rewrite Hp, Henc, app_nil_r|].
    - rewrite Hm. cbn [length]. unfold reply_bytes, PACKET_HEADER_SIZE, LL_BUFSIZ_256. lia.
    - exists c'. rewrite (Hcall _ _ Hc). change (hdr_status (reply_header BATCH_JOB_INFO_ACK status)) with status. by rewrite Hs. }
  destruct Hans as [(js & xs & -> & HF & Hnd & Hin)|[[Hr' Hno]|[Hr' Hno]]].
  - assert (Hn : (length xs <= info_ntotal w)%nat).
    { rewrite <- (Forall2_length _ _ _ HF). apply answer_length; [done|done|]. intros j Hj. by apply Hin in Hj as [? _]. }
    assert (Hrb : (reply_bytes (length xs) <= reply_bytes (info_ntotal w))%nat) by (unfold reply_bytes; nia).
    assert (Hfit : Forall (fun x => fits xdr_wire_job_info x = true) xs).
    { apply Forall_forall. intros x Hx. apply list_elem_of_lookup_1 in Hx as [i Hx].
      destruct (Forall2_lookup_r _ _ _ _ _ HF Hx) as (j & Hj & Hjx). apply in_range_fits with w j; [|done].
      apply Hrange. apply list_elem_of_lookup_2 in Hj. by apply Hin in Hj as [? _]. }
    destruct (jobs_frame xs Hfit) as (Henc & Hh & Hlb & Hga); [lia|]. cbv zeta in Henc, Hh, Hlb, Hga.
    set (rb := put xdr_wire_job_info_array (mk_wire_job_info_array xs)) in *.
    set (rh := (reply_header BATCH_JOB_INFO_ACK MBD_OK) <| hdr_length := Z.of_nat (length rb) |>) in *.
    destruct (call_answered HMAC E c e alloc groups file chan st w CL a m rh rb [] _ Hflows) as [c' Hc];
      [|exact Hh|done|by rewrite Hp, Henc, app_nil_r|].
    { rewrite Hm. unfold PACKET_HEADER_SIZE, LL_BUFSIZ_256 in *. lia. }
    destruct (convert_ok (job_from_wire (ce_strdup E)) _ (job_shown w) js xs 0 (fun i j x => shown w j x _ i (Hdup i)) HF) as (rs & Hrs & HF2).
    exists c', (Ret rs). split; [|left; exists js, rs; split; [reflexivity|split; [exact HF2|split; assumption]]].
    rewrite (Hcall _ _ Hc). change (hdr_status rh =? MBD_OK) with true. cbv iota beta. cbn [fst snd].
    change (hdr_status rh) with 0. rewrite Z.eqb_refl.
    unfold cbind, cguard, cexpect, cret, clift. cbn [res_bind fst snd]. rewrite Hga. cbn [res_bind fst wjia_jobs].
    rewrite (cl_alloc _ _ _ _ _ _ _ _ _ _ CL), Hrs. cbn [res_bind].
    destruct xs as [|x xs]; [|done]. cbn in Hrs. by injection Hrs as <-.
  - destruct (Herr ESRCH eq_refl eq_refl Hr') as [c' Hc]. exists c', (Err (Some ESRCH)). split; [exact Hc|]. right. left. split; [reflexivity|exact Hno].
  - destruct (Herr EPERM eq_refl eq_refl Hr') as [c' Hc]. exists c', (Err (Some EPERM)). split; [exact Hc|]. right. right. split; [reflexivity|exact Hno].
Qed.
End bjobs.

(** ** A cluster *)

(** A digest of 32 bytes, whatever it is given. *)
Definition demo_hmac (key m : list Z) : option (list Z) :=
  Some (take HMAC_SIZE (map (fun z => z mod 256) m ++ replicate HMAC_SIZE 0)).

Definition demo_ll_conf : string :=
  String.concat (String newline EmptyString) ["LL_MBD_HOST = head"; "LL_MBD_PORT = 33124"; EmptyString].

Definition demo_connect : connect_env :=
  mk_connect_env true true ConnProgress 1 0 (Some 0) 0 true (Some (mk_sockaddr_in 1 40000)) (Some (mk_sockaddr_in 2 33124)).

(** A user on the same cluster; mbd is in the state [demo3] and reads from channel 9. *)
Definition demo_client_env : client_env :=
  mk_client_env (fun _ => true) (fun _ _ => true) (fun _ => true) (Some "/etc/lavalite")
    (fun _ => Some (mk_text_file demo_ll_conf false)) (fun h => Some (None, h)) (fun _ => 2)
    (Some (replicate AUTH_KEY_SIZE 7)) 1001 100 (now demo_env) (Some 3) demo_connect
    (IoIntr :: replicate (N.to_nat 70000) (IoSome 700)) true
    (fun m => match serve demo_hmac demo_env (fun _ => true) [] None 9 demo_auth demo3 m with Ok (_, _, r) => r | Crash _ => [] end).

Lemma demo_hmac_size k m : exists d, demo_hmac k m = Some d /\ length d = HMAC_SIZE /\ forallb is_byte d = true.
Proof.
  eexists. split; [reflexivity|]. split; [rewrite length_take, length_app, length_replicate; lia|].
  apply forallb_forall. intros z Hz%list_elem_of_In%elem_of_take. destruct Hz as (i & Hz & _). apply list_elem_of_lookup_2 in Hz.
  apply elem_of_app in Hz as [(x & -> & _)%list_elem_of_fmap|(-> & _)%elem_of_replicate]; [|done].
  unfold is_byte. pose proof (Z.mod_pos_bound x 256). lia.
Qed.

Lemma demo_cluster : cluster demo_hmac demo_client_env client_start demo_env (fun _ => true) [] None 9 demo_auth demo3.
Proof.
  refine (mk_cluster _ demo_hmac demo_client_env client_start demo_env (fun _ => true) [] None 9 demo_auth demo3 eq_refl eq_refl eq_refl demo_hmac_size _ _ _ _ eq_refl eq_refl (fun _ => eq_refl) eq_refl _ _ (fun _ => eq_refl)).
  - by vm_compute.
  - by vm_compute.
  - by vm_compute.
  - by vm_compute.
  - split; vm_compute; reflexivity.
  - intros a. eexists. vm_compute. reflexivity.
Qed.

Lemma flows_some k j n : (n <= k)%nat -> flows (IoIntr :: replicate k (IoSome j)) n.
Proof.
  intros Hn. split; [constructor; [done|by apply Forall_replicate]|]. cbn [List.filter moves].
  enough (length (List.filter moves (replicate k (IoSome j))) = k) by lia. clear Hn. induction k as [|k IH]; cbn; lia.
Qed.

Lemma demo_flows n : (n <= N.to_nat 70000)%nat -> flows (ce_io demo_client_env) n.
Proof. apply flows_some. Qed.

(** The owner lowers the priority of his job. *)
Definition demo_cmd : command := CmdPriority 101 0.
Definition demo_after : mbd := or_else (route demo_env 9 (GoodMessage (me demo_client_env) (command_msg demo_client_env demo_cmd)) demo3) demo0.

Lemma demo_served : route demo_env 9 (GoodMessage (me demo_client_env) (command_msg demo_client_env demo_cmd)) demo3 = Ok demo_after.
Proof. vm_compute. reflexivity. Qed.

Lemma demo_foreign : foreign 9 demo3.
Proof. vm_compute. by repeat constructor. Qed.

Lemma command_carried_out_witness :
  ((exists c1 req st', command_request demo_hmac demo_client_env demo_cmd client_start = Ok (c1, Ret req) /\
      serve demo_hmac demo_env (fun _ => true) [] None 9 demo_auth demo3 req = Ok (st', demo_after, replies 9 demo3 demo_after)) /\
   exists c', run_command demo_hmac demo_client_env demo_cmd client_start = Ok (c', said (chan_msgs 9 demo3 demo_after))) /\
  said (chan_msgs 9 demo3 demo_after) = Ret tt.
Proof.
  split; [|vm_compute; reflexivity].
  apply (command_carried_out demo_hmac demo_client_env client_start demo_env (fun _ => true) [] None 9 demo_auth demo3
    demo_cmd demo_after demo_cluster).
  - apply demo_flows. unfold LL_BUFSIZ_1K. lia.
  - exact demo_foreign.
  - reflexivity.
  - exact demo_served.
Defined.

Definition demo_req : job_info_req := mk_job_info_req 101 0 0 (-1) 0.

Lemma demo_in_range j : in_table demo3 j -> job_in_range j = true.
Proof.
  unfold in_table. intros Hj.
  assert (HF : map_Forall (fun _ j => job_in_range j = true) (jobs demo3)).
  { apply (bool_decide_unpack _). vm_compute. exact I. }
  exact (HF _ _ Hj).
Qed.

Lemma bjobs_end_to_end_witness :
  exists c' o, llb_job_info demo_hmac demo_client_env demo_req client_start = Ok (c', o) /\ bjobs_answer demo3 1001 demo_req o.
Proof.
  apply (bjobs_end_to_end demo_hmac demo_client_env client_start demo_env (fun _ => true) [] None 9 demo_auth demo3 demo_req
    demo_inv3 demo_cluster).
  - reflexivity.
  - reflexivity.
  - exact demo_in_range.
  - reflexivity.
  - vm_compute. reflexivity.
  - apply demo_flows. apply Nat.leb_le. vm_compute. reflexivity.
Defined.

(** The record the owner of job 101 gets. *)
Lemma bjobs_shows_job :
  match llb_job_info demo_hmac demo_client_env demo_req client_start with
  | Ok (_, Ret [r]) => ji_job_id r = 101 /\ ji_state r = job_state_num JOB_RUNNING /\ ji_queue r = Some "normal"
  | _ => False
  end.
Proof. vm_compute. by repeat split. Qed.

(** * bsub, from the options of the user to the job table *)

(** ** The struct on the wire *)

(** The texts and numbers mbd registers: those of the user, the texts cut to their
    arrays, one CPU and one host unless he asks for more, his name from the password
    database. *)
Definition cut (n : nat) (s : option string) : string := until_nul (strbuf n (default EmptyString s)).

Definition submitted_as (S : submit_env) (js : job_submit) : MbdTypes.wire_job_submit :=
  MbdTypes.mk_wire_job_submit (cut LL_BUFSIZ_256 (js_name js)) (cut LL_BUFSIZ_256 (js_queue js)) (cut LL_BUFSIZ_64 (js_project js))
    (cut LL_BUFSIZ_4K (js_machines js)) (cut LL_BUFSIZ_4K (js_depend_cond js)) (cut LL_BUFSIZ_256 (js_gpu_model js))
    (cut LL_BUFSIZ_256 (fst <$> se_passwd S)) (if js_num_cpus js =? 0 then 1 else js_num_cpus js)
    (if js_num_hosts js =? 0 then 1 else js_num_hosts js) (js_num_gpus js) (js_mem_mb js) (js_storage_mb js)
    (cut LL_BUFSIZ_256 (js_tokenpool js)) (js_flags js) (js_begin_time js) (js_term_time js) (js_array_start js)
    (js_array_end js) (js_array_stride js).

Definition submit_in_range (js : job_submit) : bool :=
  is_i32 (js_num_cpus js) && is_i32 (js_num_hosts js) && is_i32 (js_num_gpus js) && is_u64 (js_mem_mb js) &&
  is_u64 (js_storage_mb js) && is_u32 (js_flags js) && is_i64 (js_begin_time js) && is_i64 (js_term_time js) &&
  is_i32 (js_array_start js) && is_i32 (js_array_end js) && is_i32 (js_array_stride js).

(** [sizeof] on binary numbers. *)
Definition round_up_Z (a n : Z) : Z := a * ((n + (a - 1)) / a).

Lemma round_up_of_nat a n : (0 < a)%nat -> Z.of_nat (round_up a n) = round_up_Z (Z.of_nat a) (Z.of_nat n).
Proof. intros Ha. unfold round_up, round_up_Z. rewrite Nat2Z.inj_mul, Nat2Z.inj_div, Nat2Z.inj_add, Nat2Z.inj_sub by lia. done. Qed.

Definition sizeof_Z (ms : list c_member) : Z :=
  round_up_Z (Z.of_nat (foldr (fun m a => Nat.max (c_align m) a) 1%nat ms))
    (foldl (fun off m => round_up_Z (Z.of_nat (c_align m)) off + Z.of_nat (c_size m)) 0 ms).

Lemma sizeof_of_nat ms : Z.of_nat (sizeof ms) = sizeof_Z ms.
Proof.
  unfold sizeof, sizeof_Z. rewrite round_up_of_nat by (induction ms; cbn; lia). f_equal.
  change 0 with (Z.of_nat 0). generalize 0%nat. induction ms as [|m ms IH]; intros off; cbn [foldl]; [done|].
  rewrite IH, Nat2Z.inj_add, round_up_of_nat by (destruct m; cbn; lia). done.
Qed.

Lemma size_job_submit : Z.of_nat (sizeof members_wire_job_submit) = 35288.
Proof. rewrite sizeof_of_nat. vm_compute. reflexivity. Qed.

Section wire.
Context `{XdrLib} `{!XdrLaws}.

(** The char arrays and the numbers of the struct. *)
Definition texts_fit (x : Wire.wire_job_submit) : bool :=
  fits (xdr_opaque LL_BUFSIZ_256) (wsub_name x) && fits (xdr_opaque LL_BUFSIZ_256) (wsub_queue x) &&
  fits (xdr_opaque LL_BUFSIZ_64) (wsub_project x) && fits (xdr_opaque LL_BUFSIZ_1K) (wsub_comment x) &&
  fits (xdr_opaque LL_BUFSIZ_4K) (wsub_machines x) && fits (xdr_opaque PATH_MAX) (wsub_in_file x) &&
  fits (xdr_opaque PATH_MAX) (wsub_out_file x) && fits (xdr_opaque PATH_MAX) (wsub_err_file x) &&
  fits (xdr_opaque PATH_MAX) (wsub_cwd x) && fits (xdr_opaque LL_BUFSIZ_4K) (wsub_depend_cond x) &&
  fits (xdr_opaque PATH_MAX) (wsub_command x) && fits (xdr_opaque LL_BUFSIZ_256) (wsub_gpu_model x) &&
  fits (xdr_opaque MAXHOSTNAMELEN) (wsub_submit_host x) && fits (xdr_opaque LL_BUFSIZ_256) (wsub_username x) &&
  fits (xdr_opaque PATH_MAX) (wsub_home_dir x) && fits (xdr_opaque LL_BUFSIZ_256) (wsub_tokenpool x).

Definition numbers_fit (x : Wire.wire_job_submit) : bool :=
  is_i32 (wsub_num_cpus x) && is_i32 (wsub_num_hosts x) && is_i32 (wsub_num_gpus x) && is_u64 (wsub_mem_mb x) &&
  is_u64 (wsub_storage_mb x) && is_u32 (wsub_umask x) && is_u32 (wsub_flags x) && is_i64 (wsub_begin_time x) &&
  is_i64 (wsub_term_time x) && is_i64 (wsub_susp_time x) && is_i64 (wsub_resume_time x) && is_i32 (wsub_array_start x) &&
  is_i32 (wsub_array_end x) && is_i32 (wsub_array_stride x).

Lemma submit_fits_wire x : texts_fit x = true -> numbers_fit x = true -> fits xdr_wire_job_submit x = true.
Proof using Type*.
  unfold texts_fit, numbers_fit. rewrite !andb_true_iff. intros Ht Hn. destruct_and!.
  cbn. rewrite ?int32_fits, ?int64_fits, ?uint32_fits, ?uint64_fits.
  repeat match goal with H : _ = true |- _ => rewrite H; clear H end. done.
Qed.

Lemma submit_size x : fits xdr_wire_job_submit x = true -> Z.of_nat (length (put xdr_wire_job_submit x)) = 35280.
Proof using Type*.
  intros Hf. cbn in Hf; repeat (apply andb_prop in Hf as [Hf ?]). cbn.
  rewrite !length_app, ?int32_size, ?uint32_size, ?int64_size, ?uint64_size, ?opaque_size by done.
  rewrite !Nat2Z.inj_add. vm_compute. reflexivity.
Qed.

Lemma script_size data :
  fits xdr_wire_job_script (mk_wire_job_script data) = true ->
  (length (put xdr_wire_job_script (mk_wire_job_script data)) <= length data + 7)%nat.
Proof using Type*.
  intros Hf. cbn in *. rewrite bytes_size by done. unfold round4.
  pose proof (Nat.Div0.mul_div_le (length data + 3) 4). lia.
Qed.
End wire.

(** ** The request *)

(** What the system has to say for a submission to be sent. *)
Record submit_env_ok (S : submit_env) (js : job_submit) : Prop := mk_submit_env_ok {
  so_command : is_Some (js_command js);
  so_passwd : is_Some (se_passwd S);
  so_host : is_Some (fitting MAXHOSTNAMELEN (se_hostname S));
  so_cwd : is_Some (fitting PATH_MAX (se_cwd S));
  so_alloc : forall n, se_alloc S n = true
}.

Definition script_length (S : submit_env) (js : job_submit) : nat :=
  String.length (script_text (se_environ S) (default EmptyString (js_command js))).

Lemma bytes_of_bytes s : forallb is_byte (bytes_of s) = true.
Proof.
  apply forallb_forall. intros z Hz. unfold bytes_of in Hz. apply in_map_iff in Hz as (a & <- & _).
  unfold is_byte, code. pose proof (nat_ascii_bounded a). lia.
Qed.

Section request.
Context `{XdrLib} `{!XdrLaws}.

(** The wire struct a submission fills in. *)
Lemma filled S js c :
  submit_env_ok S js -> submit_in_range js = true ->
  exists x, fill_wire S js c = Ok (c, Ret x) /\ fits xdr_wire_job_submit x = true /\ submit_of_wire x = Ok (submitted_as S js).
Proof using Type*.
  intros [[command Hc] [[user home] Hp] [host Hh] [cwd Hd] _] Hr. unfold fill_wire, cbind, cexpect, cret.
  rewrite Hc. cbn [res_bind]. rewrite Hp. cbn [res_bind]. rewrite Hh. cbn [res_bind]. rewrite Hd. cbn [res_bind].
  eexists. split; [reflexivity|]. cbn [fst snd].
  assert (Hz : (0 < LL_BUFSIZ_64 /\ 0 < LL_BUFSIZ_256 /\ 0 < LL_BUFSIZ_1K /\ 0 < LL_BUFSIZ_4K /\ 0 < MAXHOSTNAMELEN /\ 0 < PATH_MAX)%nat).
  { unfold LL_BUFSIZ_64, LL_BUFSIZ_256, LL_BUFSIZ_1K, LL_BUFSIZ_4K, MAXHOSTNAMELEN, PATH_MAX. lia. }
  destruct Hz as (Z1 & Z2 & Z3 & Z4 & Z5 & Z6). split.
  - apply submit_fits_wire.
    + unfold texts_fit, opt_chars. cbn [wsub_name wsub_queue wsub_project wsub_comment wsub_machines wsub_in_file wsub_out_file
        wsub_err_file wsub_cwd wsub_depend_cond wsub_command wsub_gpu_model wsub_submit_host wsub_username wsub_home_dir wsub_tokenpool].
      rewrite !chars_fits by assumption. done.
    + unfold submit_in_range in Hr. rewrite !andb_true_iff in Hr. destruct_and!. unfold numbers_fit.
      cbn [wsub_num_cpus wsub_num_hosts wsub_num_gpus wsub_mem_mb wsub_storage_mb wsub_umask wsub_flags wsub_begin_time
        wsub_term_time wsub_susp_time wsub_resume_time wsub_array_start wsub_array_end wsub_array_stride].
      assert (Hu : is_u32 (u32 (se_umask S)) = true) by (unfold is_u32, u32; pose proof (Z.mod_pos_bound (se_umask S) (2 ^ 32)); lia).
      assert (HA : is_i32 (if js_num_cpus js =? 0 then 1 else js_num_cpus js) = true) by by destruct (js_num_cpus js =? 0).
      assert (HB : is_i32 (if js_num_hosts js =? 0 then 1 else js_num_hosts js) = true) by by destruct (js_num_hosts js =? 0).
      rewrite Hu, HA, HB. repeat match goal with H : _ = true |- _ => rewrite H; clear H end. done.
  - unfold submit_of_wire, opt_chars. cbn [wsub_name wsub_queue wsub_project wsub_machines wsub_depend_cond wsub_gpu_model
      wsub_username wsub_tokenpool]. rewrite !c_str_chars by assumption. cbn [res_bind].
    unfold submitted_as, cut. rewrite Hp. reflexivity.
Qed.

(** The script, short enough for its 32-bit length. *)
Lemma scripted S js :
  submit_env_ok S js -> Z.of_nat (script_length S js) < 2 ^ 31 ->
  exists script, create_jobscript (se_alloc S) (se_environ S) (default EmptyString (js_command js)) = Ok (Some script) /\
    script = (script_text (se_environ S) (default EmptyString (js_command js)), Z.of_nat (script_length S js)).
Proof.
  intros Ho Hl. pose proof (jobscript_built (se_alloc S) (se_environ S) (default EmptyString (js_command js))) as Hb.
  unfold script_length in *. destruct (create_jobscript _ _ _) as [[[text len]|]|]; [| |done].
  - destruct Hb as [-> ->]. eexists. split; [reflexivity|]. rewrite Z.mod_small by lia. done.
  - specialize (Hb (so_alloc _ _ Ho)). unfold SIZE_MAX in Hb. lia.
Qed.
End request.

(** ** The call *)

(** The value of a call that gets these messages. *)
Definition submitted (ms : list msg) : outcome Z :=
  match ms with
  | [] => Err None
  | m :: _ =>
      if negb (m_status m =? MBD_OK) then Err (Some (m_status m))
      else match m_body m with
           | BodySubmit id => if id <=? 0 then Err (Some EPROTO) else Ret id
           | _ => Err (Some EPROTO)
           end
  end.

(** The status and the id of a reply are values of their C types. *)
Definition reply_in_range (m : msg) : Prop :=
  is_i32 (m_status m) = true /\ match m_body m with BodySubmit id => is_i64 id = true | _ => True end.

Section submission.
Context `{XdrLib} `{!XdrLaws} (HMAC : list Z -> list Z -> option (list Z)) (E : client_env) (c : client)
  (e : env) (alloc : nat -> bool) (groups : list mbd_group) (file : option (list Z)) (chan : Z)
  (st : auth_state) (w : mbd) (CL : cluster HMAC E c e alloc groups file chan st w).

(** The request fits its buffer and arrives as the submission. *)
Lemma submission_arrives S js x text len :
  fits xdr_wire_job_submit x = true -> submit_of_wire x = Ok (submitted_as S js) ->
  len = Z.of_nat (String.length text) -> len < 2 ^ 31 - 2 ^ 16 ->
  exists a req st', submit_request HMAC E x (text, len) c = Ok (c <| cl_auth := a |>, Ret req) /\
    Z.of_nat (length req) < 2 ^ 16 + len /\
    decode_request HMAC file (now e) st req = Ok (st', RqControl (me E) (MSubmit (submitted_as S js))).
Proof using Type*.
  intros Hx Hs Hlen Hmax. pose proof (submit_size x Hx) as Hxs.
  set (data := mk_wire_job_script (take (Z.to_nat len) (bytes_of text))).
  assert (Hdata : data = mk_wire_job_script (bytes_of text)).
  { unfold data. f_equal. apply take_ge. rewrite bytes_of_length. lia. }
  assert (Hdf : fits (xdr_wire WJobScript) data = true).
  { rewrite Hdata. change (fits (xdr_bytes UINT32_MAX) (bytes_of text) = true). rewrite bytes_fits by (unfold UINT32_MAX; lia).
    rewrite bytes_of_bytes, bytes_of_length, andb_true_r. apply Z.leb_le. unfold UINT32_MAX. lia. }
  pose proof (script_size (bytes_of text)) as Hds. rewrite <- Hdata in Hds. specialize (Hds Hdf). rewrite bytes_of_length in Hds.
  set (body := put xdr_wire_job_submit x ++ put xdr_wire_job_script data).
  assert (Hbl : Z.of_nat (length body) <= 35287 + len) by (unfold body; rewrite length_app; lia).
  destruct (signs HMAC E c e alloc groups file chan st w CL BATCH_JOB_SUBMIT (length body)) as (a & hdr & Hsign & Hf & Hop & Hv & _ & Hu & Hg); [lia|].
  destruct (request_decoded HMAC E c e alloc groups file chan st w CL BATCH_JOB_SUBMIT a hdr (Z.of_nat (length body)) body Hsign Hf Hop Hv Hu Hg) as [st' Hd].
  set (bufsz := Z.of_nat (PACKET_HEADER_SIZE + sizeof members_wire_job_submit + XDR_OPAQUE_OVERHEAD) + len).
  assert (Hbuf : bufsz = 35416 + len).
  { unfold bufsz. rewrite !Nat2Z.inj_add, size_job_submit. unfold PACKET_HEADER_SIZE, XDR_OPAQUE_OVERHEAD. lia. }
  destruct (encode_msg2_bytes (replicate (Z.to_nat (u32 bufsz)) 0) hdr (Some (Payload xdr_wire_job_submit x)) (Some (Payload xdr_wire_job_script data)))
    as (y & Hy & _ & Hb); cbn [fmap option_fmap option_map default id payload_bytes]; fold body.
  { rewrite length_replicate. unfold u32. rewrite Z.mod_small by lia. unfold PACKET_HEADER_SIZE. lia. }
  { exact Hf. }
  cbn [fmap option_fmap option_map default id payload_bytes] in Hb. fold body in Hb.
  exists a, (sent_bytes y), st'. split; [|split].
  - unfold submit_request. cbn [fst snd]. fold bufsz data. unfold cbind, cguard, cget, cmod, cexpect, cret.
    rewrite (cl_alloc _ _ _ _ _ _ _ _ _ _ CL). cbn [res_bind]. rewrite Hsign. cbn [res_bind]. rewrite Hy. reflexivity.
  - rewrite Hb, length_app, (pack_hdr_size _ Hf). unfold PACKET_HEADER_SIZE. lia.
  - rewrite Hb, Hd. cbn [decode_body]. destruct (xdr_wire_ok WJobSubmit) as [G1 _], (xdr_wire_ok WJobScript) as [G2 _].
    pose proof (G1 x (put xdr_wire_job_script data) Hx) as E1.
    change (get xdr_wire_job_submit body = Some (x, put xdr_wire_job_script data)) in E1. rewrite E1.
    pose proof (G2 data [] Hdf) as E2. rewrite app_nil_r in E2.
    change (get xdr_wire_job_script (put xdr_wire_job_script data) = Some (data, [])) in E2. rewrite E2, Hs. reflexivity.
Qed.

(** The frame of a reply to a submission. *)
Lemma submit_frame op status jid :
  is_i32 status = true -> is_i64 jid = true ->
  let body := put xdr_wire_job_submit_reply (mk_wire_job_submit_reply jid) in
  let hdr := (reply_header op status) <| hdr_length := Z.of_nat (length body) |> in
  encode_msg (mk_msg chan op status (BodySubmit jid)) = Some (put xdr_pack_hdr hdr ++ body) /\ fits xdr_pack_hdr hdr = true /\
  length body = 8%nat /\ get xdr_wire_job_submit_reply body = Some (mk_wire_job_submit_reply jid, []).
Proof using Type*.
  intros Hst Hid body hdr.
  assert (Hf : fits (xdr_wire WJobSubmitReply) (mk_wire_job_submit_reply jid) = true) by (cbn; rewrite int64_fits, Hid; done).
  assert (Hl : length body = 8%nat) by (unfold body; cbn; rewrite ?length_app, int64_size by (by rewrite int64_fits); done).
  assert (Hh : fits xdr_pack_hdr hdr = true).
  { unfold hdr. rewrite Hl. cbn. rewrite !int32_fits, !uint32_fits, opaque_fits, op_is_i32, Hst. reflexivity. }
  split; [|split; [done|split; [done|]]].
  - unfold encode_msg. cbn [m_body m_op m_status]. rewrite encode_msg_as_msg2.
    match goal with |- context [replicate ?n 0] => set (siz := n) end.
    destruct (encode_msg2_bytes (replicate siz 0) (reply_header op status)
      (Some (Payload xdr_wire_job_submit_reply (mk_wire_job_submit_reply jid))) None) as (x & -> & _ & Hb);
      [cbn [fmap option_fmap option_map default id payload_bytes]; rewrite app_nil_r; fold body..|].
    + rewrite Hl, length_replicate. apply Nat.leb_le. vm_compute. reflexivity.
    + exact Hh.
    + cbn [fmap option_fmap option_map default id payload_bytes] in Hb. rewrite app_nil_r in Hb. by rewrite Hb.
  - destruct (xdr_wire_ok WJobSubmitReply) as [G _]. specialize (G _ [] Hf). rewrite app_nil_r in G. exact G.
Qed.

End submission.

Section bsub.
Context `{XdrLib} `{!XdrLaws}.

(** Bsub registers the job the user asked for and tells him its id.  Between a client
    and an mbd of one cluster, whatever the options are: the struct, the script and the
    header fit the buffer the library computes for them, the request passes the checks of
    mbd as coming from the uid and gid of the user, and is registered with exactly his
    texts (cut to their arrays) and numbers; the call returns the id mbd answers with, -1
    with the status of the answer as errno when mbd refuses the job, and -1 when the
    connection is closed without an answer. *)
Theorem submit_carried_out HMAC E c e alloc groups file chan st w S js w' :
  cluster HMAC E c e alloc groups file chan st w -> submit_env_ok S js -> submit_in_range js = true ->
  Z.of_nat (script_length S js) < 2 ^ 31 - 2 ^ 16 ->
  flows (ce_io E) (script_length S js + Z.to_nat (2 ^ 16) + LL_BUFSIZ_256) ->
  route e chan (GoodMessage (me E) (MSubmit (submitted_as S js))) w = Ok w' ->
  Forall reply_in_range (chan_msgs chan w w') ->
  (exists x script c1 req st', fill_wire S js c = Ok (c, Ret x) /\
     create_jobscript (se_alloc S) (se_environ S) (default EmptyString (js_command js)) = Ok (Some script) /\
     submit_request HMAC E x script c = Ok (c1, Ret req) /\
     serve HMAC e alloc groups file chan st w req = Ok (st', w', replies chan w w')) /\
  exists c', llb_submit HMAC E S js c = Ok (c', submitted (chan_msgs chan w w')).
Proof using Type*.
  intros CL Ho Hr Hl Hf Hroute Hrange. destruct (filled S js c Ho Hr) as (x & Hx & Hxf & Hxs).
  destruct (scripted S js Ho) as (script & Hs & Hsc); [lia|].
  destruct (submission_arrives HMAC E c e alloc groups file chan st w CL S js x (script_text (se_environ S) (default EmptyString (js_command js)))
    (Z.of_nat (script_length S js)) Hxf Hxs eq_refl Hl) as (a & req & st' & Hreq & Hlen & Hd). rewrite <- Hsc in Hreq.
  assert (Hserve : serve HMAC e alloc groups file chan st w req = Ok (st', w', replies chan w w')).
  { unfold serve. rewrite Hd. cbn [res_bind]. by rewrite Hroute. }
  split; [by exists x, script, (c <| cl_auth := a |>), req, st'|].
  assert (Hp : ce_peer E req = replies chan w w') by by rewrite (cl_peer _ _ _ _ _ _ _ _ _ _ CL), Hserve.
  assert (Hcall : forall c' o, call_mbd E req (c <| cl_auth := a |>) = Ok (c', o) ->
    llb_submit HMAC E S js c = match o with
      | Ret r => (let! rep := cexpect (Some EPROTO) (get xdr_wire_job_submit_reply r.2) in
                  if wsr_job_id rep.1 <=? 0 then cerr (Some EPROTO) else cret (wsr_job_id rep.1)) c'
      | Err y => Ok (c', Err y)
      | Blocked => Ok (c', Blocked)
      end).
  { intros c' o Hc. unfold llb_submit, cbind at 1. rewrite Hx. cbn [res_bind]. unfold cbind at 1, clift at 1. rewrite Hs. cbn [res_bind].
    unfold cbind at 1, cexpect at 1, cret at 1. cbn [res_bind]. unfold cbind at 1. rewrite Hreq. cbn [res_bind].
    unfold cbind at 1. rewrite Hc. cbn [res_bind]. by destruct o. }
  assert (Hn : (length req + PACKET_HEADER_SIZE + 8 <= script_length S js + Z.to_nat (2 ^ 16) + LL_BUFSIZ_256)%nat)
    by (unfold PACKET_HEADER_SIZE, LL_BUFSIZ_256; lia).
  cbn [route] in Hroute. apply register_replies in Hroute as [Hm|(m & jid & Hm & Hb)]; rewrite Hm in *.
  - destruct (call_closed HMAC E c e alloc groups file chan st w CL a req _ Hf) as [c' Hc];
      [unfold PACKET_HEADER_SIZE in Hn; lia|rewrite Hp; unfold replies; by rewrite Hm|].
    exists c'. by rewrite (Hcall _ _ Hc).
  - apply Forall_cons in Hrange as [[Hst Hid] _]. rewrite Hb in Hid. destruct m as [mc op status mb]. cbn in Hst, Hb. subst mb.
    destruct (submit_frame HMAC E c e alloc groups file chan st w CL op status jid Hst Hid) as (Henc & Hfit & H8 & Hget).
    cbv zeta in Henc, Hfit, H8, Hget. set (body := put xdr_wire_job_submit_reply (mk_wire_job_submit_reply jid)) in *.
    set (rh := (reply_header op status) <| hdr_length := Z.of_nat (length body) |>) in *.
    destruct (call_answered HMAC E c e alloc groups file chan st w CL a req rh body [] _ Hf) as [c' Hc]; [lia|exact Hfit|done| |].
    { rewrite Hp. unfold replies. rewrite Hm. cbn [omap list_omap]. unfold encode_msg in *. cbn [m_body m_op m_status] in *. rewrite Henc.
      cbn [concat]. by rewrite !app_nil_r. }
    exists c'. rewrite (Hcall _ _ Hc). change (hdr_status rh) with status. unfold submitted. cbn [m_status m_body].
    destruct (status =? MBD_OK); cbn [negb]; [|reflexivity]. cbn [snd]. rewrite Hget. unfold cbind, cexpect, cret, cerr. cbn [res_bind fst wsr_job_id].
    by destruct (jid <=? 0).
Qed.
End bsub.

(** ** A submission *)

Definition demo_js : job_submit :=
  mk_job_submit (Some "sim") (Some "normal") None None None None None None (Some "sleep 60") None None
    0 0 0 100 0 (Some "lic=1") 0 0 0 0 0 0.

Definition demo_senv : submit_env :=
  mk_submit_env (Some ("alice", "/home/alice")) (Some "login1") (Some "/home/alice") 18 ["HOME=/home/alice"; "TERM=xterm"] (fun _ => true).

Definition demo_registered : mbd :=
  or_else (route demo_env 9 (GoodMessage (me demo_client_env) (MSubmit (submitted_as demo_senv demo_js))) demo3) demo0.

Lemma demo_senv_ok : submit_env_ok demo_senv demo_js.
Proof. constructor; try done; by eexists. Qed.

Lemma demo_routed : route demo_env 9 (GoodMessage (me demo_client_env) (MSubmit (submitted_as demo_senv demo_js))) demo3 = Ok demo_registered.
Proof. vm_compute. reflexivity. Qed.

Lemma demo_answer : chan_msgs 9 demo3 demo_registered = [mk_msg 9 BATCH_JOB_SUBMIT_ACK MBD_OK (BodySubmit 102)].
Proof. vm_compute. reflexivity. Qed.

Lemma submit_carried_out_witness :
  ((exists x script c1 req st', fill_wire demo_senv demo_js client_start = Ok (client_start, Ret x) /\
      create_jobscript (se_alloc demo_senv) (se_environ demo_senv) (default EmptyString (js_command demo_js)) = Ok (Some script) /\
      submit_request demo_hmac demo_client_env x script client_start = Ok (c1, Ret req) /\
      serve demo_hmac demo_env (fun _ => true) [] None 9 demo_auth demo3 req = Ok (st', demo_registered, replies 9 demo3 demo_registered)) /\
   exists c', llb_submit demo_hmac demo_client_env demo_senv demo_js client_start = Ok (c', submitted (chan_msgs 9 demo3 demo_registered))) /\
  submitted (chan_msgs 9 demo3 demo_registered) = Ret 102.
Proof.
  split; [|rewrite demo_answer; reflexivity].
  apply (submit_carried_out demo_hmac demo_client_env client_start demo_env (fun _ => true) [] None 9 demo_auth demo3
    demo_senv demo_js demo_registered demo_cluster demo_senv_ok).
  - reflexivity.
  - apply Z.ltb_lt. vm_compute. reflexivity.
  - apply demo_flows. replace (script_length demo_senv demo_js) with 206%nat by (vm_compute; reflexivity). unfold LL_BUFSIZ_256. lia.
  - exact demo_routed.
  - rewrite demo_answer. by repeat constructor.
Defined.
