(* ===== verification/JobFiles.v ===== *)
(** * The files of a job (src/batch/mbd/job.c and sbd.c)

    mbd keeps the script and the texts of a submission in a directory of the job, and
    reads them back when it dispatches the job.  The directory tree is a finite map from
    paths to contents; what the system calls answer is [file_env]. *)

From S2P Require Import Prelude CString LlConf LlHash Dependency LogFormat MbdTypes MbdBase MbdJob MbdSched.
From S2P Require Import Conf SbdTypes Wire WireXdr Auth Channel MbdInfo Client.

Open Scope string_scope.
Open Scope list_scope.
Open Scope Z_scope.

Abbreviation files := (gmap string string).

(** The answers of the calls, [None] and [true] for success: [fe_written] is how much a
    write took, [fe_flushed] how much reached the file when [fflush] fails. *)
Record file_env : Type := mk_file_env {
  fe_mkdir : option Z;
  fe_open : bool;
  fe_written : option nat;
  fe_fsync : bool;
  fe_flushed : option nat;
  fe_rename : bool;
  fe_chmod : bool;
  fe_errno : Z
}.

(** 0, or -1 with the errno a call has set. *)
Inductive written : Type := Written | NotWritten (errno : option Z).

Definition JOB_BUCKETS : Z := 10.

(** [snprintf] of a path into a buffer of PATH_MAX bytes. *)
Definition job_path (jobs_dir : string) (id : Z) (file : string) : option string :=
  let p := jobs_dir +:+ "/" +:+ print_int (Z.rem id JOB_BUCKETS) +:+ "/" +:+ print_int id +:+ file in
  if (String.length p <? PATH_MAX)%nat then Some p else None.

(** ** Writing *)

Definition rename_file (old new : string) (fs : files) : files :=
  match fs !! old with Some t => <[new := t]> (delete old fs) | None => fs end.

(** [script] is the text of [script->len] bytes. *)
Definition write_script (E : file_env) (jobs_dir : string) (id : Z) (script : string) (fs : files) : files * written :=
  let failed := NotWritten (Some (fe_errno E)) in
  match job_path jobs_dir id "" with
  | None => (fs, NotWritten None)
  | Some _ =>
      if match fe_mkdir E with Some err => negb (err =? EEXIST) | None => false end then (fs, NotWritten (fe_mkdir E))
      else
        match job_path jobs_dir id "/script.sh", job_path jobs_dir id "/script.sh.tmp" with
        | Some path, Some tmp =>
            if negb (fe_open E) then (fs, failed)
            else
              match fe_written E with
              | None => (<[tmp := EmptyString]> fs, failed)
              | Some n =>
                  let fs := <[tmp := String.substring 0 n script]> fs in
                  if negb (n =? String.length script)%nat then (fs, failed)
                  else if negb (fe_fsync E) then (fs, failed)
                  else if negb (fe_rename E) then (fs, failed)
                  else (rename_file tmp path fs, Written)
              end
        | _, _ => (fs, NotWritten None)
        end
  end.

(** [%o] of a 32-bit number. *)
Fixpoint print_octal_from (rounds : nat) (n : Z) (acc : string) : string :=
  let acc' := String (digit_char (n mod 8)) acc in
  match rounds with
  | O => acc'
  | S r => if n <? 8 then acc' else print_octal_from r (n / 8) acc'
  end.

Definition print_octal (n : Z) : string := print_octal_from 10 n EmptyString.

(** The lines of the sidecar: [%s] of an array reads up to its NUL. *)
Definition sidecar_lines (id uid gid : Z) (ws : Wire.wire_job_submit) : res (list string) :=
  let* username := c_str (wsub_username ws) in
  let* name := c_str (wsub_name ws) in
  let* queue := c_str (wsub_queue ws) in
  let* project := c_str (wsub_project ws) in
  let* submit_host := c_str (wsub_submit_host ws) in
  let* home_dir := c_str (wsub_home_dir ws) in
  let* cwd := c_str (wsub_cwd ws) in
  let* command := c_str (wsub_command ws) in
  let* in_file := c_str (wsub_in_file ws) in
  let* out_file := c_str (wsub_out_file ws) in
  let* err_file := c_str (wsub_err_file ws) in
  let* depend_cond := c_str (wsub_depend_cond ws) in
  let* machines := c_str (wsub_machines ws) in
  let* gpu_model := c_str (wsub_gpu_model ws) in
  let* comment := c_str (wsub_comment ws) in
  let* tokenpool := c_str (wsub_tokenpool ws) in
  Ok ["JOB_ID=" +:+ print_int id; "UID=" +:+ print_int (u32 uid); "GID=" +:+ print_int (u32 gid); "USERNAME=" +:+ username;
      "NAME=" +:+ name; "QUEUE=" +:+ queue; "PROJECT=" +:+ project; "SUBMIT_HOST=" +:+ submit_host; "HOME_DIR=" +:+ home_dir;
      "CWD=" +:+ cwd; "COMMAND=" +:+ command; "IN_FILE=" +:+ in_file; "OUT_FILE=" +:+ out_file; "ERR_FILE=" +:+ err_file;
      "NUM_CPUS=" +:+ print_int (wsub_num_cpus ws); "NUM_NHOSTS=" +:+ print_int (wsub_num_hosts ws);
      "NUM_GPUS=" +:+ print_int (wsub_num_gpus ws); "MEM_MB=" +:+ print_int (wsub_mem_mb ws);
      "UMASK=" +:+ print_octal (wsub_umask ws); "FLAGS=" +:+ print_int (wsub_flags ws);
      "BEGIN_TIME=" +:+ print_int (wsub_begin_time ws); "TERM_TIME=" +:+ print_int (wsub_term_time ws);
      "DEPEND_COND=" +:+ depend_cond; "MACHINES=" +:+ machines; "GPU_MODEL=" +:+ gpu_model; "COMMENT=" +:+ comment;
      "TOKENPOOL=" +:+ tokenpool].

Fixpoint lines_text (l : list string) : string :=
  match l with [] => EmptyString | s :: l => s +:+ String newline (lines_text l) end.

(** A failing [chmod] is an error although the file is in place. *)
Definition write_sidecar (E : file_env) (jobs_dir : string) (id uid gid : Z) (ws : Wire.wire_job_submit) (fs : files)
    : res (files * written) :=
  let failed := NotWritten (Some (fe_errno E)) in
  match job_path jobs_dir id "/submit", job_path jobs_dir id "/submit.tmp" with
  | Some path, Some tmp =>
      if negb (fe_open E) then Ok (fs, failed)
      else
        let* lines := sidecar_lines id uid gid ws in
        let text := lines_text lines in
        match fe_flushed E with
        | Some n => Ok (<[tmp := String.substring 0 n text]> fs, failed)
        | None =>
            let fs := <[tmp := text]> fs in
            if negb (fe_rename E) then Ok (fs, failed)
            else
              let fs := rename_file tmp path fs in
              Ok (fs, if fe_chmod E then Written else failed)
        end
  | _, _ => Ok (fs, NotWritten None)
  end.

(** [cpu_time] is the text of [%.2f]. *)
Definition job_write_usage (E : file_env) (jobs_dir : string) (id pid mem_mb swap_mb : Z) (cpu_time : string) (fs : files)
    : files * bool :=
  let dir := jobs_dir +:+ "/" +:+ print_int (Z.rem id JOB_BUCKETS) +:+ "/" +:+ print_int id in
  if (PATH_MAX + LL_BUFSIZ_32 <=? String.length dir)%nat then (fs, false)
  else if negb (fe_open E) then (fs, false)
  else (<[dir +:+ "/usage" := lines_text ["pid=" +:+ print_int pid; "mem_mb=" +:+ print_int mem_mb; "swap_mb=" +:+ print_int swap_mb;
                                          "cpu_time=" +:+ cpu_time]]> fs, true).

(** ** Reading *)

(** What [read_sidecar] fills in of [struct wire_job_start]. *)
Record start_texts : Type := mk_start_texts {
  stt_in_file : string;
  stt_out_file : string;
  stt_err_file : string;
  stt_home_dir : string;
  stt_umask : Z;
  stt_cwd : string;
  stt_command : string
}.

Definition start_texts_eta (x : start_texts) : start_texts :=
  mk_start_texts (stt_in_file x) (stt_out_file x) (stt_err_file x) (stt_home_dir x) (stt_umask x) (stt_cwd x) (stt_command x).
#[export] Instance set_stt_in_file : Setter stt_in_file. Proof. setter start_texts_eta. Defined.
#[export] Instance set_stt_out_file : Setter stt_out_file. Proof. setter start_texts_eta. Defined.
#[export] Instance set_stt_err_file : Setter stt_err_file. Proof. setter start_texts_eta. Defined.
#[export] Instance set_stt_home_dir : Setter stt_home_dir. Proof. setter start_texts_eta. Defined.
#[export] Instance set_stt_umask : Setter stt_umask. Proof. setter start_texts_eta. Defined.
#[export] Instance set_stt_cwd : Setter stt_cwd. Proof. setter start_texts_eta. Defined.
#[export] Instance set_stt_command : Setter stt_command. Proof. setter start_texts_eta. Defined.

(** The text after a prefix. *)
Fixpoint after_prefix (p s : string) : option string :=
  match p, s with
  | EmptyString, _ => Some s
  | String a p, String b s => if Ascii.eqb a b then after_prefix p s else None
  | String _ _, EmptyString => None
  end.

Definition cut_newline (line : string) : string :=
  match strchr_split newline line with Some (a, _) => a | None => line end.

(** One line; [junk] is the variable [ll_atoi] leaves unset when the text is no number. *)
Definition sidecar_set (junk : Z) (ws : start_texts) (line : string) : start_texts :=
  match after_prefix "IN_FILE=" line with Some v => ws <| stt_in_file := strbuf PATH_MAX v |> | None =>
  match after_prefix "OUT_FILE=" line with Some v => ws <| stt_out_file := strbuf PATH_MAX v |> | None =>
  match after_prefix "ERR_FILE=" line with Some v => ws <| stt_err_file := strbuf PATH_MAX v |> | None =>
  match after_prefix "HOME_DIR=" line with Some v => ws <| stt_home_dir := strbuf PATH_MAX v |> | None =>
  match after_prefix "UMASK=" line with Some v => ws <| stt_umask := u32 (default junk (ll_atoi v)) |> | None =>
  match after_prefix "CWD=" line with Some v => ws <| stt_cwd := strbuf PATH_MAX v |> | None =>
  match after_prefix "COMMAND=" line with Some v => ws <| stt_command := strbuf LL_BUFSIZ_512 v |> | None => ws
  end end end end end end end.

Definition sidecar_read_line (junk : Z) (ws : start_texts) (line : string) : start_texts := sidecar_set junk ws (cut_newline line).

Definition start_texts_zero : start_texts :=
  mk_start_texts EmptyString EmptyString EmptyString EmptyString 0 EmptyString EmptyString.

Definition read_sidecar (junk : Z) (jobs_dir : string) (id : Z) (fs : files) : option start_texts :=
  match job_path jobs_dir id "/submit" ≫= fun p => fs !! p with
  | None => None
  | Some text => Some (foldl (sidecar_read_line junk) start_texts_zero (file_lines (PATH_MAX + 16) text))
  end.

(** [malloc_ok] and [read_ok] answer the allocation and the reading. *)
Definition read_script (malloc_ok read_ok : bool) (jobs_dir : string) (id : Z) (fs : files) : option string :=
  match job_path jobs_dir id "/script.sh" ≫= fun p => fs !! p with
  | None | Some EmptyString => None
  | Some text => if malloc_ok && read_ok then Some text else None
  end.

(** * The files of a job are read back as they were written *)

(** ** Paths *)

(** Two files of a job whose names differ have different paths. *)
Lemma job_path_ne dir id f g p q : job_path dir id f = Some p -> job_path dir id g = Some q -> f <> g -> p <> q.
Proof.
  unfold job_path. intros Hp Hq Hne. do 2 case_match; try discriminate. injection Hp as <-. injection Hq as <-.
  intros E. apply Hne. apply string_app_inj_l in E. injection E as E. apply string_app_inj_l in E. injection E as E.
  by apply string_app_inj_l in E.
Qed.

Lemma rename_new old new t fs : old <> new -> fs !! old = Some t -> rename_file old new fs !! new = Some t.
Proof. intros Hn Ht. unfold rename_file. rewrite Ht. apply lookup_insert_eq. Qed.

Lemma rename_other old new p fs : p <> old -> p <> new -> rename_file old new fs !! p = fs !! p.
Proof.
  intros H1 H2. unfold rename_file. destruct (fs !! old); [|done]. by rewrite lookup_insert_ne, lookup_delete_ne by done.
Qed.

Lemma substring_all s : String.substring 0 (String.length s) s = s.
Proof. induction s as [|c s IH]; cbn; [done|]. by rewrite IH. Qed.

(** ** Writing is atomic *)

(** Whatever fails, the file under its name is the old one or the whole new one, and no
    file but it and its draft is touched. *)
Definition replaced (path tmp text : string) (old new : files) : Prop :=
  (new !! path = old !! path \/ new !! path = Some text) /\ forall p, p <> path -> p <> tmp -> new !! p = old !! p.

Lemma draft_only path tmp text t fs : tmp <> path -> replaced path tmp text fs (<[tmp := t]> fs).
Proof. intros Hn. split; [left; by rewrite lookup_insert_ne|]. intros p _ Hp. by rewrite lookup_insert_ne. Qed.

Lemma draft_moved path tmp text fs : tmp <> path -> replaced path tmp text fs (rename_file tmp path (<[tmp := text]> fs)) /\
  rename_file tmp path (<[tmp := text]> fs) !! path = Some text.
Proof.
  intros Hn. assert (Hp : rename_file tmp path (<[tmp := text]> fs) !! path = Some text) by (apply rename_new; [done|by rewrite lookup_insert_eq]).
  split; [|done]. split; [by right|]. intros p Hp1 Hp2. rewrite rename_other by done. by rewrite lookup_insert_ne.
Qed.

Lemma unchanged path tmp text fs : replaced path tmp text fs fs.
Proof. split; [by left|done]. Qed.

Lemma write_script_atomic E dir id script fs fs' r path tmp :
  job_path dir id "/script.sh" = Some path -> job_path dir id "/script.sh.tmp" = Some tmp ->
  write_script E dir id script fs = (fs', r) ->
  replaced path tmp script fs fs' /\ (r = Written -> fs' !! path = Some script).
Proof.
  intros Hp Ht. assert (Hn : tmp <> path) by (by eapply job_path_ne). unfold write_script. rewrite Hp, Ht.
  destruct (job_path dir id ""); [|intros [= <- <-]; split; [apply unchanged|done]].
  destruct (match fe_mkdir E with Some err => negb (err =? EEXIST) | None => false end); [intros [= <- <-]; split; [apply unchanged|done]|].
  destruct (negb (fe_open E)); [intros [= <- <-]; split; [apply unchanged|done]|].
  destruct (fe_written E) as [n|]; [|intros [= <- <-]; split; [by apply draft_only|done]].
  destruct (Nat.eqb_spec n (String.length script)) as [->|]; cbn [negb]; [|intros [= <- <-]; split; [by apply draft_only|done]].
  rewrite substring_all.
  destruct (negb (fe_fsync E)); [intros [= <- <-]; split; [by apply draft_only|done]|].
  destruct (negb (fe_rename E)); [intros [= <- <-]; split; [by apply draft_only|done]|].
  intros [= <- <-]. destruct (draft_moved path tmp script fs Hn) as [H1 H2]. done.
Qed.

Lemma write_sidecar_atomic E dir id uid gid ws fs fs' r path tmp lines :
  job_path dir id "/submit" = Some path -> job_path dir id "/submit.tmp" = Some tmp -> sidecar_lines id uid gid ws = Ok lines ->
  write_sidecar E dir id uid gid ws fs = Ok (fs', r) ->
  replaced path tmp (lines_text lines) fs fs' /\ (r = Written -> fs' !! path = Some (lines_text lines)).
Proof.
  intros Hp Ht Hl. assert (Hn : tmp <> path) by (by eapply job_path_ne). unfold write_sidecar. rewrite Hp, Ht, Hl. cbn [res_bind].
  destruct (negb (fe_open E)); [intros [= <- <-]; split; [apply unchanged|done]|].
  destruct (fe_flushed E); [intros [= <- <-]; split; [by apply draft_only|done]|].
  destruct (negb (fe_rename E)); [intros [= <- <-]; split; [by apply draft_only|done]|].
  intros [= <- <-]. destruct (draft_moved path tmp (lines_text lines) fs Hn) as [H1 H2]. done.
Qed.

(** ** Lines *)

Definition line_ok (size : nat) (s : string) : Prop := forall_chars not_newline s = true /\ (S (String.length s) < size)%nat.

Lemma lines_read size l : Forall (line_ok size) l ->
  forall fuel, (String.length (lines_text l) < fuel)%nat -> file_lines_from fuel size (lines_text l) = map (fun s => s +:+ String newline EmptyString) l.
Proof.
  induction 1 as [|s l [Hs Hl] HF IH]; intros fuel Hf; cbn [lines_text map] in *.
  - by destruct fuel.
  - destruct fuel as [|fuel]; [lia|]. cbn [file_lines_from].
    assert (Hg : fgets size (s +:+ String newline (lines_text l)) = Some (s +:+ String newline EmptyString, lines_text l)).
    { unfold fgets. rewrite fgets_from_line by (done || lia). by destruct s. }
    rewrite Hg. f_equal. apply IH. rewrite string_length_app in Hf. cbn [String.length] in Hf. lia.
Qed.

Lemma cut_newline_line s : forall_chars not_newline s = true -> cut_newline (s +:+ String newline EmptyString) = s.
Proof. intros Hs. unfold cut_newline. by rewrite strchr_split_app. Qed.

Lemma c_str_length b s : c_str b = Ok s -> (String.length s < length b)%nat.
Proof.
  revert s. induction b as [|z b IH]; intros s; cbn [c_str]; [done|]. destruct (z =? 0); [intros [= <-]; cbn; lia|].
  intros (t & Ht & [= <-])%res_bind_Ok. specialize (IH t Ht). cbn. lia.
Qed.

Lemma strbuf_id n s : (String.length s < n)%nat -> strbuf n s = s.
Proof.
  intros Hs. unfold strbuf, ll_strlcpy. destruct n as [|n]; [lia|]. by rewrite (proj2 (Nat.ltb_lt _ _)).
Qed.

(** ** The round trip *)

(** The char arrays of a submission. *)
Definition arrays (ws : Wire.wire_job_submit) : list (list Z) :=
  [wsub_username ws; wsub_name ws; wsub_queue ws; wsub_project ws; wsub_submit_host ws; wsub_home_dir ws; wsub_cwd ws;
   wsub_command ws; wsub_in_file ws; wsub_out_file ws; wsub_err_file ws; wsub_depend_cond ws; wsub_machines ws; wsub_gpu_model ws;
   wsub_comment ws; wsub_tokenpool ws].

(** A text in an array of at most PATH_MAX bytes, on one line. *)
Definition one_line (b : list Z) : Prop :=
  (length b <= PATH_MAX)%nat /\ exists s, c_str b = Ok s /\ forall_chars not_newline s = true.

Definition text (b : list Z) : string := match c_str b with Ok s => s | Crash _ => EmptyString end.

Lemma one_line_ok b : one_line b -> c_str b = Ok (text b) /\ forall_chars not_newline (text b) = true /\ (String.length (text b) < PATH_MAX)%nat.
Proof.
  intros [Hl (s & Hs & Hn)]. unfold text. rewrite Hs. split; [done|]. split; [done|]. apply c_str_length in Hs. lia.
Qed.

Lemma key_line (key s : string) :
  forall_chars not_newline key = true -> (String.length key <= 12)%nat -> forall_chars not_newline s = true ->
  (String.length s < PATH_MAX)%nat -> line_ok (PATH_MAX + 16) (key +:+ s).
Proof. intros Hk Hl Hs Hn. split; [by rewrite forall_chars_app, Hk, Hs|rewrite string_length_app; lia]. Qed.

Lemma octal_ok r : forall n acc, 0 <= n -> forall_chars not_newline acc = true ->
  forall_chars not_newline (print_octal_from r n acc) = true /\ (String.length (print_octal_from r n acc) <= S r + String.length acc)%nat.
Proof.
  assert (Hd : forall n, 0 <= n -> not_newline (digit_char (n mod 8)) = true).
  { intros n Hn. pose proof (Z.mod_pos_bound n 8). destruct (n mod 8) as [|p|p]; [done| |lia].
    do 3 (destruct p as [p|p|]; try reflexivity; try lia). }
  induction r as [|r IH]; intros n acc Hn Ha; cbn [print_octal_from].
  - cbn [forall_chars String.length]. rewrite (Hd n Hn), Ha. split; [done|lia].
  - destruct (n <? 8); [cbn [forall_chars String.length]; rewrite (Hd n Hn), Ha; split; [done|lia]|].
    destruct (IH (n / 8) (String (digit_char (n mod 8)) acc)) as [H1 H2]; [apply Z.div_pos; lia|cbn; by rewrite (Hd n Hn), Ha|].
    split; [done|]. cbn [String.length] in H2. lia.
Qed.

Lemma number_line (key : string) n :
  forall_chars not_newline key = true -> (String.length key <= 12)%nat -> line_ok (PATH_MAX + 16) (key +:+ print_int n).
Proof.
  intros Hk Hl. apply key_line; [done|done| |].
  - apply print_int_chars; [apply digit_not_newline|done].
  - pose proof (print_int_length n). unfold PATH_MAX. lia.
Qed.

(** The lines of the file are those that were written. *)
Lemma sidecar_lines_ok id uid gid ws :
  Forall one_line (arrays ws) -> 0 <= wsub_umask ws ->
  exists lines, sidecar_lines id uid gid ws = Ok lines /\ Forall (line_ok (PATH_MAX + 16)) lines.
Proof.
  intros Ha Hu. unfold arrays in Ha. repeat (apply Forall_cons in Ha as [? Ha]).
  repeat match goal with H : one_line _ |- _ => apply one_line_ok in H as (? & ? & ?) end.
  unfold sidecar_lines. repeat match goal with H : c_str _ = Ok _ |- _ => rewrite H; clear H; cbn [res_bind] end.
  eexists. split; [reflexivity|]. destruct (octal_ok 10 (wsub_umask ws) EmptyString Hu eq_refl) as [Ho Hl]. fold (print_octal (wsub_umask ws)) in Ho, Hl.
  assert (Hlo : (String.length (print_octal (wsub_umask ws)) < PATH_MAX)%nat) by (cbn [String.length] in Hl; unfold PATH_MAX; lia).
  repeat (apply Forall_cons; split); try apply Forall_nil; try done.
  all: first [apply number_line; [reflexivity|apply Nat.leb_le; reflexivity]
             |apply key_line; [reflexivity|apply Nat.leb_le; reflexivity|assumption|assumption]].
Qed.

Lemma fold_lines junk l : Forall (line_ok (PATH_MAX + 16)) l ->
  forall t, foldl (sidecar_read_line junk) t (map (fun s => s +:+ String newline EmptyString) l) = foldl (sidecar_set junk) t l.
Proof.
  induction 1 as [|s l [Hs _] HF IH]; intros t; cbn [map foldl]; [done|]. rewrite IH. unfold sidecar_read_line. by rewrite cut_newline_line.
Qed.

(** What the dispatch of the job gets. *)
Definition texts_back (junk : Z) (ws : Wire.wire_job_submit) : start_texts :=
  mk_start_texts (text (wsub_in_file ws)) (text (wsub_out_file ws)) (text (wsub_err_file ws)) (text (wsub_home_dir ws))
    (u32 (default junk (ll_atoi (print_octal (wsub_umask ws))))) (text (wsub_cwd ws)) (strbuf LL_BUFSIZ_512 (text (wsub_command ws))).

Lemma sidecar_sets junk id uid gid ws lines :
  Forall one_line (arrays ws) -> sidecar_lines id uid gid ws = Ok lines ->
  foldl (sidecar_set junk) start_texts_zero lines = texts_back junk ws.
Proof.
  intros Ha. unfold arrays in Ha. repeat (apply Forall_cons in Ha as [? Ha]).
  repeat match goal with H : one_line _ |- _ => apply one_line_ok in H as (? & ? & ?) end.
  unfold sidecar_lines. repeat match goal with H : c_str _ = Ok _ |- _ => rewrite H; clear H; cbn [res_bind] end.
  intros [= <-].
  cbn -[print_int strbuf ll_atoi u32 print_octal text PATH_MAX LL_BUFSIZ_512]. unfold texts_back.
  rewrite !(strbuf_id PATH_MAX) by assumption. reflexivity.
Qed.

Lemma read_at dir id f p (fs : files) t : job_path dir id f = Some p -> fs !! p = Some t -> (job_path dir id f ≫= fun p => fs !! p) = Some t.
Proof. intros -> Ht. exact Ht. Qed.

Lemma written_paths E dir id script fs fs1 :
  write_script E dir id script fs = (fs1, Written) ->
  exists path tmp, job_path dir id "/script.sh" = Some path /\ job_path dir id "/script.sh.tmp" = Some tmp.
Proof.
  unfold write_script. destruct (job_path dir id ""); [|done].
  destruct (match fe_mkdir E with Some err => negb (err =? EEXIST) | None => false end); [done|].
  destruct (job_path dir id "/script.sh") as [p|]; [|done]. destruct (job_path dir id "/script.sh.tmp") as [t|]; [|done]. by exists p, t.
Qed.

Lemma sidecar_paths E dir id uid gid ws fs fs1 :
  write_sidecar E dir id uid gid ws fs = Ok (fs1, Written) ->
  exists path tmp, job_path dir id "/submit" = Some path /\ job_path dir id "/submit.tmp" = Some tmp.
Proof.
  unfold write_sidecar. destruct (job_path dir id "/submit") as [p|]; [|done]. destruct (job_path dir id "/submit.tmp") as [t|]; [|done].
  by exists p, t.
Qed.

(** C26: what a submission stores for its job is what the dispatch of the job reads.  Once
    the script and the sidecar of a job have been written, whatever was in the tree before,
    the script is read back byte for byte and the sidecar gives back the paths of the
    standard files, the home and the working directory, of any length their arrays allow,
    and the command cut to 511 characters (so the dispatch does not abort on them); the
    mask is the number that the decimal reader makes of its octal digits.  The texts are on
    one line. *)
Theorem job_files_roundtrip E1 E2 dir id uid gid script ws fs fs1 fs2 junk :
  Forall one_line (arrays ws) -> 0 <= wsub_umask ws -> script <> EmptyString ->
  write_script E1 dir id script fs = (fs1, Written) -> write_sidecar E2 dir id uid gid ws fs1 = Ok (fs2, Written) ->
  read_script true true dir id fs2 = Some script /\ read_sidecar junk dir id fs2 = Some (texts_back junk ws).
Proof.
  intros Ha Hu Hs H1 H2. destruct (written_paths _ _ _ _ _ _ H1) as (p1 & t1 & Hp1 & Ht1).
  destruct (sidecar_paths _ _ _ _ _ _ _ _ H2) as (p2 & t2 & Hp2 & Ht2).
  destruct (sidecar_lines_ok id uid gid ws Ha Hu) as (lines & Hl & Hok).
  destruct (write_script_atomic _ _ _ _ _ _ _ _ _ Hp1 Ht1 H1) as [_ W1]. specialize (W1 eq_refl).
  destruct (write_sidecar_atomic _ _ _ _ _ _ _ _ _ _ _ _ Hp2 Ht2 Hl H2) as [[_ Hother] W2]. specialize (W2 eq_refl). split.
  - unfold read_script. rewrite (read_at _ _ _ _ _ script Hp1).
    + by destruct script.
    + rewrite Hother; [done| |]; by eapply job_path_ne.
  - unfold read_sidecar. rewrite (read_at _ _ _ _ _ _ Hp2 W2). f_equal. unfold file_lines.
    rewrite lines_read by (done || lia). rewrite fold_lines by done. by eapply sidecar_sets.
Qed.

(** ** A submission *)

Definition files_demo_ws : Wire.wire_job_submit :=
  Wire.mk_wire_job_submit (chars LL_BUFSIZ_256 "sim") (chars LL_BUFSIZ_256 "normal") (chars LL_BUFSIZ_64 "p") (chars LL_BUFSIZ_1K "c")
    (chars LL_BUFSIZ_4K "") (chars PATH_MAX "/dev/null") (chars PATH_MAX "out") (chars PATH_MAX "err") (chars PATH_MAX "/home/alice/run")
    (chars LL_BUFSIZ_4K "") (chars PATH_MAX "sleep 60") (chars LL_BUFSIZ_256 "") (chars MAXHOSTNAMELEN "login1")
    (chars LL_BUFSIZ_256 "alice") (chars PATH_MAX "/home/alice") (chars LL_BUFSIZ_256 "") 1 1 0 100 0 18 0 0 0 0 0 0 0 0.

Definition files_demo_env : file_env := mk_file_env None true (Some 10%nat) true None true true 0.

Definition files_demo_1 : files := (write_script files_demo_env "/var/ll/jobs" 101 "#!/bin/sh!" ∅).1.
Definition files_demo_2 : files :=
  match write_sidecar files_demo_env "/var/ll/jobs" 101 1001 1001 files_demo_ws files_demo_1 with Ok (fs, _) => fs | Crash _ => ∅ end.

Lemma chars_one_line n s :
  (0 < n <= PATH_MAX)%nat -> (String.length s < n)%nat -> forall_chars (fun c => not_newline c && negb (code c =? 0)) s = true ->
  one_line (chars n s).
Proof.
  intros Hn Hl Hc. assert (Hs : forall_chars not_newline s = true) by
    (eapply forall_chars_impl; [|exact Hc]; by intros c [? _]%andb_prop).
  unfold chars. rewrite strbuf_id by done. split.
  - rewrite length_app, length_replicate, !length_map. assert (Hm : length (list_ascii_of_string s) = String.length s) by (clear; induction s; cbn; congruence).
    rewrite Hm. lia.
  - exists s. split; [|done]. assert (Hr : exists k, (n - length (map code (list_ascii_of_string s)))%nat = S k).
    { rewrite length_map. assert (Hm : length (list_ascii_of_string s) = String.length s) by (clear; induction s; cbn; congruence).
      rewrite Hm. exists (n - String.length s - 1)%nat. lia. }
    destruct Hr as [k ->]. clear Hn Hl Hs. induction s as [|a s IH]; [done|]. cbn [forall_chars] in Hc. apply andb_prop in Hc as [Ha Hc].
    apply andb_prop in Ha as [_ Ha]. cbn [list_ascii_of_string map app c_str]. apply negb_true_iff in Ha. rewrite Ha, (IH Hc). cbn [res_bind].
    unfold code. by rewrite Nat2Z.id, ascii_nat_embedding.
Qed.

Lemma job_files_roundtrip_witness :
  (read_script true true "/var/ll/jobs" 101 files_demo_2 = Some "#!/bin/sh!" /\
   read_sidecar 0 "/var/ll/jobs" 101 files_demo_2 = Some (texts_back 0 files_demo_ws)) /\
  stt_cwd (texts_back 0 files_demo_ws) = "/home/alice/run" /\ stt_umask (texts_back 0 files_demo_ws) = 22.
Proof.
  split; [|split; vm_compute; reflexivity].
  apply (job_files_roundtrip files_demo_env files_demo_env "/var/ll/jobs" 101 1001 1001 "#!/bin/sh!" files_demo_ws ∅ files_demo_1 files_demo_2 0).
  - unfold arrays, files_demo_ws. cbn [wsub_name wsub_queue wsub_project wsub_comment wsub_machines wsub_in_file wsub_out_file
      wsub_err_file wsub_cwd wsub_depend_cond wsub_command wsub_gpu_model wsub_submit_host wsub_username wsub_home_dir wsub_tokenpool].
    repeat (apply Forall_cons; split); try apply Forall_nil_2;
      (apply chars_one_line; [unfold LL_BUFSIZ_64, LL_BUFSIZ_256, LL_BUFSIZ_1K, LL_BUFSIZ_4K, MAXHOSTNAMELEN, PATH_MAX; lia
        |apply Nat.ltb_lt; vm_compute; reflexivity|reflexivity]).
  - done.
  - done.
  - vm_compute. reflexivity.
  - vm_compute. reflexivity.
Defined.

(** The mask of a job that was submitted with 022 is 026 when it runs: it is written in
    octal and read in decimal.  Only masks of one digit survive. *)
Lemma umask_misread junk ws : wsub_umask ws = 18 -> stt_umask (texts_back junk ws) = 22.
Proof. intros H. unfold texts_back. cbn [stt_umask]. by rewrite H. Qed.

(** A line break in a text starts a line of its own: here the comment sets the command. *)
Lemma sidecar_injected :
  stt_command (foldl (sidecar_read_line 0) start_texts_zero
    (file_lines (PATH_MAX + 16) (lines_text ["COMMAND=sleep 60"; "COMMENT=x" +:+ String newline "COMMAND=true"]))) = "true".
Proof. vm_compute. reflexivity. Qed.
