(* ===== verification/Command.v ===== *)
(** * Command-line programs: what they share (src/batch/cmd)

    A program is run on the answers of [getopt_long], one option character with its
    argument at a time, and on the arguments that remain.  It writes to its two outputs,
    calls the client library and ends with the value [main] returns.  The tables the
    programs print have columns as wide as their widest entry. *)

From S2P Require Import Prelude CString LlConf JobScript LlHash Dependency LogFormat MbdTypes MbdBase MbdJob MbdSched.
From S2P Require Import Conf SbdTypes Wire WireXdr Auth Channel MbdInfo Client.

Open Scope string_scope.
Open Scope list_scope.
Open Scope Z_scope.

(** ** Programs *)

(** An answer of [getopt_long]; the argument is [optarg], which only the options that
    take one look at. *)
Definition opt : Type := ascii * string.

Record tm : Type := mk_tm {
  tm_sec : Z;
  tm_min : Z;
  tm_hour : Z;
  tm_mday : Z;
  tm_mon : Z;
  tm_year : Z;
  tm_isdst : Z
}.

Definition tm_eta (x : tm) : tm :=
  mk_tm (tm_sec x) (tm_min x) (tm_hour x) (tm_mday x) (tm_mon x) (tm_year x) (tm_isdst x).
#[export] Instance set_tm_sec : Setter tm_sec. Proof. setter tm_eta. Defined.
#[export] Instance set_tm_min : Setter tm_min. Proof. setter tm_eta. Defined.
#[export] Instance set_tm_hour : Setter tm_hour. Proof. setter tm_eta. Defined.
#[export] Instance set_tm_mday : Setter tm_mday. Proof. setter tm_eta. Defined.
#[export] Instance set_tm_mon : Setter tm_mon. Proof. setter tm_eta. Defined.
#[export] Instance set_tm_year : Setter tm_year. Proof. setter tm_eta. Defined.
#[export] Instance set_tm_isdst : Setter tm_isdst. Proof. setter tm_eta. Defined.

(** What the system answers a program.  [pe_errno] is the errno a failed call of the
    library leaves when the library sets none itself; [pe_strftime] is the time of
    [localtime] in the format of the program; [mktime] also normalizes its argument. *)
Record prog_env : Type := mk_prog_env {
  pe_client : client_env;
  pe_submit : submit_env;
  pe_alloc : nat -> bool;
  pe_argv0 : string;
  pe_errno : Z;
  pe_strerror : Z -> string;
  pe_time : Z;
  pe_localtime : Z -> option tm;
  pe_mktime : tm -> tm * Z;
  pe_strftime : Z -> string;
  pe_getpwuid : Z -> option string;
  pe_getpwnam : string -> option Z
}.

Record output : Type := mk_output {
  o_stdout : string;
  o_stderr : string
}.

(** A program goes on, has ended with a status, or waits for ever. *)
Inductive run (A : Type) : Type :=
  | Go (a : A)
  | Exit (code : Z)
  | Hang.
Arguments Go {A} a.
Arguments Exit {A} code.
Arguments Hang {A}.

Definition pM (A : Type) : Type := output -> client -> res (output * client * run A).

Definition go {A} (a : A) : pM A := fun o c => Ok (o, c, Go a).
Definition exit_with {A} (code : Z) : pM A := fun o c => Ok (o, c, Exit code).
Definition puts (s : string) : pM unit := fun o c => Ok (mk_output (o_stdout o +:+ s) (o_stderr o), c, Go tt).
Definition eputs (s : string) : pM unit := fun o c => Ok (mk_output (o_stdout o) (o_stderr o +:+ s), c, Go tt).

Definition runs {A B} (m : pM A) (k : A -> pM B) : pM B :=
  fun o c =>
    let* r := m o c in
    match r with
    | (o, c, Go a) => k a o c
    | (o, c, Exit code) => Ok (o, c, Exit code)
    | (o, c, Hang) => Ok (o, c, Hang)
    end.

Notation "'run!' x := m 'in' k" := (runs m (fun x => k))
  (at level 10, x pattern, m at level 100, k at level 200).

Definition must {A} (m : res A) : pM A := fun o c => let* a := m in Ok (o, c, Go a).

(** A call of the library: its value, or the errno after it. *)
Definition call {A} (P : prog_env) (m : cM A) : pM (A + Z) :=
  fun o c =>
    let* (c, r) := m c in
    Ok (o, c, match r with
              | Ret a => Go (inl a)
              | Err errno => Go (inr (default (pe_errno P) errno))
              | Blocked => Hang
              end).

(** Print to the error output and end. *)
Definition die {A} (msg : string) (code : Z) : pM A := run! _ := eputs msg in exit_with code.

(** The loop over the options. *)
Fixpoint options {A} (f : nat -> opt -> A -> pM A) (i : nat) (l : list opt) (a : A) : pM A :=
  match l with
  | [] => go a
  | x :: l => run! a := f i x a in options f (S i) l a
  end.

(** A run from the start. *)
Definition started {A} (m : pM A) (c : client) : res (output * client * run A) :=
  m (mk_output EmptyString EmptyString) c.

Definition LAVALITE_VERSION_STR : string := "LavaLite 1.1.0".
Definition endl : string := String newline EmptyString.

(** ** Numbers *)

(** [strtol] and [strtoll] with the end pointer: without a conversion the value is 0 and
    the end is the start. *)
Definition strtol_end (s : string) : Z * string :=
  match strtoll s with Some r => r | None => (0, s) end.

(** With [errno] set to 0 before the call: [None] when it is set to ERANGE. *)
Definition strtol_checked (s : string) : option (Z * string) :=
  match scan_number s with
  | Some (v, e) => if is_i64 v then Some (v, e) else None
  | None => Some (0, s)
  end.

(** ** Tables *)

Definition imax (a b : Z) : Z := if b <? a then a else b.

(** The digits of a 64-bit number: the loop divides by ten until nothing is left. *)
Fixpoint ndigits_from (fuel : nat) (d n : Z) : Z :=
  match fuel with
  | O => d
  | S fuel => if 0 <? n then ndigits_from fuel (d + 1) (n / 10) else d
  end.

Definition ndigits (n : Z) : Z := if n <=? 0 then 1 else ndigits_from 19 0 n.

Definition strlen (s : string) : Z := Z.of_nat (String.length s).

Fixpoint blanks (n : nat) : string := match n with O => EmptyString | S n => String " " (blanks n) end.

(** [%-*s] and [%*s]. *)
Definition pad_right (w : Z) (s : string) : string := s +:+ blanks (Z.to_nat (w - strlen s)).
Definition pad_left (w : Z) (s : string) : string := blanks (Z.to_nat (w - strlen s)) +:+ s.

(** Columns with two blanks between them. *)
Fixpoint columns (l : list string) : string :=
  match l with
  | [] => EmptyString
  | [s] => s
  | s :: l => s +:+ "  " +:+ columns l
  end.

Definition line (l : list string) : string := columns l +:+ endl.

(** A text, or a dash for NULL and the empty text. *)
Definition dash (s : option string) : string :=
  match s with Some (String c t) => String c t | _ => "-" end.

Definition is_space_char (c : ascii) : bool := Ascii.eqb c " ".

(** The tokens of a list of hosts, copied to a buffer of 4096 bytes. *)
Definition host_tokens (s : string) : list string := strtok_all is_space_char (strbuf LL_BUFSIZ_4K s).

Definition run_hosts_width (s : option string) : Z :=
  match s with
  | None | Some EmptyString => 1
  | Some s => foldl (fun m t => if m <? strlen t then strlen t else m) 0 (host_tokens s)
  end.

(** [id[index]] for an element of an array. *)
Definition fmt_jobid (job_id array_id array_index : Z) : string :=
  strbuf 64 (if negb (array_id =? 0) then print_int array_id +:+ "[" +:+ print_int array_index +:+ "]" else print_int job_id).

(** [id] or [id[index]]: the job, the array and the index. [none] is the job id of a
    reference to an element. *)
Definition parse_job_ref (none : Z) (s : string) : option (Z * Z * Z) :=
  match strtol_checked s with
  | None => None
  | Some (id, e) =>
      if String.eqb e s || (id <=? 0) then None
      else match e with
           | EmptyString => Some (id, 0, 0)
           | String c p =>
               if negb (Ascii.eqb c "[") then None
               else match strtol_checked p with
                    | None => None
                    | Some (idx, idx_end) =>
                        if String.eqb idx_end p || negb (is_i32 idx) then None
                        else if String.eqb idx_end "]" then Some (none, id, idx) else None
                    end
           end
  end.

(** ** Facts about runs *)

(** The program ends with 0 or 1 and has called nothing. *)
Definition stops {A} (r : res (output * client * run A)) (c : client) : Prop :=
  exists o code, r = Ok (o, c, Exit code) /\ (code = 0 \/ code = 1).

Lemma die_stops {A} msg o c : stops (A := A) (die msg 1 o c) c.
Proof. do 2 eexists. split; [reflexivity|lia]. Qed.

Lemma stops_bind {A B} (m : pM A) (k : A -> pM B) o c : stops (m o c) c -> stops (runs m k o c) c.
Proof. intros (o' & code & Hm & Hc). exists o', code. split; [|done]. unfold runs. by rewrite Hm. Qed.

Lemma must_step {A B} (m : res A) a (k : A -> pM B) o c : m = Ok a -> runs (must m) k o c = k a o c.
Proof. intros ->. reflexivity. Qed.

Lemma go_runs {A B} (m : pM A) (k : A -> pM B) o c a o' c' : m o c = Ok (o', c', Go a) -> runs m k o c = k a o' c'.
Proof. unfold runs. by intros ->. Qed.

(** ** Facts about tables *)

Lemma imax_l a b : a <= imax a b.
Proof. unfold imax. case_match; lia. Qed.

Lemma imax_r a b : b <= imax a b.
Proof. unfold imax. case_match; lia. Qed.

Lemma strlen_app a b : strlen (a +:+ b) = strlen a + strlen b.
Proof. unfold strlen. rewrite string_length_app. lia. Qed.

Lemma strlen_blanks n : strlen (blanks n) = Z.of_nat n.
Proof. unfold strlen. f_equal. induction n; cbn; congruence. Qed.

(** A cell that fits its column fills it. *)
Lemma pad_right_width w s : strlen s <= w -> strlen (pad_right w s) = w.
Proof. intros Hs. unfold pad_right. rewrite strlen_app, strlen_blanks. lia. Qed.

Lemma pad_left_width w s : strlen s <= w -> strlen (pad_left w s) = w.
Proof. intros Hs. unfold pad_left. rewrite strlen_app, strlen_blanks. lia. Qed.

Lemma ndigits_from_acc f : forall d n, ndigits_from f d n = d + ndigits_from f 0 n.
Proof.
  induction f as [|f IH]; intros d n; cbn [ndigits_from]; [lia|]. destruct (0 <? n); [|lia].
  rewrite (IH (d + 1)), (IH (0 + 1)). lia.
Qed.

Lemma digits_strlen f : forall r n acc,
  0 < n < 10 ^ Z.of_nat f -> n < 10 ^ (Z.of_nat r + 1) -> strlen (print_digits r n acc) = ndigits_from f 0 n + strlen acc.
Proof.
  induction f as [|f IH]; intros r n acc Hn Hr; [cbn in Hn; lia|].
  cbn [ndigits_from]. rewrite (proj2 (Z.ltb_lt 0 n)), ndigits_from_acc by lia.
  assert (Hs : strlen (String (digit_char (n mod 10)) acc) = 1 + strlen acc) by (unfold strlen; cbn [String.length]; lia).
  assert (Hsmall : n < 10 -> ndigits_from f 0 (n / 10) = 0).
  { intros Hd. rewrite Z.div_small by lia. by destruct f. }
  destruct r as [|r]; cbn [print_digits]; [rewrite Hs, Hsmall by (cbn in Hr; lia); lia|].
  destruct (Z.ltb_spec n 10); [rewrite Hs, Hsmall by lia; lia|].
  rewrite IH, Hs; [lia| |].
  - rewrite Nat2Z.inj_succ, Z.pow_succ_r in Hn by lia. split; [apply Z.div_str_pos; lia|apply Z.div_lt_upper_bound; lia].
  - replace (Z.of_nat (S r) + 1) with (Z.succ (Z.of_nat r + 1)) in Hr by lia. rewrite Z.pow_succ_r in Hr by lia.
    apply Z.div_lt_upper_bound; lia.
Qed.

(** [ndigits] is the width of a number that is not negative. *)
Lemma ndigits_width n : 0 <= n < 2 ^ 63 -> strlen (print_int n) = ndigits n.
Proof.
  intros Hn. unfold print_int, ndigits. rewrite (proj2 (Z.ltb_ge n 0)) by lia.
  destruct (Z.leb_spec n 0); [by assert (n = 0) as -> by lia|].
  rewrite (digits_strlen 19) by (cbn; lia). unfold strlen. cbn. lia.
Qed.

Lemma max_fold_ge l : forall m, m <= foldl (fun m t => if m <? strlen t then strlen t else m) m l.
Proof.
  induction l as [|t l IH]; intros m; cbn [foldl]; [lia|]. etrans; [|apply IH]. destruct (Z.ltb_spec m (strlen t)); lia.
Qed.

Lemma max_fold_elem l t : forall m, t ∈ l -> strlen t <= foldl (fun m t => if m <? strlen t then strlen t else m) m l.
Proof.
  induction l as [|u l IH]; intros m Ht; [by apply elem_of_nil in Ht|]. cbn [foldl]. apply elem_of_cons in Ht as [->|Ht]; [|by apply IH].
  etrans; [|apply max_fold_ge]. destruct (Z.ltb_spec m (strlen u)); lia.
Qed.

(** Every host of the list fits the column. *)
Lemma run_hosts_fit s t : t ∈ host_tokens s -> strlen t <= run_hosts_width (Some s).
Proof.
  intros Ht. unfold run_hosts_width. destruct s as [|a s]; [by apply elem_of_nil in Ht|]. by apply max_fold_elem.
Qed.
