(* ===== verification/Bsub.v ===== *)
(** * bsub (src/batch/cmd/bsub.c) *)

From S2P Require Import Prelude CString LlConf JobScript LlHash Dependency LogFormat MbdTypes MbdBase MbdJob MbdSched.
From S2P Require Import Conf SbdTypes Wire WireXdr Auth Channel MbdInfo Client Command.
From S2P Require Import MbdNet.
From S2P Require Import MbdInv MbdDemo ConfProps WireProps MbdInfo Arrival MbdReply.
From S2P Require Import ClientProps.

Open Scope string_scope.
Open Scope list_scope.
Open Scope Z_scope.

Definition js_eta (x : job_submit) : job_submit :=
  mk_job_submit (js_name x) (js_queue x) (js_machines x) (js_gpu_model x) (js_depend_cond x) (js_in_file x) (js_out_file x)
    (js_err_file x) (js_command x) (js_project x) (js_comment x) (js_num_cpus x) (js_num_hosts x) (js_num_gpus x)
    (js_mem_mb x) (js_storage_mb x) (js_tokenpool x) (js_begin_time x) (js_term_time x) (js_flags x) (js_array_start x)
    (js_array_end x) (js_array_stride x).
#[export] Instance set_js_name : Setter js_name. Proof. setter js_eta. Defined.
#[export] Instance set_js_queue : Setter js_queue. Proof. setter js_eta. Defined.
#[export] Instance set_js_machines : Setter js_machines. Proof. setter js_eta. Defined.
#[export] Instance set_js_gpu_model : Setter js_gpu_model. Proof. setter js_eta. Defined.
#[export] Instance set_js_depend_cond : Setter js_depend_cond. Proof. setter js_eta. Defined.
#[export] Instance set_js_in_file : Setter js_in_file. Proof. setter js_eta. Defined.
#[export] Instance set_js_out_file : Setter js_out_file. Proof. setter js_eta. Defined.
#[export] Instance set_js_err_file : Setter js_err_file. Proof. setter js_eta. Defined.
#[export] Instance set_js_command : Setter js_command. Proof. setter js_eta. Defined.
#[export] Instance set_js_project : Setter js_project. Proof. setter js_eta. Defined.
#[export] Instance set_js_comment : Setter js_comment. Proof. setter js_eta. Defined.
#[export] Instance set_js_num_cpus : Setter js_num_cpus. Proof. setter js_eta. Defined.
#[export] Instance set_js_num_hosts : Setter js_num_hosts. Proof. setter js_eta. Defined.
#[export] Instance set_js_num_gpus : Setter js_num_gpus. Proof. setter js_eta. Defined.
#[export] Instance set_js_mem_mb : Setter js_mem_mb. Proof. setter js_eta. Defined.
#[export] Instance set_js_storage_mb : Setter js_storage_mb. Proof. setter js_eta. Defined.
#[export] Instance set_js_tokenpool : Setter js_tokenpool. Proof. setter js_eta. Defined.
#[export] Instance set_js_begin_time : Setter js_begin_time. Proof. setter js_eta. Defined.
#[export] Instance set_js_term_time : Setter js_term_time. Proof. setter js_eta. Defined.
#[export] Instance set_js_flags : Setter js_flags. Proof. setter js_eta. Defined.
#[export] Instance set_js_array_start : Setter js_array_start. Proof. setter js_eta. Defined.
#[export] Instance set_js_array_end : Setter js_array_end. Proof. setter js_eta. Defined.
#[export] Instance set_js_array_stride : Setter js_array_stride. Proof. setter js_eta. Defined.

(** [memset(&js, 0, sizeof(js))] *)
Definition js_zero : job_submit :=
  mk_job_submit None None None None None None None None None None None 0 0 0 0 0 None 0 0 0 0 0 0.

Definition usage : string :=
"Usage: bsub [options] command [arguments]

Job identity:
  --queue  queue     Queue name (default: system default)
  --name   name      Job name
  --project name     Project name
  --comment text     User comment, ignored by scheduler

Resources (per host):
  --cpus   n         CPU per host (default: 1)
  --nhosts n         number of execution hosts (default: 1)
  --mem    size      Memory per host: n[M|G] (default MB)
  --storage size     Local scratch storage per host: n[M|G] (default GB)
  --gpus   n         GPUs per host (default: 0)
  --gpu-model name   Required GPU model (requires --gpus)
  --exclusive        Exclusive host, no job sharing

Cluster resources:
  --tokens   name=N    Request N tokens from named pool (repeatable)
Placement:
  --machines " +:+ String dquote "h..." +:+ String dquote "  Restrict to listed hosts or host groups

I/O:
  --stdout path      Standard output (default: stdout.<jobid>)
  --stderr path      Standard error  (default: stderr.<jobid>)
  --stdin  path      Standard input  (default: /dev/null)

Scheduling:
  --hold             Submit in PSUSP state
  --array  start-end[:stride]  Submit an array job. start must be >= 1
  --begin  [day:]h:m Do not dispatch before this time
  --terminate [d:]h:m Terminate at deadline (SIGUSR2 + kill)
  --dependency expr  Hold until dependency expr is satisfied.
                     expr uses done(id)/exit(id)/ended(id) terms
                     combined with && || ! and parentheses.
                     ended(id) means done(id) || exit(id).

  --help             Print this message and exit
  --version          Print version and exit
".

(** ** Arguments *)

(** The pieces between the colons. *)
Fixpoint split_colons (s : string) : list string :=
  match s with
  | EmptyString => [EmptyString]
  | String c s =>
      match split_colons s with
      | [] => []
      | p :: ps => if Ascii.eqb c ":" then EmptyString :: p :: ps else String c p :: ps
      end
  end.

(** One of the numbers; the empty piece is 0. *)
Definition time_field (s : string) : option Z :=
  let (v, e) := strtol_end s in
  if negb (String.eqb e EmptyString) || (v <? 0) then None else Some (i32 v).

(** The time of [t], or the same time a day, a month or a year later when it is past;
    the second [mktime] is not checked. *)
Definition after_now (P : prog_env) (nf : nat) (t : tm) : option Z :=
  let (t, v) := pe_mktime P t in
  if v <? 0 then None
  else if v <=? pe_time P then
    if (nf =? 2)%nat then Some (v + 86400)
    else if (nf =? 3)%nat then Some (pe_mktime P (t <| tm_mon := tm_mon t + 1 |>)).2
    else Some (pe_mktime P (t <| tm_year := tm_year t + 1 |>)).2
  else Some v.

(** hour:minute, day:hour:minute or month:day:hour:minute as a time after now. *)
Definition parse_time_arg (P : prog_env) (arg : string) : res (option Z) :=
  if (64 <=? String.length arg)%nat then Ok None
  else
    let nf := length (split_colons arg) in
    if ((nf <? 2) || (4 <? nf))%nat then Ok None
    else match mapM time_field (split_colons arg) with
         | None => Ok None
         | Some fields =>
             let* t := deref (pe_localtime P (pe_time P)) in
             let* minute := nth_res fields (nf - 1) in
             let* hour := nth_res fields (nf - 2) in
             let t := t <| tm_sec := 0 |> <| tm_min := minute |> <| tm_hour := hour |> in
             let* t := if (3 <=? nf)%nat then let* day := nth_res fields (nf - 3) in Ok (t <| tm_mday := day |>) else Ok t in
             let* t := if (nf =? 4)%nat then let* month := nth_res fields 0 in Ok (t <| tm_mon := i32 (month - 1) |>) else Ok t in
             Ok (after_now P nf (t <| tm_isdst := -1 |>))
         end.

(** n[M|G] in MB. *)
Definition parse_mem (arg : string) : option Z :=
  match scan_number arg with
  | None => None
  | Some (n, e) =>
      let v := saturate_u64 n in
      match e with
      | EmptyString => Some v
      | String c _ => if Ascii.eqb c "M" then Some v else if Ascii.eqb c "G" then Some (u64 (v * 1024)) else None
      end
  end.

(** The arguments with blanks between them. *)
Fixpoint join_blanks (args : list string) : string :=
  match args with
  | [] => EmptyString
  | [a] => a
  | a :: args => a +:+ " " +:+ join_blanks args
  end.

Definition build_command (malloc_ok : bool) (args : list string) : option string :=
  match args with
  | [] => None
  | _ => if malloc_ok then Some (join_blanks args) else None
  end.

Definition is_machine_sep (c : ascii) : bool := Ascii.eqb c "," || Ascii.eqb c " ".

(** Whether the scan is inside a name. *)
Fixpoint count_from (inside : bool) (s : string) : Z :=
  match s with
  | EmptyString => 0
  | String c s =>
      if is_machine_sep c then count_from false s
      else if inside then count_from true s else 1 + count_from true s
  end.

Definition count_machines (machines : string) : Z := i32 (count_from false machines).

(** A number of at least [least]. *)
Definition parse_count (least : Z) (arg : string) : option Z :=
  let (v, e) := strtol_end arg in
  if negb (String.eqb e EmptyString) || (v <? least) then None else Some (i32 v).

(** ** The options *)

(** A value, or the message and status 1. *)
Definition want {A} (what arg : string) (o : option A) : pM A :=
  match o with Some a => go a | None => die ("bsub: --" +:+ what +:+ " '" +:+ arg +:+ "'" +:+ endl) 1 end.

(** name=N, appended to the pools asked for so far; [strdup] is not checked. *)
Definition add_tokens (ok : bool) (arg : string) (js : job_submit) : pM job_submit :=
  match strchr_split "=" arg with
  | None | Some (EmptyString, _) => die ("bsub: --tokens: invalid format '" +:+ arg +:+ "', expected name=N" +:+ endl) 1
  | Some (_, count) =>
      let (v, e) := strtol_end count in
      if negb (String.eqb e EmptyString) || (v <=? 0) then die ("bsub: --tokens: invalid count in '" +:+ arg +:+ "'" +:+ endl) 1
      else match js_tokenpool js with
           | None => go (js <| js_tokenpool := if ok then Some arg else None |>)
           | Some prev =>
               if ok then go (js <| js_tokenpool := Some (prev +:+ "," +:+ arg) |>)
               else die ("bsub: out of memory" +:+ endl) 1
           end
  end.

Definition option_step (P : prog_env) (dep_malloc : nat -> bool) (i : nat) (o : opt) (js : job_submit) : pM job_submit :=
  let (c, arg) := o in
  let given d := Ascii.eqb c d in
  if given "q"%char then go (js <| js_queue := Some arg |>)
  else if given "J"%char then go (js <| js_name := Some arg |>)
  else if given "P"%char then go (js <| js_project := Some arg |>)
  else if given "C"%char then go (js <| js_comment := Some arg |>)
  else if given "n"%char then run! v := want "cpus: invalid value" arg (parse_count 1 arg) in go (js <| js_num_cpus := v |>)
  else if given "N"%char then run! v := want "nhosts: invalid value" arg (parse_count 1 arg) in go (js <| js_num_hosts := v |>)
  else if given "M"%char then run! v := want "mem: invalid value" arg (parse_mem arg) in go (js <| js_mem_mb := v |>)
  else if given "s"%char then run! v := want "storage: invalid value" arg (parse_mem arg) in go (js <| js_storage_mb := v |>)
  else if given "g"%char then run! v := want "gpus: invalid value" arg (parse_count 0 arg) in go (js <| js_num_gpus := v |>)
  else if given "G"%char then go (js <| js_gpu_model := Some arg |>)
  else if given "T"%char then add_tokens (pe_alloc P i) arg js
  else if given "x"%char then go (js <| js_flags ::= fun f => Z.lor f JOB_FLAG_EXCLUSIVE |>)
  else if given "m"%char then go (js <| js_machines := Some arg |>)
  else if given "o"%char then go (js <| js_out_file := Some arg |>)
  else if given "e"%char then go (js <| js_err_file := Some arg |>)
  else if given "i"%char then go (js <| js_in_file := Some arg |>)
  else if given "H"%char then go (js <| js_flags ::= fun f => Z.lor f JOB_FLAG_HOLD |>)
  else if given "a"%char then
    run! r := want "array: invalid spec" arg (llb_parse_array arg) in
    go (js <| js_array_start := r.1.1 |> <| js_array_end := r.1.2 |> <| js_array_stride := r.2 |>
           <| js_flags ::= fun f => Z.lor f JOB_FLAG_ARRAY |>)
  else if given "b"%char then
    run! t := must (parse_time_arg P arg) in
    run! t := want "begin: invalid time" arg t in go (js <| js_begin_time := t |>)
  else if given "t"%char then
    run! t := must (parse_time_arg P arg) in
    run! t := want "terminate: invalid time" arg t in go (js <| js_term_time := t |>)
  else if given "w"%char then
    run! ok := must (llb_parse_dependency dep_malloc arg) in
    run! _ := want "dependency: invalid expression" arg (if ok : bool then Some tt else None) in
    go (js <| js_depend_cond := Some arg |>)
  else if given "h"%char then run! _ := puts usage in exit_with 0
  else if given "v"%char then run! _ := puts (LAVALITE_VERSION_STR +:+ endl) in exit_with 0
  else die usage 1.

(** ** After the options *)

(** The checks across options, and the number of hosts from the list of machines. *)
Definition checked (js : job_submit) : pM job_submit :=
  match js_machines js with
  | Some machines =>
      if 0 <? js_num_hosts js then die ("bsub: --nhosts and --machines are mutually exclusive" +:+ endl) 1
      else go (js <| js_num_hosts := count_machines machines |>)
  | None => go js
  end.

Definition checked_gpus (js : job_submit) : pM unit :=
  match js_gpu_model js with
  | Some _ => if js_num_gpus js =? 0 then die ("bsub: --gpu-model requires --gpus" +:+ endl) 1 else go tt
  | None => go tt
  end.

Definition checked_times (js : job_submit) : pM unit :=
  if (0 <? js_begin_time js) && (0 <? js_term_time js) && (js_term_time js <=? js_begin_time js) then
    die ("bsub: --begin must be before --terminate" +:+ endl) 1
  else go tt.

(** Up to the call: the job asked for. *)
Definition prepare (P : prog_env) (dep_malloc : nat -> bool) (opts : list opt) (args : list string) : pM job_submit :=
  run! js := options (option_step P dep_malloc) 0 opts js_zero in
  run! js := checked js in
  run! _ := checked_gpus js in
  run! _ := checked_times js in
  match build_command (pe_alloc P (length opts)) args with
  | None => run! _ := eputs ("bsub: no command specified" +:+ endl) in die usage 1
  | Some command => go (js <| js_command := Some command |>)
  end.

Definition bsub_main `{XdrLib} (HMAC : list Z -> list Z -> option (list Z)) (P : prog_env) (dep_malloc : nat -> bool)
    (opts : list opt) (args : list string) : pM unit :=
  run! js := prepare P dep_malloc opts args in
  run! r := call P (llb_submit HMAC (pe_client P) (pe_submit P) js) in
  match r with
  | inr errno =>
      run! _ := eputs "Job not submitted" in
      run! _ := if negb (errno =? 0) then eputs (": " +:+ pe_strerror P errno) else go tt in
      die endl 1
  | inl job_id =>
      run! _ := puts ("Job <" +:+ print_int job_id +:+ "> is submitted to queue <" +:+ default "default" (js_queue js) +:+ ">." +:+ endl) in
      exit_with 0
  end.

(** * What bsub asks for, and what becomes of it

    The loop over the options as a function of the command line: every option counts with
    its last argument, [--tokens] with all of them.  Then bsub from the command line to
    the job table of mbd and back to the terminal. *)

(** ** The command line as the user means it *)

(** The last argument of an option, and whether it is there. *)
Definition last_arg (d : ascii) (l : list opt) : option string :=
  foldl (fun a x => if Ascii.eqb x.1 d then Some x.2 else a) None l.

Definition given (d : ascii) (l : list opt) : bool := existsb (fun x => Ascii.eqb x.1 d) l.

(** The token requests, with commas between them. *)
Definition token_args (l : list opt) : option string :=
  foldl (fun a x => if Ascii.eqb x.1 "T"%char then Some (match a with None => x.2 | Some p => p +:+ "," +:+ x.2 end) else a) None l.

Definition time_given (P : prog_env) (d : ascii) (l : list opt) : Z :=
  match last_arg d l with
  | None => 0
  | Some arg => match parse_time_arg P arg with Ok (Some t) => t | _ => 0 end
  end.

Definition array_given (l : list opt) : Z * Z * Z :=
  default (0, 0, 0) (last_arg "a" l ≫= llb_parse_array).

Definition flags_given (l : list opt) : Z :=
  (if given "x" l then JOB_FLAG_EXCLUSIVE else 0) + (if given "H" l then JOB_FLAG_HOLD else 0) +
  (if given "a" l then JOB_FLAG_ARRAY else 0).

(** The job of the options, before the checks across them and without its command. *)
Definition asked (P : prog_env) (l : list opt) : job_submit :=
  mk_job_submit (last_arg "J" l) (last_arg "q" l) (last_arg "m" l) (last_arg "G" l) (last_arg "w" l) (last_arg "i" l)
    (last_arg "o" l) (last_arg "e" l) None (last_arg "P" l) (last_arg "C" l)
    (default 0 (last_arg "n" l ≫= parse_count 1)) (default 0 (last_arg "N" l ≫= parse_count 1))
    (default 0 (last_arg "g" l ≫= parse_count 0)) (default 0 (last_arg "M" l ≫= parse_mem))
    (default 0 (last_arg "s" l ≫= parse_mem)) (token_args l) (time_given P "b" l) (time_given P "t" l) (flags_given l)
    (array_given l).1.1 (array_given l).1.2 (array_given l).2.

Definition machines_hosts (js : job_submit) : job_submit :=
  match js_machines js with Some m => js <| js_num_hosts := count_machines m |> | None => js end.

(** The options whose argument can be used; the rest end the program. *)
Definition token_ok (arg : string) : bool :=
  match strchr_split "=" arg with
  | None | Some (EmptyString, _) => false
  | Some (_, count) => match strtol_end count with (v, e) => String.eqb e EmptyString && (0 <? v) end
  end.

Definition isS {A} (o : option A) : bool := match o with Some _ => true | None => false end.

Definition acceptable (P : prog_env) (dep_malloc : nat -> bool) (x : opt) : bool :=
  let (c, arg) := x in
  if existsb (Ascii.eqb c) ["q"; "J"; "P"; "C"; "G"; "x"; "m"; "o"; "e"; "i"; "H"]%char then true
  else if Ascii.eqb c "n" || Ascii.eqb c "N" then isS (parse_count 1 arg)
  else if Ascii.eqb c "g" then isS (parse_count 0 arg)
  else if Ascii.eqb c "M" || Ascii.eqb c "s" then isS (parse_mem arg)
  else if Ascii.eqb c "T" then token_ok arg
  else if Ascii.eqb c "a" then isS (llb_parse_array arg)
  else if Ascii.eqb c "b" || Ascii.eqb c "t" then match parse_time_arg P arg with Ok o => isS o | Crash _ => false end
  else if Ascii.eqb c "w" then match llb_parse_dependency dep_malloc arg with Ok b => b | Crash _ => false end
  else false.

(** Options that contradict each other. *)
Definition consistent (js : job_submit) : bool :=
  negb (isS (js_machines js) && (0 <? js_num_hosts js)) &&
  negb (isS (js_gpu_model js) && (js_num_gpus js =? 0)) &&
  negb ((0 <? js_begin_time js) && (0 <? js_term_time js) && (js_term_time js <=? js_begin_time js)).

(** ** The loop *)

Section loop.
Context (P : prog_env) (dep_malloc : nat -> bool) (Halloc : forall i, pe_alloc P i = true)
  (Htm : is_Some (pe_localtime P (pe_time P))).

Lemma last_arg_snoc d l x : last_arg d (l ++ [x]) = if Ascii.eqb x.1 d then Some x.2 else last_arg d l.
Proof. unfold last_arg. by rewrite foldl_app. Qed.

Lemma given_snoc d l x : given d (l ++ [x]) = given d l || Ascii.eqb x.1 d.
Proof. unfold given. rewrite existsb_app. cbn [existsb]. by rewrite orb_false_r. Qed.

Lemma token_args_snoc l x :
  token_args (l ++ [x]) =
  if Ascii.eqb x.1 "T"%char then Some (match token_args l with None => x.2 | Some p => p +:+ "," +:+ x.2 end) else token_args l.
Proof. unfold token_args. by rewrite foldl_app. Qed.

Lemma flags_given_snoc l x :
  flags_given (l ++ [x]) =
  let f := flags_given l in
  let f := if Ascii.eqb x.1 "x"%char then Z.lor f JOB_FLAG_EXCLUSIVE else f in
  let f := if Ascii.eqb x.1 "H"%char then Z.lor f JOB_FLAG_HOLD else f in
  if Ascii.eqb x.1 "a"%char then Z.lor f JOB_FLAG_ARRAY else f.
Proof.
  unfold flags_given. rewrite !given_snoc.
  destruct (given "x" l), (given "H" l), (given "a" l), (Ascii.eqb x.1 "x"%char), (Ascii.eqb x.1 "H"%char), (Ascii.eqb x.1 "a"%char);
    reflexivity.
Qed.

(** A time argument is parsed or refused. *)
Lemma parse_time_total arg : exists o, parse_time_arg P arg = Ok o.
Proof using Htm.
  unfold parse_time_arg. destruct (64 <=? String.length arg)%nat; [by eexists|].
  destruct ((length (split_colons arg) <? 2) || (4 <? length (split_colons arg)))%nat eqn:Hn; [by eexists|].
  apply orb_false_iff in Hn as [H2 H4]. apply Nat.ltb_ge in H2, H4.
  destruct (mapM time_field (split_colons arg)) as [fields|] eqn:Hm; [|by eexists].
  apply length_mapM in Hm. destruct Htm as [t ->]. cbn [deref res_bind]. unfold nth_res.
  destruct (lookup_lt_is_Some_2 fields (length (split_colons arg) - 1)) as [mi ->]; [lia|].
  destruct (lookup_lt_is_Some_2 fields (length (split_colons arg) - 2)) as [ho ->]; [lia|]. cbn [res_bind].
  destruct (3 <=? length (split_colons arg))%nat eqn:H3.
  - apply Nat.leb_le in H3. destruct (lookup_lt_is_Some_2 fields (length (split_colons arg) - 3)) as [da ->]; [lia|]. cbn [res_bind].
    destruct (lookup_lt_is_Some_2 fields 0) as [mo ->]; [lia|].
    destruct (length (split_colons arg) =? 4)%nat; cbn [res_bind]; by eexists.
  - cbn [res_bind]. apply Nat.leb_gt in H3. rewrite (proj2 (Nat.eqb_neq _ _)) by lia. by eexists.
Qed.

Lemma want_step {A B} what arg (v : option A) (k : A -> pM B) o c :
  match v with
  | Some a => runs (want what arg v) k o c = k a o c
  | None => stops (runs (want what arg v) k o c) c
  end.
Proof. destruct v; [reflexivity|]. apply stops_bind, die_stops. Qed.

Definition steps_to (ok : bool) (r : res (output * client * run job_submit)) (js : job_submit) (o : output) (c : client) : Prop :=
  if ok then r = Ok (o, c, Go js) else stops r c.

Lemma add_tokens_step i arg l o c :
  steps_to (token_ok arg) (add_tokens (pe_alloc P i) arg (asked P l) o c) (asked P (l ++ [("T"%char, arg)])) o c.
Proof using Halloc.
  unfold add_tokens, token_ok. destruct (strchr_split "=" arg) as [[[|a nm] count]|]; [apply die_stops| |apply die_stops].
  destruct (strtol_end count) as [v e]. rewrite Z.ltb_antisym.
  destruct (String.eqb e EmptyString), (v <=? 0); cbn [negb orb andb steps_to]; try apply die_stops.
  rewrite Halloc. unfold asked, time_given, array_given, flags_given. rewrite !last_arg_snoc, token_args_snoc, !given_snoc.
  cbn -[last_arg token_args given]. rewrite !orb_false_r. by destruct (token_args l).
Qed.

(** The job after one more option. *)
Ltac sets_field :=
  unfold go; do 3 f_equal; unfold asked, time_given, array_given;
  rewrite ?last_arg_snoc, ?token_args_snoc, ?flags_given_snoc;
  cbn -[last_arg token_args flags_given Z.lor parse_mem parse_count llb_parse_array parse_time_arg].

Ltac wanted :=
  match goal with |- steps_to _ (runs (want ?w ?a ?v) ?k ?o ?c) _ _ _ =>
    let Hw := fresh in pose proof (want_step w a v k o c) as Hw; destruct v eqn:Hv; [rewrite Hw; sets_field; by rewrite ?Hv|exact Hw]
  end.

Ltac wanted_time Ht :=
  first [apply stops_bind, die_stops|cbn [isS steps_to]; unfold want, runs, go; cbn [res_bind]; sets_field; by rewrite Ht].

Lemma option_step_asks l i x o c :
  steps_to (acceptable P dep_malloc x) (option_step P dep_malloc i x (asked P l) o c) (asked P (l ++ [x])) o c.
Proof using Type*.
  destruct x as [d arg]. unfold option_step, acceptable. cbn [existsb].
  repeat match goal with |- context [Ascii.eqb d ?k] => destruct (Ascii.eqb_spec d k) as [->|_];
    [cbn -[asked want parse_mem parse_count llb_parse_array parse_time_arg llb_parse_dependency token_ok add_tokens must]|] end.
  all: try (apply add_tokens_step).
  all: try wanted.
  all: try (cbn [steps_to]; sets_field; reflexivity).
  all: try (do 2 eexists; split; [reflexivity|lia]).
  - destruct (parse_time_total arg) as [t Ht]. rewrite (must_step _ _ _ _ _ Ht), Ht. destruct t; wanted_time Ht.
  - destruct (parse_time_total arg) as [t Ht]. rewrite (must_step _ _ _ _ _ Ht), Ht. destruct t; wanted_time Ht.
  - unfold llb_parse_dependency. destruct (dep_parse_total None dep_malloc arg) as (st & deps & -> & _). cbn [res_bind].
    unfold must, runs at 1. cbn [res_bind]. destruct (bool_decide (st = DEP_PARSE_OK)); cbn [steps_to];
      [unfold want, runs, go; cbn [res_bind]; by sets_field|apply stops_bind, die_stops].
Qed.

(** The whole loop. *)
Lemma options_ask l2 : forall l1 i o c,
  steps_to (forallb (acceptable P dep_malloc) l2) (options (option_step P dep_malloc) i l2 (asked P l1) o c) (asked P (l1 ++ l2)) o c.
Proof using Type*.
  induction l2 as [|x l2 IH]; intros l1 i o c; cbn [options forallb]; [by rewrite app_nil_r|].
  pose proof (option_step_asks l1 i x o c) as Hx. destruct (acceptable P dep_malloc x); cbn [andb steps_to] in *; [|by apply stops_bind].
  unfold runs. rewrite Hx. cbn [res_bind]. specialize (IH (l1 ++ [x]) (S i) o c). by rewrite <- app_assoc in IH.
Qed.

(** The job bsub submits for a command line. *)
Definition request_of (opts : list opt) (args : list string) : job_submit :=
  (machines_hosts (asked P opts)) <| js_command := Some (join_blanks args) |>.

Definition accepts (opts : list opt) (args : list string) : bool :=
  forallb (acceptable P dep_malloc) opts && consistent (asked P opts) && negb (length args =? 0)%nat.

Lemma prepare_asks opts args o c :
  steps_to (accepts opts args) (prepare P dep_malloc opts args o c) (request_of opts args) o c.
Proof using Type*.
  unfold prepare, accepts, consistent. pose proof (options_ask opts [] 0 o c) as Hl. change (asked P []) with js_zero in Hl. cbn [app] in Hl.
  destruct (forallb _ opts); cbn [andb steps_to] in Hl; [|by apply stops_bind].
  unfold runs at 1. rewrite Hl. cbn [res_bind]. unfold request_of, machines_hosts.
  assert (Hc : checked (asked P opts) o c = Ok (o, c, Go (machines_hosts (asked P opts))) /\
    isS (js_machines (asked P opts)) && (0 <? js_num_hosts (asked P opts)) = false \/
    stops (checked (asked P opts) o c) c /\ isS (js_machines (asked P opts)) && (0 <? js_num_hosts (asked P opts)) = true).
  { unfold checked, machines_hosts. destruct (js_machines (asked P opts)); [|by left]. cbn [isS andb].
    destruct (0 <? js_num_hosts (asked P opts)); [right; split; [apply die_stops|done]|by left]. }
  destruct Hc as [[Hc ->]|[Hc ->]]; cbn [negb andb]; [|by apply stops_bind]. fold (machines_hosts (asked P opts)).
  unfold runs at 1. rewrite Hc. cbn [res_bind]. set (js := machines_hosts (asked P opts)).
  assert (Hf : js_gpu_model js = js_gpu_model (asked P opts) /\ js_num_gpus js = js_num_gpus (asked P opts) /\
    js_begin_time js = js_begin_time (asked P opts) /\ js_term_time js = js_term_time (asked P opts))
    by (unfold js, machines_hosts; by destruct (js_machines (asked P opts))).
  destruct Hf as (<- & <- & <- & <-).
  unfold checked_gpus at 1. destruct (js_gpu_model js); cbn [isS andb]; [destruct (js_num_gpus js =? 0)|]; cbn [negb andb];
    [apply stops_bind, die_stops| |];
    (unfold runs at 1, go at 1; cbn [res_bind]; unfold checked_times at 1;
     destruct ((0 <? js_begin_time js) && (0 <? js_term_time js) && (js_term_time js <=? js_begin_time js)); cbn [negb andb];
     [apply stops_bind, die_stops|]; unfold runs at 1, go at 1; cbn [res_bind]; unfold build_command;
     destruct args as [|a args]; cbn [length Nat.eqb negb steps_to]; [do 2 eexists; split; [reflexivity|lia]|];
     rewrite Halloc; reflexivity).
Qed.
End loop.

(** ** Ranges *)

(** Allocations succeed, there is a local time, times are 64-bit numbers. *)
Record prog_ok (P : prog_env) : Prop := mk_prog_ok {
  po_alloc : forall i, pe_alloc P i = true;
  po_tm : is_Some (pe_localtime P (pe_time P));
  po_now : 0 <= pe_time P < 2 ^ 62;
  po_mktime : forall t, is_i64 (pe_mktime P t).2 = true
}.

Lemma i32_is z : is_i32 (i32 z) = true.
Proof. unfold i32, is_i32. pose proof (Z.mod_pos_bound (z + 2 ^ 31) (2 ^ 32)). lia. Qed.

Lemma parse_count_range least arg v : parse_count least arg = Some v -> is_i32 v = true.
Proof. unfold parse_count. destruct (strtol_end arg) as [u e]. destruct (_ || _); intros [= <-]. apply i32_is. Qed.

Lemma parse_mem_range arg v : parse_mem arg = Some v -> is_u64 v = true.
Proof.
  unfold parse_mem. destruct (scan_number arg) as [[n e]|]; [|done].
  assert (Hs : is_u64 (saturate_u64 n) = true) by (pose proof (saturate_u64_range n); unfold is_u64; lia).
  destruct e as [|ch e]; [by intros [= <-]|].
  destruct (Ascii.eqb ch "M"); [by intros [= <-]|]. destruct (Ascii.eqb ch "G"); [|done].
  intros [= <-]. pose proof (u64_range (saturate_u64 n * 1024)). unfold is_u64. lia.
Qed.

Lemma scan_d_range s v r : scan_d s = Some (v, r) -> is_i32 v = true.
Proof. unfold scan_d. destruct (scan_number s) as [[u e]|]; intros [= <- _]. apply i32_is. Qed.

Lemma parse_array_range arg a b d :
  llb_parse_array arg = Some (a, b, d) ->
  is_i32 a = true /\ is_i32 b = true /\ is_i32 d = true /\ 1 <= a <= b /\ 1 <= d.
Proof.
  unfold llb_parse_array. intros H. repeat (case_match; try discriminate); simplify_eq.
  all: repeat match goal with E : scan_d _ = Some _ |- _ => apply scan_d_range in E
       | E : _ ≫= scan_d = Some _ |- _ => apply bind_Some in E as (? & _ & E) end.
  all: repeat split; try assumption; try reflexivity; lia.
Qed.

Lemma after_now_range P nf t v : prog_ok P -> after_now P nf t = Some v -> is_i64 v = true.
Proof.
  intros [_ _ Hn Hm]. unfold after_now. specialize (Hm t) as Hv. destruct (pe_mktime P t) as [t' u]. cbn [snd] in Hv.
  unfold is_i64 in Hv |- *. repeat case_match; intros [= <-]; try apply Hm; lia.
Qed.

Lemma parse_time_range P arg t : prog_ok P -> parse_time_arg P arg = Ok (Some t) -> is_i64 t = true.
Proof.
  intros HP Ht. unfold parse_time_arg in Ht.
  destruct (64 <=? String.length arg)%nat; [discriminate|]. destruct (_ || _); [discriminate|].
  destruct (mapM time_field (split_colons arg)); [|discriminate].
  repeat (apply res_bind_Ok in Ht as (? & _ & Ht)). injection Ht as Ht. by eapply after_now_range.
Qed.

Lemma default_range {A} (f : string -> option A) (p : A -> bool) (o : option string) (d : A) :
  p d = true -> (forall s v, f s = Some v -> p v = true) -> p (default d (o ≫= f)) = true.
Proof. intros Hd Hf. destruct (o ≫= f) as [v|] eqn:E; [|done]. apply bind_Some in E as (s & _ & E). by eapply Hf. Qed.

Lemma time_given_range P d l : prog_ok P -> is_i64 (time_given P d l) = true.
Proof.
  intros HP. unfold time_given. destruct (last_arg d l) as [arg|]; [|done].
  destruct (parse_time_arg P arg) as [[t|]|] eqn:Ht; [|done..]. by eapply parse_time_range.
Qed.

(** Whatever the user writes, the numbers of the job are values of their C types. *)
Lemma request_in_range P opts args : prog_ok P -> submit_in_range (request_of P opts args) = true.
Proof.
  intros HP. unfold request_of, machines_hosts.
  assert (Ha : submit_in_range (asked P opts) = true).
  { unfold submit_in_range, asked. cbn [js_num_cpus js_num_hosts js_num_gpus js_mem_mb js_storage_mb js_flags js_begin_time js_term_time
      js_array_start js_array_end js_array_stride].
    rewrite !time_given_range, !(default_range _ is_i32), !(default_range _ is_u64) by
      (done || (intros; by eapply parse_count_range) || (intros; by eapply parse_mem_range)).
    assert (Hr : is_i32 (array_given opts).1.1 && is_i32 (array_given opts).1.2 && is_i32 (array_given opts).2 = true).
    { unfold array_given. apply (default_range llb_parse_array (fun r => is_i32 r.1.1 && is_i32 r.1.2 && is_i32 r.2)); [done|].
      intros s [[a b] d] (Ha & Hb & Hd & _)%parse_array_range. cbn [fst snd]. by rewrite Ha, Hb, Hd. }
    rewrite !andb_true_iff in Hr. destruct Hr as [[-> ->] ->]. unfold flags_given. by repeat case_match. }
  destruct (js_machines (asked P opts)); [|exact Ha]. unfold submit_in_range in *. rewrite !andb_true_iff in *. destruct_and!.
  repeat split; try assumption. apply i32_is.
Qed.

(** ** From the terminal to the job table *)

(** What bsub prints for the outcome of the call, and its status. *)
Definition bsub_says (P : prog_env) (js : job_submit) (r : outcome Z) : output * run unit :=
  match r with
  | Ret job_id =>
      (mk_output ("Job <" +:+ print_int job_id +:+ "> is submitted to queue <" +:+ default "default" (js_queue js) +:+ ">." +:+ endl)
         EmptyString, Exit 0)
  | Err errno =>
      let errno := default (pe_errno P) errno in
      (mk_output EmptyString ("Job not submitted" +:+ (if negb (errno =? 0) then ": " +:+ pe_strerror P errno else EmptyString) +:+ endl), Exit 1)
  | Blocked => (mk_output EmptyString EmptyString, Hang)
  end.

Section bsub.
Context `{XdrLib} `{!XdrLaws}.

Lemma bsub_calls HMAC P dm opts args c c' r :
  prog_ok P -> accepts P dm opts args = true ->
  llb_submit HMAC (pe_client P) (pe_submit P) (request_of P opts args) c = Ok (c', r) ->
  started (bsub_main HMAC P dm opts args) c =
  Ok ((bsub_says P (request_of P opts args) r).1, c', (bsub_says P (request_of P opts args) r).2).
Proof.
  intros [Ha Ht _ _] Hacc Hcall. unfold started, bsub_main.
  pose proof (prepare_asks P dm Ha Ht opts args (mk_output EmptyString EmptyString) c) as Hp. rewrite Hacc in Hp. cbn [steps_to] in Hp.
  unfold runs at 1. rewrite Hp. cbn [res_bind]. unfold runs at 1, call. rewrite Hcall. cbn [res_bind].
  destruct r as [job_id|errno|]; [reflexivity| |reflexivity]. unfold bsub_says. cbn [fst snd].
  destruct (negb (default (pe_errno P) errno =? 0)); reflexivity.
Qed.

End bsub.

(** ** A command line *)

(** A calendar whose months have thirty-one days. *)
Definition demo_mktime (t : tm) : tm * Z :=
  let v := ((((tm_year t * 12 + tm_mon t) * 31 + tm_mday t) * 24 + tm_hour t) * 60 + tm_min t) * 60 + tm_sec t in
  (t, if is_i64 v then v else -1).

Definition demo_prog : prog_env :=
  mk_prog_env demo_client_env demo_senv (fun _ => true) "bsub" 0 (fun _ => "error") (110 * 12 * 31 * 86400)
    (fun _ => Some (mk_tm 0 0 0 0 0 110 0)) demo_mktime (fun _ => "now") (fun _ => Some "alice") (fun _ => Some 1000).

Lemma demo_prog_ok : prog_ok demo_prog.
Proof.
  constructor; [done|by eexists|cbn; lia|]. intros t. cbn. unfold demo_mktime. cbn [snd].
  match goal with |- context [if ?b then _ else _] => destruct b eqn:E end; [exact E|done].
Qed.

Definition demo_opts : list opt :=
  [("J"%char, "test"); ("q"%char, "normal"); ("M"%char, "100M"); ("J"%char, "sim"); ("T"%char, "lic=1"); ("b"%char, "0:0")].
Definition demo_args : list string := ["sleep"; "60"].

Definition demo_bsub_registered : mbd :=
  or_else (route demo_env 9 (GoodMessage (me demo_client_env) (MSubmit (submitted_as demo_senv (request_of demo_prog demo_opts demo_args)))) demo3) demo0.

Lemma demo_bsub_routed :
  route demo_env 9 (GoodMessage (me demo_client_env) (MSubmit (submitted_as demo_senv (request_of demo_prog demo_opts demo_args)))) demo3 =
  Ok demo_bsub_registered.
Proof. vm_compute. reflexivity. Qed.

Lemma demo_bsub_answer : chan_msgs 9 demo3 demo_bsub_registered = [mk_msg 9 BATCH_JOB_SUBMIT_ACK MBD_OK (BodySubmit 102)].
Proof. vm_compute. reflexivity. Qed.


(** ** Arguments that are taken for something else *)

(** A count is cut to 32 bits after it was found to be positive. *)
Lemma count_cut : parse_count 1 "4294967296" = Some 0 /\ parse_count 1 "2147483649" = Some (-2147483647).
Proof. split; reflexivity. Qed.

(** A size may be negative, be followed by anything and wrap; without a letter it is in MB
    for [--storage] too. *)
Lemma sizes_taken :
  parse_mem "-1" = Some (2 ^ 64 - 1) /\ parse_mem "5Max" = Some 5 /\ parse_mem "18014398509481985G" = Some 1024 /\ parse_mem "10" = Some 10.
Proof. repeat split; reflexivity. Qed.

(** The quoting of the arguments is gone. *)
Lemma quoting_lost : join_blanks ["echo"; "a  b"] = join_blanks ["echo"; "a"; ""; "b"].
Proof. reflexivity. Qed.
