(* ===== verification/Bjobs.v ===== *)
(** * bjobs (src/batch/cmd/bjobs.c) *)

From S2P Require Import Prelude CString LlConf JobScript LlHash Dependency LogFormat MbdTypes MbdBase MbdJob MbdSched.
From S2P Require Import Conf SbdTypes Wire WireXdr Auth Channel MbdInfo Client Command.
From S2P Require Import MbdNet.
From S2P Require Import MbdInv MbdDemo WireProps MbdInfo Arrival MbdReply.
From S2P Require Import ClientProps Bsub.

Open Scope string_scope.
Open Scope list_scope.
Open Scope Z_scope.

Definition LLB_JOB_SUSP : Z := 4.
Definition LLB_JOB_HELD : Z := 16.

Definition uid_to_name (P : prog_env) (uid : Z) : string := default "unknown" (pe_getpwuid P uid).

Definition fmt_time (P : prog_env) (t : Z) : string := if t =? 0 then "-" else pe_strftime P t.

Record col_widths : Type := mk_col_widths {
  cw_jobid : Z;
  cw_user : Z;
  cw_stat : Z;
  cw_queue : Z;
  cw_priority : Z;
  cw_run_hosts : Z;
  cw_name : Z
}.

Definition jobid_of (j : job_info) : string := fmt_jobid (ji_job_id j) (ji_array_id j) (ji_array_index j).

(** The columns of the header, widened by one job after the other. *)
Definition widen (P : prog_env) (w : col_widths) (j : job_info) : res col_widths :=
  let* queue := deref (ji_queue j) in
  let* name := deref (ji_name j) in
  Ok (mk_col_widths (imax (cw_jobid w) (strlen (jobid_of j))) (imax (cw_user w) (strlen (uid_to_name P (ji_uid j))))
        (imax (cw_stat w) (strlen (llb_job_state_str (ji_state j)))) (imax (cw_queue w) (strlen queue))
        (imax (cw_priority w) (ndigits (ji_priority j))) (imax (cw_run_hosts w) (run_hosts_width (ji_run_hosts j)))
        (imax (cw_name w) (strlen name))).

Fixpoint widen_all (P : prog_env) (w : col_widths) (l : list job_info) : res col_widths :=
  match l with
  | [] => Ok w
  | j :: l => let* w := widen P w j in widen_all P w l
  end.

Definition compute_widths (P : prog_env) (jobs : list job_info) : res col_widths :=
  widen_all P (mk_col_widths (strlen "JOBID") (strlen "USER") (strlen "STAT") (strlen "QUEUE") (strlen "PRI")
                 (strlen "RUN_HOSTS") (strlen "JOB_NAME")) jobs.

(** The eight columns of a line. *)
Definition row (w : col_widths) (jobid user stat queue pri hosts name time : string) : string :=
  line [pad_right (cw_jobid w) jobid; pad_right (cw_user w) user; pad_right (cw_stat w) stat; pad_right (cw_queue w) queue;
        pad_right (cw_priority w) pri; pad_right (cw_run_hosts w) hosts; pad_right (cw_name w) name; time].

Definition print_header (w : col_widths) : string :=
  row w "JOBID" "USER" "STAT" "QUEUE" "PRI" "RUN_HOSTS" "JOB_NAME" "SUBMIT_TIME".

Definition pend_reasons : list pend_reason :=
  [PEND_NONE; PEND_JOB_NOT_READY; PEND_QUEUE_CLOSED; PEND_TOKENS; PEND_NO_HOSTS; PEND_NOT_ENOUGH_CPUS; PEND_NOT_ENOUGH_MEM;
   PEND_NOT_ENOUGH_STORAGE; PEND_NOT_ENOUGH_GPUS; PEND_GPU_MODEL; PEND_HOST_EXCLUSIVE; PEND_HOST_OVERFLOW; PEND_DEPEND].

(** The table of messages is indexed with what mbd sends. *)
Definition print_pend_reason (j : job_info) : res string :=
  if negb (ji_state j =? 1) then Ok EmptyString
  else if ji_pend_reason j <? 0 then Crash BadIndex
  else let* r := nth_res pend_reasons (Z.to_nat (ji_pend_reason j)) in
       Ok ("  PEND: " +:+ pend_reason_msg r +:+ endl).

(** A line for the job with the first host, and one for each other host. *)
Definition job_line (P : prog_env) (w : col_widths) (j : job_info) (host : string) : res string :=
  let* queue := deref (ji_queue j) in
  let* name := deref (ji_name j) in
  Ok (row w (jobid_of j) (uid_to_name P (ji_uid j)) (llb_job_state_str (ji_state j)) queue (print_int (ji_priority j)) host name
        (fmt_time P (ji_submit_time j))).

Definition host_line (w : col_widths) (host : string) : string :=
  line [pad_right (cw_jobid w) ""; pad_right (cw_user w) ""; pad_right (cw_stat w) ""; pad_right (cw_queue w) "";
        pad_right (cw_priority w) ""; pad_right (cw_run_hosts w) host].

Definition print_job (P : prog_env) (w : col_widths) (show_reason : bool) (j : job_info) : res string :=
  let* text :=
    match ji_run_hosts j with
    | None | Some EmptyString => job_line P w j "-"
    | Some s =>
        match host_tokens s with
        | [] => Ok EmptyString
        | h :: hs => let* l := job_line P w j h in Ok (l +:+ String.concat EmptyString (map (host_line w) hs))
        end
    end in
  let* reason := if show_reason then print_pend_reason j else Ok EmptyString in
  Ok (text +:+ reason).

Definition usage : string :=
"Usage: bjobs [options] [job_id]

Display jobs. Without options, shows active jobs for the current user.

Options:
  --all          Show active jobs for all users (admin only)
  --pend         Show pending jobs with pending reason
  --run          Show running jobs only
  --done         Show finished jobs (DONE and EXIT)
  --help         Display this help and exit
  --version      Output version information and exit

Arguments:
  job_id         Show a specific job; mutually exclusive with filter options
".

(** The flags, whether reasons are shown, and the user. *)
Definition option_step (P : prog_env) (i : nat) (o : opt) (s : Z * bool * Z) : pM (Z * bool * Z) :=
  let '(c, arg) := o in
  let '(flags, show_reason, uid) := s in
  let given d := Ascii.eqb c d in
  if given "v"%char then die (LAVALITE_VERSION_STR +:+ endl) 0
  else if given "h"%char then die usage 0
  else if given "a"%char then
    go (Z.lor flags (Z.lor (Z.lor (Z.lor (Z.lor LLB_JOB_PEND LLB_JOB_RUN) LLB_JOB_SUSP) LLB_JOB_DONE) LLB_JOB_HELD), show_reason, uid)
  else if given "p"%char then go (Z.lor flags LLB_JOB_PEND, true, uid)
  else if given "r"%char then go (Z.lor flags LLB_JOB_RUN, show_reason, uid)
  else if given "d"%char then go (Z.lor flags LLB_JOB_DONE, show_reason, uid)
  else if given "u"%char then
    match pe_getpwnam P arg with
    | None => die ("bjobs: unknown user '" +:+ arg +:+ "'" +:+ endl) 1
    | Some uid => go (flags, show_reason, uid)
    end
  else die usage 1.

(** The job of the first argument that is no option; the others are ignored. *)
Definition job_asked (flags uid : Z) (args : list string) : pM job_info_req :=
  match args with
  | [] => go (mk_job_info_req (-1) 0 0 uid flags)
  | arg :: _ =>
      if negb (flags =? 0) then die ("bjobs: job_id is mutually exclusive with filter options" +:+ endl) 1
      else match parse_job_ref (-1) arg with
           | None => die ("bjobs: invalid job reference '" +:+ arg +:+ "'" +:+ endl) 1
           | Some (job_id, array_id, array_index) => go (mk_job_info_req job_id array_id array_index uid flags)
           end
  end.

Fixpoint print_jobs (P : prog_env) (w : col_widths) (show_reason : bool) (l : list job_info) : pM unit :=
  match l with
  | [] => go tt
  | j :: l => run! text := must (print_job P w show_reason j) in run! _ := puts text in print_jobs P w show_reason l
  end.

(** The query of the command line, and whether reasons are shown. *)
Definition bjobs_query (P : prog_env) (opts : list opt) (args : list string) : pM (job_info_req * bool) :=
  run! s := options (option_step P) 0 opts (0, false, ce_getuid (pe_client P)) in
  let '(flags, show_reason, uid) := s in
  run! req := job_asked flags uid args in
  go (req, show_reason).

Definition bjobs_main `{XdrLib} (HMAC : list Z -> list Z -> option (list Z)) (P : prog_env) (opts : list opt) (args : list string)
    : pM unit :=
  run! q := bjobs_query P opts args in
  let (req, show_reason) := q in
  run! r := call P (llb_job_info HMAC (pe_client P) req) in
  match r with
  | inl [] => run! _ := puts ("No jobs found." +:+ endl) in exit_with 0
  | inr errno =>
      if negb (errno =? 0) then die ("bjobs: " +:+ pe_strerror P errno +:+ endl) 1
      else run! _ := puts ("No jobs found." +:+ endl) in exit_with 0
  | inl jobs =>
      run! w := must (compute_widths P jobs) in
      run! _ := puts (print_header w) in
      run! _ := print_jobs P w show_reason jobs in
      exit_with 0
  end.

(** * What bjobs shows *)

(** ** The table *)

(** The cells of a job fit their columns; a priority below zero may not. *)
Record cells_fit (P : prog_env) (w : col_widths) (j : job_info) : Prop := mk_cells_fit {
  cf_jobid : strlen (jobid_of j) <= cw_jobid w;
  cf_user : strlen (uid_to_name P (ji_uid j)) <= cw_user w;
  cf_stat : strlen (llb_job_state_str (ji_state j)) <= cw_stat w;
  cf_queue : forall q, ji_queue j = Some q -> strlen q <= cw_queue w;
  cf_priority : 0 <= ji_priority j < 2 ^ 31 -> strlen (print_int (ji_priority j)) <= cw_priority w;
  cf_hosts : forall s h, ji_run_hosts j = Some s -> h ∈ host_tokens s -> strlen h <= cw_run_hosts w;
  cf_name : forall n, ji_name j = Some n -> strlen n <= cw_name w
}.

(** Columns only grow. *)
Definition wider (a b : col_widths) : Prop :=
  cw_jobid a <= cw_jobid b /\ cw_user a <= cw_user b /\ cw_stat a <= cw_stat b /\ cw_queue a <= cw_queue b /\
  cw_priority a <= cw_priority b /\ cw_run_hosts a <= cw_run_hosts b /\ cw_name a <= cw_name b.

Lemma wider_trans a b c : wider a b -> wider b c -> wider a c.
Proof. unfold wider. intros. lia. Qed.

Lemma cells_fit_wider P a b j : wider a b -> cells_fit P a j -> cells_fit P b j.
Proof.
  intros (H1 & H2 & H3 & H4 & H5 & H6 & H7) [? ? ? Hq Hp Hh Hn]. constructor; try lia; intros.
  - etrans; [by apply Hq|done].
  - etrans; [by eapply Hh|done].
  - etrans; [by apply Hn|done].
Qed.

Lemma widen_fits P w j w' : widen P w j = Ok w' -> wider w w' /\ cells_fit P w' j.
Proof.
  unfold widen. intros (q & Hq & (n & Hn & [= <-])%res_bind_Ok)%res_bind_Ok.
  destruct (ji_queue j) as [q'|] eqn:Eq; [|done]. destruct (ji_name j) as [n'|] eqn:En; [|done].
  injection Hq as ->. injection Hn as ->. split; [unfold wider; cbn; repeat split; apply imax_l|].
  constructor; cbn; try apply imax_r.
  - intros q0 Hq0. rewrite Eq in Hq0. injection Hq0 as <-. apply imax_r.
  - intros Hp. rewrite ndigits_width by lia. apply imax_r.
  - intros s h Hs Hh. rewrite Hs. etrans; [by apply run_hosts_fit|apply imax_r].
  - intros n0 Hn0. rewrite En in Hn0. injection Hn0 as <-. apply imax_r.
Qed.

Lemma widths_fit P l : forall w0 w, widen_all P w0 l = Ok w -> wider w0 w /\ Forall (cells_fit P w) l.
Proof.
  induction l as [|j l IH]; intros w0 w; cbn [widen_all].
  - intros [= <-]. split; [unfold wider; lia|constructor].
  - intros (w1 & [Hw Hj]%widen_fits & [Hw1 Hl]%IH)%res_bind_Ok. split; [by eapply wider_trans|].
    constructor; [by eapply cells_fit_wider|done].
Qed.

(** The texts the table needs are there. *)
Definition named (j : job_info) : Prop := is_Some (ji_queue j) /\ is_Some (ji_name j).

Lemma widths_total P l : Forall named l -> forall w0, exists w, widen_all P w0 l = Ok w.
Proof.
  induction 1 as [|j l [[q Hq] [n Hn]] Hl IH]; intros w0; cbn [widen_all]; [by eexists|].
  unfold widen. rewrite Hq, Hn. cbn [deref res_bind]. apply IH.
Qed.

(** ** The command line *)

Lemma land_range f : Z.land f 31 = f -> is_i32 f = true.
Proof.
  intros <-. change 31 with (Z.ones 5). rewrite Z.land_ones by lia. pose proof (Z.mod_pos_bound f (2 ^ 5)).
  unfold is_i32. lia.
Qed.

Lemma lor_range f k : Z.land f 31 = f -> Z.land k 31 = k -> Z.land (Z.lor f k) 31 = Z.lor f k.
Proof. intros Hf Hk. by rewrite Z.land_lor_distr_l, Hf, Hk. Qed.

(** The users are known by 31-bit numbers. *)
Definition uids_ok (P : prog_env) : Prop :=
  is_i32 (ce_getuid (pe_client P)) = true /\ forall n u, pe_getpwnam P n = Some u -> is_i32 u = true.

Lemma option_step_query P i x flags show uid o c :
  uids_ok P -> Z.land flags 31 = flags -> is_i32 uid = true ->
  (exists flags' show' uid', option_step P i x (flags, show, uid) o c = Ok (o, c, Go (flags', show', uid')) /\
     Z.land flags' 31 = flags' /\ is_i32 uid' = true) \/
  stops (option_step P i x (flags, show, uid) o c) c.
Proof.
  intros [_ Hu] Hf Hi. destruct x as [d arg]. unfold option_step.
  repeat match goal with |- context [Ascii.eqb d ?k] => destruct (Ascii.eqb d k) end.
  all: try (right; do 2 eexists; split; [reflexivity|lia]).
  all: try (left; do 3 eexists; split; [reflexivity|split; [by apply lor_range|done]]).
  destruct (pe_getpwnam P arg) as [u|] eqn:Hp; [left|right; apply die_stops].
  do 3 eexists. split; [reflexivity|]. split; [done|by eapply Hu].
Qed.

Lemma options_query P l : forall i flags show uid o c,
  uids_ok P -> Z.land flags 31 = flags -> is_i32 uid = true ->
  (exists flags' show' uid', options (option_step P) i l (flags, show, uid) o c = Ok (o, c, Go (flags', show', uid')) /\
     Z.land flags' 31 = flags' /\ is_i32 uid' = true) \/
  stops (options (option_step P) i l (flags, show, uid) o c) c.
Proof.
  induction l as [|x l IH]; intros i flags show uid o c Hu Hf Hi; cbn [options]; [left; by do 3 eexists|].
  destruct (option_step_query P i x flags show uid o c Hu Hf Hi) as [(f' & s' & u' & Hx & Hf' & Hi')|Hx]; [|right; by apply stops_bind].
  rewrite (go_runs _ _ _ _ _ _ _ Hx). by apply IH.
Qed.

Lemma parse_ref_range none s a b k :
  is_i64 none = true -> parse_job_ref none s = Some (a, b, k) -> is_i64 a = true /\ is_i64 b = true /\ is_i32 k = true.
Proof.
  intros Hn. unfold parse_job_ref, strtol_checked. intros H. repeat (case_match; try discriminate); simplify_eq/=;
    repeat match goal with E : _ || _ = false |- _ => apply orb_false_iff in E as [? ?] end;
    rewrite ?negb_false_iff in *; done.
Qed.

(** The command line ends the program, or is a query in the ranges of the wire. *)
Lemma query_total P opts args o c :
  uids_ok P ->
  (exists req show, bjobs_query P opts args o c = Ok (o, c, Go (req, show)) /\ req_in_range req = true) \/
  stops (bjobs_query P opts args o c) c.
Proof.
  intros Hu. unfold bjobs_query.
  destruct (options_query P opts 0 0 false (ce_getuid (pe_client P)) o c Hu eq_refl (proj1 Hu)) as [(f & s & u & Hx & Hf & Hi)|Hx];
    [|right; by apply stops_bind].
  rewrite (go_runs _ _ _ _ _ _ _ Hx). apply land_range in Hf as Hf'. unfold job_asked. destruct args as [|arg args].
  - left. do 2 eexists. split; [reflexivity|]. unfold req_in_range. cbn [jr_job_id jr_array_id jr_array_index jr_flags jr_uid].
    by rewrite Hf', Hi.
  - destruct (negb (f =? 0)); [right; apply stops_bind, die_stops|].
    destruct (parse_job_ref (-1) arg) as [[[a b] k]|] eqn:Hp; [|right; apply stops_bind, die_stops].
    apply parse_ref_range in Hp as (Ha & Hb & Hk); [|done].
    left. do 2 eexists. split; [reflexivity|]. unfold req_in_range. cbn [jr_job_id jr_array_id jr_array_index jr_flags jr_uid].
    by rewrite Ha, Hb, Hk, Hf', Hi.
Qed.

(** ** What is printed *)

Lemma concat_cons t ts : String.concat EmptyString (t :: ts) = t +:+ String.concat EmptyString ts.
Proof. destruct ts; cbn [String.concat]; [by rewrite string_app_nil_r|reflexivity]. Qed.

(** A record that can be printed. *)
Definition printable (j : job_info) : Prop := named j /\ 0 <= ji_pend_reason j < Z.of_nat (length pend_reasons).

Lemma reason_range r : 0 <= pend_reason_num r < Z.of_nat (length pend_reasons).
Proof. by destruct r. Qed.

Lemma print_job_total P w show j : printable j -> exists t, print_job P w show j = Ok t.
Proof.
  intros [[[q Hq] [n Hn]] Hr]. unfold print_job, job_line. rewrite Hq, Hn. cbn [deref res_bind].
  assert (Hp : exists t, (if show then print_pend_reason j else Ok EmptyString) = Ok t).
  { destruct show; [|by eexists]. unfold print_pend_reason. destruct (negb _); [by eexists|].
    rewrite (proj2 (Z.ltb_ge _ _)) by lia. unfold nth_res.
    destruct (lookup_lt_is_Some_2 pend_reasons (Z.to_nat (ji_pend_reason j))) as [r ->]; [lia|]. by eexists. }
  destruct Hp as [t ->]. destruct (ji_run_hosts j) as [[|a s]|]; try by eexists.
  destruct (host_tokens (String a s)); by eexists.
Qed.

Lemma print_jobs_total P w show rs : forall out err c, Forall printable rs ->
  exists texts, print_jobs P w show rs (mk_output out err) c =
    Ok (mk_output (out +:+ String.concat EmptyString texts) err, c, Go tt) /\
    Forall2 (fun j t => print_job P w show j = Ok t) rs texts.
Proof.
  induction rs as [|j rs IH]; intros out err c Hp; cbn [print_jobs].
  - exists []. cbn [String.concat]. rewrite string_app_nil_r. by split; [|constructor].
  - apply Forall_cons in Hp as [Hj Hp]. destruct (print_job_total P w show j Hj) as [t Ht].
    rewrite (must_step _ _ _ _ _ Ht). unfold puts, runs at 1. cbn [res_bind o_stdout o_stderr].
    destruct (IH (out +:+ t) err c Hp) as (texts & -> & HF). exists (t :: texts).
    rewrite concat_cons, string_app_assoc. by split; [|constructor].
Qed.

(** The terminal after a call with this outcome. *)
Definition shows (P : prog_env) (show : bool) (r : outcome (list job_info)) (o : output) (code : run unit) : Prop :=
  match r with
  | Ret [] => o = mk_output ("No jobs found." +:+ endl) EmptyString /\ code = Exit 0
  | Ret rs => exists w texts, o = mk_output (print_header w +:+ String.concat EmptyString texts) EmptyString /\ code = Exit 0 /\
      Forall2 (fun j t => print_job P w show j = Ok t) rs texts /\ Forall (cells_fit P w) rs
  | Err errno =>
      let errno := default (pe_errno P) errno in
      if errno =? 0 then o = mk_output ("No jobs found." +:+ endl) EmptyString /\ code = Exit 0
      else o = mk_output EmptyString ("bjobs: " +:+ pe_strerror P errno +:+ endl) /\ code = Exit 1
  | Blocked => False
  end.

Section bjobs.
Context `{XdrLib} `{!XdrLaws}.

Lemma bjobs_prints HMAC P opts args c req show c' r :
  started (bjobs_query P opts args) c = Ok (mk_output EmptyString EmptyString, c, Go (req, show)) ->
  llb_job_info HMAC (pe_client P) req c = Ok (c', r) ->
  match r with Ret rs => Forall printable rs | Err _ => True | Blocked => False end ->
  exists o code, started (bjobs_main HMAC P opts args) c = Ok (o, c', code) /\ shows P show r o code.
Proof.
  intros Hq Hc Hr. unfold started, bjobs_main in *. rewrite (go_runs _ _ _ _ _ _ _ Hq). unfold runs at 1, call. rewrite Hc. cbn [res_bind].
  destruct r as [rs|errno|]; [| |done].
  - destruct rs as [|j rs]; [do 2 eexists; split; [reflexivity|done]|].
    destruct (widths_total P (j :: rs)) with (w0 := mk_col_widths (strlen "JOBID") (strlen "USER") (strlen "STAT") (strlen "QUEUE") (strlen "PRI")
                 (strlen "RUN_HOSTS") (strlen "JOB_NAME")) as [w Hw]; [by eapply Forall_impl; [exact Hr|intros ? []]|].
    pose proof (widths_fit _ _ _ _ Hw) as [_ Hfit]. unfold compute_widths. rewrite (must_step _ _ _ _ _ Hw).
    unfold puts at 1, runs at 1. cbn [res_bind o_stdout o_stderr].
    destruct (print_jobs_total P w show (j :: rs) (EmptyString +:+ print_header w) EmptyString c' Hr) as (texts & Hp & HF).
    rewrite (go_runs _ _ _ _ _ _ _ Hp). do 2 eexists. split; [reflexivity|]. exists w, texts. by cbn [String.append].
  - unfold shows. destruct (default (pe_errno P) errno =? 0); (do 2 eexists; split; [reflexivity|done]).
Qed.
End bjobs.

Section shown.
Context `{XdrLib} `{!XdrLaws}.

End shown.

Lemma demo_uids : uids_ok demo_prog.
Proof. split; [done|]. by intros n u [= <-]. Qed.


(** A failed call that leaves no errno is shown as an empty table. *)
Lemma failure_as_no_jobs P show r o code :
  pe_errno P = 0 -> r = Err None -> shows P show r o code -> o_stdout o = "No jobs found." +:+ endl /\ code = Exit 0.
Proof. intros He -> Hs. unfold shows in Hs. cbn [default id] in Hs. rewrite He in Hs. destruct Hs as [-> ->]. done. Qed.

(** The user of [--user] travels with the query and changes nothing in the answer. *)
Lemma user_ignored w u job_id array_id array_index flags uid uid' r :
  bjobs_answer w u (mk_job_info_req job_id array_id array_index uid flags) r <->
  bjobs_answer w u (mk_job_info_req job_id array_id array_index uid' flags) r.
Proof. reflexivity. Qed.
