(* ===== verification/Bkill.v ===== *)
(** * bkill, bmove and bpriority (src/batch/cmd) *)

From S2P Require Import Prelude CString LlConf JobScript LlHash Dependency LogFormat MbdTypes MbdBase MbdJob MbdSched.
From S2P Require Import Conf SbdTypes Wire WireXdr Auth Channel MbdInfo Client Command.

Open Scope string_scope.
Open Scope list_scope.
Open Scope Z_scope.

(** ** bkill.c *)

Definition NSIG : Z := 65.
Definition SIGHUP : Z := 1.

Definition signal_names : list (string * Z) :=
  [("kill", SIGKILL); ("term", SIGTERM); ("terminate", SIGTERM); ("stop", SIGSTOP); ("cont", SIGCONT); ("continue", SIGCONT);
   ("int", SIGINT); ("hup", SIGHUP); ("tstp", SIGTSTP)].

(** A number that is a signal, or the number of a name in any case. *)
Definition parse_signal (s : string) : option Z :=
  match s with
  | EmptyString => None
  | String c _ =>
      if isdigit c then
        match strtol_checked s with
        | None => None
        | Some (v, e) =>
            if String.eqb e s || negb (String.eqb e EmptyString) then None
            else if (v <=? 0) || (NSIG <=? v) then None else Some v
        end
      else snd <$> List.find (fun p => strcaseeq s p.1) signal_names
  end.

(** A job, or an element of an array; the index is cut to 32 bits. *)
Definition parse_jobid (s : string) : option (Z * Z) :=
  match strtol_checked s with
  | None => None
  | Some (id, e) =>
      if String.eqb e s then None
      else match e with
           | EmptyString => Some (id, 0)
           | String c p =>
               if negb (Ascii.eqb c "[") then None
               else match strtol_checked p with
                    | None => None
                    | Some (idx, idx_end) =>
                        if String.eqb idx_end p then None
                        else if negb (String.eqb idx_end "]") then None
                        else if idx <=? 0 then None else Some (id, i32 idx)
                    end
           end
  end.

Definition kill_usage : string :=
"bkill: -s SIGNAL jobid|jobid[idx] [...]
 --signal SIGNAL jobid|jobid[idx] [...]
SIGNAL: kill | term | stop | tstp | cont | int | hup | <number>
".

Definition kill_option (P : prog_env) (i : nat) (o : opt) (sig : Z) : pM Z :=
  let (c, arg) := o in
  if Ascii.eqb c "s" then
    match parse_signal arg with
    | Some sig => go sig
    | None => run! _ := eputs (pe_argv0 P +:+ ": invalid signal '" +:+ arg +:+ "'" +:+ endl) in die kill_usage (-1)
    end
  else if Ascii.eqb c "v" then die (LAVALITE_VERSION_STR +:+ endl) 0
  else die kill_usage (-1).

(** Every argument is looked at before the first signal. *)
Fixpoint validate (args : list string) : pM unit :=
  match args with
  | [] => go tt
  | a :: args =>
      match parse_jobid a with
      | None => die ("bkill: invalid jobid '" +:+ a +:+ "'" +:+ endl) (-1)
      | Some _ => validate args
      end
  end.

Definition signaled_line (jobid index : Z) : string :=
  (if jobid =? 0 then "All your jobs are being signaled"
   else if negb (index =? 0) then "Job <" +:+ print_int jobid +:+ "[" +:+ print_int index +:+ "]> is being signaled"
   else "Job <" +:+ print_int jobid +:+ "> is being signaled") +:+ endl.

Section kill.
Context `{XdrLib} (HMAC : list Z -> list Z -> option (list Z)) (P : prog_env).

(** Whether some signal was sent. *)
Fixpoint signal_all (sig : Z) (signaled : bool) (args : list string) : pM bool :=
  match args with
  | [] => go signaled
  | a :: args =>
      match parse_jobid a with
      | None => die ("bkill: invalid jobid '" +:+ a +:+ "'" +:+ endl) (-1)
      | Some (jobid, index) =>
          run! r := call P (llb_signal_job HMAC (pe_client P) jobid index sig) in
          match r with
          | inr errno =>
              run! _ := eputs ("bkill: failed to signal job <" +:+ a +:+ ">: " +:+ pe_strerror P errno +:+ endl) in
              signal_all sig signaled args
          | inl _ => run! _ := puts (signaled_line jobid index) in signal_all sig true args
          end
      end
  end.

Definition bkill_main (opts : list opt) (args : list string) : pM unit :=
  run! sig := options (kill_option P) 0 opts SIGTERM in
  if sig <? 0 then die kill_usage (-1)
  else match args with
       | [] => die kill_usage (-1)
       | _ =>
           run! _ := validate args in
           run! signaled := signal_all sig false args in
           exit_with (if signaled : bool then 0 else -1)
       end.

(** ** bmove.c *)

(** The id of the first argument. *)
Definition positive_id (who : string) (args : list string) (usage : string) : pM Z :=
  match args with
  | [] => run! _ := eputs (who +:+ ": job_id is required" +:+ endl) in die usage 1
  | a :: _ =>
      let (v, e) := strtol_end a in
      if String.eqb e a || negb (String.eqb e EmptyString) || (v <=? 0) then
        die (who +:+ ": invalid job_id '" +:+ a +:+ "'" +:+ endl) 1
      else go v
  end.

Definition move_usage : string :=
"Usage: bmove --to <queue> <job_id>

Move a pending or held job to a different queue.

Options:
  --to queue     Destination queue
  -h, --help     Display this help and exit
  -v, --version  Output version information and exit
".

Definition move_option (i : nat) (o : opt) (to_queue : option string) : pM (option string) :=
  let (c, arg) := o in
  if Ascii.eqb c "t" then go (Some arg)
  else if Ascii.eqb c "h" then run! _ := puts move_usage in exit_with 0
  else if Ascii.eqb c "v" then run! _ := puts (LAVALITE_VERSION_STR +:+ endl) in exit_with 0
  else die move_usage 1.

Definition bmove_main (opts : list opt) (args : list string) : pM unit :=
  run! to_queue := options move_option 0 opts None in
  match to_queue with
  | None => run! _ := eputs ("bmove: --to queue is required" +:+ endl) in die move_usage 1
  | Some to_queue =>
      run! job_id := positive_id "bmove" args move_usage in
      run! r := call P (llb_move_job HMAC (pe_client P) job_id to_queue) in
      match r with
      | inr errno => die ("bmove: job <" +:+ print_int job_id +:+ "> move failed: " +:+ pe_strerror P errno +:+ endl) 1
      | inl _ =>
          run! _ := puts ("Job <" +:+ print_int job_id +:+ "> moved to queue <" +:+ to_queue +:+ ">." +:+ endl) in exit_with 0
      end
  end.

(** ** bpriority.c *)

Definition priority_usage : string :=
"Usage: bpriority --priority N job_id

Change the priority of a pending or held job.
Priority cannot exceed the queue priority unless admin.

Options:
  -p, --priority N   New priority value
  -h, --help         Display this help and exit
  -v, --version      Output version information and exit
".

Definition priority_option (i : nat) (o : opt) (priority : option Z) : pM (option Z) :=
  let (c, arg) := o in
  if Ascii.eqb c "p" then
    let (v, e) := strtol_end arg in
    if negb (String.eqb e EmptyString) || (v <? 0) then die ("bpriority: invalid priority '" +:+ arg +:+ "'" +:+ endl) 1
    else go (Some (i32 v))
  else if Ascii.eqb c "h" then run! _ := puts priority_usage in exit_with 0
  else if Ascii.eqb c "v" then run! _ := puts (LAVALITE_VERSION_STR +:+ endl) in exit_with 0
  else die priority_usage 1.

Definition bpriority_main (opts : list opt) (args : list string) : pM unit :=
  run! priority := options priority_option 0 opts None in
  match priority with
  | None => run! _ := eputs ("bpriority: --priority is required" +:+ endl) in die priority_usage 1
  | Some priority =>
      run! job_id := positive_id "bpriority" args priority_usage in
      run! r := call P (llb_priority_job HMAC (pe_client P) job_id priority) in
      match r with
      | inr errno =>
          die ("bpriority: job <" +:+ print_int job_id +:+ "> priority change failed: " +:+ pe_strerror P errno +:+ endl) 1
      | inl _ =>
          run! _ := puts ("Job <" +:+ print_int job_id +:+ "> priority set to " +:+ print_int priority +:+ "." +:+ endl) in exit_with 0
      end
  end.
End kill.
