(* ===== verification/Bhosts.v ===== *)
(** * bhosts and bqueues (src/batch/cmd) *)

From S2P Require Import Prelude CString LlConf JobScript LlHash Dependency LogFormat MbdTypes MbdBase MbdJob MbdSched.
From S2P Require Import Conf SbdTypes Wire WireXdr Auth Channel MbdInfo Client Command.

Open Scope string_scope.
Open Scope list_scope.
Open Scope Z_scope.

(** ** Opening and closing *)

(** [--close] and [--open]: the last name given to each; [--close] comes first. *)
Record admin_opts : Type := mk_admin_opts {
  ao_close : option string;
  ao_open : option string;
  ao_long : bool
}.

Definition admin_option (usage : string) (long : bool) (i : nat) (o : opt) (a : admin_opts) : pM admin_opts :=
  let (c, arg) := o in
  if Ascii.eqb c "c" then go (mk_admin_opts (Some arg) (ao_open a) (ao_long a))
  else if Ascii.eqb c "o" then go (mk_admin_opts (ao_close a) (Some arg) (ao_long a))
  else if Ascii.eqb c "v" then die (LAVALITE_VERSION_STR +:+ endl) 0
  else if long && Ascii.eqb c "l" then go (mk_admin_opts (ao_close a) (ao_open a) true)
  else die usage 0.

(** The request and what is said about it; the status is that of the call. *)
Definition admin (P : prog_env) (who what verb name : string) (m : cM unit) : pM unit :=
  run! r := call P m in
  match r with
  | inr errno => die (who +:+ ": " +:+ name +:+ ": " +:+ pe_strerror P errno +:+ endl) (-1)
  | inl _ => run! _ := puts (what +:+ " " +:+ name +:+ " " +:+ verb +:+ endl) in exit_with 0
  end.

(** ** bhosts.c *)

Definition host_state_str (status : Z) : string :=
  let s := Z.ldiff status HOST_CLOSED in
  let state := if s =? HOST_OK then "ok" else if s =? HOST_UNAVAIL then "unavail" else "unknown" in
  strbuf 32 (if negb (Z.land status HOST_CLOSED =? 0) then state +:+ "|closed" else state).

Definition fmt_mem (mb : Z) : string := strbuf 32 (print_int mb).
Definition fmt_stor (mb : Z) : string := strbuf 32 (print_int (mb / 1024)).

Definition used_mem (h : host_info) : Z := u64 (hoi_total_mem_mb h - hoi_free_mem_mb h).
Definition used_stor (h : host_info) : Z := u64 (hoi_total_storage_mb h - hoi_free_storage_mb h).
Definition used_cpu (h : host_info) : Z := i32 (hoi_total_cpu h - hoi_free_cpu h).
Definition used_gpu (h : host_info) : Z := i32 (hoi_total_gpu h - hoi_free_gpu h).

Record host_widths : Type := mk_host_widths {
  hw_name : Z;
  hw_state : Z;
  hw_total_cpu : Z;
  hw_used_cpu : Z;
  hw_mem : Z;
  hw_used_mem : Z;
  hw_storage : Z;
  hw_used_storage : Z;
  hw_total_gpu : Z;
  hw_used_gpu : Z;
  hw_njobs : Z;
  hw_run : Z;
  hw_susp : Z;
  hw_gpu_model : Z;
  hw_gpu_ids : Z
}.

Definition widen_host (w : host_widths) (h : host_info) : res host_widths :=
  let* name := deref (hoi_name h) in
  Ok (mk_host_widths (imax (hw_name w) (strlen name)) (imax (hw_state w) (strlen (host_state_str (hoi_state h))))
        (imax (hw_total_cpu w) (ndigits (hoi_total_cpu h))) (imax (hw_used_cpu w) (ndigits (used_cpu h)))
        (imax (hw_mem w) (strlen (fmt_mem (hoi_total_mem_mb h)))) (imax (hw_used_mem w) (strlen (fmt_mem (used_mem h))))
        (imax (hw_storage w) (strlen (fmt_stor (hoi_total_storage_mb h)))) (imax (hw_used_storage w) (strlen (fmt_stor (used_stor h))))
        (imax (hw_total_gpu w) (ndigits (hoi_total_gpu h))) (imax (hw_used_gpu w) (ndigits (used_gpu h)))
        (imax (hw_njobs w) (ndigits (hoi_num_jobs h))) (imax (hw_run w) (ndigits (hoi_num_run h)))
        (imax (hw_susp w) (ndigits (hoi_num_susp h)))
        (match hoi_gpu_model h with Some m => imax (hw_gpu_model w) (strlen m) | None => hw_gpu_model w end)
        (match hoi_gpu_ids h with Some m => imax (hw_gpu_ids w) (strlen m) | None => hw_gpu_ids w end)).

Fixpoint widen_all {A W} (f : W -> A -> res W) (w : W) (l : list A) : res W :=
  match l with
  | [] => Ok w
  | x :: l => let* w := f w x in widen_all f w l
  end.

Definition host_widths_of (l : list host_info) : res host_widths :=
  widen_all widen_host (mk_host_widths (strlen "HOST_NAME") (strlen "STATE") (strlen "NCPU") (strlen "USED_CPU") (strlen "MEM_MB")
    (strlen "USED_MB") (strlen "STOR_GB") (strlen "USED_GB") (strlen "NGPU") (strlen "USED_GPU") (strlen "NJOBS") (strlen "RUN")
    (strlen "SUSP") (strlen "GPU_MODEL") (strlen "GPU_IDS")) l.

(** The fifteen columns. *)
Definition host_cells (w : host_widths) (name state cpu mem stor gpu njobs run susp ucpu umem ustor ugpu model ids : string) : string :=
  line [pad_right (hw_name w) name; pad_right (hw_state w) state; pad_left (hw_total_cpu w) cpu; pad_left (hw_mem w) mem;
        pad_left (hw_storage w) stor; pad_left (hw_total_gpu w) gpu; pad_left (hw_njobs w) njobs; pad_left (hw_run w) run;
        pad_left (hw_susp w) susp; pad_left (hw_used_cpu w) ucpu; pad_left (hw_used_mem w) umem; pad_left (hw_used_storage w) ustor;
        pad_left (hw_used_gpu w) ugpu; pad_right (hw_gpu_model w) model; pad_right (hw_gpu_ids w) ids].

Definition host_header (w : host_widths) : string :=
  host_cells w "HOST_NAME" "STATE" "NCPU" "MEM_MB" "STOR_GB" "NGPU" "NJOBS" "RUN" "SUSP" "USED_CPU" "USED_MB" "USED_GB" "USED_GPU"
    "GPU_MODEL" "GPU_IDS".

Definition host_line (w : host_widths) (h : host_info) : res string :=
  let* name := deref (hoi_name h) in
  Ok (host_cells w name (host_state_str (hoi_state h)) (print_int (hoi_total_cpu h)) (fmt_mem (hoi_total_mem_mb h))
        (fmt_stor (hoi_total_storage_mb h)) (print_int (hoi_total_gpu h)) (print_int (hoi_num_jobs h)) (print_int (hoi_num_run h))
        (print_int (hoi_num_susp h)) (print_int (used_cpu h)) (fmt_mem (used_mem h)) (fmt_stor (used_stor h)) (print_int (used_gpu h))
        (default "-" (hoi_gpu_model h)) (default "-" (hoi_gpu_ids h))).

(** A line for each record. *)
Fixpoint print_each {A} (f : A -> res string) (l : list A) : pM unit :=
  match l with
  | [] => go tt
  | x :: l => run! text := must (f x) in run! _ := puts text in print_each f l
  end.

Definition hosts_usage : string :=
"bhosts: --help display this help and exit
  -c, --close    HOST close a host
  -o, --open     HOST open a host
  --version      output version information and exit
".

Definition bhosts_main `{XdrLib} (HMAC : list Z -> list Z -> option (list Z)) (P : prog_env) (opts : list opt) : pM unit :=
  run! a := options (admin_option hosts_usage false) 0 opts (mk_admin_opts None None false) in
  match ao_close a, ao_open a with
  | Some h, _ => admin P "bhosts" "host" "closed" h (llb_host_admin HMAC (pe_client P) h HOST_CLOSED)
  | None, Some h => admin P "bhosts" "host" "opened" h (llb_host_admin HMAC (pe_client P) h 0)
  | None, None =>
      run! r := call P (llb_host_info HMAC (pe_client P)) in
      match r with
      | inr _ => die ("bhosts: failed" +:+ endl) (-1)
      | inl hosts =>
          run! w := must (host_widths_of hosts) in
          run! _ := puts (host_header w) in
          run! _ := print_each (host_line w) hosts in
          exit_with 0
      end
  end.

(** ** bqueues.c *)

Definition queue_status_str (status : Z) : string := if status =? 0 then "open" else "closed".

Record queue_widths : Type := mk_queue_widths {
  qw_name : Z;
  qw_prio : Z;
  qw_status : Z;
  qw_max : Z;
  qw_njobs : Z;
  qw_pend : Z;
  qw_held : Z;
  qw_run : Z;
  qw_susp : Z;
  qw_used_cpus : Z;
  qw_used_hosts : Z
}.

(** The width of NJOBS is that of the sum of the four counts. *)
Definition widen_queue (w : queue_widths) (q : queue_info) : res queue_widths :=
  let* name := deref (qi_name q) in
  let njobs := i32 (qi_num_pend q + qi_num_held q + qi_num_run q + qi_num_susp q) in
  Ok (mk_queue_widths (imax (qw_name w) (strlen name)) (imax (qw_prio w) (ndigits (qi_priority q)))
        (imax (qw_status w) (strlen (queue_status_str (qi_status q)))) (imax (qw_max w) (ndigits (qi_max_jobs q)))
        (imax (qw_njobs w) (ndigits njobs)) (imax (qw_pend w) (ndigits (qi_num_pend q))) (imax (qw_held w) (ndigits (qi_num_held q)))
        (imax (qw_run w) (ndigits (qi_num_run q))) (imax (qw_susp w) (ndigits (qi_num_susp q)))
        (imax (qw_used_cpus w) (ndigits (qi_num_cpus_used q))) (imax (qw_used_hosts w) (ndigits (qi_num_hosts_used q)))).

Definition queue_widths_of (l : list queue_info) : res queue_widths :=
  widen_all widen_queue (mk_queue_widths (strlen "QUEUE_NAME") (strlen "PRIO") (strlen "STATUS") (strlen "MAX") (strlen "NJOBS")
    (strlen "PEND") (strlen "HELD") (strlen "RUN") (strlen "SUSP") (strlen "USED_CPUS") (strlen "USED_HOSTS")) l.

Definition max_str (max_jobs : Z) : string := if max_jobs =? 0 then "-" else strbuf 16 (print_int max_jobs).

Definition queue_row (w : queue_widths) (name prio status max njobs pend held run susp cpus hosts : string) : string :=
  line [pad_right (qw_name w) name; pad_right (qw_prio w) prio; pad_right (qw_status w) status; pad_left (qw_max w) max;
        pad_left (qw_njobs w) njobs; pad_left (qw_pend w) pend; pad_left (qw_held w) held; pad_left (qw_run w) run;
        pad_left (qw_susp w) susp; pad_left (qw_used_cpus w) cpus; pad_left (qw_used_hosts w) hosts].

Definition queue_header (w : queue_widths) : string :=
  queue_row w "QUEUE_NAME" "PRIO" "STATUS" "MAX" "NJOBS" "PEND" "HELD" "RUN" "SUSP" "USED_CPUS" "USED_HOSTS".

Definition queue_line (w : queue_widths) (q : queue_info) : res string :=
  let* name := deref (qi_name q) in
  Ok (queue_row w name (print_int (qi_priority q)) (queue_status_str (qi_status q)) (max_str (qi_max_jobs q))
        (print_int (qi_num_jobs q)) (print_int (qi_num_pend q)) (print_int (qi_num_held q)) (print_int (qi_num_run q))
        (print_int (qi_num_susp q)) (print_int (qi_num_cpus_used q)) (print_int (qi_num_hosts_used q))).

(** The names, with a new line before one that would pass column 79; [col] is the column. *)
Fixpoint wrap (first : bool) (col : Z) (items : list string) : string :=
  match items with
  | [] => endl
  | s :: items =>
      let w := strlen s + 1 in
      if negb first && (79 <? col + w) then endl +:+ "  " +:+ blanks 12 +:+ " " +:+ s +:+ wrap false (14 + w) items
      else " " +:+ s +:+ wrap false (col + w) items
  end.

(** The entries are printed with [strlen] first: none may be NULL. *)
Definition print_wrapped (label : string) (items : list (option string)) (all_str : string) : res string :=
  let head := "  " +:+ pad_right 12 label in
  match items with
  | [] => Ok (head +:+ all_str +:+ endl)
  | _ => match mapM (fun x => x) items with
         | None => Crash NullDeref
         | Some items => Ok (head +:+ wrap true (strlen head) items)
         end
  end.

Definition print_queue_long (q : queue_info) : res string :=
  let* descr := deref (qi_description q) in
  let* users := print_wrapped "Users:" (qi_users q) "all" in
  let* hosts := print_wrapped "Hosts:" (qi_hosts q) "all" in
  Ok ("QUEUE: " +:+ default "(null)" (qi_name q) +:+ endl +:+
      (if String.eqb descr EmptyString then EmptyString else "  Description: " +:+ descr +:+ endl) +:+
      "  Priority:    " +:+ print_int (qi_priority q) +:+ "    Status: " +:+ queue_status_str (qi_status q) +:+ "    Max jobs: " +:+
      (if qi_max_jobs q =? 0 then "unlimited" else print_int (qi_max_jobs q)) +:+ endl +:+
      users +:+ hosts +:+
      "  Jobs:        run=" +:+ pad_right 4 (print_int (qi_num_run q)) +:+ " pend=" +:+ pad_right 4 (print_int (qi_num_pend q)) +:+
      " held=" +:+ pad_right 4 (print_int (qi_num_held q)) +:+ " susp=" +:+ print_int (qi_num_susp q) +:+ endl +:+
      "  Resources:   cpus_used=" +:+ pad_right 4 (print_int (qi_num_cpus_used q)) +:+ " hosts_used=" +:+
      print_int (qi_num_hosts_used q) +:+ endl).

Definition print_queues_long (l : list queue_info) : pM unit :=
  match l with
  | [] => go tt
  | q :: l =>
      run! text := must (print_queue_long q) in
      run! _ := puts text in
      print_each (fun q => let* text := print_queue_long q in Ok (endl +:+ text)) l
  end.

Definition queues_usage : string :=
"bqueues: --help display this help and exit
  -l, --long     display detailed queue information
  -c, --close    QUEUE close a queue
  -o, --open     QUEUE open a queue
  --version      output version information and exit
".

Definition bqueues_main `{XdrLib} (HMAC : list Z -> list Z -> option (list Z)) (P : prog_env) (opts : list opt) : pM unit :=
  run! a := options (admin_option queues_usage true) 0 opts (mk_admin_opts None None false) in
  match ao_close a, ao_open a with
  | Some q, _ => admin P "bqueues" "queue" "closed" q (llb_queue_admin HMAC (pe_client P) q QUEUE_CLOSED)
  | None, Some q => admin P "bqueues" "queue" "opened" q (llb_queue_admin HMAC (pe_client P) q QUEUE_OPEN)
  | None, None =>
      run! r := call P (llb_queue_info HMAC (pe_client P)) in
      match r with
      | inr _ => die ("bqueues: failed" +:+ endl) (-1)
      | inl queues =>
          if ao_long a then run! _ := print_queues_long queues in exit_with 0
          else
            run! w := must (queue_widths_of queues) in
            run! _ := puts (queue_header w) in
            run! _ := print_each (queue_line w) queues in
            exit_with 0
      end
  end.
