(* ===== verification/Bgroups.v ===== *)
(** * bgroups, btokens and bmetric (src/batch/cmd) *)

From S2P Require Import Prelude CString LlConf JobScript LlHash Dependency LogFormat MbdTypes MbdBase MbdJob MbdSched.
From S2P Require Import Conf SbdTypes Wire WireXdr Auth Channel MbdInfo Client Command Bhosts.

Open Scope string_scope.
Open Scope list_scope.
Open Scope Z_scope.

(** ** bgroups.c *)

Definition wider_of (w : Z) (s : option string) : Z :=
  match s with Some s => if w <? strlen s then strlen s else w | None => w end.

Definition group_widths (groups : list host_group) : Z * Z :=
  foldl (fun w g => (wider_of w.1 (hg_name g), wider_of w.2 (hg_members g))) (strlen "GROUP_NAME", strlen "GROUP_MEMBER") groups.

Definition dashes : string := "----------------------------------------------".

(** The underlining is cut at the column, and stops with the dashes. *)
Definition print_groups (groups : list host_group) : string :=
  let w := group_widths groups in
  let row name members := line [pad_right w.1 name; pad_right w.2 members] in
  row "GROUP_NAME" "GROUP_MEMBER" +:+
  line [String.substring 0 (Z.to_nat w.1) dashes; String.substring 0 (Z.to_nat w.2) dashes] +:+
  String.concat EmptyString (map (fun g => row (default EmptyString (hg_name g)) (default EmptyString (hg_members g))) groups).

Definition groups_usage : string :=
"bgroup: --help display this help and exit
--version output version information and exit
".

Definition groups_option (i : nat) (o : opt) (u : unit) : pM unit :=
  if Ascii.eqb o.1 "v" then die (LAVALITE_VERSION_STR +:+ endl) 0
  else if Ascii.eqb o.1 "h" then die groups_usage 0
  else die groups_usage 1.

Definition bgroups_main `{XdrLib} (HMAC : list Z -> list Z -> option (list Z)) (P : prog_env) (opts : list opt) (args : list string)
    : pM unit :=
  run! _ := options groups_option 0 opts tt in
  match args with
  | _ :: _ => die groups_usage 1
  | [] =>
      run! r := call P (llb_group_info HMAC (pe_client P)) in
      match r with
      | inr _ => die ("bgroup: llb_group_info failed" +:+ endl) 1
      | inl groups => run! _ := puts (print_groups groups) in exit_with 0
      end
  end.

(** ** btokens.c *)

Record token_widths : Type := mk_token_widths {
  tw_name : Z;
  tw_total : Z;
  tw_used : Z;
  tw_free : Z
}.

Definition widen_token (w : token_widths) (t : token_pool_info) : res token_widths :=
  let* name := deref (tpi_name t) in
  Ok (mk_token_widths (imax (tw_name w) (strlen name)) (imax (tw_total w) (ndigits (tpi_total t)))
        (imax (tw_used w) (ndigits (tpi_used t))) (imax (tw_free w) (ndigits (tpi_free t)))).

Definition token_widths_of (l : list token_pool_info) : res token_widths :=
  widen_all widen_token (mk_token_widths (strlen "POOL_NAME") (strlen "TOTAL") (strlen "USED") (strlen "FREE")) l.

Definition pool_row (w : token_widths) (name total used free : string) : string :=
  line [pad_right (tw_name w) name; pad_left (tw_total w) total; pad_left (tw_used w) used; pad_left (tw_free w) free].

Definition token_line (w : token_widths) (t : token_pool_info) : res string :=
  let* name := deref (tpi_name t) in
  Ok (pool_row w name (print_int (tpi_total t)) (print_int (tpi_used t)) (print_int (tpi_free t))).

Definition tokens_usage : string :=
"btokens: --help display this help and exit
--version output version information and exit
".

Definition tokens_option (i : nat) (o : opt) (u : unit) : pM unit :=
  if Ascii.eqb o.1 "v" then die (LAVALITE_VERSION_STR +:+ endl) 0 else die tokens_usage 0.

Definition btokens_main `{XdrLib} (HMAC : list Z -> list Z -> option (list Z)) (P : prog_env) (opts : list opt) : pM unit :=
  run! _ := options tokens_option 0 opts tt in
  run! r := call P (llb_token_info HMAC (pe_client P)) in
  match r with
  | inr _ => die ("btokens: failed" +:+ endl) (-1)
  | inl [] => run! _ := puts ("No token pools configured." +:+ endl) in exit_with 0
  | inl tokens =>
      run! w := must (token_widths_of tokens) in
      run! _ := puts (pool_row w "POOL_NAME" "TOTAL" "USED" "FREE") in
      run! _ := print_each (token_line w) tokens in
      exit_with 0
  end.

(** ** bmetric.c *)

Definition metric_usage : string :=
"Usage: bmetric [options] <subcommand> [args]

Subcommands:
  add  <metric> <value> <host>   add a metric reading for a host
  get  <metric> <host>           get latest metric value for a host
  list [host]                    list all metrics, optionally for a host
  del  <metric> <host>           delete metric for a host

Options:
  -h, --help                     show this help

Examples:
  bmetric add gpu_temp 72 worker1
  bmetric get gpu_temp worker1
  bmetric list worker1
".

Definition metric_option (i : nat) (o : opt) (u : unit) : pM unit :=
  if Ascii.eqb o.1 "h" then die metric_usage 0 else die metric_usage 1.

(** The subcommands say what they are asked for; nothing is sent. *)
Definition bmetric_main (opts : list opt) (args : list string) : pM unit :=
  run! _ := options metric_option 0 opts tt in
  let say s := run! _ := puts (s +:+ endl) in exit_with 0 in
  match args with
  | [] => die metric_usage 1
  | cmd :: args =>
      if String.eqb cmd "add" then
        match args with
        | [m; v; h] => say ("add metric=" +:+ m +:+ " value=" +:+ v +:+ " host=" +:+ h)
        | _ => die ("bmetric add: requires <metric> <value> <host>" +:+ endl) 1
        end
      else if String.eqb cmd "get" then
        match args with
        | [m; h] => say ("get metric=" +:+ m +:+ " host=" +:+ h)
        | _ => die ("bmetric get: requires <metric> <host>" +:+ endl) 1
        end
      else if String.eqb cmd "list" then
        match args with
        | [h] => say ("list host=" +:+ h)
        | _ => say "list all"
        end
      else if String.eqb cmd "del" then
        match args with
        | [m; h] => say ("del metric=" +:+ m +:+ " host=" +:+ h)
        | _ => die ("bmetric del: requires <metric> <host>" +:+ endl) 1
        end
      else run! _ := eputs ("bmetric: unknown subcommand '" +:+ cmd +:+ "'" +:+ endl) in die metric_usage 1
  end.
