(* ===== verification/Bhist.v ===== *)
(** * bhist (src/batch/cmd/bhist.c)

    bhist reads the files of mbd itself ([History]) and never calls the daemon. The CPU
    time is a text read by [atof]: whether it is above zero, and how it is printed, are
    arguments. *)

From S2P Require Import Prelude CString LlConf LlHash Dependency LogFormat MbdTypes MbdBase MbdJob MbdSched MbdEvents.
From S2P Require Import Conf SbdTypes Wire WireXdr Auth Channel MbdInfo Client Command Bhosts History.

Open Scope string_scope.
Open Scope list_scope.
Open Scope Z_scope.

Definition fmt_time (P : prog_env) (t : Z) : string := if t =? 0 then "-" else pe_strftime P t.

Definition jobid_of (j : job_hist_info) : string := fmt_jobid (hi_job_id j) (hi_array_id j) (hi_array_index j).

Definition event_type_str (t : event_type) : string :=
  match t with
  | EVENT_JOB_NEW => "Submitted"
  | EVENT_JOB_START => "Dispatched"
  | EVENT_JOB_FORK => "Forked"
  | EVENT_JOB_SIGNAL => "Signal"
  | EVENT_JOB_FINISH => "Finished"
  | EVENT_JOB_PEND_SUSP => "Suspended (pend)"
  | EVENT_JOB_PEND_RESUME => "Resumed (pend)"
  | EVENT_JOB_SUSP => "Suspended"
  | EVENT_JOB_MOVE => "Moved queue"
  | EVENT_JOB_PRIORITY => "Priority"
  | EVENT_JOB_PEND => "Pending"
  | EVENT_NULL => "?"
  end.

Definition find_event (j : job_hist_info) (t : event_type) : option job_event :=
  List.find (fun e => bool_decide (jv_type e = t)) (hi_events j).

(** The hosts, with a new line before one that would pass column 80. *)
Fixpoint wrap_hosts (indent col : Z) (toks : list string) : string :=
  match toks with
  | [] => endl
  | t :: toks =>
      if (80 <? col + 1 + strlen t) && (indent <? col) then
        endl +:+ blanks (Z.to_nat indent) +:+ " " +:+ t +:+ wrap_hosts indent (indent + 1 + strlen t) toks
      else " " +:+ t +:+ wrap_hosts indent (col + 1 + strlen t) toks
  end.

Definition print_run_hosts (s : string) (indent : Z) : string := wrap_hosts indent indent (host_tokens s).

(** ** The table *)

Record col_widths : Type := mk_col_widths {
  cw_jobid : Z;
  cw_user : Z;
  cw_stat : Z;
  cw_queue : Z;
  cw_run_hosts : Z;
  cw_name : Z;
  cw_pri : Z
}.

Definition start_hosts (j : job_hist_info) : option string := find_event j EVENT_JOB_START ≫= jv_run_hosts.

Definition widen (w : col_widths) (j : job_hist_info) : col_widths :=
  mk_col_widths (imax (cw_jobid w) (strlen (jobid_of j))) (imax (cw_user w) (strlen (dash (Some (hi_username j)))))
    (imax (cw_stat w) (strlen (llb_job_state_str (hi_state j)))) (imax (cw_queue w) (strlen (dash (hi_queue j))))
    (imax (cw_run_hosts w) (run_hosts_width (start_hosts j))) (imax (cw_name w) (strlen (dash (Some (hi_name j)))))
    (imax (cw_pri w) (ndigits (hi_priority j))).

Definition compute_widths (jobs : list job_hist_info) : col_widths :=
  foldl widen (mk_col_widths (strlen "JOBID") (strlen "USER") (strlen "STAT") (strlen "QUEUE") (strlen "RUN_HOSTS")
                 (strlen "JOB_NAME") (strlen "PRI")) jobs.

Definition row (w : col_widths) (jobid user stat queue pri hosts name time : string) : string :=
  line [pad_right (cw_jobid w) jobid; pad_right (cw_user w) user; pad_right (cw_stat w) stat; pad_right (cw_queue w) queue;
        pad_right (cw_pri w) pri; pad_right (cw_run_hosts w) hosts; pad_right (cw_name w) name; time].

Definition print_compact_header (w : col_widths) : string :=
  row w "JOBID" "USER" "STAT" "QUEUE" "PRI" "RUN_HOSTS" "JOB_NAME" "SUBMIT_TIME".

Definition job_line (P : prog_env) (w : col_widths) (j : job_hist_info) (host : string) : string :=
  row w (jobid_of j) (dash (Some (hi_username j))) (llb_job_state_str (hi_state j)) (dash (hi_queue j))
    (print_int (hi_priority j)) host (dash (Some (hi_name j))) (fmt_time P (hi_submit_time j)).

Definition print_job_compact (P : prog_env) (w : col_widths) (j : job_hist_info) : string :=
  match start_hosts j with
  | None | Some EmptyString => job_line P w j "-"
  | Some s =>
      match host_tokens s with
      | [] => EmptyString
      | h :: hs =>
          job_line P w j h +:+
          String.concat EmptyString
            (map (fun t => line [pad_right (cw_jobid w) ""; pad_right (cw_user w) ""; pad_right (cw_stat w) "";
                                 pad_right (cw_queue w) ""; pad_right (cw_pri w) ""; pad_right (cw_run_hosts w) t]) hs)
      end
  end.

(** ** All about one job *)

(** A labelled line for a text that is there. *)
Definition labelled (label : string) (s : option string) : string :=
  match s with Some (String c t) => label +:+ String c t +:+ endl | _ => EmptyString end.

Definition print_event (P : prog_env) (e : job_event) : string :=
  "  " +:+ fmt_time P (jv_time e) +:+ "  " +:+ event_type_str (jv_type e) +:+
  match jv_type e with
  | EVENT_JOB_START =>
      match jv_run_hosts e with
      | None | Some EmptyString => endl
      | Some s => " to: " +:+ print_run_hosts s 34
      end +:+ labelled ("  " +:+ blanks 14 +:+ "  GPU devices:  ") (jv_gpu_assigned e)
  | EVENT_JOB_FORK => "  pid: " +:+ print_int (i32 (jv_pid e)) +:+ endl
  | EVENT_JOB_SIGNAL => "  signal: " +:+ print_int (jv_signal e) +:+ endl
  | EVENT_JOB_FINISH => "  state: " +:+ llb_job_state_str (jv_state e) +:+ " exit_status: " +:+ print_int (jv_exit_status e) +:+ endl
  | EVENT_JOB_MOVE => "  " +:+ dash (jv_from_queue e) +:+ " -> " +:+ dash (jv_to_queue e) +:+ endl
  | EVENT_JOB_PRIORITY => "  " +:+ print_int (jv_old_priority e) +:+ " -> " +:+ print_int (jv_new_priority e) +:+ endl
  | _ => endl
  end.

Section full.
Context (P : prog_env) (cpu_positive : string -> bool) (fmt_cpu : string -> string).

Definition print_job_head (j : job_hist_info) : string :=
  let f := hi_submit j in
  "Job <" +:+ jobid_of j +:+ ">  User <" +:+ dash (Some (hi_username j)) +:+ ">  Queue <" +:+ dash (hi_queue j) +:+
  ">  Status <" +:+ llb_job_state_str (hi_state j) +:+ ">" +:+ endl +:+
  (if negb (hi_array_id j =? 0) then
     "  Job ID:       " +:+ print_int (hi_job_id j) +:+ endl +:+
     "  Array range:  " +:+ print_int (hi_array_start j) +:+ "-" +:+ print_int (hi_array_end j) +:+ ":" +:+
     print_int (hi_array_stride j) +:+ endl
   else EmptyString) +:+
  "  Submitted:    " +:+ fmt_time P (hi_submit_time j) +:+ endl +:+
  labelled "  Submit host:  " (sf_submit_host f) +:+ labelled "  Name:         " (Some (hi_name j)) +:+
  labelled "  Project:      " (Some (hi_project j)) +:+ labelled "  Comment:      " (sf_comment f) +:+
  "  CWD:          " +:+ dash (sf_cwd f) +:+ endl +:+
  "  Command:      " +:+ dash (sf_command f) +:+ endl +:+
  "  Priority:     " +:+ print_int (hi_priority j) +:+ endl +:+
  labelled "  Depends:      " (sf_depend_cond f) +:+ labelled "  stdin:        " (sf_in_file f) +:+
  labelled "  stdout:       " (sf_out_file f) +:+ labelled "  stderr:       " (sf_err_file f) +:+
  "  Requested resources:  " +:+ print_int (hi_num_hosts j) +:+ " host(s)  " +:+ print_int (hi_num_cpus j) +:+ " cpu(s)/host  " +:+
  print_int (hi_num_gpus j) +:+ " gpu(s)/host  " +:+ print_int (hi_mem_mb j) +:+ " MB mem" +:+ endl +:+
  labelled "  GPU model:    " (sf_gpu_model f) +:+ labelled "  Machines:     " (sf_machines f) +:+
  labelled "  Token pool:   " (sf_tokenpool f) +:+
  (if negb (sf_begin_time f =? 0) then "  Begin:        " +:+ fmt_time P (sf_begin_time f) +:+ endl else EmptyString) +:+
  (if negb (sf_term_time f =? 0) then "  Terminate:    " +:+ fmt_time P (sf_term_time f) +:+ endl else EmptyString) +:+
  endl.

Definition print_job_full (j : job_hist_info) : string :=
  let u := hi_usage j in
  print_job_head j +:+ String.concat EmptyString (map (print_event P) (hi_events j)) +:+
  (if cpu_positive (ru_cpu_time u) || (0 <? ru_mem_mb u) then
     endl +:+ "  CPU time:     " +:+ fmt_cpu (ru_cpu_time u) +:+ " sec" +:+ endl +:+
     "  Max memory:   " +:+ print_int (ru_mem_mb u) +:+ " MB" +:+ endl +:+
     "  Max swap:     " +:+ print_int (ru_swap_mb u) +:+ " MB" +:+ endl
   else EmptyString) +:+
  match find_event j EVENT_JOB_START with
  | None => if (hi_state j =? job_state_num JOB_DONE) || (hi_state j =? job_state_num JOB_EXITED) then "  Never dispatched." +:+ endl
            else EmptyString
  | Some _ => EmptyString
  end.

(** ** main *)

Definition hist_usage : string :=
"Usage: bhist [options] [job_id]

Display job history. Without arguments, shows compact summary for the current user.

Options:
  -u, --user USER  Show jobs for USER (admin only, unless USER is yourself)
  -l               Full detail for all jobs
  -r               Show only jobs currently running
  -p               Show only jobs currently pending
  -h, --help       Display this help and exit
  -V, --version    Output version information and exit

Arguments:
  job_id           Full detail for a specific job
".

(** The entries kept move to the front of the array; the number of them. *)
Fixpoint filter_loop (n i kept : nat) (state : Z) (jobs : list job_hist_info) : res (list job_hist_info * nat) :=
  match n with
  | O => Ok (jobs, kept)
  | S n =>
      let* j := nth_res jobs i in
      if negb (hi_state j =? state) then filter_loop n (S i) kept state jobs
      else filter_loop n (S i) (S kept) state (if (kept =? i)%nat then jobs else <[kept := j]> jobs)
  end.

Definition filter_by_state (jobs : list job_hist_info) (state : Z) : res (list job_hist_info) :=
  let* (jobs, kept) := filter_loop (length jobs) 0 0 state jobs in Ok (take kept jobs).

Record hist_opts : Type := mk_hist_opts {
  ho_uid : Z;
  ho_full : bool;
  ho_running : bool;
  ho_pending : bool
}.

(** The history of another user is for administrators. *)
Definition hist_option (E : hist_env) (i : nat) (o : opt) (h : hist_opts) : pM hist_opts :=
  let (c, arg) := o in
  if Ascii.eqb c "V" then run! _ := puts (LAVALITE_VERSION_STR +:+ endl) in exit_with 0
  else if Ascii.eqb c "h" then die hist_usage 0
  else if Ascii.eqb c "u" then
    match he_getpwnam E arg with
    | None => die ("bhist: unknown user '" +:+ arg +:+ "'" +:+ endl) 1
    | Some u =>
        if negb (u =? he_uid E) && negb (llb_caller_is_admin E) then die ("bhist: permission denied" +:+ endl) 1
        else go (mk_hist_opts u (ho_full h) (ho_running h) (ho_pending h))
    end
  else if Ascii.eqb c "l" then go (mk_hist_opts (ho_uid h) true (ho_running h) (ho_pending h))
  else if Ascii.eqb c "r" then go (mk_hist_opts (ho_uid h) (ho_full h) true (ho_pending h))
  else if Ascii.eqb c "p" then go (mk_hist_opts (ho_uid h) (ho_full h) (ho_running h) true)
  else die hist_usage 1.

(** At most one job reference. *)
Definition hist_ref (args : list string) : pM (Z * Z * Z) :=
  match args with
  | [] => go (0, 0, 0)
  | a :: args =>
      match parse_job_ref 0 a with
      | None => die ("bhist: invalid job reference '" +:+ a +:+ "'" +:+ endl) 1
      | Some r => match args with [] => go r | _ => die hist_usage 1 end
      end
  end.

Fixpoint print_full_all (l : list job_hist_info) : string :=
  match l with
  | [] => EmptyString
  | [j] => print_job_full j
  | j :: l => print_job_full j +:+ endl +:+ print_full_all l
  end.

(** [conf] is whether the configuration can be loaded, [init] whether the library can set up
    its table. *)
Definition bhist_main `{QSort} (E : hist_env) (conf init : bool) (opts : list opt) (args : list string) : pM unit :=
  if negb conf then die ("bhist: failed loading configuration" +:+ endl) 1
  else
  run! h := options (hist_option E) 0 opts (mk_hist_opts (he_uid E) false false false) in
  if ho_running h && ho_pending h then die ("bhist: -r and -p are mutually exclusive" +:+ endl) 1
  else
  run! ref := hist_ref args in
  let '(job_id, array_id, array_index) := ref in
  match llb_hist_info E init job_id array_id array_index (ho_uid h) with
  | None =>
      if negb (pe_errno P =? 0) then die ("bhist: " +:+ pe_strerror P (pe_errno P) +:+ endl) 1
      else run! _ := puts ("No historical jobs found." +:+ endl) in exit_with 0
  | Some jobs =>
      run! jobs :=
        (if ho_running h || ho_pending h then
           run! jobs := must (filter_by_state jobs (job_state_num (if ho_running h then JOB_RUNNING else JOB_PENDING))) in
           match jobs with
           | [] => run! _ := puts ("No " +:+ (if ho_running h then "running" else "pending") +:+ " jobs found." +:+ endl) in exit_with 0
           | _ => go jobs
           end
         else go jobs) in
      if (job_id <=? 0) && (array_id =? 0) && negb (ho_full h) then
        let w := compute_widths jobs in
        run! _ := puts (print_compact_header w +:+ String.concat EmptyString (map (print_job_compact P w) jobs)) in
        exit_with 0
      else run! _ := puts (print_full_all jobs) in exit_with 0
  end.
End full.
