(* ===== verification/CommandProps.v ===== *)
(** * Who sees what bhist prints, job references, and what bkill sends *)

From S2P Require Import Prelude CString LlConf JobScript LlHash Dependency LogFormat MbdTypes MbdBase MbdJob MbdSched MbdEvents.
From S2P Require Import MbdDemo Conf SbdTypes Wire WireXdr Auth Channel MbdInfo Client Command Bsub Bkill Bhosts History Bhist.

Open Scope string_scope.
Open Scope list_scope.
Open Scope Z_scope.

(** ** bhist *)

(** The loop in place keeps the entries in their order. *)
Lemma filter_loop_spec state orig : forall n i kept jobs,
  (i + n)%nat = length orig -> length jobs = length orig -> (kept <= i)%nat ->
  take kept jobs = List.filter (fun j => hi_state j =? state) (take i orig) -> drop i jobs = drop i orig ->
  exists jobs' kept', filter_loop n i kept state jobs = Ok (jobs', kept') /\
    take kept' jobs' = List.filter (fun j => hi_state j =? state) orig.
Proof.
  induction n as [|n IH]; intros i kept jobs Hi Hl Hk Ht Hd; cbn [filter_loop].
  - exists jobs, kept. split; [done|]. by rewrite Ht, firstn_all2 by lia.
  - assert (Hj : jobs !! i = orig !! i).
    { rewrite <- (Nat.add_0_r i), <- !lookup_drop. by rewrite Hd. }
    destruct (lookup_lt_is_Some_2 orig i) as [j Ho]; [lia|]. unfold nth_res. rewrite Hj, Ho. cbn [res_bind].
    assert (Hsnoc : List.filter (fun j => hi_state j =? state) (take (S i) orig) =
      List.filter (fun j => hi_state j =? state) (take i orig) ++ (if hi_state j =? state then [j] else [])).
    { rewrite (take_S_r _ _ _ Ho), List.filter_app. done. }
    assert (Hdrop : forall l : list job_hist_info, drop i l = drop i orig -> drop (S i) l = drop (S i) orig).
    { intros l Hx. rewrite <- (Nat.add_1_r i), <- !drop_drop. by rewrite Hx. }
    destruct (hi_state j =? state) eqn:Hs; cbn [negb].
    + destruct (Nat.eqb_spec kept i) as [->|Hne].
      * apply IH; [lia|done|lia| |by apply Hdrop]. rewrite Hsnoc, <- Ht. apply take_S_r. by rewrite Hj.
      * apply IH; [lia|by rewrite length_insert|lia| |].
        -- rewrite Hsnoc, <- Ht. rewrite (take_S_r _ _ j) by (apply list_lookup_insert_eq; lia).
           by rewrite take_insert_ge by lia.
        -- rewrite drop_insert_lt by lia. by apply Hdrop.
    + apply IH; [lia|done|lia|by rewrite Hsnoc, app_nil_r|by apply Hdrop].
Qed.

Lemma filter_by_state_spec jobs state :
  filter_by_state jobs state = Ok (List.filter (fun j => hi_state j =? state) jobs).
Proof.
  unfold filter_by_state. destruct (filter_loop_spec state jobs (length jobs) 0 0 jobs) as (jobs' & kept & -> & <-); done.
Qed.

Section bhist.
Context {QS : QSort} (P : prog_env) (cpu_positive : string -> bool) (fmt_cpu : string -> string) (E : hist_env).

(** The standard output is the table or the full text of these jobs. *)
Definition says (o : output) (l : list job_hist_info) : Prop :=
  o_stdout o = print_compact_header (compute_widths l) +:+ String.concat EmptyString (map (print_job_compact P (compute_widths l)) l) \/
  o_stdout o = print_full_all P cpu_positive fmt_cpu l.

(** A user who is no administrator stays himself. *)
Lemma hist_option_self i x h o c :
  llb_caller_is_admin E = false -> ho_uid h = he_uid E ->
  (exists h', hist_option E i x h o c = Ok (o, c, Go h') /\ ho_uid h' = he_uid E) \/
  (exists s1 s2 code, hist_option E i x h o c = Ok (mk_output (o_stdout o +:+ s1) s2, c, Exit code) /\
     (code = 0 \/ code = 1) /\ (s1 = EmptyString \/ s1 = LAVALITE_VERSION_STR +:+ endl)).
Proof.
  intros Ha Hu. destruct x as [d arg]. unfold hist_option.
  assert (Hd : forall s code, (code = 0 \/ code = 1) -> exists s1 s2 code', (die s code : pM hist_opts) o c =
     Ok (mk_output (o_stdout o +:+ s1) s2, c, Exit code') /\ (code' = 0 \/ code' = 1) /\ (s1 = EmptyString \/ s1 = LAVALITE_VERSION_STR +:+ endl)).
  { intros s code Hc. exists EmptyString, (o_stderr o +:+ s), code. rewrite string_app_nil_r. by split; [|split; [|left]]. }
  destruct (Ascii.eqb d "V"); [right; do 3 eexists; split; [reflexivity|split; [by left|by right]]|].
  destruct (Ascii.eqb d "h"); [right; apply Hd; by left|].
  destruct (Ascii.eqb d "u").
  - destruct (he_getpwnam E arg) as [u|]; [|right; apply Hd; by right]. rewrite Ha. cbn [negb]. rewrite andb_true_r.
    destruct (Z.eqb_spec u (he_uid E)) as [->|]; cbn [negb]; [left; by eexists|right; apply Hd; by right].
  - destruct (Ascii.eqb d "l"); [left; by eexists|]. destruct (Ascii.eqb d "r"); [left; by eexists|].
    destruct (Ascii.eqb d "p"); [left; by eexists|right; apply Hd; by right].
Qed.

Lemma hist_options_self l : forall i h c,
  llb_caller_is_admin E = false -> ho_uid h = he_uid E ->
  (exists h', options (hist_option E) i l h (mk_output EmptyString EmptyString) c = Ok (mk_output EmptyString EmptyString, c, Go h') /\
     ho_uid h' = he_uid E) \/
  (exists o code, options (hist_option E) i l h (mk_output EmptyString EmptyString) c = Ok (o, c, Exit code) /\
     (code = 0 \/ code = 1) /\ (o_stdout o = EmptyString \/ o_stdout o = LAVALITE_VERSION_STR +:+ endl)).
Proof.
  induction l as [|x l IH]; intros i h c Ha Hu; cbn [options]; [left; by eexists|].
  destruct (hist_option_self i x h (mk_output EmptyString EmptyString) c Ha Hu) as [(h' & Hx & Hu')|(s1 & s2 & code & Hx & Hc & Hs)].
  - rewrite (go_runs _ _ _ _ _ _ _ Hx). by apply IH.
  - right. exists (mk_output s1 s2), code. unfold runs. rewrite Hx. done.
Qed.
End bhist.

Section private.
Context {QS : QSort} (P : prog_env) (cpu_positive : string -> bool) (fmt_cpu : string -> string) (E : hist_env).

Lemma submitted_filter f l uid : Forall (submitted_by E uid) l -> Forall (submitted_by E uid) (List.filter f l).
Proof. intros Hl. induction Hl as [|x l Hx Hl IH]; cbn; [constructor|]. by destruct (f x); [constructor|]. Qed.

(** C31: bhist shows a user his own jobs only.  Whatever the command line, the logs and the
    sidecars of the jobs are, a bhist of a caller who is not an administrator ends with 0
    or 1, and prints nothing but messages, or the table or the full text of jobs each of
    which a log that can be read records as submitted by the caller: the option for another
    user is refused, asking for a job by its id passes no check over, and the filters for
    running and pending jobs only leave entries out. *)
Theorem bhist_private conf init opts args c :
  llb_caller_is_admin E = false ->
  exists o code, started (bhist_main P cpu_positive fmt_cpu E conf init opts args) c = Ok (o, c, Exit code) /\ (code = 0 \/ code = 1) /\
    (o_stdout o ∈ [EmptyString; LAVALITE_VERSION_STR +:+ endl; "No historical jobs found." +:+ endl; "No running jobs found." +:+ endl;
                   "No pending jobs found." +:+ endl] \/
     exists l, says P cpu_positive fmt_cpu o l /\ Forall (submitted_by E (he_uid E)) l).
Proof.
  intros Ha. unfold started, bhist_main. destruct (negb conf); [do 2 eexists; split; [reflexivity|split; [by right|left; left]]|].
  destruct (hist_options_self E opts 0 (mk_hist_opts (he_uid E) false false false) c Ha eq_refl) as [(h & Hh & Hu)|(o & code & Ho & Hc & Hs)].
  2: { exists o, code. split; [unfold runs; by rewrite Ho|]. split; [done|]. left. set_solver. }
  rewrite (go_runs _ _ _ _ _ _ _ Hh).
  destruct (ho_running h && ho_pending h); [do 2 eexists; split; [reflexivity|split; [by right|left; left]]|].
  assert (Hr : (exists r, hist_ref args (mk_output EmptyString EmptyString) c = Ok (mk_output EmptyString EmptyString, c, Go r)) \/
    exists s, hist_ref args (mk_output EmptyString EmptyString) c = Ok (mk_output EmptyString s, c, Exit 1)).
  { unfold hist_ref. destruct args as [|a args]; [left; by eexists|]. destruct (parse_job_ref 0 a) as [r|]; [|right; by eexists].
    destruct args; [left; by eexists|right; by eexists]. }
  destruct Hr as [[[[job_id array_id] array_index] Hr]|[s Hr]].
  2: { do 2 eexists. split; [unfold runs; by rewrite Hr|]. split; [by right|left; left]. }
  rewrite (go_runs _ _ _ _ _ _ _ Hr). rewrite Hu.
  destruct (llb_hist_info E init job_id array_id array_index (he_uid E)) as [l|] eqn:Hl.
  2: { destruct (negb (pe_errno P =? 0)); (do 2 eexists; split; [reflexivity|split; [lia|left; set_solver]]). }
  pose proof (history_own_jobs E init job_id array_id array_index (he_uid E) l Ha Hl) as Hown.
  assert (Hshow : forall l, Forall (submitted_by E (he_uid E)) l -> exists o code,
    (if (job_id <=? 0) && (array_id =? 0) && negb (ho_full h) then
       run! _ := puts (print_compact_header (compute_widths l) +:+ String.concat EmptyString (map (print_job_compact P (compute_widths l)) l)) in exit_with 0
     else run! _ := puts (print_full_all P cpu_positive fmt_cpu l) in (exit_with 0 : pM unit)) (mk_output EmptyString EmptyString) c =
    Ok (o, c, Exit code) /\ (code = 0 \/ code = 1) /\
    (o_stdout o ∈ [EmptyString; LAVALITE_VERSION_STR +:+ endl; "No historical jobs found." +:+ endl; "No running jobs found." +:+ endl;
                   "No pending jobs found." +:+ endl] \/
     exists l, says P cpu_positive fmt_cpu o l /\ Forall (submitted_by E (he_uid E)) l)).
  { intros k Hk. destruct (_ && _); (do 2 eexists; split; [reflexivity|split; [by left|right; exists k; split; [|exact Hk]]]); [left|right]; reflexivity. }
  destruct (ho_running h || ho_pending h).
  - rewrite filter_by_state_spec.
    pose proof (submitted_filter (fun j => hi_state j =? job_state_num (if ho_running h then JOB_RUNNING else JOB_PENDING)) l _ Hown) as Hk.
    destruct (List.filter _ l) as [|j k].
    + destruct (ho_running h); (do 2 eexists; split; [reflexivity|split; [by left|left; set_solver]]).
    + unfold runs at 1 2, must. cbn [res_bind]. unfold go at 1. cbn [res_bind]. by apply Hshow.
  - unfold runs at 1, go at 1. cbn [res_bind]. by apply Hshow.
Qed.
End private.

Lemma bhist_private_witness :
  (exists o code, started (bhist_main demo_prog (fun _ => false) (fun s => s) demo_user_env true true [] ["101"]) client_start =
     Ok (o, client_start, Exit code) /\ (code = 0 \/ code = 1) /\
     (o_stdout o ∈ [EmptyString; LAVALITE_VERSION_STR +:+ endl; "No historical jobs found." +:+ endl; "No running jobs found." +:+ endl;
                    "No pending jobs found." +:+ endl] \/
      exists l, says demo_prog (fun _ => false) (fun s => s) o l /\ Forall (submitted_by demo_user_env 1001) l)) /\
  match started (bhist_main demo_prog (fun _ => false) (fun s => s) demo_user_env true true [] ["101"]) client_start with
  | Ok (o, _, Exit 0) => String.substring 0 9 (o_stdout o) = "Job <101>"
  | _ => False
  end.
Proof.
  split.
  - apply (bhist_private demo_prog (fun _ => false) (fun s => s) demo_user_env true true [] ["101"] client_start). reflexivity.
  - vm_compute. reflexivity.
Defined.

(** ** References to jobs *)

Lemma strtol_checked_print n s :
  - 2 ^ 63 <= n < 2 ^ 63 -> head_is isdigit s = false -> strtol_checked (print_int n +:+ s) = Some (n, s).
Proof.
  intros Hn Hs. unfold strtol_checked. rewrite print_int_scan; [|lia|done].
  assert (is_i64 n = true) as -> by (unfold is_i64; lia). done.
Qed.

Lemma print_int_nonempty n s : String.eqb s (print_int n +:+ s) = false.
Proof.
  apply String.eqb_neq. intros H. apply (f_equal String.length) in H. rewrite string_length_app in H.
  assert (0 < String.length (print_int n))%nat; [|lia]. unfold print_int.
  assert (Hd : forall r k acc, (String.length acc < String.length (print_digits r k acc))%nat).
  { induction r as [|r IH]; intros k acc; cbn [print_digits String.length]; [lia|]. destruct (k <? 10); cbn [String.length]; [lia|].
    etrans; [|apply IH]. cbn [String.length]. lia. }
  destruct (n <? 0); cbn [String.length]; [lia|]. apply (Hd _ _ EmptyString).
Qed.

(** The JOBID bjobs and bhist print is a reference that bjobs, bhist and bkill read back. *)
Theorem jobid_roundtrip none job_id array_id idx :
  0 < job_id < 2 ^ 63 -> 0 <= array_id < 2 ^ 63 -> 0 < idx < 2 ^ 31 ->
  let ref := if negb (array_id =? 0) then print_int array_id +:+ "[" +:+ print_int idx +:+ "]" else print_int job_id in
  parse_job_ref none ref = Some (if negb (array_id =? 0) then (none, array_id, idx) else (job_id, 0, 0)) /\
  parse_jobid ref = Some (if negb (array_id =? 0) then (array_id, idx) else (job_id, 0)).
Proof.
  intros Hj Ha Hi ref. unfold ref, parse_job_ref, parse_jobid. destruct (Z.eqb_spec array_id 0) as [->|Hz]; cbn [negb].
  - pose proof (strtol_checked_print job_id EmptyString) as H. pose proof (print_int_nonempty job_id EmptyString) as Hn.
    rewrite string_app_nil_r in H, Hn. rewrite H by (done || lia). rewrite Hn, (proj2 (Z.leb_gt _ _)) by lia. done.
  - rewrite strtol_checked_print by (done || lia). cbn [String.append]. rewrite print_int_nonempty, (proj2 (Z.leb_gt _ _)) by lia.
    cbn [orb Ascii.eqb Bool.eqb negb]. rewrite strtol_checked_print by (done || lia). rewrite print_int_nonempty.
    assert (is_i32 idx = true) as -> by (unfold is_i32; lia). cbn [negb orb String.eqb Ascii.eqb Bool.eqb].
    rewrite (proj2 (Z.leb_gt _ _)), i32_small by lia. done.
Qed.

(** An index beyond 32 bits is cut: bkill takes this reference to an element for the whole
    array. *)
Lemma index_cut : parse_jobid "5[4294967296]" = Some (5, 0).
Proof. reflexivity. Qed.

(** ** bkill *)

Section bkill.
Context `{XdrLib} (HMAC : list Z -> list Z -> option (list Z)) (P : prog_env).

Definition valid_ids (args : list string) : bool := forallb (fun a => match parse_jobid a with Some _ => true | None => false end) args.

(** The requests, one after the other, and what came of each. *)
Fixpoint signals (sig : Z) (args : list string) (c : client) : res (client * list (outcome unit)) :=
  match args with
  | [] => Ok (c, [])
  | a :: args =>
      match parse_jobid a with
      | None => Ok (c, [])
      | Some (jobid, index) =>
          let* (c, r) := llb_signal_job HMAC (pe_client P) jobid index sig c in
          let* (c, rs) := signals sig args c in Ok (c, r :: rs)
      end
  end.

Lemma validate_all args o c :
  if valid_ids args then validate args o c = Ok (o, c, Go tt)
  else exists s, validate args o c = Ok (mk_output (o_stdout o) s, c, Exit (-1)).
Proof.
  induction args as [|a args IH]; cbn [valid_ids forallb validate]; [done|].
  destruct (parse_jobid a); cbn [andb]; [exact IH|by eexists].
Qed.

Lemma signal_all_sent sig args : forall signaled o c c' rs,
  valid_ids args = true -> signals sig args c = Ok (c', rs) -> Forall (fun r => r <> Blocked) rs ->
  exists o', signal_all HMAC P sig signaled args o c =
    Ok (o', c', Go (signaled || existsb (fun r => match r with Ret _ => true | _ => false end) rs)).
Proof.
  induction args as [|a args IH]; intros signaled o c c' rs Hv Hs Hb; cbn [signals signal_all valid_ids forallb] in *.
  - injection Hs as <- <-. exists o. by rewrite orb_false_r.
  - destruct (parse_jobid a) as [[jobid index]|]; [|done]. cbn [andb] in Hv.
    apply res_bind_Ok in Hs as ([c1 r] & Hr & Hs). apply res_bind_Ok in Hs as ([c2 rs'] & Hs & [= <- <-]).
    apply Forall_cons in Hb as [Hb1 Hb]. unfold runs at 1, call. rewrite Hr. cbn [res_bind existsb].
    destruct r as [[]|errno|]; [| |done]; unfold puts, eputs, runs at 1; cbn [res_bind].
    + destruct (IH true (mk_output (o_stdout o +:+ signaled_line jobid index) (o_stderr o)) c1 c2 rs' Hv Hs Hb) as [o' ->].
      exists o'. by destruct signaled.
    + destruct (IH signaled (mk_output (o_stdout o) (o_stderr o +:+ "bkill: failed to signal job <" +:+ a +:+ ">: " +:+
        pe_strerror P (default (pe_errno P) errno) +:+ endl)) c1 c2 rs' Hv Hs Hb) as [o' ->]. by exists o'.
Qed.

(** bkill is all or nothing about its arguments: with one that is no reference to a job, or
    with none, it ends with -1 and sends nothing; otherwise it sends the signal to each
    job, in the order of the arguments, goes on after a failure, and ends with 0 when one
    of the requests went through. *)
Theorem bkill_all_or_nothing opts args c o sig :
  started (options (kill_option P) 0 opts SIGTERM) c = Ok (o, c, Go sig) -> 0 <= sig ->
  if valid_ids args && negb (length args =? 0)%nat then
    forall c' rs, signals sig args c = Ok (c', rs) -> Forall (fun r => r <> Blocked) rs ->
      exists o', started (bkill_main HMAC P opts args) c =
        Ok (o', c', Exit (if existsb (fun r => match r with Ret _ => true | _ => false end) rs then 0 else -1))
  else exists s, started (bkill_main HMAC P opts args) c = Ok (mk_output (o_stdout o) s, c, Exit (-1)).
Proof.
  unfold started, bkill_main. intros Ho Hsig. rewrite (go_runs _ _ _ _ _ _ _ Ho), (proj2 (Z.ltb_ge _ _)) by done.
  destruct args as [|a args]; [by eexists|]. rewrite andb_true_r. pose proof (validate_all (a :: args) o c) as Hv.
  destruct (valid_ids (a :: args)) eqn:Hids.
  - intros c' rs Hs Hb. rewrite (go_runs _ _ _ _ _ _ _ Hv).
    destruct (signal_all_sent sig (a :: args) false o c c' rs Hids Hs Hb) as [o' Hr].
    rewrite (go_runs _ _ _ _ _ _ _ Hr). by exists o'.
  - destruct Hv as [s Hv]. exists s. unfold runs. by rewrite Hv.
Qed.
End bkill.
