(* ===== verification/SbdStore.v ===== *)
(** * Files of the execution daemon (src/batch/sbd/slog.c)

    The state file of a job, which lets a restarted daemon find the jobs it had
    started, the exit file the job script leaves behind, and the pruning of the
    files of finished jobs. *)

From S2P Require Import Prelude CString LlHash Dependency LogFormat MbdTypes MbdBase MbdJob MbdSched MbdNet SbdTypes.

Open Scope string_scope.
Open Scope list_scope.
Open Scope Z_scope.

(** ** Paths *)

Definition make_path (bufsz : nat) (s : string) : option string :=
  if (String.length s <? bufsz)%nat then Some s else None.

Definition job_dir_path (c : sbd_conf) (id : Z) : option string :=
  make_path PATH_MAX (sbd_job_dir c +:+ "/" +:+ print_int id).

Definition state_dir_path (c : sbd_conf) (id : Z) : option string :=
  make_path PATH_MAX (sbd_state_dir c +:+ "/" +:+ print_int id).

(** The path of the state file in the entry [nm] of the state directory. *)
Definition state_path_in (c : sbd_conf) (nm : string) : string :=
  sbd_state_dir c +:+ "/" +:+ nm +:+ "/state".

Definition state_file_path (c : sbd_conf) (id : Z) : option string :=
  make_path PATH_MAX (state_path_in c (print_int id)).

Definition tmp_state_file_path (c : sbd_conf) (id : Z) : option string :=
  make_path PATH_MAX (sbd_state_dir c +:+ "/" +:+ print_int id +:+ "/tmp.state").

(** ** File operations *)

Definition unlink (e : senv) (path : string) : sM unit :=
  let! ok := sys_ok e (SysUnlink path) in
  if ok then modify (fun s => s <| files ::= delete path |>) else ret tt.

Definition fsync_dir (e : senv) (path : string) : sM unit :=
  let! ok := sys_ok e (SysOpen path) in
  if ok then let! _ := sys_call e (SysFsync path) in ret tt else ret tt.

(** The calls in order; [Some errno] is the first one that fails. *)
Fixpoint all_ok (e : senv) (cs : list syscall) : sM (option Z) :=
  match cs with
  | [] => ret None
  | c :: cs' =>
      let! r := sys_call e c in
      if r =? 0 then all_ok e cs' else ret (Some r)
  end.

(** A file written under a temporary name and moved to its place: open, write,
    fsync, close, the calls [extra], rename.  [Some errno] is a failure; the
    temporary file is removed when it was created. *)
Definition store_file (e : senv) (tmp path text : string) (extra : list syscall) : sM (option Z) :=
  let! r := sys_call e (SysOpen tmp) in
  if negb (r =? 0) then ret (Some r)
  else
    let! _ := modify (fun s => s <| files ::= <[tmp := EmptyString]> |>) in
    let! r := sys_call e (SysWrite tmp) in
    if negb (r =? 0) then let! _ := unlink e tmp in ret (Some r)
    else
      let! _ := modify (fun s => s <| files ::= <[tmp := text]> |>) in
      let! err := all_ok e (SysFsync tmp :: SysClose tmp :: extra ++ [SysRename tmp path]) in
      match err with
      | Some r => let! _ := unlink e tmp in ret (Some r)
      | None => let! _ := modify (fun s => s <| files ::= fun m => <[path := text]> (delete tmp m) |>) in
                ret None
      end.

(** ** The state file *)

Definition newline_text : string := String newline EmptyString.

Definition state_fields (j : sbd_job) : list (string * string) :=
  [("version", "1");
   ("job_id", print_int (sj_job_id j));
   ("pid", print_int (sj_pid j));
   ("pgid", print_int (sj_pgid j));
   ("pid_acked", print_int (b2z (negb (pid_acked j =? 0))));
   ("time_pid_acked", print_int (time_pid_acked j));
   ("finish_acked", print_int (b2z (negb (finish_acked j =? 0))));
   ("time_finish_acked", print_int (time_finish_acked j));
   ("exit_status_valid", print_int (b2z (negb (exit_status_valid j =? 0))));
   ("exit_status", print_int (sj_exit_status j));
   ("end_time", print_int (sj_end_time j));
   ("user_cwd", sj_user_cwd j);
   ("user_home", sj_user_home j);
   ("uid", print_int (sj_uid j));
   ("group", print_int (sj_gid j));
   ("user", sj_user j)].

Definition state_line (kv : string * string) : string :=
  kv.1 +:+ "=" +:+ kv.2 +:+ newline_text.

Fixpoint state_lines (l : list (string * string)) : string :=
  match l with
  | [] => EmptyString
  | kv :: l' => state_line kv +:+ state_lines l'
  end.

Definition state_text (j : sbd_job) : string := state_lines (state_fields j).

(** [false] is -1. *)
Definition sbd_job_state_write (e : senv) (j : sbd_job) : sM bool :=
  let! c := gets sconf in
  match state_file_path c (sj_job_id j), tmp_state_file_path c (sj_job_id j),
        state_dir_path c (sj_job_id j) with
  | Some path, Some tmp, Some dir =>
      if (LL_BUFSIZ_4K <=? String.length (state_text j))%nat then ret false
      else
        let! err := store_file e tmp path (state_text j) [] in
        match err with
        | Some _ => ret false
        | None => let! _ := fsync_dir e dir in ret true
        end
  | _, _, _ => ret false
  end.

Definition is_eol (c : ascii) : bool := (code c =? 13) || (code c =? 10).

(** The job, the version and whether an id was seen, while the file is read. *)
Definition read_state : Type := sbd_job * Z * bool.

Definition state_set (key val : string) (st : read_state) : read_state :=
  let '(j, version, got) := st in
  let set (f : sbd_job -> sbd_job) : read_state := (f j, version, got) in
  if String.eqb key "version" then (j, atoi val, got)
  else if String.eqb key "job_id" then (j <| sj_job_id := atol val |>, version, true)
  else if String.eqb key "pid" then set (fun j => j <| sj_pid := i32 (atol val) |>)
  else if String.eqb key "pgid" then set (fun j => j <| sj_pgid := i32 (atol val) |>)
  else if String.eqb key "pid_acked" then set (fun j => j <| pid_acked := atoi val |>)
  else if String.eqb key "time_pid_acked" then set (fun j => j <| time_pid_acked := atol val |>)
  else if String.eqb key "finish_acked" then set (fun j => j <| finish_acked := atoi val |>)
  else if String.eqb key "time_finish_acked" then set (fun j => j <| time_finish_acked := atol val |>)
  else if String.eqb key "exit_status_valid" then set (fun j => j <| exit_status_valid := atoi val |>)
  else if String.eqb key "exit_status" then set (fun j => j <| sj_exit_status := atoi val |>)
  else if String.eqb key "end_time" then set (fun j => j <| sj_end_time := atol val |>)
  else if String.eqb key "user_cwd" then set (fun j => j <| sj_user_cwd := strbuf PATH_MAX val |>)
  else if String.eqb key "user_home" then set (fun j => j <| sj_user_home := strbuf PATH_MAX val |>)
  else if String.eqb key "uid" then set (fun j => j <| sj_uid := u32 (atoi val) |>)
  else if String.eqb key "group" then set (fun j => j <| sj_gid := u32 (atoi val) |>)
  else if String.eqb key "user" then set (fun j => j <| sj_user := strbuf LL_BUFSIZ_64 val |>)
  else st.

Definition state_read_line (line : string) (st : read_state) : read_state :=
  match strchr_split "=" line with
  | None => st
  | Some (key, rest) => state_set key (span (fun c => negb (is_eol c)) rest).1 st
  end.

(** Every round of [fgets] takes at least one character. *)
Fixpoint state_read_loop (fuel : nat) (fp : string) (st : read_state) : read_state :=
  match fuel, fgets LL_BUFSIZ_512 fp with
  | S fuel', Some (line, fp') => state_read_loop fuel' fp' (state_read_line line st)
  | _, _ => st
  end.

(** [fp] is the text of the file, [None] when it cannot be opened; the result
    [None] is -1. *)
Definition sbd_job_state_read (j : sbd_job) (fp : option string) : option sbd_job :=
  match fp with
  | None => None
  | Some text =>
      let '(j, version, got) := state_read_loop (String.length text) text (j, 0, false) in
      if negb (version =? 1) || negb got then None else Some j
  end.

(** ** The table of jobs *)

(** [calloc] of a job. *)
Definition sbd_job_zero : sbd_job :=
  mk_sbd_job 0 0 0 0 0 0 0 0 EmptyString EmptyString EmptyString EmptyString EmptyString
    EmptyString EmptyString EmptyString EmptyString EmptyString EmptyString
    0 0 0 0 0 0 0 0 0 0 0 0 (mk_job_res_usage 0 0 0).

(** A record that is not inserted is on no list: it is lost. *)
Definition sbd_job_insert (e : senv) (j : sbd_job) : sM unit :=
  let! t := gets sjobs in
  match t !! sj_job_id j with
  | Some _ => ret tt
  | None =>
      let! ok := sys_ok e SysHashInsert in
      if ok then modify (fun s => s <| sjobs ::= <[sj_job_id j := j]> |>
                                     <| sbd_job_list ::= fun l => l ++ [sj_job_id j] |>)
      else ret tt
  end.

Definition is_dot_entry (nm : string) : bool := String.eqb nm "." || String.eqb nm "..".

(** One entry of the state directory. *)
Definition load_entry (e : senv) (nm : string) : sM unit :=
  if is_dot_entry nm then ret tt
  else
    let! c := gets sconf in
    match make_path PATH_MAX (state_path_in c nm) with
    | None => ret tt
    | Some path =>
        let! ok := sys_ok e SysAlloc in
        if negb ok then ret tt
        else
          let! m := gets files in
          match sbd_job_state_read (sbd_job_zero <| sj_pid := -1 |> <| sj_pgid := -1 |>) (m !! path) with
          | None => ret tt
          | Some j => if negb (finish_acked j =? 0) then ret tt else sbd_job_insert e j
          end
    end.

(** [names] is the directory as readdir yields it, [None] when it cannot be opened;
    [false] is -1. *)
Definition sbd_job_state_load_all (e : senv) (names : option (list string)) : sM bool :=
  match names with
  | None => ret false
  | Some names => let! _ := s_iter (load_entry e) names in ret true
  end.

(** ** The exit file of the job script *)

(** The code and the time, [None] for -1. *)
Definition sbd_read_exit_status_file (c : sbd_conf) (m : gmap string string) (id : Z)
    : option (Z * Z) :=
  match make_path PATH_MAX (sbd_job_dir c +:+ "/" +:+ print_int id +:+ "/exit") with
  | None => None
  | Some path =>
      match m !! path with
      | None => None
      | Some text =>
          match scanf_ints [CInt; CLong] (String.substring 0 (LL_BUFSIZ_64 - 1) text) with
          | Some ([v; ts], _) => Some (v, ts)
          | _ => None
          end
      end
  end.

(** ** Removal and pruning *)

Definition sbd_job_file_remove (e : senv) (id : Z) : sM unit :=
  let! c := gets sconf in
  match job_dir_path c id with
  | None => ret tt
  | Some dir =>
      let! _ := s_iter (fun f => match make_path PATH_MAX (dir +:+ "/" +:+ f) with
                                 | None => ret tt
                                 | Some path => unlink e path
                                 end) ["job.sh"; "exit"] in
      let! _ := sys_call e (SysRmdir dir) in
      ret tt
  end.

Definition sbd_job_state_remove (e : senv) (id : Z) : sM unit :=
  let! c := gets sconf in
  match state_file_path c id, state_dir_path c id with
  | Some path, Some dir =>
      let! _ := unlink e path in
      let! _ := sys_call e (SysRmdir dir) in
      ret tt
  | _, _ => ret tt
  end.

Definition PRUNE_MAX_SCAN : nat := 4096.

(** [struct prune_entry]: the job and the time its finish was acknowledged. *)
Definition prune_entry : Type := Z * Z.

Definition prune_entry_cmp (a b : prune_entry) : Z :=
  if a.2 <? b.2 then -1 else if b.2 <? a.2 then 1 else 0.

Definition prune_entry_of (c : sbd_conf) (m : gmap string string) (nm : string) : option prune_entry :=
  if is_dot_file nm then None
  else
    match make_path PATH_MAX (state_path_in c nm) with
    | None => None
    | Some path =>
        match sbd_job_state_read sbd_job_zero (m !! path) with
        | None => None
        | Some j => if (finish_acked j =? 0) || (time_finish_acked j <=? 0) then None
                    else Some (sj_job_id j, time_finish_acked j)
        end
    end.

Fixpoint prune_scan (c : sbd_conf) (m : gmap string string) (names : list string)
    (entries : list prune_entry) : list prune_entry :=
  match names with
  | [] => entries
  | nm :: names' =>
      if (PRUNE_MAX_SCAN <=? length entries)%nat then entries
      else match prune_entry_of c m nm with
           | None => prune_scan c m names' entries
           | Some x => prune_scan c m names' (entries ++ [x])
           end
  end.

(** The entries the pruner removes: all but the newest [num_jobs_retain]. *)
Definition prune_victims `{QSort} (c : sbd_conf) (entries : list prune_entry) : list prune_entry :=
  if Z.of_nat (length entries) <=? num_jobs_retain c then []
  else take (Z.to_nat (Z.of_nat (length entries) - num_jobs_retain c)) (qsort prune_entry_cmp entries).

Definition sbd_prune_jobs `{QSort} (e : senv) (names : option (list string)) : sM unit :=
  match names with
  | None => ret tt
  | Some names =>
      let! c := gets sconf in
      let! m := gets files in
      s_iter (fun x : prune_entry =>
                let! _ := sbd_job_file_remove e x.1 in
                sbd_job_state_remove e x.1)
             (prune_victims c (prune_scan c m names []))
  end.

(** The pruner is a child; [sbd_prune_jobs] is what it runs. *)
Definition sbd_prune_jobs_try (e : senv) : sM unit :=
  let! p := gets pruner_pid in
  if 0 <? p then ret tt
  else
    let! last := gets last_prune in
    let! c := gets sconf in
    if s_now e - last <? prune_interval c then ret tt
    else
      let! _ := modify (fun s => s <| last_prune := s_now e |>) in
      let! pid := sys_call e SysForkPruner in
      if 0 <? pid then modify (fun s => s <| pruner_pid := pid |>)
      else modify (fun s => s <| pruner_pid := 0 |>).

(** ** Start: directories and parameters *)

Definition mkdir_chmod (e : senv) (path : string) : sM bool :=
  let! r := sys_call e (SysMkdir path) in
  if negb (r =? 0) && negb (r =? EEXIST) then ret false
  else sys_ok e (SysChmod path).

(** A parameter with a default for a text that is not a number or not positive. *)
Definition positive_param (val : string) (default : Z) : Z :=
  match ll_atoi val with
  | None => default
  | Some v => if v <=? 0 then default else v
  end.

(** [None] is -1; [ok_dir] says which paths are directories. *)
Definition sbd_storage_init (e : senv) (ok_dir : string -> bool)
    (ll_state_dir prune retain : string) (c : sbd_conf) : sM (option sbd_conf) :=
  match make_path PATH_MAX (ll_state_dir +:+ "/sbd") with
  | None => ret None
  | Some parent =>
      let! ok := mkdir_chmod e parent in
      if negb ok then ret None
      else
        let! named := (if String.eqb (sim_name c) EmptyString then sys_ok e SysGethostname else ret true) in
        if negb named then ret None
        else
          let host := if String.eqb (sim_name c) EmptyString
                      then strbuf MAXHOSTNAMELEN (hostname e) else sim_name c in
          match make_path PATH_MAX (ll_state_dir +:+ "/sbd/" +:+ host) with
          | None => ret None
          | Some root =>
              let! ok := mkdir_chmod e root in
              if negb ok then ret None
              else
                match make_path PATH_MAX (root +:+ "/jobs") with
                | None => ret None
                | Some jobs_dir =>
                    let! ok := mkdir_chmod e jobs_dir in
                    if negb ok then ret None
                    else
                      match make_path PATH_MAX (root +:+ "/state") with
                      | None => ret None
                      | Some state_dir =>
                          let! ok := mkdir_chmod e state_dir in
                          if negb ok then ret None
                          else if negb (ok_dir root && ok_dir jobs_dir && ok_dir state_dir) then ret None
                          else ret (Some (mk_sbd_conf jobs_dir state_dir
                                 (positive_param prune 900) (positive_param retain 100)
                                 (sbd_timer c) (sbd_resend_timer c) (sim_name c) (cg_base c)))
                      end
                end
          end
  end.
