(* ===== verification/SbdState.v ===== *)
(** * The state file round trips (src/batch/sbd/slog.c)

    What is written by [sbd_job_state_write] is what [sbd_job_state_read] reads
    back, and the paths of the daemon's files do not collide. *)

From S2P Require Import Prelude CString LlHash Dependency LogFormat MbdTypes MbdBase MbdJob MbdSched MbdNet SbdTypes SbdStore.

Open Scope string_scope.
Open Scope list_scope.
Open Scope Z_scope.

(** ** Strings *)

Lemma string_app_inj_r a b c d :
  String.length b = String.length d -> a +:+ b = c +:+ d -> a = c /\ b = d.
Proof.
  intros Hl. revert c. induction a as [|x a IH]; intros [|y c]; cbn; intros H.
  - done.
  - apply (f_equal String.length) in H. cbn in H. rewrite string_length_app in H. lia.
  - apply (f_equal String.length) in H. cbn in H. rewrite string_length_app in H. lia.
  - injection H as -> H. destruct (IH c H) as [-> ->]. done.
Qed.

Lemma span_stop f s c r :
  forall_chars f s = true -> f c = false -> (span f (s +:+ String c r)).1 = s.
Proof.
  intros Hs Hc. induction s as [|d s IH]; cbn; [by rewrite Hc|].
  cbn in Hs. apply andb_prop in Hs as [H1 H2]. rewrite H1.
  specialize (IH H2). destruct (span f (s +:+ String c r)). cbn in *. by rewrite IH.
Qed.

(** ** Numbers *)

Lemma is_i32_i64 v : is_i32 v = true -> is_i64 v = true.
Proof. unfold is_i32, is_i64. intros [H1 H2]%andb_prop. b2p. lia. Qed.

Lemma is_u32_i64 v : is_u32 v = true -> is_i64 v = true.
Proof. unfold is_u32, is_i64. intros [H1 H2]%andb_prop. b2p. lia. Qed.

Lemma atol_print v : is_i64 v = true -> atol (print_int v) = v.
Proof.
  intros Hv. unfold is_i64 in Hv. apply andb_prop in Hv as [H1 H2]. b2p.
  unfold atol, strtoll. rewrite <- (string_app_nil_r (print_int v)), print_int_scan by (done || lia).
  unfold saturate64. lia.
Qed.

Lemma is_i32_cut v : is_i32 v = true -> i32 v = v.
Proof. unfold is_i32. intros [H1 H2]%andb_prop. b2p. apply i32_small. lia. Qed.

Lemma atoi_print v : is_i32 v = true -> atoi (print_int v) = v.
Proof. intros Hv. unfold atoi. rewrite atol_print by by apply is_i32_i64. by apply is_i32_cut. Qed.

Lemma atoi_print_unsigned v : is_u32 v = true -> u32 (atoi (print_int v)) = v.
Proof.
  intros Hv. unfold atoi. rewrite atol_print by by apply is_u32_i64.
  unfold is_u32 in Hv. apply andb_prop in Hv as [H1 H2]. b2p. unfold u32, i32.
  rewrite Zminus_mod, Zmod_mod, <- Zminus_mod. rewrite Z.mod_small; lia.
Qed.

Lemma b2z_is_i32 b : is_i32 (b2z b) = true.
Proof. by destruct b. Qed.

(** ** One line *)

Definition line_ok (kv : string * string) : bool :=
  forall_chars (fun c => negb (Ascii.eqb c "=") && not_newline c) kv.1 &&
  forall_chars (fun c => negb (is_eol c)) kv.2 &&
  (String.length kv.1 + String.length kv.2 <? 510)%nat.

Lemma not_eol_newline c : negb (is_eol c) = true -> not_newline c = true.
Proof. unfold not_newline. destruct (Ascii.eqb_spec c newline) as [->|]; [by vm_compute|done]. Qed.

Lemma state_line_read kv st :
  line_ok kv = true -> state_read_line (state_line kv) st = state_set kv.1 kv.2 st.
Proof.
  destruct kv as [k v]. unfold line_ok, state_read_line, state_line. cbn [fst snd].
  intros [[Hk Hv]%andb_prop _]%andb_prop.
  change ("=" +:+ v +:+ newline_text) with (String "=" (v +:+ newline_text)).
  rewrite strchr_split_app by (eapply forall_chars_impl; [|exact Hk]; by intros c [? _]%andb_prop).
  unfold newline_text. by rewrite span_stop.
Qed.

Lemma state_line_fgets kv rest :
  line_ok kv = true ->
  fgets LL_BUFSIZ_512 (state_line kv +:+ rest) = Some (state_line kv, rest).
Proof.
  destruct kv as [k v]. unfold line_ok, state_line, newline_text. cbn [fst snd].
  intros [[Hk Hv]%andb_prop Hl]%andb_prop. apply Nat.ltb_lt in Hl.
  replace ((k +:+ "=" +:+ v +:+ String newline EmptyString) +:+ rest)
    with ((k +:+ "=" +:+ v) +:+ String newline rest) by by rewrite <- !string_app_assoc.
  replace (k +:+ "=" +:+ v +:+ String newline EmptyString)
    with ((k +:+ "=" +:+ v) +:+ String newline EmptyString) by by rewrite <- !string_app_assoc.
  unfold fgets. rewrite fgets_from_line.
  - destruct ((k +:+ "=" +:+ v) +:+ String newline rest) eqn:E; [|done].
    by destruct (k +:+ "=" +:+ v).
  - rewrite !forall_chars_app. cbn [forall_chars]. apply andb_true_intro. split.
    + eapply forall_chars_impl; [|exact Hk]. by intros c [_ ?]%andb_prop.
    + apply andb_true_intro. split; [done|].
      eapply forall_chars_impl; [|exact Hv]. apply not_eol_newline.
  - rewrite !string_length_app. unfold LL_BUFSIZ_512. cbn [String.length]. lia.
Qed.

Lemma state_read_lines l fuel st :
  forallb line_ok l = true -> (length l <= fuel)%nat ->
  state_read_loop fuel (state_lines l) st = foldl (fun st kv => state_set kv.1 kv.2 st) st l.
Proof.
  revert fuel st. induction l as [|kv l IH]; intros fuel st Hl Hf; [by destruct fuel|].
  cbn [forallb] in Hl. apply andb_prop in Hl as [H1 H2]. destruct fuel as [|fuel]; cbn [length] in Hf; [lia|].
  cbn [state_lines state_read_loop]. rewrite state_line_fgets, state_line_read by done.
  apply IH; [done|lia].
Qed.

Lemma state_lines_length l : (length l <= String.length (state_lines l))%nat.
Proof.
  induction l as [|[k v] l IH]; cbn [state_lines length]; [lia|].
  unfold state_line. rewrite !string_length_app. cbn [String.length fst snd]. lia.
Qed.

(** ** The whole file *)

(** The fields fit their types, the texts hold no end of line and their lines fit
    the reader's buffer. *)
Definition state_fits (j : sbd_job) : bool :=
  forallb is_i64 [sj_job_id j; time_pid_acked j; time_finish_acked j; sj_end_time j] &&
  forallb is_i32 [sj_pid j; sj_pgid j; sj_exit_status j] &&
  forallb is_u32 [sj_uid j; sj_gid j] &&
  forallb (forall_chars (fun c => negb (is_eol c))) [sj_user_cwd j; sj_user_home j; sj_user j] &&
  (String.length (sj_user_cwd j) <=? 500)%nat && (String.length (sj_user_home j) <=? 500)%nat &&
  (String.length (sj_user j) <? 64)%nat.

(** The record a restarted daemon has for a job it wrote as [d]: the rest of [j0]
    is what it was before. *)
Definition reload (j0 d : sbd_job) : sbd_job :=
  mk_sbd_job (sj_job_id d) (sj_pid d) (sj_pgid d) (sj_uid d) (sj_gid d) (sj_umask j0) (sj_ncpus j0)
    (sj_mem_mb j0) (sj_user d) (sj_user_home d) (sj_user_cwd d) (sj_command j0) (sj_job_name j0)
    (sj_queue j0) (sj_hosts j0) (sj_gpu_assigned j0) (sj_in_file j0) (sj_out_file j0) (sj_err_file j0)
    (terminate_time j0) (terminate_kill_time j0)
    (b2z (negb (pid_acked d =? 0))) (time_pid_acked d) (reply_last_send j0)
    (b2z (negb (finish_acked d =? 0))) (time_finish_acked d) (finish_last_send j0) (retry_exit_count j0)
    (sj_exit_status d) (b2z (negb (exit_status_valid d =? 0))) (sj_end_time d) (res_usage j0).

Lemma print_int_not_eol v : forall_chars (fun c => negb (is_eol c)) (print_int v) = true.
Proof.
  apply print_int_chars; [|done]. intros c. unfold isdigit, is_eol. intros [H1 H2]%andb_prop. b2p. lia.
Qed.

Lemma number_line_ok k v :
  line_ok (k, EmptyString) = true -> (String.length k < 100)%nat -> line_ok (k, print_int v) = true.
Proof.
  unfold line_ok. cbn [fst snd]. intros [[H1 _]%andb_prop _]%andb_prop Hk.
  rewrite H1, print_int_not_eol. cbn [andb]. apply Nat.ltb_lt. pose proof (print_int_length v). lia.
Qed.

Lemma text_line_ok k v :
  line_ok (k, EmptyString) = true -> forall_chars (fun c => negb (is_eol c)) v = true ->
  (String.length k <= 9)%nat -> (String.length v <= 500)%nat -> line_ok (k, v) = true.
Proof.
  unfold line_ok. cbn [fst snd]. intros [[H1 _]%andb_prop _]%andb_prop Hv Hk Hl.
  rewrite H1, Hv. cbn [andb]. apply Nat.ltb_lt. lia.
Qed.

Lemma state_fits_inv d :
  state_fits d = true ->
  (is_i64 (sj_job_id d) = true /\ is_i64 (time_pid_acked d) = true /\
   is_i64 (time_finish_acked d) = true /\ is_i64 (sj_end_time d) = true) /\
  (is_i32 (sj_pid d) = true /\ is_i32 (sj_pgid d) = true /\ is_i32 (sj_exit_status d) = true) /\
  (is_u32 (sj_uid d) = true /\ is_u32 (sj_gid d) = true) /\
  (forall_chars (fun c => negb (is_eol c)) (sj_user_cwd d) = true /\
   forall_chars (fun c => negb (is_eol c)) (sj_user_home d) = true /\
   forall_chars (fun c => negb (is_eol c)) (sj_user d) = true) /\
  (String.length (sj_user_cwd d) <= 500)%nat /\ (String.length (sj_user_home d) <= 500)%nat /\
  (String.length (sj_user d) < 64)%nat.
Proof.
  unfold state_fits. cbn [forallb]. rewrite !andb_true_r, !andb_true_iff, !Nat.leb_le, Nat.ltb_lt. tauto.
Qed.

Lemma state_fits_intro d :
  is_i64 (sj_job_id d) = true -> is_i64 (time_pid_acked d) = true ->
  is_i64 (time_finish_acked d) = true -> is_i64 (sj_end_time d) = true ->
  is_i32 (sj_pid d) = true -> is_i32 (sj_pgid d) = true -> is_i32 (sj_exit_status d) = true ->
  is_u32 (sj_uid d) = true -> is_u32 (sj_gid d) = true ->
  forall_chars (fun c => negb (is_eol c)) (sj_user_cwd d) = true ->
  forall_chars (fun c => negb (is_eol c)) (sj_user_home d) = true ->
  forall_chars (fun c => negb (is_eol c)) (sj_user d) = true ->
  (String.length (sj_user_cwd d) <= 500)%nat -> (String.length (sj_user_home d) <= 500)%nat ->
  (String.length (sj_user d) < 64)%nat -> state_fits d = true.
Proof.
  intros. unfold state_fits. cbn [forallb].
  rewrite !andb_true_r, !andb_true_iff, !Nat.leb_le, Nat.ltb_lt. tauto.
Qed.

Lemma state_fields_ok d : state_fits d = true -> forallb line_ok (state_fields d) = true.
Proof.
  intros (_ & _ & _ & (Hc & Hh & Hu) & Lc & Lh & Lu)%state_fits_inv. unfold state_fields. cbn [forallb].
  rewrite !andb_true_iff. split_and!; try done;
    first [apply number_line_ok; [done|cbn; lia]
          |apply text_line_ok; [done|done|cbn; lia|lia]].
Qed.

Lemma state_text_length d : state_fits d = true -> (String.length (state_text d) < 4096)%nat.
Proof.
  intros (_ & _ & _ & _ & Lc & Lh & Lu)%state_fits_inv. unfold state_text, state_fields.
  cbn [state_lines]. unfold state_line, newline_text. rewrite !string_length_app. cbn [fst snd String.length].
  repeat match goal with
  | |- context [String.length (print_int ?v)] =>
      let H := fresh in pose proof (print_int_length v) as H; revert H; generalize (String.length (print_int v)); intros
  end. lia.
Qed.

Lemma state_read_written j0 d :
  state_fits d = true -> sbd_job_state_read j0 (Some (state_text d)) = Some (reload j0 d).
Proof.
  intros Hd. unfold sbd_job_state_read, state_text.
  rewrite state_read_lines by (by apply state_fields_ok || apply state_lines_length).
  apply state_fits_inv in Hd as ((I1 & I2 & I3 & I4) & (J1 & J2 & J3) & (U1 & U2) & _ & Lc & Lh & Lu).
  unfold state_fields. cbn.
  rewrite !atol_print by (done || by apply is_i32_i64).
  rewrite !atoi_print_unsigned by done.
  rewrite !atoi_print by (done || apply b2z_is_i32). rewrite !is_i32_cut by done.
  rewrite !strbuf_fits by (unfold PATH_MAX, LL_BUFSIZ_64; lia).
  done.
Qed.

(** ** Paths *)

(** The directories are those of [sbd_storage_init], and no path is too long. *)
Definition conf_ok (c : sbd_conf) : Prop :=
  exists root, sbd_job_dir c = root +:+ "/jobs" /\ sbd_state_dir c = root +:+ "/state" /\
               (String.length root + 48 < PATH_MAX)%nat.

Lemma make_path_short s : (String.length s < PATH_MAX)%nat -> make_path PATH_MAX s = Some s.
Proof. intros H. unfold make_path. by rewrite (proj2 (Nat.ltb_lt _ _) H). Qed.

Lemma make_path_Some n s p : make_path n s = Some p -> p = s.
Proof. unfold make_path. by case_match; intros [=]. Qed.

Section paths.
Context (c : sbd_conf) (Hc : conf_ok c).

Lemma state_file_path_ok id : state_file_path c id = Some (state_path_in c (print_int id)).
Proof using Hc.
  destruct Hc as (root & Hj & Hs & Hl). apply make_path_short. unfold state_path_in. rewrite Hs.
  rewrite !string_length_app. pose proof (print_int_length id). cbn [String.length]. lia.
Qed.

Lemma state_dir_path_ok id : state_dir_path c id = Some (sbd_state_dir c +:+ "/" +:+ print_int id).
Proof using Hc.
  destruct Hc as (root & Hj & Hs & Hl). apply make_path_short. rewrite Hs.
  rewrite !string_length_app. pose proof (print_int_length id). cbn [String.length]. lia.
Qed.

Lemma tmp_state_file_path_ok id :
  tmp_state_file_path c id = Some (sbd_state_dir c +:+ "/" +:+ print_int id +:+ "/tmp.state").
Proof using Hc.
  destruct Hc as (root & Hj & Hs & Hl). apply make_path_short. rewrite Hs.
  rewrite !string_length_app. pose proof (print_int_length id). cbn [String.length]. lia.
Qed.

(** Nothing under the job directory is a state file. *)
Lemma job_file_not_state p nm : sbd_job_dir c +:+ p <> state_path_in c nm.
Proof using Hc.
  destruct Hc as (root & Hj & Hs & Hl). unfold state_path_in. rewrite Hj, Hs, <- !string_app_assoc.
  intros H%string_app_inj_l. discriminate H.
Qed.
End paths.

Lemma state_path_inj c a b : state_path_in c a = state_path_in c b -> a = b.
Proof.
  unfold state_path_in. intros H%string_app_inj_l%string_app_inj_l.
  by apply string_app_inj_r in H as [-> _].
Qed.

Lemma tmp_not_state c id nm :
  sbd_state_dir c +:+ "/" +:+ print_int id +:+ "/tmp.state" <> state_path_in c nm.
Proof.
  unfold state_path_in. intros H%string_app_inj_l%string_app_inj_l.
  change ("/tmp.state") with ("/tmp" +:+ ".state") in H. rewrite string_app_assoc in H.
  apply string_app_inj_r in H as [_ H]; [discriminate H|done].
Qed.

Global Arguments state_text : simpl never.
Global Arguments state_path_in : simpl never.
Global Arguments print_int : simpl never.
