(* ===== verification/SbdJob.v ===== *)
(** * Control groups and jobs of the execution daemon
      (src/batch/sbd/scgroup.c, sjob.c, snet.c)

    The limits and the usage of a job through its control group, the channel to
    mbd, the start of a job, its reports and their acknowledgements, signals. *)

From S2P Require Import Prelude CString LlHash Dependency LogFormat MbdTypes MbdBase MbdJob MbdSched MbdNet SbdTypes SbdStore.

Open Scope string_scope.
Open Scope list_scope.
Open Scope Z_scope.

(** ** Control groups *)

(** A path of the job's group, in a buffer of CG_PATH_MAX. *)
Definition cg_path (c : sbd_conf) (id : Z) (knob : string) : string :=
  strbuf LL_BUFSIZ_8K (cg_base c +:+ "/job_" +:+ print_int id +:+ knob).

Definition cg_write (e : senv) (path val : string) : sM bool := sys_ok e (SysCgWrite path val).

(** The base of the groups, [None] when limits cannot be enforced; the base is set as
    soon as the text fits. *)
Definition cgroup_init (e : senv) (root : string) : sM (option string) :=
  if (String.length root =? 0)%nat || (LL_BUFSIZ_4K <=? String.length root)%nat then ret None
  else
    let! r := sys_call e (SysMkdir root) in
    if negb (r =? 0) && negb (r =? EEXIST) then ret None
    else
      let! ok := cg_write e (strbuf LL_BUFSIZ_8K (root +:+ "/cgroup.subtree_control")) "+memory +cpu" in
      ret (if ok then Some root else None).

Definition cgroup_job_create (e : senv) (id mem_mb ncpus : Z) : sM bool :=
  let! c := gets sconf in
  let! r := sys_call e (SysMkdir (cg_path c id EmptyString)) in
  if negb (r =? 0) && negb (r =? EEXIST) then ret false
  else
    let! _ := (if 0 <? mem_mb
               then cg_write e (cg_path c id "/memory.max") (print_int (u64 (mem_mb * 1024 * 1024)))
               else ret true) in
    let! _ := (if 0 <? ncpus
               then cg_write e (cg_path c id "/cpu.max") (print_int (i32 (ncpus * 100000)) +:+ " 100000")
               else ret true) in
    ret true.

Definition cgroup_job_destroy (e : senv) (id : Z) : sM unit :=
  let! c := gets sconf in
  let! _ := sys_call e (SysRmdir (cg_path c id EmptyString)) in
  ret tt.

Definition cgroup_job_freeze (e : senv) (id : Z) : sM bool :=
  let! c := gets sconf in cg_write e (cg_path c id "/cgroup.freeze") "1".

Definition cgroup_job_thaw (e : senv) (id : Z) : sM bool :=
  let! c := gets sconf in cg_write e (cg_path c id "/cgroup.freeze") "0".

Definition cgroup_job_kill (e : senv) (id : Z) : sM bool :=
  let! c := gets sconf in cg_write e (cg_path c id "/cgroup.kill") "1".

Definition strtoull (s : string) : Z :=
  match scan_number s with Some (v, _) => saturate_u64 v | None => 0 end.

(** The number a file holds, [None] for -1. *)
Definition cg_read_u64 (e : senv) (path : string) : option Z :=
  match cg_file e path with
  | None | Some EmptyString => None
  | Some text => Some (strtoull (String.substring 0 (LL_BUFSIZ_32 - 1) text))
  end.

Definition usage_key : string := "usage_usec ".

Fixpoint cpu_usec_loop (fuel : nat) (fp : string) : option Z :=
  match fuel, fgets LL_BUFSIZ_64 fp with
  | S fuel', Some (line, fp') =>
      if String.prefix usage_key line
      then Some (strtoull (String.substring 11 (String.length line) line))
      else cpu_usec_loop fuel' fp'
  | _, _ => None
  end.

Definition cg_read_cpu_usec (e : senv) (path : string) : option Z :=
  match cg_file e path with
  | None => None
  | Some text => cpu_usec_loop (String.length text) text
  end.

(** The peak, the current value when there is no peak, 0 when there is neither. *)
Definition cg_peak_or_current (e : senv) (peak current : string) : Z :=
  match cg_read_u64 e peak with
  | Some v => v
  | None => default 0 (cg_read_u64 e current)
  end.

Definition cgroup_job_collect (e : senv) (c : sbd_conf) (id : Z) : job_res_usage :=
  mk_job_res_usage
    (cg_peak_or_current e (cg_path c id "/memory.peak") (cg_path c id "/memory.current") / (1024 * 1024))
    (cg_peak_or_current e (cg_path c id "/memory.swap.peak") (cg_path c id "/memory.swap.current") / (1024 * 1024))
    (default 0 (cg_read_cpu_usec e (cg_path c id "/cpu.stat"))).

(** ** The channel to mbd *)

Definition sbd_mbd_link_ready : sM bool := gets (fun s => 0 <=? sbd_mbd_chan s).

Definition sbd_mbd_link_down (e : senv) : sM unit :=
  let! _ := modify (fun s => s <| sbd_mbd_chan := -1 |>) in
  for_jobs (fun id =>
    let! _ := upd_sjob id (fun j => j <| reply_last_send := 0 |> <| finish_last_send := 0 |>) in
    let! j := get_job id in
    let! ok := sbd_job_state_write e j in
    if ok then ret tt else sbd_fatal SBD_FATAL_STORAGE).

(** [false] is -1. *)
Definition sbd_send_msg (e : senv) (op : batch_op) (status : Z) (body : sbd_body) : sM bool :=
  let! ok := sys_ok e SysSign in
  if negb ok then ret false
  else
    let! ready := sbd_mbd_link_ready in
    let! ok := sys_ok e SysEnqueue in
    if negb (ready && ok) then let! _ := sbd_mbd_link_down e in ret false
    else
      let! _ := modify (fun s => s <| soutbox ::= fun l => l ++ [mk_sbd_out op status body] |>) in
      ret true.

Definition sbd_register (e : senv) : sM bool :=
  let! ready := sbd_mbd_link_ready in
  if negb ready then ret false
  else
    let! ok := sys_ok e SysGethostname in
    if negb ok then sbd_fatal SbdAbort
    else
      let! c := gets sconf in
      let host := if String.eqb (sim_name c) EmptyString then hostname e else sim_name c in
      sbd_send_msg e BATCH_SBD_REGISTER MBD_OK (OutRegister (strbuf MAXHOSTNAMELEN host)).

(** A new channel, registered with epoll; a negative answer is a failure of any of
    the steps, all of which close the channel. *)
Definition sbd_mbd_connect (e : senv) : sM bool :=
  let! chan := sys_call e SysConnect in
  if chan <? 0 then let! _ := modify (fun s => s <| sbd_mbd_chan := -1 |>) in ret false
  else let! _ := modify (fun s => s <| sbd_mbd_chan := chan |>) in ret true.

(** ** Start of a job *)

Definition first_char_set (s : string) : bool :=
  match s with EmptyString => false | _ => true end.

(** The record of a job just received; the asserts on it end the daemon. *)
Definition sbd_job_of (ws : wire_job_start) (wf : wire_job_files) : sbd_job :=
  mk_sbd_job (ws_job_id ws) (-1) (-1) (u32 (ws_uid ws)) (u32 (ws_gid ws)) (wf_umask wf)
    (ws_ncpus ws) (ws_mem_mb ws)
    (strbuf LL_BUFSIZ_64 (ws_username ws))
    (strbuf PATH_MAX (wf_home_dir wf))
    (strbuf PATH_MAX (if first_char_set (wf_cwd wf) then wf_cwd wf else wf_home_dir wf))
    (strbuf LL_BUFSIZ_512 (wf_command wf))
    (strbuf LL_BUFSIZ_256 (ws_job_name ws))
    (strbuf LL_BUFSIZ_64 (ws_queue ws))
    (strbuf LL_BUFSIZ_8K (ws_hosts ws))
    (strbuf LL_BUFSIZ_64 (ws_gpu_assigned ws))
    (strbuf PATH_MAX (wf_in_file wf))
    (strbuf PATH_MAX (wf_out_file wf))
    (strbuf PATH_MAX (wf_err_file wf))
    (ws_term_time ws) 0 0 0 0 0 0 0 0 0 0 0 (mk_job_res_usage 0 0 0).

(** [None] is NULL. *)
Definition sbd_job_create (e : senv) (ws : wire_job_start) (wf : wire_job_files) : sM (option sbd_job) :=
  let! ok := sys_ok e SysAlloc in
  if negb ok then ret None
  else
    let j := sbd_job_of ws wf in
    let! _ := s_assert (first_char_set (sj_user j)) in
    let! _ := s_assert (first_char_set (sj_user_home j)) in
    let! _ := s_assert (first_char_set (sj_user_cwd j)) in
    ret (Some j).

Definition sbd_job_find (id : Z) : sM (option sbd_job) := gets (fun s => sjobs s !! id).

Definition sbd_job_new_reply_err (e : senv) (id err : Z) : sM bool :=
  sbd_send_msg e BATCH_NEW_JOB_REPLY err
    (OutReply (mk_wire_job_reply id 0 0 (job_state_num JOB_PENDING))).

Definition sbd_job_new_reply (e : senv) (j : sbd_job) : sM bool :=
  let! ready := sbd_mbd_link_ready in
  if negb ready then ret false
  else sbd_send_msg e BATCH_NEW_JOB_REPLY MBD_OK
         (OutReply (mk_wire_job_reply (sj_job_id j) (sj_pid j) (sj_pgid j) (job_state_num JOB_RUNNING))).

(** These return [Some errno] when they fail. *)
Definition make_job_dir (e : senv) (j : sbd_job) : sM (option Z) :=
  let! c := gets sconf in
  match job_dir_path c (sj_job_id j) with
  | None => ret (Some (stale_errno e))
  | Some dir =>
      let! r := sys_call e (SysMkdir dir) in
      if negb (r =? 0) && negb (r =? EEXIST) then ret (Some r)
      else all_ok e [SysChmod dir; SysChown dir]
  end.

Definition make_state_dir (e : senv) (j : sbd_job) : sM (option Z) :=
  let! c := gets sconf in
  match state_dir_path c (sj_job_id j) with
  | None => ret (Some ENAMETOOLONG)
  | Some dir =>
      let! r := sys_call e (SysMkdir dir) in
      if negb (r =? 0) && negb (r =? EEXIST) then ret (Some r) else ret None
  end.

Definition sbd_job_script_write (e : senv) (j : sbd_job) (script : string) : sM (option Z) :=
  let! c := gets sconf in
  match make_path PATH_MAX (sbd_job_dir c +:+ "/" +:+ print_int (sj_job_id j) +:+ "/job.sh") with
  | None => ret (Some ENAMETOOLONG)
  | Some path =>
      match make_path PATH_MAX (path +:+ ".tmp") with
      | None => ret (Some ENAMETOOLONG)
      | Some tmp =>
          let! err := store_file e tmp path script [SysChmod tmp; SysChown tmp] in
          match err with
          | Some r => ret (Some r)
          | None => let! _ := fsync_dir e (sbd_job_dir c) in ret None
          end
      end
  end.

(** The parent's side of the fork: the job with its pid, or the errno. *)
Definition spawn_job (e : senv) (j : sbd_job) : sM (Z + sbd_job) :=
  let! _ := cgroup_job_create e (sj_job_id j) (sj_mem_mb j) (sj_ncpus j) in
  let! pid := sys_call e (SysFork (sj_job_id j)) in
  if 0 <? pid then ret (inr (j <| sj_pid := pid |> <| sj_pgid := pid |>))
  else ret (inl (- pid)).

(** [sbd_job_new] *)
Definition sbd_job_new (e : senv) (m : option (wire_job_start * wire_job_files)) : sM unit :=
  match m with
  | None => ret tt
  | Some (ws, wf) =>
      let id := ws_job_id ws in
      let refuse err := sbd_job_new_reply_err e id err in
      let! found := sbd_job_find id in
      match found with
      | Some j => let! _ := sbd_job_new_reply e j in ret tt
      | None =>
          let! made := sbd_job_create e ws wf in
          match made with
          | None => let! _ := refuse ENOMEM in ret tt
          | Some j =>
              let! err := make_job_dir e j in
              match err with
              | Some err => let! _ := refuse err in ret tt
              | None =>
                  let! err := make_state_dir e j in
                  match err with
                  | Some err =>
                      let! _ := refuse err in
                      sbd_job_file_remove e id
                  | None =>
                      let! err := sbd_job_script_write e j (wf_script wf) in
                      match err with
                      | Some err =>
                          let! _ := refuse err in
                          let! _ := sbd_job_file_remove e id in
                          sbd_job_state_remove e id
                      | None =>
                          let! r := spawn_job e j in
                          match r with
                          | inl err =>
                              let! _ := refuse err in
                              let! _ := sbd_job_file_remove e id in
                              sbd_job_state_remove e id
                          | inr j =>
                              let! _ := sbd_job_insert e j in
                              let! ok := sbd_job_state_write e j in
                              if negb ok then sbd_fatal SBD_FATAL_STORAGE
                              else
                                let! ok := sbd_job_new_reply e j in
                                if negb ok then ret tt
                                else upd_sjob id (fun j => j <| reply_last_send := s_now e |>)
                          end
                      end
                  end
              end
          end
      end
  end.

(** ** Reports and acknowledgements *)

Definition sbd_job_new_reply_ack (e : senv) (a : option wire_job_ack) : sM unit :=
  match a with
  | None => ret tt
  | Some a =>
      let id := ack_job_id a in
      let! found := sbd_job_find id in
      match found with
      | None => ret tt
      | Some j =>
          if pid_acked j =? 1 then ret tt
          else
            let! _ := upd_sjob id (fun j => j <| pid_acked := 1 |> <| time_pid_acked := s_now e |>) in
            let! j := get_job id in
            let! ok := sbd_job_state_write e j in
            if negb ok then sbd_fatal SBD_FATAL_STORAGE
            else s_assert (finish_acked j =? 0)
      end
  end.

Definition WIFEXITED (st : Z) : bool := Z.land st 127 =? 0.
Definition WEXITSTATUS (st : Z) : Z := Z.shiftr (Z.land st 65280) 8.

(** What is reported to mbd for an exit status. *)
Definition finish_state (st : Z) : Z :=
  if WIFEXITED st && (WEXITSTATUS st =? 0) then JOB_SUCCESS else JOB_FAILURE.

(** [false] is -1. *)
Definition sbd_job_finish (e : senv) (id : Z) : sM bool :=
  let! ready := sbd_mbd_link_ready in
  if negb ready then ret false
  else
    let! j := get_job id in
    let! _ := s_assert (negb (pid_acked j =? 0)) in
    let! _ := s_assert (finish_acked j =? 0) in
    let! _ := s_assert (negb (exit_status_valid j =? 0)) in
    let! c := gets sconf in
    let u := cgroup_job_collect e c (sj_job_id j) in
    let! _ := upd_sjob id (fun j => j <| res_usage := u |>) in
    sbd_send_msg e BATCH_JOB_FINISH MBD_OK
      (OutFinish (mk_wire_job_finish (sj_job_id j) (finish_state (sj_exit_status j)) (sj_exit_status j) 0) u).

Definition sbd_job_finish_ack (e : senv) (a : option wire_job_ack) : sM unit :=
  match a with
  | None => ret tt
  | Some a =>
      if negb (bool_decide (ack_op a = BATCH_JOB_FINISH)) then sbd_fatal SbdAbort
      else
        let id := ack_job_id a in
        let! found := sbd_job_find id in
        match found with
        | None => ret tt
        | Some j =>
            if negb (finish_acked j =? 0) then ret tt
            else if exit_status_valid j =? 0 then sbd_fatal SBD_FATAL_INVARIANT
            else
              let! _ := upd_sjob id (fun j => j <| finish_acked := 1 |> <| time_finish_acked := s_now e |>) in
              let! j := get_job id in
              let! ok := sbd_job_state_write e j in
              if negb ok then sbd_fatal SBD_FATAL_STORAGE
              else
                let! _ := modify (fun s => s <| sjobs ::= delete id |>
                                            <| sbd_job_list ::= filter (fun i => i <> id) |>) in
                cgroup_job_destroy e id
        end
  end.

(** ** Signals *)

(** The status of a signal for the job found under its id. *)
Definition deliver_signal (e : senv) (id : Z) (j : sbd_job) (sig : Z) : sM Z :=
  if sj_pgid j <=? 0 then ret ESRCH
  else if sig =? SIGSTOP then
    let! ok := cgroup_job_freeze e id in ret (if ok then MBD_OK else ESRCH)
  else if sig =? SIGCONT then
    let! ok := cgroup_job_thaw e id in ret (if ok then MBD_OK else ESRCH)
  else if sig =? SIGKILL then
    let! ok := cgroup_job_kill e id in ret (if ok then MBD_OK else ESRCH)
  else
    let! r := sys_call e (SysKillpg (sj_pgid j) sig) in
    ret (if r =? 0 then MBD_OK else r).

Definition sbd_job_signal (e : senv) (m : option wire_job_sig) : sM unit :=
  match m with
  | None => ret tt
  | Some sg =>
      let! found := sbd_job_find (sig_job_id sg) in
      let! status :=
        match found with
        | None => ret ENOENT
        | Some j => deliver_signal e (sig_job_id sg) j (sig_sig sg)
        end in
      let! _ := sbd_send_msg e BATCH_SBD_JOB_SIGNAL_REPLY status (OutSig sg) in
      ret tt
  end.

Definition sbd_enqueue_job_missing (e : senv) (id : Z) : sM bool :=
  sbd_send_msg e BATCH_JOB_MISSING MBD_OK (OutState id (-1)).
