(* ===== verification/SbdMain.v ===== *)
(** * Main loop of the execution daemon (src/batch/sbd/smain.c, snet.c)

    The periodic work, the routing of a message of mbd, the start of the daemon,
    and the events of its life as steps. *)

From S2P Require Import Prelude CString LlHash Dependency LogFormat MbdTypes MbdBase MbdJob MbdSched MbdNet SbdTypes SbdStore SbdJob.

Open Scope string_scope.
Open Scope list_scope.
Open Scope Z_scope.

(** ** Children *)

Fixpoint find_by_pid (l : list Z) (pid : Z) : sM (option Z) :=
  match l with
  | [] => ret None
  | id :: l' =>
      let! j := get_job id in
      if sj_pid j =? pid then ret (Some id) else find_by_pid l' pid
  end.

Definition sbd_find_job_by_pid (pid : Z) : sM (option Z) :=
  let! l := gets sbd_job_list in find_by_pid l pid.

(** One child that waitpid yields with its status. *)
Definition reap_one (e : senv) (ch : Z * Z) : sM unit :=
  let (pid, status) := ch in
  let! p := gets pruner_pid in
  if pid =? p then modify (fun s => s <| pruner_pid := -1 |>)
  else
    let! found := sbd_find_job_by_pid pid in
    match found with
    | None => ret tt
    | Some id =>
        let! j := get_job id in
        let! _ := s_assert (sj_pid j =? pid) in
        upd_sjob id (fun j => j <| sj_exit_status := status |> <| exit_status_valid := 1 |>
                                <| sj_end_time := s_now e |>)
    end.

Definition sbd_reap_children (e : senv) : sM unit := s_iter (reap_one e) (children e).

Definition sbd_maybe_reap_children (e : senv) : sM unit :=
  let! b := gets got_sigchld in
  if negb b then ret tt
  else
    let! _ := modify (fun s => s <| got_sigchld := false |>) in
    sbd_reap_children e.

(** ** Checks on running jobs *)

Definition job_terminate_check (e : senv) (id : Z) : sM unit :=
  let! j := get_job id in
  if terminate_time j <=? 0 then ret tt
  else if negb (exit_status_valid j =? 0) then ret tt
  else if (terminate_time j <=? s_now e) && (terminate_kill_time j =? 0) then
    let! _ := sys_call e (SysKillpg (sj_pgid j) SIGUSR2) in
    upd_sjob id (fun j => j <| terminate_time := 0 |> <| terminate_kill_time := s_now e + 60 |>)
  else if (0 <? terminate_kill_time j) && (terminate_kill_time j <=? s_now e) then
    let! _ := cgroup_job_kill e id in
    upd_sjob id (fun j => j <| terminate_kill_time := 0 |>)
  else ret tt.

Definition sbd_pid_alive (e : senv) (j : sbd_job) : sM bool :=
  if 1 <? sj_pgid j then
    let! r := sys_call e (SysKill (- sj_pgid j) 0) in ret (negb (r =? ESRCH))
  else if 1 <? sj_pid j then
    let! r := sys_call e (SysKill (sj_pid j) 0) in ret (negb (r =? ESRCH))
  else ret true.

Definition exit_known (status : Z) (j : sbd_job) : sbd_job :=
  j <| finish_last_send := 0 |> <| exit_status_valid := 1 |> <| sj_exit_status := status |>.

Definition check_job (e : senv) (id : Z) : sM unit :=
  let! j := get_job id in
  if negb (exit_status_valid j =? 0) then ret tt
  else
    let! _ := s_assert (finish_acked j <=? 0) in
    if pid_acked j =? 0 then ret tt
    else
      let! _ := job_terminate_check e id in
      let! j := get_job id in
      let! alive := sbd_pid_alive e j in
      if alive then ret tt
      else
        let! c := gets sconf in
        let! m := gets files in
        match sbd_read_exit_status_file c m (sj_job_id j) with
        | None =>
            let! _ := upd_sjob id (fun j => j <| retry_exit_count ::= Z.succ |>) in
            let! j := get_job id in
            if retry_exit_count j <? 3 then ret tt
            else upd_sjob id (exit_known 1)
        | Some (code, _) => upd_sjob id (exit_known code)
        end.

Definition job_status_checking (e : senv) : sM unit := for_jobs (check_job e).

(** ** Reports that are due *)

Definition resend_sec (c : sbd_conf) : Z := sbd_timer c * sbd_resend_timer c.

Definition drive_reply (e : senv) (id : Z) : sM unit :=
  let! j := get_job id in
  if negb (pid_acked j =? 0) then ret tt
  else
    let! c := gets sconf in
    if s_now e - reply_last_send j <? resend_sec c then ret tt
    else
      let! ok := sbd_job_new_reply e j in
      if negb ok then ret tt
      else upd_sjob id (fun j => j <| reply_last_send := s_now e |>).

Definition job_new_drive (e : senv) : sM unit :=
  let! ready := sbd_mbd_link_ready in
  if negb ready then ret tt else for_jobs (drive_reply e).

Definition drive_finish (e : senv) (id : Z) : sM unit :=
  let! j := get_job id in
  if pid_acked j =? 0 then ret tt
  else if exit_status_valid j =? 0 then ret tt
  else
    let! _ := s_assert (finish_acked j =? 0) in
    let! c := gets sconf in
    if s_now e - finish_last_send j <? resend_sec c then ret tt
    else
      let! ok := sbd_job_finish e id in
      if negb ok then ret tt
      else upd_sjob id (fun j => j <| finish_last_send := s_now e |>).

Definition job_finish_drive (e : senv) : sM unit :=
  let! ready := sbd_mbd_link_ready in
  if negb ready then ret tt else for_jobs (drive_finish e).

(** ** The link *)

Definition mbd_reconnect_try (e : senv) : sM unit :=
  let! chan := gets sbd_mbd_chan in
  if 0 <=? chan then ret tt
  else
    let! last := gets last_try in
    if (0 <? last) && (s_now e - last <? 5) then ret tt
    else
      let! _ := modify (fun s => s <| last_try := s_now e |>) in
      let! ok := sbd_mbd_connect e in
      if negb ok then ret tt
      else let! _ := sbd_register e in ret tt.

(** One job mbd believes to run here. *)
Definition register_job (e : senv) (wj : Z * Z) : sM unit :=
  let (id, mbd_pid) := wj in
  let! found := sbd_job_find id in
  match found with
  | None =>
      let! ok := sbd_enqueue_job_missing e id in
      if ok then ret tt else sbd_fatal SBD_FATAL_ENQUEUE
  | Some j =>
      if sj_pid j <=? 0 then sbd_fatal SBD_FATAL_INVARIANT
      else if 0 <? mbd_pid then
        if negb (mbd_pid =? sj_pid j) then sbd_fatal SBD_FATAL_INVARIANT else ret tt
      else upd_sjob id (fun j => j <| pid_acked := 0 |> <| reply_last_send := 0 |>)
  end.

Definition sbd_register_ack (e : senv) (l : option (list (Z * Z))) : sM unit :=
  match l with
  | None => sbd_mbd_link_down e
  | Some l => s_iter (register_job e) l
  end.

(** ** Routing *)

(** What epoll reports on the channel to mbd: an error, no message after all (the
    queue was empty, the header does not decode), a message too short for a header
    or with a bad signature, or a message. *)
Inductive mbd_arrival : Type :=
  | LinkError
  | LinkNothing
  | LinkBad
  | LinkMsg (m : mbd_msg).

Definition sbd_mbd_route (e : senv) (a : mbd_arrival) : sM unit :=
  match a with
  | LinkError | LinkBad => sbd_mbd_link_down e
  | LinkNothing => ret tt
  | LinkMsg m =>
      match m with
      | RNewJob m => sbd_job_new e m
      | RNewJobReplyAck a => sbd_job_new_reply_ack e a
      | RJobFinishAck a => sbd_job_finish_ack e a
      | RJobSignal m => sbd_job_signal e m
      | RRegisterAck l => sbd_register_ack e l
      | RUnknown => sbd_mbd_link_down e
      end
  end.

(** The work of the timer. *)
Definition timer_maintenance (e : senv) : sM unit :=
  let! _ := sbd_reap_children e in
  let! _ := mbd_reconnect_try e in
  let! _ := job_new_drive e in
  let! _ := job_finish_drive e in
  let! _ := job_status_checking e in
  sbd_prune_jobs_try e.

(** ** Start *)

(** The process before it has read anything: only the files are there. *)
Definition sbd_boot (c : sbd_conf) (m : gmap string string) (tr : list (syscall * Z)) : sbd :=
  mk_sbd ∅ [] (-1) (-1) 0 0 false c m [] tr.

(** [sbd_init] from the network on, and the first line of [sbd_run_daemon]; [false]
    is a start that failed. *)
Definition sbd_start (e : senv) (names : option (list string)) : sM bool :=
  let! _ := (let! ok := sbd_mbd_connect e in
             if ok then let! _ := sbd_register e in ret tt else ret tt) in
  let! ok := sbd_job_state_load_all e names in
  if negb ok then ret false
  else let! _ := job_status_checking e in ret true.
