(* ===== verification/SbdChild.v ===== *)
(** * The child that becomes the job (src/batch/sbd/sjob.c)

    After the fork the child sets the job's environment, joins its control group,
    drops its privileges, changes directory, redirects its standard streams and
    executes the job script.  Its state is what a process inherits and the log of
    the calls it made, each with the user and the group it made it as. *)

From S2P Require Import Prelude CString LlHash Dependency LogFormat MbdTypes MbdBase MbdJob MbdSched MbdNet SbdTypes SbdStore SbdJob.

Open Scope string_scope.
Open Scope list_scope.
Open Scope Z_scope.

(** ** Paths of the standard streams *)

(** What is written before position [pos] is [out]; a step fails (ENAMETOOLONG)
    when it would leave no room for the final NUL. *)
Fixpoint expand_from (outsz : nat) (job_id : Z) (tmpl out : string) : option string :=
  match tmpl with
  | EmptyString => if (String.length out <? outsz)%nat then Some out else None
  | String c rest =>
      if negb (code c =? 37) then
        if (String.length out + 1 <? outsz)%nat
        then expand_from outsz job_id rest (out +:+ String c EmptyString) else None
      else
        match rest with
        | EmptyString =>
            if (String.length out + 1 <? outsz)%nat
            then expand_from outsz job_id rest (out +:+ "%") else None
        | String d rest' =>
            if (code d =? 74) || (code d =? 73) then
              if (String.length (print_int job_id) <? outsz - String.length out)%nat
              then expand_from outsz job_id rest' (out +:+ print_int job_id) else None
            else
              if (String.length out + 2 <? outsz)%nat
              then expand_from outsz job_id rest' (out +:+ String c (String d EmptyString)) else None
        end
  end.

(** [None] is -1. *)
Definition expand_stdio_path (job_id : Z) (tmpl : string) (outsz : nat) : option string :=
  if (outsz =? 0)%nat then None else expand_from outsz job_id tmpl EmptyString.

(** ** The child process *)

Inductive child_call : Type :=
  | ChSetenv (name val : string)
  | ChGethostname
  | ChCgWrite (path val : string)
  | ChInitgroups (user : string) (gid : Z)
  | ChSetgid (gid : Z)
  | ChSetuid (uid : Z)
  | ChUmask (mask : Z)
  | ChChdir (path : string)
  | ChOpen (path : string) (create : bool)
  | ChDup2 (path : string) (fd : Z)
  | ChExecv (path : string).

Record child : Type := mk_child {
  ch_uid : Z;
  ch_gid : Z;
  ch_umask : Z;
  ch_cwd : string;
  ch_env : gmap string string;
  ch_fds : gmap Z string;
  ch_log : list (Z * Z * child_call)
}.

Definition child_eta (x : child) : child :=
  mk_child (ch_uid x) (ch_gid x) (ch_umask x) (ch_cwd x) (ch_env x) (ch_fds x) (ch_log x).
#[export] Instance set_ch_uid : Setter ch_uid. Proof. setter child_eta. Defined.
#[export] Instance set_ch_gid : Setter ch_gid. Proof. setter child_eta. Defined.
#[export] Instance set_ch_umask : Setter ch_umask. Proof. setter child_eta. Defined.
#[export] Instance set_ch_cwd : Setter ch_cwd. Proof. setter child_eta. Defined.
#[export] Instance set_ch_env : Setter ch_env. Proof. setter child_eta. Defined.
#[export] Instance set_ch_fds : Setter ch_fds. Proof. setter child_eta. Defined.
#[export] Instance set_ch_log : Setter ch_log. Proof. setter child_eta. Defined.

(** What the system answers the child: success of its calls by their place in its
    log, its pid, the host name and the configuration directory. *)
Record cenv : Type := mk_cenv {
  ch_ok : child_call -> nat -> bool;
  ch_pid : Z;
  ch_host : string;
  ch_conf_dir : string
}.

(** [None] is a failure that ends in [_exit(127)]. *)
Definition cM (A : Type) : Type := child -> option A * child.

Definition c_ret {A} (a : A) : cM A := fun p => (Some a, p).
Definition c_fail {A} : cM A := fun p => (None, p).
Definition c_bind {A B} (m : cM A) (k : A -> cM B) : cM B :=
  fun p => match m p with (Some a, p') => k a p' | (None, p') => (None, p') end.

Notation "'let^' x ':=' m 'in' k" := (c_bind m (fun x => k))
  (at level 10, x pattern, m at level 100, k at level 200,
   format "'let^'  x  ':='  m  'in' '//' k") : lava_scope.

(** What a call that succeeds does to the process. *)
Definition child_effect (c : child_call) (p : child) : child :=
  match c with
  | ChSetenv name val => p <| ch_env ::= <[name := val]> |>
  | ChSetgid g => p <| ch_gid := g |>
  | ChSetuid u => p <| ch_uid := u |>
  | ChUmask m => p <| ch_umask := m |>
  | ChChdir d => p <| ch_cwd := d |>
  | ChDup2 path fd => p <| ch_fds ::= <[fd := path]> |>
  | _ => p
  end.

Definition c_try (e : cenv) (c : child_call) : cM bool :=
  fun p => let ok := ch_ok e c (length (ch_log p)) in
           let p := p <| ch_log ::= fun l => l ++ [(ch_uid p, ch_gid p, c)] |> in
           (Some ok, if ok then child_effect c p else p).

(** A call that cannot fail. *)
Definition c_do (c : child_call) : cM unit :=
  fun p => (Some tt, child_effect c (p <| ch_log ::= fun l => l ++ [(ch_uid p, ch_gid p, c)] |>)).

(** [if (call < 0) return -1]. *)
Definition c_must (e : cenv) (c : child_call) : cM unit :=
  let^ ok := c_try e c in if ok then c_ret tt else c_fail.

Fixpoint c_all (e : cenv) (cs : list child_call) : cM unit :=
  match cs with
  | [] => c_ret tt
  | c :: cs' => let^ _ := c_must e c in c_all e cs'
  end.

(** [set_job_env] *)
Definition set_job_env (e : cenv) (c : sbd_conf) (j : sbd_job) : cM unit :=
  let^ _ := c_all e [ChSetenv "LL_JOBID" (print_int (sj_job_id j));
                     ChSetenv "LL_JOBPID" (print_int (ch_pid e));
                     ChSetenv "LL_JOBNAME" (sj_job_name j);
                     ChSetenv "LL_QUEUE" (sj_queue j);
                     ChGethostname;
                     ChSetenv "LL_FIRST_HOST" (strbuf MAXHOSTNAMELEN (ch_host e))] in
  let^ _ := (if first_char_set (sj_hosts j) then c_must e (ChSetenv "LL_HOSTS" (sj_hosts j)) else c_ret tt) in
  let^ _ := (if first_char_set (sj_gpu_assigned j)
             then c_must e (ChSetenv "CUDA_VISIBLE_DEVICES" (sj_gpu_assigned j)) else c_ret tt) in
  c_all e [ChSetenv "LL_JOBDIR" (strbuf (PATH_MAX + LL_BUFSIZ_32)%nat
             (sbd_job_dir c +:+ "/" +:+ print_int (sj_job_id j)));
           ChSetenv "LL_CONF_DIR" (strbuf PATH_MAX (ch_conf_dir e))].

Definition set_user_id (e : cenv) (j : sbd_job) : cM unit :=
  c_all e [ChInitgroups (sj_user j) (sj_gid j); ChSetgid (sj_gid j); ChSetuid (sj_uid j)].

Definition cd_work_dir (e : cenv) (j : sbd_job) : cM unit :=
  let^ ok := c_try e (ChChdir (sj_user_cwd j)) in
  if ok then c_ret tt else c_must e (ChChdir "/tmp").

Definition stream_path (j : sbd_job) (dflt file : string) : option string :=
  if first_char_set file then expand_stdio_path (sj_job_id j) file PATH_MAX
  else Some (strbuf PATH_MAX (dflt +:+ print_int (sj_job_id j))).

Definition redirect_stdio (e : cenv) (j : sbd_job) : cM unit :=
  let stdin_path := strbuf PATH_MAX (if first_char_set (sj_in_file j) then sj_in_file j else "/dev/null") in
  let^ _ := c_all e [ChOpen stdin_path false; ChDup2 stdin_path 0] in
  match stream_path j "stdout." (sj_out_file j) with
  | None => c_fail
  | Some stdout_path =>
      match stream_path j "stderr." (sj_err_file j) with
      | None => c_fail
      | Some stderr_path =>
          let^ _ := c_all e [ChOpen stdout_path true; ChDup2 stdout_path 1] in
          if String.eqb stdout_path stderr_path then c_must e (ChDup2 stdout_path 2)
          else c_all e [ChOpen stderr_path true; ChDup2 stderr_path 2]
      end
  end.

(** [false] is -1. *)
Definition cgroup_job_assign (e : cenv) (c : sbd_conf) (id pid : Z) : cM bool :=
  c_try e (ChCgWrite (cg_path c id "/cgroup.procs") (print_int pid)).

(** [None] is [_exit(127)], also when execv returns. *)
Definition child_exec_job (e : cenv) (c : sbd_conf) (j : sbd_job) : cM unit :=
  let^ _ := set_job_env e c j in
  let^ _ := cgroup_job_assign e c (sj_job_id j) (ch_pid e) in
  let^ _ := set_user_id e j in
  let^ _ := c_do (ChUmask (sj_umask j)) in
  let^ _ := cd_work_dir e j in
  match make_path PATH_MAX (sbd_job_dir c +:+ "/" +:+ print_int (sj_job_id j) +:+ "/job.sh") with
  | None => c_fail
  | Some jobfile =>
      let^ _ := redirect_stdio e j in
      c_must e (ChExecv jobfile)
  end.

(** ** Expansion is bounded and complete *)

(** The text a template stands for. *)
Fixpoint expand_spec (job_id : Z) (tmpl : string) : string :=
  match tmpl with
  | EmptyString => EmptyString
  | String c rest =>
      if negb (code c =? 37) then String c (expand_spec job_id rest)
      else match rest with
           | EmptyString => "%"
           | String d rest' =>
               if (code d =? 74) || (code d =? 73) then print_int job_id +:+ expand_spec job_id rest'
               else String c (String d (expand_spec job_id rest'))
           end
  end.

Lemma expand_from_spec outsz id tmpl out :
  expand_from outsz id tmpl out =
  if (String.length (out +:+ expand_spec id tmpl) <? outsz)%nat then Some (out +:+ expand_spec id tmpl) else None.
Proof.
  revert out. induction tmpl as [tmpl IH] using (induction_ltof1 _ String.length). intros out.
  assert (Hshort : forall piece rest, (String.length rest < String.length tmpl)%nat ->
    (if (String.length out + String.length piece <? outsz)%nat
     then expand_from outsz id rest (out +:+ piece) else None) =
    (if (String.length (out +:+ piece +:+ expand_spec id rest) <? outsz)%nat
     then Some (out +:+ piece +:+ expand_spec id rest) else None)).
  { intros piece rest Hlt. rewrite (IH rest Hlt), <- !string_app_assoc, !string_length_app.
    repeat case_match; rewrite ?Nat.ltb_lt, ?Nat.ltb_ge in *; try done; lia. }
  destruct tmpl as [|c rest]; cbn [expand_from expand_spec].
  { by rewrite string_app_nil_r. }
  destruct (code c =? 37) eqn:Hc; cbn [negb].
  - destruct rest as [|d rest'].
    + apply (Hshort "%" EmptyString). cbn. lia.
    + destruct ((code d =? 74) || (code d =? 73)).
      * rewrite <- (Hshort (print_int id) rest') by (cbn; lia).
        repeat case_match; rewrite ?Nat.ltb_lt, ?Nat.ltb_ge in *; try done; lia.
      * apply (Hshort (String c (String d EmptyString)) rest'). cbn. lia.
  - apply (Hshort (String c EmptyString) rest). cbn. lia.
Qed.

(** ** The child runs the job as its user *)

(** Calls that reach paths the user chose. *)
Definition path_call (c : child_call) : bool :=
  match c with
  | ChChdir _ | ChOpen _ _ | ChDup2 _ _ | ChExecv _ => true
  | _ => false
  end.

Definition entry_ok (j : sbd_job) (x : Z * Z * child_call) : Prop :=
  path_call x.2 = true -> x.1 = (sj_uid j, sj_gid j).

Definition log_ok (j : sbd_job) (p : child) : Prop := Forall (entry_ok j) (ch_log p).

Definition as_user (j : sbd_job) (p : child) : Prop := ch_uid p = sj_uid j /\ ch_gid p = sj_gid j.

(** [cwp m Q F p]: the rest of the child goes on in a state of [Q] or ends in one
    of [F]. *)
Definition cwp {A} (m : cM A) (Q : A -> child -> Prop) (F : child -> Prop) (p : child) : Prop :=
  match m p with (Some a, p') => Q a p' | (None, p') => F p' end.

Lemma cwp_bind {A B} (m : cM A) (k : A -> cM B) Q F p :
  cwp m (fun a p' => cwp (k a) Q F p') F p -> cwp (c_bind m k) Q F p.
Proof. unfold cwp, c_bind. by destruct (m p) as [[a|] p']. Qed.

Lemma cwp_mono {A} (m : cM A) (Q Q' : A -> child -> Prop) (F F' : child -> Prop) p :
  cwp m Q F p -> (forall a p', Q a p' -> Q' a p') -> (forall p', F p' -> F' p') -> cwp m Q' F' p.
Proof. unfold cwp. destruct (m p) as [[a|] p']; eauto. Qed.

Lemma log_ok_snoc j p c f :
  log_ok j p -> (path_call c = true -> as_user j p) -> ch_log (f (p <| ch_log ::= fun l => l ++ [(ch_uid p, ch_gid p, c)] |>)) =
    ch_log p ++ [(ch_uid p, ch_gid p, c)] -> log_ok j (f (p <| ch_log ::= fun l => l ++ [(ch_uid p, ch_gid p, c)] |>)).
Proof.
  intros Hl Hc Heq. unfold log_ok. rewrite Heq. apply Forall_app. split; [done|]. constructor; [|done].
  intros Hp. destruct (Hc Hp) as [H1 H2]. cbn. by rewrite H1, H2.
Qed.

Lemma effect_log c p : ch_log (child_effect c p) = ch_log p.
Proof. by destruct c. Qed.

(** Before the identity is set. *)
Lemma must_root e c j p :
  path_call c = false -> log_ok j p -> cwp (c_must e c) (fun _ p' => log_ok j p') (log_ok j) p.
Proof.
  intros Hc Hl. unfold cwp, c_must, c_bind, c_try. destruct (ch_ok e c _).
  - apply (log_ok_snoc j p c (child_effect c)); [done|congruence|by rewrite effect_log].
  - apply (log_ok_snoc j p c id); [done|congruence|done].
Qed.

Lemma all_root e cs j p :
  forallb (fun c => negb (path_call c)) cs = true -> log_ok j p ->
  cwp (c_all e cs) (fun _ p' => log_ok j p') (log_ok j) p.
Proof.
  revert p. induction cs as [|c cs IH]; intros p Hcs Hl; cbn; [done|].
  cbn in Hcs. apply andb_prop in Hcs as [H1 H2]. apply negb_true_iff in H1. apply cwp_bind.
  eapply cwp_mono; [by apply must_root| |done]. cbv beta. intros _ p' Hl'. by apply IH.
Qed.

(** After it. *)
Definition keeps_ids (c : child_call) : bool :=
  match c with ChSetuid _ | ChSetgid _ => false | _ => true end.

Lemma effect_ids c p : keeps_ids c = true -> ch_uid (child_effect c p) = ch_uid p /\ ch_gid (child_effect c p) = ch_gid p.
Proof. by destruct c. Qed.

Lemma try_user e c j p :
  keeps_ids c = true -> log_ok j p -> as_user j p ->
  cwp (c_try e c) (fun _ p' => log_ok j p' /\ as_user j p') (log_ok j) p.
Proof.
  intros Hc Hl Hu. unfold cwp, c_try. destruct (ch_ok e c _).
  - split; [apply (log_ok_snoc j p c (child_effect c)); [done|done|by rewrite effect_log]|].
    unfold as_user. destruct (effect_ids c (p <| ch_log ::= fun l => l ++ [(ch_uid p, ch_gid p, c)] |>) Hc) as [-> ->]. done.
  - split; [by apply (log_ok_snoc j p c id)|done].
Qed.

Lemma must_user e c j p :
  keeps_ids c = true -> log_ok j p -> as_user j p ->
  cwp (c_must e c) (fun _ p' => log_ok j p' /\ as_user j p') (log_ok j) p.
Proof.
  intros Hc Hl Hu. apply cwp_bind. eapply cwp_mono; [by apply try_user| |done]. cbv beta.
  intros ok p' [? ?]. by destruct ok.
Qed.

Lemma all_user e cs j p :
  forallb keeps_ids cs = true -> log_ok j p -> as_user j p ->
  cwp (c_all e cs) (fun _ p' => log_ok j p' /\ as_user j p') (log_ok j) p.
Proof.
  revert p. induction cs as [|c cs IH]; intros p Hcs Hl Hu; cbn; [done|].
  cbn in Hcs. apply andb_prop in Hcs as [H1 H2]. apply cwp_bind.
  eapply cwp_mono; [by apply must_user| |done]. cbv beta. intros _ p' [? ?]. by apply IH.
Qed.

(** The calls that change the identity. *)
Lemma set_user_id_ok e j p :
  log_ok j p -> cwp (set_user_id e j) (fun _ p' => log_ok j p' /\ as_user j p') (log_ok j) p.
Proof.
  intros Hl. unfold set_user_id, cwp, c_all, c_must, c_bind, c_try, c_ret, c_fail.
  destruct (ch_ok e (ChInitgroups _ _) _).
  2: { by apply (log_ok_snoc j p _ id). }
  destruct (ch_ok e (ChSetgid _) _).
  2: { cbn. apply Forall_app; split; [apply Forall_app; split; [done|]|]; repeat constructor; done. }
  destruct (ch_ok e (ChSetuid _) _); cbn.
  all: try split; try done; repeat (apply Forall_app; split); try exact Hl; repeat constructor; done.
Qed.

Lemma redirect_ok e j p :
  log_ok j p -> as_user j p -> cwp (redirect_stdio e j) (fun _ p' => log_ok j p' /\ as_user j p') (log_ok j) p.
Proof.
  intros Hl Hu. unfold redirect_stdio. apply cwp_bind. eapply cwp_mono; [by apply all_user| |done]. cbv beta.
  intros _ p1 [H1 U1]. destruct (stream_path j "stdout." _); [|done]. destruct (stream_path j "stderr." _); [|done].
  apply cwp_bind. eapply cwp_mono; [by apply all_user| |done]. cbv beta. intros _ p2 [H2 U2].
  destruct (String.eqb _ _); [by apply must_user|by apply all_user].
Qed.

Lemma set_job_env_ok e c j p :
  log_ok j p -> cwp (set_job_env e c j) (fun _ p' => log_ok j p') (log_ok j) p.
Proof.
  intros Hl. unfold set_job_env. apply cwp_bind. eapply cwp_mono; [by apply all_root| |done]. cbv beta.
  intros _ p1 H1. apply cwp_bind.
  eapply (cwp_mono _ (fun _ p' => log_ok j p')); [destruct (first_char_set _); [by apply must_root|done]| |done].
  cbv beta. intros _ p2 H2. apply cwp_bind.
  eapply (cwp_mono _ (fun _ p' => log_ok j p')); [destruct (first_char_set _); [by apply must_root|done]| |done].
  cbv beta. intros _ p3 H3. by apply all_root.
Qed.

Lemma child_exec_ok e c j p :
  log_ok j p -> cwp (child_exec_job e c j) (fun _ p' => log_ok j p' /\ as_user j p') (log_ok j) p.
Proof.
  intros Hl. unfold child_exec_job. apply cwp_bind. eapply cwp_mono; [by apply set_job_env_ok| |done]. cbv beta.
  intros _ p1 H1. apply cwp_bind. eapply (cwp_mono _ (fun _ p' => log_ok j p') _ (log_ok j)); [| |done].
  { unfold cgroup_job_assign, cwp, c_try. destruct (ch_ok e _ _).
    - apply (log_ok_snoc j p1 _ (child_effect _)); done.
    - apply (log_ok_snoc j p1 _ id); done. }
  cbv beta. intros _ p2 H2. apply cwp_bind. eapply cwp_mono; [by apply set_user_id_ok| |done]. cbv beta.
  intros _ p3 [H3 U3]. apply cwp_bind.
  assert (H4 : cwp (c_do (ChUmask (sj_umask j))) (fun _ p' => log_ok j p' /\ as_user j p') (log_ok j) p3).
  { split; [|done]. apply (log_ok_snoc j p3 (ChUmask (sj_umask j)) (child_effect _)); done. }
  eapply cwp_mono; [exact H4| |done]. cbv beta. intros _ p4 [? U4]. apply cwp_bind.
  eapply (cwp_mono _ (fun _ p' => log_ok j p' /\ as_user j p')); [| |done].
  { unfold cd_work_dir. apply cwp_bind. eapply cwp_mono; [by apply try_user| |done]. cbv beta.
    intros ok p5 [? ?]. destruct ok; [done|by apply must_user]. }
  cbv beta. intros _ p5 [H5 U5]. destruct (make_path _ _); [|done]. apply cwp_bind.
  eapply cwp_mono; [by apply redirect_ok| |done]. cbv beta. intros _ p6 [H6 U6]. by apply must_user.
Qed.
