(* ===== verification/SbdInv.v ===== *)
(** * Invariant of the execution daemon

    The list and the table of jobs agree, every job in memory has an unfinished
    state file with the same pid, user and directories, and every unfinished state
    file belongs to a job in memory.  This file has the effect of each storage
    operation on these relations. *)

From S2P Require Import Prelude CString LlHash Dependency LogFormat MbdTypes MbdBase MbdJob MbdSched MbdNet SbdTypes SbdStore SbdState SbdJob SbdMain.

Open Scope string_scope.
Open Scope list_scope.
Open Scope Z_scope.

(** ** The invariant *)

(** What identifies a started job and never changes. *)
Definition same_core (j d : sbd_job) : Prop :=
  sj_job_id d = sj_job_id j /\ sj_pid d = sj_pid j /\ sj_pgid d = sj_pgid j /\
  sj_uid d = sj_uid j /\ sj_gid d = sj_gid j /\ sj_user d = sj_user j /\
  sj_user_home d = sj_user_home j /\ sj_user_cwd d = sj_user_cwd j.

Record job_ok (j : sbd_job) : Prop := mk_job_ok {
  jo_fits : state_fits j = true;
  jo_open : finish_acked j = 0;
  jo_pid : 0 < sj_pid j;
  jo_pgid : sj_pgid j = sj_pid j;
  jo_acked : pid_acked j = 0 \/ pid_acked j = 1;
  jo_grace : 0 < terminate_time j -> terminate_kill_time j = 0
}.

Record table_ok (s : sbd) : Prop := mk_table_ok {
  to_dom : forall id, id ∈ sbd_job_list s <-> is_Some (sjobs s !! id);
  to_nodup : NoDup (sbd_job_list s);
  to_id : forall id j, sjobs s !! id = Some j -> sj_job_id j = id;
  to_job : forall id j, sjobs s !! id = Some j -> job_ok j
}.

(** The state file in the entry [nm] of the state directory. *)
Definition state_at (s : sbd) (nm : string) : option string := files s !! state_path_in (sconf s) nm.

Definition on_disk (s : sbd) (id : Z) (d : sbd_job) : Prop :=
  state_at s (print_int id) = Some (state_text d) /\ state_fits d = true /\ sj_job_id d = id.

(** Every state file was written by the daemon for a job it had started. *)
Definition disk_wf (s : sbd) : Prop :=
  forall nm text, state_at s nm = Some text ->
  exists d, nm = print_int (sj_job_id d) /\ text = state_text d /\ state_fits d = true /\
            0 < sj_pid d /\ sj_pgid d = sj_pid d.

Record good (s : sbd) : Prop := mk_good {
  g_conf : conf_ok (sconf s);
  g_table : table_ok s;
  g_disk : disk_wf s;
  g_saved : forall id j, sjobs s !! id = Some j ->
              exists d, on_disk s id d /\ finish_acked d = 0 /\ same_core j d;
  g_known : forall id d, on_disk s id d -> finish_acked d = 0 -> is_Some (sjobs s !! id)
}.

(** No job of [s] is lost in [s'], and none is new. *)
Definition core_le (s s' : sbd) : Prop :=
  sconf s' = sconf s /\ sbd_job_list s' = sbd_job_list s /\
  forall id j, sjobs s !! id = Some j -> exists j', sjobs s' !! id = Some j' /\ same_core j j'.

(** What a process that ended in [s'] leaves behind of the jobs of [s]. *)
Definition crash_ok (s s' : sbd) : Prop :=
  sconf s' = sconf s /\ disk_wf s' /\
  forall id j, sjobs s !! id = Some j -> exists d, on_disk s' id d /\ same_core j d.

(** ** Order *)

Lemma same_core_refl j : same_core j j.
Proof. done. Qed.

Lemma same_core_trans i j k : same_core i j -> same_core j k -> same_core i k.
Proof. unfold same_core. intuition congruence. Qed.

Lemma core_le_refl s : core_le s s.
Proof. split_and!; [done..|]. intros id j H. by exists j. Qed.

Lemma core_le_trans s1 s2 s3 : core_le s1 s2 -> core_le s2 s3 -> core_le s1 s3.
Proof.
  intros (C1 & N1 & H1) (C2 & N2 & H2). split_and!; [congruence..|]. intros id j Hj.
  destruct (H1 id j Hj) as (j' & Hj' & S1). destruct (H2 id j' Hj') as (j'' & Hj'' & S2).
  exists j''. split; [done|]. by eapply same_core_trans.
Qed.

Lemma crash_core s1 s2 s3 : core_le s1 s2 -> crash_ok s2 s3 -> crash_ok s1 s3.
Proof.
  intros (C1 & _ & H1) (C2 & W & H2). split_and!; [congruence|done|]. intros id j Hj.
  destruct (H1 id j Hj) as (j' & Hj' & S1). destruct (H2 id j' Hj') as (d & Hd & S2).
  exists d. split; [done|]. by eapply same_core_trans.
Qed.

(** A process that ends in a good state leaves all its jobs behind. *)
Lemma good_crash s : good s -> crash_ok s s.
Proof.
  intros G. split_and!; [done|apply G|]. intros id j Hj.
  destruct (g_saved s G id j Hj) as (d & Hd & _ & Hs). eauto.
Qed.

(** ** States that differ in what the invariant does not see *)

Definition calm (s s' : sbd) : Prop :=
  sjobs s' = sjobs s /\ sbd_job_list s' = sbd_job_list s /\ sconf s' = sconf s /\
  forall nm, state_at s' nm = state_at s nm.

Lemma calm_refl s : calm s s.
Proof. done. Qed.

Lemma calm_trans s1 s2 s3 : calm s1 s2 -> calm s2 s3 -> calm s1 s3.
Proof.
  intros (A1 & A2 & A3 & A4) (B1 & B2 & B3 & B4). split_and!; [congruence..|].
  intros nm. by rewrite B4, A4.
Qed.

Lemma calm_same s s' :
  sjobs s' = sjobs s -> sbd_job_list s' = sbd_job_list s -> sconf s' = sconf s -> files s' = files s ->
  calm s s'.
Proof. intros H1 H2 H3 H4. split_and!; [done..|]. intros nm. unfold state_at. by rewrite H3, H4. Qed.

Lemma calm_on_disk s s' id d : calm s s' -> on_disk s' id d <-> on_disk s id d.
Proof. intros (_ & _ & _ & H). unfold on_disk. by rewrite H. Qed.

Lemma calm_good s s' : good s -> calm s s' -> good s'.
Proof.
  intros G C. pose proof C as (H1 & H2 & H3 & H4). split.
  - rewrite H3. apply G.
  - destruct (g_table s G). split; rewrite ?H1, ?H2; done.
  - intros nm text. rewrite H4. apply G.
  - intros id j. rewrite H1. intros Hj. destruct (g_saved s G id j Hj) as (d & Hd & ?).
    exists d. by rewrite (calm_on_disk s s').
  - intros id d. rewrite H1, (calm_on_disk s s') by done. apply G.
Qed.

Lemma calm_core s s' : calm s s' -> core_le s s'.
Proof. intros (H1 & H2 & H3 & _). split_and!; [done..|]. rewrite H1. intros id j Hj. by exists j. Qed.

Lemma calm_crash s s' s'' : calm s s' -> crash_ok s' s'' -> crash_ok s s''.
Proof. intros C. by apply crash_core, calm_core. Qed.

(** ** Handlers the invariant does not see *)

Definition quiet {A} (m : sM A) : Prop :=
  forall s, swp m (fun _ s' => calm s s') (fun _ _ => False) s.

Lemma quiet_ret {A} (a : A) : quiet (ret a).
Proof. intros s. apply calm_refl. Qed.

Lemma quiet_gets {A} (f : sbd -> A) : quiet (gets f).
Proof. intros s. apply calm_refl. Qed.

Lemma quiet_bind {A B} (m : sM A) (k : A -> sM B) : quiet m -> (forall a, quiet (k a)) -> quiet (sbind m k).
Proof.
  intros Hm Hk s. apply swp_bind. eapply swp_mono; [apply Hm| |done]. cbv beta. intros a s1 H1.
  eapply swp_mono; [apply Hk| |done]. cbv beta. intros b s2 H2. by eapply calm_trans.
Qed.

Lemma quiet_iter {A} (f : A -> sM unit) l : (forall x, quiet (f x)) -> quiet (s_iter f l).
Proof. intros Hf. induction l as [|x l IH]; cbn; [apply quiet_ret|]. by apply quiet_bind. Qed.

Lemma quiet_sys_call e c : quiet (sys_call e c).
Proof. intros s. by apply calm_same. Qed.

Lemma quiet_modify f :
  (forall s, sjobs (f s) = sjobs s /\ sbd_job_list (f s) = sbd_job_list s /\ sconf (f s) = sconf s /\
             files (f s) = files s) ->
  quiet (modify f).
Proof. intros Hf s. destruct (Hf s) as (? & ? & ? & ?). by apply calm_same. Qed.

Create HintDb sbd_quiet.
#[export] Hint Resolve quiet_ret quiet_gets quiet_sys_call : sbd_quiet.

(** Splits a handler into quiet parts. *)
Ltac quiet :=
  repeat first
    [ solve [auto with sbd_quiet]
    | apply quiet_bind; [|intros ?]
    | apply quiet_iter; intros ?
    | apply quiet_modify; intros ?; cbn; tauto
    | case_match ].

Lemma quiet_sys_ok e c : quiet (sys_ok e c).
Proof. unfold sys_ok. quiet. Qed.
#[export] Hint Resolve quiet_sys_ok : sbd_quiet.

Lemma quiet_all_ok e cs : quiet (all_ok e cs).
Proof. induction cs as [|c cs IH]; cbn; quiet. Qed.

Lemma quiet_fsync_dir e p : quiet (fsync_dir e p).
Proof. unfold fsync_dir. quiet. Qed.

Lemma quiet_cg_write e p v : quiet (cg_write e p v).
Proof. unfold cg_write. quiet. Qed.
#[export] Hint Resolve quiet_all_ok quiet_fsync_dir quiet_cg_write : sbd_quiet.

Lemma quiet_cgroup_job_create e id mem n : quiet (cgroup_job_create e id mem n).
Proof. unfold cgroup_job_create. quiet. Qed.

Lemma quiet_cgroup_job_destroy e id : quiet (cgroup_job_destroy e id).
Proof. unfold cgroup_job_destroy. quiet. Qed.

Lemma quiet_cgroup_job_kill e id : quiet (cgroup_job_kill e id).
Proof. unfold cgroup_job_kill. quiet. Qed.
#[export] Hint Resolve quiet_cgroup_job_create quiet_cgroup_job_destroy quiet_cgroup_job_kill : sbd_quiet.

Lemma quiet_deliver_signal e id j sig : quiet (deliver_signal e id j sig).
Proof. unfold deliver_signal, cgroup_job_freeze, cgroup_job_thaw. quiet. Qed.

Lemma quiet_spawn_job e j : quiet (spawn_job e j).
Proof. unfold spawn_job. quiet. Qed.

Lemma quiet_make_job_dir e j : quiet (make_job_dir e j).
Proof. unfold make_job_dir. quiet. Qed.

Lemma quiet_make_state_dir e j : quiet (make_state_dir e j).
Proof. unfold make_state_dir. quiet. Qed.

Lemma quiet_pid_alive e j : quiet (sbd_pid_alive e j).
Proof. unfold sbd_pid_alive. quiet. Qed.

Lemma quiet_connect e : quiet (sbd_mbd_connect e).
Proof. unfold sbd_mbd_connect. quiet. Qed.

Lemma quiet_prune_try e : quiet (sbd_prune_jobs_try e).
Proof. unfold sbd_prune_jobs_try. quiet. Qed.
#[export] Hint Resolve quiet_deliver_signal quiet_spawn_job quiet_make_job_dir quiet_make_state_dir
  quiet_pid_alive quiet_connect quiet_prune_try : sbd_quiet.

(** The rule for a quiet first part. *)
Lemma swp_quiet {A B} (m : sM A) (k : A -> sM B) Q E s :
  quiet m -> (forall a s', calm s s' -> swp (k a) Q E s') -> swp (sbind m k) Q E s.
Proof.
  intros Hm Hk. apply swp_bind. eapply swp_mono; [apply Hm| |done]. cbv beta. intros a s' H. by apply Hk.
Qed.

(** ** Files *)

(** Files and nothing else. *)
Definition same_but_files (s s' : sbd) : Prop :=
  sjobs s' = sjobs s /\ sbd_job_list s' = sbd_job_list s /\ sconf s' = sconf s.

Lemma unlink_swp e path s :
  swp (unlink e path)
    (fun _ s' => same_but_files s s' /\ (forall p, p <> path -> files s' !! p = files s !! p) /\
                 (files s' !! path = files s !! path \/ files s' !! path = None))
    (fun _ _ => False) s.
Proof.
  unfold unlink, sys_ok, sys_call, sbind, swp, ret, modify. cbn. case_match; simplify_eq; cbn; case_match; simplify_eq; cbn.
  - split_and!; try done; [intros p Hp; by rewrite lookup_delete_ne|right; by rewrite lookup_delete_eq].
  - split_and!; try done. by left.
Qed.

(** A path that is not a state file. *)
Definition off_state (s : sbd) (p : string) : Prop := forall nm, p <> state_path_in (sconf s) nm.

Lemma unlink_calm e path s :
  off_state s path -> swp (unlink e path) (fun _ s' => calm s s') (fun _ _ => False) s.
Proof.
  intros Hoff. eapply swp_mono; [apply unlink_swp| |done]. cbv beta. intros _ s' ((H1 & H2 & H3) & Hp & _).
  split_and!; try done. intros nm. unfold state_at. rewrite H3. apply Hp. intros Heq. by apply (Hoff nm).
Qed.

(** A call of the system on a file has failed. *)
Definition is_file_call (c : syscall) : bool :=
  match c with
  | SysOpen _ | SysWrite _ | SysFsync _ | SysClose _ | SysRename _ _ | SysChmod _ | SysChown _ => true
  | _ => false
  end.

Definition file_failed (s : sbd) : Prop :=
  exists c r, (c, r) ∈ strace s /\ is_file_call c = true /\ r <> 0.

(** The effect of [store_file]: nothing but [tmp] and, on success, [path]. *)
Definition stored (tmp path text : string) (s : sbd) (err : option Z) (s' : sbd) : Prop :=
  (same_but_files s s' /\ (is_Some err -> file_failed s')) /\
  forall p, p <> tmp ->
    files s' !! p = match err with
                    | None => if bool_decide (p = path) then Some text else files s !! p
                    | Some _ => files s !! p
                    end.

Lemma failed_here s c r : is_file_call c = true -> r <> 0 -> file_failed (s <| strace ::= fun l => l ++ [(c, r)] |>).
Proof. intros Hc Hr. exists c, r. split; [|done]. cbn. apply elem_of_app. right. by left. Qed.

Lemma all_ok_frame e cs s :
  forallb is_file_call cs = true ->
  swp (all_ok e cs) (fun err s' => same_but_files s s' /\ files s' = files s /\ (is_Some err -> file_failed s'))
    (fun _ _ => False) s.
Proof.
  revert s. induction cs as [|c cs IH]; intros s Hcs; cbn [all_ok].
  { split_and!; [done..|by intros []]. }
  cbn [forallb] in Hcs. apply andb_prop in Hcs as [Hc Hcs].
  apply swp_bind. unfold sys_call at 1, swp at 1.
  destruct (Z.eqb_spec (sys e c (length (strace s))) 0) as [|Hne].
  - eapply swp_mono; [by apply IH| |done]. done.
  - unfold swp, ret. split_and!; [done..|]. intros _. by apply failed_here.
Qed.

(** A failed step removes the temporary file. *)
Lemma store_undo e tmp path text r s0 s :
  same_but_files s0 s -> (forall p, p <> tmp -> files s !! p = files s0 !! p) -> file_failed s ->
  swp (let! _ := unlink e tmp in ret (Some r)) (stored tmp path text s0) (fun _ _ => False) s.
Proof.
  intros (H1 & H2 & H3) Hf (c & x & Hin & Hx). apply swp_bind.
  eapply swp_mono; [apply swp_and; [apply unlink_swp|]| |by intros ? ? [? _]].
  - instantiate (1 := fun _ _ => True). instantiate (1 := fun _ s' => file_failed s').
    unfold unlink, sys_ok, sys_call, sbind, swp, ret, modify. cbn.
    destruct (_ =? 0); exists c, x; split; try done; cbn; apply elem_of_app; by left.
  - cbv beta. intros _ s' [((K1 & K2 & K3) & Hp & _) Hfail]. unfold swp, ret. split; [split; [split_and!; congruence|done]|].
    intros p Hne. by rewrite Hp, Hf.
Qed.

Lemma store_file_swp e tmp path text extra s :
  forallb is_file_call extra = true ->
  swp (store_file e tmp path text extra) (stored tmp path text s) (fun _ _ => False) s.
Proof.
  intros Hx. unfold store_file. apply swp_bind. unfold sys_call at 1, swp at 1.
  destruct (Z.eqb_spec (sys e (SysOpen tmp) (length (strace s))) 0) as [|Hne]; cbn [negb].
  2: { unfold swp, ret. split; [split; [done|intros _; by apply failed_here]|done]. }
  apply swp_bind. unfold modify at 1, swp at 1. apply swp_bind. unfold sys_call at 1, swp at 1.
  match goal with |- context [?r =? 0] => destruct (Z.eqb_spec r 0) as [|Hne] end; cbn [negb].
  2: { apply store_undo; [done|intros p Hp; cbn; by rewrite lookup_insert_ne|]. by apply failed_here. }
  apply swp_bind. unfold modify at 1, swp at 1. apply swp_bind.
  eapply swp_mono; [apply (all_ok_frame e (SysFsync tmp :: SysClose tmp :: extra ++ [SysRename tmp path]))| |done].
  { cbn. by rewrite forallb_app, Hx. }
  cbv beta. intros err s' ((H1 & H2 & H3) & Hf & Hfail). cbn in H1, H2, H3, Hf. destruct err as [r|].
  - apply store_undo; [by split_and!| |by apply Hfail]. intros p Hp. rewrite Hf. by rewrite !lookup_insert_ne.
  - unfold swp, sbind, modify, ret. split; [split; [by split_and!|by intros []]|]. intros p Hp.
    cbn. rewrite Hf. case_bool_decide as Hpp; [subst; by rewrite lookup_insert_eq|].
    by rewrite lookup_insert_ne, lookup_delete_ne, !lookup_insert_ne by done.
Qed.

(** The effect of writing the state of [j]. *)
Definition wrote (j : sbd_job) (s : sbd) (ok : bool) (s' : sbd) : Prop :=
  same_but_files s s' /\
  forall nm, state_at s' nm = if ok && bool_decide (nm = print_int (sj_job_id j))
                              then Some (state_text j) else state_at s nm.

Lemma state_write_swp e j s :
  conf_ok (sconf s) -> state_fits j = true ->
  swp (sbd_job_state_write e j) (fun ok s' => wrote j s ok s' /\ (ok = false -> file_failed s')) (fun _ _ => False) s.
Proof.
  intros Hc F. unfold sbd_job_state_write. apply swp_bind. unfold gets at 1, swp at 1.
  rewrite state_file_path_ok, tmp_state_file_path_ok, state_dir_path_ok by done.
  rewrite (proj2 (Nat.leb_gt LL_BUFSIZ_4K _) (state_text_length j F)).
  apply swp_bind. eapply swp_mono; [by apply store_file_swp| |done].
  cbv beta. intros err s' [[H1 Hfail] H2]. pose proof H1 as (S1 & S2 & S3).
  assert (Hat : forall nm, state_at s' nm =
    if match err with None => true | Some _ => false end && bool_decide (nm = print_int (sj_job_id j))
    then Some (state_text j) else state_at s nm).
  { intros nm. unfold state_at. rewrite S3, H2 by (intros Heq; by apply (tmp_not_state (sconf s) (sj_job_id j) nm)).
    destruct err; [done|]. cbn. do 2 case_bool_decide; subst; try done.
    exfalso. by match goal with H : state_path_in _ _ = _ |- _ => apply state_path_inj in H end. }
  destruct err; [split; [by split|]; intros _; apply Hfail; by eexists|]. apply swp_quiet; [auto with sbd_quiet|].
  intros _ s'' (C1 & C2 & C3 & C4). split; [|done]. split; [split_and!; congruence|].
  intros nm. by rewrite C4, Hat.
Qed.

Lemma quiet_script_write e j script s :
  conf_ok (sconf s) -> swp (sbd_job_script_write e j script) (fun _ s' => calm s s') (fun _ _ => False) s.
Proof.
  intros Hc. unfold sbd_job_script_write. apply swp_bind. unfold gets at 1, swp at 1.
  destruct (make_path _ _) as [path|] eqn:E1; [|apply calm_refl]. apply make_path_Some in E1.
  destruct (make_path _ (path +:+ ".tmp")) as [tmp|] eqn:E2; [|apply calm_refl]. apply make_path_Some in E2.
  apply swp_bind. eapply swp_mono; [by apply store_file_swp| |done]. cbv beta.
  intros err s' (((H1 & H2 & H3) & _) & Hf).
  assert (C : calm s s').
  { split_and!; try done. intros nm. unfold state_at. rewrite H3, Hf.
    - destruct err; [done|]. rewrite bool_decide_eq_false_2; [done|]. intros Heq.
      eapply (job_file_not_state (sconf s) Hc); by rewrite Heq, E1.
    - intros Heq. eapply (job_file_not_state (sconf s) Hc (("/" +:+ print_int (sj_job_id j) +:+ "/job.sh") +:+ ".tmp") nm).
      by rewrite string_app_assoc, Heq, E2, E1, string_app_assoc. }
  destruct err; [done|]. apply swp_quiet; [auto with sbd_quiet|]. intros _ s'' C'. by eapply calm_trans.
Qed.

(** ** Removal *)

Lemma file_remove_calm e id s :
  conf_ok (sconf s) -> swp (sbd_job_file_remove e id) (fun _ s' => calm s s') (fun _ _ => False) s.
Proof.
  intros Hc. unfold sbd_job_file_remove. apply swp_bind. unfold gets at 1, swp at 1.
  destruct (job_dir_path _ _) as [dir|] eqn:E; [|apply calm_refl]. apply make_path_Some in E.
  apply swp_bind. eapply swp_mono; [apply (swp_iter _ (fun _ s' => calm s s') (fun _ _ => False)); [apply calm_refl|]| |done].
  - intros f l s1 C. destruct (make_path _ _) as [path|] eqn:Ep; [|done]. apply make_path_Some in Ep.
    eapply swp_mono; [apply unlink_calm| |done].
    + intros nm Heq. destruct C as (_ & _ & C3 & _). rewrite C3 in Heq.
      eapply (job_file_not_state (sconf s) Hc (("/" +:+ print_int id) +:+ "/" +:+ f) nm).
      by rewrite string_app_assoc, <- Heq, Ep, E.
    + cbv beta. intros _ s2 C2. by eapply calm_trans.
  - cbv beta. intros _ s1 C. apply swp_quiet; [auto with sbd_quiet|]. intros _ s2 C2. by eapply calm_trans.
Qed.

(** The state file of [id] may be gone, the others are as they were. *)
Lemma state_remove_swp e id s :
  conf_ok (sconf s) ->
  swp (sbd_job_state_remove e id)
    (fun _ s' => same_but_files s s' /\
       forall nm, state_at s' nm = state_at s nm \/ (nm = print_int id /\ state_at s' nm = None))
    (fun _ _ => False) s.
Proof.
  intros Hc. unfold sbd_job_state_remove. apply swp_bind. unfold gets at 1, swp at 1.
  rewrite state_file_path_ok, state_dir_path_ok by done. apply swp_bind.
  eapply swp_mono; [apply unlink_swp| |done]. cbv beta. intros _ s1 ((H1 & H2 & H3) & Hp & Hpath).
  apply swp_quiet; [auto with sbd_quiet|]. intros _ s2 (C1 & C2 & C3 & C4). unfold swp, ret.
  split; [split_and!; congruence|]. intros nm. rewrite C4. unfold state_at. rewrite H3.
  destruct (decide (nm = print_int id)) as [->|Hne].
  - destruct Hpath as [->| ->]; auto.
  - left. apply Hp. intros Heq. by apply Hne; eapply state_path_inj.
Qed.
