(* ===== verification/SbdSafe.v ===== *)
(** * Every handler of the execution daemon keeps its invariant

    From a good state a handler returns in a good state that has lost no job, or
    ends the process for one of the named causes and leaves every job on disk. *)

From S2P Require Import Prelude CString LlHash Dependency LogFormat MbdTypes MbdBase MbdJob MbdSched MbdNet SbdTypes SbdStore SbdState SbdJob SbdMain SbdInv.

Open Scope string_scope.
Open Scope list_scope.
Open Scope Z_scope.

(** ** The judgement *)

(** Run from [s], with [s0] the state the handler began in. *)
Definition kept {A} (C : sbd_end -> sbd -> Prop) (s0 : sbd) (m : sM A) (s : sbd) : Prop :=
  swp m (fun _ s' => good s' /\ core_le s0 s') (fun c s' => C c s' /\ crash_ok s0 s') s.

Definition keeps {A} (C : sbd_end -> sbd -> Prop) (m : sM A) : Prop :=
  forall s, good s -> kept C s m s.

Lemma kept_from {A} C s0 s1 (m : sM A) s : core_le s0 s1 -> kept C s1 m s -> kept C s0 m s.
Proof.
  intros L H. eapply swp_mono; [exact H|..]; cbv beta.
  - intros a s' [G' L']. split; [done|]. by eapply core_le_trans.
  - intros c s' [Hc Hcr]. split; [done|]. by eapply crash_core.
Qed.

Lemma kept_ret {A} C s0 (a : A) s : good s -> core_le s0 s -> kept C s0 (ret a) s.
Proof. by split. Qed.

(** The only reason for most handlers to end the process: a state file could not
    be written because the system refused a call. *)
Definition storage_only (c : sbd_end) (s : sbd) : Prop := c = SBD_FATAL_STORAGE /\ file_failed s.

Lemma keeps_weaken {A} (C C' : sbd_end -> sbd -> Prop) (m : sM A) :
  (forall c s, C c s -> C' c s) -> keeps C m -> keeps C' m.
Proof. intros HC Hm s G. eapply swp_mono; [by apply Hm|done|]. cbn. intros c s' [? ?]. auto. Qed.

Lemma keeps_quiet {A} C (m : sM A) : quiet m -> keeps C m.
Proof.
  intros Hm s G. eapply swp_mono; [apply Hm| |done]. cbv beta. intros a s' Hs.
  split; [by eapply calm_good|by apply calm_core].
Qed.

Lemma keeps_ret {A} C (a : A) : keeps C (ret a).
Proof. apply keeps_quiet, quiet_ret. Qed.

(** What is proved of the rest of a handler holds after a part that keeps. *)
Lemma kept_keeps {A B} C (m : sM A) (k : A -> sM B) s0 s :
  keeps C m -> good s -> core_le s0 s ->
  (forall a s', good s' -> core_le s0 s' -> core_le s s' -> kept C s0 (k a) s') ->
  kept C s0 (sbind m k) s.
Proof.
  intros Hm G L Hk. apply swp_bind. eapply swp_mono; [by apply Hm|..]; cbv beta.
  - intros a s' [G' L']. apply Hk; [done| |done]. by eapply core_le_trans.
  - intros c s' [Hc Hcr]. split; [done|]. by eapply crash_core.
Qed.

Lemma kept_quiet {A B} C (m : sM A) (k : A -> sM B) s0 s :
  quiet m -> good s -> core_le s0 s ->
  (forall a s', calm s s' -> good s' -> core_le s0 s' -> kept C s0 (k a) s') ->
  kept C s0 (sbind m k) s.
Proof.
  intros Hm G L Hk. apply swp_quiet; [done|]. intros a s' Hc. apply Hk; [done|by eapply calm_good|].
  eapply core_le_trans; [done|by apply calm_core].
Qed.

Lemma keeps_bind {A B} C (m : sM A) (k : A -> sM B) :
  keeps C m -> (forall a, keeps C (k a)) -> keeps C (sbind m k).
Proof.
  intros Hm Hk s G. eapply kept_keeps; [done|done|apply core_le_refl|].
  intros a s' G' L _. eapply kept_from; [done|by apply Hk].
Qed.

Lemma keeps_iter {A} C (f : A -> sM unit) l : (forall x, x ∈ l -> keeps C (f x)) -> keeps C (s_iter f l).
Proof.
  induction l as [|x l IH]; intros Hf; cbn; [apply keeps_ret|].
  apply keeps_bind; [apply Hf; by left|]. intros _. apply IH. intros y Hy. apply Hf. by right.
Qed.

(** The body of a loop over the jobs sees only jobs of the table. *)
Definition keeps_on (C : sbd_end -> sbd -> Prop) (id : Z) (m : sM unit) : Prop :=
  forall s, good s -> is_Some (sjobs s !! id) -> kept C s m s.

Lemma core_le_in s s' id : core_le s s' -> is_Some (sjobs s !! id) -> is_Some (sjobs s' !! id).
Proof. intros (_ & _ & H) [j Hj]. destruct (H id j Hj) as (j' & -> & _). by eexists. Qed.

Lemma keeps_for_jobs C f : (forall id, keeps_on C id (f id)) -> keeps C (for_jobs f).
Proof.
  intros Hf s G.
  eapply swp_mono; [apply (swp_for_jobs f (fun l s' => good s' /\ core_le s s' /\
      forall id, id ∈ l -> is_Some (sjobs s' !! id)) (fun c s' => C c s' /\ crash_ok s s'))|..].
  - split_and!; [done|apply core_le_refl|]. intros id Hid. by apply (to_dom s (g_table s G)).
  - intros id l s1 (G1 & L1 & Hin). eapply swp_mono; [apply Hf; [done|apply Hin; by left]|..]; cbv beta.
    + intros _ s2 [G2 L2]. split_and!; [done|by eapply core_le_trans|].
      intros i Hi. eapply core_le_in; [done|]. apply Hin. by right.
    + intros c s2 [? ?]. split; [done|]. by eapply crash_core.
  - by intros _ s' (? & ? & _).
  - done.
Qed.

(** ** Updates of one job *)

Definition tame (f : sbd_job -> sbd_job) : Prop :=
  forall j, job_ok j -> job_ok (f j) /\ same_core j (f j).

Lemma update_on_disk s f id i d : on_disk (s <| sjobs ::= alter f id |>) i d <-> on_disk s i d.
Proof. done. Qed.

Lemma good_update s id f :
  good s -> (forall j, sjobs s !! id = Some j -> job_ok (f j) /\ same_core j (f j)) ->
  good (s <| sjobs ::= alter f id |>) /\ core_le s (s <| sjobs ::= alter f id |>).
Proof.
  intros G Hf. destruct (g_table s G) as [D N I J].
  assert (Hback : forall i j', alter f id (sjobs s) !! i = Some j' ->
    exists j, sjobs s !! i = Some j /\ same_core j j' /\ job_ok j').
  { intros i j'. destruct (decide (i = id)) as [->|Hne].
    - rewrite lookup_alter_eq. intros (j & Hj & ->)%fmap_Some. exists j. destruct (Hf j Hj). eauto.
    - rewrite lookup_alter_ne by done. intros Hj. exists j'. split_and!; eauto using same_core_refl. }
  split; [split|split_and!; [done..|]].
  - apply G.
  - split; cbn.
    + intros i. rewrite D. destruct (decide (i = id)) as [->|].
      * rewrite lookup_alter_eq. by rewrite fmap_is_Some.
      * by rewrite lookup_alter_ne.
    + done.
    + intros i j' Hj'. destruct (Hback i j' Hj') as (j & Hj & (-> & _) & _). by apply I.
    + intros i j' Hj'. by destruct (Hback i j' Hj') as (j & _ & _ & ?).
  - apply G.
  - cbn. intros i j' Hj'. destruct (Hback i j' Hj') as (j & Hj & Hs & _).
    destruct (g_saved s G i j Hj) as (d & Hd & Ho & Hc). exists d. split_and!; [done|done|].
    unfold same_core in *. intuition congruence.
  - cbn. intros i d Hd Ho. pose proof (g_known s G i d Hd Ho) as K.
    destruct (decide (i = id)) as [->|]; [by rewrite lookup_alter_eq, fmap_is_Some|by rewrite lookup_alter_ne].
  - cbn. intros i j Hj. destruct (decide (i = id)) as [->|].
    + rewrite lookup_alter_eq, Hj. cbn. eexists. split; [done|]. by apply Hf.
    + rewrite lookup_alter_ne by done. exists j. split; [done|apply same_core_refl].
Qed.

Lemma keeps_update C id f : tame f -> keeps C (upd_sjob id f).
Proof.
  intros Hf s G. unfold upd_sjob, modify, swp. apply good_update; [done|].
  intros j Hj. apply Hf. by eapply to_job; [apply G|].
Qed.

Lemma swp_get_job {B} id (k : sbd_job -> sM B) Q E s :
  is_Some (sjobs s !! id) -> (forall j, sjobs s !! id = Some j -> swp (k j) Q E s) ->
  swp (sbind (get_job id) k) Q E s.
Proof. intros [j Hj] Hk. unfold swp, sbind, get_job. rewrite Hj. by apply Hk. Qed.

(** ** Writing the state of a job of the table *)

Lemma id_i64 s id j : good s -> sjobs s !! id = Some j -> is_i64 id = true.
Proof.
  intros G Hj. pose proof (jo_fits j (to_job s (g_table s G) id j Hj)) as F.
  rewrite <- (to_id s (g_table s G) id j Hj). by apply state_fits_inv in F as ((? & _) & _).
Qed.

Lemma disk_i64 s id d : on_disk s id d -> is_i64 id = true.
Proof. intros (_ & F & <-). by apply state_fits_inv in F as ((? & _) & _). Qed.

Lemma print_id_inj a b : is_i64 a = true -> is_i64 b = true -> print_int a = print_int b -> a = b.
Proof.
  unfold is_i64. intros [A1 A2]%andb_prop [B1 B2]%andb_prop. b2p. intros H.
  apply print_int_inj; [lia|lia|done].
Qed.

Lemma wrote_on_disk j s ok s' id d :
  wrote j s ok s' -> is_i64 id = true -> is_i64 (sj_job_id j) = true -> id <> sj_job_id j ->
  on_disk s' id d <-> on_disk s id d.
Proof.
  intros [_ H] H1 H2 Hne. unfold on_disk. rewrite H.
  rewrite (bool_decide_eq_false_2 (print_int id = print_int (sj_job_id j))); [by rewrite andb_false_r|].
  intros Heq. by apply Hne, print_id_inj.
Qed.

(** A state file is read in one way. *)
Lemma state_text_inj d d' :
  state_fits d = true -> state_fits d' = true -> state_text d = state_text d' ->
  reload sbd_job_zero d = reload sbd_job_zero d'.
Proof.
  intros H1 H2 Heq. pose proof (state_read_written sbd_job_zero d H1) as R1.
  pose proof (state_read_written sbd_job_zero d' H2) as R2. rewrite Heq, R2 in R1. apply (inj Some) in R1. by rewrite R1.
Qed.

Lemma wrote_disk_wf j s ok s' :
  disk_wf s -> state_fits j = true -> 0 < sj_pid j -> sj_pgid j = sj_pid j ->
  wrote j s ok s' -> disk_wf s'.
Proof.
  intros W F P1 P2 [_ H] nm text. rewrite H.
  destruct (ok && bool_decide (nm = print_int (sj_job_id j))) eqn:E; [|apply W].
  intros [= <-]. exists j. split_and!; try done. apply andb_prop in E as [_ E]. by apply bool_decide_eq_true in E.
Qed.

(** Writing the state of a job of the table, whether it succeeds or not. *)
Lemma wrote_good j s ok s' :
  good s -> sjobs s !! sj_job_id j = Some j -> wrote j s ok s' -> good s' /\ core_le s s'.
Proof.
  intros G Hj Hw. pose proof Hw as [(H1 & H2 & H3) Hat].
  pose proof (to_job s (g_table s G) _ j Hj) as O. pose proof (id_i64 s _ j G Hj) as I.
  assert (Hown : ok = true -> on_disk s' (sj_job_id j) j).
  { intros ->. split; [|split; [apply O|done]]. rewrite Hat. by rewrite bool_decide_eq_true_2. }
  split; [split|].
  - rewrite H3. apply G.
  - destruct (g_table s G). split; rewrite ?H1, ?H2; done.
  - by eapply wrote_disk_wf; [apply G|apply O..|].
  - intros id i. rewrite H1. intros Hi. destruct (decide (id = sj_job_id j)) as [->|Hne].
    + assert (i = j) as -> by congruence. destruct ok.
      * exists j. split_and!; [by apply Hown|apply O|apply same_core_refl].
      * destruct (g_saved s G _ j Hj) as (d & Hd & ?). exists d. split; [|done]. unfold on_disk. by rewrite Hat.
    + destruct (g_saved s G id i Hi) as (d & Hd & ?). exists d. split; [|done].
      apply (wrote_on_disk j s ok s'); try done. by eapply id_i64.
  - intros id d Hd Ho. rewrite H1. destruct (decide (id = sj_job_id j)) as [->|Hne]; [by eexists|].
    eapply (g_known s G id d); [|done]. apply (wrote_on_disk j s ok s'); try done. by eapply disk_i64.
  - split_and!; [done..|]. rewrite H1. intros id i Hi. by exists i.
Qed.

(** The state of a job of the table is written, or the process ends. *)
Lemma keeps_write_state e id : keeps_on storage_only id
  (let! j := get_job id in
   let! ok := sbd_job_state_write e j in
   if ok then ret tt else sbd_fatal SBD_FATAL_STORAGE).
Proof.
  intros s G Hid. apply swp_get_job; [done|]. intros j Hj.
  pose proof (to_id s (g_table s G) id j Hj) as <-. apply swp_bind.
  eapply swp_mono; [apply state_write_swp; [apply G|by eapply jo_fits, to_job; [apply G|]]| |done].
  cbv beta. intros ok s' [Hw Hfail].
  destruct (wrote_good j s ok s' G Hj Hw) as [G' L]. destruct ok; [done|].
  unfold swp, sbd_fatal. split; [by split; [|apply Hfail]|]. eapply crash_core; [done|by apply good_crash].
Qed.

(** ** Answers of the system *)

(** The clock and the statuses fit their types; a pid fits int; ll_hash_insert finds
    memory and the host has a name. *)
Record senv_ok (e : senv) : Prop := mk_senv_ok {
  eo_now : is_i64 (s_now e) = true;
  eo_hash : forall n, sys e SysHashInsert n = 0;
  eo_host : forall n, sys e SysGethostname n = 0;
  eo_fork : forall id n, is_i32 (sys e (SysFork id) n) = true;
  eo_children : forall pid st, (pid, st) ∈ children e -> is_i32 st = true
}.

(** An update that keeps what is saved except flags and times. *)
Lemma tame_intro f :
  (forall j, job_ok j -> same_core j (f j) /\ is_i64 (time_pid_acked (f j)) = true /\
     is_i64 (time_finish_acked (f j)) = true /\ is_i64 (sj_end_time (f j)) = true /\
     is_i32 (sj_exit_status (f j)) = true /\ finish_acked (f j) = 0 /\
     (pid_acked (f j) = 0 \/ pid_acked (f j) = 1) /\
     (0 < terminate_time (f j) -> terminate_kill_time (f j) = 0)) ->
  tame f.
Proof.
  intros H j O. destruct (H j O) as (Hs & T1 & T2 & T3 & X & F & A & G). split; [|done].
  destruct Hs as (S1 & S2 & S3 & S4 & S5 & S6 & S7 & S8). destruct O as [Fi _ P1 P2 _ _].
  apply state_fits_inv in Fi as ((? & _) & (? & ? & _) & (? & ?) & (? & ? & ?) & ? & ? & ?).
  split; [|done|congruence..|done|done].
  apply state_fits_intro; rewrite ?S1, ?S2, ?S3, ?S4, ?S5, ?S6, ?S7, ?S8; done.
Qed.

Ltac tame :=
  let j := fresh "j" in
  apply tame_intro; intros j [Fi ? ? ? ? ?];
  apply state_fits_inv in Fi as ((? & ? & ? & ?) & (? & ? & ?) & _); cbn; split_and!; try done; auto.

Lemma is_i32_cast z : is_i32 (i32 z) = true.
Proof.
  unfold is_i32, i32. pose proof (Z.mod_pos_bound (z + 2 ^ 31) (2 ^ 32) ltac:(lia)).
  apply andb_true_intro. split; b2p; lia.
Qed.

Lemma exit_file_i32 c m id v t : sbd_read_exit_status_file c m id = Some (v, t) -> is_i32 v = true.
Proof.
  unfold sbd_read_exit_status_file. do 2 (case_match; [|done]). cbn [scanf_ints].
  destruct (scan_number _) as [[a r]|]; [|done]. destruct (scan_number r) as [[b r']|]; [|done].
  intros [= <- _]. apply is_i32_cast.
Qed.

(** ** The channel *)

Lemma keeps_link_down e : keeps storage_only (sbd_mbd_link_down e).
Proof.
  unfold sbd_mbd_link_down. apply keeps_bind; [apply keeps_quiet; quiet|]. intros _.
  apply keeps_for_jobs. intros id s G Hid.
  eapply kept_keeps; [apply (keeps_update storage_only); tame|done|apply core_le_refl|].
  intros _ s1 G1 L1 _. eapply kept_from; [done|]. apply keeps_write_state; [done|by eapply core_le_in].
Qed.

Create HintDb sbd_keeps.
#[export] Hint Resolve keeps_ret keeps_link_down : sbd_keeps.

(** Splits a handler into parts that keep the invariant. *)
Ltac keeps :=
  repeat first
    [ solve [auto with sbd_keeps]
    | solve [apply keeps_quiet; unfold sbd_mbd_link_ready, sbd_job_find; quiet]
    | solve [apply keeps_update; tame]
    | apply keeps_bind; [|intros ?]
    | case_match ].

Lemma keeps_send e op st body : keeps storage_only (sbd_send_msg e op st body).
Proof. unfold sbd_send_msg. keeps. Qed.
#[export] Hint Resolve keeps_send : sbd_keeps.

Lemma keeps_reply e j : keeps storage_only (sbd_job_new_reply e j).
Proof. unfold sbd_job_new_reply. keeps. Qed.
#[export] Hint Resolve keeps_reply : sbd_keeps.

Lemma swp_sys_ok {B} e c (k : bool -> sM B) Q E s :
  (forall n, sys e c n = 0) -> (forall s', calm s s' -> swp (k true) Q E s') ->
  swp (sbind (sys_ok e c) k) Q E s.
Proof.
  intros H0 Hk. apply swp_bind. unfold sys_ok. unfold swp, sbind, sys_call, ret. cbn. rewrite H0.
  apply Hk. by apply calm_same.
Qed.

Lemma keeps_register e : senv_ok e -> keeps storage_only (sbd_register e).
Proof.
  intros He s G. unfold sbd_register.
  apply kept_quiet; [unfold sbd_mbd_link_ready; quiet|done|apply core_le_refl|].
  intros ready s1 _ G1 L1. destruct ready; [|by apply kept_ret]. cbn [negb].
  apply swp_sys_ok; [apply He|]. intros s2 C2. cbn [negb]. eapply kept_from; [exact L1|].
  apply kept_quiet; [quiet|by eapply calm_good|by apply calm_core|].
  intros c s3 _ G3 L3. eapply kept_from; [exact L3|]. by apply keeps_send.
Qed.

Lemma keeps_reconnect e : senv_ok e -> keeps storage_only (mbd_reconnect_try e).
Proof. intros He. unfold mbd_reconnect_try. pose proof (keeps_register e He). keeps. Qed.

(** ** Children and checks *)

Lemma find_by_pid_swp l pid s :
  (forall id, id ∈ l -> is_Some (sjobs s !! id)) ->
  swp (find_by_pid l pid)
    (fun r s' => s' = s /\ forall id, r = Some id -> exists j, sjobs s !! id = Some j /\ sj_pid j = pid)
    (fun _ _ => False) s.
Proof.
  induction l as [|id l IH]; intros Hl; cbn [find_by_pid]; [done|].
  apply swp_get_job; [apply Hl; by left|]. intros j Hj.
  destruct (Z.eqb_spec (sj_pid j) pid) as [Hp|].
  - split; [done|]. intros i [= <-]. eauto.
  - apply IH. intros i Hi. apply Hl. by right.
Qed.

Lemma keeps_reap C e : senv_ok e -> keeps C (sbd_reap_children e).
Proof.
  intros He. apply keeps_iter. intros [pid st] Hin s G. unfold reap_one.
  apply kept_quiet; [quiet|done|apply core_le_refl|]. intros p s1 _ G1 L1. eapply kept_from; [exact L1|].
  destruct (pid =? p); [apply keeps_quiet; [quiet|done]|].
  unfold sbd_find_job_by_pid. apply swp_bind. apply swp_bind. unfold gets, swp at 1.
  eapply swp_mono; [apply find_by_pid_swp| |done].
  { intros id. by rewrite (to_dom s1 (g_table s1 G1)). }
  cbv beta. intros r s2 [-> Hr]. destruct r as [id|]; [|by apply keeps_ret].
  destruct (Hr id eq_refl) as (j & Hj & Hp). apply swp_get_job; [by eexists|]. intros j' Hj'.
  assert (j' = j) as -> by congruence. unfold s_assert. rewrite Hp, Z.eqb_refl.
  apply keeps_update; [|done]. pose proof (eo_children e He pid st Hin). pose proof (eo_now e He). tame.
Qed.

Lemma keeps_terminate_check C e id : keeps_on C id (job_terminate_check e id).
Proof.
  intros s G Hid. unfold job_terminate_check. apply swp_get_job; [done|]. intros j Hj.
  revert s G Hid Hj. enough (H : keeps C
    (if terminate_time j <=? 0 then ret tt
     else if negb (exit_status_valid j =? 0) then ret tt
     else if (terminate_time j <=? s_now e) && (terminate_kill_time j =? 0) then
       let! _ := sys_call e (SysKillpg (sj_pgid j) SIGUSR2) in
       upd_sjob id (fun j => j <| terminate_time := 0 |> <| terminate_kill_time := s_now e + 60 |>)
     else if (0 <? terminate_kill_time j) && (terminate_kill_time j <=? s_now e) then
       let! _ := cgroup_job_kill e id in
       upd_sjob id (fun j => j <| terminate_kill_time := 0 |>)
     else ret tt)) by (intros s G _ _; by apply H).
  keeps.
Qed.

Lemma keeps_check_job C e id : keeps_on C id (check_job e id).
Proof.
  intros s G Hid. unfold check_job. apply swp_get_job; [done|]. intros j Hj.
  destruct (exit_status_valid j =? 0); [|by apply keeps_ret]. cbn [negb].
  unfold s_assert. rewrite (jo_open j) by by eapply to_job; [apply G|]. cbn [Z.leb].
  apply kept_quiet; [quiet|done|apply core_le_refl|]. intros _ s0 C0 G0 L0.
  assert (Hid0 : is_Some (sjobs s0 !! id)) by by eapply core_le_in.
  destruct (pid_acked j =? 0); [by apply kept_ret|]. apply swp_bind.
  eapply swp_mono; [eapply kept_from; [exact L0|]; by apply (keeps_terminate_check C)| |done].
  cbv beta. intros _ s1 [G1 L1].
  assert (Hid1 : is_Some (sjobs s1 !! id)) by by eapply core_le_in.
  apply swp_get_job; [done|]. intros j1 Hj1.
  apply kept_quiet; [auto with sbd_quiet|done|done|]. intros alive s2 C2 G2 L2.
  destruct alive; [by apply kept_ret|]. eapply kept_from; [exact L2|].
  apply kept_quiet; [quiet|done|apply core_le_refl|]. intros c s3 C3 G3 L3.
  apply kept_quiet; [quiet|done|done|]. intros m s4 C4 G4 L4.
  assert (Hid4 : is_Some (sjobs s4 !! id)).
  { apply (core_le_in s2); [done|]. apply (core_le_in s1); [by apply calm_core|done]. }
  eapply kept_from; [exact L4|].
  destruct (sbd_read_exit_status_file _ _ _) as [[v t]|] eqn:Ef.
  - apply exit_file_i32 in Ef. apply keeps_update; [|done]. unfold exit_known. tame.
  - eapply kept_keeps; [apply keeps_update; tame|done|apply core_le_refl|]. intros _ s5 G5 L5 _.
    apply swp_get_job; [by eapply core_le_in|]. intros j5 _. eapply kept_from; [exact L5|].
    destruct (retry_exit_count j5 <? 3); [by apply keeps_ret|]. apply keeps_update; [|done].
    unfold exit_known. tame.
Qed.

Lemma keeps_status_checking C e : keeps C (job_status_checking e).
Proof. apply keeps_for_jobs. intros id. apply keeps_check_job. Qed.

(** ** Reports *)

Lemma keeps_drive_reply e id : keeps_on storage_only id (drive_reply e id).
Proof.
  intros s G Hid. unfold drive_reply. apply swp_get_job; [done|]. intros j _.
  revert s G Hid. enough (H : keeps storage_only
    (if negb (pid_acked j =? 0) then ret tt
     else let! c := gets sconf in
       if s_now e - reply_last_send j <? resend_sec c then ret tt
       else let! ok := sbd_job_new_reply e j in
            if negb ok then ret tt
            else upd_sjob id (fun j => j <| reply_last_send := s_now e |>))) by (intros s G _; by apply H).
  keeps.
Qed.

Lemma keeps_new_drive e : keeps storage_only (job_new_drive e).
Proof.
  unfold job_new_drive. pose proof (keeps_for_jobs storage_only _ (keeps_drive_reply e)). keeps.
Qed.

(** The report of an exit, for a job whose pid mbd has and whose status is known. *)
Lemma kept_job_finish e id s0 s j :
  good s -> core_le s0 s -> sjobs s !! id = Some j -> pid_acked j <> 0 -> exit_status_valid j <> 0 ->
  kept storage_only s0 (sbd_job_finish e id) s.
Proof.
  intros G L Hj Ha Hv. unfold sbd_job_finish. apply kept_quiet; [unfold sbd_mbd_link_ready; quiet|done|done|].
  intros ready s1 (C1 & _) G1 L1. destruct ready; [|by apply kept_ret]. cbn [negb].
  apply swp_get_job; [rewrite C1; by eexists|]. rewrite C1. intros j1 Hj1. assert (j1 = j) as -> by congruence.
  unfold s_assert. rewrite (proj2 (Z.eqb_neq (pid_acked j) 0)), (proj2 (Z.eqb_neq (exit_status_valid j) 0)) by done.
  rewrite (jo_open j) by by eapply to_job; [apply G|]. cbn [negb Z.eqb].
  eapply kept_from; [exact L1|]. do 3 (apply kept_quiet; [quiet|done|apply core_le_refl|]; intros _ ? _ ? ?;
    eapply kept_from; [eassumption|]).
  apply kept_quiet; [quiet|done|apply core_le_refl|]. intros c s5 _ G5 L5. eapply kept_from; [exact L5|].
  eapply kept_keeps; [apply keeps_update; tame|done|apply core_le_refl|].
  intros _ s6 G6 L6 _. eapply kept_from; [exact L6|]. by apply keeps_send.
Qed.

Lemma keeps_drive_finish e id : keeps_on storage_only id (drive_finish e id).
Proof.
  intros s G Hid. unfold drive_finish. apply swp_get_job; [done|]. intros j Hj.
  destruct (Z.eqb_spec (pid_acked j) 0) as [|Ha]; [by apply keeps_ret|].
  destruct (Z.eqb_spec (exit_status_valid j) 0) as [|Hv]; [by apply keeps_ret|].
  unfold s_assert. rewrite (jo_open j) by by eapply to_job; [apply G|]. cbn [Z.eqb].
  apply kept_quiet; [quiet|done|apply core_le_refl|]. intros _ s1 C1 G1 L1.
  apply kept_quiet; [quiet|done|done|]. intros c s2 C2 G2 L2.
  assert (Hj2 : sjobs s2 !! id = Some j) by by rewrite (proj1 C2), (proj1 C1).
  destruct (_ <? _); [by apply kept_ret|]. apply swp_bind.
  eapply swp_mono; [by apply (kept_job_finish e id s s2 j)| |done]. cbv beta. intros ok s3 [G3 L3].
  destruct ok; [|by apply kept_ret]. eapply kept_from; [exact L3|]. apply keeps_update; [tame|done].
Qed.

Lemma keeps_finish_drive e : keeps storage_only (job_finish_drive e).
Proof.
  unfold job_finish_drive. pose proof (keeps_for_jobs storage_only _ (keeps_drive_finish e)). keeps.
Qed.

Lemma keeps_timer e : senv_ok e -> keeps storage_only (timer_maintenance e).
Proof.
  intros He. unfold timer_maintenance. pose proof (keeps_reap storage_only e He). pose proof (keeps_reconnect e He).
  pose proof (keeps_new_drive e). pose proof (keeps_finish_drive e). pose proof (keeps_status_checking storage_only e).
  keeps.
Qed.

(** ** Messages of mbd *)

Lemma keeps_signal e m : keeps storage_only (sbd_job_signal e m).
Proof. unfold sbd_job_signal. keeps. Qed.

Lemma keeps_reply_ack e a : senv_ok e -> keeps storage_only (sbd_job_new_reply_ack e a).
Proof.
  intros He s G. unfold sbd_job_new_reply_ack. destruct a as [a|]; [|by apply keeps_ret].
  apply swp_bind. unfold sbd_job_find, gets, swp at 1.
  destruct (sjobs s !! ack_job_id a) as [j|] eqn:Hj; [|by apply keeps_ret].
  destruct (pid_acked j =? 1); [by apply keeps_ret|].
  pose proof (eo_now e He). eapply kept_keeps; [apply keeps_update; tame|done|apply core_le_refl|].
  intros _ s1 G1 L1 _. apply swp_get_job; [by eapply core_le_in|]. intros j1 Hj1.
  pose proof (to_id s1 (g_table s1 G1) _ j1 Hj1) as Hid. rewrite <- Hid in Hj1. apply swp_bind.
  eapply swp_mono; [apply state_write_swp; [apply G1|by eapply jo_fits, to_job; [apply G1|]]| |done].
  cbv beta. intros ok s2 [Hw Hfail].
  destruct (wrote_good j1 s1 ok s2 G1 Hj1 Hw) as [G2 L2].
  destruct ok; cbn [negb].
  - unfold s_assert. rewrite (jo_open j1) by by eapply to_job; [apply G1|]. cbn [Z.eqb].
    apply kept_ret; [done|by eapply core_le_trans].
  - unfold kept, swp, sbd_fatal. split; [by split; [|apply Hfail]|]. eapply crash_core; [|by apply good_crash].
    by eapply core_le_trans.
Qed.

(** The jobs mbd lists are unknown here or have the pid they have here. *)
Definition register_ok (s : sbd) (l : list (Z * Z)) : Prop :=
  forall id p j, (id, p) ∈ l -> sjobs s !! id = Some j -> p <= 0 \/ p = sj_pid j.

Definition storage_or_enqueue (c : sbd_end) (s : sbd) : Prop :=
  storage_only c s \/ c = SBD_FATAL_ENQUEUE.

Lemma core_le_register s s' l :
  good s -> good s' -> core_le s s' -> register_ok s l -> register_ok s' l.
Proof.
  intros G G' (_ & HL & L) H id p j' Hin Hj'.
  assert (is_Some (sjobs s !! id)) as [j Hj].
  { rewrite <- (to_dom s (g_table s G)), <- HL, (to_dom s' (g_table s' G')). by eexists. }
  destruct (L id j Hj) as (j'' & Hj'' & Hs). assert (j'' = j') as -> by congruence.
  destruct (H id p j Hin Hj) as [Hp|Hp]; [by left|right]. rewrite Hp. symmetry. apply Hs.
Qed.

Lemma kept_register_job e id p s :
  good s -> register_ok s [(id, p)] -> kept storage_or_enqueue s (register_job e (id, p)) s.
Proof.
  intros G Hr. unfold register_job. apply swp_bind. unfold sbd_job_find, gets, swp at 1.
  destruct (sjobs s !! id) as [j|] eqn:Hj.
  - pose proof (jo_pid j (to_job s (g_table s G) id j Hj)) as Hp.
    rewrite (proj2 (Z.leb_gt _ _) Hp). destruct (Hr id p j ltac:(by left) Hj) as [Hle|Heq].
    + rewrite (proj2 (Z.ltb_ge 0 p) Hle). apply keeps_update; [tame|done].
    + rewrite Heq, (proj2 (Z.ltb_lt _ _) Hp), Z.eqb_refl. by apply keeps_ret.
  - apply kept_keeps; [|done|apply core_le_refl|].
    + unfold sbd_enqueue_job_missing. eapply keeps_weaken; [|apply keeps_send]. by left.
    + intros ok s1 G1 L1 _. destruct ok; [by apply kept_ret|]. unfold kept, swp, sbd_fatal.
      split; [by right|]. eapply crash_core; [done|by apply good_crash].
Qed.

Lemma kept_register_ack e l s :
  good s -> (forall jobs, l = Some jobs -> register_ok s jobs) ->
  kept storage_or_enqueue s (sbd_register_ack e l) s.
Proof.
  intros G Hr. destruct l as [l|]; cbn [sbd_register_ack].
  - specialize (Hr l eq_refl). revert s G Hr. induction l as [|[id p] l IH]; intros s G Hr; cbn [s_iter].
    { by apply keeps_ret. }
    apply swp_bind. eapply swp_mono; [apply kept_register_job; [done|]| |done].
    + intros i q j Hin. apply Hr. apply list_elem_of_singleton in Hin as ->. by left.
    + cbv beta. intros _ s1 [G1 L1]. eapply kept_from; [exact L1|]. apply IH; [done|].
      eapply core_le_register; [exact G|done|done|]. intros i q j Hin. apply Hr. by right.
  - eapply keeps_weaken; [|apply keeps_link_down|done]. by left.
Qed.
