(* ===== verification/SbdLife.v ===== *)
(** * Start, end and restart of jobs in the execution daemon

    The handlers that add a job to the table or take one from it, the pruner, and
    the start of a new process on the files of the last one. *)

From S2P Require Import Prelude CString LlHash Dependency LogFormat MbdTypes MbdBase MbdJob MbdSched MbdNet SbdTypes SbdStore SbdState SbdJob SbdMain SbdInv SbdSafe.

Open Scope string_scope.
Open Scope list_scope.
Open Scope Z_scope.

(** ** Parts that keep the invariant in a given state *)

Lemma kept_calm {A B} C (m : sM A) (k : A -> sM B) s0 s :
  swp m (fun _ s' => calm s s') (fun _ _ => False) s -> good s -> core_le s0 s ->
  (forall a s', calm s s' -> good s' -> core_le s0 s' -> kept C s0 (k a) s') ->
  kept C s0 (sbind m k) s.
Proof.
  intros Hm G L Hk. apply swp_bind. eapply swp_mono; [exact Hm| |done]. cbv beta.
  intros a s' Hc. apply Hk; [done|by eapply calm_good|]. eapply core_le_trans; [done|by apply calm_core].
Qed.

Lemma kept_file_remove C e id s0 s :
  good s -> core_le s0 s -> kept C s0 (sbd_job_file_remove e id) s.
Proof.
  intros G L. eapply swp_mono; [apply file_remove_calm, G| |done]. cbv beta. intros _ s' Hc.
  split; [by eapply calm_good|]. eapply core_le_trans; [done|by apply calm_core].
Qed.

(** Removing the state file of a job that is not in memory. *)
Lemma kept_state_remove C e id s0 s :
  good s -> core_le s0 s -> sjobs s !! id = None -> is_i64 id = true ->
  kept C s0 (sbd_job_state_remove e id) s.
Proof.
  intros G L Hid I. eapply swp_mono; [apply state_remove_swp, G| |done]. cbv beta.
  intros _ s' ((H1 & H2 & H3) & Hat). split; [split|].
  - rewrite H3. apply G.
  - destruct (g_table s G). split; rewrite ?H1, ?H2; done.
  - intros nm text Ht. destruct (Hat nm) as [E|[_ E]]; rewrite E in Ht; [by apply G|done].
  - rewrite H1. intros i j Hj. destruct (g_saved s G i j Hj) as (d & (D1 & D2 & D3) & ?). exists d.
    split; [|done]. split; [|done]. destruct (Hat (print_int i)) as [->|[E _]]; [done|].
    apply print_id_inj in E; [congruence|by eapply id_i64|done].
  - rewrite H1. intros i d (D1 & D2 & D3) Ho. apply (g_known s G i d); [|done]. split; [|done].
    destruct (Hat (print_int i)) as [E|[_ E]]; congruence.
  - eapply core_le_trans; [done|]. split_and!; [done..|]. rewrite H1. eauto using same_core_refl.
Qed.

Lemma core_le_out s s' id : good s -> good s' -> core_le s s' -> sjobs s !! id = None -> sjobs s' !! id = None.
Proof.
  intros G G' (_ & HL & _) Hid. apply eq_None_not_Some. intros H.
  rewrite <- (to_dom s' (g_table s' G')), HL, (to_dom s (g_table s G)), Hid in H. by destruct H.
Qed.

(** ** A new job *)

(** No job is lost and only [id] may be new. *)
Definition grown (s : sbd) (id : Z) (s' : sbd) : Prop :=
  sconf s' = sconf s /\
  (forall i j, sjobs s !! i = Some j -> exists j', sjobs s' !! i = Some j' /\ same_core j j') /\
  (forall i, is_Some (sjobs s' !! i) -> is_Some (sjobs s !! i) \/ i = id).

Definition grows (s0 : sbd) (id : Z) (m : sM unit) (s : sbd) : Prop :=
  swp m (fun _ s' => good s' /\ grown s0 id s') (fun c s' => storage_only c s' /\ crash_ok s0 s') s.

Lemma core_grown s id s' : good s -> good s' -> core_le s s' -> grown s id s'.
Proof.
  intros G G' (L1 & L2 & L3). split_and!; [done..|]. intros i.
  rewrite <- (to_dom s' (g_table s' G')), L2, (to_dom s (g_table s G)). by left.
Qed.

Lemma grows_kept s0 id m s : good s0 -> kept storage_only s0 m s -> grows s0 id m s.
Proof.
  intros G H. eapply swp_mono; [exact H| |done]. cbv beta. intros _ s' [G' L]. split; [done|by apply core_grown].
Qed.

(** The next part starts in a state the invariant cannot tell from [s]. *)
Lemma grows_calm {A} (m : sM A) (k : A -> sM unit) s0 id s :
  swp m (fun _ s' => calm s s') (fun _ _ => False) s -> calm s0 s ->
  (forall a s', calm s0 s' -> grows s0 id (k a) s') -> grows s0 id (sbind m k) s.
Proof.
  intros Hm C Hk. apply swp_bind. eapply swp_mono; [exact Hm| |done]. cbv beta. intros a s' C'.
  apply Hk. by eapply calm_trans.
Qed.

Lemma grown_trans s1 id s2 s3 : grown s1 id s2 -> grown s2 id s3 -> grown s1 id s3.
Proof.
  intros (K1 & K2 & K3) (M1 & M2 & M3). split_and!; [congruence| |].
  - intros i k Hk. destruct (K2 i k Hk) as (k2 & Hk2 & S2). destruct (M2 i k2 Hk2) as (k3 & Hk3 & S3).
    exists k3. split; [done|by eapply same_core_trans].
  - intros i Hi. destruct (M3 i Hi) as [?| ->]; [by apply K3|by right].
Qed.

Lemma grown_crash s1 id s2 s3 : grown s1 id s2 -> crash_ok s2 s3 -> crash_ok s1 s3.
Proof.
  intros (K1 & K2 & K3) (M1 & M2 & M3). split_and!; [congruence|done|].
  intros i k Hk. destruct (K2 i k Hk) as (k2 & Hk2 & S2). destruct (M3 i k2 Hk2) as (d & Hd & Sd).
  exists d. split; [done|by eapply same_core_trans].
Qed.

(** The job is in the table and on the list, and its state is written. *)
Lemma inserted_good s s1 s2 j :
  good s -> sjobs s !! sj_job_id j = None -> job_ok j ->
  sjobs s1 = <[sj_job_id j := j]> (sjobs s) -> sbd_job_list s1 = sbd_job_list s ++ [sj_job_id j] ->
  sconf s1 = sconf s -> (forall nm, state_at s1 nm = state_at s nm) ->
  wrote j s1 true s2 -> good s2 /\ grown s (sj_job_id j) s2.
Proof.
  intros G Hnew O T1 T2 T3 T4 Hw. pose proof Hw as [(H1 & H2 & H3) Hat]. destruct (g_table s G) as [D N I J].
  assert (I64 : is_i64 (sj_job_id j) = true).
  { destruct (state_fits_inv j (jo_fits j O)) as ((? & _) & _). done. }
  assert (Hown : on_disk s2 (sj_job_id j) j).
  { split; [|split; [apply O|done]]. rewrite Hat. by rewrite bool_decide_eq_true_2. }
  assert (Hoth : forall i d, i <> sj_job_id j -> is_i64 i = true -> on_disk s2 i d <-> on_disk s i d).
  { intros i d Hne Hi. rewrite (wrote_on_disk j s1 true s2) by done. unfold on_disk. by rewrite T4. }
  assert (Hout : sj_job_id j ∉ sbd_job_list s) by (rewrite D, Hnew; by intros []).
  split; [split|].
  - rewrite H3, T3. apply G.
  - split; rewrite ?H1, ?H2, ?T1, ?T2.
    + intros i. rewrite elem_of_app, list_elem_of_singleton, D, lookup_insert_is_Some. split.
      * intros [?|?]; [|by left]. destruct (decide (sj_job_id j = i)); [by left|by right].
      * intros [?|[? ?]]; [by right|by left].
    + apply NoDup_app. split_and!; [done| |apply NoDup_singleton].
      intros x Hx Hy. apply list_elem_of_singleton in Hy as ->. done.
    + intros i k [[<- <-]|[_ Hk]]%lookup_insert_Some; [done|by apply I].
    + intros i k [[_ <-]|[_ Hk]]%lookup_insert_Some; [done|by eapply J].
  - eapply wrote_disk_wf; [|apply O..|exact Hw]. intros nm text. rewrite T4. apply G.
  - rewrite H1, T1. intros i k [[<- <-]|[Hne Hk]]%lookup_insert_Some.
    + exists j. split_and!; [done|apply O|apply same_core_refl].
    + destruct (g_saved s G i k Hk) as (d & Hd & ?). exists d. split; [|done].
      apply Hoth; [done|by eapply id_i64|done].
  - rewrite H1, T1. intros i d Hd Ho. rewrite lookup_insert_is_Some.
    destruct (decide (sj_job_id j = i)); [by left|right]. split; [done|].
    apply (g_known s G i d); [|done]. apply Hoth; [done|by eapply disk_i64|done].
  - split_and!; [congruence| |].
    + rewrite H1, T1. intros i k Hk. exists k. rewrite lookup_insert_ne by congruence.
      split; [done|apply same_core_refl].
    + rewrite H1, T1. intros i. rewrite lookup_insert_is_Some. intros [<-|[_ ?]]; auto.
Qed.

(** What the daemon needs of a message that starts a job. *)
Definition start_ok (ws : wire_job_start) (wf : wire_job_files) : bool :=
  let j := sbd_job_of ws wf in
  first_char_set (sj_user j) && first_char_set (sj_user_home j) && first_char_set (sj_user_cwd j) &&
  state_fits j.

Lemma spawned_ok ws wf pid :
  start_ok ws wf = true -> 0 < pid -> is_i32 pid = true ->
  job_ok ((sbd_job_of ws wf) <| sj_pid := pid |> <| sj_pgid := pid |>).
Proof.
  intros [_ F]%andb_prop Hp Hi. split; [|done|done|done|by left|done].
  apply state_fits_inv in F as ((? & ? & ? & ?) & (? & ? & ?) & (? & ?) & (? & ? & ?) & ? & ? & ?).
  by apply state_fits_intro.
Qed.

Lemma grows_insert e j s0 s :
  senv_ok e -> good s0 -> calm s0 s -> sjobs s0 !! sj_job_id j = None -> job_ok j ->
  grows s0 (sj_job_id j)
    (let! _ := sbd_job_insert e j in
     let! ok := sbd_job_state_write e j in
     if negb ok then sbd_fatal SBD_FATAL_STORAGE
     else
       let! ok := sbd_job_new_reply e j in
       if negb ok then ret tt
       else upd_sjob (sj_job_id j) (fun j => j <| reply_last_send := s_now e |>)) s.
Proof.
  intros He G C Hnew O. pose proof C as (C1 & C2 & C3 & C4). apply swp_bind.
  unfold sbd_job_insert. apply swp_bind. unfold gets at 1, swp at 1. rewrite C1, Hnew.
  apply swp_sys_ok; [apply He|]. intros s1 (D1 & D2 & D3 & D4). unfold modify at 1, swp at 1. cbn [upd].
  apply swp_bind. eapply swp_mono; [apply state_write_swp; [cbn; rewrite D3, C3; apply G|apply O]| |done].
  cbv beta. intros ok s2 [Hw Hfail]. destruct ok; cbn [negb].
  - assert (good s2 /\ grown s0 (sj_job_id j) s2) as (G2 & K).
    { eapply inserted_good; [exact G|exact Hnew|exact O| | | | |exact Hw]; cbn; try congruence.
      intros nm. etransitivity; [|apply C4]. apply (D4 nm). }
    eapply swp_mono with (Q := fun _ s' => good s' /\ core_le s2 s') (E := fun c s' => storage_only c s' /\ crash_ok s2 s').
    + eapply kept_keeps; [apply keeps_reply|done|apply core_le_refl|]. intros ok s3 G3 L3 _.
      destruct ok; [|by apply kept_ret]. eapply kept_from; [exact L3|]. apply keeps_update; [tame|done].
    + intros _ s4 [G4 L4]. split; [done|]. eapply grown_trans; [exact K|by apply core_grown].
    + intros c s4 [? ?]. split; [done|]. by eapply grown_crash.
  - unfold swp, sbd_fatal. split; [by split; [|apply Hfail]|]. destruct Hw as [(H1 & H2 & H3) Hat]. cbn in *.
    assert (Hs : forall nm, state_at s2 nm = state_at s0 nm).
    { intros nm. rewrite Hat. cbn. etransitivity; [|apply C4]. apply (D4 nm). }
    split_and!; [congruence| |].
    + intros nm text. rewrite Hs. apply G.
    + intros i k Hk. destruct (g_saved s0 G i k Hk) as (d & Hd & _ & ?). exists d. split; [|done].
      unfold on_disk. by rewrite Hs.
Qed.

(** ** [sbd_job_new] *)

Lemma kept_refuse e id err s0 s (cleanup : sM unit) :
  good s -> core_le s0 s ->
  (forall s', good s' -> core_le s0 s' -> core_le s s' -> kept storage_only s0 cleanup s') ->
  kept storage_only s0 (let! _ := sbd_job_new_reply_err e id err in cleanup) s.
Proof.
  intros G L Hk. eapply kept_keeps; [unfold sbd_job_new_reply_err; apply keeps_send|done|done|].
  intros _ s' G' L' LL. by apply Hk.
Qed.

Lemma kept_cleanup e id s0 s :
  good s -> core_le s0 s -> sjobs s !! id = None -> is_i64 id = true ->
  kept storage_only s0 (let! _ := sbd_job_file_remove e id in sbd_job_state_remove e id) s.
Proof.
  intros G L Hid I. apply kept_calm; [apply file_remove_calm, G|done|done|].
  intros _ s' (C1 & _) G' L'. apply kept_state_remove; [done..| |done]. by rewrite C1.
Qed.

Lemma create_swp e ws wf s :
  start_ok ws wf = true ->
  swp (sbd_job_create e ws wf)
    (fun r s' => calm s s' /\ (r = None \/ r = Some (sbd_job_of ws wf))) (fun _ _ => False) s.
Proof.
  intros [[[U H]%andb_prop W]%andb_prop _]%andb_prop. unfold sbd_job_create. apply swp_quiet; [quiet|].
  intros ok s1 C. destruct ok; cbn [negb]; [|by split; [|left]].
  unfold s_assert. rewrite U, H, W. by split; [|right].
Qed.

(** The pid of a fork that succeeded is positive. *)
Lemma spawn_swp e j s :
  senv_ok e ->
  swp (spawn_job e j)
    (fun r s' => calm s s' /\ forall j', r = inr j' ->
       exists pid, 0 < pid /\ is_i32 pid = true /\ j' = j <| sj_pid := pid |> <| sj_pgid := pid |>)
    (fun _ _ => False) s.
Proof.
  intros He. unfold spawn_job. apply swp_quiet; [quiet|]. intros _ s1 C1. apply swp_bind.
  unfold sys_call, swp. cbn. destruct (Z.ltb_spec 0 (sys e (SysFork (sj_job_id j)) (length (strace s1)))); cbn.
  - split; [eapply calm_trans; [exact C1|by apply calm_same]|]. intros j' [= <-]. eexists. split_and!; [eassumption|apply He|done].
  - split; [eapply calm_trans; [exact C1|by apply calm_same]|done].
Qed.

Lemma grows_job_new e ws wf s :
  senv_ok e -> good s -> (sjobs s !! ws_job_id ws = None -> start_ok ws wf = true) ->
  grows s (ws_job_id ws) (sbd_job_new e (Some (ws, wf))) s.
Proof.
  intros He G Hok. unfold sbd_job_new, sbd_job_find. apply swp_bind. unfold gets at 1, swp at 1.
  destruct (sjobs s !! ws_job_id ws) as [j|] eqn:Hfind.
  { apply grows_kept; [done|]. eapply kept_keeps; [apply keeps_reply|done|apply core_le_refl|].
    intros _ s' G' L' _. by apply kept_ret. }
  specialize (Hok eq_refl). pose proof Hok as [[[U H]%andb_prop W]%andb_prop F]%andb_prop.
  destruct (state_fits_inv _ F) as ((I64 & _) & _). change (sj_job_id (sbd_job_of ws wf)) with (ws_job_id ws) in I64.
  assert (Hout : forall s1 s2, calm s s1 -> good s2 -> core_le s1 s2 -> sjobs s2 !! ws_job_id ws = None).
  { intros s1 s2 C G2 L. apply (core_le_out s1); [by apply (calm_good s)|done..|]. by rewrite (proj1 C). }
  assert (Hrefuse : forall err cleanup s1, calm s s1 ->
    (forall s2, good s2 -> core_le s s2 -> sjobs s2 !! ws_job_id ws = None -> kept storage_only s cleanup s2) ->
    grows s (ws_job_id ws) (let! _ := sbd_job_new_reply_err e (ws_job_id ws) err in cleanup) s1).
  { intros err cleanup s1 C Hk. apply grows_kept; [done|].
    apply kept_refuse; [by eapply calm_good|by apply calm_core|]. intros s2 G2 L2 L12. apply Hk; eauto. }
  apply swp_bind. eapply swp_mono; [by apply create_swp| |done]. cbv beta. intros made s1 [C1 [->| ->]].
  { apply Hrefuse; [done|]. intros. by apply kept_ret. }
  apply grows_calm; [apply quiet_make_job_dir|done|]. intros [err|] s2 C2.
  { apply Hrefuse; [done|]. intros. by apply kept_ret. }
  apply grows_calm; [apply quiet_make_state_dir|done|]. intros [err|] s3 C3.
  { apply Hrefuse; [done|]. intros. by apply kept_file_remove. }
  apply grows_calm; [apply quiet_script_write; rewrite (proj1 (proj2 (proj2 C3))); apply G|done|].
  intros [err|] s4 C4.
  { apply Hrefuse; [done|]. intros. by apply kept_cleanup. }
  apply swp_bind. eapply swp_mono; [by apply spawn_swp| |done]. cbv beta. intros r s5 [C5 Hj].
  assert (C : calm s s5) by by eapply calm_trans. destruct r as [err|j].
  { apply Hrefuse; [done|]. intros. by apply kept_cleanup. }
  destruct (Hj j eq_refl) as (pid & Hp & Hi & Ej).
  assert (O : job_ok j) by (rewrite Ej; by apply spawned_ok).
  assert (Hid : ws_job_id ws = sj_job_id j) by by rewrite Ej.
  rewrite Hid in Hfind |- *. by apply (grows_insert e j).
Qed.

(** ** [sbd_job_finish_ack] *)

(** mbd acknowledges a finish, of a job whose exit status is known. *)
Definition finish_ack_ok (s : sbd) (a : wire_job_ack) : Prop :=
  ack_op a = BATCH_JOB_FINISH /\
  forall j, sjobs s !! ack_job_id a = Some j -> exit_status_valid j <> 0.

(** The record written when the finish is acknowledged. *)
Definition acked_at (t : Z) (j : sbd_job) : sbd_job := j <| finish_acked := 1 |> <| time_finish_acked := t |>.

Lemma acked_fits t j : is_i64 t = true -> state_fits j = true -> state_fits (acked_at t j) = true.
Proof.
  intros Ht F. apply state_fits_inv in F as ((? & ? & ? & ?) & (? & ? & ?) & (? & ?) & (? & ? & ?) & ? & ? & ?).
  by apply state_fits_intro.
Qed.

Lemma acked_good t j s s1 s2 s3 :
  good s -> is_i64 t = true -> sjobs s !! sj_job_id j = Some j ->
  sconf s1 = sconf s -> (forall nm, state_at s1 nm = state_at s nm) ->
  wrote (acked_at t j) s1 true s2 ->
  sjobs s3 = delete (sj_job_id j) (sjobs s) ->
  sbd_job_list s3 = filter (fun i => i <> sj_job_id j) (sbd_job_list s) ->
  sconf s3 = sconf s -> (forall nm, state_at s3 nm = state_at s2 nm) -> good s3.
Proof.
  intros G Ht Hj T3 T4 Hw U1 U2 U3 U4. destruct (g_table s G) as [D N I J].
  pose proof (J _ _ Hj) as O. pose proof (id_i64 s _ j G Hj) as I64.
  assert (F : state_fits (acked_at t j) = true) by by apply acked_fits; [|apply O].
  assert (Hoth : forall i d, i <> sj_job_id j -> is_i64 i = true -> on_disk s3 i d <-> on_disk s i d).
  { intros i d Hne Hi. unfold on_disk at 1. rewrite U4. fold (on_disk s2 i d).
    rewrite (wrote_on_disk (acked_at t j) s1 true s2) by done. unfold on_disk. by rewrite T4. }
  split.
  - rewrite U3. apply G.
  - split; rewrite ?U1, ?U2.
    + intros i. rewrite list_elem_of_filter, D, lookup_delete_is_Some. intuition congruence.
    + by apply NoDup_filter.
    + intros i k [_ Hk]%lookup_delete_Some. by apply I.
    + intros i k [_ Hk]%lookup_delete_Some. by eapply J.
  - intros nm text. rewrite U4. eapply wrote_disk_wf; [|exact F|apply O..|exact Hw].
    intros nm' text'. rewrite T4. apply G.
  - rewrite U1. intros i k [Hne Hk]%lookup_delete_Some. destruct (g_saved s G i k Hk) as (d & Hd & ?).
    exists d. split; [|done]. apply Hoth; [done|by eapply id_i64|done].
  - rewrite U1. intros i d Hd Ho. rewrite lookup_delete_is_Some.
    destruct (decide (sj_job_id j = i)) as [<-|Hne].
    + exfalso. destruct Hd as (D1 & D2 & _). rewrite U4 in D1. destruct Hw as [_ Hat].
      rewrite Hat, bool_decide_eq_true_2 in D1 by done. cbn [andb] in D1. apply (inj Some) in D1.
      apply state_text_inj in D1; [|done..]. apply (f_equal finish_acked) in D1. cbn in D1. by rewrite Ho in D1.
    + split; [done|]. apply (g_known s G i d); [|done]. apply Hoth; [done|by eapply disk_i64|done].
Qed.

Lemma finish_ack_swp e a s :
  senv_ok e -> good s -> finish_ack_ok s a ->
  swp (sbd_job_finish_ack e (Some a))
    (fun _ s' => good s' /\ sconf s' = sconf s /\ sjobs s' = delete (ack_job_id a) (sjobs s))
    (fun c s' => storage_only c s' /\ crash_ok s s') s.
Proof.
  intros He G [Hop Hv]. unfold sbd_job_finish_ack. rewrite Hop, bool_decide_eq_true_2 by done. cbn [negb].
  unfold sbd_job_find. apply swp_bind. unfold gets at 1, swp at 1.
  destruct (sjobs s !! ack_job_id a) as [j|] eqn:Hj.
  2: { unfold swp, ret. split_and!; [done|done|]. by rewrite delete_id. }
  pose proof (to_id s (g_table s G) _ j Hj) as Hid. rewrite <- Hid in *.
  rewrite (jo_open j) by by eapply to_job; [apply G|]. cbn [Z.eqb negb].
  rewrite (proj2 (Z.eqb_neq _ _) (Hv j eq_refl)). apply swp_bind. unfold upd_sjob, modify at 1, swp at 1.
  apply swp_bind. unfold get_job, swp at 1. cbn [upd set_sjobs sjobs]. rewrite lookup_alter_eq, Hj. cbn [fmap option_fmap option_map].
  fold (acked_at (s_now e) j). apply swp_bind.
  eapply swp_mono; [apply state_write_swp; [apply G|]| |done].
  { apply acked_fits; [apply He|]. by eapply jo_fits, to_job; [apply G|]. }
  cbv beta. intros ok s2 [Hw Hfail]. destruct ok; cbn [negb].
  - apply swp_bind. unfold modify, swp at 1. eapply swp_mono; [apply quiet_cgroup_job_destroy| |done].
    cbv beta. intros _ s3 (C1 & C2 & C3 & C4). destruct (proj1 Hw) as (W1 & W2 & W3). cbn in *.
    assert (Hdel : sjobs s3 = delete (sj_job_id j) (sjobs s)).
    { by rewrite C1, W1, delete_alter_eq. }
    split_and!; [|congruence|done].
    eapply (acked_good (s_now e) j s); [done|apply He|done| | |exact Hw|done| | |]; cbn; try congruence; [done|].
    intros nm. apply C4.
  - unfold swp, sbd_fatal. split; [by split; [|apply Hfail]|]. destruct Hw as [(W1 & W2 & W3) Hat]. cbn in *. split_and!; [done| |].
    + intros nm text. rewrite Hat. apply G.
    + intros i k Hk. destruct (g_saved s G i k Hk) as (d & Hd & _ & ?). exists d. split; [|done].
      unfold on_disk. by rewrite Hat.
Qed.
