(* ===== verification/SbdRestart.v ===== *)
(** * Pruning, restart and the life of the execution daemon

    The pruner removes only files of acknowledged jobs, a new process finds every
    unfinished job on disk, and the steps of the daemon's life, crashes and
    restarts included, keep the invariant. *)

From S2P Require Import Prelude CString LlHash Dependency LogFormat MbdTypes MbdBase MbdJob MbdSched MbdNet SbdTypes SbdStore SbdState SbdJob SbdMain SbdInv SbdSafe SbdLife.

Open Scope string_scope.
Open Scope list_scope.
Open Scope Z_scope.

(** ** Pruning *)

(** An entry the pruner collects is the state file of an acknowledged job. *)
Lemma prune_entry_disk s nm x :
  disk_wf s -> prune_entry_of (sconf s) (files s) nm = Some x ->
  exists d, on_disk s x.1 d /\ finish_acked d <> 0 /\ x.2 = time_finish_acked d.
Proof.
  intros W. unfold prune_entry_of. case_match; [done|].
  destruct (make_path _ _) as [path|] eqn:Ep; [|done]. apply make_path_Some in Ep as ->.
  fold (state_at s nm). destruct (state_at s nm) as [text|] eqn:Et; [|done].
  destruct (W nm text Et) as (d & -> & -> & F & _). rewrite state_read_written by done.
  cbn [finish_acked reload time_finish_acked sj_job_id].
  destruct (Z.eqb_spec (finish_acked d) 0) as [|Hf]; [done|]. cbn. case_match; [done|].
  intros [= <-]. exists d. cbn. done.
Qed.

Lemma prune_scan_elem c m names acc x :
  x ∈ prune_scan c m names acc -> x ∈ acc \/ exists nm, nm ∈ names /\ prune_entry_of c m nm = Some x.
Proof.
  revert acc. induction names as [|nm names IH]; intros acc; cbn; [by left|].
  case_match; [by left|]. destruct (prune_entry_of c m nm) as [y|] eqn:E.
  - intros [Hx|(n & Hn & Hx)]%IH; [|right; exists n; split; [by right|done]].
    apply elem_of_app in Hx as [?| ->%list_elem_of_singleton]; [by left|]. right. exists nm. split; [by left|done].
  - intros [Hx|(n & Hn & Hx)]%IH; [by left|right]. exists n. split; [by right|done].
Qed.

Lemma prune_victims_elem `{QSort} c entries x : x ∈ prune_victims c entries -> x ∈ entries.
Proof.
  unfold prune_victims. case_match; [by intros ?%not_elem_of_nil|].
  intros Hx. rewrite <- (qsort_perm _ prune_entry_cmp entries).
  rewrite <- (take_drop (Z.to_nat (Z.of_nat (length entries) - num_jobs_retain c)) (qsort prune_entry_cmp entries)).
  apply elem_of_app. by left.
Qed.

(** A job with an acknowledged state file is not in memory. *)
Lemma acked_out s id d : good s -> on_disk s id d -> finish_acked d <> 0 -> sjobs s !! id = None.
Proof.
  intros G (D1 & D2 & D3) Hf. apply eq_None_not_Some. intros [j Hj].
  destruct (g_saved s G id j Hj) as (d' & (E1 & E2 & E3) & Ho & _). rewrite D1 in E1.
  apply (inj Some), state_text_inj in E1; [|done..]. apply (f_equal finish_acked) in E1. cbn in E1.
  rewrite Ho in E1. cbn in E1. apply Z.eqb_neq in Hf. by rewrite Hf in E1.
Qed.

Lemma kept_prune `{QSort} e names s :
  good s -> kept (fun _ _ => False) s (sbd_prune_jobs e names) s.
Proof.
  intros G. unfold sbd_prune_jobs. destruct names as [names|]; [|by apply keeps_ret].
  apply swp_bind. unfold gets at 1, swp at 1. apply swp_bind. unfold gets at 1, swp at 1.
  assert (Hv : forall x, x ∈ prune_victims (sconf s) (prune_scan (sconf s) (files s) names []) ->
    sjobs s !! x.1 = None /\ is_i64 x.1 = true).
  { intros x [Hx|(nm & _ & Hx)]%prune_victims_elem%prune_scan_elem; [by apply not_elem_of_nil in Hx|].
    apply prune_entry_disk in Hx as (d & Hd & Hf & _); [|apply G].
    split; [by eapply acked_out|by eapply disk_i64]. }
  eapply swp_mono.
  - apply (swp_iter _ (fun l s' => good s' /\ core_le s s' /\
      forall x, x ∈ l -> sjobs s !! x.1 = None /\ is_i64 x.1 = true) (fun c s' => False /\ crash_ok s s')).
    + split_and!; [done|apply core_le_refl|exact Hv].
    + intros x l s1 (G1 & L1 & Hl). destruct (Hl x ltac:(by left)) as [Hx I].
      eapply swp_mono with (Q := fun _ s' => good s' /\ core_le s s').
      * apply (kept_calm (fun _ _ => False)); [apply file_remove_calm, G1|done|done|].
        intros _ s2 C2 G2 L2. apply kept_state_remove; [done..| |done]. by eapply (core_le_out s).
      * intros _ s2 [G2 L2]. split_and!; [done..|]. intros y Hy. apply Hl. by right.
      * done.
  - by intros _ s' (? & ? & _).
  - done.
Qed.

(** The pruned entries are the oldest, and the retained ones are as many as asked
    for. *)
Lemma prune_cmp_le a b : cmp_le prune_entry_cmp a b <-> a.2 <= b.2.
Proof.
  unfold cmp_le, prune_entry_cmp. destruct (Z.ltb_spec a.2 b.2); [lia|].
  destruct (Z.ltb_spec b.2 a.2); lia.
Qed.

Lemma prune_split `{QSort} c entries :
  exists kept_entries, prune_victims c entries ++ kept_entries ≡ₚ entries /\
    (num_jobs_retain c < Z.of_nat (length entries) -> 0 <= num_jobs_retain c ->
     Z.of_nat (length kept_entries) = num_jobs_retain c) /\
    (forall x y, x ∈ prune_victims c entries -> y ∈ kept_entries -> x.2 <= y.2).
Proof.
  unfold prune_victims. destruct (Z.leb_spec (Z.of_nat (length entries)) (num_jobs_retain c)) as [Hle|Hlt].
  { exists entries. split_and!; [done|lia|by intros x y ?%not_elem_of_nil]. }
  set (n := Z.to_nat _). set (l := qsort prune_entry_cmp entries). exists (drop n l).
  assert (Hp : l ≡ₚ entries) by apply qsort_perm. split_and!.
  - by rewrite take_drop.
  - intros _ H0. rewrite length_drop. rewrite Hp. unfold n. lia.
  - assert (Hs : StronglySorted (cmp_le prune_entry_cmp) l).
    { apply qsort_sorted; intros; rewrite !prune_cmp_le in *; lia. }
    rewrite <- (take_drop n l) in Hs. intros x y Hx Hy. apply prune_cmp_le.
    by eapply StronglySorted_app_1_elem_of in Hs.
Qed.

(** ** Loading the state files *)

Definition load_zero : sbd_job := sbd_job_zero <| sj_pid := -1 |> <| sj_pgid := -1 |>.

Lemma reload_core d : same_core (reload load_zero d) d.
Proof. done. Qed.

Lemma reload_ok d :
  state_fits d = true -> finish_acked d = 0 -> 0 < sj_pid d -> sj_pgid d = sj_pid d ->
  job_ok (reload load_zero d).
Proof.
  intros F Ho P1 P2. split; [exact F| |done|done| |done].
  - cbn. by rewrite Ho.
  - cbn. destruct (pid_acked d =? 0); auto.
Qed.

(** What has been loaded when the entries [l] of the directory are left. *)
Record loading (c : sbd_conf) (m : gmap string string) (l : list string) (s : sbd) : Prop := mk_loading {
  ld_conf : sconf s = c;
  ld_files : files s = m;
  ld_table : table_ok s;
  ld_from : forall id j, sjobs s !! id = Some j ->
              exists d, on_disk s id d /\ finish_acked d = 0 /\ j = reload load_zero d;
  ld_all : forall id d, on_disk s id d -> finish_acked d = 0 ->
              print_int id ∈ l \/ is_Some (sjobs s !! id)
}.

Lemma loading_calm c m l s s' :
  sjobs s' = sjobs s -> sbd_job_list s' = sbd_job_list s -> sconf s' = sconf s -> files s' = files s ->
  loading c m l s -> loading c m l s'.
Proof.
  intros H1 H2 H3 H4 [L1 L2 L3 L4 L5].
  assert (Hd : forall i d, on_disk s' i d <-> on_disk s i d).
  { intros i d. apply calm_on_disk. by apply calm_same. }
  split; rewrite ?H3, ?H4; try done.
  - destruct L3. split; rewrite ?H1, ?H2; done.
  - intros id j. rewrite H1. intros Hj. destruct (L4 id j Hj) as (d & ? & ?). exists d. by rewrite Hd.
  - intros id d. rewrite Hd, H1. apply L5.
Qed.

(** The entry [nm] holds no unfinished job that is not loaded. *)
Lemma loading_skip c m nm l s :
  (forall id d, on_disk s id d -> finish_acked d = 0 -> print_int id = nm -> is_Some (sjobs s !! id)) ->
  loading c m (nm :: l) s -> loading c m l s.
Proof.
  intros Hnm [L1 L2 L3 L4 L5]. split; [done..|]. intros id d Hd Ho.
  destruct (L5 id d Hd Ho) as [Hin|?]; [|by right]. apply elem_of_cons in Hin as [Heq|?]; [|by left].
  right. by apply (Hnm id d).
Qed.

Lemma loading_insert c m nm l s d tr :
  loading c m (nm :: l) s -> on_disk s (sj_job_id d) d -> nm = print_int (sj_job_id d) -> finish_acked d = 0 ->
  0 < sj_pid d -> sj_pgid d = sj_pid d -> sjobs s !! sj_job_id d = None ->
  loading c m l (s <| strace := tr |> <| sjobs ::= <[sj_job_id d := reload load_zero d]> |>
                   <| sbd_job_list ::= fun l => l ++ [sj_job_id d] |>).
Proof.
  intros [L1 L2 [D N I J] L4 L5] Hd Hnm Ho P1 P2 Hnew. destruct (Hd) as (D1 & D2 & _).
  assert (Hout : sj_job_id d ∉ sbd_job_list s) by (rewrite D, Hnew; by intros []).
  split; cbn; try done.
  - split; cbn.
    + intros i. rewrite elem_of_app, list_elem_of_singleton, D, lookup_insert_is_Some.
      destruct (decide (sj_job_id d = i)); intuition congruence.
    + apply NoDup_app. split_and!; [done| |apply NoDup_singleton].
      intros x Hx Hy. apply list_elem_of_singleton in Hy as ->. done.
    + intros i k [[<- <-]|[_ Hk]]%lookup_insert_Some; [done|by apply I].
    + intros i k [[_ <-]|[_ Hk]]%lookup_insert_Some; [by apply reload_ok|by eapply J].
  - intros i k [[<- <-]|[_ Hk]]%lookup_insert_Some; [by exists d|]. apply (L4 i k Hk).
  - intros i d' Hd' Ho'. rewrite lookup_insert_is_Some. destruct (decide (sj_job_id d = i)); [by right; left|].
    destruct (L5 i d' Hd' Ho') as [Hin|?]; [|by right; right].
    apply elem_of_cons in Hin as [Heq|?]; [|by left]. rewrite Hnm in Heq.
    apply print_id_inj in Heq; [congruence|by eapply disk_i64|by eapply disk_i64].
Qed.

Lemma print_int_not_dots id : is_dot_entry (print_int id) = false.
Proof.
  assert (H : forall_chars (fun c => negb (Ascii.eqb c ".")) (print_int id) = true).
  { apply print_int_chars; [|done]. intros c Hc. destruct (Ascii.eqb_spec c ".") as [->|]; [by vm_compute in Hc|done]. }
  unfold is_dot_entry. destruct (String.eqb_spec (print_int id) ".") as [E|_]; [by rewrite E in H|].
  destruct (String.eqb_spec (print_int id) "..") as [E|_]; [by rewrite E in H|done].
Qed.

(** What the allocator does for a process that starts. *)
Definition start_env (e : senv) : Prop := senv_ok e /\ forall n, sys e SysAlloc n = 0.

Lemma load_entry_swp e c m nm l s :
  start_env e -> conf_ok c -> disk_wf s -> loading c m (nm :: l) s ->
  swp (load_entry e nm) (fun _ s' => loading c m l s' /\ disk_wf s') (fun _ _ => False) s.
Proof.
  intros [He Ha] Hc W L. unfold load_entry.
  destruct (is_dot_entry nm) eqn:Edot.
  { split; [|done]. eapply loading_skip; [|exact L]. intros id d _ _ <-. by rewrite print_int_not_dots in Edot. }
  apply swp_bind. unfold gets at 1, swp at 1. rewrite (ld_conf _ _ _ _ L).
  destruct (make_path _ _) as [path|] eqn:Ep.
  2: { split; [|done]. eapply loading_skip; [|exact L]. intros id d _ _ <-.
       pose proof (state_file_path_ok c Hc id) as Hp. unfold state_file_path in Hp. congruence. }
  apply make_path_Some in Ep as ->. unfold sys_ok. apply swp_bind. apply swp_bind.
  unfold sys_call, swp, ret. cbn. rewrite Ha. cbn. unfold sbind, gets. cbn.
  assert (Ef : files s !! state_path_in c nm = state_at s nm) by (unfold state_at; by rewrite (ld_conf _ _ _ _ L)).
  rewrite Ef. destruct (state_at s nm) as [text|] eqn:Et.
  2: { split; [|exact W]. eapply loading_calm, loading_skip; [..|exact L]; [done..|].
       intros id d (D & _) _ <-. congruence. }
  destruct (W nm text Et) as (d & Hnm & -> & F & P1 & P2). change (sbd_job_state_read _ _) with
    (sbd_job_state_read load_zero (Some (state_text d))). rewrite state_read_written by done.
  assert (Hd : on_disk s (sj_job_id d) d) by (split; [by rewrite <- Hnm|done]).
  cbn [reload finish_acked]. destruct (Z.eqb_spec (finish_acked d) 0) as [Ho|Hf]; cbn.
  2: { split; [|exact W]. eapply loading_calm, loading_skip; [..|exact L]; [done..|].
       intros id d' (D1 & D2 & D3) Ho' Hn. exfalso. rewrite Hn, Et in D1.
       apply (inj Some), state_text_inj in D1; [|done..]. apply (f_equal finish_acked) in D1. cbn in D1.
       apply Z.eqb_neq in Hf. by rewrite Ho', Hf in D1. }
  unfold sbd_job_insert, gets, sbind. cbn. destruct (sjobs s !! sj_job_id d) as [j|] eqn:Hj.
  { split; [|exact W]. eapply loading_calm, loading_skip; [..|exact L]; [done..|].
    intros id d' Hd' _ Hn. rewrite Hnm in Hn. apply print_id_inj in Hn; [|by eapply disk_i64..].
    subst id. by eexists. }
  unfold sys_ok, sbind, sys_call, ret. cbn. rewrite (eo_hash e He). cbn.
  split; [|exact W]. by apply (loading_insert c m nm l s d).
Qed.

(** ** A new process *)

(** The directory as it is read: every job with a state file is in it. *)
Definition listing (c : sbd_conf) (m : gmap string string) (names : list string) : Prop :=
  forall id text, m !! state_path_in c (print_int id) = Some text -> print_int id ∈ names.

(** With no job in memory the loss of the link changes only the channel. *)
Lemma link_down_empty e s :
  sbd_job_list s = [] -> swp (sbd_mbd_link_down e) (fun _ s' => s' = s <| sbd_mbd_chan := -1 |>) (fun _ _ => False) s.
Proof. intros Hl. unfold sbd_mbd_link_down, for_jobs, gets, swp, sbind, modify. cbn. by rewrite Hl. Qed.

(** What connecting and registering leave alone. *)
Definition same_books (s s' : sbd) : Prop :=
  sjobs s' = sjobs s /\ sbd_job_list s' = sbd_job_list s /\ sconf s' = sconf s /\ files s' = files s.

Lemma send_empty e op st body s :
  sbd_job_list s = [] -> swp (sbd_send_msg e op st body) (fun _ s' => same_books s s') (fun _ _ => False) s.
Proof.
  intros Hl. unfold sbd_send_msg, sys_ok. do 2 apply swp_bind. unfold sys_call at 1, swp at 1.
  unfold swp at 1, ret at 1. destruct (_ =? 0); [|done]. cbn [negb]. apply swp_bind.
  unfold sbd_mbd_link_ready, gets, swp at 1. do 2 apply swp_bind. unfold sys_call at 1, swp at 1.
  unfold swp at 1, ret at 1. destruct (negb _); [|done].
  apply swp_bind. eapply swp_mono; [apply link_down_empty; done| |done]. cbv beta. by intros _ s' ->.
Qed.

Lemma connect_empty e s :
  senv_ok e -> sbd_job_list s = [] ->
  swp (let! ok := sbd_mbd_connect e in
       if ok then let! _ := sbd_register e in ret tt else ret tt)
      (fun _ s' => same_books s s') (fun _ _ => False) s.
Proof.
  intros He Hl. apply swp_bind. unfold sbd_mbd_connect. apply swp_bind. unfold sys_call at 1, swp at 1.
  destruct (_ <? 0); [done|]. apply swp_bind. unfold modify at 1, swp at 1. unfold swp at 1, ret at 1.
  apply swp_bind. unfold sbd_register. apply swp_bind. unfold sbd_mbd_link_ready, gets at 1, swp at 1.
  destruct (0 <=? _); [|done]. cbn [negb]. unfold sys_ok. do 2 apply swp_bind. unfold sys_call at 1, swp at 1.
  rewrite (eo_host e He). unfold swp at 1, ret at 1. cbn [Z.eqb negb]. apply swp_bind. unfold gets at 1, swp at 1.
  eapply swp_mono; [by apply send_empty|by intros ? ? (? & ? & ? & ?)|done].
Qed.

Lemma loading_good c m s : conf_ok c -> disk_wf s -> loading c m [] s -> good s.
Proof.
  intros Hc W [L1 L2 L3 L4 L5]. split; [by rewrite L1|done|done| |].
  - intros id j Hj. destruct (L4 id j Hj) as (d & Hd & Ho & ->). exists d. split_and!; [done..|apply reload_core].
  - intros id d Hd Ho. destruct (L5 id d Hd Ho) as [Hin|?]; [by apply not_elem_of_nil in Hin|done].
Qed.

(** A process started on the files of another knows exactly its unfinished jobs. *)
Definition restarted (s s' : sbd) : Prop :=
  good s' /\ sconf s' = sconf s /\
  (forall id, is_Some (sjobs s' !! id) <-> exists d, on_disk s id d /\ finish_acked d = 0) /\
  (forall id d j, on_disk s id d -> sjobs s' !! id = Some j -> same_core d j).

(** The rest of a start, once connected: the state files are read and the jobs checked. *)
Lemma load_swp e names s s1 :
  start_env e -> conf_ok (sconf s) -> disk_wf s -> listing (sconf s) (files s) names ->
  sjobs s1 = ∅ -> sbd_job_list s1 = [] -> sconf s1 = sconf s -> files s1 = files s ->
  swp (let! ok := sbd_job_state_load_all e (Some names) in
       if negb ok then ret false else let! _ := job_status_checking e in ret true)
    (fun ok s' => ok = true /\ restarted s s') (fun _ _ => False) s1.
Proof.
  intros He Hc W Hl B1 B2 B3 B4.
  assert (Hat : forall nm, state_at s1 nm = state_at s nm) by (intros nm; unfold state_at; by rewrite B3, B4).
  assert (L : loading (sconf s) (files s) names s1).
  { split; [done..| | |].
    - split; rewrite ?B1, ?B2; [|apply NoDup_nil_2|by intros ? ? ?|by intros ? ? ?].
      intros id. rewrite lookup_empty. split; [by intros ?%not_elem_of_nil|by intros []].
    - intros id j. by rewrite B1, lookup_empty.
    - intros id d (D & _) _. left. rewrite Hat in D. by apply (Hl id (state_text d)). }
  apply swp_bind. unfold sbd_job_state_load_all. apply swp_bind.
  eapply swp_mono; [apply (swp_iter _ (fun l s' => loading (sconf s) (files s) l s' /\ disk_wf s') (fun _ _ => False))| |done].
  { split; [done|]. intros nm text. rewrite Hat. apply W. }
  { intros nm l s2 [L2 W2]. by apply load_entry_swp. }
  cbv beta. intros _ s2 [L2 W2]. unfold swp at 1, ret at 1. cbn [negb]. apply swp_bind.
  assert (G2 : good s2) by by eapply loading_good.
  assert (Hd2 : forall id d, on_disk s2 id d <-> on_disk s id d).
  { intros id d. unfold on_disk, state_at. by rewrite (ld_conf _ _ _ _ L2), (ld_files _ _ _ _ L2). }
  eapply swp_mono; [by apply (keeps_status_checking (fun _ _ => False))| |by intros c s3 []].
  cbv beta. intros _ s3 [G3 L3]. split; [done|]. split_and!; [done| | |].
  - destruct L3 as (-> & _). apply L2.
  - intros id. rewrite <- (to_dom s3 (g_table s3 G3)), (proj1 (proj2 L3)), (to_dom s2 (g_table s2 G2)). split.
    + intros [j Hj]. destruct (g_saved s2 G2 id j Hj) as (d & Hd & Ho & _). exists d. by rewrite <- Hd2.
    + intros (d & Hd & Ho). apply (g_known s2 G2 id d); [by apply Hd2|done].
  - intros id d j Hd Hj.
    assert (is_Some (sjobs s2 !! id)) as [j2 Hj2].
    { rewrite <- (to_dom s2 (g_table s2 G2)), <- (proj1 (proj2 L3)), (to_dom s3 (g_table s3 G3)). by eexists. }
    destruct (proj2 (proj2 L3) id j2 Hj2) as (j3 & Hj3 & S3). assert (j3 = j) as -> by congruence.
    destruct (ld_from _ _ _ _ L2 id j2 Hj2) as (d' & (D1 & D2 & D3) & _ & ->).
    apply Hd2 in Hd as (E1 & E2 & E3). rewrite E1 in D1. apply (inj Some) in D1.
    assert (Hr : reload sbd_job_zero d = reload sbd_job_zero d') by by apply state_text_inj.
    eapply same_core_trans; [|exact S3].
    assert (Hc' : same_core (reload sbd_job_zero d) (reload sbd_job_zero d')) by (rewrite Hr; apply same_core_refl).
    exact Hc'.
Qed.

Lemma start_swp e names s :
  start_env e -> conf_ok (sconf s) -> disk_wf s -> listing (sconf s) (files s) names ->
  swp (sbd_start e (Some names)) (fun ok s' => ok = true /\ restarted s s') (fun _ _ => False)
    (sbd_boot (sconf s) (files s) (strace s)).
Proof.
  intros He Hc W Hl. unfold sbd_start. apply swp_bind.
  eapply swp_mono; [apply connect_empty; [apply He|done]| |done]. cbv beta.
  intros _ s1 (B1 & B2 & B3 & B4). by apply load_swp.
Qed.
