(* ===== verification/SbdRun.v ===== *)
(** * Lives of the execution daemon

    The steps of the daemon (its handlers, its signals, its pruner, what the jobs
    write, and the end of a process followed by a new one) and what holds along
    them. *)

From S2P Require Import Prelude CString LlHash Dependency LogFormat MbdTypes MbdBase MbdJob MbdSched MbdNet SbdTypes SbdStore SbdState SbdJob SbdMain SbdInv SbdSafe SbdLife SbdRestart.

Open Scope string_scope.
Open Scope list_scope.
Open Scope Z_scope.

(** ** What mbd may send *)

Definition arrival_ok (s : sbd) (a : mbd_arrival) : Prop :=
  match a with
  | LinkMsg (RNewJob (Some (ws, wf))) => sjobs s !! ws_job_id ws = None -> start_ok ws wf = true
  | LinkMsg (RJobFinishAck (Some a)) => finish_ack_ok s a
  | LinkMsg (RRegisterAck (Some l)) => register_ok s l
  | _ => True
  end.

(** The jobs of [s] but for the one mbd has acknowledged. *)
Definition still_known (s : sbd) (a : mbd_arrival) (s' : sbd) : Prop :=
  forall id j, sjobs s !! id = Some j ->
  (forall k, a = LinkMsg (RJobFinishAck (Some k)) -> id <> ack_job_id k) ->
  exists j', sjobs s' !! id = Some j' /\ same_core j j'.

Lemma core_still s a s' : core_le s s' -> still_known s a s'.
Proof. intros (_ & _ & H) id j Hj _. by apply H. Qed.

Definition routed (s : sbd) (a : mbd_arrival) (m : sM unit) : Prop :=
  swp m (fun _ s' => good s' /\ sconf s' = sconf s /\ still_known s a s')
        (fun c s' => storage_or_enqueue c s' /\ crash_ok s s') s.

Lemma routed_kept C s a m :
  (forall c s, C c s -> storage_or_enqueue c s) -> kept C s m s -> routed s a m.
Proof.
  intros HC H. eapply swp_mono; [exact H|..]; cbv beta.
  - intros _ s' [G L]. split_and!; [done|apply L|by apply core_still].
  - intros c s' [? ?]. split; [by apply HC|done].
Qed.

Lemma route_swp e s a :
  senv_ok e -> good s -> arrival_ok s a -> routed s a (sbd_mbd_route e a).
Proof.
  intros He G Ha.
  assert (Hst : forall c s, storage_only c s -> storage_or_enqueue c s) by by left.
  destruct a as [| | |[[[ws wf]|]|k|[k|]|m|l|]]; cbn [sbd_mbd_route].
  - eapply routed_kept; [exact Hst|]. by apply keeps_link_down.
  - eapply routed_kept; [exact Hst|]. by apply keeps_ret.
  - eapply routed_kept; [exact Hst|]. by apply keeps_link_down.
  - eapply swp_mono; [by apply grows_job_new|..]; cbv beta.
    + intros _ s' (G' & H1 & H2 & _). split_and!; [done..|]. intros id j Hj _. by apply H2.
    + intros c s' [? ?]. split; [by left|done].
  - eapply routed_kept; [exact Hst|]. by apply keeps_ret.
  - eapply routed_kept; [exact Hst|]. by apply keeps_reply_ack.
  - eapply swp_mono; [by apply finish_ack_swp|..]; cbv beta.
    + intros _ s' (G' & H1 & H2). split_and!; [done..|]. intros id j Hj Hne. exists j.
      split; [|apply same_core_refl]. rewrite H2, lookup_delete_ne; [done|]. intros Heq. by apply (Hne k).
    + intros c s' [? ?]. split; [by left|done].
  - eapply routed_kept; [exact Hst|]. by apply keeps_ret.
  - eapply routed_kept; [exact Hst|]. by apply keeps_signal.
  - eapply routed_kept; [|apply kept_register_ack; [done|]]; [done|]. intros jobs ->. exact Ha.
  - eapply routed_kept; [exact Hst|]. by apply keeps_link_down.
Qed.

(** ** Steps *)

(** The process that runs in [s] ends there and a new one starts. *)
Definition reborn (s s' : sbd) : Prop :=
  exists e names, start_env e /\ listing (sconf s) (files s) names /\
    sbd_start e (Some names) (sbd_boot (sconf s) (files s) (strace s)) = (Ret true, s').

Inductive sbd_step `{QSort} : sbd -> sbd -> Prop :=
  | step_timer e s s' :
      senv_ok e -> timer_maintenance e s = (Ret tt, s') -> sbd_step s s'
  | step_message e a s s' :
      senv_ok e -> arrival_ok s a -> sbd_mbd_route e a s = (Ret tt, s') -> sbd_step s s'
  | step_sigchld s : sbd_step s (s <| got_sigchld := true |>)
  | step_reap e s s' :
      senv_ok e -> sbd_maybe_reap_children e s = (Ret tt, s') -> sbd_step s s'
  | step_job_writes p text s :
      sbd_step s (s <| files ::= <[sbd_job_dir (sconf s) +:+ p := text]> |>)
  | step_pruner e names s s' :
      sbd_prune_jobs e names s = (Ret tt, s') -> sbd_step s (s <| files := files s' |>)
  | step_sent n s : sbd_step s (s <| soutbox ::= drop n |>)
  | step_killed s s' : reborn s s' -> sbd_step s s'
  | step_timer_dies e s c s1 s' :
      senv_ok e -> timer_maintenance e s = (Exit c, s1) -> reborn s1 s' -> sbd_step s s'
  | step_message_dies e a s c s1 s' :
      senv_ok e -> arrival_ok s a -> sbd_mbd_route e a s = (Exit c, s1) -> reborn s1 s' -> sbd_step s s'.

Lemma swp_Ret {A} (m : sM A) Q E s a s' : swp m Q E s -> m s = (Ret a, s') -> Q a s'.
Proof. unfold swp. intros H Hm. by rewrite Hm in H. Qed.

Lemma swp_Exit {A} (m : sM A) Q E s c s' : swp m Q E s -> m s = (Exit c, s') -> E c s'.
Proof. unfold swp. intros H Hm. by rewrite Hm in H. Qed.

(** A new process on the files of one that left its jobs behind. *)
Lemma reborn_good s s' : conf_ok (sconf s) -> disk_wf s -> reborn s s' -> restarted s s'.
Proof.
  intros Hc W (e & names & He & Hl & Hs). by destruct (swp_Ret _ _ _ _ _ _ (start_swp e names s He Hc W Hl) Hs).
Qed.

Lemma reborn_crash s s1 s' : good s -> crash_ok s s1 -> reborn s1 s' -> good s'.
Proof. intros G (H1 & W & _) R. apply (reborn_good s1 s'); [rewrite H1; apply G|done..]. Qed.

Lemma prune_books `{QSort} e names s :
  swp (sbd_prune_jobs e names) (fun _ s' => same_but_files s s') (fun _ _ => False) s.
Proof.
  assert (Hu : forall path s, swp (unlink e path) (fun _ s' => same_but_files s s') (fun _ _ => False) s).
  { intros path s1. eapply swp_mono; [apply unlink_swp|by intros ? ? [? _]|done]. }
  assert (Hq : forall (m : sM Z) s0 s, quiet m -> same_but_files s0 s ->
    swp (let! _ := m in ret tt) (fun _ s' => same_but_files s0 s') (fun _ _ => False) s).
  { intros m s0 s1 Hm (K1 & K2 & K3). apply swp_quiet; [done|]. intros _ s2 (C1 & C2 & C3 & _).
    split_and!; congruence. }
  destruct names as [names|]; [|done]. apply swp_bind. unfold gets at 1, swp at 1. apply swp_bind.
  unfold gets at 1, swp at 1. apply (swp_iter _ (fun _ s' => same_but_files s s')); [done|].
  intros x l s1 B1. apply swp_bind.
  eapply swp_mono with (Q := fun _ s' => same_but_files s s') (E := fun _ _ => False); [|intros _ s2 B2|done].
  - unfold sbd_job_file_remove. apply swp_bind. unfold gets at 1, swp at 1.
    destruct (job_dir_path _ _); [|done]. apply swp_bind.
    eapply swp_mono; [apply (swp_iter _ (fun _ s' => same_but_files s s') (fun _ _ => False)); [done|]| |done].
    + intros f l' s2 (B1' & B2' & B3'). destruct (make_path _ _); [|done].
      eapply swp_mono; [apply Hu| |done]. cbv beta. intros _ t (? & ? & ?). split_and!; congruence.
    + cbv beta. intros _ s2 B2. apply Hq; [quiet|done].
  - unfold sbd_job_state_remove. apply swp_bind. unfold gets at 1, swp at 1.
    destruct (state_file_path _ _); [|done]. destruct (state_dir_path _ _); [|done]. apply swp_bind.
    eapply swp_mono; [apply Hu| |done]. cbv beta. intros _ t (K1 & K2 & K3). apply Hq; [quiet|].
    destruct B2 as (? & ? & ?). split_and!; congruence.
Qed.

Lemma step_good `{QSort} s s' : sbd_step s s' -> good s -> good s'.
Proof.
  intros Hs G. destruct Hs as [e s s' He Hm|e a s s' He Ha Hm|s|e s s' He Hm|p text s|e names s s' Hm|n s
    |s s' R|e s c s1 s' He Hm R|e a s c s1 s' He Ha Hm R].
  - by destruct (swp_Ret _ _ _ _ _ _ (keeps_timer e He s G) Hm).
  - by destruct (swp_Ret _ _ _ _ _ _ (route_swp e s a He G Ha) Hm).
  - eapply calm_good; [exact G|by apply calm_same].
  - assert (K : keeps storage_only (sbd_maybe_reap_children e)).
    { unfold sbd_maybe_reap_children. pose proof (keeps_reap storage_only e He). keeps. }
    by destruct (swp_Ret _ _ _ _ _ _ (K s G) Hm).
  - eapply calm_good; [exact G|]. split_and!; [done..|]. intros nm. unfold state_at. cbn.
    rewrite lookup_insert_ne; [done|]. apply job_file_not_state, G.
  - pose proof (swp_Ret _ _ _ _ _ _ (prune_books e names s) Hm) as (B1 & B2 & B3). cbv beta in *.
    pose proof (swp_Ret _ _ _ _ _ _ (kept_prune e names s G) Hm) as [G' _].
    eapply calm_good; [exact G'|]. split_and!; [done..|]. intros nm. unfold state_at. cbn. by rewrite B3.
  - eapply calm_good; [exact G|by apply calm_same].
  - by apply (reborn_crash s s); [|apply good_crash|].
  - destruct (swp_Exit _ _ _ _ _ _ (keeps_timer e He s G) Hm) as [_ K]. by apply (reborn_crash s s1).
  - destruct (swp_Exit _ _ _ _ _ _ (route_swp e s a He G Ha) Hm) as [_ K]. by apply (reborn_crash s s1).
Qed.

Lemma steps_good `{QSort} s s' : rtc sbd_step s s' -> good s -> good s'.
Proof. induction 1; eauto using step_good. Qed.
