(* ===== verification/SbdDaemon.v ===== *)
(** * The process of the execution daemon (src/batch/sbd/smain.c)

    Its options, its start (the configuration, the key, the network, the link to mbd, the
    directories and the jobs an earlier process left), and the main loop: rounds of epoll
    in which the timer and the channel to mbd are served.  The rounds are data: what epoll
    reports, the signals that arrived and how many queued messages the kernel took. *)

From S2P Require Import Prelude CString LlConf LlHash Dependency LogFormat MbdTypes MbdBase MbdJob MbdSched MbdNet Conf SbdTypes Wire WireXdr Auth SbdStore SbdState SbdJob SbdMain SbdInv SbdSafe SbdLife SbdRestart SbdRun.

Open Scope string_scope.
Open Scope list_scope.
Open Scope Z_scope.

(** ** Options *)

Definition SBD_OPERATION_TIMER : Z := 1.
Definition SBD_RESEND_ACK_TIMEOUT : Z := 1.

Record sbd_opts : Type := mk_sbd_opts {
  so_conf_dir : option string;
  so_sim : option (string * Z);
  so_op_timer : Z;
  so_resend_timer : Z
}.

(** name:port, the name cut with the argument to the size of a host name. *)
Definition parse_simulator (arg : string) : option (string * Z) :=
  match strchr_split ":" (strbuf MAXHOSTNAMELEN arg) with
  | None => None
  | Some (name, port) =>
      match ll_atoi port with
      | None => None
      | Some p => if (p <? 1) || (65535 <? p) then None else Some (name, p)
      end
  end.

(** A number of seconds, at least 1. *)
Definition timer_arg (arg : string) : option Z :=
  match ll_atoi arg with Some v => if v <? 1 then None else Some v | None => None end.

(** The options after one more, or the status the program ends with. *)
Definition sbd_option (o : ascii * string) (s : sbd_opts) : sbd_opts + Z :=
  let (c, arg) := o in
  if Ascii.eqb c "c" then inl (mk_sbd_opts (Some arg) (so_sim s) (so_op_timer s) (so_resend_timer s))
  else if Ascii.eqb c "V" then inr 0
  else if Ascii.eqb c "s" then
    match parse_simulator arg with
    | None => inr (-1)
    | Some sim => inl (mk_sbd_opts (so_conf_dir s) (Some sim) (so_op_timer s) (so_resend_timer s))
    end
  else if Ascii.eqb c "o" then
    match timer_arg arg with
    | None => inr (-1)
    | Some v => inl (mk_sbd_opts (so_conf_dir s) (so_sim s) v (so_resend_timer s))
    end
  else if Ascii.eqb c "r" then
    match timer_arg arg with
    | None => inr (-1)
    | Some v => inl (mk_sbd_opts (so_conf_dir s) (so_sim s) (so_op_timer s) v)
    end
  else inr (-1).

Fixpoint sbd_options (l : list (ascii * string)) (s : sbd_opts) : sbd_opts + Z :=
  match l with
  | [] => inl s
  | o :: l => match sbd_option o s with inl s => sbd_options l s | inr code => inr code end
  end.

(** Up to [sbd_init]: [env_dir] is LL_CONF_DIR of the environment. *)
Definition sbd_main_options (env_dir : option string) (euid : Z) (l : list (ascii * string)) : sbd_opts + Z :=
  match sbd_options l (mk_sbd_opts None None SBD_OPERATION_TIMER SBD_RESEND_ACK_TIMEOUT) with
  | inr code => inr code
  | inl s =>
      match so_conf_dir s, env_dir with
      | None, None => inr (-1)
      | _, _ => if negb (euid =? 0) then inr (-1) else inl s
      end
  end.

(** ** Configuration *)

Definition sbd_ll_check_conf (ps : list ll_kv) : bool :=
  negb (ll_conf_param_missing (param ps LL_STATE_DIR)) &&
  negb (ll_conf_param_missing (param ps LL_MBD_PORT)) &&
  match param ps LL_MBD_PORT ≫= ll_atoi with Some _ => true | None => false end &&
  negb (ll_conf_param_missing (param ps LL_MBD_HOST)).

(** ** The network *)

Definition LL_SBD_PORT : nat := 4.
Definition LL_CGROUP_ROOT : nat := 5.
Definition LL_SBD_JOB_FINISH_RETAIN : nat := 6.
Definition LL_SBD_PRUNE_INTERVAL : nat := 7.

(** The answers of the listening channel for a port, of epoll_create1, of epoll_ctl for the
    channel, of the timer channel for a period and of epoll_ctl for it. *)
Record sbd_net_answers : Type := mk_sbd_net_answers {
  sn_server : Z -> Z;
  sn_efd : bool;
  sn_add_server : bool;
  sn_timer : Z -> Z;
  sn_add_timer : bool
}.

(** The port, the listening channel and the timer channel.  A simulated host has a port of
    its own. *)
Definition sbd_init_network (getaddrinfo : string -> option (option string * string)) (a : sbd_net_answers)
    (ps : list ll_kv) (o : sbd_opts) : option (Z * Z * Z) :=
  match param ps LL_SBD_PORT with
  | None => None
  | Some val =>
      match param ps LL_MBD_HOST ≫= get_host_by_name getaddrinfo with
      | None => None
      | Some _ =>
          match ll_atoi val with
          | None => None
          | Some t =>
              let port := (match so_sim o with Some (_, p) => if 0 <? p then p else t | None => t end) mod 2 ^ 16 in
              let listen := sn_server a port in
              if listen <? 0 then None
              else if negb (sn_efd a && sn_add_server a) then None
              else
                let timer := sn_timer a (so_op_timer o) in
                if (timer <? 0) || negb (sn_add_timer a) then None else Some (port, listen, timer)
          end
      end
  end.

(** ** The start *)

(** ll.conf and the allocator that reads it, whether the log opens, the key file, what the
    stack holds where [auth_age] is not set, whether the signal handlers and the job table
    can be set up, name resolution, the network, which paths are directories, the listing
    of the state directory, and the system calls of the daemon. *)
Record sbd_init_env : Type := mk_sbd_init_env {
  si_conf_dir : option string;
  si_files : string -> option text_file;
  si_strdup : nat -> bool;
  si_openlog : bool;
  si_key : option (list Z);
  si_stack : Z;
  si_signals : bool;
  si_hash : bool;
  si_getaddrinfo : string -> option (option string * string);
  si_net : sbd_net_answers;
  si_dirs : string -> bool;
  si_names : option (list string);
  si_senv : senv
}.

(** The timers and the name of a simulated host. *)
Definition with_options (o : sbd_opts) (c : sbd_conf) : sbd_conf :=
  mk_sbd_conf (sbd_job_dir c) (sbd_state_dir c) (prune_interval c) (num_jobs_retain c)
    (so_op_timer o) (so_resend_timer o) (match so_sim o with Some (nm, _) => nm | None => EmptyString end) (cg_base c).

(** The base of the control groups is the text of the parameter, cut, even when the groups
    cannot be made. *)
Definition with_cg_base (root : string) (c : sbd_conf) : sbd_conf :=
  mk_sbd_conf (sbd_job_dir c) (sbd_state_dir c) (prune_interval c) (num_jobs_retain c)
    (sbd_timer c) (sbd_resend_timer c) (sim_name c) (strbuf LL_BUFSIZ_4K root).

(** The timer channel; [None] when the daemon cannot run. *)
Definition sbd_init (ie : sbd_init_env) (o : sbd_opts) (ps : list ll_kv * bool) : sM (option Z) :=
  let e := si_senv ie in
  match ll_init (si_strdup ie) (si_conf_dir ie) (si_files ie) ps with
  | None => ret None
  | Some (ps, _) =>
      if negb (si_openlog ie) then ret None
      else if negb (auth_init (si_key ie) 1 (u32 (default (si_stack ie) (param ps LL_AUTH_MAX_AGE ≫= ll_atoi))) auth_start).2 then ret None
      else if negb (sbd_ll_check_conf ps) then ret None
      else if negb (si_signals ie) then ret None
      else if negb (si_hash ie) then ret None
      else
        match sbd_init_network (si_getaddrinfo ie) (si_net ie) ps o with
        | None => ret None
        | Some (_, _, timer) =>
            let! _ := modify (fun s => s <| sconf ::= with_options o |>) in
            let! _ := (let! ok := sbd_mbd_connect e in
                       if ok then let! _ := sbd_register e in ret tt else ret tt) in
            let! c := gets sconf in
            let! stored := sbd_storage_init e (si_dirs ie) (default EmptyString (param ps LL_STATE_DIR))
                             (default EmptyString (param ps LL_SBD_PRUNE_INTERVAL))
                             (default EmptyString (param ps LL_SBD_JOB_FINISH_RETAIN)) c in
            match stored with
            | None => ret None
            | Some c =>
                let root := default EmptyString (param ps LL_CGROUP_ROOT) in
                let! _ := modify (fun s => s <| sconf := with_cg_base root c |>) in
                let! _ := cgroup_init e root in
                let! ok := sbd_job_state_load_all e (si_names ie) in
                ret (if ok then Some timer else None)
            end
        end
  end.

(** The start with the first line of [sbd_run_daemon]. *)
Definition sbd_ready (ie : sbd_init_env) (o : sbd_opts) (ps : list ll_kv * bool) : sM (option Z) :=
  let! r := sbd_init ie o ps in
  match r with
  | None => ret None
  | Some timer => let! _ := job_status_checking (si_senv ie) in ret (Some timer)
  end.

(** ** The main loop *)

(** One event: its channel, whether a whole message or an error is there, and what a
    message of mbd is. *)
Record epoll_ev : Type := mk_epoll_ev {
  ev_chan : Z;
  ev_ready : bool;
  ev_arrival : mbd_arrival;
  ev_env : senv
}.

(** The timer is served whether its descriptor could be read or not. *)
Definition sbd_event (timer_chan : Z) (ev : epoll_ev) : sM unit :=
  if ev_chan ev =? timer_chan then timer_maintenance (ev_env ev)
  else if negb (ev_ready ev) then ret tt
  else
    let! c := gets sbd_mbd_chan in
    if ev_chan ev =? c then sbd_mbd_route (ev_env ev) (ev_arrival ev) else ret tt.

(** One turn: whether SIGTERM or SIGINT came before it, whether a child ended meanwhile,
    how many messages left, and the events, [None] when epoll failed. *)
Record sbd_round : Type := mk_sbd_round {
  rd_croak : bool;
  rd_sigchld : bool;
  rd_sent : nat;
  rd_env : senv;
  rd_events : option (list epoll_ev)
}.

Definition sbd_do_round (timer_chan : Z) (r : sbd_round) : sM unit :=
  let! _ := if rd_sigchld r then modify (fun s => s <| got_sigchld := true |>) else ret tt in
  let! _ := modify (fun s => s <| soutbox ::= drop (rd_sent r) |>) in
  let! _ := sbd_maybe_reap_children (rd_env r) in
  match rd_events r with
  | None => ret tt
  | Some evs => s_iter (sbd_event timer_chan) evs
  end.

(** The loop of [sbd_run_daemon], whose first line is the last of [sbd_start]: whether it
    was left on a signal within these rounds. *)
Fixpoint sbd_loop (timer_chan : Z) (rounds : list sbd_round) : sM bool :=
  match rounds with
  | [] => ret false
  | r :: rounds =>
      if rd_croak r then ret true
      else let! _ := sbd_do_round timer_chan r in sbd_loop timer_chan rounds
  end.

(** A process: [None] when it did not start, else whether it was asked to stop. *)
Definition sbd_main (ie : sbd_init_env) (o : sbd_opts) (ps : list ll_kv * bool) (rounds : list sbd_round) : sM (option bool) :=
  let! r := sbd_ready ie o ps in
  match r with
  | None => ret None
  | Some timer => let! stopped := sbd_loop timer rounds in ret (Some stopped)
  end.

(** ** The loop makes steps *)

(** Every message is one that mbd may send in the state it arrives in. *)
Fixpoint events_ok (timer_chan : Z) (evs : list epoll_ev) (s : sbd) : Prop :=
  match evs with
  | [] => True
  | ev :: evs =>
      senv_ok (ev_env ev) /\ arrival_ok s (ev_arrival ev) /\
      match sbd_event timer_chan ev s with (Ret _, s') => events_ok timer_chan evs s' | (Exit _, _) => True end
  end.

(** The state in which epoll has returned and the children are reaped. *)
Definition reaped (r : sbd_round) (s : sbd) : outcome unit * sbd :=
  (let! _ := if rd_sigchld r then modify (fun s => s <| got_sigchld := true |>) else ret tt in
   let! _ := modify (fun s => s <| soutbox ::= drop (rd_sent r) |>) in
   sbd_maybe_reap_children (rd_env r)) s.

Fixpoint rounds_ok (timer_chan : Z) (rounds : list sbd_round) (s : sbd) : Prop :=
  match rounds with
  | [] => True
  | r :: rounds =>
      if rd_croak r then True
      else senv_ok (rd_env r) /\
        match reaped r s with
        | (Ret _, s1) => events_ok timer_chan (default [] (rd_events r)) s1
        | (Exit _, _) => True
        end /\
        match sbd_do_round timer_chan r s with (Ret _, s') => rounds_ok timer_chan rounds s' | (Exit _, _) => True end
  end.

Section loop.
Context `{QSort}.

(** Steps to a good state, or steps to one from which a handler ended the process. *)
Definition stepped {A} (s : sbd) (m : sM A) (s0 : sbd) : Prop :=
  swp m (fun _ s' => good s' /\ rtc sbd_step s s')
        (fun c s' => storage_or_enqueue c s' /\ exists s1, rtc sbd_step s s1 /\ good s1 /\ crash_ok s1 s') s0.

Lemma stepped_ret {A} s (a : A) s0 : good s0 -> rtc sbd_step s s0 -> stepped s (ret a) s0.
Proof. by intros. Qed.

Lemma stepped_bind {A B} s (m : sM A) (k : A -> sM B) s0 :
  stepped s m s0 -> (forall a s', m s0 = (Ret a, s') -> good s' -> rtc sbd_step s s' -> stepped s (k a) s') -> stepped s (sbind m k) s0.
Proof.
  unfold stepped, swp, sbind. intros Hm Hk. destruct (m s0) as [[a|c] s'] eqn:E; [|done]. destruct Hm as [G R]. by apply (Hk a s').
Qed.

Lemma event_steps t ev s s0 :
  good s0 -> rtc sbd_step s s0 -> senv_ok (ev_env ev) -> arrival_ok s0 (ev_arrival ev) -> stepped s (sbd_event t ev) s0.
Proof.
  intros G R He Ha. unfold sbd_event. destruct (ev_chan ev =? t).
  - pose proof (keeps_timer (ev_env ev) He s0 G) as K. unfold stepped, kept, swp in *.
    destruct (timer_maintenance (ev_env ev) s0) as [[[]|c] s'] eqn:Hm.
    + split; [apply K|]. eapply rtc_r; [exact R|]. by eapply step_timer.
    + destruct K as [Kc Kd]. split; [by left|]. by exists s0.
  - destruct (negb (ev_ready ev)); [by apply stepped_ret|]. unfold stepped, swp, sbind, gets.
    destruct (ev_chan ev =? sbd_mbd_chan s0); [|done].
    pose proof (route_swp (ev_env ev) s0 (ev_arrival ev) He G Ha) as K. unfold routed, swp in K.
    destruct (sbd_mbd_route (ev_env ev) (ev_arrival ev) s0) as [[[]|c] s'] eqn:Hm.
    + split; [apply K|]. eapply rtc_r; [exact R|]. by eapply step_message.
    + destruct K as [Kc Kd]. split; [done|]. by exists s0.
Qed.

Lemma events_step t evs : forall s s0,
  good s0 -> rtc sbd_step s s0 -> events_ok t evs s0 -> stepped s (s_iter (sbd_event t) evs) s0.
Proof.
  induction evs as [|ev evs IH]; intros s s0 G R Hok; cbn [s_iter]; [by apply stepped_ret|].
  destruct Hok as (He & Ha & Hok). apply stepped_bind; [by apply event_steps|]. intros [] s' E G' R'. rewrite E in Hok. by apply IH.
Qed.

Lemma reap_steps r s s0 : good s0 -> rtc sbd_step s s0 -> senv_ok (rd_env r) -> stepped s (reaped r) s0.
Proof.
  intros G R He. unfold reaped. apply stepped_bind.
  - destruct (rd_sigchld r); [|by apply stepped_ret]. split; [|eapply rtc_r; [exact R|apply step_sigchld]].
    apply (step_good s0); [apply step_sigchld|done].
  - intros [] s1 _ G1 R1. apply stepped_bind.
    + split; [apply (step_good s1); [apply step_sent|done]|eapply rtc_r; [exact R1|apply step_sent]].
    + intros [] s2 _ G2 R2. unfold stepped, swp. destruct (sbd_maybe_reap_children (rd_env r) s2) as [[[]|c] s'] eqn:Hm.
      * assert (St : sbd_step s2 s') by (by eapply step_reap). split; [by apply (step_good s2)|by eapply rtc_r].
      * exfalso. unfold sbd_maybe_reap_children, sbind, gets, modify, ret in Hm. destruct (got_sigchld s2); cbn [negb] in Hm; [|done].
        assert (G3 : good (s2 <| got_sigchld := false |>)) by (eapply calm_good; [exact G2|by apply calm_same]).
        pose proof (keeps_reap (fun _ _ => False) (rd_env r) He _ G3) as K. unfold kept, swp in K. rewrite Hm in K. destruct K as [K _]. exact K.
Qed.

Lemma round_steps t r s s0 :
  good s0 -> rtc sbd_step s s0 -> senv_ok (rd_env r) ->
  match reaped r s0 with (Ret _, s1) => events_ok t (default [] (rd_events r)) s1 | (Exit _, _) => True end ->
  stepped s (sbd_do_round t r) s0.
Proof.
  intros G R He Hok. pose proof (reap_steps r s s0 G R He) as K.
  assert (Heq : sbd_do_round t r s0 = sbind (reaped r) (fun _ => match rd_events r with None => ret tt | Some evs => s_iter (sbd_event t) evs end) s0).
  { unfold sbd_do_round, reaped, sbind, modify, ret. destruct (rd_sigchld r); cbv beta iota;
      match goal with |- context [sbd_maybe_reap_children ?e ?x] => destruct (sbd_maybe_reap_children e x) as [[[]|] ?] end; reflexivity. }
  unfold stepped, swp. rewrite Heq. apply (stepped_bind s (reaped r) (fun _ => match rd_events r with None => ret tt | Some evs => s_iter (sbd_event t) evs end) s0 K).
  intros [] s1 E G1 R1. rewrite E in Hok. destruct (rd_events r) as [evs|]; [by apply events_step|by apply stepped_ret].
Qed.

(** Any number of rounds. *)
Lemma loop_steps timer_chan rounds s : forall s0,
  good s0 -> rtc sbd_step s s0 -> rounds_ok timer_chan rounds s0 -> stepped s (sbd_loop timer_chan rounds) s0.
Proof.
  induction rounds as [|r rounds IH]; intros s0 G R Hok; cbn [sbd_loop rounds_ok] in *; [by apply stepped_ret|].
  destruct (rd_croak r); [by apply stepped_ret|]. destruct Hok as (He & Hev & Hok).
  apply stepped_bind; [by apply round_steps|]. intros [] s' E G' R'. rewrite E in Hok. by apply IH.
Qed.
End loop.

(** ** The start recovers the jobs *)

(** A part of the start that only calls the system. *)
Definition calls_only {A} (P : A -> Prop) (m : sM A) : Prop :=
  forall s, swp m (fun a s' => s' = s <| strace := strace s' |> /\ P a) (fun _ _ => False) s.

Lemma calls_ret {A} (P : A -> Prop) a : P a -> calls_only P (ret a).
Proof. intros Ha s. split; [by destruct s|done]. Qed.

Lemma calls_bind {A B} (P : A -> Prop) (Q : B -> Prop) m k :
  calls_only P m -> (forall a, P a -> calls_only Q (k a)) -> calls_only Q (sbind m k).
Proof.
  intros Hm Hk s. apply swp_bind. eapply swp_mono; [apply Hm| |done]. cbv beta. intros a s1 [-> Ha].
  eapply swp_mono; [by apply Hk| |done]. cbv beta. intros b s2 [-> Hb]. by split.
Qed.

Lemma calls_ok e c : calls_only (fun _ => True) (sys_ok e c).
Proof. intros s. by split. Qed.

Lemma calls_mkdir e path : calls_only (fun _ => True) (mkdir_chmod e path).
Proof.
  apply (calls_bind (fun _ => True)); [by intros s; split|]. intros r _.
  destruct (_ && _); [by apply calls_ret|apply calls_ok].
Qed.

(** What the daemon keeps of its configuration and options. *)
Definition stored_conf (state_dir prune retain host : string) (c : sbd_conf) : sbd_conf :=
  let root := state_dir +:+ "/sbd/" +:+ (if String.eqb (sim_name c) EmptyString then strbuf MAXHOSTNAMELEN host else sim_name c) in
  mk_sbd_conf (root +:+ "/jobs") (root +:+ "/state") (positive_param prune 900) (positive_param retain 100)
    (sbd_timer c) (sbd_resend_timer c) (sim_name c) (cg_base c).

Lemma storage_stored e dirs sd prune retain c :
  calls_only (fun r => match r with Some c' => c' = stored_conf sd prune retain (hostname e) c | None => True end)
    (sbd_storage_init e dirs sd prune retain c).
Proof.
  unfold sbd_storage_init. destruct (make_path _ _); [|by apply calls_ret].
  apply (calls_bind (fun _ => True)); [apply calls_mkdir|intros [] _; [|by apply calls_ret]]. cbn [negb].
  apply (calls_bind (fun _ => True)); [destruct (String.eqb _ _); [apply calls_ok|by apply calls_ret]|intros [] _; [|by apply calls_ret]]. cbn [negb].
  destruct (make_path _ (_ +:+ "/sbd/" +:+ _)) as [root|] eqn:Hr; [|by apply calls_ret]. apply make_path_Some in Hr as ->.
  apply (calls_bind (fun _ => True)); [apply calls_mkdir|intros [] _; [|by apply calls_ret]]. cbn [negb].
  destruct (make_path _ (_ +:+ "/jobs")) as [jd|] eqn:Hj; [|by apply calls_ret]. apply make_path_Some in Hj as ->.
  apply (calls_bind (fun _ => True)); [apply calls_mkdir|intros [] _; [|by apply calls_ret]]. cbn [negb].
  destruct (make_path _ (_ +:+ "/state")) as [st|] eqn:Hs; [|by apply calls_ret]. apply make_path_Some in Hs as ->.
  apply (calls_bind (fun _ => True)); [apply calls_mkdir|intros [] _; [|by apply calls_ret]]. cbn [negb].
  destruct (negb _); by apply calls_ret.
Qed.

Lemma calls_cgroup_init e root : calls_only (fun _ => True) (cgroup_init e root).
Proof.
  unfold cgroup_init. destruct (_ || _); [by apply calls_ret|]. apply (calls_bind (fun _ => True)); [by intros s; split|].
  intros r _. destruct (_ && _); [by apply calls_ret|].
  apply (calls_bind (fun _ => True)); [apply calls_ok|]. intros b _. by apply calls_ret.
Qed.

(** The configuration a process ends up with. *)
Definition conf_for (ps : list ll_kv) (o : sbd_opts) (e : senv) (c : sbd_conf) : sbd_conf :=
  with_cg_base (default EmptyString (param ps LL_CGROUP_ROOT))
    (stored_conf (default EmptyString (param ps LL_STATE_DIR)) (default EmptyString (param ps LL_SBD_PRUNE_INTERVAL))
       (default EmptyString (param ps LL_SBD_JOB_FINISH_RETAIN)) (hostname e) (with_options o c)).

(** Reading the state files and checking the jobs, as [sbd_ready] puts them. *)
Lemma load_then_check e names s s1 :
  start_env e -> conf_ok (sconf s) -> disk_wf s ->
  (forall l, names = Some l -> listing (sconf s) (files s) l) ->
  sjobs s1 = ∅ -> sbd_job_list s1 = [] -> sconf s1 = sconf s -> files s1 = files s ->
  swp (sbd_job_state_load_all e names) (fun ok s2 => if ok
      then swp (job_status_checking e) (fun _ s3 => restarted s s3) (fun _ _ => False) s2 else files s2 = files s)
    (fun _ _ => False) s1.
Proof.
  intros He Hc W Hl B1 B2 B3 B4. destruct names as [l|]; [|done].
  pose proof (load_swp e l s s1 He Hc W (Hl l eq_refl) B1 B2 B3 B4) as K. unfold swp, sbind in *.
  destruct (sbd_job_state_load_all e (Some l) s1) as [[[]|c] s2]; cbn [negb] in K; [|by destruct K|done].
  destruct (job_status_checking e s2) as [[[]|c] s3]; [by destruct K|done].
Qed.

Lemma ready_swp ie o ps ps1 b c0 s :
  ll_init (si_strdup ie) (si_conf_dir ie) (si_files ie) ps = Some (ps1, b) ->
  start_env (si_senv ie) -> good s -> sconf s = conf_for ps1 o (si_senv ie) c0 ->
  (forall l, si_names ie = Some l -> listing (sconf s) (files s) l) ->
  swp (sbd_ready ie o ps) (fun r s' => match r with None => files s' = files s | Some _ => restarted s s' end)
    (fun _ _ => False) (sbd_boot c0 (files s) (strace s)).
Proof.
  intros Hi He G Hs Hl. unfold sbd_ready. apply swp_bind. unfold sbd_init. cbv zeta. rewrite Hi.
  do 5 (match goal with |- context [if negb ?c then _ else _] => destruct (negb c); [done|] end).
  destruct (sbd_init_network _ _ _ _) as [[[port listen] timer]|]; [|done].
  apply swp_bind. unfold modify at 1, swp at 1. apply swp_bind.
  eapply swp_mono; [apply connect_empty; [apply He|done]| |done]. cbv beta. intros _ s1 (B1 & B2 & B3 & B4). cbn in B1, B2, B3, B4.
  apply swp_bind. unfold gets at 1, swp at 1. apply swp_bind.
  eapply swp_mono; [apply storage_stored| |done]. cbv beta. intros stored s2 [-> Hst].
  destruct stored as [c|]; [|cbn; by rewrite B4]. apply swp_bind. unfold modify at 1, swp at 1. apply swp_bind.
  eapply swp_mono; [apply calls_cgroup_init| |done]. cbv beta. intros _ s3 [-> _]. apply swp_bind.
  eapply swp_mono; [apply (load_then_check (si_senv ie) (si_names ie) s); try done; [apply G|apply G|]| |done].
  - rewrite Hs, Hst, B3. done.
  - cbv beta. intros [] s4 K; [|done]. apply swp_bind. eapply swp_mono; [exact K| |done]. done.
Qed.

(** Nothing takes a connection to the port of the daemon: its event changes nothing and is
    reported again at once. *)
Lemma listen_ignored t ev s :
  ev_chan ev <> t -> ev_chan ev <> sbd_mbd_chan s -> sbd_event t ev s = (Ret tt, s).
Proof.
  intros Ht Hm. unfold sbd_event, sbind, gets. rewrite (proj2 (Z.eqb_neq _ _) Ht). destruct (negb (ev_ready ev)); [done|].
  by rewrite (proj2 (Z.eqb_neq _ _) Hm).
Qed.
