(* ===== verification/SbdSend.v ===== *)
(** * What the execution daemon sends

    With the link up, each tick of the timer queues exactly the reports that are
    due, in the order of the job list; a known job is never started again; the
    deadline of a job never ends it by force. *)

From S2P Require Import Prelude CString LlHash Dependency LogFormat MbdTypes MbdBase MbdJob MbdSched MbdNet SbdTypes SbdStore SbdState SbdJob SbdMain SbdInv SbdSafe SbdLife SbdRestart SbdRun.

Open Scope string_scope.
Open Scope list_scope.
Open Scope Z_scope.

(** ** A link that works *)

Definition link_env (e : senv) : Prop :=
  forall n, sys e SysSign n = 0 /\ sys e SysEnqueue n = 0.

(** Everything but the queue, the trace and the job table. *)
Definition same_frame (s s' : sbd) : Prop :=
  sbd_job_list s' = sbd_job_list s /\ sconf s' = sconf s /\ files s' = files s /\
  sbd_mbd_chan s' = sbd_mbd_chan s.

Lemma same_frame_trans s1 s2 s3 : same_frame s1 s2 -> same_frame s2 s3 -> same_frame s1 s3.
Proof. intros (? & ? & ? & ?) (? & ? & ? & ?). split_and!; congruence. Qed.

Lemma send_ok e op st body s :
  link_env e -> 0 <= sbd_mbd_chan s ->
  swp (sbd_send_msg e op st body)
    (fun ok s' => ok = true /\ sjobs s' = sjobs s /\ same_frame s s' /\
                  soutbox s' = soutbox s ++ [mk_sbd_out op st body])
    (fun _ _ => False) s.
Proof.
  intros He Hc. unfold sbd_send_msg, sys_ok, sbd_mbd_link_ready, gets, modify, swp, sbind, sys_call, ret.
  rewrite (proj1 (He _)). cbn. rewrite (proj2 (He _)). cbn. rewrite (proj2 (Z.leb_le _ _) Hc). cbn. done.
Qed.

(** ** A loop that reports jobs

    [out c j] is the report of job [j], if it is due, and [mark c j] the job after
    the loop. *)
Section drive.
Context (body : Z -> sM unit) (out : sbd_conf -> sbd_job -> option sbd_out) (mark : sbd_conf -> sbd_job -> sbd_job).

Definition reports (s : sbd) (id : Z) : list sbd_out :=
  match sjobs s !! id with Some j => option_list (out (sconf s) j) | None => [] end.

(** One round. *)
Definition reports_one (id : Z) (s s' : sbd) : Prop :=
  sjobs s' = alter (mark (sconf s)) id (sjobs s) /\ same_frame s s' /\
  soutbox s' = soutbox s ++ reports s id.

Context (Hbody : forall id s, 0 <= sbd_mbd_chan s -> is_Some (sjobs s !! id) ->
  (forall j, sjobs s !! id = Some j -> job_ok j) ->
  swp (body id) (fun _ s' => reports_one id s s') (fun _ _ => False) s).

Lemma for_jobs_reports s :
  table_ok s -> 0 <= sbd_mbd_chan s ->
  swp (for_jobs body)
    (fun _ s' => sjobs s' = mark (sconf s) <$> sjobs s /\ same_frame s s' /\
                 soutbox s' = soutbox s ++ flat_map (reports s) (sbd_job_list s))
    (fun _ _ => False) s.
Proof using Hbody.
  intros [D N I J] Hc.
  eapply swp_mono; [apply (swp_for_jobs body (fun l s' => NoDup l /\ same_frame s s' /\
    (forall id, id ∈ l -> is_Some (sjobs s !! id)) /\
    (forall id, sjobs s' !! id = if decide (id ∈ l) then sjobs s !! id else mark (sconf s) <$> sjobs s !! id) /\
    soutbox s' ++ flat_map (reports s) l = soutbox s ++ flat_map (reports s) (sbd_job_list s)) (fun _ _ => False))| |done].
  - split_and!; try done; [intros id; apply D|]. intros id. destruct (decide (id ∈ sbd_job_list s)) as [|Hn]; [done|].
    rewrite D, <- eq_None_not_Some in Hn. by rewrite Hn.
  - intros id l s1 (N1 & F1 & K1 & T1 & O1). apply NoDup_cons in N1 as [Hid N1].
    pose proof F1 as (F1a & F1b & F1c & F1d).
    assert (Hsame : sjobs s1 !! id = sjobs s !! id) by (rewrite T1, decide_True; [done|by left]).
    eapply swp_mono; [apply Hbody| |done].
    + by rewrite F1d.
    + rewrite Hsame. apply K1. by left.
    + rewrite Hsame. apply J.
    + cbv beta. intros _ s2 (T2 & F2 & O2). split_and!; [done|by eapply same_frame_trans| | |].
      * intros i Hi. apply K1. by right.
      * intros i. rewrite T2. destruct (decide (i = id)) as [->|Hne].
        -- rewrite lookup_alter_eq, Hsame, F1b. by rewrite decide_False.
        -- rewrite lookup_alter_ne, T1 by done.
           destruct (decide (i ∈ l)) as [Hi|Hi]; [by rewrite decide_True by by right|].
           rewrite decide_False; [done|]. by intros [?|?]%elem_of_cons.
      * rewrite O2, <- O1. cbn [flat_map]. rewrite <- !app_assoc. f_equal. f_equal.
        unfold reports. by rewrite Hsame, F1b.
  - cbv beta. intros _ s' (_ & F & _ & T & O). split_and!; [|done|].
    + apply map_eq. intros i. rewrite T, decide_False by apply not_elem_of_nil. by rewrite lookup_fmap.
    + by rewrite <- O, app_nil_r.
Qed.
End drive.

(** ** Replies *)

Definition reply_due (e : senv) (c : sbd_conf) (j : sbd_job) : bool :=
  (pid_acked j =? 0) && (resend_sec c <=? s_now e - reply_last_send j).

Definition reply_msg (j : sbd_job) : sbd_out :=
  mk_sbd_out BATCH_NEW_JOB_REPLY MBD_OK
    (OutReply (mk_wire_job_reply (sj_job_id j) (sj_pid j) (sj_pgid j) (job_state_num JOB_RUNNING))).

Definition out_reply (e : senv) (c : sbd_conf) (j : sbd_job) : option sbd_out :=
  if reply_due e c j then Some (reply_msg j) else None.

Definition mark_reply (e : senv) (c : sbd_conf) (j : sbd_job) : sbd_job :=
  if reply_due e c j then j <| reply_last_send := s_now e |> else j.

Lemma alter_id {A} (f : A -> A) (m : gmap Z A) id j : m !! id = Some j -> f j = j -> alter f id m = m.
Proof.
  intros Hj Hf. apply map_eq. intros i. destruct (decide (i = id)) as [->|].
  - rewrite lookup_alter_eq, Hj. cbn. by rewrite Hf.
  - by rewrite lookup_alter_ne.
Qed.

Lemma alter_agree {A} (f g : A -> A) (m : gmap Z A) id j :
  m !! id = Some j -> f j = g j -> alter f id m = alter g id m.
Proof.
  intros Hj Hf. apply map_eq. intros i. destruct (decide (i = id)) as [->|].
  - by rewrite !lookup_alter_eq, Hj; cbn; rewrite Hf.
  - by rewrite !lookup_alter_ne.
Qed.

Lemma alter_twice {A} (f g h : A -> A) (m : gmap Z A) id j :
  m !! id = Some j -> g (f j) = h j -> alter g id (alter f id m) = alter h id m.
Proof.
  intros Hj Hf. apply map_eq. intros i. destruct (decide (i = id)) as [->|].
  - by rewrite !lookup_alter_eq, Hj; cbn; rewrite Hf.
  - by rewrite !lookup_alter_ne.
Qed.

Lemma drive_reply_reports e id s :
  link_env e -> 0 <= sbd_mbd_chan s -> is_Some (sjobs s !! id) ->
  swp (drive_reply e id) (fun _ s' => reports_one (out_reply e) (mark_reply e) id s s') (fun _ _ => False) s.
Proof.
  intros He Hc [j Hj]. unfold drive_reply. apply swp_get_job; [by eexists|]. intros j' Hj'.
  assert (j' = j) as -> by congruence.
  assert (Hnot : reply_due e (sconf s) j = false -> reports_one (out_reply e) (mark_reply e) id s s).
  { intros Hd. split_and!; [|done|].
    - symmetry. eapply alter_id; [exact Hj|]. unfold mark_reply. by rewrite Hd.
    - unfold reports, out_reply. rewrite Hj, Hd. by rewrite app_nil_r. }
  unfold reply_due in Hnot. destruct (Z.eqb_spec (pid_acked j) 0) as [Ha|Ha]; cbn [negb]; [|by apply Hnot].
  apply swp_bind. unfold gets at 1, swp at 1. destruct (Z.ltb_spec (s_now e - reply_last_send j) (resend_sec (sconf s))) as [Hlt|Hge].
  { apply Hnot. cbn. by apply Z.leb_gt. }
  assert (Hdue : reply_due e (sconf s) j = true).
  { unfold reply_due. rewrite Ha. cbn. by apply Z.leb_le. }
  apply swp_bind. unfold sbd_job_new_reply. apply swp_bind. unfold sbd_mbd_link_ready, gets at 1, swp at 1.
  rewrite (proj2 (Z.leb_le _ _) Hc). cbn [negb]. eapply swp_mono; [by apply send_ok| |done].
  cbv beta. intros ok s1 (-> & T & (F1 & F2 & F3 & F4) & O). cbn [negb]. unfold upd_sjob, modify, swp.
  split_and!; [|by split_and!|].
  - cbn. rewrite T. apply (alter_agree _ _ _ _ j Hj). unfold mark_reply. by rewrite Hdue.
  - cbn. rewrite O. unfold reports, out_reply. by rewrite Hj, Hdue.
Qed.

Lemma new_drive_reports e s :
  link_env e -> table_ok s -> 0 <= sbd_mbd_chan s ->
  swp (job_new_drive e)
    (fun _ s' => sjobs s' = mark_reply e (sconf s) <$> sjobs s /\ same_frame s s' /\
                 soutbox s' = soutbox s ++ flat_map (reports (out_reply e) s) (sbd_job_list s))
    (fun _ _ => False) s.
Proof.
  intros He T Hc. unfold job_new_drive. apply swp_bind. unfold sbd_mbd_link_ready, gets at 1, swp at 1.
  rewrite (proj2 (Z.leb_le _ _) Hc). cbn [negb]. apply for_jobs_reports; [|done|done].
  intros id s1 Hc1 Hid _. by apply drive_reply_reports.
Qed.

(** ** Finishes *)

Definition finish_due (e : senv) (c : sbd_conf) (j : sbd_job) : bool :=
  negb (pid_acked j =? 0) && negb (exit_status_valid j =? 0) && (resend_sec c <=? s_now e - finish_last_send j).

Definition finish_msg (e : senv) (c : sbd_conf) (j : sbd_job) : sbd_out :=
  mk_sbd_out BATCH_JOB_FINISH MBD_OK
    (OutFinish (mk_wire_job_finish (sj_job_id j) (finish_state (sj_exit_status j)) (sj_exit_status j) 0)
       (cgroup_job_collect e c (sj_job_id j))).

Definition out_finish (e : senv) (c : sbd_conf) (j : sbd_job) : option sbd_out :=
  if finish_due e c j then Some (finish_msg e c j) else None.

Definition mark_finish (e : senv) (c : sbd_conf) (j : sbd_job) : sbd_job :=
  if finish_due e c j
  then j <| res_usage := cgroup_job_collect e c (sj_job_id j) |> <| finish_last_send := s_now e |> else j.

Lemma drive_finish_reports e id s :
  link_env e -> 0 <= sbd_mbd_chan s -> is_Some (sjobs s !! id) ->
  (forall j, sjobs s !! id = Some j -> job_ok j) ->
  swp (drive_finish e id) (fun _ s' => reports_one (out_finish e) (mark_finish e) id s s') (fun _ _ => False) s.
Proof.
  intros He Hc [j Hj] Hok. unfold drive_finish. apply swp_get_job; [by eexists|]. intros j' Hj'.
  assert (j' = j) as -> by congruence. pose proof (jo_open j (Hok j Hj)) as Ho.
  assert (Hnot : finish_due e (sconf s) j = false -> reports_one (out_finish e) (mark_finish e) id s s).
  { intros Hd. split_and!; [|done|].
    - symmetry. eapply alter_id; [exact Hj|]. unfold mark_finish. by rewrite Hd.
    - unfold reports, out_finish. rewrite Hj, Hd. by rewrite app_nil_r. }
  unfold finish_due in Hnot. destruct (pid_acked j =? 0) eqn:Ha; [by apply Hnot|].
  destruct (exit_status_valid j =? 0) eqn:Hv; [by apply Hnot|]. cbn [negb andb] in Hnot.
  unfold s_assert at 1. rewrite Ho. cbn [Z.eqb]. apply swp_bind. unfold ret at 1, swp at 1.
  apply swp_bind. unfold gets at 1, swp at 1. destruct (Z.ltb_spec (s_now e - finish_last_send j) (resend_sec (sconf s))) as [Hlt|Hge].
  { apply Hnot. by apply Z.leb_gt. }
  assert (Hdue : finish_due e (sconf s) j = true).
  { unfold finish_due. rewrite Ha, Hv. cbn. by apply Z.leb_le. }
  apply swp_bind. unfold sbd_job_finish. apply swp_bind. unfold sbd_mbd_link_ready, gets at 1, swp at 1.
  rewrite (proj2 (Z.leb_le _ _) Hc). cbn [negb]. apply swp_get_job; [by eexists|]. intros j1 Hj1.
  assert (j1 = j) as -> by congruence. unfold s_assert. rewrite Ha, Hv, Ho. cbn [negb Z.eqb].
  do 3 (apply swp_bind; unfold ret at 1, swp at 1). apply swp_bind. unfold gets at 1, swp at 1.
  apply swp_bind. unfold upd_sjob at 1, modify at 1, swp at 1. eapply swp_mono; [by apply send_ok| |done].
  cbv beta. intros ok s1 (-> & T & (F1 & F2 & F3 & F4) & O). cbn [negb]. unfold upd_sjob, modify, swp.
  split_and!; [|by split_and!|].
  - cbn in T |- *. rewrite T. apply (alter_twice _ _ _ _ _ j Hj).
    unfold mark_finish. by rewrite Hdue.
  - cbn in O |- *. rewrite O. unfold reports, out_finish. by rewrite Hj, Hdue.
Qed.

Lemma finish_drive_reports e s :
  link_env e -> table_ok s -> 0 <= sbd_mbd_chan s ->
  swp (job_finish_drive e)
    (fun _ s' => sjobs s' = mark_finish e (sconf s) <$> sjobs s /\ same_frame s s' /\
                 soutbox s' = soutbox s ++ flat_map (reports (out_finish e) s) (sbd_job_list s))
    (fun _ _ => False) s.
Proof.
  intros He T Hc. unfold job_finish_drive. apply swp_bind. unfold sbd_mbd_link_ready, gets at 1, swp at 1.
  rewrite (proj2 (Z.leb_le _ _) Hc). cbn [negb]. apply for_jobs_reports; [|done|done].
  intros id s1 Hc1 Hid Hok. by apply drive_finish_reports.
Qed.

(** ** Handlers that send nothing *)

Definition mute {A} (m : sM A) : Prop :=
  forall s, swp m (fun _ s' => soutbox s' = soutbox s /\ sbd_mbd_chan s' = sbd_mbd_chan s) (fun _ _ => True) s.

Lemma mute_ret {A} (a : A) : mute (ret a).
Proof. by intros s. Qed.

Lemma mute_gets {A} (f : sbd -> A) : mute (gets f).
Proof. by intros s. Qed.

Lemma mute_sys_call e c : mute (sys_call e c).
Proof. by intros s. Qed.

Lemma mute_get_job id : mute (get_job id).
Proof. intros s. unfold swp, get_job. by destruct (sjobs s !! id). Qed.

Lemma mute_upd_sjob id f : mute (upd_sjob id f).
Proof. by intros s. Qed.

Lemma mute_fatal {A} c : mute (@sbd_fatal A c).
Proof. by intros s. Qed.

Lemma mute_bind {A B} (m : sM A) (k : A -> sM B) : mute m -> (forall a, mute (k a)) -> mute (sbind m k).
Proof.
  intros Hm Hk s. apply swp_bind. eapply swp_mono; [apply Hm| |done]. cbv beta. intros a s1 [H1 H2].
  eapply swp_mono; [apply Hk| |done]. cbv beta. intros b s2 [K1 K2]. split; congruence.
Qed.

Lemma mute_iter {A} (f : A -> sM unit) l : (forall x, mute (f x)) -> mute (s_iter f l).
Proof. intros Hf. induction l as [|x l IH]; cbn; [apply mute_ret|]. by apply mute_bind. Qed.

Create HintDb sbd_mute.
#[export] Hint Resolve mute_ret mute_gets mute_sys_call mute_get_job mute_upd_sjob mute_fatal : sbd_mute.

Ltac mute :=
  repeat first
    [ solve [auto with sbd_mute]
    | solve [intros ?; done]
    | apply mute_bind; [|intros ?]
    | apply mute_iter; intros ?
    | case_match ].

Lemma mute_find_by_pid l pid : mute (find_by_pid l pid).
Proof. induction l as [|id l IH]; cbn; mute. Qed.

Lemma mute_reap e : mute (sbd_reap_children e).
Proof.
  apply mute_iter. intros [pid st]. unfold reap_one, sbd_find_job_by_pid, s_assert.
  pose proof mute_find_by_pid. mute.
Qed.

Lemma mute_status_checking e : mute (job_status_checking e).
Proof.
  assert (H1 : forall j, mute (sbd_pid_alive e j)) by (intros j; unfold sbd_pid_alive; mute).
  assert (H2 : forall id, mute (job_terminate_check e id)).
  { intros id. unfold job_terminate_check, cgroup_job_kill, cg_write, sys_ok. mute. }
  unfold job_status_checking, for_jobs. apply mute_bind; [apply mute_gets|]. intros l. apply mute_iter.
  intros id. unfold check_job, s_assert. mute.
Qed.

Lemma mute_prune_try e : mute (sbd_prune_jobs_try e).
Proof. unfold sbd_prune_jobs_try. mute. Qed.

(** ** One tick of the timer *)

(** The state after a handler that cannot end the process. *)
Lemma swp_run {A} (m : sM A) Q s : swp m Q (fun _ _ => False) s -> exists a s', m s = (Ret a, s') /\ Q a s'.
Proof. unfold swp. destruct (m s) as [[a|c] s']; [eauto|done]. Qed.

Lemma swp_run2 {A} (m : sM A) Q1 E1 Q2 s :
  swp m Q1 E1 s -> swp m Q2 (fun _ _ => False) s -> exists a s', m s = (Ret a, s') /\ Q1 a s' /\ Q2 a s'.
Proof. unfold swp. destruct (m s) as [[a|c] s']; [eauto|done]. Qed.

Lemma keeps_run {A} (m : sM A) s :
  good s -> keeps (fun _ _ => False) m -> mute m ->
  exists a s', m s = (Ret a, s') /\ good s' /\ core_le s s' /\
               soutbox s' = soutbox s /\ sbd_mbd_chan s' = sbd_mbd_chan s.
Proof.
  intros G Hk Hm. pose proof (swp_and _ _ _ _ _ _ (Hk s G) (Hm s)) as H. unfold swp in H.
  destruct (m s) as [[a|c] s']; [|by destruct H as [[[] _] _]]. destruct H as [[? ?] [? ?]]. eauto 10.
Qed.

Lemma reports_marked e s s' l :
  sjobs s' = mark_reply e (sconf s) <$> sjobs s -> sconf s' = sconf s ->
  flat_map (reports (out_finish e) s') l = flat_map (reports (out_finish e) s) l.
Proof.
  intros T Hc. induction l as [|id l IH]; [done|]. cbn [flat_map]. f_equal; [|exact IH].
  unfold reports. rewrite T, Hc, lookup_fmap. destruct (sjobs s !! id) as [j|]; [|done]. cbn.
  unfold mark_reply. by destruct (reply_due e (sconf s) j).
Qed.

(** The phases of a tick with the link up, and the table after each. *)
Record tick (e : senv) (s s1 s2 s3 s4 s' : sbd) : Prop := mk_tick {
  tk_reap : sbd_reap_children e s = (Ret tt, s1);
  tk_checks : job_status_checking e s3 = (Ret tt, s4);
  tk_run : timer_maintenance e s = (Ret tt, s');
  tk_good : good s';
  tk_core : core_le s s';
  tk_core1 : core_le s s1;
  tk_replies : sjobs s2 = mark_reply e (sconf s) <$> sjobs s1;
  tk_finishes : sjobs s3 = mark_finish e (sconf s) <$> sjobs s2;
  tk_last : sjobs s' = sjobs s4;
  tk_chan : sbd_mbd_chan s' = sbd_mbd_chan s;
  tk_out : soutbox s' = soutbox s ++ flat_map (reports (out_reply e) s1) (sbd_job_list s) ++
                                     flat_map (reports (out_finish e) s1) (sbd_job_list s)
}.

Lemma timer_phases e s :
  senv_ok e -> link_env e -> good s -> 0 <= sbd_mbd_chan s ->
  exists s1 s2 s3 s4 s', tick e s s1 s2 s3 s4 s'.
Proof.
  intros He Hl G Hc.
  destruct (keeps_run _ s G (keeps_reap _ e He) (mute_reap e)) as ([] & s1 & R1 & G1 & L1 & O1 & C1).
  assert (R2 : mbd_reconnect_try e s1 = (Ret tt, s1)).
  { unfold mbd_reconnect_try, sbind, gets. rewrite C1, (proj2 (Z.leb_le _ _) Hc). done. }
  destruct (swp_run2 _ _ _ _ _ (keeps_new_drive e s1 G1)
    (new_drive_reports e s1 Hl (g_table s1 G1) ltac:(by rewrite C1)))
    as ([] & s2 & R3 & (G2 & L2) & T2 & (F2a & F2b & F2c & F2d) & O2).
  destruct (swp_run2 _ _ _ _ _ (keeps_finish_drive e s2 G2)
    (finish_drive_reports e s2 Hl (g_table s2 G2) ltac:(by rewrite F2d, C1)))
    as ([] & s3 & R4 & (G3 & L3) & T3 & (F3a & F3b & F3c & F3d) & O3).
  destruct (keeps_run _ s3 G3 (keeps_status_checking _ e) (mute_status_checking e)) as ([] & s4 & R5 & G4 & L4 & O4 & C4).
  destruct (keeps_run _ s4 G4 (keeps_quiet _ _ (quiet_prune_try e)) (mute_prune_try e)) as ([] & s5 & R6 & G5 & L5 & O5 & C5).
  pose proof (quiet_prune_try e s4) as Q. unfold swp in Q. rewrite R6 in Q.
  exists s1, s2, s3, s4, s5. split; try done.
  - unfold timer_maintenance, sbind. by rewrite R1, R2, R3, R4, R5, R6.
  - by do 4 (eapply core_le_trans; [eassumption|]).
  - by rewrite T2, (proj1 L1).
  - by rewrite T3, F2b, (proj1 L1).
  - apply Q.
  - by rewrite C5, C4, F3d, F2d, C1.
  - rewrite O5, O4, O3, O2, O1, F2a, (reports_marked e s1 s2) by done.
    by rewrite (proj1 (proj2 L1)), app_assoc.
Qed.

(** ** Starting a job is always answered *)

Lemma mute_unlink e p : mute (unlink e p).
Proof. unfold unlink, sys_ok. mute. Qed.

Lemma mute_all_ok e cs : mute (all_ok e cs).
Proof. induction cs as [|c cs IH]; cbn; mute. Qed.

Lemma mute_fsync_dir e p : mute (fsync_dir e p).
Proof. unfold fsync_dir, sys_ok. mute. Qed.
#[export] Hint Resolve mute_unlink mute_all_ok mute_fsync_dir : sbd_mute.

Lemma mute_store_file e tmp path text extra : mute (store_file e tmp path text extra).
Proof. unfold store_file. mute. Qed.
#[export] Hint Resolve mute_store_file : sbd_mute.

Lemma mute_state_write e j : mute (sbd_job_state_write e j).
Proof. unfold sbd_job_state_write. mute. Qed.

Lemma mute_script_write e j t : mute (sbd_job_script_write e j t).
Proof. unfold sbd_job_script_write. mute. Qed.

Lemma mute_file_remove e id : mute (sbd_job_file_remove e id).
Proof. unfold sbd_job_file_remove. mute. Qed.

Lemma mute_state_remove e id : mute (sbd_job_state_remove e id).
Proof. unfold sbd_job_state_remove. mute. Qed.
#[export] Hint Resolve mute_state_write mute_script_write mute_file_remove mute_state_remove : sbd_mute.

Lemma mute_make_job_dir e j : mute (make_job_dir e j).
Proof. unfold make_job_dir. mute. Qed.

Lemma mute_make_state_dir e j : mute (make_state_dir e j).
Proof. unfold make_state_dir. mute. Qed.

Lemma mute_spawn e j : mute (spawn_job e j).
Proof. unfold spawn_job, cgroup_job_create, cg_write, sys_ok. mute. Qed.

Lemma mute_create e ws wf : mute (sbd_job_create e ws wf).
Proof. unfold sbd_job_create, sys_ok, s_assert. mute. Qed.

Lemma mute_insert e j : mute (sbd_job_insert e j).
Proof. unfold sbd_job_insert, sys_ok. mute. Qed.
#[export] Hint Resolve mute_make_job_dir mute_make_state_dir mute_spawn mute_create mute_insert : sbd_mute.

Definition refusal (id err : Z) : sbd_out :=
  mk_sbd_out BATCH_NEW_JOB_REPLY err (OutReply (mk_wire_job_reply id 0 0 (job_state_num JOB_PENDING))).

(** One message about [id] is queued: the pid of the job or a refusal. *)
Definition answered (id : Z) (s s' : sbd) : Prop :=
  (exists j, sj_job_id j = id /\ 0 < sj_pid j /\ soutbox s' = soutbox s ++ [reply_msg j] /\
             exists j', sjobs s' !! id = Some j' /\ same_core j j') \/
  (exists err, soutbox s' = soutbox s ++ [refusal id err]).

Lemma refuse_answers e id err s0 s (cleanup : sM unit) :
  link_env e -> 0 <= sbd_mbd_chan s -> soutbox s = soutbox s0 -> mute cleanup ->
  swp (let! _ := sbd_job_new_reply_err e id err in cleanup) (fun _ s' => answered id s0 s') (fun _ _ => True) s.
Proof.
  intros He Hc Ho Hm. apply swp_bind. unfold sbd_job_new_reply_err.
  eapply swp_mono; [by apply send_ok| |by intros]. cbv beta. intros ok s1 (_ & _ & _ & O1).
  eapply swp_mono; [apply Hm| |done]. cbv beta. intros _ s2 [O2 _]. right. exists err. by rewrite O2, O1, Ho.
Qed.

(** The rule for a part that the invariant does not see and that sends nothing. *)
Lemma swp_silent {A B} (m : sM A) (k : A -> sM B) Q (E : sbd_end -> sbd -> Prop) s0 s P :
  swp m (fun a s' => calm s s' /\ P a) (fun _ _ => False) s -> mute m ->
  calm s0 s -> soutbox s = soutbox s0 -> sbd_mbd_chan s = sbd_mbd_chan s0 ->
  (forall a s', P a -> calm s0 s' -> soutbox s' = soutbox s0 -> sbd_mbd_chan s' = sbd_mbd_chan s0 ->
     swp (k a) Q E s') ->
  swp (sbind m k) Q E s.
Proof.
  intros Hq Hm C O Ch Hk. apply swp_bind. eapply swp_mono; [apply swp_and; [exact Hq|apply Hm]| |by intros ? ? [[] _]].
  cbv beta. intros a s' [[C' Pa] [O' Ch']]. apply Hk; [done|by eapply calm_trans|congruence|congruence].
Qed.

Lemma calm_also {A} (m : sM A) s :
  swp m (fun _ s' => calm s s') (fun _ _ => False) s -> swp m (fun _ s' => calm s s' /\ True) (fun _ _ => False) s.
Proof. intros H. eapply swp_mono; [exact H|by intros|done]. Qed.

Lemma insert_answers e j s0 s :
  senv_ok e -> link_env e -> good s0 -> 0 <= sbd_mbd_chan s0 -> sjobs s0 !! sj_job_id j = None -> job_ok j ->
  calm s0 s -> soutbox s = soutbox s0 -> sbd_mbd_chan s = sbd_mbd_chan s0 ->
  swp (let! _ := sbd_job_insert e j in
       let! ok := sbd_job_state_write e j in
       if negb ok then sbd_fatal SBD_FATAL_STORAGE
       else
         let! ok := sbd_job_new_reply e j in
         if negb ok then ret tt
         else upd_sjob (sj_job_id j) (fun j => j <| reply_last_send := s_now e |>))
    (fun _ s' => answered (sj_job_id j) s0 s') (fun _ _ => True) s.
Proof.
  intros He Hl G Hc Hn O C Ho Hch. pose proof C as (C1 & C2 & C3 & C4). apply swp_bind.
  unfold sbd_job_insert. apply swp_bind. unfold gets at 1, swp at 1. rewrite C1, Hn.
  unfold sys_ok. do 2 apply swp_bind. unfold sys_call, swp at 1. rewrite (eo_hash e He).
  unfold ret at 1, swp at 1. cbn [Z.eqb]. unfold modify, swp at 1. cbn [upd]. apply swp_bind.
  eapply swp_mono; [apply swp_and; [apply state_write_swp; [cbn; rewrite C3; apply G|apply O]|apply mute_state_write]| |by intros].
  cbv beta. intros ok s1 [[[(W1 & _) _] _] [O1 Ch1]]. cbn in W1, O1, Ch1. destruct ok; cbn [negb]; [|done].
  apply swp_bind. unfold sbd_job_new_reply. apply swp_bind. unfold sbd_mbd_link_ready, gets at 1, swp at 1.
  assert (Hr : 0 <= sbd_mbd_chan s1) by congruence. rewrite (proj2 (Z.leb_le _ _) Hr). cbn [negb].
  eapply swp_mono; [by apply send_ok| |by intros]. cbv beta. intros ok s2 (-> & T2 & _ & O2). cbn [negb].
  unfold upd_sjob, modify, swp. left. exists j. split_and!; [done|apply O|cbn; by rewrite O2, O1, Ho|].
  cbn. rewrite T2, W1, lookup_alter_eq, lookup_insert_eq. cbn. eexists. split; [done|]. done.
Qed.

Lemma start_answers e ws wf s :
  senv_ok e -> link_env e -> good s -> 0 <= sbd_mbd_chan s ->
  sjobs s !! ws_job_id ws = None -> start_ok ws wf = true ->
  swp (sbd_job_new e (Some (ws, wf))) (fun _ s' => answered (ws_job_id ws) s s') (fun _ _ => True) s.
Proof.
  intros He Hl G Hc Hn Hok. unfold sbd_job_new, sbd_job_find. apply swp_bind. unfold gets at 1, swp at 1. rewrite Hn.
  eapply swp_silent; [by apply create_swp|apply mute_create|apply calm_refl|done|done|].
  intros made s1 Hmade C1 O1 K1. destruct Hmade as [->| ->].
  { apply refuse_answers; [done|congruence|done|mute]. }
  eapply swp_silent; [apply calm_also, quiet_make_job_dir|mute|done..|]. intros [err|] s2 _ C2 O2 K2.
  { apply refuse_answers; [done|congruence|done|mute]. }
  eapply swp_silent; [apply calm_also, quiet_make_state_dir|mute|done..|]. intros [err|] s3 _ C3 O3 K3.
  { apply refuse_answers; [done|congruence|done|mute]. }
  eapply swp_silent; [apply calm_also, quiet_script_write; rewrite (proj1 (proj2 (proj2 C3))); apply G|mute|done..|].
  intros [err|] s4 _ C4 O4 K4.
  { apply refuse_answers; [done|congruence|done|mute]. }
  eapply swp_silent; [by apply spawn_swp|mute|done..|]. intros r s5 Hj C5 O5 K5. destruct r as [err|j].
  { apply refuse_answers; [done|congruence|done|mute]. }
  destruct (Hj j eq_refl) as (pid & Hp & Hi & Ej).
  assert (Hid : ws_job_id ws = sj_job_id j) by by rewrite Ej.
  rewrite Hid in Hn |- *. apply insert_answers; try done. rewrite Ej. by apply spawned_ok.
Qed.

(** ** A known job is not started again *)

Lemma known_start e ws wf s j :
  link_env e -> 0 <= sbd_mbd_chan s -> sjobs s !! ws_job_id ws = Some j ->
  exists s' r1 r2, sbd_job_new e (Some (ws, wf)) s = (Ret tt, s') /\ sjobs s' = sjobs s /\ same_frame s s' /\
    soutbox s' = soutbox s ++ [reply_msg j] /\ strace s' = strace s ++ [(SysSign, r1); (SysEnqueue, r2)].
Proof.
  intros Hl Hc Hj. unfold sbd_job_new, sbd_job_find, sbd_job_new_reply, sbd_send_msg, sys_ok, sbd_mbd_link_ready,
    gets, modify, sbind, sys_call, ret. rewrite Hj. cbn. rewrite (proj2 (Z.leb_le _ _) Hc). cbn.
  rewrite (proj1 (Hl _)). cbn. rewrite (proj2 (Hl _)). cbn. rewrite (proj2 (Z.leb_le _ _) Hc). cbn.
  eexists _, _, _. split_and!; try done. cbn. by rewrite <- app_assoc.
Qed.

(** ** The deadline of a job *)

Lemma deadline_warns e id s j :
  sjobs s !! id = Some j -> job_ok j ->
  exists s', job_terminate_check e id s = (Ret tt, s') /\
    (s' = s \/
     (exists r, strace s' = strace s ++ [(SysKillpg (sj_pgid j) SIGUSR2, r)]) /\
     exists j', sjobs s' !! id = Some j' /\ terminate_time j' = 0 /\ same_core j j').
Proof.
  intros Hj O. unfold job_terminate_check, sbind, get_job. rewrite Hj.
  destruct (Z.leb_spec (terminate_time j) 0) as [|Ht]; [by exists s; split; [|left]|].
  destruct (negb (exit_status_valid j =? 0)); [by exists s; split; [|left]|].
  rewrite (jo_grace j O Ht). cbn [Z.eqb Z.ltb Z.compare]. rewrite andb_true_r.
  destruct (terminate_time j <=? s_now e); [|by exists s; split; [|left]].
  unfold sys_call, upd_sjob, modify. eexists. split; [done|]. right. split; [by eexists|].
  eexists. cbn. rewrite lookup_alter_eq, Hj. cbn. done.
Qed.
