(* ===== verification/SbdProps.v ===== *)
(** * Properties of the execution daemon

    The theorems about sbd with instances on a small run: a job is started, its pid
    acknowledged, it exits, and its finish is reported. *)

From S2P Require Import Prelude CString LlConf LlHash Dependency LogFormat MbdTypes MbdBase MbdJob MbdSched MbdNet MbdDemo.
From S2P Require Import SbdTypes SbdStore SbdState SbdJob SbdMain SbdChild SbdInv SbdSafe SbdLife SbdRestart SbdRun SbdDaemon SbdSend.

Open Scope string_scope.
Open Scope list_scope.
Open Scope Z_scope.

(** ** A small run *)

Definition sdemo_conf : sbd_conf := mk_sbd_conf "/ll/sbd/node1/jobs" "/ll/sbd/node1/state" 900 1 1 1 EmptyString "/cg".

Definition sdemo_env (t : Z) (ch : list (Z * Z)) : senv :=
  mk_senv t (fun c _ => match c with SysFork _ => 4242 | SysConnect => 3 | SysForkPruner => 77 | _ => 0 end)
    ch (fun _ => None) "node1" 0.

Definition sdemo_start : wire_job_start :=
  mk_wire_job_start 101 1001 1001 "sim" "normal" "alice" "node1 2" 0 0 2 100 EmptyString EmptyString.

Definition sdemo_files : wire_job_files :=
  mk_wire_job_files 18 "/home/alice" "/work/alice" "./sim" EmptyString "out.%J" EmptyString "#!/bin/sh".

(** Connected, with no job. *)
Definition sdemo0 : sbd := (sbd_boot sdemo_conf ∅ []) <| sbd_mbd_chan := 3 |>.

(** Started; the pid acknowledged; exited; reported. *)
Definition sdemo1 : sbd := (sbd_mbd_route (sdemo_env 100 []) (LinkMsg (RNewJob (Some (sdemo_start, sdemo_files)))) sdemo0).2.
Definition sdemo_ack : mbd_arrival := LinkMsg (RNewJobReplyAck (Some (mk_wire_job_ack 101 BATCH_NEW_JOB_REPLY))).
Definition sdemo2 : sbd := (sbd_mbd_route (sdemo_env 101 []) sdemo_ack sdemo1).2.
Definition sdemo3 : sbd := (timer_maintenance (sdemo_env 102 [(4242, 0)]) sdemo2).2.
Definition sdemo_fin : wire_job_ack := mk_wire_job_ack 101 BATCH_JOB_FINISH.
Definition sdemo4 : sbd := (sbd_mbd_route (sdemo_env 103 []) (LinkMsg (RJobFinishAck (Some sdemo_fin))) sdemo3).2.

Lemma good_empty c tr chan : conf_ok c -> good ((sbd_boot c ∅ tr) <| sbd_mbd_chan := chan |>).
Proof.
  intros Hc. split; [done| | | |].
  - split; cbn; [|apply NoDup_nil_2|by intros|by intros].
    intros id. rewrite lookup_empty. split; [by intros ?%not_elem_of_nil|by intros []].
  - intros nm text. unfold state_at. cbn. by rewrite lookup_empty.
  - cbn. intros id j. by rewrite lookup_empty.
  - intros id d (D & _). unfold state_at in D. cbn in D. by rewrite lookup_empty in D.
Qed.

Lemma sdemo_conf_ok : conf_ok sdemo_conf.
Proof. exists "/ll/sbd/node1". split_and!; [done|done|]. apply Nat.ltb_lt. by vm_compute. Qed.

Lemma sdemo_env_ok t ch : is_i64 t = true -> forallb (fun x => is_i32 x.2) ch = true -> senv_ok (sdemo_env t ch).
Proof.
  intros Ht Hc. split; [done..|]. intros pid st Hin. rewrite forallb_forall in Hc.
  apply (Hc (pid, st)). by apply list_elem_of_In.
Qed.

Lemma sdemo_link t ch : link_env (sdemo_env t ch).
Proof. by split. Qed.

Lemma sdemo_start_ok : start_ok sdemo_start sdemo_files = true.
Proof. by vm_compute. Qed.

Lemma run_pair {A} (m : sM A) s a : (m s).1 = Ret a -> m s = (Ret a, (m s).2).
Proof. intros <-. by destruct (m s). Qed.

Lemma option_bool {A} (o : option A) : match o with Some _ => true | None => false end = true -> is_Some o.
Proof. destruct o; [by eexists|done]. Qed.

Lemma sdemo_step_message e a s s' :
  senv_ok e -> good s -> arrival_ok s a -> (sbd_mbd_route e a s).1 = Ret tt -> s' = (sbd_mbd_route e a s).2 -> good s'.
Proof.
  intros He G Ha Hr ->. apply (step_good s); [|done]. eapply step_message; [exact He|exact Ha|by apply run_pair].
Qed.

Lemma sdemo_step_timer e s s' :
  senv_ok e -> good s -> (timer_maintenance e s).1 = Ret tt -> s' = (timer_maintenance e s).2 -> good s'.
Proof. intros He G Hr ->. apply (step_good s); [|done]. eapply step_timer; [exact He|by apply run_pair]. Qed.

Lemma sdemo0_good : good sdemo0.
Proof. apply good_empty, sdemo_conf_ok. Qed.

Lemma sdemo1_good : good sdemo1.
Proof.
  eapply (sdemo_step_message _ (LinkMsg (RNewJob (Some (sdemo_start, sdemo_files))))); [by apply (sdemo_env_ok 100 [])|apply sdemo0_good| | |reflexivity].
  - intros _. apply sdemo_start_ok.
  - by vm_compute.
Qed.

Lemma sdemo2_good : good sdemo2.
Proof.
  eapply (sdemo_step_message _ sdemo_ack); [by apply (sdemo_env_ok 101 [])|apply sdemo1_good|exact I| |reflexivity]. by vm_compute.
Qed.

Lemma sdemo3_good : good sdemo3.
Proof.
  eapply (sdemo_step_timer (sdemo_env 102 [(4242, 0)]) sdemo2);
    [by apply sdemo_env_ok|apply sdemo2_good| |reflexivity]. by vm_compute.
Qed.

Lemma sdemo3_finish_ok : finish_ack_ok sdemo3 sdemo_fin.
Proof.
  split; [done|]. intros j Hj. assert (H : exit_status_valid <$> (sjobs sdemo3 !! 101) = Some 1) by by vm_compute.
  change (ack_job_id sdemo_fin) with 101 in Hj. rewrite Hj in H. cbn in H. apply (inj Some) in H. by rewrite H.
Qed.

(** ** State files *)

(** C29: the state file of a job round trips: read into a zeroed record, what
    [sbd_job_state_write] writes gives back the job's id, pid, group, user, home and
    working directory, flags, times and exit status; the file fits the 4K buffer and
    every line the reader's 512 bytes.  The job must fit its C types, its texts hold no
    line end and be at most 500 characters long. *)
Theorem sbd_state_file_roundtrip j0 d :
  state_fits d = true ->
  (String.length (state_text d) < LL_BUFSIZ_4K)%nat /\
  sbd_job_state_read j0 (Some (state_text d)) = Some (reload j0 d).
Proof. intros Hd. split; [by apply state_text_length|by apply state_read_written]. Qed.

Lemma sbd_state_file_roundtrip_witness :
  sbd_job_state_read sbd_job_zero (Some (state_text (sbd_job_of sdemo_start sdemo_files))) =
  Some (reload sbd_job_zero (sbd_job_of sdemo_start sdemo_files)).
Proof. apply (sbd_state_file_roundtrip sbd_job_zero (sbd_job_of sdemo_start sdemo_files)). by vm_compute. Defined.

(** ** Life of the daemon *)

Lemma sdemo2_listing : listing (sconf sdemo2) (files sdemo2) ["."; ".."; "101"].
Proof.
  intros id text Ht. destruct (g_disk sdemo2 sdemo2_good (print_int id) text Ht) as (d & Hp & Htext & F & _).
  assert (Hk : print_int id = "101").
  { assert (Hm : forallb (fun kv => String.eqb kv.1 "/ll/sbd/node1/jobs/101/job.sh" || String.eqb kv.1 "/ll/sbd/node1/state/101/state")
                   (map_to_list (files sdemo2)) = true) by by vm_compute.
    rewrite forallb_forall in Hm. unfold state_at in Ht.
    specialize (Hm (state_path_in (sconf sdemo2) (print_int id), text)).
    rewrite <- list_elem_of_In, elem_of_map_to_list in Hm. specialize (Hm Ht). cbn [fst] in Hm.
    change (sconf sdemo2) with (sconf sdemo2) in Hm.
    assert (Hcf : sconf sdemo2 = sdemo_conf) by by vm_compute. rewrite Hcf in Hm.
    apply orb_prop in Hm as [Hm|Hm]; apply String.eqb_eq in Hm; [discriminate Hm|].
    change "/ll/sbd/node1/state/101/state" with (state_path_in sdemo_conf "101") in Hm. by apply state_path_inj in Hm. }
  rewrite Hk. right. right. left.
Qed.



(** From a good state, a timer tick or a message of mbd never fails an
    assertion, dereferences NULL or finds its invariant violated.  It returns, or it
    ends the process because a file operation failed or a report could not be queued,
    and then every job it knew is still on disk. *)
Theorem sbd_handlers_safe e a s :
  senv_ok e -> good s -> arrival_ok s a ->
  swp (timer_maintenance e) (fun _ s' => good s' /\ core_le s s')
      (fun c s' => (c = SBD_FATAL_STORAGE /\ file_failed s') /\ crash_ok s s') s /\
  swp (sbd_mbd_route e a) (fun _ s' => good s' /\ sconf s' = sconf s /\ still_known s a s')
      (fun c s' => ((c = SBD_FATAL_STORAGE /\ file_failed s') \/ c = SBD_FATAL_ENQUEUE) /\ crash_ok s s') s.
Proof. intros He G Ha. split; [by apply keeps_timer|by apply route_swp]. Qed.

(** The main loop alone, from any good state. *)
Theorem sbd_loop_safe `{QSort} timer_chan rounds s :
  good s -> rounds_ok timer_chan rounds s ->
  swp (sbd_loop timer_chan rounds) (fun _ s' => good s' /\ rtc sbd_step s s')
    (fun c s' => ((c = SBD_FATAL_STORAGE /\ file_failed s') \/ c = SBD_FATAL_ENQUEUE) /\
                 exists s1, rtc sbd_step s s1 /\ good s1 /\ crash_ok s1 s') s.
Proof. intros G Hok. exact (loop_steps timer_chan rounds s s G (rtc_refl _ _) Hok). Qed.

Lemma outcome_any {A} (P : sbd -> Prop) (r : outcome A * sbd) :
  (forall s, P s) -> match r with (Ret _, s') => P s' | (Exit _, _) => True end.
Proof. by destruct r as [[] ?]. Qed.


(** A restart while the job of the run above is not yet reported; then a tick and SIGTERM. *)
Definition sdemo_ll_conf : string :=
  foldr (fun a b => a +:+ String newline b) EmptyString
    ["LL_STATE_DIR=/ll"; "LL_MBD_HOST=head"; "LL_CGROUP_ROOT=/cg"; "LL_SBD_JOB_FINISH_RETAIN=1"].

Definition sdemo_ie : sbd_init_env :=
  mk_sbd_init_env (Some "/etc/ll")
    (fun path => if String.eqb path "/etc/ll/ll.conf" then Some (mk_text_file sdemo_ll_conf false) else None)
    (fun _ => true) true (Some (replicate 32 7)) 0 true true (fun _ => Some (None, "10.0.0.9"))
    (mk_sbd_net_answers (fun _ => 1) true true (fun _ => 2) true) (fun _ => true) (Some ["."; ".."; "101"]) (sdemo_env 200 []).

Definition sdemo_opts : sbd_opts := mk_sbd_opts None None 1 1.

Definition sdemo_tick : list sbd_round :=
  [mk_sbd_round false false 0 (sdemo_env 201 []) (Some [mk_epoll_ev 2 true LinkNothing (sdemo_env 201 [])]);
   mk_sbd_round true false 0 (sdemo_env 202 []) None].

Lemma sdemo_tick_ok timer s : rounds_ok timer sdemo_tick s.
Proof.
  split; [by apply sdemo_env_ok|]. split.
  - apply (outcome_any (events_ok timer [mk_epoll_ev 2 true LinkNothing (sdemo_env 201 [])])). intros s1.
    split; [by apply sdemo_env_ok|]. split; [exact I|]. by apply (outcome_any (events_ok timer [])).
  - by apply (outcome_any (rounds_ok timer [mk_sbd_round true false 0 (sdemo_env 202 []) None])).
Qed.

Definition sdemo_params : list ll_kv :=
  match ll_init (si_strdup sdemo_ie) (si_conf_dir sdemo_ie) (si_files sdemo_ie) (ll_params, false) with
  | Some (ps, _) => ps
  | None => []
  end.




(** ** Reports *)

(** With the link up, a tick of the timer returns and queues exactly the reports
    that are due, in list order: a reply with the pid for every job mbd has not
    acknowledged and was not told of in the last resend period, and a finish with the
    exit status for every job whose pid is acknowledged, whose exit is known (the
    children just reaped included) and whose finish was not sent in that period.  A
    report is thus repeated until mbd acknowledges it. *)
Theorem sbd_timer_reports_due e s :
  senv_ok e -> link_env e -> good s -> 0 <= sbd_mbd_chan s ->
  exists s1 s', sbd_reap_children e s = (Ret tt, s1) /\ timer_maintenance e s = (Ret tt, s') /\ good s' /\
    soutbox s' = soutbox s ++ flat_map (reports (out_reply e) s1) (sbd_job_list s) ++
                              flat_map (reports (out_finish e) s1) (sbd_job_list s).
Proof.
  intros He Hl G Hc. destruct (timer_phases e s He Hl G Hc) as (s1 & s2 & s3 & s4 & s' & [R1 _ R G' _ _ _ _ _ _ O]). eauto 10.
Qed.

Lemma sbd_timer_reports_due_witness :
  exists s1 s', sbd_reap_children (sdemo_env 102 [(4242, 0)]) sdemo2 = (Ret tt, s1) /\
    timer_maintenance (sdemo_env 102 [(4242, 0)]) sdemo2 = (Ret tt, s') /\ good s' /\
    soutbox s' = soutbox sdemo2 ++ flat_map (reports (out_reply (sdemo_env 102 [(4242, 0)])) s1) (sbd_job_list sdemo2) ++
                                   flat_map (reports (out_finish (sdemo_env 102 [(4242, 0)])) s1) (sbd_job_list sdemo2).
Proof.
  apply (sbd_timer_reports_due (sdemo_env 102 [(4242, 0)]) sdemo2).
  - by apply sdemo_env_ok.
  - apply sdemo_link.
  - apply sdemo2_good.
  - apply Z.leb_le. by vm_compute.
Defined.

(** In the run the finish of the job is what is queued. *)
Example sdemo3_sent :
  soutbox sdemo3 = [reply_msg (sbd_job_zero <| sj_job_id := 101 |> <| sj_pid := 4242 |> <| sj_pgid := 4242 |>);
                    mk_sbd_out BATCH_JOB_FINISH MBD_OK (OutFinish (mk_wire_job_finish 101 JOB_SUCCESS 0 0) (mk_job_res_usage 0 0 0))].
Proof. by vm_compute. Qed.

(** ** Start and end of a job *)

(** C25: a request to start a job the daemon does not know is answered with one
    message.  Either the job is in the table with a positive pid and the message
    carries that pid, or the message is a refusal, which sends the job back to the
    pending list of mbd.  No other job is lost, and the daemon is in a good state,
    unless a file operation failed after the fork and the process ended. *)
Theorem sbd_start_answered e ws wf s :
  senv_ok e -> link_env e -> good s -> 0 <= sbd_mbd_chan s ->
  sjobs s !! ws_job_id ws = None -> start_ok ws wf = true ->
  swp (sbd_job_new e (Some (ws, wf)))
    (fun _ s' => good s' /\ grown s (ws_job_id ws) s' /\ answered (ws_job_id ws) s s')
    (fun c s' => c = SBD_FATAL_STORAGE /\ file_failed s' /\ crash_ok s s') s.
Proof.
  intros He Hl G Hc Hn Hok.
  eapply swp_mono; [apply swp_and; [apply grows_job_new|apply start_answers]|..]; try done; cbv beta.
  - intros _ s' [[G' Gr] A]. done.
  - intros c s' [[[-> Hf] Hcr] _]. done.
Qed.

Lemma sbd_start_answered_witness :
  swp (sbd_job_new (sdemo_env 100 []) (Some (sdemo_start, sdemo_files)))
    (fun _ s' => good s' /\ grown sdemo0 101 s' /\ answered 101 sdemo0 s')
    (fun c s' => c = SBD_FATAL_STORAGE /\ file_failed s' /\ crash_ok sdemo0 s') sdemo0.
Proof.
  apply (sbd_start_answered (sdemo_env 100 []) sdemo_start sdemo_files sdemo0).
  - by apply sdemo_env_ok.
  - apply sdemo_link.
  - apply sdemo0_good.
  - apply Z.leb_le. by vm_compute.
  - by vm_compute.
  - apply sdemo_start_ok.
Defined.

(** A repeated request to start a job the daemon knows forks nothing: the only
    calls are the signing and the queueing of one reply with the pid the job already
    has, and no job changes. *)
Theorem sbd_duplicate_start_no_fork e ws wf s j :
  link_env e -> 0 <= sbd_mbd_chan s -> sjobs s !! ws_job_id ws = Some j ->
  exists s' r1 r2, sbd_job_new e (Some (ws, wf)) s = (Ret tt, s') /\ sjobs s' = sjobs s /\ same_frame s s' /\
    soutbox s' = soutbox s ++ [reply_msg j] /\ strace s' = strace s ++ [(SysSign, r1); (SysEnqueue, r2)].
Proof. apply known_start. Qed.

Lemma sbd_duplicate_start_no_fork_witness :
  exists j s' r1 r2, sbd_job_new (sdemo_env 105 []) (Some (sdemo_start, sdemo_files)) sdemo1 = (Ret tt, s') /\
    sjobs s' = sjobs sdemo1 /\ same_frame sdemo1 s' /\ soutbox s' = soutbox sdemo1 ++ [reply_msg j] /\
    strace s' = strace sdemo1 ++ [(SysSign, r1); (SysEnqueue, r2)].
Proof.
  assert (is_Some (sjobs sdemo1 !! ws_job_id sdemo_start)) as [j Hj] by (apply option_bool; by vm_compute).
  exists j. apply (sbd_duplicate_start_no_fork (sdemo_env 105 []) sdemo_start sdemo_files sdemo1 j).
  - apply sdemo_link.
  - apply Z.leb_le. by vm_compute.
  - exact Hj.
Defined.

(** The acknowledgement of a finish removes exactly that job from the table and
    the list, leaves its state file marked as acknowledged so that no restart brings
    it back, and keeps the daemon in a good state; if the state cannot be written the
    process ends with every job still on disk. *)
Theorem sbd_finish_ack_removes e a s :
  senv_ok e -> good s -> finish_ack_ok s a ->
  swp (sbd_job_finish_ack e (Some a))
    (fun _ s' => good s' /\ sconf s' = sconf s /\ sjobs s' = delete (ack_job_id a) (sjobs s))
    (fun c s' => (c = SBD_FATAL_STORAGE /\ file_failed s') /\ crash_ok s s') s.
Proof. apply finish_ack_swp. Qed.

Lemma sbd_finish_ack_removes_witness :
  swp (sbd_job_finish_ack (sdemo_env 103 []) (Some sdemo_fin))
    (fun _ s' => good s' /\ sconf s' = sconf sdemo3 /\ sjobs s' = delete 101 (sjobs sdemo3))
    (fun c s' => (c = SBD_FATAL_STORAGE /\ file_failed s') /\ crash_ok sdemo3 s') sdemo3.
Proof.
  apply (sbd_finish_ack_removes (sdemo_env 103 []) sdemo_fin sdemo3).
  - by apply sdemo_env_ok.
  - apply sdemo3_good.
  - apply sdemo3_finish_ok.
Defined.

(** ** Pruning *)

(** The pruner changes no job in memory and keeps the daemon in a good state, so
    it removes no state file of an unfinished job; of the acknowledged entries it
    scanned it removes the oldest and keeps as many as the configuration says. *)
Theorem sbd_prune_keeps_recent `{QSort} e names s :
  good s ->
  swp (sbd_prune_jobs e names) (fun _ s' => good s' /\ core_le s s') (fun _ _ => False) s /\
  forall l, let entries := prune_scan (sconf s) (files s) l [] in
  exists retained, prune_victims (sconf s) entries ++ retained ≡ₚ entries /\
    (num_jobs_retain (sconf s) < Z.of_nat (length entries) -> 0 <= num_jobs_retain (sconf s) ->
     Z.of_nat (length retained) = num_jobs_retain (sconf s)) /\
    (forall x y, x ∈ prune_victims (sconf s) entries -> y ∈ retained -> x.2 <= y.2).
Proof.
  intros G. split.
  - eapply swp_mono; [by apply (kept_prune e names s)|done|by intros c s' []].
  - intros l. apply prune_split.
Qed.

Lemma sbd_prune_keeps_recent_witness :
  swp (sbd_prune_jobs (sdemo_env 200 []) (Some ["101"])) (fun _ s' => good s' /\ core_le sdemo2 s') (fun _ _ => False) sdemo2.
Proof. apply (sbd_prune_keeps_recent (sdemo_env 200 []) (Some ["101"]) sdemo2). apply sdemo2_good. Defined.

(** ** The child *)

(** C24: the process that becomes the job touches no path of the user as root: every
    change of directory, open, redirection and exec it makes is made with the uid and
    the gid of the job, and a child that reaches the job script runs it as them. *)
Theorem child_drops_privileges e c j p :
  ch_log p = [] ->
  Forall (entry_ok j) (ch_log (child_exec_job e c j p).2) /\
  ((child_exec_job e c j p).1 = Some tt ->
   ch_uid (child_exec_job e c j p).2 = sj_uid j /\ ch_gid (child_exec_job e c j p).2 = sj_gid j).
Proof.
  intros Hp. assert (Hl : log_ok j p) by (unfold log_ok; rewrite Hp; constructor).
  pose proof (child_exec_ok e c j p Hl) as H. unfold cwp in H.
  destruct (child_exec_job e c j p) as [[[]|] p']; [by destruct H as [? []]|done].
Qed.

Lemma child_drops_privileges_witness :
  Forall (entry_ok (sbd_job_of sdemo_start sdemo_files))
    (ch_log (child_exec_job (mk_cenv (fun _ _ => true) 4242 "node1" "/etc/ll") sdemo_conf
               (sbd_job_of sdemo_start sdemo_files) (mk_child 0 0 63 "/" ∅ ∅ [])).2).
Proof.
  apply (child_drops_privileges (mk_cenv (fun _ _ => true) 4242 "node1" "/etc/ll") sdemo_conf
    (sbd_job_of sdemo_start sdemo_files) (mk_child 0 0 63 "/" ∅ ∅ [])). reflexivity.
Defined.

(** The expansion of a stream path never writes past its buffer and is complete:
    for a buffer that is not empty it yields the template with every %J and %I
    replaced by the job id, exactly when that text and its NUL fit. *)
Theorem expand_stdio_path_exact id tmpl outsz :
  expand_stdio_path id tmpl outsz =
  if (String.length (expand_spec id tmpl) <? outsz)%nat then Some (expand_spec id tmpl) else None.
Proof.
  unfold expand_stdio_path. destruct outsz as [|n]; [done|]. cbn [Nat.eqb]. by rewrite expand_from_spec.
Qed.

(** ** The deadline *)


