(* ===== verification/SbdFindings.v ===== *)
(** * Behaviours of the execution daemon that its code does not intend

    Concrete runs: the code of an exit file taken for a wait status, and a state file
    whose reader does not see the job its writer wrote. *)

From S2P Require Import Prelude CString LlHash Dependency LogFormat MbdTypes MbdBase MbdJob MbdSched MbdNet.
From S2P Require Import SbdTypes SbdStore SbdState SbdJob SbdMain SbdInv SbdSafe SbdLife SbdRestart SbdRun SbdSend SbdProps.

Open Scope string_scope.
Open Scope list_scope.
Open Scope Z_scope.

(** ** Exit codes *)

(** The daemon is restarted while the job runs; the job then exits with code 128, which
    its script leaves in the exit file, and its process group is gone. *)
Definition gone_env (t : Z) : senv :=
  mk_senv t (fun c _ => match c with SysConnect => 3 | SysForkPruner => 77 | SysKill _ _ => ESRCH | _ => 0 end)
    [] (fun _ => None) "node1" 0.

Definition restarted_sbd : sbd :=
  (sbd_start (sdemo_env 200 []) (Some ["101"]) (sbd_boot (sconf sdemo2) (files sdemo2) [])).2.

Definition exited_128 : sbd :=
  restarted_sbd <| files ::= <["/ll/sbd/node1/jobs/101/exit" := "128 300"]> |>.

(** Two ticks: the first reads the exit file, the second reports. *)
Definition reported_128 : sbd :=
  (timer_maintenance (gone_env 302) (timer_maintenance (gone_env 301) exited_128).2).2.

(** ** State files *)

Fixpoint letters (n : nat) : string :=
  match n with O => EmptyString | S n' => String "a" (letters n') end.

(** A working directory whose line in the state file is longer than the buffer of the
    reader, and whose second part reads as a key. *)
Definition long_cwd : string := "/" +:+ letters 501 +:+ "finish_acked=1".

Definition long_files : wire_job_files :=
  mk_wire_job_files 18 "/home/alice" long_cwd "./sim" EmptyString "out.%J" EmptyString "#!/bin/sh".

Definition long_started : sbd :=
  (sbd_mbd_route (sdemo_env 100 []) (LinkMsg (RNewJob (Some (sdemo_start, long_files)))) sdemo0).2.

Definition long_restarted : sbd :=
  (sbd_start (sdemo_env 200 []) (Some ["101"]) (sbd_boot (sconf long_started) (files long_started) [])).2.

(** Two ways in which what sbd stores is not what it reads.  The code in an exit
    file is stored as if it were a status of waitpid, so a job that exits with code 128
    after a restart of the daemon is reported to mbd as successful.  And a working
    directory of more than 502 characters spills over the line buffer of the reader of
    state files, where its rest is read as a key: with a directory that ends in
    finish_acked=1 the job runs and is in the table, but after a restart the daemon has
    forgotten it. *)
Theorem sbd_state_misread :
  (soutbox reported_128 =
     soutbox exited_128 ++
     [mk_sbd_out BATCH_JOB_FINISH MBD_OK (OutFinish (mk_wire_job_finish 101 JOB_SUCCESS 128 0) (mk_job_res_usage 0 0 0))]) /\
  (sj_user_cwd <$> sjobs long_started !! 101) = Some long_cwd /\
  (sj_pid <$> sjobs long_started !! 101) = Some 4242 /\
  sjobs long_restarted !! 101 = None.
Proof. split_and!; by vm_compute. Qed.
