(* ===== verification/System.v ===== *)
(** * mbd and an execution daemon together

    The end of a job as both daemons see it: sbd repeats its report until mbd
    acknowledges it, mbd records the end of the job and acknowledges, sbd forgets the
    job.  Messages may be lost any number of times before they arrive. *)

From S2P Require Import Prelude CString LlHash Dependency LogFormat MbdTypes MbdBase MbdJob MbdSched MbdNet.
From S2P Require Import MbdInv MbdFrame MbdCheck MbdSafe MbdControl MbdSubmit MbdPlan MbdSchedSafe MbdRun MbdDemo.
From S2P Require Import SbdTypes SbdStore SbdState SbdJob SbdMain SbdInv SbdSafe SbdLife SbdRestart SbdRun SbdSend SbdProps.

Open Scope string_scope.
Open Scope list_scope.
Open Scope Z_scope.

(** ** Messages on the wire *)

(** What mbd makes of a message on the channel of an execution daemon. *)
Definition to_mbd (m : sbd_out) : sbd_msg :=
  match so_body m with
  | OutReply r => SNewJobReply r
  | OutFinish f _ => SJobFinish f
  | OutSig sg => SSignalReply sg (so_status m)
  | OutState id _ => SJobMissing id
  | OutRegister _ => SOther
  end.

(** What sbd makes of a message of mbd; [wf] is what mbd adds to a start from the
    job's files. *)
Definition to_sbd (wf : wire_job_files) (m : msg) : mbd_msg :=
  match m_op m, m_body m with
  | BATCH_NEW_JOB, BodyStart ws => RNewJob (Some (ws, wf))
  | BATCH_NEW_JOB_REPLY_ACK, BodyAck a => RNewJobReplyAck (Some a)
  | BATCH_JOB_FINISH_ACK, BodyAck a => RJobFinishAck (Some a)
  | BATCH_SBD_JOB_SIGNAL, BodySig sg => RJobSignal (Some sg)
  | BATCH_SBD_REGISTER_ACK, BodyRegister l => RRegisterAck (Some l)
  | _, _ => RUnknown
  end.

(** ** mbd: the report is recorded and acknowledged *)

(** A handler that signs and queues without failure. *)
Definition acks_work (e : env) : Prop := (forall k, sign_ok e k = true) /\ (forall k c, enq_ok e k c = true).

Lemma send_ack_sends e chan op id of_op w :
  acks_work e ->
  exists w', send_ack e chan op id of_op w = (w', true) /\ jobs w' = jobs w /\
    outbox w' = outbox w ++ [mk_msg chan op MBD_OK (BodyAck (mk_wire_job_ack id of_op))].
Proof.
  intros [Hs Hq]. unfold send_ack, auth_sign_header, enqueue_payload. rewrite Hs. cbn. rewrite Hq. eauto.
Qed.

(** What a handler leaves of the jobs and the messages of [w]. *)
Definition same_jobs (w w' : mbd) : Prop := jobs w' = jobs w /\ outbox w' = outbox w.

Lemma each_host_same f hs w w' : each_host f hs w = Ok w' -> same_jobs w w'.
Proof.
  unfold each_host. revert w. induction hs as [|h hs IH]; intros w Hw; cbn in Hw; [by injection Hw as <-|].
  inv_res. by apply IH in Hw as [? ?].
Qed.

Lemma reset_same j w w' : reset_host_resources j w = Ok w' -> same_jobs w w'.
Proof. unfold reset_host_resources. intros. inv_res. by eapply each_host_same. Qed.

Lemma token_same j w : same_jobs w (token_pool_release j w).
Proof.
  unfold token_pool_release. assert (H : forall l v, same_jobs w v ->
    same_jobs w (foldl (fun w t => pool_add (tok_name t) (tok_count t) w) v l)); [|by apply H].
  induction l as [|t l IH]; intros v Hv; [done|]. apply IH. unfold pool_add. by destruct (_ !! _).
Qed.

Lemma queue_same j f w w' : upd_job_queue j f w = Ok w' -> same_jobs w w'.
Proof. intros (q & _ & _ & ->)%upd_job_queue_Ok. done. Qed.

Lemma log_same ev w w' : log_append ev w = Ok w' -> same_jobs w w'.
Proof. unfold log_append. intros. by inv_res. Qed.

Lemma same_jobs_trans w1 w2 w3 : same_jobs w1 w2 -> same_jobs w2 w3 -> same_jobs w1 w3.
Proof. intros [? ?] [? ?]. split; congruence. Qed.

(** The job after a finish report, and nothing queued. *)
Definition ended (id st code : Z) (w w' : mbd) : Prop :=
  outbox w' = outbox w /\
  exists j', jobs w' !! id = Some j' /\ 0 < end_time j' /\ list_id j' = JOB_LIST_FINISH /\
    exit_status j' = code /\ state j' = (if st =? 0 then JOB_DONE else JOB_EXITED).

Lemma move_ended id st code w w' :
  outbox w' = outbox w ->
  (exists j', jobs w' !! id = Some j' /\ 0 < end_time j' /\ exit_status j' = code /\
     state j' = (if st =? 0 then JOB_DONE else JOB_EXITED)) ->
  forall w'', job_move_list id JOB_LIST_RUN JOB_LIST_FINISH w' = Ok w'' -> ended id st code w w''.
Proof.
  intros Ho (j' & Hj & H1 & H2 & H3) w'' (r & _ & ->)%job_move_list_Ok.
  split; [done|]. unfold job_set_list, upd_job. cbn. rewrite lookup_alter_eq, Hj. cbn. by eexists.
Qed.

Lemma array_ended id st code j w w' : ended id st code w w' -> ended id st code w (job_array_element_finished j w').
Proof.
  intros (Ho & j' & Hj & H). unfold job_array_element_finished. destruct (array_id j =? 0); [by split; [|eauto]|].
  destruct (job_find w' (array_id j)); [|by split; [|eauto]]. split; [done|].
  unfold upd_job. cbn. destruct (decide (array_id j = id)) as [->|].
  - rewrite lookup_alter_eq, Hj. cbn. by eexists.
  - rewrite lookup_alter_ne by done. eauto.
Qed.

Lemma finish_recorded e n f w w' nn j h hh :
  acks_work e -> 0 < now e -> mbd_job_finish e n f w = Ok w' ->
  hosts w !! n = Some nn -> jobs w !! fin_job_id f = Some j ->
  run_host j 0 = Ok h -> hosts w !! h = Some hh -> h_name hh = h_name nn -> end_time j <= 0 ->
  outbox w' = outbox w ++ [mk_msg (sbd_chan nn) BATCH_JOB_FINISH_ACK MBD_OK
                             (BodyAck (mk_wire_job_ack (fin_job_id f) BATCH_JOB_FINISH))] /\
  exists j', jobs w' !! fin_job_id f = Some j' /\ 0 < end_time j' /\ list_id j' = JOB_LIST_FINISH /\
    exit_status j' = fin_exit_status f /\ state j' = (if fin_state f =? 0 then JOB_DONE else JOB_EXITED).
Proof.
  intros He Hnow Hok Hn Hj Hh Hhh Hname Hend. unfold mbd_job_finish, job_find in Hok.
  unfold nth_res in Hok at 1. rewrite Hn in Hok. cbn [res_bind] in Hok. rewrite Hj, Hh in Hok. cbn [res_bind] in Hok.
  unfold nth_res in Hok at 1. rewrite Hhh in Hok. cbn [res_bind] in Hok.
  rewrite Hname, String.eqb_refl in Hok. cbn [negb] in Hok. rewrite (proj2 (Z.ltb_ge 0 (end_time j)) Hend) in Hok.
  destruct (c_assert _) as [[]|]; [|done]. cbn [res_bind] in Hok.
  destruct (send_ack_sends e (sbd_chan nn) BATCH_JOB_FINISH_ACK (fin_job_id f) BATCH_JOB_FINISH w He)
    as (w1 & Hack & J1 & O1). rewrite Hack in Hok. cbn [negb] in Hok.
  inv_res. apply reset_same in Hr as [J2 O2]. apply queue_same in Hr0 as [J3 O3].
  destruct (token_same j r) as [J4 O4].
  eapply (move_ended (fin_job_id f) (fin_state f) (fin_exit_status f) r0) in Hr1; [|done|].
  2: { unfold upd_job. cbn. rewrite lookup_alter_eq, J3, J4, J2, J1, Hj. cbn. by eexists. }
  apply (array_ended _ _ _ j) in Hr1 as (O5 & Hend'). apply log_same in Hr2 as [J6 O6].
  split; [by rewrite O6, O5, O3, O4, O2|]. by rewrite J6.
Qed.

(** A repeated report is acknowledged again and changes nothing else. *)
Lemma finish_repeated e n f w w' nn j h hh :
  acks_work e -> mbd_job_finish e n f w = Ok w' ->
  hosts w !! n = Some nn -> jobs w !! fin_job_id f = Some j ->
  run_host j 0 = Ok h -> hosts w !! h = Some hh -> h_name hh = h_name nn -> 0 < end_time j ->
  outbox w' = outbox w ++ [mk_msg (sbd_chan nn) BATCH_JOB_FINISH_ACK MBD_OK
                             (BodyAck (mk_wire_job_ack (fin_job_id f) BATCH_JOB_FINISH))] /\
  jobs w' = jobs w.
Proof.
  intros He Hok Hn Hj Hh Hhh Hname Hend. unfold mbd_job_finish, job_find in Hok.
  unfold nth_res in Hok at 1. rewrite Hn in Hok. cbn [res_bind] in Hok. rewrite Hj, Hh in Hok. cbn [res_bind] in Hok.
  unfold nth_res in Hok at 1. rewrite Hhh in Hok. cbn [res_bind] in Hok.
  rewrite Hname, String.eqb_refl in Hok. cbn [negb] in Hok. rewrite (proj2 (Z.ltb_lt 0 (end_time j)) Hend) in Hok.
  cbn [orb c_assert res_bind] in Hok. destruct (send_ack_sends e (sbd_chan nn) BATCH_JOB_FINISH_ACK (fin_job_id f) BATCH_JOB_FINISH w He)
    as (w1 & Hack & J1 & O1). rewrite Hack in Hok. cbn [negb] in Hok. by injection Hok as <-.
Qed.

(** mbd listens to the daemon of host [n] on its channel, and the first host of the
    job is that host; the job has no GPUs to give back. *)
Record assigned (w : mbd) (n : nat) (id : Z) (nn : mbd_host) (j : job_data) : Prop := mk_assigned {
  as_inv : inv w;
  as_host : hosts w !! n = Some nn;
  as_chan : sbd_chan_hash w !! sbd_chan nn = Some n;
  as_job : jobs w !! id = Some j;
  as_dispatched : dispatched w id;
  as_first : exists h hh, run_host j 0 = Ok h /\ hosts w !! h = Some hh /\ h_name hh = h_name nn;
  as_gpus : num_gpus (rsrc j) <= 0
}.

(** The end of the job as mbd knows it after the report [f]. *)
Definition end_known (f : wire_job_finish) (j : job_data) (w' : mbd) : Prop :=
  exists j', jobs w' !! fin_job_id f = Some j' /\ 0 < end_time j' /\
    (end_time j <= 0 -> list_id j' = JOB_LIST_FINISH /\ exit_status j' = fin_exit_status f /\
       state j' = (if fin_state f =? 0 then JOB_DONE else JOB_EXITED)).

Lemma report_received e n f w nn j ac hdr :
  acks_work e -> 0 < now e -> assigned w n (fin_job_id f) nn j ->
  exists w', mbd_message e (sbd_chan nn) ac (GoodMessage hdr (SJobFinish f)) w = Ok w' /\ inv w' /\
    outbox w' = outbox w ++ [mk_msg (sbd_chan nn) BATCH_JOB_FINISH_ACK MBD_OK
                               (BodyAck (mk_wire_job_ack (fin_job_id f) BATCH_JOB_FINISH))] /\
    end_known f j w'.
Proof.
  intros He Hnow [HI Hn Hch Hj Hd (h & hh & Hh & Hhh & Hname) Hg].
  assert (Hlt : (n < length (hosts w))%nat) by by eapply lookup_lt_Some.
  destruct (wp_total (mbd_job_finish e n f w) (fun w' => MbdSafe.kept w w' /\ finished_by e f w w')) as (w' & Hw & [HI' _] & _).
  { eapply wp_mono; [by apply mbd_job_finish_wp|done|]. intros [Hx|(j1 & Hj1 & Hx)]; [done|].
    assert (j1 = j) as -> by congruence. lia. }
  exists w'. split.
  { unfold mbd_message. rewrite Hch. unfold nth_res. rewrite Hn. cbn. by rewrite Z.eqb_refl. }
  split; [done|]. destruct (Z.ltb_spec 0 (end_time j)) as [Hend|Hend].
  - destruct (finish_repeated e n f w w' nn j h hh) as [Ho HJ]; try done. split; [done|].
    exists j. rewrite HJ. split_and!; [done|done|lia].
  - destruct (finish_recorded e n f w w' nn j h hh) as (Ho & j' & Hj' & ? & ? & ? & ?); try done.
    split; [done|]. exists j'. by split_and!.
Qed.

(** ** sbd: the report is repeated *)

(** A handler that leaves the record of [id] as it is. *)
Definition spares {A} (id : Z) (m : sM A) : Prop :=
  forall s, swp m (fun _ s' => sjobs s' !! id = sjobs s !! id) (fun _ _ => True) s.

Lemma spares_bind {A B} id (m : sM A) (k : A -> sM B) :
  spares id m -> (forall a, spares id (k a)) -> spares id (sbind m k).
Proof.
  intros Hm Hk s. apply swp_bind. eapply swp_mono; [apply Hm| |done]. cbv beta. intros a s1 H1.
  eapply swp_mono; [apply Hk| |done]. cbv beta. intros b s2 H2. congruence.
Qed.

Lemma spares_quiet {A} id (m : sM A) : quiet m -> spares id m.
Proof. intros Hm s. eapply swp_mono; [apply Hm| |done]. cbv beta. by intros a s' (-> & _). Qed.

Lemma spares_get_job id i : spares id (get_job i).
Proof. intros s. unfold swp, get_job. by destruct (sjobs s !! i). Qed.

Lemma spares_fatal {A} id c : spares id (@sbd_fatal A c).
Proof. by intros s. Qed.

Lemma spares_update id i f : i <> id -> spares id (upd_sjob i f).
Proof. intros Hne s. unfold swp, upd_sjob, modify. cbn. by rewrite lookup_alter_ne. Qed.

Ltac spares :=
  repeat first
    [ solve [apply spares_update; done]
    | solve [apply spares_quiet; quiet]
    | apply spares_get_job
    | apply spares_fatal
    | apply spares_bind; [|intros ?]
    | case_match ].

(** A child that is not the job. *)
Lemma spares_reap_one e ch id j s :
  sjobs s !! id = Some j -> ch.1 <> sj_pid j ->
  (forall i, i ∈ sbd_job_list s -> is_Some (sjobs s !! i)) ->
  swp (reap_one e ch) (fun _ s' => sjobs s' !! id = Some j /\ sbd_job_list s' = sbd_job_list s /\
     forall i, i ∈ sbd_job_list s' -> is_Some (sjobs s' !! i)) (fun _ _ => True) s.
Proof.
  intros Hj Hp Hall. destruct ch as [pid st]. cbn in Hp. unfold reap_one. apply swp_bind. unfold gets at 1, swp at 1.
  destruct (pid =? pruner_pid s); [done|]. apply swp_bind. unfold sbd_find_job_by_pid. apply swp_bind.
  unfold gets at 1, swp at 1. eapply swp_mono; [by apply find_by_pid_swp| |by intros]. cbv beta.
  intros r s1 [-> Hr]. destruct r as [i|]; [|done]. destruct (Hr i eq_refl) as (k & Hk & Hkp).
  apply swp_get_job; [by eexists|]. intros k' Hk'. apply swp_bind. unfold s_assert.
  destruct (sj_pid k' =? pid); [|done]. unfold ret, swp at 1. unfold upd_sjob, modify, swp. cbn.
  split_and!; [|done|].
  - rewrite lookup_alter_ne; [done|]. intros ->. congruence.
  - intros i' Hi'. destruct (decide (i' = i)) as [->|]; [by rewrite lookup_alter_eq, fmap_is_Some, Hk|].
    rewrite lookup_alter_ne by done. by apply Hall.
Qed.

Lemma spares_reap e id j s :
  good s -> sjobs s !! id = Some j -> Forall (fun ch => ch.1 <> sj_pid j) (children e) ->
  swp (sbd_reap_children e) (fun _ s' => sjobs s' !! id = Some j) (fun _ _ => True) s.
Proof.
  intros G Hj Hch. unfold sbd_reap_children.
  eapply swp_mono; [apply (swp_iter _ (fun l s' => Forall (fun ch => ch.1 <> sj_pid j) l /\ sjobs s' !! id = Some j /\
    forall i, i ∈ sbd_job_list s' -> is_Some (sjobs s' !! i)) (fun _ _ => True))|by intros _ s' (_ & ? & _)|done].
  - split_and!; [done|done|]. intros i. apply (to_dom s (g_table s G)).
  - intros ch l s1 (F & Hj1 & Hall). apply Forall_cons in F as [Hp F].
    eapply swp_mono; [by apply spares_reap_one| |done]. cbv beta. intros _ s2 (? & _ & ?). done.
Qed.

(** A job whose exit is known is not checked again. *)
Lemma spares_checks e id j s :
  sjobs s !! id = Some j -> exit_status_valid j <> 0 ->
  swp (job_status_checking e) (fun _ s' => sjobs s' !! id = Some j) (fun _ _ => True) s.
Proof.
  intros Hj Hv. unfold job_status_checking.
  apply (swp_for_jobs _ (fun _ s' => sjobs s' !! id = Some j)); [done|].
  intros i l s1 Hj1. destruct (decide (i = id)) as [->|Hne].
  - unfold check_job. apply swp_get_job; [by eexists|]. intros j' Hj'. assert (j' = j) as -> by congruence.
    rewrite (proj2 (Z.eqb_neq _ _) Hv). done.
  - assert (H : spares id (check_job e i)).
    { assert (Ht : spares id (job_terminate_check e i)) by (unfold job_terminate_check; spares).
      unfold check_job, s_assert. apply spares_bind; [apply spares_get_job|]. intros k. destruct (negb _); [spares|].
      apply spares_bind; [spares|]. intros _. destruct (_ =? 0); [spares|]. apply spares_bind; [exact Ht|].
      intros _. spares. }
    eapply swp_mono; [apply H| |done]. cbv beta. intros _ s2 ->. done.
Qed.

(** A job whose end mbd has not acknowledged, as it was or as it was last reported. *)
Definition unreported (j0 : sbd_job) (since : Z) (j : sbd_job) : Prop :=
  same_core j0 j /\ pid_acked j <> 0 /\ exit_status_valid j <> 0 /\
  sj_exit_status j = sj_exit_status j0 /\ finish_last_send j <= since.

(** The environments of a row of ticks in which the link works and no child of the
    pid [pid] exits (the job has exited already). *)
Definition tick_env (pid : Z) (e : senv) : Prop :=
  senv_ok e /\ link_env e /\ Forall (fun ch => ch.1 <> pid) (children e).

Lemma mark_finish_unreported e c j0 since j :
  unreported j0 since j -> s_now e <= since -> unreported j0 since (mark_finish e c j).
Proof.
  intros (H1 & H2 & H3 & H4 & H5) Hs. unfold mark_finish. by destruct (finish_due e c j).
Qed.

Lemma tick_unreported e s j0 since id j :
  good s -> 0 <= sbd_mbd_chan s -> tick_env (sj_pid j0) e -> s_now e <= since ->
  sjobs s !! id = Some j -> unreported j0 since j ->
  exists s', timer_maintenance e s = (Ret tt, s') /\ good s' /\ sbd_mbd_chan s' = sbd_mbd_chan s /\
    sconf s' = sconf s /\ sjobs s' !! id = Some (mark_finish e (sconf s) j) /\
    (finish_due e (sconf s) j = true -> finish_msg e (sconf s) j ∈ soutbox s').
Proof.
  intros G Hc (He & Hl & Hch) Hs Hj U. pose proof U as (Hcore & Ha & Hv & _ & _).
  destruct (timer_phases e s He Hl G Hc) as (s1 & s2 & s3 & s4 & s' & [R1 R5 R G' C C1 T2 T3 T5 Hch' O]).
  assert (Hp : sj_pid j = sj_pid j0) by apply Hcore.
  assert (Hj1 : sjobs s1 !! id = Some j).
  { refine (swp_Ret _ _ _ _ _ _ (spares_reap e id j s G Hj _) R1). by rewrite Hp. }
  assert (Hr : mark_reply e (sconf s) j = j).
  { unfold mark_reply, reply_due. by rewrite (proj2 (Z.eqb_neq _ _) Ha). }
  assert (Hj3 : sjobs s3 !! id = Some (mark_finish e (sconf s) j)).
  { by rewrite T3, T2, !lookup_fmap, Hj1; cbn; rewrite Hr. }
  exists s'. split_and!; [done|done|done|apply C| |].
  - rewrite T5. refine (swp_Ret _ _ _ _ _ _ (spares_checks e id _ s3 Hj3 _) R5).
    unfold mark_finish. by destruct (finish_due _ _ _).
  - intros Hd. rewrite O, !elem_of_app. right. right. apply list_elem_of_In, in_flat_map. exists id. split.
    + apply list_elem_of_In. apply (to_dom s (g_table s G)). by eexists.
    + unfold reports. rewrite (proj1 C1), Hj1. unfold out_finish. rewrite Hd. by left.
Qed.

(** A row of ticks whose reports are all lost. *)
Fixpoint lost_ticks (es : list senv) (s : sbd) : sbd :=
  match es with
  | [] => s
  | e :: es => lost_ticks es ((timer_maintenance e s).2 <| soutbox := [] |>)
  end.

Lemma lost_unreported es j0 since id s :
  good s -> 0 <= sbd_mbd_chan s -> Forall (fun e => tick_env (sj_pid j0) e /\ s_now e <= since) es ->
  (exists j, sjobs s !! id = Some j /\ unreported j0 since j) ->
  let s' := lost_ticks es s in
  good s' /\ 0 <= sbd_mbd_chan s' /\ sconf s' = sconf s /\ exists j, sjobs s' !! id = Some j /\ unreported j0 since j.
Proof.
  revert s. induction es as [|e es IH]; intros s G Hc F (j & Hj & U); [split_and!; eauto|].
  apply Forall_cons in F as [[He Hs] F]. cbn [lost_ticks].
  destruct (tick_unreported e s j0 since id j) as (s1 & R & G1 & C1 & K1 & J1 & _); [done..|].
  rewrite R. cbn [snd].
  destruct (IH (s1 <| soutbox := [] |>)) as (G2 & C2 & K2 & J2); [| |done| |].
  - apply (calm_good s1); [done|]. by apply calm_same.
  - cbn. lia.
  - exists (mark_finish e (sconf s) j). split; [done|]. by apply mark_finish_unreported.
  - split_and!; [done|done| |done]. rewrite K2. cbn. done.
Qed.

(** ** The end of a job *)

(** C6: the end of a job reaches mbd and is forgotten by sbd, however many reports are
    lost.  Let sbd know the exit of a job whose start mbd has acknowledged.  After any
    number of ticks whose reports are all lost, the next tick a resend period later
    queues the finish with the exit status the job had; mbd, on receiving it, records
    the end of the job (or finds it recorded already, when an acknowledgement was what
    was lost), keeps its invariant and acknowledges; and the acknowledgement removes
    the job from sbd, which stays in a good state, or ends it on a storage failure
    with every job on disk. *)
Theorem job_end_reaches_mbd es e em ea s w n nn j jm ac hdr wf since :
  good s -> 0 <= sbd_mbd_chan s -> sjobs s !! sj_job_id j = Some j ->
  pid_acked j <> 0 -> exit_status_valid j <> 0 -> finish_last_send j <= since ->
  Forall (fun e => tick_env (sj_pid j) e /\ s_now e <= since) es ->
  tick_env (sj_pid j) e -> since + resend_sec (sconf s) <= s_now e ->
  acks_work em -> 0 < now em -> assigned w n (sj_job_id j) nn jm -> senv_ok ea ->
  exists s' m f w' a,
    timer_maintenance e (lost_ticks es s) = (Ret tt, s') /\ m ∈ soutbox s' /\ to_mbd m = SJobFinish f /\
    fin_job_id f = sj_job_id j /\ fin_exit_status f = sj_exit_status j /\
    mbd_message em (sbd_chan nn) ac (GoodMessage hdr (to_mbd m)) w = Ok w' /\ inv w' /\
    outbox w' = outbox w ++ [a] /\ m_chan a = sbd_chan nn /\ end_known f jm w' /\
    swp (sbd_mbd_route ea (LinkMsg (to_sbd wf a)))
      (fun _ s'' => good s'' /\ sjobs s'' = delete (sj_job_id j) (sjobs s'))
      (fun c s'' => (c = SBD_FATAL_STORAGE /\ file_failed s'') /\ crash_ok s' s'') s'.
Proof.
  intros G Hc Hj Ha Hv Hlast F He Hdue Hem Hnow Has Hea.
  destruct (lost_unreported es j since (sj_job_id j) s) as (G1 & C1 & K1 & j1 & Hj1 & U1); [done|done|done| |].
  { exists j. by split. }
  destruct (tick_unreported e (lost_ticks es s) j (Z.max since (s_now e)) (sj_job_id j) j1)
    as (s' & R & G2 & C2 & K2 & J2 & Hm); [done|done|done|lia|done| |].
  { destruct U1 as (U1 & U2 & U3 & U4 & U5). split_and!; try done. lia. }
  pose proof U1 as (Hcore & Ha1 & Hv1 & Hx1 & Hl1). pose proof Hcore as (Hid1 & _).
  assert (Hd : finish_due e (sconf (lost_ticks es s)) j1 = true).
  { unfold finish_due. rewrite (proj2 (Z.eqb_neq _ _) Ha1), (proj2 (Z.eqb_neq _ _) Hv1), K1. cbn.
    apply Z.leb_le. lia. }
  set (f := mk_wire_job_finish (sj_job_id j1) (finish_state (sj_exit_status j1)) (sj_exit_status j1) 0).
  assert (Hf : fin_job_id f = sj_job_id j) by done.
  rewrite <- Hf in Has. destruct (report_received em n f w nn jm ac hdr Hem Hnow Has) as (w' & Hw & HI' & Ho & Hk).
  eexists s', (finish_msg e (sconf (lost_ticks es s)) j1), f, w', _.
  split_and!; [done|by apply Hm|done|done|done|exact Hw|done|exact Ho|done|done|].
  cbn [to_sbd m_op m_body sbd_mbd_route].
  eapply swp_mono; [apply finish_ack_swp; [done|done|]| |done].
  - split; [done|]. intros j2 Hj2. cbn in Hj2. rewrite Hid1, J2 in Hj2. injection Hj2 as <-.
    unfold mark_finish. by rewrite Hd.
  - cbv beta. intros _ s3 (G3 & _ & T3). split; [done|]. rewrite T3. cbn. by rewrite Hid1.
Qed.

Lemma demo3_assigned : exists nn jm, sbd_chan nn = 5 /\ assigned demo3 0 101 nn jm.
Proof.
  assert (is_Some (hosts demo3 !! 0%nat)) as [nn Hnn] by (apply option_bool; by vm_compute).
  assert (is_Some (jobs demo3 !! 101)) as [jm Hjm] by (apply option_bool; by vm_compute).
  assert (Hh : (fun nn => (sbd_chan nn, h_name nn)) <$> hosts demo3 !! 0%nat = Some (5, "node1")) by by vm_compute.
  rewrite Hnn in Hh. injection Hh as Hc Hname.
  assert (Hj : (fun j => (run_host j 0, bool_decide (list_id j = JOB_LIST_RUN), num_gpus (rsrc j) <=? 0)) <$> jobs demo3 !! 101
               = Some (Ok 0%nat, true, true)) by by vm_compute.
  rewrite Hjm in Hj. injection Hj as Hr Hl Hg. apply bool_decide_eq_true in Hl. apply Z.leb_le in Hg.
  assert (Hch : sbd_chan_hash demo3 !! 5 = Some 0%nat) by by vm_compute.
  exists nn, jm. split; [exact Hc|]. split; [apply demo_inv3|exact Hnn|rewrite Hc; exact Hch|exact Hjm| | |exact Hg].
  - intros j' Hj'. assert (j' = jm) as -> by congruence. by left.
  - exists 0%nat, nn. split; [exact Hr|]. split; [exact Hnn|reflexivity].
Qed.

Lemma job_end_reaches_mbd_witness :
  exists j jm nn s' m f w' a,
    timer_maintenance (sdemo_env 110 []) (lost_ticks [sdemo_env 103 []; sdemo_env 104 []] sdemo3) = (Ret tt, s') /\
    m ∈ soutbox s' /\ to_mbd m = SJobFinish f /\
    fin_job_id f = sj_job_id j /\ fin_exit_status f = sj_exit_status j /\
    mbd_message demo_env (sbd_chan nn) BadMessage (GoodMessage demo_user (to_mbd m)) demo3 = Ok w' /\ inv w' /\
    outbox w' = outbox demo3 ++ [a] /\ m_chan a = sbd_chan nn /\ end_known f jm w' /\
    swp (sbd_mbd_route (sdemo_env 111 []) (LinkMsg (to_sbd sdemo_files a)))
      (fun _ s'' => good s'' /\ sjobs s'' = delete (sj_job_id j) (sjobs s'))
      (fun c s'' => (c = SBD_FATAL_STORAGE /\ file_failed s'') /\ crash_ok s' s'') s'.
Proof.
  assert (is_Some (sjobs sdemo3 !! 101)) as [j Hj] by (apply option_bool; by vm_compute).
  assert (Hf : (fun j => (sj_job_id j, pid_acked j, exit_status_valid j, finish_last_send j)) <$> sjobs sdemo3 !! 101
               = Some (101, 1, 1, 102)) by by vm_compute.
  rewrite Hj in Hf. injection Hf as H1 H2 H3 H4.
  assert (Ht : forall t, is_i64 t = true -> tick_env (sj_pid j) (sdemo_env t [])).
  { intros t Hi. split_and!; [by apply sdemo_env_ok|apply sdemo_link|by constructor]. }
  destruct demo3_assigned as (nn & jm & _ & Has). exists j, jm, nn.
  apply (job_end_reaches_mbd [sdemo_env 103 []; sdemo_env 104 []] (sdemo_env 110 []) demo_env (sdemo_env 111 [])
    sdemo3 demo3 0 nn j jm BadMessage demo_user sdemo_files 104).
  - apply sdemo3_good.
  - apply Z.leb_le. by vm_compute.
  - by rewrite H1.
  - by rewrite H2.
  - by rewrite H3.
  - by rewrite H4.
  - repeat constructor; try (by apply Ht); apply Z.leb_le; by vm_compute.
  - by apply Ht.
  - apply Z.leb_le. by vm_compute.
  - by split.
  - apply Z.ltb_lt. by vm_compute.
  - by rewrite H1.
  - by apply sdemo_env_ok.
Defined.
